(* ===== verification/_CoqProject ===== *)
-Q . S2P
Prelude.v
LibC.v
Time.v
I8259.v
Port.v
Irq.v
Layout.v
Bitmap.v
MkMfs.v
MkTree.v
MkMain.v
Device.v
Alist.v
Vcache.v
Scache.v
Coherence.v
WriteBack.v
Kstate.v
Mfs.v
KImage.v
Vfs.v
FileIO.v
FileWrite.v
VfsProps.v
KBitmap.v
Tty.v
Segments.v
CcFlags.v
X86.v
X86Seg.v
X86Int.v
X86Ram.v
X86Trap.v
X86Ret.v
X86Ops.v
X86Shift.v
X86Arith.v
PhysMem.v
PhysRam.v
X86Mmu.v
X86Walk.v
X86Page.v
SoftMmu.v
SoftTlb.v
SoftAccess.v
SoftStore.v
X86Modes.v
X86Cr.v
Ps2.v
Pckbd.v
KbdMachine.v
Timer.v
QTimer.v
I8254.v
Rtc.v
ClockMachine.v
Printf.v
Modules.v
Except.v
Hda.v
Ide.v
IdePio.v
HdaIde.v
HdaInit.v
IdeSafe.v
DiskImage.v
I8237.v
DmaMachine.v
Boot.v
QFile.v
Savevm.v
Saved.v
Snapshot.v
Block.v
BlockView.v
Overlay.v
PcPorts.v
IdeInit.v
