(* ===== verification/Prelude.v ===== *)
(** * Micron System V3: a verification development

    ** The program

    The repository holds an i386 kernel and the builder of its disk images
    (src/sysv3/kernel, src/sysv3/mkmfs), and the machine emulator the system is run
    on (src/sysvm, a fork of QEMU).  The parts and how they meet:

    - [mkmfs] packs a host directory into the image of a Micron File System;
    - the emulator serves that image as a hard disk, runs the instructions of a
      32-bit x86 processor, and provides interrupt controllers, interval timer, real
      time clock, keyboard, mouse and DMA controllers behind I/O ports;
    - the kernel boots, sets up descriptor tables, interrupts, console, clock and
      disk through those ports, and offers file calls over a vnode cache and a
      sector cache.

    All code is modelled as functions on explicit state: a record per component, and
    the monad [M] of this file for what reads, changes or faults.  The outcome of an
    operation is [Ok] with a result and a state, or [Err] with a [fault]: a null
    dereference, an access outside an array, a division by zero, a panic, [exit], or
    loops that ran out of fuel ([Diverged]).  Integers are [Z], truncated where the C
    code truncates ([u8] to [u32], [s8] to [s32]).  What meets across components is a
    type class: [PortIO] (Port) between drivers and devices, [Disk] (Coherence)
    between the sector cache and a block driver, [Bus] (X86) between the processor and
    memory, with [Ram] (X86Ram) for memory without paging.  The processor has a monad of
    its own, [X], whose outcomes are those of a helper of the emulator: it returns,
    leaves the execution loop with an exception, or stops the emulator.

    ** The files

    Shared: this file (integers, the monad and its Hoare triples [preserves] and
    [total], arrays with C bounds), LibC (lib/libc.c: strings and [itoa]), Time
    (lib/time.c), Printf (lib/vsprintf.c, the printing of lib/libc.c, [strtime]).

    Image builder: Layout (the structs of mfs.h as bytes), Bitmap and MkMfs
    (mkmfs/mfs.c), MkTree (the directory tree as an invariant of its state), MkMain
    (mkmfs/main.c).

    Kernel, files: Device (driver/device.c), Alist, Vcache, Scache (filesys/vcache.c,
    scache.c), Kstate (the global tables), Mfs (filesys/fs/mfs.c), Vfs (filesys/fs.c,
    mount.c, ofile.c, vfs.c).  Coherence and WriteBack prove the sector cache correct,
    KBitmap the allocation, FileIO reading and FileWrite writing, VfsProps mounting and
    opening, KImage the kernel on the builder's image.

    Kernel, machine: Irq (cpu/irq.c), Tty (cpu/tty.c), Segments (cpu/gdt.c, idt.c),
    Timer (kernel/systimer.c, cpu/clock.c), Modules (lib/module.c), Except (except/),
    Hda (driver/blkdev/hda.c), DmaMachine (cpu/dma.c), Boot (init/).

    Emulator: I8259 (hw/i8259.c), QTimer (timers and [muldiv64] of vl.c), I8254
    (hw/i8254.c), Rtc (hw/mc146818rtc.c), I8237 (hw/dma.c), Ps2 (hw/ps2.c),
    Pckbd (hw/pckbd.c), Ide (hw/ide.c, with IdePio and IdeSafe).  Behind the disk: Block
    (block.c, block-raw.c, block-cow.c), BlockView (the contents of an image) and Overlay
    (the theorems on them), IdeInit (the start of the disk interface on images).  In front
    of the devices: Port (the class), PcPorts (the tables of ports of vl.c and their
    registration by hw/pc.c).  Its processor
    (target-i386): CcFlags (the condition codes of ops_template.h and op.c), X86 (the
    state of cpu.h), X86Seg and X86Int (segments, task switches, interrupts, far
    transfers of helper.c), X86Ops (op.c, opreg_template.h), X86Shift (ops_template.h,
    ops_template_mem.h), with X86Arith for their theorems.  Its memory:
    PhysMem (the physical pages, device callbacks, dirty bytes and the cache of
    translations, exec.c) with PhysRam; X86Mmu (the page walks of helper2.c), X86Walk (a
    specification of translation: [translate], [permitted], [walked]) and X86Page (the
    refinement); SoftMmu (the accesses of softmmu_template.h and softmmu_header.h), SoftTlb
    (the invariant of the cache), SoftAccess and SoftStore; X86Modes (a specification of
    translation in every mode, with 64-bit tables and the A20 line, the refinement by the
    walks and the cache under it) and X86Cr (control registers, A20 and reset, helper2.c
    and hw/pc.c).  Its saved states: QFile (the buffered file of vl.c and what
    it amounts to, bytes at a position), Savevm (the list of entries, the file with their
    records, its loading), Saved (the handlers of the devices and the machine they make up),
    Snapshot (that their handlers agree).  Kernel and
    emulator together: Irq (interrupt controllers), X86Trap and X86Ret (descriptor
    tables, the stubs of isr.s and [iret] on the processor), KbdMachine (keyboard),
    ClockMachine (the clock), HdaIde, HdaInit (the disk),
    DmaMachine (DMA), and DiskImage (builder, emulator and kernel).

    ** The theorems

    - Files: reading returns the bytes of the file as the cache and the disk together
      hold it, writing changes them, is read back, and reaches the disk with [close]; the
      sector cache is coherent and writes back; allocation takes the first free block and agrees with the builder's
      routine; the kernel finds the builder's inodes, over an abstract disk and on the
      emulated machine.
    - Builder: paths resolve to the abstract tree, [mfs_mkdir] and [mfs_write] extend
      it, leave every other path as it was and store the contents; every image [main] writes
      has the boot file, the kernel file and the super block in their places, and a host
      directory that fits is on it, directory by directory and file by file.
    - Machine: sectors written are read back through driver and drive; the
      interrupt controllers never fault and keep their registers in range, nor does the disk
      interface as long as its first drive has an image or no command is written; an interrupt reaches its handler; the drive is detected; the clock driver
      gets the date of the clock chip and programs 100 ticks a second; the second of the
      chip is the second of the kernel's calendar; no edge of the interval timer is
      missed; emulator timers run in order; the console is an abstract screen; keys reach
      the console driver; timers fire at their period.
    - Processor: an interrupt through the kernel's tables builds [struct Register] on the
      stack for every vector, with or without an error code, and [iret] takes the
      interrupted code up with its flags; [gdt_load] makes flat segments; gates refuse
      outer privileges.  The condition codes computed late are those of the operation;
      rotations rotate bit by bit, carry chains are wide arithmetic, division is exact or
      faults, bit scans end, decimal adjustment is decimal but for one case.
    - Memory of the processor: the page fault handler refines the specification of the
      walk; loads through the cache give the bytes at the translated address, stores are
      read back, and in every mode neither control writes, A20 switches, invalidations nor
      walks leave a stale entry; physical memory holds what was written where it was registered.
    - Disk images: an image with an overlay is a disk for any sequence of requests, commit
      merges the two; the interface starts on any pair of images with a geometry that
      fits, and the kernel finds the file system of the file.
    - Ports: an access of the processor reaches the device registered for it, in the
      width the device has.
    - Saved states: what is saved of a machine is restored, entry by entry, by a machine
      that is alike, and entries it does not have are skipped; a file without the magic
      number changes nothing, and a file with a bad record length loops for ever.
    - Library: time conversions are inverse to each other, numbers print as their
      numerals.
    - Errors: the calls that fault or fail on inputs they accept (error theorems) state
      exactly which inputs and what happens; the report of an unhandled exception fits its
      buffers.

    ** Fuel and bounds

    Loops over linked structures and busy waits have a fuel argument.  Theorems that an
    operation returns say how much is enough: the number of list elements for the
    caches and the timer list, one turn per component of a path, one turn for a wait on
    an emulated device, which has raised its interrupt by then.  Loops over integers
    have the number of their iterations as fuel, computed from the bound in the code.

    ** Not modelled

    Assembly other than the interrupt stubs (boot sector, entry to protected mode),
    console messages, and units without operations.  Of the emulator: the instruction
    decoder and code generator, floating point and media instructions, 64-bit and system
    management mode (but for the 64-bit tables of 32-bit code), the cache of translated code, block formats but raw and
    copy-on-write, displays, network, sound, USB, other machines, and the saved
    states of the processor, of memory and of files inside a disk image; it is third-party code, and only the devices the kernel drives and the
    instructions it runs are modelled.  The helpers of the processor are proved over the
    interface [Bus], whose plain instance has no paging; the memory with translation is a
    component beside it, since the page fault it raises is the same outcome.  What
    invalidating translated code does is a parameter ([Devices]).  Memory behind the DMA controllers is plain
    memory, and the host's calls (files, time of day) are arguments.

    ** Plan

    Next: inode allocation; the processor's helpers over translated memory. *)
From stdpp Require Export prelude.
From Stdlib Require Export ZArith Lia.
From Stdlib Require Ascii String.

#[export] Set Default Goal Selector "!".
Open Scope Z_scope.

(** * Machine integers *)

(** Truncation to the unsigned widths of <types.h>, and the two's complement
    reading of the signed ones. *)
Definition u8 (z : Z) : Z := z mod 2 ^ 8.
Definition u16 (z : Z) : Z := z mod 2 ^ 16.
Definition u32 (z : Z) : Z := z mod 2 ^ 32.
Definition s8 (z : Z) : Z := (z + 2 ^ 7) mod 2 ^ 8 - 2 ^ 7.
Definition s16 (z : Z) : Z := (z + 2 ^ 15) mod 2 ^ 16 - 2 ^ 15.
Definition s32 (z : Z) : Z := (z + 2 ^ 31) mod 2 ^ 32 - 2 ^ 31.

#[global] Arguments u8 : simpl never.
#[global] Arguments u16 : simpl never.
#[global] Arguments u32 : simpl never.
#[global] Arguments s8 : simpl never.
#[global] Arguments s16 : simpl never.
#[global] Arguments s32 : simpl never.

Definition is_u8 (z : Z) : Prop := 0 <= z < 2 ^ 8.
Definition is_u16 (z : Z) : Prop := 0 <= z < 2 ^ 16.
Definition is_u32 (z : Z) : Prop := 0 <= z < 2 ^ 32.
Definition is_s32 (z : Z) : Prop := - 2 ^ 31 <= z < 2 ^ 31.

Ltac unfold_int :=
  unfold is_u8, is_u16, is_u32, is_s32, u8, u16, u32, s8, s16, s32 in *.

(** [int_lia]: linear arithmetic over the truncations above. *)
Ltac int_lia := unfold_int; Z.div_mod_to_equations; lia.

Lemma u8_range z : is_u8 (u8 z).
Proof. int_lia. Qed.
Lemma u16_range z : is_u16 (u16 z).
Proof. int_lia. Qed.
Lemma u32_range z : is_u32 (u32 z).
Proof. int_lia. Qed.
Lemma s32_range z : is_s32 (s32 z).
Proof. int_lia. Qed.

Lemma u8_small z : is_u8 z -> u8 z = z.
Proof. int_lia. Qed.
Lemma u16_small z : is_u16 z -> u16 z = z.
Proof. int_lia. Qed.
Lemma u32_small z : is_u32 z -> u32 z = z.
Proof. int_lia. Qed.
Lemma s32_small z : is_s32 z -> s32 z = z.
Proof. int_lia. Qed.

Lemma u32_s32 z : u32 (s32 z) = u32 z.
Proof.
  unfold u32, s32. rewrite Zminus_mod_idemp_l. f_equal. lia.
Qed.
Lemma s32_u32 z : s32 (u32 z) = s32 z.
Proof.
  unfold u32, s32. rewrite Zplus_mod_idemp_l. done.
Qed.
Lemma u32_u32 z : u32 (u32 z) = u32 z.
Proof. unfold u32. by rewrite Zmod_mod. Qed.
Lemma u8_u8 z : u8 (u8 z) = u8 z.
Proof. unfold u8. by rewrite Zmod_mod. Qed.
Lemma u8_land z : Z.land z 0xFF = u8 z.
Proof. change 0xFF with (Z.ones 8). by rewrite Z.land_ones. Qed.
Lemma u16_land z : Z.land z 0xFFFF = u16 z.
Proof. change 0xFFFF with (Z.ones 16). by rewrite Z.land_ones. Qed.

(** Every bit of a byte above bit 7 is clear. *)
Lemma u8_testbit_high z k : is_u8 z -> 8 <= k -> Z.testbit z k = false.
Proof.
  intros Hz Hk. unfold is_u8 in Hz.
  rewrite <- (Z.mod_small z (2 ^ 8)) by lia. apply Z.mod_pow2_bits_high. lia.
Qed.

Lemma u8_eq_bits a b :
  is_u8 a -> is_u8 b -> (forall k, 0 <= k < 8 -> Z.testbit a k = Z.testbit b k) -> a = b.
Proof.
  intros Ha Hb Hk. apply Z.bits_inj'. intros k Hk0.
  destruct (decide (k < 8)).
  - apply Hk. lia.
  - rewrite !u8_testbit_high by (done || lia). done.
Qed.

Lemma u8_land_range a b : is_u8 a -> 0 <= b -> is_u8 (Z.land a b).
Proof.
  intros Ha Hb. assert (Z.land a b = u8 (Z.land a b)) as ->; [|apply u8_range].
  rewrite <- u8_land, <- Z.land_assoc, (Z.land_comm b), Z.land_assoc, u8_land.
  by rewrite u8_small.
Qed.

Lemma u8_lor_range a b : is_u8 a -> is_u8 b -> is_u8 (Z.lor a b).
Proof.
  intros Ha Hb. assert (Z.lor a b = u8 (Z.lor a b)) as ->; [|apply u8_range].
  rewrite <- u8_land, Z.land_lor_distr_l, !u8_land. by rewrite !u8_small.
Qed.

(** Two digits of a number put together. *)
Lemma lor_shiftl_add n a b : 0 <= n -> 0 <= b < 2 ^ n -> Z.lor (Z.shiftl a n) b = a * 2 ^ n + b.
Proof.
  intros Hn Hb. rewrite Z.shiftl_mul_pow2, <- Z.add_lor_land by lia.
  assert (Z.land (a * 2 ^ n) b = 0) as ->; [|lia].
  apply Z.bits_inj'. intros k Hk. rewrite Z.land_spec, Z.bits_0. destruct (decide (k < n)).
  - by rewrite Z.mul_pow2_bits_low by lia.
  - rewrite <- (Z.mod_small b (2 ^ n)) by lia. rewrite Z.mod_pow2_bits_high by lia. apply andb_false_r.
Qed.

(** ** Single bits *)

Lemma shiftl1_testbit k j : 0 <= k -> 0 <= j -> Z.testbit (Z.shiftl 1 k) j = (k =? j).
Proof.
  intros Hk Hj. rewrite Z.shiftl_1_l, Z.pow2_bits_eqb by done. done.
Qed.

Lemma land_bit m k : 0 <= k -> (Z.land m (Z.shiftl 1 k) =? 0) = negb (Z.testbit m k).
Proof.
  intros Hk. destruct (Z.testbit m k) eqn:E; simpl.
  - apply Z.eqb_neq. intros H. apply (f_equal (fun z => Z.testbit z k)) in H.
    rewrite Z.land_spec, shiftl1_testbit, Z.eqb_refl, E, Z.bits_0 in H by done. done.
  - apply Z.eqb_eq. apply Z.bits_inj'. intros j Hj.
    rewrite Z.land_spec, shiftl1_testbit, Z.bits_0 by done.
    destruct (Z.eqb_spec k j) as [<-|]; [by rewrite E|by rewrite andb_false_r].
Qed.

Lemma u8_testbit z j : 0 <= j < 8 -> Z.testbit (u8 z) j = Z.testbit z j.
Proof. intros Hj. unfold u8. apply Z.mod_pow2_bits_low. lia. Qed.

Lemma set_bit_testbit z k j :
  0 <= k < 8 -> 0 <= j < 8 ->
  Z.testbit (u8 (Z.lor z (Z.shiftl 1 k))) j = (k =? j) || Z.testbit z j.
Proof.
  intros Hk Hj. rewrite u8_testbit, Z.lor_spec, shiftl1_testbit by lia. apply orb_comm.
Qed.

Lemma clear_bit_testbit z k j :
  0 <= k < 8 -> 0 <= j < 8 ->
  Z.testbit (u8 (Z.land z (Z.lnot (Z.shiftl 1 k)))) j = negb (k =? j) && Z.testbit z j.
Proof.
  intros Hk Hj. rewrite u8_testbit, Z.land_spec, Z.lnot_spec, shiftl1_testbit by lia.
  apply andb_comm.
Qed.

Lemma u8_nonzero_bit z : is_u8 z -> z <> 0 -> exists k, 0 <= k < 8 /\ Z.testbit z k = true.
Proof.
  intros Hz H0. exists (Z.log2 z). unfold is_u8 in Hz. split.
  - split; [apply Z.log2_nonneg|]. apply Z.log2_lt_pow2; lia.
  - apply Z.bit_log2. lia.
Qed.

(** * Outcomes *)

(** What stops a C function short: undefined behaviour of a memory access, a
    division by zero, the [PANIC] macro's endless loop, or a loop of the code
    that does not end. *)
Inductive fault := NullDeref | OutOfBounds | DivByZero | Panicked | Diverged | Exited (code : Z).
#[export] Instance fault_eq_dec : EqDecision fault.
Proof. solve_decision. Defined.

Inductive res (S A : Type) :=
| Ok (a : A) (s : S)
| Err (f : fault).
Arguments Ok {S A} a s.
Arguments Err {S A} f.

#[export] Instance res_eq_dec {S A} `{EqDecision S, EqDecision A} : EqDecision (res S A).
Proof. solve_decision. Defined.

(** State passing with early stop. *)
Definition M (S A : Type) := S -> res S A.

Definition ret {S A} (a : A) : M S A := fun s => Ok a s.
Definition bind {S A B} (m : M S A) (k : A -> M S B) : M S B :=
  fun s => match m s with Ok a s' => k a s' | Err f => Err f end.
Definition stop {S A} (f : fault) : M S A := fun _ => Err f.
Definition get {S} : M S S := fun s => Ok s s.
Definition put {S} (s : S) : M S unit := fun _ => Ok tt s.
Definition gets {S A} (f : S -> A) : M S A := fun s => Ok (f s) s.
Definition modify {S} (f : S -> S) : M S unit := fun s => Ok tt (f s).
Definition of_option {S A} (f : fault) (o : option A) : M S A :=
  match o with Some a => ret a | None => stop f end.

Declare Scope micron_scope.
Delimit Scope micron_scope with mic.
Notation "x <- m ;; k" := (bind m (fun x => k))
  (at level 100, m at next level, right associativity) : micron_scope.
Notation "m ;;; k" := (bind m (fun _ => k))
  (at level 100, right associativity) : micron_scope.
Open Scope micron_scope.

(** Running a computation of a part of the state. *)
Definition zoom {S T A} (pi : S -> T) (upd : T -> S -> S) (m : M T A) : M S A :=
  fun s => match m (pi s) with Ok a t => Ok a (upd t s) | Err f => Err f end.

Lemma bind_ok {S A B} (m : M S A) (k : A -> M S B) s a s' :
  m s = Ok a s' -> bind m k s = k a s'.
Proof. intros H. unfold bind. by rewrite H. Qed.

Lemma bind_assoc {S A B C} (m : M S A) (k : A -> M S B) (h : B -> M S C) s :
  bind (bind m k) h s = bind m (fun a => bind (k a) h) s.
Proof. unfold bind. by destruct (m s). Qed.

Lemma bind_inv {S A B} (m : M S A) (k : A -> M S B) s b s'' :
  bind m k s = Ok b s'' -> exists a s', m s = Ok a s' /\ k a s' = Ok b s''.
Proof. unfold bind. destruct (m s); naive_solver. Qed.

Lemma bind_ret {S A B} (a : A) (k : A -> M S B) s : bind (ret a) k s = k a s.
Proof. done. Qed.
Lemma bind_get {S B} (k : S -> M S B) s : bind get k s = k s s.
Proof. done. Qed.
Lemma bind_gets {S A B} (f : S -> A) (k : A -> M S B) s : bind (gets f) k s = k (f s) s.
Proof. done. Qed.
Lemma bind_put {S B} (t : S) (k : unit -> M S B) s : bind (put t) k s = k tt t.
Proof. done. Qed.
Lemma bind_modify {S B} (f : S -> S) (k : unit -> M S B) s : bind (modify f) k s = k tt (f s).
Proof. done. Qed.
Lemma bind_some {S A B} f (o : option A) a (k : A -> M S B) s :
  o = Some a -> bind (of_option f o) k s = k a s.
Proof. by intros ->. Qed.
Lemma bind_none {S A B} f (o : option A) (k : A -> M S B) s :
  o = None -> bind (of_option f o) k s = Err f.
Proof. by intros ->. Qed.
Lemma bind_stop {S A B} f (k : A -> M S B) s : bind (stop f) k s = Err f.
Proof. done. Qed.

(** [mstep]: takes the next step of a computation that cannot fail; [msome H]
    one that succeeds by the equation [H]. *)
Ltac mstep :=
  first [rewrite bind_get|rewrite bind_gets|rewrite bind_put|rewrite bind_modify|rewrite bind_ret
        |rewrite bind_assoc]; cbv beta.
Ltac msteps := repeat mstep.
Tactic Notation "msome" uconstr(H) := rewrite (bind_some _ _ _ _ _ H); cbv beta.

(** [preserves P m]: [m] keeps [P] whenever it returns. *)
Definition preserves {S A} (P : S -> Prop) (m : M S A) : Prop :=
  forall s a s', P s -> m s = Ok a s' -> P s'.

Lemma preserves_ret {S A} P (a : A) : preserves (S := S) P (ret a).
Proof. intros s x s' Hs [= <- <-]. done. Qed.
Lemma preserves_stop {S A} P f : preserves (S := S) (A := A) P (stop f).
Proof. intros s x s' Hs [=]. Qed.
Lemma preserves_of_option {S A} P f (o : option A) : preserves (S := S) P (of_option f o).
Proof. destruct o; [apply preserves_ret|apply preserves_stop]. Qed.
Lemma preserves_gets {S A} P (f : S -> A) : preserves P (gets f).
Proof. intros s x s' Hs [= <- <-]. done. Qed.
Lemma preserves_modify {S} (P : S -> Prop) f : (forall s, P s -> P (f s)) -> preserves P (modify f).
Proof. intros H s x s' Hs [= <- <-]. auto. Qed.
Lemma preserves_bind {S A B} P (m : M S A) (k : A -> M S B) :
  preserves P m -> (forall a, preserves P (k a)) -> preserves P (bind m k).
Proof.
  intros Hm Hk s b s'' Hs (a & s' & E1 & E2)%bind_inv. eapply Hk; [|exact E2]. eapply Hm; [exact Hs|exact E1].
Qed.
Lemma preserves_get {S B} P (k : S -> M S B) :
  (forall s, P s -> forall b s', k s s = Ok b s' -> P s') -> preserves P (bind get k).
Proof. intros H s b s' Hs E. by apply (H s Hs b). Qed.
Lemma preserves_if {S A} P (c : bool) (m1 m2 : M S A) :
  preserves P m1 -> preserves P m2 -> preserves P (if c then m1 else m2).
Proof. by destruct c. Qed.

(** [total I m P J]: from a state in [I], [m] returns with a result in [P] and a
    state in [J]. *)
Definition total {S A} (I : S -> Prop) (m : M S A) (P : A -> Prop) (J : S -> Prop) : Prop :=
  forall s, I s -> exists a s', m s = Ok a s' /\ J s' /\ P a.

Lemma total_ret {S A} (I : S -> Prop) (P : A -> Prop) a : P a -> total I (ret a) P I.
Proof. intros Ha s Hs. by exists a, s. Qed.
Lemma total_bind {S A B} (I J L : S -> Prop) (P : A -> Prop) (Q : B -> Prop) m k :
  total I m P J -> (forall a, P a -> total J (k a) Q L) -> total I (bind m k) Q L.
Proof.
  intros Hm Hk s Hs. destruct (Hm s Hs) as (a & s' & E & Hs' & Ha). rewrite (bind_ok _ _ _ _ _ E). by apply (Hk a).
Qed.
Lemma total_seq {S A B} (I J L : S -> Prop) (Q : B -> Prop) (m : M S A) k :
  total I m (fun _ => True) J -> total J k Q L -> total I (bind m (fun _ => k)) Q L.
Proof. intros Hm Hk. by eapply total_bind; [exact Hm|]. Qed.
Lemma total_get {S B} (I L : S -> Prop) (Q : B -> Prop) k :
  (forall s, I s -> total I (k s) Q L) -> total I (bind get k) Q L.
Proof. intros Hk s Hs. rewrite bind_get. by apply Hk. Qed.
Lemma total_gets {S A B} (I L : S -> Prop) (f : S -> A) (Q : B -> Prop) k :
  (forall s, I s -> total I (k (f s)) Q L) -> total I (bind (gets f) k) Q L.
Proof. intros Hk s Hs. rewrite bind_gets. by apply Hk. Qed.
Lemma total_modify {S} (I J : S -> Prop) f : (forall s, I s -> J (f s)) -> total I (modify f) (fun _ => True) J.
Proof. intros Hf s Hs. exists tt, (f s). auto. Qed.
Lemma total_some {S A B} (I J : S -> Prop) (Q : B -> Prop) f (o : option A) a k :
  o = Some a -> total I (k a) Q J -> total I (bind (of_option f o) k) Q J.
Proof. intros -> Hk s Hs. rewrite (bind_some f (Some a) a) by done. by apply Hk. Qed.
Lemma total_weaken {S A} (I J : S -> Prop) (P Q : A -> Prop) m :
  (forall a, P a -> Q a) -> total I m P J -> total I m Q J.
Proof. intros H Hm s Hs. destruct (Hm s Hs) as (a & s' & ? & ? & ?). eauto 6. Qed.

Lemma bind_of_option_inv {S A B} f (o : option A) (k : A -> M S B) s b s' :
  bind (of_option f o) k s = Ok b s' -> exists a, o = Some a /\ k a s = Ok b s'.
Proof. destruct o as [a|]; [eauto|discriminate]. Qed.

(** [minv]: takes apart the hypotheses that say a computation returned. *)
Ltac minv1 :=
  match goal with
  | H : Ok _ _ = Ok _ _ |- _ => injection H; clear H; intros; subst
  | H : Err _ = Ok _ _ |- _ => discriminate H
  | H : stop _ _ = Ok _ _ |- _ => discriminate H
  | H : ret _ _ = Ok _ _ |- _ => unfold ret in H
  | H : modify _ _ = Ok _ _ |- _ => unfold modify in H
  | H : put _ _ = Ok _ _ |- _ => unfold put in H
  | H : bind get _ _ = Ok _ _ |- _ => rewrite bind_get in H; cbv beta in H
  | H : bind (gets _) _ _ = Ok _ _ |- _ => rewrite bind_gets in H; cbv beta in H
  | H : bind (ret _) _ _ = Ok _ _ |- _ => rewrite bind_ret in H; cbv beta in H
  | H : bind (modify _) _ _ = Ok _ _ |- _ => rewrite bind_modify in H; cbv beta in H
  | H : bind (put _) _ _ = Ok _ _ |- _ => rewrite bind_put in H; cbv beta in H
  | H : bind (of_option _ _) _ _ = Ok _ _ |- _ =>
      apply bind_of_option_inv in H; destruct H as (? & ? & H); cbv beta in H
  | H : bind _ _ _ = Ok _ _ |- _ => apply bind_inv in H; destruct H as (? & ? & ? & H); cbv beta in H
  | H : (if ?c then _ else _) _ = Ok _ _ |- _ => destruct c eqn:?
  end.
Ltac minv := repeat minv1.

(** [run_m]: computes through [ret], [gets] and the other primitives. *)
Ltac run_m :=
  cbn [bind ret stop get put gets modify of_option zoom];
  unfold bind, ret, stop, get, put, gets, modify, of_option, zoom in *; cbn in *.

(** * Arrays *)

(** [a[i]] and [a[i] = x] for an index of C: [None] is an access outside the
    array. *)
Definition aget {A} (l : list A) (i : Z) : option A :=
  if decide (0 <= i) then l !! Z.to_nat i else None.
Definition aset {A} (l : list A) (i : Z) (x : A) : option (list A) :=
  if decide (0 <= i < Z.of_nat (length l)) then Some (<[Z.to_nat i := x]> l) else None.

Lemma aget_Some {A} (l : list A) i :
  0 <= i < Z.of_nat (length l) -> exists x, aget l i = Some x.
Proof.
  intros Hi. unfold aget. rewrite decide_True by lia.
  apply lookup_lt_is_Some_2. lia.
Qed.

Lemma aget_inv {A} (l : list A) i x :
  aget l i = Some x -> 0 <= i < Z.of_nat (length l) /\ l !! Z.to_nat i = Some x.
Proof.
  unfold aget. case_decide as Hi; [|done]. intros Hx.
  pose proof (lookup_lt_Some _ _ _ Hx). split; [lia|done].
Qed.

Lemma aset_inv {A} (l l' : list A) i x :
  aset l i x = Some l' -> 0 <= i < Z.of_nat (length l) /\ l' = <[Z.to_nat i := x]> l.
Proof. unfold aset. case_decide; naive_solver. Qed.

Lemma aset_Some {A} (l : list A) i x :
  0 <= i < Z.of_nat (length l) -> aset l i x = Some (<[Z.to_nat i := x]> l).
Proof. intros Hi. unfold aset. by rewrite decide_True. Qed.

Lemma aget_aset {A} (l l' : list A) i x :
  aset l i x = Some l' -> aget l' i = Some x.
Proof.
  intros [Hi ->]%aset_inv. unfold aget. rewrite decide_True by lia.
  apply list_lookup_insert_eq. lia.
Qed.

Lemma aget_aset_ne {A} (l l' : list A) i j x :
  aset l i x = Some l' -> i <> j -> aget l' j = aget l j.
Proof.
  intros [Hi ->]%aset_inv Hij. unfold aget. case_decide; [|done].
  apply list_lookup_insert_ne. lia.
Qed.

Lemma length_aset {A} (l l' : list A) i x : aset l i x = Some l' -> length l' = length l.
Proof. intros [_ ->]%aset_inv. apply length_insert. Qed.

Lemma aget_lookup {A} (l : list A) (n : nat) : aget l (Z.of_nat n) = l !! n.
Proof. unfold aget. rewrite decide_True by lia. by rewrite Nat2Z.id. Qed.

(** The bytes of a string of the source. *)
Fixpoint bytes_of (s : String.string) : list Z :=
  match s with
  | String.EmptyString => []
  | String.String c s' => Z.of_nat (Ascii.nat_of_ascii c) :: bytes_of s'
  end.

(** Several elements from [a[i]] on, read and written; outside of the array neither
    is defined. *)
Definition aread {A} (l : list A) (i : Z) (n : nat) : option (list A) :=
  if decide (0 <= i /\ i + Z.of_nat n <= Z.of_nat (length l)) then Some (take n (drop (Z.to_nat i) l)) else None.
Definition awrite {A} (l : list A) (i : Z) (xs : list A) : option (list A) :=
  if decide (0 <= i /\ i + Z.of_nat (length xs) <= Z.of_nat (length l))
  then Some (take (Z.to_nat i) l ++ xs ++ drop (Z.to_nat i + length xs) l) else None.

Lemma length_aread {A} (l : list A) a n r : aread l a n = Some r -> length r = n.
Proof. unfold aread. case_decide; intros [= <-]. rewrite length_take, length_drop. lia. Qed.
Lemma length_awrite {A} (l : list A) a (bs : list A) r : awrite l a bs = Some r -> length r = length l.
Proof. unfold awrite. case_decide; intros [= <-]. rewrite !length_app, length_take, length_drop. lia. Qed.

Lemma aread_Some {A} (l : list A) i n :
  0 <= i -> i + Z.of_nat n <= Z.of_nat (length l) -> aread l i n = Some (take n (drop (Z.to_nat i) l)).
Proof. intros. unfold aread. by rewrite decide_True by lia. Qed.
Lemma aread_here {A} (l : list A) : aread l 0 (length l) = Some l.
Proof. unfold aread. rewrite decide_True by lia. by rewrite drop_0, firstn_all. Qed.

Lemma awrite_Some {A} (l : list A) a (bs : list A) :
  0 <= a -> a + Z.of_nat (length bs) <= Z.of_nat (length l) -> exists r, awrite l a bs = Some r.
Proof. intros. unfold awrite. rewrite decide_True by lia. eauto. Qed.

Lemma aread_awrite {A} (l : list A) a (bs : list A) r : awrite l a bs = Some r -> aread r a (length bs) = Some bs.
Proof.
  intros E. pose proof (length_awrite _ _ _ _ E) as L. unfold awrite in E. case_decide; simplify_eq.
  unfold aread. rewrite decide_True by lia. f_equal.
  rewrite drop_app_length' by (rewrite length_take; lia). by rewrite take_app_length.
Qed.

Lemma awrite_lookup {A} (l : list A) a (bs : list A) r i :
  awrite l a bs = Some r ->
  r !! i = if decide (a <= Z.of_nat i < a + Z.of_nat (length bs)) then bs !! (i - Z.to_nat a)%nat else l !! i.
Proof.
  unfold awrite. case_decide; intros [= <-]. case_decide.
  - rewrite lookup_app_r by (rewrite length_take; lia). rewrite length_take, lookup_app_l by lia. f_equal. lia.
  - destruct (decide (Z.of_nat i < a)).
    + rewrite lookup_app_l by (rewrite length_take; lia). by rewrite lookup_take_lt by lia.
    + rewrite lookup_app_r, length_take, lookup_app_r, lookup_drop by (rewrite ?length_take; lia). f_equal. lia.
Qed.

(** A store of two pieces, one after the other, is the store of both. *)
Lemma awrite_app {A} (l : list A) a (b1 b2 : list A) r1 r2 :
  awrite l a b1 = Some r1 -> awrite r1 (a + Z.of_nat (length b1)) b2 = Some r2 -> awrite l a (b1 ++ b2) = Some r2.
Proof.
  intros E1 E2. pose proof (length_awrite _ _ _ _ E1) as L1. pose proof (length_awrite _ _ _ _ E2) as L2.
  assert (0 <= a /\ a + Z.of_nat (length b1) + Z.of_nat (length b2) <= Z.of_nat (length l)) as [Ha Hb].
  { unfold awrite in E1, E2. repeat case_decide; simplify_eq; lia. }
  destruct (awrite_Some l a (b1 ++ b2)) as [r E]; [lia|rewrite length_app; lia|]. rewrite E. f_equal.
  apply list_eq. intros i. rewrite (awrite_lookup _ _ _ _ i E), (awrite_lookup _ _ _ _ i E2), (awrite_lookup _ _ _ _ i E1).
  rewrite length_app. repeat case_decide; try lia; try done.
  - rewrite lookup_app_r by lia. f_equal. lia.
  - by rewrite lookup_app_l by lia.
Qed.

Lemma aread_app {A} (l : list A) a n1 n2 r1 r2 :
  aread l a n1 = Some r1 -> aread l (a + Z.of_nat n1) n2 = Some r2 -> aread l a (n1 + n2) = Some (r1 ++ r2).
Proof.
  unfold aread. do 2 (case_decide; [|done]). intros [= <-] [= <-]. rewrite decide_True by lia. f_equal.
  rewrite <- take_take_drop, drop_drop. do 3 f_equal. lia.
Qed.

(** * Lists *)

Lemma drop_insert_here {A} (l : list A) i x :
  (i < length l)%nat -> drop i (<[i := x]> l) = x :: drop (S i) l.
Proof.
  revert i. induction l as [|y l IH]; intros [|i] Hi; simpl in *; try lia; [done|].
  apply IH. lia.
Qed.

Lemma take_insert_here {A} (l : list A) i x :
  (i < length l)%nat -> take (S i) (<[i := x]> l) = take i l ++ [x].
Proof.
  revert i. induction l as [|y l IH]; intros [|i] Hi; simpl in *; try lia; [done|].
  f_equal. apply IH. lia.
Qed.

Create HintDb micron.
Create Rewrite HintDb lens.
#[export] Hint Resolve u8_range u16_range u32_range s32_range : micron.
#[export] Hint Resolve u8_land_range u8_lor_range : micron.
#[export] Hint Rewrite @length_insert @length_app @length_replicate @length_take @length_drop
  @length_fmap : lens.
