(* ===== verification/LibC.v ===== *)
(** The kernel's C library, src/sysv3/kernel/lib/libc.c.

    A [char *] argument is the list of the bytes (0..255) from the pointer to
    the end of the object it points into; reading or writing past that list is
    an access out of bounds. *)
From S2P Require Import Prelude.

(** * Strings and memory blocks *)

(** [int strlen(char *str)]; [None]: no terminator in the object. *)
Fixpoint strlen (str : list Z) : option Z :=
  match str with
  | [] => None
  | c :: str' => if c =? 0 then Some 0 else len ← strlen str'; Some (len + 1)
  end.

(** [char *strchr(char *s, int c)]: the offset of the result from [s], [Some
    None] for the null pointer. *)
Fixpoint strchr (s : list Z) (c : Z) : option (option nat) :=
  match s with
  | [] => None
  | x :: s' =>
      if x =? 0 then Some None
      else if x =? u8 c then Some (Some 0%nat)
      else r ← strchr s' c; Some (option_map S r)
  end.

(** [char *strcpy(char *str1, char *str2)]: the new contents of [str1]. *)
Fixpoint strcpy (str1 str2 : list Z) {struct str2} : option (list Z) :=
  match str2, str1 with
  | [], _ => None
  | _ :: _, [] => None
  | c :: s2, _ :: s1 => if c =? 0 then Some (0 :: s1) else r ← strcpy s1 s2; Some (c :: r)
  end.

(** The comparison loop of [strcmp] and [strncmp]: [n] bytes from each. *)
Fixpoint cmp_loop (n : nat) (str1 str2 : list Z) : option Z :=
  match n with
  | O => Some 0
  | S n' =>
      match str1, str2 with
      | a :: s1, b :: s2 => if a =? b then cmp_loop n' s1 s2 else Some (-1)
      | _, _ => None
      end
  end.

Definition strcmp (str1 str2 : list Z) : option Z :=
  len1 ← strlen str1;
  len2 ← strlen str2;
  if negb (len1 =? len2) then Some (-1) else cmp_loop (Z.to_nat len1) str1 str2.

Definition strncmp (str1 str2 : list Z) (n : nat) : option Z := cmp_loop n str1 str2.

(** [void *memcpy(void *dest, void *src, size_t cnt)] on distinct objects: the
    new contents of [dest]. *)
Fixpoint memcpy (dest src : list Z) (cnt : nat) {struct cnt} : option (list Z) :=
  match cnt with
  | O => Some dest
  | S cnt' =>
      match dest, src with
      | _ :: d, c :: s => r ← memcpy d s cnt'; Some (c :: r)
      | _, _ => None
      end
  end.

(** [void *memset(void *dest, int ch, size_t cnt)]: the bytes are written from
    the last one down. *)
Fixpoint memset (dest : list Z) (ch : Z) (cnt : nat) : option (list Z) :=
  match cnt with
  | O => Some dest
  | S cnt' => d ← aset dest (Z.of_nat cnt') (u8 ch); memset d ch cnt'
  end.

(** * itoa *)

(** The first loop of [itoa]: the length of the numeral.  [fuel] bounds the
    number of iterations. *)
Fixpoint itoa_len (fuel : nat) (val rad len : Z) : M (list Z) Z :=
  match fuel with
  | O => stop Diverged
  | S fuel' =>
      if val =? 0 then ret len
      else if rad =? 0 then stop DivByZero
      else itoa_len fuel' (val / rad) rad (u32 (len + 1))
  end.

Definition store (i : Z) (c : Z) : M (list Z) unit :=
  fun str => match aset str i (u8 c) with Some str' => Ok tt str' | None => Err OutOfBounds end.

(** The second loop: [while(len--)]; [value % rad] converts [value] to unsigned. *)
Fixpoint itoa_conv (len : nat) (value rad : Z) : M (list Z) unit :=
  match len with
  | O => ret tt
  | S l =>
      if rad =? 0 then stop DivByZero else
      let d := u32 value mod rad in
      if (0 <=? d) && (d <=? 9) then
        store (Z.of_nat l) (48 + d) ;;; itoa_conv l (s32 (u32 value / rad)) rad
      else if 10 <=? d then
        store (Z.of_nat l) (97 + d - 10) ;;; itoa_conv l (s32 (u32 value / rad)) rad
      else itoa_conv l value rad
  end.

(** [char *itoa(int value, char *str, int radix)]: the state is the buffer.
    33 iterations are enough for a 32-bit value and a radix of at least 2. *)
Definition itoa (value radix : Z) : M (list Z) unit :=
  if value =? 0 then store 0 48 ;;; store 1 0
  else
    len <- itoa_len 33 (u32 value) (u32 radix) 0 ;;
    store len 0 ;;;
    itoa_conv (Z.to_nat len) value (u32 radix).

(** * Correctness of the string routines *)

(** [cstr b t s]: the object [b] starts with the C string of bytes [t], followed by [s]. *)
Definition cstr (b t s : list Z) : Prop := b = t ++ 0 :: s /\ Forall (fun c => c <> 0) t.

Lemma strlen_cstr b t s : cstr b t s -> strlen b = Some (Z.of_nat (length t)).
Proof.
  intros [-> Ht]. induction Ht as [|c t Hc Ht IH]; [done|].
  simpl. destruct (Z.eqb_spec c 0); [done|]. rewrite IH. simpl. f_equal. lia.
Qed.

Lemma strlen_inv b n :
  strlen b = Some n -> exists t s, cstr b t s /\ n = Z.of_nat (length t).
Proof.
  revert n. induction b as [|c b IH]; intros n H; [done|]. simpl in H.
  destruct (Z.eqb_spec c 0) as [->|Hc].
  - exists [], b. split; [split; [done|constructor]|naive_solver].
  - destruct (strlen b) as [m|] eqn:E; [|done]. simpl in H.
    destruct (IH m eq_refl) as (t & s & [-> Ht] & Hm). exists (c :: t), s.
    split; [split; [done|by constructor]|]. simpl. assert (m + 1 = n) by congruence. lia.
Qed.

Lemma strchr_spec b t s c :
  cstr b t s ->
  strchr b c = Some (fst <$> list_find (fun x => x = u8 c) t).
Proof.
  intros [-> Ht]. induction Ht as [|x t Hx Ht IH]; [done|]. simpl.
  destruct (Z.eqb_spec x 0); [done|].
  destruct (Z.eqb_spec x (u8 c)); [by rewrite decide_True|].
  rewrite decide_False by done. rewrite IH. simpl.
  by destruct (list_find _ t) as [[? ?]|].
Qed.

Lemma strcpy_spec str1 str2 t s :
  cstr str2 t s -> (length t < length str1)%nat ->
  strcpy str1 str2 = Some (t ++ 0 :: drop (S (length t)) str1).
Proof.
  intros [-> Ht]. revert str1.
  induction Ht as [|x t Hx Ht IH]; intros [|y str1] Hlen; simpl in *; try lia; [done|].
  destruct (Z.eqb_spec x 0); [done|]. rewrite IH by lia. done.
Qed.

Lemma strcpy_overflow str1 str2 t s :
  cstr str2 t s -> (length str1 <= length t)%nat -> strcpy str1 str2 = None.
Proof.
  intros [-> Ht]. revert str1.
  induction Ht as [|x t Hx Ht IH]; intros [|y str1] Hlen; simpl in *; try lia; [done..|].
  destruct (Z.eqb_spec x 0); [done|]. by rewrite IH by lia.
Qed.

Lemma cmp_loop_range n s1 s2 r : cmp_loop n s1 s2 = Some r -> r = 0 \/ r = -1.
Proof.
  revert s1 s2. induction n as [|n IH]; intros s1 s2; [naive_solver|].
  destruct s1, s2; try done. simpl. case_match; [apply IH|naive_solver].
Qed.

Lemma cmp_loop_spec n s1 s2 :
  (n <= length s1)%nat -> (n <= length s2)%nat ->
  cmp_loop n s1 s2 = Some (if decide (take n s1 = take n s2) then 0 else -1).
Proof.
  revert s1 s2. induction n as [|n IH]; intros s1 s2 H1 H2; [done|].
  destruct s1 as [|a s1], s2 as [|b s2]; simpl in *; try lia.
  destruct (Z.eqb_spec a b) as [->|Hab].
  - rewrite IH by lia. destruct (decide (take n s1 = take n s2)) as [E|E]; case_decide; congruence.
  - case_decide; congruence.
Qed.

Lemma strcmp_spec b1 t1 s1 b2 t2 s2 :
  cstr b1 t1 s1 -> cstr b2 t2 s2 ->
  strcmp b1 b2 = Some (if decide (t1 = t2) then 0 else -1).
Proof.
  intros H1 H2. unfold strcmp. rewrite (strlen_cstr _ _ _ H1), (strlen_cstr _ _ _ H2). simpl.
  destruct (Z.eqb_spec (Z.of_nat (length t1)) (Z.of_nat (length t2))) as [Hl|Hl]; simpl.
  - destruct H1 as [-> _], H2 as [-> _]. rewrite Nat2Z.id, cmp_loop_spec.
    + rewrite take_app_length. assert (length t1 = length t2) as -> by lia.
      by rewrite take_app_length.
    + rewrite length_app. lia.
    + rewrite length_app. lia.
  - case_decide; [|done]. by subst.
Qed.

Lemma memcpy_spec dest src n :
  (n <= length dest)%nat -> (n <= length src)%nat ->
  memcpy dest src n = Some (take n src ++ drop n dest).
Proof.
  revert dest src. induction n as [|n IH]; intros dest src Hd Hs; [done|].
  destruct dest, src; simpl in *; try lia. rewrite IH by lia. done.
Qed.

Lemma memcpy_overflow dest src n :
  (length dest < n)%nat \/ (length src < n)%nat -> memcpy dest src n = None.
Proof.
  revert dest src. induction n as [|n IH]; intros dest src Hd; [lia|].
  destruct dest, src; simpl in *; try done. by rewrite IH by lia.
Qed.

Lemma memset_spec dest ch n :
  (n <= length dest)%nat ->
  memset dest ch n = Some (replicate n (u8 ch) ++ drop n dest).
Proof.
  revert dest. induction n as [|n IH]; intros dest Hn; [done|]. simpl.
  rewrite aset_Some by lia. simpl. rewrite IH by (rewrite length_insert; lia).
  rewrite Nat2Z.id, drop_insert_here by lia. f_equal.
  by rewrite (cons_middle (u8 ch)), (assoc_L (++)), <- replicate_S_end.
Qed.

(** * Correctness of itoa *)

Section Itoa.
Context (rad : Z) (Hrad : 2 <= rad <= 36).

Definition digit_char (d : Z) : Z := if d <=? 9 then 48 + d else 97 + d - 10.

(** The [n] low digits of [v], most significant first. *)
Fixpoint digits (n : nat) (v : Z) : list Z :=
  match n with
  | O => []
  | S n' => digits n' (v / rad) ++ [digit_char (v mod rad)]
  end.

(** The value of a numeral. *)
Definition digit_val (c : Z) : Z := if c <=? 57 then c - 48 else c - 87.
Definition numeral (s : list Z) : Z := fold_left (fun a c => a * rad + digit_val c) s 0.

Lemma length_digits n v : length (digits n v) = n.
Proof. revert v. induction n; intros v; simpl; [done|]. rewrite length_app, IHn. simpl. lia. Qed.

Lemma digit_val_char d : 0 <= d < 36 -> digit_val (digit_char d) = d.
Proof. intros Hd. unfold digit_val, digit_char. repeat case_match; lia. Qed.

Lemma numeral_digits n v : 0 <= v < rad ^ Z.of_nat n -> numeral (digits n v) = v.
Proof.
  revert v. induction n as [|n IH]; intros v Hv.
  - simpl in Hv. unfold numeral. simpl. lia.
  - simpl. unfold numeral. rewrite fold_left_app. simpl. fold (numeral (digits n (v / rad))).
    rewrite Nat2Z.inj_succ, Z.pow_succ_r in Hv by lia.
    pose proof (Z.mod_pos_bound v rad ltac:(lia)).
    rewrite IH, digit_val_char by (try split; try apply Z.div_pos; try apply Z.div_lt_upper_bound; lia).
    rewrite Z.mul_comm. symmetry. apply Z.div_mod. lia.
Qed.

Lemma digits_nonzero n v : Forall (fun c => c <> 0) (digits n v).
Proof.
  revert v. induction n; intros v; simpl; [constructor|].
  apply Forall_app. split; [done|]. constructor; [|constructor].
  pose proof (Z.mod_pos_bound v rad ltac:(lia)). unfold digit_char. case_match; lia.
Qed.

Lemma u8_digit_char d : 0 <= d < 36 -> u8 (digit_char d) = digit_char d.
Proof. intros Hd. apply u8_small. unfold is_u8, digit_char. case_match; lia. Qed.

Lemma itoa_conv_spec n value str :
  (n <= length str)%nat ->
  itoa_conv n value rad str = Ok tt (digits n (u32 value) ++ drop n str).
Proof.
  revert value str. induction n as [|n IH]; intros value str Hn; [done|].
  cbn [itoa_conv digits]. destruct (Z.eqb_spec rad 0); [lia|].
  pose proof (u32_range value) as Hu. unfold is_u32 in Hu.
  pose proof (Z.mod_pos_bound (u32 value) rad ltac:(lia)) as Hm.
  assert (0 <= u32 value / rad) by (apply Z.div_pos; lia).
  assert (u32 value / rad <= u32 value) by (apply Z.div_le_upper_bound; nia).
  set (d := u32 value mod rad) in *.
  assert (forall c, c = digit_char d ->
    bind (store (Z.of_nat n) c) (fun _ => itoa_conv n (s32 (u32 value / rad)) rad) str =
    Ok tt ((digits n (u32 value / rad) ++ [digit_char d]) ++ drop (S n) str)) as Hstep.
  { intros c ->. unfold bind, store. rewrite u8_digit_char, aset_Some by lia.
    rewrite IH by (rewrite length_insert; lia).
    rewrite Nat2Z.id, drop_insert_here, u32_s32, (u32_small (_ / _)) by (unfold is_u32; lia).
    by rewrite <- app_assoc. }
  destruct (Z.leb_spec 0 d); [|lia]. destruct (Z.leb_spec d 9); simpl.
  - apply Hstep. unfold digit_char. destruct (Z.leb_spec d 9); lia.
  - destruct (Z.leb_spec 10 d); [|lia].
    apply Hstep. unfold digit_char. destruct (Z.leb_spec d 9); lia.
Qed.

Lemma itoa_len_S fuel val len :
  itoa_len (S fuel) val rad len =
    if val =? 0 then ret len else if rad =? 0 then stop DivByZero
    else itoa_len fuel (val / rad) rad (u32 (len + 1)).
Proof. done. Qed.

Lemma itoa_len_spec fuel val len str :
  0 <= val < rad ^ Z.of_nat fuel -> 0 <= len -> len + Z.of_nat fuel < 2 ^ 32 ->
  exists n : nat, itoa_len (S fuel) val rad len str = Ok (len + Z.of_nat n) str /\
    (n <= fuel)%nat /\ val < rad ^ Z.of_nat n /\
    (0 < val -> rad ^ (Z.of_nat n - 1) <= val /\ (0 < n)%nat).
Proof.
  revert val len. induction fuel as [|fuel IH]; intros val len Hv Hl Hf.
  - exists O. simpl in *. assert (val = 0) as -> by lia. simpl.
    split; [by rewrite Z.add_0_r|lia].
  - rewrite itoa_len_S. destruct (Z.eqb_spec val 0) as [->|Hv0].
    { exists O. simpl. split; [by rewrite Z.add_0_r|lia]. }
    destruct (Z.eqb_spec rad 0) as [?|_]; [lia|].
    rewrite Nat2Z.inj_succ, Z.pow_succ_r in Hv by lia.
    assert (0 <= val / rad) by (apply Z.div_pos; lia).
    assert (val / rad < rad ^ Z.of_nat fuel) by (apply Z.div_lt_upper_bound; lia).
    rewrite u32_small by (unfold is_u32; lia).
    destruct (IH (val / rad) (len + 1)) as (n & Hrun & Hn & Hlt & Hge); [lia..|].
    exists (S n). rewrite Nat2Z.inj_succ.
    split; [rewrite Hrun; f_equal; lia|]. split; [lia|].
    pose proof (Z.div_mod val rad ltac:(lia)). pose proof (Z.mod_pos_bound val rad ltac:(lia)).
    split; [rewrite Z.pow_succ_r by lia; nia|]. intros _. split; [|lia].
    replace (Z.succ (Z.of_nat n) - 1) with (Z.of_nat n) by lia.
    destruct (decide (0 < val / rad)) as [Hp|Hp].
    + destruct (Hge Hp) as [Hg ?].
      replace (Z.of_nat n) with (Z.succ (Z.of_nat n - 1)) by lia.
      rewrite Z.pow_succ_r by lia. nia.
    + destruct n as [|n]; [simpl; lia|]. exfalso.
      assert (val / rad = 0) as Hz by lia.
      assert (itoa_len (S fuel) 0 rad (len + 1) str = Ok (len + 1) str) as E by done.
      rewrite Hz, E in Hrun. injection Hrun. lia.
Qed.
End Itoa.

Lemma pow_radix_bound r : 2 <= r -> 2 ^ 32 <= r ^ 32.
Proof. intros Hr. apply Z.pow_le_mono_l. lia. Qed.

(** [itoa] with the number of its digits. *)
Lemma itoa_ok value radix str :
  is_s32 value -> 2 <= radix <= 36 -> (33 <= length str)%nat ->
  exists n : nat, (1 <= n <= 32)%nat /\
    itoa value radix str =
      Ok tt (digits radix n (u32 value) ++ 0 :: drop (S n) str) /\
    numeral radix (digits radix n (u32 value)) = u32 value /\
    u32 value < radix ^ Z.of_nat n /\ (value <> 0 -> radix ^ (Z.of_nat n - 1) <= u32 value) /\ (value = 0 -> n = 1%nat).
Proof.
  intros Hv Hr Hs. pose proof (u32_range value) as Hu. unfold is_u32 in Hu. unfold itoa.
  destruct (Z.eqb_spec value 0) as [->|Hv0].
  - exists 1%nat. split; [lia|]. destruct str as [|a [|b str]]; simpl in Hs; try lia.
    split; [|split; [|split; [change (u32 0) with 0; lia|split; [lia|done]]]].
    + unfold bind, store. rewrite aset_Some by (simpl; lia). simpl.
      rewrite aset_Some by (simpl; lia). simpl. rewrite Zmod_0_l. done.
    + rewrite numeral_digits; [done|lia|]. simpl. change (u32 0) with 0. lia.
  - assert (0 < u32 value) as Hpos.
    { unfold is_s32 in Hv. int_lia. }
    rewrite (u32_small radix) by (unfold is_u32; lia).
    pose proof (pow_radix_bound radix ltac:(lia)).
    destruct (itoa_len_spec radix Hr 32 (u32 value) 0 str) as (n & Hrun & Hn & Hlt & Hge);
      [change (Z.of_nat 32) with 32; lia|lia|lia|].
    destruct (Hge Hpos) as [Hge' Hn0].
    exists n. split; [lia|]. split; [|split; [by apply numeral_digits; lia|by split_and!]].
    unfold bind. rewrite Hrun, Z.add_0_l. unfold store. rewrite aset_Some by lia.
    rewrite Nat2Z.id, itoa_conv_spec by (try rewrite length_insert; lia).
    rewrite drop_insert_here by lia. done.
Qed.

(** For a radix between 2 and 36 and a buffer of at least 33 bytes, [itoa]
    terminates and leaves in the buffer a C string whose numeral, read in that
    radix, is the value taken as unsigned, without leading zeros, and leaves
    the bytes after the terminator alone. *)
Theorem itoa_correct value radix str :
  is_s32 value -> 2 <= radix <= 36 -> (33 <= length str)%nat ->
  exists n : nat, (1 <= n <= 32)%nat /\
    itoa value radix str =
      Ok tt (digits radix n (u32 value) ++ 0 :: drop (S n) str) /\
    numeral radix (digits radix n (u32 value)) = u32 value /\
    (value <> 0 -> radix ^ (Z.of_nat n - 1) <= u32 value).
Proof. intros Hv Hr Hs. destruct (itoa_ok value radix str Hv Hr Hs) as (n & ? & ? & ? & ? & ? & ?). by exists n. Qed.

Lemma itoa_correct_witness :
  exists n : nat, (1 <= n <= 32)%nat /\
    itoa (-1) 16 (replicate 33 7) =
      Ok tt (digits 16 n (u32 (-1)) ++ 0 :: drop (S n) (replicate 33 7)) /\
    numeral 16 (digits 16 n (u32 (-1))) = u32 (-1) /\
    (-1 <> 0 -> 16 ^ (Z.of_nat n - 1) <= u32 (-1)).
Proof. apply (itoa_correct (-1) 16 (replicate 33 7)); [unfold is_s32; lia|lia|simpl; lia]. Defined.
