(* ===== verification/Time.v ===== *)
(** Calendar time, src/sysv3/kernel/lib/time.c: [time], [mktime], [__offtime]
    and [gettime].  A [time_t] is an unsigned 32-bit count of seconds since
    1970-01-01; [long] and [int] are 32 bits. *)
From coqutil Require Import Z.PushPullMod.
From S2P Require Import Prelude.

(** [struct tm] of <time.h>. *)
Record tm := Tm {
  tm_sec : Z; tm_min : Z; tm_hour : Z; tm_mday : Z; tm_mon : Z; tm_year : Z;
  tm_wday : Z; tm_yday : Z; tm_isdst : Z
}.

Definition SECS_PER_HOUR : Z := 60 * 60.
Definition SECS_PER_DAY : Z := SECS_PER_HOUR * 24.

(** [_mon_yday]: the day of the year each month starts on, in a plain and in a
    leap year. *)
Definition mon_yday : list (list Z) :=
  [ [0; 31; 59; 90; 120; 151; 181; 212; 243; 273; 304; 334; 365];
    [0; 31; 60; 91; 121; 152; 182; 213; 244; 274; 305; 335; 366] ].
Definition mon_yday_at (leap month : Z) : Z :=
  nth (Z.to_nat month) (nth (Z.to_nat leap) mon_yday []) 0.

Definition isleap (year : Z) : bool :=
  (Z.rem year 4 =? 0) && (negb (Z.rem year 100 =? 0) || (Z.rem year 400 =? 0)).

(** [time_t mktime(const struct tm *t)].  [month] and [year] are [short],
    [res] is unsigned; after the normalisation [month] is in 0..11. *)
Definition mktime (t : tm) : Z :=
  let month := s16 (tm_mon t) in
  let year :=
    if tm_year t <? 70 then s16 (tm_year t + Z.quot month 12 + 2000)
    else s16 (tm_year t + Z.quot month 12 + 1900) in
  let month := s16 (Z.rem month 12) in
  let '(year, month) :=
    if month <? 0 then (s16 (year - 1), s16 (month + 12)) else (year, month) in
  let res := u32 ((year - 1970) * 365 + mon_yday_at 0 month) in
  let year := if month <=? 1 then s16 (year - 1) else year in
  let res := u32 (res + Z.quot (year - 1968) 4) in
  let res := u32 (res - Z.quot (year - 1900) 100) in
  let res := u32 (res + Z.quot (year - 1600) 400) in
  let res := u32 (res + tm_mday t) in
  let res := u32 (res - 1) in
  let res := u32 (res * 24) in
  let res := u32 (res + tm_hour t) in
  let res := u32 (res * 60) in
  let res := u32 (res + tm_min t) in
  let res := u32 (res * 60) in
  u32 (res + tm_sec t).

(** The two loops that bring [rem] into a day; the bound on the iterations is
    the quotient they compute by repeated subtraction. *)
Fixpoint rem_up (fuel : nat) (rem days : Z) : option (Z * Z) :=
  if rem <? 0 then
    match fuel with O => None | S f => rem_up f (rem + SECS_PER_DAY) (days - 1) end
  else Some (rem, days).
Fixpoint rem_down (fuel : nat) (rem days : Z) : option (Z * Z) :=
  if SECS_PER_DAY <=? rem then
    match fuel with O => None | S f => rem_down f (rem - SECS_PER_DAY) (days + 1) end
  else Some (rem, days).
Definition rem_fuel (rem : Z) : nat := Z.to_nat (Z.abs rem / SECS_PER_DAY + 1).

Definition DIV (a b : Z) : Z := Z.quot a b - (if Z.rem a b <? 0 then 1 else 0).
Definition LEAPS_THRU_END_OF (y : Z) : Z := DIV y 4 - DIV y 100 + DIV y 400.

(** The loop that guesses the year. *)
Fixpoint year_loop (fuel : nat) (y days : Z) : option (Z * Z) :=
  if (days <? 0) || ((if isleap y then 366 else 365) <=? days) then
    match fuel with
    | O => None
    | S f =>
        let yg := y + Z.quot days 365 - (if Z.rem days 365 <? 0 then 1 else 0) in
        let days :=
          days - ((yg - y) * 365 + LEAPS_THRU_END_OF (yg - 1) - LEAPS_THRU_END_OF (y - 1)) in
        year_loop f yg days
    end
  else Some (y, days).

(** [for (y = 11; days < ip[y]; --y) continue;] *)
Fixpoint month_loop (y : nat) (leap days : Z) : option nat :=
  if days <? mon_yday_at leap (Z.of_nat y) then
    match y with O => None | S y' => month_loop y' leap days end
  else Some y.

(** [int __offtime(const time_t *t, long int offset, struct tm *tp)]: the
    result and the broken-down time stored in [*tp].  100 is the bound on the
    year loop; [year_loop_ok] shows two iterations suffice. *)
Definition offtime (t offset : Z) : M tm Z :=
  let days := t / SECS_PER_DAY in
  let rem := t mod SECS_PER_DAY + offset in
  p <- of_option Diverged (rem_up (rem_fuel rem) rem days) ;;
  let '(rem, days) := p in
  p <- of_option Diverged (rem_down (rem_fuel rem) rem days) ;;
  let '(rem, days) := p in
  let hour := Z.quot rem SECS_PER_HOUR in
  let rem := Z.rem rem SECS_PER_HOUR in
  let wday := Z.rem (4 + days) 7 in
  let wday := if wday <? 0 then wday + 7 else wday in
  p <- of_option Diverged (year_loop 100 1970 days) ;;
  let '(y, days) := p in
  tp <- get ;;
  let year := s32 (y - 1900) in
  let tp := Tm (Z.rem rem 60) (Z.quot rem 60) hour (tm_mday tp) (tm_mon tp) year wday
               (tm_yday tp) (tm_isdst tp) in
  if negb (year =? y - 1900) then put tp ;;; ret 0
  else
    let leap := if isleap y then 1 else 0 in
    m <- of_option OutOfBounds (month_loop 11 leap days) ;;
    put (Tm (tm_sec tp) (tm_min tp) (tm_hour tp)
            (days - mon_yday_at leap (Z.of_nat m) + 1) (Z.of_nat m)
            (tm_year tp) (tm_wday tp) days leap) ;;;
    ret 1.

Definition gettime (t : Z) : M tm Z := offtime t 0.

(** [time_t time(time_t *tloc)]: the second of the clock, and what is at [tloc]
    afterwards if it is not null. *)
Definition time (rtc_second : Z) (tloc : option Z) : Z * option Z :=
  (rtc_second, match tloc with Some _ => Some rtc_second | None => None end).

(** * The calendar *)

(** Leap days up to the end of year [y], and the day number of January 1st. *)
Definition leaps (y : Z) : Z := y / 4 - y / 100 + y / 400.
Definition year_start (y : Z) : Z := (y - 1970) * 365 + leaps (y - 1) - leaps 1969.
Definition leapZ (y : Z) : Z := if isleap y then 1 else 0.

Lemma isleap_mod y : 0 <= y ->
  isleap y = (y mod 4 =? 0) && (negb (y mod 100 =? 0) || (y mod 400 =? 0)).
Proof. intros Hy. unfold isleap. by rewrite !Z.rem_mod_nonneg by lia. Qed.

Lemma leaps_step y : 0 <= y -> leaps y - leaps (y - 1) = leapZ y.
Proof.
  intros Hy. unfold leapZ. rewrite isleap_mod by done. unfold leaps.
  destruct (Z.eqb_spec (y mod 4) 0), (Z.eqb_spec (y mod 100) 0), (Z.eqb_spec (y mod 400) 0);
    simpl; Z.div_mod_to_equations; lia.
Qed.

Lemma DIV_div a b : 0 < b -> DIV a b = a / b.
Proof.
  intros Hb. unfold DIV.
  pose proof (Z.quot_rem' a b). pose proof (Z.rem_bound_abs a b ltac:(lia)).
  destruct (Z.ltb_spec (Z.rem a b) 0).
  - apply (Z.div_unique_pos _ _ _ (Z.rem a b + b)); lia.
  - apply (Z.div_unique_pos _ _ _ (Z.rem a b)); lia.
Qed.

Lemma LEAPS_leaps y : LEAPS_THRU_END_OF y = leaps y.
Proof. unfold LEAPS_THRU_END_OF, leaps. by rewrite !DIV_div. Qed.

Lemma isleap_bound y : 365 <= (if isleap y then 366 else 365) <= 366.
Proof. case_match; lia. Qed.

Lemma year_loop_stop fuel y d :
  0 <= d < 365 + leapZ y -> year_loop fuel y d = Some (y, d).
Proof.
  intros Hd. unfold leapZ in Hd.
  destruct fuel; simpl; destruct (isleap y); destruct (Z.ltb_spec d 0); try lia; simpl;
    destruct (Z.leb_spec 366 d), (Z.leb_spec 365 d); try lia; done.
Qed.

Lemma year_loop_step fuel y d :
  ~ (0 <= d < 365 + leapZ y) ->
  year_loop (S fuel) y d =
    let yg := y + Z.quot d 365 - (if Z.rem d 365 <? 0 then 1 else 0) in
    year_loop fuel yg
      (d - ((yg - y) * 365 + leaps (yg - 1) - leaps (y - 1))).
Proof.
  intros Hd. unfold leapZ in Hd. cbn [year_loop]. cbn zeta. rewrite !LEAPS_leaps.
  destruct (Z.ltb_spec d 0); [done|].
  destruct (isleap y); [destruct (Z.leb_spec 366 d)|destruct (Z.leb_spec 365 d)]; try lia; done.
Qed.

(** Two iterations find the year of any day a [time_t] can name. *)
Lemma year_loop_ok fuel D :
  0 <= D < 49711 ->
  exists y d, year_loop (S (S fuel)) 1970 D = Some (y, d) /\
    year_start y + d = D /\ 0 <= d < 365 + leapZ y /\ 1970 <= y <= 2107.
Proof.
  intros HD. destruct (decide (0 <= D < 365 + leapZ 1970)) as [H0|H0].
  { exists 1970, D. rewrite year_loop_stop by done.
    split; [done|]. assert (year_start 1970 = 0) by done. lia. }
  rewrite year_loop_step by done. cbn zeta.
  rewrite Z.quot_div_nonneg, Z.rem_mod_nonneg by lia.
  pose proof (Z.div_mod D 365 ltac:(lia)). pose proof (Z.mod_pos_bound D 365 ltac:(lia)).
  destruct (Z.ltb_spec (D mod 365) 0); [lia|]. rewrite Z.sub_0_r.
  set (q := D / 365) in *. set (r := D mod 365) in *.
  set (yg := 1970 + q). assert (0 <= q <= 137) by lia.
  assert (0 <= leaps (yg - 1) - leaps 1969 <= 40) as Hl.
  { unfold leaps, yg. Z.div_mod_to_equations. lia. }
  replace (D - ((yg - 1970) * 365 + leaps (yg - 1) - leaps (1970 - 1)))
    with (r - (leaps (yg - 1) - leaps 1969)) by (change (1970 - 1) with 1969; unfold yg; lia).
  set (e := leaps (yg - 1) - leaps 1969) in *.
  assert (0 <= leapZ yg) by (unfold leapZ; case_match; lia).
  destruct (decide (0 <= r - e)) as [Hge|Hlt].
  - exists yg, (r - e). rewrite year_loop_stop by lia.
    split; [done|]. unfold year_start. lia.
  - rewrite year_loop_step by lia. cbn zeta.
    assert (Z.quot (r - e) 365 = 0) as ->
      by (apply Z.quot_small_iff; lia).
    assert (Z.rem (r - e) 365 = r - e) as -> by (apply Z.rem_small_iff; lia).
    destruct (Z.ltb_spec (r - e) 0); [|lia].
    pose proof (leaps_step (yg - 1) ltac:(lia)) as Hs.
    assert (0 <= leapZ (yg - 1) <= 1) by (unfold leapZ; case_match; lia).
    replace (yg + 0 - 1) with (yg - 1) by lia.
    assert (1 <= q) by (destruct (decide (q = 0)) as [E|]; [|lia];
      unfold e, yg in Hlt; rewrite E in Hlt; change (1970 + 0 - 1) with 1969 in Hlt; lia).
    exists (yg - 1), (r - e + 365 + leapZ (yg - 1)).
    rewrite year_loop_stop by lia. split; [repeat f_equal; lia|].
    unfold year_start. lia.
Qed.

Lemma month_loop_ok leap d :
  0 <= leap <= 1 -> 0 <= d < 365 + leap ->
  exists m : nat, (m <= 11)%nat /\ month_loop 11 leap d = Some m /\
    mon_yday_at leap (Z.of_nat m) <= d < mon_yday_at leap (Z.of_nat m + 1).
Proof.
  intros Hl Hd. assert (leap = 0 \/ leap = 1) as [-> | ->] by lia.
  all: cbv [month_loop mon_yday_at mon_yday Z.of_nat Z.to_nat nth Pos.of_succ_nat Pos.succ
            Pos.to_nat Pos.iter_op Nat.add].
  all: repeat match goal with |- context [?a <? ?b] => destruct (Z.ltb_spec a b) end.
  all: try lia.
  all: match goal with |- exists m, _ /\ Some ?k = Some m /\ _ => exists k end.
  all: (split; [lia|split; [reflexivity|simpl; lia]]).
Qed.

Lemma mon_yday_leap leap m :
  0 <= leap <= 1 -> 0 <= m <= 11 ->
  mon_yday_at leap m = mon_yday_at 0 m + (if m <=? 1 then 0 else leap) /\
  0 <= mon_yday_at 0 m <= 334.
Proof.
  intros Hl Hm. assert (leap = 0 \/ leap = 1) as [-> | ->] by lia.
  all: assert (m = 0 \/ m = 1 \/ m = 2 \/ m = 3 \/ m = 4 \/ m = 5 \/ m = 6 \/ m = 7 \/ m = 8 \/
         m = 9 \/ m = 10 \/ m = 11) as Hc by lia.
  all: destruct_or! Hc; subst m; vm_compute; intuition congruence.
Qed.

(** [mktime] counts the days of the calendar: for a date from 1970 on, the
    result is the second of the day number of that date, modulo 2^32. *)
Lemma mktime_days t y :
  1970 <= y <= 2107 -> tm_year t = y - 1900 -> 0 <= tm_mon t <= 11 ->
  mktime t =
    u32 ((((year_start y + mon_yday_at (leapZ y) (tm_mon t) + tm_mday t - 1) * 24
            + tm_hour t) * 60 + tm_min t) * 60 + tm_sec t).
Proof.
  intros Hy Hty Hm. unfold mktime. rewrite Hty.
  assert (s16 (tm_mon t) = tm_mon t) as -> by int_lia.
  rewrite Z.quot_small, Z.rem_small by lia.
  assert (s16 (tm_mon t) = tm_mon t) as -> by int_lia.
  destruct (Z.ltb_spec (y - 1900) 70); [lia|].
  assert (s16 (y - 1900 + 0 + 1900) = y) as -> by int_lia.
  destruct (Z.ltb_spec (tm_mon t) 0); [lia|]. cbn zeta.
  unfold u32. Z.push_pull_mod.
  assert (0 <= leapZ y <= 1) as Hlz by (unfold leapZ; case_match; lia).
  destruct (mon_yday_leap (leapZ y) (tm_mon t) Hlz Hm) as [-> _].
  pose proof (leaps_step y ltac:(lia)) as Hs. f_equal.
  assert (forall z, leaps z = (z - 1968) / 4 - (z - 1900) / 100 + (z - 1600) / 400 + leaps 1969)
    as E by (intros z; unfold leaps; Z.div_mod_to_equations; lia).
  destruct (Z.leb_spec (tm_mon t) 1).
  - assert (s16 (y - 1) = y - 1) as -> by int_lia.
    rewrite !Z.quot_div_nonneg by lia. unfold year_start. specialize (E (y - 1)). lia.
  - rewrite !Z.quot_div_nonneg by lia. unfold year_start. specialize (E y). lia.
Qed.

(** * Round trips *)

Lemma year_start_mono y y' :
  1970 <= y < y' -> year_start y + 365 + leapZ y <= year_start y'.
Proof.
  intros Hy. pose proof (leaps_step y ltac:(lia)).
  assert (leaps y <= leaps (y' - 1)) by (unfold leaps; Z.div_mod_to_equations; lia).
  unfold year_start. lia.
Qed.

Lemma mon_yday_mono leap m m' :
  0 <= leap <= 1 -> 0 <= m < m' -> m' <= 12 ->
  mon_yday_at leap (m + 1) <= mon_yday_at leap m'.
Proof.
  intros Hl Hm Hm'.
  assert (forallb (fun l => forallb (fun a => forallb (fun b =>
    negb (Z.of_nat a <? Z.of_nat b) ||
    (mon_yday_at (Z.of_nat l) (Z.of_nat a + 1) <=? mon_yday_at (Z.of_nat l) (Z.of_nat b)))
    (seq 0 13)) (seq 0 13)) (seq 0 2) = true) as H by (vm_compute; reflexivity).
  rewrite forallb_forall in H. specialize (H (Z.to_nat leap) ltac:(apply in_seq; lia)).
  rewrite forallb_forall in H. specialize (H (Z.to_nat m) ltac:(apply in_seq; lia)).
  rewrite forallb_forall in H. specialize (H (Z.to_nat m') ltac:(apply in_seq; lia)).
  rewrite !Z2Nat.id in H by lia. destruct (Z.ltb_spec m m'); [|lia].
  by apply Z.leb_le in H.
Qed.

(** The time of day and the date [gettime] computes. *)
Lemma gettime_ok t tp :
  is_u32 t ->
  exists y d m, gettime t tp =
    Ok 1 (Tm (t mod 60) (t / 60 mod 60) (t / 3600 mod 24)
             (d - mon_yday_at (leapZ y) (Z.of_nat m) + 1) (Z.of_nat m) (y - 1900)
             ((4 + t / SECS_PER_DAY) mod 7) d (leapZ y)) /\
    year_start y + d = t / SECS_PER_DAY /\ 0 <= d < 365 + leapZ y /\ 1970 <= y <= 2107 /\
    (m <= 11)%nat /\
    mon_yday_at (leapZ y) (Z.of_nat m) <= d < mon_yday_at (leapZ y) (Z.of_nat m + 1).
Proof.
  intros Ht. unfold is_u32 in Ht. unfold gettime, offtime, bind.
  assert (SECS_PER_DAY = 86400) as ES by done.
  assert (SECS_PER_HOUR = 3600) as EH by done.
  pose proof (Z.mod_pos_bound t SECS_PER_DAY ltac:(lia)) as Hm.
  rewrite Z.add_0_r. set (R := t mod SECS_PER_DAY) in *.
  assert (rem_up (rem_fuel R) R (t / SECS_PER_DAY) = Some (R, t / SECS_PER_DAY)) as ->.
  { destruct (rem_fuel R); simpl; (destruct (Z.ltb_spec R 0); [lia|done]). }
  cbn [of_option ret].
  assert (rem_down (rem_fuel R) R (t / SECS_PER_DAY) = Some (R, t / SECS_PER_DAY)) as ->.
  { destruct (rem_fuel R); simpl; (destruct (Z.leb_spec SECS_PER_DAY R); [lia|done]). }
  cbn [of_option ret].
  assert (0 <= t / SECS_PER_DAY < 49711) as HD by (rewrite ES; Z.div_mod_to_equations; lia).
  destruct (year_loop_ok 98 _ HD) as (y & d & -> & Hys & Hd & Hy). cbn [of_option ret get].
  assert (0 <= leapZ y <= 1) as Hlz by (unfold leapZ; case_match; lia).
  destruct (month_loop_ok (leapZ y) d Hlz Hd) as (m & Hm11 & Hml & Hmd).
  exists y, d, m. split; [|done].
  assert (s32 (y - 1900) = y - 1900) as -> by (apply s32_small; unfold is_s32; lia).
  rewrite Z.eqb_refl. cbn [negb]. fold (leapZ y). rewrite Hml. cbn.
  pose proof (Z.mod_pos_bound R SECS_PER_HOUR ltac:(lia)).
  rewrite (Z.rem_mod_nonneg R), (Z.quot_div_nonneg R), (Z.rem_mod_nonneg (R mod _)),
    (Z.quot_div_nonneg (R mod _)), (Z.rem_mod_nonneg (4 + _)) by lia.
  destruct (Z.ltb_spec ((4 + t / SECS_PER_DAY) mod 7) 0) as [Hneg|_].
  { pose proof (Z.mod_pos_bound (4 + t / SECS_PER_DAY) 7). lia. }
  do 2 f_equal; subst R; rewrite ?ES, ?EH; Z.div_mod_to_equations; lia.
Qed.

(** C39: every 32-bit time is broken down by [gettime] into a date and a time of
    day in their ranges, which [mktime] takes back to the same 32-bit time. *)
Theorem mktime_gettime t tp :
  is_u32 t ->
  exists r, gettime t tp = Ok 1 r /\ mktime r = t /\
    0 <= tm_sec r < 60 /\ 0 <= tm_min r < 60 /\ 0 <= tm_hour r < 24 /\
    0 <= tm_mon r <= 11 /\ 1 <= tm_mday r <= 31 /\ 70 <= tm_year r.
Proof.
  intros Ht. destruct (gettime_ok t tp Ht) as (y & d & m & Hg & Hys & Hd & Hy & Hm & Hmd).
  eexists. split; [exact Hg|]. rewrite (mktime_days _ y); simpl; [|lia..].
  assert (SECS_PER_DAY = 86400) as ES by done.
  split; [|repeat split; try (Z.div_mod_to_equations; lia)].
  - transitivity (u32 t); [|by apply u32_small]. f_equal. rewrite ES in Hys.
    Z.div_mod_to_equations. lia.
  - assert (0 <= leapZ y <= 1) as Hl by (unfold leapZ; case_match; lia).
    assert (mon_yday_at (leapZ y) (Z.of_nat m + 1) - mon_yday_at (leapZ y) (Z.of_nat m) <= 31);
      [|lia].
    assert (leapZ y = 0 \/ leapZ y = 1) as [-> | ->] by lia.
    all: do 12 (destruct m as [|m]; [vm_compute; congruence|]); lia.
Qed.

Lemma mktime_gettime_witness :
  exists r, gettime 1190000000 (Tm 0 0 0 0 0 0 0 0 0) = Ok 1 r /\ mktime r = 1190000000 /\
    0 <= tm_sec r < 60 /\ 0 <= tm_min r < 60 /\ 0 <= tm_hour r < 24 /\
    0 <= tm_mon r <= 11 /\ 1 <= tm_mday r <= 31 /\ 70 <= tm_year r.
Proof. apply (mktime_gettime 1190000000 (Tm 0 0 0 0 0 0 0 0 0)). unfold is_u32. lia. Defined.

(** A date of the Gregorian calendar between 1970 and 2105. *)
Definition valid_date (t : tm) : Prop :=
  70 <= tm_year t <= 205 /\ 0 <= tm_mon t <= 11 /\
  1 <= tm_mday t <= mon_yday_at (leapZ (tm_year t + 1900)) (tm_mon t + 1)
                    - mon_yday_at (leapZ (tm_year t + 1900)) (tm_mon t) /\
  0 <= tm_hour t < 24 /\ 0 <= tm_min t < 60 /\ 0 <= tm_sec t < 60.

(** [gettime] after [mktime] gives back the date and the time of day of
    every valid date from 1970 to 2105. *)
Theorem gettime_mktime t tp :
  valid_date t ->
  exists r, gettime (mktime t) tp = Ok 1 r /\
    tm_year r = tm_year t /\ tm_mon r = tm_mon t /\ tm_mday r = tm_mday t /\
    tm_hour r = tm_hour t /\ tm_min r = tm_min t /\ tm_sec r = tm_sec t.
Proof.
  intros (Hy & Hm & Hd & Hh & Hmi & Hs). set (y := tm_year t + 1900) in *.
  rewrite (mktime_days t y) by (subst y; lia).
  assert (0 <= leapZ y <= 1) as Hl by (unfold leapZ; case_match; lia).
  set (d := mon_yday_at (leapZ y) (tm_mon t) + tm_mday t - 1).
  assert (0 <= d < 365 + leapZ y /\ d < mon_yday_at (leapZ y) (tm_mon t + 1)) as [Hd0 Hd1].
  { destruct (mon_yday_leap (leapZ y) (tm_mon t) Hl Hm) as [? ?].
    assert (mon_yday_at (leapZ y) (tm_mon t + 1) <= mon_yday_at (leapZ y) 12)
      by (apply mon_yday_mono; lia).
    assert (mon_yday_at (leapZ y) 12 = 365 + leapZ y)
      by (assert (leapZ y = 0 \/ leapZ y = 1) as [-> | ->] by lia; done).
    assert (0 <= (if tm_mon t <=? 1 then 0 else leapZ y)) by (case_match; lia).
    subst d. lia. }
  assert (year_start 1970 = 0) by done.
  assert (0 <= year_start y) by (destruct (decide (y = 1970)) as [->|];
    [lia|pose proof (year_start_mono 1970 y ltac:(lia)); pose proof (isleap_bound 1970);
     unfold leapZ in *; case_match; lia]).
  assert (year_start y + 365 + leapZ y <= 49673).
  { change 49673 with (year_start 2106). apply year_start_mono. lia. }
  set (T := (((year_start y + d) * 24 + tm_hour t) * 60 + tm_min t) * 60 + tm_sec t).
  replace (_ * 60 + tm_sec t) with T by (subst T d; lia).
  assert (is_u32 T) as HT by (unfold is_u32; subst T; lia).
  rewrite u32_small by done.
  destruct (gettime_ok T tp HT) as (y' & d' & m' & Hg & Hys & Hd' & Hy' & Hm' & Hmd).
  assert (SECS_PER_DAY = 86400) as ES by done.
  assert (T / SECS_PER_DAY = year_start y + d) as ET
    by (rewrite ES; subst T; Z.div_mod_to_equations; lia).
  assert (y' = y) as ->.
  { destruct (Z.lt_trichotomy y' y) as [Hc|[Hc|Hc]]; [|done|].
    - pose proof (year_start_mono y' y ltac:(lia)). lia.
    - pose proof (year_start_mono y y' ltac:(lia)). lia. }
  assert (d' = d) as -> by lia.
  assert (Z.of_nat m' = tm_mon t) as Em.
  { destruct (Z.lt_trichotomy (Z.of_nat m') (tm_mon t)) as [Hc|[Hc|Hc]]; [|done|].
    - pose proof (mon_yday_mono (leapZ y) (Z.of_nat m') (tm_mon t) Hl ltac:(lia) ltac:(lia)). lia.
    - pose proof (mon_yday_mono (leapZ y) (tm_mon t) (Z.of_nat m') Hl ltac:(lia) ltac:(lia)). lia. }
  eexists. split; [exact Hg|]. simpl. rewrite Em.
  subst T d. repeat split; try (Z.div_mod_to_equations; lia).
Qed.

Lemma gettime_mktime_witness :
  exists r, gettime (mktime (Tm 59 30 23 29 1 108 0 0 0)) (Tm 0 0 0 0 0 0 0 0 0) = Ok 1 r /\
    tm_year r = 108 /\ tm_mon r = 1 /\ tm_mday r = 29 /\
    tm_hour r = 23 /\ tm_min r = 30 /\ tm_sec r = 59.
Proof.
  apply (gettime_mktime (Tm 59 30 23 29 1 108 0 0 0) (Tm 0 0 0 0 0 0 0 0 0)).
  unfold valid_date; vm_compute; intuition congruence.
Defined.
