(* ===== verification/I8259.v ===== *)
(** The emulated 8259A pair, src/sysvm/hw/i8259.c.

    The callbacks of the chip into the rest of the machine are recorded:
    [irq_request] collects the arguments of the calls to [irq_request], newest
    first, and [alt_irq] those of [alt_irq_func] when one is installed. *)
From S2P Require Import Prelude.

(** [typedef struct PicState].  The back pointer [pics_state] is the enclosing
    [PicState2]. *)
Record PicState := MkPic {
  last_irr : Z; irr : Z; imr : Z; isr : Z; priority_add : Z; irq_base : Z;
  read_reg_select : Z; poll : Z; special_mask : Z; init_state : Z; auto_eoi : Z;
  rotate_on_auto_eoi : Z; special_fully_nested_mode : Z; init4 : Z; elcr : Z; elcr_mask : Z
}.

Definition set_last_irr (v : Z) (s : PicState) : PicState :=
  MkPic v (irr s) (imr s) (isr s) (priority_add s) (irq_base s) (read_reg_select s) (poll s)
    (special_mask s) (init_state s) (auto_eoi s) (rotate_on_auto_eoi s) (special_fully_nested_mode
    s) (init4 s) (elcr s) (elcr_mask s).
Definition set_irr (v : Z) (s : PicState) : PicState :=
  MkPic (last_irr s) v (imr s) (isr s) (priority_add s) (irq_base s) (read_reg_select s) (poll s)
    (special_mask s) (init_state s) (auto_eoi s) (rotate_on_auto_eoi s) (special_fully_nested_mode
    s) (init4 s) (elcr s) (elcr_mask s).
Definition set_imr (v : Z) (s : PicState) : PicState :=
  MkPic (last_irr s) (irr s) v (isr s) (priority_add s) (irq_base s) (read_reg_select s) (poll s)
    (special_mask s) (init_state s) (auto_eoi s) (rotate_on_auto_eoi s) (special_fully_nested_mode
    s) (init4 s) (elcr s) (elcr_mask s).
Definition set_isr (v : Z) (s : PicState) : PicState :=
  MkPic (last_irr s) (irr s) (imr s) v (priority_add s) (irq_base s) (read_reg_select s) (poll s)
    (special_mask s) (init_state s) (auto_eoi s) (rotate_on_auto_eoi s) (special_fully_nested_mode
    s) (init4 s) (elcr s) (elcr_mask s).
Definition set_priority_add (v : Z) (s : PicState) : PicState :=
  MkPic (last_irr s) (irr s) (imr s) (isr s) v (irq_base s) (read_reg_select s) (poll s)
    (special_mask s) (init_state s) (auto_eoi s) (rotate_on_auto_eoi s) (special_fully_nested_mode
    s) (init4 s) (elcr s) (elcr_mask s).
Definition set_irq_base (v : Z) (s : PicState) : PicState :=
  MkPic (last_irr s) (irr s) (imr s) (isr s) (priority_add s) v (read_reg_select s) (poll s)
    (special_mask s) (init_state s) (auto_eoi s) (rotate_on_auto_eoi s) (special_fully_nested_mode
    s) (init4 s) (elcr s) (elcr_mask s).
Definition set_read_reg_select (v : Z) (s : PicState) : PicState :=
  MkPic (last_irr s) (irr s) (imr s) (isr s) (priority_add s) (irq_base s) v (poll s)
    (special_mask s) (init_state s) (auto_eoi s) (rotate_on_auto_eoi s) (special_fully_nested_mode
    s) (init4 s) (elcr s) (elcr_mask s).
Definition set_poll (v : Z) (s : PicState) : PicState :=
  MkPic (last_irr s) (irr s) (imr s) (isr s) (priority_add s) (irq_base s) (read_reg_select s) v
    (special_mask s) (init_state s) (auto_eoi s) (rotate_on_auto_eoi s) (special_fully_nested_mode
    s) (init4 s) (elcr s) (elcr_mask s).
Definition set_special_mask (v : Z) (s : PicState) : PicState :=
  MkPic (last_irr s) (irr s) (imr s) (isr s) (priority_add s) (irq_base s) (read_reg_select s)
    (poll s) v (init_state s) (auto_eoi s) (rotate_on_auto_eoi s) (special_fully_nested_mode s)
    (init4 s) (elcr s) (elcr_mask s).
Definition set_init_state (v : Z) (s : PicState) : PicState :=
  MkPic (last_irr s) (irr s) (imr s) (isr s) (priority_add s) (irq_base s) (read_reg_select s)
    (poll s) (special_mask s) v (auto_eoi s) (rotate_on_auto_eoi s) (special_fully_nested_mode s)
    (init4 s) (elcr s) (elcr_mask s).
Definition set_auto_eoi (v : Z) (s : PicState) : PicState :=
  MkPic (last_irr s) (irr s) (imr s) (isr s) (priority_add s) (irq_base s) (read_reg_select s)
    (poll s) (special_mask s) (init_state s) v (rotate_on_auto_eoi s) (special_fully_nested_mode
    s) (init4 s) (elcr s) (elcr_mask s).
Definition set_rotate_on_auto_eoi (v : Z) (s : PicState) : PicState :=
  MkPic (last_irr s) (irr s) (imr s) (isr s) (priority_add s) (irq_base s) (read_reg_select s)
    (poll s) (special_mask s) (init_state s) (auto_eoi s) v (special_fully_nested_mode s) (init4
    s) (elcr s) (elcr_mask s).
Definition set_special_fully_nested_mode (v : Z) (s : PicState) : PicState :=
  MkPic (last_irr s) (irr s) (imr s) (isr s) (priority_add s) (irq_base s) (read_reg_select s)
    (poll s) (special_mask s) (init_state s) (auto_eoi s) (rotate_on_auto_eoi s) v (init4 s) (elcr
    s) (elcr_mask s).
Definition set_init4 (v : Z) (s : PicState) : PicState :=
  MkPic (last_irr s) (irr s) (imr s) (isr s) (priority_add s) (irq_base s) (read_reg_select s)
    (poll s) (special_mask s) (init_state s) (auto_eoi s) (rotate_on_auto_eoi s)
    (special_fully_nested_mode s) v (elcr s) (elcr_mask s).
Definition set_elcr (v : Z) (s : PicState) : PicState :=
  MkPic (last_irr s) (irr s) (imr s) (isr s) (priority_add s) (irq_base s) (read_reg_select s)
    (poll s) (special_mask s) (init_state s) (auto_eoi s) (rotate_on_auto_eoi s)
    (special_fully_nested_mode s) (init4 s) v (elcr_mask s).

(** [struct PicState2]: 0 is the master, 1 the slave. *)
Record PicState2 := MkPic2 {
  pic0 : PicState; pic1 : PicState;
  irq_request : list Z; alt_irq : option (list (Z * Z))
}.

Definition pics (s : PicState2) (i : Z) : PicState := if i =? 0 then pic0 s else pic1 s.
Definition set_pics (i : Z) (p : PicState) (s : PicState2) : PicState2 :=
  if i =? 0 then MkPic2 p (pic1 s) (irq_request s) (alt_irq s)
  else MkPic2 (pic0 s) p (irq_request s) (alt_irq s).
Definition upd_pic (i : Z) (f : PicState -> PicState) : M PicState2 unit :=
  modify (fun s => set_pics i (f (pics s i)) s).
Definition request_irq (level : Z) : M PicState2 unit :=
  modify (fun s => MkPic2 (pic0 s) (pic1 s) (level :: irq_request s) (alt_irq s)).

(** ** Requests and priorities *)

Definition pic_set_irq1 (irq level : Z) (s : PicState) : PicState :=
  let mask := Z.shiftl 1 irq in
  if negb (Z.land (elcr s) mask =? 0) then
    (* level triggered *)
    if negb (level =? 0) then
      set_last_irr (u8 (Z.lor (last_irr s) mask)) (set_irr (u8 (Z.lor (irr s) mask)) s)
    else
      set_last_irr (u8 (Z.land (last_irr s) (Z.lnot mask)))
        (set_irr (u8 (Z.land (irr s) (Z.lnot mask))) s)
  else
    (* edge triggered *)
    if negb (level =? 0) then
      let s := if Z.land (last_irr s) mask =? 0 then set_irr (u8 (Z.lor (irr s) mask)) s else s in
      set_last_irr (u8 (Z.lor (last_irr s) mask)) s
    else set_last_irr (u8 (Z.land (last_irr s) (Z.lnot mask))) s.

(** The search of [get_priority]; the bits of a mask repeat after 8 steps, so
    a ninth one means the loop does not end. *)
Fixpoint priority_loop (fuel : nat) (s : PicState) (mask priority : Z) : option Z :=
  if Z.land mask (Z.shiftl 1 (Z.land (priority + priority_add s) 7)) =? 0 then
    match fuel with O => None | S f => priority_loop f s mask (priority + 1) end
  else Some priority.

Definition get_priority (s : PicState) (mask : Z) : option Z :=
  if mask =? 0 then Some 8 else priority_loop 8 s mask 0.

(** [pic_get_irq]: [master] is the test [s == &s->pics_state->pics[0]]. *)
Definition pic_get_irq (master : bool) (s : PicState) : option Z :=
  let mask := Z.land (irr s) (Z.lnot (imr s)) in
  priority ← get_priority s mask;
  if priority =? 8 then Some (-1)
  else
    let mask := isr s in
    let mask :=
      if negb (special_fully_nested_mode s =? 0) && master
      then Z.land mask (Z.lnot (Z.shiftl 1 2)) else mask in
    cur_priority ← get_priority s mask;
    if priority <? cur_priority then Some (Z.land (priority + priority_add s) 7) else Some (-1).

Definition get_irq (i : Z) : M PicState2 Z :=
  s <- get ;; of_option Diverged (pic_get_irq (i =? 0) (pics s i)).

Definition pic_update_irq : M PicState2 unit :=
  irq2 <- get_irq 1 ;;
  (if 0 <=? irq2 then
     upd_pic 0 (pic_set_irq1 2 1) ;;; upd_pic 0 (pic_set_irq1 2 0)
   else ret tt) ;;;
  irq <- get_irq 0 ;;
  if 0 <=? irq then request_irq 1 else ret tt.

Definition pic_set_irq_new (irq level : Z) : M PicState2 unit :=
  upd_pic (Z.shiftr irq 3) (pic_set_irq1 (Z.land irq 7) level) ;;;
  modify (fun s => MkPic2 (pic0 s) (pic1 s) (irq_request s)
                          (match alt_irq s with
                           | Some calls => Some ((irq, level) :: calls)
                           | None => None
                           end)) ;;;
  pic_update_irq.

(** [pic_set_irq] acts on the only pair, [isa_pic]. *)
Definition pic_set_irq (irq level : Z) : M PicState2 unit := pic_set_irq_new irq level.

(** ** Acknowledge *)

Definition pic_intack (irq : Z) (s : PicState) : PicState :=
  let s :=
    if negb (auto_eoi s =? 0) then
      if negb (rotate_on_auto_eoi s =? 0) then set_priority_add (Z.land (irq + 1) 7) s else s
    else set_isr (u8 (Z.lor (isr s) (Z.shiftl 1 irq))) s in
  if Z.land (elcr s) (Z.shiftl 1 irq) =? 0
  then set_irr (u8 (Z.land (irr s) (Z.lnot (Z.shiftl 1 irq)))) s else s.

(** [pic_read_irq]: the vector the processor takes. *)
Definition pic_read_irq : M PicState2 Z :=
  irq <- get_irq 0 ;;
  intno <-
    (if 0 <=? irq then
       upd_pic 0 (pic_intack irq) ;;;
       if irq =? 2 then
         irq2 <- get_irq 1 ;;
         irq2 <- (if 0 <=? irq2 then upd_pic 1 (pic_intack irq2) ;;; ret irq2 else ret 7) ;;
         gets (fun s => irq_base (pic1 s) + irq2)
       else gets (fun s => irq_base (pic0 s) + irq)
     else gets (fun s => irq_base (pic0 s) + 7)) ;;
  pic_update_irq ;;;
  ret intno.

(** ** Register access *)

Definition pic_reset (s : PicState) : PicState :=
  MkPic 0 0 0 0 0 0 0 0 0 0 0 0 0 0 (elcr s) (elcr_mask s).

Definition clear_isr (irq : Z) (s : PicState) : PicState :=
  set_isr (u8 (Z.land (isr s) (Z.lnot (Z.shiftl 1 irq)))) s.

(** [pic_ioport_write], with the chip [i] of the pair as [opaque]; [hw_error]
    stops the emulator. *)
Definition pic_ioport_write (i addr val : Z) : M PicState2 unit :=
  s2 <- get ;;
  let s := pics s2 i in
  if Z.land addr 1 =? 0 then
    if negb (Z.land val 0x10 =? 0) then
      upd_pic i pic_reset ;;;
      request_irq 0 ;;;
      upd_pic i (fun s => set_init4 (Z.land val 1) (set_init_state 1 s)) ;;;
      (if negb (Z.land val 0x02 =? 0) then stop Panicked else ret tt) ;;;
      (if negb (Z.land val 0x08 =? 0) then stop Panicked else ret tt)
    else if negb (Z.land val 0x08 =? 0) then
      (if negb (Z.land val 0x04 =? 0) then upd_pic i (set_poll 1) else ret tt) ;;;
      (if negb (Z.land val 0x02 =? 0) then upd_pic i (set_read_reg_select (Z.land val 1))
       else ret tt) ;;;
      (if negb (Z.land val 0x40 =? 0) then upd_pic i (set_special_mask (Z.land (Z.shiftr val 5) 1))
       else ret tt)
    else
      let cmd := Z.shiftr val 5 in
      if (cmd =? 0) || (cmd =? 4) then upd_pic i (set_rotate_on_auto_eoi (Z.shiftr cmd 2))
      else if (cmd =? 1) || (cmd =? 5) then
        priority <- of_option Diverged (get_priority s (isr s)) ;;
        if negb (priority =? 8) then
          let irq := Z.land (priority + priority_add s) 7 in
          upd_pic i (clear_isr irq) ;;;
          (if cmd =? 5 then upd_pic i (set_priority_add (Z.land (irq + 1) 7)) else ret tt) ;;;
          pic_update_irq
        else ret tt
      else if cmd =? 3 then
        upd_pic i (clear_isr (Z.land val 7)) ;;; pic_update_irq
      else if cmd =? 6 then
        upd_pic i (set_priority_add (Z.land (val + 1) 7)) ;;; pic_update_irq
      else if cmd =? 7 then
        upd_pic i (clear_isr (Z.land val 7)) ;;;
        upd_pic i (set_priority_add (Z.land (Z.land val 7 + 1) 7)) ;;; pic_update_irq
      else ret tt
  else
    if init_state s =? 0 then upd_pic i (set_imr (u8 val)) ;;; pic_update_irq
    else if init_state s =? 1 then
      upd_pic i (fun s => set_init_state 2 (set_irq_base (Z.land val 0xf8) s))
    else if init_state s =? 2 then
      if negb (init4 s =? 0) then upd_pic i (set_init_state 3) else upd_pic i (set_init_state 0)
    else if init_state s =? 3 then
      upd_pic i (fun s =>
        set_init_state 0 (set_auto_eoi (Z.land (Z.shiftr val 1) 1)
          (set_special_fully_nested_mode (Z.land (Z.shiftr val 4) 1) s)))
    else ret tt.

Definition pic_poll_read (i addr1 : Z) : M PicState2 Z :=
  r <- get_irq i ;;
  if 0 <=? r then
    (if negb (Z.shiftr addr1 7 =? 0) then
       upd_pic 0 (clear_isr 2) ;;;
       upd_pic 0 (fun s => set_irr (u8 (Z.land (irr s) (Z.lnot (Z.shiftl 1 2)))) s)
     else ret tt) ;;;
    upd_pic i (fun s => set_irr (u8 (Z.land (irr s) (Z.lnot (Z.shiftl 1 r)))) s) ;;;
    upd_pic i (clear_isr r) ;;;
    (if negb (Z.shiftr addr1 7 =? 0) || negb (r =? 2) then pic_update_irq else ret tt) ;;;
    ret r
  else pic_update_irq ;;; ret 0x07.

Definition pic_ioport_read (i addr1 : Z) : M PicState2 Z :=
  s2 <- get ;;
  let s := pics s2 i in
  if negb (poll s =? 0) then
    r <- pic_poll_read i addr1 ;;
    upd_pic i (set_poll 0) ;;;
    ret r
  else if Z.land addr1 1 =? 0 then
    ret (if negb (read_reg_select s =? 0) then isr s else irr s)
  else ret (imr s).

(** [pic_intack_read] *)
Definition pic_intack_read : M PicState2 Z :=
  r <- pic_poll_read 0 0x00 ;;
  r <- (if r =? 2 then r1 <- pic_poll_read 1 0x80 ;; ret (r1 + 8) else ret r) ;;
  upd_pic 0 (set_read_reg_select 1) ;;;
  ret r.

Definition elcr_ioport_write (i addr val : Z) : M PicState2 unit :=
  upd_pic i (fun s => set_elcr (Z.land val (elcr_mask s)) s).
Definition elcr_ioport_read (i addr1 : Z) : M PicState2 Z := gets (fun s => elcr (pics s i)).

(** [pic_init]: the pair as allocated, all zero but the masks of the trigger
    registers. *)
Definition pic_init : PicState2 :=
  MkPic2 (MkPic 0 0 0 0 0 0 0 0 0 0 0 0 0 0 0 0xf8) (MkPic 0 0 0 0 0 0 0 0 0 0 0 0 0 0 0 0xde)
         [] None.

(** The port map set up by [pic_init] and [pic_init1]; a port no device claims
    reads as ones and ignores writes. *)
Definition pic_outb (port val : Z) : M PicState2 unit :=
  if (port =? 0x20) || (port =? 0x21) then pic_ioport_write 0 port val
  else if (port =? 0xa0) || (port =? 0xa1) then pic_ioport_write 1 port val
  else if port =? 0x4d0 then elcr_ioport_write 0 port val
  else if port =? 0x4d1 then elcr_ioport_write 1 port val
  else ret tt.
Definition pic_inb (port : Z) : M PicState2 Z :=
  if (port =? 0x20) || (port =? 0x21) then pic_ioport_read 0 port
  else if (port =? 0xa0) || (port =? 0xa1) then pic_ioport_read 1 port
  else if port =? 0x4d0 then elcr_ioport_read 0 port
  else if port =? 0x4d1 then elcr_ioport_read 1 port
  else ret 0xff.

(** * The chip never hangs *)

(** The ranges of the registers of one chip. *)
Record wf_pic (s : PicState) : Prop := {
  wf_last_irr : is_u8 (last_irr s);
  wf_irr : is_u8 (irr s);
  wf_imr : is_u8 (imr s);
  wf_isr : is_u8 (isr s);
  wf_priority_add : 0 <= priority_add s < 8;
  wf_irq_base : 0 <= irq_base s <= 0xf8;
  wf_init_state : 0 <= init_state s <= 3
}.

Definition wf_pic2 (s : PicState2) : Prop := wf_pic (pic0 s) /\ wf_pic (pic1 s).

Lemma land7 z : Z.land z 7 = z mod 8.
Proof. change 7 with (Z.ones 3). by rewrite Z.land_ones. Qed.

Lemma priority_loop_ok fuel s mask p q :
  0 <= p <= q -> q < p + Z.of_nat fuel ->
  Z.testbit mask ((q + priority_add s) mod 8) = true ->
  exists r, priority_loop fuel s mask p = Some r /\ p <= r <= q /\
    Z.testbit mask ((r + priority_add s) mod 8) = true /\
    forall j, p <= j < r -> Z.testbit mask ((j + priority_add s) mod 8) = false.
Proof.
  revert p. induction fuel as [|fuel IH]; intros p Hp Hq Hb; [lia|].
  cbn [priority_loop]. rewrite land7, land_bit by (apply Z.mod_pos_bound; lia).
  destruct (Z.testbit mask ((p + priority_add s) mod 8)) eqn:E; cbn [negb].
  - exists p. split; [done|]. split; [lia|]. split; [done|]. lia.
  - assert (p <> q) by congruence.
    destruct (IH (p + 1)) as (r & Hr & Hpr & Hbr & Hj); [lia..|done|].
    exists r. split; [done|]. split; [lia|]. split; [done|].
    intros j Hjr. destruct (decide (j = p)) as [->|]; [done|]. apply Hj. lia.
Qed.

(** The highest priority request of a non-empty mask: the first set bit in the
    rotation order that starts at [priority_add]. *)
Lemma get_priority_ok s mask :
  is_u8 mask -> mask <> 0 -> 0 <= priority_add s < 8 ->
  exists p, get_priority s mask = Some p /\ 0 <= p < 8 /\
    Z.testbit mask ((p + priority_add s) mod 8) = true /\
    forall j, 0 <= j < p -> Z.testbit mask ((j + priority_add s) mod 8) = false.
Proof.
  intros Hm H0 Ha. unfold get_priority. destruct (Z.eqb_spec mask 0); [done|].
  destruct (u8_nonzero_bit mask Hm H0) as (k & Hk & Hb).
  destruct (priority_loop_ok 8 s mask 0 ((k - priority_add s) mod 8)) as (p & Hp & Hpb & Hbp & Hj).
  - pose proof (Z.mod_pos_bound (k - priority_add s) 8 ltac:(lia)). lia.
  - pose proof (Z.mod_pos_bound (k - priority_add s) 8 ltac:(lia)). lia.
  - rewrite Zplus_mod_idemp_l. replace (k - priority_add s + priority_add s) with k by lia.
    by rewrite Z.mod_small by lia.
  - exists p. split; [done|].
    pose proof (Z.mod_pos_bound (k - priority_add s) 8 ltac:(lia)). split; [lia|done].
Qed.

Lemma get_priority_total s mask :
  is_u8 mask -> 0 <= priority_add s < 8 -> exists p, get_priority s mask = Some p /\ 0 <= p <= 8.
Proof.
  intros Hm Ha. destruct (decide (mask = 0)) as [->|H0].
  - exists 8. split; [done|lia].
  - destruct (get_priority_ok s mask Hm H0 Ha) as (p & ? & ? & _). exists p. split; [done|lia].
Qed.

Lemma u8_land_any a b : is_u8 a -> is_u8 (Z.land a b).
Proof.
  intros Ha. assert (Z.land a b = u8 (Z.land a b)) as ->; [|apply u8_range].
  rewrite <- u8_land, <- Z.land_assoc, (Z.land_comm b), Z.land_assoc, u8_land.
  by rewrite u8_small.
Qed.

Lemma pic_get_irq_total master s :
  wf_pic s -> exists r, pic_get_irq master s = Some r /\ -1 <= r < 8.
Proof.
  intros [? ? ? ? ? ? ?]. unfold pic_get_irq.
  destruct (get_priority_total s (Z.land (irr s) (Z.lnot (imr s)))) as (p & -> & Hp);
    [by apply u8_land_any|done|]. simpl.
  destruct (Z.eqb_spec p 8); [exists (-1); split; [done|lia]|].
  set (m := if _ && _ then _ else _).
  assert (is_u8 m) by (subst m; case_match; auto using u8_land_any).
  destruct (get_priority_total s m) as (c & -> & Hc); [done..|]. simpl.
  destruct (p <? c); eexists; (split; [reflexivity|]); [|lia].
  rewrite land7. pose proof (Z.mod_pos_bound (p + priority_add s) 8). lia.
Qed.

(** Computations that keep the registers in their ranges and return. *)
Definition keeps {A} (P : A -> Prop) (m : M PicState2 A) : Prop := total wf_pic2 m P wf_pic2.

Lemma keeps_ret {A} (P : A -> Prop) (a : A) : P a -> keeps P (ret a).
Proof. apply total_ret. Qed.
Lemma keeps_bind {A B} (P : A -> Prop) (Q : B -> Prop) (m : M PicState2 A) k :
  keeps P m -> (forall a, P a -> keeps Q (k a)) -> keeps Q (bind m k).
Proof. apply total_bind. Qed.
Lemma keeps_get {A} (Q : A -> Prop) (k : PicState2 -> M PicState2 A) :
  (forall s, wf_pic2 s -> keeps Q (k s)) -> keeps Q (bind get k).
Proof. apply total_get. Qed.
Lemma keeps_upd i f :
  (forall p, wf_pic p -> wf_pic (f p)) -> keeps (fun _ => True) (upd_pic i f).
Proof.
  intros Hf s [H0 H1]. do 2 eexists. split; [reflexivity|]. split; [|done].
  unfold set_pics, pics. destruct (i =? 0); split; simpl; auto.
Qed.
Lemma keeps_request l : keeps (fun _ => True) (request_irq l).
Proof. intros s [H0 H1]. do 2 eexists. by split. Qed.
Lemma keeps_get_irq i : keeps (fun r => -1 <= r < 8) (get_irq i).
Proof.
  intros s [H0 H1]. unfold get_irq, bind, get.
  destruct (pic_get_irq_total (i =? 0) (pics s i)) as (r & -> & Hr).
  - unfold pics. by case_match.
  - by exists r, s.
Qed.
Lemma get_irq_state i s r s' : get_irq i s = Ok r s' -> s' = s.
Proof.
  unfold get_irq, bind, get. destruct (pic_get_irq _ _); cbn; unfold ret, stop; congruence.
Qed.
Lemma keeps_gets f (P : Z -> Prop) :
  (forall s, wf_pic2 s -> P (f s)) -> keeps P (gets f).
Proof. intros H s Hs. exists (f s), s. auto. Qed.

(** [wf_upd] proves that an assignment to registers keeps their ranges. *)
Ltac wf_upd :=
  intros; repeat match goal with H : wf_pic _ |- _ => destruct H end;
  split; cbn; auto with micron; try lia;
  rewrite ?land7; try (apply Z.mod_pos_bound; lia); try (by unfold is_u8).

Lemma wf_set_irq1 irq level s : wf_pic s -> wf_pic (pic_set_irq1 irq level s).
Proof. intros H. unfold pic_set_irq1. repeat case_match; wf_upd. Qed.
Lemma wf_intack irq s : wf_pic s -> wf_pic (pic_intack irq s).
Proof. intros H. unfold pic_intack. repeat case_match; wf_upd. Qed.
Lemma wf_clear_isr irq s : wf_pic s -> wf_pic (clear_isr irq s).
Proof. wf_upd. Qed.
Lemma wf_reset s : wf_pic s -> wf_pic (pic_reset s).
Proof. wf_upd. Qed.
Lemma wf_pics i s : wf_pic2 s -> wf_pic (pics s i).
Proof. intros [? ?]. unfold pics. by case_match. Qed.

#[export] Hint Resolve wf_set_irq1 wf_intack wf_clear_isr wf_reset wf_pics : micron.

(** [keeps_step]: one step of a [keeps] proof. *)
Ltac keeps_step :=
  match goal with
  | |- keeps _ (bind get _) => apply keeps_get; intros ? ?
  | |- keeps _ (bind (get_irq _) _) => eapply keeps_bind; [apply keeps_get_irq|intros ? ?]
  | |- keeps _ (bind (bind _ _) _) => eapply keeps_bind; [|intros ? ?]
  | |- keeps _ (bind _ _) => eapply (keeps_bind (fun _ => True)); [|intros ? _]
  | |- keeps _ (upd_pic _ _) => apply keeps_upd; auto with micron; try (by wf_upd)
  | |- keeps _ (request_irq _) => apply keeps_request
  | |- keeps _ (ret _) => apply keeps_ret; auto; try lia
  | |- keeps _ (if _ then _ else _) => case_match
  | |- keeps _ (modify _) => intros ? [? ?]; do 2 eexists; by split
  end.
Ltac keeps_solve := repeat keeps_step; auto with micron.

Lemma keeps_update : keeps (fun _ => True) pic_update_irq.
Proof. unfold pic_update_irq. keeps_solve. Qed.
#[export] Hint Resolve keeps_update : micron.

Lemma keeps_set_irq irq level : keeps (fun _ => True) (pic_set_irq irq level).
Proof. unfold pic_set_irq, pic_set_irq_new. keeps_solve. Qed.

Lemma keeps_weaken {A} (P Q : A -> Prop) m : (forall a, P a -> Q a) -> keeps P m -> keeps Q m.
Proof. apply total_weaken. Qed.

Lemma keeps_read_irq : keeps (fun v => 0 <= v < 256) pic_read_irq.
Proof.
  unfold pic_read_irq. keeps_step. cbn beta in *.
  eapply (keeps_bind (fun v => 0 <= v < 256));
    [|intros v Hv; eapply keeps_bind; [apply keeps_update|intros; by apply keeps_ret]].
  destruct (Z.leb_spec 0 a); [|apply keeps_gets; intros s [[] []]; lia].
  keeps_step; [keeps_step|]. case_match; [|apply keeps_gets; intros s [[] []]; lia].
  keeps_step. cbn beta in *. eapply (keeps_bind (fun i => 0 <= i < 8)).
  - destruct (Z.leb_spec 0 a1); [|apply keeps_ret; lia].
    keeps_step; [keeps_step|]. apply keeps_ret. lia.
  - intros b Hb. apply keeps_gets. intros s [[] []]. lia.
Qed.

(** A write the chip emulates: not an ICW1 that asks for a single chip or for
    level-sensitive inputs. *)
Definition pic_write_ok (addr val : Z) : Prop :=
  is_u8 val /\
  (Z.land addr 1 = 0 -> Z.land val 0x10 <> 0 -> Z.land val 0x02 = 0 /\ Z.land val 0x08 = 0).

Lemma land_f8 z : 0 <= Z.land z 0xf8 <= 0xf8.
Proof.
  assert (Z.land z 0xf8 + Z.land (Z.lnot z) 0xf8 = 0xf8) as E.
  { rewrite Z.add_nocarry_lxor, Z.lxor_lor, <- Z.land_lor_distr_l, Z.lor_lnot_diag; [done|..].
    all: apply Z.bits_inj'; intros k Hk;
      rewrite !Z.land_spec, Z.lnot_spec, Z.bits_0 by done;
      by destruct (Z.testbit z k), (Z.testbit 0xf8 k). }
  assert (0 <= Z.land (Z.lnot z) 0xf8) by (apply Z.land_nonneg; lia).
  assert (0 <= Z.land z 0xf8) by (apply Z.land_nonneg; lia). lia.
Qed.

Lemma keeps_write i addr val : pic_write_ok addr val -> keeps (fun _ => True) (pic_ioport_write i addr val).
Proof.
  intros [Hv Hicw]. unfold pic_ioport_write. apply keeps_get. intros s Hs. cbn zeta.
  destruct (Z.eqb_spec (Z.land addr 1) 0) as [E0|E0].
  - destruct (Z.eqb_spec (Z.land val 16) 0) as [E1|E1]; cbn [negb].
    + keeps_solve. destruct (wf_pics i s Hs).
      destruct (get_priority_total (pics s i) (isr (pics s i))) as (p & -> & _); [done..|].
      by apply keeps_ret.
    + destruct (Hicw E0 E1) as [-> ->]. rewrite Z.eqb_refl. cbn [negb]. keeps_solve.
  - pose proof (land_f8 val). keeps_solve.
Qed.

Lemma keeps_poll_read i addr1 : keeps (fun r => 0 <= r < 8) (pic_poll_read i addr1).
Proof.
  unfold pic_poll_read. keeps_step. cbn beta in *.
  destruct (Z.leb_spec 0 a).
  - repeat keeps_step; auto with micron.
  - keeps_step; [apply keeps_update|]. apply keeps_ret. lia.
Qed.

Lemma keeps_read i addr1 : keeps (fun r => 0 <= r < 256) (pic_ioport_read i addr1).
Proof.
  unfold pic_ioport_read. apply keeps_get. intros s Hs. cbn zeta.
  destruct (wf_pics i s Hs). unfold is_u8 in *.
  case_match.
  - eapply keeps_bind; [apply keeps_poll_read|]. intros r Hr. cbn beta in Hr.
    eapply keeps_bind; [apply keeps_upd; intros; wf_upd|]. intros _ _. apply keeps_ret. lia.
  - repeat case_match; apply keeps_ret; lia.
Qed.

(** The operations the machine performs on the pair: a device raises or lowers
    a line, the processor acknowledges, software accesses the ports. *)
Inductive pic_op := OpSetIrq (irq level : Z) | OpAck | OpOut (port val : Z) | OpIn (port : Z).

Definition pic_run (o : pic_op) : M PicState2 Z :=
  match o with
  | OpSetIrq irq level => pic_set_irq irq level ;;; ret 0
  | OpAck => pic_read_irq
  | OpOut port val => pic_outb port val ;;; ret 0
  | OpIn port => pic_inb port
  end.

Definition pic_op_ok (o : pic_op) : Prop :=
  match o with OpOut port val => pic_write_ok port val | _ => True end.

Inductive pic_reachable : PicState2 -> Prop :=
| reach_init : pic_reachable pic_init
| reach_step s o r s' :
    pic_reachable s -> pic_op_ok o -> pic_run o s = Ok r s' -> pic_reachable s'.

Lemma keeps_run o : pic_op_ok o -> keeps (fun _ => True) (pic_run o).
Proof.
  destruct o as [irq level| |port val|port]; intros Ho; cbn [pic_run].
  - eapply keeps_bind; [apply keeps_set_irq|]. intros. by apply keeps_ret.
  - eapply keeps_weaken; [|apply keeps_read_irq]. done.
  - eapply keeps_bind; [|intros; by apply keeps_ret].
    unfold pic_outb. repeat case_match; try by apply keeps_write.
    + apply keeps_upd. wf_upd.
    + apply keeps_upd. wf_upd.
    + by apply keeps_ret.
  - unfold pic_inb. repeat case_match; try (eapply keeps_weaken; [|apply keeps_read]; done).
    + by apply keeps_gets.
    + by apply keeps_gets.
    + by apply keeps_ret.
Qed.

Lemma reachable_wf s : pic_reachable s -> wf_pic2 s.
Proof.
  induction 1 as [|s o r s' Hs IH Ho E].
  - split; split; cbn; unfold is_u8; lia.
  - destruct (keeps_run o Ho s IH) as (a & s'' & E' & Hs'' & _). congruence.
Qed.

(** From power-on, after any sequence of interrupt line changes,
    acknowledges and port accesses (other than an ICW1 asking for an
    unsupported mode), the chip pair answers the next operation: its priority
    searches end, and its registers stay in their ranges. *)
Theorem pic_total s o :
  pic_reachable s -> pic_op_ok o ->
  exists r s', pic_run o s = Ok r s' /\ pic_reachable s' /\ wf_pic2 s'.
Proof.
  intros Hs Ho. destruct (keeps_run o Ho s (reachable_wf s Hs)) as (r & s' & E & Hs' & _).
  exists r, s'. split; [done|]. split; [|done]. by eapply reach_step.
Qed.

Lemma pic_total_witness :
  exists r s', pic_run (OpSetIrq 14 1) pic_init = Ok r s' /\ pic_reachable s' /\ wf_pic2 s'.
Proof. apply (pic_total pic_init (OpSetIrq 14 1)); [apply reach_init|done]. Defined.

(** What [pic_get_irq] answers under the fixed priority the kernel uses: [r] is
    the lowest-numbered unmasked request, and no interrupt at least as urgent
    is in service; [-1] when there is no such request. *)
Definition pic_wants (s : PicState) (r : Z) : Prop :=
  0 <= r < 8 /\ Z.testbit (irr s) r = true /\ Z.testbit (imr s) r = false /\
  (forall j, 0 <= j < r -> Z.testbit (irr s) j = true -> Z.testbit (imr s) j = true) /\
  (forall j, 0 <= j <= r -> Z.testbit (isr s) j = false).

Lemma get_priority_fixed s mask :
  is_u8 mask -> priority_add s = 0 ->
  exists p, get_priority s mask = Some p /\ 0 <= p <= 8 /\
    (p < 8 -> Z.testbit mask p = true) /\ forall j, 0 <= j < p -> Z.testbit mask j = false.
Proof.
  intros Hm Ha. destruct (decide (mask = 0)) as [->|H0].
  - exists 8. split; [done|]. split; [lia|]. split; [lia|]. intros. apply Z.bits_0.
  - destruct (get_priority_ok s mask Hm H0) as (p & Hp & Hr & Hb & Hj); [lia|].
    rewrite Ha in Hb, Hj. exists p. split; [done|]. split; [lia|].
    rewrite Z.add_0_r, Z.mod_small in Hb by lia. split; [done|].
    intros j Hjp. specialize (Hj j Hjp). by rewrite Z.add_0_r, Z.mod_small in Hj by lia.
Qed.

Lemma pic_get_irq_ok master s :
  wf_pic s -> priority_add s = 0 -> special_fully_nested_mode s = 0 ->
  exists r, pic_get_irq master s = Some r /\
    (0 <= r -> pic_wants s r) /\ (r < 0 -> forall q, ~ pic_wants s q).
Proof.
  intros [] Ha Hn. unfold pic_get_irq.
  set (m := Z.land (irr s) (Z.lnot (imr s))).
  assert (forall j, 0 <= j ->
    Z.testbit m j = Z.testbit (irr s) j && negb (Z.testbit (imr s) j)) as Hm.
  { intros j Hj. unfold m. by rewrite Z.land_spec, Z.lnot_spec. }
  destruct (get_priority_fixed s m) as (p & -> & Hp & Hpb & Hpj); [by apply u8_land_any|done|].
  simpl. rewrite Hn, Z.eqb_refl. simpl.
  destruct (get_priority_fixed s (isr s)) as (c & -> & Hc & Hcb & Hcj); [done..|]. simpl.
  destruct (Z.eqb_spec p 8) as [->|Hp8].
  - exists (-1). split; [done|]. split; [lia|]. intros _ q (Hq & Hi & Hk & _).
    specialize (Hpj q ltac:(lia)). rewrite Hm, Hi, Hk in Hpj by lia. done.
  - rewrite Ha, land7, Z.add_0_r, Z.mod_small by lia.
    specialize (Hpb ltac:(lia)). rewrite Hm in Hpb by lia. apply andb_true_iff in Hpb as [Hi Hk].
    destruct (Z.ltb_spec p c).
    + exists p. split; [done|]. split; [|lia]. intros _.
      split; [lia|]. split; [done|]. split; [by apply negb_true_iff|]. split.
      * intros j Hj Hij. specialize (Hpj j ltac:(lia)). rewrite Hm, Hij in Hpj by lia.
        by destruct (Z.testbit (imr s) j).
      * intros j Hj. apply Hcj. lia.
    + exists (-1). split; [done|]. split; [lia|]. intros _ q (Hq & Hqi & Hqk & Hql & Hqs).
      specialize (Hcb ltac:(lia)). rewrite (Hqs c) in Hcb; [done|].
      destruct (decide (p <= q)); [lia|].
      specialize (Hpj q ltac:(lia)). rewrite Hm, Hqi, Hqk in Hpj by lia. done.
Qed.

(** With fixed priorities and outside the special nested mode, the chip
    asks for an interrupt exactly when an unmasked request outranks everything
    in service, and then for the most urgent such request. *)
Theorem pic_get_irq_spec master s :
  wf_pic s -> priority_add s = 0 -> special_fully_nested_mode s = 0 ->
  exists r, pic_get_irq master s = Some r /\
    (0 <= r -> pic_wants s r) /\ (r < 0 -> forall q, ~ pic_wants s q).
Proof. apply pic_get_irq_ok. Qed.

Lemma pic_get_irq_spec_witness :
  exists r, pic_get_irq true (MkPic 0 0x0a 0x02 0x10 0 0x20 0 0 0 0 0 0 0 0 0 0) = Some r /\
    (0 <= r -> pic_wants (MkPic 0 0x0a 0x02 0x10 0 0x20 0 0 0 0 0 0 0 0 0 0) r) /\
    (r < 0 -> forall q, ~ pic_wants (MkPic 0 0x0a 0x02 0x10 0 0x20 0 0 0 0 0 0 0 0 0 0) q).
Proof.
  apply (pic_get_irq_spec true (MkPic 0 0x0a 0x02 0x10 0 0x20 0 0 0 0 0 0 0 0 0 0)); [|done..].
  split; cbn; unfold is_u8; lia.
Defined.
