(* ===== verification/Port.v ===== *)
(** Port I/O: what a driver of the kernel promises to use and a device model
    promises to provide.  The primitives are those of
    src/sysv3/kernel/arch/i386/cpu/io.c; an instance says which machine answers
    them. *)
From S2P Require Import Prelude I8259.

Class PortIO (S : Type) := {
  inportb : Z -> M S Z;
  outportb : Z -> Z -> M S unit;
  inportw : Z -> M S Z;
  outportw : Z -> Z -> M S unit
}.

(** [default_ioport_readw] and [default_ioport_writew] of src/sysvm/vl.c: a port that
    has no 16-bit access gets two of its bytes. *)
Definition default_ioport_readw {S} (inb : Z -> M S Z) (address : Z) : M S Z :=
  data <- inb address ;;
  high <- inb (Z.land (address + 1) 0xffff) ;;
  ret (Z.lor data (Z.shiftl high 8)).
Definition default_ioport_writew {S} (outb : Z -> Z -> M S unit) (address data : Z) : M S unit :=
  outb address (Z.land data 0xff) ;;;
  outb (Z.land (address + 1) 0xffff) (Z.land (Z.shiftr data 8) 0xff).

(** The machine that has only the interrupt controllers. *)
#[export] Instance pic_ports : PortIO PicState2 := {
  inportb := pic_inb;
  outportb port val := pic_outb port (u8 val);
  inportw := default_ioport_readw pic_inb;
  outportw port val := default_ioport_writew pic_outb port (u16 val)
}.
