(* ===== verification/Irq.v ===== *)
(** Interrupt dispatch of the kernel, src/sysv3/kernel/arch/i386/cpu/irq.c, on
    a machine that answers port I/O.

    A handler is named by a number; what calling it does to the machine is the
    argument [call] of [isr_entry].  The console messages of [MSG] are not part
    of this state. *)
From S2P Require Import Prelude I8259 Port.

(** [struct Register] of <irq.h>: the fields the dispatcher reads. *)
Record Register := Reg { intn : Z; err : Z }.

(** The static data of irq.c, the processor's interrupt flag and the machine
    behind the ports. *)
Record irq_state (S : Type) := MkIrq {
  isr_handler : list (option nat);
  irq_handler : list (option nat);
  syscall : option nat;
  iflag : bool;
  io : S
}.
Arguments MkIrq {S}. Arguments isr_handler {S}. Arguments irq_handler {S}.
Arguments syscall {S}. Arguments iflag {S}. Arguments io {S}.

Section Irq.
Context {S : Type} `{PortIO S}.

Definition outb (port val : Z) : M (irq_state S) unit :=
  zoom io (fun x s => MkIrq (isr_handler s) (irq_handler s) (syscall s) (iflag s) x)
       (outportb port val).
Definition inb (port : Z) : M (irq_state S) Z :=
  zoom io (fun x s => MkIrq (isr_handler s) (irq_handler s) (syscall s) (iflag s) x)
       (inportb port).

(** [local_irq_save] and [local_irq_restore]. *)
Definition local_irq_save : M (irq_state S) bool :=
  s <- get ;;
  put (MkIrq (isr_handler s) (irq_handler s) (syscall s) false (io s)) ;;;
  ret (iflag s).
Definition local_irq_restore (flags : bool) : M (irq_state S) unit :=
  modify (fun s => MkIrq (isr_handler s) (irq_handler s) (syscall s) flags (io s)).

Definition irq_eoi (irq : Z) : M (irq_state S) unit :=
  (if 8 <=? irq then outb 0xA0 0x20 else ret tt) ;;;
  outb 0x20 0x20.

Definition isr_install (index : Z) (handler : option nat) : M (irq_state S) unit :=
  s <- get ;;
  l <- of_option OutOfBounds (aset (isr_handler s) index handler) ;;
  put (MkIrq l (irq_handler s) (syscall s) (iflag s) (io s)).

(** The switch of [irq_mask] on the line number: the new mask word. *)
Definition mask_word (irq : Z) (enabled : bool) (mask_word : Z) : Z :=
  let set clr bit := if enabled then Z.land mask_word clr else Z.lor mask_word bit in
  if (irq =? 1) || (irq =? 9) then set 0xFD 0x02
  else if (irq =? 0) || (irq =? 8) then set 0xFE 0x01
  else if (irq =? 2) || (irq =? 10) then set 0xFB 0x04
  else if (irq =? 3) || (irq =? 11) then set 0xF7 0x08
  else if (irq =? 4) || (irq =? 12) then set 0xef 0x10
  else if (irq =? 5) || (irq =? 13) then set 0xdf 0x20
  else if (irq =? 6) || (irq =? 14) then set 0xBF 0x40
  else if (irq =? 7) || (irq =? 15) then set 0x7F 0x80
  else mask_word.

Definition irq_mask (irq : Z) (enabled : bool) : M (irq_state S) unit :=
  if (irq <? 0) || (15 <? irq) then ret tt
  else
    flags <- local_irq_save ;;
    w <- (if irq <? 8 then inb 0x21 else inb 0xA1) ;;
    let w := u8 (mask_word irq enabled (u8 w)) in
    (if irq <? 8 then outb 0x21 w else outb 0xA1 w) ;;;
    local_irq_restore flags.

Definition irq_install (index : Z) (handler : option nat) : M (irq_state S) unit :=
  s <- get ;;
  l <- of_option OutOfBounds (aset (irq_handler s) index handler) ;;
  put (MkIrq (isr_handler s) l (syscall s) (iflag s) (io s)) ;;;
  match handler with
  | Some _ => irq_mask index true
  | None => irq_mask index false
  end.

Definition isr_install_syscall (handler : option nat) : M (irq_state S) unit :=
  modify (fun s => MkIrq (isr_handler s) (irq_handler s) handler (iflag s) (io s)).

(** [isr_entry]: what the assembly stubs of isr.s call with the saved
    registers.  [intn] is unsigned. *)
Definition isr_entry (call : nat -> Register -> M (irq_state S) unit) (regs : Register)
  : M (irq_state S) unit :=
  s <- get ;;
  if (0 <=? intn regs) && (intn regs <=? 31) then
    h <- of_option OutOfBounds (aget (isr_handler s) (intn regs)) ;;
    match h with
    | None => stop Panicked
    | Some f => call f regs
    end
  else if (32 <=? intn regs) && (intn regs <=? 47) then
    let irq := intn regs - 32 in
    h <- of_option OutOfBounds (aget (irq_handler s) irq) ;;
    match h with Some f => call f regs | None => ret tt end ;;;
    irq_eoi irq
  else if intn regs =? 0x80 then
    h <- of_option OutOfBounds (aget (isr_handler s) (intn regs)) ;;
    match h with Some f => call f regs | None => stop NullDeref end
  else ret tt.

Definition pic_init : M (irq_state S) unit :=
  (* Master Initialization *)
  outb 0x20 0x11 ;;; outb 0x21 0x20 ;;; outb 0x21 0x04 ;;; outb 0x21 0x01 ;;;
  (* Slave Initialization *)
  outb 0xA0 0x11 ;;; outb 0xA1 0x28 ;;; outb 0xA1 0x02 ;;; outb 0xA1 0x01 ;;;
  (* Enable PIC *)
  outb 0x21 0xFB ;;; outb 0xA1 0xFF.

Definition pic_enable : M (irq_state S) unit := outb 0x21 0x00 ;;; outb 0xA1 0x00.
Definition pic_disable : M (irq_state S) unit := outb 0x21 0xFF ;;; outb 0xA1 0xFF.

Definition irq_init : M (irq_state S) unit := pic_init.
End Irq.

(** The tables of the kernel image: 32 exception and 16 interrupt handlers. *)
Definition irq_tables {S} (s : irq_state S) : Prop :=
  length (isr_handler s) = 32%nat /\ length (irq_handler s) = 16%nat.

(** * The kernel on the emulated controllers *)

Abbreviation machine := (irq_state PicState2).

(** A chip with vectors at [base], interrupt mask [m], no request and nothing
    in service. *)
Definition chip (base m em : Z) : PicState := MkPic 0 0 m 0 0 base 0 0 0 0 0 0 0 1 0 em.

(** Whatever state the firmware left the controllers in, [irq_init] maps
    IRQ 0-7 to vectors 0x20-0x27 and IRQ 8-15 to 0x28-0x2F, clears requests
    and in-service bits, and masks every line but the cascade. *)
Theorem irq_init_remaps (s : machine) :
  elcr (pic0 (io s)) = 0 -> elcr (pic1 (io s)) = 0 ->
  exists reqs, irq_init s =
    Ok tt (MkIrq (isr_handler s) (irq_handler s) (syscall s) (iflag s)
      (MkPic2 (chip 0x20 0xFB (elcr_mask (pic0 (io s))))
              (chip 0x28 0xFF (elcr_mask (pic1 (io s)))) reqs (alt_irq (io s)))).
Proof.
  destruct s as [isrh irqh sc fl [[] [] reqs alt]]; cbn. intros -> ->.
  exists (0 :: 0 :: reqs). vm_compute. reflexivity.
Qed.

Lemma irq_init_remaps_witness :
  exists reqs, irq_init (MkIrq [] [] None false I8259.pic_init) =
    Ok tt (MkIrq [] [] None false
      (MkPic2 (chip 0x20 0xFB 0xf8) (chip 0x28 0xFF 0xde) reqs None)).
Proof. apply (irq_init_remaps (MkIrq [] [] None false I8259.pic_init)); reflexivity. Defined.

(** ** Masking *)

(** Line [k] (0-15) of the pair is masked. *)
Definition masked (p : PicState2) (k : Z) : bool :=
  Z.testbit (imr (pics p (Z.shiftr k 3))) (Z.land k 7).

(** [pic_update_irq] only touches the request latches of the master. *)
Lemma update_shape p :
  wf_pic2 p ->
  exists a b reqs, pic_update_irq p =
    Ok tt (MkPic2 (set_last_irr a (set_irr b (pic0 p))) (pic1 p) reqs (alt_irq p)).
Proof.
  intros Hp. unfold pic_update_irq.
  destruct (keeps_get_irq 1 p Hp) as (r2 & p2 & E2 & Hp2 & _).
  assert (p2 = p) as -> by eauto using get_irq_state.
  rewrite (bind_ok _ _ _ _ _ E2).
  set (up := if 0 <=? r2 then _ else _).
  assert (exists a b, up p =
    Ok tt (MkPic2 (set_last_irr a (set_irr b (pic0 p))) (pic1 p) (irq_request p) (alt_irq p)))
    as (a & b & Eup).
  { subst up. destruct (0 <=? r2).
    - destruct p as [[] p1 rq al]. cbv [bind upd_pic modify set_pics pics pic0 pic1 Z.eqb].
      unfold pic_set_irq1. repeat (case_match; cbn in * ); eexists _, _; reflexivity.
    - exists (last_irr (pic0 p)), (irr (pic0 p)). by destruct p as [[] p1 rq al]. }
  rewrite (bind_ok _ _ _ _ _ Eup).
  assert (wf_pic2 (MkPic2 (set_last_irr a (set_irr b (pic0 p))) (pic1 p) (irq_request p) (alt_irq p)))
    as Hwf.
  { subst up. assert (keeps (fun _ => True) (if 0 <=? r2
      then upd_pic 0 (pic_set_irq1 2 1);;; upd_pic 0 (pic_set_irq1 2 0) else ret tt)) as Hk
      by keeps_solve.
    destruct (Hk p Hp) as (? & ? & E & ? & _). rewrite E in Eup. by simplify_eq. }
  destruct (keeps_get_irq 0 _ Hwf) as (r & p3 & E3 & _ & _).
  assert (p3 = MkPic2 (set_last_irr a (set_irr b (pic0 p))) (pic1 p) (irq_request p) (alt_irq p))
    as -> by eauto using get_irq_state.
  rewrite (bind_ok _ _ _ _ _ E3). exists a, b. case_match; eexists; reflexivity.
Qed.

Lemma update_frame p :
  wf_pic2 p ->
  exists p', pic_update_irq p = Ok tt p' /\ wf_pic2 p' /\ pic1 p' = pic1 p /\
    exists a b, pic0 p' = set_last_irr a (set_irr b (pic0 p)).
Proof.
  intros Hp. destruct (update_shape p Hp) as (a & b & rq & E).
  destruct (keeps_update p Hp) as (u & p' & E' & Hp' & _).
  assert (p' = MkPic2 (set_last_irr a (set_irr b (pic0 p))) (pic1 p) rq (alt_irq p)) as ->
    by congruence.
  eexists. split; [exact E|]. split; [done|]. split; [done|]. by exists a, b.
Qed.

(** The switch of [irq_mask] changes the one bit of the line. *)
Lemma mask_word_testbit irq en w j :
  0 <= irq <= 15 -> 0 <= j < 8 -> is_u8 w ->
  Z.testbit (mask_word irq en w) j = if decide (j = irq mod 8) then negb en else Z.testbit w j.
Proof.
  intros Hi Hj Hw.
  assert (j = 0 \/ j = 1 \/ j = 2 \/ j = 3 \/ j = 4 \/ j = 5 \/ j = 6 \/ j = 7) as Hj' by lia.
  assert (irq = 0 \/ irq = 1 \/ irq = 2 \/ irq = 3 \/ irq = 4 \/ irq = 5 \/ irq = 6 \/ irq = 7 \/
          irq = 8 \/ irq = 9 \/ irq = 10 \/ irq = 11 \/ irq = 12 \/ irq = 13 \/ irq = 14 \/
          irq = 15) as Hi' by lia.
  clear Hi Hj. destruct_or! Hi'; subst irq; destruct en;
    cbv [mask_word orb Z.eqb Pos.eqb];
    rewrite ?Z.land_spec, ?Z.lor_spec; destruct_or! Hj'; subst j;
    (rewrite ?andb_true_r, ?andb_false_r, ?orb_true_r, ?orb_false_r ||idtac); 
    cbn [Z.testbit Pos.testbit Pos.pred_N N.testbit];
    rewrite ?andb_true_r, ?andb_false_r, ?orb_true_r, ?orb_false_r; done.
Qed.

Lemma shiftr3 k : Z.shiftr k 3 = k / 8.
Proof. by rewrite Z.shiftr_div_pow2. Qed.

(** The controllers accept mask words: initialised, and not in poll mode. *)
Definition pic_ready (p : PicState2) : Prop :=
  wf_pic2 p /\ init_state (pic0 p) = 0 /\ init_state (pic1 p) = 0 /\
  poll (pic0 p) = 0 /\ poll (pic1 p) = 0.

(** The mask word of a chip read and written back through its data port. *)
Lemma rewrite_mask (p : PicState2) (i : Z) (port : Z) f :
  pic_ready p -> (i = 0 /\ port = 0x21) \/ (i = 1 /\ port = 0xA1) ->
  exists p', pic_inb port p = Ok (imr (pics p i)) p /\
    pic_outb port (u8 (u8 (f (u8 (imr (pics p i)))))) p = Ok tt p' /\
    pic_ready p' /\ imr (pics p' i) = u8 (f (imr (pics p i))) /\
    imr (pics p' (1 - i)) = imr (pics p (1 - i)).
Proof.
  intros (Hwf & Hi0 & Hi1 & Hp0 & Hp1) Hport.
  assert (is_u8 (imr (pics p i))) as Hm by (by destruct (wf_pics i p Hwf)).
  rewrite (u8_small (imr _)), u8_u8 by done.
  set (q := set_pics i (set_imr (u8 (f (imr (pics p i)))) (pics p i)) p).
  assert (wf_pic2 q) as Hq.
  { pose proof (wf_pics i p Hwf). destruct Hwf.
    subst q; unfold set_pics; destruct (i =? 0); split; cbn; wf_upd. }
  destruct (update_frame q Hq) as (p' & Eu & Hp' & E1 & a & b & E0).
  exists p'. destruct p as [c0 c1 rq al]. cbn in Hi0, Hi1, Hp0, Hp1.
  destruct Hport as [[-> ->]|[-> ->]].
  - split; [unfold pic_inb, pic_ioport_read, bind, get; cbn; by rewrite Hp0|].
    split; [unfold pic_outb, pic_ioport_write, bind, get; cbn; rewrite u8_u8, Hi0; exact Eu|].
    unfold pics. cbn. rewrite E1, E0. unfold pic_ready. rewrite E1, E0. by destruct Hwf.
  - split; [unfold pic_inb, pic_ioport_read, bind, get; cbn; by rewrite Hp1|].
    split; [unfold pic_outb, pic_ioport_write, bind, get; cbn; rewrite u8_u8, Hi1; exact Eu|].
    unfold pics. cbn. rewrite E1, E0. unfold pic_ready. rewrite E1, E0. by destruct Hwf.
Qed.

(** On initialised controllers, [irq_mask] masks or unmasks exactly the
    requested line: the other fifteen keep their state, the handler tables are
    untouched and the interrupt flag is restored. *)
Theorem irq_mask_one_line (s : machine) irq en :
  pic_ready (io s) -> 0 <= irq <= 15 ->
  exists p', irq_mask irq en s =
      Ok tt (MkIrq (isr_handler s) (irq_handler s) (syscall s) (iflag s) p') /\
    pic_ready p' /\
    forall k, 0 <= k <= 15 ->
      masked p' k = if decide (k = irq) then negb en else masked (io s) k.
Proof.
  intros Hr Hirq. unfold irq_mask.
  destruct (Z.ltb_spec irq 0); [lia|]. destruct (Z.ltb_spec 15 irq); [lia|]. cbn [orb].
  set (i := if irq <? 8 then 0 else 1). set (port := if irq <? 8 then 0x21 else 0xA1).
  destruct (rewrite_mask (io s) i port (mask_word irq en) Hr) as (p' & Hin & Hout & Hr' & Hm & Ho).
  { subst i port. destruct (irq <? 8); auto. }
  exists p'. split.
  - subst i port. destruct s as [h1 h2 h3 h4 h5]. unfold local_irq_save, local_irq_restore, inb, outb.
    cbn [io] in *. destruct (irq <? 8); unfold bind, get, put, ret, zoom, modify; cbn -[u8 pic_inb pic_outb mask_word pics];
      rewrite Hin; cbn -[u8 pic_inb pic_outb mask_word pics]; by rewrite Hout.
  - split; [done|]. intros k Hk. unfold masked. rewrite shiftr3, land7.
    assert (k / 8 = i \/ k / 8 = 1 - i) as Hki.
    { subst i. destruct (Z.ltb_spec irq 8); Z.div_mod_to_equations; lia. }
    pose proof (Z.mod_pos_bound k 8 ltac:(lia)).
    destruct Hki as [E|E]; rewrite E.
    + assert (is_u8 (imr (pics (io s) i))) by (destruct Hr as [Hwf _]; by destruct (wf_pics i _ Hwf)).
      rewrite Hm, u8_testbit, mask_word_testbit by done.
      assert (k mod 8 = irq mod 8 <-> k = irq); [|repeat case_decide; tauto].
      subst i. destruct (Z.ltb_spec irq 8); Z.div_mod_to_equations; lia.
    + rewrite Ho. rewrite decide_False; [done|].
      intros ->. subst i. destruct (Z.ltb_spec irq 8); Z.div_mod_to_equations; lia.
Qed.

Lemma irq_mask_one_line_witness :
  exists p', irq_mask 14 true (MkIrq [] [] None true
      (MkPic2 (chip 0x20 0xFB 0xf8) (chip 0x28 0xFF 0xde) [] None)) =
      Ok tt (MkIrq [] [] None true p') /\
    pic_ready p' /\
    forall k, 0 <= k <= 15 ->
      masked p' k = if decide (k = 14) then negb true
        else masked (MkPic2 (chip 0x20 0xFB 0xf8) (chip 0x28 0xFF 0xde) [] None) k.
Proof.
  apply (irq_mask_one_line (MkIrq [] [] None true
      (MkPic2 (chip 0x20 0xFB 0xf8) (chip 0x28 0xFF 0xde) [] None))); [|lia].
  unfold pic_ready, wf_pic2; cbn. repeat split; cbn; unfold is_u8; lia.
Defined.

(** ** Delivery *)

Lemma get_irq_none i p : irr (pics p i) = 0 -> get_irq i p = Ok (-1) p.
Proof.
  intros Hi. unfold get_irq, bind, get, pic_get_irq. rewrite Hi, Z.land_0_l. done.
Qed.

(** A single unmasked request, with nothing at least as urgent in service, is
    the one the chip wants. *)
Lemma get_irq_single i p n :
  wf_pic (pics p i) -> priority_add (pics p i) = 0 -> special_fully_nested_mode (pics p i) = 0 ->
  0 <= n < 8 -> irr (pics p i) = Z.shiftl 1 n -> Z.testbit (imr (pics p i)) n = false ->
  isr (pics p i) = 0 -> get_irq i p = Ok n p.
Proof.
  intros Hwf Ha Hs Hn Hi Hm Hsv. unfold get_irq, bind, get.
  destruct (pic_get_irq_ok (i =? 0) (pics p i) Hwf Ha Hs) as (r & -> & Hw & Hnone).
  cbn. unfold ret. f_equal.
  assert (pic_wants (pics p i) n) as Hwn.
  { split; [done|]. rewrite Hi, Hsv. split; [|split; [done|split]].
    - by rewrite shiftl1_testbit, Z.eqb_refl by lia.
    - intros j Hj. rewrite shiftl1_testbit by lia. destruct (Z.eqb_spec n j); [lia|done].
    - intros. apply Z.bits_0. }
  destruct (Z.lt_ge_cases r 0); [by destruct (Hnone ltac:(lia) n)|].
  destruct (Hw ltac:(lia)) as (? & Hri & _).
  rewrite Hi, shiftl1_testbit in Hri by lia. by apply Z.eqb_eq in Hri.
Qed.

(** The pair with vectors at 0x20 and 0x28 and masks [m0] and [m1], idle. *)
Definition quiet (m0 m1 em0 em1 : Z) (rq : list Z) (al : option (list (Z * Z))) : PicState2 :=
  MkPic2 (chip 0x20 m0 em0) (chip 0x28 m1 em1) rq al.

Definition note_alt (irq level : Z) (al : option (list (Z * Z))) : option (list (Z * Z)) :=
  match al with Some c => Some ((irq, level) :: c) | None => None end.

(** The pair while the handler of [irq] runs: its line is up and in service. *)
Definition serving (irq m0 m1 em0 em1 : Z) (rq : list Z) (al : option (list (Z * Z))) : PicState2 :=
  if irq <? 8 then
    MkPic2 (MkPic (Z.shiftl 1 irq) 0 m0 (Z.shiftl 1 irq) 0 0x20 0 0 0 0 0 0 0 1 0 em0)
           (chip 0x28 m1 em1) rq al
  else
    MkPic2 (MkPic 0 0 m0 (Z.shiftl 1 2) 0 0x20 0 0 0 0 0 0 0 1 0 em0)
           (MkPic (Z.shiftl 1 (irq - 8)) 0 m1 (Z.shiftl 1 (irq - 8)) 0 0x28 0 0 0 0 0 0 0 1 0 em1)
           rq al.

Lemma u8_bit n : 0 <= n < 8 -> u8 (Z.shiftl 1 n) = Z.shiftl 1 n.
Proof.
  intros Hn. apply u8_small. rewrite Z.shiftl_1_l. unfold is_u8.
  split; [lia|]. apply Z.pow_lt_mono_r; lia.
Qed.

Lemma is_u8_bit n : 0 <= n < 8 -> is_u8 (Z.shiftl 1 n).
Proof. intros Hn. rewrite <- u8_bit by done. apply u8_range. Qed.

Lemma line_up base m em n :
  0 <= n < 8 ->
  pic_set_irq1 n 1 (chip base m em) =
    MkPic (Z.shiftl 1 n) (Z.shiftl 1 n) m 0 0 base 0 0 0 0 0 0 0 1 0 em.
Proof.
  intros Hn. unfold pic_set_irq1, chip. cbn [elcr last_irr irr]. rewrite !Z.land_0_l. cbn.
  unfold set_last_irr, set_irr. cbn. by rewrite Z.lor_0_l, u8_bit.
Qed.

Lemma line_down base m em n :
  0 <= n < 8 ->
  pic_set_irq1 n 0 (MkPic (Z.shiftl 1 n) 0 m 0 0 base 0 0 0 0 0 0 0 1 0 em) = chip base m em.
Proof.
  intros Hn. unfold pic_set_irq1, chip. cbn [elcr last_irr irr]. rewrite !Z.land_0_l. cbn.
  unfold set_last_irr. cbn. by rewrite Z.land_lnot_diag.
Qed.

Lemma intack_single lir base m em n :
  0 <= n < 8 ->
  pic_intack n (MkPic lir (Z.shiftl 1 n) m 0 0 base 0 0 0 0 0 0 0 1 0 em) =
    MkPic lir 0 m (Z.shiftl 1 n) 0 base 0 0 0 0 0 0 0 1 0 em.
Proof.
  intros Hn. unfold pic_intack. cbn. unfold set_isr, set_irr. cbn.
  by rewrite Z.lor_0_l, u8_bit, Z.land_lnot_diag by done.
Qed.

Lemma update_idle p :
  irr (pic0 p) = 0 -> irr (pic1 p) = 0 -> pic_update_irq p = Ok tt p.
Proof.
  intros H0 H1. unfold pic_update_irq, bind. rewrite get_irq_none by done. cbn -[get_irq].
  unfold ret at 1. by rewrite get_irq_none.
Qed.

(** A non-specific EOI retires the only interrupt in service. *)
Lemma eoi_chip i p lir base m em n :
  (i = 0 \/ i = 1) -> pics p i = MkPic lir 0 m (Z.shiftl 1 n) 0 base 0 0 0 0 0 0 0 1 0 em ->
  0 <= n < 8 -> irr (pics p (1 - i)) = 0 ->
  pic_ioport_write i (if i =? 0 then 0x20 else 0xA0) 0x20 p =
    Ok tt (set_pics i (MkPic lir 0 m 0 0 base 0 0 0 0 0 0 0 1 0 em) p).
Proof.
  intros Hi Hp Hn Ho. unfold pic_ioport_write, bind, get.
  destruct (get_priority_fixed (pics p i) (isr (pics p i))) as (r & Er & Hr & Hrb & Hrj).
  { rewrite Hp. by apply is_u8_bit. } { by rewrite Hp. }
  rewrite Hp in Er, Hrb, Hrj. cbn [isr] in Er, Hrb, Hrj.
  assert (r = n) as ->.
  { destruct (decide (n < r)) as [Hlt|].
    - specialize (Hrj n ltac:(lia)). rewrite shiftl1_testbit, Z.eqb_refl in Hrj by lia. done.
    - specialize (Hrb ltac:(lia)). rewrite shiftl1_testbit in Hrb by lia.
      by apply Z.eqb_eq in Hrb. }
  assert (clear_isr (Z.land (n + 0) 7) (MkPic lir 0 m (Z.shiftl 1 n) 0 base 0 0 0 0 0 0 0 1 0 em) =
    MkPic lir 0 m 0 0 base 0 0 0 0 0 0 0 1 0 em) as Ec.
  { rewrite land7, Z.add_0_r, Z.mod_small by lia. unfold clear_isr, set_isr. cbn.
    by rewrite Z.land_lnot_diag. }
  assert (pic_update_irq (set_pics i (MkPic lir 0 m 0 0 base 0 0 0 0 0 0 0 1 0 em) p) =
    Ok tt (set_pics i (MkPic lir 0 m 0 0 base 0 0 0 0 0 0 0 1 0 em) p)) as Eu.
  { apply update_idle; destruct Hi as [-> | ->]; done. }
  change (Z.shiftr 0x20 5) with 1. change (Z.land 0x20 0x10) with 0.
  change (Z.land 0x20 0x08) with 0.
  replace (Z.land (if i =? 0 then 0x20 else 0xA0) 1) with 0 by (by destruct Hi as [-> | ->]).
  destruct Hi as [-> | ->]; cbn [Z.eqb]; cbn -[get_priority pic_update_irq clear_isr pics Z.shiftl];
    rewrite Hp; cbn [isr priority_add]; rewrite Er;
    cbn -[get_priority pic_update_irq clear_isr pics Z.shiftl];
    (destruct (Z.eqb_spec n 8); [lia|]); cbn -[pic_update_irq clear_isr pics set_pics Z.land];
    rewrite ?Hp, Ec; exact Eu.
Qed.

Lemma raise_master n m0 m1 em0 em1 rq al :
  0 <= n < 8 -> n <> 2 -> is_u8 m0 -> is_u8 m1 -> Z.testbit m0 n = false ->
  (pic_set_irq n 1 ;;; pic_read_irq) (quiet m0 m1 em0 em1 rq al) =
    Ok (0x20 + n) (serving n m0 m1 em0 em1 (1 :: rq) (note_alt n 1 al)).
Proof.
  intros Hn Hn2 H0 H1 Hm.
  set (p := MkPic2 (MkPic (Z.shiftl 1 n) (Z.shiftl 1 n) m0 0 0 0x20 0 0 0 0 0 0 0 1 0 em0)
              (chip 0x28 m1 em1) rq (note_alt n 1 al)).
  set (p1 := MkPic2 (pic0 p) (pic1 p) (1 :: rq) (note_alt n 1 al)).
  assert (forall q, q = p \/ q = p1 -> get_irq 0 q = Ok n q) as Hg.
  { pose proof (is_u8_bit n Hn).
    intros q [-> | ->]; apply get_irq_single; try done; split; cbn; unfold is_u8 in *; lia. }
  assert (pic_set_irq n 1 (quiet m0 m1 em0 em1 rq al) = Ok tt p1) as E.
  { unfold pic_set_irq, pic_set_irq_new, bind, upd_pic, modify, quiet.
    rewrite shiftr3, Z.div_small, land7, Z.mod_small by lia. cbn -[pic_update_irq].
    rewrite line_up by done. fold (note_alt n 1 al). fold p.
    unfold pic_update_irq, bind. rewrite get_irq_none by done. cbn -[get_irq].
    unfold ret at 1. rewrite Hg by auto. destruct (Z.leb_spec 0 n); [done|lia]. }
  rewrite (bind_ok _ _ _ _ _ E). unfold pic_read_irq.
  rewrite (bind_ok _ _ _ _ _ (Hg p1 ltac:(auto))).
  destruct (Z.leb_spec 0 n); [|lia]. destruct (Z.eqb_spec n 2); [lia|].
  unfold bind, upd_pic, modify, gets. cbn -[pic_update_irq].
  rewrite intack_single by done. rewrite update_idle by done.
  unfold serving. destruct (Z.ltb_spec n 8); [done|lia].
Qed.

Lemma raise_slave k m0 m1 em0 em1 rq al :
  0 <= k < 8 -> is_u8 m0 -> is_u8 m1 -> Z.testbit m0 2 = false -> Z.testbit m1 k = false ->
  (pic_set_irq (8 + k) 1 ;;; pic_read_irq) (quiet m0 m1 em0 em1 rq al) =
    Ok (0x28 + k) (serving (8 + k) m0 m1 em0 em1 (1 :: rq) (note_alt (8 + k) 1 al)).
Proof.
  intros Hk H0 H1 Hm0 Hm1. pose proof (is_u8_bit k Hk) as Hkb.
  set (c1 := MkPic (Z.shiftl 1 k) (Z.shiftl 1 k) m1 0 0 0x28 0 0 0 0 0 0 0 1 0 em1).
  set (c0 := MkPic 0 4 m0 0 0 0x20 0 0 0 0 0 0 0 1 0 em0).
  set (al' := note_alt (8 + k) 1 al).
  assert (forall c rq, irr c = 0 \/ c = c0 ->
    get_irq 1 (MkPic2 c c1 rq al') = Ok k (MkPic2 c c1 rq al')) as Hg1.
  { intros c rq' _. apply get_irq_single; try done; split; cbn; unfold is_u8 in *; lia. }
  assert (forall rq, get_irq 0 (MkPic2 c0 c1 rq al') = Ok 2 (MkPic2 c0 c1 rq al')) as Hg0.
  { intros rq'. apply get_irq_single; try done; split; cbn; unfold is_u8 in *; lia. }
  assert (pic_set_irq (8 + k) 1 (quiet m0 m1 em0 em1 rq al) =
          Ok tt (MkPic2 c0 c1 (1 :: rq) al')) as E.
  { unfold pic_set_irq, pic_set_irq_new, bind, upd_pic, modify, quiet.
    rewrite shiftr3, land7. replace ((8 + k) / 8) with 1 by (Z.div_mod_to_equations; lia).
    replace ((8 + k) mod 8) with k by (Z.div_mod_to_equations; lia).
    cbn -[pic_update_irq]. rewrite line_up by done. fold (note_alt (8 + k) 1 al). fold al' c1.
    unfold pic_update_irq, bind. rewrite Hg1 by auto.
    destruct (Z.leb_spec 0 k); [|lia].
    replace (upd_pic 0 (pic_set_irq1 2 1) _) with
      (@Ok PicState2 unit tt (MkPic2 (MkPic 4 4 m0 0 0 0x20 0 0 0 0 0 0 0 1 0 em0) c1 rq al'))
      by done.
    replace (upd_pic 0 (pic_set_irq1 2 0) _) with (@Ok PicState2 unit tt (MkPic2 c0 c1 rq al'))
      by done.
    by rewrite Hg0. }
  rewrite (bind_ok _ _ _ _ _ E). unfold pic_read_irq.
  rewrite (bind_ok _ _ _ _ _ (Hg0 _)). cbn [Z.leb Z.compare Z.eqb Pos.eqb].
  unfold bind at 1 2 3 4.
  replace (upd_pic 0 (pic_intack 2) _) with
    (@Ok PicState2 unit tt
      (MkPic2 (MkPic 0 0 m0 4 0 0x20 0 0 0 0 0 0 0 1 0 em0) c1 (1 :: rq) al')) by done.
  rewrite Hg1 by auto. destruct (Z.leb_spec 0 k); [|lia].
  unfold bind, upd_pic, modify, gets. cbn -[pic_update_irq]. unfold c1.
  rewrite intack_single by done. rewrite update_idle by done.
  unfold serving. destruct (Z.ltb_spec (8 + k) 8); [lia|].
  unfold ret. cbn. replace (8 + k - 8) with k by lia. done.
Qed.

(** The machine with other controllers. *)
Definition with_io (p : PicState2) (s : machine) : machine :=
  MkIrq (isr_handler s) (irq_handler s) (syscall s) (iflag s) p.
Definition chips {A} (m : M PicState2 A) : M machine A := zoom io with_io m.

(** After the end-of-interrupt sequence nothing is in service any more, and
    when the device lowers its line the pair is idle again. *)
Lemma retire n m0 m1 em0 em1 rq al (s : machine) :
  0 <= n <= 15 -> io s = serving n m0 m1 em0 em1 rq al ->
  (irq_eoi n ;;; chips (pic_set_irq n 0)) s =
    Ok tt (with_io (quiet m0 m1 em0 em1 rq (note_alt n 0 al)) s).
Proof.
  intros Hn Hio. unfold irq_eoi, serving in *.
  destruct (Z.leb_spec 8 n), (Z.ltb_spec n 8); try lia.
  - set (c1 := MkPic (Z.shiftl 1 (n - 8)) 0 m1 0 0 0x28 0 0 0 0 0 0 0 1 0 em1).
    set (p1 := MkPic2 (MkPic 0 0 m0 (Z.shiftl 1 2) 0 0x20 0 0 0 0 0 0 0 1 0 em0) c1 rq al).
    assert (outb 0xA0 0x20 s = Ok tt (with_io p1 s)) as E1.
    { unfold outb, zoom. rewrite Hio. cbn [outportb pic_ports]. change (u8 0x20) with 0x20.
      pose proof (eoi_chip 1 (io s)) as He. rewrite Hio in He. cbn -[pic_ioport_write] in *.
      by erewrite He by (auto; lia). }
    assert (outb 0x20 0x20 (with_io p1 s) =
            Ok tt (with_io (MkPic2 (chip 0x20 m0 em0) c1 rq al) s)) as E2.
    { unfold outb, zoom. cbn [outportb pic_ports io with_io]. change (u8 0x20) with 0x20.
      pose proof (eoi_chip 0 p1 0 0x20 m0 em0 2) as He. cbn -[pic_ioport_write] in *.
      by rewrite He by (auto; lia). }
    unfold bind. rewrite E1, E2. unfold chips, zoom.
    unfold pic_set_irq, pic_set_irq_new, bind, upd_pic, modify. cbn [io with_io].
    rewrite shiftr3, land7. replace (n / 8) with 1 by (Z.div_mod_to_equations; lia).
    replace (n mod 8) with (n - 8) by (Z.div_mod_to_equations; lia).
    cbn -[pic_update_irq]. unfold c1. rewrite line_down, update_idle by (lia || done). done.
  - set (c0 := MkPic (Z.shiftl 1 n) 0 m0 0 0 0x20 0 0 0 0 0 0 0 1 0 em0).
    assert (outb 0x20 0x20 s = Ok tt (with_io (MkPic2 c0 (chip 0x28 m1 em1) rq al) s)) as E2.
    { unfold outb, zoom. rewrite Hio. cbn [outportb pic_ports]. change (u8 0x20) with 0x20.
      pose proof (eoi_chip 0 (io s)) as He. rewrite Hio in He. cbn -[pic_ioport_write] in *.
      by erewrite He by (auto; lia). }
    unfold bind, ret. rewrite E2. unfold chips, zoom.
    unfold pic_set_irq, pic_set_irq_new, bind, upd_pic, modify. cbn [io with_io].
    rewrite shiftr3, land7, Z.div_small, Z.mod_small by lia.
    cbn -[pic_update_irq]. unfold c0. rewrite line_down, update_idle by (lia || done). done.
Qed.

(** One interrupt of device line [irq]: the line goes up, the processor takes
    the vector and runs the kernel's entry point, the line goes down. *)
Definition interrupt (call : nat -> Register -> M machine unit) (irq : Z) : M machine unit :=
  chips (pic_set_irq irq 1) ;;;
  v <- chips pic_read_irq ;;
  isr_entry call (Reg v 0) ;;;
  chips (pic_set_irq irq 0).

(** C38: an interrupt on an unmasked line with an installed handler, on idle
    controllers set up by the kernel: the processor gets vector 0x20+irq, the
    dispatcher calls exactly the handler installed for that line while the line
    is in service, the end-of-interrupt sequence retires it at both chips, and
    the controllers are idle again, ready for the next interrupt. *)
Theorem interrupt_delivered call irq h (s s' : machine) m0 m1 em0 em1 rq al :
  0 <= irq <= 15 -> irq <> 2 -> irq_tables s -> is_u8 m0 -> is_u8 m1 ->
  io s = quiet m0 m1 em0 em1 rq al ->
  masked (io s) irq = false -> masked (io s) 2 = false ->
  irq_handler s !! Z.to_nat irq = Some (Some h) ->
  let p := serving irq m0 m1 em0 em1 (1 :: rq) (note_alt irq 1 al) in
  call h (Reg (0x20 + irq) 0) (with_io p s) = Ok tt s' -> io s' = p ->
  interrupt call irq s =
    Ok tt (with_io (quiet m0 m1 em0 em1 (1 :: rq) (note_alt irq 0 (note_alt irq 1 al))) s').
Proof.
  intros Hirq Hn2 [_ Hlen] H0 H1 Hio Hm Hm2 Hh p Hcall Hio'.
  rewrite Hio in Hm, Hm2. unfold masked in Hm, Hm2. rewrite shiftr3, land7 in Hm.
  assert ((pic_set_irq irq 1 ;;; pic_read_irq) (io s) = Ok (0x20 + irq) p) as Hraise.
  { rewrite Hio. subst p. destruct (decide (irq < 8)).
    - rewrite Z.div_small, Z.mod_small in Hm by lia. apply raise_master; done || lia.
    - replace irq with (8 + (irq - 8)) by lia.
      replace (irq / 8) with 1 in Hm by (Z.div_mod_to_equations; lia).
      replace (irq mod 8) with (irq - 8) in Hm by (Z.div_mod_to_equations; lia).
      rewrite raise_slave; try done; try lia. f_equal. lia. }
  apply bind_inv in Hraise as (u & p0 & Eset & Eread).
  unfold interrupt, bind at 1, chips at 1, zoom at 1. rewrite Eset.
  unfold bind at 1, chips at 1, zoom at 1. cbn [io with_io]. rewrite Eread.
  assert (isr_entry call (Reg (0x20 + irq) 0) (with_io p (with_io p0 s)) =
          irq_eoi irq s') as Eentry.
  { unfold isr_entry, bind, get. cbn [intn].
    destruct (Z.leb_spec 0 (0x20 + irq)); [|lia]. destruct (Z.leb_spec (0x20 + irq) 31); [lia|].
    destruct (Z.leb_spec 32 (0x20 + irq)); [|lia]. destruct (Z.leb_spec (0x20 + irq) 47); [|lia].
    cbn [andb]. replace (0x20 + irq - 32) with irq by lia.
    unfold aget. rewrite decide_True by lia. cbn [irq_handler with_io]. rewrite Hh.
    cbn [of_option ret]. change (with_io p (with_io p0 s)) with (with_io p s).
    by rewrite Hcall. }
  rewrite <- (retire irq m0 m1 em0 em1 (1 :: rq) (note_alt irq 1 al) s') by done.
  unfold bind. by rewrite Eentry.
Qed.

Definition demo_machine : machine :=
  MkIrq (replicate 32 None) (replicate 14 None ++ [Some 7%nat; None]) None true
        (quiet 0xFB 0xBF 0xf8 0xde [] None).

Lemma interrupt_delivered_witness :
  interrupt (fun _ _ => ret tt) 14 demo_machine =
    Ok tt (with_io (quiet 0xFB 0xBF 0xf8 0xde [1] None)
      (with_io (serving 14 0xFB 0xBF 0xf8 0xde [1] None) demo_machine)).
Proof.
  apply (interrupt_delivered (fun _ _ => ret tt) 14 7 demo_machine
    (with_io (serving 14 0xFB 0xBF 0xf8 0xde [1] None) demo_machine)
    0xFB 0xBF 0xf8 0xde [] None);
    try reflexivity; try lia; try (unfold is_u8; lia). split; reflexivity.
Defined.

(** The vector of the system call gate is outside the table [isr_entry]
    indexes with it: whatever [isr_install_syscall] has recorded, a system call
    reads past the end of [isr_handler]. *)
Theorem isr_entry_syscall_faults call e (s : machine) :
  irq_tables s -> isr_entry call (Reg 0x80 e) s = Err OutOfBounds.
Proof.
  intros [Hl _]. unfold isr_entry, bind, get. cbn [intn]. cbn -[aget].
  replace (aget (isr_handler s) 128) with (@None (option nat)); [done|].
  unfold aget. rewrite decide_True by lia. symmetry. apply lookup_ge_None_2. lia.
Qed.

Lemma isr_entry_syscall_faults_witness :
  isr_entry (fun _ _ => ret tt) (Reg 0x80 0) demo_machine = Err OutOfBounds.
Proof. apply (isr_entry_syscall_faults (fun _ _ => ret tt) 0 demo_machine). split; reflexivity. Defined.
