(* ===== verification/Layout.v ===== *)
(** The on-disk structures of the Micron File System and their bytes: the
    super block and the inode, as declared for the kernel in
    src/sysv3/kernel/filesys/fs/mfs.h and for the image builder in
    src/sysv3/mkmfs/mfs.h.  Both compile them for i386: little endian, the
    fields in order; the inode is packed, and the super block needs no padding. *)
From S2P Require Import Prelude.

(** * Little endian fields *)

Fixpoint le_bytes (n : nat) (z : Z) : list Z :=
  match n with
  | O => []
  | S n' => z mod 256 :: le_bytes n' (z / 256)
  end.

Fixpoint le_val (l : list Z) : Z :=
  match l with
  | [] => 0
  | b :: l' => b + 256 * le_val l'
  end.

Lemma length_le_bytes n z : length (le_bytes n z) = n.
Proof. revert z. induction n; intros; simpl; [done|]. by rewrite IHn. Qed.

Lemma le_val_bytes n z : le_val (le_bytes n z) = z mod 256 ^ Z.of_nat n.
Proof.
  revert z. induction n as [|n IH]; intros z; simpl; [by rewrite Z.mod_1_r|].
  rewrite IH, Nat2Z.inj_succ, Z.pow_succ_r by lia.
  rewrite (Z.mul_comm 256 (256 ^ _)), Z.mul_comm.
  pose proof (Z.pow_pos_nonneg 256 (Z.of_nat n)).
  rewrite (Z.mul_comm (256 ^ _) 256), Z.rem_mul_r by lia. lia.
Qed.

Lemma le_bytes_val l : Forall is_u8 l -> le_bytes (length l) (le_val l) = l.
Proof.
  unfold is_u8. induction 1 as [|b l Hb Hl IH]; [done|]. simpl. f_equal.
  - rewrite Z.mul_comm, Z_mod_plus_full. apply Z.mod_small. lia.
  - rewrite Z.mul_comm, Z.div_add, Z.div_small by lia. by rewrite Z.add_0_l.
Qed.

Lemma le_bytes_u8 n z : Forall is_u8 (le_bytes n z).
Proof.
  revert z. induction n; intros; simpl; constructor; [|done].
  unfold is_u8. pose proof (Z.mod_pos_bound z 256). lia.
Qed.

(** * Inodes *)

Definition NVNAMLEN : Z := 68.

(** [struct mfs_inode]. *)
Record mfs_inode := Inode {
  i_name : list Z;  (* NVNAMLEN bytes *)
  i_ino : Z; i_mode : Z; i_nlink : Z; i_uid : Z; i_gid : Z; i_rdev : Z; i_size : Z;
  i_atime : Z; i_mtime : Z; i_ctime : Z; i_blkentry : Z; i_blocks : Z;
  i_next : Z; i_parent : Z; i_child : Z; i_expand : Z
}.

Definition sizeof_inode : nat := 128.

Definition encode_inode (i : mfs_inode) : list Z :=
  i_name i ++ le_bytes 4 (i_ino i) ++ le_bytes 4 (i_mode i) ++ le_bytes 4 (i_nlink i) ++
  le_bytes 2 (i_uid i) ++ le_bytes 2 (i_gid i) ++ le_bytes 4 (i_rdev i) ++
  le_bytes 4 (i_size i) ++ le_bytes 4 (i_atime i) ++ le_bytes 4 (i_mtime i) ++
  le_bytes 4 (i_ctime i) ++ le_bytes 4 (i_blkentry i) ++ le_bytes 4 (i_blocks i) ++
  le_bytes 4 (i_next i) ++ le_bytes 4 (i_parent i) ++ le_bytes 4 (i_child i) ++
  le_bytes 4 (i_expand i).

(** The [n]-byte field at offset [off]. *)
Definition field (off n : nat) (b : list Z) : Z := le_val (take n (drop off b)).

Definition decode_inode (b : list Z) : mfs_inode :=
  Inode (take 68 b) (field 68 4 b) (field 72 4 b) (field 76 4 b) (s16 (field 80 2 b))
    (s16 (field 82 2 b)) (s32 (field 84 4 b)) (field 88 4 b) (field 92 4 b) (field 96 4 b)
    (field 100 4 b) (s32 (field 104 4 b)) (s32 (field 108 4 b)) (field 112 4 b)
    (field 116 4 b) (field 120 4 b) (field 124 4 b).

(** The field values a C program can hold in the structure. *)
Record wf_inode (i : mfs_inode) : Prop := {
  wf_name : length (i_name i) = 68%nat /\ Forall is_u8 (i_name i);
  wf_ino : is_u32 (i_ino i); wf_mode : is_u32 (i_mode i); wf_nlink : is_u32 (i_nlink i);
  wf_uid : - 2 ^ 15 <= i_uid i < 2 ^ 15; wf_gid : - 2 ^ 15 <= i_gid i < 2 ^ 15;
  wf_rdev : is_s32 (i_rdev i); wf_size : is_u32 (i_size i);
  wf_times : is_u32 (i_atime i) /\ is_u32 (i_mtime i) /\ is_u32 (i_ctime i);
  wf_blkentry : is_s32 (i_blkentry i); wf_blocks : is_s32 (i_blocks i);
  wf_links : is_u32 (i_next i) /\ is_u32 (i_parent i) /\ is_u32 (i_child i) /\ is_u32 (i_expand i)
}.

Lemma length_encode_inode i : length (i_name i) = 68%nat -> length (encode_inode i) = 128%nat.
Proof.
  intros H. unfold encode_inode. rewrite !length_app, !length_le_bytes, H. done.
Qed.

Lemma field_here n z l : field 0 n (le_bytes n z ++ l) = z mod 256 ^ Z.of_nat n.
Proof.
  unfold field. rewrite drop_0, take_app_length' by (by rewrite length_le_bytes).
  apply le_val_bytes.
Qed.

Lemma field_skip off n k z l :
  (k <= off)%nat -> field off n (le_bytes k z ++ l) = field (off - k) n l.
Proof.
  intros H. unfold field. rewrite drop_app_ge by (by rewrite length_le_bytes).
  by rewrite length_le_bytes.
Qed.

Lemma field_skip_name off n name l :
  length name = 68%nat -> (68 <= off)%nat -> field off n (name ++ l) = field (off - 68) n l.
Proof. intros H Ho. unfold field. rewrite drop_app_ge by lia. by rewrite H. Qed.

Lemma field_u32 z l : is_u32 z -> field 0 4 (le_bytes 4 z ++ l) = z.
Proof. intros H. rewrite field_here. by apply u32_small in H. Qed.

Lemma field_s32 z l : is_s32 z -> s32 (field 0 4 (le_bytes 4 z ++ l)) = z.
Proof.
  intros H. rewrite field_here. change (256 ^ Z.of_nat 4) with (2 ^ 32). fold (u32 z).
  by rewrite s32_u32, s32_small.
Qed.

Lemma field_s16 z l : - 2 ^ 15 <= z < 2 ^ 15 -> s16 (field 0 2 (le_bytes 2 z ++ l)) = z.
Proof. intros H. rewrite field_here. change (256 ^ Z.of_nat 2) with (2 ^ 16). int_lia. Qed.

Lemma decode_encode_inode i : wf_inode i -> decode_inode (encode_inode i) = i.
Proof.
  intros [[Hn Hn8] ? ? ? ? ? ? ? (? & ? & ?) ? ? (? & ? & ? & ?)].
  unfold decode_inode, encode_inode.
  rewrite take_app_length' by done.
  destruct i as [nm a1 a2 a3 a4 a5 a6 a7 a8 a9 b1 b2 b3 b4 b5 b6 b7]; cbn [i_name i_ino i_mode
    i_nlink i_uid i_gid i_rdev i_size i_atime i_mtime i_ctime i_blkentry i_blocks i_next i_parent
    i_child i_expand] in *.
  rewrite <- (app_nil_r (le_bytes 4 b7)).
  rewrite !(field_skip_name _ _ nm) by (assumption || lia). cbn [Nat.sub].
  repeat first [rewrite field_u32 by assumption|rewrite field_s32 by assumption
               |rewrite field_s16 by assumption|rewrite field_skip by lia; cbn [Nat.sub]].
  done.
Qed.

(** An inode written to its 128 bytes and read back is the same inode: the
    image builder's and the kernel's declarations describe one layout. *)
Theorem inode_roundtrip i :
  wf_inode i -> length (encode_inode i) = sizeof_inode /\ decode_inode (encode_inode i) = i.
Proof.
  intros H. split; [apply length_encode_inode; by destruct H as [[]]|by apply decode_encode_inode].
Qed.

Lemma inode_roundtrip_witness :
  let i := Inode (replicate 68 0) 1 2 3 (-4) 5 (-6) 7 8 9 10 11 12 13 14 15 16 in
  length (encode_inode i) = sizeof_inode /\ decode_inode (encode_inode i) = i.
Proof.
  apply (inode_roundtrip (Inode (replicate 68 0) 1 2 3 (-4) 5 (-6) 7 8 9 10 11 12 13 14 15 16)).
  split; cbn; unfold_int; try lia. split; [done|]. repeat constructor; lia.
Defined.

(** * The super block *)

(** [struct mfs_sblk] (the kernel) and [struct mfs_superblk] (the builder). *)
Record mfs_sblk := Sblk {
  s_magic : list Z;  (* 4 bytes *)
  s_kblk : Z; s_kblkcnt : Z; s_ibmp : Z; s_ibmpcnt : Z; s_dbmp : Z; s_dbmpcnt : Z;
  s_iblk : Z; s_iblkcnt : Z; s_dblk : Z; s_dblkcnt : Z; s_blksize : Z
}.

Definition encode_sblk (s : mfs_sblk) : list Z :=
  s_magic s ++ le_bytes 2 (s_kblk s) ++ le_bytes 2 (s_kblkcnt s) ++
  le_bytes 4 (s_ibmp s) ++ le_bytes 4 (s_ibmpcnt s) ++ le_bytes 4 (s_dbmp s) ++
  le_bytes 4 (s_dbmpcnt s) ++ le_bytes 4 (s_iblk s) ++ le_bytes 4 (s_iblkcnt s) ++
  le_bytes 4 (s_dblk s) ++ le_bytes 4 (s_dblkcnt s) ++ le_bytes 4 (s_blksize s).

Definition decode_sblk (b : list Z) : mfs_sblk :=
  Sblk (take 4 b) (field 4 2 b) (field 6 2 b) (s32 (field 8 4 b)) (s32 (field 12 4 b))
    (s32 (field 16 4 b)) (s32 (field 20 4 b)) (s32 (field 24 4 b)) (s32 (field 28 4 b))
    (s32 (field 32 4 b)) (s32 (field 36 4 b)) (s32 (field 40 4 b)).

Record wf_sblk (s : mfs_sblk) : Prop := {
  wf_magic : length (s_magic s) = 4%nat;
  wf_kblk : is_u16 (s_kblk s) /\ is_u16 (s_kblkcnt s);
  wf_ibmp : is_s32 (s_ibmp s) /\ is_s32 (s_ibmpcnt s);
  wf_dbmp : is_s32 (s_dbmp s) /\ is_s32 (s_dbmpcnt s);
  wf_iblk : is_s32 (s_iblk s) /\ is_s32 (s_iblkcnt s);
  wf_dblk : is_s32 (s_dblk s) /\ is_s32 (s_dblkcnt s);
  wf_blksize : is_s32 (s_blksize s)
}.

Lemma field_u16 z l : is_u16 z -> field 0 2 (le_bytes 2 z ++ l) = z.
Proof. intros H. rewrite field_here. by apply u16_small in H. Qed.

Lemma field_skip_magic off n m l :
  length m = 4%nat -> (4 <= off)%nat -> field off n (m ++ l) = field (off - 4) n l.
Proof. intros H Ho. unfold field. rewrite drop_app_ge by lia. by rewrite H. Qed.

(** The kernel reads back the super block the builder wrote, whatever follows
    it in the block. *)
Lemma decode_encode_sblk s rest : wf_sblk s -> decode_sblk (encode_sblk s ++ rest) = s.
Proof.
  intros [Hm [? ?] [? ?] [? ?] [? ?] [? ?] ?].
  unfold decode_sblk, encode_sblk. rewrite <- !app_assoc, take_app_length' by done.
  destruct s as [mg a1 a2 a3 a4 a5 a6 a7 a8 a9 b1 b2]; cbn [s_magic s_kblk s_kblkcnt s_ibmp s_ibmpcnt
    s_dbmp s_dbmpcnt s_iblk s_iblkcnt s_dblk s_dblkcnt s_blksize] in *.
  rewrite !(field_skip_magic _ _ mg) by (assumption || lia). cbn [Nat.sub].
  repeat first [rewrite field_u16 by assumption|rewrite field_s32 by assumption
               |rewrite field_skip by lia; cbn [Nat.sub]].
  done.
Qed.

Lemma length_encode_sblk s : length (s_magic s) = 4%nat -> length (encode_sblk s) = 44%nat.
Proof. intros H. unfold encode_sblk. by rewrite !length_app, !length_le_bytes, H. Qed.
