(* ===== verification/Bitmap.v ===== *)
(** The allocation bitmaps, as the image builder handles them:
    [mfs_markbmp] and [mfs_seekbmp] of src/sysv3/mkmfs/mfs.c.  Item [i] is bit
    [7 - i%8] of byte [i/8].  The kernel's versions (Mfs) share the loops. *)
From S2P Require Import Prelude.

(** One byte with the bit of item [ety] set or cleared. *)
Definition mark_byte (ety stat b : Z) : Z :=
  if stat =? 0 then u8 (Z.land b (Z.lnot (Z.shiftl 1 (7 - Z.rem ety 8))))
  else u8 (Z.lor b (Z.shiftl 1 (7 - Z.rem ety 8))).

(** [int mfs_markbmp(char *bmp, int index, char stat)]: the new bitmap; [None]
    is an access outside it. *)
Definition mfs_markbmp (bmp : list Z) (index stat : Z) : option (list Z) :=
  b ← aget bmp (Z.quot index 8);
  aset bmp (Z.quot index 8) (mark_byte index stat b).

(** The byte search: the first byte that is not 0xff, from [bbegin] for [n]
    bytes; [Some None] when there is none. *)
Fixpoint seek_loop (n : nat) (bmp : list Z) (bbegin : Z) : option (option Z) :=
  match n with
  | O => Some None
  | S n' =>
      b ← aget bmp bbegin;
      if negb (b =? 0xff) then Some (Some bbegin) else seek_loop n' bmp (bbegin + 1)
  end.

(** The bit search of the byte: [while((temp&0x80) != 0x80) temp<<=1, index++].
    It ends within 8 steps when [temp] has a bit set below bit 8. *)
Fixpoint search_byte (fuel : nat) (temp index : Z) : option Z :=
  if negb (Z.land temp 0x80 =? 0x80) then
    match fuel with O => None | S f => search_byte f (Z.shiftl temp 1) (index + 1) end
  else Some index.

(** [int mfs_seekbmp(char *bmp, int begin, int end)] *)
Definition mfs_seekbmp (bmp : list Z) (begin_ end_ : Z) : option Z :=
  let bbegin := Z.quot begin_ 8 in
  let bend := Z.quot end_ 8 in
  r ← seek_loop (Z.to_nat (bend - bbegin)) bmp bbegin;
  match r with
  | None => Some (-1)
  | Some bbegin =>
      b ← aget bmp bbegin;
      index ← search_byte 8 (u8 (Z.lnot b)) 0;
      Some (index + bbegin * 8)
  end.

(** * Items *)

Definition wf_bmp (bmp : list Z) : Prop := Forall is_u8 bmp.

(** Item [i] is marked used. *)
Definition used (bmp : list Z) (i : Z) : bool :=
  match aget bmp (i / 8) with Some b => Z.testbit b (7 - i mod 8) | None => false end.

Definition items (bmp : list Z) : Z := 8 * Z.of_nat (length bmp).

Lemma mark_byte_u8 ety stat b : is_u8 (mark_byte ety stat b).
Proof. unfold mark_byte. case_match; apply u8_range. Qed.

Lemma mark_byte_testbit ety stat b j :
  0 <= ety -> 0 <= j < 8 ->
  Z.testbit (mark_byte ety stat b) (7 - j) =
    if decide (j = ety mod 8) then negb (stat =? 0) else Z.testbit b (7 - j).
Proof.
  intros He Hj. unfold mark_byte. rewrite Z.rem_mod_nonneg by lia.
  pose proof (Z.mod_pos_bound ety 8 ltac:(lia)).
  destruct (stat =? 0).
  - rewrite clear_bit_testbit by lia.
    case_decide; destruct (Z.eqb_spec (7 - ety mod 8) (7 - j)); try lia; done.
  - rewrite set_bit_testbit by lia.
    case_decide; destruct (Z.eqb_spec (7 - ety mod 8) (7 - j)); try lia; done.
Qed.

Lemma wf_bmp_aget bmp i b : wf_bmp bmp -> aget bmp i = Some b -> is_u8 b.
Proof. intros Hw [_ Hb]%aget_inv. by eapply Forall_lookup_1. Qed.

Lemma mark_ok bmp i stat :
  wf_bmp bmp -> 0 <= i < items bmp ->
  exists bmp', mfs_markbmp bmp i stat = Some bmp' /\ wf_bmp bmp' /\ length bmp' = length bmp /\
    forall k, 0 <= k < items bmp -> used bmp' k = if decide (k = i) then negb (stat =? 0) else used bmp k.
Proof.
  intros Hw Hi. unfold items in *. unfold mfs_markbmp. rewrite Z.quot_div_nonneg by lia.
  assert (0 <= i / 8 < Z.of_nat (length bmp)) as Hi8 by (Z.div_mod_to_equations; lia).
  destruct (aget_Some bmp (i / 8) Hi8) as [b Hb]. rewrite Hb. simpl.
  rewrite aset_Some by done. eexists. split; [reflexivity|].
  split; [apply Forall_insert; [done|apply mark_byte_u8]|].
  split; [apply length_insert|]. intros k Hk. unfold used.
  assert (aset bmp (i / 8) (mark_byte i stat b) = Some (<[Z.to_nat (i / 8):=mark_byte i stat b]> bmp))
    as Hset by (by apply aset_Some).
  destruct (decide (k / 8 = i / 8)) as [E|E].
  - rewrite E, (aget_aset _ _ _ _ Hset), Hb.
    pose proof (Z.mod_pos_bound k 8 ltac:(lia)). rewrite mark_byte_testbit by lia.
    assert (k mod 8 = i mod 8 <-> k = i) by (Z.div_mod_to_equations; lia).
    repeat case_decide; tauto.
  - rewrite (aget_aset_ne _ _ _ (k / 8) _ Hset) by done.
    rewrite decide_False by congruence. done.
Qed.

(** Marking an item of a bitmap changes that item and no other, and keeps
    the size of the bitmap. *)
Theorem markbmp_marks bmp i stat :
  wf_bmp bmp -> 0 <= i < items bmp ->
  exists bmp', mfs_markbmp bmp i stat = Some bmp' /\ wf_bmp bmp' /\ length bmp' = length bmp /\
    forall k, 0 <= k < items bmp -> used bmp' k = if decide (k = i) then negb (stat =? 0) else used bmp k.
Proof. apply mark_ok. Qed.

Lemma markbmp_marks_witness :
  exists bmp', mfs_markbmp [0xff; 0x80] 9 1 = Some bmp' /\ wf_bmp bmp' /\ length bmp' = 2%nat /\
    forall k, 0 <= k < items [0xff; 0x80] ->
      used bmp' k = if decide (k = 9) then negb (1 =? 0) else used [0xff; 0x80] k.
Proof.
  apply (markbmp_marks [0xff; 0x80] 9 1); [|unfold items; simpl; lia].
  repeat constructor; unfold is_u8; lia.
Defined.

(** ** The search *)

Lemma seek_loop_ok n bmp b0 :
  0 <= b0 -> b0 + Z.of_nat n <= Z.of_nat (length bmp) ->
  (exists i b, seek_loop n bmp b0 = Some (Some i) /\ b0 <= i < b0 + Z.of_nat n /\
     aget bmp i = Some b /\ b <> 0xff /\ forall j, b0 <= j < i -> aget bmp j = Some 0xff) \/
  (seek_loop n bmp b0 = Some None /\ forall j, b0 <= j < b0 + Z.of_nat n -> aget bmp j = Some 0xff).
Proof.
  revert b0. induction n as [|n IH]; intros b0 Hb Hl; [right; split; [done|lia]|].
  destruct (aget_Some bmp b0 ltac:(lia)) as [b Eb]. cbn [seek_loop]. rewrite Eb. simpl.
  destruct (Z.eqb_spec b 0xff) as [->|Hne]; simpl.
  - destruct (IH (b0 + 1) ltac:(lia) ltac:(lia)) as [(i & b & E & Hi & Hib & Hb' & Hj)|[E Hj]].
    + left. exists i, b. split; [done|]. split; [lia|]. split; [done|]. split; [done|].
      intros j Hjr. destruct (decide (j = b0)) as [->|]; [done|]. apply Hj. lia.
    + right. split; [done|]. intros j Hjr.
      destruct (decide (j = b0)) as [->|]; [done|]. apply Hj. lia.
  - left. exists b0, b. split; [done|]. split; [lia|]. split; [done|]. split; [done|]. lia.
Qed.

Lemma land80 z : (Z.land z 0x80 =? 0x80) = Z.testbit z 7.
Proof.
  change 0x80 with (Z.shiftl 1 7) at 1. pose proof (land_bit z 7 ltac:(lia)) as H.
  destruct (Z.testbit z 7) eqn:E; simpl in H.
  - apply Z.eqb_eq. apply Z.bits_inj'. intros k Hk. rewrite Z.land_spec.
    change 128 with (Z.shiftl 1 7). rewrite !shiftl1_testbit by lia.
    destruct (Z.eqb_spec 7 k) as [<-|]; [by rewrite E|by rewrite andb_false_r].
  - apply Z.eqb_eq in H. rewrite H. done.
Qed.

(** Shifting left finds the first set bit from the top. *)
Lemma search_byte_ok fuel temp index n :
  0 <= n <= 7 -> n <= Z.of_nat fuel -> Z.testbit temp (7 - n) = true ->
  (forall j, 0 <= j < n -> Z.testbit temp (7 - j) = false) ->
  search_byte fuel temp index = Some (index + n).
Proof.
  revert temp index n. induction fuel as [|fuel IH]; intros temp index n Hn Hf Hb Hj.
  - assert (n = 0) as -> by lia. simpl. rewrite land80. replace (7 - 0) with 7 in Hb by lia.
    rewrite Hb. simpl. by rewrite Z.add_0_r.
  - cbn [search_byte]. rewrite land80. destruct (decide (n = 0)) as [->|Hn0].
    + replace (7 - 0) with 7 in Hb by lia. rewrite Hb. simpl. by rewrite Z.add_0_r.
    + specialize (Hj 0 ltac:(lia)) as H7. replace (7 - 0) with 7 in H7 by lia. rewrite H7. simpl.
      rewrite (IH _ _ (n - 1)); [f_equal; lia|lia|lia|..].
      * rewrite Z.shiftl_spec by lia. replace (7 - (n - 1) - 1) with (7 - n) by lia. done.
      * intros j Hjn. rewrite Z.shiftl_spec by lia.
        replace (7 - j - 1) with (7 - (j + 1)) by lia. apply Hj. lia.
Qed.

(** In a byte that is not 0xff the search ends at the first clear bit. *)
Lemma search_byte_free b :
  is_u8 b -> b <> 0xff ->
  exists n, search_byte 8 (u8 (Z.lnot b)) 0 = Some n /\ 0 <= n <= 7 /\
    Z.testbit b (7 - n) = false /\ forall j, 0 <= j < n -> Z.testbit b (7 - j) = true.
Proof.
  intros Hb Hne.
  assert (forall k, 0 <= k < 8 -> Z.testbit (u8 (Z.lnot b)) k = negb (Z.testbit b k)) as Hbit.
  { intros k Hk. by rewrite u8_testbit, Z.lnot_spec by lia. }
  assert (exists n, 0 <= n <= 7 /\ Z.testbit b (7 - n) = false /\
    forall j, 0 <= j < n -> Z.testbit b (7 - j) = true) as (n & Hn & Hf & Hj).
  { destruct (list_find (fun n => Z.testbit b (7 - n) = false) (seqZ 0 8)) as [[i n]|] eqn:F.
    - apply list_find_Some in F as (Hi & Hf & Hmin). apply lookup_seqZ in Hi as [-> Hi].
      exists (0 + Z.of_nat i). split; [lia|]. split; [done|]. intros j Hj.
      assert (seqZ 0 8 !! Z.to_nat j = Some j) as Hl by (apply lookup_seqZ; split; lia).
      specialize (Hmin _ _ Hl ltac:(lia)). by destruct (Z.testbit b (7 - j)).
    - exfalso. apply Hne. apply u8_eq_bits; [done|unfold is_u8; lia|]. intros k Hk.
      apply list_find_None in F. rewrite Forall_forall in F. specialize (F (7 - k)).
      rewrite elem_of_seqZ in F. specialize (F ltac:(lia)). cbn in F.
      replace (7 - (7 - k)) with k in F by lia.
      assert (k = 0 \/ k = 1 \/ k = 2 \/ k = 3 \/ k = 4 \/ k = 5 \/ k = 6 \/ k = 7) as Hc by lia.
      destruct (Z.testbit b k); [|done]. by destruct_or! Hc; subst. }
  exists n. rewrite (search_byte_ok 8 _ 0 n); [by repeat split; try lia|lia|lia|..].
  - by rewrite Hbit, Hf by lia.
  - intros j Hjn. by rewrite Hbit, Hj by lia.
Qed.

#[global] Arguments search_byte : simpl never.

(** [free_min bmp i]: [i] is the lowest free item. *)
Definition free_min (bmp : list Z) (i : Z) : Prop :=
  0 <= i < items bmp /\ used bmp i = false /\ forall k, 0 <= k < i -> used bmp k = true.

Lemma used_ff bmp i : aget bmp (i / 8) = Some 0xff -> used bmp i = true.
Proof.
  intros E. unfold used. rewrite E. pose proof (Z.mod_pos_bound i 8 ltac:(lia)).
  assert (i mod 8 = 0 \/ i mod 8 = 1 \/ i mod 8 = 2 \/ i mod 8 = 3 \/ i mod 8 = 4 \/ i mod 8 = 5 \/
          i mod 8 = 6 \/ i mod 8 = 7) as Hc by lia.
  by destruct_or! Hc; rewrite Hc.
Qed.

Lemma found_free bmp b i n :
  wf_bmp bmp -> aget bmp i = Some b -> b <> 0xff ->
  (forall j, 0 <= j < i -> aget bmp j = Some 0xff) ->
  0 <= n <= 7 -> Z.testbit b (7 - n) = false -> (forall j, 0 <= j < n -> Z.testbit b (7 - j) = true) ->
  free_min bmp (n + i * 8).
Proof.
  intros Hw Eb Hne Hlow Hn Hf Hj. pose proof (aget_inv _ _ _ Eb) as [Hi _].
  assert ((n + i * 8) / 8 = i) as Ed by (rewrite Z.div_add, Z.div_small by lia; lia).
  assert ((n + i * 8) mod 8 = n) as Em by (rewrite Z_mod_plus_full, Z.mod_small by lia; lia).
  split; [unfold items; lia|]. split.
  - unfold used. by rewrite Ed, Eb, Em.
  - intros k Hk. destruct (decide (k / 8 < i)).
    + apply used_ff. apply Hlow. split; [apply Z.div_pos; lia|lia].
    + assert (k / 8 = i) as Ek by (Z.div_mod_to_equations; lia).
      unfold used. rewrite Ek, Eb. apply Hj. Z.div_mod_to_equations. lia.
Qed.

(** [mfs_seekbmp bmp 0 end]: the search over the first [end/8] bytes. *)
Lemma seek_ok bmp end_ :
  wf_bmp bmp -> 0 <= end_ <= items bmp -> end_ mod 8 = 0 ->
  (exists i, mfs_seekbmp bmp 0 end_ = Some i /\ i < end_ /\ free_min bmp i) \/
  (mfs_seekbmp bmp 0 end_ = Some (-1) /\ forall k, 0 <= k < end_ -> used bmp k = true).
Proof.
  intros Hw He Hm. unfold items in He. unfold mfs_seekbmp. rewrite !Z.quot_div_nonneg by lia.
  change (0 / 8) with 0. rewrite Z.sub_0_r.
  assert (0 <= end_ / 8 <= Z.of_nat (length bmp)) by (Z.div_mod_to_equations; lia).
  destruct (seek_loop_ok (Z.to_nat (end_ / 8)) bmp 0) as [(i & b & E & Hi & Hb & Hne & Hlow)|[E Hall]];
    [lia|rewrite Z2Nat.id by lia; lia|..].
  - left. rewrite E. cbn [mbind option_bind]. rewrite Hb. cbn [mbind option_bind].
    destruct (search_byte_free b) as (n & En & Hn & Hf & Hj); [by eapply wf_bmp_aget|done|].
    rewrite En. simpl. exists (n + i * 8). split; [done|].
    rewrite Z2Nat.id in Hi by lia. split; [Z.div_mod_to_equations; lia|].
    by eapply found_free.
  - right. rewrite E. simpl. split; [done|]. intros k Hk. apply used_ff. apply Hall.
    rewrite Z2Nat.id by lia. Z.div_mod_to_equations. lia.
Qed.

(** The search of the image builder returns the lowest free item of the
    bitmap, and -1 exactly when every item below the bound is used. *)
Theorem seekbmp_finds bmp end_ :
  wf_bmp bmp -> 0 <= end_ <= items bmp -> end_ mod 8 = 0 ->
  (exists i, mfs_seekbmp bmp 0 end_ = Some i /\ i < end_ /\ free_min bmp i) \/
  (mfs_seekbmp bmp 0 end_ = Some (-1) /\ forall k, 0 <= k < end_ -> used bmp k = true).
Proof. apply seek_ok. Qed.

Lemma seekbmp_finds_witness :
  (exists i, mfs_seekbmp [0xff; 0xf0] 0 16 = Some i /\ i < 16 /\ free_min [0xff; 0xf0] i) \/
  (mfs_seekbmp [0xff; 0xf0] 0 16 = Some (-1) /\ forall k, 0 <= k < 16 -> used [0xff; 0xf0] k = true).
Proof.
  apply (seekbmp_finds [0xff; 0xf0] 16); [|unfold items; simpl; lia|reflexivity].
  repeat constructor; unfold is_u8; lia.
Defined.
