(* ===== verification/MkMfs.v ===== *)
(** The image builder's Micron File System: src/sysv3/mkmfs/mfs.c.

    The seven buffers of [mfs_data] are the fields of one record; the inode
    block is the array of [struct mfs_inode] the code views it as.  Strings
    handed in are the bytes before the terminator ([cz] adds it).  A write past
    a buffer or past [i_name] is the outcome [Err OutOfBounds], [exit(-1)] is
    [Err (Exited (-1))].  Messages printed are not part of the model. *)
From S2P Require Import Prelude LibC Layout Bitmap.

(** * Configuration *)

Definition MFS_BLKSIZE : Z := 1024.
Definition MFS_NAMELEN : Z := 68.
Definition NKSIZ : Z := 512 * 1024.
Definition NIBMP : Z := 1.
Definition NDBMP : Z := 1.
Definition NKBLK : Z := NKSIZ / MFS_BLKSIZE.
Definition NIBLK : Z := NIBMP * 8 * 128.
Definition NDBLK : Z := NIBLK.

Definition S_IRWXU : Z := 0x7.
Definition S_IRWXG : Z := 0x70.
Definition S_IROTH : Z := 0x100.
Definition S_IFDIR : Z := 0x40000.
Definition S_IFREG : Z := 0x60000.

Definition dir_mode : Z := Z.lor S_IFDIR (Z.lor S_IRWXU (Z.lor S_IRWXG S_IROTH)).
Definition reg_mode : Z := Z.lor S_IFREG (Z.lor S_IRWXU (Z.lor S_IRWXG S_IROTH)).

(** [struct mfs_data]: the buffers [m_blocks[0]] to [m_blocks[6]]. *)
Record mfs_data := MfsData {
  m_boot : list Z;
  m_super : mfs_sblk;
  m_kern : list Z;
  m_ibmp : list Z;
  m_dbmp : list Z;
  m_inodes : list mfs_inode;
  m_data : list Z
}.

Definition set_boot b d := MfsData b (m_super d) (m_kern d) (m_ibmp d) (m_dbmp d) (m_inodes d) (m_data d).
Definition set_kern b d := MfsData (m_boot d) (m_super d) b (m_ibmp d) (m_dbmp d) (m_inodes d) (m_data d).
Definition set_ibmp b d := MfsData (m_boot d) (m_super d) (m_kern d) b (m_dbmp d) (m_inodes d) (m_data d).
Definition set_dbmp b d := MfsData (m_boot d) (m_super d) (m_kern d) (m_ibmp d) b (m_inodes d) (m_data d).
Definition set_inodes b d := MfsData (m_boot d) (m_super d) (m_kern d) (m_ibmp d) (m_dbmp d) b (m_data d).
Definition set_data b d := MfsData (m_boot d) (m_super d) (m_kern d) (m_ibmp d) (m_dbmp d) (m_inodes d) b.

Definition zeros (n : Z) : list Z := replicate (Z.to_nat n) 0.
Definition cz (s : list Z) : list Z := s ++ [0].

Definition zero_inode : mfs_inode := Inode (zeros 68) 0 0 0 0 0 0 0 0 0 0 0 0 0 0 0 0.

(** "root" *)
Definition root_name : list Z := [114; 111; 111; 116].

(** * Operations *)

(** The super block [mfs_new] sets up: each region starts where the previous
    one ends. *)
Definition new_super : mfs_sblk :=
  let s_kblk := 1 in
  let s_ibmp := s_kblk + NKBLK in
  let s_dbmp := s_ibmp + NIBMP in
  let s_iblk := s_dbmp + NDBMP in
  let s_dblk := s_iblk + NIBLK in
  Sblk [77; 70; 83; 0] s_kblk NKBLK s_ibmp NIBMP s_dbmp NDBMP s_iblk NIBLK s_dblk NDBLK MFS_BLKSIZE.

(** The root inode: name and mode of a zeroed inode. *)
Definition root_inode : mfs_inode :=
  Inode (root_name ++ zeros 64) 0 dir_mode 0 0 0 0 0 0 0 0 0 0 0 0 0 0.

(** [int mfs_new(char debug)]: the state it leaves, whatever it was. *)
Definition mfs_new : M mfs_data Z :=
  put (MfsData (zeros 512) new_super (zeros (MFS_BLKSIZE * NKBLK)) (zeros (MFS_BLKSIZE * NIBMP))
         (zeros (MFS_BLKSIZE * NDBMP)) (replicate (Z.to_nat (MFS_BLKSIZE * NIBLK / 128)) zero_inode)
         (zeros (MFS_BLKSIZE * NDBLK))) ;;;
  d <- get ;;
  ibmp <- of_option OutOfBounds (mfs_markbmp (m_ibmp d) 0 1) ;;
  modify (set_ibmp ibmp) ;;;
  name <- of_option OutOfBounds (strcpy (i_name zero_inode) (cz root_name)) ;;
  ino <- of_option OutOfBounds
    (aset (m_inodes d) 0 (Inode name 0 dir_mode 0 0 0 0 0 0 0 0 0 0 0 0 0 0)) ;;
  modify (set_inodes ino) ;;;
  ret 0.

(** [int mfs_end(char *outname)]: the bytes of the image file. *)
Definition mfs_end (d : mfs_data) : list Z :=
  m_boot d ++ (encode_sblk (m_super d) ++ zeros (MFS_BLKSIZE - 44)) ++ m_kern d ++ m_ibmp d ++
  m_dbmp d ++ concat (map encode_inode (m_inodes d)) ++ m_data d.

(** [int mfs_lboot(char *bootname)] and [int mfs_lkern(char *kernname)]: the
    argument is the contents of the file, [None] when it cannot be opened
    ([lseek] and [read] then fail and leave the buffer alone).  A file that is
    too big is reported and read all the same. *)
Definition mfs_lboot (file : option (list Z)) : M mfs_data Z :=
  match file with
  | None => ret 0
  | Some bytes =>
      d <- get ;;
      b <- of_option OutOfBounds (memcpy (m_boot d) bytes (length bytes)) ;;
      modify (set_boot b) ;;;
      ret 0
  end.

Definition mfs_lkern (file : option (list Z)) : M mfs_data Z :=
  match file with
  | None => ret 0
  | Some bytes =>
      d <- get ;;
      b <- of_option OutOfBounds (memcpy (m_kern d) bytes (length bytes)) ;;
      modify (set_kern b) ;;;
      ret 0
  end.

(** ** Path resolution *)

(** '/' *)
Definition SLASH : Z := 47.

(** The offsets of the path entries: [pathent[j++] = &pathbuf[i+1]]. *)
Fixpoint path_entries (i len : Z) (path : list Z) : list Z :=
  match path with
  | [] => []
  | c :: rest =>
      if (c =? SLASH) && (i + 1 <? len) then (i + 1) :: path_entries (i + 1) len rest
      else path_entries (i + 1) len rest
  end.

(** [pathbuf] after the parse: every '/' is a terminator. *)
Definition path_buf (path : list Z) : list Z :=
  cz (map (fun c => if c =? SLASH then 0 else c) path).

(** The entry at offset [off] of the buffer, a C string. *)
Definition entry_at (path : list Z) (off : Z) : list Z := drop (Z.to_nat off) (path_buf path).

(** The sibling loop: [for(; ibi!=0; ibi=iblk[ibi].i_next) if(!strcmp(..)) break;] *)
Fixpoint sibling_loop (fuel : nat) (iblk : list mfs_inode) (ent : list Z) (ibi : Z) : M mfs_data Z :=
  if ibi =? 0 then ret 0 else
  match fuel with
  | O => stop Diverged
  | S f =>
      n <- of_option OutOfBounds (aget iblk ibi) ;;
      c <- of_option OutOfBounds (strcmp (i_name n) ent) ;;
      if c =? 0 then ret ibi else sibling_loop f iblk ent (s32 (i_next n))
  end.

(** One entry of the path, from inode [ibi]. *)
Definition iget_step (iblk : list mfs_inode) (ent : list Z) (ibi : Z) : M mfs_data Z :=
  p <- of_option OutOfBounds (aget iblk ibi) ;;
  ibi <- sibling_loop (length iblk) iblk ent (s32 (i_child p)) ;;
  n <- of_option OutOfBounds (aget iblk ibi) ;;
  c <- of_option OutOfBounds (strcmp (i_name n) ent) ;;
  ret (if negb (c =? 0) then -1 else ibi).

Fixpoint iget_loop (iblk : list mfs_inode) (ents : list (list Z)) (ibi : Z) : M mfs_data Z :=
  match ents with
  | [] => ret ibi
  | e :: rest => ibi <- iget_step iblk e ibi ;; iget_loop iblk rest ibi
  end.

(** [int mfs_iget(char *path)]; [pathent] holds 128 entries. *)
Definition mfs_iget (path : list Z) : M mfs_data Z :=
  let offs := path_entries 0 (Z.of_nat (length path)) path in
  if (128 <? length offs)%nat then stop OutOfBounds else
  iblk <- gets m_inodes ;;
  iget_loop iblk (map (entry_at path) offs) 0.

(** ** Directories and files *)

Definition set_child (c : Z) (i : mfs_inode) : mfs_inode :=
  Inode (i_name i) (i_ino i) (i_mode i) (i_nlink i) (i_uid i) (i_gid i) (i_rdev i) (i_size i)
    (i_atime i) (i_mtime i) (i_ctime i) (i_blkentry i) (i_blocks i) (i_next i) (i_parent i) c (i_expand i).
Definition set_extent (entry blocks : Z) (i : mfs_inode) : mfs_inode :=
  Inode (i_name i) (i_ino i) (i_mode i) (i_nlink i) (i_uid i) (i_gid i) (i_rdev i) (i_size i)
    (i_atime i) (i_mtime i) (i_ctime i) entry blocks (i_next i) (i_parent i) (i_child i) (i_expand i).

(** The values of the three calls of [time(0)]. *)
Record stamps := Stamps { at_ : Z; mt_ : Z; ct_ : Z }.

(** The inode search both operations share. *)
Definition new_inode : M mfs_data Z :=
  d <- get ;;
  indexi <- of_option OutOfBounds (mfs_seekbmp (m_ibmp d) 0 (MFS_BLKSIZE * NIBMP * 8)) ;;
  if indexi =? -1 then stop (Exited (-1)) else
  ibmp <- of_option OutOfBounds (mfs_markbmp (m_ibmp d) indexi 1) ;;
  modify (set_ibmp ibmp) ;;;
  ret indexi.

(** The field assignments: inode [indexi] becomes the first child of [pathi]. *)
Definition fill_inode (indexi pathi : Z) (name : list Z) (mode size : Z) (t : stamps) : M mfs_data unit :=
  d <- get ;;
  old <- of_option OutOfBounds (aget (m_inodes d) indexi) ;;
  nm <- of_option OutOfBounds (strcpy (i_name old) (cz name)) ;;
  par <- of_option OutOfBounds (aget (m_inodes d) pathi) ;;
  inodes <- of_option OutOfBounds (aset (m_inodes d) indexi
    (Inode nm (u32 indexi) mode 0 0 0 0 (u32 size) (u32 (at_ t)) (u32 (mt_ t)) (u32 (ct_ t))
       (i_blkentry old) (i_blocks old) (i_child par) (u32 pathi) 0 0)) ;;
  par' <- of_option OutOfBounds (aget inodes pathi) ;;
  inodes <- of_option OutOfBounds (aset inodes pathi (set_child (u32 indexi) par')) ;;
  modify (set_inodes inodes).

Definition upd_inode (i : Z) (f : mfs_inode -> mfs_inode) : M mfs_data unit :=
  d <- get ;;
  n <- of_option OutOfBounds (aget (m_inodes d) i) ;;
  inodes <- of_option OutOfBounds (aset (m_inodes d) i (f n)) ;;
  modify (set_inodes inodes).

(** [int mfs_mkdir(char *path, char *name)] *)
Definition mfs_mkdir (path name : list Z) (t : stamps) : M mfs_data Z :=
  if MFS_NAMELEN <? Z.of_nat (length name) then stop (Exited (-1)) else
  pathi <- mfs_iget path ;;
  if pathi =? -1 then stop (Exited (-1)) else
  indexi <- new_inode ;;
  fill_inode indexi pathi name dir_mode 0 t ;;;
  upd_inode indexi (set_extent 0 0) ;;;
  ret 0.

(** [while(dblkr--)]: each turn takes one block; the last block taken.  The
    bound of the search is the one of the code, beyond the bitmap's end. *)
Fixpoint alloc_blocks (dblkr : nat) (dblki : Z) : M mfs_data Z :=
  match dblkr with
  | O => ret dblki
  | S n =>
      d <- get ;;
      dblki <- of_option OutOfBounds (mfs_seekbmp (m_dbmp d) 0 (MFS_BLKSIZE * NDBLK * 8)) ;;
      if dblki =? -1 then stop (Exited (-1)) else
      dbmp <- of_option OutOfBounds (mfs_markbmp (m_dbmp d) dblki 1) ;;
      modify (set_dbmp dbmp) ;;;
      alloc_blocks n dblki
  end.

(** [memcpy] to an offset of a buffer. *)
Definition memcpy_at (dest : list Z) (off : Z) (src : list Z) (cnt : nat) : option (list Z) :=
  if decide (0 <= off <= Z.of_nat (length dest)) then
    r ← memcpy (drop (Z.to_nat off) dest) src cnt;
    Some (take (Z.to_nat off) dest ++ r)
  else None.

(** [int mfs_write(char *path, char *name, char *buff, int size)] *)
Definition mfs_write (path name buff : list Z) (size : Z) (t : stamps) : M mfs_data Z :=
  if MFS_NAMELEN <? Z.of_nat (length name) then stop (Exited (-1)) else
  pathi <- mfs_iget path ;;
  if pathi =? -1 then stop (Exited (-1)) else
  d <- get ;;
  p <- of_option OutOfBounds (aget (m_inodes d) pathi) ;;
  if negb (Z.land (i_mode p) S_IFDIR =? S_IFDIR) then stop (Exited (-1)) else
  indexi <- new_inode ;;
  fill_inode indexi pathi name reg_mode size t ;;;
  let dblkr := Z.quot size MFS_BLKSIZE + (if Z.rem size MFS_BLKSIZE =? 0 then 0 else 1) in
  if dblkr <? 0 then stop Diverged else
  dblki <- alloc_blocks (Z.to_nat dblkr) 0 ;;
  upd_inode indexi (set_extent (u32 (dblki - dblkr + 1)) dblkr) ;;;
  d <- get ;;
  data <- of_option OutOfBounds
    (memcpy_at (m_data d) (u32 (u32 (dblki - dblkr + 1) * MFS_BLKSIZE)) buff (Z.to_nat (u32 size))) ;;
  modify (set_data data) ;;;
  ret 0.

(** * The image *)

(** Block [n] of the image, as the kernel numbers them: the boot sector is in
    front of block 0. *)
Definition image_blocks (img : list Z) (n cnt : Z) : list Z :=
  take (Z.to_nat (MFS_BLKSIZE * cnt)) (drop (Z.to_nat (512 + n * MFS_BLKSIZE)) img).

(** The sizes of the buffers. *)
Record wf_sizes (d : mfs_data) : Prop := {
  wf_boot : length (m_boot d) = 512%nat;
  wf_super : m_super d = new_super;
  wf_kern : length (m_kern d) = Z.to_nat (MFS_BLKSIZE * NKBLK);
  wf_ibmp_len : length (m_ibmp d) = Z.to_nat (MFS_BLKSIZE * NIBMP);
  wf_dbmp_len : length (m_dbmp d) = Z.to_nat (MFS_BLKSIZE * NDBMP);
  wf_inodes : length (m_inodes d) = Z.to_nat (MFS_BLKSIZE * NIBLK / 128);
  wf_names : Forall (fun i => length (i_name i) = 68%nat) (m_inodes d);
  wf_data : length (m_data d) = Z.to_nat (MFS_BLKSIZE * NDBLK)
}.

Lemma new_super_wf : wf_sblk new_super.
Proof. split; repeat split; by vm_compute. Qed.

Lemma length_zeros n : length (zeros n) = Z.to_nat n.
Proof. apply length_replicate. Qed.

Lemma length_inode_bytes l :
  Forall (fun i => length (i_name i) = 68%nat) l ->
  length (concat (map encode_inode l)) = (128 * length l)%nat.
Proof.
  induction 1 as [|i l Hi Hl IH]; [done|]. simpl. rewrite length_app, IH, length_encode_inode by done. lia.
Qed.

(** The part [x] of a concatenation, found by its offset and length. *)
Lemma slice_app {A} (pre x post : list A) n c :
  n = length pre -> c = length x -> take c (drop n (pre ++ x ++ post)) = x.
Proof. intros -> ->. by rewrite drop_app_length, take_app_length. Qed.

(** The state of [mfs_new]. *)
Definition fresh : mfs_data :=
  MfsData (zeros 512) new_super (zeros (MFS_BLKSIZE * NKBLK))
    (<[0%nat := 128]> (zeros (MFS_BLKSIZE * NIBMP))) (zeros (MFS_BLKSIZE * NDBMP))
    (<[0%nat := root_inode]> (replicate (Z.to_nat (MFS_BLKSIZE * NIBLK / 128)) zero_inode))
    (zeros (MFS_BLKSIZE * NDBLK)).

Lemma mfs_new_ok d0 : mfs_new d0 = Ok 0 fresh.
Proof.
  assert (mfs_markbmp (zeros (MFS_BLKSIZE * NIBMP)) 0 1 =
            Some (<[0%nat := 128]> (zeros (MFS_BLKSIZE * NIBMP)))) as E1.
  { unfold mfs_markbmp. change (Z.quot 0 8) with 0. unfold zeros.
    change (Z.to_nat (MFS_BLKSIZE * NIBMP)) with 1024%nat. reflexivity. }
  unfold mfs_new. msteps. cbn [m_ibmp m_inodes]. msome E1. msteps.
  assert (strcpy (i_name zero_inode) (cz root_name) = Some (root_name ++ zeros 64)) as E2 by reflexivity.
  msome E2. rewrite (bind_some _ _ (<[0%nat := root_inode]>
    (replicate (Z.to_nat (MFS_BLKSIZE * NIBLK / 128)) zero_inode))); [by msteps|].
  apply aset_Some. rewrite length_replicate. change (MFS_BLKSIZE * NIBLK / 128) with 8192. lia.
Qed.

Lemma fresh_sizes : wf_sizes fresh.
Proof.
  unfold fresh. split; cbn [m_boot m_super m_kern m_ibmp m_dbmp m_inodes m_data];
    rewrite ?length_insert, ?length_zeros, ?length_replicate; [done..| |done].
  apply (Forall_insert (fun i => length (i_name i) = 68%nat)); [|reflexivity].
  apply Forall_replicate. reflexivity.
Qed.

Lemma image_kern_len d : wf_sizes d -> length (m_boot d ++ (encode_sblk (m_super d) ++ zeros (MFS_BLKSIZE - 44)))
   = Z.to_nat (512 + 1 * MFS_BLKSIZE).
Proof.
  intros H. rewrite !length_app, length_encode_sblk, length_zeros, (wf_boot d H) by (by rewrite (wf_super d H)).
  done.
Qed.

(** Offsets and lengths of parts of the image. *)
Ltac sizes :=
  lazymatch goal with
  | |- _ = app _ _ => rewrite <- ?app_assoc, ?app_nil_r; reflexivity
  | _ => rewrite ?length_app; change NKBLK with 512 in *;
         unfold NDBLK, NIBLK, NIBMP, NDBMP, MFS_BLKSIZE in *;
         repeat match goal with H : length _ = _ |- _ => rewrite H; clear H end; lia
  end.

Lemma image_regions_ok d (H : wf_sizes d) :
  let img := mfs_end d in let s := m_super d in
  decode_sblk (image_blocks img 0 1) = s /\
  image_blocks img (s_kblk s) (s_kblkcnt s) = m_kern d /\
  image_blocks img (s_ibmp s) (s_ibmpcnt s) = m_ibmp d /\
  image_blocks img (s_dbmp s) (s_dbmpcnt s) = m_dbmp d /\
  image_blocks img (s_iblk s) (s_iblkcnt s) = concat (map encode_inode (m_inodes d)) /\
  image_blocks img (s_dblk s) (s_dblkcnt s) = m_data d /\
  length img = Z.to_nat (512 + (s_dblk s + s_dblkcnt s) * s_blksize s).
Proof.
  intros img s. pose proof (image_kern_len d H) as Hk. destruct H as [H1 H2 H3 H4 H5 H6 H7 H8].
  apply length_inode_bytes in H7. rewrite H6 in H7.
  assert (length (encode_sblk s ++ zeros (MFS_BLKSIZE - 44)) = 1024%nat) as Hs.
  { unfold s. rewrite H2. reflexivity. }
  unfold s in *. unfold img, image_blocks, mfs_end.
  change (Z.to_nat (MFS_BLKSIZE * NKBLK)) with (Z.to_nat 524288) in H3.
  change (Z.to_nat (MFS_BLKSIZE * NIBMP)) with (Z.to_nat 1024) in H4.
  change (Z.to_nat (MFS_BLKSIZE * NDBMP)) with (Z.to_nat 1024) in H5.
  change (Z.to_nat (MFS_BLKSIZE * NIBLK / 128)) with (Z.to_nat 8192) in H7.
  change (Z.to_nat (MFS_BLKSIZE * NDBLK)) with (Z.to_nat 1048576) in H8.
  set (S0 := encode_sblk (m_super d) ++ zeros (MFS_BLKSIZE - 44)) in *.
  set (I := concat (map encode_inode (m_inodes d))) in *.
  rewrite H2. cbn [new_super s_kblk s_kblkcnt s_ibmp s_ibmpcnt s_dbmp s_dbmpcnt s_iblk s_iblkcnt s_dblk
    s_dblkcnt s_blksize].
  assert (decode_sblk S0 = new_super) as Hd.
  { unfold S0. rewrite H2. apply decode_encode_sblk, new_super_wf. }
  clearbody S0 I.
  assert (forall pre x post n c, m_boot d ++ S0 ++ m_kern d ++ m_ibmp d ++ m_dbmp d ++ I ++ m_data d =
      pre ++ x ++ post -> n = Z.of_nat (length pre) -> c = Z.of_nat (length x) ->
      take (Z.to_nat c) (drop (Z.to_nat n) (m_boot d ++ S0 ++ m_kern d ++ m_ibmp d ++ m_dbmp d ++ I ++ m_data d)) = x)
    as Hcut.
  { intros pre x post n c -> -> ->. apply slice_app; lia. }
  split_and!.
  - rewrite (Hcut (m_boot d) S0 (m_kern d ++ m_ibmp d ++ m_dbmp d ++ I ++ m_data d)) by sizes.
    done.
  - apply (Hcut (m_boot d ++ S0) _ (m_ibmp d ++ m_dbmp d ++ I ++ m_data d)); sizes.
  - apply (Hcut (m_boot d ++ S0 ++ m_kern d) _ (m_dbmp d ++ I ++ m_data d)); sizes.
  - apply (Hcut (m_boot d ++ S0 ++ m_kern d ++ m_ibmp d) _ (I ++ m_data d)); sizes.
  - apply (Hcut (m_boot d ++ S0 ++ m_kern d ++ m_ibmp d ++ m_dbmp d) _ (m_data d)); sizes.
  - apply (Hcut (m_boot d ++ S0 ++ m_kern d ++ m_ibmp d ++ m_dbmp d ++ I) _ []); sizes.
  - sizes.
Qed.

(** In the image file written from buffers of the right sizes, every
    region lies where the super block says, the super block itself decodes from
    block 0, and the inode of index [i] is at byte [128*i] of the inode region. *)
Theorem image_regions d (H : wf_sizes d) :
  let img := mfs_end d in let s := m_super d in
  decode_sblk (image_blocks img 0 1) = s /\
  image_blocks img (s_kblk s) (s_kblkcnt s) = m_kern d /\
  image_blocks img (s_ibmp s) (s_ibmpcnt s) = m_ibmp d /\
  image_blocks img (s_dbmp s) (s_dbmpcnt s) = m_dbmp d /\
  image_blocks img (s_iblk s) (s_iblkcnt s) = concat (map encode_inode (m_inodes d)) /\
  image_blocks img (s_dblk s) (s_dblkcnt s) = m_data d /\
  length img = Z.to_nat (512 + (s_dblk s + s_dblkcnt s) * s_blksize s).
Proof. apply (image_regions_ok d H). Qed.

Lemma image_regions_witness :
  image_blocks (mfs_end fresh) (s_ibmp new_super) (s_ibmpcnt new_super) = m_ibmp fresh.
Proof. apply (image_regions fresh fresh_sizes). Defined.
