(* ===== verification/MkTree.v ===== *)
(** The directory tree the image builder keeps in the inode table of MkMfs:
    the sibling chains, path resolution against them, and the effect of
    [mfs_mkdir] and [mfs_write] on the tree and on the contents of the files. *)
From S2P Require Import Prelude LibC Layout Bitmap MkMfs.

(** * Names and paths *)

(** The C string at the start of a buffer. *)
Fixpoint cname (b : list Z) : list Z :=
  match b with
  | [] => []
  | c :: b' => if c =? 0 then [] else c :: cname b'
  end.

Lemma cname_cstr b : 0 ∈ b -> exists rest, cstr b (cname b) rest.
Proof.
  induction b as [|c b IH]; intros Hb; [set_solver|]. simpl.
  destruct (Z.eqb_spec c 0) as [->|Hc].
  - exists b. split; [done|constructor].
  - destruct IH as (rest & E & Hf); [set_solver|]. exists rest. split; [simpl; congruence|by constructor].
Qed.

Lemma cstr_cname b t s : cstr b t s -> cname b = t /\ 0 ∈ b.
Proof.
  intros [-> Ht]. split; [|set_solver].
  induction Ht as [|c t Hc Ht IH]; [done|]. simpl. destruct (Z.eqb_spec c 0); [done|]. by f_equal.
Qed.

Lemma strcmp_cname b e s rest :
  0 ∈ b -> cstr e s rest -> strcmp b e = Some (if decide (cname b = s) then 0 else -1).
Proof. intros [r Hb]%cname_cstr He. by apply (strcmp_spec _ _ _ _ _ _ Hb He). Qed.

(** A name the host file system can give an entry. *)
Definition valid_name (s : list Z) : Prop := s <> [] /\ Forall (fun c => c <> 0 /\ c <> SLASH) s.

(** The path of a list of names: "/a/b", and "/a/b/" with [tr = true]. *)
Definition path_of (names : list (list Z)) (tr : bool) : list Z :=
  concat (map (fun s => SLASH :: s) names) ++ (if tr then [SLASH] else []).

Lemma path_entries_skip i len s rest :
  Forall (fun c => c <> 0 /\ c <> SLASH) s ->
  path_entries i len (s ++ rest) = path_entries (i + Z.of_nat (length s)) len rest.
Proof.
  intros Hs. revert i. induction Hs as [|c s [_ Hc] Hs IH]; intros i; simpl; [f_equal; lia|].
  destruct (Z.eqb_spec c SLASH); [done|]. simpl. rewrite IH. f_equal. lia.
Qed.

Lemma path_entries_gt i len path : Forall (fun o => i < o) (path_entries i len path).
Proof.
  revert i. induction path as [|c path IH]; intros i; simpl; [constructor|].
  assert (Forall (fun o => i < o) (path_entries (i + 1) len path)) by
    (eapply Forall_impl; [apply IH|]; intros; simpl in *; lia).
  destruct (_ && _); [constructor; [lia|done]|done].
Qed.

Lemma path_buf_app s rest :
  Forall (fun c => c <> 0 /\ c <> SLASH) s -> path_buf (s ++ rest) = s ++ path_buf rest.
Proof.
  unfold path_buf, cz. intros Hs. rewrite map_app, <- app_assoc. f_equal.
  induction Hs as [|c s [_ Hc] Hs IH]; [done|]. simpl. destruct (Z.eqb_spec c SLASH); [done|]. by f_equal.
Qed.

Lemma path_of_zero names tr : exists rest, path_buf (path_of names tr) = 0 :: rest.
Proof. destruct names as [|s names], tr; by eexists. Qed.

(** The parser finds the names of the path, in order. *)
Lemma entries_names names tr i :
  Forall valid_name names ->
  let P := path_of names tr in
  Forall2 (fun off s => exists rest, cstr (drop (Z.to_nat (off - i)) (path_buf P)) s rest)
    (path_entries i (i + Z.of_nat (length P)) P) names.
Proof.
  intros Hn. revert i. induction Hn as [|s names [Hs0 Hs] Hn IH]; intros i P.
  - unfold P, path_of. destruct tr; simpl; [|constructor].
    destruct (Z.ltb_spec (i + 1) (i + Z.of_nat 1)); [lia|constructor].
  - set (P' := path_of names tr).
    assert (P = SLASH :: s ++ P') as EP by (unfold P, P', path_of; simpl; by rewrite <- app_assoc).
    rewrite EP. cbn [path_entries length]. rewrite Z.eqb_refl, length_app.
    destruct (Z.ltb_spec (i + 1) (i + Z.of_nat (S (length s + length P')))) as [_|Hlt];
      [|destruct s; simpl in *; [done|lia]].
    cbn [andb]. rewrite path_entries_skip by done.
    replace (i + Z.of_nat (S (length s + length P'))) with
      (i + 1 + Z.of_nat (length s) + Z.of_nat (length P')) by lia.
    change (path_buf (SLASH :: s ++ P')) with (0 :: path_buf (s ++ P')).
    rewrite path_buf_app by done. constructor.
    + replace (Z.to_nat (i + 1 - i)) with 1%nat by lia. cbn [drop].
      destruct (path_of_zero names tr) as [rest E0]. fold P' in E0. rewrite E0. exists rest. split; [done|].
      eapply Forall_impl; [exact Hs|]; naive_solver.
    + specialize (IH (i + 1 + Z.of_nat (length s))). cbn zeta in IH. fold P' in IH.
      pose proof (path_entries_gt (i + 1 + Z.of_nat (length s))
        (i + 1 + Z.of_nat (length s) + Z.of_nat (length P')) P') as Hgt.
      clear -IH Hgt. clearbody P'. induction IH as [|off t offs ts Ho Hos IHos]; [constructor|].
      inversion Hgt; subst. constructor; [|by apply IHos].
      replace (Z.to_nat (off - i)) with (S (length s + Z.to_nat (off - (i + 1 + Z.of_nat (length s))))) by lia.
      cbn [drop]. by rewrite drop_app_add.
Qed.

(** * Sibling chains *)

(** [chain iblk i l]: the siblings from index [i] on are [l]. *)
Inductive chain (iblk : list mfs_inode) : Z -> list Z -> Prop :=
| chain_nil : chain iblk 0 []
| chain_cons i n l :
    i <> 0 -> aget iblk i = Some n -> chain iblk (i_next n) l -> chain iblk i (i :: l).

Definition name_at (iblk : list mfs_inode) (i : Z) : list Z :=
  match aget iblk i with Some n => cname (i_name n) | None => [] end.

(** The first of the siblings [l] with name [s], 0 when there is none. *)
Fixpoint find_child (iblk : list mfs_inode) (s : list Z) (l : list Z) : Z :=
  match l with
  | [] => 0
  | c :: l' => if decide (name_at iblk c = s) then c else find_child iblk s l'
  end.

(** The entry [s] of directory [p] with children [l]. *)
Definition step_spec (iblk : list mfs_inode) (s : list Z) (l : list Z) : Z :=
  let c := find_child iblk s l in
  if decide (name_at iblk c = s) then c else -1.

Definition terminated (iblk : list mfs_inode) (l : list Z) : Prop :=
  Forall (fun i => exists n, aget iblk i = Some n /\ 0 ∈ i_name n) l.

Lemma chain_range iblk i l : chain iblk i l -> 0 <= i <= Z.of_nat (length iblk).
Proof. intros []; [lia|]. apply aget_inv in H0. lia. Qed.

Lemma sibling_loop_ok iblk e s rest i l fuel d :
  Z.of_nat (length iblk) < 2 ^ 31 -> cstr e s rest ->
  chain iblk i l -> terminated iblk l -> (length l <= fuel)%nat ->
  sibling_loop fuel iblk e i d = Ok (find_child iblk s l) d.
Proof.
  intros Hlen He Hc. revert fuel. induction Hc as [|i n l Hi Hn Hc IH]; intros fuel Ht Hf.
  - by destruct fuel.
  - apply Forall_cons in Ht as [(n' & E & H0) Ht]. assert (n' = n) as -> by congruence.
    destruct fuel as [|fuel]; simpl in Hf; [lia|]. cbn [sibling_loop find_child].
    destruct (Z.eqb_spec i 0); [done|]. msome Hn. msome (strcmp_cname _ _ _ _ H0 He).
    unfold name_at. rewrite Hn. case_decide; [done|]. simpl.
    pose proof (chain_range _ _ _ Hc). rewrite s32_small by (unfold is_s32; lia). apply IH; [done|lia].
Qed.

Lemma iget_step_ok iblk e s rest p n l d :
  Z.of_nat (length iblk) < 2 ^ 31 -> cstr e s rest ->
  aget iblk p = Some n -> chain iblk (i_child n) l -> NoDup l -> terminated iblk (0 :: l) ->
  iget_step iblk e p d = Ok (step_spec iblk s l) d.
Proof.
  intros Hlen He Hp Hc Hnd Ht. apply Forall_cons in Ht as Hh. destruct Hh as [Hr Ht'].
  unfold iget_step. msome Hp. pose proof (chain_range _ _ _ Hc).
  rewrite s32_small by (unfold is_s32; lia).
  assert (length l <= length iblk)%nat as Hll.
  { assert (l ⊆ seqZ 0 (Z.of_nat (length iblk))) as Hsub.
    { intros x Hx. rewrite Forall_forall in Ht'. destruct (Ht' x Hx) as (m & Em & _).
      apply aget_inv in Em. apply elem_of_seqZ. lia. }
    pose proof (submseteq_length _ _ (NoDup_submseteq _ _ Hnd Hsub)) as Hle.
    rewrite length_seqZ in Hle. lia. }
  rewrite (bind_ok _ _ _ _ _ (sibling_loop_ok _ _ _ _ _ _ _ d Hlen He Hc Ht' Hll)).
  unfold step_spec. assert (exists m, aget iblk (find_child iblk s l) = Some m /\ 0 ∈ i_name m)
    as (m & Em & Hm0).
  { clear -Hr Ht'. induction l as [|c l IH]; [done|]. simpl. apply Forall_cons in Ht' as [? ?].
    case_decide; [done|]. auto. }
  msome Em. msome (strcmp_cname _ _ _ _ Hm0 He). unfold name_at. rewrite Em. by case_decide.
Qed.

(** * The tree *)

Definition NINODES : Z := 8192.

(** [tree_ok bmp iblk ch cnt]: the inodes in use are [0..cnt-1], and the
    children of each are the chain [ch i], of larger indices that point back. *)
Record tree_ok (bmp : list Z) (iblk : list mfs_inode) (ch : Z -> list Z) (cnt : Z) : Prop := {
  t_bmp : wf_bmp bmp;
  t_items : items bmp = NINODES;
  t_len : Z.of_nat (length iblk) = NINODES;
  t_names : Forall (fun i => length (i_name i) = 68%nat) iblk;
  t_cnt : 1 <= cnt <= NINODES;
  t_used : forall k, 0 <= k < NINODES -> used bmp k = (k <? cnt);
  t_node : forall i, 0 <= i < cnt -> exists n, aget iblk i = Some n /\ 0 ∈ i_name n /\
             chain iblk (i_child n) (ch i);
  t_sub : forall i c, 0 <= i < cnt -> c ∈ ch i -> i < c < cnt /\
             exists m, aget iblk c = Some m /\ i_parent m = i;
  t_nodup : forall i, NoDup (ch i)
}.

Lemma tree_terminated bmp iblk ch cnt i :
  tree_ok bmp iblk ch cnt -> 0 <= i < cnt -> terminated iblk (0 :: ch i).
Proof.
  intros T Hi. destruct (t_cnt _ _ _ _ T) as [Hc _]. constructor.
  - destruct (t_node _ _ _ _ T 0) as (n & ? & ? & _); [lia|eauto].
  - apply Forall_forall. intros c Hc'. destruct (t_sub _ _ _ _ T i c Hi Hc') as [? _].
    destruct (t_node _ _ _ _ T c) as (n & ? & ? & _); [lia|eauto].
Qed.

Lemma find_child_in iblk s l : find_child iblk s l = 0 \/ find_child iblk s l ∈ l.
Proof.
  induction l as [|c l IH]; [by left|]. simpl. case_decide; [right; set_solver|].
  destruct IH; [by left|right; set_solver].
Qed.

(** The directory reached through [names]: [Some (-1)] when the last one is
    missing, [None] when an earlier one is. *)
Fixpoint resolve (iblk : list mfs_inode) (ch : Z -> list Z) (names : list (list Z)) (p : Z) : option Z :=
  match names with
  | [] => Some p
  | s :: rest => if p =? -1 then None else resolve iblk ch rest (step_spec iblk s (ch p))
  end.

Lemma step_spec_range bmp iblk ch cnt s p :
  tree_ok bmp iblk ch cnt -> 0 <= p < cnt ->
  step_spec iblk s (ch p) = -1 \/ 0 <= step_spec iblk s (ch p) < cnt.
Proof.
  intros T Hp. unfold step_spec. case_decide; [right|by left]. pose proof (t_cnt _ _ _ _ T).
  destruct (find_child_in iblk s (ch p)) as [->|Hin]; [lia|].
  destruct (t_sub _ _ _ _ T p _ Hp Hin). lia.
Qed.

Lemma iget_loop_ok bmp iblk ch cnt ents names p d :
  tree_ok bmp iblk ch cnt -> Forall2 (fun e s => exists rest, cstr e s rest) ents names ->
  p = -1 \/ 0 <= p < cnt ->
  iget_loop iblk ents p d =
    match resolve iblk ch names p with Some i => Ok i d | None => Err OutOfBounds end.
Proof.
  intros T H. revert p. induction H as [|e s ents names (rest & He) H IH]; intros p Hp; [done|].
  cbn [iget_loop resolve]. destruct Hp as [->|Hp]; [done|].
  destruct (Z.eqb_spec p (-1)) as [|_]; [lia|].
  destruct (t_node _ _ _ _ T p Hp) as (n & En & _ & Hc).
  pose proof (t_len _ _ _ _ T) as Hl. unfold NINODES in Hl.
  erewrite bind_ok; [|eapply iget_step_ok; [lia|exact He|exact En|exact Hc|apply (t_nodup _ _ _ _ T)|]].
  - apply IH. by eapply step_spec_range.
  - by eapply tree_terminated.
Qed.

Lemma iget_ok bmp ch cnt names tr d :
  tree_ok bmp (m_inodes d) ch cnt -> Forall valid_name names -> (length names <= 128)%nat ->
  mfs_iget (path_of names tr) d =
    match resolve (m_inodes d) ch names 0 with Some i => Ok i d | None => Err OutOfBounds end.
Proof.
  intros T Hn Hl. pose proof (entries_names names tr 0 Hn) as He. cbn zeta in He.
  rewrite Z.add_0_l in He. unfold mfs_iget. rewrite (Forall2_length _ _ _ He).
  destruct (Nat.ltb_spec 128 (length names)); [lia|]. msteps.
  eapply iget_loop_ok; [done| |pose proof (t_cnt _ _ _ _ T); lia].
  apply Forall2_fmap_l. eapply Forall2_impl; [exact He|]. intros off s Hos. simpl in *.
  unfold entry_at. by rewrite Z.sub_0_r in Hos.
Qed.

(** C7: in a well-formed inode table, looking up the path "/a/b/..." follows
    the children with these names from the root: it returns the inode it ends
    at, -1 when only the last name is missing, and reads outside the table when
    an earlier one is. *)
Theorem iget_resolves bmp ch cnt names tr d :
  tree_ok bmp (m_inodes d) ch cnt -> Forall valid_name names -> (length names <= 128)%nat ->
  mfs_iget (path_of names tr) d =
    match resolve (m_inodes d) ch names 0 with Some i => Ok i d | None => Err OutOfBounds end.
Proof. apply iget_ok. Qed.

Lemma used_fresh k : 0 <= k < NINODES -> used (m_ibmp fresh) k = (k <? 1).
Proof.
  intros Hk. pose proof (mark_ok (zeros 1024) 0 1) as H.
  assert (items (zeros 1024) = NINODES) as Hi by (unfold items; rewrite length_zeros; reflexivity).
  destruct H as (b & E & _ & _ & Hu); [by apply Forall_replicate|unfold NINODES in *; lia|].
  assert (b = m_ibmp fresh) as -> by (apply (inj Some); rewrite <- E; reflexivity).
  rewrite Hu by lia. assert (used (zeros 1024) k = false) as ->.
  { unfold used. unfold NINODES in Hk. destruct (aget_Some (zeros 1024) (k / 8)) as [x Ex].
    { rewrite length_zeros. Z.div_mod_to_equations. lia. }
    rewrite Ex. apply aget_inv in Ex as [_ Ex]. apply lookup_replicate in Ex as [-> _].
    apply Z.testbit_0_l. }
  case_decide; destruct (Z.ltb_spec k 1); try done; lia.
Qed.

Lemma fresh_tree : tree_ok (m_ibmp fresh) (m_inodes fresh) (fun _ => []) 1.
Proof.
  split.
  - cbn [fresh m_ibmp]. apply Forall_insert; [|by vm_compute]. by apply Forall_replicate.
  - unfold items. rewrite (wf_ibmp_len _ fresh_sizes). reflexivity.
  - rewrite (wf_inodes _ fresh_sizes). reflexivity.
  - apply (wf_names _ fresh_sizes).
  - unfold NINODES. lia.
  - apply used_fresh.
  - intros i Hi. assert (i = 0) as -> by lia. exists root_inode. split; [|split; [|constructor]].
    + unfold aget, fresh. cbn [m_inodes]. rewrite decide_True by lia. apply list_lookup_insert_eq.
      rewrite length_replicate. change (MFS_BLKSIZE * NIBLK / 128) with 8192. lia.
    + apply list_elem_of_lookup. by exists 4%nat.
  - intros i c _ Hc. by apply not_elem_of_nil in Hc.
  - intros. constructor.
Qed.

(** In an empty image "/root" resolves to the root directory itself: the lookup
    compares the missing entry with inode 0, whose name is "root". *)
Lemma iget_resolves_witness : mfs_iget (path_of [root_name] false) fresh = Ok 0 fresh.
Proof.
  apply (iget_resolves (m_ibmp fresh) (fun _ => []) 1 [root_name] false fresh);
    [apply fresh_tree| |simpl; lia].
  constructor; [|constructor]. split; [done|]. repeat constructor; unfold SLASH; lia.
Defined.

(** * Adding a node *)

(** The children after node [i] became the first child of [p]. *)
Definition add_ch (ch : Z -> list Z) (p i : Z) : Z -> list Z :=
  fun k => if decide (k = i) then [] else if decide (k = p) then i :: ch p else ch k.

(** The inode table with [n] at [i] and [i] as first child of [p]. *)
Definition link (iblk : list mfs_inode) (p i : Z) (n : mfs_inode) (par : mfs_inode) : list mfs_inode :=
  <[Z.to_nat p := set_child i par]> (<[Z.to_nat i := n]> iblk).

Lemma aget_insert {A} (l : list A) i j x :
  0 <= i < Z.of_nat (length l) -> aget (<[Z.to_nat i := x]> l) j = if decide (i = j) then Some x else aget l j.
Proof.
  intros Hi. pose proof (aset_Some l i x Hi) as E. case_decide as D.
  - subst. by apply (aget_aset _ _ _ _ E).
  - by apply (aget_aset_ne _ _ _ _ _ E).
Qed.

Lemma aget_link iblk p i n par j :
  0 <= i < Z.of_nat (length iblk) -> 0 <= p < Z.of_nat (length iblk) ->
  aget (link iblk p i n par) j =
    if decide (p = j) then Some (set_child i par) else if decide (i = j) then Some n else aget iblk j.
Proof. intros Hi Hp. unfold link. by rewrite !aget_insert by (rewrite ?length_insert; lia). Qed.

Lemma chain_link iblk p i n par k l :
  0 <= i < Z.of_nat (length iblk) -> aget iblk p = Some par -> p <> i ->
  i ∉ l -> chain iblk k l -> chain (link iblk p i n par) k l.
Proof.
  intros Hi Hp Hpi Hl Hc. pose proof (aget_inv _ _ _ Hp) as [Hpr _].
  induction Hc as [|k m l Hk Hm Hc IH]; [constructor|].
  apply not_elem_of_cons in Hl as [Hik Hl']. specialize (IH Hl').
  apply (chain_cons _ _ (if decide (p = k) then set_child i par else m)); [done|..].
  - rewrite aget_link by lia. case_decide; [done|]. by rewrite decide_False by congruence.
  - case_decide as D; [|done]. subst. by replace m with par in IH by congruence.
Qed.

Lemma name_at_link iblk p i n par j :
  0 <= i < Z.of_nat (length iblk) -> aget iblk p = Some par -> p <> i ->
  name_at (link iblk p i n par) j = if decide (j = i) then cname (i_name n) else name_at iblk j.
Proof.
  intros Hi Hp Hpi. pose proof (aget_inv _ _ _ Hp) as [Hpr _]. unfold name_at.
  rewrite aget_link by lia. destruct (decide (p = j)) as [<-|].
  - rewrite decide_False by done. by rewrite Hp.
  - destruct (decide (i = j)) as [->|]; [by rewrite decide_True|by rewrite decide_False].
Qed.

Lemma tree_link bmp bmp' iblk ch cnt p n par :
  tree_ok bmp iblk ch cnt -> cnt < NINODES -> 0 <= p < cnt -> aget iblk p = Some par ->
  wf_bmp bmp' -> items bmp' = items bmp ->
  (forall k, 0 <= k < NINODES -> used bmp' k = if decide (k = cnt) then true else used bmp k) ->
  i_next n = i_child par -> i_parent n = p -> i_child n = 0 -> 0 ∈ i_name n -> length (i_name n) = 68%nat ->
  tree_ok bmp' (link iblk p cnt n par) (add_ch ch p cnt) (cnt + 1).
Proof.
  intros T Hc Hp Hpar Hw Hit Hu Hnext Hparent Hchild H0 H68.
  pose proof (t_len _ _ _ _ T) as Hlen. pose proof (t_cnt _ _ _ _ T) as Hcnt.
  assert (forall i, 0 <= i < cnt -> cnt ∉ ch i) as Hfresh.
  { intros i Hi Hin. destruct (t_sub _ _ _ _ T i cnt Hi Hin). lia. }
  split; try done; try lia.
  - rewrite Hit. apply (t_items _ _ _ _ T).
  - unfold link. by rewrite !length_insert.
  - unfold link. apply (Forall_insert (fun i => length (i_name i) = 68%nat)).
    + apply (Forall_insert (fun i => length (i_name i) = 68%nat)); [apply (t_names _ _ _ _ T)|done].
    + simpl. apply aget_inv in Hpar as [_ Hpar].
      apply (Forall_lookup_1 _ _ _ _ (t_names _ _ _ _ T) Hpar).
  - intros k Hk. rewrite Hu by done. case_decide as D.
    + subst. symmetry. apply Z.ltb_lt. lia.
    + rewrite (t_used _ _ _ _ T) by done. destruct (Z.ltb_spec k cnt), (Z.ltb_spec k (cnt + 1)); try done; lia.
  - intros i Hi. rewrite aget_link by lia. unfold add_ch. destruct (decide (p = i)) as [<-|Hpi].
    + eexists. split; [reflexivity|].
      destruct (t_node _ _ _ _ T p Hp) as (m & Em & Hm0 & Hmc). assert (m = par) as -> by congruence.
      split; [done|]. rewrite decide_False, decide_True by (done || lia). simpl.
      econstructor; [lia|by rewrite aget_link, decide_False, decide_True by (done || lia)|].
      rewrite Hnext. apply chain_link; try done; try lia. by apply Hfresh.
    + destruct (decide (cnt = i)) as [<-|Hci].
      * exists n. rewrite decide_True by done. rewrite Hchild. split_and!; [done..|constructor].
      * destruct (t_node _ _ _ _ T i ltac:(lia)) as (m & Em & Hm0 & Hmc). exists m.
        rewrite !decide_False by congruence. split_and!; [done..|].
        apply chain_link; try done; try lia. apply Hfresh. lia.
  - intros i c Hi Hin. unfold add_ch in Hin. rewrite aget_link by lia.
    destruct (decide (i = cnt)) as [->|]; [set_solver|]. destruct (decide (i = p)) as [->|].
    + apply elem_of_cons in Hin as [->|Hin].
      * split; [lia|]. rewrite decide_False, decide_True by lia. eauto.
      * destruct (t_sub _ _ _ _ T p c Hp Hin) as [? (m & Em & Hm)]. split; [lia|].
        rewrite !decide_False by lia. eauto.
    + destruct (t_sub _ _ _ _ T i c ltac:(lia) Hin) as [? (m & Em & Hm)]. split; [lia|].
      case_decide; [|rewrite decide_False by lia; eauto]. subst.
      assert (m = par) as -> by congruence. exists (set_child cnt par). done.
  - intros i. unfold add_ch. repeat case_decide; [constructor| |apply (t_nodup _ _ _ _ T)].
    constructor; [by apply Hfresh|apply (t_nodup _ _ _ _ T)].
Qed.

Lemma new_inode_ok ch cnt d :
  tree_ok (m_ibmp d) (m_inodes d) ch cnt -> cnt < NINODES ->
  exists bmp', new_inode d = Ok cnt (set_ibmp bmp' d) /\ wf_bmp bmp' /\ length bmp' = length (m_ibmp d) /\
    forall k, 0 <= k < NINODES -> used bmp' k = if decide (k = cnt) then true else used (m_ibmp d) k.
Proof.
  intros T Hc. pose proof (t_items _ _ _ _ T) as Hit. pose proof (t_cnt _ _ _ _ T).
  destruct (seek_ok (m_ibmp d) (MFS_BLKSIZE * NIBMP * 8)) as [(i & E & Hi & Hr & Hf & Hlow)|[_ Hall]].
  - apply (t_bmp _ _ _ _ T).
  - rewrite Hit. by vm_compute.
  - reflexivity.
  - assert (i = cnt) as ->.
    { rewrite Hit in Hr. rewrite (t_used _ _ _ _ T) in Hf by done. apply Z.ltb_ge in Hf.
      destruct (decide (i = cnt)); [done|]. specialize (Hlow cnt ltac:(lia)).
      rewrite (t_used _ _ _ _ T) in Hlow by lia. apply Z.ltb_lt in Hlow. lia. }
    destruct (mark_ok (m_ibmp d) cnt 1 (t_bmp _ _ _ _ T)) as (bmp' & Em & Hw & Hl & Hu); [lia|].
    exists bmp'. split; [|split; [done|split; [done|]]].
    + unfold new_inode. msteps. msome E. destruct (Z.eqb_spec cnt (-1)) as [|_]; [lia|]. msome Em. done.
    + intros k Hk. rewrite Hu by lia. by case_decide.
  - specialize (Hall cnt). rewrite (t_used _ _ _ _ T), Z.ltb_irrefl in Hall by lia.
    discriminate Hall. unfold NINODES in *. change (MFS_BLKSIZE * NIBMP * 8) with 8192. lia.
Qed.

Lemma new_inode_full ch d :
  tree_ok (m_ibmp d) (m_inodes d) ch NINODES -> new_inode d = Err (Exited (-1)).
Proof.
  intros T. pose proof (t_items _ _ _ _ T) as Hit.
  destruct (seek_ok (m_ibmp d) (MFS_BLKSIZE * NIBMP * 8)) as [(i & E & Hi & Hr & Hf & Hlow)|[E _]].
  - apply (t_bmp _ _ _ _ T).
  - rewrite Hit. by vm_compute.
  - reflexivity.
  - rewrite Hit in Hr. rewrite (t_used _ _ _ _ T) in Hf by done. apply Z.ltb_ge in Hf. lia.
  - unfold new_inode. msteps. msome E. done.
Qed.

(** The inode the two operations fill in. *)
Definition made_inode (old par : mfs_inode) (i p : Z) (name : list Z) (mode size : Z) (t : stamps) : mfs_inode :=
  Inode (name ++ 0 :: drop (S (length name)) (i_name old)) i mode 0 0 0 0 (u32 size)
    (u32 (at_ t)) (u32 (mt_ t)) (u32 (ct_ t)) (i_blkentry old) (i_blocks old) (i_child par) p 0 0.

Lemma valid_cstr name : valid_name name -> cstr (cz name) name [].
Proof. intros [_ H]. split; [done|]. eapply Forall_impl; [exact H|]; naive_solver. Qed.

Lemma fill_inode_ok d i p old par name mode size t :
  aget (m_inodes d) i = Some old -> aget (m_inodes d) p = Some par -> p <> i ->
  Z.of_nat (length (m_inodes d)) = NINODES -> length (i_name old) = 68%nat ->
  valid_name name -> (length name < 68)%nat ->
  fill_inode i p name mode size t d =
    Ok tt (set_inodes (link (m_inodes d) p i (made_inode old par i p name mode size t) par) d).
Proof.
  intros Hi Hp Hpi Hlen H68 Hv Hn. pose proof (aget_inv _ _ _ Hi) as [Hir _].
  pose proof (aget_inv _ _ _ Hp) as [Hpr _]. unfold NINODES in Hlen.
  unfold fill_inode. msteps. msome Hi.
  assert (strcpy (i_name old) (cz name) = Some (name ++ 0 :: drop (S (length name)) (i_name old))) as Es.
  { apply (strcpy_spec _ _ _ []); [by apply valid_cstr|lia]. }
  msome Es. msome Hp. rewrite (u32_small i), (u32_small p) by (unfold is_u32; lia).
  msome (aset_Some _ _ _ Hir). rewrite (bind_some _ _ par); [|rewrite (aget_insert _ _ _ _ Hir); by rewrite decide_False by congruence].
  rewrite (bind_some _ _ _ _ _ (aset_Some _ _ _ ltac:(rewrite length_insert; exact Hpr))). done.
Qed.

Lemma upd_inode_link d iblk p i n par f :
  m_inodes d = link iblk p i n par -> 0 <= i < Z.of_nat (length iblk) -> 0 <= p < Z.of_nat (length iblk) ->
  p <> i -> upd_inode i f d = Ok tt (set_inodes (link iblk p i (f n) par) d).
Proof.
  intros E Hi Hp Hpi. unfold upd_inode. msteps. rewrite E.
  rewrite (bind_some _ _ n); [|rewrite aget_link, decide_False, decide_True by done; done].
  assert (aset (link iblk p i n par) i (f n) = Some (link iblk p i (f n) par)) as Es.
  { rewrite aset_Some by (unfold link; rewrite !length_insert; lia). unfold link.
    rewrite list_insert_insert_ne by lia. by rewrite list_insert_insert_eq. }
  msome Es. done.
Qed.

(** Resolution of a path that does not use the name of the root. *)
Lemma step_spec_gt bmp iblk ch cnt s p :
  tree_ok bmp iblk ch cnt -> 0 <= p < cnt -> s <> name_at iblk 0 ->
  step_spec iblk s (ch p) = -1 \/ step_spec iblk s (ch p) ∈ ch p.
Proof.
  intros T Hp Hs. unfold step_spec. destruct (find_child_in iblk s (ch p)) as [E|Hin].
  - rewrite E, decide_False by congruence. by left.
  - case_decide; [by right|by left].
Qed.

Lemma find_child_link iblk p i n par s l :
  0 <= i < Z.of_nat (length iblk) -> aget iblk p = Some par -> p <> i -> i ∉ l ->
  find_child (link iblk p i n par) s l = find_child iblk s l.
Proof.
  intros Hi Hp Hpi. induction l as [|c l IH]; intros Hl; [done|]. simpl.
  apply not_elem_of_cons in Hl as [? ?]. rewrite name_at_link by done. rewrite (decide_False (P := c = i)) by done.
  by rewrite IH.
Qed.

Lemma resolve_ge bmp iblk ch cnt names q p :
  tree_ok bmp iblk ch cnt -> 0 <= q < cnt -> name_at iblk 0 ∉ names -> 0 <= p ->
  resolve iblk ch names q = Some p -> q <= p.
Proof.
  intros T. revert q. induction names as [|s names IH]; intros q Hq Hr Hp E; simpl in E; [injection E; lia|].
  destruct (Z.eqb_spec q (-1)) as [|_]; [done|]. apply not_elem_of_cons in Hr as [Hs Hr].
  destruct (step_spec_gt _ _ _ _ s q T Hq) as [E1|Hin]; [congruence|..].
  - rewrite E1 in E. destruct names; simpl in E; [injection E; lia|done].
  - destruct (t_sub _ _ _ _ T q _ Hq Hin) as [? _]. specialize (IH (step_spec iblk s (ch q)) ltac:(lia) Hr Hp E). lia.
Qed.

(** A path that led to [p] still does, and the new name leads to the new node. *)
Lemma resolve_link bmp iblk ch cnt names name p q n par :
  tree_ok bmp iblk ch cnt -> cnt < NINODES -> aget iblk p = Some par -> 0 <= p < cnt -> 0 <= q < cnt ->
  name_at iblk 0 ∉ names -> cname (i_name n) = name ->
  resolve iblk ch names q = Some p ->
  resolve (link iblk p cnt n par) (add_ch ch p cnt) (names ++ [name]) q = Some cnt.
Proof.
  intros T Hc Hpar Hp. revert q. pose proof (t_len _ _ _ _ T). pose proof (t_cnt _ _ _ _ T).
  induction names as [|s names IH]; intros q Hq Hroot Hname Hres.
  - simpl in Hres. injection Hres as ->. cbn [app resolve].
    destruct (Z.eqb_spec p (-1)) as [|_]; [lia|]. unfold step_spec, add_ch.
    rewrite (decide_False (P := p = cnt)), (decide_True (P := p = p)) by (done || lia).
    assert (name_at (link iblk p cnt n par) cnt = name) as Hn.
    { rewrite name_at_link by (done || lia). by rewrite decide_True. }
    assert (find_child (link iblk p cnt n par) name (cnt :: ch p) = cnt) as -> by
      (cbn [find_child]; by rewrite decide_True).
    by rewrite decide_True.
  - cbn [app resolve] in *. destruct (Z.eqb_spec q (-1)) as [|_]; [lia|].
    apply not_elem_of_cons in Hroot as [Hs Hroot].
    assert (step_spec iblk s (ch q) ∈ ch q) as Hin.
    { destruct (step_spec_gt _ _ _ _ s q T Hq) as [E|]; [congruence| |done].
      rewrite E in Hres. destruct names; simpl in Hres; [|done]. injection Hres; lia. }
    destruct (t_sub _ _ _ _ T q _ Hq Hin) as [Hgt _].
    assert (q <> p) by (pose proof (resolve_ge _ _ _ _ names (step_spec iblk s (ch q)) p T ltac:(lia) Hroot ltac:(lia) Hres); lia).
    rewrite <- (IH (step_spec iblk s (ch q))) by (done || lia).
    f_equal. unfold step_spec, add_ch.
    rewrite (decide_False (P := q = cnt)), (decide_False (P := q = p)) by lia.
    assert (cnt ∉ ch q) as Hf.
    { intros Hin'. destruct (t_sub _ _ _ _ T q _ Hq Hin'). lia. }
    rewrite find_child_link, name_at_link by (done || lia).
    rewrite (decide_False (P := find_child _ _ _ = cnt)); [done|].
    intros E. destruct (find_child_in iblk s (ch q)) as [E0|E0]; [lia|congruence].
Qed.

(** Every path that does not take the new name in the directory leads where it led. *)
Lemma resolve_other bmp iblk ch cnt name p n par :
  tree_ok bmp iblk ch cnt -> cnt < NINODES -> aget iblk p = Some par -> 0 <= p < cnt -> cname (i_name n) = name ->
  forall l q, q = -1 \/ 0 <= q < cnt -> (forall l1 l2, l = l1 ++ name :: l2 -> resolve iblk ch l1 q <> Some p) ->
  resolve (link iblk p cnt n par) (add_ch ch p cnt) l q = resolve iblk ch l q.
Proof.
  intros T Hc Hpar Hp Hname. pose proof (t_len _ _ _ _ T). pose proof (t_cnt _ _ _ _ T).
  induction l as [|s l IH]; intros q Hq Ho; [done|]. cbn [resolve]. destruct (Z.eqb_spec q (-1)) as [|Hq1]; [done|].
  destruct Hq as [->|Hq]; [done|].
  assert (step_spec (link iblk p cnt n par) s (add_ch ch p cnt q) = step_spec iblk s (ch q)) as Es.
  { assert (cnt ∉ ch q) as Hf by (intros Hin; destruct (t_sub _ _ _ _ T q cnt Hq Hin); lia).
    assert (find_child (link iblk p cnt n par) s (add_ch ch p cnt q) = find_child iblk s (ch q)) as Ef.
    { unfold add_ch. rewrite (decide_False (P := q = cnt)) by lia. destruct (decide (q = p)) as [->|]; [|apply find_child_link; (done || lia)].
      cbn [find_child]. rewrite name_at_link, (decide_True (P := cnt = cnt)) by (done || lia). rewrite Hname, (decide_False (P := name = s)).
      - apply find_child_link; done || lia.
      - intros ->. by apply (Ho [] l). }
    unfold step_spec. rewrite Ef, name_at_link by (done || lia). rewrite (decide_False (P := find_child _ _ _ = cnt)); [done|].
    intros E. destruct (find_child_in iblk s (ch q)) as [E0|E0]; [lia|congruence]. }
  rewrite Es. apply IH; [by eapply step_spec_range|]. intros l1 l2 -> Hl1. apply (Ho (s :: l1) l2); [done|].
  cbn [resolve]. by rewrite (proj2 (Z.eqb_neq _ _)).
Qed.

(** Lookups in [d'] are those in [d], but for the paths that take [name] in the
    directory [p]. *)
Definition paths_kept (d d' : mfs_data) (p : Z) (name : list Z) : Prop :=
  forall l tr, Forall valid_name l -> (length l <= 128)%nat ->
    (forall l1 l2, l = l1 ++ name :: l2 -> mfs_iget (path_of l1 false) d <> Ok p d) ->
    mfs_iget (path_of l tr) d' = match mfs_iget (path_of l tr) d with Ok i _ => Ok i d' | Err f => Err f end.
(** The inodes in [d'] are those in [d] with [n] added under [p]. *)
Definition inode_added (d d' : mfs_data) (p i : Z) (n : mfs_inode) : Prop :=
  forall j, aget (m_inodes d') j =
    if decide (j = i) then Some n else if decide (j = p) then set_child i <$> aget (m_inodes d) p else aget (m_inodes d) j.

Lemma link_added d d' p i n par : m_inodes d' = link (m_inodes d) p i n par -> 0 <= i < Z.of_nat (length (m_inodes d)) ->
  aget (m_inodes d) p = Some par -> p <> i -> inode_added d d' p i n.
Proof.
  intros E Hi Hpar Hpi j. pose proof (aget_inv _ _ _ Hpar) as [Hpr _]. rewrite E, aget_link by done.
  destruct (decide (p = j)) as [->|]; [by rewrite decide_False, decide_True, Hpar|].
  rewrite (decide_False (P := j = p)) by done. by destruct (decide (i = j)) as [->|]; [rewrite decide_True|rewrite decide_False].
Qed.
Lemma link_keeps d d' ch cnt p n par name :
  tree_ok (m_ibmp d) (m_inodes d) ch cnt -> cnt < NINODES -> aget (m_inodes d) p = Some par -> 0 <= p < cnt -> cname (i_name n) = name ->
  m_inodes d' = link (m_inodes d) p cnt n par -> tree_ok (m_ibmp d') (m_inodes d') (add_ch ch p cnt) (cnt + 1) -> paths_kept d d' p name.
Proof.
  intros T Hc Hpar Hp Hn E T' l tr Hl Hlen Ho. rewrite (iget_ok _ _ _ l tr d' T'), (iget_ok _ _ _ l tr d T) by done. rewrite E.
  rewrite (resolve_other _ _ _ _ name p n par T Hc Hpar Hp Hn l 0).
  - by destruct (resolve _ _ l 0).
  - pose proof (t_cnt _ _ _ _ T). lia.
  - intros l1 l2 -> Hr. apply Forall_app in Hl as [Hl1 _]. rewrite length_app in Hlen. apply (Ho l1 l2 eq_refl).
    rewrite (iget_ok _ _ _ l1 false d T) by (done || lia). by rewrite Hr.
Qed.

Lemma resolve_used bmp iblk ch cnt names q p :
  tree_ok bmp iblk ch cnt -> 0 <= q < cnt -> name_at iblk 0 ∉ names -> 0 <= p ->
  resolve iblk ch names q = Some p -> 0 <= p < cnt.
Proof.
  intros T. revert q. induction names as [|s names IH]; intros q Hq Hr Hp E; simpl in E; [injection E; lia|].
  destruct (Z.eqb_spec q (-1)) as [|_]; [done|]. apply not_elem_of_cons in Hr as [Hs Hr].
  destruct (step_spec_gt _ _ _ _ s q T Hq) as [E1|Hin]; [congruence|..].
  - rewrite E1 in E. destruct names; simpl in E; [injection E; lia|done].
  - destruct (t_sub _ _ _ _ T q _ Hq Hin) as [? _].
    apply (IH (step_spec iblk s (ch q)) ltac:(lia) Hr Hp E).
Qed.

Section mkdir.
Context (d : mfs_data) (ch : Z -> list Z) (cnt p : Z) (names : list (list Z)) (tr : bool)
  (name : list Z) (t : stamps).
Context (T : tree_ok (m_ibmp d) (m_inodes d) ch cnt) (Hcnt : cnt < NINODES)
  (Hnames : Forall valid_name names) (Hdepth : (length names < 128)%nat)
  (Hroot : name_at (m_inodes d) 0 ∉ names)
  (Hp : 0 <= p) (Hres : resolve (m_inodes d) ch names 0 = Some p)
  (Hname : valid_name name) (Hshort : (length name < 68)%nat).

Lemma target_used : 0 <= p < cnt.
Proof using All.
  pose proof (t_cnt _ _ _ _ T). by apply (resolve_used _ _ _ _ names 0 p T ltac:(lia) Hroot).
Qed.

Lemma short_name : (MFS_NAMELEN <? Z.of_nat (length name)) = false.
Proof using All. apply Z.ltb_ge. unfold MFS_NAMELEN. lia. Qed.

Lemma mkdir_ok :
  exists d' old par,
    mfs_mkdir (path_of names tr) name t d = Ok 0 d' /\
    aget (m_inodes d) cnt = Some old /\ aget (m_inodes d) p = Some par /\
    m_inodes d' = link (m_inodes d) p cnt
      (set_extent 0 0 (made_inode old par cnt p name dir_mode 0 t)) par /\
    m_dbmp d' = m_dbmp d /\ m_data d' = m_data d /\
    tree_ok (m_ibmp d') (m_inodes d') (add_ch ch p cnt) (cnt + 1) /\
    resolve (m_inodes d') (add_ch ch p cnt) (names ++ [name]) 0 = Some cnt.
Proof using All.
  pose proof target_used as Hpc. pose proof (t_len _ _ _ _ T) as Hl. pose proof (t_cnt _ _ _ _ T).
  destruct (aget_Some (m_inodes d) cnt) as [old Eo]; [lia|].
  destruct (aget_Some (m_inodes d) p) as [par Ep]; [lia|].
  destruct (new_inode_ok ch cnt d T Hcnt) as (bmp' & En & Hw & Hbl & Hu).
  set (n := set_extent 0 0 (made_inode old par cnt p name dir_mode 0 t)).
  exists (set_inodes (link (m_inodes d) p cnt n par) (set_ibmp bmp' d)), old, par.
  assert (length (i_name old) = 68%nat) as H68.
  { apply aget_inv in Eo as [_ Eo]. apply (Forall_lookup_1 _ _ _ _ (t_names _ _ _ _ T) Eo). }
  assert (cname (i_name n) = name /\ 0 ∈ i_name n) as [Hcn H0n].
  { apply (cstr_cname _ _ (drop (S (length name)) (i_name old))). split; [done|].
    apply (valid_cstr _ Hname). }
  split_and!; try done.
  - unfold mfs_mkdir. rewrite short_name. rewrite (bind_ok _ _ _ p d).
    2:{ rewrite (iget_ok (m_ibmp d) ch cnt) by (done || lia). by rewrite Hres. }
    destruct (Z.eqb_spec p (-1)) as [|_]; [lia|]. rewrite (bind_ok _ _ _ _ _ En).
    rewrite (bind_ok _ _ _ _ _ (fill_inode_ok (set_ibmp bmp' d) cnt p old par name dir_mode 0 t
      Eo Ep ltac:(lia) Hl H68 Hname Hshort)).
    erewrite bind_ok; [|eapply (upd_inode_link _ (m_inodes d) p cnt _ par); [done|lia|lia|lia]]. done.
  - cbn [m_ibmp m_inodes set_inodes set_ibmp]. apply (tree_link (m_ibmp d)); try done; try lia.
    + unfold items. by rewrite Hbl.
    + cbn. rewrite length_app. simpl. rewrite length_drop. lia.
  - by apply (resolve_link (m_ibmp d)); try done; lia.
Qed.
End mkdir.

Lemma made_name old par i p name mode size t : valid_name name -> cname (i_name (made_inode old par i p name mode size t)) = name.
Proof.
  intros Hv. apply (cstr_cname _ _ (drop (S (length name)) (i_name old))). split; [done|]. apply (valid_cstr _ Hv).
Qed.
Lemma resolved_iget d' ch cnt names name i : tree_ok (m_ibmp d') (m_inodes d') ch cnt -> Forall valid_name names ->
  (length names < 128)%nat -> valid_name name -> resolve (m_inodes d') ch (names ++ [name]) 0 = Some i ->
  mfs_iget (path_of (names ++ [name]) false) d' = Ok i d'.
Proof.
  intros T Hn Hl Hv Hr. rewrite (iget_ok (m_ibmp d') ch cnt); [by rewrite Hr|done|..].
  - apply Forall_app. split; [done|]. by constructor.
  - rewrite length_app. simpl. lia.
Qed.

(** C6: making a directory with a new name of fewer than 68 bytes under the directory a
    path leads to takes the lowest free inode and makes it the first child of that
    directory: the path with the name appended leads to it, and every path that does
    not take this name in this directory leads where it led, or fails as it failed.
    The new inode is an empty directory with that name and parent; of the other
    inodes only the first child of the parent changes; the table stays well formed
    and the data area alone. *)
Theorem mkdir_creates d ch cnt p names tr name t :
  tree_ok (m_ibmp d) (m_inodes d) ch cnt -> cnt < NINODES ->
  Forall valid_name names -> (length names < 128)%nat -> name_at (m_inodes d) 0 ∉ names ->
  0 <= p -> mfs_iget (path_of names tr) d = Ok p d ->
  valid_name name -> (length name < 68)%nat ->
  exists d' n, mfs_mkdir (path_of names tr) name t d = Ok 0 d' /\
    tree_ok (m_ibmp d') (m_inodes d') (add_ch ch p cnt) (cnt + 1) /\
    mfs_iget (path_of (names ++ [name]) false) d' = Ok cnt d' /\
    paths_kept d d' p name /\ inode_added d d' p cnt n /\
    cname (i_name n) = name /\ i_ino n = cnt /\ i_mode n = 0x40177 /\ i_parent n = p /\ i_child n = 0 /\
    i_size n = 0 /\ i_blkentry n = 0 /\ i_blocks n = 0 /\
    m_dbmp d' = m_dbmp d /\ m_data d' = m_data d.
Proof.
  intros T Hc Hn Hl Hr Hp Hi Hv Hs. pose proof (t_len _ _ _ _ T) as Hlen. pose proof (t_cnt _ _ _ _ T).
  rewrite (iget_ok (m_ibmp d) ch cnt) in Hi by (done || lia).
  destruct (resolve (m_inodes d) ch names 0) as [q|] eqn:E; [|done]. injection Hi as ->.
  pose proof (resolve_used _ _ _ _ names 0 p T ltac:(lia) Hr Hp E) as Hpc.
  destruct (mkdir_ok d ch cnt p names tr name t T Hc Hn Hl Hr Hp E Hv Hs)
    as (d' & old & par & Em & _ & Ep & Ei & Hd & Hdat & HT & Hres).
  pose proof (made_name old par cnt p name dir_mode 0 t Hv) as Hcn.
  exists d', (set_extent 0 0 (made_inode old par cnt p name dir_mode 0 t)). split; [exact Em|]. split; [exact HT|]. split; [|split; [|split; [|split; [exact Hcn|]]]].
  - by apply (resolved_iget _ _ _ _ _ _ HT).
  - exact (link_keeps d d' ch cnt p (set_extent _ _ _) par name T Hc Ep Hpc Hcn Ei HT).
  - apply (link_added _ _ _ _ _ par); [exact Ei|lia|done|lia].
  - by split_and!.
Qed.

(** "bin" *)
Definition bin : list Z := [98; 105; 110].

Lemma mkdir_creates_witness :
  exists d' n, mfs_mkdir (path_of [] true) bin (Stamps 1 2 3) fresh = Ok 0 d' /\
    tree_ok (m_ibmp d') (m_inodes d') (add_ch (fun _ => []) 0 1) (1 + 1) /\
    mfs_iget (path_of ([] ++ [bin]) false) d' = Ok 1 d' /\
    paths_kept fresh d' 0 bin /\ inode_added fresh d' 0 1 n /\
    cname (i_name n) = bin /\ i_ino n = 1 /\ i_mode n = 0x40177 /\ i_parent n = 0 /\ i_child n = 0 /\
    i_size n = 0 /\ i_blkentry n = 0 /\ i_blocks n = 0 /\
    m_dbmp d' = m_dbmp fresh /\ m_data d' = m_data fresh.
Proof.
  apply (mkdir_creates fresh (fun _ => []) 1 0 [] true bin (Stamps 1 2 3)).
  - apply fresh_tree.
  - unfold NINODES. lia.
  - constructor.
  - simpl. lia.
  - apply not_elem_of_nil.
  - lia.
  - reflexivity.
  - split; [done|]. repeat constructor; unfold SLASH; lia.
  - simpl. lia.
Defined.

(** * File contents *)

(** The blocks in use are the first [nb]. *)
Definition blocks_ok (bmp : list Z) (nb : Z) : Prop :=
  wf_bmp bmp /\ items bmp = NINODES /\ forall k, 0 <= k < NINODES -> used bmp k = (k <? nb).

Lemma seek_loop_more n m bmp b i :
  seek_loop n bmp b = Some (Some i) -> seek_loop (n + m) bmp b = Some (Some i).
Proof.
  revert b. induction n as [|n IH]; intros b; simpl; [done|].
  destruct (aget bmp b) as [x|]; simpl; [|done]. destruct (negb _); [done|apply IH].
Qed.

Lemma seekbmp_more bmp e1 e2 i :
  0 <= e1 <= e2 -> mfs_seekbmp bmp 0 e1 = Some i -> i <> -1 -> mfs_seekbmp bmp 0 e2 = Some i.
Proof.
  intros He. unfold mfs_seekbmp. rewrite !Z.quot_div_nonneg by lia. change (0 / 8) with 0.
  rewrite !Z.sub_0_r.
  replace (Z.to_nat (e2 / 8)) with (Z.to_nat (e1 / 8) + (Z.to_nat (e2 / 8) - Z.to_nat (e1 / 8)))%nat
    by (Z.div_mod_to_equations; lia).
  generalize (Z.to_nat (e2 / 8) - Z.to_nat (e1 / 8))%nat as m. intros m.
  destruct (seek_loop (Z.to_nat (e1 / 8)) bmp 0) as [[b|]|] eqn:E; cbn [mbind option_bind]; try done.
  - by rewrite (seek_loop_more _ m _ _ _ E).
  - intros [= <-]. done.
Qed.

Lemma alloc_blocks_ok n nb dblki d :
  blocks_ok (m_dbmp d) nb -> 0 <= nb -> nb + Z.of_nat n <= NINODES ->
  exists bmp', alloc_blocks n dblki d =
      Ok (if decide (n = 0%nat) then dblki else nb + Z.of_nat n - 1) (set_dbmp bmp' d) /\
    blocks_ok bmp' (nb + Z.of_nat n) /\ length bmp' = length (m_dbmp d).
Proof.
  revert nb dblki d. induction n as [|n IH]; intros nb dblki d (Hw & Hit & Hu) Hnb Hn.
  - exists (m_dbmp d). split; [by destruct d|]. split; [|done]. by rewrite Z.add_0_r.
  - cbn [alloc_blocks]. msteps.
    assert (mfs_seekbmp (m_dbmp d) 0 (MFS_BLKSIZE * NDBLK * 8) = Some nb) as E.
    { apply (seekbmp_more _ NINODES); [by vm_compute| |lia].
      destruct (seek_ok (m_dbmp d) NINODES) as [(i & E & _ & Hr & Hf & Hlow)|[_ Hall]];
        [done|rewrite Hit; unfold NINODES; lia|done|..].
      - rewrite E. f_equal. rewrite Hit in Hr. rewrite Hu in Hf by done. apply Z.ltb_ge in Hf.
        destruct (decide (i = nb)); [done|]. specialize (Hlow nb ltac:(lia)).
        rewrite Hu in Hlow by lia. apply Z.ltb_lt in Hlow. lia.
      - specialize (Hall nb ltac:(lia)). rewrite Hu, Z.ltb_irrefl in Hall by lia. done. }
    msome E. destruct (Z.eqb_spec nb (-1)) as [|_]; [lia|].
    destruct (mark_ok (m_dbmp d) nb 1 Hw) as (b1 & Em & Hw1 & Hl1 & Hu1); [lia|]. msome Em. msteps.
    destruct (IH (nb + 1) nb (set_dbmp b1 d)) as (b2 & E2 & Hb2 & Hl2); [|lia|lia|].
    + split; [done|]. split; [unfold items in *; cbn; lia|]. intros k Hk. cbn [m_dbmp set_dbmp].
      rewrite Hu1 by lia. destruct (decide (k = nb)) as [D|D].
      * subst. symmetry. apply Z.ltb_lt. lia.
      * rewrite Hu by lia. destruct (Z.ltb_spec k nb), (Z.ltb_spec k (nb + 1)); try done; lia.
    + exists b2. rewrite E2. split; [|split; [|by rewrite Hl2]].
      * rewrite (decide_False (P := S n = 0%nat)) by lia. f_equal. destruct (decide (n = 0%nat)); [subst; simpl; lia|lia].
      * replace (nb + Z.of_nat (S n)) with (nb + 1 + Z.of_nat n) by lia. done.
Qed.

(** The bytes of the file at inode [i]. *)
Definition file_data (d : mfs_data) (i : Z) : list Z :=
  match aget (m_inodes d) i with
  | Some n => take (Z.to_nat (i_size n)) (drop (Z.to_nat (i_blkentry n * MFS_BLKSIZE)) (m_data d))
  | None => []
  end.

(** The file at inode [i] lies in the first [nb] blocks. *)
Definition extent_ok (d : mfs_data) (i nb : Z) : Prop :=
  exists n, aget (m_inodes d) i = Some n /\ 0 <= i_size n /\ 0 <= i_blkentry n /\
    (i_size n = 0 \/ i_blkentry n * MFS_BLKSIZE + i_size n <= nb * MFS_BLKSIZE).

Lemma memcpy_at_ok dest off src :
  0 <= off -> off + Z.of_nat (length src) <= Z.of_nat (length dest) ->
  memcpy_at dest off src (length src) =
    Some (take (Z.to_nat off) dest ++ src ++ drop (Z.to_nat off + length src) dest).
Proof.
  intros Ho Hl. unfold memcpy_at. rewrite decide_True by lia.
  rewrite memcpy_spec by (rewrite ?length_drop; lia). simpl.
  by rewrite firstn_all, drop_drop, Nat.add_comm.
Qed.

(** The number of blocks of a file of [size] bytes. *)
Definition nblocks (size : Z) : Z :=
  Z.quot size MFS_BLKSIZE + (if Z.rem size MFS_BLKSIZE =? 0 then 0 else 1).

Lemma nblocks_bounds size :
  0 <= size -> 0 <= nblocks size /\ size <= nblocks size * MFS_BLKSIZE /\ (size = 0 -> nblocks size = 0) /\
    (nblocks size = 0 -> size = 0).
Proof.
  intros H. unfold nblocks, MFS_BLKSIZE. rewrite Z.quot_div_nonneg, Z.rem_mod_nonneg by lia.
  destruct (Z.eqb_spec (size mod 1024) 0); Z.div_mod_to_equations; lia.
Qed.

Lemma nblocks_up size : 0 <= size -> nblocks size = (size + 1023) / 1024.
Proof.
  intros H. unfold nblocks, MFS_BLKSIZE. rewrite Z.quot_div_nonneg, Z.rem_mod_nonneg by lia.
  destruct (Z.eqb_spec (size mod 1024) 0); Z.div_mod_to_equations; lia.
Qed.

Section write.
Context (d : mfs_data) (ch : Z -> list Z) (cnt p nb : Z) (names : list (list Z)) (tr : bool)
  (name buff : list Z) (t : stamps) (par : mfs_inode).
Context (T : tree_ok (m_ibmp d) (m_inodes d) ch cnt) (Hcnt : cnt < NINODES)
  (Hnames : Forall valid_name names) (Hdepth : (length names < 128)%nat)
  (Hroot : name_at (m_inodes d) 0 ∉ names)
  (Hp : 0 <= p) (Hres : resolve (m_inodes d) ch names 0 = Some p)
  (Hpar : aget (m_inodes d) p = Some par) (Hdir : Z.land (i_mode par) S_IFDIR = S_IFDIR)
  (Hname : valid_name name) (Hshort : (length name < 68)%nat)
  (Hblk : blocks_ok (m_dbmp d) nb) (Hnb : 0 <= nb)
  (Hdata : Z.of_nat (length (m_data d)) = NDBLK * MFS_BLKSIZE)
  (Hroom : nb + nblocks (Z.of_nat (length buff)) <= NDBLK).

Let size := Z.of_nat (length buff).
Let r := nblocks size.
Let entry := if decide (r = 0) then 1 else nb.

Lemma write_ok :
  exists d' old,
    mfs_write (path_of names tr) name buff size t d = Ok 0 d' /\
    m_inodes d' = link (m_inodes d) p cnt
      (set_extent entry r (made_inode old par cnt p name reg_mode size t)) par /\
    m_data d' = take (Z.to_nat (entry * MFS_BLKSIZE)) (m_data d) ++ buff ++
                drop (Z.to_nat (entry * MFS_BLKSIZE) + length buff) (m_data d) /\
    blocks_ok (m_dbmp d') (nb + r) /\
    tree_ok (m_ibmp d') (m_inodes d') (add_ch ch p cnt) (cnt + 1) /\
    resolve (m_inodes d') (add_ch ch p cnt) (names ++ [name]) 0 = Some cnt.
Proof using All.
  pose proof (t_cnt _ _ _ _ T) as Hc1. pose proof (t_len _ _ _ _ T) as Hl.
  pose proof (resolve_used _ _ _ _ names 0 p T ltac:(lia) Hroot Hp Hres) as Hpc.
  destruct (aget_Some (m_inodes d) cnt) as [old Eo]; [lia|].
  destruct (new_inode_ok ch cnt d T Hcnt) as (bmp' & En & Hw & Hbl & Hu).
  destruct (nblocks_bounds size ltac:(lia)) as (Hr0 & Hrs & Hrz & Hrz'). fold r in Hr0, Hrs, Hrz, Hrz'.
  assert (nb + r <= 1024) as Hroom' by exact Hroom.
  assert (0 <= entry /\ entry + r <= 1024) as He by (unfold entry; case_decide; lia).
  set (n := set_extent entry r (made_inode old par cnt p name reg_mode size t)).
  assert (length (i_name old) = 68%nat) as H68.
  { apply aget_inv in Eo as [_ Eo]. apply (Forall_lookup_1 _ _ _ _ (t_names _ _ _ _ T) Eo). }
  assert (cname (i_name n) = name /\ 0 ∈ i_name n) as [Hcn H0n].
  { apply (cstr_cname _ _ (drop (S (length name)) (i_name old))). split; [done|].
    apply (valid_cstr _ Hname). }
  set (d1 := set_inodes (link (m_inodes d) p cnt (made_inode old par cnt p name reg_mode size t) par)
               (set_ibmp bmp' d)).
  destruct (alloc_blocks_ok (Z.to_nat r) nb 0 d1) as (b2 & E2 & Hb2 & Hl2);
    [done|done|change NDBLK with 1024 in *; unfold NINODES; lia|]. rewrite Z2Nat.id in Hb2, E2 by done.
  set (data' := take (Z.to_nat (entry * MFS_BLKSIZE)) (m_data d) ++ buff ++
                drop (Z.to_nat (entry * MFS_BLKSIZE) + length buff) (m_data d)).
  exists (set_data data' (set_inodes (link (m_inodes d) p cnt n par) (set_dbmp b2 d1))), old.
  split; [|split_and!; try done].
  - unfold mfs_write. rewrite (proj2 (Z.ltb_ge _ _)) by (unfold MFS_NAMELEN; lia).
    rewrite (bind_ok _ _ _ p d).
    2:{ rewrite (iget_ok (m_ibmp d) ch cnt) by (done || lia). by rewrite Hres. }
    destruct (Z.eqb_spec p (-1)) as [|_]; [lia|]. msteps. msome Hpar.
    rewrite Hdir. cbn [Z.eqb negb]. change (negb (S_IFDIR =? S_IFDIR)) with false. cbv iota.
    rewrite (bind_ok _ _ _ _ _ En).
    rewrite (bind_ok _ _ _ _ _ (fill_inode_ok (set_ibmp bmp' d) cnt p old par name reg_mode size t
      Eo Hpar ltac:(lia) Hl H68 Hname Hshort)).
    fold (nblocks size). fold r. cbv zeta. rewrite (proj2 (Z.ltb_ge r 0)) by lia.
    rewrite (bind_ok _ _ _ _ _ E2).
    assert (u32 ((if decide (Z.to_nat r = 0%nat) then 0 else nb + r - 1) - r + 1) = entry) as ->.
    { unfold entry. change NDBLK with 1024 in *.
      repeat case_decide; try lia; rewrite u32_small by (unfold is_u32; lia); lia. }
    erewrite bind_ok; [|eapply (upd_inode_link _ (m_inodes d) p cnt _ par); [done|lia|lia|lia]].
    msteps. change NDBLK with 1024 in *. unfold MFS_BLKSIZE in *.
    rewrite (u32_small (entry * 1024)) by (unfold is_u32; lia).
    rewrite (u32_small size) by (unfold is_u32; lia).
    assert (Z.to_nat size = length buff) as -> by lia.
    rewrite (bind_some _ _ data'); [done|]. apply memcpy_at_ok; [lia|]. cbn [m_data set_inodes set_dbmp d1 set_ibmp].
    change (Z.of_nat (length buff)) with size. unfold entry in *. rewrite Hdata. case_decide; [|lia].
    assert (size = 0) by lia. lia.
  - cbn [m_ibmp m_inodes set_inodes set_ibmp set_data set_dbmp d1].
    apply (tree_link (m_ibmp d)); try done; try lia.
    + unfold items. by rewrite Hbl.
    + cbn. rewrite length_app. simpl. rewrite length_drop. lia.
  - by apply (resolve_link (m_ibmp d)); try done; lia.
Qed.

(** The bytes written are the file's, and no other file changes. *)
Lemma write_data d' old :
  m_inodes d' = link (m_inodes d) p cnt
    (set_extent entry r (made_inode old par cnt p name reg_mode size t)) par ->
  m_data d' = take (Z.to_nat (entry * MFS_BLKSIZE)) (m_data d) ++ buff ++
              drop (Z.to_nat (entry * MFS_BLKSIZE) + length buff) (m_data d) ->
  file_data d' cnt = buff /\
  forall i, 0 <= i < cnt -> extent_ok d i nb -> file_data d' i = file_data d i /\ extent_ok d' i (nb + r).
Proof using All.
  intros Ei Ed. pose proof (t_cnt _ _ _ _ T) as Hc1. pose proof (t_len _ _ _ _ T) as Hl.
  pose proof (resolve_used _ _ _ _ names 0 p T ltac:(lia) Hroot Hp Hres) as Hpc.
  destruct (nblocks_bounds size ltac:(lia)) as (Hr0 & Hrs & Hrz & Hrz'). fold r in Hr0, Hrs, Hrz, Hrz'.
  assert (nb + r <= 1024) as Hroom' by exact Hroom.
  assert (length (take (Z.to_nat (entry * MFS_BLKSIZE)) (m_data d)) = Z.to_nat (entry * MFS_BLKSIZE)) as Ht.
  { rewrite length_take. unfold entry. change NDBLK with 1024 in *. unfold MFS_BLKSIZE in *. case_decide; lia. }
  split.
  - unfold file_data. rewrite Ei, aget_link, decide_False, decide_True by (done || lia).
    cbn [i_size i_blkentry set_extent made_inode]. rewrite Ed.
    assert (u32 size = size) as -> by (apply u32_small; unfold is_u32; change NDBLK with 1024 in *;
      unfold MFS_BLKSIZE in *; lia).
    apply slice_app; [by rewrite Ht|lia].
  - intros i Hi (n & En & Hs0 & Hb0 & Hext).
    assert (exists n', aget (m_inodes d') i = Some n' /\ i_size n' = i_size n /\ i_blkentry n' = i_blkentry n)
      as (n' & En' & Es & Eb).
    { rewrite Ei, aget_link by lia. rewrite (decide_False (P := cnt = i)) by lia.
      case_decide as D; [|eauto]. subst. assert (n = par) as -> by congruence. eexists. split; [done|done]. }
    split; [|exists n'; unfold MFS_BLKSIZE in *; repeat split; [done|lia|lia|lia]].
    unfold file_data. rewrite En, En', Es, Eb, Ed.
    destruct Hext as [->|Hext]; [done|]. unfold MFS_BLKSIZE in *.
    destruct (decide (r = 0)) as [Hrr|Hrr].
    + assert (buff = []) as -> by (destruct buff; [done|simpl in *; lia]).
      rewrite app_nil_l. change (length (@nil Z)) with 0%nat. by rewrite Nat.add_0_r, take_drop.
    + assert (entry = nb) as Ee by reflexivity.
      rewrite Ee in Ht |- *. change NDBLK with 1024 in *.
      rewrite drop_app_le by lia. rewrite take_app_le by (rewrite length_drop; lia).
      rewrite skipn_firstn_comm, take_take. f_equal. lia.
Qed.
End write.

(** C5: writing a file under an existing directory, with room for it in the data area,
    makes a new regular file: the path with the name appended leads to the lowest free
    inode, which has that name and parent, is a regular file of the length of the
    buffer, and records the number of blocks, the length divided by the block size and
    rounded up, and unless it is empty the next free block as its first; its contents
    are the buffer.  The contents of every file written before are unchanged, and every
    path that does not take this name in this directory leads where it led. *)
Theorem write_stores d ch cnt p nb names tr name buff t par :
  tree_ok (m_ibmp d) (m_inodes d) ch cnt -> cnt < NINODES ->
  Forall valid_name names -> (length names < 128)%nat -> name_at (m_inodes d) 0 ∉ names ->
  0 <= p -> mfs_iget (path_of names tr) d = Ok p d ->
  aget (m_inodes d) p = Some par -> Z.land (i_mode par) S_IFDIR = S_IFDIR ->
  valid_name name -> (length name < 68)%nat ->
  blocks_ok (m_dbmp d) nb -> 0 <= nb -> Z.of_nat (length (m_data d)) = NDBLK * MFS_BLKSIZE ->
  nb + nblocks (Z.of_nat (length buff)) <= NDBLK ->
  exists d' n, mfs_write (path_of names tr) name buff (Z.of_nat (length buff)) t d = Ok 0 d' /\
    tree_ok (m_ibmp d') (m_inodes d') (add_ch ch p cnt) (cnt + 1) /\
    blocks_ok (m_dbmp d') (nb + nblocks (Z.of_nat (length buff))) /\
    mfs_iget (path_of (names ++ [name]) false) d' = Ok cnt d' /\
    paths_kept d d' p name /\ inode_added d d' p cnt n /\
    cname (i_name n) = name /\ i_ino n = cnt /\ i_mode n = 0x60177 /\ i_parent n = p /\ i_child n = 0 /\
    i_size n = Z.of_nat (length buff) /\ i_blocks n = (Z.of_nat (length buff) + 1023) / 1024 /\
    (buff <> [] -> i_blkentry n = nb) /\
    file_data d' cnt = buff /\
    forall i, 0 <= i < cnt -> extent_ok d i nb ->
      file_data d' i = file_data d i /\ extent_ok d' i (nb + nblocks (Z.of_nat (length buff))).
Proof.
  intros T Hc Hn Hl Hr Hp Hi Hpar Hdir Hv Hs Hb Hnb Hd Hroom. pose proof (t_len _ _ _ _ T) as Hlen. pose proof (t_cnt _ _ _ _ T).
  rewrite (iget_ok (m_ibmp d) ch cnt) in Hi by (done || lia).
  destruct (resolve (m_inodes d) ch names 0) as [q|] eqn:E; [|done]. injection Hi as ->.
  pose proof (resolve_used _ _ _ _ names 0 p T ltac:(lia) Hr Hp E) as Hpc.
  destruct (write_ok d ch cnt p nb names tr name buff t par T Hc Hn Hl Hr Hp E Hpar Hdir Hv Hs Hb Hnb Hd Hroom)
    as (d' & old & Em & Ei & Ed & Hb' & HT & Hres).
  destruct (write_data d ch cnt p nb names tr name buff t par T Hc Hn Hl Hr Hp E Hpar Hdir Hv Hs Hb Hnb Hd
    Hroom d' old Ei Ed) as [Hnew Hold].
  pose proof (nblocks_up (Z.of_nat (length buff)) ltac:(lia)) as Hup. change NDBLK with 1024 in *.
  set (n := set_extent _ _ _) in Ei. pose proof (made_name old par cnt p name reg_mode (Z.of_nat (length buff)) t Hv) as Hcn.
  exists d', n. split; [exact Em|]. split; [exact HT|]. split; [exact Hb'|]. split; [|split; [|split; [|split; [exact Hcn|]]]].
  - by apply (resolved_iget _ _ _ _ _ _ HT).
  - exact (link_keeps d d' ch cnt p n par name T Hc Hpar Hpc Hcn Ei HT).
  - apply (link_added _ _ _ _ _ par); [exact Ei|lia|done|lia].
  - split_and!; try done.
    + apply u32_small. unfold is_u32. Z.div_mod_to_equations; lia.
    + intros Hne. cbn. rewrite decide_False; [done|]. rewrite Hup. destruct buff; [done|]. cbn [length]. Z.div_mod_to_equations; lia.
Qed.

Lemma fresh_blocks : blocks_ok (m_dbmp fresh) 0.
Proof.
  assert (items (zeros 1024) = NINODES) as Hi by (unfold items; rewrite length_zeros; reflexivity).
  split; [by apply Forall_replicate|]. split; [done|]. intros k Hk. unfold used, NINODES in *.
  change (m_dbmp fresh) with (zeros 1024).
  destruct (aget_Some (zeros 1024) (k / 8)) as [x Ex].
  { rewrite length_zeros. Z.div_mod_to_equations. lia. }
  rewrite Ex. apply aget_inv in Ex as [_ Ex]. apply lookup_replicate in Ex as [-> _].
  rewrite Z.testbit_0_l. symmetry. apply Z.ltb_ge. lia.
Qed.

Lemma fresh_root : aget (m_inodes fresh) 0 = Some root_inode.
Proof.
  change (m_inodes fresh) with (<[Z.to_nat 0 := root_inode]>
    (replicate (Z.to_nat (MFS_BLKSIZE * NIBLK / 128)) zero_inode)).
  rewrite aget_insert; [done|]. rewrite length_replicate. change (MFS_BLKSIZE * NIBLK / 128) with 8192. lia.
Qed.

Lemma write_stores_witness :
  exists d' n, mfs_write (path_of [] true) bin [1; 2; 3] 3 (Stamps 1 2 3) fresh = Ok 0 d' /\
    mfs_iget (path_of [bin] false) d' = Ok 1 d' /\ aget (m_inodes d') 1 = Some n /\ i_mode n = 0x60177 /\ i_blocks n = 1 /\
    file_data d' 1 = [1; 2; 3].
Proof.
  destruct (write_stores fresh (fun _ => []) 1 0 0 [] true bin [1; 2; 3] (Stamps 1 2 3) root_inode)
    as (d' & n & E & _ & _ & Hi & _ & Ha & _ & _ & Hmode & _ & _ & _ & Hblocks & _ & Hd & _).
  - apply fresh_tree.
  - unfold NINODES. lia.
  - constructor.
  - simpl. lia.
  - apply not_elem_of_nil.
  - lia.
  - reflexivity.
  - apply fresh_root.
  - reflexivity.
  - split; [done|]. repeat constructor; unfold SLASH; lia.
  - simpl. lia.
  - apply fresh_blocks.
  - lia.
  - rewrite (wf_data _ fresh_sizes). change (MFS_BLKSIZE * NDBLK) with 1048576.
    change (NDBLK * MFS_BLKSIZE) with 1048576. lia.
  - by vm_compute.
  - exists d', n. split; [exact E|]. split; [exact Hi|]. split; [exact (Ha 1)|]. split; [exact Hmode|]. split; [exact Hblocks|exact Hd].
Defined.

(** * What the checks let through *)

(** A regular file passes the test for a directory: S_IFREG contains the bit
    of S_IFDIR. *)
Lemma regular_passes_dir_test : Z.land reg_mode S_IFDIR = S_IFDIR.
Proof. reflexivity. Qed.

(** A name of exactly 68 bytes passes the length check and its terminator
    is then written outside [i_name]. *)
Theorem mkdir_name68_overflows d ch cnt p names tr name t :
  tree_ok (m_ibmp d) (m_inodes d) ch cnt -> cnt < NINODES ->
  Forall valid_name names -> (length names < 128)%nat -> 0 <= p ->
  mfs_iget (path_of names tr) d = Ok p d ->
  valid_name name -> length name = 68%nat ->
  mfs_mkdir (path_of names tr) name t d = Err OutOfBounds.
Proof.
  intros T Hc Hn Hl Hp Hi Hv Hs. pose proof (t_len _ _ _ _ T). pose proof (t_cnt _ _ _ _ T).
  unfold mfs_mkdir. rewrite (proj2 (Z.ltb_ge _ _)) by (unfold MFS_NAMELEN; lia).
  rewrite (bind_ok _ _ _ _ _ Hi). destruct (Z.eqb_spec p (-1)) as [|_]; [lia|].
  destruct (new_inode_ok ch cnt d T Hc) as (bmp' & En & _). rewrite (bind_ok _ _ _ _ _ En).
  destruct (aget_Some (m_inodes d) cnt) as [old Eo]; [lia|].
  assert (fill_inode cnt p name dir_mode 0 t (set_ibmp bmp' d) = Err OutOfBounds) as Ef.
  { unfold fill_inode. msteps. cbn [m_inodes set_ibmp]. msome Eo. apply bind_none.
    apply (strcpy_overflow _ _ name []); [by apply valid_cstr|].
    apply aget_inv in Eo as [_ Eo]. rewrite (Forall_lookup_1 _ _ _ _ (t_names _ _ _ _ T) Eo). lia. }
  unfold bind at 1. by rewrite Ef.
Qed.

Lemma mkdir_name68_overflows_witness :
  mfs_mkdir (path_of [] true) (replicate 68 97) (Stamps 1 2 3) fresh = Err OutOfBounds.
Proof.
  apply (mkdir_name68_overflows fresh (fun _ => []) 1 0 [] true (replicate 68 97) (Stamps 1 2 3)).
  - apply fresh_tree.
  - unfold NINODES. lia.
  - constructor.
  - simpl. lia.
  - lia.
  - reflexivity.
  - split; [done|]. apply Forall_replicate. unfold SLASH. lia.
  - apply length_replicate.
Defined.
