(* ===== verification/MkMain.v ===== *)
(** The command line of the image builder, src/sysv3/mkmfs/main.c: the options,
    the walk of the host directory and the order of the steps.

    The host's files are given as trees; [time(0)] at the creation of a path is
    the argument [now].  Messages are not modelled.

    After the code: what each step leaves alone, the regions of every image, and
    the packing of a host tree by induction on it, against the tree of MkTree. *)
From Stdlib Require Import String Ascii.
From S2P Require Import Prelude LibC Layout Bitmap MkMfs MkTree.
Open Scope Z_scope.

(** * The host *)

(** What [opendir]/[readdir]/[stat] and [open]/[read] report of a path: the
    entries in the order of [readdir]. *)
Inductive hostnode :=
| HDir (ents : list (list Z * hostnode))
| HReg (data : list Z)
| HOther.

Record hostsys := Host {
  h_file : string -> option (list Z);
  h_root : string -> option hostnode;
  h_now : list Z -> stamps
}.

(** * Packing *)

(** The builder's buffers and the global [cutsize]. *)
Record pack_state := Pack { p_cut : Z; p_fs : mfs_data }.

Definition on_fs {A} (m : M mfs_data A) : M pack_state A :=
  zoom p_fs (fun d s => Pack (p_cut s) d) m.

(** A string built by [strcpy] and [strcat] in one of the 512-byte buffers. *)
Definition in_buffer (s : list Z) : M pack_state (list Z) :=
  if Z.of_nat (length s) <? 512 then ret s else stop OutOfBounds.

Definition DOT : list Z := [46].
Definition DOTDOT : list Z := [46; 46].

(** [int packdir(char *dirname)]; [node] is what the host has at [dirname]. *)
Fixpoint packdir (now : list Z -> stamps) (node : hostnode) (dirname : list Z) {struct node}
    : M pack_state Z :=
  modify (fun s => Pack (if p_cut s =? 0 then Z.of_nat (length dirname) else p_cut s) (p_fs s)) ;;;
  path <- in_buffer (dirname ++ [SLASH]) ;;
  match node with
  | HDir ents =>
      (fix entries (l : list (list Z * hostnode)) : M pack_state Z :=
         match l with
         | [] => ret 0
         | (d_name, n) :: rest =>
             pathtemp <- in_buffer (path ++ d_name) ;;
             (if bool_decide (d_name = DOT) || bool_decide (d_name = DOTDOT) then ret 0
              else match n with
                   | HDir _ =>
                       cut <- gets p_cut ;;
                       on_fs (mfs_mkdir (drop (Z.to_nat cut) path) d_name (now pathtemp)) ;;;
                       packdir now n pathtemp
                   | HReg data =>
                       cut <- gets p_cut ;;
                       on_fs (mfs_write (drop (Z.to_nat cut) path) d_name data
                                (Z.of_nat (length data)) (now pathtemp))
                   | HOther => ret 0
                   end) ;;;
             entries rest
         end) ents
  | _ => stop (Exited (-1))
  end.

(** * The options *)

Record config := Config {
  c_showhelp : bool; c_showlic : bool; c_debug : bool; c_verbose : bool;
  c_boot : option string; c_kern : option string; c_fmt : option string;
  c_root : option string; c_image : option string
}.

Definition config0 : config := Config true false false false None None None None None.

(** What an argument does: an option sets fields, one with a value takes the
    next argument, anything else is skipped. *)
Inductive optkind :=
| Flag (f : config -> config)
| Valued (f : option string -> config -> config)
| Skip.

Definition is_opt (a s l : string) : bool := String.eqb a s || String.eqb a l.

Definition opt_of (a : string) : optkind :=
  if is_opt a "-d" "--debug" then
    Flag (fun c => Config false (c_showlic c) true (c_verbose c) (c_boot c) (c_kern c) (c_fmt c) (c_root c) (c_image c))
  else if is_opt a "-v" "--verbose" then
    Flag (fun c => Config (c_showhelp c) (c_showlic c) (c_debug c) true (c_boot c) (c_kern c) (c_fmt c) (c_root c) (c_image c))
  else if is_opt a "-b" "--boot" then
    Valued (fun v c => Config false (c_showlic c) (c_debug c) (c_verbose c) v (c_kern c) (c_fmt c) (c_root c) (c_image c))
  else if is_opt a "-k" "--kernel" then
    Valued (fun v c => Config false (c_showlic c) (c_debug c) (c_verbose c) (c_boot c) v (c_fmt c) (c_root c) (c_image c))
  else if is_opt a "-f" "--fmt" then
    Valued (fun v c => Config false (c_showlic c) (c_debug c) (c_verbose c) (c_boot c) (c_kern c) v (c_root c) (c_image c))
  else if is_opt a "-r" "--root" then
    Valued (fun v c => Config false (c_showlic c) (c_debug c) (c_verbose c) (c_boot c) (c_kern c) (c_fmt c) v (c_image c))
  else if is_opt a "-o" "--output" then
    Valued (fun v c => Config false (c_showlic c) (c_debug c) (c_verbose c) (c_boot c) (c_kern c) (c_fmt c) (c_root c) v)
  else if is_opt a "-l" "--license" then
    Flag (fun c => Config (c_showhelp c) true (c_debug c) (c_verbose c) (c_boot c) (c_kern c) (c_fmt c) (c_root c) (c_image c))
  else Skip.

(** The scan of [argv]; after the last argument is the null pointer. *)
Fixpoint scan_args (argv : list string) (c : config) : config :=
  match argv with
  | [] => c
  | a :: rest =>
      match opt_of a with
      | Flag f => scan_args rest (f c)
      | Valued f =>
          match rest with
          | [] => f None c
          | v :: rest' => scan_args rest' (f (Some v) c)
          end
      | Skip => scan_args rest c
      end
  end.

(** [int main(int argc, char *argv[])]: the exit code, and the image written
    when it gets that far.  [argv] is without the program name. *)
Definition main (h : hostsys) (argv : list string) : M pack_state (Z * option (list Z)) :=
  let c := scan_args argv config0 in
  if c_showlic c then ret (0, None)
  else if c_showhelp c then ret (0, None)
  else match c_fmt c with
  | None => ret (-1, None)
  | Some fmt =>
      match c_root c with
      | None => ret (-1, None)
      | Some root =>
          if negb (String.eqb fmt "mfs") then ret (-1, None)
          else match c_image c with
          | None => ret (-1, None)
          | Some image =>
              on_fs mfs_new ;;;
              match c_boot c with Some b => on_fs (mfs_lboot (h_file h b)) | None => ret 0 end ;;;
              match c_kern c with Some k => on_fs (mfs_lkern (h_file h k)) | None => ret 0 end ;;;
              packdir (h_now h) (default HOther (h_root h root)) (bytes_of root) ;;;
              d <- gets p_fs ;;
              ret (0, Some (mfs_end d))
          end
      end
  end.

(** * Every image has the same layout *)

Lemma memcpy_length dest src n d' : memcpy dest src n = Some d' -> length d' = length dest.
Proof.
  revert dest src d'. induction n as [|n IH]; intros dest src d' E; simpl in E; [by injection E as ->|].
  destruct dest as [|x dest], src as [|y src]; try done.
  destruct (memcpy dest src n) as [r|] eqn:Er; simpl in E; [|done]. injection E as <-. simpl. f_equal. by eapply IH.
Qed.

Lemma strcpy_length s1 s2 s' : strcpy s1 s2 = Some s' -> length s' = length s1.
Proof.
  revert s1 s'. induction s2 as [|c s2 IH]; intros s1 s' E; [done|].
  destruct s1 as [|x s1]; simpl in E; [done|]. destruct (c =? 0); [by injection E as <-|].
  destruct (strcpy s1 s2) as [r|] eqn:Er; simpl in E; [|done]. injection E as <-. simpl. f_equal. by eapply IH.
Qed.

Lemma markbmp_length bmp i st b' : mfs_markbmp bmp i st = Some b' -> length b' = length bmp.
Proof.
  unfold mfs_markbmp. destruct (aget bmp _) as [b|]; simpl; [|done]. apply length_aset.
Qed.

(** One of the buffers replaced by another of its size. *)
Lemma sizes_boot d b : wf_sizes d -> length b = length (m_boot d) -> wf_sizes (set_boot b d).
Proof. intros [] E. split; cbn; congruence. Qed.
Lemma sizes_kern d b : wf_sizes d -> length b = length (m_kern d) -> wf_sizes (set_kern b d).
Proof. intros [] E. split; cbn; congruence. Qed.
Lemma sizes_ibmp d b : wf_sizes d -> length b = length (m_ibmp d) -> wf_sizes (set_ibmp b d).
Proof. intros [] E. split; cbn; congruence. Qed.
Lemma sizes_dbmp d b : wf_sizes d -> length b = length (m_dbmp d) -> wf_sizes (set_dbmp b d).
Proof. intros [] E. split; cbn; congruence. Qed.
Lemma sizes_data d b : wf_sizes d -> length b = length (m_data d) -> wf_sizes (set_data b d).
Proof. intros [] E. split; cbn; congruence. Qed.
Lemma sizes_inode d i n l :
  wf_sizes d -> aset (m_inodes d) i n = Some l -> length (i_name n) = 68%nat -> wf_sizes (set_inodes l d).
Proof.
  intros [] E H. pose proof (length_aset _ _ _ _ E). apply aset_inv in E as [_ ->].
  split; cbn; try congruence. by apply (Forall_insert (fun i => length (i_name i) = 68%nat)).
Qed.

Lemma sizes_name d i n : wf_sizes d -> aget (m_inodes d) i = Some n -> length (i_name n) = 68%nat.
Proof. intros [] [_ E]%aget_inv. by apply (Forall_lookup_1 _ _ _ _ wf_names E). Qed.

Lemma iget_step_state iblk e i d a d' : iget_step iblk e i d = Ok a d' -> d' = d.
Proof.
  assert (forall fuel i d a d', sibling_loop fuel iblk e i d = Ok a d' -> d' = d) as Hl.
  { clear. induction fuel as [|f IH]; intros i d a d' E; simpl in E; minv; eauto. }
  unfold iget_step. intros E. minv. by eapply Hl.
Qed.

Lemma iget_state path d a d' : mfs_iget path d = Ok a d' -> d' = d.
Proof.
  unfold mfs_iget. intros E. minv. revert E.
  generalize (map (entry_at path) (path_entries 0 (Z.of_nat (length path)) path)) as l. generalize 0 as i.
  intros i l. revert i. induction l as [|e l IH]; intros i E; simpl in E; minv; [done|].
  apply iget_step_state in H. subst. eauto.
Qed.

Lemma lboot_sizes f : preserves wf_sizes (mfs_lboot f).
Proof.
  intros d a d' Hd E. destruct f as [f|]; simpl in E; minv; [|done].
  apply sizes_boot; [done|by eapply memcpy_length].
Qed.

Lemma lkern_sizes f : preserves wf_sizes (mfs_lkern f).
Proof.
  intros d a d' Hd E. destruct f as [f|]; simpl in E; minv; [|done].
  apply sizes_kern; [done|by eapply memcpy_length].
Qed.

Lemma new_inode_sizes : preserves wf_sizes new_inode.
Proof.
  intros d a d' Hd E. unfold new_inode in E. minv.
  apply sizes_ibmp; [done|by eapply markbmp_length].
Qed.

Lemma fill_inode_sizes i p nm mo sz t : preserves wf_sizes (fill_inode i p nm mo sz t).
Proof.
  intros d a d' Hd E. unfold fill_inode in E. minv.
  match goal with H : strcpy _ _ = Some _ |- _ => apply strcpy_length in H as Hn end.
  match goal with H : aget (m_inodes d) i = Some _ |- _ => rewrite (sizes_name _ _ _ Hd H) in Hn end.
  match goal with H : aset (m_inodes d) i _ = Some ?l |- _ =>
    pose proof (sizes_inode _ _ _ _ Hd H Hn) as Hd1 end.
  match goal with H : aget ?l p = Some _, H2 : aset ?l p _ = Some _ |- _ =>
    pose proof (sizes_name _ _ _ Hd1 H) as Hn2; pose proof (sizes_inode _ _ _ _ Hd1 H2 Hn2) end.
  by destruct d.
Qed.

Lemma upd_extent_sizes i e b : preserves wf_sizes (upd_inode i (set_extent e b)).
Proof.
  intros d a d' Hd E. unfold upd_inode in E. minv.
  eapply sizes_inode; [done|done|]. simpl. by eapply sizes_name.
Qed.

Lemma alloc_sizes n i : preserves wf_sizes (alloc_blocks n i).
Proof.
  revert i. induction n as [|n IH]; intros i; cbn [alloc_blocks]; [apply preserves_ret|].
  apply preserves_get. intros d Hd b s' E.
  apply bind_of_option_inv in E as (k & _ & E). destruct (k =? -1); [discriminate|].
  apply bind_of_option_inv in E as (bmp & Em & E). rewrite bind_modify in E.
  eapply IH; [|exact E]. apply sizes_dbmp; [done|by eapply markbmp_length].
Qed.

Lemma mkdir_sizes path name t : preserves wf_sizes (mfs_mkdir path name t).
Proof.
  intros d a d' Hd E. unfold mfs_mkdir in E. minv.
  match goal with H : mfs_iget _ _ = _ |- _ => apply iget_state in H; subst end.
  eapply upd_extent_sizes; [|eassumption]. eapply fill_inode_sizes; [|eassumption].
  by eapply new_inode_sizes; [|eassumption].
Qed.

Lemma memcpy_at_length dest off src n r :
  memcpy_at dest off src n = Some r -> length r = length dest.
Proof.
  unfold memcpy_at. case_decide; [|done]. destruct (memcpy _ _ _) as [x|] eqn:E; simpl; [|done].
  intros [= <-]. apply memcpy_length in E. rewrite length_app, length_take, E, length_drop. lia.
Qed.

Lemma write_sizes path name buff sz t : preserves wf_sizes (mfs_write path name buff sz t).
Proof.
  intros d a d' Hd E. unfold mfs_write in E. minv.
  match goal with H : mfs_iget _ _ = _ |- _ => apply iget_state in H; subst end.
  apply sizes_data; [|by eapply memcpy_at_length].
  eapply upd_extent_sizes; [|eassumption]. eapply alloc_sizes; [|eassumption].
  eapply fill_inode_sizes; [|eassumption]. by eapply new_inode_sizes; [|eassumption].
Qed.

(** Steps that leave the boot sector and the kernel area alone. *)
Definition outside (b k : list Z) (d : mfs_data) : Prop := m_boot d = b /\ m_kern d = k.

Lemma new_inode_outside b k : preserves (outside b k) new_inode.
Proof. intros d a d' Hd E. unfold new_inode in E. by minv. Qed.

Lemma fill_inode_outside b k i p nm mo sz t : preserves (outside b k) (fill_inode i p nm mo sz t).
Proof. intros d a d' Hd E. unfold fill_inode in E. by minv. Qed.

Lemma upd_inode_outside b k i f : preserves (outside b k) (upd_inode i f).
Proof. intros d a d' Hd E. unfold upd_inode in E. by minv. Qed.

Lemma alloc_outside b k n i : preserves (outside b k) (alloc_blocks n i).
Proof.
  revert i. induction n as [|n IH]; intros i; cbn [alloc_blocks]; [apply preserves_ret|].
  apply preserves_get. intros d Hd a d' E.
  apply bind_of_option_inv in E as (x & _ & E). destruct (x =? -1); [discriminate|].
  apply bind_of_option_inv in E as (bmp & _ & E). rewrite bind_modify in E.
  eapply IH; [|exact E]. exact Hd.
Qed.

Lemma mkdir_outside b k path name t : preserves (outside b k) (mfs_mkdir path name t).
Proof.
  intros d a d' Hd E. unfold mfs_mkdir in E. minv.
  match goal with H : mfs_iget _ _ = _ |- _ => apply iget_state in H; subst end.
  eapply upd_inode_outside; [|eassumption]. eapply fill_inode_outside; [|eassumption].
  by eapply new_inode_outside; [|eassumption].
Qed.

Lemma write_outside b k path name buff sz t : preserves (outside b k) (mfs_write path name buff sz t).
Proof.
  intros d a d' Hd E. unfold mfs_write in E. minv.
  match goal with H : mfs_iget _ _ = _ |- _ => apply iget_state in H; subst end.
  match goal with H : upd_inode _ _ _ = Ok _ ?s |- _ => enough (outside b k s) as [] by done end.
  eapply upd_inode_outside; [|eassumption]. eapply alloc_outside; [|eassumption].
  eapply fill_inode_outside; [|eassumption]. by eapply new_inode_outside; [|eassumption].
Qed.

(** A property of the builder's buffers, under the packing state. *)
Definition under (P : mfs_data -> Prop) (s : pack_state) : Prop := P (p_fs s).

Lemma on_fs_keeps {A} P (m : M mfs_data A) : preserves P m -> preserves (under P) (on_fs m).
Proof.
  intros H s a s' Hs E. unfold on_fs, zoom in E. destruct (m (p_fs s)) eqn:Em; [|done].
  injection E as <- <-. by eapply H.
Qed.

Lemma in_buffer_state x s a s' : in_buffer x s = Ok a s' -> s' = s /\ a = x.
Proof. unfold in_buffer. intros E. by minv. Qed.

(** Induction on the host tree, through the entries of a directory. *)
Lemma hostnode_tree_ind (P : hostnode -> Prop) :
  (forall ents, Forall (fun e => P (snd e)) ents -> P (HDir ents)) ->
  (forall data, P (HReg data)) -> P HOther -> forall n, P n.
Proof.
  intros HD HR HO. fix IH 1. intros [ents|data|]; [|apply HR|apply HO].
  apply HD. induction ents as [|[nm n] l IHl]; constructor; [apply IH|apply IHl].
Qed.

(** What making a directory and writing a file keep, packing keeps. *)
Lemma packdir_keeps P now node :
  (forall path name t, preserves P (mfs_mkdir path name t)) ->
  (forall path name buff sz t, preserves P (mfs_write path name buff sz t)) ->
  forall dirname, preserves (under P) (packdir now node dirname).
Proof.
  intros Pm Pw. induction node as [ents IHn|data|] using hostnode_tree_ind; intros dirname s a s' Hs E;
    cbn [packdir] in E; minv;
    match goal with H : in_buffer _ _ = _ |- _ => apply in_buffer_state in H as [-> ->] end; [|done..].
  revert Hs E. set (s1 := Pack _ _). intros Hs E. assert (under P s1) as Hs1 by done. clearbody s1. clear Hs.
  revert s1 Hs1 E. induction IHn as [|[nm n] rest Hn Hrest IH]; intros s1 Hs1 E; [by minv|].
  apply bind_inv in E as (? & ? & [-> ->]%in_buffer_state & E).
  apply bind_inv in E as (? & s2 & Hc & E). eapply IH; [|exact E]. clear E IH.
  destruct (_ || _); [by minv|]. destruct n as [e|data|]; minv; [|by eapply on_fs_keeps; [apply Pw|..]|done].
  match goal with H : on_fs _ _ = _ |- _ => apply (on_fs_keeps _ _ (Pm _ _ _)) in H; [|done] end.
  by eapply Hn.
Qed.

(** * The boot file and the kernel *)

(** The bytes a file named on the command line puts in front of its region. *)
Definition file_bytes (h : hostsys) (o : option string) : list Z :=
  match o with Some f => default [] (h_file h f) | None => [] end.

(** A region of [n] bytes that starts with [bytes]. *)
Definition filled (bytes : list Z) (n : Z) : list Z := bytes ++ zeros (n - Z.of_nat (length bytes)).

Lemma memcpy_too_long dest src : (length dest < length src)%nat -> memcpy dest src (length src) = None.
Proof.
  revert src. induction dest as [|x dest IH]; intros [|y src] Hl; simpl in *; try lia; [done|].
  by rewrite IH by lia.
Qed.

Lemma memcpy_zeros n bytes r :
  memcpy (zeros n) bytes (length bytes) = Some r -> r = filled bytes n.
Proof.
  intros E. destruct (decide (length bytes <= length (zeros n))%nat) as [H|H].
  - rewrite memcpy_spec in E by lia. injection E as <-. rewrite firstn_all. unfold filled, zeros in *.
    rewrite length_replicate in H. rewrite drop_replicate. do 2 f_equal. lia.
  - rewrite memcpy_too_long in E by lia. done.
Qed.

(** The builder after the two steps that install them. *)
Definition installed (boot kern : list Z) : mfs_data := set_kern (filled kern (MFS_BLKSIZE * NKBLK)) (set_boot (filled boot 512) fresh).

Lemma filled_nil n : filled [] n = zeros n.
Proof. unfold filled. cbn [length app]. f_equal. lia. Qed.

Lemma length_filled bytes n : Z.of_nat (length bytes) <= n -> length (filled bytes n) = Z.to_nat n.
Proof. intros H. unfold filled. rewrite length_app, length_zeros. lia. Qed.

(** What an image [main] writes holds, whatever the host directory. *)
Record image_layout (h : hostsys) (cf : config) (img : list Z) : Prop := {
  il_super : decode_sblk (image_blocks img 0 1) = new_super;
  il_len : Z.of_nat (length img) = 512 + (s_dblk new_super + s_dblkcnt new_super) * s_blksize new_super;
  il_boot : take 512 img = filled (file_bytes h (c_boot cf)) 512;
  il_kern : image_blocks img (s_kblk new_super) (s_kblkcnt new_super) =
              filled (file_bytes h (c_kern cf)) (s_kblkcnt new_super * s_blksize new_super)
}.

Definition builder_kept (b k : list Z) (d : mfs_data) : Prop := wf_sizes d /\ outside b k d.

Lemma packdir_builder b k now node dirname : preserves (under (builder_kept b k)) (packdir now node dirname).
Proof.
  apply packdir_keeps.
  - intros path name t d a d' [H1 H2] E. split; [by eapply mkdir_sizes|by eapply mkdir_outside].
  - intros path name buff sz t d a d' [H1 H2] E. split; [by eapply write_sizes|by eapply write_outside].
Qed.

Lemma image_layout_ok h cf d :
  builder_kept (filled (file_bytes h (c_boot cf)) 512) (filled (file_bytes h (c_kern cf)) (MFS_BLKSIZE * NKBLK)) d ->
  image_layout h cf (mfs_end d).
Proof.
  intros [Hs [Hb Hk]]. destruct (image_regions_ok _ Hs) as (Hd & Hkern & _ & _ & _ & _ & Hl).
  rewrite (wf_super _ Hs) in Hd, Hkern, Hl. split.
  - exact Hd.
  - rewrite Hl, Z2Nat.id; [done|by vm_compute].
  - unfold mfs_end. rewrite <- (wf_boot _ Hs), take_app_length. exact Hb.
  - rewrite Hkern. exact Hk.
Qed.

Lemma install_boot h o s a s' :
  match o with Some b => on_fs (mfs_lboot (h_file h b)) | None => ret 0 end s = Ok a s' ->
  m_boot (p_fs s) = zeros 512 -> s' = Pack (p_cut s) (set_boot (filled (file_bytes h o) 512) (p_fs s)).
Proof.
  intros E Hz. destruct s as [cut d]. cbn [p_fs] in Hz. unfold file_bytes.
  assert (d = set_boot (filled [] 512) d) as Hd by (rewrite filled_nil, <- Hz; by destruct d).
  destruct o as [f|]; [|injection E as _ <-; cbn [p_cut p_fs]; congruence].
  unfold on_fs, zoom in E. cbn [p_fs p_cut] in *. destruct (h_file h f) as [bytes|]; cbn [mfs_lboot default] in *.
  - destruct (bind _ _ d) eqn:Em; [|done]. injection E as _ <-. minv. rewrite Hz in H. by rewrite (memcpy_zeros _ _ _ H).
  - injection E as _ <-. congruence.
Qed.

Lemma install_kern h o s a s' :
  match o with Some b => on_fs (mfs_lkern (h_file h b)) | None => ret 0 end s = Ok a s' ->
  m_kern (p_fs s) = zeros (MFS_BLKSIZE * NKBLK) ->
  s' = Pack (p_cut s) (set_kern (filled (file_bytes h o) (MFS_BLKSIZE * NKBLK)) (p_fs s)).
Proof.
  intros E Hz. destruct s as [cut d]. cbn [p_fs] in Hz. unfold file_bytes.
  assert (d = set_kern (filled [] (MFS_BLKSIZE * NKBLK)) d) as Hd by (rewrite filled_nil, <- Hz; by destruct d).
  destruct o as [f|]; [|injection E as _ <-; cbn [p_cut p_fs]; congruence].
  unfold on_fs, zoom in E. cbn [p_fs p_cut] in *. destruct (h_file h f) as [bytes|]; cbn [mfs_lkern default] in *.
  - destruct (bind _ _ d) eqn:Em; [|done]. injection E as _ <-. minv. rewrite Hz in H. by rewrite (memcpy_zeros _ _ _ H).
  - injection E as _ <-. congruence.
Qed.

(** Every image has the super block and the length of [mfs_new], the boot file in its
    first sector and the kernel in the kernel blocks. *)
Lemma main_written h argv s c img s' :
  main h argv s = Ok (c, Some img) s' -> c = 0 /\ image_layout h (scan_args argv config0) img.
Proof.
  unfold main. cbv zeta. intros E. set (cf := scan_args argv config0) in *. clearbody cf.
  destruct (c_showlic cf); [discriminate|]. destruct (c_showhelp cf); [discriminate|].
  destruct (c_fmt cf) as [fmt|]; [|discriminate]. destruct (c_root cf) as [root|]; [|discriminate].
  destruct (negb _); [discriminate|]. destruct (c_image cf); [|discriminate].
  apply bind_inv in E as (? & s1 & E1 & E). apply bind_inv in E as (? & s2 & E2 & E).
  apply bind_inv in E as (? & s3 & E3 & E). apply bind_inv in E as (? & s4 & E4 & E).
  rewrite bind_gets in E. injection E as <- <- <-. split; [done|]. apply image_layout_ok.
  unfold on_fs, zoom in E1. rewrite mfs_new_ok in E1. injection E1 as _ <-.
  assert (wf_sizes (p_fs s2)) as H2.
  { destruct (c_boot cf); [apply (on_fs_keeps _ _ (lboot_sizes _)) in E2; [done|]|injection E2 as _ <-]; apply fresh_sizes. }
  assert (wf_sizes (p_fs s3)) as H3.
  { destruct (c_kern cf); [by apply (on_fs_keeps _ _ (lkern_sizes _)) in E3|by injection E3 as _ <-]. }
  apply install_boot in E2; [|reflexivity]. subst s2. apply install_kern in E3; [|reflexivity]. subst s3.
  eapply packdir_builder; [|exact E4]. split; [exact H3|]. done.
Qed.

(** * The tree of the host directory *)

Definition is_dot (nm : list Z) : bool := bool_decide (nm = DOT) || bool_decide (nm = DOTDOT).

(** What the host has at a path below a directory. *)
Fixpoint entry_of (ents : list (list Z * hostnode)) (s : list Z) : option hostnode :=
  match ents with
  | [] => None
  | (nm, n) :: r => if decide (nm = s) then Some n else entry_of r s
  end.

Fixpoint host_at (n : hostnode) (l : list (list Z)) : option hostnode :=
  match l with
  | [] => Some n
  | s :: l' =>
      match n with
      | HDir ents => if is_dot s then None else c ← entry_of ents s; host_at c l'
      | _ => None
      end
  end.

(** The sum of [w] over what is below a directory: of inodes and of blocks. *)
Fixpoint tree_sum (w : hostnode -> Z) (n : hostnode) : Z :=
  match n with
  | HDir ents =>
      (fix go (l : list (list Z * hostnode)) : Z :=
         match l with
         | [] => 0
         | (nm, c) :: r => (if is_dot nm then 0 else w c + tree_sum w c) + go r
         end) ents
  | _ => 0
  end.

Definition inode_need (n : hostnode) : Z := match n with HOther => 0 | _ => 1 end.
Definition block_need (n : hostnode) : Z :=
  match n with HReg data => nblocks (Z.of_nat (length data)) | _ => 0 end.

(** A directory the builder can pack: [len] bytes of path and [depth] names lead to
    it; the paths fit in the buffers, the names are distinct, file names of fewer than
    68 bytes, and no directory is called like the root inode. *)
Fixpoint fits (len depth : nat) (n : hostnode) : Prop :=
  match n with
  | HDir ents =>
      (len + 1 < 512)%nat /\ (depth < 128)%nat /\ NoDup (map fst ents) /\
      (fix all (l : list (list Z * hostnode)) : Prop :=
         match l with
         | [] => True
         | (nm, c) :: r =>
             ((len + 1 + length nm < 512)%nat /\
              (is_dot nm = false -> valid_name nm /\ (length nm < 68)%nat /\
                 match c with HDir _ => nm <> root_name /\ fits (len + 1 + length nm) (S depth) c | _ => True end)) /\
             all r
         end) ents
  | _ => True
  end.

(** The builder's state while it packs. *)
Record built (d : mfs_data) (ch : Z -> list Z) (cnt nb : Z) : Prop := {
  bt_tree : tree_ok (m_ibmp d) (m_inodes d) ch cnt;
  bt_blocks : blocks_ok (m_dbmp d) nb;
  bt_nb : 0 <= nb;
  bt_data : Z.of_nat (length (m_data d)) = NDBLK * MFS_BLKSIZE;
  bt_root : name_at (m_inodes d) 0 = root_name
}.

(** [n] is at path [l] of the builder's tree. *)
Definition stored (d : mfs_data) (cnt nb : Z) (l : list (list Z)) (n : hostnode) : Prop :=
  Forall valid_name l /\ (length l <= 128)%nat /\ root_name ∉ removelast l /\
  exists i m, (forall tr, mfs_iget (path_of l tr) d = Ok i d) /\ 0 <= i < cnt /\ aget (m_inodes d) i = Some m /\
    match n with
    | HDir _ => i_mode m = 0x40177 /\ root_name ∉ l
    | HReg data => i_mode m = 0x60177 /\ i_size m = Z.of_nat (length data) /\ file_data d i = data /\ extent_ok d i nb
    | HOther => False
    end.

(** Two paths to one inode are one path. *)
Lemma resolve_snoc iblk ch l s q :
  resolve iblk ch (l ++ [s]) q =
    match resolve iblk ch l q with
    | Some r => if r =? -1 then None else Some (step_spec iblk s (ch r))
    | None => None
    end.
Proof.
  revert q. induction l as [|x l IH]; intros q; simpl; [done|].
  destruct (q =? -1); [done|apply IH].
Qed.

Lemma resolve_range bmp iblk ch cnt l q r :
  tree_ok bmp iblk ch cnt -> q = -1 \/ 0 <= q < cnt -> resolve iblk ch l q = Some r -> r = -1 \/ 0 <= r < cnt.
Proof.
  intros T. revert q. induction l as [|x l IH]; intros q Hq E; simpl in E; [injection E as <-; done|].
  destruct (Z.eqb_spec q (-1)) as [|]; [done|]. destruct Hq as [|Hq]; [done|]. eapply IH; [|exact E].
  by eapply step_spec_range.
Qed.

Lemma resolve_last bmp iblk ch cnt l s p :
  tree_ok bmp iblk ch cnt -> name_at iblk 0 ∉ l ++ [s] -> 0 <= p -> resolve iblk ch (l ++ [s]) 0 = Some p ->
  exists r m, resolve iblk ch l 0 = Some r /\ 0 <= r < p /\ aget iblk p = Some m /\ i_parent m = r /\ name_at iblk p = s.
Proof.
  intros T Hr Hp E. rewrite resolve_snoc in E. pose proof (t_cnt _ _ _ _ T).
  destruct (resolve iblk ch l 0) as [r|] eqn:El; simpl in E; [|done].
  destruct (Z.eqb_spec r (-1)) as [|Hr1]; [done|]. injection E as E.
  apply not_elem_of_app in Hr as [Hl Hs]. apply not_elem_of_cons in Hs as [Hs _].
  destruct (resolve_range _ _ _ _ l 0 r T ltac:(lia) El) as [|Hrr]; [done|].
  destruct (step_spec_gt _ _ _ _ s r T Hrr) as [E1|Hin]; [congruence|lia|].
  pose proof Hin as Hin'. rewrite E in Hin'. destruct (t_sub _ _ _ _ T r p Hrr Hin') as [Hlt (m & Em & Hm)].
  exists r, m. split_and!; try done; try lia. revert E. unfold step_spec. case_decide as D; [|lia]. by intros <-.
Qed.

Lemma resolve_inj bmp iblk ch cnt l1 l2 p :
  tree_ok bmp iblk ch cnt -> name_at iblk 0 ∉ l1 -> name_at iblk 0 ∉ l2 -> 0 <= p ->
  resolve iblk ch l1 0 = Some p -> resolve iblk ch l2 0 = Some p -> l1 = l2.
Proof.
  intros T. revert l2 p. induction l1 as [|s l1 IH] using rev_ind; intros l2 p H1 H2 Hp E1 E2.
  - injection E1 as <-. destruct l2 as [|t l2 _] using rev_ind; [done|].
    destruct (resolve_last _ _ _ _ _ _ _ T H2 Hp E2) as (r & m & _ & ? & _). lia.
  - destruct (resolve_last _ _ _ _ _ _ _ T H1 Hp E1) as (r1 & m1 & R1 & Hr1 & Em1 & Hp1 & <-).
    destruct l2 as [|t l2 _] using rev_ind; [injection E2 as <-; lia|].
    destruct (resolve_last _ _ _ _ _ _ _ T H2 Hp E2) as (r2 & m2 & R2 & Hr2 & Em2 & Hp2 & <-).
    f_equal. assert (r1 = r2) as -> by congruence. apply not_elem_of_app in H1 as [H1 _].
    apply not_elem_of_app in H2 as [H2 _]. apply (IH l2 r2); done || lia.
Qed.

Lemma stored_resolve d ch cnt nb l n :
  built d ch cnt nb -> stored d cnt nb l n ->
  exists i m, resolve (m_inodes d) ch l 0 = Some i /\ (forall tr, mfs_iget (path_of l tr) d = Ok i d) /\
    0 <= i < cnt /\ aget (m_inodes d) i = Some m.
Proof.
  intros B (Hv & Hl & _ & i & m & Hi & Hc & Hm & _). exists i, m. split_and!; try done; try lia.
  specialize (Hi false). rewrite (iget_ok _ _ _ l false d (bt_tree _ _ _ _ B)) in Hi by done.
  destruct (resolve _ _ l 0); [by injection Hi as ->|done].
Qed.

(** Adding the entry [name] to a directory keeps what is stored at the paths that do
    not go through the new entry. *)
Lemma stored_kept d d' ch cnt nb nb' p par names name nd l n e :
  built d ch cnt nb -> stored d cnt nb names (HDir e) -> mfs_iget (path_of names false) d = Ok p d ->
  aget (m_inodes d) p = Some par ->
  paths_kept d d' p name -> inode_added d d' p cnt nd ->
  (forall i, 0 <= i < cnt -> extent_ok d i nb -> file_data d' i = file_data d i /\ extent_ok d' i nb') ->
  ~ (names ++ [name]) `prefix_of` l -> stored d cnt nb l n -> stored d' (cnt + 1) nb' l n.
Proof.
  intros B Hs Hp Hpar Hk Ha Hf Hpre Hl. pose proof Hl as (Hv & Hlen & Hroot & i & m & Hi & Hc & Hm & Hn).
  split; [done|]. split; [done|]. split; [done|].
  exists i, (if decide (i = p) then set_child cnt m else m).
  assert (aget (m_inodes d') i = Some (if decide (i = p) then set_child cnt m else m)) as Em.
  { rewrite (Ha i), decide_False by lia. case_decide as D; [|done]. subst. by rewrite Hm. }
  split; [|split; [lia|split; [exact Em|]]].
  - intros tr. rewrite Hk; [by rewrite Hi|done|done|]. intros l1 l2 -> E. apply Hpre.
    assert (l1 = names) as ->; [|exists l2; by rewrite <- app_assoc].
    pose proof (bt_tree _ _ _ _ B) as T. destruct Hs as (Hv' & Hlen' & _ & j & q & Hj & Hcj & _ & _ & Hr').
    rewrite Hj in Hp. injection Hp as ->. specialize (Hj false).
    rewrite (iget_ok _ _ _ names false d T) in Hj by done.
    apply Forall_app in Hv as [Hv1 _]. rewrite length_app in Hlen. cbn [length] in Hlen.
    rewrite (iget_ok _ _ _ l1 false d T) in E by (done || lia).
    destruct (resolve _ _ l1 0) as [i1|] eqn:R1; [|done]. injection E as ->.
    destruct (resolve _ _ names 0) as [i2|] eqn:R2; [|done]. injection Hj as ->.
    apply (resolve_inj _ _ _ _ _ _ p T); rewrite ?(bt_root _ _ _ _ B); try done; try lia.
    rewrite removelast_app in Hroot by done. by apply not_elem_of_app in Hroot as [].
  - destruct n as [ents|data|]; [|..|done].
    + by case_decide.
    + destruct Hn as (H1 & H2 & H3 & H4). destruct (Hf i Hc H4) as [F1 F2].
      split_and!; [by case_decide|by case_decide|congruence|done].
Qed.

(** The new entry is stored. *)
Lemma stored_new d' ch' cnt nb' names name nd n :
  built d' ch' (cnt + 1) nb' -> 0 <= cnt -> Forall valid_name names -> (length names < 128)%nat -> root_name ∉ names ->
  valid_name name -> resolve (m_inodes d') ch' (names ++ [name]) 0 = Some cnt -> aget (m_inodes d') cnt = Some nd ->
  match n with
  | HDir _ => i_mode nd = 0x40177 /\ name <> root_name
  | HReg data => i_mode nd = 0x60177 /\ i_size nd = Z.of_nat (length data) /\ file_data d' cnt = data /\ extent_ok d' cnt nb'
  | HOther => False
  end -> stored d' (cnt + 1) nb' (names ++ [name]) n.
Proof.
  intros B Hc Hv Hl Hr Hn R Hm H.
  assert (Forall valid_name (names ++ [name])) as Hv' by (apply Forall_app; split; [done|by constructor]).
  assert (length (names ++ [name]) <= 128)%nat by (rewrite length_app; simpl; lia).
  split; [done|]. split; [done|]. split; [by rewrite removelast_last|].
  exists cnt, nd. split; [|split; [lia|split; [done|]]].
  - intros tr. rewrite (iget_ok _ _ _ _ tr d' (bt_tree _ _ _ _ B)) by done. by rewrite R.
  - destruct n as [ents|data|]; [|done..]. destruct H as [H1 H2]. split; [done|]. set_solver.
Qed.

Lemma built_root d d' ch ch' cnt nb nb' p nd :
  built d ch cnt nb -> inode_added d d' p cnt nd ->
  tree_ok (m_ibmp d') (m_inodes d') ch' (cnt + 1) -> blocks_ok (m_dbmp d') nb' -> 0 <= nb' ->
  length (m_data d') = length (m_data d) -> built d' ch' (cnt + 1) nb'.
Proof.
  intros B Ha T Hb Hnb Hd. split; try done; [by rewrite Hd; apply (bt_data _ _ _ _ B)|].
  rewrite <- (bt_root _ _ _ _ B). unfold name_at. rewrite (Ha 0). pose proof (t_cnt _ _ _ _ (bt_tree _ _ _ _ B)).
  rewrite decide_False by lia. case_decide as D; [|done]. subst. by destruct (aget _ 0).
Qed.

(** What packing an entry, or the entries, of a directory leaves stored. *)
Definition kept_but (P : list (list Z) -> Prop) (d : mfs_data) (cnt nb : Z) (d' : mfs_data) (cnt' nb' : Z) : Prop :=
  forall l n, ~ P l -> stored d cnt nb l n -> stored d' cnt' nb' l n.

Lemma write_sizes_len d' k data buff :
  m_data d' = take k data ++ buff ++ drop (k + length buff) data -> (k + length buff <= length data)%nat ->
  length (m_data d') = length data.
Proof. intros -> Hk. rewrite !length_app, length_take, length_drop. lia. Qed.

Section entry.
Context (d : mfs_data) (ch : Z -> list Z) (cnt nb : Z) (names : list (list Z)) (e : list (list Z * hostnode))
  (name : list Z) (t : stamps).
Context (B : built d ch cnt nb) (Hs : stored d cnt nb names (HDir e)) (Hd : (length names < 128)%nat)
  (Hv : valid_name name) (Hn : (length name < 68)%nat) (Hcnt : cnt < NINODES).

Lemma pack_mkdir e' : name <> root_name ->
  exists d' ch', mfs_mkdir (path_of names true) name t d = Ok 0 d' /\ built d' ch' (cnt + 1) nb /\
    stored d' (cnt + 1) nb (names ++ [name]) (HDir e') /\
    kept_but (prefix (names ++ [name])) d cnt nb d' (cnt + 1) nb.
Proof using All.
  intros Hroot. destruct (stored_resolve _ _ _ _ _ _ B Hs) as (p & m & R & Hp & Hpc & Hm).
  destruct Hs as (Hvs & _ & _ & _ & _ & _ & _ & _ & _ & Hrs). pose proof (bt_tree _ _ _ _ B) as T.
  pose proof (t_cnt _ _ _ _ T). pose proof (t_len _ _ _ _ T) as Hl.
  assert (name_at (m_inodes d) 0 ∉ names) as Hr0 by (by rewrite (bt_root _ _ _ _ B)).
  destruct (mkdir_ok d ch cnt p names true name t T Hcnt Hvs Hd Hr0 ltac:(lia) R Hv Hn)
    as (d' & old & par & Em & Eo & Ep & Ei & Hb & Hdat & HT & Hres).
  pose proof (made_name old par cnt p name dir_mode 0 t Hv) as Hcn.
  set (nd := set_extent 0 0 _) in Ei.
  assert (inode_added d d' p cnt nd) as Ha by (apply (link_added _ _ _ _ _ par); done || lia).
  assert (built d' (add_ch ch p cnt) (cnt + 1) nb) as B'.
  { eapply built_root; [exact B|exact Ha|done|..]; [rewrite Hb; apply B|apply B|by rewrite Hdat]. }
  exists d', (add_ch ch p cnt). split; [exact Em|]. split; [exact B'|]. split.
  - eapply (stored_new _ _ _ _ _ _ nd); [exact B'|lia|done..| |done]. rewrite (Ha cnt). by rewrite decide_True.
  - intros l n Hpre Hst. eapply (stored_kept d d' ch cnt nb nb p par names name nd l n e); try done.
    + exact (link_keeps d d' ch cnt p nd par name T Hcnt Ep Hpc Hcn Ei HT).
    + intros i Hi (x & Hx & Hx1 & Hx2 & Hx3).
      assert (aget (m_inodes d') i = Some (if decide (i = p) then set_child cnt x else x)) as Hx'.
      { rewrite (Ha i), decide_False by lia. case_decide as D; [|done]. subst. by rewrite Hx. }
      split; [unfold file_data; rewrite Hx, Hx', Hdat; by case_decide|].
      eexists. split; [exact Hx'|]. by case_decide.
Qed.

Lemma pack_write buff : nb + nblocks (Z.of_nat (length buff)) <= NDBLK ->
  exists d' ch', mfs_write (path_of names true) name buff (Z.of_nat (length buff)) t d = Ok 0 d' /\
    built d' ch' (cnt + 1) (nb + nblocks (Z.of_nat (length buff))) /\
    stored d' (cnt + 1) (nb + nblocks (Z.of_nat (length buff))) (names ++ [name]) (HReg buff) /\
    kept_but (prefix (names ++ [name])) d cnt nb d' (cnt + 1) (nb + nblocks (Z.of_nat (length buff))).
Proof using All.
  intros Hroom. destruct (stored_resolve _ _ _ _ _ _ B Hs) as (p & m & R & Hp & Hpc & Hm).
  destruct Hs as (Hvs & _ & _ & i & m' & Hi & _ & Hm' & Hmode & Hrs). specialize (Hi true).
  rewrite Hp in Hi. injection Hi as <-. rewrite Hm in Hm'. injection Hm' as <-.
  pose proof (bt_tree _ _ _ _ B) as T. pose proof (t_cnt _ _ _ _ T). pose proof (t_len _ _ _ _ T) as Hl.
  assert (name_at (m_inodes d) 0 ∉ names) as Hr0 by (by rewrite (bt_root _ _ _ _ B)).
  assert (Z.land (i_mode m) S_IFDIR = S_IFDIR) as Hdir by (by rewrite Hmode).
  pose proof B as [_ Hblk Hnb Hdl _].
  destruct (write_ok d ch cnt p nb names true name buff t m T Hcnt Hvs Hd Hr0 ltac:(lia) R Hm Hdir Hv Hn Hblk Hnb Hdl Hroom)
    as (d' & old & Em & Ei & Ed & Hb' & HT & Hres).
  destruct (write_data d ch cnt p nb names true name buff t m T Hcnt Hvs Hd Hr0 ltac:(lia) R Hm Hdir Hv Hn Hblk Hnb Hdl
    Hroom d' old Ei Ed) as [Hnew Hold].
  set (size := Z.of_nat (length buff)) in *. pose proof (nblocks_bounds size ltac:(lia)) as (Hr0' & Hrs' & Hz & Hz').
  pose proof (made_name old m cnt p name reg_mode size t Hv) as Hcn.
  set (nd := set_extent _ _ _) in Ei.
  assert (inode_added d d' p cnt nd) as Ha by (apply (link_added _ _ _ _ _ m); done || lia).
  assert (u32 size = size) as Hu.
  { apply u32_small. unfold is_u32. change NDBLK with 1024 in Hroom. unfold MFS_BLKSIZE in *. lia. }
  assert (built d' (add_ch ch p cnt) (cnt + 1) (nb + nblocks size)) as B'.
  { eapply built_root; [exact B|exact Ha|done|done|lia|].
    pose proof (write_sizes_len d' (Z.to_nat ((if decide (nblocks size = 0) then 1 else nb) * MFS_BLKSIZE)) (m_data d) buff Ed) as Hlen.
    apply Hlen. change NDBLK with 1024 in *. unfold MFS_BLKSIZE in *. case_decide; lia. }
  exists d', (add_ch ch p cnt). split; [exact Em|]. split; [exact B'|].
  assert (aget (m_inodes d') cnt = Some nd) as Hnd by (rewrite (Ha cnt); by rewrite decide_True).
  split.
  - eapply (stored_new _ _ _ _ _ _ nd); [exact B'|lia|done..|]. split; [done|]. split; [exact Hu|]. split; [exact Hnew|].
    exists nd. split; [exact Hnd|]. change (i_size nd) with (u32 size). rewrite Hu.
    change (i_blkentry nd) with (if decide (nblocks size = 0) then 1 else nb).
    split; [lia|]. case_decide as D; [split; [lia|left; lia]|]. split; [lia|right]. unfold MFS_BLKSIZE in *. lia.
  - intros l n Hpre Hst. eapply (stored_kept d d' ch cnt nb _ p m names name nd l n e); try done.
    exact (link_keeps d d' ch cnt p nd m name T Hcnt Hm Hpc Hcn Ei HT).
Qed.
End entry.

(** The step for an entry that is at [pathtemp], and the loop over the entries of a
    directory. *)
Definition pack_entry (now : list Z -> stamps) (path d_name pathtemp : list Z) (n : hostnode) : M pack_state Z :=
  if is_dot d_name then ret 0
  else match n with
       | HDir _ =>
           cut <- gets p_cut ;;
           on_fs (mfs_mkdir (drop (Z.to_nat cut) path) d_name (now pathtemp)) ;;;
           packdir now n pathtemp
       | HReg data =>
           cut <- gets p_cut ;;
           on_fs (mfs_write (drop (Z.to_nat cut) path) d_name data (Z.of_nat (length data)) (now pathtemp))
       | HOther => ret 0
       end.

Definition pack_entries (now : list Z -> stamps) (path : list Z) : list (list Z * hostnode) -> M pack_state Z :=
  fix entries l :=
  match l with
  | [] => ret 0
  | (d_name, n) :: rest =>
      pathtemp <- in_buffer (path ++ d_name) ;;
      pack_entry now path d_name pathtemp n ;;;
      entries rest
  end.

Lemma packdir_entries now ents dirname :
  packdir now (HDir ents) dirname =
    (modify (fun s => Pack (if p_cut s =? 0 then Z.of_nat (length dirname) else p_cut s) (p_fs s)) ;;;
     path <- in_buffer (dirname ++ [SLASH]) ;;
     pack_entries now path ents).
Proof. reflexivity. Qed.

Lemma tree_sum_cons w nm n r :
  tree_sum w (HDir ((nm, n) :: r)) = (if is_dot nm then 0 else w n + tree_sum w n) + tree_sum w (HDir r).
Proof. reflexivity. Qed.

(** The entries of a directory at [len] bytes of path and [depth] names. *)
Definition entry_fits (len depth : nat) (e : list Z * hostnode) : Prop :=
  (len + 1 + length (fst e) < 512)%nat /\
  (is_dot (fst e) = false -> valid_name (fst e) /\ (length (fst e) < 68)%nat /\
     match snd e with HDir _ => fst e <> root_name /\ fits (len + 1 + length (fst e)) (S depth) (snd e) | _ => True end).

Lemma fits_entries len depth ents :
  fits len depth (HDir ents) <->
    (len + 1 < 512)%nat /\ (depth < 128)%nat /\ NoDup (map fst ents) /\ Forall (entry_fits len depth) ents.
Proof.
  cbn [fits]. do 3 (apply and_iff_compat_l). induction ents as [|[nm c] r IH]; [done|].
  rewrite Forall_cons, IH. done.
Qed.

Lemma in_buffer_ok x s : (length x < 512)%nat -> in_buffer x s = Ok x s.
Proof. intros H. unfold in_buffer. rewrite (proj2 (Z.ltb_lt _ _)) by lia. done. Qed.

Lemma on_fs_ok {A} (m : M mfs_data A) cut d a d' : m d = Ok a d' -> on_fs m (Pack cut d) = Ok a (Pack cut d').
Proof. intros E. unfold on_fs, zoom. cbn [p_fs p_cut]. by rewrite E. Qed.

Lemma path_of_slash names : path_of names false ++ [SLASH] = path_of names true.
Proof. unfold path_of. by rewrite app_nil_r. Qed.
Lemma path_of_snoc names name : path_of (names ++ [name]) false = path_of names true ++ name.
Proof. unfold path_of. rewrite map_app, concat_app. cbn. by rewrite !app_nil_r, <- !app_assoc. Qed.

Lemma kept_but_trans (P : list (list Z) -> Prop) d0 c0 n0 d1 c1 n1 d2 c2 n2 (P1 P2 : list (list Z) -> Prop) :
  kept_but P1 d0 c0 n0 d1 c1 n1 -> kept_but P2 d1 c1 n1 d2 c2 n2 ->
  (forall l, P1 l -> P l) -> (forall l, P2 l -> P l) -> kept_but P d0 c0 n0 d2 c2 n2.
Proof. intros H1 H2 I1 I2 l n Hl Hs. apply H2; [naive_solver|]. apply H1; naive_solver. Qed.

(** The paths through one of the entries [ss] of the directory [names]. *)
Definition through (names : list (list Z)) (ss : list (list Z)) (l : list (list Z)) : Prop :=
  exists s, s ∈ ss /\ (names ++ [s]) `prefix_of` l.

Lemma tree_sum_nonneg w : (forall n, 0 <= w n) -> forall n, 0 <= tree_sum w n.
Proof.
  intros Hw. induction n as [ents IH|data|] using hostnode_tree_ind; [|done..].
  induction IH as [|[nm n] r Hn Hr IHr]; [done|]. rewrite tree_sum_cons. specialize (Hw n). simpl in Hn.
  destruct (is_dot nm); lia.
Qed.

Section packing.
Context (now : list Z -> stamps) (root : list Z) (Hroot : root <> []).

Let cut : Z := Z.of_nat (length root).

(** [packdir] of the host directory [n] at the builder's directory [names]. *)
Definition packs (n : hostnode) : Prop :=
  forall names d ch cnt nb c0,
  match n with HDir _ => True | _ => False end ->
  fits (length root + length (path_of names false)) (length names) n ->
  built d ch cnt nb -> stored d cnt nb names (HDir []) ->
  cnt + tree_sum inode_need n <= NINODES -> nb + tree_sum block_need n <= NDBLK ->
  c0 = cut \/ c0 = 0 /\ names = [] ->
  exists d' ch', packdir now n (root ++ path_of names false) (Pack c0 d) = Ok 0 (Pack cut d') /\
    built d' ch' (cnt + tree_sum inode_need n) (nb + tree_sum block_need n) /\
    (forall l x, l <> [] -> host_at n l = Some x -> x <> HOther ->
       stored d' (cnt + tree_sum inode_need n) (nb + tree_sum block_need n) (names ++ l) x) /\
    kept_but (fun l => exists s, (names ++ [s]) `prefix_of` l) d cnt nb
      d' (cnt + tree_sum inode_need n) (nb + tree_sum block_need n).

Lemma drop_root p : drop (Z.to_nat cut) (root ++ p) = p.
Proof. unfold cut. by rewrite Nat2Z.id, drop_app_length. Qed.

Section directory.
Context (names : list (list Z)) (Hd : (length names < 128)%nat).

Lemma pack_entry_ok d ch cnt nb nm n :
  packs n -> is_dot nm = false -> entry_fits (length root + length (path_of names false)) (length names) (nm, n) ->
  built d ch cnt nb -> stored d cnt nb names (HDir []) ->
  let cnt' := cnt + (inode_need n + tree_sum inode_need n) in
  let nb' := nb + (block_need n + tree_sum block_need n) in
  cnt' <= NINODES -> nb' <= NDBLK ->
  exists d' ch', pack_entry now (root ++ path_of names true) nm (root ++ path_of names true ++ nm) n (Pack cut d) =
      Ok 0 (Pack cut d') /\ built d' ch' cnt' nb' /\
    (forall l x, host_at n l = Some x -> x <> HOther -> stored d' cnt' nb' (names ++ nm :: l) x) /\
    kept_but (prefix (names ++ [nm])) d cnt nb d' cnt' nb'.
Proof using All.
  intros IH Hdot [Hlen Hf] B Hs cnt' nb' Hi Hb. destruct (Hf Hdot) as (Hv & Hn & Hsub). cbn [fst snd] in *.
  unfold pack_entry. rewrite Hdot. destruct n as [ents|data|].
  - destruct Hsub as [Hnr Hfit].
    assert (0 <= tree_sum inode_need (HDir ents)) as Hpos by (apply tree_sum_nonneg; by intros []).
    subst cnt' nb'. cbn [inode_need block_need] in *. rewrite Z.add_0_l in *. rewrite !Z.add_assoc in *.
    destruct (pack_mkdir d ch cnt nb names [] nm (now (root ++ path_of names true ++ nm)) B Hs Hd Hv Hn ltac:(lia) [] Hnr)
      as (d1 & ch1 & E1 & B1 & S1 & K1).
    destruct (IH (names ++ [nm]) d1 ch1 (cnt + 1) nb cut) as (d2 & ch2 & E2 & B2 & S2 & K2);
      [done| |done|done|lia|lia|by left|].
    { rewrite path_of_snoc, <- path_of_slash, !length_app. cbn [length].
      replace (length names + 1)%nat with (S (length names)) by lia.
      by replace (length root + (length (path_of names false) + 1 + length nm))%nat
        with (length root + length (path_of names false) + 1 + length nm)%nat by lia. }
    exists d2, ch2. split; [|split; [done|split]].
    + rewrite bind_gets. cbn [p_cut]. rewrite drop_root, (bind_ok _ _ _ _ _ (on_fs_ok _ cut _ _ _ E1)).
      by rewrite <- path_of_snoc.
    + intros l x Hx Hne. rewrite (cons_middle nm names l), app_assoc. destruct l as [|s l].
      * rewrite app_nil_r. injection Hx as <-. apply K2; [|done]. intros (s & [k E]).
        apply (f_equal length) in E. rewrite !length_app in E. simpl in E. lia.
      * by apply S2.
    + eapply kept_but_trans; [exact K1|exact K2|done|]. intros l (s & Hp). etrans; [|exact Hp]. by apply prefix_app_r.
  - subst cnt' nb'. cbn [inode_need block_need tree_sum] in *. rewrite !Z.add_0_r in *.
    destruct (pack_write d ch cnt nb names [] nm (now (root ++ path_of names true ++ nm)) B Hs Hd Hv Hn ltac:(lia) data Hb)
      as (d1 & ch1 & E1 & B1 & S1 & K1).
    exists d1, ch1. split; [|split; [done|split; [|done]]].
    + rewrite bind_gets. cbn [p_cut]. by rewrite drop_root, (on_fs_ok _ cut _ _ _ E1).
    + intros [|s l] x Hx _; [|done]. by injection Hx as <-.
  - subst cnt' nb'. cbn [inode_need block_need tree_sum] in *. rewrite !Z.add_0_r in *. exists d, ch.
    split; [done|]. split; [done|]. split; [|by intros l x].
    intros [|s l] x Hx Hne; [|done]. by injection Hx as <-.
Qed.
Lemma pack_entries_ok ents : Forall (fun e => packs (snd e)) ents -> NoDup (map fst ents) ->
  Forall (entry_fits (length root + length (path_of names false)) (length names)) ents ->
  forall d ch cnt nb, built d ch cnt nb -> stored d cnt nb names (HDir []) ->
  let cnt' := cnt + tree_sum inode_need (HDir ents) in let nb' := nb + tree_sum block_need (HDir ents) in
  cnt' <= NINODES -> nb' <= NDBLK ->
  exists d' ch', pack_entries now (root ++ path_of names true) ents (Pack cut d) = Ok 0 (Pack cut d') /\
    built d' ch' cnt' nb' /\
    (forall nm n l x, is_dot nm = false -> entry_of ents nm = Some n -> host_at n l = Some x -> x <> HOther ->
       stored d' cnt' nb' (names ++ nm :: l) x) /\
    kept_but (through names (map fst ents)) d cnt nb d' cnt' nb'.
Proof using All.
  assert (forall n, 0 <= inode_need n) as Wi by (by intros []).
  assert (forall n, 0 <= block_need n) as Wb.
  { intros [|data|]; try done. cbn. by apply nblocks_bounds; lia. }
  induction 1 as [|[nm n] r Hn Hr IHr]; intros Hnd Hf d ch cnt nb B Hs cnt' nb' Hi Hb.
  { subst cnt' nb'. cbn [tree_sum] in *. rewrite !Z.add_0_r in *. exists d, ch. split; [done|]. split; [done|]. split; [done|by intros l x]. }
  cbn [map fst snd] in *. apply NoDup_cons in Hnd as [Hnm Hnd]. apply Forall_cons in Hf as [Hf Hfr].
  subst cnt' nb'. rewrite !tree_sum_cons in *.
  pose proof (tree_sum_nonneg inode_need Wi n). pose proof (tree_sum_nonneg block_need Wb n).
  pose proof (tree_sum_nonneg inode_need Wi (HDir r)). pose proof (tree_sum_nonneg block_need Wb (HDir r)).
  pose proof (Wi n). pose proof (Wb n).
  assert (in_buffer ((root ++ path_of names true) ++ nm) (Pack cut d) = Ok (root ++ path_of names true ++ nm) (Pack cut d)) as Ebuf.
  { rewrite <- app_assoc. apply in_buffer_ok. destruct Hf as [Hlen _]. cbn [fst] in Hlen.
    rewrite <- path_of_slash, !length_app. cbn [length]. lia. }
  cbn [pack_entries]. rewrite (bind_ok _ _ _ _ _ Ebuf).
  destruct (is_dot nm) eqn:Hdot.
  - rewrite !Z.add_0_l in *. unfold pack_entry at 1. rewrite Hdot, bind_ret.
    destruct (IHr Hnd Hfr d ch cnt nb B Hs Hi Hb) as (d' & ch' & E & B' & S' & K'). exists d', ch'.
    split; [exact E|]. split; [done|]. split.
    + intros nm' n' l x Hd' En. apply S'; [done|]. cbn [entry_of] in En. by case_decide; [congruence|].
    + intros l x Hl. apply K'. intros (s & Hin & Hp). apply Hl. exists s. split; [by right|done].
  - rewrite !Z.add_assoc in *.
    destruct (pack_entry_ok d ch cnt nb nm n Hn Hdot Hf B Hs) as (d1 & ch1 & E1 & B1 & S1 & K1); [lia..|].
    rewrite (bind_ok _ _ _ _ _ E1). rewrite !Z.add_assoc in *.
    destruct (IHr Hnd Hfr d1 ch1 _ _ B1) as (d' & ch' & E & B' & S' & K'); [|lia..|].
    { apply K1; [|done]. intros [k E]. apply (f_equal length) in E. rewrite !length_app in E. simpl in E. lia. }
    exists d', ch'. split; [exact E|]. split; [done|]. split.
    + intros nm' n' l x Hd' En Hx Hne. cbn [entry_of] in En. case_decide as D; [|by eapply S'].
      injection En as <-. subst nm'. apply K'; [|by apply S1]. intros (s & Hin & [k E']).
      rewrite <- app_assoc in E'. apply app_inv_head in E'. injection E' as <- _. by apply Hnm.
    + eapply kept_but_trans; [exact K1|exact K'|..].
      * intros l Hp. exists nm. split; [by left|done].
      * intros l (s & Hin & Hp). exists s. split; [by right|done].
Qed.
End directory.

Lemma packdir_ok n : packs n.
Proof using All.
  induction n as [ents IH|data|] using hostnode_tree_ind; intros names d ch cnt nb c0 Hdir; [|done..].
  intros Hf B Hs Hi Hb Hc. apply fits_entries in Hf as (Hlen & Hd & Hnd & Hf).
  destruct (pack_entries_ok names Hd ents IH Hnd Hf d ch cnt nb B Hs Hi Hb) as (d' & ch' & E & B' & S' & K').
  exists d', ch'. split; [|split; [exact B'|split]].
  - rewrite packdir_entries, bind_modify. cbn [p_cut p_fs].
    assert ((if c0 =? 0 then Z.of_nat (length (root ++ path_of names false)) else c0) = cut) as ->.
    { assert (cut <> 0) by (unfold cut; intros Hz; apply Hroot, length_zero_iff_nil; lia).
      destruct Hc as [->|[-> ->]]; [by rewrite (proj2 (Z.eqb_neq _ _))|]. cbn. by rewrite app_nil_r. }
    erewrite bind_ok; [|apply in_buffer_ok; rewrite !length_app; simpl; lia].
    by rewrite <- app_assoc, path_of_slash.
  - intros [|nm l] x Hne Hx Hx'; [done|]. cbn [host_at] in Hx. destruct (is_dot nm) eqn:Hdot; [done|].
    destruct (entry_of ents nm) as [n|] eqn:En; simpl in Hx; [|done]. by eapply S'.
  - intros l x Hl. apply K'. intros (s & _ & Hp). apply Hl. by exists s.
Qed.
End packing.

(** * The image *)

(** [n] is at path [l] in the image [img] of the builder's state [d]: the path leads to
    an inode, whose 128 bytes are in the inode table of the image; it is a directory,
    or a file of the bytes that are at its first block in the image. *)
Definition on_image (d : mfs_data) (img : list Z) (l : list (list Z)) (n : hostnode) : Prop :=
  exists i m, mfs_iget (path_of l false) d = Ok i d /\
    take 128 (drop (Z.to_nat (512 + s_iblk new_super * s_blksize new_super + 128 * i)) img) = encode_inode m /\
    match n with
    | HDir _ => i_mode m = 0x40177
    | HReg data =>
        i_mode m = 0x60177 /\ i_size m = Z.of_nat (length data) /\
        take (length data) (drop (Z.to_nat (512 + (s_dblk new_super + i_blkentry m) * s_blksize new_super)) img) = data
    | HOther => False
    end.

Lemma fresh_built : built fresh (fun _ => []) 1 0.
Proof.
  split.
  - apply fresh_tree.
  - apply fresh_blocks.
  - lia.
  - rewrite (wf_data _ fresh_sizes). change (MFS_BLKSIZE * NDBLK) with 1048576. change (NDBLK * MFS_BLKSIZE) with 1048576. lia.
  - unfold name_at. rewrite fresh_root. reflexivity.
Qed.

(** The inode and the bytes of a file, cut from the image. *)
Lemma inode_on_image d i m : wf_sizes d -> aget (m_inodes d) i = Some m ->
  take 128 (drop (Z.to_nat (512 + s_iblk new_super * s_blksize new_super + 128 * i)) (mfs_end d)) = encode_inode m.
Proof.
  intros Hd [Hr Hi]%aget_inv. destruct (image_regions_ok d Hd) as (_ & _ & _ & _ & Hino & _ & _).
  rewrite (wf_super d Hd) in Hino. pose proof (wf_names d Hd) as Hnm.
  pose proof (length_inode_bytes _ Hnm) as Hlen. rewrite (wf_inodes d Hd) in *.
  change (MFS_BLKSIZE * NIBLK / 128) with 8192 in *.
  apply take_drop_middle in Hi as Hsplit. pose proof (Forall_lookup_1 _ _ _ _ Hnm Hi) as Hm. cbn beta in Hm.
  pose proof (lookup_lt_Some _ _ _ Hi) as Hlt.
  assert (length (concat (map encode_inode (take (Z.to_nat i) (m_inodes d)))) = (128 * Z.to_nat i)%nat) as Hpre.
  { rewrite length_inode_bytes by (by apply Forall_take). rewrite length_take. lia. }
  assert (take 128 (drop (128 * Z.to_nat i) (concat (map encode_inode (m_inodes d)))) = encode_inode m) as Hc.
  { rewrite <- Hsplit at 1. rewrite map_app, concat_app. cbn [map concat]. apply slice_app; [by rewrite Hpre|].
    by rewrite length_encode_inode. }
  rewrite <- Hc, <- Hino. unfold image_blocks, MFS_BLKSIZE.
  change (s_iblkcnt new_super) with 1024. change (s_iblk new_super) with 515. change (s_blksize new_super) with 1024.
  rewrite skipn_firstn_comm, take_take, drop_drop. f_equal; [lia|]. f_equal. lia.
Qed.

Lemma file_on_image d i m data : wf_sizes d -> aget (m_inodes d) i = Some m ->
  i_size m = Z.of_nat (length data) -> 0 <= i_blkentry m -> file_data d i = data ->
  take (length data) (drop (Z.to_nat (512 + (s_dblk new_super + i_blkentry m) * s_blksize new_super)) (mfs_end d)) = data.
Proof.
  intros Hd Hm Hs He Hf. unfold file_data in Hf. rewrite Hm, Hs, Nat2Z.id in Hf.
  destruct (image_regions_ok d Hd) as (_ & _ & _ & _ & _ & Hdat & Hlen).
  rewrite (wf_super d Hd) in *. pose proof (wf_data d Hd) as Hl.
  assert (m_data d = drop (Z.to_nat (512 + s_dblk new_super * MFS_BLKSIZE)) (mfs_end d)) as Ed.
  { rewrite <- Hdat at 1. unfold image_blocks. apply take_ge. rewrite length_drop, Hlen.
    change (s_dblkcnt new_super) with 1024. change (s_dblk new_super) with 1539.
    change (s_blksize new_super) with 1024. unfold MFS_BLKSIZE. lia. }
  rewrite Ed, drop_drop in Hf. rewrite <- Hf at 2. f_equal. f_equal.
  change (s_dblk new_super) with 1539. change (s_blksize new_super) with 1024. unfold MFS_BLKSIZE. lia.
Qed.

Lemma stored_on_image d cnt nb l n : wf_sizes d -> stored d cnt nb l n -> on_image d (mfs_end d) l n.
Proof.
  intros Hd (_ & _ & _ & i & m & Hi & Hc & Hm & Hn). exists i, m. split; [done|].
  split; [by apply inode_on_image|]. destruct n as [ents|data|]; [by destruct Hn| |done].
  destruct Hn as (H1 & H2 & H3 & x & Hx & _ & Hb & _). split; [done|]. split; [done|].
  apply (file_on_image d i); try done. congruence.
Qed.

Lemma install_boot_ok h o s :
  Z.of_nat (length (file_bytes h o)) <= 512 -> m_boot (p_fs s) = zeros 512 ->
  exists a s', match o with Some b => on_fs (mfs_lboot (h_file h b)) | None => ret 0 end s = Ok a s'.
Proof.
  intros Hl Hz. destruct o as [f|]; [|by eexists _, _]. unfold file_bytes in Hl. unfold on_fs, zoom.
  destruct (h_file h f) as [bytes|]; [|by eexists _, _]. cbn [mfs_lboot default id] in *. rewrite bind_get, Hz.
  rewrite memcpy_spec by (rewrite ?length_zeros; lia). by eexists _, _.
Qed.

Lemma install_kern_ok h o s :
  Z.of_nat (length (file_bytes h o)) <= MFS_BLKSIZE * NKBLK -> m_kern (p_fs s) = zeros (MFS_BLKSIZE * NKBLK) ->
  exists a s', match o with Some b => on_fs (mfs_lkern (h_file h b)) | None => ret 0 end s = Ok a s'.
Proof.
  generalize (MFS_BLKSIZE * NKBLK). intros k Hl Hz. destruct o as [f|]; [|by eexists _, _]. unfold file_bytes in Hl. unfold on_fs, zoom.
  destruct (h_file h f) as [bytes|]; [|by eexists _, _]. cbn [mfs_lkern default id] in *. rewrite bind_get, Hz.
  rewrite memcpy_spec by (rewrite ?length_zeros; lia). by eexists _, _.
Qed.

Lemma fresh_kern : m_kern fresh = zeros (MFS_BLKSIZE * NKBLK).
Proof. unfold fresh. reflexivity. Qed.

Lemma installed_built boot kern : built (installed boot kern) (fun _ => []) 1 0.
Proof.
  destruct fresh_built as [F1 F2 F3 F4 F5]. unfold installed. generalize dependent fresh. intros d F1 F2 F4 F5.
  by split.
Qed.

Lemma installed_kept boot kern :
  Z.of_nat (length boot) <= 512 -> Z.of_nat (length kern) <= MFS_BLKSIZE * NKBLK ->
  under (builder_kept (filled boot 512) (filled kern (MFS_BLKSIZE * NKBLK))) (Pack 0 (installed boot kern)).
Proof.
  intros Hb Hk. unfold under, installed. cbn [p_fs]. pose proof fresh_sizes as Hs. generalize dependent fresh. intros d Hs.
  split; [|by split]. pose proof (wf_boot _ Hs) as E1. pose proof (wf_kern _ Hs) as E2.
  apply sizes_kern; [apply sizes_boot; [done|]|]; rewrite length_filled by done; [by rewrite E1|symmetry; exact E2].
Qed.

Lemma root_stored d ch cnt nb : built d ch cnt nb -> (exists m, aget (m_inodes d) 0 = Some m /\ i_mode m = 0x40177) ->
  stored d cnt nb [] (HDir []).
Proof.
  intros B (m & Em & Hmode). pose proof (t_cnt _ _ _ _ (bt_tree _ _ _ _ B)).
  split; [done|]. split; [simpl; lia|]. split; [apply not_elem_of_nil|]. exists 0, m. split; [by intros []|].
  split; [lia|]. split; [done|]. split; [done|apply not_elem_of_nil].
Qed.

Lemma installed_root boot kern : exists m, aget (m_inodes (installed boot kern)) 0 = Some m /\ i_mode m = 0x40177.
Proof.
  exists root_inode. split; [|reflexivity]. unfold installed. pose proof fresh_root as E. generalize dependent fresh. intros d E. exact E.
Qed.

(** The two installations, and the walk after them. *)
Lemma install_both h b k :
  Z.of_nat (length (file_bytes h b)) <= 512 -> Z.of_nat (length (file_bytes h k)) <= MFS_BLKSIZE * NKBLK ->
  exists a1 s1 a2, match b with Some f => on_fs (mfs_lboot (h_file h f)) | None => ret 0 end (Pack 0 fresh) = Ok a1 s1 /\
    match k with Some f => on_fs (mfs_lkern (h_file h f)) | None => ret 0 end s1 =
      Ok a2 (Pack 0 (installed (file_bytes h b) (file_bytes h k))).
Proof.
  intros Hb Hk. unfold installed. pose proof fresh_kern as Hz.
  assert (m_boot fresh = zeros 512) as Hz1 by reflexivity. generalize dependent fresh. intros d Hz Hz1.
  destruct (install_boot_ok h b (Pack 0 d) Hb Hz1) as (a1 & s1 & E1).
  pose proof (install_boot _ _ _ _ _ E1 Hz1) as ->. eexists a1, _.
  destruct (install_kern_ok h k (Pack 0 (set_boot (filled (file_bytes h b) 512) d)) Hk Hz) as (a2 & s2 & E2).
  pose proof (install_kern _ _ _ _ _ E2 Hz) as ->. exists a2. split; [exact E1|exact E2].
Qed.

Lemma main_run h argv d0 root image tree n s' :
  let cf := scan_args argv config0 in
  c_showlic cf = false -> c_showhelp cf = false -> c_fmt cf = Some "mfs"%string ->
  c_root cf = Some root -> c_image cf = Some image ->
  Z.of_nat (length (file_bytes h (c_boot cf))) <= 512 ->
  Z.of_nat (length (file_bytes h (c_kern cf))) <= MFS_BLKSIZE * NKBLK ->
  h_root h root = Some tree ->
  packdir (h_now h) tree (bytes_of root) (Pack 0 (installed (file_bytes h (c_boot cf)) (file_bytes h (c_kern cf)))) = Ok n s' ->
  main h argv (Pack 0 d0) = Ok (0, Some (mfs_end (p_fs s'))) s'.
Proof.
  intros cf H1 H2 H3 H4 H5 Hb Hk Hr E. destruct (install_both h _ _ Hb Hk) as (a1 & s1 & a2 & E1 & E2).
  unfold main. fold cf. cbv zeta. rewrite H1, H2, H3, H4, H5. change (negb (String.eqb "mfs" "mfs")) with false. cbv iota.
  rewrite (bind_ok _ _ _ _ _ (on_fs_ok _ 0 _ _ _ (mfs_new_ok d0))).
  rewrite (bind_ok _ _ _ _ _ E1), (bind_ok _ _ _ _ _ E2), Hr. cbn [default].
  rewrite (bind_ok _ _ _ _ _ E). by rewrite bind_gets.
Qed.

Lemma main_packs h argv d0 root image tree :
  let cf := scan_args argv config0 in
  c_showlic cf = false -> c_showhelp cf = false -> c_fmt cf = Some "mfs"%string ->
  c_root cf = Some root -> c_image cf = Some image -> root <> EmptyString ->
  Z.of_nat (length (file_bytes h (c_boot cf))) <= 512 ->
  Z.of_nat (length (file_bytes h (c_kern cf))) <= MFS_BLKSIZE * NKBLK ->
  h_root h root = Some (HDir tree) -> fits (length (bytes_of root)) 0 (HDir tree) ->
  1 + tree_sum inode_need (HDir tree) <= NINODES -> tree_sum block_need (HDir tree) <= NDBLK ->
  exists img s', main h argv (Pack 0 d0) = Ok (0, Some img) s' /\ image_layout h cf img /\
    forall l n, l <> [] -> host_at (HDir tree) l = Some n -> n <> HOther -> on_image (p_fs s') img l n.
Proof.
  intros cf H1 H2 H3 H4 H5 Hne Hb Hk Hr Hfit Hi Hblk.
  pose proof (installed_built (file_bytes h (c_boot cf)) (file_bytes h (c_kern cf))) as B1.
  pose proof (root_stored _ _ _ _ B1 (installed_root _ _)) as S1. pose proof (installed_kept _ _ Hb Hk) as K1.
  pose proof (fun n s' => main_run h argv d0 root image (HDir tree) n s' H1 H2 H3 H4 H5 Hb Hk Hr) as Hrun.
  fold cf in Hrun. generalize dependent (installed (file_bytes h (c_boot cf)) (file_bytes h (c_kern cf))).
  intros d1 B1 S1 K1 Hrun.
  assert (bytes_of root <> []) as Hroot by (by destruct root).
  destruct (packdir_ok (h_now h) (bytes_of root) Hroot (HDir tree) [] d1 (fun _ => []) 1 0 0 I) as (d' & ch' & E & B' & S' & _);
    [by rewrite Nat.add_0_r|exact B1|exact S1|exact Hi|by rewrite Z.add_0_l|by right|].
  change (path_of [] false) with (@nil Z) in E. rewrite app_nil_r in E. specialize (Hrun _ _ E) as Em. cbn [p_fs] in Em.
  pose proof (packdir_builder _ _ _ _ _ _ _ _ K1 E) as [Hd' _].
  eexists _, _. split; [exact Em|]. split; [by apply (main_written _ _ _ _ _ _ Em)|].
  intros l n Hl Hn Hne'. eapply stored_on_image; [exact Hd'|]. by apply (S' l n).
Qed.

(** C36: every image [main] writes, whatever its arguments and the host directory, has
    exit code 0, in block 0 the super block of [mfs_new], the length this super block
    says, the bytes of the boot file in the boot sector and those of the kernel file
    from the first kernel block on, each followed by zeros.  And for a host directory
    that fits (paths of fewer than 511 bytes and at most 128 names, file names of fewer
    than 68 bytes, distinct in their directory, no directory called "root", 8191 inodes
    and 1024 blocks in all, a boot file of one sector and a kernel of 512 KB at most),
    [main] does write an image, and every directory and every file below the host
    directory is in it: its path leads to an inode in the inode table, which is that
    of a directory, or of a regular file with the length of the host's and its bytes
    at its place in the data area. *)
Theorem main_image_layout h argv d0 :
  let cf := scan_args argv config0 in
  (forall s c img s', main h argv s = Ok (c, Some img) s' -> c = 0 /\ image_layout h cf img) /\
  (forall root image tree,
     c_showlic cf = false -> c_showhelp cf = false -> c_fmt cf = Some "mfs"%string ->
     c_root cf = Some root -> c_image cf = Some image -> root <> EmptyString ->
     Z.of_nat (length (file_bytes h (c_boot cf))) <= 512 ->
     Z.of_nat (length (file_bytes h (c_kern cf))) <= MFS_BLKSIZE * NKBLK ->
     h_root h root = Some (HDir tree) -> fits (length (bytes_of root)) 0 (HDir tree) ->
     1 + tree_sum inode_need (HDir tree) <= NINODES -> tree_sum block_need (HDir tree) <= NDBLK ->
     exists img s', main h argv (Pack 0 d0) = Ok (0, Some img) s' /\ image_layout h cf img /\
       forall l n, l <> [] -> host_at (HDir tree) l = Some n -> n <> HOther -> on_image (p_fs s') img l n).
Proof.
  cbv zeta. split; [intros s c img s'; apply main_written|].
  apply main_packs.
Qed.

(** A host with a boot file, a kernel, and a directory "r" that holds the file "b" and
    the directory "bin" with the file "a". *)
Definition demo_tree : list (list Z * hostnode) :=
  [(DOT, HOther); (bin, HDir [(DOT, HOther); ([97], HReg [7; 8])]); ([98], HReg [9])].

Definition demo_host : hostsys :=
  Host (fun f => if String.eqb f "boot" then Some [85; 170] else if String.eqb f "kern" then Some [1; 2; 3] else None)
    (fun r => if String.eqb r "r" then Some (HDir demo_tree) else None) (fun _ => Stamps 0 0 0).

Definition demo_args : list string := ["-b"; "boot"; "-k"; "kern"; "-f"; "mfs"; "-r"; "r"; "-o"; "i"]%string.

Lemma demo_fits : fits 1 0 (HDir demo_tree).
Proof.
  apply fits_entries. split; [lia|]. split; [lia|]. split; [apply (bool_decide_unpack _); by vm_compute|].
  repeat constructor; cbn; try lia; intros; try done; repeat split; try done; try lia;
    repeat constructor; try done; try (cbn; lia); apply (bool_decide_unpack _); by vm_compute.
Qed.

Lemma main_image_layout_witness :
  exists img s', main demo_host demo_args (Pack 0 fresh) = Ok (0, Some img) s' /\
    take 512 img = filled [85; 170] 512 /\ image_blocks img (s_kblk new_super) (s_kblkcnt new_super) = filled [1; 2; 3] 524288 /\
    on_image (p_fs s') img [bin; [97]] (HReg [7; 8]).
Proof.
  destruct (proj2 (main_image_layout demo_host demo_args fresh) "r"%string "i"%string demo_tree) as (img & s' & E & [_ _ Hb Hk] & H).
  - reflexivity.
  - reflexivity.
  - reflexivity.
  - reflexivity.
  - reflexivity.
  - discriminate.
  - by vm_compute.
  - by vm_compute.
  - reflexivity.
  - apply demo_fits.
  - by vm_compute.
  - by vm_compute.
  - exists img, s'. split; [exact E|]. split; [exact Hb|]. split; [exact Hk|]. apply (H [bin; [97]] (HReg [7; 8])); done.
Defined.
