(* ===== verification/Device.v ===== *)
(** The device switch, src/sysv3/kernel/driver/device.c: tables of driver
    entry points indexed by the major number, for character and block devices.

    [S] is the state of the hardware and the drivers behind the tables.  A read
    entry returns its status and the bytes it stores from the buffer's start
    on.  The console messages of [MSG] are not modelled. *)
From S2P Require Import Prelude.

Definition NCHRDEVS : Z := 16.
Definition NBLKDEVS : Z := 16.
Definition ENODEV : Z := -1.

Inductive dev_type := CHRDEV | BLKDEV.

(** The macros of <device.h> on device numbers ([dev_t] is signed 32-bit). *)
Definition DEVID (major minor : Z) : Z :=
  s32 (Z.lor (Z.shiftl (Z.land major 0xffff) 16) (Z.land minor 0xffff)).
Definition MAJOR (dID : Z) : Z := Z.land (Z.shiftr dID 16) 0xffff.
Definition MINOR (dID : Z) : Z := Z.land dID 0xffff.

(** [struct dev_chr]: a null entry is [None]. *)
Record dev_chr (S : Type) := DevChr {
  c_open : option (Z -> Z -> Z -> M S Z);
  c_close : option (Z -> M S Z);
  c_read : option (Z -> Z -> M S (Z * list Z));
  c_write : option (Z -> list Z -> Z -> M S Z);
  c_ioctl : option (Z -> Z -> Z -> M S Z)
}.
Arguments DevChr {S}. Arguments c_open {S}. Arguments c_close {S}. Arguments c_read {S}.
Arguments c_write {S}. Arguments c_ioctl {S}.

(** [struct dev_blk] *)
Record dev_blk (S : Type) := DevBlk {
  b_open : option (Z -> Z -> Z -> M S Z);
  b_close : option (Z -> M S Z);
  b_read : option (Z -> Z -> M S (Z * list Z));
  b_write : option (Z -> list Z -> Z -> M S Z);
  b_lseek : option (Z -> Z -> Z -> M S Z);
  b_ioctl : option (Z -> Z -> Z -> M S Z)
}.
Arguments DevBlk {S}. Arguments b_open {S}. Arguments b_close {S}. Arguments b_read {S}.
Arguments b_write {S}. Arguments b_lseek {S}. Arguments b_ioctl {S}.

(** The two tables and what is behind them. *)
Record devs (S : Type) := Devs { chrs : list (dev_chr S); blks : list (dev_blk S); hw : S }.
Arguments Devs {S}. Arguments chrs {S}. Arguments blks {S}. Arguments hw {S}.

Definition no_chr {S} : dev_chr S := DevChr None None None None None.
Definition no_blk {S} : dev_blk S := DevBlk None None None None None None.

Section Device.
Context {S : Type}.

Definition on_hw {A} (m : M S A) : M (devs S) A := zoom hw (fun x d => Devs (chrs d) (blks d) x) m.

(** [dev_chr[MAJOR(dID)]] after the limit check; [None] is the early -1. *)
Definition chr_entry (dID : Z) : M (devs S) (option (dev_chr S)) :=
  if NCHRDEVS <? MAJOR dID then ret None else
  d <- get ;; e <- of_option OutOfBounds (aget (chrs d) (MAJOR dID)) ;; ret (Some e).
Definition blk_entry (dID : Z) : M (devs S) (option (dev_blk S)) :=
  if NBLKDEVS <? MAJOR dID then ret None else
  d <- get ;; e <- of_option OutOfBounds (aget (blks d) (MAJOR dID)) ;; ret (Some e).

(** [int dev_open(enum dev_type type, dev_t dID, int oflag, mode_t mode)] *)
Definition dev_open (type : dev_type) (dID oflag mode : Z) : M (devs S) Z :=
  match type with
  | CHRDEV =>
      e <- chr_entry dID ;;
      match e with
      | None => ret (-1)
      | Some e => match c_open e with None => ret ENODEV | Some f => on_hw (f dID oflag mode) end
      end
  | BLKDEV =>
      e <- blk_entry dID ;;
      match e with
      | None => ret (-1)
      | Some e => match b_open e with None => ret ENODEV | Some f => on_hw (f dID oflag mode) end
      end
  end.

(** [int dev_close(enum dev_type type, dev_t dID)] *)
Definition dev_close (type : dev_type) (dID : Z) : M (devs S) Z :=
  match type with
  | CHRDEV =>
      e <- chr_entry dID ;;
      match e with
      | None => ret (-1)
      | Some e => match c_open e, c_close e with
                  | Some _, Some f => on_hw (f dID) | _, _ => ret ENODEV end
      end
  | BLKDEV =>
      e <- blk_entry dID ;;
      match e with
      | None => ret (-1)
      | Some e => match b_open e, b_close e with
                  | Some _, Some f => on_hw (f dID) | _, _ => ret ENODEV end
      end
  end.

(** [int dev_read(enum dev_type type, dev_t dID, char *buf, off_t cnt)] *)
Definition dev_read (type : dev_type) (dID cnt : Z) : M (devs S) (Z * list Z) :=
  match type with
  | CHRDEV =>
      e <- chr_entry dID ;;
      match e with
      | None => ret (-1, [])
      | Some e => match c_open e, c_read e with
                  | Some _, Some f => on_hw (f dID cnt) | _, _ => ret (ENODEV, []) end
      end
  | BLKDEV =>
      e <- blk_entry dID ;;
      match e with
      | None => ret (-1, [])
      | Some e => match b_open e, b_read e with
                  | Some _, Some f => on_hw (f dID cnt) | _, _ => ret (ENODEV, []) end
      end
  end.

(** [int dev_write(enum dev_type type, dev_t dID, char *buf, off_t cnt)] *)
Definition dev_write (type : dev_type) (dID : Z) (buf : list Z) (cnt : Z) : M (devs S) Z :=
  match type with
  | CHRDEV =>
      e <- chr_entry dID ;;
      match e with
      | None => ret (-1)
      | Some e => match c_open e, c_write e with
                  | Some _, Some f => on_hw (f dID buf cnt) | _, _ => ret ENODEV end
      end
  | BLKDEV =>
      e <- blk_entry dID ;;
      match e with
      | None => ret (-1)
      | Some e => match b_open e, b_write e with
                  | Some _, Some f => on_hw (f dID buf cnt) | _, _ => ret ENODEV end
      end
  end.

(** [int dev_ioctl(enum dev_type type, dev_t dID, int cmd, int arg)] *)
Definition dev_ioctl (type : dev_type) (dID cmd arg : Z) : M (devs S) Z :=
  match type with
  | CHRDEV =>
      e <- chr_entry dID ;;
      match e with
      | None => ret (-1)
      | Some e => match c_open e, c_ioctl e with
                  | Some _, Some f => on_hw (f dID cmd arg) | _, _ => ret ENODEV end
      end
  | BLKDEV =>
      e <- blk_entry dID ;;
      match e with
      | None => ret (-1)
      | Some e => match b_open e, b_ioctl e with
                  | Some _, Some f => on_hw (f dID cmd arg) | _, _ => ret ENODEV end
      end
  end.

(** [int dev_lseek(enum dev_type type, dev_t dID, int off, int whence)];
    character devices do not seek. *)
Definition dev_lseek (type : dev_type) (dID off whence : Z) : M (devs S) Z :=
  match type with
  | CHRDEV => if NCHRDEVS <? MAJOR dID then ret (-1) else ret ENODEV
  | BLKDEV =>
      e <- blk_entry dID ;;
      match e with
      | None => ret (-1)
      | Some e => match b_open e, b_lseek e with
                  | Some _, Some f => on_hw (f dID off whence) | _, _ => ret ENODEV end
      end
  end.

(** The tables have the sizes of the declarations. *)
Definition wf_devs (d : devs S) : Prop :=
  Z.of_nat (length (chrs d)) = NCHRDEVS /\ Z.of_nat (length (blks d)) = NBLKDEVS.
End Device.

(** * Device numbers *)

Lemma land_ffff z : Z.land z 0xffff = u16 z.
Proof. apply u16_land. Qed.

(** A device number made from a major and a minor gives both back. *)
Theorem devid_parts major minor :
  is_u16 major -> is_u16 minor ->
  MAJOR (DEVID major minor) = major /\ MINOR (DEVID major minor) = minor.
Proof.
  intros HM Hm. unfold MAJOR, MINOR, DEVID. rewrite !land_ffff, !(u16_small major), !(u16_small minor) by done.
  assert (Z.lor (Z.shiftl major 16) minor = major * 2 ^ 16 + minor) as ->.
  { apply lor_shiftl_add; [lia|exact Hm]. }
  rewrite Z.shiftr_div_pow2 by lia. unfold_int. Z.div_mod_to_equations. lia.
Qed.

Lemma devid_parts_witness : MAJOR (DEVID 0xffff 7) = 0xffff /\ MINOR (DEVID 0xffff 7) = 7.
Proof. apply (devid_parts 0xffff 7); unfold is_u16; lia. Defined.

Section Limits.
Context {S : Type}.

(** With tables of the declared size every operation on a device number
    whose major is below the limit finds its entry and one above it is refused,
    but the major equal to the limit is looked up one entry past the table. *)
Theorem dev_entry_bounds (d : devs S) dID :
  wf_devs d ->
  (MAJOR dID < NBLKDEVS -> exists e, blk_entry dID d = Ok (Some e) d /\ aget (blks d) (MAJOR dID) = Some e) /\
  (MAJOR dID = NBLKDEVS -> blk_entry dID d = Err OutOfBounds) /\
  (NBLKDEVS < MAJOR dID -> blk_entry dID d = Ok None d).
Proof.
  intros [_ Hl]. unfold blk_entry.
  assert (0 <= MAJOR dID) as H0 by (unfold MAJOR; rewrite land_ffff; apply u16_range).
  split_and!; intros H.
  - rewrite (proj2 (Z.ltb_ge _ _)) by lia. destruct (aget_Some (blks d) (MAJOR dID)) as [e E]; [lia|].
    exists e. split; [|done]. msteps. msome E. done.
  - rewrite (proj2 (Z.ltb_ge _ _)) by lia. msteps. apply bind_none.
    unfold aget. rewrite decide_True by lia. apply lookup_ge_None_2. lia.
  - by rewrite (proj2 (Z.ltb_lt _ _)) by lia.
Qed.
End Limits.

Lemma dev_entry_bounds_witness :
  let d := Devs (replicate 16 no_chr) (replicate 16 no_blk) tt in
  (MAJOR (DEVID 16 0) < NBLKDEVS -> exists e, blk_entry (DEVID 16 0) d = Ok (Some e) d /\
     aget (blks d) (MAJOR (DEVID 16 0)) = Some e) /\
  (MAJOR (DEVID 16 0) = NBLKDEVS -> blk_entry (DEVID 16 0) d = Err OutOfBounds) /\
  (NBLKDEVS < MAJOR (DEVID 16 0) -> blk_entry (DEVID 16 0) d = Ok None d).
Proof.
  apply (dev_entry_bounds (Devs (replicate 16 no_chr) (replicate 16 no_blk) tt) (DEVID 16 0)).
  split; reflexivity.
Defined.
