(* ===== verification/Alist.v ===== *)
(** The allocation lists of the two caches: the same code, over an array of
    records with a pair of links, in src/sysv3/kernel/filesys/vcache.c
    ([vcache_alloc], [vcache_promo]) and src/sysv3/kernel/filesys/scache.c (the
    [alast]/[anext] part of [scache_alloc], [scache_promo]).

    A pointer into the array is an index, the null pointer [None]. *)
From S2P Require Import Prelude.

Abbreviation ptr := (option nat).

(** A record with links to the previous and the next entry, a semaphore, and
    the rest of its fields. *)
Class Linked (A D : Type) := {
  nxt : A -> ptr; lst : A -> ptr; sem : A -> Z; body : A -> D;
  set_nxt : ptr -> A -> A; set_lst : ptr -> A -> A
}.

(** The links are fields of their own. *)
Class LinkedLaws (A D : Type) `{Linked A D} := {
  nxt_set_nxt p a : nxt (set_nxt p a) = p;
  nxt_set_lst p a : nxt (set_lst p a) = nxt a;
  lst_set_lst p a : lst (set_lst p a) = p;
  lst_set_nxt p a : lst (set_nxt p a) = lst a;
  sem_set_nxt p a : sem (set_nxt p a) = sem a;
  sem_set_lst p a : sem (set_lst p a) = sem a;
  body_set_nxt p a : body (set_nxt p a) = body a;
  body_set_lst p a : body (set_lst p a) = body a
}.

(** The array and the [cnt], [begin] and [end] of the cache's data. *)
Record alist (A : Type) := AL { arr : list A; cnt : Z; abegin : ptr; aend : ptr }.
Arguments AL {A}. Arguments arr {A}. Arguments cnt {A}. Arguments abegin {A}. Arguments aend {A}.

Section Alist.
Context {A D : Type} `{Linked A D}.

Definition load (i : nat) : M (alist A) A :=
  s <- get ;; of_option OutOfBounds (arr s !! i).
Definition upd (i : nat) (f : A -> A) : M (alist A) unit :=
  s <- get ;;
  a <- of_option OutOfBounds (arr s !! i) ;;
  put (AL (<[i := f a]> (arr s)) (cnt s) (abegin s) (aend s)).
Definition set_begin (p : ptr) : M (alist A) unit := modify (fun s => AL (arr s) (cnt s) p (aend s)).
Definition set_end (p : ptr) : M (alist A) unit := modify (fun s => AL (arr s) (cnt s) (abegin s) p).

(** Linking a new entry at the end. *)
Definition alloc_new : M (alist A) nat :=
  s <- get ;;
  let vp := Z.to_nat (cnt s) in
  (if cnt s =? 0 then set_begin (Some vp) ;;; upd vp (set_lst None)
   else upd vp (set_lst (aend s))) ;;;
  upd vp (set_nxt None) ;;;
  s <- get ;;
  match aend s with Some e => upd e (set_nxt (Some vp)) | None => ret tt end ;;;
  set_end (Some vp) ;;;
  modify (fun s => AL (arr s) (u32 (cnt s + 1)) (abegin s) (aend s)) ;;;
  ret vp.

(** Moving an entry to the end: the unlinking, then the relinking. *)
Definition relink (vp : nat) : M (alist A) unit :=
  a <- load vp ;;
  match lst a with Some q => upd q (set_nxt (nxt a)) | None => ret tt end ;;;
  a <- load vp ;;
  match nxt a with Some q => upd q (set_lst (lst a)) | None => ret tt end ;;;
  s <- get ;;
  upd vp (set_lst (aend s)) ;;;
  upd vp (set_nxt None) ;;;
  match aend s with Some e => upd e (set_nxt (Some vp)) | None => stop NullDeref end ;;;
  set_end (Some vp).

(** The search for an entry with a zero semaphore, from [p] on. *)
Fixpoint recycle (fuel : nat) (p : ptr) : M (alist A) ptr :=
  match p with
  | None => ret None
  | Some vp =>
      match fuel with
      | O => stop Diverged
      | S f =>
          a <- load vp ;;
          if sem a =? 0 then relink vp ;;; ret (Some vp) else recycle f (nxt a)
      end
  end.

(** Allocation with room for [max] entries. *)
Definition alloc (max : Z) : M (alist A) ptr :=
  s <- get ;;
  if cnt s <? max then vp <- alloc_new ;; ret (Some vp)
  else recycle (length (arr s)) (abegin s).

(** Promotion: [vp] changes place with the entry after it. *)
Definition promo (vp : nat) : M (alist A) unit :=
  a <- load vp ;;
  match nxt a with
  | None => ret tt
  | Some y =>
      upd y (set_lst (lst a)) ;;;
      a <- load vp ;;
      match lst a with
      | Some q => upd q (set_nxt (nxt a))
      | None => set_begin (nxt a)
      end ;;;
      b <- load y ;;
      match nxt b with Some z => upd z (set_lst (Some vp)) | None => ret tt end ;;;
      upd vp (set_lst (Some y)) ;;;
      b <- load y ;;
      upd vp (set_nxt (nxt b)) ;;;
      upd y (set_nxt (Some vp)) ;;;
      a <- load vp ;;
      match nxt a with None => set_end (Some vp) | Some _ => ret tt end
  end.

(** * The list an array represents *)

Definition hd_or (l : list nat) (d : ptr) : ptr := match l with [] => d | x :: _ => Some x end.
Definition last_or (l : list nat) (d : ptr) : ptr := match last l with Some x => Some x | None => d end.

(** [seg arr pv l nx]: the entries [l] are linked in both directions, with [pv]
    before the first and [nx] after the last. *)
Fixpoint seg (arr : list A) (pv : ptr) (l : list nat) (nx : ptr) : Prop :=
  match l with
  | [] => True
  | x :: l' => (exists a, arr !! x = Some a /\ lst a = pv /\ nxt a = hd_or l' nx) /\ seg arr (Some x) l' nx
  end.

(** [dlist s l]: from [begin] to [end] the entries are [l]. *)
Record dlist (s : alist A) (l : list nat) : Prop := {
  dl_nodup : NoDup l;
  dl_begin : abegin s = head l;
  dl_end : aend s = last l;
  dl_seg : seg (arr s) None l None
}.

Context `{!LinkedLaws A D}.

Lemma upd_ok i f s a :
  arr s !! i = Some a -> upd i f s = Ok tt (AL (<[i := f a]> (arr s)) (cnt s) (abegin s) (aend s)).
Proof using Type. intros E. unfold upd. msteps. msome E. done. Qed.

Lemma load_ok i s a : arr s !! i = Some a -> load i s = Ok a s.
Proof using Type. intros E. unfold load. msteps. by rewrite E. Qed.

Lemma last_or_cons x l d : last_or (x :: l) d = last_or l (Some x).
Proof using Type. unfold last_or. rewrite last_cons. by destruct (last l). Qed.

Lemma seg_app ar pv l1 l2 nx :
  seg ar pv (l1 ++ l2) nx <-> seg ar pv l1 (hd_or l2 nx) /\ seg ar (last_or l1 pv) l2 nx.
Proof using Type.
  revert pv. induction l1 as [|x l1 IH]; intros pv; [simpl; tauto|].
  cbn [app seg]. rewrite IH, last_or_cons. destruct l1; simpl; tauto.
Qed.

(** Entries outside the segment do not matter. *)
Lemma seg_frame ar i a pv l nx : i ∉ l -> seg ar pv l nx -> seg (<[i := a]> ar) pv l nx.
Proof using Type.
  revert pv. induction l as [|x l IH]; intros pv Hi; simpl; [done|].
  apply not_elem_of_cons in Hi as [Hx Hi]. intros [Ha Hs]. split; [|by apply IH].
  by rewrite list_lookup_insert_ne by done.
Qed.

(** The link after the last entry of a segment is changed. *)
Lemma seg_set_nxt ar x a pv l nx nx' :
  NoDup (l ++ [x]) -> ar !! x = Some a -> seg ar pv (l ++ [x]) nx ->
  seg (<[x := set_nxt nx' a]> ar) pv (l ++ [x]) nx'.
Proof using All.
  intros Hnd Ha. rewrite !seg_app. simpl. intros [Hl [(b & Eb & Hlst & Hnxt) _]].
  apply NoDup_app in Hnd as (_ & Hx & _). split.
  - apply seg_frame; [|done]. intros Hin. apply (Hx _ Hin). by apply list_elem_of_singleton.
  - split; [|done]. exists (set_nxt nx' a). rewrite list_lookup_insert_eq by (by eapply lookup_lt_Some).
    rewrite lst_set_nxt, nxt_set_nxt. split; [done|]. split; [congruence|done].
Qed.

(** The link before the first entry of a segment is changed. *)
Lemma seg_set_lst ar x a pv pv' l nx :
  x ∉ l -> ar !! x = Some a -> seg ar pv (x :: l) nx ->
  seg (<[x := set_lst pv' a]> ar) pv' (x :: l) nx.
Proof using All.
  intros Hx Ha [(b & Eb & Hlst & Hnxt) Hs]. split; [|by apply seg_frame].
  exists (set_lst pv' a). rewrite list_lookup_insert_eq by (by eapply lookup_lt_Some).
  rewrite lst_set_lst, nxt_set_lst. split; [done|]. split; [done|congruence].
Qed.

(** What the operations keep: the list, the size of the array, and all but the
    links of its entries. *)
Record alist_ok (max : Z) (s : alist A) (l : list nat) : Prop := {
  al_list : dlist s l;
  al_perm : l ≡ₚ seq 0 (Z.to_nat (cnt s));
  al_cnt : 0 <= cnt s <= max;
  al_len : Z.of_nat (length (arr s)) = max;
  al_max : max < 2 ^ 32
}.

Definition same_bodies (s s' : alist A) : Prop :=
  body <$> arr s' = body <$> arr s /\ sem <$> arr s' = sem <$> arr s.

Lemma bodies_insert (ar : list A) i a a' :
  ar !! i = Some a -> body a' = body a -> sem a' = sem a ->
  body <$> (<[i := a']> ar) = body <$> ar /\ sem <$> (<[i := a']> ar) = sem <$> ar.
Proof using Type.
  intros E Hb Hs. rewrite !list_fmap_insert. split.
  - apply list_insert_id. by rewrite list_lookup_fmap, E, Hb.
  - apply list_insert_id. by rewrite list_lookup_fmap, E, Hs.
Qed.

Lemma bodies_trans s1 s2 s3 : same_bodies s1 s2 -> same_bodies s2 s3 -> same_bodies s1 s3.
Proof using Type. intros [] []. split; congruence. Qed.

Lemma al_length max s l : alist_ok max s l -> Z.of_nat (length l) = cnt s.
Proof using Type. intros [_ P C _ _]. rewrite P, length_seq. lia. Qed.

Lemma al_fresh max s l : alist_ok max s l -> Z.to_nat (cnt s) ∉ l.
Proof using Type. intros [_ P _ _ _]. rewrite P, elem_of_seq. lia. Qed.

Lemma alloc_new_ok max s l :
  alist_ok max s l -> cnt s < max ->
  exists s', alloc_new s = Ok (Z.to_nat (cnt s)) s' /\
    alist_ok max s' (l ++ [Z.to_nat (cnt s)]) /\ same_bodies s s' /\ cnt s' = cnt s + 1.
Proof using All.
  intros OK Hc. pose proof (al_length _ _ _ OK) as Hlen. pose proof (al_fresh _ _ _ OK) as Hfr.
  destruct OK as [[Hnd Hb He Hs] HP HC Hal Hmax]. set (vp := Z.to_nat (cnt s)) in *.
  destruct (lookup_lt_is_Some_2 (arr s) vp) as [a Ea]; [lia|].
  assert (NoDup (l ++ [vp])) as Hnd'.
  { apply NoDup_app. split; [done|]. split; [|apply NoDup_singleton]. intros x Hx.
    rewrite list_elem_of_singleton. congruence. }
  assert (l ++ [vp] ≡ₚ seq 0 (Z.to_nat (cnt s + 1))) as HP'.
  { replace (Z.to_nat (cnt s + 1)) with (vp + 1)%nat by lia. rewrite seq_app. simpl. by rewrite HP. }
  assert (u32 (cnt s + 1) = cnt s + 1) as Hu by (apply u32_small; unfold is_u32; lia).
  set (a1 := set_nxt None (set_lst (aend s) a)).
  assert (body a1 = body a /\ sem a1 = sem a) as [Hba Hsa].
  { unfold a1. by rewrite body_set_nxt, body_set_lst, sem_set_nxt, sem_set_lst. }
  destruct (bodies_insert _ _ _ a1 Ea Hba Hsa) as [Hb1 Hs1].
  assert (forall ar, ar = <[vp := a1]> (arr s) -> (vp < length ar)%nat /\ ar !! vp = Some a1) as Har.
  { intros ar ->. rewrite length_insert. split; [by eapply lookup_lt_Some|].
    apply list_lookup_insert_eq. by eapply lookup_lt_Some. }
  unfold alloc_new. msteps. fold vp. destruct l as [|e l0 _] using rev_ind.
  - simpl in Hlen. destruct (Z.eqb_spec (cnt s) 0) as [_|]; [|lia]. unfold set_begin, set_end. msteps.
    rewrite (bind_ok _ _ _ _ _ (upd_ok vp _ (AL (arr s) (cnt s) (Some vp) (aend s)) a Ea)). cbn [arr cnt abegin aend].
    rewrite (bind_ok _ _ _ _ _ (upd_ok vp _ (AL (<[vp := set_lst None a]> (arr s)) (cnt s) (Some vp) (aend s))
      (set_lst None a) ltac:(cbn; apply list_lookup_insert_eq; by eapply lookup_lt_Some))).
    cbn [arr cnt abegin aend]. rewrite list_insert_insert_eq. msteps. cbn [aend]. rewrite He. cbn [last]. msteps.
    assert (set_nxt None (set_lst None a) = a1) as -> by (unfold a1; by rewrite He).
    eexists. split; [reflexivity|]. split; [|split; [by split|cbn; lia]].
    split; cbn [arr cnt abegin aend]; rewrite ?Hu, ?length_insert; try done; try lia.
    split; [done|done|done|]. cbn [arr app seg hd_or]. split; [|done]. exists a1.
    split; [by apply Har|]. unfold a1. rewrite lst_set_nxt, lst_set_lst, nxt_set_nxt. by rewrite He.
  - rewrite length_app in Hlen. simpl in Hlen. destruct (Z.eqb_spec (cnt s) 0) as [|_]; [lia|].
    rewrite last_snoc in He. unfold set_end.
    rewrite (bind_ok _ _ _ _ _ (upd_ok vp _ s a Ea)). cbn [arr cnt abegin aend].
    rewrite (bind_ok _ _ _ _ _ (upd_ok vp _ (AL (<[vp := set_lst (aend s) a]> (arr s)) (cnt s) (abegin s) (aend s))
      (set_lst (aend s) a) ltac:(cbn; apply list_lookup_insert_eq; by eapply lookup_lt_Some))).
    cbn [arr cnt abegin aend]. rewrite list_insert_insert_eq. fold a1. msteps. cbn [aend]. rewrite He.
    assert (e <> vp) as Hev by set_solver.
    assert (exists ae, arr s !! e = Some ae) as [ae Eae].
    { apply seg_app in Hs as [_ [(ae & ? & _) _]]. eauto. }
    rewrite (bind_ok _ _ _ _ _ (upd_ok e _ (AL (<[vp := a1]> (arr s)) (cnt s) (abegin s) (Some e)) ae
      ltac:(cbn; by rewrite list_lookup_insert_ne by congruence))). msteps. cbn [arr cnt abegin aend].
    assert (body (set_nxt (Some vp) ae) = body ae /\ sem (set_nxt (Some vp) ae) = sem ae) as [Hb2 Hs2] by
      (by rewrite body_set_nxt, sem_set_nxt).
    assert ((<[vp := a1]> (arr s)) !! e = Some ae) as Eae' by (by rewrite list_lookup_insert_ne by congruence).
    destruct (bodies_insert _ _ _ _ Eae' Hb2 Hs2) as [Hb3 Hs3].
    eexists. split; [reflexivity|]. split; [|split; [split; cbn; congruence|cbn; lia]].
    split; cbn [arr cnt abegin aend]; rewrite ?Hu, ?length_insert; try done; try lia.
    split; [done| |by rewrite last_snoc|].
    + cbn. rewrite Hb. by destruct l0.
    + cbn [arr]. apply seg_app. split.
      * cbn [hd_or]. apply (seg_set_nxt _ _ _ _ _ None); [done|done|]. by apply seg_frame.
      * cbn [seg hd_or]. split; [|done]. exists a1. rewrite list_lookup_insert_ne by done. split; [by apply Har|].
        unfold a1, last_or. rewrite last_snoc, lst_set_nxt, lst_set_lst, nxt_set_nxt. done.
Qed.

(** [change ar ar' p]: the arrays differ at most in the links of entry [p]. *)
Record change (ar ar' : list A) (p : ptr) : Prop := {
  ch_same : forall i, p <> Some i -> ar' !! i = ar !! i;
  ch_body : body <$> ar' = body <$> ar;
  ch_sem : sem <$> ar' = sem <$> ar;
  ch_len : length ar' = length ar
}.

Lemma change_none ar : change ar ar None.
Proof using All. by split. Qed.

Lemma change_insert ar i a a' :
  ar !! i = Some a -> body a' = body a -> sem a' = sem a -> change ar (<[i := a']> ar) (Some i).
Proof using All.
  intros E Hb Hs. destruct (bodies_insert _ _ _ _ E Hb Hs). split; [|done|done|apply length_insert].
  intros j Hj. apply list_lookup_insert_ne. congruence.
Qed.

Lemma seg_agree ar ar' pv l nx :
  (forall i, i ∈ l -> ar' !! i = ar !! i) -> seg ar pv l nx -> seg ar' pv l nx.
Proof using All.
  revert pv. induction l as [|x l IH]; intros pv Hi; simpl; [done|]. intros [Ha Hs].
  split; [by rewrite Hi by set_solver|]. apply IH; [|done]. set_solver.
Qed.

Definition with_arr (ar : list A) (s : alist A) : alist A := AL ar (cnt s) (abegin s) (aend s).

Definition upd_opt (p : ptr) (f : A -> A) : M (alist A) unit :=
  match p with Some q => upd q f | None => ret tt end.

Lemma fix_last s l nx nx' :
  NoDup l -> seg (arr s) None l nx ->
  exists ar', upd_opt (last l) (set_nxt nx') s = Ok tt (with_arr ar' s) /\ seg ar' None l nx' /\
    change (arr s) ar' (last l).
Proof using All.
  intros Hnd Hs. destruct l as [|q l _] using rev_ind.
  - exists (arr s). split; [by destruct s|]. split; [done|apply change_none].
  - rewrite last_snoc. apply seg_app in Hs as Hq. destruct Hq as [_ [(a & Ea & _) _]].
    exists (<[q := set_nxt nx' a]> (arr s)). split; [by apply upd_ok|].
    split; [by apply (seg_set_nxt _ _ _ _ _ nx)|].
    eapply change_insert; [done|apply body_set_nxt|apply sem_set_nxt].
Qed.

Lemma fix_head s l pv pv' :
  NoDup l -> seg (arr s) pv l None ->
  exists ar', upd_opt (head l) (set_lst pv') s = Ok tt (with_arr ar' s) /\ seg ar' pv' l None /\
    change (arr s) ar' (head l).
Proof using All.
  intros Hnd Hs. destruct l as [|q l].
  - exists (arr s). split; [by destruct s|]. split; [done|apply change_none].
  - destruct Hs as [(a & Ea & Ha) Hs]. exists (<[q := set_lst pv' a]> (arr s)). split; [by apply upd_ok|].
    apply NoDup_cons in Hnd as [? ?].
    split; [apply (seg_set_lst _ _ _ pv); [done|done|split; eauto]|].
    eapply change_insert; [done|apply body_set_lst|apply sem_set_lst].
Qed.

Lemma hd_or_none l : hd_or l None = head l.
Proof using All. by destruct l. Qed.
Lemma last_or_none l : last_or l None = last l.
Proof using All. unfold last_or. by destruct (last l). Qed.
Lemma last_in (l : list nat) x : last l = Some x -> x ∈ l.
Proof using All. rewrite last_lookup. apply list_elem_of_lookup_2. Qed.
Lemma head_in (l : list nat) x : head l = Some x -> x ∈ l.
Proof using All. destruct l; [done|]. intros [= ->]. set_solver. Qed.

Lemma promo_ok max s l1 x y l2 :
  alist_ok max s (l1 ++ x :: y :: l2) ->
  exists s', promo x s = Ok tt s' /\ alist_ok max s' (l1 ++ y :: x :: l2) /\ same_bodies s s' /\ cnt s' = cnt s.
Proof using All.
  intros [[Hnd Hb He Hs] HP HC Hal Hmax].
  assert (l1 ++ y :: x :: l2 ≡ₚ l1 ++ x :: y :: l2) as Hperm by (f_equiv; constructor).
  assert (NoDup (l1 ++ y :: x :: l2)) as Hnd' by (by rewrite Hperm).
  apply NoDup_app in Hnd as Hn. destruct Hn as (Hn1 & Hx1 & Hn2).
  apply NoDup_cons in Hn2 as [Hxy Hn2]. apply NoDup_cons in Hn2 as [Hy2 Hn2].
  apply seg_app in Hs as [S1 [(ax & Eax & Hlx & Hnx) [(ay & Eay & Hly & Hny) S2]]].
  cbn [hd_or] in S1, Hnx. rewrite last_or_none in Hlx. rewrite hd_or_none in Hny.
  assert (x <> y /\ x ∉ l1 /\ y ∉ l1 /\ x ∉ l2) as (Hne & Hx1' & Hy1' & Hx2) by set_solver.
  unfold promo. rewrite (bind_ok _ _ _ _ _ (load_ok _ _ _ Eax)). rewrite Hnx.
  rewrite (bind_ok _ _ _ _ _ (upd_ok y _ s ay Eay)).
  set (s1 := AL (<[y := set_lst (lst ax) ay]> (arr s)) (cnt s) (abegin s) (aend s)).
  assert (arr s1 !! x = Some ax) as Ex1 by (cbn; by rewrite list_lookup_insert_ne by congruence).
  assert (arr s1 !! y = Some (set_lst (lst ax) ay)) as Ey1 by
    (cbn; apply list_lookup_insert_eq; by eapply lookup_lt_Some).
  assert (change (arr s) (arr s1) (Some y)) as C1 by
    (eapply change_insert; [done|apply body_set_lst|apply sem_set_lst]).
  rewrite (bind_ok _ _ _ _ _ (load_ok _ _ _ Ex1)).
  assert (seg (arr s1) None l1 (Some x)) as S1' by (by apply seg_frame).
  destruct (fix_last s1 l1 _ (Some y) Hn1 S1') as (ar2 & E2 & S1'' & C2).
  rewrite (bind_ok _ _ _ tt (AL ar2 (cnt s) (head (l1 ++ [y])) (aend s))).
  2:{ rewrite Hlx. unfold upd_opt in E2. destruct l1 as [|q l1'] using rev_ind.
      - unfold set_begin, modify. injection E2 as <-. by rewrite Hnx.
      - rewrite last_snoc in *. rewrite Hnx, E2. unfold with_arr, s1. cbn. rewrite Hb. by destruct l1'. }
  assert (last l1 <> Some x /\ last l1 <> Some y) as [Hqx Hqy] by (split; intros ?%last_in; done).
  set (s2 := AL ar2 (cnt s) (head (l1 ++ [y])) (aend s)).
  assert (arr s2 !! x = Some ax) as Ex2 by (cbn; by rewrite (ch_same _ _ _ C2)).
  assert (arr s2 !! y = Some (set_lst (lst ax) ay)) as Ey2 by (cbn; by rewrite (ch_same _ _ _ C2)).
  rewrite (bind_ok _ _ _ _ _ (load_ok _ _ _ Ey2)). rewrite nxt_set_lst, Hny.
  assert (seg (arr s2) (Some y) l2 None) as S2'.
  { eapply seg_agree; [|exact S2]. intros i Hi. cbn.
    rewrite (ch_same _ _ _ C2) by (intros ?%last_in; set_solver).
    apply (ch_same _ _ _ C1). set_solver. }
  destruct (fix_head s2 l2 _ (Some x) Hn2 S2') as (ar3 & E3 & S2'' & C3).
  fold (upd_opt (head l2) (set_lst (Some x))). rewrite (bind_ok _ _ _ _ _ E3).
  assert (head l2 <> Some x /\ head l2 <> Some y) as [Hzx Hzy] by (split; intros ?%head_in; done).
  set (s3 := with_arr ar3 s2).
  assert (arr s3 !! x = Some ax) as Ex3 by (cbn; by rewrite (ch_same _ _ _ C3)).
  assert (arr s3 !! y = Some (set_lst (lst ax) ay)) as Ey3 by (cbn; by rewrite (ch_same _ _ _ C3)).
  rewrite (bind_ok _ _ _ _ _ (upd_ok x _ s3 ax Ex3)).
  set (s4 := AL (<[x := set_lst (Some y) ax]> (arr s3)) (cnt s3) (abegin s3) (aend s3)).
  assert (arr s4 !! x = Some (set_lst (Some y) ax)) as Ex4 by
    (cbn; apply list_lookup_insert_eq; by eapply lookup_lt_Some).
  assert (arr s4 !! y = Some (set_lst (lst ax) ay)) as Ey4 by (cbn; by rewrite list_lookup_insert_ne).
  rewrite (bind_ok _ _ _ _ _ (load_ok _ _ _ Ey4)). rewrite nxt_set_lst, Hny.
  rewrite (bind_ok _ _ _ _ _ (upd_ok x _ s4 _ Ex4)).
  set (s5 := AL _ _ _ _). set (ax' := set_nxt (head l2) (set_lst (Some y) ax)) in *.
  assert (arr s5 = <[x := ax']> (arr s3)) as E5 by (cbn; by rewrite list_insert_insert_eq).
  assert (arr s5 !! y = Some (set_lst (lst ax) ay)) as Ey5 by (rewrite E5; by rewrite list_lookup_insert_ne).
  rewrite (bind_ok _ _ _ _ _ (upd_ok y _ s5 _ Ey5)).
  set (ay' := set_nxt (Some x) (set_lst (lst ax) ay)).
  set (s6 := AL (<[y := ay']> (arr s5)) (cnt s5) (abegin s5) (aend s5)).
  assert (arr s6 !! x = Some ax') as Ex6.
  { cbn. rewrite list_lookup_insert_ne by congruence. rewrite list_lookup_insert_eq; [done|].
    rewrite length_insert. by eapply lookup_lt_Some. }
  assert (arr s6 !! y = Some ay') as Ey6 by (cbn [arr s6]; apply list_lookup_insert_eq; by eapply lookup_lt_Some).
  assert (forall i, i <> x -> i <> y -> arr s6 !! i = ar3 !! i) as H6.
  { intros i Hi1 Hi2. cbn [arr s6]. rewrite list_lookup_insert_ne by congruence. rewrite E5.
    by rewrite list_lookup_insert_ne by congruence. }
  rewrite (bind_ok _ _ _ _ _ (load_ok _ _ _ Ex6)).
  set (s7 := AL (arr s6) (cnt s) (head (l1 ++ [y])) (last (l1 ++ y :: x :: l2))).
  exists s7. split.
  { unfold ax'. rewrite nxt_set_nxt. unfold set_end, modify, ret, s7.
    assert (last (l1 ++ y :: x :: l2) = last (x :: l2)) as ->.
    { rewrite last_app. rewrite !last_cons. by destruct (last l2). }
    rewrite last_cons. destruct l2 as [|z l2]; cbn [head]; [done|]. f_equal.
    change s6 with (AL (arr s6) (cnt s) (head (l1 ++ [y])) (aend s)). f_equal. rewrite He, last_app, !last_cons.
    by destruct (last l2). }
  assert (body <$> arr s6 = body <$> arr s /\ sem <$> arr s6 = sem <$> arr s) as [HB HS].
  { pose proof (change_insert _ _ _ ax' Ex3 ltac:(unfold ax'; by rewrite body_set_nxt, body_set_lst)
      ltac:(unfold ax'; by rewrite sem_set_nxt, sem_set_lst)) as C5. rewrite <- E5 in C5.
    pose proof (change_insert _ _ _ ay' Ey5 ltac:(unfold ay'; by rewrite body_set_nxt)
      ltac:(unfold ay'; by rewrite sem_set_nxt)) as C6.
    destruct C1 as [_ B1 M1 _], C2 as [_ B2 M2 _], C3 as [_ B3 M3 _], C5 as [_ B5 M5 _], C6 as [_ B6 M6 _].
    cbn [arr s6 s3 s2 with_arr] in *. split; congruence. }
  split; [|split; [done|done]].
  assert (length (arr s6) = length (arr s)) as HL.
  { rewrite <- (length_fmap body (arr s6)), HB. apply length_fmap. }
  split; cbn [arr cnt s7]; [|by rewrite Hperm|done|lia|done].
  split; cbn [arr abegin aend s7]; [done| |done|].
  { by destruct l1. }
  apply seg_app. cbn [hd_or seg]. rewrite last_or_none. split; [|split; [|split]].
  - eapply seg_agree; [|exact S1'']. intros i Hi. rewrite H6 by set_solver.
    apply (ch_same _ _ _ C3). intros ?%head_in. set_solver.
  - exists ay'. split; [done|]. unfold ay'. by rewrite lst_set_nxt, lst_set_lst, nxt_set_nxt.
  - exists ax'. split; [done|]. unfold ax'. rewrite lst_set_nxt, lst_set_lst, nxt_set_nxt, hd_or_none. done.
  - eapply seg_agree; [|exact S2'']. intros i Hi. apply H6; set_solver.
Qed.

Lemma promo_last max s l x :
  alist_ok max s (l ++ [x]) -> promo x s = Ok tt s.
Proof using All.
  intros [[_ _ _ Hs] _ _ _ _]. apply seg_app in Hs as [_ [(a & Ea & _ & Hn) _]].
  unfold promo. rewrite (bind_ok _ _ _ _ _ (load_ok _ _ _ Ea)). by rewrite Hn.
Qed.

(** * Recycling *)

(** The state after the first entry was recycled: [begin] and [end] are the
    same entry [x], free to be recycled again. *)
Record stuck (max : Z) (x : nat) (s : alist A) : Prop := {
  st_cnt : cnt s = max;
  st_begin : abegin s = Some x;
  st_end : aend s = Some x;
  st_entry : exists a, arr s !! x = Some a /\ sem a = 0 /\ (nxt a = None \/ nxt a = Some x) /\
    exists q, lst a = Some q /\ (q < length (arr s))%nat
}.

Lemma upd_any i f s :
  (i < length (arr s))%nat ->
  exists a, arr s !! i = Some a /\ upd i f s = Ok tt (with_arr (<[i := f a]> (arr s)) s).
Proof using All.
  intros Hi. destruct (lookup_lt_is_Some_2 _ _ Hi) as [a Ea]. exists a. split; [done|by apply upd_ok].
Qed.

(** The relinking half of [relink], from any state whose [end] is an entry. *)
Lemma relink_end s x a e :
  arr s !! x = Some a -> aend s = Some e -> (e < length (arr s))%nat ->
  exists s', (s <- get ;;
    upd x (set_lst (aend s)) ;;;
    upd x (set_nxt None) ;;;
    match aend s with Some e => upd e (set_nxt (Some x)) | None => stop NullDeref end ;;;
    set_end (Some x)) s = Ok tt s' /\
    cnt s' = cnt s /\ abegin s' = abegin s /\ aend s' = Some x /\ length (arr s') = length (arr s) /\
    exists a', arr s' !! x = Some a' /\ sem a' = sem a /\ lst a' = Some e /\
      nxt a' = (if decide (e = x) then Some x else None).
Proof using All.
  intros Ea Ee He. pose proof (lookup_lt_Some _ _ _ Ea) as Hx. msteps. rewrite Ee.
  rewrite (bind_ok _ _ _ _ _ (upd_ok x _ s a Ea)).
  set (s1 := AL (<[x := set_lst (Some e) a]> (arr s)) (cnt s) (abegin s) (aend s)).
  assert (arr s1 !! x = Some (set_lst (Some e) a)) as E1 by (by apply list_lookup_insert_eq).
  rewrite (bind_ok _ _ _ _ _ (upd_ok x _ s1 _ E1)). cbn [arr cnt abegin aend s1]. rewrite list_insert_insert_eq.
  set (s2 := AL (<[x := set_nxt None (set_lst (Some e) a)]> (arr s)) (cnt s) (abegin s) (aend s)).
  assert (arr s2 !! x = Some (set_nxt None (set_lst (Some e) a))) as E2 by (by apply list_lookup_insert_eq).
  destruct (upd_any e (set_nxt (Some x)) s2) as (ae & Eae & Eu); [cbn; rewrite length_insert; done|].
  rewrite (bind_ok _ _ _ _ _ Eu). eexists. split; [reflexivity|].
  unfold set_end, modify, with_arr. cbn [arr cnt abegin aend s2]. rewrite !length_insert.
  split_and!; try done. case_decide as De.
  - subst e. assert (ae = set_nxt None (set_lst (Some x) a)) as -> by congruence.
    eexists. rewrite list_lookup_insert_eq by (by rewrite length_insert). split; [done|].
    by rewrite !sem_set_nxt, !lst_set_nxt, nxt_set_nxt, sem_set_lst, lst_set_lst.
  - eexists. rewrite list_lookup_insert_ne by done. split; [apply E2|].
    by rewrite !sem_set_nxt, !lst_set_nxt, nxt_set_nxt, sem_set_lst, lst_set_lst.
Qed.

Lemma stuck_step max x s :
  stuck max x s -> exists s', alloc max s = Ok (Some x) s' /\ stuck max x s'.
Proof using All.
  intros [Hc Hb He (a & Ea & Hsem & Hn & q & Hq & Hql)]. pose proof (lookup_lt_Some _ _ _ Ea) as Hx.
  unfold alloc. msteps. rewrite (proj2 (Z.ltb_ge _ _)) by lia. rewrite Hb.
  destruct (length (arr s)) as [|fuel] eqn:Hl; [lia|]. cbn [recycle].
  rewrite (bind_ok _ _ _ _ _ (load_ok _ _ _ Ea)). rewrite Hsem. cbn [Z.eqb].
  unfold relink. rewrite bind_assoc. rewrite (bind_ok _ _ _ _ _ (load_ok _ _ _ Ea)). rewrite Hq, bind_assoc.
  destruct (upd_any q (set_nxt (nxt a)) s) as (aq & Eaq & Eu); [lia|]. rewrite (bind_ok _ _ _ _ _ Eu).
  set (s1 := with_arr _ s). assert (exists a1, arr s1 !! x = Some a1 /\ sem a1 = 0 /\ lst a1 = Some q /\
    nxt a1 = nxt a) as (a1 & Ea1 & Hs1 & Hl1 & Hn1).
  { cbn. destruct (decide (q = x)) as [->|].
    - exists (set_nxt (nxt a) aq). rewrite list_lookup_insert_eq by lia. assert (aq = a) as -> by congruence.
      by rewrite sem_set_nxt, lst_set_nxt, nxt_set_nxt.
    - exists a. by rewrite list_lookup_insert_ne. }
  rewrite bind_assoc, (bind_ok _ _ _ _ _ (load_ok _ _ _ Ea1)), bind_assoc. rewrite Hn1, Hl1.
  assert (exists s2 a2, match nxt a with Some q0 => upd q0 (set_lst (Some q)) | None => ret tt end s1 = Ok tt s2 /\
    arr s2 !! x = Some a2 /\ sem a2 = 0 /\ cnt s2 = max /\ abegin s2 = Some x /\ aend s2 = Some x /\
    length (arr s2) = S fuel) as (s2 & a2 & E2 & Ea2 & Hs2 & Hc2 & Hb2 & He2 & Hl2).
  { destruct Hn as [->| ->].
    - exists s1, a1. split_and!; try done. cbn. by rewrite length_insert.
    - exists (with_arr (<[x := set_lst (Some q) a1]> (arr s1)) s1), (set_lst (Some q) a1).
      rewrite (upd_ok x _ s1 a1 Ea1). cbn. rewrite !length_insert, sem_set_lst. split_and!; try done.
      apply list_lookup_insert_eq. rewrite length_insert. lia. }
  rewrite (bind_ok _ _ _ _ _ E2).
  destruct (relink_end s2 x a2 x Ea2 He2) as (s3 & E3 & Hc3 & Hb3 & He3 & Hl3 & a3 & Ea3 & Hs3 & Hlst3 & Hn3); [lia|].
  rewrite (bind_ok _ _ _ _ _ E3). exists s3. split; [done|].
  split; [congruence|congruence|done|]. exists a3. rewrite decide_True in Hn3 by done. split_and!; try done.
  - congruence.
  - by right.
  - exists x. split; [done|lia].
Qed.

Lemma recycle_head max s x y l :
  alist_ok max s (x :: y :: l) -> cnt s = max -> (exists a, arr s !! x = Some a /\ sem a = 0) ->
  exists s', alloc max s = Ok (Some x) s' /\ stuck max x s'.
Proof using All.
  intros [[Hnd Hb He Hs] HP HC Hal Hmax] Hc (a & Ea & Hsem). destruct Hs as [(a' & Ea' & Hl & Hn) Hs].
  assert (a' = a) as -> by congruence. cbn [hd_or] in Hn.
  pose proof (lookup_lt_Some _ _ _ Ea) as Hx.
  unfold alloc. msteps. rewrite (proj2 (Z.ltb_ge _ _)) by lia. rewrite Hb. cbn [head].
  destruct (length (arr s)) as [|fuel] eqn:Hlen; [lia|]. cbn [recycle].
  rewrite (bind_ok _ _ _ _ _ (load_ok _ _ _ Ea)). rewrite Hsem. cbn [Z.eqb].
  unfold relink. rewrite bind_assoc, (bind_ok _ _ _ _ _ (load_ok _ _ _ Ea)). rewrite Hl. msteps.
  rewrite (bind_ok _ _ _ _ _ (load_ok _ _ _ Ea)). rewrite Hn, Hl, bind_assoc.
  destruct Hs as [(b & Eb & _) _].
  rewrite (bind_ok _ _ _ _ _ (upd_ok y _ s b Eb)). set (s1 := AL _ _ _ _).
  apply NoDup_cons in Hnd as [Hxy Hnd].
  assert (arr s1 !! x = Some a) as Ea1 by (cbn; by rewrite list_lookup_insert_ne by set_solver).
  assert (exists e, last (y :: l) = Some e) as [e Hlast] by (rewrite last_cons; destruct (last l); eauto).
  assert (aend s1 = Some e) as He1.
  { cbn [aend s1]. rewrite He, last_cons, Hlast. done. }
  assert (e ∈ seq 0 (Z.to_nat (cnt s))) as Hein.
  { rewrite <- HP. apply elem_of_cons. right. by apply last_in. }
  apply elem_of_seq in Hein.
  destruct (relink_end s1 x a e Ea1 He1) as (s3 & E3 & Hc3 & Hb3 & He3 & Hl3 & a3 & Ea3 & Hs3 & Hlst3 & Hn3).
  { cbn. rewrite length_insert. lia. }
  rewrite (bind_ok _ _ _ _ _ E3). exists s3. split; [done|].
  assert (e <> x) as Hex by (intros ->; apply Hxy; by apply last_in).
  rewrite decide_False in Hn3 by done.
  split; [by rewrite Hc3|by rewrite Hb3|done|]. exists a3. split_and!; try done.
  - congruence.
  - by left.
  - exists e. split; [done|]. rewrite Hl3. cbn. rewrite length_insert. lia.
Qed.
End Alist.
