(* ===== verification/Vcache.v ===== *)
(** Vnodes and their cache: <vnode.h> and src/sysv3/kernel/filesys/vcache.c. *)
From S2P Require Import Prelude Alist.

Definition NVCHCNTS : Z := 4096.

(** A [struct vnode *]: an entry of the cache, the root node of entry [i] of
    the mount table, or any other number (an inode number kept in a pointer
    field, the null pointer 0, the error value -1). *)
Inductive vptr := VCache (i : nat) | VRoot (i : nat) | VRaw (n : Z).
#[export] Instance vptr_eq_dec : EqDecision vptr.
Proof. solve_decision. Defined.

Definition VNull : vptr := VRaw 0.
Definition VErr : vptr := VRaw 0xFFFFFFFF.

(** [struct vnode] *)
Record vnode := Vnode {
  v_name : list Z; v_dev : Z; v_ino : Z; v_mode : Z; v_nlink : Z; v_uid : Z; v_gid : Z; v_rdev : Z;
  v_size : Z; v_atime : Z; v_mtime : Z; v_ctime : Z; v_blkentry : Z; v_blocks : Z;
  v_sem : Z; v_next : vptr; v_parent : vptr; v_child : vptr; v_expand : vptr;
  v_clast : option nat; v_cnext : option nat
}.

Definition v_set_clast p v := Vnode (v_name v) (v_dev v) (v_ino v) (v_mode v) (v_nlink v) (v_uid v) (v_gid v)
  (v_rdev v) (v_size v) (v_atime v) (v_mtime v) (v_ctime v) (v_blkentry v) (v_blocks v) (v_sem v) (v_next v)
  (v_parent v) (v_child v) (v_expand v) p (v_cnext v).
Definition v_set_cnext p v := Vnode (v_name v) (v_dev v) (v_ino v) (v_mode v) (v_nlink v) (v_uid v) (v_gid v)
  (v_rdev v) (v_size v) (v_atime v) (v_mtime v) (v_ctime v) (v_blkentry v) (v_blocks v) (v_sem v) (v_next v)
  (v_parent v) (v_child v) (v_expand v) (v_clast v) p.

(** A vnode without its place in the cache list. *)
Definition vbody (v : vnode) : vnode := v_set_clast None (v_set_cnext None v).

#[export] Instance vnode_linked : Linked vnode vnode :=
  {| nxt := v_cnext; lst := v_clast; sem := v_sem; body := vbody; set_nxt := v_set_cnext; set_lst := v_set_clast |}.
#[export] Instance vnode_laws : LinkedLaws vnode vnode.
Proof. by split. Qed.

(** [vcache[]] and [vcache_data]. *)
Abbreviation vcache := (alist vnode).

(** [struct vnode *vcache_alloc()] and [void vcache_promo(struct vnode *vp)]. *)
Definition vcache_alloc : M vcache (option nat) := alloc NVCHCNTS.
Definition vcache_promo (vp : nat) : M vcache unit := promo vp.

Definition zero_vnode : vnode :=
  Vnode (replicate 68 0) 0 0 0 0 0 0 0 0 0 0 0 0 0 0 VNull VNull VNull VNull None None.

(** The cache as the cleared bss leaves it. *)
Definition vcache0 : vcache := AL (replicate (Z.to_nat NVCHCNTS) zero_vnode) 0 None None.

Lemma vcache0_ok : alist_ok NVCHCNTS vcache0 [].
Proof.
  split; cbn [cnt arr vcache0]; [|done|unfold NVCHCNTS; lia| |unfold NVCHCNTS; lia].
  - split; [constructor|done..].
  - rewrite length_replicate. reflexivity.
Qed.

(** While the cache has unused entries, allocation takes them in order and
    puts each at the end of the list; no field of any vnode but the cache links
    changes. *)
Theorem vcache_alloc_fresh s l :
  alist_ok NVCHCNTS s l -> cnt s < NVCHCNTS ->
  exists s', vcache_alloc s = Ok (Some (Z.to_nat (cnt s))) s' /\
    alist_ok NVCHCNTS s' (l ++ [Z.to_nat (cnt s)]) /\ same_bodies s s' /\ cnt s' = cnt s + 1.
Proof.
  intros OK Hc. destruct (alloc_new_ok NVCHCNTS s l OK Hc) as (s' & E & H).
  exists s'. split; [|done]. unfold vcache_alloc, alloc. msteps.
  rewrite (proj2 (Z.ltb_lt _ _)) by done. by rewrite (bind_ok _ _ _ _ _ E).
Qed.

Lemma vcache_alloc_fresh_witness :
  exists s', vcache_alloc vcache0 = Ok (Some 0%nat) s' /\
    alist_ok NVCHCNTS s' ([] ++ [0%nat]) /\ same_bodies vcache0 s' /\ cnt s' = 1.
Proof. apply (vcache_alloc_fresh vcache0 [] vcache0_ok). by vm_compute. Defined.

(** Promotion exchanges a vnode with the one after it in the list, and
    leaves the last one where it is. *)
Theorem vcache_promo_swaps s l1 x l2 :
  alist_ok NVCHCNTS s (l1 ++ x :: l2) ->
  exists s', vcache_promo x s = Ok tt s' /\ same_bodies s s' /\
    alist_ok NVCHCNTS s' (l1 ++ match l2 with [] => [x] | y :: l => y :: x :: l end).
Proof.
  intros OK. unfold vcache_promo. destruct l2 as [|y l2].
  - exists s. split; [by eapply promo_last|]. split; [by split|done].
  - destruct (promo_ok _ _ _ _ _ _ OK) as (s' & E & H1 & H2 & _). eauto.
Qed.

(** The cache after [n] allocations. *)
Lemma vcache_filled n :
  Z.of_nat n <= NVCHCNTS ->
  exists s, alist_ok NVCHCNTS s (seq 0 n) /\ cnt s = Z.of_nat n /\ same_bodies vcache0 s.
Proof.
  induction n as [|n IH]; intros Hn.
  - exists vcache0. split; [apply vcache0_ok|]. split; [done|by split].
  - destruct IH as (s & OK & Hc & Hb); [lia|].
    destruct (alloc_new_ok NVCHCNTS s _ OK) as (s' & _ & OK' & Hb' & Hc'); [lia|].
    exists s'. rewrite Hc, Nat2Z.id in OK'. rewrite seq_S. split; [exact OK'|]. split; [lia|].
    by eapply bodies_trans.
Qed.

Lemma vcache_promo_swaps_witness :
  exists s s', vcache_promo 0 s = Ok tt s' /\ alist_ok NVCHCNTS s' [1%nat; 0%nat].
Proof.
  destruct (vcache_filled 2) as (s & H & _); [by vm_compute|].
  destruct (vcache_promo_swaps s [] 0 [1%nat] H) as (s' & E & _ & H').
  exists s, s'. split; [exact E|exact H'].
Defined.

(** [n] allocations in a row. *)
Fixpoint vcache_allocs (n : nat) : M vcache (list (option nat)) :=
  match n with
  | O => ret []
  | S n' => p <- vcache_alloc ;; ps <- vcache_allocs n' ;; ret (p :: ps)
  end.

(** In a full cache whose first vnode is not in use (and no code of the
    kernel ever raises a semaphore), every allocation returns that same vnode:
    the unlinking does not advance [begin]. *)
Theorem vcache_full_recycles_one s x y l n :
  alist_ok NVCHCNTS s (x :: y :: l) -> cnt s = NVCHCNTS ->
  (exists v, arr s !! x = Some v /\ v_sem v = 0) ->
  exists s', vcache_allocs n s = Ok (replicate n (Some x)) s'.
Proof.
  intros OK Hc Hx.
  assert (forall n s, stuck NVCHCNTS x s -> exists s', vcache_allocs n s = Ok (replicate n (Some x)) s') as Hst.
  { clear. induction n as [|n IH]; intros s Hs; [by exists s|].
    destruct (stuck_step _ _ _ Hs) as (s1 & E1 & H1). destruct (IH s1 H1) as (s2 & E2).
    exists s2. cbn [vcache_allocs]. rewrite (bind_ok _ _ _ _ _ E1), (bind_ok _ _ _ _ _ E2). done. }
  destruct n as [|n]; [by exists s|].
  destruct (recycle_head _ _ _ _ _ OK Hc Hx) as (s1 & E1 & H1). destruct (Hst n s1 H1) as (s2 & E2).
  exists s2. cbn [vcache_allocs]. rewrite (bind_ok _ _ _ _ _ E1), (bind_ok _ _ _ _ _ E2). done.
Qed.

Lemma vcache_full m :
  Z.of_nat (S (S m)) = NVCHCNTS ->
  exists s, alist_ok NVCHCNTS s (0%nat :: 1%nat :: seq 2 m) /\ cnt s = NVCHCNTS /\
    exists v, arr s !! 0%nat = Some v /\ v_sem v = 0.
Proof.
  intros Hm. destruct (vcache_filled (S (S m))) as (s & OK & Hc & _ & Hs); [lia|].
  exists s. split; [exact OK|]. split; [lia|].
  destruct OK as [[_ _ _ [(v & Ev & _) _]] _ _ _ _]. exists v. split; [exact Ev|].
  assert ((sem <$> arr s) !! 0%nat = Some (v_sem v)) as E by (rewrite list_lookup_fmap, Ev; reflexivity).
  rewrite Hs, list_lookup_fmap in E. cbn [arr vcache0] in E.
  rewrite lookup_replicate_2 in E by (unfold NVCHCNTS; lia). by injection E.
Qed.

Lemma vcache_full_recycles_one_witness :
  exists s s', vcache_allocs 3 s = Ok (replicate 3 (Some 0%nat)) s'.
Proof.
  destruct (vcache_full (Z.to_nat 4094)) as (s & OK & Hc & Hv); [unfold NVCHCNTS; lia|].
  exists s. exact (vcache_full_recycles_one s 0 1 (seq 2 (Z.to_nat 4094)) 3 OK Hc Hv).
Defined.
