(* ===== verification/Scache.v ===== *)
(** The sector cache, src/sysv3/kernel/filesys/scache.c, over the block devices
    of Device.  An entry is on the allocation list ([anext]/[alast], Alist) and
    on the sorted list of its device ([cnext]/[clast]). *)
From S2P Require Import Prelude LibC Device Alist.

Definition NSECACHS : Z := 512.
Definition NMXBLKSZ : Z := 4096.
Definition NBLKENTS : Z := 8.
Definition S_CHANGED : Z := 1.
Definition O_RDONLY : Z := 1.

(** [struct scache] *)
Record scache := Scache {
  s_blk : Z; s_sem : Z; s_buf : list Z; s_mode : Z;
  s_cnext : ptr; s_clast : ptr; s_anext : ptr; s_alast : ptr
}.

Definition s_set_blk b e := Scache b (s_sem e) (s_buf e) (s_mode e) (s_cnext e) (s_clast e) (s_anext e) (s_alast e).
Definition s_set_buf b e := Scache (s_blk e) (s_sem e) b (s_mode e) (s_cnext e) (s_clast e) (s_anext e) (s_alast e).
Definition s_set_mode m e := Scache (s_blk e) (s_sem e) (s_buf e) m (s_cnext e) (s_clast e) (s_anext e) (s_alast e).
Definition s_set_cnext p e := Scache (s_blk e) (s_sem e) (s_buf e) (s_mode e) p (s_clast e) (s_anext e) (s_alast e).
Definition s_set_clast p e := Scache (s_blk e) (s_sem e) (s_buf e) (s_mode e) (s_cnext e) p (s_anext e) (s_alast e).
Definition s_set_anext p e := Scache (s_blk e) (s_sem e) (s_buf e) (s_mode e) (s_cnext e) (s_clast e) p (s_alast e).
Definition s_set_alast p e := Scache (s_blk e) (s_sem e) (s_buf e) (s_mode e) (s_cnext e) (s_clast e) (s_anext e) p.

(** The two pairs of links. *)
#[export] Instance a_linked : Linked scache scache :=
  {| nxt := s_anext; lst := s_alast; sem := s_sem; body e := s_set_anext None (s_set_alast None e);
     set_nxt := s_set_anext; set_lst := s_set_alast |}.
#[export] Instance a_laws : LinkedLaws scache scache.
Proof. by split. Qed.

Definition c_linked : Linked scache scache :=
  {| nxt := s_cnext; lst := s_clast; sem := s_sem; body e := s_set_cnext None (s_set_clast None e);
     set_nxt := s_set_cnext; set_lst := s_set_clast |}.
Definition c_laws : @LinkedLaws scache scache c_linked.
Proof. by split. Qed.

(** [scache[]] with [scache_data], [scache_clist] and the devices. *)
Record sstate (W : Type) := SState {
  pool : alist scache; clists : list (list ptr); sdevs : devs W
}.
Arguments SState {W}. Arguments pool {W}. Arguments clists {W}. Arguments sdevs {W}.

Section Scache.
Context {W : Type}.

Definition on_pool {A} (m : M (alist scache) A) : M (sstate W) A :=
  zoom pool (fun p s => SState p (clists s) (sdevs s)) m.
Definition on_devs {A} (m : M (devs W) A) : M (sstate W) A :=
  zoom sdevs (fun d s => SState (pool s) (clists s) d) m.

(** [scache_clist[MAJOR(dev)][MINOR(dev)]] *)
Definition get_clist (dev : Z) : M (sstate W) ptr :=
  s <- get ;;
  row <- of_option OutOfBounds (aget (clists s) (MAJOR dev)) ;;
  of_option OutOfBounds (aget row (MINOR dev)).
Definition set_clist (dev : Z) (p : ptr) : M (sstate W) unit :=
  s <- get ;;
  row <- of_option OutOfBounds (aget (clists s) (MAJOR dev)) ;;
  row <- of_option OutOfBounds (aset row (MINOR dev) p) ;;
  cl <- of_option OutOfBounds (aset (clists s) (MAJOR dev) row) ;;
  put (SState (pool s) cl (sdevs s)).

(** [struct scache *scache_alloc()]: a recycled entry also leaves the list of
    its device. *)
Definition scache_alloc : M (alist scache) ptr :=
  s <- get ;;
  if cnt s <? NSECACHS then sp <- alloc_new ;; ret (Some sp)
  else
    r <- recycle (length (arr s)) (abegin s) ;;
    match r with
    | None => ret None
    | Some sp =>
        e <- load sp ;;
        match s_clast e with Some q => upd q (s_set_cnext (s_cnext e)) | None => ret tt end ;;;
        e <- load sp ;;
        match s_cnext e with Some q => upd q (s_set_clast (s_clast e)) | None => ret tt end ;;;
        ret (Some sp)
    end.

(** [void scache_promo(struct scache *sp)] *)
Definition scache_promo (sp : nat) : M (alist scache) unit := promo sp.

(** Linking [item] before entry [c]. *)
Definition insert_before (c item : nat) : M (alist scache) unit :=
  e <- load c ;;
  upd item (s_set_clast (s_clast e)) ;;;
  upd item (s_set_cnext (Some c)) ;;;
  e <- load c ;;
  match s_clast e with Some q => upd q (s_set_cnext (Some item)) | None => stop NullDeref end ;;;
  upd c (s_set_clast (Some item)).

(** The search and insert of [scache_insert] from entry [c]: the result and
    whether [*clistp] is set to [item]. *)
Fixpoint insert_loop (fuel : nat) (c item : nat) : M (alist scache) (Z * bool) :=
  match fuel with
  | O => stop Diverged
  | S f =>
      e <- load c ;;
      i <- load item ;;
      if s_blk e =? s_blk i then ret (-1, false)
      else if s_blk i <? s_blk e then
        insert_before c item ;;;
        i <- load item ;;
        ret (0, match s_clast i with None => true | Some _ => false end)
      else
        match s_cnext e with
        | Some c' => insert_loop f c' item
        | None =>
            upd item (s_set_clast (Some c)) ;;;
            upd item (s_set_cnext None) ;;;
            upd c (s_set_cnext (Some item)) ;;;
            ret (0, false)
        end
  end.

(** [int scache_insert(struct scache **clistp, struct scache *item)] *)
Definition scache_insert (dev : Z) (item : nat) : M (sstate W) Z :=
  clist <- get_clist dev ;;
  match clist with
  | None =>
      set_clist dev (Some item) ;;;
      on_pool (upd item (s_set_cnext None)) ;;;
      on_pool (upd item (s_set_clast None)) ;;;
      ret 0
  | Some c =>
      n <- gets (fun s => length (arr (pool s))) ;;
      r <- on_pool (insert_loop n c item) ;;
      (if snd r then set_clist dev (Some item) else ret tt) ;;;
      ret (fst r)
  end.

(** [struct scache *scache_seek(struct scache *clist, blkcnt_t blk)] *)
Fixpoint scache_seek (fuel : nat) (clist : ptr) (blk : Z) : M (alist scache) ptr :=
  match clist with
  | None => ret None
  | Some c =>
      match fuel with
      | O => stop Diverged
      | S f => e <- load c ;; if s_blk e =? blk then ret (Some c) else scache_seek f (s_cnext e) blk
      end
  end.

Definition seek_dev (dev blk : Z) : M (sstate W) ptr :=
  c <- get_clist dev ;;
  n <- gets (fun s => length (arr (pool s))) ;;
  on_pool (scache_seek n c blk).

(** The bytes of a device read, stored in the buffer. *)
Definition fill_buf (sp : nat) (bytes : list Z) : M (alist scache) unit :=
  e <- load sp ;;
  b <- of_option OutOfBounds (memcpy (s_buf e) bytes (length bytes)) ;;
  upd sp (s_set_buf b).

(** [struct scache *scache_get(dev_t dev, blkcnt_t blk, blksize_t blksize)] *)
Definition scache_get (dev blk blksize : Z) : M (sstate W) ptr :=
  sp <- seek_dev dev blk ;;
  match sp with
  | Some sp => on_pool (scache_promo sp) ;;; ret (Some sp)
  | None =>
      r <- on_devs (dev_open BLKDEV dev O_RDONLY 0) ;;
      if negb (r =? 0) then ret None else
      sp <- on_pool scache_alloc ;;
      match sp with
      | None => stop NullDeref
      | Some sp =>
          on_pool (upd sp (s_set_blk blk)) ;;;
          on_devs (dev_lseek BLKDEV dev (s32 (blk * Z.quot blksize 512)) 0) ;;;
          r <- on_devs (dev_read BLKDEV dev (Z.quot blksize 512)) ;;
          on_pool (fill_buf sp (snd r)) ;;;
          scache_insert dev sp ;;;
          on_devs (dev_close BLKDEV dev) ;;;
          ret (Some sp)
      end
  end.

(** [int scache_sync(dev_t dev, blkcnt_t blk, blksize_t blksize)] *)
Definition scache_sync (dev blk blksize : Z) : M (sstate W) Z :=
  sp <- seek_dev dev blk ;;
  match sp with
  | None => ret (-1)
  | Some sp =>
      r <- on_devs (dev_open BLKDEV dev O_RDONLY 0) ;;
      if negb (r =? 0) then ret (-1) else
      on_devs (dev_lseek BLKDEV dev (s32 (blk * Z.quot blksize 512)) 0) ;;;
      e <- on_pool (load sp) ;;
      on_devs (dev_write BLKDEV dev (s_buf e) (Z.quot blksize 512)) ;;;
      on_devs (dev_close BLKDEV dev) ;;;
      ret 0
  end.

(** [int scache_commit(dev_t dev, blksize_t blksize)]: the walk of the list. *)
Fixpoint commit_loop (fuel : nat) (dev blksize : Z) (sp : ptr) : M (sstate W) Z :=
  match sp with
  | None => ret 0
  | Some c =>
      match fuel with
      | O => stop Diverged
      | S f =>
          e <- on_pool (load c) ;;
          (if negb (Z.land (s_mode e) S_CHANGED =? 0) then scache_sync dev (s_blk e) blksize else ret 0) ;;;
          e <- on_pool (load c) ;;
          commit_loop f dev blksize (s_cnext e)
      end
  end.

Definition scache_commit (dev blksize : Z) : M (sstate W) Z :=
  c <- get_clist dev ;;
  n <- gets (fun s => length (arr (pool s))) ;;
  commit_loop n dev blksize c.
End Scache.
