(* ===== verification/Coherence.v ===== *)
(** Coherence of the sector cache (Scache) with the disk below it: what a
    block device promises ([Disk]), the invariant of a device's list, and the
    correctness of [scache_get]. *)
From stdpp Require Import sorting.
From S2P Require Import Prelude LibC Device Alist Scache.

(** What the sector cache relies on of device [dev]: it opens and closes, and
    [lseek] to a sector followed by [read] or [write] of [n] sectors transfers
    them, for the transfers the device accepts ([covers]).  [sector] is the
    contents of the disk. *)
Class Disk (W : Type) (dev : Z) := {
  ready : devs W -> Prop;
  sector : devs W -> Z -> list Z;
  covers : Z -> Z -> Prop;
  sector_len d k : ready d -> length (sector d k) = 512%nat;
  sector_u8 d k : ready d -> Forall is_u8 (sector d k);
  covers_range off n : covers off n -> 0 <= off /\ 0 <= n /\ off + n < 2 ^ 31;
  disk_open d : ready d -> exists d', dev_open BLKDEV dev O_RDONLY 0 d = Ok 0 d' /\ ready d' /\
    sector d' = sector d;
  disk_close d : ready d -> exists d', dev_close BLKDEV dev d = Ok 0 d' /\ ready d' /\ sector d' = sector d;
  disk_read d off n : ready d -> covers off n ->
    exists r d1 c d2, dev_lseek BLKDEV dev off 0 d = Ok r d1 /\
      dev_read BLKDEV dev n d1 = Ok (c, concat (map (fun k => sector d (off + k)) (seqZ 0 n))) d2 /\
      ready d2 /\ sector d2 = sector d;
  disk_write d off n buf : ready d -> covers off n -> (Z.to_nat (512 * n) <= length buf)%nat ->
    Forall is_u8 (take (Z.to_nat (512 * n)) buf) ->
    exists r d1 c d2, dev_lseek BLKDEV dev off 0 d = Ok r d1 /\ dev_write BLKDEV dev buf n d1 = Ok c d2 /\
      ready d2 /\
      forall k, sector d2 k =
        if decide (off <= k < off + n) then take 512 (drop (Z.to_nat (512 * (k - off))) buf) else sector d k
}.

(** Lists linked by [cnext]/[clast]. *)
Definition cseg : list scache -> ptr -> list nat -> ptr -> Prop := @seg scache scache c_linked.

(** All but the allocation links of the entries agree. *)
Definition c_same (ar ar' : list scache) : Prop :=
  (fun e => s_set_anext None (s_set_alast None e)) <$> ar' = (fun e => s_set_anext None (s_set_alast None e)) <$> ar.

#[export] Instance c_same_equiv : Equivalence c_same.
Proof. split; unfold c_same; repeat intros ?; congruence. Qed.

Lemma c_same_lookup ar ar' x e :
  c_same ar ar' -> ar !! x = Some e ->
  exists e', ar' !! x = Some e' /\ s_blk e' = s_blk e /\ s_buf e' = s_buf e /\ s_mode e' = s_mode e /\
    s_cnext e' = s_cnext e /\ s_clast e' = s_clast e.
Proof.
  intros H E. apply (f_equal (fun l => l !! x)) in H. rewrite !list_lookup_fmap, E in H.
  destruct (ar' !! x) as [e'|]; [|done]. exists e'. split; [done|]. simpl in H.
  destruct e, e'. by injection H.
Qed.

Lemma c_same_seg ar ar' pv l nx : c_same ar ar' -> cseg ar pv l nx -> cseg ar' pv l nx.
Proof.
  intros H. revert pv. induction l as [|x l IH]; intros pv; [done|].
  intros [(e & E & Hl & Hn) Hs]. split; [|by apply IH].
  destruct (c_same_lookup _ _ _ _ H E) as (e' & E' & _ & _ & _ & Hn' & Hl'). exists e'.
  split; [done|]. split; [etrans; [exact Hl'|done]|etrans; [exact Hn'|done]].
Qed.

(** All but the list links agree: the allocation list is the same. *)
Definition a_same (ar ar' : list scache) : Prop :=
  (fun e => (s_anext e, s_alast e)) <$> ar' = (fun e => (s_anext e, s_alast e)) <$> ar.

Lemma a_same_seg ar ar' pv l nx : a_same ar ar' -> seg ar pv l nx -> seg ar' pv l nx.
Proof.
  intros H. revert pv. induction l as [|x l IH]; intros pv; [done|].
  intros [(e & E & Hl & Hn) Hs]. split; [|by apply IH].
  pose proof (f_equal (fun l => l !! x) H) as Hx. rewrite !list_lookup_fmap, E in Hx.
  destruct (ar' !! x) as [e'|]; [|done]. exists e'. injection Hx as Hn' Hl'.
  split; [done|]. split; [etrans; [exact Hl'|done]|etrans; [exact Hn'|done]].
Qed.

Lemma a_same_insert ar x e e' :
  ar !! x = Some e -> s_anext e' = s_anext e -> s_alast e' = s_alast e -> a_same ar (<[x := e']> ar).
Proof.
  intros E Hn Hl. unfold a_same. rewrite list_fmap_insert. apply list_insert_id.
  by rewrite list_lookup_fmap, E, Hn, Hl.
Qed.

Lemma a_same_trans a b c : a_same a b -> a_same b c -> a_same a c.
Proof. unfold a_same. congruence. Qed.

Lemma a_same_length a b : a_same a b -> length b = length a.
Proof. intros H. apply (f_equal length) in H. by rewrite !length_fmap in H. Qed.

Lemma a_same_ok s ar la :
  alist_ok NSECACHS s la -> a_same (arr s) ar -> alist_ok NSECACHS (with_arr ar s) la.
Proof.
  intros [[Hnd Hb He Hs] HP HC Hal Hmax] H. split; try done.
  - split; try done. by eapply a_same_seg.
  - cbn [arr with_arr]. by rewrite (a_same_length _ _ H).
Qed.

(** All but the list links agree. *)
Definition cbody (e : scache) : scache := s_set_cnext None (s_set_clast None e).
Definition links_only (ar ar' : list scache) : Prop := cbody <$> ar' = cbody <$> ar.

Lemma links_only_trans a b c : links_only a b -> links_only b c -> links_only a c.
Proof. unfold links_only. congruence. Qed.

Lemma links_only_insert ar x e e' :
  ar !! x = Some e -> cbody e' = cbody e -> links_only ar (<[x := e']> ar).
Proof.
  intros E H. unfold links_only. rewrite list_fmap_insert. apply list_insert_id.
  by rewrite list_lookup_fmap, E, H.
Qed.

Lemma links_only_lookup ar ar' x e :
  links_only ar ar' -> ar !! x = Some e ->
  exists e', ar' !! x = Some e' /\ s_blk e' = s_blk e /\ s_buf e' = s_buf e /\ s_mode e' = s_mode e.
Proof.
  intros H E. apply (f_equal (fun l => l !! x)) in H. rewrite !list_lookup_fmap, E in H.
  destruct (ar' !! x) as [e'|]; [|done]. exists e'. split; [done|]. simpl in H.
  destruct e, e'. by injection H.
Qed.

Lemma links_only_a_same ar ar' : links_only ar ar' -> a_same ar ar'.
Proof.
  intros H. unfold a_same. apply list_eq. intros x. apply (f_equal (fun l => l !! x)) in H.
  rewrite !list_lookup_fmap in *. destruct (ar !! x) as [e|], (ar' !! x) as [e'|]; try done.
  simpl in *. destruct e, e'. by injection H as -> -> -> -> -> ->.
Qed.

Lemma links_only_blk ar ar' x : links_only ar ar' ->
  match ar' !! x with Some e => s_blk e | None => 0 end = match ar !! x with Some e => s_blk e | None => 0 end.
Proof.
  intros H. destruct (ar !! x) as [e|] eqn:E.
  - destruct (links_only_lookup _ _ _ _ H E) as (e' & -> & Hb & _). done.
  - apply (f_equal (fun l => l !! x)) in H. rewrite !list_lookup_fmap, E in H. by destruct (ar' !! x).
Qed.

Abbreviation cfix_last := (@fix_last scache scache c_linked c_laws).
Abbreviation cfix_head := (@fix_head scache scache c_linked c_laws).
Abbreviation cseg_app := (@seg_app scache scache c_linked).
Abbreviation cseg_agree := (@seg_agree scache scache c_linked c_laws).

(** Appending [item] after [c], the last entry. *)
Lemma append_ok (p : alist scache) pre c item ei :
  cseg (arr p) None (pre ++ [c]) None -> NoDup (pre ++ [c]) -> item ∉ pre ++ [c] ->
  arr p !! item = Some ei ->
  exists ar', (upd item (s_set_clast (Some c)) ;;; upd item (s_set_cnext None) ;;;
               upd c (s_set_cnext (Some item)) ;;; ret (0, false)) p = Ok (0, false) (with_arr ar' p) /\
    cseg ar' None ((pre ++ [c]) ++ [item]) None /\ links_only (arr p) ar'.
Proof.
  intros Hs Hnd Hni Ei. pose proof (lookup_lt_Some _ _ _ Ei) as Hil.
  rewrite (bind_ok _ _ _ _ _ (upd_ok item _ p ei Ei)).
  set (p1 := AL (<[item := s_set_clast (Some c) ei]> (arr p)) (cnt p) (abegin p) (aend p)).
  assert (arr p1 !! item = Some (s_set_clast (Some c) ei)) as E1 by (by apply list_lookup_insert_eq).
  rewrite (bind_ok _ _ _ _ _ (upd_ok item _ p1 _ E1)). cbn [arr cnt abegin aend p1].
  rewrite list_insert_insert_eq. set (ei' := s_set_cnext None (s_set_clast (Some c) ei)).
  set (p2 := AL (<[item := ei']> (arr p)) (cnt p) (abegin p) (aend p)).
  assert (cseg (arr p2) None (pre ++ [c]) None) as Hs2 by (by apply (@seg_frame scache scache c_linked)).
  destruct (cfix_last p2 (pre ++ [c]) None (Some item) Hnd Hs2) as (ar' & E & Hs' & C).
  rewrite last_snoc in E, C. cbn [upd_opt] in E. change (@set_nxt scache scache c_linked) with s_set_cnext in E.
  rewrite (bind_ok _ _ _ _ _ E). exists ar'. split; [done|]. split.
  - apply cseg_app. split; [done|]. split; [|done]. exists ei'.
    rewrite (ch_same _ _ _ C) by set_solver. cbn. rewrite list_lookup_insert_eq by done.
    split; [done|]. unfold last_or. by rewrite last_snoc.
  - eapply links_only_trans; [apply (links_only_insert _ item ei ei'); [done|by destruct ei]|].
    exact (ch_body _ _ _ C).
Qed.

(** Linking [item] between [q] and [c]. *)
Lemma insert_before_ok (p : alist scache) pre q c suf item ei :
  cseg (arr p) None ((pre ++ [q]) ++ c :: suf) None -> NoDup ((pre ++ [q]) ++ c :: suf) ->
  item ∉ (pre ++ [q]) ++ c :: suf -> arr p !! item = Some ei ->
  exists ar', insert_before c item p = Ok tt (with_arr ar' p) /\
    cseg ar' None ((pre ++ [q]) ++ item :: c :: suf) None /\ links_only (arr p) ar' /\
    exists e, ar' !! item = Some e /\ s_clast e = Some q.
Proof.
  intros Hs Hnd Hni Ei. pose proof (lookup_lt_Some _ _ _ Ei) as Hil.
  apply NoDup_app in Hnd as (Hn1 & Hn12 & Hn2). apply not_elem_of_app in Hni as [Hi1 Hi2].
  apply cseg_app in Hs as [S1 S2]. pose proof S2 as [(ec & Ec & Hcl & Hcn) _].
  unfold last_or in Hcl. rewrite last_snoc in Hcl. cbn in Hcl.
  assert (item <> c) as Hic by set_solver.
  unfold insert_before. rewrite (bind_ok _ _ _ _ _ (load_ok _ _ _ Ec)). rewrite Hcl.
  rewrite (bind_ok _ _ _ _ _ (upd_ok item _ p ei Ei)).
  set (p1 := AL (<[item := s_set_clast (Some q) ei]> (arr p)) (cnt p) (abegin p) (aend p)).
  assert (arr p1 !! item = Some (s_set_clast (Some q) ei)) as E1 by (by apply list_lookup_insert_eq).
  rewrite (bind_ok _ _ _ _ _ (upd_ok item _ p1 _ E1)). cbn [arr cnt abegin aend p1].
  rewrite list_insert_insert_eq. set (ei' := s_set_cnext (Some c) (s_set_clast (Some q) ei)).
  set (p2 := AL (<[item := ei']> (arr p)) (cnt p) (abegin p) (aend p)).
  assert (arr p2 !! c = Some ec) as Ec2 by (cbn; by rewrite list_lookup_insert_ne).
  rewrite (bind_ok _ _ _ _ _ (load_ok _ _ _ Ec2)). rewrite Hcl.
  assert (cseg (arr p2) None (pre ++ [q]) (Some c)) as S1' by (by apply (@seg_frame scache scache c_linked)).
  assert (cseg (arr p2) (Some q) (c :: suf) None) as S2'.
  { apply (@seg_frame scache scache c_linked); [done|]. unfold last_or in S2. by rewrite last_snoc in S2. }
  destruct (cfix_last p2 (pre ++ [q]) (Some c) (Some item) Hn1 S1') as (ar3 & E3 & S3 & C3).
  rewrite last_snoc in E3, C3. cbn [upd_opt] in E3. change (@set_nxt scache scache c_linked) with s_set_cnext in E3.
  rewrite (bind_ok _ _ _ _ _ E3).
  assert (q ∉ c :: suf) as Hq by (apply Hn12; set_solver).
  assert (cseg ar3 (Some q) (c :: suf) None) as S4.
  { eapply cseg_agree; [|exact S2']. intros x Hx. apply (ch_same _ _ _ C3). set_solver. }
  destruct (cfix_head (with_arr ar3 p2) (c :: suf) (Some q) (Some item) Hn2 S4) as (ar5 & E5 & S5 & C5).
  cbn [head upd_opt] in E5, C5. change (@set_lst scache scache c_linked) with s_set_clast in E5.
  rewrite E5. exists ar5. split; [done|].
  assert (ar5 !! item = Some ei') as Eit.
  { rewrite (ch_same _ _ _ C5) by congruence. cbn [arr with_arr]. rewrite (ch_same _ _ _ C3) by set_solver.
    by apply list_lookup_insert_eq. }
  split; [|split].
  - apply cseg_app. split; [|split].
    + eapply cseg_agree; [|exact S3]. intros x Hx. apply (ch_same _ _ _ C5). intros [= <-]. by apply (Hn12 c Hx); set_solver.
    + exists ei'. split; [done|]. unfold last_or. rewrite last_snoc. done.
    + exact S5.
  - eapply links_only_trans; [apply (links_only_insert _ item ei ei'); [done|by destruct ei]|].
    eapply links_only_trans; [exact (ch_body _ _ _ C3)|exact (ch_body _ _ _ C5)].
  - exists ei'. done.
Qed.

Section Coherence.
Context {W : Type} (dev bs : Z) `{!Disk W dev}.

Definition nsec : Z := Z.quot bs 512.

(** The contents of block [blk] on the disk. *)
Definition block (d : devs W) (blk : Z) : list Z :=
  concat (map (fun k => sector d (blk * nsec + k)) (seqZ 0 nsec)).

Definition blk_at (ar : list scache) (x : nat) : Z :=
  match ar !! x with Some e => s_blk e | None => 0 end.

(** A block of [view] is on the disk [d], or an entry of [l] with that block is
    marked as changed. *)
Definition on_disk_or (view : Z -> list Z) (ar : list scache) (l : list nat) (d : devs W) : Prop :=
  forall b, view b = block d b \/
    exists x e, x ∈ l /\ ar !! x = Some e /\ s_blk e = b /\ Z.land (s_mode e) S_CHANGED <> 0.

(** [cache_view view s la lc]: [la] is the allocation list, [lc] the list of
    [dev], sorted by block, whose buffers hold the blocks of [view]: the disk as
    the kernel sees it.  A block of [view] that differs from the disk is cached
    and marked as changed. *)
Record cache_view (view : Z -> list Z) (s : sstate W) (la lc : list nat) : Prop := {
  ck_pool : alist_ok NSECACHS (pool s) la;
  ck_row : exists row, aget (clists s) (MAJOR dev) = Some row /\ aget row (MINOR dev) = Some (head lc);
  ck_seg : cseg (arr (pool s)) None lc None;
  ck_nodup : NoDup lc;
  ck_alloc : lc ⊆ la;
  ck_sorted : StronglySorted (fun x y => blk_at (arr (pool s)) x < blk_at (arr (pool s)) y) lc;
  ck_bufs : Forall (fun e => length (s_buf e) = Z.to_nat NMXBLKSZ) (arr (pool s));
  ck_ready : ready (sdevs s);
  ck_data : forall x e, x ∈ lc -> arr (pool s) !! x = Some e ->
    take (Z.to_nat (512 * nsec)) (s_buf e) = view (s_blk e);
  ck_disk : on_disk_or view (arr (pool s)) lc (sdevs s);
  ck_u8 : forall b, Forall is_u8 (view b);
  ck_covers : forall x e, x ∈ lc -> arr (pool s) !! x = Some e -> covers (s_blk e * nsec) nsec
}.

(** The cache holds the blocks of the disk. *)
Definition cache_ok (s : sstate W) (la lc : list nat) : Prop := cache_view (block (sdevs s)) s la lc.

Lemma block_u8 d b : ready d -> Forall is_u8 (block d b).
Proof using Type. intros Hr. apply Forall_concat, Forall_fmap, Forall_true. intros k. by apply sector_u8. Qed.

Lemma lc_entry {view} s la lc x : cache_view view s la lc -> x ∈ lc -> exists e, arr (pool s) !! x = Some e.
Proof using All.
  intros OK Hx. apply list_elem_of_split in Hx as (l1 & l2 & ->).
  pose proof (ck_seg _ _ _ _ OK) as Hs. apply cseg_app in Hs as [_ [(e & E & _) _]]. eauto.
Qed.
End Coherence.

Arguments ck_pool {W} dev bs {_ view} s la lc.
Arguments ck_row {W} dev bs {_ view} s la lc.
Arguments ck_seg {W} dev bs {_ view} s la lc.
Arguments ck_nodup {W} dev bs {_ view} s la lc.
Arguments ck_alloc {W} dev bs {_ view} s la lc.
Arguments ck_sorted {W} dev bs {_ view} s la lc.
Arguments ck_bufs {W} dev bs {_ view} s la lc.
Arguments ck_ready {W} dev bs {_ view} s la lc.
Arguments ck_data {W} dev bs {_ view} s la lc.
Arguments ck_disk {W} dev bs {_ view} s la lc.
Arguments ck_u8 {W} dev bs {_ view} s la lc.
Arguments ck_covers {W} dev bs {_ view} s la lc.

Lemma c_same_blk ar ar' x : c_same ar ar' -> blk_at ar' x = blk_at ar x.
Proof.
  intros H. unfold blk_at. destruct (ar !! x) as [e|] eqn:E.
  - destruct (c_same_lookup _ _ _ _ H E) as (e' & -> & ? & _). done.
  - apply (f_equal (fun l => l !! x)) in H. rewrite !list_lookup_fmap, E in H. by destruct (ar' !! x).
Qed.

(** Filling and linking entry [x] keeps the blocks of the others. *)
Lemma blk_kept ar0 ar ar' x e y :
  c_same ar0 ar -> links_only (<[x := e]> ar) ar' -> y <> x -> blk_at ar' y = blk_at ar0 y.
Proof.
  intros Hc Hl Hy. rewrite <- (c_same_blk _ _ y Hc). unfold blk_at.
  by rewrite (links_only_blk _ _ y Hl), list_lookup_insert_ne.
Qed.

Section Insert.
Context (b : Z).

Abbreviation before ar := (fun x : nat => blk_at ar x < b).
Abbreviation after ar := (fun x : nat => b < blk_at ar x).

(** The loop of [scache_insert] puts [item] at its place in the sorted list,
    if that is not in front of the first entry. *)
Lemma insert_loop_ok p pre c suf item ei fuel :
  cseg (arr p) None (pre ++ c :: suf) None -> NoDup (pre ++ c :: suf) -> item ∉ pre ++ c :: suf ->
  arr p !! item = Some ei -> s_blk ei = b ->
  StronglySorted (fun x y => blk_at (arr p) x < blk_at (arr p) y) (pre ++ c :: suf) ->
  Forall (before (arr p)) pre -> (pre = [] -> blk_at (arr p) c < b) ->
  Forall (fun x => blk_at (arr p) x <> b) (c :: suf) -> (length suf < fuel)%nat ->
  exists ar' l1 l2, insert_loop fuel c item p = Ok (0, false) (with_arr ar' p) /\
    pre ++ c :: suf = l1 ++ l2 /\ cseg ar' None (l1 ++ item :: l2) None /\
    Forall (before (arr p)) l1 /\ Forall (after (arr p)) l2 /\ links_only (arr p) ar' /\ l1 <> [].
Proof.
  revert pre c fuel. induction suf as [|c' suf IH]; intros pre c fuel Hs Hnd Hni Ei Hb Hsort Hpre Hhead Hne Hf.
  all: destruct fuel as [|fuel]; [simpl in Hf; lia|]; cbn [insert_loop];
    pose proof Hs as Hs0; apply cseg_app in Hs0 as [_ [(ec & Ec & Hcl & Hcn) _]];
    rewrite (bind_ok _ _ _ _ _ (load_ok _ _ _ Ec)), (bind_ok _ _ _ _ _ (load_ok _ _ _ Ei));
    apply Forall_cons in Hne as [Hnc Hne]; unfold blk_at at 1 in Hnc; rewrite Ec in Hnc;
    destruct (Z.eqb_spec (s_blk ec) (s_blk ei)) as [|_]; [congruence|]; rewrite Hb;
    destruct (Z.ltb_spec b (s_blk ec)) as [Hlt|Hge].
  1, 3: destruct pre as [|q pre _] using rev_ind; [specialize (Hhead eq_refl); unfold blk_at in Hhead; rewrite Ec in Hhead; lia|];
    destruct (insert_before_ok p pre q c _ item ei Hs Hnd Hni Ei) as (ar' & E & Hs' & Hlo & e & Ee & Hecl);
    rewrite (bind_ok _ _ _ _ _ E), (bind_ok _ _ _ _ _ (load_ok item (with_arr ar' p) e Ee)); rewrite Hecl;
    exists ar', (pre ++ [q]); eexists; split; [reflexivity|]; split; [reflexivity|];
    split; [done|]; split; [done|]; split; [|split; [done|by destruct pre]];
    assert (blk_at (arr p) c = s_blk ec) as Hc by (unfold blk_at; by rewrite Ec);
    apply StronglySorted_app_1_r in Hsort; inversion Hsort as [|? ? ? Hall]; subst;
    (constructor; [lia|]); eapply Forall_impl; [exact Hall|]; simpl; intros; lia.
  - cbn in Hcn. rewrite Hcn.
    destruct (append_ok p pre c item ei Hs Hnd Hni Ei) as (ar' & E & Hs' & Hlo).
    exists ar', (pre ++ [c]), []. split; [exact E|]. split; [by rewrite app_nil_r|]. split; [done|].
    split; [|split; [constructor|split; [done|by destruct pre]]]. apply Forall_app. split; [done|].
    constructor; [|constructor]. unfold blk_at. rewrite Ec. lia.
  - cbn in Hcn. rewrite Hcn.
    destruct (IH (pre ++ [c]) c' fuel) as (ar' & l1 & l2 & E & El & Hs' & H1 & H2 & Hlo & Hl1);
      rewrite <- ?app_assoc; try done.
    + apply Forall_app. split; [done|]. constructor; [|constructor]. unfold blk_at. rewrite Ec. lia.
    + by destruct pre.
    + simpl in Hf. lia.
    + exists ar', l1, l2. rewrite <- app_assoc in El. by repeat split.
Qed.
End Insert.

Lemma sorted_impl {A} (R R' : A -> A -> Prop) l :
  (forall x y, R x y -> R' x y) -> StronglySorted R l -> StronglySorted R' l.
Proof.
  intros H. induction 1 as [|x l Hs IH Hx]; constructor; [done|]. eapply Forall_impl; [exact Hx|auto].
Qed.

Lemma seek_loop_spec (p : alist scache) pv lc blk fuel :
  cseg (arr p) pv lc None -> (length lc <= fuel)%nat ->
  (exists x, scache_seek fuel (head lc) blk p = Ok (Some x) p /\ x ∈ lc /\ blk_at (arr p) x = blk) \/
  (scache_seek fuel (head lc) blk p = Ok None p /\ Forall (fun x => blk_at (arr p) x <> blk) lc).
Proof.
  revert pv fuel. induction lc as [|c lc IH]; intros pv fuel Hs Hf.
  - right. by destruct fuel.
  - destruct fuel as [|fuel]; [simpl in Hf; lia|]. destruct Hs as [(e & E & _ & Hn) Hs].
    cbn [head scache_seek]. rewrite (bind_ok _ _ _ _ _ (load_ok _ _ _ E)).
    assert (blk_at (arr p) c = s_blk e) as Hb by (unfold blk_at; by rewrite E).
    destruct (Z.eqb_spec (s_blk e) blk) as [He|He].
    + left. exists c. split; [done|]. split; [set_solver|congruence].
    + change (s_cnext e) with (@nxt scache scache c_linked e). rewrite Hn, hd_or_none. simpl in Hf.
      destruct (IH (Some c) fuel Hs ltac:(lia)) as [(x & Ex & Hx & Hxb)|[Ex Hall]].
      * left. exists x. split; [done|]. split; [set_solver|done].
      * right. split; [done|]. constructor; [congruence|done].
Qed.

Lemma on_pool_ok {W A} (m : M (alist scache) A) (s : sstate W) a p :
  m (pool s) = Ok a p -> on_pool m s = Ok a (SState p (clists s) (sdevs s)).
Proof. intros E. unfold on_pool, zoom. by rewrite E. Qed.
Lemma on_devs_ok {W A} (m : M (devs W) A) (s : sstate W) a d :
  m (sdevs s) = Ok a d -> on_devs m s = Ok a (SState (pool s) (clists s) d).
Proof. intros E. unfold on_devs, zoom. by rewrite E. Qed.

Section Get.
Context {W : Type} (dev bs : Z) `{!Disk W dev} {view : Z -> list Z}.
Abbreviation nsec := (nsec bs).
Abbreviation block := (block dev bs).
Abbreviation cache_view := (cache_view dev bs view).

Lemma lc_length s la lc : cache_view s la lc -> (length lc <= length (arr (pool s)))%nat.
Proof using Type.
  intros OK. pose proof (ck_pool _ _ _ _ _ OK) as [_ HP HC Hal _].
  pose proof (submseteq_length _ _ (NoDup_submseteq _ _ (ck_nodup _ _ _ _ _ OK) (ck_alloc _ _ _ _ _ OK))) as H.
  rewrite HP, length_seq in H. lia.
Qed.

Lemma seek_spec s la lc blk :
  cache_view s la lc ->
  (exists x, seek_dev dev blk s = Ok (Some x) s /\ x ∈ lc /\ blk_at (arr (pool s)) x = blk) \/
  (seek_dev dev blk s = Ok None s /\ Forall (fun x => blk_at (arr (pool s)) x <> blk) lc).
Proof using Type.
  intros OK. destruct (ck_row _ _ _ _ _ OK) as (row & E1 & E2). unfold seek_dev, get_clist. msteps.
  msome E1. rewrite E2. cbn [of_option]. msteps. unfold on_pool, zoom.
  destruct (seek_loop_spec (pool s) None lc blk (length (arr (pool s))) (ck_seg _ _ _ _ _ OK) (lc_length _ _ _ OK))
    as [(x & -> & Hx & Hb)|[-> Hall]].
  - left. exists x. split; [by destruct s|done].
  - right. split; [by destruct s|done].
Qed.

(** A change of the allocation links only. *)
Lemma cache_pool s p la la' lc :
  cache_view s la lc -> c_same (arr (pool s)) (arr p) -> alist_ok NSECACHS p la' -> la ⊆ la' ->
  cache_view (SState p (clists s) (sdevs s)) la' lc.
Proof using Type.
  intros [] Hc OK Hla. assert (forall x, blk_at (arr p) x = blk_at (arr (pool s)) x) as Hb
    by (intros x; by apply c_same_blk).
  split; cbn [pool clists sdevs]; try done.
  - by eapply c_same_seg.
  - set_solver.
  - eapply sorted_impl; [|exact ck_sorted0]. intros x y. simpl. by rewrite !Hb.
  - apply Forall_lookup. intros x e' E'.
    apply (f_equal (fun l => l !! x)) in Hc. rewrite !list_lookup_fmap, E' in Hc.
    destruct (arr (pool s) !! x) as [e|] eqn:E; [|done]. simpl in Hc.
    assert (s_buf e' = s_buf e) as -> by (destruct e, e'; by injection Hc).
    exact (Forall_lookup_1 _ _ _ _ ck_bufs0 E).
  - intros x e' Hx E'. apply (f_equal (fun l => l !! x)) in Hc. rewrite !list_lookup_fmap, E' in Hc.
    destruct (arr (pool s) !! x) as [e|] eqn:E; [|done]. simpl in Hc.
    assert (s_buf e' = s_buf e /\ s_blk e' = s_blk e) as [-> ->] by (destruct e, e'; by injection Hc).
    by apply (ck_data0 x).
  - intros b. destruct (ck_disk0 b) as [|(x & e & Hx & E & He & Hm)]; [by left|right].
    destruct (c_same_lookup _ _ _ _ Hc E) as (e' & E' & He' & _ & Hm' & _).
    exists x, e'. rewrite He', Hm'. by split_and!.
  - intros x e' Hx E'. destruct (c_same_lookup _ _ _ _ (symmetry Hc) E') as (e & E & He & _).
    rewrite <- He. by apply (ck_covers0 x).
Qed.

Lemma get_hit s la lc blk x :
  cache_view s la lc -> seek_dev dev blk s = Ok (Some x) s -> x ∈ lc -> blk_at (arr (pool s)) x = blk ->
  exists s' la' e, scache_get dev blk bs s = Ok (Some x) s' /\ cache_view s' la' lc /\ sdevs s' = sdevs s /\
    arr (pool s') !! x = Some e /\ s_blk e = blk /\ take (Z.to_nat (512 * nsec)) (s_buf e) = view blk /\
    cnt (pool s') = cnt (pool s) /\ Forall (fun y => blk_at (arr (pool s')) y = blk_at (arr (pool s)) y) lc.
Proof using Type.
  intros OK Es Hx Hb. pose proof (ck_pool _ _ _ _ _ OK) as Hp.
  assert (exists p' la', promo x (pool s) = Ok tt p' /\ alist_ok NSECACHS p' la' /\ same_bodies (pool s) p' /\ la ⊆ la' /\
    cnt p' = cnt (pool s)) as (p' & la' & Ep & Hp' & Hsb & Hla & Hcnt).
  { assert (x ∈ la) as (l1 & l2 & ->)%list_elem_of_split by (by apply (ck_alloc _ _ _ _ _ OK)).
    destruct l2 as [|y l2].
    - exists (pool s), (l1 ++ [x]). split; [by eapply promo_last|]. split; [done|]. split; [by split|done].
    - destruct (promo_ok _ _ _ _ _ _ Hp) as (p' & E & H1 & H2 & H3). exists p', (l1 ++ y :: x :: l2).
      split_and!; try done. set_solver. }
  destruct Hsb as [Hbody _]. assert (c_same (arr (pool s)) (arr p')) as Hc by exact Hbody.
  pose proof (cache_pool s p' la la' lc OK Hc Hp' Hla) as OK'.
  destruct (lc_entry _ _ _ _ _ _ OK Hx) as [e0 E0].
  destruct (c_same_lookup _ _ _ _ Hc E0) as (e & E & Heb & Hbuf & _).
  exists (SState p' (clists s) (sdevs s)), la', e. split_and!; try done.
  - unfold scache_get. rewrite (bind_ok _ _ _ _ _ Es). unfold on_pool, zoom, bind, scache_promo. by rewrite Ep.
  - rewrite Heb. unfold blk_at in Hb. by rewrite E0 in Hb.
  - assert (s_blk e = blk) as He by (rewrite Heb; unfold blk_at in Hb; by rewrite E0 in Hb).
    rewrite <- He. exact (ck_data _ _ _ _ _ OK' x e Hx E).
  - apply Forall_true. intros y. by apply c_same_blk.
Qed.

(** [x] is the entry for [blk], linked at its place in the list of [dev]. *)
Lemma cache_link s s' la lc l1 l2 x e d ar :
  cache_view s la lc -> lc = l1 ++ l2 -> x ∉ lc ->
  alist_ok NSECACHS (pool s') (la ++ [x]) -> sdevs s' = d -> ready d -> sector d = sector (sdevs s) ->
  (exists row, aget (clists s') (MAJOR dev) = Some row /\ aget row (MINOR dev) = Some (head (l1 ++ x :: l2))) ->
  cseg (arr (pool s')) None (l1 ++ x :: l2) None ->
  c_same (arr (pool s)) ar -> links_only (<[x := e]> ar) (arr (pool s')) ->
  (x < length ar)%nat -> length (s_buf e) = Z.to_nat NMXBLKSZ ->
  take (Z.to_nat (512 * nsec)) (s_buf e) = view (s_blk e) -> covers (s_blk e * nsec) nsec ->
  Forall (fun y => blk_at (arr (pool s)) y < s_blk e) l1 ->
  Forall (fun y => s_blk e < blk_at (arr (pool s)) y) l2 ->
  cache_view s' (la ++ [x]) (l1 ++ x :: l2).
Proof using Type.
  intros OK -> Hx Hp' Hd Hr Hsec Hrow Hseg Hcs Hlo Hxl Hbl Hblock Hcov H1 H2.
  assert (forall y, y <> x -> blk_at (arr (pool s')) y = blk_at (arr (pool s)) y) as Hby
    by (intros y Hy; by eapply blk_kept).
  assert (blk_at (arr (pool s')) x = s_blk e) as Hbx.
  { unfold blk_at. rewrite (links_only_blk _ _ x Hlo). by rewrite list_lookup_insert_eq. }
  apply not_elem_of_app in Hx as Hx'. destruct Hx' as [Hx1 Hx2].
  assert (forall y ey, arr (pool s') !! y = Some ey -> exists ey0, (<[x := e]> ar) !! y = Some ey0 /\
    s_buf ey = s_buf ey0 /\ s_blk ey = s_blk ey0) as Hback.
  { intros y ey Ey. assert (links_only (arr (pool s')) (<[x := e]> ar)) as Hlo' by (symmetry; exact Hlo).
    destruct (links_only_lookup _ _ _ _ Hlo' Ey) as (e0 & E0 & ? & ? & _). eauto. }
  assert (forall y ey0, y <> x -> (<[x := e]> ar) !! y = Some ey0 -> exists ey1, arr (pool s) !! y = Some ey1 /\
    s_buf ey0 = s_buf ey1 /\ s_blk ey0 = s_blk ey1) as Hback2.
  { intros y ey0 Hy Ey. rewrite list_lookup_insert_ne in Ey by done.
    assert (c_same ar (arr (pool s))) as Hcs' by (symmetry; exact Hcs).
    destruct (c_same_lookup _ _ _ _ Hcs' Ey) as (e1 & E1 & ? & ? & _). eauto. }
  pose proof (ck_sorted _ _ _ _ _ OK) as Hsort. apply StronglySorted_app in Hsort as (Hs12 & Hs1 & Hs2).
  pose proof (ck_nodup _ _ _ _ _ OK) as Hnd. apply NoDup_app in Hnd as (Hn1 & Hn12 & Hn2).
  split; try done.
  - apply NoDup_app. split; [done|]. split; [intros y Hy; set_solver|]. by constructor.
  - pose proof (ck_alloc _ _ _ _ _ OK). set_solver.
  - assert (forall y, y ∈ l1 \/ y ∈ l2 -> y <> x) as Hyx by (intros y [Hy|Hy] ->; done).
    rewrite Forall_forall in H1, H2. apply StronglySorted_app_2.
    + intros y z Hy Hz. rewrite (Hby y) by auto. apply elem_of_cons in Hz as [->|Hz].
      * rewrite Hbx. by apply H1.
      * rewrite Hby by auto. by apply Hs12.
    + clear -Hs1 Hby Hyx. induction Hs1 as [|y l Hs IH Hy]; constructor.
      * apply IH. intros z [?|?]; apply Hyx; set_solver.
      * apply Forall_forall. intros z Hz. rewrite !Hby by (apply Hyx; set_solver).
        rewrite Forall_forall in Hy. by apply Hy.
    + constructor.
      * clear -Hs2 Hby Hyx. induction Hs2 as [|y l Hs IH Hy]; constructor.
        -- apply IH. intros z [?|?]; apply Hyx; set_solver.
        -- apply Forall_forall. intros z Hz. rewrite !Hby by (apply Hyx; set_solver).
           rewrite Forall_forall in Hy. by apply Hy.
      * apply Forall_forall. intros z Hz. rewrite Hbx, Hby by auto. by apply H2.
  - apply Forall_lookup. intros y ey Ey. destruct (Hback _ _ Ey) as (e0 & E0 & -> & _).
    destruct (decide (y = x)) as [->|Hy].
    + rewrite list_lookup_insert_eq in E0 by done. by injection E0 as <-.
    + destruct (Hback2 _ _ Hy E0) as (e1 & E1 & -> & _). exact (Forall_lookup_1 _ _ _ _ (ck_bufs _ _ _ _ _ OK) E1).
  - by rewrite Hd.
  - intros y ey Hy Ey. destruct (Hback _ _ Ey) as (e0 & E0 & -> & ->).
    destruct (decide (y = x)) as [->|Hyx].
    + rewrite list_lookup_insert_eq in E0 by done. by injection E0 as <-.
    + destruct (Hback2 _ _ Hyx E0) as (e1 & E1 & -> & ->). eapply (ck_data _ _ _ _ _ OK y); [set_solver|done].
  - intros b. assert (block (sdevs s') = block (sdevs s)) as -> by (unfold Coherence.block; by rewrite Hd, Hsec). destruct (ck_disk _ _ _ _ _ OK b) as [|(y & ey & Hy & Ey & He & Hm)]; [by left|right].
    assert (y <> x) as Hyx by (intros ->; apply Hx1; set_solver).
    destruct (c_same_lookup _ _ _ _ Hcs Ey) as (e1 & E1 & He1 & _ & Hm1 & _).
    assert ((<[x := e]> ar) !! y = Some e1) as E1' by (by rewrite list_lookup_insert_ne).
    destruct (links_only_lookup _ _ _ _ Hlo E1') as (e2 & E2 & He2 & _ & Hm2).
    exists y, e2. rewrite He2, He1, Hm2, Hm1. split_and!; try done. set_solver.
  - exact (ck_u8 _ _ _ _ _ OK).
  - intros y ey Hy Ey. destruct (Hback _ _ Ey) as (e0 & E0 & _ & ->). destruct (decide (y = x)) as [->|Hyx].
    + rewrite list_lookup_insert_eq in E0 by done. by injection E0 as <-.
    + destruct (Hback2 _ _ Hyx E0) as (e1 & E1 & _ & ->). eapply (ck_covers _ _ _ _ _ OK y); [set_solver|done].
Qed.

(** Linking a prepared entry into the list of the device. *)
Lemma insert_ok s la lc (p : alist scache) sp e (d : devs W) ar :
  cache_view s la lc -> c_same (arr (pool s)) ar -> sp ∉ lc -> (sp < length ar)%nat ->
  arr p = <[sp := e]> ar -> alist_ok NSECACHS p (la ++ [sp]) ->
  match lc with [] => True | c :: _ => blk_at (arr (pool s)) c < s_blk e end ->
  Forall (fun x => blk_at (arr (pool s)) x <> s_blk e) lc ->
  exists p' cl l1 l2, scache_insert dev sp (SState p (clists s) d) = Ok 0 (SState p' cl d) /\
    lc = l1 ++ l2 /\ alist_ok NSECACHS p' (la ++ [sp]) /\
    (exists row, aget cl (MAJOR dev) = Some row /\ aget row (MINOR dev) = Some (head (l1 ++ sp :: l2))) /\
    cseg (arr p') None (l1 ++ sp :: l2) None /\ links_only (arr p) (arr p') /\
    Forall (fun y => blk_at (arr (pool s)) y < s_blk e) l1 /\
    Forall (fun y => s_blk e < blk_at (arr (pool s)) y) l2 /\ (lc <> [] -> l1 <> []).
Proof using Type.
  intros OK Hcs Hsp Hlen Harr Hp Hhead Hne.
  assert (arr p !! sp = Some e) as Esp by (rewrite Harr; by apply list_lookup_insert_eq).
  assert (cseg (arr p) None lc None) as Hseg.
  { rewrite Harr. apply (@seg_frame scache scache c_linked); [done|].
    eapply c_same_seg; [exact Hcs|exact (ck_seg _ _ _ _ _ OK)]. }
  assert (forall y, y <> sp -> blk_at (arr p) y = blk_at (arr (pool s)) y) as Hby
    by (intros y Hy; apply (blk_kept (arr (pool s)) ar (arr p) sp e y); [done|by rewrite Harr|done]).
  destruct (ck_row _ _ _ _ _ OK) as (row & Er1 & Er2).
  pose proof (aget_inv _ _ _ Er1) as [Hr1 _]. pose proof (aget_inv _ _ _ Er2) as [Hr2 _].
  unfold scache_insert, get_clist. msteps. cbn [clists]. msome Er1. rewrite Er2. cbn [of_option]. msteps.
  destruct lc as [|c lc]; cbn [head].
  - unfold set_clist. msteps. cbn [clists]. msome Er1. msteps. msome (aset_Some row (MINOR dev) (Some sp) Hr2). msteps.
    msome (aset_Some _ _ (<[Z.to_nat (MINOR dev) := Some sp]> row) Hr1). msteps. cbn [pool sdevs].
    erewrite bind_ok; [|apply on_pool_ok, upd_ok; exact Esp]. cbn [arr cnt abegin aend clists sdevs pool].
    set (e1 := s_set_cnext None e).
    assert (arr (AL (<[sp := e1]> (arr p)) (cnt p) (abegin p) (aend p)) !! sp = Some e1) as E1 by
      (cbn; apply list_lookup_insert_eq; by rewrite Harr, length_insert).
    erewrite bind_ok; [|apply on_pool_ok, upd_ok; exact E1].
    cbn [arr cnt abegin aend clists sdevs pool]. rewrite list_insert_insert_eq.
    set (e2 := s_set_clast None e1). assert (links_only (arr p) (<[sp := e2]> (arr p))) as Hlo.
    { apply (links_only_insert _ _ e); [done|by destruct e]. }
    eexists _, _, [], []. split; [reflexivity|]. cbn [app head]. split_and!; try done.
    + by apply (a_same_ok _ (<[sp := e2]> (arr p))), links_only_a_same.
    + eexists. split; [apply (aget_aset _ _ _ _ (aset_Some _ _ _ Hr1))|].
      apply (aget_aset _ _ _ _ (aset_Some _ _ _ Hr2)).
    + cbn [arr]. split; [|done]. exists e2. rewrite list_lookup_insert_eq by (by rewrite Harr, length_insert). done.
  - pose proof (ck_sorted _ _ _ _ _ OK) as Hsort.
    assert (forall y, y ∈ c :: lc -> blk_at (arr p) y = blk_at (arr (pool s)) y) as Hbl.
    { intros y Hy. apply Hby. intros ->. done. }
    destruct (insert_loop_ok (s_blk e) p [] c lc sp e (length (arr p))) as
      (ar' & l1 & l2 & E & El & Hs' & H1 & H2 & Hlo & Hl1); try done.
    + apply (ck_nodup _ _ _ _ _ OK).
    + cbn [app]. clear -Hsort Hbl. induction Hsort as [|y l Hs IH Hy]; constructor.
      * apply IH. intros z Hz. apply Hbl. set_solver.
      * apply Forall_forall. intros z Hz. rewrite !Hbl by set_solver. rewrite Forall_forall in Hy. by apply Hy.
    + intros _. rewrite Hbl by set_solver. done.
    + apply Forall_forall. intros z Hz. rewrite Hbl by done. rewrite Forall_forall in Hne. by apply Hne.
    + pose proof (lc_length _ _ _ OK) as Hll. simpl in Hll. rewrite Harr, length_insert.
      apply (f_equal length) in Hcs. rewrite !length_fmap in Hcs. lia.
    + cbn [app] in El. msteps. cbn [pool]. erewrite bind_ok; [|apply on_pool_ok; exact E]. cbn [snd fst]. msteps.
      exists (with_arr ar' p), (clists s), l1, l2. split_and!; try done.
      * by apply a_same_ok, links_only_a_same.
      * exists row. split; [done|]. rewrite Er2. f_equal. destruct l1 as [|c1 l1]; [done|]. simpl in *. by injection El as ->.
      * apply Forall_forall. intros y Hy. rewrite <- Hbl by (rewrite El; set_solver).
        rewrite Forall_forall in H1. by apply H1.
      * apply Forall_forall. intros y Hy. rewrite <- Hbl by (rewrite El; set_solver).
        rewrite Forall_forall in H2. by apply H2.
Qed.

Lemma block_length (d : devs W) blk : ready d -> length (block d blk) = Z.to_nat (512 * nsec).
Proof using Type.
  intros Hr. unfold Coherence.block. rewrite length_concat, map_map.
  assert (forall l, sum_list (map (fun k => length (sector d (blk * nsec + k))) l) = (512 * length l)%nat) as Hl.
  { induction l as [|k l IH]; [done|]. simpl. rewrite sector_len by done. rewrite IH. lia. }
  rewrite Hl, length_seqZ. lia.
Qed.

(** A block that is not cached is seen as it is on the disk. *)
Lemma miss_view s la lc blk :
  cache_view s la lc -> Forall (fun x => blk_at (arr (pool s)) x <> blk) lc -> view blk = block (sdevs s) blk.
Proof using Type.
  intros OK Hall. destruct (ck_disk _ _ _ _ _ OK blk) as [|(x & e & Hx & E & He & _)]; [done|exfalso].
  rewrite Forall_forall in Hall. apply (Hall x Hx). unfold blk_at. by rewrite E.
Qed.

Lemma get_miss s la lc blk :
  cache_view s la lc -> seek_dev dev blk s = Ok None s ->
  Forall (fun x => blk_at (arr (pool s)) x <> blk) lc ->
  nsec <= 8 -> covers (blk * nsec) nsec -> cnt (pool s) < NSECACHS ->
  match lc with [] => True | c :: _ => blk_at (arr (pool s)) c < blk end ->
  exists sp s' lc' e, scache_get dev blk bs s = Ok (Some sp) s' /\ cache_view s' (la ++ [sp]) lc' /\
    sector (sdevs s') = sector (sdevs s) /\ arr (pool s') !! sp = Some e /\ s_blk e = blk /\
    take (Z.to_nat (512 * nsec)) (s_buf e) = view blk /\ lc' ≡ₚ sp :: lc /\
    Forall (fun y => blk_at (arr (pool s')) y = blk_at (arr (pool s)) y) lc.
Proof using Type.
  intros OK Es Hall Hns Hov Hcnt Hhead.
  pose proof (ck_pool _ _ _ _ _ OK) as Hp. pose proof (al_fresh _ _ _ Hp) as Hfr.
  destruct (disk_open _ (ck_ready _ _ _ _ _ OK)) as (d1 & Eo & Hr1 & Hs1).
  destruct (alloc_new_ok NSECACHS (pool s) la Hp Hcnt) as (p1 & Ea & Hp1 & [Hb1 _] & Hc1).
  set (sp := Z.to_nat (cnt (pool s))) in *. assert (c_same (arr (pool s)) (arr p1)) as Hcs by exact Hb1.
  assert (sp ∉ lc) as Hsp by (intros Hin; apply Hfr; by apply (ck_alloc _ _ _ _ _ OK)).
  pose proof (covers_range _ _ Hov) as (Hd1 & Hd2 & Hd3).
  destruct (disk_read d1 (blk * nsec) nsec Hr1 Hov)
    as (r & d2 & c & d3 & El & Er & Hr3 & Hs3).
  assert (sp < length (arr p1))%nat as Hspl.
  { pose proof (al_len _ _ _ Hp1). pose proof (al_cnt _ _ _ Hp). unfold sp. lia. }
  destruct (lookup_lt_is_Some_2 _ _ Hspl) as [e0 E0].
  assert (length (s_buf e0) = Z.to_nat NMXBLKSZ) as Hbuf0.
  { assert (c_same (arr p1) (arr (pool s))) as Hcs' by (symmetry; exact Hcs).
    destruct (c_same_lookup _ _ _ _ Hcs' E0) as (e' & E' & _ & Hb' & _).
    rewrite <- Hb'. exact (Forall_lookup_1 _ _ _ _ (ck_bufs _ _ _ _ _ OK) E'). }
  set (bytes := concat (map (fun k => sector d1 (blk * nsec + k)) (seqZ 0 nsec))) in *.
  assert (bytes = block (sdevs s) blk) as Hblock by (unfold bytes, Coherence.block; by rewrite Hs1).
  assert (length bytes = Z.to_nat (512 * nsec)) as Hlb by (rewrite Hblock; apply block_length, (ck_ready _ _ _ _ _ OK)).
  assert (bytes = view blk) as Hbytes by (rewrite Hblock; symmetry; eapply miss_view; done).
  assert (memcpy (s_buf e0) bytes (length bytes) = Some (bytes ++ drop (length bytes) (s_buf e0))) as Em.
  { rewrite memcpy_spec by (unfold NMXBLKSZ in *; lia). by rewrite firstn_all. }
  set (e := s_set_buf (bytes ++ drop (length bytes) (s_buf e0)) (s_set_blk blk e0)).
  set (p3 := with_arr (<[sp := e]> (arr p1)) p1).
  assert (alist_ok NSECACHS p3 (la ++ [sp])) as Hp3.
  { apply a_same_ok; [done|]. by apply (a_same_insert _ _ e0). }
  destruct (insert_ok s la lc p3 sp e d3 (arr p1) OK Hcs Hsp Hspl eq_refl Hp3) as
    (p4 & cl & l1 & l2 & Ei & Elc & Hp4 & Hrow & Hseg & Hlo & H1 & H2 & Hl1); [done|done|].
  destruct (disk_close d3 Hr3) as (d4 & Ec & Hr4 & Hs4).
  assert ((<[sp := e]> (arr p1)) !! sp = Some e) as Esp by (by apply list_lookup_insert_eq).
  destruct (links_only_lookup _ _ _ _ Hlo Esp) as (e4 & E4 & Hb4 & Hf4 & _).
  assert (take (Z.to_nat (512 * nsec)) (s_buf e) = view blk) as Htake.
  { cbn [s_buf e s_set_buf]. rewrite <- Hlb, take_app_length. exact Hbytes. }
  exists sp, (SState p4 cl d4), (l1 ++ sp :: l2), e4. split; [|split_and!].
  - unfold scache_get. rewrite (bind_ok _ _ _ _ _ Es).
    rewrite (bind_ok _ _ _ _ _ (on_devs_ok _ s _ _ Eo)). cbn [Z.eqb negb].
    assert (scache_alloc (pool s) = Ok (Some sp) p1) as Esa.
    { unfold scache_alloc. msteps. rewrite (proj2 (Z.ltb_lt _ _)) by done. by rewrite (bind_ok _ _ _ _ _ Ea). }
    rewrite (bind_ok _ _ _ _ _ (on_pool_ok _ (SState (pool s) (clists s) d1) _ _ Esa)). cbn [pool clists sdevs].
    rewrite (bind_ok _ _ _ _ _ (on_pool_ok _ (SState p1 (clists s) d1) _ _ (upd_ok sp _ p1 e0 E0))). cbn [pool clists sdevs].
    fold nsec. rewrite s32_small by (unfold is_s32; lia).
    set (p2 := AL _ _ _ _).
    rewrite (bind_ok _ _ _ _ _ (on_devs_ok _ (SState p2 (clists s) d1) _ _ El)). cbn [pool clists sdevs].
    rewrite (bind_ok _ _ _ _ _ (on_devs_ok _ (SState p2 (clists s) d2) _ _ Er)). cbn [pool clists sdevs snd].
    assert (fill_buf sp bytes p2 = Ok tt p3) as Ef.
    { unfold fill_buf. assert (arr p2 !! sp = Some (s_set_blk blk e0)) as E2 by (by apply list_lookup_insert_eq).
      rewrite (bind_ok _ _ _ _ _ (load_ok _ _ _ E2)). cbn [s_buf s_set_blk]. msome Em.
      rewrite (upd_ok sp _ p2 _ E2). unfold p3, with_arr, p2. cbn [arr cnt abegin aend]. by rewrite list_insert_insert_eq. }
    rewrite (bind_ok _ _ _ _ _ (on_pool_ok _ (SState p2 (clists s) d3) _ _ Ef)). cbn [pool clists sdevs].
    rewrite (bind_ok _ _ _ _ _ Ei).
    rewrite (bind_ok _ _ _ _ _ (on_devs_ok _ (SState p4 cl d3) _ _ Ec)). done.
  - eapply (cache_link s (SState p4 cl d4) la lc l1 l2 sp e d4 (arr p1)); try done.
    + by rewrite Hs4, Hs3, Hs1.
    + cbn [s_buf e s_set_buf]. rewrite length_app, length_drop. unfold NMXBLKSZ in *. lia.
  - cbn [sdevs]. by rewrite Hs4, Hs3, Hs1.
  - done.
  - by rewrite Hb4.
  - rewrite Hf4. exact Htake.
  - rewrite Elc. by rewrite Permutation_middle.
  - apply Forall_forall. intros y Hy. eapply (blk_kept _ (arr p1)); [done|exact Hlo|]. by intros ->.
Qed.
End Get.

Lemma scache_get_view {W : Type} (dev bs : Z) `{!Disk W dev} {view} s la lc blk :
  cache_view dev bs view s la lc -> nsec bs <= 8 -> covers (blk * nsec bs) (nsec bs) ->
  cnt (pool s) < NSECACHS ->
  match lc with [] => True | c :: _ => blk_at (arr (pool s)) c <= blk end ->
  exists sp s' la' lc' e, scache_get dev blk bs s = Ok (Some sp) s' /\ cache_view dev bs view s' la' lc' /\
    sector (sdevs s') = sector (sdevs s) /\ arr (pool s') !! sp = Some e /\ s_blk e = blk /\
    take (Z.to_nat (512 * nsec bs)) (s_buf e) = view blk /\ lc ⊆ lc' /\
    sp ∈ lc' /\ cnt (pool s') <= cnt (pool s) + 1 /\
    Forall (fun y => blk_at (arr (pool s')) y = blk_at (arr (pool s)) y) lc.
Proof.
  intros OK Hn Hov Hc Hh. destruct (seek_spec dev bs s la lc blk OK) as [(x & Es & Hx & Hb)|[Es Hall]].
  - destruct (get_hit dev bs s la lc blk x OK Es Hx Hb) as (s' & la' & e & E & OK' & Hd & Ee & Heb & Ht & Hk & Hkept).
    exists x, s', la', lc, e. rewrite Hd. split_and!; try done. lia.
  - destruct (get_miss dev bs s la lc blk OK Es Hall Hn Hov Hc) as (sp & s' & lc' & e & E & OK' & Hd & Ee & Heb & Ht & Hperm & Hkept).
    { destruct lc as [|c lc]; [done|]. apply Forall_cons in Hall as [? _]. lia. }
    exists sp, s', (la ++ [sp]), lc', e. split_and!; try done.
    + rewrite Hperm. set_solver.
    + rewrite Hperm. set_solver.
    + pose proof (al_length _ _ _ (ck_pool _ _ _ _ _ OK)). pose proof (al_length _ _ _ (ck_pool _ _ _ _ _ OK')).
      rewrite length_app in *. pose proof (al_cnt _ _ _ (ck_pool _ _ _ _ _ OK)). cbn in *. lia.
Qed.

Lemma scache_get_ok {W : Type} (dev bs : Z) `{!Disk W dev} s la lc blk :
  cache_ok dev bs s la lc -> nsec bs <= 8 -> covers (blk * nsec bs) (nsec bs) ->
  cnt (pool s) < NSECACHS ->
  match lc with [] => True | c :: _ => blk_at (arr (pool s)) c <= blk end ->
  exists sp s' la' lc' e, scache_get dev blk bs s = Ok (Some sp) s' /\ cache_ok dev bs s' la' lc' /\
    sector (sdevs s') = sector (sdevs s) /\ arr (pool s') !! sp = Some e /\ s_blk e = blk /\
    take (Z.to_nat (512 * nsec bs)) (s_buf e) = block dev bs (sdevs s) blk /\ lc ⊆ lc' /\
    sp ∈ lc' /\ cnt (pool s') <= cnt (pool s) + 1.
Proof.
  intros OK Hn Hov Hc Hh.
  destruct (scache_get_view dev bs s la lc blk OK Hn Hov Hc Hh) as (sp & s' & la' & lc' & e & E & OK' & Hd & Ee & Heb & Ht & Hsub & Hin & Hcnt & _).
  exists sp, s', la', lc', e. split_and!; try done. unfold cache_ok.
  assert (block dev bs (sdevs s') = block dev bs (sdevs s)) as -> by (unfold block; by rewrite Hd). done.
Qed.

(** C10: the sector cache returns for every block a buffer that holds that
    block of the disk, whether it was cached or not, and stays coherent, as long
    as it has unused entries and no block in front of the first one cached is
    asked for. *)
Theorem scache_get_coherent {W : Type} (dev bs : Z) `{!Disk W dev} s la lc blk :
  cache_ok dev bs s la lc -> nsec bs <= 8 -> covers (blk * nsec bs) (nsec bs) ->
  cnt (pool s) < NSECACHS ->
  match lc with [] => True | c :: _ => blk_at (arr (pool s)) c <= blk end ->
  exists sp s' la' lc' e, scache_get dev blk bs s = Ok (Some sp) s' /\ cache_ok dev bs s' la' lc' /\
    sector (sdevs s') = sector (sdevs s) /\ arr (pool s') !! sp = Some e /\ s_blk e = blk /\
    take (Z.to_nat (512 * nsec bs)) (s_buf e) = block dev bs (sdevs s) blk /\ lc ⊆ lc'.
Proof.
  intros OK Hn Hov Hc Hh.
  destruct (scache_get_ok dev bs s la lc blk OK Hn Hov Hc Hh) as (sp & s' & la' & lc' & e & H). naive_solver.
Qed.

(** Asking for an uncached block in front of the first cached one stores
    through the null [clast] of that first entry, in every well-formed list. *)
Theorem scache_insert_front_faults (c item : nat) rest (p : alist scache) fuel :
  cseg (arr p) None (c :: rest) None -> (item < length (arr p))%nat -> c <> item ->
  blk_at (arr p) item < blk_at (arr p) c -> (0 < fuel)%nat ->
  insert_loop fuel c item p = Err NullDeref.
Proof.
  intros [(e & Ec & Hcl & _) _] Hil Hne Hlt Hf. destruct fuel as [|fuel]; [lia|]. cbn [insert_loop].
  destruct (lookup_lt_is_Some_2 _ _ Hil) as [i Ei]. unfold blk_at in Hlt. rewrite Ec, Ei in Hlt. cbn in Hcl.
  rewrite (bind_ok _ _ _ _ _ (load_ok _ _ _ Ec)), (bind_ok _ _ _ _ _ (load_ok _ _ _ Ei)).
  destruct (Z.eqb_spec (s_blk e) (s_blk i)); [lia|]. rewrite (proj2 (Z.ltb_lt _ _)) by done.
  unfold insert_before. rewrite bind_assoc, (bind_ok _ _ _ _ _ (load_ok _ _ _ Ec)). rewrite Hcl, bind_assoc.
  rewrite (bind_ok _ _ _ _ _ (upd_ok item _ p i Ei)).
  set (p1 := AL (<[item := s_set_clast None i]> (arr p)) (cnt p) (abegin p) (aend p)).
  assert (arr p1 !! item = Some (s_set_clast None i)) as E1 by (by apply list_lookup_insert_eq).
  rewrite bind_assoc, (bind_ok _ _ _ _ _ (upd_ok item _ p1 _ E1)). cbn [arr cnt abegin aend p1]. rewrite list_insert_insert_eq.
  assert (forall x, (<[item := x]> (arr p)) !! c = Some e) as Ec2 by (intros; by rewrite list_lookup_insert_ne).
  rewrite bind_assoc, (bind_ok _ _ _ _ _ (load_ok c (AL _ _ _ _) _ (Ec2 _))). by rewrite Hcl.
Qed.

Lemma scache_insert_front_faults_witness :
  insert_loop 1 0 1 (AL [Scache 5 0 [] 0 None None None None; Scache 3 0 [] 0 None None None None] 2 None None) =
    Err NullDeref.
Proof.
  apply (scache_insert_front_faults 0 1 []); simpl; [|lia|lia|vm_compute; reflexivity|lia].
  split; [|done]. eexists. split_and!; reflexivity.
Defined.

(** * A memory disk *)

(** A driver that keeps its sectors in memory: it shows that the assumptions on
    a block device can be met, and runs the examples. *)
Record ram := Ram { r_sectors : Z -> list Z; r_pos : Z }.

Definition ram_sector (w : ram) (k : Z) : list Z :=
  if decide (length (r_sectors w k) = 512%nat /\ Forall is_u8 (r_sectors w k)) then r_sectors w k else replicate 512 0.

Definition ram_read (n : Z) : M ram (Z * list Z) :=
  w <- get ;; ret (0, concat (map (fun k => ram_sector w (r_pos w + k)) (seqZ 0 n))).

Definition ram_write (buf : list Z) (n : Z) : M ram Z :=
  modify (fun w => Ram (fun k => if decide (r_pos w <= k < r_pos w + n)
                                 then take 512 (drop (Z.to_nat (512 * (k - r_pos w))) buf)
                                 else r_sectors w k) (r_pos w)) ;;; ret 0.

Definition ram_driver : dev_blk ram :=
  DevBlk (Some (fun _ _ _ => ret 0)) (Some (fun _ => ret 0)) (Some (fun _ n => ram_read n))
    (Some (fun _ buf n => ram_write buf n))
    (Some (fun _ off _ => modify (fun w => Ram (r_sectors w) off) ;;; ret 0)) None.

Definition ram_blks : list (dev_blk ram) := ram_driver :: replicate 15 no_blk.

Lemma take_512_u8 (buf : list Z) n j :
  (Z.to_nat (512 * n) <= length buf)%nat -> Forall is_u8 (take (Z.to_nat (512 * n)) buf) -> 0 <= j < n ->
  length (take 512 (drop (Z.to_nat (512 * j)) buf)) = 512%nat /\ Forall is_u8 (take 512 (drop (Z.to_nat (512 * j)) buf)).
Proof.
  intros Hl Hu Hj. split; [rewrite length_take, length_drop; lia|].
  replace (take 512 (drop (Z.to_nat (512 * j)) buf)) with
    (take 512 (drop (Z.to_nat (512 * j)) (take (Z.to_nat (512 * n)) buf))).
  - by apply Forall_take, Forall_drop.
  - rewrite skipn_firstn_comm, take_take. f_equal. lia.
Qed.

#[export] Instance ram_disk : Disk ram 0.
Proof.
  refine {| ready d := blks d = ram_blks; sector d k := ram_sector (hw d) k;
            covers off n := 0 <= off /\ 0 <= n /\ off + n < 2 ^ 31 |}.
  - intros d k _. unfold ram_sector. case_decide; [naive_solver|]. apply length_replicate.
  - intros d k _. unfold ram_sector. case_decide; [naive_solver|]. apply Forall_replicate. unfold is_u8. lia.
  - done.
  - intros [c b h] Hb. cbn in Hb. subst b. by eexists.
  - intros [c b h] Hb. cbn in Hb. subst b. by eexists.
  - intros [c b h] off n Hb _. cbn in Hb. subst b. do 4 eexists. split_and!; reflexivity.
  - intros [c b h] off n buf Hb Hc Hl Hu. cbn in Hb. subst b. do 4 eexists. split_and!; [reflexivity..|].
    intros k. cbn. unfold ram_sector at 1. cbn. destruct (decide (off <= k < off + n)) as [Hk|]; [|done].
    rewrite decide_True; [done|]. apply (take_512_u8 buf n); [done..|lia].
Defined.

Definition zero_entry : scache := Scache 0 0 (replicate (Z.to_nat NMXBLKSZ) 0) 0 None None None None.

(** The empty cache over the devices [d]. *)
Definition empty_cache {W} (d : devs W) : sstate W :=
  SState (AL (replicate (Z.to_nat NSECACHS) zero_entry) 0 None None)
    (replicate (Z.to_nat NBLKDEVS) (replicate (Z.to_nat NBLKENTS) None)) d.

Lemma empty_cache_ok {W} (dev : Z) `{!Disk W dev} bs (d : devs W) :
  ready d -> 0 <= MAJOR dev < NBLKDEVS -> 0 <= MINOR dev < NBLKENTS -> cache_ok dev bs (empty_cache d) [] [].
Proof.
  intros Hr Hmaj Hmin. split; cbn [pool clists sdevs empty_cache]; try done.
  - split; cbn [cnt arr]; [|done|unfold NSECACHS; lia|by rewrite length_replicate|unfold NSECACHS; lia].
    split; [constructor|done..].
  - exists (replicate (Z.to_nat NBLKENTS) None). unfold aget. rewrite !decide_True by lia.
    split; apply lookup_replicate_2; lia.
  - constructor.
  - constructor.
  - apply Forall_replicate. cbn [s_buf zero_entry]. apply length_replicate.
  - intros x e Hx. by apply not_elem_of_nil in Hx.
  - by left.
  - intros b. by apply block_u8.
  - intros x e Hx. by apply not_elem_of_nil in Hx.
Qed.

(** The empty cache over a memory disk. *)
Definition ram_state (sectors : Z -> list Z) : sstate ram := empty_cache (Devs [] ram_blks (Ram sectors 0)).

Lemma ram_state_ok sectors bs : cache_ok 0 bs (ram_state sectors) [] [].
Proof. apply empty_cache_ok; [done|by vm_compute|by vm_compute]. Qed.

Lemma scache_get_coherent_witness :
  exists sp s' la' lc' e, scache_get 0 0 512 (ram_state (fun _ => replicate 512 7)) = Ok (Some sp) s' /\
    cache_ok 0 512 s' la' lc' /\
    sector (sdevs s') = sector (sdevs (ram_state (fun _ => replicate 512 7))) /\ arr (pool s') !! sp = Some e /\ s_blk e = 0 /\
    take (Z.to_nat (512 * nsec 512)) (s_buf e) = block 0 512 (sdevs (ram_state (fun _ => replicate 512 7))) 0 /\ [] ⊆ lc'.
Proof.
  apply (scache_get_coherent 0 512 (ram_state (fun _ => replicate 512 7)) [] [] 0).
  - apply ram_state_ok.
  - by vm_compute.
  - by vm_compute.
  - by vm_compute.
  - exact I.
Defined.
