(* ===== verification/WriteBack.v ===== *)
(** Writing through the sector cache: a buffer of the cache is changed, which
    changes the disk as the kernel sees it; [scache_sync] of Scache stores one
    block, and [scache_commit] every block marked as changed, after which the disk
    is what the kernel sees. *)
From stdpp Require Import sorting functions.
From S2P Require Import Prelude LibC Device Alist Scache Coherence.

Lemma chunks_nat (buf : list Z) (m : nat) :
  (512 * m <= length buf)%nat ->
  concat (map (fun k => take 512 (drop (Z.to_nat (512 * k)) buf)) (seqZ 0 (Z.of_nat m))) = take (512 * m) buf.
Proof.
  induction m as [|m IH]; intros Hl; [by rewrite take_0|].
  rewrite seqZ_S, map_app, concat_app, IH by lia. cbn [map concat]. rewrite app_nil_r.
  replace (Z.to_nat (512 * (0 + Z.of_nat m))) with (512 * m)%nat by lia.
  rewrite <- (take_drop (512 * m) (take (512 * S m) buf)), take_take, skipn_firstn_comm. do 2 f_equal; lia.
Qed.

(** A buffer is the sequence of its sectors. *)
Lemma chunks (buf : list Z) n :
  0 <= n -> (Z.to_nat (512 * n) <= length buf)%nat ->
  concat (map (fun k => take 512 (drop (Z.to_nat (512 * k)) buf)) (seqZ 0 n)) = take (Z.to_nat (512 * n)) buf.
Proof.
  intros Hn Hl. rewrite <- (Z2Nat.id n) at 1 by done. rewrite chunks_nat by lia. f_equal. lia.
Qed.

Section WriteBack.
Context {W : Type} (dev bs : Z) `{!Disk W dev}.

(** Entry [sp] is [e]. *)
Definition put_entry (sp : nat) (e : scache) (s : sstate W) : sstate W :=
  SState (with_arr (<[sp := e]> (arr (pool s))) (pool s)) (clists s) (sdevs s).

(** Entry [sp], which was [e], with the bytes [b]. *)
Definition put_buf (sp : nat) (e : scache) (b : list Z) (s : sstate W) : sstate W :=
  put_entry sp (s_set_buf b e) s.

(** Only the bytes and the mode differ. *)
Definition same_place (e e' : scache) : Prop := s_set_mode 0 (s_set_buf [] e') = s_set_mode 0 (s_set_buf [] e).

Lemma same_place_inv e e' : same_place e e' ->
  s_blk e' = s_blk e /\ s_cnext e' = s_cnext e /\ s_clast e' = s_clast e /\ s_anext e' = s_anext e /\ s_alast e' = s_alast e.
Proof. destruct e, e'. unfold same_place. by intros [= -> -> -> -> -> ->]. Qed.

Lemma put_buf_upd sp e b (s : sstate W) :
  arr (pool s) !! sp = Some e -> on_pool (upd sp (s_set_buf b)) s = Ok tt (put_buf sp e b s).
Proof. intros E. by rewrite (on_pool_ok _ s _ _ (upd_ok sp _ _ e E)). Qed.

Lemma put_entry_blk sp e e' (s : sstate W) x :
  arr (pool s) !! sp = Some e -> same_place e e' -> blk_at (arr (pool (put_entry sp e' s))) x = blk_at (arr (pool s)) x.
Proof.
  intros E Hp%same_place_inv. unfold blk_at. cbn [pool put_entry arr with_arr]. destruct (decide (x = sp)) as [->|Hx].
  - rewrite list_lookup_insert_eq by (by eapply lookup_lt_Some). rewrite E. naive_solver.
  - by rewrite list_lookup_insert_ne.
Qed.

Lemma put_buf_blk sp e b (s : sstate W) x :
  arr (pool s) !! sp = Some e -> blk_at (arr (pool (put_buf sp e b s))) x = blk_at (arr (pool s)) x.
Proof. intros E. by apply put_entry_blk with e. Qed.

Lemma put_entry_seg sp e e' ar pv l nx :
  ar !! sp = Some e -> same_place e e' -> cseg ar pv l nx -> cseg (<[sp := e']> ar) pv l nx.
Proof.
  intros E Hp%same_place_inv. revert pv. induction l as [|x l IH]; intros pv; [done|]. intros [(ex & Ex & Hl & Hn) Hs].
  split; [|by apply IH]. destruct (decide (x = sp)) as [->|Hx].
  - exists e'. rewrite list_lookup_insert_eq by (by eapply lookup_lt_Some).
    rewrite E in Ex. injection Ex as <-. destruct Hp as (_ & Hcn & Hcl & _). cbn in *. by rewrite Hcn, Hcl.
  - exists ex. by rewrite list_lookup_insert_ne.
Qed.

(** What [scache_seek] needs of the state: the list of the device. *)
Lemma seek_found (s : sstate W) row lc x :
  aget (clists s) (MAJOR dev) = Some row -> aget row (MINOR dev) = Some (head lc) ->
  cseg (arr (pool s)) None lc None -> (length lc <= length (arr (pool s)))%nat ->
  StronglySorted (fun x y => blk_at (arr (pool s)) x < blk_at (arr (pool s)) y) lc -> x ∈ lc ->
  seek_dev dev (blk_at (arr (pool s)) x) s = Ok (Some x) s.
Proof using Type.
  intros E1 E2 Hseg Hlen Hsort Hx. unfold seek_dev, get_clist. msteps.
  msome E1. rewrite E2. cbn [of_option]. msteps. unfold on_pool, zoom.
  destruct (seek_loop_spec (pool s) None lc (blk_at (arr (pool s)) x) (length (arr (pool s))) Hseg Hlen)
    as [(y & -> & Hy & Hb)|[_ Hall]].
  - replace y with x; [by destruct s|]. destruct (decide (x = y)) as [|Hne]; [done|exfalso].
    apply list_elem_of_split in Hx as (l1 & l2 & ->). apply StronglySorted_app in Hsort as (H12 & _ & H2).
    apply StronglySorted_inv in H2 as [_ H2]. rewrite Forall_forall in H2.
    apply elem_of_app in Hy as [Hy|[->|Hy]%elem_of_cons]; [|done|].
    + specialize (H12 y x Hy ltac:(set_solver)). simpl in H12. lia.
    + specialize (H2 y Hy). simpl in H2. lia.
  - exfalso. rewrite Forall_forall in Hall. by apply (Hall x Hx).
Qed.

(** The sectors of block [b'] lie outside those of another block. *)
Lemma block_other (d d' : devs W) (blk b' : Z) (buf : list Z) :
  (forall k, sector d' k = if decide (blk * nsec bs <= k < blk * nsec bs + nsec bs)
                           then take 512 (drop (Z.to_nat (512 * (k - blk * nsec bs))) buf) else sector d k) ->
  b' <> blk -> block dev bs d' b' = block dev bs d b'.
Proof.
  intros Hs Hne. unfold block. f_equal. apply list_fmap_ext. intros i k Hk%lookup_seqZ. rewrite Hs.
  rewrite decide_False; [done|]. destruct (decide (b' < blk)); nia.
Qed.

Lemma block_written (d d' : devs W) (blk : Z) (buf : list Z) :
  (forall k, sector d' k = if decide (blk * nsec bs <= k < blk * nsec bs + nsec bs)
                           then take 512 (drop (Z.to_nat (512 * (k - blk * nsec bs))) buf) else sector d k) ->
  0 <= nsec bs -> (Z.to_nat (512 * nsec bs) <= length buf)%nat ->
  block dev bs d' blk = take (Z.to_nat (512 * nsec bs)) buf.
Proof.
  intros Hs Hn Hl. rewrite <- chunks by done. unfold block. f_equal. apply list_fmap_ext.
  intros i k Hk%lookup_seqZ. rewrite Hs, decide_True by lia. do 3 f_equal. lia.
Qed.

(** The state with the disk [d]. *)
Definition with_disk (d : devs W) (s : sstate W) : sstate W := SState (pool s) (clists s) d.

(** A list sorted by block has one entry per block. *)
Lemma entry_of_block {view} s la lc x y :
  cache_view dev bs view s la lc -> x ∈ lc -> y ∈ lc -> blk_at (arr (pool s)) x = blk_at (arr (pool s)) y -> x = y.
Proof using Type.
  intros OK Hx Hy Hb. destruct (ck_row _ _ _ _ _ OK) as (row & R1 & R2).
  pose proof (seek_found s row lc x R1 R2 (ck_seg _ _ _ _ _ OK) (lc_length _ _ _ _ _ OK) (ck_sorted _ _ _ _ _ OK) Hx).
  pose proof (seek_found s row lc y R1 R2 (ck_seg _ _ _ _ _ OK) (lc_length _ _ _ _ _ OK) (ck_sorted _ _ _ _ _ OK) Hy).
  congruence.
Qed.

(** A change of one entry's bytes and mode and of the disk, seen as [view']. *)
Lemma put_entry_view {view} view' s la lc sp e e' d :
  cache_view dev bs view s la lc -> arr (pool s) !! sp = Some e -> sp ∈ lc -> same_place e e' ->
  length (s_buf e') = Z.to_nat NMXBLKSZ -> ready d ->
  view' (s_blk e) = take (Z.to_nat (512 * nsec bs)) (s_buf e') ->
  (forall b', b' <> s_blk e -> view' b' = view b') -> (forall b, Forall is_u8 (view' b)) ->
  on_disk_or dev bs view' (<[sp := e']> (arr (pool s))) lc d ->
  cache_view dev bs view' (with_disk d (put_entry sp e' s)) la lc.
Proof using Type.
  intros OK E Hin Hp Hb Hr Hown Hoth Hu Hdisk. pose proof OK as [Hpool Hrow Hseg Hnd Hal Hsort Hbufs _ Hdata _ _ Hcov].
  destruct (same_place_inv _ _ Hp) as (Hpb & _ & _ & Hpn & Hpl).
  assert (blk_at (arr (pool s)) sp = s_blk e) as Hsp by (unfold blk_at; by rewrite E).
  assert (forall x ex, (<[sp := e']> (arr (pool s))) !! x = Some ex -> (x = sp /\ ex = e') \/ (x <> sp /\ arr (pool s) !! x = Some ex))
    as Hlook.
  { intros x ex Ex. destruct (decide (x = sp)) as [->|Hne]; [left|right].
    - rewrite list_lookup_insert_eq in Ex by (by eapply lookup_lt_Some). naive_solver.
    - by rewrite list_lookup_insert_ne in Ex. }
  split; cbn [pool clists sdevs with_disk put_entry arr with_arr]; try done.
  - apply a_same_ok; [done|]. by apply (a_same_insert _ _ e).
  - by eapply put_entry_seg.
  - eapply sorted_impl; [|exact Hsort]. intros x y. simpl. by rewrite !(put_entry_blk sp e e' s _ E Hp).
  - by apply Forall_insert.
  - intros x ex Hx [[-> ->]|[Hne Ex]]%Hlook; [by rewrite Hpb, Hown|].
    rewrite Hoth; [by apply (Hdata x)|]. intros Heq. apply Hne. apply (entry_of_block s la lc x sp OK); try done.
    rewrite Hsp. unfold blk_at. by rewrite Ex.
  - intros x ex Hx [[-> ->]|[_ Ex]]%Hlook; [rewrite Hpb; by apply (Hcov sp)|by apply (Hcov x)].
Qed.

(** Filling a buffer and marking its entry changes one block of the view, and
    not the disk. *)
Lemma mark_view {view} s la lc sp e b :
  cache_view dev bs view s la lc -> arr (pool s) !! sp = Some e -> sp ∈ lc -> length b = Z.to_nat NMXBLKSZ ->
  Forall is_u8 (take (Z.to_nat (512 * nsec bs)) b) ->
  cache_view dev bs (<[s_blk e := take (Z.to_nat (512 * nsec bs)) b]> view)
    (put_entry sp (s_set_mode (Z.lor (s_mode e) S_CHANGED) (s_set_buf b e)) s) la lc.
Proof using Type.
  intros OK E Hin Hb Hu. set (e' := s_set_mode _ _). set (view' := <[_ := _]> view).
  assert (forall b', b' <> s_blk e -> view' b' = view b') as Hoth by (intros; by apply fn_lookup_insert_ne).
  apply (put_entry_view (view := view) view' s la lc sp e e' (sdevs s)); try done.
  - apply (ck_ready _ _ _ _ _ OK).
  - apply fn_lookup_insert.
  - intros b'. destruct (decide (b' = s_blk e)) as [->|]; [by unfold view'; rewrite fn_lookup_insert|].
    rewrite Hoth by done. apply (ck_u8 _ _ _ _ _ OK).
  - intros b'. destruct (decide (b' = s_blk e)) as [->|Hne].
    + right. exists sp, e'. split; [done|]. split; [apply list_lookup_insert_eq; by eapply lookup_lt_Some|]. split; [done|].
      cbn [s_mode e' s_set_mode]. rewrite Z.land_lor_distr_l. unfold S_CHANGED. intros [_ H]%Z.lor_eq_0_iff. done.
    + rewrite Hoth by done. destruct (ck_disk _ _ _ _ _ OK b') as [|(x & ex & Hx & Ex & Hb' & Hm)]; [by left|right].
      exists x, ex. rewrite list_lookup_insert_ne; [done|]. intros <-. congruence.
Qed.

(** The same bytes over another disk. *)
Lemma with_disk_view {view} s la lc d :
  cache_view dev bs view s la lc -> ready d ->
  on_disk_or dev bs view (arr (pool s)) lc d ->
  cache_view dev bs view (with_disk d s) la lc.
Proof using Type. intros [] Hr Hd. by split. Qed.

(** ** [scache_sync] *)

(** [scache_sync] of a cached block stores its buffer on the disk. *)
Lemma sync_run (s : sstate W) row lc x e :
  aget (clists s) (MAJOR dev) = Some row -> aget row (MINOR dev) = Some (head lc) ->
  cseg (arr (pool s)) None lc None -> (length lc <= length (arr (pool s)))%nat ->
  StronglySorted (fun x y => blk_at (arr (pool s)) x < blk_at (arr (pool s)) y) lc ->
  ready (sdevs s) -> x ∈ lc -> arr (pool s) !! x = Some e -> nsec bs <= 8 -> covers (s_blk e * nsec bs) (nsec bs) ->
  length (s_buf e) = Z.to_nat NMXBLKSZ -> Forall is_u8 (take (Z.to_nat (512 * nsec bs)) (s_buf e)) ->
  exists d, scache_sync dev (s_blk e) bs s = Ok 0 (with_disk d s) /\ ready d /\
    block dev bs d (s_blk e) = take (Z.to_nat (512 * nsec bs)) (s_buf e) /\
    (forall b', b' <> s_blk e -> block dev bs d b' = block dev bs (sdevs s) b').
Proof using Type.
  intros R1 R2 Hseg Hlen Hsort Hready Hin E Hn Hcov Hb Hu. pose proof (covers_range _ _ Hcov) as (Hr1 & Hr2 & Hr3).
  assert ((Z.to_nat (512 * nsec bs) <= length (s_buf e))%nat) as Hl by (rewrite Hb; unfold NMXBLKSZ; lia).
  pose proof (seek_found s row lc x R1 R2 Hseg Hlen Hsort Hin) as Es. unfold blk_at in Es at 1. rewrite E in Es.
  destruct (disk_open _ Hready) as (d1 & Eo & Hd1 & Hs1).
  destruct (disk_write d1 _ _ (s_buf e) Hd1 Hcov Hl Hu) as (r & d2 & c & d3 & El & Ew & Hd3 & Hs3).
  destruct (disk_close d3 Hd3) as (d4 & Ec & Hd4 & Hs4).
  assert (forall k, sector d4 k = if decide (s_blk e * nsec bs <= k < s_blk e * nsec bs + nsec bs)
    then take 512 (drop (Z.to_nat (512 * (k - s_blk e * nsec bs))) (s_buf e)) else sector (sdevs s) k) as Hsec.
  { intros k. by rewrite Hs4, Hs3, Hs1. }
  exists d4. split; [|split; [done|split; [by eapply block_written|intros b' Hb'; by eapply block_other]]].
  unfold scache_sync. rewrite (bind_ok _ _ _ _ _ Es).
  rewrite (bind_ok _ _ _ _ _ (on_devs_ok _ s _ _ Eo)). cbn [Z.eqb negb pool clists sdevs].
  fold (nsec bs). rewrite s32_small by (unfold is_s32; lia).
  rewrite (bind_ok _ _ _ _ _ (on_devs_ok _ (SState _ _ d1) _ _ El)). cbn [pool clists sdevs].
  rewrite (bind_ok _ _ _ _ _ (on_pool_ok _ (SState _ _ d2) _ _ (load_ok _ _ _ E))). cbn [pool clists sdevs].
  rewrite (bind_ok _ _ _ _ _ (on_devs_ok _ (SState _ _ d2) _ _ Ew)). cbn [pool clists sdevs].
  by rewrite (bind_ok _ _ _ _ _ (on_devs_ok _ (SState _ _ d3) _ _ Ec)).
Qed.

Lemma sync_ok s la lc sp e b :
  cache_ok dev bs s la lc -> sp ∈ lc -> arr (pool s) !! sp = Some e -> nsec bs <= 8 ->
  covers (s_blk e * nsec bs) (nsec bs) -> length b = Z.to_nat NMXBLKSZ ->
  Forall is_u8 (take (Z.to_nat (512 * nsec bs)) b) ->
  exists d, scache_sync dev (s_blk e) bs (put_buf sp e b s) =
      Ok 0 (SState (pool (put_buf sp e b s)) (clists s) d) /\
    cache_ok dev bs (SState (pool (put_buf sp e b s)) (clists s) d) la lc /\
    block dev bs d (s_blk e) = take (Z.to_nat (512 * nsec bs)) b /\
    (forall b', b' <> s_blk e -> block dev bs d b' = block dev bs (sdevs s) b').
Proof using Type.
  intros OK Hin E Hn Hcov Hb Hu. pose proof OK as [_ (row & R1 & R2) Hseg _ _ Hsort _ Hready _ _ _ _].
  assert (same_place e (s_set_buf b e)) as Hp by done.
  destruct (sync_run (put_buf sp e b s) row lc sp (s_set_buf b e)) as (d & Es & Hd & Hown & Hoth); try done.
  - by eapply put_entry_seg.
  - cbn. rewrite length_insert. by eapply lc_length.
  - eapply sorted_impl; [|exact Hsort]. intros x y. simpl. by rewrite !(put_buf_blk sp e b s _ E).
  - cbn. apply list_lookup_insert_eq. by eapply lookup_lt_Some.
  - exists d. split; [exact Es|]. split; [|done].
    eapply (put_entry_view _ s la lc sp e (s_set_buf b e)); try done; [|by left]. intros b'. by apply block_u8.
Qed.

(** ** [scache_commit] *)

Lemma cache_view_ext view view' s la lc :
  (forall b, view b = view' b) -> cache_view dev bs view s la lc -> cache_view dev bs view' s la lc.
Proof using Type.
  intros Hv []. split; try done.
  - intros x e Hx E. rewrite <- Hv. by apply (ck_data x).
  - intros b. rewrite <- Hv. apply ck_disk.
  - intros b. rewrite <- Hv. apply ck_u8.
Qed.

(** One turn of the walk of [scache_commit]. *)
Lemma commit_step {view} p cl la lc x suf d e :
  cache_view dev bs view (SState p cl d) la lc -> nsec bs <= 8 -> x ∈ lc -> arr p !! x = Some e ->
  on_disk_or dev bs view (arr p) (x :: suf) d ->
  exists d1 r, (if negb (Z.land (s_mode e) S_CHANGED =? 0) then scache_sync dev (s_blk e) bs else ret 0) (SState p cl d) =
      Ok r (SState p cl d1) /\ ready d1 /\ on_disk_or dev bs view (arr p) suf d1.
Proof using Type.
  intros OK Hn Hx E Hd.
  destruct (Z.eqb_spec (Z.land (s_mode e) S_CHANGED) 0) as [Hz|Hz]; cbn [negb].
  - exists d, 0. split; [done|]. split; [apply (ck_ready _ _ _ _ _ OK)|]. intros b.
    destruct (Hd b) as [|(y & ey & Hy & Ey & Hb & Hm)]; [by left|right]. exists y, ey. split_and!; try done.
    apply elem_of_cons in Hy as [->|Hy]; [congruence|done].
  - destruct (ck_row _ _ _ _ _ OK) as (row & R1 & R2). pose proof (ck_data _ _ _ _ _ OK x e Hx E) as Hdata.
    destruct (sync_run (SState p cl d) row lc x e) as (d1 & Es & Hr & Hown & Hoth); try done; try apply OK.
    + by eapply lc_length.
    + by apply (ck_covers _ _ _ _ _ OK x).
    + exact (Forall_lookup_1 _ _ _ _ (ck_bufs _ _ _ _ _ OK) E).
    + rewrite Hdata. apply (ck_u8 _ _ _ _ _ OK).
    + exists d1, 0. split; [exact Es|]. split; [done|]. intros b. destruct (decide (b = s_blk e)) as [->|Hb].
      * left. by rewrite Hown.
      * rewrite Hoth by done. destruct (Hd b) as [|(y & ey & Hy & Ey & Heb & Hm)]; [by left|right].
        exists y, ey. split_and!; try done. apply elem_of_cons in Hy as [->|Hy]; [congruence|done].
Qed.

(** The entries of [suf] are the ones still to be looked at. *)
Lemma commit_loop_ok {view} p cl la lc : forall suf pre d fuel,
  cache_view dev bs view (SState p cl d) la lc -> nsec bs <= 8 -> lc = pre ++ suf -> (length suf <= fuel)%nat ->
  on_disk_or dev bs view (arr p) suf d ->
  exists d', commit_loop fuel dev bs (head suf) (SState p cl d) = Ok 0 (SState p cl d') /\
    ready d' /\ (forall b, view b = block dev bs d' b).
Proof using Type.
  induction suf as [|x suf IH]; intros pre d fuel OK Hn Hlc Hf Hd.
  - exists d. split; [by destruct fuel|]. split; [apply (ck_ready _ _ _ _ _ OK)|]. intros b.
    destruct (Hd b) as [|(x & e & Hx & _)]; [done|set_solver].
  - destruct fuel as [|fuel]; [simpl in Hf; lia|]. cbn [head commit_loop].
    assert (x ∈ lc) as Hx by (rewrite Hlc; set_solver).
    pose proof (ck_seg _ _ _ _ _ OK) as Hseg. rewrite Hlc in Hseg. apply cseg_app in Hseg as [_ [(e & E & _ & Hnx) _]].
    cbn [pool] in E. change (@nxt scache scache c_linked e) with (s_cnext e) in Hnx. rewrite hd_or_none in Hnx.
    assert (forall d0 : devs W, on_pool (load x) (SState p cl d0) = Ok e (SState p cl d0)) as El.
    { intros d0. by rewrite (on_pool_ok _ (SState p cl d0) _ _ (load_ok x p e E)). }
    rewrite (bind_ok _ _ _ _ _ (El d)).
    destruct (commit_step p cl la lc x suf d e OK Hn Hx E Hd) as (d1 & r & E1 & Hr1 & Hd1).
    rewrite (bind_ok _ _ _ _ _ E1), (bind_ok _ _ _ _ _ (El d1)), Hnx.
    apply (IH (pre ++ [x])); try done; [|by rewrite <- app_assoc|simpl in Hf; lia].
    apply (with_disk_view (SState p cl d)); try done. intros b.
    destruct (Hd1 b) as [|(y & ey & Hy & H)]; [by left|right]. exists y, ey. split; [rewrite Hlc; set_solver|done].
Qed.

Lemma commit_ok {view} s la lc :
  cache_view dev bs view s la lc -> nsec bs <= 8 ->
  exists d, scache_commit dev bs s = Ok 0 (with_disk d s) /\ cache_ok dev bs (with_disk d s) la lc /\
    (forall b, block dev bs d b = view b).
Proof using Type.
  intros OK Hn. destruct (ck_row _ _ _ _ _ OK) as (row & E1 & E2). destruct s as [p cl d].
  destruct (commit_loop_ok p cl la lc lc [] d (length (arr p)) OK Hn eq_refl (lc_length _ _ _ _ _ OK)
    (ck_disk _ _ _ _ _ OK)) as (d' & E & Hr & Hv).
  exists d'. split; [|split; [|done]].
  - unfold scache_commit, get_clist. msteps. msome E1. rewrite E2. cbn [of_option]. msteps. exact E.
  - unfold cache_ok. eapply cache_view_ext; [exact Hv|]. apply (with_disk_view (SState p cl d)); try done.
    intros b. left. apply Hv.
Qed.
End WriteBack.

(** What the file system does to change a cached block: it fills the buffer of
    the entry and syncs it. *)
Definition rewrite_block {W : Type} (dev bs blk : Z) (sp : nat) (b : list Z) : M (sstate W) Z :=
  on_pool (upd sp (s_set_buf b)) ;;; scache_sync dev blk bs.

(** A block taken from the cache, filled with any bytes and synced is on
    the disk; every other block of the disk is as before, and the cache stays
    coherent with the changed disk. *)
Theorem sync_writes_through {W : Type} (dev bs : Z) `{!Disk W dev} s la lc blk :
  cache_ok dev bs s la lc -> nsec bs <= 8 -> covers (blk * nsec bs) (nsec bs) -> cnt (pool s) < NSECACHS ->
  match lc with [] => True | c :: _ => blk_at (arr (pool s)) c <= blk end ->
  exists sp s1 la' lc', scache_get dev blk bs s = Ok (Some sp) s1 /\
    forall b, length b = Z.to_nat NMXBLKSZ -> Forall is_u8 (take (Z.to_nat (512 * nsec bs)) b) ->
    exists s2, rewrite_block dev bs blk sp b s1 = Ok 0 s2 /\
      cache_ok dev bs s2 la' lc' /\ block dev bs (sdevs s2) blk = take (Z.to_nat (512 * nsec bs)) b /\
      (forall b', b' <> blk -> block dev bs (sdevs s2) b' = block dev bs (sdevs s) b').
Proof.
  intros OK Hn Hcov Hc Hh.
  destruct (scache_get_ok dev bs s la lc blk OK Hn Hcov Hc Hh) as
    (sp & s1 & la' & lc' & e & E & OK' & Hsec & Ee & Heb & _ & _ & Hin & _).
  exists sp, s1, la', lc'. split; [done|]. intros b Hb Hu. subst blk.
  destruct (sync_ok dev bs s1 la' lc' sp e b OK' Hin Ee Hn Hcov Hb Hu) as (d & Es & OK2 & Hown & Hoth).
  eexists. split; [unfold rewrite_block; rewrite (bind_ok _ _ _ _ _ (put_buf_upd sp e b s1 Ee)); exact Es|].
  split; [done|]. split; [done|]. intros b' Hb'. cbn [sdevs]. rewrite Hoth by done. unfold block. by rewrite Hsec.
Qed.

Lemma sync_writes_through_witness :
  exists sp s1 s2, scache_get 0 3 1024 (ram_state (fun _ => replicate 512 7)) = Ok (Some sp) s1 /\
    rewrite_block 0 1024 3 sp (replicate (Z.to_nat NMXBLKSZ) 9) s1 = Ok 0 s2 /\
    block 0 1024 (sdevs s2) 3 = replicate 1024 9 /\ block 0 1024 (sdevs s2) 2 = replicate 1024 7.
Proof.
  destruct (sync_writes_through 0 1024 (ram_state (fun _ => replicate 512 7)) [] [] 3)
    as (sp & s1 & la & lc & E & H).
  - apply ram_state_ok.
  - by vm_compute.
  - by vm_compute.
  - by vm_compute.
  - exact I.
  - destruct (H (replicate (Z.to_nat NMXBLKSZ) 9)) as (s2 & E2 & _ & Hown & Hoth).
    + apply length_replicate.
    + apply Forall_take, Forall_replicate. unfold is_u8. lia.
    + exists sp, s1, s2. split; [exact E|]. split; [exact E2|]. split; [exact Hown|].
      rewrite Hoth by lia. vm_compute. reflexivity.
Defined.
