(* ===== verification/Kstate.v ===== *)
(** The state of the kernel's file system code: the vnode cache, the sector
    cache over the devices, and the tables declared in <fs.h>, <mount.h> and
    <ofile.h>.  A [struct vnode *] is followed through [vload] and [vupd]. *)
From S2P Require Import Prelude LibC Layout Device Alist Vcache Scache.

Definition NFSENTYS : Z := 5.
Definition NVFSMNTS : Z := 8.
Definition NMXOFILE : Z := 128.

(** The functions a file system's entries can point to: those of
    src/sysv3/kernel/filesys/fs/mfs.c. *)
Inductive fs_impl := MfsImpl.

(** [struct fs] *)
Record fs := Fs {
  probe : option fs_impl; blksz : option fs_impl; lsblk : option fs_impl; lnode : option fs_impl;
  snode : option fs_impl; ialloc : option fs_impl; ifree : option fs_impl; daddr : option fs_impl;
  dalloc : option fs_impl; dfree : option fs_impl
}.
Definition no_fs : fs := Fs None None None None None None None None None None.

(** [struct mountab] *)
Record mountab := Mnt {
  mt_stat : Z; mt_sblk : list Z; mt_blksize : Z; mt_fs : Z; mt_hdev : Z; mt_hino : Z; mt_root : vnode
}.

(** [struct ofile] *)
Record ofile := Of { o_oflag : Z; o_node : vptr; o_mount : option nat; o_pos : Z }.

Record kstate (W : Type) := K {
  k_vc : vcache;
  k_sc : sstate W;
  k_fs : list fs;
  k_mnt : list mountab;
  k_of : list ofile
}.
Arguments K {W}. Arguments k_vc {W}. Arguments k_sc {W}. Arguments k_fs {W}. Arguments k_mnt {W}.
Arguments k_of {W}.

Definition set_root (v : vnode) (m : mountab) : mountab :=
  Mnt (mt_stat m) (mt_sblk m) (mt_blksize m) (mt_fs m) (mt_hdev m) (mt_hino m) v.

Section Kstate.
Context {W : Type}.
(** What memory holds at an address that is not a vnode's, read as one. *)
Context (low : Z -> vnode).

Definition on_vc {A} (m : M vcache A) : M (kstate W) A :=
  zoom k_vc (fun v s => K v (k_sc s) (k_fs s) (k_mnt s) (k_of s)) m.
Definition on_sc {A} (m : M (sstate W) A) : M (kstate W) A :=
  zoom k_sc (fun c s => K (k_vc s) c (k_fs s) (k_mnt s) (k_of s)) m.
Definition set_mnts (l : list mountab) (s : kstate W) : kstate W := K (k_vc s) (k_sc s) (k_fs s) l (k_of s).
Definition set_ofs (l : list ofile) (s : kstate W) : kstate W := K (k_vc s) (k_sc s) (k_fs s) (k_mnt s) l.
Definition set_fss (l : list fs) (s : kstate W) : kstate W := K (k_vc s) (k_sc s) l (k_mnt s) (k_of s).

(** [*p] for a [struct vnode *p]. *)
Definition vload (p : vptr) : M (kstate W) vnode :=
  match p with
  | VCache i => on_vc (load i)
  | VRoot i => s <- get ;; m <- of_option OutOfBounds (k_mnt s !! i) ;; ret (mt_root m)
  | VRaw n => ret (low n)
  end.

(** Assignments to fields of [*p]; a store through a pointer that is not a
    vnode's is the null dereference. *)
Definition vupd (p : vptr) (f : vnode -> vnode) : M (kstate W) unit :=
  match p with
  | VCache i => on_vc (upd i f)
  | VRoot i =>
      s <- get ;;
      m <- of_option OutOfBounds (k_mnt s !! i) ;;
      put (set_mnts (<[i := set_root (f (mt_root m)) m]> (k_mnt s)) s)
  | VRaw _ => stop NullDeref
  end.

(** The pointer [vcache_alloc] returns. *)
Definition vp_of (p : option nat) : vptr := match p with Some i => VCache i | None => VNull end.
End Kstate.

(** Field assignments of a vnode. *)
Definition v_set_links (next parent child expand : vptr) (v : vnode) : vnode :=
  Vnode (v_name v) (v_dev v) (v_ino v) (v_mode v) (v_nlink v) (v_uid v)
    (v_gid v) (v_rdev v) (v_size v) (v_atime v) (v_mtime v) (v_ctime v)
    (v_blkentry v) (v_blocks v) (v_sem v) next parent child expand
    (v_clast v) (v_cnext v).
Definition v_set_next p v := v_set_links p (v_parent v) (v_child v) (v_expand v) v.
Definition v_set_parent p v := v_set_links (v_next v) p (v_child v) (v_expand v) v.
Definition v_set_child p v := v_set_links (v_next v) (v_parent v) p (v_expand v) v.
Definition v_set_expand p v := v_set_links (v_next v) (v_parent v) (v_child v) p v.

Definition v_set_id (dev ino : Z) (v : vnode) : vnode :=
  Vnode (v_name v) dev ino (v_mode v) (v_nlink v) (v_uid v)
    (v_gid v) (v_rdev v) (v_size v) (v_atime v) (v_mtime v) (v_ctime v)
    (v_blkentry v) (v_blocks v) (v_sem v) (v_next v) (v_parent v)
    (v_child v) (v_expand v) (v_clast v) (v_cnext v).
(** The attributes between the identifiers and the links. *)
Definition v_set_attr (name : list Z) (mode nlink uid gid rdev size atime mtime ctime blkentry blocks : Z)
    (v : vnode) : vnode :=
  Vnode name (v_dev v) (v_ino v) mode nlink uid gid rdev size atime mtime ctime blkentry blocks
    (v_sem v) (v_next v) (v_parent v) (v_child v) (v_expand v)
    (v_clast v) (v_cnext v).
