(* ===== verification/Mfs.v ===== *)
(** The kernel's Micron File System, src/sysv3/kernel/filesys/fs/mfs.c, on the
    caches of Kstate.  The super block is passed decoded; an inode is followed
    through a pointer into the sector cache, so that two pointers into one
    block alias.  [fuel] bounds the loops that follow links. *)
From S2P Require Import Prelude LibC Layout Device Alist Vcache Scache Kstate.

Definition MFS : Z := 0.

(** A [struct mfs_inode *]: the cache entry and the index in its buffer. *)
Record iptr := IPtr { ip_sp : nat; ip_ety : Z }.

Inductive bmptype := IBLK | DBLK.

(** Unsigned division of the C expressions that mix [sizeof] and fields. *)
Definition udiv (a b : Z) : option Z := if u32 b =? 0 then None else Some (u32 a / u32 b).
Definition umod (a b : Z) : option Z := if u32 b =? 0 then None else Some (u32 a mod u32 b).
(** Signed division. *)
Definition sdiv (a b : Z) : option Z := if b =? 0 then None else Some (s32 (Z.quot a b)).
Definition smod (a b : Z) : option Z := if b =? 0 then None else Some (Z.rem a b).

Section Mfs.
Context {W : Type} (low : Z -> vnode) (fuel : nat).

(** [sp->buf] *)
Definition buf_of (sp : nat) : M (kstate W) (list Z) :=
  e <- on_sc (on_pool (load sp)) ;; ret (s_buf e).
Definition buf_set (sp : nat) (b : list Z) : M (kstate W) unit :=
  on_sc (on_pool (upd sp (s_set_buf b))).

(** The inode at a pointer, read and written. *)
Definition iload (p : iptr) : M (kstate W) mfs_inode :=
  b <- buf_of (ip_sp p) ;;
  if (0 <=? ip_ety p) && (ip_ety p * 128 + 128 <=? Z.of_nat (length b)) then
    ret (decode_inode (take 128 (drop (Z.to_nat (ip_ety p * 128)) b)))
  else stop OutOfBounds.
Definition istore (p : iptr) (i : mfs_inode) : M (kstate W) unit :=
  b <- buf_of (ip_sp p) ;;
  if (0 <=? ip_ety p) && (ip_ety p * 128 + 128 <=? Z.of_nat (length b)) then
    buf_set (ip_sp p) (take (Z.to_nat (ip_ety p * 128)) b ++ encode_inode i ++
                       drop (Z.to_nat (ip_ety p * 128) + 128) b)
  else stop OutOfBounds.

(** A cache entry that must exist. *)
Definition the_entry (p : ptr) : M (kstate W) nat :=
  match p with Some sp => ret sp | None => stop NullDeref end.

(** [struct mfs_inode *mfs_get(void *sblk, dev_t dev, ino_t node)] *)
Definition mfs_get (sbp : mfs_sblk) (dev node : Z) : M (kstate W) iptr :=
  blk <- of_option DivByZero (udiv (128 * node) (s_blksize sbp)) ;;
  per <- of_option DivByZero (udiv (s_blksize sbp) 128) ;;
  ety <- of_option DivByZero (umod node per) ;;
  sp <- on_sc (scache_get dev (s32 (s_iblk sbp + s32 blk)) (s_blksize sbp)) ;;
  sp <- the_entry sp ;;
  ret (IPtr sp ety).

(** [void mfs_put(void *sblk, dev_t dev, ino_t node)] *)
Definition mfs_put (sbp : mfs_sblk) (dev node : Z) : M (kstate W) unit :=
  blk <- of_option DivByZero (udiv (128 * node) (s_blksize sbp)) ;;
  on_sc (scache_sync dev (s32 (s_iblk sbp + s32 blk)) (s_blksize sbp)) ;;;
  ret tt.

Definition bmp_start (sbp : mfs_sblk) (type : bmptype) : Z :=
  match type with IBLK => s_ibmp sbp | DBLK => s_dbmp sbp end.
Definition bmp_count (sbp : mfs_sblk) (type : bmptype) : Z :=
  match type with IBLK => s_ibmpcnt sbp | DBLK => s_dbmpcnt sbp end.

(** [void mfs_markbmp(void *sblk, dev_t dev, enum bmptype type, int index, char stat)] *)
Definition mfs_markbmp (sbp : mfs_sblk) (dev : Z) (type : bmptype) (index stat : Z) : M (kstate W) unit :=
  blk <- of_option DivByZero (sdiv index (s32 (8 * s_blksize sbp))) ;;
  ety <- of_option DivByZero (smod index (s32 (8 * s_blksize sbp))) ;;
  sp <- on_sc (scache_get dev (s32 (bmp_start sbp type + blk)) (s_blksize sbp)) ;;
  sp <- the_entry sp ;;
  b <- buf_of sp ;;
  x <- of_option OutOfBounds (aget b (Z.quot ety 8)) ;;
  b <- of_option OutOfBounds (aset b (Z.quot ety 8)
         (if stat =? 0 then u8 (Z.land x (Z.lnot (Z.shiftl 1 (7 - Z.rem ety 8))))
          else u8 (Z.lor x (Z.shiftl 1 (7 - Z.rem ety 8))))) ;;
  buf_set sp b ;;;
  on_sc (scache_sync dev (s32 (bmp_start sbp type + blk)) (s_blksize sbp)) ;;;
  ret tt.

(** [for(i=0; i<sbp->s_blksize; i++) if(buf[i] != 0xff) goto seek_byte;] *)
Fixpoint scan_bytes (n : nat) (b : list Z) (i : Z) : option (option Z) :=
  match n with
  | O => Some None
  | S n' => x ← aget b i; if negb (x =? 0xff) then Some (Some i) else scan_bytes n' b (i + 1)
  end.

(** [while((temp&0x80) != 0x80) { temp<<=1; j++; }] on an unsigned char. *)
Fixpoint scan_bits (n : nat) (temp j : Z) : option Z :=
  if negb (Z.land temp 0x80 =? 0x80) then
    match n with O => None | S n' => scan_bits n' (u8 (Z.shiftl temp 1)) (j + 1) end
  else Some j.

(** The [while(1)] of [mfs_seekbmp]: it reads the bitmap blocks 0 to [n]. *)
Fixpoint seekbmp_loop (n : nat) (sbp : mfs_sblk) (dev : Z) (type : bmptype) (blk : Z) : M (kstate W) Z :=
  sp <- on_sc (scache_get dev (s32 (bmp_start sbp type + blk)) (s_blksize sbp)) ;;
  sp <- the_entry sp ;;
  b <- buf_of sp ;;
  r <- of_option OutOfBounds (scan_bytes (Z.to_nat (s_blksize sbp)) b 0) ;;
  match r with
  | Some i =>
      x <- of_option OutOfBounds (aget b i) ;;
      j <- of_option Diverged (scan_bits 8 (u8 (Z.lnot x)) 0) ;;
      ret (j + i * 8)
  | None => match n with O => ret (-1) | S n' => seekbmp_loop n' sbp dev type (blk + 1) end
  end.

(** [int mfs_seekbmp(void *sblk, dev_t dev, enum bmptype type)] *)
Definition mfs_seekbmp (sbp : mfs_sblk) (dev : Z) (type : bmptype) : M (kstate W) Z :=
  seekbmp_loop (Z.to_nat (bmp_count sbp type)) sbp dev type 0.

(** "MFS" *)
Definition magic : list Z := [77; 70; 83].

(** [int mfs_probe(dev_t dev)] *)
Definition mfs_probe (dev : Z) : M (kstate W) Z :=
  sp <- on_sc (scache_get dev 0 512) ;;
  sp <- the_entry sp ;;
  b <- buf_of sp ;;
  c <- of_option OutOfBounds (strncmp b magic 3) ;;
  ret (if c =? 0 then 0 else -1).

(** [blkcnt_t mfs_blksz(dev_t dev)] *)
Definition mfs_blksz (dev : Z) : M (kstate W) Z :=
  sp <- on_sc (scache_get dev 0 512) ;;
  sp <- the_entry sp ;;
  b <- buf_of sp ;;
  ret (s_blksize (decode_sblk b)).

(** [int mfs_lsblk(dev_t dev, char *buf)]: the bytes copied to [buf]. *)
Definition mfs_lsblk (dev : Z) : M (kstate W) (list Z) :=
  sp <- on_sc (scache_get dev 0 NMXBLKSZ) ;;
  sp <- the_entry sp ;;
  b <- buf_of sp ;;
  ret (take (Z.to_nat NMXBLKSZ) b).

(** ** Loading nodes *)

(** The translation of an inode into a vnode (all but the links). *)
Definition translate (dev : Z) (ip : mfs_inode) (v : vnode) : option vnode :=
  nm ← strcpy (v_name v) (i_name ip);
  Some (v_set_attr nm (i_mode ip) (i_nlink ip) (i_uid ip) (i_gid ip) (i_rdev ip) (i_size ip) (i_atime ip)
          (i_mtime ip) (i_ctime ip) (i_blkentry ip) (i_blocks ip) (v_set_id dev (i_ino ip) v)).

Definition vtranslate (dev : Z) (ip : iptr) (vp : vptr) : M (kstate W) unit :=
  i <- iload ip ;;
  v <- vload low vp ;;
  v' <- of_option OutOfBounds (translate dev i v) ;;
  vupd vp (fun _ => v').

(** The loop over the expansion nodes of child [vp]; [lvep] is the previous
    expansion vnode, which also survives from the child before. *)
Fixpoint expand_loop (n : nat) (sbp : mfs_sblk) (dev : Z) (vp : vptr) (iep : iptr) (lvep : vptr)
    : M (kstate W) vptr :=
  match n with
  | O => stop Diverged
  | S n' =>
      vep <- on_vc vcache_alloc ;;
      match vep with
      | None => stop Panicked
      | Some k =>
          let vep := VCache k in
          vtranslate dev iep vep ;;;
          v <- vload low vp ;;
          vupd vep (v_set_links (v_next v) (v_parent v) (v_child v) VNull) ;;;
          (if decide (lvep = VNull) then vupd vp (v_set_expand lvep)
           else vupd lvep (v_set_expand vep)) ;;;
          i <- iload iep ;;
          if i_expand i =? 0 then ret vep
          else iep' <- mfs_get sbp dev (i_expand i) ;; expand_loop n' sbp dev vp iep' vep
      end
  end.

(** The loop over the children of [node] on the media. *)
Fixpoint child_loop (n : nat) (sbp : mfs_sblk) (dev : Z) (node : vptr) (ip : iptr) (lvp lvep : vptr)
    : M (kstate W) Z :=
  match n with
  | O => stop Diverged
  | S n' =>
      vp <- on_vc vcache_alloc ;;
      match vp with
      | None => stop Panicked
      | Some k =>
          let vp := VCache k in
          vtranslate dev ip vp ;;;
          i <- iload ip ;;
          vupd vp (fun v => v_set_links VNull node (VRaw (i_child i)) (v_expand v) v) ;;;
          (if decide (lvp = VNull) then vupd node (v_set_child vp) else vupd lvp (v_set_next vp)) ;;;
          lvep <- (if i_expand i =? 0 then ret lvep
                   else iep <- mfs_get sbp dev (i_expand i) ;; expand_loop fuel sbp dev vp iep lvep) ;;
          i <- iload ip ;;
          if i_next i =? 0 then ret 0
          else ip' <- mfs_get sbp dev (i_next i) ;; child_loop n' sbp dev node ip' vp lvep
      end
  end.

(** [int mfs_lnode(void *sblk, struct vnode *node)] *)
Definition mfs_lnode (sbp : mfs_sblk) (node : vptr) : M (kstate W) Z :=
  nd <- vload low node ;;
  ip <- mfs_get sbp (v_dev nd) (v_ino nd) ;;
  i <- iload ip ;;
  if i_child i =? 0 then vupd node (v_set_child VNull) ;;; ret 0
  else
    ip <- mfs_get sbp (v_dev nd) (i_child i) ;;
    child_loop fuel sbp (v_dev nd) node ip VNull VNull.

(** ** Saving nodes *)

(** The translation of a vnode into an inode, the links given. *)
Definition untranslate (v : vnode) (next parent child expand : Z) (i : mfs_inode) : option mfs_inode :=
  nm ← strcpy (i_name i) (v_name v);
  Some (Inode nm (v_ino v) (v_mode v) (v_nlink v) (v_uid v) (v_gid v) (v_rdev v) (v_size v) (v_atime v)
          (v_mtime v) (v_ctime v) (v_blkentry v) (v_blocks v) next parent child expand).

(** [vp->next != 0 ? vp->next->ino : 0] *)
Definition next_ino (v : vnode) : M (kstate W) Z :=
  if decide (v_next v = VNull) then ret 0 else n <- vload low (v_next v) ;; ret (v_ino n).

(** A vnode pointer as the number stored in an inode: [(ino_t) vp->child].  The
    address of a vnode is not modelled; the stores of [mfs_snode] only cast
    pointers that are not vnodes of this parent. *)
Definition cast_ino (p : vptr) : option Z := match p with VRaw n => Some (u32 n) | _ => None end.

(** [vp->child->parent == vp ? vp->child->ino : (ino_t) vp->child] *)
Definition child_ino (vp : vptr) (v : vnode) : M (kstate W) Z :=
  c <- vload low (v_child v) ;;
  if decide (v_parent c = vp) then ret (v_ino c) else of_option OutOfBounds (cast_ino (v_child v)).

(** The loop over the expansion nodes of a child, [ip] the child's inode. *)
Fixpoint save_expand (n : nat) (sbp : mfs_sblk) (dev : Z) (ip : iptr) (evp : vptr) : M (kstate W) unit :=
  match n with
  | O => stop Diverged
  | S n' =>
      ev <- vload low evp ;;
      eip <- mfs_get sbp dev (v_ino ev) ;;
      e <- iload eip ;;
      i <- iload ip ;;
      x <- vload low (v_expand ev) ;;
      e' <- of_option OutOfBounds (untranslate ev (i_next i) (i_parent i) (i_child i) (v_ino x) e) ;;
      istore eip e' ;;;
      mfs_put sbp dev (v_ino ev) ;;;
      if decide (v_expand ev = VNull) then ret tt else save_expand n' sbp dev ip (v_expand ev)
  end.

(** The loop over the children of [node]. *)
Fixpoint save_children (n : nat) (sbp : mfs_sblk) (node : vnode) (vp : vptr) : M (kstate W) Z :=
  match n with
  | O => stop Diverged
  | S n' =>
      v <- vload low vp ;;
      ip <- mfs_get sbp (v_dev node) (v_ino v) ;;
      nx <- next_ino v ;;
      ci <- child_ino vp v ;;
      i <- iload ip ;;
      i' <- of_option OutOfBounds (untranslate v nx (v_ino node) ci (i_expand i) i) ;;
      istore ip i' ;;;
      (if decide (v_expand v = VNull) then ret tt else save_expand fuel sbp (v_dev node) ip (v_expand v)) ;;;
      mfs_put sbp (v_dev node) (v_ino v) ;;;
      if decide (v_next v = VNull) then ret 0 else save_children n' sbp node (v_next v)
  end.

(** [int mfs_snode(void *sblk, struct vnode *node)] *)
Definition mfs_snode (sbp : mfs_sblk) (node : vptr) : M (kstate W) Z :=
  v <- vload low node ;;
  ip <- mfs_get sbp (v_dev v) (v_ino v) ;;
  nx <- next_ino v ;;
  ci <- child_ino node v ;;
  i <- iload ip ;;
  i' <- of_option OutOfBounds (untranslate v nx (i_parent i) ci (i_expand i) i) ;;
  istore ip i' ;;;
  mfs_put sbp (v_dev v) (v_ino v) ;;;
  if decide (v_child v = VNull) then ret 0
  else save_children fuel sbp v (v_child v).

(** ** Allocation *)

(** [struct vnode *mfs_ialloc(void *sblk, dev_t dev)] *)
Definition mfs_ialloc (sbp : mfs_sblk) (dev : Z) : M (kstate W) vptr :=
  ino <- mfs_seekbmp sbp dev IBLK ;;
  if ino =? -1 then ret VNull
  else
    mfs_markbmp sbp dev IBLK ino 1 ;;;
    vp <- on_vc vcache_alloc ;;
    vupd (vp_of vp) (v_set_id dev (u32 ino)) ;;;
    ret (vp_of vp).

(** [int mfs_ifree(void *sblk, struct vnode *node)] *)
Definition mfs_ifree (sbp : mfs_sblk) (node : vptr) : M (kstate W) Z :=
  v <- vload low node ;;
  mfs_markbmp sbp (v_dev v) IBLK (s32 (v_ino v)) 0 ;;;
  ret 0.

(** [blkcnt_t mfs_daddr(void *sblk)] *)
Definition mfs_daddr (sbp : mfs_sblk) : Z := s_dblk sbp.

(** [blkcnt_t mfs_dalloc(void *sblk, dev_t dev)] *)
Definition mfs_dalloc (sbp : mfs_sblk) (dev : Z) : M (kstate W) Z :=
  id <- mfs_seekbmp sbp dev DBLK ;;
  if id =? -1 then ret 0
  else mfs_markbmp sbp dev DBLK id 1 ;;; ret id.

(** [int mfs_dfree(void *sblk, dev_t dev, blkcnt_t blk)]: the bitmap named is
    the one of the inodes. *)
Definition mfs_dfree (sbp : mfs_sblk) (dev blk : Z) : M (kstate W) Z :=
  mfs_markbmp sbp dev IBLK blk 0 ;;; ret 0.

(** [mfs_fs]'s entries. *)
Definition set_mfs (f : fs -> fs) : M (kstate W) Z :=
  s <- get ;;
  e <- of_option OutOfBounds (aget (k_fs s) MFS) ;;
  l <- of_option OutOfBounds (aset (k_fs s) MFS (f e)) ;;
  put (set_fss l s) ;;; ret 0.

(** [int mfs_init()] and [int mfs_exit()]; the latter leaves [blksz] and
    [daddr]. *)
Definition mfs_init : M (kstate W) Z :=
  set_mfs (fun _ => Fs (Some MfsImpl) (Some MfsImpl) (Some MfsImpl) (Some MfsImpl) (Some MfsImpl)
                       (Some MfsImpl) (Some MfsImpl) (Some MfsImpl) (Some MfsImpl) (Some MfsImpl)).
Definition mfs_exit : M (kstate W) Z :=
  set_mfs (fun e => Fs None (blksz e) None None None None None (daddr e) None None).
End Mfs.
