(* ===== verification/KImage.v ===== *)
(** The kernel on the image of the builder: [mfs_get] of Mfs, over a coherent
    sector cache whose disk holds the file [mfs_end] of MkMfs writes, finds the
    inodes of the builder's table. *)
From S2P Require Import Prelude LibC Layout Bitmap MkMfs Device Alist Vcache Scache Coherence Kstate Mfs.

(** * Slices *)

Lemma take_drop_slice {A} (l : list A) n m k j :
  (k + j <= m)%nat -> take j (drop k (take m (drop n l))) = take j (drop (n + k) l).
Proof.
  intros H. rewrite skipn_firstn_comm, take_take, drop_drop. f_equal. lia.
Qed.

Lemma take_app_add {A} (l : list A) n m : take (n + m) l = take n l ++ take m (drop n l).
Proof.
  revert n. induction l as [|x l IH]; intros [|n]; simpl; try done; [by destruct m|]. by rewrite IH.
Qed.

Lemma concat_slice (l : list (list Z)) k i x :
  Forall (fun b => length b = k) l -> l !! i = Some x -> take k (drop (k * i) (concat l)) = x.
Proof.
  revert i. induction l as [|b l IH]; intros i Hl Hi; [done|]. apply Forall_cons in Hl as [Hb Hl].
  destruct i as [|i]; simpl in *.
  - injection Hi as ->. rewrite Nat.mul_0_r, drop_0. by rewrite <- Hb, take_app_length.
  - replace (k * S i)%nat with (length b + k * i)%nat by lia. rewrite drop_app_add. by apply IH.
Qed.

(** * The disk with the image *)

(** The sectors of a device that starts after the boot sector of the image. *)
Definition img_sector (img : list Z) (k : Z) : list Z := take 512 (drop (Z.to_nat (512 * (k + 1))) img).

Section Image.
Context {W : Type} (dev : Z) `{!Disk W dev}.

(** The disk holds the image. *)
Definition holds (d : devs W) (img : list Z) : Prop :=
  forall k, 0 <= k -> 512 * (k + 2) <= Z.of_nat (length img) -> sector d k = img_sector img k.

Lemma image_block d img blk :
  holds d img -> 0 <= blk -> 512 + (blk + 1) * 1024 <= Z.of_nat (length img) ->
  block dev 1024 d blk = image_blocks img blk 1.
Proof.
  intros Hh Hb Hl. unfold block, nsec. change (Z.quot 1024 512) with 2.
  change (seqZ 0 2) with [0; 1]. cbn [map concat]. rewrite app_nil_r.
  rewrite !Hh by lia. unfold img_sector, image_blocks, MFS_BLKSIZE.
  change (Z.to_nat (1024 * 1)) with (512 + 512)%nat. rewrite take_app_add, drop_drop.
  f_equal; f_equal; f_equal; lia.
Qed.

(** ** [mfs_get] *)

Lemma on_sc_ok {A} (m : M (sstate W) A) (s : kstate W) a c :
  m (k_sc s) = Ok a c -> on_sc m s = Ok a (K (k_vc s) c (k_fs s) (k_mnt s) (k_of s)).
Proof. intros E. unfold on_sc, zoom. by rewrite E. Qed.

Lemma buf_of_ok (s : kstate W) sp e :
  arr (pool (k_sc s)) !! sp = Some e -> buf_of sp s = Ok (s_buf e) s.
Proof.
  intros E. unfold buf_of. rewrite (bind_ok _ _ s e s); [done|].
  unfold on_sc, on_pool, zoom. rewrite (load_ok _ _ _ E). by destruct s as [? [] ? ? ?].
Qed.

Lemma mfs_get_ok (s : kstate W) la lc sbp node :
  cache_ok dev 1024 (k_sc s) la lc -> s_blksize sbp = 1024 -> 0 <= s_iblk sbp -> 0 <= node < 2 ^ 20 ->
  s_iblk sbp < 2 ^ 20 -> cnt (pool (k_sc s)) < NSECACHS -> covers ((s_iblk sbp + node / 8) * 2) 2 ->
  match lc with [] => True | c :: _ => blk_at (arr (pool (k_sc s))) c <= s_iblk sbp + node / 8 end ->
  exists p s' la' lc', mfs_get sbp dev node s = Ok p s' /\
    cache_ok dev 1024 (k_sc s') la' lc' /\ lc ⊆ lc' /\ sector (sdevs (k_sc s')) = sector (sdevs (k_sc s)) /\
    iload p s' = Ok (decode_inode (take 128 (drop (Z.to_nat (128 * (node mod 8)))
                      (block dev 1024 (sdevs (k_sc s)) (s_iblk sbp + node / 8))))) s'.
Proof.
  intros OK Hbs Hi Hn Hi2 Hc Hcov Hh.
  assert (udiv (128 * node) (s_blksize sbp) = Some (node / 8)) as E1.
  { unfold udiv. rewrite Hbs. change (u32 1024) with 1024. simpl. f_equal.
    rewrite u32_small by (unfold is_u32; lia). Z.div_mod_to_equations. lia. }
  assert (umod node 8 = Some (node mod 8)) as E2.
  { unfold umod. change (u32 8) with 8. simpl. by rewrite u32_small by (unfold is_u32; lia). }
  assert (0 <= node / 8 < 2 ^ 20) as Hd by (Z.div_mod_to_equations; lia).
  assert (s32 (s_iblk sbp + s32 (node / 8)) = s_iblk sbp + node / 8) as E3.
  { rewrite (s32_small (node / 8)) by (unfold is_s32; lia). apply s32_small. unfold is_s32. lia. }
  unfold mfs_get. msome E1. rewrite Hbs. change (udiv 1024 128) with (Some 8). cbn [of_option]. msteps. msome E2.
  rewrite E3.
  destruct (scache_get_ok dev 1024 (k_sc s) la lc (s_iblk sbp + node / 8) OK) as
    (sp & c' & la' & lc' & e & Eg & OK' & Hsec & Ee & Heb & Ht & Hsub & _); [by vm_compute|exact Hcov|done|done|].
  rewrite (bind_ok _ _ _ _ _ (on_sc_ok _ _ _ _ Eg)). cbn [the_entry]. msteps.
  set (s' := K (k_vc s) c' (k_fs s) (k_mnt s) (k_of s)).
  exists (IPtr sp (node mod 8)), s', la', lc'. split; [done|]. split; [done|]. split; [done|]. split; [done|].
  pose proof (Forall_lookup_1 _ _ _ _ (ck_bufs _ _ _ _ _ OK') Ee) as Hlen.
  unfold iload. cbn [ip_sp ip_ety]. rewrite (bind_ok _ _ _ _ _ (buf_of_ok s' sp e Ee)).
  assert (0 <= node mod 8 < 8) as Hm by (apply Z.mod_pos_bound; lia).
  assert ((0 <=? node mod 8) && (node mod 8 * 128 + 128 <=? Z.of_nat (length (s_buf e))) = true) as ->.
  { rewrite Hlen. unfold NMXBLKSZ. apply andb_true_iff. split; [apply Z.leb_le; lia|apply Z.leb_le; lia]. }
  unfold ret. f_equal. f_equal. rewrite <- Ht. unfold nsec. change (Z.to_nat (512 * Z.quot 1024 512)) with 1024%nat.
  change (take 1024 (s_buf e)) with (take 1024 (drop 0 (s_buf e))). rewrite take_drop_slice by lia.
  f_equal. f_equal. lia.
Qed.
End Image.

(** The bytes of inode [i] of the table lie where [mfs_get] looks. *)
Lemma inode_bytes d node n :
  wf_sizes d -> 0 <= node -> m_inodes d !! Z.to_nat node = Some n ->
  take 128 (drop (Z.to_nat (128 * (node mod 8))) (image_blocks (mfs_end d) (s_iblk new_super + node / 8) 1)) =
    encode_inode n.
Proof.
  intros Hd Hn Hi. destruct (image_regions_ok d Hd) as (_ & _ & _ & _ & Hino & _ & _).
  rewrite (wf_super d Hd) in Hino. pose proof (wf_names d Hd) as Hnm.
  rewrite <- (concat_slice (map encode_inode (m_inodes d)) 128 (Z.to_nat node) (encode_inode n)).
  - rewrite <- Hino. unfold image_blocks, MFS_BLKSIZE. pose proof (Z.mod_pos_bound node 8 ltac:(lia)).
    pose proof (lookup_lt_Some _ _ _ Hi) as Hl. rewrite (wf_inodes d Hd) in Hl.
    change (MFS_BLKSIZE * NIBLK / 128) with 8192 in Hl.
    change (s_iblkcnt new_super) with 1024. change (s_iblk new_super) with 515.
    rewrite !take_drop_slice by lia. f_equal. f_equal. Z.div_mod_to_equations. lia.
  - apply Forall_fmap. eapply Forall_impl; [exact Hnm|]. intros i E. simpl. by apply length_encode_inode.
  - by rewrite list_lookup_fmap, Hi.
Qed.

Lemma new_image_length d : wf_sizes d -> Z.of_nat (length (mfs_end d)) = 512 + 2563 * 1024.
Proof.
  intros Hd. destruct (image_regions_ok d Hd) as (_ & _ & _ & _ & _ & _ & Hl).
  rewrite (wf_super d Hd) in Hl. rewrite Hl, Z2Nat.id; [reflexivity|by vm_compute].
Qed.

Lemma kernel_reads_inode {W : Type} (dev : Z) `{!Disk W dev} (s : kstate W) d la lc node n :
  cache_ok dev 1024 (k_sc s) la lc -> cnt (pool (k_sc s)) < NSECACHS ->
  match lc with [] => True | c :: _ => blk_at (arr (pool (k_sc s))) c = 0 end ->
  wf_sizes d -> holds dev (sdevs (k_sc s)) (mfs_end d) -> covers ((s_iblk new_super + node / 8) * 2) 2 ->
  0 <= node -> m_inodes d !! Z.to_nat node = Some n -> wf_inode n ->
  exists p s' la' lc', mfs_get new_super dev node s = Ok p s' /\ iload p s' = Ok n s' /\
    cache_ok dev 1024 (k_sc s') la' lc'.
Proof.
  intros OK Hc Hh Hd Hhold Hcov Hn Hi Hwf. pose proof (lookup_lt_Some _ _ _ Hi) as Hl. rewrite (wf_inodes d Hd) in Hl.
  change (MFS_BLKSIZE * NIBLK / 128) with 8192 in Hl.
  destruct (mfs_get_ok dev s la lc new_super node OK) as (p & s' & la' & lc' & E & OK' & _ & _ & Eload);
    [done|by vm_compute|lia|by vm_compute|done|done| |].
  { destruct lc; [done|]. rewrite Hh. change (s_iblk new_super) with 515. Z.div_mod_to_equations. lia. }
  exists p, s', la', lc'. split; [done|]. split; [|done]. rewrite Eload.
  rewrite (image_block dev _ (mfs_end d)), (inode_bytes d node n) by
    (done || rewrite ?(new_image_length d Hd); change (s_iblk new_super) with 515; Z.div_mod_to_equations; lia).
  by rewrite decode_encode_inode.
Qed.

(** On a disk that holds an image of the builder, with a coherent sector
    cache that has read nothing in front of the inode region but the super
    block, the kernel's [mfs_get] of an inode number returns a pointer at which
    it reads the builder's inode of that number. *)
Theorem kernel_reads_builder_inode {W : Type} (dev : Z) `{!Disk W dev} (s : kstate W) d la lc node n :
  cache_ok dev 1024 (k_sc s) la lc -> cnt (pool (k_sc s)) < NSECACHS ->
  match lc with [] => True | c :: _ => blk_at (arr (pool (k_sc s))) c = 0 end ->
  wf_sizes d -> holds dev (sdevs (k_sc s)) (mfs_end d) -> covers ((s_iblk new_super + node / 8) * 2) 2 ->
  0 <= node -> m_inodes d !! Z.to_nat node = Some n -> wf_inode n ->
  exists p s' la' lc', mfs_get new_super dev node s = Ok p s' /\ iload p s' = Ok n s' /\
    cache_ok dev 1024 (k_sc s') la' lc'.
Proof. apply kernel_reads_inode. Qed.

(** The image of the new file system consists of bytes. *)
Lemma zeros_u8 n : Forall is_u8 (zeros n).
Proof. apply Forall_replicate. unfold is_u8. lia. Qed.

Lemma encode_inode_u8 i : Forall is_u8 (i_name i) -> Forall is_u8 (encode_inode i).
Proof. intros Hn. unfold encode_inode. rewrite !Forall_app. split_and!; done || apply le_bytes_u8. Qed.

Lemma image_u8 d :
  m_super d = new_super -> Forall is_u8 (m_boot d) -> Forall is_u8 (m_kern d) -> Forall is_u8 (m_ibmp d) ->
  Forall is_u8 (m_dbmp d) -> Forall (fun i => Forall is_u8 (i_name i)) (m_inodes d) -> Forall is_u8 (m_data d) ->
  Forall is_u8 (mfs_end d).
Proof.
  intros Hs Hb Hk Hi Hd Hn Hm. unfold mfs_end. rewrite Hs, !Forall_app. split_and!; try done.
  - unfold encode_sblk. rewrite !Forall_app. split; [repeat constructor; by vm_compute|split_and!; apply le_bytes_u8].
  - apply zeros_u8.
  - apply Forall_concat, Forall_fmap. eapply Forall_impl; [exact Hn|]. apply encode_inode_u8.
Qed.

Lemma fresh_u8 : Forall is_u8 (mfs_end fresh).
Proof.
  apply image_u8; try apply zeros_u8; [done| |].
  - apply Forall_insert; [apply zeros_u8|by vm_compute].
  - apply Forall_insert; [apply Forall_replicate, zeros_u8|].
    apply Forall_app. split; [repeat constructor; by vm_compute|apply zeros_u8].
Qed.

(** The root directory of a new file system. *)
Lemma fresh_root_node : m_inodes fresh !! Z.to_nat 0 = Some root_inode.
Proof. apply list_lookup_insert_eq. rewrite length_replicate. change (MFS_BLKSIZE * NIBLK / 128) with 8192. lia. Qed.
Lemma root_inode_wf : wf_inode root_inode.
Proof.
  split; [|repeat split; by vm_compute..]. split; [reflexivity|].
  apply Forall_app. split; [repeat constructor; unfold is_u8; lia|apply Forall_replicate; unfold is_u8; lia].
Qed.

(** The kernel with empty caches over a memory disk. *)
Definition ram_kernel (sectors : Z -> list Z) : kstate ram := K vcache0 (ram_state sectors) [] [] [].

Lemma ram_holds img :
  Forall is_u8 img -> holds 0 (sdevs (ram_state (img_sector img))) img.
Proof.
  intros Hu k Hk Hl. cbn. unfold ram_sector. cbn [r_sectors].
  rewrite decide_True; [done|]. unfold img_sector. split; [rewrite length_take, length_drop; lia|].
  by apply Forall_take, Forall_drop.
Qed.

Lemma kernel_reads_builder_inode_witness :
  exists p s' la' lc', mfs_get new_super 0 0 (ram_kernel (img_sector (mfs_end fresh))) = Ok p s' /\
    iload p s' = Ok root_inode s' /\ cache_ok 0 1024 (k_sc s') la' lc'.
Proof.
  apply (kernel_reads_builder_inode 0 (ram_kernel (img_sector (mfs_end fresh))) fresh [] [] 0 root_inode).
  - apply ram_state_ok.
  - by vm_compute.
  - exact I.
  - apply fresh_sizes.
  - apply ram_holds, fresh_u8.
  - by vm_compute.
  - lia.
  - apply fresh_root_node.
  - apply root_inode_wf.
Defined.
