(* ===== verification/Vfs.v ===== *)
(** The virtual file system: the file system switch (src/sysv3/kernel/filesys/
    fs.c), the mount table (mount.c), open files (ofile.c) and the system calls
    (vfs.c).  Paths are the bytes before the terminator.  [low] is what memory
    holds at addresses that are not vnodes, [fuel] bounds the loops over links;
    the console messages are not modelled. *)
From S2P Require Import Prelude LibC Layout Device Alist Vcache Scache Kstate Mfs.

Definition S_IRUSR : Z := 0x1.
Definition S_IWUSR : Z := 0x2.
Definition S_IFMT : Z := 0xF0000.
Definition S_IFDIR : Z := 0x40000.
Definition S_ISDIR (m : Z) : bool := Z.land m S_IFMT =? S_IFDIR.

Definition O_WRONLY : Z := 0x2.
Definition O_APPEND : Z := 0x10.
Definition O_CREAT : Z := 0x20.
Definition O_EXCL : Z := 0x40.
Definition O_TRUNC : Z := 0x80.

Definition SEEK_SET : Z := 0.
Definition SEEK_CUR : Z := 1.
Definition SEEK_END : Z := 2.

(** A file descriptor: the address of an open file entry, or another number. *)
Inductive fildes := Fd (i : nat) | BadFd.

(** What [open] returns. *)
Inductive open_result := Opened (i : nat) | Failed (code : Z).

Section Vfs.
Context {W : Type} (low : Z -> vnode) (fuel : nat).

(** * The file system switch *)

Definition fs_entry (type : Z) : M (kstate W) fs :=
  s <- get ;; of_option OutOfBounds (aget (k_fs s) type).

(** [enum fstype fs_probe(dev_t dev)] *)
Fixpoint probe_loop (n : nat) (dev i : Z) : M (kstate W) Z :=
  match n with
  | O => ret (-1)
  | S n' =>
      e <- fs_entry i ;;
      match probe e with
      | None => probe_loop n' dev (i + 1)
      | Some MfsImpl => r <- mfs_probe dev ;; if negb (r =? -1) then ret i else probe_loop n' dev (i + 1)
      end
  end.
Definition fs_probe (dev : Z) : M (kstate W) Z := probe_loop (Z.to_nat NFSENTYS) dev 0.

Definition fs_blksz (type dev : Z) : M (kstate W) Z :=
  e <- fs_entry type ;; match blksz e with None => ret (-1) | Some MfsImpl => mfs_blksz dev end.

(** The second component is what is stored in the buffer. *)
Definition fs_lsblk (type dev : Z) : M (kstate W) (Z * option (list Z)) :=
  e <- fs_entry type ;;
  match lsblk e with None => ret (-1, None) | Some MfsImpl => b <- mfs_lsblk dev ;; ret (0, Some b) end.

Definition fs_lnode (type : Z) (sbp : mfs_sblk) (node : vptr) : M (kstate W) Z :=
  e <- fs_entry type ;; match lnode e with None => ret (-1) | Some MfsImpl => mfs_lnode low fuel sbp node end.
Definition fs_snode (type : Z) (sbp : mfs_sblk) (node : vptr) : M (kstate W) Z :=
  e <- fs_entry type ;; match snode e with None => ret (-1) | Some MfsImpl => mfs_snode low fuel sbp node end.
Definition fs_ialloc (type : Z) (sbp : mfs_sblk) (dev : Z) : M (kstate W) vptr :=
  e <- fs_entry type ;; match ialloc e with None => ret VErr | Some MfsImpl => mfs_ialloc sbp dev end.
Definition fs_ifree (type : Z) (sbp : mfs_sblk) (node : vptr) : M (kstate W) Z :=
  e <- fs_entry type ;; match ifree e with None => ret (-1) | Some MfsImpl => mfs_ifree low sbp node end.
Definition fs_daddr (type : Z) (sbp : mfs_sblk) : M (kstate W) Z :=
  e <- fs_entry type ;; match daddr e with None => ret (-1) | Some MfsImpl => ret (mfs_daddr sbp) end.
Definition fs_dalloc (type : Z) (sbp : mfs_sblk) (dev : Z) : M (kstate W) Z :=
  e <- fs_entry type ;; match dalloc e with None => ret (-1) | Some MfsImpl => mfs_dalloc sbp dev end.
Definition fs_dfree (type : Z) (sbp : mfs_sblk) (dev blk : Z) : M (kstate W) Z :=
  e <- fs_entry type ;; match dfree e with None => ret (-1) | Some MfsImpl => mfs_dfree sbp dev blk end.

(** * The mount table *)

(** The first entry of the table that satisfies [f]. *)
Definition mnt_find (f : mountab -> bool) : M (kstate W) (option nat) :=
  gets (fun s => fst <$> list_find f (k_mnt s)).

(** [struct mountab *mountab_getroot()] *)
Definition mountab_getroot : M (kstate W) (option nat) :=
  s <- get ;;
  m <- of_option OutOfBounds (k_mnt s !! 0%nat) ;;
  ret (if negb (mt_stat m =? 0) then Some 0%nat else None).

(** [struct mountab *mountab_get(dev_t dev)] and
    [struct mountab *mountab_seek(dev_t hdev, ino_t hino)]; [stat] is not
    looked at. *)
Definition mountab_get (dev : Z) : M (kstate W) (option nat) :=
  mnt_find (fun m => v_dev (mt_root m) =? dev).
Definition mountab_seek (hdev hino : Z) : M (kstate W) (option nat) :=
  mnt_find (fun m => (mt_hdev m =? hdev) && (mt_hino m =? hino)).

Definition mload (i : nat) : M (kstate W) mountab :=
  s <- get ;; of_option OutOfBounds (k_mnt s !! i).
Definition mupd (i : nat) (f : mountab -> mountab) : M (kstate W) unit :=
  s <- get ;;
  m <- of_option OutOfBounds (k_mnt s !! i) ;;
  put (set_mnts (<[i := f m]> (k_mnt s)) s).

(** [int mountab_mount(dev_t hdev, ino_t hino, dev_t dev)] *)
Definition mountab_mount (hdev hino dev : Z) : M (kstate W) Z :=
  m <- mnt_find (fun m => v_dev (mt_root m) =? dev) ;;
  match m with
  | Some _ => ret (-1)
  | None =>
      m <- mnt_find (fun m => mt_stat m =? 0) ;;
      match m with
      | None => ret (-1)
      | Some i =>
          mupd i (fun m => set_root (v_set_id dev 0 (mt_root m)) m) ;;;
          mupd i (fun m => Mnt (mt_stat m) (mt_sblk m) (mt_blksize m) (mt_fs m) hdev hino (mt_root m)) ;;;
          t <- fs_probe dev ;;
          mupd i (fun m => Mnt (mt_stat m) (mt_sblk m) (mt_blksize m) t (mt_hdev m) (mt_hino m) (mt_root m)) ;;;
          if t =? -1 then ret (-1)
          else
            bs <- fs_blksz t dev ;;
            mupd i (fun m => Mnt (mt_stat m) (mt_sblk m) bs (mt_fs m) (mt_hdev m) (mt_hino m) (mt_root m)) ;;;
            r <- fs_lsblk t dev ;;
            mupd i (fun m => Mnt 1 (default (mt_sblk m) (snd r)) (mt_blksize m) (mt_fs m) (mt_hdev m) (mt_hino m)
                               (mt_root m)) ;;;
            ret 0
      end
  end.

(** [int mountab_umount(dev_t dev)] *)
Definition mountab_umount (dev : Z) : M (kstate W) Z :=
  m <- mnt_find (fun m => negb (mt_stat m =? 0) && (v_dev (mt_root m) =? dev)) ;;
  match m with
  | None => ret (-1)
  | Some i =>
      mupd i (fun m => Mnt 0 (mt_sblk m) (mt_blksize m) (mt_fs m) (mt_hdev m) (mt_hino m) (mt_root m)) ;;;
      ret 0
  end.

Definition sblk_of (m : mountab) : mfs_sblk := decode_sblk (mt_sblk m).

(** * Path lookup *)

Definition SLASH : Z := 47.

(** The component before the first '/', and what follows it: [strchr]. *)
Fixpoint split_slash (p : list Z) : option (list Z * list Z) :=
  match p with
  | [] => None
  | c :: p' =>
      if c =? SLASH then Some ([], p')
      else '(a, b) ← split_slash p'; Some (c :: a, b)
  end.

(** [if(vp->child->parent != vp) fs_lnode(mntp->fs, mntp->sblk, vp);] *)
Definition load_children (i : nat) (vp : vptr) : M (kstate W) unit :=
  v <- vload low vp ;;
  c <- vload low (v_child v) ;;
  if decide (v_parent c = vp) then ret tt
  else m <- mload i ;; fs_lnode (mt_fs m) (sblk_of m) vp ;;; ret tt.

(** [(len1==len2) && !strncmp(vp->name, pathp, len1)] *)
Definition name_is (v : vnode) (comp : list Z) : option bool :=
  len1 ← strlen (v_name v);
  if len1 =? Z.of_nat (length comp) then c ← strncmp (v_name v) comp (length comp); Some (c =? 0)
  else Some false.

(** The sibling loop on an inner component: a mount point is taken whatever
    its name. *)
Fixpoint find_dir (n : nat) (vp : vptr) (comp : list Z) : M (kstate W) vptr :=
  if decide (vp = VNull) then ret VNull else
  match n with
  | O => stop Diverged
  | S n' =>
      v <- vload low vp ;;
      m <- mountab_seek (v_dev v) (v_ino v) ;;
      match m with
      | Some i => ret (VRoot i)
      | None =>
          b <- of_option OutOfBounds (name_is v comp) ;;
          if b : bool then ret vp else find_dir n' (v_next v) comp
      end
  end.

(** The sibling loop on the last component. *)
Fixpoint find_last (n : nat) (vp : vptr) (comp : list Z) : M (kstate W) vptr :=
  if decide (vp = VNull) then ret VNull else
  match n with
  | O => stop Diverged
  | S n' =>
      v <- vload low vp ;;
      b <- of_option OutOfBounds (name_is v comp) ;;
      if b : bool then ret vp else find_last n' (v_next v) comp
  end.

(** The walk through the inner components; the result is the last directory
    and the rest of the path, or an early return. *)
Fixpoint walk (n : nat) (vp : vptr) (pathp : list Z) : M (kstate W) (vptr * list Z + vptr) :=
  match split_slash pathp with
  | None => ret (inl (vp, pathp))
  | Some (comp, rest) =>
      match n with
      | O => stop Diverged
      | S n' =>
          v <- vload low vp ;;
          m <- mountab_get (v_dev v) ;;
          match m with
          | None => ret (inr VErr)
          | Some i =>
              load_children i vp ;;;
              v <- vload low vp ;;
              vp' <- find_dir fuel (v_child v) comp ;;
              if decide (vp' = VNull) then ret (inr VNull) else walk n' vp' rest
          end
      end
  end.

(** [struct vnode *vget(char *path, int parent)].  The search for the last '/'
    at its start only sets a variable nothing reads. *)
Definition vget (path : list Z) (parent : bool) : M (kstate W) vptr :=
  match path with
  | c :: pathp =>
      if negb (c =? SLASH) then ret VErr else
      r <- mountab_getroot ;;
      match r with
      | None => ret VErr
      | Some i =>
          w <- walk (length path) (VRoot i) pathp ;;
          match w with
          | inr early => ret early
          | inl (vp, last_comp) =>
              v <- vload low vp ;;
              m <- mountab_get (v_dev v) ;;
              match m with
              | None => ret VErr
              | Some i =>
                  load_children i vp ;;;
                  if parent then ret vp
                  else
                    v <- vload low vp ;;
                    t <- find_last fuel (v_child v) last_comp ;;
                    if decide (t = VNull) then ret VNull
                    else
                      v <- vload low t ;;
                      m <- mountab_get (v_dev v) ;;
                      match m with
                      | None => ret VErr
                      | Some i => load_children i t ;;; ret t
                      end
              end
          end
      end
  | [] => ret VErr
  end.

(** * Directories *)

(** The bytes after the last '/' of an absolute path. *)
Fixpoint last_name (path : list Z) : list Z :=
  match split_slash path with
  | None => path
  | Some _ => match path with [] => [] | _ :: p' => last_name p' end
  end.

(** The values of the three calls of [time(0)]. *)
Record times := Times { t_a : Z; t_m : Z; t_c : Z }.

(** [int mkdir(char *path, mode_t mode)] *)
Definition mkdir (path : list Z) (mode : Z) (now : times) : M (kstate W) Z :=
  vp <- vget path true ;;
  if decide (vp = VNull) then ret 0
  else if decide (vp = VErr) then ret (-1)
  else
    v <- vload low vp ;;
    m <- mountab_get (v_dev v) ;;
    match m with
    | None => ret (-1)
    | Some i =>
        mt <- mload i ;;
        np <- fs_ialloc (mt_fs mt) (sblk_of mt) (v_dev v) ;;
        n <- vload low np ;;
        nm <- of_option OutOfBounds (strcpy (v_name n) (last_name path ++ [0])) ;;
        v <- vload low vp ;;
        vupd np (fun n =>
          v_set_links (v_child v) vp VNull VNull
            (v_set_attr nm (Z.lor (Z.land mode 0xFFF) S_IFDIR) 0 0 0 0 0 (t_a now) (t_m now) (t_c now) 0 0
               (v_set_id (v_dev v) (v_ino n) n))) ;;;
        vupd vp (v_set_child np) ;;;
        fs_snode (mt_fs mt) (sblk_of mt) vp ;;;
        ret 0
    end.

(** [for(vnp=vnp->child; vnp!=0; vnp=vnp->next) if(vnp->next == vp) vnp->next = vp->next;] *)
Fixpoint unlink_loop (n : nat) (vnp vp : vptr) : M (kstate W) unit :=
  if decide (vnp = VNull) then ret tt else
  match n with
  | O => stop Diverged
  | S n' =>
      x <- vload low vnp ;;
      (if decide (v_next x = vp) then v <- vload low vp ;; vupd vnp (v_set_next (v_next v)) else ret tt) ;;;
      x <- vload low vnp ;;
      unlink_loop n' (v_next x) vp
  end.

(** [int rmdir(char *path)].  When the target is not the first child, [vnp]
    has run to the null pointer by the time it is saved. *)
Definition rmdir (path : list Z) : M (kstate W) Z :=
  vp <- vget path false ;;
  v <- vload low vp ;;
  if negb (S_ISDIR (v_mode v)) then ret (-1)
  else if negb (bool_decide (v_child v = VNull)) then ret (-1)
  else
    p <- vload low (v_parent v) ;;
    vnp <- (if decide (v_child p = vp) then
              vupd (v_parent v) (v_set_child (v_next v)) ;;; ret (v_parent v)
            else unlink_loop fuel (v_child p) vp ;;; ret VNull) ;;
    v <- vload low vp ;;
    m <- mountab_get (v_dev v) ;;
    match m with
    | None => ret (-1)
    | Some i =>
        mt <- mload i ;;
        fs_ifree (mt_fs mt) (sblk_of mt) vp ;;;
        fs_snode (mt_fs mt) (sblk_of mt) vnp ;;;
        ret 0
    end.

(** * Open files *)

(** [struct ofile *ofile_alloc()] *)
Definition ofile_alloc : M (kstate W) (option nat) :=
  gets (fun s => fst <$> list_find (fun o => o_node o = VNull) (k_of s)).

Definition oload (f : fildes) : M (kstate W) ofile :=
  match f with
  | Fd i => s <- get ;; of_option OutOfBounds (k_of s !! i)
  | BadFd => stop OutOfBounds
  end.
Definition oupd (f : fildes) (g : ofile -> ofile) : M (kstate W) unit :=
  match f with
  | Fd i =>
      s <- get ;;
      o <- of_option OutOfBounds (k_of s !! i) ;;
      put (set_ofs (<[i := g o]> (k_of s)) s)
  | BadFd => stop OutOfBounds
  end.
Definition set_pos (p : Z) (o : ofile) : ofile := Of (o_oflag o) (o_node o) (o_mount o) p.

(** [ofp->mount] *)
Definition omount (o : ofile) : M (kstate W) mountab :=
  match o_mount o with Some i => mload i | None => stop NullDeref end.

(** The block of a position: the three statements that compute [blk]. *)
Definition pos_block (o : ofile) : M (kstate W) Z :=
  mt <- omount o ;;
  v <- vload low (o_node o) ;;
  q <- of_option DivByZero (sdiv (o_pos o) (mt_blksize mt)) ;;
  d <- fs_daddr (mt_fs mt) (sblk_of mt) ;;
  ret (s32 (s32 (q + v_blkentry v) + d)).

(** [off_t lseek(int fildes, off_t offset, int whence)] *)
Definition lseek (f : fildes) (offset whence : Z) : M (kstate W) Z :=
  o <- oload f ;;
  v <- vload low (o_node o) ;;
  (if whence =? SEEK_SET then oupd f (set_pos offset)
   else if whence =? SEEK_CUR then oupd f (set_pos (s32 (o_pos o + offset)))
   else if whence =? SEEK_END then oupd f (set_pos (s32 (v_size v + offset)))
   else ret tt) ;;;
  o <- oload f ;;
  if (v_size v <? u32 (o_pos o)) || (o_pos o <? 0) then ret (-1)
  else
    blk <- pos_block o ;;
    mt <- omount o ;;
    on_sc (scache_get (v_dev v) blk (mt_blksize mt)) ;;;
    ret (o_pos o).

(** [for(bc=vp->blkentry; bc<=vp->blkentry+vp->blocks; bc++) fs_dfree(..)] *)
Fixpoint free_loop (n : nat) (type : Z) (sbp : mfs_sblk) (dev bc last_ : Z) : M (kstate W) unit :=
  if last_ <? bc then ret tt else
  match n with
  | O => stop Diverged
  | S n' => fs_dfree type sbp dev bc ;;; free_loop n' type sbp dev (bc + 1) last_
  end.

(** C's [a && b] as a number. *)
Definition logical_and (a b : Z) : Z := if negb (a =? 0) && negb (b =? 0) then 1 else 0.

(** [int open(char *path, int oflag, ...)]; the flags are tested with [&&]. *)
Definition open (path : list Z) (oflag : Z) : M (kstate W) open_result :=
  vp <- vget path false ;;
  let missing := bool_decide (vp = VErr) || bool_decide (vp = VNull) in
  if missing && negb (Z.land oflag O_CREAT =? 0) && (Z.land oflag O_EXCL =? O_EXCL) then ret (Failed 0)
  else if negb missing && (Z.land oflag O_CREAT =? O_CREAT) && (Z.land oflag O_EXCL =? O_EXCL) then
    ret (Failed (-1))
  else
    v <- vload low vp ;;
    if (Z.land oflag O_RDONLY =? O_RDONLY) && negb (Z.land (v_mode v) S_IRUSR =? S_IRUSR) then ret (Failed (-1))
    else if (Z.land oflag O_WRONLY =? O_WRONLY) && negb (Z.land (v_mode v) S_IWUSR =? S_IWUSR) then
      ret (Failed (-1))
    else
      m <- mountab_get (v_dev v) ;;
      match m with
      | None => ret (Failed (-1))
      | Some i =>
          mt <- mload i ;;
          scp <- on_sc (scache_get (v_dev v) (v_blkentry v) (mt_blksize mt)) ;;
          match scp with
          | None => ret (Failed (-1))
          | Some _ =>
              k <- ofile_alloc ;;
              match k with
              | None => ret (Failed (-1))
              | Some k =>
                  oupd (Fd k) (fun o => Of oflag vp (Some i) (o_pos o)) ;;;
                  (if logical_and oflag O_APPEND =? O_APPEND then oupd (Fd k) (set_pos (s32 (v_size v)))
                   else if logical_and oflag O_TRUNC =? O_TRUNC then
                     oupd (Fd k) (set_pos 0) ;;;
                     vupd vp (fun v => v_set_attr (v_name v) (v_mode v) (v_nlink v) (v_uid v) (v_gid v) (v_rdev v)
                       0 (v_atime v) (v_mtime v) (v_ctime v) (v_blkentry v) (v_blocks v) v) ;;;
                     free_loop fuel (mt_fs mt) (sblk_of mt) (v_dev v) (v_blkentry v) (v_blkentry v + v_blocks v) ;;;
                     vupd vp (fun v => v_set_attr (v_name v) (v_mode v) (v_nlink v) (v_uid v) (v_gid v) (v_rdev v)
                       (v_size v) (v_atime v) (v_mtime v) (v_ctime v) 0 0 v)
                   else oupd (Fd k) (set_pos 0)) ;;;
                  o <- oload (Fd k) ;;
                  lseek (Fd k) (o_pos o) SEEK_SET ;;;
                  ret (Opened k)
              end
          end
      end.

(** [int close(int fildes)] *)
Definition close (f : fildes) : M (kstate W) Z :=
  match f with
  | BadFd => ret (-1)
  | Fd i =>
      if (Z.to_nat NMXOFILE <=? i)%nat then ret (-1) else
      o <- oload f ;;
      v <- vload low (o_node o) ;;
      mt <- omount o ;;
      on_sc (scache_commit (v_dev v) (mt_blksize mt)) ;;;
      oupd f (fun o => Of (o_oflag o) VNull (o_mount o) (o_pos o)) ;;;
      ret 0
  end.

(** * Transfers *)

(** [if(oldblk != blk) scp = scache_get(..)]: the pointer is not set before the
    first block that differs from [oldblk]. *)
Definition transfer_block (dev blk bs oldblk : Z) (scp : option nat) : M (kstate W) nat :=
  if negb (oldblk =? blk) then p <- on_sc (scache_get dev blk bs) ;; the_entry p
  else of_option OutOfBounds scp.

(** The number of bytes of one turn, and by how much [xfer] and [i] move. *)
Definition turn (xfer disp bs : Z) : Z * Z * Z :=
  if u32 bs <? u32 (xfer + disp) then (bs - disp, u32 (xfer - bs), bs) else (xfer, 0, 0).

(** The loop of [read]: [i] is the index into the user's buffer. *)
Fixpoint read_loop (n : nat) (f : fildes) (buf : list Z) (xfer i oldblk : Z) (scp : option nat)
    : M (kstate W) (list Z) :=
  if xfer =? 0 then ret buf else
  match n with
  | O => stop Diverged
  | S n' =>
      o <- oload f ;;
      mt <- omount o ;;
      v <- vload low (o_node o) ;;
      blk <- pos_block o ;;
      disp <- of_option DivByZero (smod (o_pos o) (mt_blksize mt)) ;;
      sp <- transfer_block (v_dev v) blk (mt_blksize mt) oldblk scp ;;
      b <- buf_of sp ;;
      let '(cnt, xfer', step) := turn xfer disp (mt_blksize mt) in
      if (disp <? 0) || (cnt <? 0) then stop OutOfBounds else
      buf' <- of_option OutOfBounds
        (r ← memcpy (drop (Z.to_nat i) buf) (drop (Z.to_nat disp) b) (Z.to_nat cnt);
         Some (take (Z.to_nat i) buf ++ r)) ;;
      oupd f (set_pos (s32 (o_pos o + cnt))) ;;;
      o <- oload f ;;
      if v_size v <? u32 (o_pos o) then oupd f (set_pos (s32 (v_size v))) ;;; ret buf'
      else read_loop n' f buf' xfer' (u32 (i + step)) blk (Some sp)
  end.

(** [ssize_t read(int fildes, void *buf, size_t nbyte)]: [buf] is the user's
    memory from the pointer on, [stack] the value of the uninitialised
    [oldblk]. *)
Definition read (f : fildes) (buf : list Z) (nbyte stack : Z) : M (kstate W) (Z * list Z) :=
  b <- read_loop fuel f buf (u32 nbyte) 0 stack None ;; ret (s32 nbyte, b).

Fixpoint write_loop (n : nat) (f : fildes) (buf : list Z) (xfer i oldblk : Z) (scp : option nat)
    : M (kstate W) unit :=
  if xfer =? 0 then ret tt else
  match n with
  | O => stop Diverged
  | S n' =>
      o <- oload f ;;
      mt <- omount o ;;
      v <- vload low (o_node o) ;;
      blk <- pos_block o ;;
      disp <- of_option DivByZero (smod (o_pos o) (mt_blksize mt)) ;;
      sp <- transfer_block (v_dev v) blk (mt_blksize mt) oldblk scp ;;
      b <- buf_of sp ;;
      let '(cnt, xfer', step) := turn xfer disp (mt_blksize mt) in
      if (disp <? 0) || (cnt <? 0) then stop OutOfBounds else
      b' <- of_option OutOfBounds
        (r ← memcpy (drop (Z.to_nat disp) b) (drop (Z.to_nat i) buf) (Z.to_nat cnt);
         Some (take (Z.to_nat disp) b ++ r)) ;;
      on_sc (on_pool (upd sp (fun e => s_set_mode (Z.lor (s_mode e) S_CHANGED) (s_set_buf b' e)))) ;;;
      oupd f (set_pos (s32 (o_pos o + cnt))) ;;;
      o <- oload f ;;
      if v_size v <? u32 (o_pos o) then oupd f (set_pos (s32 (v_size v)))
      else write_loop n' f buf xfer' (u32 (i + step)) blk (Some sp)
  end.

(** [ssize_t write(int fildes, void *buf, size_t nbyte)] *)
Definition write (f : fildes) (buf : list Z) (nbyte stack : Z) : M (kstate W) Z :=
  write_loop fuel f buf (u32 nbyte) 0 stack None ;;; ret (s32 nbyte).
End Vfs.
