(* ===== verification/FileIO.v ===== *)
(** Reading an open file: [read] of Vfs returns the bytes of the file's blocks
    as the sector cache shows them, which are those on the disk when the cache is
    coherent. *)
From stdpp Require Import sorting.
From S2P Require Import Prelude LibC Layout Device Alist Vcache Scache Coherence Kstate Mfs MkMfs KImage Vfs.

(** The block of the disk that holds the byte of the file at [pos]. *)
Definition file_block (v : vnode) (mt : mountab) (pos : Z) : Z :=
  pos / 1024 + v_blkentry v + s_dblk (sblk_of mt).

(** The byte of the file at [pos], on a disk that shows the blocks [view]. *)
Definition file_byte (view : Z -> list Z) (v : vnode) (mt : mountab) (pos : Z) : option Z :=
  view (file_block v mt pos) !! Z.to_nat (pos mod 1024).

(** [b'] is [b] with [n] bytes of the file from [pos] on stored at index [at_]. *)
Definition read_into (view : Z -> list Z) (v : vnode) (mt : mountab) (b b' : list Z) (at_ pos n : Z) : Prop :=
  length b' = length b /\
  forall j : nat, b' !! j =
    if decide (at_ <= Z.of_nat j < at_ + n) then file_byte view v mt (pos + (Z.of_nat j - at_)) else b !! j.

Lemma read_into_nil view v mt b at_ pos : read_into view v mt b b at_ pos 0.
Proof. split; [done|]. intros j. rewrite decide_False by lia. done. Qed.

Lemma read_into_app view v mt b b1 b2 at_ pos c n :
  0 <= c -> 0 <= n -> read_into view v mt b b1 at_ pos c -> read_into view v mt b1 b2 (at_ + c) (pos + c) n ->
  read_into view v mt b b2 at_ pos (c + n).
Proof.
  intros Hc Hn [L1 H1] [L2 H2]. split; [congruence|]. intros j. rewrite H2, H1.
  repeat case_decide; try lia; try done. f_equal. lia.
Qed.

Lemma read_into_chunk view v mt b at_ pos c :
  length (view (file_block v mt pos)) = 1024%nat ->
  0 <= at_ -> 0 <= pos -> 0 <= c -> pos mod 1024 + c <= 1024 -> at_ + c <= Z.of_nat (length b) ->
  read_into view v mt b
    (take (Z.to_nat at_) b ++ take (Z.to_nat c) (drop (Z.to_nat (pos mod 1024)) (view (file_block v mt pos)))
       ++ drop (Z.to_nat c) (drop (Z.to_nat at_) b)) at_ pos c.
Proof.
  intros Hb Ha Hp Hc Hm Hl. pose proof (Z.mod_pos_bound pos 1024 ltac:(lia)) as Hmb.
  split; [autorewrite with lens; lia|]. intros j.
  destruct (decide (Z.of_nat j < at_)).
  { rewrite decide_False by lia. rewrite lookup_app_l by (autorewrite with lens; lia).
    by rewrite lookup_take_lt by lia. }
  rewrite lookup_app_r by (autorewrite with lens; lia). rewrite length_take, Nat.min_l by lia.
  case_decide.
  - rewrite lookup_app_l by (autorewrite with lens; lia). rewrite lookup_take_lt, lookup_drop by lia.
    unfold file_byte. assert (file_block v mt (pos + (Z.of_nat j - at_)) = file_block v mt pos) as ->.
    { unfold file_block. Z.div_mod_to_equations. lia. }
    f_equal. Z.div_mod_to_equations. lia.
  - rewrite lookup_app_r by (autorewrite with lens; lia). autorewrite with lens.
    rewrite drop_drop, lookup_drop. f_equal. lia.
Qed.

Section Read.
Context {W : Type} (low : Z -> vnode) (fuel : nat) (dev : Z) `{!Disk W dev}.

(** Entry [k] of the open file table is [o], a file with vnode [v] on the mount
    [mt] of a disk with blocks of 1024 bytes. *)
Record opened (s : kstate W) (k i : nat) (o : ofile) (v : vnode) (mt : mountab) : Prop := {
  op_of : k_of s !! k = Some o;
  op_node : vload low (o_node o) s = Ok v s;
  op_mount : o_mount o = Some i;
  op_mt : k_mnt s !! i = Some mt;
  op_fs : exists e, aget (k_fs s) (mt_fs mt) = Some e /\ daddr e = Some MfsImpl;
  op_bs : mt_blksize mt = 1024;
  op_dev : v_dev v = dev;
  op_size : 0 <= v_size v < 2 ^ 31;
  op_entry : 0 <= v_blkentry v < 2 ^ 22;
  op_dblk : 0 <= s_dblk (sblk_of mt) < 2 ^ 22;
  op_covers : forall pos, 0 <= pos < v_size v -> covers (file_block v mt pos * 2) 2
}.

(** ** One turn of the loop *)

Definition with_pos (s : kstate W) (k : nat) (o : ofile) (c : sstate W) (p : Z) : kstate W :=
  K (k_vc s) c (k_fs s) (k_mnt s) (<[k := set_pos p o]> (k_of s)).

Lemma vload_frame p v (s : kstate W) (c : sstate W) l :
  vload low p s = Ok v s ->
  vload low p (K (k_vc s) c (k_fs s) (k_mnt s) l) = Ok v (K (k_vc s) c (k_fs s) (k_mnt s) l).
Proof.
  destruct p as [x|x|x]; cbn [vload].
  - unfold on_vc, zoom. cbn [k_vc]. destruct (load x (k_vc s)) as [a vc|] eqn:E; [|done].
    intros [= -> Es]. f_equal. by rewrite <- Es.
  - msteps. cbn [k_mnt]. destruct (k_mnt s !! x); [|done]. cbn [of_option]. msteps. unfold ret. by intros [= ->].
  - unfold ret. by intros [= ->].
Qed.

Lemma opened_frame s k i o v mt c p :
  opened s k i o v mt -> opened (with_pos s k o c p) k i (set_pos p o) v mt.
Proof.
  intros []. split; try done.
  - cbn. apply list_lookup_insert_eq. by eapply lookup_lt_Some.
  - cbn [o_node set_pos]. by apply vload_frame.
Qed.

Lemma pos_block_ok s k i o v mt :
  opened s k i o v mt -> 0 <= o_pos o < 2 ^ 31 ->
  pos_block low o s = Ok (file_block v mt (o_pos o)) s.
Proof.
  intros [Ho Hn Hm Hmt (e & He & Hd) Hbs Hdv Hsz Hen Hdb] Hp. unfold pos_block, omount. rewrite Hm.
  unfold mload. rewrite bind_assoc. msteps. msome Hmt. rewrite (bind_ok _ _ _ _ _ Hn).
  rewrite Hbs. unfold sdiv. cbn [Z.eqb]. msteps. unfold fs_daddr, fs_entry. msteps.
  cbn [of_option]. msteps. msome He. rewrite Hd. msteps. unfold mfs_daddr, ret, file_block. f_equal.
  rewrite Z.quot_div_nonneg by lia. assert (0 <= o_pos o / 1024 < 2 ^ 21) by (Z.div_mod_to_equations; lia).
  rewrite (s32_small (o_pos o / 1024)) by int_lia. rewrite (s32_small (_ + v_blkentry v)) by int_lia.
  apply s32_small. int_lia.
Qed.

(** The cache is coherent, has [room] unused entries, and holds nothing in
    front of block [blk]. *)
Definition cache_from (s : kstate W) (room blk : Z) : Prop :=
  exists la lc, cache_ok dev 1024 (k_sc s) la lc /\ cnt (pool (k_sc s)) + room <= NSECACHS /\
    match lc with [] => True | c :: _ => blk_at (arr (pool (k_sc s))) c <= blk end.

Lemma sorted_head_le (ar : list scache) lc sp blk :
  StronglySorted (fun x y => blk_at ar x < blk_at ar y) lc -> sp ∈ lc -> blk_at ar sp = blk ->
  match lc with [] => True | c :: _ => blk_at ar c <= blk end.
Proof.
  clear low fuel. intros Hs Hin Hb. destruct lc as [|c lc]; [done|]. apply StronglySorted_inv in Hs as [_ Hf].
  apply elem_of_cons in Hin as [->|Hin]; [lia|]. rewrite Forall_forall in Hf. specialize (Hf _ Hin). lia.
Qed.

(** The same for a cache that shows the blocks [view], with the block [lo] in
    front of which nothing is ever asked for; [blk] is the next one. *)
Definition view_from (view : Z -> list Z) (s : kstate W) (room lo blk : Z) : Prop :=
  exists la lc, cache_view dev 1024 view (k_sc s) la lc /\ cnt (pool (k_sc s)) + room <= NSECACHS /\ lo <= blk /\
    match lc with [] => lo = blk | c :: _ => blk_at (arr (pool (k_sc s))) c <= lo end.

Lemma cache_from_view s room blk :
  cache_from s room blk -> view_from (block dev 1024 (sdevs (k_sc s))) s room blk blk.
Proof.
  clear low fuel. intros (la & lc & OK & Hr & Hh). exists la, lc. split; [done|]. split; [done|]. split; [lia|]. by destruct lc.
Qed.

(** [scache_get] for one block of the file. *)
Lemma get_block view s room lo blk :
  view_from view s room lo blk -> 0 < room -> covers (blk * 2) 2 ->
  exists sp c e la lc, on_sc (scache_get dev blk 1024) s = Ok (Some sp) (K (k_vc s) c (k_fs s) (k_mnt s) (k_of s)) /\
    (cache_view dev 1024 view c la lc /\ cnt (pool c) + (room - 1) <= NSECACHS /\ sp ∈ lc /\
      (exists x, x ∈ lc /\ blk_at (arr (pool c)) x <= lo)) /\
    sector (sdevs c) = sector (sdevs (k_sc s)) /\ arr (pool c) !! sp = Some e /\ s_blk e = blk /\
    length (s_buf e) = Z.to_nat NMXBLKSZ /\ take 1024 (s_buf e) = view blk.
Proof.
  clear low fuel. intros (la & lc & OK & Hr & Hlo & Hh) Hroom Hblk.
  destruct (scache_get_view dev 1024 (k_sc s) la lc blk OK) as
    (sp & c & la' & lc' & e & E & OK' & Hs & Ee & Hb & Ht & Hsub & Hin & Hc & Hkept); [by vm_compute|exact Hblk|lia|destruct lc; [done|lia]|].
  exists sp, c, e, la', lc'. split; [by apply on_sc_ok|]. split; [|split_and!; try done].
  - split_and!; try done; [lia|]. destruct lc as [|x lc].
    + exists sp. split; [done|]. unfold blk_at. rewrite Ee. lia.
    + exists x. split; [set_solver|]. apply Forall_cons in Hkept as [-> _]. done.
  - exact (Forall_lookup_1 _ _ _ _ (ck_bufs _ _ _ _ _ OK') Ee).
Qed.

(** A cache with a block at or before [lo]. *)
Lemma view_from_any view (s : kstate W) c la lc room lo blk x l :
  cache_view dev 1024 view c la lc -> cnt (pool c) + room <= NSECACHS -> lo <= blk ->
  x ∈ lc -> blk_at (arr (pool c)) x <= lo ->
  view_from view (K (k_vc s) c (k_fs s) (k_mnt s) l) room lo blk.
Proof.
  clear low fuel. intros OK Hr Hlo Hx Hb. exists la, lc. cbn [k_sc]. split_and!; try done.
  pose proof (sorted_head_le _ _ _ _ (ck_sorted _ _ _ _ _ OK) Hx eq_refl). destruct lc; [set_solver|lia].
Qed.

Lemma view_from_room view s room room' lo blk :
  view_from view s room lo blk -> room' <= room -> view_from view s room' lo blk.
Proof. clear low fuel. intros (la & lc & OK & Hr & H) Hle. exists la, lc. split; [done|]. split; [lia|done]. Qed.

(** What is left of a turn once the block is in the buffer [b] of entry [sp]. *)
Definition copy_part (n k : nat) (o : ofile) (v : vnode) (buf b : list Z) (xfer at_ blk : Z) (sp : nat)
    : M (kstate W) (list Z) :=
  let disp := o_pos o mod 1024 in
  let '(cnt, xfer', step) := turn xfer disp 1024 in
  if (disp <? 0) || (cnt <? 0) then stop OutOfBounds else
  buf' <- of_option OutOfBounds
    (r ← memcpy (drop (Z.to_nat at_) buf) (drop (Z.to_nat disp) b) (Z.to_nat cnt);
     Some (take (Z.to_nat at_) buf ++ r)) ;;
  oupd (Fd k) (set_pos (s32 (o_pos o + cnt))) ;;;
  o <- oload (Fd k) ;;
  if v_size v <? u32 (o_pos o) then oupd (Fd k) (set_pos (s32 (v_size v))) ;;; ret buf'
  else read_loop low n (Fd k) buf' xfer' (u32 (at_ + step)) blk (Some sp).

(** The part of a turn up to the block in the cache. *)
Lemma read_head view n s k i o v mt room lo buf xfer at_ oldblk scp :
  opened s k i o v mt -> view_from view s room lo (file_block v mt (o_pos o)) -> 0 < room ->
  xfer <> 0 -> 0 <= o_pos o < v_size v -> oldblk <> file_block v mt (o_pos o) ->
  exists sp c e, read_loop low (S n) (Fd k) buf xfer at_ oldblk scp s =
      copy_part n k o v buf (s_buf e) xfer at_ (file_block v mt (o_pos o)) sp
        (K (k_vc s) c (k_fs s) (k_mnt s) (k_of s)) /\
    (forall l blk, lo <= blk -> view_from view (K (k_vc s) c (k_fs s) (k_mnt s) l) (room - 1) lo blk) /\
    sector (sdevs c) = sector (sdevs (k_sc s)) /\ length (s_buf e) = Z.to_nat NMXBLKSZ /\
    take 1024 (s_buf e) = view (file_block v mt (o_pos o)).
Proof.
  intros Hop Hca Hroom Hx Hp Hold. pose proof Hop as [Ho Hn Hmt0 Hmt Hfs Hbs Hdv Hvs Hen Hdb Hcv].
  pose proof (Hcv (o_pos o) Hp) as Hblk.
  destruct (get_block view s room lo _ Hca Hroom Hblk) as (sp & c & e & la & lc & Eg & (OK & Hcnt & _ & x & Hx1 & Hx2) & Hsec & Ee & _ & Hbl & Ht).
  exists sp, c, e. split; [|split_and!; try done; intros l blk Hlo; by eapply view_from_any].
  cbn [read_loop]. rewrite (proj2 (Z.eqb_neq _ _)) by done. unfold oload at 1. rewrite bind_assoc. msteps. msome Ho.
  unfold omount. rewrite Hmt0. unfold mload. rewrite bind_assoc. msteps. msome Hmt.
  rewrite (bind_ok _ _ _ _ _ Hn). rewrite (bind_ok _ _ _ _ _ (pos_block_ok _ _ _ _ _ _ Hop ltac:(lia))).
  rewrite Hbs. unfold smod. cbn [Z.eqb of_option]. msteps. rewrite Z.rem_mod_nonneg by lia.
  unfold transfer_block. rewrite (proj2 (Z.eqb_neq oldblk _)) by done. cbn [negb]. rewrite bind_assoc, Hdv.
  rewrite (bind_ok _ _ _ _ _ Eg). cbn [the_entry]. msteps.
  rewrite (bind_ok _ _ _ _ _ (buf_of_ok (K (k_vc s) c (k_fs s) (k_mnt s) (k_of s)) sp e Ee)). reflexivity.
Qed.

Lemma read_step view n s k i o v mt room lo buf xfer at_ oldblk scp cnt xfer' step :
  opened s k i o v mt -> view_from view s room lo (file_block v mt (o_pos o)) -> 0 < room ->
  turn xfer (o_pos o mod 1024) 1024 = (cnt, xfer', step) ->
  xfer <> 0 -> 0 <= o_pos o -> 0 < cnt -> o_pos o mod 1024 + cnt <= 1024 -> o_pos o + cnt <= v_size v ->
  0 <= at_ -> at_ + cnt <= Z.of_nat (length buf) -> oldblk <> file_block v mt (o_pos o) ->
  exists sp c buf', read_loop low (S n) (Fd k) buf xfer at_ oldblk scp s =
      read_loop low n (Fd k) buf' xfer' (u32 (at_ + step)) (file_block v mt (o_pos o)) (Some sp)
        (with_pos s k o c (o_pos o + cnt)) /\
    (forall blk, lo <= blk -> view_from view (with_pos s k o c (o_pos o + cnt)) (room - 1) lo blk) /\
    sector (sdevs c) = sector (sdevs (k_sc s)) /\
    read_into view v mt buf buf' at_ (o_pos o) cnt.
Proof.
  intros Hop Hca Hroom Hturn Hx Hp Hc Hm Hsz Ha Hlen Hold. pose proof (op_size _ _ _ _ _ _ Hop) as Hvs.
  pose proof (op_of _ _ _ _ _ _ Hop) as Ho.
  destruct (read_head view n s k i o v mt room lo buf xfer at_ oldblk scp) as (sp & c & e & Eg & Hca' & Hsec & Hbl & Ht);
    try done; [lia|]. unfold NMXBLKSZ in Hbl.
  exists sp, c. eexists. split; [|split; [exact (Hca' _)|split; [exact Hsec|]]].
  2: { apply read_into_chunk; [rewrite <- Ht, length_take; lia|done || lia..]. }
  rewrite Eg. unfold copy_part. rewrite Hturn.
  pose proof (Z.mod_pos_bound (o_pos o) 1024 ltac:(lia)) as Hmb.
  rewrite !(proj2 (Z.ltb_ge _ _)) by lia. cbn [orb].
  rewrite memcpy_spec by (autorewrite with lens; lia). cbn [mbind option_bind of_option]. msteps.
  rewrite <- Ht. change (take 1024 (s_buf e)) with (take 1024 (drop 0 (s_buf e))).
  rewrite take_drop_slice by lia. cbn [Nat.add].
  unfold oupd at 1. rewrite bind_assoc. msteps. cbn [k_of]. msome Ho. unfold oload. msteps.
  rewrite (s32_small (o_pos o + cnt)) by int_lia. cbn [k_of set_ofs].
  rewrite (bind_some _ _ (set_pos (o_pos o + cnt) o));
    [|apply list_lookup_insert_eq; by eapply lookup_lt_Some].
  cbn [o_pos set_pos]. rewrite u32_small by int_lia. rewrite (proj2 (Z.ltb_ge _ _)) by lia. reflexivity.
Qed.

(** ** The whole transfer *)

(** The number of blocks a transfer of [n] bytes from [pos] on reaches. *)
Definition nturns (pos n : Z) : Z := (pos mod 1024 + n + 1023) / 1024.

Lemma file_block_next v mt pos : file_block v mt (pos + 1024) = file_block v mt pos + 1.
Proof. clear low fuel. unfold file_block. Z.div_mod_to_equations. lia. Qed.

Lemma turn_full xfer : 1024 < xfer -> xfer < 2 ^ 31 -> turn xfer 0 1024 = (1024, xfer - 1024, 1024).
Proof.
  clear low fuel. intros H1 H2. unfold turn. change (u32 1024) with 1024. rewrite Z.add_0_r, u32_small by int_lia.
  rewrite (proj2 (Z.ltb_lt _ _)) by lia. by rewrite u32_small by int_lia.
Qed.

Lemma turn_last xfer disp : 0 <= xfer -> 0 <= disp -> xfer + disp <= 1024 -> turn xfer disp 1024 = (xfer, 0, 0).
Proof.
  clear low fuel. intros H1 H2 H3. unfold turn. change (u32 1024) with 1024. rewrite u32_small by int_lia.
  by rewrite (proj2 (Z.ltb_ge _ _)) by lia.
Qed.

Lemma file_block_mono v mt p q : p <= q -> file_block v mt p <= file_block v mt q.
Proof. clear low fuel. intros H. unfold file_block. Z.div_mod_to_equations. lia. Qed.

Lemma read_loop_zero view m s k i o v mt buf at_ oldblk scp room lo blk :
  opened s k i o v mt -> view_from view s room lo blk ->
  exists c buf' l, read_loop low m (Fd k) buf 0 at_ oldblk scp s = Ok buf' (K (k_vc s) c (k_fs s) (k_mnt s) l) /\
    l !! k = Some (set_pos (o_pos o + 0) o) /\ sector (sdevs c) = sector (sdevs (k_sc s)) /\
    read_into view v mt buf buf' at_ (o_pos o) 0 /\
    view_from view (K (k_vc s) c (k_fs s) (k_mnt s) l) room lo blk.
Proof.
  intros Hop Hca. exists (k_sc s), buf, (k_of s). split; [destruct m; by destruct s|]. rewrite Z.add_0_r.
  split; [rewrite (op_of _ _ _ _ _ _ Hop); by destruct o|]. split; [done|]. split; [apply read_into_nil|by destruct s].
Qed.

Lemma read_loop_ok view m : forall s k i o v mt room lo buf xfer at_ oldblk scp,
  opened s k i o v mt -> view_from view s room lo (file_block v mt (o_pos o)) -> nturns (o_pos o) xfer <= room ->
  nturns (o_pos o) xfer <= Z.of_nat m ->
  0 <= o_pos o -> 0 <= xfer -> o_pos o + xfer <= v_size v ->
  o_pos o mod 1024 = 0 \/ o_pos o mod 1024 + xfer <= 1024 ->
  0 <= at_ -> at_ + xfer <= Z.of_nat (length buf) -> at_ + xfer < 2 ^ 31 -> oldblk <> file_block v mt (o_pos o) ->
  exists c buf' l, read_loop low m (Fd k) buf xfer at_ oldblk scp s =
      Ok buf' (K (k_vc s) c (k_fs s) (k_mnt s) l) /\
    l !! k = Some (set_pos (o_pos o + xfer) o) /\
    sector (sdevs c) = sector (sdevs (k_sc s)) /\
    read_into view v mt buf buf' at_ (o_pos o) xfer /\
    view_from view (K (k_vc s) c (k_fs s) (k_mnt s) l) (room - nturns (o_pos o) xfer) lo (file_block v mt (o_pos o)).
Proof.
  induction m as [|m IH]; intros s k i o v mt room lo buf xfer at_ oldblk scp Hop Hca Hroom Hfuel Hp Hx Hsz Hal Ha Hl Hov Hold;
    (destruct (decide (xfer = 0)) as [->|Hx0];
     [eapply read_loop_zero; [done|eapply view_from_room; [done|unfold nturns; Z.div_mod_to_equations; lia]]|]).
  { unfold nturns in *. Z.div_mod_to_equations. lia. }
  assert (0 < room) as Hr0 by (unfold nturns in *; Z.div_mod_to_equations; lia).
  assert (lo <= file_block v mt (o_pos o)) as Hlo by (by destruct Hca as (? & ? & _ & _ & ? & _)).
  pose proof (Z.mod_pos_bound (o_pos o) 1024 ltac:(lia)) as Hmb. pose proof (op_size _ _ _ _ _ _ Hop) as Hvs.
  destruct (decide (1024 < xfer + o_pos o mod 1024)) as [Hbig|Hsmall].
  - assert (o_pos o mod 1024 = 0) as Hz by lia.
    destruct (read_step view m s k i o v mt room lo buf xfer at_ oldblk scp 1024 (xfer - 1024) 1024)
      as (sp & c & b1 & E & Hca1 & Hsec & Hri); try done; try lia.
    { rewrite Hz. apply turn_full; lia. }
    set (s1 := with_pos _ _ _ _ _) in *.
    pose proof (opened_frame s k i o v mt c (o_pos o + 1024) Hop) as Hop1. fold s1 in Hop1.
    pose proof (file_block_next v mt (o_pos o)) as Hnx. destruct Hri as [Hlb Hri].
    destruct (IH s1 k i _ v mt (room - 1) lo b1 (xfer - 1024) (at_ + 1024) (file_block v mt (o_pos o)) (Some sp) Hop1)
      as (c2 & b2 & l2 & E2 & Ho2 & Hs2 & Hri2 & la2 & lc2 & OK2 & Hr2 & _ & Hh2); cbn [o_pos set_pos] in *; rewrite ?Hlb; try lia.
    { rewrite Hnx. apply Hca1. lia. }
    1,2: unfold nturns in *; Z.div_mod_to_equations; lia.
    { left. Z.div_mod_to_equations. lia. }
    exists c2, b2, l2. rewrite E, u32_small by int_lia. split; [exact E2|]. split; [|split; [|split]].
    + rewrite Ho2. unfold set_pos. cbn. do 2 f_equal. lia.
    + rewrite Hs2. exact Hsec.
    + replace xfer with (1024 + (xfer - 1024)) by lia. eapply read_into_app; [lia|lia|by split|exact Hri2].
    + exists la2, lc2. split; [exact OK2|]. split; [|split; [done|]].
      * cbn [k_sc] in *. unfold nturns in *. Z.div_mod_to_equations. lia.
      * cbn [k_sc] in *. destruct lc2; [lia|done].
  - destruct (read_step view m s k i o v mt room lo buf xfer at_ oldblk scp xfer 0 0)
      as (sp & c & b1 & E & Hca1 & Hsec & Hri); try done; try lia.
    { apply turn_last; lia. }
    exists c, b1, (<[k := set_pos (o_pos o + xfer) o]> (k_of s)). rewrite E. split; [by destruct m|].
    split; [apply list_lookup_insert_eq; eapply lookup_lt_Some, (op_of _ _ _ _ _ _ Hop)|].
    split; [done|]. split; [done|]. eapply view_from_room; [by apply Hca1|].
    unfold nturns. Z.div_mod_to_equations. lia.
Qed.

(** [read] of an open file through a cache that shows the blocks [view]. *)
Lemma read_view view s k i o v mt room lo buf n stack :
  opened s k i o v mt -> view_from view s room lo (file_block v mt (o_pos o)) -> nturns (o_pos o) n <= room ->
  nturns (o_pos o) n <= Z.of_nat fuel ->
  0 <= o_pos o -> 0 <= n -> o_pos o + n <= v_size v -> n <= Z.of_nat (length buf) ->
  o_pos o mod 1024 = 0 \/ o_pos o mod 1024 + n <= 1024 -> stack <> file_block v mt (o_pos o) ->
  exists c buf' l, read low fuel (Fd k) buf n stack s = Ok (n, buf') (K (k_vc s) c (k_fs s) (k_mnt s) l) /\
    l !! k = Some (set_pos (o_pos o + n) o) /\
    (forall j : nat, buf' !! j =
       if decide (Z.of_nat j < n) then file_byte view v mt (o_pos o + Z.of_nat j) else buf !! j).
Proof.
  intros Hop Hca Hr Hf Hp Hn Hsz Hl Hal Hst. pose proof (op_size _ _ _ _ _ _ Hop) as Hvs.
  destruct (read_loop_ok view fuel s k i o v mt room lo buf n 0 stack None Hop Hca)
    as (c & b & l & E & Ho & _ & (_ & Hb) & _); try done; try lia.
  exists c, b, l. unfold read. rewrite u32_small by int_lia. rewrite (bind_ok _ _ _ _ _ E). unfold ret.
  rewrite s32_small by int_lia. split; [done|]. split; [done|]. intros j. rewrite Hb.
  repeat case_decide; try lia; [|done]. f_equal. lia.
Qed.

(** C1: [read] of an open file at a block boundary, or within one block,
    returns the count asked for, stores exactly the bytes of the file's blocks
    on the disk and moves the position, as long as the transfer stays inside the
    file and the cache has entries left; the stale [oldblk] on the stack must
    differ from the first block. *)
Theorem read_returns_file s k i o v mt buf n stack :
  opened s k i o v mt -> cache_from s (nturns (o_pos o) n) (file_block v mt (o_pos o)) ->
  nturns (o_pos o) n <= Z.of_nat fuel ->
  0 <= o_pos o -> 0 <= n -> o_pos o + n <= v_size v -> n <= Z.of_nat (length buf) ->
  o_pos o mod 1024 = 0 \/ o_pos o mod 1024 + n <= 1024 -> stack <> file_block v mt (o_pos o) ->
  exists c buf' l, read low fuel (Fd k) buf n stack s = Ok (n, buf') (K (k_vc s) c (k_fs s) (k_mnt s) l) /\
    l !! k = Some (set_pos (o_pos o + n) o) /\
    (forall j : nat, buf' !! j =
       if decide (Z.of_nat j < n) then file_byte (block dev 1024 (sdevs (k_sc s))) v mt (o_pos o + Z.of_nat j)
       else buf !! j).
Proof.
  intros Hop Hca Hf Hp Hn Hsz Hl Hal Hst. by eapply read_view; [|apply cache_from_view| ..].
Qed.

(** A transfer of less than a block that starts inside one block and ends
    in the next one stores outside the caller's buffer: the count left is
    reduced by a whole block instead of the part copied, and wraps around. *)
Theorem read_across_blocks_faults s k i o v mt buf stack :
  opened s k i o v mt -> cache_from s 2 (file_block v mt (o_pos o)) -> (2 <= fuel)%nat -> 0 <= o_pos o ->
  Z.of_nat (length buf) < 1024 < o_pos o mod 1024 + Z.of_nat (length buf) ->
  o_pos o + Z.of_nat (length buf) <= v_size v -> stack <> file_block v mt (o_pos o) ->
  read low fuel (Fd k) buf (Z.of_nat (length buf)) stack s = Err OutOfBounds.
Proof.
  intros Hop Hca Hf Hp Hl Hsz Hst. pose proof (op_size _ _ _ _ _ _ Hop) as Hvs.
  pose proof (Z.mod_pos_bound (o_pos o) 1024 ltac:(lia)) as Hmb. set (n := Z.of_nat (length buf)) in *.
  set (cnt := 1024 - o_pos o mod 1024). unfold read. rewrite u32_small by int_lia.
  destruct fuel as [|[|m]]; [lia..|].
  apply cache_from_view in Hca.
  destruct (read_step _ (S m) s k i o v mt 2 _ buf n 0 stack None cnt (2 ^ 32 + n - 1024) 1024 Hop Hca)
    as (sp & c & b1 & E & Hca1 & Hsec & Hlb & _); try done; try lia.
  { unfold turn. change (u32 1024) with 1024. rewrite u32_small by int_lia.
    rewrite (proj2 (Z.ltb_lt _ _)) by lia. f_equal. f_equal. int_lia. }
  set (s1 := with_pos _ _ _ _ _) in *.
  pose proof (opened_frame s k i o v mt c (o_pos o + cnt) Hop) as Hop1. fold s1 in Hop1.
  assert (file_block v mt (o_pos o + cnt) = file_block v mt (o_pos o) + 1) as Hnx.
  { unfold file_block, cnt. Z.div_mod_to_equations. lia. }
  assert ((o_pos o + cnt) mod 1024 = 0) as Hal by (unfold cnt; Z.div_mod_to_equations; lia).
  destruct (read_head _ m s1 k i _ v mt 1 _ b1 (2 ^ 32 + n - 1024) (u32 (0 + 1024)) (file_block v mt (o_pos o)) (Some sp) Hop1 (Hca1 _ (file_block_mono v mt (o_pos o) (o_pos o + cnt) ltac:(lia))))
    as (sp2 & c2 & e2 & E2 & _); cbn [o_pos set_pos]; try lia.
  unfold bind. rewrite E, E2. unfold copy_part. cbn [o_pos set_pos]. rewrite Hal. unfold turn. change (u32 1024) with 1024.
  rewrite (u32_small (_ + 0)) by int_lia. rewrite (proj2 (Z.ltb_lt _ _)) by lia.
  change ((0 <? 0) || (1024 - 0 <? 0)) with false. cbv iota. unfold bind at 1.
  change (u32 (0 + 1024)) with 1024.
  rewrite memcpy_overflow; [done|]. left. rewrite length_drop. lia.
Qed.
End Read.

(** A mounted memory disk with one open file of 4096 bytes. *)
Definition demo_vnode : vnode :=
  Vnode (replicate 68 0) 0 0 0 0 0 0 0 4096 0 0 0 7 4 0 VNull VNull VNull VNull None None.
Definition demo_mount : mountab := Mnt 1 (encode_sblk new_super) 1024 0 0 0 demo_vnode.
Definition demo_file (pos : Z) : ofile := Of 0 (VRoot 0) (Some 0%nat) pos.
Definition all_mfs : fs :=
  Fs (Some MfsImpl) (Some MfsImpl) (Some MfsImpl) (Some MfsImpl) (Some MfsImpl) (Some MfsImpl) (Some MfsImpl)
     (Some MfsImpl) (Some MfsImpl) (Some MfsImpl).
Definition demo (pos : Z) : kstate ram :=
  K vcache0 (ram_state (fun k => replicate 512 (k mod 256))) [all_mfs] [demo_mount] [demo_file pos].

Lemma demo_opened pos low : opened low 0 (demo pos) 0 0 (demo_file pos) demo_vnode demo_mount.
Proof.
  split; [reflexivity..| |reflexivity|reflexivity| | | |].
  - exists all_mfs. split; reflexivity.
  - vm_compute. split; congruence.
  - vm_compute. split; congruence.
  - vm_compute. split; congruence.
  - intros p Hp. cbn [v_size demo_vnode] in Hp. unfold file_block. cbn [v_blkentry demo_vnode].
    change (s_dblk (sblk_of demo_mount)) with 1539. cbn [covers ram_disk]. Z.div_mod_to_equations. lia.
Qed.

Lemma demo_cache pos room blk : room <= NSECACHS -> cache_from 0 (demo pos) room blk.
Proof. intros Hr. exists [], []. split; [apply ram_state_ok|]. split; [|done]. cbn. lia. Qed.

Lemma read_returns_file_witness :
  exists c buf' l, read (fun _ => zero_vnode) 5 (Fd 0) (replicate 1500 0) 1500 (-1) (demo 0) =
      Ok (1500, buf') (K vcache0 c [all_mfs] [demo_mount] l) /\
    l !! 0%nat = Some (demo_file 1500) /\
    buf' !! 1200%nat = file_byte (block 0 1024 (sdevs (k_sc (demo 0)))) demo_vnode demo_mount 1200.
Proof.
  destruct (read_returns_file (fun _ => zero_vnode) 5 0 (demo 0) 0 0 (demo_file 0) demo_vnode demo_mount
    (replicate 1500 0) 1500 (-1)) as (c & b & l & E & Ho & Hb).
  - apply demo_opened.
  - apply demo_cache. by vm_compute.
  - by vm_compute.
  - cbn. lia.
  - lia.
  - cbn. lia.
  - rewrite length_replicate. lia.
  - by left.
  - by vm_compute.
  - exists c, b, l. split; [exact E|]. split; [exact Ho|]. rewrite Hb. by rewrite decide_True by lia.
Defined.

Lemma read_across_blocks_faults_witness :
  read (fun _ => zero_vnode) 5 (Fd 0) (replicate 600 0) 600 (-1) (demo 512) = Err OutOfBounds.
Proof.
  pose proof (read_across_blocks_faults (fun _ => zero_vnode) 5 0 (demo 512) 0 0 (demo_file 512) demo_vnode demo_mount
    (replicate 600 0) (-1)) as H. rewrite length_replicate in H. apply H.
  - apply demo_opened.
  - apply demo_cache. by vm_compute.
  - lia.
  - cbn. lia.
  - change (o_pos (demo_file 512)) with 512. change (512 mod 1024) with 512. lia.
  - cbn. lia.
  - by vm_compute.
Defined.
