(* ===== verification/FileWrite.v ===== *)
(** Writing an open file: [write] of Vfs changes the bytes of the file as the
    sector cache shows them and leaves the disk alone; [close] stores them, and a
    [read] after [lseek] returns them before that. *)
From stdpp Require Import sorting functions.
From S2P Require Import Prelude LibC Layout Device Alist Vcache Scache Coherence WriteBack Kstate Mfs MkMfs KImage Vfs FileIO.

(** [view'] is [view] with [n] bytes of [buf] from index [at_] on stored in the
    file at [pos]. *)
Definition wrote (view view' : Z -> list Z) (v : vnode) (mt : mountab) (buf : list Z) (at_ pos n : Z) : Prop :=
  (forall p, 0 <= p -> file_byte view' v mt p =
     if decide (pos <= p < pos + n) then buf !! Z.to_nat (at_ + (p - pos)) else file_byte view v mt p) /\
  (forall b, (forall p, pos <= p < pos + n -> file_block v mt p <> b) -> view' b = view b).

Lemma wrote_nil view v mt buf at_ pos : wrote view view v mt buf at_ pos 0.
Proof. split; [|done]. intros p Hp. by rewrite decide_False by lia. Qed.

Lemma wrote_app view view1 view2 v mt buf at_ pos c n :
  0 <= c -> 0 <= n -> wrote view view1 v mt buf at_ pos c -> wrote view1 view2 v mt buf (at_ + c) (pos + c) n ->
  wrote view view2 v mt buf at_ pos (c + n).
Proof.
  intros Hc Hn [H1 B1] [H2 B2]. split.
  - intros p Hp. rewrite H2, H1 by done. repeat case_decide; try lia; try done. f_equal. lia.
  - intros b Hb. rewrite B2, B1; [done| |]; intros p Hp; apply Hb; lia.
Qed.

(** The block of [pos] with [c] bytes of [buf] stored. *)
Definition patched (view : Z -> list Z) (v : vnode) (mt : mountab) (buf : list Z) (at_ pos c : Z) : list Z :=
  take (Z.to_nat (pos mod 1024)) (view (file_block v mt pos)) ++ take (Z.to_nat c) (drop (Z.to_nat at_) buf) ++
    drop (Z.to_nat (pos mod 1024 + c)) (view (file_block v mt pos)).

Lemma wrote_chunk view v mt buf at_ pos c :
  length (view (file_block v mt pos)) = 1024%nat ->
  0 <= at_ -> 0 <= pos -> 0 < c -> pos mod 1024 + c <= 1024 -> at_ + c <= Z.of_nat (length buf) ->
  wrote view (<[file_block v mt pos := patched view v mt buf at_ pos c]> view) v mt buf at_ pos c.
Proof.
  intros Hb Ha Hp Hc Hm Hl. pose proof (Z.mod_pos_bound pos 1024 ltac:(lia)) as Hmb. split.
  - intros p Hp0. unfold file_byte. destruct (decide (file_block v mt p = file_block v mt pos)) as [E|E].
    + rewrite E, fn_lookup_insert. unfold patched.
      assert (p / 1024 = pos / 1024) as Hd by (unfold file_block in E; lia).
      pose proof (Z.mod_pos_bound p 1024 ltac:(lia)).
      destruct (decide (p < pos)).
      { rewrite decide_False by lia. rewrite lookup_app_l by (autorewrite with lens; Z.div_mod_to_equations; lia).
        by rewrite lookup_take_lt by (Z.div_mod_to_equations; lia). }
      rewrite lookup_app_r by (autorewrite with lens; Z.div_mod_to_equations; lia). rewrite length_take, Nat.min_l by lia.
      case_decide.
      * rewrite lookup_app_l by (autorewrite with lens; Z.div_mod_to_equations; lia).
        rewrite lookup_take_lt, lookup_drop by (Z.div_mod_to_equations; lia). f_equal. Z.div_mod_to_equations; lia.
      * rewrite lookup_app_r by (autorewrite with lens; Z.div_mod_to_equations; lia). autorewrite with lens.
        rewrite lookup_drop. f_equal. Z.div_mod_to_equations; lia.
    + rewrite fn_lookup_insert_ne by done. rewrite decide_False; [done|].
      intros Hr. apply E. unfold file_block. Z.div_mod_to_equations; lia.
  - intros b Hb'. rewrite fn_lookup_insert_ne; [done|]. intros <-. apply (Hb' pos); [lia|done].
Qed.

Section Write.
Context {W : Type} (low : Z -> vnode) (fuel : nat) (dev : Z) `{!Disk W dev}.
Abbreviation opened := (opened low dev).
Abbreviation view_from := (view_from dev).

(** What is left of a turn once the block is in the buffer [b] of entry [sp]. *)
Definition store_part (n k : nat) (o : ofile) (v : vnode) (buf b : list Z) (xfer at_ blk : Z) (sp : nat)
    : M (kstate W) unit :=
  let disp := o_pos o mod 1024 in
  let '(cnt, xfer', step) := turn xfer disp 1024 in
  if (disp <? 0) || (cnt <? 0) then stop OutOfBounds else
  b' <- of_option OutOfBounds
    (r ← memcpy (drop (Z.to_nat disp) b) (drop (Z.to_nat at_) buf) (Z.to_nat cnt);
     Some (take (Z.to_nat disp) b ++ r)) ;;
  on_sc (on_pool (upd sp (fun e => s_set_mode (Z.lor (s_mode e) S_CHANGED) (s_set_buf b' e)))) ;;;
  oupd (Fd k) (set_pos (s32 (o_pos o + cnt))) ;;;
  o <- oload (Fd k) ;;
  if v_size v <? u32 (o_pos o) then oupd (Fd k) (set_pos (s32 (v_size v)))
  else write_loop low n (Fd k) buf xfer' (u32 (at_ + step)) blk (Some sp).

(** The part of a turn up to the block in the cache. *)
Lemma write_head n s k i o v mt buf xfer at_ oldblk scp sp c e :
  opened s k i o v mt -> xfer <> 0 -> 0 <= o_pos o < v_size v -> oldblk <> file_block v mt (o_pos o) ->
  on_sc (scache_get dev (file_block v mt (o_pos o)) 1024) s = Ok (Some sp) (K (k_vc s) c (k_fs s) (k_mnt s) (k_of s)) ->
  arr (pool c) !! sp = Some e ->
  write_loop low (S n) (Fd k) buf xfer at_ oldblk scp s =
    store_part n k o v buf (s_buf e) xfer at_ (file_block v mt (o_pos o)) sp (K (k_vc s) c (k_fs s) (k_mnt s) (k_of s)).
Proof using Type.
  intros Hop Hx Hp Hold Eg Ee. pose proof Hop as [Ho Hn Hmt0 Hmt Hfs Hbs Hdv Hvs Hen Hdb Hcv].
  cbn [write_loop]. rewrite (proj2 (Z.eqb_neq _ _)) by done. unfold oload at 1. rewrite bind_assoc. msteps. msome Ho.
  unfold omount. rewrite Hmt0. unfold mload. rewrite bind_assoc. msteps. msome Hmt.
  rewrite (bind_ok _ _ _ _ _ Hn). rewrite (bind_ok _ _ _ _ _ (pos_block_ok _ _ _ _ _ _ _ _ Hop ltac:(lia))).
  rewrite Hbs. unfold smod. cbn [Z.eqb of_option]. msteps. rewrite Z.rem_mod_nonneg by lia.
  unfold transfer_block. rewrite (proj2 (Z.eqb_neq oldblk _)) by done. cbn [negb]. rewrite bind_assoc, Hdv.
  rewrite (bind_ok _ _ _ _ _ Eg). cbn [the_entry]. msteps.
  rewrite (bind_ok _ _ _ _ _ (buf_of_ok (K (k_vc s) c (k_fs s) (k_mnt s) (k_of s)) sp e Ee)). reflexivity.
Qed.

(** The buffer of a block of [view] after the copy. *)
Lemma patched_buf view v mt buf at_ pos c b :
  length b = Z.to_nat NMXBLKSZ -> take 1024 b = view (file_block v mt pos) -> Forall is_u8 buf ->
  Forall is_u8 (view (file_block v mt pos)) ->
  0 <= at_ -> 0 <= pos -> 0 < c -> pos mod 1024 + c <= 1024 -> at_ + c <= Z.of_nat (length buf) ->
  exists b', (r ← memcpy (drop (Z.to_nat (pos mod 1024)) b) (drop (Z.to_nat at_) buf) (Z.to_nat c);
      Some (take (Z.to_nat (pos mod 1024)) b ++ r)) = Some b' /\
    length b' = Z.to_nat NMXBLKSZ /\ take 1024 b' = patched view v mt buf at_ pos c /\
    Forall is_u8 (patched view v mt buf at_ pos c).
Proof using Type.
  clear low fuel. intros Hb Ht Hu Hv Ha Hp Hc Hm Hl. pose proof (Z.mod_pos_bound pos 1024 ltac:(lia)) as Hmb. unfold NMXBLKSZ in *.
  rewrite memcpy_spec by (autorewrite with lens; lia). cbn [mbind option_bind].
  eexists. split; [reflexivity|]. split; [autorewrite with lens; lia|]. split.
  - unfold patched. rewrite <- Ht, take_take, Nat.min_l by lia.
    rewrite take_app_ge by (autorewrite with lens; lia). f_equal. rewrite length_take, Nat.min_l by lia.
    rewrite take_app_ge by (autorewrite with lens; lia). f_equal. autorewrite with lens.
    rewrite drop_drop, skipn_firstn_comm. f_equal; [lia|]. f_equal. lia.
  - unfold patched. rewrite !Forall_app. split; [by apply Forall_take|]. split; [by apply Forall_take, Forall_drop|by apply Forall_drop].
Qed.

Lemma write_step view n s k i o v mt room lo buf xfer at_ oldblk scp cnt xfer' step :
  opened s k i o v mt -> view_from view s room lo (file_block v mt (o_pos o)) -> 0 < room -> Forall is_u8 buf ->
  turn xfer (o_pos o mod 1024) 1024 = (cnt, xfer', step) ->
  xfer <> 0 -> 0 <= o_pos o -> 0 < cnt -> o_pos o mod 1024 + cnt <= 1024 -> o_pos o + cnt <= v_size v ->
  0 <= at_ -> at_ + cnt <= Z.of_nat (length buf) -> oldblk <> file_block v mt (o_pos o) ->
  exists sp c view', write_loop low (S n) (Fd k) buf xfer at_ oldblk scp s =
      write_loop low n (Fd k) buf xfer' (u32 (at_ + step)) (file_block v mt (o_pos o)) (Some sp)
        (with_pos s k o c (o_pos o + cnt)) /\
    (forall blk, lo <= blk -> view_from view' (with_pos s k o c (o_pos o + cnt)) (room - 1) lo blk) /\
    sector (sdevs c) = sector (sdevs (k_sc s)) /\
    wrote view view' v mt buf at_ (o_pos o) cnt.
Proof using Type.
  intros Hop Hca Hroom Hu Hturn Hx Hp Hc Hm Hsz Ha Hlen Hold. pose proof Hop as [Ho _ _ _ _ _ _ Hvs _ _ Hcv].
  destruct (get_block dev view s room lo _ Hca Hroom (Hcv (o_pos o) ltac:(lia)))
    as (sp & c & e & la & lc & Eg & (OK & Hcnt & Hin & x & Hx1 & Hx2) & Hsec & Ee & Heb & Hbl & Ht).
  pose proof (ck_u8 _ _ _ _ _ OK (file_block v mt (o_pos o))) as Hvu.
  destruct (patched_buf view v mt buf at_ (o_pos o) cnt (s_buf e)) as (b' & Em & Hb' & Ht' & Hpu); try done.
  pose proof (mark_view dev 1024 c la lc sp e b' OK Ee Hin Hb') as OK'.
  change (Z.to_nat (512 * nsec 1024)) with 1024%nat in OK'. rewrite Ht', Heb in OK'. specialize (OK' Hpu).
  set (e' := s_set_mode _ _) in OK'. assert (same_place e e') as Hpl by done.
  exists sp, (put_entry sp e' c). eexists. split; [|split; [|split; [exact Hsec|]]].
  - rewrite (write_head n s k i o v mt buf xfer at_ oldblk scp sp c e) by (done || lia).
    unfold store_part. rewrite Hturn. pose proof (Z.mod_pos_bound (o_pos o) 1024 ltac:(lia)) as Hmb.
    rewrite !(proj2 (Z.ltb_ge _ _)) by lia. cbn [orb]. msome Em.
    rewrite (bind_ok _ _ _ _ _ (on_sc_ok _ (K (k_vc s) c (k_fs s) (k_mnt s) (k_of s)) _ _
      (on_pool_ok _ c _ _ (upd_ok sp _ _ e Ee)))). cbn [k_vc k_fs k_mnt k_of].
    unfold oupd at 1. rewrite bind_assoc. msteps. cbn [k_of]. msome Ho. unfold oload. msteps.
    rewrite (s32_small (o_pos o + cnt)) by int_lia. cbn [k_of set_ofs].
    rewrite (bind_some _ _ (set_pos (o_pos o + cnt) o)); [|apply list_lookup_insert_eq; by eapply lookup_lt_Some].
    cbn [o_pos set_pos]. rewrite u32_small by int_lia. rewrite (proj2 (Z.ltb_ge _ _)) by lia. reflexivity.
  - intros blk Hlo. eapply (view_from_any dev _ s _ la lc _ _ _ x); [exact OK'|done..|].
    rewrite (put_entry_blk sp e e' c x Ee Hpl). done.
  - apply wrote_chunk; try done. rewrite <- Ht, length_take. unfold NMXBLKSZ in Hbl. lia.
Qed.

Lemma with_pos_twice s k i o v mt c c2 p q :
  opened s k i o v mt -> with_pos (with_pos s k o c p) k (set_pos p o) c2 q = with_pos s k o c2 q.
Proof using Type. intros _. unfold with_pos. cbn. by rewrite list_insert_insert_eq. Qed.

Lemma with_pos_same s k i o v mt : opened s k i o v mt -> with_pos s k o (k_sc s) (o_pos o + 0) = s.
Proof using Type.
  intros [Ho]. unfold with_pos. rewrite Z.add_0_r. replace (set_pos (o_pos o) o) with o by (by destruct o).
  rewrite list_insert_id by done. by destruct s.
Qed.

Lemma write_loop_ok m : forall view s k i o v mt room lo buf xfer at_ oldblk scp,
  opened s k i o v mt -> view_from view s room lo (file_block v mt (o_pos o)) -> nturns (o_pos o) xfer <= room ->
  Forall is_u8 buf -> nturns (o_pos o) xfer <= Z.of_nat m ->
  0 <= o_pos o -> 0 <= xfer -> o_pos o + xfer <= v_size v ->
  o_pos o mod 1024 = 0 \/ o_pos o mod 1024 + xfer <= 1024 ->
  0 <= at_ -> at_ + xfer <= Z.of_nat (length buf) -> at_ + xfer < 2 ^ 31 -> oldblk <> file_block v mt (o_pos o) ->
  exists c view', write_loop low m (Fd k) buf xfer at_ oldblk scp s = Ok tt (with_pos s k o c (o_pos o + xfer)) /\
    sector (sdevs c) = sector (sdevs (k_sc s)) /\ wrote view view' v mt buf at_ (o_pos o) xfer /\
    view_from view' (with_pos s k o c (o_pos o + xfer)) (room - nturns (o_pos o) xfer) lo (file_block v mt (o_pos o)).
Proof using Type.
  induction m as [|m IH]; intros view s k i o v mt room lo buf xfer at_ oldblk scp Hop Hca Hroom Hu Hfuel Hp Hx Hsz Hal Ha Hl Hov Hold;
    (destruct (decide (xfer = 0)) as [->|Hx0];
     [exists (k_sc s), view; rewrite (with_pos_same _ _ _ _ _ _ Hop);
      split; [by destruct s|]; split; [done|]; split; [apply wrote_nil|];
      eapply view_from_room; [done|unfold nturns; Z.div_mod_to_equations; lia]|]).
  { unfold nturns in *. Z.div_mod_to_equations. lia. }
  assert (0 < room) as Hr0 by (unfold nturns in *; Z.div_mod_to_equations; lia).
  assert (lo <= file_block v mt (o_pos o)) as Hlo by (by destruct Hca as (? & ? & _ & _ & ? & _)).
  pose proof (Z.mod_pos_bound (o_pos o) 1024 ltac:(lia)) as Hmb. pose proof (op_size _ _ _ _ _ _ _ _ Hop) as Hvs.
  destruct (decide (1024 < xfer + o_pos o mod 1024)) as [Hbig|Hsmall].
  - assert (o_pos o mod 1024 = 0) as Hz by lia.
    destruct (write_step view m s k i o v mt room lo buf xfer at_ oldblk scp 1024 (xfer - 1024) 1024)
      as (sp & c & view1 & E & Hca1 & Hsec & Hw); try done; try lia.
    { rewrite Hz. apply turn_full; lia. }
    pose proof (opened_frame _ _ _ _ _ _ _ _ c (o_pos o + 1024) Hop) as Hop1.
    pose proof (file_block_next v mt (o_pos o)) as Hnx.
    destruct (IH view1 _ k i _ v mt (room - 1) lo buf (xfer - 1024) (at_ + 1024) (file_block v mt (o_pos o)) (Some sp) Hop1)
      as (c2 & view2 & E2 & Hs2 & Hw2 & la2 & lc2 & OK2 & Hr2 & _ & Hh2); cbn [o_pos set_pos] in *; try lia; try done.
    { rewrite Hnx. apply Hca1. lia. }
    1,2: unfold nturns in *; Z.div_mod_to_equations; lia.
    { left. Z.div_mod_to_equations. lia. }
    exists c2, view2. rewrite (with_pos_twice s k i o v mt) in * by done.
    replace (o_pos o + 1024 + (xfer - 1024)) with (o_pos o + xfer) in * by lia.
    rewrite E, u32_small by int_lia. split; [exact E2|]. split; [rewrite Hs2; exact Hsec|]. split.
    + replace xfer with (1024 + (xfer - 1024)) by lia. eapply wrote_app; [lia|lia|exact Hw|exact Hw2].
    + exists la2, lc2. split; [exact OK2|]. split; [|split; [done|]].
      * cbn [k_sc with_pos] in *. unfold nturns in *. Z.div_mod_to_equations. lia.
      * destruct lc2; [lia|done].
  - destruct (write_step view m s k i o v mt room lo buf xfer at_ oldblk scp xfer 0 0)
      as (sp & c & view1 & E & Hca1 & Hsec & Hw); try done; try lia.
    { apply turn_last; lia. }
    exists c, view1. rewrite E. split; [by destruct m|]. split; [done|]. split; [done|].
    eapply view_from_room; [by apply Hca1|]. unfold nturns. Z.div_mod_to_equations. lia.
Qed.

(** [write] of an open file through a cache that shows the blocks [view]. *)
Lemma write_view view s k i o v mt room lo buf n stack :
  opened s k i o v mt -> view_from view s room lo (file_block v mt (o_pos o)) -> nturns (o_pos o) n <= room ->
  Forall is_u8 buf -> nturns (o_pos o) n <= Z.of_nat fuel ->
  0 <= o_pos o -> 0 <= n -> o_pos o + n <= v_size v -> n <= Z.of_nat (length buf) ->
  o_pos o mod 1024 = 0 \/ o_pos o mod 1024 + n <= 1024 -> stack <> file_block v mt (o_pos o) ->
  exists c view', write low fuel (Fd k) buf n stack s = Ok n (with_pos s k o c (o_pos o + n)) /\
    sector (sdevs c) = sector (sdevs (k_sc s)) /\ wrote view view' v mt buf 0 (o_pos o) n /\
    view_from view' (with_pos s k o c (o_pos o + n)) (room - nturns (o_pos o) n) lo (file_block v mt (o_pos o)).
Proof using Type.
  intros Hop Hca Hr Hu Hf Hp Hn Hsz Hl Hal Hst. pose proof (op_size _ _ _ _ _ _ _ _ Hop) as Hvs.
  destruct (write_loop_ok fuel view s k i o v mt room lo buf n 0 stack None Hop Hca)
    as (c & view' & E & H); try done; try lia.
  exists c, view'. split; [|done]. unfold write. rewrite u32_small by int_lia. rewrite (bind_ok _ _ _ _ _ E). unfold ret.
  by rewrite s32_small by int_lia.
Qed.

(** ** [close] and [lseek] *)

Lemma close_view view s k i o v mt room lo blk :
  opened s k i o v mt -> view_from view s room lo blk -> (k < Z.to_nat NMXOFILE)%nat ->
  exists d, let c := with_disk d (k_sc s) in
    close low (Fd k) s = Ok 0 (K (k_vc s) c (k_fs s) (k_mnt s) (<[k := Of (o_oflag o) VNull (o_mount o) (o_pos o)]> (k_of s))) /\
    (exists la lc, cache_ok dev 1024 c la lc) /\ (forall b, block dev 1024 d b = view b).
Proof using Type.
  intros [Ho Hn Hm Hmt _ Hbs Hdv _ _ _ _] (la & lc & OK & _) Hk.
  destruct (commit_ok dev 1024 (k_sc s) la lc OK) as (d & Ec & OK' & Hv); [by vm_compute|].
  exists d. split; [|by eauto]. unfold close. rewrite (proj2 (Nat.leb_gt _ _)) by done.
  unfold oload at 1. rewrite bind_assoc. msteps. msome Ho. rewrite (bind_ok _ _ _ _ _ Hn).
  unfold omount. rewrite Hm. unfold mload. rewrite bind_assoc. msteps. msome Hmt. rewrite Hdv, Hbs.
  rewrite (bind_ok _ _ _ _ _ (on_sc_ok _ _ _ _ Ec)). unfold oupd. rewrite bind_assoc. msteps. cbn [k_of].
  msome Ho. msteps. by rewrite Hm.
Qed.

(** [lseek] back to a position inside the file. *)
Lemma lseek_view view s k i o v mt room lo p :
  opened s k i o v mt -> view_from view s room lo (file_block v mt p) -> 0 < room -> 0 <= p < v_size v ->
  exists c, lseek low (Fd k) p SEEK_SET s = Ok p (with_pos s k o c p) /\
    view_from view (with_pos s k o c p) (room - 1) lo (file_block v mt p).
Proof using Type.
  intros Hop Hca Hroom Hp. pose proof Hop as [Ho Hn Hm Hmt _ Hbs Hdv Hvs _ _ Hcv].
  destruct (get_block dev view (with_pos s k o (k_sc s) p) room lo _ Hca Hroom (Hcv p Hp))
    as (sp & c & e & la & lc & Eg & (OK & Hcnt & Hin & x & Hx1 & Hx2) & _).
  exists c. split; [|eapply view_from_any; try done; by destruct Hca as (? & ? & _ & _ & ? & _)].
  pose proof (opened_frame _ _ s k i o v mt (k_sc s) p Hop) as Hop1. pose proof Hop1 as [Ho1 Hn1 Hm1 Hmt1 _ _ _ _ _ _ _].
  unfold lseek, oload. rewrite bind_assoc. msteps. msome Ho. rewrite (bind_ok _ _ _ _ _ Hn). change (SEEK_SET =? SEEK_SET) with true.
  cbv iota. unfold oupd at 1. rewrite bind_assoc. msteps. msome Ho. msteps. cbn [k_of set_ofs].
  change (set_ofs (<[k := set_pos p o]> (k_of s)) s) with (with_pos s k o (k_sc s) p).
  cbn [k_of with_pos] in Ho1. msome Ho1. cbn [o_pos set_pos].
  rewrite u32_small by int_lia. rewrite !(proj2 (Z.ltb_ge _ _)) by lia. cbn [orb].
  rewrite (bind_ok _ _ _ _ _ (pos_block_ok _ _ _ _ _ _ _ _ Hop1 ltac:(cbn; lia))). cbn [o_pos set_pos].
  unfold omount. cbn [o_mount set_pos]. rewrite Hm. unfold mload. rewrite bind_assoc. msteps. msome Hmt1.
  rewrite Hdv, Hbs, (bind_ok _ _ _ _ _ Eg). reflexivity.
Qed.

(** C2: [write] of bytes inside a file, at a block boundary or within one block,
    returns the count and leaves the disk alone; [close] then stores the bytes in
    the file's blocks on the disk, where nothing else changes, and the cache is
    coherent again. *)
Theorem write_close_on_disk s k i o v mt buf n stack :
  opened s k i o v mt -> cache_from dev s (nturns (o_pos o) n) (file_block v mt (o_pos o)) ->
  (k < Z.to_nat NMXOFILE)%nat -> Forall is_u8 buf -> nturns (o_pos o) n <= Z.of_nat fuel ->
  0 <= o_pos o -> 0 <= n -> o_pos o + n <= v_size v -> n <= Z.of_nat (length buf) ->
  o_pos o mod 1024 = 0 \/ o_pos o mod 1024 + n <= 1024 -> stack <> file_block v mt (o_pos o) ->
  exists s1 s2, write low fuel (Fd k) buf n stack s = Ok n s1 /\ close low (Fd k) s1 = Ok 0 s2 /\
    sector (sdevs (k_sc s1)) = sector (sdevs (k_sc s)) /\
    wrote (block dev 1024 (sdevs (k_sc s))) (block dev 1024 (sdevs (k_sc s2))) v mt buf 0 (o_pos o) n /\
    exists la lc, cache_ok dev 1024 (k_sc s2) la lc.
Proof using Type.
  intros Hop Hca Hk Hu Hf Hp Hn Hsz Hl Hal Hst. apply cache_from_view in Hca.
  destruct (write_view _ s k i o v mt _ _ buf n stack Hop Hca) as (c & view' & E & Hs & [W1 W2] & Hca'); try done.
  pose proof (opened_frame _ _ s k i o v mt c (o_pos o + n) Hop) as Hop1.
  destruct (close_view _ _ k i _ v mt _ _ _ Hop1 Hca' Hk) as (d & Ec & OK & Hv).
  eexists _, _. split; [exact E|]. split; [exact Ec|]. split; [done|]. split; [|done]. split.
  - intros p Hp0. rewrite <- W1 by done. unfold file_byte. cbn [k_sc sdevs with_disk]. by rewrite Hv.
  - intros b Hb. rewrite <- W2 by done. apply Hv.
Qed.

(** A program that writes [buf] where the file stands, seeks back to where it
    stood and reads as many bytes into [out]. *)
Definition rewrite_and_read (k : nat) (pos : Z) (buf out : list Z) (n st1 st2 : Z) : M (kstate W) (Z * list Z) :=
  write low fuel (Fd k) buf n st1 ;;; lseek low (Fd k) pos SEEK_SET ;;; read low fuel (Fd k) out n st2.

(** C3: bytes written to a file and not yet on the disk are read back: [write],
    [lseek] to where it started and [read] of as many bytes return what was
    written, whatever the disk and the cache held before. *)
Theorem write_read_back s k i o v mt room view lo buf out n st1 st2 :
  opened s k i o v mt -> view_from view s room lo (file_block v mt (o_pos o)) ->
  2 * nturns (o_pos o) n + 1 <= room -> Forall is_u8 buf -> nturns (o_pos o) n <= Z.of_nat fuel ->
  0 <= o_pos o -> 0 < n -> o_pos o + n <= v_size v -> n = Z.of_nat (length buf) -> length out = length buf ->
  o_pos o mod 1024 = 0 \/ o_pos o mod 1024 + n <= 1024 ->
  st1 <> file_block v mt (o_pos o) -> st2 <> file_block v mt (o_pos o) ->
  exists s', rewrite_and_read k (o_pos o) buf out n st1 st2 s = Ok (n, buf) s'.
Proof using Type.
  unfold rewrite_and_read. intros Hop Hca Hr Hu Hf Hp Hn Hsz Hl Ho Hal Hst1 Hst2.
  assert (0 <= nturns (o_pos o) n) as Hnt.
  { unfold nturns. pose proof (Z.mod_pos_bound (o_pos o) 1024 ltac:(lia)). Z.div_mod_to_equations. lia. }
  destruct (write_view view s k i o v mt room lo buf n st1 Hop Hca) as (c & view' & E & _ & [W1 _] & Hca1); try done; try lia.
  pose proof (opened_frame _ _ s k i o v mt c (o_pos o + n) Hop) as Hop1.
  destruct (lseek_view view' _ k i _ v mt _ lo (o_pos o) Hop1 Hca1) as (c2 & E2 & Hca2); [lia..|].
  pose proof (opened_frame _ _ _ k i _ v mt c2 (o_pos o) Hop1) as Hop2.
  destruct (read_view low fuel dev view' _ k i _ v mt _ lo out n st2 Hop2 Hca2) as (c3 & b & l & E3 & _ & Hb);
    cbn [o_pos set_pos] in *; try done; try lia.
  eexists. rewrite (bind_ok _ _ _ _ _ E), (bind_ok _ _ _ _ _ E2), E3. do 2 f_equal.
  apply list_eq. intros j. rewrite Hb. case_decide as Hj.
  - rewrite W1 by lia. rewrite decide_True by lia. f_equal. lia.
  - rewrite !lookup_ge_None_2 by lia. done.
Qed.
End Write.

Lemma write_close_on_disk_witness :
  exists s1 s2, write (fun _ => zero_vnode) 5 (Fd 0) (replicate 1500 77) 1500 (-1) (demo 1024) = Ok 1500 s1 /\
    close (fun _ => zero_vnode) (Fd 0) s1 = Ok 0 s2 /\
    file_byte (block 0 1024 (sdevs (k_sc s2))) demo_vnode demo_mount 2500 = Some 77.
Proof.
  destruct (write_close_on_disk (fun _ => zero_vnode) 5 0 (demo 1024) 0 0 (demo_file 1024) demo_vnode demo_mount
    (replicate 1500 77) 1500 (-1)) as (s1 & s2 & E1 & E2 & _ & (W & _) & _).
  - apply demo_opened.
  - apply demo_cache. by vm_compute.
  - vm_compute. lia.
  - apply Forall_replicate. unfold is_u8. lia.
  - by vm_compute.
  - cbn. lia.
  - lia.
  - cbn. lia.
  - rewrite length_replicate. lia.
  - by left.
  - by vm_compute.
  - exists s1, s2. split; [exact E1|]. split; [exact E2|]. rewrite W by lia. cbn [o_pos demo_file].
    rewrite decide_True by lia. reflexivity.
Defined.

Lemma write_read_back_witness :
  exists s', rewrite_and_read (fun _ => zero_vnode) 5 0 100 (replicate 600 77) (replicate 600 0) 600 (-1) (-1)
    (demo 100) = Ok (600, replicate 600 77) s'.
Proof.
  apply (write_read_back (fun _ => zero_vnode) 5 0 (demo 100) 0 0 (demo_file 100) demo_vnode demo_mount 8
    (block 0 1024 (sdevs (k_sc (demo 100)))) (file_block demo_vnode demo_mount 100)
    (replicate 600 77) (replicate 600 0) 600 (-1) (-1)).
  - apply demo_opened.
  - apply cache_from_view, demo_cache. by vm_compute.
  - by vm_compute.
  - apply Forall_replicate. unfold is_u8. lia.
  - by vm_compute.
  - cbn. lia.
  - lia.
  - cbn. lia.
  - by rewrite length_replicate.
  - by rewrite !length_replicate.
  - by right; vm_compute.
  - by vm_compute.
  - by vm_compute.
Defined.
