(* ===== verification/VfsProps.v ===== *)
(** Properties of the mount table and of [open] (Vfs). *)
From S2P Require Import Prelude LibC Layout MkMfs Device Alist Vcache Scache Coherence Kstate Mfs Vfs.

Section Mounts.
Context {W : Type} (low : Z -> vnode) (fuel : nat).

(** Code that reaches only the sector cache leaves the tables alone. *)
Lemma on_sc_keeps {A} (P : list mountab -> list ofile -> Prop) (m : M (sstate W) A) :
  preserves (fun s : kstate W => P (k_mnt s) (k_of s)) (on_sc m).
Proof.
  intros s a s' Hs. unfold on_sc, zoom. destruct (m (k_sc s)); [|done]. by intros [= <- <-].
Qed.

Lemma the_entry_keeps P p : preserves P (the_entry (W := W) p).
Proof. destruct p; [apply preserves_ret|apply preserves_stop]. Qed.

Ltac keeps_tables :=
  repeat first
    [ apply preserves_bind; [|intros ?] | apply on_sc_keeps | apply the_entry_keeps | apply preserves_ret
    | apply preserves_stop | apply preserves_of_option | apply preserves_gets | apply preserves_if
    | match goal with |- preserves _ (match ?x with _ => _ end) => destruct x end ].

Lemma fs_entry_keeps P t : preserves P (fs_entry (W := W) t).
Proof. intros s a s' Hs E. unfold fs_entry in E. minv. destruct (aget (k_fs s) t); cbn in E; minv; done. Qed.

Lemma probe_keeps P dev n i :
  preserves (fun s : kstate W => P (k_mnt s) (k_of s)) (probe_loop n dev i).
Proof.
  revert i. induction n as [|n IH]; intros i; cbn [probe_loop]; [apply preserves_ret|].
  apply preserves_bind; [apply fs_entry_keeps|]. intros e. destruct (probe e) as [[]|]; [|apply IH].
  unfold mfs_probe, buf_of. keeps_tables. apply IH.
Qed.

Lemma blksz_keeps P t dev : preserves (fun s : kstate W => P (k_mnt s) (k_of s)) (fs_blksz t dev).
Proof.
  unfold fs_blksz. apply preserves_bind; [apply fs_entry_keeps|]. intros e.
  destruct (blksz e) as [[]|]; unfold mfs_blksz, buf_of; keeps_tables.
Qed.

Lemma lsblk_keeps P t dev : preserves (fun s : kstate W => P (k_mnt s) (k_of s)) (fs_lsblk t dev).
Proof.
  unfold fs_lsblk. apply preserves_bind; [apply fs_entry_keeps|]. intros e.
  destruct (lsblk e) as [[]|]; unfold mfs_lsblk, buf_of; keeps_tables.
Qed.

(** The first entry that satisfies a test. *)
Lemma mnt_find_inv f (s s' : kstate W) r :
  mnt_find f s = Ok r s' -> s' = s /\
    match r with
    | Some i => exists m, k_mnt s !! i = Some m /\ f m = true /\
                  forall j m', (j < i)%nat -> k_mnt s !! j = Some m' -> f m' = false
    | None => Forall (fun m => f m = false) (k_mnt s)
    end.
Proof.
  unfold mnt_find, gets. intros [= <- <-]. split; [done|].
  destruct (list_find f (k_mnt s)) as [[i m]|] eqn:E; cbn.
  - apply list_find_Some in E as (Hm & Hf & Hlt). exists m. split; [done|]. split; [by apply Is_true_true|].
    intros j m' Hj Hm'. apply Is_true_false. by eapply Hlt.
  - apply list_find_None in E. eapply Forall_impl; [exact E|]. intros x. apply Is_true_false.
Qed.

Lemma mnt_find_some f (s : kstate W) i m :
  k_mnt s !! i = Some m -> f m = true -> (forall j m', (j < i)%nat -> k_mnt s !! j = Some m' -> f m' = false) ->
  mnt_find f s = Ok (Some i) s.
Proof.
  intros Hm Hf Hlt. unfold mnt_find, gets. do 2 f_equal.
  assert (list_find f (k_mnt s) = Some (i, m)) as ->; [|done].
  apply list_find_Some. split; [done|]. split; [by apply Is_true_true|].
  intros j m' Hm' Hj. apply Is_true_false. by eapply Hlt.
Qed.

Lemma mupd_inv i f (s s' : kstate W) u :
  mupd i f s = Ok u s' -> exists m, k_mnt s !! i = Some m /\ k_mnt s' = <[i := f m]> (k_mnt s) /\ k_of s' = k_of s.
Proof. unfold mupd. intros E. minv. eexists. eauto. Qed.

(** An entry in use for [dev] mounted on node [hino] of [hdev]. *)
Definition mounts (hdev hino dev : Z) (m : mountab) : Prop :=
  mt_stat m = 1 /\ v_dev (mt_root m) = dev /\ v_ino (mt_root m) = 0 /\ mt_hdev m = hdev /\ mt_hino m = hino.

(** The device number of some entry, used or not. *)
Definition lists_device (dev : Z) (s : kstate W) : Prop :=
  Exists (fun m => v_dev (mt_root m) = dev) (k_mnt s).

(** A mount that returns 0 has taken a free entry, recorded the device and
    the node it is mounted on there, marked it used and left the other entries
    alone, and [mountab_get] finds the device in that entry. *)
Theorem mount_found hdev hino dev (s s' : kstate W) :
  mountab_mount hdev hino dev s = Ok 0 s' ->
  exists i m m', k_mnt s !! i = Some m /\ mt_stat m = 0 /\ k_mnt s' = <[i := m']> (k_mnt s) /\
    mounts hdev hino dev m' /\ mountab_get dev s' = Ok (Some i) s'.
Proof.
  unfold mountab_mount. intros (r & t & H & E)%bind_inv. apply mnt_find_inv in H as [-> Hno].
  destruct r as [?|]; [discriminate E|]. apply bind_inv in E as (r & t & H & E).
  apply mnt_find_inv in H as [-> Hfree]. destruct r as [i|]; [|discriminate E].
  apply bind_inv in E as (? & s1 & (m1 & H1 & H1' & _)%mupd_inv & E).
  apply bind_inv in E as (? & s2 & (m2 & H2 & H2' & _)%mupd_inv & E).
  apply bind_inv in E as (ty & s3 & E3 & E).
  apply bind_inv in E as (? & s4 & (m4 & H4 & H4' & _)%mupd_inv & E).
  destruct (ty =? -1); [discriminate E|].
  apply bind_inv in E as (bs & s5 & E5 & E).
  apply bind_inv in E as (? & s6 & (m6 & H6 & H6' & _)%mupd_inv & E).
  apply bind_inv in E as (sb & s7 & E7 & E).
  apply bind_inv in E as (? & s8 & (m8 & H8 & H8' & _)%mupd_inv & E). injection E as <-.
  apply (probe_keeps (fun l _ => l = k_mnt s2) dev _ _ s2) in E3; [|done].
  apply (blksz_keeps (fun l _ => l = k_mnt s4) ty dev s4) in E5; [|done].
  apply (lsblk_keeps (fun l _ => l = k_mnt s6) ty dev s6) in E7; [|done].
  destruct Hfree as (m & Hm & Hst & _). apply Z.eqb_eq in Hst. rewrite Hm in H1. injection H1 as <-.
  pose proof (lookup_lt_Some _ _ _ Hm) as Hi.
  assert (forall u w, <[i := u]> (k_mnt s) !! i = Some w -> w = u) as Hget.
  { intros u w. rewrite list_lookup_insert_eq by done. by intros [= ->]. }
  rewrite H1' in *. apply Hget in H2. subst m2. rewrite list_insert_insert_eq in H2'. rewrite E3, H2' in *.
  apply Hget in H4. subst m4. rewrite list_insert_insert_eq in H4'. rewrite E5, H4' in *.
  apply Hget in H6. subst m6. rewrite list_insert_insert_eq in H6'. rewrite E7, H6' in *.
  apply Hget in H8. subst m8. rewrite list_insert_insert_eq in H8'.
  exists i, m. eexists. split; [done|]. split; [done|]. split; [exact H8'|]. split; [done|].
  eapply mnt_find_some.
  - rewrite H8'. by apply list_lookup_insert_eq.
  - cbn. apply Z.eqb_refl.
  - intros j m' Hj Hm'. rewrite H8', list_lookup_insert_ne in Hm' by lia.
    by apply (Forall_lookup_1 _ _ _ _ Hno Hm').
Qed.

Lemma listed_not_mounted hdev hino dev (s : kstate W) :
  lists_device dev s -> mountab_mount hdev hino dev s = Ok (-1) s.
Proof.
  intros (m & (i & Hm)%list_elem_of_lookup & Hd)%Exists_exists. unfold mountab_mount.
  destruct (mnt_find (fun m => v_dev (mt_root m) =? dev) s) as [r t|] eqn:E; [|discriminate E].
  pose proof (mnt_find_inv _ _ _ _ E) as [-> Hr]. rewrite (bind_ok _ _ _ _ _ E).
  destruct r as [j|]; [done|]. exfalso. apply (Forall_lookup_1 _ _ _ _ Hr) in Hm. by apply Z.eqb_neq in Hm.
Qed.

(** A device that was unmounted cannot be mounted again: the entry keeps
    its device number, and [mountab_mount] does not look at the entry's state. *)
Theorem remount_fails hdev hino dev (s s' : kstate W) :
  mountab_umount dev s = Ok 0 s' -> lists_device dev s' /\ mountab_mount hdev hino dev s' = Ok (-1) s'.
Proof.
  unfold mountab_umount. intros (r & t & H & E)%bind_inv. apply mnt_find_inv in H as [-> Hf].
  destruct r as [i|]; [|discriminate E]. destruct Hf as (m & Hm & [_ Hd]%andb_prop & _). apply Z.eqb_eq in Hd.
  apply bind_inv in E as (? & s1 & (m1 & H1 & H1' & _)%mupd_inv & E). injection E as <-.
  rewrite Hm in H1. injection H1 as <-.
  assert (lists_device dev s1) as HL; [|split; [done|by apply listed_not_mounted]].
  unfold lists_device. rewrite H1'. apply Exists_exists. eexists.
  split; [apply list_elem_of_lookup; exists i; apply list_lookup_insert_eq; by eapply lookup_lt_Some|exact Hd].
Qed.

(** ** [open] *)

Lemma vload_keeps P p : preserves (fun s : kstate W => P (k_mnt s) (k_of s)) (vload low p).
Proof.
  destruct p; cbn [vload]; [| |apply preserves_ret].
  - intros s a s' Hs. unfold on_vc, zoom. destruct (load i (k_vc s)); [|done]. by intros [= <- <-].
  - apply preserves_get. intros s Hs b s' E. destruct (k_mnt s !! i); cbn in E; minv; done.
Qed.

Lemma omount_keeps P o : preserves (fun s : kstate W => P (k_mnt s) (k_of s)) (omount o).
Proof.
  unfold omount. destruct (o_mount o); [|apply preserves_stop]. unfold mload.
  apply preserves_get. intros s Hs b s' E. destruct (k_mnt s !! n); cbn in E; minv; done.
Qed.

Lemma pos_block_keeps P o : preserves (fun s : kstate W => P (k_mnt s) (k_of s)) (pos_block low o).
Proof.
  unfold pos_block. apply preserves_bind; [apply omount_keeps|]. intros mt.
  apply preserves_bind; [apply vload_keeps|]. intros v. apply preserves_bind; [apply preserves_of_option|].
  intros q. apply preserves_bind; [|intros d; apply preserves_ret].
  unfold fs_daddr. apply preserves_bind; [apply fs_entry_keeps|]. intros e. destruct (daddr e) as [[]|]; apply preserves_ret.
Qed.

Lemma oload_inv k (s s' : kstate W) o : oload (Fd k) s = Ok o s' -> s' = s /\ k_of s !! k = Some o.
Proof. cbn. intros E. unfold bind, get in E. destruct (k_of s !! k); cbn in E; minv; done. Qed.

Lemma oupd_inv k f (s s' : kstate W) u :
  oupd (Fd k) f s = Ok u s' -> exists o, k_of s !! k = Some o /\ k_of s' = <[k := f o]> (k_of s).
Proof. cbn. intros E. minv. eexists. eauto. Qed.

(** [lseek(fd, offset, SEEK_SET)] leaves the position at [offset], whether or
    not it returns an error. *)
Lemma lseek_set_inv k off (s s' : kstate W) r :
  lseek low (Fd k) off SEEK_SET s = Ok r s' ->
  exists o, k_of s !! k = Some o /\ k_of s' = <[k := set_pos off o]> (k_of s).
Proof.
  unfold lseek. intros (o & t & [-> Ho]%oload_inv & E)%bind_inv.
  apply bind_inv in E as (v & t & Hv & E). apply (vload_keeps (fun _ l => l = k_of s)) in Hv; [|done].
  cbn [SEEK_SET Z.eqb] in E. apply bind_inv in E as (? & s1 & (o1 & Ho1 & H1)%oupd_inv & E).
  rewrite Hv in *. rewrite Ho in Ho1. injection Ho1 as <-. exists o. split; [done|]. rewrite <- H1.
  apply bind_inv in E as (o2 & t2 & [-> _]%oload_inv & E). destruct (_ || _); [by injection E as _ <-|].
  apply bind_inv in E as (b & s2 & E2 & E). apply (pos_block_keeps (fun _ l => l = k_of s1)) in E2; [|done].
  apply bind_inv in E as (mt & s3 & E3 & E). apply (omount_keeps (fun _ l => l = k_of s1)) in E3; [|done].
  apply bind_inv in E as (sp & s4 & E4 & E). apply (on_sc_keeps (fun _ l => l = k_of s1)) in E4; [|done].
  by injection E as _ <-.
Qed.

Lemma logical_and_le a b : 1 < b -> (logical_and a b =? b) = false.
Proof. clear low fuel. intros Hb. apply Z.eqb_neq. unfold logical_and. destruct (_ && _); lia. Qed.

(** Entry [k] of the open files, at position [pos] with flags [oflag]. *)
Definition opened_as (k : nat) (pos oflag : Z) (s : kstate W) : Prop :=
  exists o, k_of s !! k = Some o /\ o_pos o = pos /\ o_oflag o = oflag.

(** Every file [open] opens has its position at 0, also with [O_APPEND]:
    the flags are combined with the logical and, so that neither the append nor
    the truncate branch is ever taken. *)
Theorem open_at_start path oflag k (s s' : kstate W) :
  open low fuel path oflag s = Ok (Opened k) s' ->
  opened_as k 0 oflag s'.
Proof.
  unfold open. intros (vp & s1 & _ & E)%bind_inv. do 2 (destruct (_ && _ && _); [discriminate E|]).
  apply bind_inv in E as (v & s2 & _ & E). do 2 (destruct (_ && _); [discriminate E|]).
  apply bind_inv in E as (m & s3 & _ & E). destruct m as [i|]; [|discriminate E].
  apply bind_inv in E as (mt & s4 & _ & E). apply bind_inv in E as (scp & s5 & _ & E).
  destruct scp; [|discriminate E]. apply bind_inv in E as (ok & s6 & _ & E). destruct ok as [k'|]; [|discriminate E].
  rewrite !logical_and_le in E by (unfold O_APPEND, O_TRUNC; lia).
  apply bind_inv in E as (? & s7 & (o & Ho & H7)%oupd_inv & E).
  apply bind_inv in E as (? & s8 & (o8 & Ho8 & H8)%oupd_inv & E).
  apply bind_inv in E as (o9 & t & [-> Ho9]%oload_inv & E).
  apply bind_inv in E as (r & s9 & (o10 & Ho10 & H10)%lseek_set_inv & E). injection E as -> <-.
  pose proof (lookup_lt_Some _ _ _ Ho) as Hk.
  rewrite H7, list_lookup_insert_eq in Ho8 by done. injection Ho8 as <-.
  rewrite H8, list_lookup_insert_eq in Ho9 by (rewrite H7, length_insert; done). injection Ho9 as <-.
  rewrite H8, list_lookup_insert_eq in Ho10 by (rewrite H7, length_insert; done). injection Ho10 as <-.
  eexists. split; [rewrite H10, H8, H7; apply list_lookup_insert_eq; by rewrite !length_insert|done].
Qed.
End Mounts.

(** ** On a memory disk *)

Definition returns {S A} (f : A -> bool) (r : res S A) : bool :=
  match r with Ok a _ => f a | Err _ => false end.

Lemma returns_ok {S A} (f : A -> bool) (r : res S A) : returns f r = true -> exists a s, r = Ok a s /\ f a = true.
Proof. destruct r; [eauto|done]. Qed.

Definition small_fs : fs :=
  Fs (Some MfsImpl) (Some MfsImpl) (Some MfsImpl) (Some MfsImpl) (Some MfsImpl) (Some MfsImpl) (Some MfsImpl)
     (Some MfsImpl) (Some MfsImpl) (Some MfsImpl).

(** A disk with a super block, and an empty mount table. *)
Definition super_disk : sstate ram :=
  ram_state (fun k => if k =? 0 then encode_sblk new_super ++ replicate (512 - length (encode_sblk new_super)) 0
                      else replicate 512 0).
Definition free_mount : mountab := Mnt 0 [] 0 0 0 0 zero_vnode.
Definition unmounted : kstate ram :=
  K vcache0 super_disk (small_fs :: replicate 4 no_fs) (replicate 8 free_mount) [].

Lemma mount_found_witness :
  exists s' i, mountab_mount 0 0 1 unmounted = Ok 0 s' /\ mountab_get 1 s' = Ok (Some i) s'.
Proof.
  destruct (returns_ok (fun r => r =? 0) (mountab_mount 0 0 1 unmounted)) as (r & s' & E & ->%Z.eqb_eq).
  { vm_compute. reflexivity. }
  destruct (mount_found 0 0 1 unmounted s' E) as (i & _ & _ & _ & _ & _ & _ & Hg).
  exists s', i. split; [exact E|exact Hg].
Defined.

Lemma remount_fails_witness :
  exists (s s' : kstate ram), mountab_umount 1 s = Ok 0 s' /\ mountab_mount 0 0 1 s' = Ok (-1) s'.
Proof.
  destruct (returns_ok (fun r => r =? 0) ((mountab_mount 0 0 1 ;;; mountab_umount 1) unmounted))
    as (r & s' & E & ->%Z.eqb_eq).
  { vm_compute. reflexivity. }
  apply bind_inv in E as (? & s & _ & E). exists s, s'. split; [exact E|]. apply (remount_fails 0 0 1 s s' E).
Defined.

(** A mounted disk with the file "/a" in the vnode cache. *)
Definition file_a : vnode :=
  Vnode (97 :: replicate 67 0) 1 1 1 1 0 0 0 2000 0 0 0 0 2 0 VNull (VRoot 0) VNull VNull None None.
Definition mounted : kstate ram :=
  K (AL [file_a] 1 (Some 0%nat) (Some 0%nat)) super_disk [small_fs]
    [Mnt 1 (encode_sblk new_super) 1024 0 0 5 (v_set_child (VCache 0) (v_set_id 1 0 zero_vnode))]
    (replicate 4 (Of 0 VNull None 0)).
Definition low_a (_ : Z) : vnode := v_set_parent (VCache 0) zero_vnode.

Lemma open_at_start_witness :
  exists k s', open low_a 5 [47; 97] O_APPEND mounted = Ok (Opened k) s' /\ opened_as k 0 O_APPEND s'.
Proof.
  destruct (returns_ok (fun r => match r with Opened _ => true | _ => false end)
    (open low_a 5 [47; 97] O_APPEND mounted)) as (r & s' & E & Hr).
  { vm_compute. reflexivity. }
  destruct r as [k|]; [|discriminate Hr].
  destruct (open_at_start low_a 5 [47; 97] O_APPEND k mounted s' E) as (o & H). exists k, s'. split; [exact E|exists o; exact H].
Defined.
