(* ===== verification/KBitmap.v ===== *)
(** The kernel's bitmaps: [mfs_seekbmp] and [mfs_markbmp] of Mfs find and mark
    items of the bitmap on the disk, through the sector cache, so that
    [mfs_dalloc] and [mfs_ialloc] allocate a free one.  The items of a bitmap are those of
    Bitmap, the image builder's. *)
From stdpp Require Import sorting.
From S2P Require Import Prelude LibC Layout Bitmap MkMfs Device Alist Vcache Scache.
From S2P Require Import Coherence WriteBack Kstate Mfs KImage Vfs FileIO.

(** * Searching a byte and a buffer *)

Lemma scan_bytes_seek n b i : scan_bytes n b i = seek_loop n b i.
Proof. revert i. induction n as [|n IH]; intros i; [done|]. cbn. destruct (aget b i); [|done]. cbn. by rewrite IH. Qed.

Lemma land80_u8 t : Z.land (u8 t) 0x80 = Z.land t 0x80.
Proof. rewrite <- u8_land, <- Z.land_assoc. reflexivity. Qed.

Lemma u8_shiftl1 t : u8 (Z.shiftl (u8 t) 1) = u8 (Z.shiftl t 1).
Proof. unfold u8. rewrite !Z.shiftl_mul_pow2 by lia. apply Zmult_mod_idemp_l. Qed.

Lemma scan_bits_search n t j : scan_bits n (u8 t) j = search_byte n t j.
Proof.
  revert t j. induction n as [|n IH]; intros t j; cbn; rewrite land80_u8; [done|].
  rewrite u8_shiftl1. by rewrite IH.
Qed.

Lemma free_min_unique bmp i j : free_min bmp i -> free_min bmp j -> i = j.
Proof.
  intros (Hi & Fi & Ai) (Hj & Fj & Aj). destruct (Z.lt_trichotomy i j) as [H|[H|H]]; [|done|].
  - rewrite Aj in Fi by lia. done.
  - rewrite Ai in Fj by lia. done.
Qed.

Lemma aget_take {A} (l : list A) (n : nat) i : i < Z.of_nat n -> aget (take n l) i = aget l i.
Proof. intros Hi. unfold aget. case_decide; [|done]. apply lookup_take_lt. lia. Qed.

Lemma aset_take {A} (l : list A) (n : nat) i x :
  0 <= i < Z.of_nat n -> i < Z.of_nat (length l) ->
  exists l', aset l i x = Some l' /\ length l' = length l /\ aset (take n l) i x = Some (take n l').
Proof.
  intros Hi Hl. exists (<[Z.to_nat i := x]> l). rewrite !aset_Some by (rewrite ?length_take; lia).
  split_and!; [done|apply length_insert|]. by rewrite take_insert_lt by lia.
Qed.

(** The search in a buffer whose first block is the bitmap [bmp]. *)
Lemma scan_first (b : list Z) i :
  (1024 <= length b)%nat -> wf_bmp (take 1024 b) -> free_min (take 1024 b) i ->
  exists k x n, scan_bytes 1024 b 0 = Some (Some k) /\ aget b k = Some x /\
    scan_bits 8 (u8 (Z.lnot x)) 0 = Some n /\ n + k * 8 = i.
Proof.
  intros Hl Hw Hf. rewrite scan_bytes_seek.
  destruct (seek_loop_ok 1024 b 0) as [(k & x & E & Hk & Ex & Hne & Hall)|[_ Hall]]; [lia|lia| |].
  - assert (aget (take 1024 b) k = Some x) as Ex' by (rewrite aget_take by lia; done).
    pose proof (wf_bmp_aget _ _ _ Hw Ex') as Hu.
    destruct (search_byte_free x Hu Hne) as (n & En & Hn & Hb & Hj).
    exists k, x, n. split; [done|]. split; [done|]. split; [by rewrite <- (u8_u8 (Z.lnot x)), scan_bits_search|].
    eapply free_min_unique; [|exact Hf]. eapply found_free; try done.
    intros j Hj'. rewrite aget_take by lia. apply Hall. lia.
  - exfalso. destruct Hf as (Hi & Hu & _). unfold items in Hi. rewrite length_take in Hi.
    rewrite used_ff in Hu; [done|]. rewrite aget_take by (Z.div_mod_to_equations; lia).
    apply Hall. Z.div_mod_to_equations; lia.
Qed.

Section KBitmap.
Context {W : Type} (dev : Z) `{!Disk W dev} (sbp : mfs_sblk).
Context (Hbs : s_blksize sbp = 1024).

(** The bitmap on the disk: its first block. *)
Definition disk_bmp (s : kstate W) (type : bmptype) : list Z :=
  block dev 1024 (sdevs (k_sc s)) (bmp_start sbp type).

Lemma disk_bmp_wf s la lc type :
  cache_ok dev 1024 (k_sc s) la lc -> wf_bmp (disk_bmp s type) /\ length (disk_bmp s type) = 1024%nat.
Proof using Type.
  intros OK. split; [|by apply block_length, (ck_ready _ _ _ _ _ OK)].
  apply Forall_concat, Forall_fmap, Forall_true. intros k. apply sector_u8, (ck_ready _ _ _ _ _ OK).
Qed.

(** A block in the cache, with its entry. *)
Lemma get_entry s room blk :
  cache_from dev s room blk -> 0 < room -> covers (blk * 2) 2 ->
  exists sp c e la lc, on_sc (scache_get dev blk 1024) s = Ok (Some sp) (K (k_vc s) c (k_fs s) (k_mnt s) (k_of s)) /\
    cache_ok dev 1024 c la lc /\ sp ∈ lc /\ cnt (pool c) + (room - 1) <= NSECACHS /\
    sector (sdevs c) = sector (sdevs (k_sc s)) /\ arr (pool c) !! sp = Some e /\ s_blk e = blk /\
    length (s_buf e) = Z.to_nat NMXBLKSZ /\ take 1024 (s_buf e) = block dev 1024 (sdevs (k_sc s)) blk.
Proof using Type.
  intros (la & lc & OK & Hr & Hh) Hroom Hblk.
  destruct (scache_get_ok dev 1024 (k_sc s) la lc blk OK) as
    (sp & c & la' & lc' & e & E & OK' & Hs & Ee & Hb & Ht & _ & Hin & Hc); [by vm_compute|exact Hblk|lia|done|].
  exists sp, c, e, la', lc'. split_and!; try done; [by apply on_sc_ok|lia|].
  exact (Forall_lookup_1 _ _ _ _ (ck_bufs _ _ _ _ _ OK') Ee).
Qed.
(** [mfs_markbmp] changes one item of the bitmap on the disk and nothing else. *)
Lemma kmark_ok s room type index stat :
  let B := bmp_start sbp type in
  cache_from dev s room B -> 0 < room -> covers (B * 2) 2 -> 0 <= B < 2 ^ 20 -> 0 <= index < 8192 ->
  exists c, Mfs.mfs_markbmp sbp dev type index stat s = Ok tt (K (k_vc s) c (k_fs s) (k_mnt s) (k_of s)) /\
    (forall v, cache_from dev (K v c (k_fs s) (k_mnt s) (k_of s)) (room - 1) B) /\
    (forall k, 0 <= k < 8192 -> used (block dev 1024 (sdevs c) B) k =
       if decide (k = index) then negb (stat =? 0) else used (disk_bmp s type) k) /\
    (forall b, b <> B -> block dev 1024 (sdevs c) b = block dev 1024 (sdevs (k_sc s)) b) /\
    Bitmap.mfs_markbmp (disk_bmp s type) index stat = Some (block dev 1024 (sdevs c) B).
Proof using Hbs.
  intros B Hca Hroom Hcov HB Hi. pose proof Hca as (la0 & lc0 & OK0 & _).
  destruct (disk_bmp_wf s la0 lc0 type OK0) as [Hw Hwl].
  destruct (get_entry s room B Hca Hroom Hcov) as (sp & c & e & la & lc & Eg & OK & Hin & Hcnt & Hsec & Ee & Heb & Hbl & Ht).
  change (block dev 1024 (sdevs (k_sc s)) B) with (disk_bmp s type) in Ht.
  destruct (mark_ok (disk_bmp s type) index stat Hw) as (bmp' & Em & Hw' & Hl' & Hu);
    [unfold items; rewrite Hwl; lia|]. pose proof Em as Em0.
  unfold Bitmap.mfs_markbmp in Em. rewrite <- Ht in Em. rewrite Z.quot_div_nonneg in Em by lia.
  assert (0 <= index / 8 < 1024) as Hq by (Z.div_mod_to_equations; lia).
  rewrite aget_take in Em by lia. destruct (aget_Some (s_buf e) (index / 8)) as [x Ex]; [rewrite Hbl; unfold NMXBLKSZ; lia|].
  rewrite Ex in Em. cbn [mbind option_bind] in Em.
  destruct (aset_take (s_buf e) 1024 (index / 8) (mark_byte index stat x)) as (b' & Eb & Hlb & Eb');
    [lia|rewrite Hbl; unfold NMXBLKSZ; lia|]. rewrite Eb' in Em. injection Em as <-.
  destruct (sync_ok dev 1024 c la lc sp e b' OK Hin Ee) as (d & Es & OK' & Hown & Hoth);
    [by vm_compute|by rewrite Heb|by rewrite Hlb|exact Hw'|].
  rewrite Heb in Es, Hown, Hoth.
  exists (SState (pool (put_buf sp e b' c)) (clists c) d). split; [|split_and!].
  - unfold Mfs.mfs_markbmp. rewrite Hbs. change (s32 (8 * 1024)) with 8192. unfold sdiv, smod.
    change (8192 =? 0) with false. cbn [of_option]. msteps.
    rewrite Z.quot_small, Z.rem_small by lia. rewrite Z.add_0_r. fold B. rewrite s32_small by (unfold is_s32; lia).
    rewrite (bind_ok _ _ _ _ _ Eg). cbn [the_entry]. msteps.
    rewrite (bind_ok _ _ _ _ _ (buf_of_ok (K (k_vc s) c (k_fs s) (k_mnt s) (k_of s)) sp e Ee)).
    rewrite Z.quot_div_nonneg by lia. msome Ex. fold (mark_byte index stat x). msome Eb.
    unfold buf_set. rewrite (bind_ok _ _ _ _ _ (on_sc_ok _ (K (k_vc s) c (k_fs s) (k_mnt s) (k_of s)) _ _ (put_buf_upd sp e b' c Ee))).
    cbn [k_vc k_fs k_mnt k_of].
    rewrite (bind_ok _ _ _ _ _ (on_sc_ok _ (K (k_vc s) (put_buf sp e b' c) (k_fs s) (k_mnt s) (k_of s)) _ _ Es)). done.
  - intros v. exists la, lc. split; [done|]. split; [exact Hcnt|].
    eapply (sorted_head_le _ _ sp); [exact (ck_sorted _ _ _ _ _ OK')|done|].
    cbn [k_sc pool]. rewrite (put_buf_blk sp e b' c sp Ee). unfold blk_at. by rewrite Ee.
  - intros k Hk. cbn [sdevs]. rewrite Hown. rewrite <- Hu; [done|unfold items; rewrite Hwl; lia].
  - intros b Hb. cbn [sdevs]. rewrite Hoth by done. unfold block. by rewrite Hsec.
  - cbn [sdevs]. rewrite Em0. f_equal. symmetry. exact Hown.
Qed.

(** [mfs_seekbmp] returns the first free item of the bitmap on the disk. *)
Lemma kseek_ok s room type i :
  let B := bmp_start sbp type in
  cache_from dev s room B -> 0 < room -> covers (B * 2) 2 -> 0 <= B < 2 ^ 20 -> free_min (disk_bmp s type) i ->
  exists c, Mfs.mfs_seekbmp sbp dev type s = Ok i (K (k_vc s) c (k_fs s) (k_mnt s) (k_of s)) /\
    cache_from dev (K (k_vc s) c (k_fs s) (k_mnt s) (k_of s)) (room - 1) B /\
    sector (sdevs c) = sector (sdevs (k_sc s)).
Proof using Hbs.
  intros B Hca Hroom Hcov HB Hf. pose proof Hca as (la0 & lc0 & OK0 & _).
  destruct (disk_bmp_wf s la0 lc0 type OK0) as [Hw Hwl].
  destruct (get_entry s room B Hca Hroom Hcov) as (sp & c & e & la & lc & Eg & OK & Hin & Hcnt & Hsec & Ee & Heb & Hbl & Ht).
  change (block dev 1024 (sdevs (k_sc s)) B) with (disk_bmp s type) in Ht. rewrite <- Ht in Hf, Hw.
  destruct (scan_first (s_buf e) i) as (k & x & n & E1 & E2 & E3 & E4); [rewrite Hbl; unfold NMXBLKSZ; lia|done..|].
  exists c. split; [|split; [|done]].
  - unfold Mfs.mfs_seekbmp. assert (forall m, seekbmp_loop m sbp dev type 0 s =
      Ok i (K (k_vc s) c (k_fs s) (k_mnt s) (k_of s))) as Hloop; [|apply Hloop].
    intros [|m]; cbn [seekbmp_loop]; rewrite Hbs, Z.add_0_r; fold B; rewrite s32_small by (unfold is_s32; lia);
      rewrite (bind_ok _ _ _ _ _ Eg); cbn [the_entry]; msteps;
      rewrite (bind_ok _ _ _ _ _ (buf_of_ok (K (k_vc s) c (k_fs s) (k_mnt s) (k_of s)) sp e Ee));
      change (Z.to_nat 1024) with 1024%nat; msome E1; msome E2; msome E3; by rewrite E4.
  - exists la, lc. split; [done|]. split; [exact Hcnt|].
    eapply (sorted_head_le _ _ sp); [exact (ck_sorted _ _ _ _ _ OK)|done|]. unfold blk_at. cbn [k_sc]. by rewrite Ee.
Qed.
End KBitmap.

(** C12: while the data bitmap on the disk has a free item, [mfs_dalloc]
    returns the first one and marks it in the bitmap on the disk; no other item
    and no other block changes, and the cache stays coherent. *)
Theorem dalloc_allocates {W : Type} (dev : Z) `{!Disk W dev} sbp (s : kstate W) i :
  s_blksize sbp = 1024 -> 0 <= s_dbmp sbp < 2 ^ 20 -> covers (s_dbmp sbp * 2) 2 ->
  cache_from dev s 2 (s_dbmp sbp) -> free_min (disk_bmp dev sbp s DBLK) i ->
  exists s', mfs_dalloc sbp dev s = Ok i s' /\ cache_from dev s' 0 (s_dbmp sbp) /\
    (forall k, 0 <= k < 8192 -> used (disk_bmp dev sbp s' DBLK) k =
       bool_decide (k = i) || used (disk_bmp dev sbp s DBLK) k) /\
    (forall b, b <> s_dbmp sbp -> block dev 1024 (sdevs (k_sc s')) b = block dev 1024 (sdevs (k_sc s)) b).
Proof.
  intros Hbs HB Hcov Hca Hf. pose proof Hca as (la & lc & OK & _).
  destruct (disk_bmp_wf dev sbp s la lc DBLK OK) as [_ Hl].
  assert (0 <= i < 8192) as Hi by (destruct Hf as (Hi & _); unfold items in Hi; rewrite Hl in Hi; lia).
  destruct (kseek_ok dev sbp Hbs s 2 DBLK i Hca) as (c & E1 & Hca1 & Hsec); [lia|done..|].
  set (s1 := K (k_vc s) c (k_fs s) (k_mnt s) (k_of s)) in *.
  assert (disk_bmp dev sbp s1 DBLK = disk_bmp dev sbp s DBLK) as Hbmp
    by (unfold disk_bmp, block; cbn [k_sc s1]; by rewrite Hsec).
  destruct (kmark_ok dev sbp Hbs s1 (2 - 1) DBLK i 1 Hca1) as (c' & E2 & Hca2 & Hu & Hoth & _); [lia|done..|].
  eexists. split; [|split; [exact (Hca2 (k_vc s))|split]].
  - unfold mfs_dalloc. rewrite (bind_ok _ _ _ _ _ E1). rewrite (proj2 (Z.eqb_neq i (-1))) by lia.
    rewrite (bind_ok _ _ _ _ _ E2). done.
  - intros k Hk. unfold disk_bmp at 1. cbn [k_sc]. rewrite Hu by done. rewrite Hbmp. by repeat case_decide.
  - intros b Hb. cbn [k_sc]. rewrite Hoth by done. unfold block. cbn [k_sc s1]. by rewrite Hsec.
Qed.

Lemma dalloc_allocates_witness :
  exists s', mfs_dalloc new_super 0 (ram_kernel (fun _ => replicate 512 0)) = Ok 0 s' /\
    used (disk_bmp 0 new_super s' DBLK) 0 = true /\ used (disk_bmp 0 new_super s' DBLK) 1 = false.
Proof.
  destruct (dalloc_allocates 0 new_super (ram_kernel (fun _ => replicate 512 0)) 0) as (s' & E & _ & Hu & _).
  - reflexivity.
  - by vm_compute.
  - by vm_compute.
  - exists [], []. split; [apply ram_state_ok|]. by vm_compute.
  - split; [by vm_compute|]. split; [by vm_compute|]. lia.
  - exists s'. split; [exact E|]. rewrite !Hu by lia. split; vm_compute; reflexivity.
Defined.

(** C19: the kernel's bitmap routines, which work on the disk through the sector
    cache, agree with the builder's on the block in memory: [mfs_markbmp] leaves on
    the disk the bytes the builder's [mfs_markbmp] makes of the bitmap block and no
    other block changes; [mfs_seekbmp] returns the item the builder's finds. *)
Theorem kernel_bitmap_as_builder {W : Type} (dev : Z) `{!Disk W dev} sbp (s : kstate W) type index stat i :
  s_blksize sbp = 1024 -> 0 <= bmp_start sbp type < 2 ^ 20 -> covers (bmp_start sbp type * 2) 2 ->
  cache_from dev s 1 (bmp_start sbp type) -> 0 <= index < 8192 ->
  Bitmap.mfs_seekbmp (disk_bmp dev sbp s type) 0 8192 = Some i -> i <> -1 ->
  (exists s', Mfs.mfs_markbmp sbp dev type index stat s = Ok tt s' /\
     Bitmap.mfs_markbmp (disk_bmp dev sbp s type) index stat = Some (disk_bmp dev sbp s' type) /\
     forall b, b <> bmp_start sbp type -> block dev 1024 (sdevs (k_sc s')) b = block dev 1024 (sdevs (k_sc s)) b) /\
  (exists s', Mfs.mfs_seekbmp sbp dev type s = Ok i s' /\ disk_bmp dev sbp s' type = disk_bmp dev sbp s type).
Proof.
  intros Hbs HB Hcov Hca Hi Hs Hne. pose proof Hca as (la & lc & OK & _). split.
  - destruct (kmark_ok dev sbp Hbs s 1 type index stat Hca) as (c & E & _ & _ & Hoth & Hb); [lia|done..|].
    eexists. split; [exact E|]. split; [exact Hb|exact Hoth].
  - destruct (disk_bmp_wf dev sbp s la lc type OK) as [Hw Hwl].
    destruct (seek_ok (disk_bmp dev sbp s type) 8192 Hw) as [(k & Ek & _ & Hf)|[Ek _]];
      [unfold items; rewrite Hwl; lia|done| |congruence].
    assert (k = i) as -> by congruence.
    destruct (kseek_ok dev sbp Hbs s 1 type i Hca) as (c & E & _ & Hsec); [lia|done..|].
    eexists. split; [exact E|]. unfold disk_bmp, block. cbn [k_sc]. by rewrite Hsec.
Qed.

Lemma kernel_bitmap_as_builder_witness :
  (exists s', Mfs.mfs_markbmp new_super 0 IBLK 5 1 (ram_kernel (fun _ => replicate 512 0)) = Ok tt s' /\
     Bitmap.mfs_markbmp (disk_bmp 0 new_super (ram_kernel (fun _ => replicate 512 0)) IBLK) 5 1 =
       Some (disk_bmp 0 new_super s' IBLK) /\
     forall b, b <> bmp_start new_super IBLK -> block 0 1024 (sdevs (k_sc s')) b =
       block 0 1024 (sdevs (k_sc (ram_kernel (fun _ => replicate 512 0)))) b) /\
  (exists s', Mfs.mfs_seekbmp new_super 0 IBLK (ram_kernel (fun _ => replicate 512 0)) = Ok 0 s' /\
     disk_bmp 0 new_super s' IBLK = disk_bmp 0 new_super (ram_kernel (fun _ => replicate 512 0)) IBLK).
Proof.
  apply (kernel_bitmap_as_builder 0 new_super (ram_kernel (fun _ => replicate 512 0)) IBLK 5 1 0).
  - reflexivity.
  - by vm_compute.
  - by vm_compute.
  - exists [], []. split; [apply ram_state_ok|]. by vm_compute.
  - lia.
  - by vm_compute.
  - lia.
Defined.
