(* ===== verification/Tty.v ===== *)
(** The console driver, src/sysv3/kernel/arch/i386/cpu/tty.c: the display pages
    in video memory and the keyboard queue.  A display's [buf] is the index of
    its first character cell in the text memory at 0xb8000. *)
From S2P Require Import Prelude LibC Device I8259 Port Irq.

(** [struct tty_disp] *)
Record tty_disp := Disp { d_buf : Z; d_color : Z; max_x : Z; max_y : Z; pos_x : Z; pos_y : Z }.

Definition d_set_pos (x y : Z) (d : tty_disp) : tty_disp := Disp (d_buf d) (d_color d) (max_x d) (max_y d) x y.
Definition d_set_color (c : Z) (d : tty_disp) : tty_disp := Disp (d_buf d) c (max_x d) (max_y d) (pos_x d) (pos_y d).

Definition BUF_SIZE : Z := 16.

(** [struct tty_queue]: [map] marks the used slots with 0x55. *)
Record tty_queue := Queue { q_head : Z; q_tail : Z; q_buf : list Z; q_map : list Z }.

(** The driver's data, the text memory, and the interrupt tables with the
    machine behind the ports. *)
Record tty (S : Type) := Tty { disps : list tty_disp; vram : list Z; kbd : tty_queue; tio : irq_state S }.
Arguments Tty {S}. Arguments disps {S}. Arguments vram {S}. Arguments kbd {S}. Arguments tio {S}.

Section Tty.
Context {W : Type} `{PortIO W}.

Definition on_irq {A} (m : M (irq_state W) A) : M (tty W) A :=
  zoom tio (fun x s => Tty (disps s) (vram s) (kbd s) x) m.
Definition t_out (port val : Z) : M (tty W) unit := on_irq (outb port val).
Definition t_in (port : Z) : M (tty W) Z := on_irq (inb port).

Definition disp_at (i : Z) : M (tty W) tty_disp :=
  s <- get ;; of_option OutOfBounds (aget (disps s) i).
Definition disp_upd (i : Z) (f : tty_disp -> tty_disp) : M (tty W) unit :=
  s <- get ;;
  d <- of_option OutOfBounds (aget (disps s) i) ;;
  l <- of_option OutOfBounds (aset (disps s) i (f d)) ;;
  put (Tty l (vram s) (kbd s) (tio s)).

(** A cell of the text memory. *)
Definition cell_get (i : Z) : M (tty W) Z := s <- get ;; of_option OutOfBounds (aget (vram s) i).
Definition cell_set (i v : Z) : M (tty W) unit :=
  s <- get ;;
  l <- of_option OutOfBounds (aset (vram s) i (u16 v)) ;;
  put (Tty (disps s) l (kbd s) (tio s)).

(** [void tty_setpage(int index)] *)
Definition tty_setpage (index : Z) : M (tty W) unit :=
  d <- disp_at index ;;
  let page := u32 (index * max_x d * max_y d) in
  t_out 0x3D4 0x0C ;;;
  t_out 0x3D5 (Z.land (Z.shiftr page 8) 0xFF) ;;;
  t_out 0x3D4 0x0D ;;;
  t_out 0x3D5 (Z.land page 0xFF).

(** [void tty_setcursor(int page, int pos_x, int pos_y)] *)
Definition tty_setcursor (page px py : Z) : M (tty W) unit :=
  d <- disp_at page ;;
  let location := u32 (px + py * max_x d) in
  t_out 0x3D4 0x0E ;;;
  t_out 0x3D5 (Z.land (Z.shiftr location 8) 0xFF) ;;;
  t_out 0x3D4 0x0F ;;;
  t_out 0x3D5 (Z.land location 0xFF).

(** [while(cnt--) *dest++ = *src++;] *)
Fixpoint copy_cells (cnt : nat) (dest src : Z) : M (tty W) unit :=
  match cnt with
  | O => ret tt
  | S n => v <- cell_get src ;; cell_set dest v ;;; copy_cells n (dest + 1) (src + 1)
  end.

(** [while(cnt--) dest[cnt] = ' '|(0x0f<<8);] *)
Fixpoint blank_cells (cnt : nat) (dest : Z) : M (tty W) unit :=
  match cnt with
  | O => ret tt
  | S n => cell_set (dest + Z.of_nat n) (Z.lor 32 (Z.shiftl 0x0f 8)) ;;; blank_cells n dest
  end.

(** [void tty_scroll(int id)] *)
Definition tty_scroll (id : Z) : M (tty W) unit :=
  d <- disp_at id ;;
  copy_cells (Z.to_nat (u32 (max_x d * u32 (max_y d - 1)))) (d_buf d) (d_buf d + max_x d) ;;;
  blank_cells (Z.to_nat (max_x d)) (d_buf d + u32 (max_x d * u32 (max_y d - 1))).

(** The wrap and the scroll in front of each character. *)
Definition tty_prepare (id : Z) : M (tty W) unit :=
  d <- disp_at id ;;
  (if max_x d <=? pos_x d then disp_upd id (d_set_pos 0 (u32 (pos_y d + 1))) else ret tt) ;;;
  d <- disp_at id ;;
  if u32 (max_y d - 1) <=? pos_y d then
    tty_scroll id ;;; disp_upd id (fun d => d_set_pos (pos_x d) (u32 (pos_y d - 1)) d)
  else ret tt.

(** The switch on the character; [char] is signed. *)
Definition tty_putc (id c : Z) : M (tty W) unit :=
  d <- disp_at id ;;
  (if c =? 8 then
     if 0 <? pos_x d then disp_upd id (d_set_pos (pos_x d - 1) (pos_y d)) else ret tt
   else if c =? 13 then
     if 0 <? pos_x d then disp_upd id (d_set_pos 0 (pos_y d)) else ret tt
   else if c =? 10 then disp_upd id (d_set_pos 0 (u32 (pos_y d + 1)))
   else if c =? 9 then disp_upd id (d_set_pos (u32 ((pos_x d / 8 + 1) * 8)) (pos_y d))
   else
     cell_set (d_buf d + u32 (pos_x d + pos_y d * max_x d)) (Z.lor (s8 c) (Z.shiftl (d_color d) 8)) ;;;
     disp_upd id (d_set_pos (u32 (pos_x d + 1)) (pos_y d))) ;;;
  d <- disp_at id ;;
  tty_setcursor id (pos_x d) (pos_y d).

(** The loop [while(cnt--)] of [tty_write]. *)
Fixpoint write_chars (id : Z) (buf : list Z) (cnt : nat) {struct cnt} : M (tty W) Z :=
  match cnt with
  | O => ret 0
  | S n =>
      tty_prepare id ;;;
      match buf with
      | [] => stop OutOfBounds
      | c :: rest => tty_putc id c ;;; write_chars id rest n
      end
  end.

(** [int tty_write(dev_t id, char *buf, off_t cnt)] *)
Definition tty_write (id : Z) (buf : list Z) (cnt : Z) : M (tty W) Z :=
  write_chars (MINOR id) buf (Z.to_nat (u32 cnt)).

(** ** Keyboard *)

Definition kbd_set (q : tty_queue) : M (tty W) unit :=
  modify (fun s => Tty (disps s) (vram s) q (tio s)).

(** [void tty_kbd_buf_push(unsigned char scan_code)] *)
Definition tty_kbd_buf_push (scan_code : Z) : M (tty W) unit :=
  q <- gets kbd ;;
  m <- of_option OutOfBounds (aget (q_map q) (q_head q)) ;;
  if m =? 0 then
    b <- of_option OutOfBounds (aset (q_buf q) (q_head q) (u8 scan_code)) ;;
    mp <- of_option OutOfBounds (aset (q_map q) (q_head q) 0x55) ;;
    kbd_set (Queue (if 0 <? q_head q then q_head q - 1 else BUF_SIZE - 1) (q_tail q) b mp)
  else ret tt.

(** [unsigned char tty_kbd_buf_pop()] *)
Definition tty_kbd_buf_pop : M (tty W) Z :=
  q <- gets kbd ;;
  m <- of_option OutOfBounds (aget (q_map q) (q_tail q)) ;;
  if m =? 0x55 then
    mp <- of_option OutOfBounds (aset (q_map q) (q_tail q) 0) ;;
    c <- of_option OutOfBounds (aget (q_buf q) (q_tail q)) ;;
    kbd_set (Queue (q_head q) (if 0 <? q_tail q then q_tail q - 1 else BUF_SIZE - 1) (q_buf q) mp) ;;;
    ret c
  else ret 0.

(** [kprintf("<%x>\n", c)]: through the device switch it is [tty_write] again,
    piece by piece; [stack] is the buffer of [kprintf]. *)
Definition print_key (stack : list Z) (c : Z) : M (tty W) unit :=
  tty_write 0 [60] 1 ;;;
  match itoa (s32 c) 16 stack with
  | Err f => stop f
  | Ok _ b => n <- of_option OutOfBounds (strlen b) ;; tty_write 0 b n
  end ;;;
  tty_write 0 [62] 1 ;;;
  tty_write 0 [10] 1 ;;;
  ret tt.

(** [void tty_intr(struct Register *regs)] less its [MSG]s: the character is taken
    out again to be printed. *)
Definition tty_intr (stack : list Z) : M (tty W) unit :=
  t_in 0x64 ;;;
  c <- t_in 0x60 ;;
  tty_kbd_buf_push c ;;;
  c <- tty_kbd_buf_pop ;;
  print_key stack c ;;;
  t_in 0x64 ;;;
  ret tt.

(** [int tty_read(dev_t id, char *buf, off_t cnt)]: the byte stored at [buf[0]]. *)
Definition tty_read : M (tty W) (Z * list Z) := c <- tty_kbd_buf_pop ;; ret (0, [c]).

(** ** Control *)

(** [for(i=0; i<tty->max_x * tty->max_y; i++) tty->buf[i] = ' '|0x0f00;] *)
Fixpoint clear_cells (n : nat) (base i : Z) : M (tty W) unit :=
  match n with
  | O => ret tt
  | S n' => cell_set (base + i) (Z.lor 32 0x0f00) ;;; clear_cells n' base (i + 1)
  end.

(** [int tty_ioctl(dev_t id, int cmd, int arg)] *)
Definition tty_ioctl (id cmd arg : Z) : M (tty W) Z :=
  d <- disp_at (MINOR id) ;;
  (if cmd =? 1 then tty_setpage arg
   else if cmd =? 2 then disp_upd (MINOR id) (d_set_color (u8 arg))
   else if cmd =? 3 then clear_cells (Z.to_nat (u32 (max_x d * max_y d))) (d_buf d) 0
   else if cmd =? 4 then disp_upd (MINOR id) (fun d => d_set_pos (u32 arg) (pos_y d) d)
   else if cmd =? 5 then disp_upd (MINOR id) (fun d => d_set_pos (pos_x d) (u32 arg) d)
   else ret tt) ;;;
  ret 0.

Definition tty_open (id oflag mode : Z) : M (tty W) Z := ret 0.
Definition tty_close (id : Z) : M (tty W) Z := ret 0.

(** "TTY Display ready\n\n" *)
Definition ready_msg : list Z :=
  [84; 84; 89; 32; 68; 105; 115; 112; 108; 97; 121; 32; 114; 101; 97; 100; 121; 10; 10].

(** The display structures [tty_init] sets up. *)
Definition page_disp (i : nat) : tty_disp := Disp (80 * 25 * Z.of_nat i) 0x0F 80 25 0 0.

(** The driver's entries in the device switch. *)
Definition tty_entries : dev_chr (tty W) :=
  DevChr (Some tty_open) (Some tty_close) (Some (fun _ _ => tty_read))
    (Some tty_write) (Some tty_ioctl).

(** The number that names [tty_intr] in the interrupt tables. *)
Definition TTY_INTR : nat := 1.

(** [int tty_init()] *)
Definition tty_init : M (tty W) Z :=
  modify (fun s => Tty (map page_disp (seq 0 8)) (vram s) (kbd s) (tio s)) ;;;
  tty_ioctl 0 3 0 ;;;
  tty_write 0 ready_msg 19 ;;;
  on_irq (irq_install 1 (Some TTY_INTR)) ;;;
  ret 0.
End Tty.

(** * The display as a screen *)

(** The contract of the display: a page of 25 rows of 80 cells with a cursor,
    on which a character is put after the cursor has been wrapped to the next
    row and the page rolled up by one row where needed. *)
Record screen := Scr { cells : list Z; sx : Z; sy : Z }.

Definition blank : Z := 0x0f20.
Definition roll (l : list Z) : list Z := drop 80 l ++ replicate 80 blank.

Definition screen_wrap (p : screen) : screen :=
  if 80 <=? sx p then Scr (cells p) 0 (sy p + 1) else p.
Definition screen_roll (p : screen) : screen :=
  if 24 <=? sy p then Scr (roll (cells p)) (sx p) (sy p - 1) else p.

(** What a character does at the cursor, with the display's colour [col]. *)
Definition screen_char (col c : Z) (p : screen) : screen :=
  if c =? 8 then Scr (cells p) (Z.max 0 (sx p - 1)) (sy p)
  else if c =? 13 then Scr (cells p) 0 (sy p)
  else if c =? 10 then Scr (cells p) 0 (sy p + 1)
  else if c =? 9 then Scr (cells p) ((sx p / 8 + 1) * 8) (sy p)
  else Scr (<[Z.to_nat (sx p + sy p * 80) := u16 (Z.lor (s8 c) (Z.shiftl col 8))]> (cells p))
           (sx p + 1) (sy p).

Definition screen_put (col : Z) (p : screen) (c : Z) : screen :=
  screen_char col c (screen_roll (screen_wrap p)).
Definition screen_write (col : Z) (p : screen) (cs : list Z) : screen := foldl (screen_put col) p cs.

Definition page_ok (l : list Z) : Prop := length l = 2000%nat /\ Forall is_u16 l.

(** The cursor is on the page; a line feed may have left it in the last row,
    which the next character rolls up. *)
Definition screen_ok (p : screen) : Prop :=
  page_ok (cells p) /\ 0 <= sx p <= 80 /\ 0 <= sy p /\
  (sy p <= 23 \/ (sy p = 24 /\ sx p = 0)).

(** The cursor is on a cell a character may go to. *)
Definition screen_ready (p : screen) : Prop :=
  page_ok (cells p) /\ 0 <= sx p < 80 /\ 0 <= sy p <= 23.

Lemma page_ok_roll l : page_ok l -> page_ok (roll l).
Proof.
  intros [Hl Hu]. unfold roll. split.
  - rewrite length_app, length_drop, length_replicate. lia.
  - apply Forall_app. split; [by apply Forall_drop|]. apply Forall_replicate. unfold blank. int_lia.
Qed.

Lemma page_ok_insert l o v : page_ok l -> page_ok (<[o := u16 v]> l).
Proof. intros [Hl Hu]. split; [by rewrite length_insert|]. apply Forall_insert; auto with micron. Qed.

#[local] Hint Resolve page_ok_roll page_ok_insert : micron.

Lemma screen_prepare_ready p : screen_ok p -> screen_ready (screen_roll (screen_wrap p)).
Proof.
  destruct p as [l x y]. intros (Hl & Hx & Hy & Hc); simpl in *.
  unfold screen_roll, screen_wrap, screen_ready; simpl. destruct (Z.leb_spec 80 x); simpl.
  - destruct (Z.leb_spec 24 (y + 1)); simpl; (split; [auto with micron|lia]).
  - destruct (Z.leb_spec 24 y); simpl; (split; [auto with micron|lia]).
Qed.

Lemma screen_wrap_page p : screen_ok p -> page_ok (cells (screen_wrap p)) /\ 0 <= sy (screen_wrap p) <= 24.
Proof.
  destruct p as [l x y]. intros (Hl & Hx & Hy & Hc); simpl in *. unfold screen_wrap; simpl.
  destruct (Z.leb_spec 80 x); simpl; (split; [done|lia]).
Qed.

Lemma screen_char_ok col c p : screen_ready p -> screen_ok (screen_char col c p).
Proof.
  destruct p as [l x y]. intros (Hl & Hx & Hy); simpl in *. unfold screen_char, screen_ok; simpl.
  repeat case_match; simpl; (split; [auto with micron|]); repeat split; try lia;
    Z.div_mod_to_equations; lia.
Qed.

(** The ports of the display controller answer. *)
Class VideoPorts (W : Type) `{PortIO W} :=
  video_out : forall port val (w : W),
    port = 0x3D4 \/ port = 0x3D5 -> exists w', outportb port val w = Ok tt w'.

#[export] Instance pic_video : VideoPorts PicState2.
Proof. intros port val w [-> | ->]; eexists; reflexivity. Defined.

(** Display [i] has colour [col] and shows [p]: its page is the 2000 cells of
    the text memory between [pre] and [post]; [ds] are the other displays. *)
Definition shows {W} (i : nat) (col : Z) (pre post : list Z) (ds : list tty_disp) (kb : tty_queue)
    (p : screen) (s : tty W) : Prop :=
  disps s = <[i := Disp (2000 * Z.of_nat i) col 80 25 (sx p) (sy p)]> ds /\
  vram s = pre ++ cells p ++ post /\ kbd s = kb /\
  (i < length ds)%nat /\ Z.of_nat (length pre) = 2000 * Z.of_nat i.

Section Refine.
Context {W : Type} `{VideoPorts W}.
Variables (i : nat) (col : Z) (pre post : list Z) (ds : list tty_disp) (kb : tty_queue).
Let R (p : screen) (s : tty W) : Prop := shows i col pre post ds kb p s.
Let the_disp (p : screen) : tty_disp := Disp (2000 * Z.of_nat i) col 80 25 (sx p) (sy p).

Lemma lookup_shows p s : R p s -> aget (disps s) (Z.of_nat i) = Some (the_disp p).
Proof. intros (Hd & _ & _ & Hi & _). rewrite aget_lookup, Hd. by apply list_lookup_insert_eq. Qed.

Lemma disp_at_shows {A} p s (k : tty_disp -> M (tty W) A) :
  R p s -> bind (disp_at (Z.of_nat i)) k s = k (the_disp p) s.
Proof.
  intros HR. unfold disp_at. msteps. msome (lookup_shows p s HR). done.
Qed.

Lemma disp_upd_shows p s x y f :
  R p s -> f (the_disp p) = the_disp (Scr (cells p) x y) ->
  exists s', disp_upd (Z.of_nat i) f s = Ok tt s' /\ R (Scr (cells p) x y) s'.
Proof.
  intros HR Hf. pose proof HR as (Hd & Hv & Hk & Hi & Hp). eexists. split.
  - unfold disp_upd. msteps. msome (lookup_shows p s HR).
    erewrite bind_some; [reflexivity|]. apply aset_Some. rewrite Hd, length_insert. lia.
  - split; [|done]. cbn. by rewrite Hd, Nat2Z.id, list_insert_insert_eq, Hf.
Qed.

Lemma cell_set_shows p s o v :
  R p s -> length (cells p) = 2000%nat -> 0 <= o < 2000 ->
  exists s', cell_set (2000 * Z.of_nat i + o) v s = Ok tt s' /\
             R (Scr (<[Z.to_nat o := u16 v]> (cells p)) (sx p) (sy p)) s'.
Proof.
  intros (Hd & Hv & Hk & Hi & Hp) Hl Ho. eexists. split.
  - unfold cell_set. msteps. erewrite bind_some; [reflexivity|].
    apply aset_Some. rewrite Hv. autorewrite with lens. lia.
  - split; [done|]. split; [|done]. cbn. rewrite Hv.
    rewrite insert_app_r_alt by lia. rewrite insert_app_l by lia. do 3 f_equal. lia.
Qed.

Lemma setcursor_shows p s px py :
  R p s -> exists s', tty_setcursor (Z.of_nat i) px py s = Ok tt s' /\ R p s'.
Proof.
  intros HR. unfold tty_setcursor. rewrite (disp_at_shows p) by done. cbn zeta.
  assert (forall port val s, port = 0x3D4 \/ port = 0x3D5 -> R p s ->
    exists s', t_out port val s = Ok tt s' /\ R p s') as Hout.
  { intros port val t Hport HRt. unfold t_out, on_irq, zoom, outb, zoom.
    destruct (video_out port val (io (tio t)) Hport) as (w & ->). eauto. }
  destruct (Hout 0x3D4 0x0E s) as (s1 & E1 & R1); auto. rewrite (bind_ok _ _ _ _ _ E1).
  edestruct (Hout 0x3D5) as (s2 & E2 & R2); auto. 1: exact R1. rewrite (bind_ok _ _ _ _ _ E2).
  destruct (Hout 0x3D4 0x0F s2) as (s3 & E3 & R3); auto. rewrite (bind_ok _ _ _ _ _ E3).
  eapply Hout; eauto.
Qed.

Lemma cell_get_shows {A} p s o v (k : Z -> M (tty W) A) :
  R p s -> cells p !! o = Some v -> bind (cell_get (2000 * Z.of_nat i + Z.of_nat o)) k s = k v s.
Proof.
  intros (Hd & Hv & Hk & Hi & Hp) Ho. unfold cell_get. msteps. erewrite bind_some; [reflexivity|].
  unfold aget. rewrite decide_True, Hv by lia. rewrite lookup_app_r by lia.
  rewrite lookup_app_l; [rewrite <- Ho; f_equal; lia|].
  apply lookup_lt_Some in Ho. lia.
Qed.

(** The forward copy by one row, cell by cell through the overlap. *)
Lemma copy_cells_shows n : forall d p s,
  R p s -> page_ok (cells p) -> (d + 80 + n <= 2000)%nat ->
  exists s',
    copy_cells n (2000 * Z.of_nat i + Z.of_nat d) (2000 * Z.of_nat i + Z.of_nat d + 80) s = Ok tt s' /\
    R (Scr (take d (cells p) ++ take n (drop (d + 80) (cells p)) ++ drop (d + n) (cells p)) (sx p) (sy p)) s'.
Proof.
  induction n as [|n IH]; intros d p s HR [Hl Hu] Hd; cbn [copy_cells].
  - exists s. split; [done|]. rewrite take_0, Nat.add_0_r; cbn. rewrite take_drop. by destruct p.
  - destruct (lookup_lt_is_Some_2 (cells p) (d + 80)) as [v Hv]; [lia|].
    rewrite <- Z.add_assoc. change 80 with (Z.of_nat 80) at 1. rewrite <- Nat2Z.inj_add.
    rewrite (cell_get_shows p s (d + 80) v) by done. cbv beta.
    destruct (cell_set_shows p s (Z.of_nat d) v) as (s1 & E1 & R1); [done|done|lia|].
    rewrite (bind_ok _ _ _ _ _ E1).
    rewrite Nat2Z.id, u16_small in R1 by (eapply Forall_lookup_1; eauto).
    destruct (IH (Datatypes.S d) _ s1 R1) as (s2 & E2 & R2).
    { cbn. split; [by rewrite length_insert|]. apply Forall_insert; [done|]. eapply Forall_lookup_1; eauto. }
    { lia. }
    exists s2. split.
    { rewrite <- E2.
      replace (2000 * Z.of_nat i + Z.of_nat (Datatypes.S d)) with (2000 * Z.of_nat i + Z.of_nat d + 1) by lia.
      by replace (2000 * Z.of_nat i + Z.of_nat d + 1 + 80)
        with (2000 * Z.of_nat i + (Z.of_nat d + 80) + 1) by lia. }
    cbn [cells sx sy] in R2. rewrite take_insert_here, !drop_insert_lt in R2 by lia.
    rewrite <- app_assoc in R2. rewrite (drop_S (cells p) v (d + 80)) by done.
    replace (d + Datatypes.S n)%nat with (Datatypes.S d + n)%nat by lia. exact R2.
Qed.

Lemma blank_cells_shows n : forall o p s,
  R p s -> length (cells p) = 2000%nat -> (o + n <= 2000)%nat ->
  exists s', blank_cells n (2000 * Z.of_nat i + Z.of_nat o) s = Ok tt s' /\
    R (Scr (take o (cells p) ++ replicate n blank ++ drop (o + n) (cells p)) (sx p) (sy p)) s'.
Proof.
  induction n as [|n IH]; intros o p s HR Hl Ho; cbn [blank_cells].
  - exists s. split; [done|]. cbn. rewrite Nat.add_0_r, take_drop. by destruct p.
  - rewrite <- Z.add_assoc.
    destruct (cell_set_shows p s (Z.of_nat o + Z.of_nat n) (Z.lor 32 (Z.shiftl 15 8)))
      as (s1 & E1 & R1); [done|done|lia|]. rewrite (bind_ok _ _ _ _ _ E1).
    destruct (IH o _ s1 R1) as (s2 & E2 & R2); [cbn; by rewrite length_insert|lia|].
    exists s2. split; [done|]. cbn [cells sx sy] in R2.
    replace (Z.to_nat (Z.of_nat o + Z.of_nat n)) with (o + n)%nat in R2 by lia.
    rewrite take_insert_ge, drop_insert_here in R2 by lia.
    change (u16 (Z.lor 32 (Z.shiftl 15 8))) with blank in R2.
    rewrite replicate_S_end, <- app_assoc.
    replace (o + Datatypes.S n)%nat with (Datatypes.S (o + n))%nat by lia. exact R2.
Qed.

(** One roll of the page. *)
Lemma scroll_shows p s :
  R p s -> page_ok (cells p) ->
  exists s', tty_scroll (Z.of_nat i) s = Ok tt s' /\ R (Scr (roll (cells p)) (sx p) (sy p)) s'.
Proof.
  intros HR Hp. unfold tty_scroll. rewrite (disp_at_shows p) by done. cbn [max_x max_y d_buf].
  change (u32 (80 * u32 (25 - 1))) with 1920.
  destruct (copy_cells_shows 1920 0 p s) as (s1 & E1 & R1); [done..|lia|].
  rewrite Z.add_0_r in E1. change (Z.to_nat 1920) with 1920%nat. rewrite (bind_ok _ _ _ _ _ E1).
  cbn [Nat.add] in R1. rewrite take_0, app_nil_l in R1. destruct Hp as [Hl Hu].
  rewrite (take_ge (drop 80 (cells p))) in R1 by (rewrite length_drop; lia).
  destruct (blank_cells_shows 80 1920 _ s1 R1) as (s2 & E2 & R2).
  { cbn [cells]. autorewrite with lens. lia. }
  { lia. }
  exists s2. split; [exact E2|]. cbn [cells sx sy] in R2. 
  rewrite take_app_length', (drop_ge (drop 80 _ ++ _)), app_nil_r in R2
    by (autorewrite with lens; lia). exact R2.
Qed.

Lemma prepare_shows p s :
  R p s -> screen_ok p ->
  exists s', tty_prepare (Z.of_nat i) s = Ok tt s' /\ R (screen_roll (screen_wrap p)) s'.
Proof.
  intros HR Hp. unfold tty_prepare. rewrite (disp_at_shows p) by done. unfold the_disp. cbn [max_x pos_x pos_y].
  assert (exists s1, (if 80 <=? sx p then disp_upd (Z.of_nat i) (d_set_pos 0 (u32 (sy p + 1)))
    else ret tt) s = Ok tt s1 /\ R (screen_wrap p) s1) as (s1 & E1 & R1).
  { unfold screen_wrap. destruct (80 <=? sx p).
    - apply disp_upd_shows; [done|]. cbn. rewrite u32_small by (destruct Hp; int_lia). done.
    - eexists. split; [reflexivity|done]. }
  rewrite (bind_ok _ _ _ _ _ E1), (disp_at_shows (screen_wrap p)) by done. unfold the_disp. cbn [max_y pos_y].
  change (u32 (25 - 1)) with 24. unfold screen_roll.
  pose proof (screen_wrap_page p Hp) as [Hpg Hy].
  destruct (Z.leb_spec 24 (sy (screen_wrap p))).
  - destruct (scroll_shows _ _ R1 Hpg) as (s2 & E2 & R2).
    rewrite (bind_ok _ _ _ _ _ E2).
    apply (disp_upd_shows (Scr (roll (cells (screen_wrap p))) (sx (screen_wrap p)) (sy (screen_wrap p))));
      [done|]. cbn. by rewrite u32_small by int_lia.
  - eexists. split; [reflexivity|done].
Qed.

Lemma putc_shows c p s :
  R p s -> screen_ready p ->
  exists s', tty_putc (Z.of_nat i) c s = Ok tt s' /\ R (screen_char col c p) s'.
Proof.
  intros HR Hp. pose proof Hp as (Hpg & Hx & Hy). unfold tty_putc. rewrite (disp_at_shows p) by done.
  unfold the_disp. cbn [d_buf d_color max_x pos_x pos_y]. set (m := if c =? 8 then _ else _).
  assert (exists s1, m s = Ok tt s1 /\ R (screen_char col c p) s1) as (s1 & E1 & R1).
  { subst m. unfold screen_char.
    destruct (c =? 8); [|destruct (c =? 13); [|destruct (c =? 10); [|destruct (c =? 9)]]].
    - destruct (Z.ltb_spec 0 (sx p)).
      + rewrite Z.max_r by lia. by apply disp_upd_shows.
      + replace (Z.max 0 (sx p - 1)) with (sx p) by lia. exists s. split; [done|]. by destruct p.
    - destruct (Z.ltb_spec 0 (sx p)).
      + by apply disp_upd_shows.
      + replace 0 with (sx p) by lia. exists s. split; [done|]. by destruct p.
    - apply disp_upd_shows; [done|]. unfold d_set_pos; cbn. by rewrite u32_small by int_lia.
    - apply disp_upd_shows; [done|]. unfold d_set_pos; cbn. by rewrite u32_small by int_lia.
    - rewrite u32_small by int_lia.
      edestruct (cell_set_shows p s) as (s1 & E1 & R1); [done|apply Hpg| |rewrite (bind_ok _ _ _ _ _ E1)].
      { lia. }
      apply (disp_upd_shows (Scr (<[_ := _]> (cells p)) _ _) s1 _ _ _ R1). unfold d_set_pos; cbn. by rewrite u32_small by int_lia. }
  rewrite (bind_ok _ _ _ _ _ E1), (disp_at_shows _ _ _ R1). by apply setcursor_shows.
Qed.

Lemma write_chars_shows cs : forall rest p s,
  R p s -> screen_ok p ->
  exists s', write_chars (Z.of_nat i) (cs ++ rest) (length cs) s = Ok 0 s' /\
    R (screen_write col p cs) s' /\ screen_ok (screen_write col p cs).
Proof.
  induction cs as [|c cs IH]; intros rest p s HR Hp; cbn [write_chars app length].
  { exists s. split; [reflexivity|done]. }
  destruct (prepare_shows p s HR Hp) as (s1 & E1 & R1). rewrite (bind_ok _ _ _ _ _ E1).
  destruct (putc_shows c _ s1 R1) as (s2 & E2 & R2); [by apply screen_prepare_ready|].
  rewrite (bind_ok _ _ _ _ _ E2).
  apply (IH rest _ s2 R2). by apply screen_char_ok, screen_prepare_ready.
Qed.

Lemma clear_cells_shows n : forall o p s,
  R p s -> length (cells p) = 2000%nat -> (o + n <= 2000)%nat ->
  exists s', clear_cells n (2000 * Z.of_nat i) (Z.of_nat o) s = Ok tt s' /\
    R (Scr (take o (cells p) ++ replicate n blank ++ drop (o + n) (cells p)) (sx p) (sy p)) s'.
Proof.
  induction n as [|n IH]; intros o p s HR Hl Ho; cbn [clear_cells].
  - exists s. split; [done|]. cbn. rewrite Nat.add_0_r, take_drop. by destruct p.
  - destruct (cell_set_shows p s (Z.of_nat o) (Z.lor 32 0x0f00)) as (s1 & E1 & R1); [done|done|lia|].
    rewrite (bind_ok _ _ _ _ _ E1).
    destruct (IH (Datatypes.S o) _ s1 R1) as (s2 & E2 & R2); [cbn; by rewrite length_insert|lia|].
    exists s2. split; [rewrite <- E2; by replace (Z.of_nat (Datatypes.S o)) with (Z.of_nat o + 1) by lia|].
    cbn [cells sx sy] in R2. rewrite Nat2Z.id, take_insert_here, drop_insert_lt in R2 by lia.
    rewrite <- app_assoc in R2.
    replace (o + Datatypes.S n)%nat with (Datatypes.S o + n)%nat by lia. exact R2.
Qed.
End Refine.

Lemma MINOR_small k : 0 <= k < 2 ^ 16 -> MINOR k = k.
Proof. intros Hk. unfold MINOR. rewrite u16_land. by apply u16_small. Qed.

(** C37: [tty_write] refines the screen: on a display that shows [p] it returns
    0, leaves the display showing what [screen_write] makes of [p], with the
    cursor on the page again, and touches no other page, display or key. *)
Theorem tty_write_refines {W} `{VideoPorts W} i col pre post ds kb p cs (s : tty W) :
  shows i col pre post ds kb p s -> screen_ok p -> (i < 8)%nat -> Z.of_nat (length cs) < 2 ^ 31 ->
  exists s', tty_write (Z.of_nat i) cs (Z.of_nat (length cs)) s = Ok 0 s' /\
    shows i col pre post ds kb (screen_write col p cs) s' /\ screen_ok (screen_write col p cs).
Proof.
  intros HR Hp Hi Hc. unfold tty_write. rewrite MINOR_small by lia.
  rewrite u32_small, Nat2Z.id by int_lia.
  pose proof (write_chars_shows i col pre post ds kb cs [] p s HR Hp) as Hw.
  by rewrite app_nil_r in Hw.
Qed.

Lemma tty_write_refines_witness :
  exists s', tty_write 0 [72; 105; 10] 3
      (Tty [page_disp 0; page_disp 1] (replicate 2000 blank) (Queue 0 0 [] [])
         (MkIrq [] [] None false I8259.pic_init)) = Ok 0 s' /\
    shows 0 0x0F [] [] [page_disp 0; page_disp 1] (Queue 0 0 [] [])
      (Scr (<[1%nat := 0x0f69]> (<[0%nat := 0x0f48]> (replicate 2000 blank))) 0 1) s'.
Proof.
  destruct (tty_write_refines 0 0x0F [] [] [page_disp 0; page_disp 1] (Queue 0 0 [] [])
    (Scr (replicate 2000 blank) 0 0) [72; 105; 10]
    (Tty [page_disp 0; page_disp 1] (replicate 2000 blank) (Queue 0 0 [] [])
         (MkIrq [] [] None false I8259.pic_init))) as (s' & E & Hs & _).
  - split; [reflexivity|]. cbn [vram cells kbd]. rewrite app_nil_r. split; [done|]. split; [done|].
    cbn. lia.
  - split; [|cbn; lia]. split; [apply length_replicate|]. apply Forall_replicate. unfold blank. int_lia.
  - lia.
  - cbn. lia.
  - exists s'. split; [exact E|]. exact Hs.
Defined.

(** * The keyboard queue *)

(** The slot of the [j]-th oldest key: the ring is filled downwards. *)
Definition slot (q : tty_queue) (j : nat) : nat := Z.to_nat ((q_tail q - Z.of_nat j) mod 16).

(** The queue holds the keys [ks], oldest first. *)
Definition holds_keys (q : tty_queue) (ks : list Z) : Prop :=
  length (q_buf q) = 16%nat /\ length (q_map q) = 16%nat /\ 0 <= q_tail q < 16 /\
  (length ks <= 16)%nat /\ q_head q = (q_tail q - Z.of_nat (length ks)) mod 16 /\
  (forall j, (j < 16)%nat -> q_map q !! slot q j = Some (if decide (j < length ks)%nat then 0x55 else 0)) /\
  (forall j k, ks !! j = Some k -> q_buf q !! slot q j = Some k).

Lemma slot_inj q j j' : (j < 16)%nat -> (j' < 16)%nat -> slot q j = slot q j' -> j = j'.
Proof. unfold slot. intros Hj Hj' E. Z.div_mod_to_equations. lia. Qed.

Lemma slot_bound q j : (slot q j < 16)%nat.
Proof. unfold slot. Z.div_mod_to_equations. lia. Qed.

Section Keys.
Context {W : Type} `{PortIO W}.

Lemma push_room (s : tty W) ks c :
  holds_keys (kbd s) ks -> (length ks < 16)%nat ->
  exists q, tty_kbd_buf_push c s = Ok tt (Tty (disps s) (vram s) q (tio s)) /\
            holds_keys q (ks ++ [u8 c]).
Proof.
  intros (Hb & Hm & Ht & Hl & Hh & Hmap & Hbuf) Hroom. set (q := kbd s) in *.
  assert (q_head q = Z.of_nat (slot q (length ks))) as Hs.
  { unfold slot. rewrite Z2Nat.id; [done|]. apply Z.mod_pos_bound. lia. }
  pose proof (slot_bound q (length ks)) as Hsb.
  eexists. split.
  - unfold tty_kbd_buf_push. msteps. fold q. erewrite bind_some.
    2: { rewrite Hs, aget_lookup. by apply Hmap. }
    rewrite decide_False by lia. cbn [Z.eqb].
    erewrite bind_some by (apply aset_Some; lia). erewrite bind_some by (apply aset_Some; lia).
    reflexivity.
  - set (q' := Queue _ _ _ _). assert (forall j, slot q' j = slot q j) as Hsl by done.
    cbn [q_buf q_map q_tail q_head] in *.
    split; [unfold q'; cbn; by rewrite length_insert|].
    split; [unfold q'; cbn; by rewrite length_insert|]. split; [done|].
    rewrite length_app. cbn [length]. split; [lia|]. split; [|split].
    + unfold q'. cbn. destruct (Z.ltb_spec 0 (q_head q)); rewrite Hh in *; unfold BUF_SIZE;
        Z.div_mod_to_equations; lia.
    + intros j Hj. rewrite Hsl. unfold q'. cbn [q_map]. rewrite Hs, Nat2Z.id.
      destruct (decide (j = length ks)) as [->|Hne].
      * rewrite list_lookup_insert_eq by lia. by rewrite decide_True by lia.
      * rewrite list_lookup_insert_ne by (intros E; apply Hne; symmetry; by apply (slot_inj q)).
        rewrite Hmap by done. f_equal. repeat case_decide; (done || lia).
    + intros j k Hj. rewrite Hsl. unfold q'. cbn [q_buf]. rewrite Hs, Nat2Z.id.
      apply lookup_app_Some in Hj as [Hj|[Hge Hj]].
      * pose proof (lookup_lt_Some _ _ _ Hj). rewrite list_lookup_insert_ne; [by apply Hbuf|].
        intros E. apply (slot_inj q) in E; lia.
      * destruct (j - length ks)%nat eqn:E; [|done]. cbn in Hj. simplify_eq.
        replace j with (length ks) by lia. by rewrite list_lookup_insert_eq by lia.
Qed.

Lemma push_full (s : tty W) ks c :
  holds_keys (kbd s) ks -> length ks = 16%nat -> tty_kbd_buf_push c s = Ok tt s.
Proof.
  intros (Hb & Hm & Ht & Hl & Hh & Hmap & Hbuf) Hfull. unfold tty_kbd_buf_push. msteps.
  rewrite (bind_some _ _ 0x55); [reflexivity|].
  replace (q_head (kbd s)) with (Z.of_nat (slot (kbd s) 0)).
  - rewrite aget_lookup, Hmap by lia. by rewrite decide_True by lia.
  - unfold slot. rewrite Hh, Hfull. Z.div_mod_to_equations. lia.
Qed.

Lemma pop_key (s : tty W) k ks :
  holds_keys (kbd s) (k :: ks) ->
  exists q, tty_kbd_buf_pop s = Ok k (Tty (disps s) (vram s) q (tio s)) /\ holds_keys q ks.
Proof.
  intros (Hb & Hm & Ht & Hl & Hh & Hmap & Hbuf). cbn [length] in *. set (q := kbd s) in *.
  assert (q_tail q = Z.of_nat (slot q 0)) as Hs by (unfold slot; Z.div_mod_to_equations; lia).
  pose proof (slot_bound q 0) as Hsb.
  eexists. split.
  - unfold tty_kbd_buf_pop. msteps. fold q. erewrite bind_some.
    2: { rewrite Hs, aget_lookup. apply Hmap. lia. }
    rewrite decide_True by lia. cbn [Z.eqb Pos.eqb]. erewrite bind_some by (apply aset_Some; lia).
    erewrite bind_some by (rewrite Hs, aget_lookup; by apply (Hbuf 0%nat)). reflexivity.
  - set (q' := Queue _ _ _ _).
    assert (forall j, slot q' j = slot q (Datatypes.S j)) as Hsl.
    { intros j. unfold slot, q'. cbn. destruct (Z.ltb_spec 0 (q_tail q)); unfold BUF_SIZE;
        Z.div_mod_to_equations; lia. }
    cbn [q_buf q_map q_tail q_head] in *.
    split; [done|]. split; [unfold q'; cbn; by rewrite length_insert|].
    split; [unfold q', BUF_SIZE; cbn; destruct (Z.ltb_spec 0 (q_tail q)); lia|].
    split; [lia|]. split; [|split].
    + unfold q'. cbn. rewrite Hh. destruct (Z.ltb_spec 0 (q_tail q)); unfold BUF_SIZE;
        Z.div_mod_to_equations; lia.
    + intros j Hj. rewrite Hsl. unfold q'. cbn [q_map]. rewrite Hs, Nat2Z.id.
      destruct (decide (j = 15%nat)) as [->|Hne].
      * replace (slot q 16) with (slot q 0) by (unfold slot; Z.div_mod_to_equations; lia).
        rewrite list_lookup_insert_eq by lia. by rewrite decide_False by lia.
      * rewrite list_lookup_insert_ne by (intros E; apply (slot_inj q) in E; lia).
        rewrite Hmap by lia. f_equal. repeat case_decide; (done || lia).
    + intros j k' Hj. rewrite Hsl. by apply (Hbuf (Datatypes.S j)).
Qed.

Lemma pop_empty (s : tty W) : holds_keys (kbd s) [] -> tty_kbd_buf_pop s = Ok 0 s.
Proof.
  intros (Hb & Hm & Ht & Hl & Hh & Hmap & Hbuf). unfold tty_kbd_buf_pop. msteps.
  rewrite (bind_some _ _ 0); [reflexivity|].
  replace (q_tail (kbd s)) with (Z.of_nat (slot (kbd s) 0)).
  - rewrite aget_lookup, Hmap by lia. by rewrite decide_False by (cbn; lia).
  - unfold slot. Z.div_mod_to_equations. lia.
Qed.
End Keys.

Definition sync_kbd {W} (s : tty W) (q : tty_queue) : tty W := Tty (disps s) (vram s) q (tio s).

(** The keyboard ring is a queue of 16 keys: a push appends the scan code
    and is dropped when the queue is full, a pop takes the oldest key and gives
    0 when there is none. *)
Theorem kbd_fifo {W} `{PortIO W} (s : tty W) ks c :
  holds_keys (kbd s) ks ->
  (exists q, tty_kbd_buf_push c s = Ok tt (sync_kbd s q) /\
     holds_keys q (if decide (length ks < 16)%nat then ks ++ [u8 c] else ks)) /\
  (exists q, tty_kbd_buf_pop s = Ok (default 0 (head ks)) (sync_kbd s q) /\ holds_keys q (tail ks)).
Proof.
  intros Hk. split.
  - case_decide; [by apply push_room|]. exists (kbd s). split; [|done].
    rewrite (push_full s ks); [by destruct s|done|]. destruct Hk as (_ & _ & _ & ? & _). lia.
  - destruct ks as [|k ks]; [|by apply pop_key]. exists (kbd s). split; [|done].
    rewrite (pop_empty s); [by destruct s|done].
Qed.

Definition empty_queue : tty_queue := Queue 0 0 (replicate 16 0) (replicate 16 0).

Lemma kbd_fifo_witness :
  (exists q, tty_kbd_buf_push (W := PicState2) 0x1E
     (Tty [] [] empty_queue (MkIrq [] [] None false I8259.pic_init)) =
     Ok tt (Tty [] [] q (MkIrq [] [] None false I8259.pic_init)) /\ holds_keys q [0x1E]).
Proof.
  destruct (kbd_fifo (Tty [] [] empty_queue (MkIrq [] [] None false I8259.pic_init)) [] 0x1E)
    as [H _]; [|exact H].
  split; [done|]. split; [done|]. split; [cbn; lia|]. split; [cbn; lia|]. split; [done|]. split.
  - intros j Hj. rewrite decide_False by (cbn; lia). apply lookup_replicate_2, slot_bound.
  - intros j k Hj. done.
Defined.

(** [tty_ioctl] does not check a cursor position: after command 5 with a
    row below the text memory (16384 cells), the next printing character is
    stored outside of it, although the page has been rolled up first. *)
Theorem ioctl_row_faults {W} `{VideoPorts W} i col pre post ds kb p y c (s : tty W) :
  shows i col pre post ds kb p s -> screen_ok p -> sx p < 80 -> (i < 8)%nat ->
  Z.of_nat (length (vram s)) = 16384 -> 206 <= y < 2 ^ 24 -> c <> 8 -> c <> 13 -> c <> 10 -> c <> 9 ->
  (tty_ioctl (Z.of_nat i) 5 y ;;; tty_write (Z.of_nat i) [c] 1) s = Err OutOfBounds.
Proof.
  intros HR (Hpg & Hx & _) Hx' Hi Hv Hy H8 H13 H10 H9.
  unfold tty_ioctl, tty_write. rewrite !MINOR_small by lia. rewrite bind_assoc.
  rewrite (disp_at_shows _ _ _ _ _ _ _ _ _ HR). cbn [Z.eqb Pos.eqb]. rewrite bind_assoc.
  destruct (disp_upd_shows i col pre post ds kb p s (sx p) y (fun d => d_set_pos (pos_x d) (u32 y) d))
    as (s1 & E1 & R1); [done| |].
  { unfold d_set_pos. cbn. by rewrite u32_small by int_lia. }
  rewrite (bind_ok _ _ _ _ _ E1). msteps. change (Z.to_nat (u32 1)) with 1%nat. cbn [write_chars].
  assert (Z.of_nat (length (vram s1)) = 16384) as Hv1.
  { destruct HR as (_ & HvR & _), R1 as (_ & HvR1 & _). rewrite HvR1. by rewrite HvR in Hv. }
  destruct (scroll_shows i col pre post ds kb _ s1 R1 Hpg) as (s2 & E2 & R2).
  destruct (disp_upd_shows i col pre post ds kb _ s2 (sx p) (y - 1)
    (fun d => d_set_pos (pos_x d) (u32 (pos_y d - 1)) d) R2) as (s3 & E3 & R3).
  { unfold d_set_pos. cbn. by rewrite u32_small by int_lia. }
  rewrite (bind_ok (tty_prepare _) _ s1 tt s3).
  - unfold tty_putc. rewrite bind_assoc, (disp_at_shows _ _ _ _ _ _ _ _ _ R3).
    rewrite !(proj2 (Z.eqb_neq _ _)) by done. cbn [d_buf pos_x pos_y max_x d_color sx sy].
    rewrite !bind_assoc. unfold cell_set at 1. rewrite bind_assoc, bind_get, bind_assoc, bind_none; [done|].
    unfold aset. rewrite decide_False; [done|]. rewrite u32_small by int_lia.
    destruct R3 as (_ & -> & _ & _ & Hp). destruct R1 as (_ & HvR1 & _). rewrite HvR1 in Hv1.
    cbn [cells] in *. destruct (page_ok_roll _ Hpg) as [Hrl _]. destruct Hpg as [Hl _].
    rewrite !length_app in *. lia.
  - unfold tty_prepare. rewrite (disp_at_shows _ _ _ _ _ _ _ _ _ R1). cbn [max_x pos_x sx].
    rewrite (proj2 (Z.leb_gt 80 (sx p))) by lia. rewrite bind_ret, (disp_at_shows _ _ _ _ _ _ _ _ _ R1).
    cbn [max_y pos_y sy]. change (u32 (25 - 1)) with 24. rewrite (proj2 (Z.leb_le 24 y)) by lia.
    by rewrite (bind_ok _ _ _ _ _ E2).
Qed.

Lemma ioctl_row_faults_witness :
  (tty_ioctl 0 5 300 ;;; tty_write 0 [65] 1)
    (Tty [page_disp 0] (replicate 2000 blank ++ replicate (Z.to_nat 14384) blank) (Queue 0 0 [] [])
       (MkIrq [] [] None false I8259.pic_init)) = Err OutOfBounds.
Proof.
  apply (ioctl_row_faults 0 0x0F [] (replicate (Z.to_nat 14384) blank) [page_disp 0] (Queue 0 0 [] [])
    (Scr (replicate 2000 blank) 0 0)); try done; try lia.
  - split; [done|]. split; [done|]. split; [done|]. cbn. lia.
  - split; [|cbn; lia]. split; [apply length_replicate|]. apply Forall_replicate. unfold blank. int_lia.
Defined.
