(* ===== verification/Segments.v ===== *)
(** The segment and interrupt descriptor tables,
    src/sysv3/kernel/arch/i386/cpu/gdt.c and idt.c.  The bit fields are kept at
    their widths; [gdt_bits] and [idt_bits_of] are the 64-bit descriptors their
    layout makes.  The load instructions of [gdt_load] and [idt_load] only
    record the limit. *)
From S2P Require Import Prelude.

(** * gdt.c *)

Definition GDT_ENTRIES : Z := 8.

(** [struct gdt] *)
Record gdt := Gdt {
  slim_l : Z; badd_l : Z; badd_m : Z; g_type : Z; g_dpl : Z; g_p : Z; slim_h : Z; avl : Z; g_l : Z; g_db : Z;
  g_g : Z; badd_h : Z
}.

(** The values of the enumerations the code uses. *)
Definition BITS16 : Z := 0.
Definition BITS32 : Z := 1.
Definition UNIT_1B : Z := 0.
Definition UNIT_4K : Z := 1.
Definition SYST_BITS32_TSS_AVAL : Z := 9.
Definition DATA_READ_WRITE : Z := 18.
Definition CODE_READ_EXEC_CONFORM : Z := 30.

(** An assignment to a bit field of [w] bits. *)
Definition bits (w v : Z) : Z := v mod 2 ^ w.
#[global] Arguments bits : simpl never.

(** [int gdt_edit(index, address, limit, present, dpl, db, type, gran)] *)
Definition gdt_edit (index address limit present dpl db type gran : Z) : M (list gdt) Z :=
  if GDT_ENTRIES <? index then ret (-1) else
  s <- get ;;
  l <- of_option OutOfBounds (aset s index
         (Gdt (bits 16 (Z.land limit 0xFFFF)) (bits 16 (Z.land address 0xFFFF))
            (bits 8 (Z.land (Z.shiftr address 16) 0xFF)) (bits 5 type) (bits 2 dpl) (bits 1 present)
            (bits 4 (Z.land (Z.shiftr limit 16) 0xF)) 0 0 (bits 1 db) (bits 1 gran)
            (bits 8 (Z.land (Z.shiftr address 24) 0xFF)))) ;;
  put l ;;;
  ret 0.

(** [void gdt_init()]; [gdt_load] leaves the table as it is. *)
Definition gdt_init : M (list gdt) unit :=
  (* Null GDT entry *)
  gdt_edit 0 0 0 0 0 0 0 0 ;;;
  (* Kernel segments *)
  gdt_edit 1 0 0xFFFFF 1 0 BITS32 CODE_READ_EXEC_CONFORM UNIT_4K ;;;
  gdt_edit 2 0 0xFFFFF 1 0 BITS32 DATA_READ_WRITE UNIT_4K ;;;
  (* V8086 segments *)
  gdt_edit 3 0 0xFFFFF 1 0 BITS16 CODE_READ_EXEC_CONFORM UNIT_1B ;;;
  gdt_edit 4 0 0xFFFFF 1 0 BITS16 DATA_READ_WRITE UNIT_1B ;;;
  (* Application segments *)
  gdt_edit 5 0 0xFFFFF 1 3 BITS32 CODE_READ_EXEC_CONFORM UNIT_4K ;;;
  gdt_edit 6 0 0xFFFFF 1 3 BITS32 DATA_READ_WRITE UNIT_4K ;;;
  ret tt.

(** [void gdt_tss(unsigned tadd, unsigned size)] *)
Definition gdt_tss (tadd size : Z) : M (list gdt) unit :=
  gdt_edit 7 tadd size 1 0 BITS32 SYST_BITS32_TSS_AVAL UNIT_1B ;;; ret tt.

(** The descriptor in memory: the fields of the packed struct from bit 0 on. *)
Definition gdt_bits (e : gdt) : Z :=
  slim_l e + badd_l e * 2 ^ 16 + badd_m e * 2 ^ 32 + g_type e * 2 ^ 40 + g_dpl e * 2 ^ 45 + g_p e * 2 ^ 47 +
  slim_h e * 2 ^ 48 + avl e * 2 ^ 52 + g_l e * 2 ^ 53 + g_db e * 2 ^ 54 + g_g e * 2 ^ 55 + badd_h e * 2 ^ 56.

(** What the processor reads in a descriptor: base, limit, type, privilege,
    present, default size and granularity. *)
Record segment := Seg {
  sg_base : Z; sg_limit : Z; sg_type : Z; sg_dpl : Z; sg_present : Z; sg_db : Z; sg_g : Z
}.
Definition field_of (d lo w : Z) : Z := (d / 2 ^ lo) mod 2 ^ w.
Definition cpu_segment (d : Z) : segment :=
  Seg (field_of d 16 24 + field_of d 56 8 * 2 ^ 24) (field_of d 0 16 + field_of d 48 4 * 2 ^ 16)
    (field_of d 40 5) (field_of d 45 2) (field_of d 47 1) (field_of d 54 1) (field_of d 55 1).

(** * idt.c *)

Definition IDT_ENTRIES : Z := 256.
Definition INTR : Z := 6.

(** [struct idt] *)
Record idt := Idt {
  offset_l : Z; i_sel : Z; zero0 : Z; i_gtype : Z; i_gsize : Z; zero1 : Z; i_dpl : Z; i_p : Z; offset_h : Z
}.

(** [void idt_setup(index, sel, offset, p, dpl, type, size)] *)
Definition idt_setup (index sel offset p dpl type size : Z) : M (list idt) unit :=
  s <- get ;;
  l <- of_option OutOfBounds (aset s index
         (Idt (bits 16 (Z.land offset 0xFFFF)) (bits 16 sel) 0 (bits 3 type) (bits 1 size) 0 (bits 2 dpl) (bits 1 p)
            (bits 16 (Z.land (Z.shiftr offset 16) 0xFFFF)))) ;;
  put l.

Section Idt.
(** The addresses of the assembly stubs isr0..isr47, isr_invalid and
    isr_syscall of isr.s. *)
Variables (isr : Z -> Z) (isr_invalid isr_syscall : Z).

Fixpoint setup_standard (n : nat) (i : Z) : M (list idt) unit :=
  match n with
  | O => ret tt
  | S n' => idt_setup i 0x08 (isr i) 1 0 INTR BITS32 ;;; setup_standard n' (i + 1)
  end.

(** [for(i=48; i<0xff; i++) idt_setup(i, .., isr_invalid, ..);] *)
Fixpoint setup_invalid (n : nat) (i : Z) : M (list idt) unit :=
  match n with
  | O => ret tt
  | S n' =>
      if i <? 0xff then idt_setup i 0x08 isr_invalid 1 0 INTR BITS32 ;;; setup_invalid n' (i + 1) else ret tt
  end.

(** [void idt_init()]: the first 48 calls are written out in the source. *)
Definition idt_init : M (list idt) unit :=
  setup_standard 48 0 ;;;
  setup_invalid 256 48 ;;;
  idt_setup 0x80 0x08 isr_syscall 1 0 INTR BITS32.
End Idt.

(** The gate in memory, and what the processor reads in it. *)
Definition idt_bits_of (e : idt) : Z :=
  offset_l e + i_sel e * 2 ^ 16 + zero0 e * 2 ^ 32 + i_gtype e * 2 ^ 40 + i_gsize e * 2 ^ 43 + zero1 e * 2 ^ 44 +
  i_dpl e * 2 ^ 45 + i_p e * 2 ^ 47 + offset_h e * 2 ^ 48.
Record gate := Gate { gt_offset : Z; gt_sel : Z; gt_type : Z; gt_dpl : Z; gt_present : Z }.
Definition cpu_gate (d : Z) : gate :=
  Gate (field_of d 0 16 + field_of d 48 16 * 2 ^ 16) (field_of d 16 16) (field_of d 40 5) (field_of d 45 2)
    (field_of d 47 1).

(** * Properties *)

Lemma land_low v w : 0 <= w -> Z.land v (Z.ones w) = v mod 2 ^ w.
Proof. intros H. by rewrite Z.land_ones. Qed.

(** Both tables put fields together as base-2 digits: a field is found again at
    its place. *)
Lemma field_at lo w d a b c :
  0 <= lo -> 0 <= w -> 0 <= a < 2 ^ lo -> 0 <= b < 2 ^ w -> d = a + 2 ^ lo * (b + 2 ^ w * c) -> field_of d lo w = b.
Proof.
  intros Hlo Hw Ha Hb ->. unfold field_of.
  rewrite Z.mul_comm, Z.div_add, Z.div_small, Z.add_0_l by lia.
  rewrite Z.mul_comm, Z.mod_add by lia. by apply Z.mod_small.
Qed.

Ltac fields := unfold gdt_bits, idt_bits_of; cbn [slim_l badd_l badd_m g_type g_dpl g_p slim_h avl g_l g_db g_g badd_h
  offset_l i_sel zero0 i_gtype i_gsize zero1 i_dpl i_p offset_h].
Ltac field_is a b c :=
  apply (field_at _ _ _ (a) (b) (c)); [lia..|match goal with x := _ |- _ => subst x end; fields; lia].

Lemma cpu_segment_bits sl bl bm ty dp p sh db g bh :
  0 <= sl < 2 ^ 16 -> 0 <= bl < 2 ^ 16 -> 0 <= bm < 2 ^ 8 -> 0 <= ty < 2 ^ 5 -> 0 <= dp < 2 ^ 2 -> 0 <= p < 2 ->
  0 <= sh < 2 ^ 4 -> 0 <= db < 2 -> 0 <= g < 2 -> 0 <= bh < 2 ^ 8 ->
  cpu_segment (gdt_bits (Gdt sl bl bm ty dp p sh 0 0 db g bh)) =
    Seg (bl + bm * 2 ^ 16 + bh * 2 ^ 24) (sl + sh * 2 ^ 16) ty dp p db g.
Proof.
  intros. unfold cpu_segment. set (d := gdt_bits _).
  assert (field_of d 16 24 = bl + bm * 2 ^ 16) as ->
    by field_is sl (bl + bm * 2 ^ 16) (ty + dp * 2 ^ 5 + p * 2 ^ 7 + sh * 2 ^ 8 + db * 2 ^ 14 + g * 2 ^ 15 + bh * 2 ^ 16).
  assert (field_of d 56 8 = bh) as -> by
    field_is (sl + bl * 2 ^ 16 + bm * 2 ^ 32 + ty * 2 ^ 40 + dp * 2 ^ 45 + p * 2 ^ 47 + sh * 2 ^ 48 + db * 2 ^ 54 + g * 2 ^ 55) bh 0.
  assert (field_of d 0 16 = sl) as -> by
    field_is 0 sl (bl + bm * 2 ^ 16 + ty * 2 ^ 24 + dp * 2 ^ 29 + p * 2 ^ 31 + sh * 2 ^ 32 + db * 2 ^ 38 + g * 2 ^ 39 + bh * 2 ^ 40).
  assert (field_of d 48 4 = sh) as -> by
    field_is (sl + bl * 2 ^ 16 + bm * 2 ^ 32 + ty * 2 ^ 40 + dp * 2 ^ 45 + p * 2 ^ 47) sh (db * 2 ^ 2 + g * 2 ^ 3 + bh * 2 ^ 4).
  assert (field_of d 40 5 = ty) as -> by
    field_is (sl + bl * 2 ^ 16 + bm * 2 ^ 32) ty (dp + p * 2 ^ 2 + sh * 2 ^ 3 + db * 2 ^ 9 + g * 2 ^ 10 + bh * 2 ^ 11).
  assert (field_of d 45 2 = dp) as -> by
    field_is (sl + bl * 2 ^ 16 + bm * 2 ^ 32 + ty * 2 ^ 40) dp (p + sh * 2 + db * 2 ^ 7 + g * 2 ^ 8 + bh * 2 ^ 9).
  assert (field_of d 47 1 = p) as -> by
    field_is (sl + bl * 2 ^ 16 + bm * 2 ^ 32 + ty * 2 ^ 40 + dp * 2 ^ 45) p (sh + db * 2 ^ 6 + g * 2 ^ 7 + bh * 2 ^ 8).
  assert (field_of d 54 1 = db) as -> by
    field_is (sl + bl * 2 ^ 16 + bm * 2 ^ 32 + ty * 2 ^ 40 + dp * 2 ^ 45 + p * 2 ^ 47 + sh * 2 ^ 48) db (g + bh * 2).
  assert (field_of d 55 1 = g) as -> by
    field_is (sl + bl * 2 ^ 16 + bm * 2 ^ 32 + ty * 2 ^ 40 + dp * 2 ^ 45 + p * 2 ^ 47 + sh * 2 ^ 48 + db * 2 ^ 54) g bh.
  f_equal; lia.
Qed.

Lemma cpu_gate_bits ol sel ty sz dp p oh :
  0 <= ol < 2 ^ 16 -> 0 <= sel < 2 ^ 16 -> 0 <= ty < 2 ^ 3 -> 0 <= sz < 2 -> 0 <= dp < 2 ^ 2 -> 0 <= p < 2 ->
  0 <= oh < 2 ^ 16 ->
  cpu_gate (idt_bits_of (Idt ol sel 0 ty sz 0 dp p oh)) = Gate (ol + oh * 2 ^ 16) sel (ty + sz * 2 ^ 3) dp p.
Proof.
  intros. unfold cpu_gate. set (d := idt_bits_of _).
  assert (field_of d 0 16 = ol) as -> by
    field_is 0 ol (sel + ty * 2 ^ 24 + sz * 2 ^ 27 + dp * 2 ^ 29 + p * 2 ^ 31 + oh * 2 ^ 32).
  assert (field_of d 48 16 = oh) as -> by
    field_is (ol + sel * 2 ^ 16 + ty * 2 ^ 40 + sz * 2 ^ 43 + dp * 2 ^ 45 + p * 2 ^ 47) oh 0.
  assert (field_of d 16 16 = sel) as -> by
    field_is ol sel (ty * 2 ^ 8 + sz * 2 ^ 11 + dp * 2 ^ 13 + p * 2 ^ 15 + oh * 2 ^ 16).
  assert (field_of d 40 5 = ty + sz * 2 ^ 3) as -> by
    field_is (ol + sel * 2 ^ 16) (ty + sz * 2 ^ 3) (dp + p * 2 ^ 2 + oh * 2 ^ 3).
  assert (field_of d 45 2 = dp) as -> by
    field_is (ol + sel * 2 ^ 16 + ty * 2 ^ 40 + sz * 2 ^ 43) dp (p + oh * 2).
  assert (field_of d 47 1 = p) as -> by
    field_is (ol + sel * 2 ^ 16 + ty * 2 ^ 40 + sz * 2 ^ 43 + dp * 2 ^ 45) p oh.
  done.
Qed.

Lemma bits_range w v : 0 <= w -> 0 <= bits w v < 2 ^ w.
Proof. intros H. unfold bits. apply Z.mod_pos_bound. lia. Qed.
Lemma bits_small w v : 0 <= v < 2 ^ w -> bits w v = v.
Proof. apply Z.mod_small. Qed.
Lemma bits_land w v : 0 <= w -> bits w (Z.land v (Z.ones w)) = v mod 2 ^ w.
Proof. intros H. rewrite land_low by done. unfold bits. by rewrite Zmod_mod. Qed.

(** [gdt_edit] of an entry of the table makes the descriptor the processor
    reads as the segment asked for and leaves the others alone; entry 8, one
    past the table, is let through by the guard and stored outside; above it
    the result is -1. *)
Theorem gdt_edit_segment s index address limit present dpl db type gran :
  length s = 8%nat -> 0 <= index -> is_u32 address -> 0 <= limit < 2 ^ 20 -> 0 <= type < 2 ^ 5 ->
  0 <= dpl < 2 ^ 2 -> 0 <= present < 2 -> 0 <= db < 2 -> 0 <= gran < 2 ->
  (index < 8 -> exists e, gdt_edit index address limit present dpl db type gran s =
      Ok 0 (<[Z.to_nat index := e]> s) /\
    cpu_segment (gdt_bits e) = Seg address limit type dpl present db gran) /\
  (index = 8 -> gdt_edit index address limit present dpl db type gran s = Err OutOfBounds) /\
  (8 < index -> gdt_edit index address limit present dpl db type gran s = Ok (-1) s).
Proof.
  intros Hs Hi Ha Hl Ht Hd Hp Hdb Hg. unfold gdt_edit, GDT_ENTRIES. split; [|split].
  - intros Hlt. rewrite (proj2 (Z.ltb_ge _ _)) by lia. msteps. rewrite aset_Some by lia. cbn [of_option]. msteps.
    eexists. split; [reflexivity|].
    rewrite cpu_segment_bits by (apply bits_range; lia).
    change 0xFFFF with (Z.ones 16). change 0xFF with (Z.ones 8). change 0xF with (Z.ones 4).
    rewrite !bits_land, !bits_small, !Z.shiftr_div_pow2 by lia. unfold is_u32 in Ha.
    f_equal; Z.div_mod_to_equations; lia.
  - intros ->. cbn [Z.ltb Z.compare Pos.compare Pos.compare_cont]. msteps.
    unfold aset. rewrite decide_False by lia. done.
  - intros Hgt. by rewrite (proj2 (Z.ltb_lt _ _)) by lia.
Qed.

Lemma gdt_edit_segment_witness :
  exists e, gdt_edit 7 0x123456 0x67 1 0 BITS32 SYST_BITS32_TSS_AVAL UNIT_1B (replicate 8 (Gdt 0 0 0 0 0 0 0 0 0 0 0 0)) =
      Ok 0 (<[7%nat := e]> (replicate 8 (Gdt 0 0 0 0 0 0 0 0 0 0 0 0))) /\
    cpu_segment (gdt_bits e) = Seg 0x123456 0x67 9 0 1 1 0.
Proof.
  apply (gdt_edit_segment (replicate 8 (Gdt 0 0 0 0 0 0 0 0 0 0 0 0)) 7 0x123456 0x67 1 0 BITS32
    SYST_BITS32_TSS_AVAL UNIT_1B);
    unfold is_u32, BITS32, SYST_BITS32_TSS_AVAL, UNIT_1B; (reflexivity || lia).
Defined.

(** ** The interrupt gates *)

(** The entry the set-up makes for a handler. *)
Definition intr_entry (offset : Z) : idt :=
  Idt (bits 16 (Z.land offset 0xFFFF)) (bits 16 8) 0 (bits 3 INTR) (bits 1 BITS32) 0 (bits 2 0) (bits 1 1)
    (bits 16 (Z.land (Z.shiftr offset 16) 0xFFFF)).

Lemma intr_entry_gate offset : is_u32 offset -> cpu_gate (idt_bits_of (intr_entry offset)) = Gate offset 8 14 0 1.
Proof.
  intros Ho. unfold intr_entry. rewrite cpu_gate_bits by (apply bits_range; lia).
  change 0xFFFF with (Z.ones 16). rewrite !bits_land, Z.shiftr_div_pow2 by lia. unfold is_u32 in Ho.
  change (bits 16 8) with 8. change (bits 3 INTR + bits 1 BITS32 * 2 ^ 3) with 14. change (bits 2 0) with 0.
  change (bits 1 1) with 1. f_equal. Z.div_mod_to_equations. lia.
Qed.

Lemma idt_setup_entry s v offset :
  0 <= v < Z.of_nat (length s) ->
  idt_setup v 0x08 offset 1 0 INTR BITS32 s = Ok tt (<[Z.to_nat v := intr_entry offset]> s).
Proof. intros Hv. unfold idt_setup. msteps. by rewrite aset_Some by done. Qed.

Section IdtInit.
Variables (isr : Z -> Z) (isr_invalid isr_syscall : Z).

Lemma setup_standard_ok n : forall i s, 0 <= i -> i + Z.of_nat n <= Z.of_nat (length s) ->
  exists s', setup_standard isr n i s = Ok tt s' /\ length s' = length s /\
    forall v : nat, s' !! v = if decide (i <= Z.of_nat v < i + Z.of_nat n) then Some (intr_entry (isr (Z.of_nat v)))
                             else s !! v.
Proof.
  induction n as [|n IH]; intros i s Hi Hl; cbn [setup_standard].
  - exists s. split; [done|]. split; [done|]. intros v. by rewrite decide_False by lia.
  - rewrite (bind_ok _ _ _ _ _ (idt_setup_entry s i (isr i) ltac:(lia))).
    destruct (IH (i + 1) (<[Z.to_nat i := intr_entry (isr i)]> s)) as (s' & E & L & H); [lia|rewrite length_insert; lia|].
    exists s'. split; [done|]. split; [by rewrite L, length_insert|]. intros v. rewrite H.
    destruct (decide (Z.of_nat v = i)) as [<-|Hne].
    + rewrite decide_False, decide_True by lia. rewrite Nat2Z.id. apply list_lookup_insert_eq. lia.
    + rewrite list_lookup_insert_ne by lia. repeat case_decide; (done || lia).
Qed.

Lemma setup_invalid_ok n : forall i s, 0 <= i <= 0xff -> 0xff <= i + Z.of_nat n -> length s = 256%nat ->
  exists s', setup_invalid isr_invalid n i s = Ok tt s' /\ length s' = 256%nat /\
    forall v : nat, s' !! v = if decide (i <= Z.of_nat v < 0xff) then Some (intr_entry isr_invalid) else s !! v.
Proof.
  induction n as [|n IH]; intros i s Hi Hn Hl; cbn [setup_invalid].
  - exists s. split; [done|]. split; [done|]. intros v. by rewrite decide_False by lia.
  - destruct (Z.ltb_spec i 0xff).
    2: { exists s. split; [done|]. split; [done|]. intros v. by rewrite decide_False by lia. }
    rewrite (bind_ok _ _ _ _ _ (idt_setup_entry s i isr_invalid ltac:(lia))).
    destruct (IH (i + 1) (<[Z.to_nat i := intr_entry isr_invalid]> s)) as (s' & E & L & Hs);
      [lia|lia|by rewrite length_insert|].
    exists s'. split; [done|]. split; [done|]. intros v. rewrite Hs.
    destruct (decide (Z.of_nat v = i)) as [<-|Hne].
    + rewrite decide_False, decide_True by lia. rewrite Nat2Z.id. apply list_lookup_insert_eq. lia.
    + rewrite list_lookup_insert_ne by lia. repeat case_decide; (done || lia).
Qed.
End IdtInit.

(** After [idt_init] every vector below 255 has a present 32-bit interrupt
    gate of the kernel's code segment to its stub: the exceptions and lines 0-47
    to their own, 0x80 to the system call's, the rest to [isr_invalid]; vector
    255 is left as it was. *)
Theorem idt_init_gates isr isr_invalid isr_syscall s :
  length s = 256%nat -> (forall v, is_u32 (isr v)) -> is_u32 isr_invalid -> is_u32 isr_syscall ->
  exists s', idt_init isr isr_invalid isr_syscall s = Ok tt s' /\ s' !! 255%nat = s !! 255%nat /\
    forall v : nat, (v < 255)%nat -> exists e, s' !! v = Some e /\
      cpu_gate (idt_bits_of e) =
        Gate (if decide (v < 48)%nat then isr (Z.of_nat v) else if decide (v = 128)%nat then isr_syscall else isr_invalid)
          8 14 0 1.
Proof.
  intros Hl Hisr Hinv Hsys. unfold idt_init.
  destruct (setup_standard_ok isr 48 0 s) as (s1 & E1 & L1 & H1); [lia|lia|]. rewrite (bind_ok _ _ _ _ _ E1).
  destruct (setup_invalid_ok isr_invalid 256 48 s1) as (s2 & E2 & L2 & H2); [lia|lia|lia|]. rewrite (bind_ok _ _ _ _ _ E2).
  rewrite idt_setup_entry by lia. eexists. split; [reflexivity|]. change (Z.to_nat 0x80) with 128%nat. split.
  - rewrite list_lookup_insert_ne by lia. rewrite H2, decide_False by lia. rewrite H1, decide_False by lia. done.
  - intros v Hv. destruct (decide (v = 128%nat)) as [->|Hne].
    + rewrite decide_False by lia. eexists. split; [apply list_lookup_insert_eq; lia|by apply intr_entry_gate].
    + rewrite list_lookup_insert_ne, H2, H1 by lia. repeat case_decide; try lia; eexists; (split; [reflexivity|]);
        by apply intr_entry_gate.
Qed.

Lemma idt_init_gates_witness :
  exists s', idt_init (fun v => 0x1000 + 16 * (v mod 256)) 0x2000 0x2010 (replicate 256 (Idt 0 0 0 0 0 0 0 0 0)) = Ok tt s' /\
    s' !! 255%nat = Some (Idt 0 0 0 0 0 0 0 0 0).
Proof.
  destruct (idt_init_gates (fun v => 0x1000 + 16 * (v mod 256)) 0x2000 0x2010 (replicate 256 (Idt 0 0 0 0 0 0 0 0 0)))
    as (s' & E & H & _).
  - reflexivity.
  - intros v. unfold is_u32. pose proof (Z.mod_pos_bound v 256). lia.
  - unfold is_u32. lia.
  - unfold is_u32. lia.
  - exists s'. split; [exact E|exact H].
Defined.
