(* ===== verification/CcFlags.v ===== *)
(** The condition codes of the emulated processor, src/sysvm/target-i386/
    ops_template.h and op.c for the 32-bit target.  An arithmetic operation only
    records its operation, its result and an operand ([CC_OP], [CC_DST],
    [CC_SRC]); the flags are computed from them when an instruction reads them.
    The templates are included for three operand sizes, here an argument. *)
From S2P Require Import Prelude.

Definition CC_C : Z := 0x0001.
Definition CC_P : Z := 0x0004.
Definition CC_A : Z := 0x0010.
Definition CC_Z : Z := 0x0040.
Definition CC_S : Z := 0x0080.
Definition CC_O : Z := 0x0800.

(** [SHIFT], [DATA_BITS], the casts to [DATA_TYPE] and [DATA_STYPE],
    [DATA_MASK] and [SIGN_MASK]. *)
Inductive osize := SzB | SzW | SzL.
#[export] Instance osize_eq_dec : EqDecision osize.
Proof. solve_decision. Defined.
Definition SHIFT (w : osize) : Z := match w with SzB => 0 | SzW => 1 | SzL => 2 end.
Definition DATA_BITS (w : osize) : Z := match w with SzB => 8 | SzW => 16 | SzL => 32 end.
Definition data_type (w : osize) (x : Z) : Z := x mod 2 ^ DATA_BITS w.
Definition data_stype (w : osize) (x : Z) : Z := (x + 2 ^ (DATA_BITS w - 1)) mod 2 ^ DATA_BITS w - 2 ^ (DATA_BITS w - 1).
Definition DATA_MASK (w : osize) : Z := match w with SzB => 0xff | SzW => 0xffff | SzL => 0xffffffff end.
Definition SIGN_MASK (w : osize) : Z := Z.shiftl 1 (DATA_BITS w - 1).

(** [lshift] *)
Definition lshift (x n : Z) : Z :=
  if 0 <=? n then s32 (Z.shiftl (s32 x) n) else Z.shiftr (s32 x) (- n).

(** A comparison as a number. *)
Definition b2z (b : bool) : Z := if b then 1 else 0.

Definition parity_table : list Z :=
  [4; 0; 0; 4; 0; 4; 4; 0; 0; 4; 4; 0; 4; 0; 0; 4; 0; 4; 4; 0; 4; 0; 0; 4; 4; 0; 0; 4; 0; 4; 4; 0;
   0; 4; 4; 0; 4; 0; 0; 4; 4; 0; 0; 4; 0; 4; 4; 0; 4; 0; 0; 4; 0; 4; 4; 0; 0; 4; 4; 0; 4; 0; 0; 4;
   0; 4; 4; 0; 4; 0; 0; 4; 4; 0; 0; 4; 0; 4; 4; 0; 4; 0; 0; 4; 0; 4; 4; 0; 0; 4; 4; 0; 4; 0; 0; 4;
   4; 0; 0; 4; 0; 4; 4; 0; 0; 4; 4; 0; 4; 0; 0; 4; 0; 4; 4; 0; 4; 0; 0; 4; 4; 0; 0; 4; 0; 4; 4; 0;
   0; 4; 4; 0; 4; 0; 0; 4; 4; 0; 0; 4; 0; 4; 4; 0; 4; 0; 0; 4; 0; 4; 4; 0; 0; 4; 4; 0; 4; 0; 0; 4;
   4; 0; 0; 4; 0; 4; 4; 0; 0; 4; 4; 0; 4; 0; 0; 4; 0; 4; 4; 0; 4; 0; 0; 4; 4; 0; 0; 4; 0; 4; 4; 0;
   4; 0; 0; 4; 0; 4; 4; 0; 0; 4; 4; 0; 4; 0; 0; 4; 0; 4; 4; 0; 4; 0; 0; 4; 4; 0; 0; 4; 0; 4; 4; 0;
   0; 4; 4; 0; 4; 0; 0; 4; 4; 0; 0; 4; 0; 4; 4; 0; 4; 0; 0; 4; 0; 4; 4; 0; 0; 4; 4; 0; 4; 0; 0; 4].

(** [parity_table[(uint8_t)x]], always inside the table. *)
Definition parity (x : Z) : Z := nth (Z.to_nat (u8 x)) parity_table 0.

(** [cf | pf | af | zf | sf | of] *)
Definition or_flags (cf pf af zf sf ovf : Z) : Z := Z.lor (Z.lor (Z.lor (Z.lor (Z.lor cf pf) af) zf) sf) ovf.

(** The terms shared by the functions below: [zf], [sf] and [af]. *)
Definition zf_of (w : osize) (dst : Z) : Z := Z.shiftl (b2z (data_type w dst =? 0)) 6.
Definition sf_of (w : osize) (dst : Z) : Z := Z.land (lshift dst (8 - DATA_BITS w)) 0x80.
Definition af_of (dst src1 src2 : Z) : Z := Z.land (Z.lxor (Z.lxor dst src1) src2) 0x10.

Definition compute_all_add (w : osize) (src dst : Z) : Z :=
  let src1 := s32 src in
  let src2 := s32 (dst - src) in
  or_flags (b2z (data_type w dst <? data_type w src1)) (parity dst) (af_of dst src1 src2) (zf_of w dst) (sf_of w dst)
    (Z.land (lshift (Z.land (Z.lxor (Z.lxor src1 src2) (-1)) (Z.lxor src1 dst)) (12 - DATA_BITS w)) CC_O).
Definition compute_c_add (w : osize) (src dst : Z) : Z := b2z (data_type w dst <? data_type w (s32 src)).

Definition compute_all_adc (w : osize) (src dst : Z) : Z :=
  let src1 := s32 src in
  let src2 := s32 (dst - src - 1) in
  or_flags (b2z (data_type w dst <=? data_type w src1)) (parity dst) (af_of dst src1 src2) (zf_of w dst) (sf_of w dst)
    (Z.land (lshift (Z.land (Z.lxor (Z.lxor src1 src2) (-1)) (Z.lxor src1 dst)) (12 - DATA_BITS w)) CC_O).
Definition compute_c_adc (w : osize) (src dst : Z) : Z := b2z (data_type w dst <=? data_type w (s32 src)).

Definition compute_all_sub (w : osize) (src dst : Z) : Z :=
  let src1 := s32 (dst + src) in
  let src2 := s32 src in
  or_flags (b2z (data_type w src1 <? data_type w src2)) (parity dst) (af_of dst src1 src2) (zf_of w dst) (sf_of w dst)
    (Z.land (lshift (Z.land (Z.lxor src1 src2) (Z.lxor src1 dst)) (12 - DATA_BITS w)) CC_O).
Definition compute_c_sub (w : osize) (src dst : Z) : Z :=
  b2z (data_type w (s32 (dst + src)) <? data_type w (s32 src)).

Definition compute_all_sbb (w : osize) (src dst : Z) : Z :=
  let src1 := s32 (dst + src + 1) in
  let src2 := s32 src in
  or_flags (b2z (data_type w src1 <=? data_type w src2)) (parity dst) (af_of dst src1 src2) (zf_of w dst) (sf_of w dst)
    (Z.land (lshift (Z.land (Z.lxor src1 src2) (Z.lxor src1 dst)) (12 - DATA_BITS w)) CC_O).
Definition compute_c_sbb (w : osize) (src dst : Z) : Z :=
  b2z (data_type w (s32 (dst + src + 1)) <=? data_type w (s32 src)).

Definition compute_all_logic (w : osize) (src dst : Z) : Z :=
  or_flags 0 (parity dst) 0 (zf_of w dst) (sf_of w dst) 0.
Definition compute_c_logic (w : osize) (src dst : Z) : Z := 0.

Definition compute_all_inc (w : osize) (src dst : Z) : Z :=
  let src1 := s32 (dst - 1) in
  or_flags (s32 src) (parity dst) (af_of dst src1 1) (zf_of w dst) (sf_of w dst)
    (Z.shiftl (b2z (Z.land dst (DATA_MASK w) =? SIGN_MASK w)) 11).
Definition compute_c_inc (src : Z) : Z := s32 src.

Definition compute_all_dec (w : osize) (src dst : Z) : Z :=
  let src1 := s32 (dst + 1) in
  or_flags (s32 src) (parity dst) (af_of dst src1 1) (zf_of w dst) (sf_of w dst)
    (Z.shiftl (b2z (Z.land dst (DATA_MASK w) =? SIGN_MASK w - 1)) 11).

Definition compute_all_shl (w : osize) (src dst : Z) : Z :=
  or_flags (Z.land (Z.shiftr src (DATA_BITS w - 1)) CC_C) (parity dst) 0 (zf_of w dst) (sf_of w dst)
    (Z.land (lshift (Z.lxor src dst) (12 - DATA_BITS w)) CC_O).
Definition compute_c_shl (w : osize) (src dst : Z) : Z := Z.land (Z.shiftr src (DATA_BITS w - 1)) CC_C.

Definition compute_all_sar (w : osize) (src dst : Z) : Z :=
  or_flags (Z.land src 1) (parity dst) 0 (zf_of w dst) (sf_of w dst)
    (Z.land (lshift (Z.lxor src dst) (12 - DATA_BITS w)) CC_O).
Definition compute_c_sar (src : Z) : Z := Z.land src 1.

Definition compute_all_mul (w : osize) (src dst : Z) : Z :=
  let cf := b2z (negb (src =? 0)) in
  or_flags cf (parity dst) 0 (zf_of w dst) (sf_of w dst) (Z.shiftl cf 11).
Definition compute_c_mul (src : Z) : Z := b2z (negb (src =? 0)).

Definition compute_all_eflags (src : Z) : Z := s32 src.
Definition compute_c_eflags (src : Z) : Z := Z.land src CC_C.

(** The operations of [CC_OP]: those without a size, and four numbers per
    operation for the sizes. *)
Definition CC_OP_DYNAMIC : Z := 0.
Definition CC_OP_EFLAGS : Z := 1.
Definition CC_OP_MULB : Z := 2.
Definition CC_OP_ADDB : Z := 6.
Definition CC_OP_ADCB : Z := 10.
Definition CC_OP_SUBB : Z := 14.
Definition CC_OP_SBBB : Z := 18.
Definition CC_OP_LOGICB : Z := 22.
Definition CC_OP_INCB : Z := 26.
Definition CC_OP_DECB : Z := 30.
Definition CC_OP_SHLB : Z := 34.
Definition CC_OP_SARB : Z := 38.

(** The entry of size [w] of the operation that starts at [base]. *)
Definition cc_at (base : Z) (op : Z) : option osize :=
  if op =? base then Some SzB else if op =? base + 1 then Some SzW else if op =? base + 2 then Some SzL else None.

Record CCTable := CC { compute_all : Z -> Z -> Z; compute_c : Z -> Z -> Z }.

(** [cc_table[op]]; [None] is an entry without functions or outside. *)
Definition cc_table (op : Z) : option CCTable :=
  if op =? CC_OP_EFLAGS then Some (CC (fun src _ => compute_all_eflags src) (fun src _ => compute_c_eflags src)) else
  match cc_at CC_OP_MULB op with Some w => Some (CC (compute_all_mul w) (fun src _ => compute_c_mul src)) | None =>
  match cc_at CC_OP_ADDB op with Some w => Some (CC (compute_all_add w) (compute_c_add w)) | None =>
  match cc_at CC_OP_ADCB op with Some w => Some (CC (compute_all_adc w) (compute_c_adc w)) | None =>
  match cc_at CC_OP_SUBB op with Some w => Some (CC (compute_all_sub w) (compute_c_sub w)) | None =>
  match cc_at CC_OP_SBBB op with Some w => Some (CC (compute_all_sbb w) (compute_c_sbb w)) | None =>
  match cc_at CC_OP_LOGICB op with Some w => Some (CC (compute_all_logic w) (compute_c_logic w)) | None =>
  match cc_at CC_OP_INCB op with Some w => Some (CC (compute_all_inc w) (fun src _ => compute_c_inc src)) | None =>
  match cc_at CC_OP_DECB op with Some w => Some (CC (compute_all_dec w) (fun src _ => compute_c_inc src)) | None =>
  match cc_at CC_OP_SHLB op with Some w => Some (CC (compute_all_shl w) (compute_c_shl w)) | None =>
  match cc_at CC_OP_SARB op with Some w => Some (CC (compute_all_sar w) (fun src _ => compute_c_sar src)) | None =>
  None end end end end end end end end end end.

(** ** The optimised conditions after a comparison *)

(** The seven jump conditions of [op_j*_sub] and the six of [op_set*_T0_sub]. *)
Definition jb_sub (w : osize) (src dst : Z) : bool := data_type w (s32 (dst + src)) <? data_type w (s32 src).
Definition jz_sub (w : osize) (src dst : Z) : bool := data_type w dst =? 0.
Definition jnz_sub (w : osize) (src dst : Z) : bool := negb (data_type w dst =? 0).
Definition jbe_sub (w : osize) (src dst : Z) : bool := data_type w (s32 (dst + src)) <=? data_type w (s32 src).
Definition js_sub (w : osize) (src dst : Z) : bool := negb (Z.land dst (SIGN_MASK w) =? 0).
Definition jl_sub (w : osize) (src dst : Z) : bool := data_stype w (s32 (dst + src)) <? data_stype w (s32 src).
Definition jle_sub (w : osize) (src dst : Z) : bool := data_stype w (s32 (dst + src)) <=? data_stype w (s32 src).

Definition setb_T0_sub (w : osize) (src dst : Z) : Z := b2z (data_type w (s32 (dst + src)) <? data_type w (s32 src)).
Definition setz_T0_sub (w : osize) (src dst : Z) : Z := b2z (data_type w dst =? 0).
Definition setbe_T0_sub (w : osize) (src dst : Z) : Z := b2z (data_type w (s32 (dst + src)) <=? data_type w (s32 src)).
Definition sets_T0_sub (w : osize) (src dst : Z) : Z := Z.land (lshift dst (- (DATA_BITS w - 1))) 1.
Definition setl_T0_sub (w : osize) (src dst : Z) : Z := b2z (data_stype w (s32 (dst + src)) <? data_stype w (s32 src)).
Definition setle_T0_sub (w : osize) (src dst : Z) : Z := b2z (data_stype w (s32 (dst + src)) <=? data_stype w (s32 src)).

(** The slow conditions from the flags. *)
Definition seto_T0_cc (eflags : Z) : Z := Z.land (Z.shiftr eflags 11) 1.
Definition setz_T0_cc (eflags : Z) : Z := Z.land (Z.shiftr eflags 6) 1.
Definition setbe_T0_cc (eflags : Z) : Z := b2z (negb (Z.land eflags (Z.lor CC_Z CC_C) =? 0)).
Definition sets_T0_cc (eflags : Z) : Z := Z.land (Z.shiftr eflags 7) 1.
Definition setp_T0_cc (eflags : Z) : Z := Z.land (Z.shiftr eflags 2) 1.
Definition setl_T0_cc (eflags : Z) : Z := Z.land (Z.shiftr (Z.lxor eflags (Z.shiftr eflags 4)) 7) 1.
Definition setle_T0_cc (eflags : Z) : Z :=
  b2z (negb (Z.land (Z.lxor eflags (Z.shiftr eflags 4)) 0x80 =? 0) || negb (Z.land eflags CC_Z =? 0)).

(** * Properties *)

(** ** Bits *)

Lemma s32_testbit x k : 0 <= k < 32 -> Z.testbit (s32 x) k = Z.testbit x k.
Proof.
  intros Hk. rewrite <- (Z.mod_pow2_bits_low (s32 x) 32 k), <- (Z.mod_pow2_bits_low x 32 k) by lia.
  f_equal. change (s32 x mod 2 ^ 32) with (u32 (s32 x)). by rewrite u32_s32.
Qed.

Lemma u32_testbit x k : 0 <= k < 32 -> Z.testbit (u32 x) k = Z.testbit x k.
Proof. intros Hk. unfold u32. apply Z.mod_pow2_bits_low. lia. Qed.

Lemma land_pow2 x k : 0 <= k -> Z.land x (2 ^ k) = b2z (Z.testbit x k) * 2 ^ k.
Proof.
  intros Hk. apply Z.bits_inj'. intros j Hj. rewrite Z.land_spec, Z.pow2_bits_eqb by lia.
  destruct (Z.eqb_spec k j) as [->|Hne].
  - rewrite andb_true_r. destruct (Z.testbit x j); cbn [b2z]; [by rewrite Z.mul_1_l, Z.pow2_bits_true|apply eq_sym, Z.testbit_0_l].
  - rewrite andb_false_r. destruct (Z.testbit x k); cbn [b2z];
      [by rewrite Z.mul_1_l, Z.pow2_bits_false by congruence|apply eq_sym, Z.testbit_0_l].
Qed.

(** Bit [k] of [lshift x n] is a bit of [x]. *)
Lemma lshift_testbit x n k : 0 <= k < 32 -> 0 <= k - n < 32 -> Z.testbit (lshift x n) k = Z.testbit x (k - n).
Proof.
  intros Hk Hn. unfold lshift. destruct (Z.leb_spec 0 n).
  - rewrite s32_testbit, Z.shiftl_spec, s32_testbit by lia. done.
  - rewrite Z.shiftr_spec by lia. replace (k + - n) with (k - n) by lia. apply s32_testbit. lia.
Qed.

(** The top bit of a number of [n + 1] bits. *)
Lemma testbit_top x n : 0 <= n -> Z.testbit x n = (2 ^ n <=? x mod 2 ^ (n + 1)).
Proof.
  intros Hn. rewrite <- (Z.mod_pow2_bits_low x (n + 1) n) by lia.
  pose proof (Z.mod_pos_bound x (2 ^ (n + 1)) ltac:(lia)) as Hb. set (y := x mod 2 ^ (n + 1)) in *.
  rewrite Z.pow_add_r in Hb by lia. change (2 ^ 1) with 2 in Hb.
  apply eq_iff_eq_true. rewrite Z.leb_le, Z.testbit_true by lia.
  split; intros H.
  - assert (y / 2 ^ n <> 0) as H0 by (intros H0; by rewrite H0 in H). pose proof (Z.div_small_iff y (2 ^ n) ltac:(lia)). lia.
  - replace (y / 2 ^ n) with 1; [done|]. apply Z.div_unique_pos with (y - 2 ^ n); lia.
Qed.

(** The sum of two bits and the carry into their place. *)
Lemma add_testbit a b c n : 0 <= n -> 0 <= c <= 1 ->
  Z.testbit (a + b + c) n = xorb (xorb (Z.testbit a n) (Z.testbit b n)) (2 ^ n <=? a mod 2 ^ n + b mod 2 ^ n + c).
Proof.
  intros Hn Hc. assert (0 < 2 ^ n) as Hp by lia.
  assert (forall x, Z.testbit x n = Z.odd (x / 2 ^ n)) as Ht.
  { intros x. rewrite <- Z.bit0_odd, Z.div_pow2_bits by lia. f_equal. }
  pose proof (Z.mod_pos_bound a (2 ^ n) Hp). pose proof (Z.mod_pos_bound b (2 ^ n) Hp).
  assert (a + b + c = (a mod 2 ^ n + b mod 2 ^ n + c) + (a / 2 ^ n + b / 2 ^ n) * 2 ^ n) as E
    by (pose proof (Z.div_mod a (2 ^ n)); pose proof (Z.div_mod b (2 ^ n)); lia).
  rewrite !Ht, <- !Z.odd_add, E, Z.div_add by lia. destruct (Z.leb_spec (2 ^ n) (a mod 2 ^ n + b mod 2 ^ n + c)).
  - replace ((a mod 2 ^ n + b mod 2 ^ n + c) / 2 ^ n) with 1.
    + rewrite Z.odd_add. apply xorb_comm.
    + apply Z.div_unique_pos with (a mod 2 ^ n + b mod 2 ^ n + c - 2 ^ n); lia.
  - rewrite Z.div_small, Z.add_0_l by lia. by rewrite xorb_false_r.
Qed.

(** ** Operands of a size *)

Lemma DATA_BITS_range w : 8 <= DATA_BITS w <= 32.
Proof. destruct w; cbn; lia. Qed.

Definition top (w : osize) (x : Z) : bool := Z.testbit x (DATA_BITS w - 1).

Lemma data_type_range w x : 0 <= data_type w x < 2 ^ DATA_BITS w.
Proof. apply Z.mod_pos_bound. pose proof (DATA_BITS_range w). lia. Qed.

Lemma two_halves w : 2 ^ DATA_BITS w = 2 * 2 ^ (DATA_BITS w - 1).
Proof. by destruct w. Qed.

Lemma top_le w x : top w x = (2 ^ (DATA_BITS w - 1) <=? data_type w x).
Proof.
  pose proof (DATA_BITS_range w). unfold top. rewrite testbit_top by lia.
  by replace (DATA_BITS w - 1 + 1) with (DATA_BITS w) by lia.
Qed.

Lemma data_stype_top w x :
  data_stype w x = if top w x then data_type w x - 2 ^ DATA_BITS w else data_type w x.
Proof.
  rewrite top_le. pose proof (data_type_range w x) as Hr. unfold data_stype.
  rewrite <- Zplus_mod_idemp_l. fold (data_type w x). rewrite two_halves in *.
  set (h := 2 ^ (DATA_BITS w - 1)) in *. destruct (Z.leb_spec h (data_type w x)).
  - rewrite <- (Z.mod_unique_pos (data_type w x + h) (2 * h) 1 (data_type w x - h)); lia.
  - rewrite Z.mod_small; lia.
Qed.

Lemma data_type_s32 w x : data_type w (s32 x) = data_type w x.
Proof. unfold data_type. destruct w; cbn [DATA_BITS]; int_lia. Qed.
Lemma data_type_u32 w x : data_type w (u32 x) = data_type w x.
Proof. unfold data_type. destruct w; cbn [DATA_BITS]; int_lia. Qed.
Lemma data_stype_s32 w x : data_stype w (s32 x) = data_stype w x.
Proof. unfold data_stype. destruct w; cbn [DATA_BITS]; int_lia. Qed.
Lemma top_s32 w x : top w (s32 x) = top w x.
Proof. unfold top. apply s32_testbit. pose proof (DATA_BITS_range w). lia. Qed.
Lemma top_u32 w x : top w (u32 x) = top w x.
Proof. unfold top. apply u32_testbit. pose proof (DATA_BITS_range w). lia. Qed.

(** A result that no number of the size has. *)
Definition out_of_range (w : osize) (v : Z) : bool :=
  negb ((- 2 ^ (DATA_BITS w - 1) <=? v) && (v <? 2 ^ (DATA_BITS w - 1))).

(** Signed overflow of [a + b + c = r], from the top bits. *)
Lemma overflow_top w a b c r :
  0 <= c <= 1 -> data_type w r = data_type w (a + b + c) ->
  out_of_range w (data_stype w a + data_stype w b + c) = eqb (top w a) (top w b) && xorb (top w b) (top w r) /\
  out_of_range w (data_stype w r - data_stype w b - c) = xorb (top w r) (top w b) && xorb (top w r) (top w a).
Proof.
  intros Hc Hr. rewrite !data_stype_top, !top_le. unfold out_of_range.
  assert (data_type w r = (data_type w a + data_type w b + c) mod 2 ^ DATA_BITS w) as Hr'.
  { rewrite Hr. unfold data_type. rewrite (Zplus_mod (a + b)), (Zplus_mod a b), (Zplus_mod (a mod _ + b mod _)).
    by rewrite (Zplus_mod (a mod _)), !Zmod_mod. }
  pose proof (data_type_range w a). pose proof (data_type_range w b). pose proof (data_type_range w r).
  rewrite two_halves in *. set (h := 2 ^ (DATA_BITS w - 1)) in *.
  assert (data_type w r = data_type w a + data_type w b + c \/ data_type w r = data_type w a + data_type w b + c - 2 * h) as Hcase.
  { rewrite Hr'. destruct (Z.ltb_spec (data_type w a + data_type w b + c) (2 * h)).
    - left. apply Z.mod_small. lia.
    - right. symmetry. apply (Z.mod_unique_pos _ _ 1); lia. }
  clear Hr Hr'. split;
    destruct (Z.leb_spec h (data_type w a)), (Z.leb_spec h (data_type w b)), (Z.leb_spec h (data_type w r)); cbn;
    repeat match goal with |- context [?x <=? ?y] => destruct (Z.leb_spec x y) | |- context [?x <? ?y] => destruct (Z.ltb_spec x y) end;
    (reflexivity || (exfalso; lia)).
Qed.

(** ** The flags *)

(** The flags register with the six arithmetic flags. *)
Definition flags (cf pf af zf sf ovf : bool) : Z :=
  b2z cf + b2z pf * 2 ^ 2 + b2z af * 2 ^ 4 + b2z zf * 2 ^ 6 + b2z sf * 2 ^ 7 + b2z ovf * 2 ^ 11.

Lemma or_flags_sum cf pf af zf sf ovf :
  or_flags (b2z cf) (b2z pf * 2 ^ 2) (b2z af * 2 ^ 4) (b2z zf * 2 ^ 6) (b2z sf * 2 ^ 7) (b2z ovf * 2 ^ 11) =
    flags cf pf af zf sf ovf.
Proof. by destruct cf, pf, af, zf, sf, ovf. Qed.

(** The low byte has an even number of bits set. *)
Definition even_bits (x : Z) : bool := negb (foldr (fun k => xorb (Z.testbit x k)) false (seqZ 0 8)).

Lemma parity_even x : parity x = b2z (even_bits x) * 2 ^ 2.
Proof.
  assert (even_bits x = even_bits (u8 x)) as ->.
  { unfold even_bits. change (seqZ 0 8) with [0; 1; 2; 3; 4; 5; 6; 7]. cbn [foldr]. by rewrite !u8_testbit by lia. }
  unfold parity. pose proof (u8_range x) as Hx. set (y := u8 x) in *. clearbody y. clear x.
  assert (forallb (fun y => nth (Z.to_nat y) parity_table 0 =? b2z (even_bits y) * 2 ^ 2) (seqZ 0 256) = true) as H
    by (by vm_compute).
  rewrite forallb_forall in H. apply Z.eqb_eq, H, list_elem_of_In, elem_of_seqZ. unfold is_u8 in Hx. lia.
Qed.

Lemma zf_of_bit w dst : zf_of w dst = b2z (data_type w dst =? 0) * 2 ^ 6.
Proof. unfold zf_of. by destruct (_ =? _). Qed.

Lemma sf_of_bit w dst : sf_of w dst = b2z (top w dst) * 2 ^ 7.
Proof.
  pose proof (DATA_BITS_range w). unfold sf_of. change 0x80 with (2 ^ 7). rewrite land_pow2 by lia.
  rewrite lshift_testbit by lia. unfold top. do 3 f_equal. lia.
Qed.

Lemma af_of_bit dst src1 src2 :
  af_of dst src1 src2 = b2z (xorb (xorb (Z.testbit dst 4) (Z.testbit src1 4)) (Z.testbit src2 4)) * 2 ^ 4.
Proof. unfold af_of. change 0x10 with (2 ^ 4). by rewrite land_pow2, !Z.lxor_spec by lia. Qed.

Lemma of_bit w x : Z.land (lshift x (12 - DATA_BITS w)) CC_O = b2z (top w x) * 2 ^ 11.
Proof.
  pose proof (DATA_BITS_range w). unfold CC_O. change 0x0800 with (2 ^ 11). rewrite land_pow2 by lia.
  rewrite lshift_testbit by lia. unfold top. do 3 f_equal. lia.
Qed.

Lemma top_land w x y : top w (Z.land x y) = top w x && top w y.
Proof. apply Z.land_spec. Qed.
Lemma top_lxor w x y : top w (Z.lxor x y) = xorb (top w x) (top w y).
Proof. apply Z.lxor_spec. Qed.
Lemma top_m1 w : top w (-1) = true.
Proof. by destruct w. Qed.

(** The carry out of an addition, seen in its result. *)
Lemma carry_out w a b c r :
  0 <= c <= 1 -> data_type w r = data_type w (a + b + c) ->
  (2 ^ DATA_BITS w <=? data_type w a + data_type w b + c) =
    (if c =? 0 then data_type w r <? data_type w b else data_type w r <=? data_type w b) /\
  (data_type w r <? data_type w b + c) = (2 ^ DATA_BITS w <=? data_type w a + data_type w b + c).
Proof.
  intros Hc Hr. pose proof (data_type_range w a). pose proof (data_type_range w b). pose proof (data_type_range w r).
  assert (data_type w r = (data_type w a + data_type w b + c) mod 2 ^ DATA_BITS w) as Hr'.
  { rewrite Hr. unfold data_type. rewrite (Zplus_mod (a + b)), (Zplus_mod a b), (Zplus_mod (a mod _ + b mod _)).
    by rewrite (Zplus_mod (a mod _)), !Zmod_mod. }
  clear Hr. destruct (Z.leb_spec (2 ^ DATA_BITS w) (data_type w a + data_type w b + c)).
  - assert (data_type w r = data_type w a + data_type w b + c - 2 ^ DATA_BITS w) as Hv
      by (rewrite Hr'; symmetry; apply (Z.mod_unique_pos _ _ 1); lia).
    destruct (Z.eqb_spec c 0); split; symmetry; (apply Z.ltb_lt || apply Z.leb_le || idtac); try lia.
    all: apply Z.ltb_lt; lia.
  - assert (data_type w r = data_type w a + data_type w b + c) as Hv by (rewrite Hr'; apply Z.mod_small; lia).
    destruct (Z.eqb_spec c 0); split; symmetry; (apply Z.ltb_ge || apply Z.leb_gt || idtac); try lia.
    all: apply Z.ltb_ge; lia.
Qed.

Lemma even_bits_u32 x : even_bits (u32 x) = even_bits x.
Proof.
  unfold even_bits. change (seqZ 0 8) with [0; 1; 2; 3; 4; 5; 6; 7]. cbn [foldr]. by rewrite !u32_testbit by lia.
Qed.

(** The flags of [a + b + c] and [a - b - c] for operands of size [w] and a
    carry [c]: carry out, parity of the low byte, carry out of the low digit, zero,
    sign and signed overflow. *)
Definition add_flags (w : osize) (a b c : Z) : Z :=
  flags (2 ^ DATA_BITS w <=? data_type w a + data_type w b + c) (even_bits (a + b + c))
    (16 <=? a mod 16 + b mod 16 + c) (data_type w (a + b + c) =? 0) (top w (a + b + c))
    (out_of_range w (data_stype w a + data_stype w b + c)).
Definition sub_flags (w : osize) (a b c : Z) : Z :=
  flags (data_type w a <? data_type w b + c) (even_bits (a - b - c)) (a mod 16 <? b mod 16 + c)
    (data_type w (a - b - c) =? 0) (top w (a - b - c)) (out_of_range w (data_stype w a - data_stype w b - c)).

(** The terms of the flags of an addition with result [r] and operands [b], [a]. *)
Lemma add_terms w a b c : 0 <= c <= 1 ->
  let r := u32 (a + b + c) in
  or_flags (b2z (if c =? 0 then data_type w r <? data_type w (s32 b) else data_type w r <=? data_type w (s32 b)))
    (parity r) (af_of r (s32 b) (s32 a)) (zf_of w r) (sf_of w r)
    (Z.land (lshift (Z.land (Z.lxor (Z.lxor (s32 b) (s32 a)) (-1)) (Z.lxor (s32 b) r)) (12 - DATA_BITS w)) CC_O) =
  add_flags w a b c.
Proof.
  intros Hc r. unfold add_flags.
  rewrite parity_even, af_of_bit, zf_of_bit, sf_of_bit, of_bit, or_flags_sum.
  rewrite top_land, !top_lxor, top_m1, !top_s32, !data_type_s32, !s32_testbit by lia.
  assert (data_type w r = data_type w (a + b + c)) as Hr by apply data_type_u32.
  destruct (carry_out w a b c r Hc Hr) as [-> _]. destruct (overflow_top w a b c r Hc Hr) as [-> _].
  unfold r. rewrite even_bits_u32, data_type_u32, top_u32, u32_testbit, add_testbit by lia. fold r. f_equal.
  - change (2 ^ 4) with 16. by destruct (Z.testbit a 4), (Z.testbit b 4), (_ <=? _).
  - by destruct (top w a), (top w b), (top w (a + b + c)).
Qed.

(** The terms of the flags of a subtraction. *)
Lemma sub_terms w a b c : 0 <= c <= 1 ->
  let r := u32 (a - b - c) in
  or_flags (b2z (data_type w (s32 a) <? data_type w (s32 b) + c))
    (parity r) (af_of r (s32 a) (s32 b)) (zf_of w r) (sf_of w r)
    (Z.land (lshift (Z.land (Z.lxor (s32 a) (s32 b)) (Z.lxor (s32 a) r)) (12 - DATA_BITS w)) CC_O) =
  sub_flags w a b c.
Proof.
  intros Hc r. unfold sub_flags.
  rewrite parity_even, af_of_bit, zf_of_bit, sf_of_bit, of_bit, or_flags_sum.
  rewrite top_land, !top_lxor, !top_s32, !data_type_s32, !s32_testbit by lia.
  assert (data_type w a = data_type w (r + b + c)) as Hr.
  { unfold r. rewrite <- (data_type_u32 w (u32 (a - b - c) + b + c)). unfold data_type. destruct w; cbn [DATA_BITS]; int_lia. }
  destruct (overflow_top w r b c a Hc Hr) as [_ ->].
  assert (Z.testbit a 4 = Z.testbit (r + b + c) 4) as Ha4.
  { unfold r. rewrite <- (u32_testbit a 4), <- (u32_testbit (u32 _ + b + c) 4) by lia. f_equal. int_lia. }
  rewrite Ha4, add_testbit by lia. unfold r. rewrite even_bits_u32, data_type_u32, !top_u32. fold r. f_equal.
  assert ((a mod 16 <? b mod 16 + c) = (2 ^ 4 <=? r mod 2 ^ 4 + b mod 2 ^ 4 + c)) as ->.
  { change (2 ^ 4) with 16. unfold r. destruct (Z.leb_spec 16 (u32 (a - b - c) mod 16 + b mod 16 + c)); [apply Z.ltb_lt|apply Z.ltb_ge]; int_lia. }
  by destruct (Z.testbit r 4), (Z.testbit b 4), (_ <=? _).
Qed.

Lemma arithmetic_flags_ok w a b :
  compute_all_add w b (u32 (a + b)) = add_flags w a b 0 /\
  compute_all_adc w b (u32 (a + b + 1)) = add_flags w a b 1 /\
  compute_all_sub w b (u32 (a - b)) = sub_flags w a b 0 /\
  compute_all_sbb w b (u32 (a - b - 1)) = sub_flags w a b 1.
Proof.
  assert (s32 (u32 (a + b) - b) = s32 a) as E1 by int_lia.
  assert (s32 (u32 (a + b + 1) - b - 1) = s32 a) as E2 by int_lia.
  assert (s32 (u32 (a - b) + b) = s32 a) as E3 by int_lia.
  assert (s32 (u32 (a - b - 1) + b + 1) = s32 a) as E4 by int_lia.
  split_and!.
  - pose proof (add_terms w a b 0 ltac:(lia)) as H. cbv zeta in H. rewrite Z.add_0_r in H. rewrite <- H.
    unfold compute_all_add. by rewrite E1.
  - rewrite <- (add_terms w a b 1) by lia. unfold compute_all_adc. by rewrite E2.
  - pose proof (sub_terms w a b 0 ltac:(lia)) as H. cbv zeta in H. rewrite Z.sub_0_r, Z.add_0_r in H. rewrite <- H.
    unfold compute_all_sub. by rewrite E3.
  - rewrite <- (sub_terms w a b 1) by lia. unfold compute_all_sbb. rewrite E4. f_equal. f_equal.
    destruct (Z.leb_spec (data_type w (s32 a)) (data_type w (s32 b))); symmetry; [apply Z.ltb_lt|apply Z.ltb_ge]; lia.
Qed.

(** ** The conditions *)

Lemma leb_lt_or_eq a b : (a <=? b) = (a <? b) || (a =? b).
Proof. destruct (Z.leb_spec a b), (Z.ltb_spec a b), (Z.eqb_spec a b); (reflexivity || lia). Qed.

Lemma conditions_of_flags cf pf af zf sf ovf :
  let e := flags cf pf af zf sf ovf in
  seto_T0_cc e = b2z ovf /\ setz_T0_cc e = b2z zf /\ setbe_T0_cc e = b2z (cf || zf) /\ sets_T0_cc e = b2z sf /\
  setp_T0_cc e = b2z pf /\ setl_T0_cc e = b2z (xorb sf ovf) /\ setle_T0_cc e = b2z (xorb sf ovf || zf).
Proof. by destruct cf, pf, af, zf, sf, ovf. Qed.

(** Sign and overflow of a difference tell the signed order. *)
Lemma signed_less w a b :
  xorb (top w (a - b - 0)) (out_of_range w (data_stype w a - data_stype w b - 0)) = (data_stype w a <? data_stype w b) /\
  (data_type w (a - b - 0) =? 0) = (data_type w a =? data_type w b) /\
  (data_stype w a =? data_stype w b) = (data_type w a =? data_type w b).
Proof.
  rewrite !Z.sub_0_r, !data_stype_top, !top_le. unfold out_of_range.
  assert (data_type w (a - b) = (data_type w a - data_type w b) mod 2 ^ DATA_BITS w) as Hr
    by (unfold data_type; by rewrite Zminus_mod).
  pose proof (data_type_range w a). pose proof (data_type_range w b). pose proof (data_type_range w (a - b)).
  rewrite two_halves in *. set (h := 2 ^ (DATA_BITS w - 1)) in *.
  assert (data_type w (a - b) = data_type w a - data_type w b \/ data_type w (a - b) = data_type w a - data_type w b + 2 * h) as Hcase.
  { rewrite Hr. destruct (Z.leb_spec 0 (data_type w a - data_type w b)).
    - left. apply Z.mod_small. lia.
    - right. symmetry. apply (Z.mod_unique_pos _ _ (-1)); lia. }
  clear Hr. split_and!;
    repeat match goal with |- context [?x <=? ?y] => destruct (Z.leb_spec x y) | |- context [?x <? ?y] => destruct (Z.ltb_spec x y)
                       | |- context [?x =? ?y] => destruct (Z.eqb_spec x y) end;
    (reflexivity || (exfalso; lia)).
Qed.

Lemma sub_flags_of w src dst : is_u32 dst -> compute_all_sub w src dst = sub_flags w (dst + src) src 0.
Proof.
  intros Hd. destruct (arithmetic_flags_ok w (dst + src) src) as (_ & _ & H & _). rewrite <- H.
  replace (dst + src - src) with dst by lia. by rewrite u32_small.
Qed.

(** C34: the flags computed late from the operand and the result of an addition,
    an addition with carry, a subtraction or a subtraction with borrow are those
    of the operation, for every operand size. *)
Theorem arithmetic_flags w a b :
  compute_all_add w b (u32 (a + b)) = add_flags w a b 0 /\
  compute_all_adc w b (u32 (a + b + 1)) = add_flags w a b 1 /\
  compute_all_sub w b (u32 (a - b)) = sub_flags w a b 0 /\
  compute_all_sbb w b (u32 (a - b - 1)) = sub_flags w a b 1.
Proof. apply arithmetic_flags_ok. Qed.

(** After a comparison or subtraction the optimised conditions of the jump
    and set operations agree with the conditions computed from the flags, for every
    operand size. *)
Theorem fast_conditions w src dst :
  is_u32 dst ->
  let e := compute_all_sub w src dst in
  setb_T0_sub w src dst = compute_c_sub w src dst /\ setz_T0_sub w src dst = setz_T0_cc e /\
  setbe_T0_sub w src dst = setbe_T0_cc e /\ sets_T0_sub w src dst = sets_T0_cc e /\
  setl_T0_sub w src dst = setl_T0_cc e /\ setle_T0_sub w src dst = setle_T0_cc e /\
  b2z (jb_sub w src dst) = compute_c_sub w src dst /\ b2z (jz_sub w src dst) = setz_T0_cc e /\
  b2z (jnz_sub w src dst) = Z.lxor (setz_T0_cc e) 1 /\ b2z (jbe_sub w src dst) = setbe_T0_cc e /\
  b2z (js_sub w src dst) = sets_T0_cc e /\ b2z (jl_sub w src dst) = setl_T0_cc e /\
  b2z (jle_sub w src dst) = setle_T0_cc e /\
  compute_c_sub w src dst = Z.land e CC_C.
Proof.
  intros Hd e. unfold e. rewrite sub_flags_of by done. unfold sub_flags.
  destruct (signed_less w (dst + src) src) as (Hl & Hz & Hs).
  match goal with |- context [flags ?c ?p ?a ?z ?s ?o] => pose proof (conditions_of_flags c p a z s o) as (_ & Ez & Ebe & Es & _ & El & Ele);
    assert (Z.land (flags c p a z s o) CC_C = b2z c) as Ec by (by destruct c, p, a, z, s, o) end.
  cbv zeta in *. rewrite Ez, Ebe, Es, El, Ele, Ec, Hl. clear Ez Ebe Es El Ele Ec.
  unfold setb_T0_sub, setz_T0_sub, setbe_T0_sub, setl_T0_sub, setle_T0_sub, jb_sub, jz_sub, jnz_sub, jbe_sub, jl_sub, jle_sub, compute_c_sub.
  rewrite !data_type_s32, !data_stype_s32, Z.add_0_r, Hz.
  assert ((data_type w dst =? 0) = (data_type w (dst + src) =? data_type w src)) as ->.
  { rewrite <- Hz. do 2 f_equal. lia. }
  assert (top w (dst + src - src - 0) = top w dst) as -> by (f_equal; lia).
  split_and!; try done.
  - rewrite leb_lt_or_eq. done.
  - unfold sets_T0_sub. change 1 with (2 ^ 0). pose proof (DATA_BITS_range w).
    rewrite land_pow2, lshift_testbit by lia. change (2 ^ 0) with 1. rewrite Z.mul_1_r. unfold top. do 2 f_equal. lia.
  - rewrite <- Hs. f_equal. apply leb_lt_or_eq.
  - by destruct (data_type w (dst + src) =? data_type w src).
  - rewrite leb_lt_or_eq. done.
  - unfold js_sub, SIGN_MASK. rewrite land_bit by (pose proof (DATA_BITS_range w); lia). by rewrite negb_involutive.
  - rewrite <- Hs. f_equal. apply leb_lt_or_eq.
Qed.

Lemma fast_conditions_witness : setl_T0_sub SzB 5 0xFE = setl_T0_cc (compute_all_sub SzB 5 0xFE).
Proof.
  destruct (fast_conditions SzB 5 0xFE) as (_ & _ & _ & _ & H & _); [unfold is_u32; lia|exact H].
Defined.
