(* ===== verification/X86.v ===== *)
(** The state of the emulated processor, src/sysvm/target-i386/cpu.h, for the
    32-bit target, and the pieces its helpers share: the exits from the execution
    loop, the accesses to memory, the flags register and the segment cache.

    The accesses of the helpers to memory go through the address translation of
    the emulator, here an interface ([Bus]; X86Mmu and SoftMmu model the translation
    itself): an access gives a value, or the address and error code of a page fault.  The processor's floating point state,
    its debug registers and the model specific ones are left out. *)
From S2P Require Import Prelude CcFlags.

(** [SegmentCache] *)
Record SegmentCache := Sc { sc_selector : Z; sc_base : Z; sc_limit : Z; sc_flags : Z }.
Definition set_sc_selector v c := Sc v (sc_base c) (sc_limit c) (sc_flags c).
Definition set_sc_base v c := Sc (sc_selector c) v (sc_limit c) (sc_flags c).
Definition set_sc_limit v c := Sc (sc_selector c) (sc_base c) v (sc_flags c).
Definition set_sc_flags v c := Sc (sc_selector c) (sc_base c) (sc_limit c) v.

(** [regs], the flags and hidden flags, [segs], the tables, the control
    registers, the pending exception and the temporaries of the micro operations. *)
Record gregs := Gregs { r_eax : Z; r_ecx : Z; r_edx : Z; r_ebx : Z; r_esp : Z; r_ebp : Z; r_esi : Z; r_edi : Z }.
Record cpuflags := Fl { f_eflags : Z; f_cc_src : Z; f_cc_dst : Z; f_cc_op : Z; f_df : Z; f_hflags : Z }.
Record segments := Segs { s_es : SegmentCache; s_cs : SegmentCache; s_ss : SegmentCache; s_ds : SegmentCache; s_fs : SegmentCache; s_gs : SegmentCache }.
Record tables := Dts { d_ldt : SegmentCache; d_tr : SegmentCache; d_gdt : SegmentCache; d_idt : SegmentCache }.
Record cregs := Crs { c_cr0 : Z; c_cr2 : Z; c_cr3 : Z; c_cr4 : Z }.
Record exception := Exn { e_index : Z; e_error : Z; e_is_int : Z; e_next_eip : Z }.
Record temps := Tmps { t_T0 : Z; t_T1 : Z; t_A0 : Z }.

(** [CPUX86State], with the state of memory. *)
Record cpu (W : Type) := Cpu {
  regs : gregs; eip : Z; fl : cpuflags; segs : segments; dts : tables; crs : cregs; exn : exception; tmps : temps; mem : W
}.
Arguments Cpu {W}.
Arguments regs {W}. Arguments eip {W}. Arguments fl {W}. Arguments segs {W}. Arguments dts {W}. Arguments crs {W}. Arguments exn {W}. Arguments tmps {W}. Arguments mem {W}.

Section Setters.
Context {W : Type}.
(** Assignments to the parts of the state. *)
Definition set_eip v (s : cpu W) : cpu W := Cpu (regs s) v (fl s) (segs s) (dts s) (crs s) (exn s) (tmps s) (mem s).
Definition set_mem v (s : cpu W) : cpu W := Cpu (regs s) (eip s) (fl s) (segs s) (dts s) (crs s) (exn s) (tmps s) v.
Definition set_eax v (s : cpu W) : cpu W :=
  Cpu (Gregs v (r_ecx (regs s)) (r_edx (regs s)) (r_ebx (regs s)) (r_esp (regs s)) (r_ebp (regs s)) (r_esi (regs s)) (r_edi (regs s))) (eip s) (fl s) (segs s) (dts s) (crs s) (exn s) (tmps s) (mem s).
Definition set_ecx v (s : cpu W) : cpu W :=
  Cpu (Gregs (r_eax (regs s)) v (r_edx (regs s)) (r_ebx (regs s)) (r_esp (regs s)) (r_ebp (regs s)) (r_esi (regs s)) (r_edi (regs s))) (eip s) (fl s) (segs s) (dts s) (crs s) (exn s) (tmps s) (mem s).
Definition set_edx v (s : cpu W) : cpu W :=
  Cpu (Gregs (r_eax (regs s)) (r_ecx (regs s)) v (r_ebx (regs s)) (r_esp (regs s)) (r_ebp (regs s)) (r_esi (regs s)) (r_edi (regs s))) (eip s) (fl s) (segs s) (dts s) (crs s) (exn s) (tmps s) (mem s).
Definition set_ebx v (s : cpu W) : cpu W :=
  Cpu (Gregs (r_eax (regs s)) (r_ecx (regs s)) (r_edx (regs s)) v (r_esp (regs s)) (r_ebp (regs s)) (r_esi (regs s)) (r_edi (regs s))) (eip s) (fl s) (segs s) (dts s) (crs s) (exn s) (tmps s) (mem s).
Definition set_esp v (s : cpu W) : cpu W :=
  Cpu (Gregs (r_eax (regs s)) (r_ecx (regs s)) (r_edx (regs s)) (r_ebx (regs s)) v (r_ebp (regs s)) (r_esi (regs s)) (r_edi (regs s))) (eip s) (fl s) (segs s) (dts s) (crs s) (exn s) (tmps s) (mem s).
Definition set_ebp v (s : cpu W) : cpu W :=
  Cpu (Gregs (r_eax (regs s)) (r_ecx (regs s)) (r_edx (regs s)) (r_ebx (regs s)) (r_esp (regs s)) v (r_esi (regs s)) (r_edi (regs s))) (eip s) (fl s) (segs s) (dts s) (crs s) (exn s) (tmps s) (mem s).
Definition set_esi v (s : cpu W) : cpu W :=
  Cpu (Gregs (r_eax (regs s)) (r_ecx (regs s)) (r_edx (regs s)) (r_ebx (regs s)) (r_esp (regs s)) (r_ebp (regs s)) v (r_edi (regs s))) (eip s) (fl s) (segs s) (dts s) (crs s) (exn s) (tmps s) (mem s).
Definition set_edi v (s : cpu W) : cpu W :=
  Cpu (Gregs (r_eax (regs s)) (r_ecx (regs s)) (r_edx (regs s)) (r_ebx (regs s)) (r_esp (regs s)) (r_ebp (regs s)) (r_esi (regs s)) v) (eip s) (fl s) (segs s) (dts s) (crs s) (exn s) (tmps s) (mem s).
Definition set_eflags v (s : cpu W) : cpu W :=
  Cpu (regs s) (eip s) (Fl v (f_cc_src (fl s)) (f_cc_dst (fl s)) (f_cc_op (fl s)) (f_df (fl s)) (f_hflags (fl s))) (segs s) (dts s) (crs s) (exn s) (tmps s) (mem s).
Definition set_cc_src v (s : cpu W) : cpu W :=
  Cpu (regs s) (eip s) (Fl (f_eflags (fl s)) v (f_cc_dst (fl s)) (f_cc_op (fl s)) (f_df (fl s)) (f_hflags (fl s))) (segs s) (dts s) (crs s) (exn s) (tmps s) (mem s).
Definition set_cc_dst v (s : cpu W) : cpu W :=
  Cpu (regs s) (eip s) (Fl (f_eflags (fl s)) (f_cc_src (fl s)) v (f_cc_op (fl s)) (f_df (fl s)) (f_hflags (fl s))) (segs s) (dts s) (crs s) (exn s) (tmps s) (mem s).
Definition set_cc_op v (s : cpu W) : cpu W :=
  Cpu (regs s) (eip s) (Fl (f_eflags (fl s)) (f_cc_src (fl s)) (f_cc_dst (fl s)) v (f_df (fl s)) (f_hflags (fl s))) (segs s) (dts s) (crs s) (exn s) (tmps s) (mem s).
Definition set_df v (s : cpu W) : cpu W :=
  Cpu (regs s) (eip s) (Fl (f_eflags (fl s)) (f_cc_src (fl s)) (f_cc_dst (fl s)) (f_cc_op (fl s)) v (f_hflags (fl s))) (segs s) (dts s) (crs s) (exn s) (tmps s) (mem s).
Definition set_hflags v (s : cpu W) : cpu W :=
  Cpu (regs s) (eip s) (Fl (f_eflags (fl s)) (f_cc_src (fl s)) (f_cc_dst (fl s)) (f_cc_op (fl s)) (f_df (fl s)) v) (segs s) (dts s) (crs s) (exn s) (tmps s) (mem s).
Definition set_es v (s : cpu W) : cpu W :=
  Cpu (regs s) (eip s) (fl s) (Segs v (s_cs (segs s)) (s_ss (segs s)) (s_ds (segs s)) (s_fs (segs s)) (s_gs (segs s))) (dts s) (crs s) (exn s) (tmps s) (mem s).
Definition set_cs v (s : cpu W) : cpu W :=
  Cpu (regs s) (eip s) (fl s) (Segs (s_es (segs s)) v (s_ss (segs s)) (s_ds (segs s)) (s_fs (segs s)) (s_gs (segs s))) (dts s) (crs s) (exn s) (tmps s) (mem s).
Definition set_ss v (s : cpu W) : cpu W :=
  Cpu (regs s) (eip s) (fl s) (Segs (s_es (segs s)) (s_cs (segs s)) v (s_ds (segs s)) (s_fs (segs s)) (s_gs (segs s))) (dts s) (crs s) (exn s) (tmps s) (mem s).
Definition set_ds v (s : cpu W) : cpu W :=
  Cpu (regs s) (eip s) (fl s) (Segs (s_es (segs s)) (s_cs (segs s)) (s_ss (segs s)) v (s_fs (segs s)) (s_gs (segs s))) (dts s) (crs s) (exn s) (tmps s) (mem s).
Definition set_fs v (s : cpu W) : cpu W :=
  Cpu (regs s) (eip s) (fl s) (Segs (s_es (segs s)) (s_cs (segs s)) (s_ss (segs s)) (s_ds (segs s)) v (s_gs (segs s))) (dts s) (crs s) (exn s) (tmps s) (mem s).
Definition set_gs v (s : cpu W) : cpu W :=
  Cpu (regs s) (eip s) (fl s) (Segs (s_es (segs s)) (s_cs (segs s)) (s_ss (segs s)) (s_ds (segs s)) (s_fs (segs s)) v) (dts s) (crs s) (exn s) (tmps s) (mem s).
Definition set_ldt v (s : cpu W) : cpu W :=
  Cpu (regs s) (eip s) (fl s) (segs s) (Dts v (d_tr (dts s)) (d_gdt (dts s)) (d_idt (dts s))) (crs s) (exn s) (tmps s) (mem s).
Definition set_tr v (s : cpu W) : cpu W :=
  Cpu (regs s) (eip s) (fl s) (segs s) (Dts (d_ldt (dts s)) v (d_gdt (dts s)) (d_idt (dts s))) (crs s) (exn s) (tmps s) (mem s).
Definition set_gdt v (s : cpu W) : cpu W :=
  Cpu (regs s) (eip s) (fl s) (segs s) (Dts (d_ldt (dts s)) (d_tr (dts s)) v (d_idt (dts s))) (crs s) (exn s) (tmps s) (mem s).
Definition set_idt v (s : cpu W) : cpu W :=
  Cpu (regs s) (eip s) (fl s) (segs s) (Dts (d_ldt (dts s)) (d_tr (dts s)) (d_gdt (dts s)) v) (crs s) (exn s) (tmps s) (mem s).
Definition set_cr0 v (s : cpu W) : cpu W :=
  Cpu (regs s) (eip s) (fl s) (segs s) (dts s) (Crs v (c_cr2 (crs s)) (c_cr3 (crs s)) (c_cr4 (crs s))) (exn s) (tmps s) (mem s).
Definition set_cr2 v (s : cpu W) : cpu W :=
  Cpu (regs s) (eip s) (fl s) (segs s) (dts s) (Crs (c_cr0 (crs s)) v (c_cr3 (crs s)) (c_cr4 (crs s))) (exn s) (tmps s) (mem s).
Definition set_cr3 v (s : cpu W) : cpu W :=
  Cpu (regs s) (eip s) (fl s) (segs s) (dts s) (Crs (c_cr0 (crs s)) (c_cr2 (crs s)) v (c_cr4 (crs s))) (exn s) (tmps s) (mem s).
Definition set_cr4 v (s : cpu W) : cpu W :=
  Cpu (regs s) (eip s) (fl s) (segs s) (dts s) (Crs (c_cr0 (crs s)) (c_cr2 (crs s)) (c_cr3 (crs s)) v) (exn s) (tmps s) (mem s).
Definition set_exn v (s : cpu W) : cpu W := Cpu (regs s) (eip s) (fl s) (segs s) (dts s) (crs s) v (tmps s) (mem s).
Definition set_T0 v (s : cpu W) : cpu W :=
  Cpu (regs s) (eip s) (fl s) (segs s) (dts s) (crs s) (exn s) (Tmps v (t_T1 (tmps s)) (t_A0 (tmps s))) (mem s).
Definition set_T1 v (s : cpu W) : cpu W :=
  Cpu (regs s) (eip s) (fl s) (segs s) (dts s) (crs s) (exn s) (Tmps (t_T0 (tmps s)) v (t_A0 (tmps s))) (mem s).
Definition set_A0 v (s : cpu W) : cpu W :=
  Cpu (regs s) (eip s) (fl s) (segs s) (dts s) (crs s) (exn s) (Tmps (t_T0 (tmps s)) (t_T1 (tmps s)) v) (mem s).
End Setters.

(** Names of the source for the fields. *)
Abbreviation EAX s := (r_eax (regs s)).
Abbreviation ECX s := (r_ecx (regs s)).
Abbreviation EDX s := (r_edx (regs s)).
Abbreviation EBX s := (r_ebx (regs s)).
Abbreviation ESP s := (r_esp (regs s)).
Abbreviation EBP s := (r_ebp (regs s)).
Abbreviation ESI s := (r_esi (regs s)).
Abbreviation EDI s := (r_edi (regs s)).
Abbreviation eflags s := (f_eflags (fl s)).
Abbreviation CC_SRC s := (f_cc_src (fl s)).
Abbreviation CC_DST s := (f_cc_dst (fl s)).
Abbreviation CC_OP s := (f_cc_op (fl s)).
Abbreviation DF s := (f_df (fl s)).
Abbreviation hflags s := (f_hflags (fl s)).
Abbreviation ldt s := (d_ldt (dts s)).
Abbreviation tr s := (d_tr (dts s)).
Abbreviation gdt s := (d_gdt (dts s)).
Abbreviation idt s := (d_idt (dts s)).
Abbreviation cr0 s := (c_cr0 (crs s)).
Abbreviation T0 s := (t_T0 (tmps s)).
Abbreviation T1 s := (t_T1 (tmps s)).
Abbreviation A0 s := (t_A0 (tmps s)).

Inductive segreg := R_ES | R_CS | R_SS | R_DS | R_FS | R_GS.
#[export] Instance segreg_eq_dec : EqDecision segreg.
Proof. solve_decision. Defined.

(** [env->segs[r]] *)
Definition seg {W} (r : segreg) (s : cpu W) : SegmentCache :=
  match r with
  | R_ES => s_es (segs s) | R_CS => s_cs (segs s) | R_SS => s_ss (segs s)
  | R_DS => s_ds (segs s) | R_FS => s_fs (segs s) | R_GS => s_gs (segs s)
  end.
Definition set_seg {W} (r : segreg) (c : SegmentCache) (s : cpu W) : cpu W :=
  match r with
  | R_ES => set_es c s | R_CS => set_cs c s | R_SS => set_ss c s
  | R_DS => set_ds c s | R_FS => set_fs c s | R_GS => set_gs c s
  end.

(** * Constants of cpu.h *)

Definition DESC_G_MASK : Z := 0x800000.
Definition DESC_B_SHIFT : Z := 22.
Definition DESC_B_MASK : Z := 0x400000.
Definition DESC_L_MASK : Z := 0x200000.
Definition DESC_P_MASK : Z := 0x8000.
Definition DESC_DPL_SHIFT : Z := 13.
Definition DESC_S_MASK : Z := 0x1000.
Definition DESC_TYPE_SHIFT : Z := 8.
Definition DESC_A_MASK : Z := 0x100.
Definition DESC_CS_MASK : Z := 0x800.
Definition DESC_C_MASK : Z := 0x400.
Definition DESC_R_MASK : Z := 0x200.
Definition DESC_W_MASK : Z := 0x200.
Definition DESC_TSS_BUSY_MASK : Z := 0x200.

Definition TF_MASK : Z := 0x100.
Definition IF_MASK : Z := 0x200.
Definition DF_MASK : Z := 0x400.
Definition IOPL_MASK : Z := 0x3000.
Definition IOPL_SHIFT : Z := 12.
Definition NT_MASK : Z := 0x4000.
Definition RF_MASK : Z := 0x10000.
Definition VM_MASK : Z := 0x20000.
Definition AC_MASK : Z := 0x40000.
Definition VIF_MASK : Z := 0x80000.
Definition VIP_MASK : Z := 0x100000.
Definition ID_MASK : Z := 0x200000.

Definition HF_CPL_MASK : Z := 3.
Definition HF_CS32_SHIFT : Z := 4.
Definition HF_CS32_MASK : Z := 0x10.
Definition HF_SS32_SHIFT : Z := 5.
Definition HF_SS32_MASK : Z := 0x20.
Definition HF_ADDSEG_SHIFT : Z := 6.
Definition HF_ADDSEG_MASK : Z := 0x40.
Definition HF_TS_MASK : Z := 0x800.
Definition HF_LMA_MASK : Z := 0x4000.
Definition HF_CS64_MASK : Z := 0x8000.

Definition CR0_PE_MASK : Z := 1.
Definition CR0_TS_MASK : Z := 8.
Definition CR0_PG_MASK : Z := 0x80000000.

Definition EXCP00_DIVZ : Z := 0.
Definition EXCP04_INTO : Z := 4.
Definition EXCP05_BOUND : Z := 5.
Definition EXCP0A_TSS : Z := 10.
Definition EXCP0B_NOSEG : Z := 11.
Definition EXCP0C_STACK : Z := 12.
Definition EXCP0D_GPF : Z := 13.
Definition EXCP0E_PAGE : Z := 14.

(** A flag of a mask is set; the complement of a mask in 32 bits. *)
Definition has (x m : Z) : bool := negb (Z.land x m =? 0).
Definition without (x m : Z) : Z := Z.land x (u32 (Z.lnot m)).

(** * Running helpers *)

(** A helper returns, leaves the execution loop with the exception recorded in
    the state ([cpu_loop_exit]), or stops the emulator ([cpu_abort], or a call
    through an empty table entry). *)
Inductive outcome (W A : Type) :=
| Done (a : A) (s : cpu W)
| LoopExit (s : cpu W)
| Aborted.
Arguments Done {W A}. Arguments LoopExit {W A}. Arguments Aborted {W A}.

Definition X (W A : Type) := cpu W -> outcome W A.
Definition xret {W A} (a : A) : X W A := fun s => Done a s.
Definition xbind {W A B} (m : X W A) (k : A -> X W B) : X W B :=
  fun s => match m s with Done a s' => k a s' | LoopExit s' => LoopExit s' | Aborted => Aborted end.
Definition xget {W} : X W (cpu W) := fun s => Done s s.
Definition xgets {W A} (f : cpu W -> A) : X W A := fun s => Done (f s) s.
Definition xmod {W} (f : cpu W -> cpu W) : X W unit := fun s => Done tt (f s).
Definition cpu_abort {W A} : X W A := fun _ => Aborted.

Declare Scope x86_scope.
Delimit Scope x86_scope with x86.
Notation "x <- m ;; k" := (xbind m (fun x => k))
  (at level 100, m at next level, right associativity) : x86_scope.
Notation "m ;;; k" := (xbind m (fun _ => k))
  (at level 100, right associativity) : x86_scope.
Open Scope x86_scope.

(** [if(c) raise..;] before the rest *)
Definition check {W} (c : bool) (m : X W unit) : X W unit := if c then m else xret tt.

Section X86.
Context {W : Type}.

(** [raise_interrupt(intno, is_int, error_code, next_eip_addend)] *)
Definition raise_interrupt {A} (intno is_int err next_eip_addend : Z) : X W A :=
  fun s => LoopExit (set_exn (Exn intno err is_int (u32 (eip s + next_eip_addend))) s).
Definition raise_exception_err {A} (index err : Z) : X W A := raise_interrupt index 0 err 0.
Definition raise_exception {A} (index : Z) : X W A := raise_interrupt index 0 0 0.

(** [compute_eflags()], [load_eflags(eflags, update_mask)] and the flags of
    [CC_OP]. *)
Definition cc_all : X W Z :=
  s <- xget ;;
  match cc_table (CC_OP s) with Some t => xret (compute_all t (CC_SRC s) (CC_DST s)) | None => cpu_abort end.
Definition cc_c : X W Z :=
  s <- xget ;;
  match cc_table (CC_OP s) with Some t => xret (compute_c t (CC_SRC s) (CC_DST s)) | None => cpu_abort end.
Definition compute_eflags : X W Z :=
  f <- cc_all ;;
  s <- xget ;;
  xret (u32 (Z.lor (Z.lor (eflags s) f) (Z.land (DF s) DF_MASK))).
Definition load_eflags (e update_mask : Z) : X W unit :=
  xmod (set_cc_src (Z.land e (Z.lor (Z.lor (Z.lor (Z.lor (Z.lor CC_O CC_S) CC_Z) CC_A) CC_P) CC_C))) ;;;
  xmod (set_df (1 - 2 * Z.land (Z.shiftr e 10) 1)) ;;;
  xmod (fun s => set_eflags (Z.lor (without (eflags s) update_mask) (Z.land e update_mask)) s).

(** [cpu_x86_load_seg_cache(env, seg_reg, selector, base, limit, flags)] *)
Definition addseg_of (s : cpu W) : Z :=
  if has (hflags s) HF_CS64_MASK then 0
  else if negb (has (cr0 s) CR0_PE_MASK) || has (eflags s) VM_MASK || negb (has (hflags s) HF_CS32_MASK)
  then HF_ADDSEG_MASK
  else Z.shiftl (b2z (negb (Z.lor (Z.lor (sc_base (seg R_DS s)) (sc_base (seg R_ES s))) (sc_base (seg R_SS s)) =? 0)))
         HF_ADDSEG_SHIFT.
Definition cpu_x86_load_seg_cache (r : segreg) (selector base limit flags : Z) : X W unit :=
  xmod (set_seg r (Sc selector base limit flags)) ;;;
  (if bool_decide (r = R_CS) then
     xmod (fun s => set_hflags (Z.lor (without (hflags s) (Z.lor HF_CS32_MASK HF_CS64_MASK))
                       (Z.shiftr (Z.land (sc_flags (seg R_CS s)) DESC_B_MASK) (DESC_B_SHIFT - HF_CS32_SHIFT))) s)
   else xret tt) ;;;
  xmod (fun s => set_hflags (Z.lor (without (hflags s) (Z.lor HF_SS32_MASK HF_ADDSEG_MASK))
     (Z.lor (Z.shiftr (Z.land (sc_flags (seg R_SS s)) DESC_B_MASK) (DESC_B_SHIFT - HF_SS32_SHIFT)) (addseg_of s))) s).

(** [cpu_x86_set_cpl(env, cpl)] *)
Definition cpu_x86_set_cpl (cpl : Z) : X W unit :=
  xmod (fun s => set_hflags (Z.lor (without (hflags s) HF_CPL_MASK) cpl) s).
Definition cpl_of (s : cpu W) : Z := Z.land (hflags s) HF_CPL_MASK.
End X86.

(** * Memory *)

(** The result of an access: a value, or a page fault with its address and
    error code. *)
Inductive access (A : Type) := Hit (a : A) | PageFault (addr err : Z).
Arguments Hit {A}. Arguments PageFault {A}.

(** The accesses of the helpers: [ldub_kernel], [lduw_kernel], [ldl_kernel] and
    the stores, which may update the tables of the translation. *)
Class Bus (W : Type) := {
  bus_ld : osize -> Z -> W -> access Z * W;
  bus_st : osize -> Z -> Z -> W -> access unit * W
}.

Section Memory.
Context {W : Type} `{!Bus W}.

Definition access_result {A} (r : access A) : X W A :=
  match r with
  | Hit a => xret a
  | PageFault addr err => xmod (set_cr2 addr) ;;; raise_exception_err EXCP0E_PAGE err
  end.
Definition ld_kernel (w : osize) (addr : Z) : X W Z :=
  fun s => let '(r, m) := bus_ld w (u32 addr) (mem s) in access_result r (set_mem m s).
Definition st_kernel (w : osize) (addr v : Z) : X W unit :=
  fun s => let '(r, m) := bus_st w (u32 addr) (data_type w v) (mem s) in access_result r (set_mem m s).
Definition ldub_kernel := ld_kernel SzB.
Definition lduw_kernel := ld_kernel SzW.
Definition ldl_kernel := ld_kernel SzL.
Definition stb_kernel := st_kernel SzB.
Definition stw_kernel := st_kernel SzW.
Definition stl_kernel := st_kernel SzL.
End Memory.

(** * Steps of a helper *)

Section Steps.
Context {W : Type}.

Lemma xbind_done {A B} (m : X W A) (k : A -> X W B) s a s' : m s = Done a s' -> xbind m k s = k a s'.
Proof. intros E. unfold xbind. by rewrite E. Qed.
Lemma xbind_exit {A B} (m : X W A) (k : A -> X W B) s s' : m s = LoopExit s' -> xbind m k s = LoopExit s'.
Proof. intros E. unfold xbind. by rewrite E. Qed.
Lemma xbind_assoc {A B C} (m : X W A) (k : A -> X W B) (h : B -> X W C) s :
  xbind (xbind m k) h s = xbind m (fun a => xbind (k a) h) s.
Proof. unfold xbind. by destruct (m s). Qed.
Lemma xbind_ret {A B} (a : A) (k : A -> X W B) s : xbind (xret a) k s = k a s.
Proof. done. Qed.
Lemma xbind_get {B} (k : cpu W -> X W B) s : xbind xget k s = k s s.
Proof. done. Qed.
Lemma xbind_gets {A B} (f : cpu W -> A) (k : A -> X W B) s : xbind (xgets f) k s = k (f s) s.
Proof. done. Qed.
Lemma xbind_mod {B} (f : cpu W -> cpu W) (k : unit -> X W B) s : xbind (xmod f) k s = k tt (f s).
Proof. done. Qed.
Lemma xbind_pass {B} c (m : X W unit) (k : unit -> X W B) s : c = false -> xbind (check c m) k s = k tt s.
Proof. by intros ->. Qed.
Lemma xbind_raise {B} c i e (k : unit -> X W B) s :
  c = true -> xbind (check c (raise_exception_err i e)) k s = raise_exception_err i e s.
Proof. by intros ->. Qed.
End Steps.

(** [xstep] takes the next step that cannot fail. *)
Ltac xstep :=
  first [rewrite xbind_get|rewrite xbind_gets|rewrite xbind_mod|rewrite xbind_ret|rewrite xbind_assoc]; cbv beta.
Ltac xsteps := repeat xstep.
