(* ===== verification/X86Seg.v ===== *)
(** Segmentation in the emulated processor, src/sysvm/target-i386/helper.c:
    reading descriptors, loading the segment registers, [lldt], [ltr], [lsl],
    [lar], [verr], [verw] and the permission bits of port accesses. *)
From S2P Require Import Prelude CcFlags X86.

(** [get_seg_limit(e1, e2)] and [get_seg_base(e1, e2)] *)
Definition get_seg_limit (e1 e2 : Z) : Z :=
  let limit := Z.lor (Z.land e1 0xffff) (Z.land e2 0x000f0000) in
  if has e2 DESC_G_MASK then Z.lor (u32 (Z.shiftl limit 12)) 0xfff else limit.
Definition get_seg_base (e1 e2 : Z) : Z :=
  Z.lor (Z.lor (Z.shiftr e1 16) (u32 (Z.shiftl (Z.land e2 0xff) 16))) (Z.land e2 0xff000000).

Definition dpl_of (e2 : Z) : Z := Z.land (Z.shiftr e2 DESC_DPL_SHIFT) 3.
Definition type_of (e2 : Z) : Z := Z.land (Z.shiftr e2 DESC_TYPE_SHIFT) 0xf.

(** [load_seg_cache_raw_dt(sc, e1, e2)]: the selector stays. *)
Definition raw_dt (e1 e2 : Z) (c : SegmentCache) : SegmentCache :=
  Sc (sc_selector c) (get_seg_base e1 e2) (get_seg_limit e1 e2) e2.

(** [get_sp_mask(e2)] *)
Definition get_sp_mask (e2 : Z) : Z := if has e2 DESC_B_MASK then 0xffffffff else 0xffff.

(** [selector & 0xfffc], the error code for a selector. *)
Definition sel_err (selector : Z) : Z := Z.land selector 0xfffc.
(** [selector & ~7] of an int, as the offset into a table. *)
Definition sel_index (selector : Z) : Z := without (u32 selector) 7.

Section Seg.
Context {W : Type} `{!Bus W}.

(** [load_segment(&e1, &e2, selector)]: [None] is the error return. *)
Definition load_segment (selector : Z) : X W (option (Z * Z)) :=
  s <- xget ;;
  let dt := if has selector 0x4 then ldt s else gdt s in
  let index := sel_index selector in
  if sc_limit dt <? u32 (index + 7) then xret None else
  let ptr := u32 (sc_base dt + index) in
  e1 <- ldl_kernel ptr ;;
  e2 <- ldl_kernel (ptr + 4) ;;
  xret (Some (e1, e2)).

(** [if(load_segment(..) != 0) raise_exception_err(index, err);] *)
Definition load_or_raise (index : Z) (selector err : Z) : X W (Z * Z) :=
  r <- load_segment selector ;;
  match r with Some e => xret e | None => raise_exception_err index err end.

(** [load_seg_vm(seg, selector)] *)
Definition load_seg_vm (r : segreg) (selector : Z) : X W unit :=
  let selector := Z.land selector 0xffff in
  cpu_x86_load_seg_cache r selector (u32 (Z.shiftl selector 4)) 0xffff 0.

(** [get_ss_esp_from_tss(&ss, &esp, dpl)]: the pair [(ss, esp)]. *)
Definition get_ss_esp_from_tss (dpl : Z) : X W (Z * Z) :=
  s <- xget ;;
  if negb (has (sc_flags (tr s)) DESC_P_MASK) then cpu_abort else
  let type := type_of (sc_flags (tr s)) in
  if negb (Z.land type 7 =? 1) then cpu_abort else
  let shift := Z.shiftr type 3 in
  let index := Z.shiftl (dpl * 4 + 2) shift in
  check (sc_limit (tr s) <? u32 (index + Z.shiftl 4 shift - 1))
    (raise_exception_err EXCP0A_TSS (sel_err (sc_selector (tr s)))) ;;;
  if shift =? 0 then
    esp <- lduw_kernel (sc_base (tr s) + index) ;;
    ss <- lduw_kernel (sc_base (tr s) + index + 2) ;;
    xret (ss, esp)
  else
    esp <- ldl_kernel (sc_base (tr s) + index) ;;
    ss <- lduw_kernel (sc_base (tr s) + index + 4) ;;
    xret (ss, esp).

(** [tss_load_seg(seg_reg, selector)] *)
Definition tss_load_seg (r : segreg) (selector : Z) : X W unit :=
  let fail := raise_exception_err EXCP0A_TSS (sel_err selector) in
  if negb (sel_err selector =? 0) then
    e <- load_or_raise EXCP0A_TSS selector (sel_err selector) ;;
    let '(e1, e2) := e in
    check (negb (has e2 DESC_S_MASK)) fail ;;;
    let rpl := Z.land selector 3 in
    let dpl := dpl_of e2 in
    s <- xget ;;
    let cpl := cpl_of s in
    (if bool_decide (r = R_CS) then
       check (negb (has e2 DESC_CS_MASK)) fail ;;;
       check (negb (dpl =? rpl)) fail ;;;
       check (has e2 DESC_C_MASK && (rpl <? dpl)) fail
     else if bool_decide (r = R_SS) then
       check (has e2 DESC_CS_MASK || negb (has e2 DESC_W_MASK)) fail ;;;
       check (negb (dpl =? cpl) || negb (dpl =? rpl)) fail
     else
       check (has e2 DESC_CS_MASK && negb (has e2 DESC_R_MASK)) fail ;;;
       check ((type_of e2 <? 12) && ((dpl <? cpl) || (dpl <? rpl))) fail) ;;;
    check (negb (has e2 DESC_P_MASK)) (raise_exception_err EXCP0B_NOSEG (sel_err selector)) ;;;
    cpu_x86_load_seg_cache r selector (get_seg_base e1 e2) (get_seg_limit e1 e2) e2
  else check (bool_decide (r = R_SS) || bool_decide (r = R_CS)) fail.

(** [check_io(addr, size)] *)
Definition check_io (addr size : Z) : X W unit :=
  s <- xget ;;
  let fail := raise_exception_err EXCP0D_GPF 0 in
  if negb (has (sc_flags (tr s)) DESC_P_MASK) || negb (type_of (sc_flags (tr s)) =? 9) || (sc_limit (tr s) <? 103)
  then fail else
  io_offset <- lduw_kernel (sc_base (tr s) + 0x66) ;;
  let io_offset := io_offset + Z.shiftr addr 3 in
  if sc_limit (tr s) <? u32 (io_offset + 1) then fail else
  val <- lduw_kernel (sc_base (tr s) + io_offset) ;;
  let val := Z.shiftr val (Z.land addr 7) in
  check (negb (Z.land val (Z.shiftl 1 size - 1) =? 0)) fail.

Definition check_iob_T0 : X W unit := s <- xget ;; check_io (s32 (T0 s)) 1.
Definition check_iow_T0 : X W unit := s <- xget ;; check_io (s32 (T0 s)) 2.
Definition check_iol_T0 : X W unit := s <- xget ;; check_io (s32 (T0 s)) 4.
Definition check_iob_DX : X W unit := s <- xget ;; check_io (Z.land (EDX s) 0xffff) 1.
Definition check_iow_DX : X W unit := s <- xget ;; check_io (Z.land (EDX s) 0xffff) 2.
Definition check_iol_DX : X W unit := s <- xget ;; check_io (Z.land (EDX s) 0xffff) 4.

(** [helper_lldt_T0()] *)
Definition helper_lldt_T0 : X W unit :=
  s <- xget ;;
  let selector := Z.land (T0 s) 0xffff in
  (if sel_err selector =? 0 then
     xmod (fun s => set_ldt (set_sc_limit 0 (set_sc_base 0 (ldt s))) s)
   else
     let fail := raise_exception_err EXCP0D_GPF (sel_err selector) in
     check (has selector 0x4) fail ;;;
     let index := sel_index selector in
     check (sc_limit (gdt s) <? u32 (index + 7)) fail ;;;
     let ptr := u32 (sc_base (gdt s) + index) in
     e1 <- ldl_kernel ptr ;;
     e2 <- ldl_kernel (ptr + 4) ;;
     check (has e2 DESC_S_MASK || negb (type_of e2 =? 2)) fail ;;;
     check (negb (has e2 DESC_P_MASK)) (raise_exception_err EXCP0B_NOSEG (sel_err selector)) ;;;
     xmod (fun s => set_ldt (raw_dt e1 e2 (ldt s)) s)) ;;;
  xmod (fun s => set_ldt (set_sc_selector selector (ldt s)) s).

(** [helper_ltr_T0()] *)
Definition helper_ltr_T0 : X W unit :=
  s <- xget ;;
  let selector := Z.land (T0 s) 0xffff in
  (if sel_err selector =? 0 then
     xmod (fun s => set_tr (Sc (sc_selector (tr s)) 0 0 0) s)
   else
     let fail := raise_exception_err EXCP0D_GPF (sel_err selector) in
     check (has selector 0x4) fail ;;;
     let index := sel_index selector in
     check (sc_limit (gdt s) <? u32 (index + 7)) fail ;;;
     let ptr := u32 (sc_base (gdt s) + index) in
     e1 <- ldl_kernel ptr ;;
     e2 <- ldl_kernel (ptr + 4) ;;
     let type := type_of e2 in
     check (has e2 DESC_S_MASK || (negb (type =? 1) && negb (type =? 9))) fail ;;;
     check (negb (has e2 DESC_P_MASK)) (raise_exception_err EXCP0B_NOSEG (sel_err selector)) ;;;
     xmod (fun s => set_tr (raw_dt e1 e2 (tr s)) s) ;;;
     stl_kernel (ptr + 4) (Z.lor e2 DESC_TSS_BUSY_MASK)) ;;;
  xmod (fun s => set_tr (set_sc_selector selector (tr s)) s).

(** The rights [load_seg] asks of a descriptor, and its accessed bit, which is
    set in the table. *)
Definition seg_rights (r : segreg) (selector e2 cpl : Z) : X W unit :=
  let fail := raise_exception_err EXCP0D_GPF (sel_err selector) in
  check (negb (has e2 DESC_S_MASK)) fail ;;;
  let rpl := Z.land selector 3 in
  let dpl := dpl_of e2 in
  (if bool_decide (r = R_SS) then
     check (has e2 DESC_CS_MASK || negb (has e2 DESC_W_MASK)) fail ;;;
     check (negb (rpl =? cpl) || negb (dpl =? cpl)) fail
   else
     check (Z.land e2 (Z.lor DESC_CS_MASK DESC_R_MASK) =? DESC_CS_MASK) fail ;;;
     check ((negb (has e2 DESC_CS_MASK) || negb (has e2 DESC_C_MASK)) && ((dpl <? cpl) || (dpl <? rpl))) fail) ;;;
  check (negb (has e2 DESC_P_MASK))
    (if bool_decide (r = R_SS) then raise_exception_err EXCP0C_STACK (sel_err selector)
     else raise_exception_err EXCP0B_NOSEG (sel_err selector)).
Definition mark_accessed (ptr e2 : Z) : X W Z :=
  if negb (has e2 DESC_A_MASK) then
    stl_kernel (ptr + 4) (Z.lor e2 DESC_A_MASK) ;;; xret (Z.lor e2 DESC_A_MASK)
  else xret e2.

(** [load_seg(seg_reg, selector)], for registers other than CS. *)
Definition load_seg (r : segreg) (selector : Z) : X W unit :=
  let selector := Z.land selector 0xffff in
  s <- xget ;;
  if sel_err selector =? 0 then
    check (bool_decide (r = R_SS)) (raise_exception_err EXCP0D_GPF 0) ;;;
    cpu_x86_load_seg_cache r selector 0 0 0
  else
    let dt := if has selector 0x4 then ldt s else gdt s in
    let index := sel_index selector in
    check (sc_limit dt <? u32 (index + 7)) (raise_exception_err EXCP0D_GPF (sel_err selector)) ;;;
    let ptr := u32 (sc_base dt + index) in
    e1 <- ldl_kernel ptr ;;
    e2 <- ldl_kernel (ptr + 4) ;;
    seg_rights r selector e2 (cpl_of s) ;;;
    e2 <- mark_accessed ptr e2 ;;
    cpu_x86_load_seg_cache r selector (get_seg_base e1 e2) (get_seg_limit e1 e2) e2.

(** [validate_seg(seg_reg, cpl)] *)
Definition validate_seg (r : segreg) (cpl : Z) : X W unit :=
  s <- xget ;;
  if (bool_decide (r = R_FS) || bool_decide (r = R_GS)) && (sel_err (sc_selector (seg r s)) =? 0) then xret tt else
  let e2 := sc_flags (seg r s) in
  if (negb (has e2 DESC_CS_MASK) || negb (has e2 DESC_C_MASK)) && (dpl_of e2 <? cpl)
  then cpu_x86_load_seg_cache r 0 0 0 0 else xret tt.

(** The privilege tests of [lsl], [lar], [verr] and [verw]. *)
Definition too_low (selector e2 : Z) (s : cpu W) : bool :=
  (dpl_of e2 <? cpl_of s) || (dpl_of e2 <? Z.land selector 3).

(** [CC_SRC = eflags & ~CC_Z] and [CC_SRC = eflags | CC_Z] *)
Definition set_zf (e : Z) (z : bool) : X W unit :=
  xmod (set_cc_src (if z then u32 (Z.lor e CC_Z) else without e CC_Z)).

(** [helper_lsl()] *)
Definition helper_lsl : X W unit :=
  e <- cc_all ;;
  s <- xget ;;
  let selector := Z.land (T0 s) 0xffff in
  r <- load_segment selector ;;
  match r with
  | None => set_zf e false
  | Some (e1, e2) =>
      s <- xget ;;
      let ok :=
        if has e2 DESC_S_MASK then (has e2 DESC_CS_MASK && has e2 DESC_C_MASK) || negb (too_low selector e2 s)
        else bool_decide (type_of e2 ∈ [1; 2; 3; 9; 11]) && negb (too_low selector e2 s) in
      if ok : bool then xmod (set_T1 (get_seg_limit e1 e2)) ;;; set_zf e true else set_zf e false
  end.

(** [helper_lar()] *)
Definition helper_lar : X W unit :=
  e <- cc_all ;;
  s <- xget ;;
  let selector := Z.land (T0 s) 0xffff in
  if sel_err selector =? 0 then set_zf e false else
  r <- load_segment selector ;;
  match r with
  | None => set_zf e false
  | Some (e1, e2) =>
      s <- xget ;;
      let ok :=
        if has e2 DESC_S_MASK then (has e2 DESC_CS_MASK && has e2 DESC_C_MASK) || negb (too_low selector e2 s)
        else bool_decide (type_of e2 ∈ [1; 2; 3; 4; 5; 9; 11; 12]) && negb (too_low selector e2 s) in
      if ok : bool then xmod (set_T1 (Z.land e2 0x00f0ff00)) ;;; set_zf e true else set_zf e false
  end.

(** [helper_verr()] and [helper_verw()] *)
Definition helper_verr : X W unit :=
  e <- cc_all ;;
  s <- xget ;;
  let selector := Z.land (T0 s) 0xffff in
  if sel_err selector =? 0 then set_zf e false else
  r <- load_segment selector ;;
  match r with
  | None => set_zf e false
  | Some (e1, e2) =>
      s <- xget ;;
      if negb (has e2 DESC_S_MASK) then set_zf e false
      else if has e2 DESC_CS_MASK then
        if negb (has e2 DESC_R_MASK) then set_zf e false
        else if negb (has e2 DESC_C_MASK) && too_low selector e2 s then set_zf e false
        else set_zf e true
      else if too_low selector e2 s then set_zf e false
      else set_zf e true
  end.
Definition helper_verw : X W unit :=
  e <- cc_all ;;
  s <- xget ;;
  let selector := Z.land (T0 s) 0xffff in
  if sel_err selector =? 0 then set_zf e false else
  r <- load_segment selector ;;
  match r with
  | None => set_zf e false
  | Some (e1, e2) =>
      s <- xget ;;
      if negb (has e2 DESC_S_MASK) then set_zf e false
      else if has e2 DESC_CS_MASK then set_zf e false
      else if too_low selector e2 s then set_zf e false
      else if negb (has e2 DESC_W_MASK) then set_zf e false
      else set_zf e true
  end.
End Seg.
