(* ===== verification/X86Int.v ===== *)
(** Interrupts, far jumps, calls and returns of the emulated processor,
    src/sysvm/target-i386/helper.c, for the 32-bit target.  Logging is not
    modelled, nor is the hand-over to the host accelerator at the end of a
    transfer. *)
From S2P Require Import Prelude CcFlags X86 X86Seg.

Definition SWITCH_TSS_JMP : Z := 0.
Definition SWITCH_TSS_IRET : Z := 1.
Definition SWITCH_TSS_CALL : Z := 2.

Section Int.
Context {W : Type} `{!Bus W}.

(** [SET_ESP(val, sp_mask)] *)
Definition SET_ESP (val sp_mask : Z) : X W unit :=
  xmod (fun s => set_esp (Z.lor (without (ESP s) sp_mask) (Z.land val sp_mask)) s).

(** [PUSHW], [PUSHL], [POPW] and [POPL]: the new stack pointer, and the value. *)
Definition push (w : osize) (ssp sp_mask sp val : Z) : X W Z :=
  let sp := u32 (sp - DATA_BITS w / 8) in
  st_kernel w (ssp + Z.land sp sp_mask) val ;;; xret sp.
Definition pop (w : osize) (ssp sp_mask sp : Z) : X W (Z * Z) :=
  val <- ld_kernel w (ssp + Z.land sp sp_mask) ;; xret (val, u32 (sp + DATA_BITS w / 8)).

(** The size of a stack slot of a 16-bit or a 32-bit transfer. *)
Definition slot (shift : Z) : osize := if shift =? 1 then SzL else SzW.

(** A sequence of pushes. *)
Fixpoint pushes (w : osize) (ssp sp_mask sp : Z) (vals : list Z) : X W Z :=
  match vals with
  | [] => xret sp
  | v :: vals => sp <- push w ssp sp_mask sp v ;; pushes w ssp sp_mask sp vals
  end.

(** * Task switch *)

(** [for(i = 0; i < n; i++) r[i] = ld(base + i * step);] *)
Fixpoint load_regs (n : nat) (w : osize) (base step : Z) : X W (list Z) :=
  match n with
  | O => xret []
  | S n' => v <- ld_kernel w base ;; l <- load_regs n' w (base + step) step ;; xret (v :: l)
  end.
Fixpoint store_regs (w : osize) (base step : Z) (vals : list Z) : X W unit :=
  match vals with
  | [] => xret tt
  | v :: vals => st_kernel w base v ;;; store_regs w (base + step) step vals
  end.

(** The registers read from the new task state segment. *)
Record new_state := NewState {
  n_cr3 : Z; n_eip : Z; n_eflags : Z; n_regs : list Z; n_segs : list Z; n_ldt : Z
}.
(** Register [i] of the eight, and segment [i] of the six. *)
Definition n_reg (n : new_state) (i : nat) : Z := nth i (n_regs n) 0.
Definition n_seg (n : new_state) (r : segreg) : Z :=
  nth (match r with R_ES => 0 | R_CS => 1 | R_SS => 2 | R_DS => 3 | R_FS => 4 | R_GS => 5 end) (n_segs n) 0.

Definition read_tss (type tss_base : Z) : X W new_state :=
  if has type 8 then
    cr3 <- ldl_kernel (tss_base + 0x1c) ;;
    eip <- ldl_kernel (tss_base + 0x20) ;;
    efl <- ldl_kernel (tss_base + 0x24) ;;
    rs <- load_regs 8 SzL (tss_base + 0x28) 4 ;;
    sg <- load_regs 6 SzW (tss_base + 0x48) 4 ;;
    nldt <- lduw_kernel (tss_base + 0x60) ;;
    trap <- ldl_kernel (tss_base + 0x64) ;;
    xret (NewState cr3 eip efl rs sg nldt)
  else
    eip <- lduw_kernel (tss_base + 0x0e) ;;
    efl <- lduw_kernel (tss_base + 0x10) ;;
    rs <- load_regs 8 SzW (tss_base + 0x12) 2 ;;
    sg <- load_regs 4 SzW (tss_base + 0x22) 4 ;;
    nldt <- lduw_kernel (tss_base + 0x2a) ;;
    xret (NewState 0 eip efl (map (fun r => Z.lor r 0xffff0000) rs) (sg ++ [0; 0]) nldt).

Definition the_regs (s : cpu W) : list Z := [EAX s; ECX s; EDX s; EBX s; ESP s; EBP s; ESI s; EDI s].
Definition all_segs : list segreg := [R_ES; R_CS; R_SS; R_DS; R_FS; R_GS].

(** The state saved in the old segment, at its base [b]. *)
Definition save_tss (type b next_eip old_eflags : Z) : X W unit :=
  s <- xget ;;
  if has type 8 then
    stl_kernel (b + 0x20) next_eip ;;;
    stl_kernel (b + 0x24) old_eflags ;;;
    store_regs SzL (b + 0x28) 4 (the_regs s) ;;;
    store_regs SzW (b + 0x48) 4 (map (fun r => sc_selector (seg r s)) all_segs)
  else
    stw_kernel (b + 0x0e) next_eip ;;;
    stw_kernel (b + 0x10) old_eflags ;;;
    store_regs SzW (b + 0x12) 2 (the_regs s) ;;;
    store_regs SzW (b + 0x22) 4 (map (fun r => sc_selector (seg r s)) [R_ES; R_CS; R_SS; R_DS]).

(** The busy bit of the descriptor with the selector. *)
Definition set_busy (selector : Z) (busy : bool) : X W unit :=
  s <- xget ;;
  let ptr := u32 (sc_base (gdt s) + sel_index selector) in
  e2 <- ldl_kernel (ptr + 4) ;;
  stl_kernel (ptr + 4) (if busy then Z.lor e2 DESC_TSS_BUSY_MASK else without e2 DESC_TSS_BUSY_MASK).

(** The selectors of a task gate are followed to the task state segment. *)
Definition task_gate (tss_selector e1 e2 : Z) : X W (Z * Z * Z * Z) :=
  check (negb (has e2 DESC_P_MASK)) (raise_exception_err EXCP0B_NOSEG (sel_err tss_selector)) ;;;
  let sel := Z.shiftr e1 16 in
  check (has sel 4) (raise_exception_err EXCP0A_TSS (sel_err sel)) ;;;
  e <- load_or_raise EXCP0D_GPF sel (sel_err sel) ;;
  let '(e1, e2) := e in
  check (has e2 DESC_S_MASK) (raise_exception_err EXCP0D_GPF (sel_err sel)) ;;;
  check (negb (Z.land (type_of e2) 7 =? 1)) (raise_exception_err EXCP0D_GPF (sel_err sel)) ;;;
  xret (sel, e1, e2, type_of e2).

(** The registers and selectors of the new task. *)
Definition load_task (type : Z) (n : new_state) (new_eflags : Z) : X W unit :=
  xmod (set_eip (n_eip n)) ;;;
  let mask := Z.lor TF_MASK (Z.lor AC_MASK (Z.lor ID_MASK (Z.lor IF_MASK (Z.lor IOPL_MASK (Z.lor VM_MASK (Z.lor RF_MASK NT_MASK)))))) in
  load_eflags new_eflags (if has type 8 then mask else Z.land mask 0xffff) ;;;
  xmod (fun s => set_eax (n_reg n 0) (set_ecx (n_reg n 1) (set_edx (n_reg n 2) (set_ebx (n_reg n 3)
    (set_esp (n_reg n 4) (set_ebp (n_reg n 5) (set_esi (n_reg n 6) (set_edi (n_reg n 7) s)))))))) ;;;
  if has new_eflags VM_MASK then
    load_seg_vm R_ES (n_seg n R_ES) ;;; load_seg_vm R_CS (n_seg n R_CS) ;;; load_seg_vm R_SS (n_seg n R_SS) ;;;
    load_seg_vm R_DS (n_seg n R_DS) ;;; load_seg_vm R_FS (n_seg n R_FS) ;;; load_seg_vm R_GS (n_seg n R_GS) ;;;
    cpu_x86_set_cpl 3
  else
    cpu_x86_set_cpl (Z.land (n_seg n R_CS) 3) ;;;
    cpu_x86_load_seg_cache R_ES (n_seg n R_ES) 0 0 0 ;;; cpu_x86_load_seg_cache R_CS (n_seg n R_CS) 0 0 0 ;;;
    cpu_x86_load_seg_cache R_SS (n_seg n R_SS) 0 0 0 ;;; cpu_x86_load_seg_cache R_DS (n_seg n R_DS) 0 0 0 ;;;
    cpu_x86_load_seg_cache R_FS (n_seg n R_FS) 0 0 0 ;;; cpu_x86_load_seg_cache R_GS (n_seg n R_GS) 0 0 0.

(** The local descriptor table of the new task. *)
Definition load_task_ldt (new_ldt : Z) : X W unit :=
  let fail := raise_exception_err EXCP0A_TSS (sel_err new_ldt) in
  xmod (set_ldt (Sc (without new_ldt 4) 0 0 0)) ;;;
  check (has new_ldt 4) fail ;;;
  if negb (sel_err new_ldt =? 0) then
    s <- xget ;;
    let index := sel_index new_ldt in
    check (sc_limit (gdt s) <? u32 (index + 7)) fail ;;;
    let ptr := u32 (sc_base (gdt s) + index) in
    e1 <- ldl_kernel ptr ;;
    e2 <- ldl_kernel (ptr + 4) ;;
    check (has e2 DESC_S_MASK || negb (type_of e2 =? 2)) fail ;;;
    check (negb (has e2 DESC_P_MASK)) fail ;;;
    xmod (fun s => set_ldt (raw_dt e1 e2 (ldt s)) s)
  else xret tt.

(** [switch_tss(tss_selector, e1, e2, source, next_eip)]; memory is an interface here,
    without a cache of translations, so [cpu_x86_update_cr3] is the assignment of the
    register (its flush is in X86Cr). *)
Definition switch_tss (tss_selector e1 e2 source next_eip : Z) : X W unit :=
  t <- (if type_of e2 =? 5 then task_gate tss_selector e1 e2 else xret (tss_selector, e1, e2, type_of e2)) ;;
  let '(tss_selector, e1, e2, type) := t in
  check (negb (has e2 DESC_P_MASK)) (raise_exception_err EXCP0B_NOSEG (sel_err tss_selector)) ;;;
  let tss_limit_max := if has type 8 then 103 else 43 in
  let tss_limit := get_seg_limit e1 e2 in
  let tss_base := get_seg_base e1 e2 in
  check (has tss_selector 4 || (s32 tss_limit <? tss_limit_max)) (raise_exception_err EXCP0A_TSS (sel_err tss_selector)) ;;;
  s <- xget ;;
  let old_tss_limit_max := if has (type_of (sc_flags (tr s))) 8 then 103 else 43 in
  n <- read_tss type tss_base ;;
  v1 <- ldub_kernel (sc_base (tr s)) ;;
  v2 <- ldub_kernel (sc_base (tr s) + old_tss_limit_max) ;;
  stb_kernel (sc_base (tr s)) v1 ;;;
  stb_kernel (sc_base (tr s) + old_tss_limit_max) v2 ;;;
  (if (source =? SWITCH_TSS_JMP) || (source =? SWITCH_TSS_IRET) then set_busy (sc_selector (tr s)) false else xret tt) ;;;
  old_eflags <- compute_eflags ;;
  save_tss type (sc_base (tr s)) next_eip (if source =? SWITCH_TSS_IRET then without old_eflags NT_MASK else old_eflags) ;;;
  (if source =? SWITCH_TSS_CALL then stw_kernel tss_base (sc_selector (tr s)) else xret tt) ;;;
  let new_eflags := if source =? SWITCH_TSS_CALL then Z.lor (n_eflags n) NT_MASK else n_eflags n in
  (if (source =? SWITCH_TSS_JMP) || (source =? SWITCH_TSS_CALL) then set_busy tss_selector true else xret tt) ;;;
  xmod (fun s => set_cr0 (Z.lor (cr0 s) CR0_TS_MASK) (set_hflags (Z.lor (hflags s) HF_TS_MASK) s)) ;;;
  xmod (set_tr (Sc tss_selector tss_base tss_limit (without e2 DESC_TSS_BUSY_MASK))) ;;;
  s <- xget ;;
  (if has type 8 && has (cr0 s) CR0_PG_MASK then xmod (set_cr3 (n_cr3 n)) else xret tt) ;;;
  load_task type n new_eflags ;;;
  load_task_ldt (n_ldt n) ;;;
  (if negb (has new_eflags VM_MASK) then
     tss_load_seg R_CS (n_seg n R_CS) ;;; tss_load_seg R_SS (n_seg n R_SS) ;;; tss_load_seg R_ES (n_seg n R_ES) ;;;
     tss_load_seg R_DS (n_seg n R_DS) ;;; tss_load_seg R_FS (n_seg n R_FS) ;;; tss_load_seg R_GS (n_seg n R_GS)
   else xret tt) ;;;
  s <- xget ;;
  check (sc_limit (seg R_CS s) <? n_eip n) (raise_exception_err EXCP0D_GPF 0).

(** * Interrupts *)

(** The exceptions of the processor with an error code. *)
Definition has_error_code (intno is_int is_hw : Z) : bool :=
  (is_int =? 0) && (is_hw =? 0) && bool_decide (intno ∈ [8; 10; 11; 12; 13; 14; 17]).

(** The stack of a transfer to the code segment [e2]: the stack segment and its
    descriptor when the privilege changes, its mask, base and pointer, and the
    new privilege. *)
Record target_stack := TStack {
  ts_new : option (Z * Z * Z); ts_mask : Z; ts_base : Z; ts_esp : Z; ts_dpl : Z
}.

(** The checks of the stack segment [ss] of the task for an inner privilege. *)
Definition inner_stack (dpl : Z) : X W target_stack :=
  p <- get_ss_esp_from_tss dpl ;;
  let '(ss, esp) := p in
  let fail := raise_exception_err EXCP0A_TSS (sel_err ss) in
  check (sel_err ss =? 0) fail ;;;
  check (negb (Z.land ss 3 =? dpl)) fail ;;;
  e <- load_or_raise EXCP0A_TSS ss (sel_err ss) ;;
  let '(ss_e1, ss_e2) := e in
  check (negb (dpl_of ss_e2 =? dpl)) fail ;;;
  check (negb (has ss_e2 DESC_S_MASK) || has ss_e2 DESC_CS_MASK || negb (has ss_e2 DESC_W_MASK)) fail ;;;
  check (negb (has ss_e2 DESC_P_MASK)) fail ;;;
  xret (TStack (Some (ss, ss_e1, ss_e2)) (get_sp_mask ss_e2) (get_seg_base ss_e1 ss_e2) esp dpl).

Definition int_stack (selector e2 dpl cpl : Z) : X W target_stack :=
  let fail := raise_exception_err EXCP0D_GPF (sel_err selector) in
  if negb (has e2 DESC_C_MASK) && (dpl <? cpl) then inner_stack dpl
  else if has e2 DESC_C_MASK || (dpl =? cpl) then
    s <- xget ;;
    check (has (eflags s) VM_MASK) fail ;;;
    xret (TStack None (get_sp_mask (sc_flags (seg R_SS s))) (sc_base (seg R_SS s)) (ESP s) cpl)
  else raise_exception_err EXCP0D_GPF (sel_err selector).

(** The words of the frame, in the order they are pushed. *)
Definition frame (new_stack : bool) (has_err : bool) (efl old_eip error_code : Z) (s : cpu W) : list Z :=
  (if new_stack then
     (if has (eflags s) VM_MASK then
        [sc_selector (seg R_GS s); sc_selector (seg R_FS s); sc_selector (seg R_DS s); sc_selector (seg R_ES s)]
      else []) ++ [sc_selector (seg R_SS s); ESP s]
   else []) ++
  [efl; sc_selector (seg R_CS s); old_eip] ++ (if has_err then [error_code] else []).

(** The code segment an interrupt gate or a call gate leads to. *)
Definition gate_code (selector cpl : Z) : X W (Z * Z) :=
  let fail := raise_exception_err EXCP0D_GPF (sel_err selector) in
  check (sel_err selector =? 0) (raise_exception_err EXCP0D_GPF 0) ;;;
  e <- load_or_raise EXCP0D_GPF selector (sel_err selector) ;;
  let '(e1, e2) := e in
  check (negb (has e2 DESC_S_MASK) || negb (has e2 DESC_CS_MASK)) fail ;;;
  check (cpl <? dpl_of e2) fail ;;;
  check (negb (has e2 DESC_P_MASK)) (raise_exception_err EXCP0B_NOSEG (sel_err selector)) ;;;
  xret (e1, e2).

(** The new stack segment of a transfer. *)
Definition load_new_ss (t : target_stack) : X W unit :=
  match ts_new t with
  | Some (ss, ss_e1, ss_e2) =>
      cpu_x86_load_seg_cache R_SS (Z.lor (without ss 3) (ts_dpl t)) (ts_base t) (get_seg_limit ss_e1 ss_e2) ss_e2
  | None => xret tt
  end.

(** [do_interrupt_protected(intno, is_int, error_code, next_eip, is_hw)] *)
Definition do_interrupt_protected (intno is_int error_code next_eip is_hw : Z) : X W unit :=
  let has_err := has_error_code intno is_int is_hw in
  s <- xget ;;
  let old_eip := if negb (is_int =? 0) then next_eip else eip s in
  let fail := raise_exception_err EXCP0D_GPF (intno * 8 + 2) in
  check (sc_limit (idt s) <? u32 (intno * 8 + 7)) fail ;;;
  let ptr := u32 (sc_base (idt s) + intno * 8) in
  e1 <- ldl_kernel ptr ;;
  e2 <- ldl_kernel (ptr + 4) ;;
  let type := Z.land (Z.shiftr e2 DESC_TYPE_SHIFT) 0x1f in
  if type =? 5 then
    check (negb (has e2 DESC_P_MASK)) (raise_exception_err EXCP0B_NOSEG (intno * 8 + 2)) ;;;
    switch_tss (intno * 8) e1 e2 SWITCH_TSS_CALL old_eip ;;;
    if has_err then
      s <- xget ;;
      let shift := Z.shiftr (type_of (sc_flags (tr s))) 3 in
      let mask := get_sp_mask (sc_flags (seg R_SS s)) in
      let esp := Z.land (u32 (ESP s - Z.shiftl 2 shift)) mask in
      let ssp := u32 (sc_base (seg R_SS s) + esp) in
      (if negb (shift =? 0) then stl_kernel ssp error_code else stw_kernel ssp error_code) ;;;
      SET_ESP esp mask
    else xret tt
  else if negb (bool_decide (type ∈ [6; 7; 14; 15])) then fail
  else
    let cpl := cpl_of s in
    check (negb (is_int =? 0) && (dpl_of e2 <? cpl)) fail ;;;
    check (negb (has e2 DESC_P_MASK)) (raise_exception_err EXCP0B_NOSEG (intno * 8 + 2)) ;;;
    let selector := Z.shiftr e1 16 in
    let offset := Z.lor (Z.land e2 0xffff0000) (Z.land e1 0x0000ffff) in
    e <- gate_code selector cpl ;;
    let '(e1, e2) := e in
    t <- int_stack selector e2 (dpl_of e2) cpl ;;
    efl <- compute_eflags ;;
    s <- xget ;;
    let new_stack := bool_decide (is_Some (ts_new t)) in
    esp <- pushes (slot (Z.shiftr type 3)) (ts_base t) (ts_mask t) (ts_esp t) (frame new_stack has_err efl old_eip error_code s) ;;
    (if new_stack && has (eflags s) VM_MASK then
       cpu_x86_load_seg_cache R_ES 0 0 0 0 ;;; cpu_x86_load_seg_cache R_DS 0 0 0 0 ;;;
       cpu_x86_load_seg_cache R_FS 0 0 0 0 ;;; cpu_x86_load_seg_cache R_GS 0 0 0 0
     else xret tt) ;;;
    load_new_ss t ;;;
    SET_ESP esp (ts_mask t) ;;;
    cpu_x86_load_seg_cache R_CS (Z.lor (without selector 3) (ts_dpl t)) (get_seg_base e1 e2) (get_seg_limit e1 e2) e2 ;;;
    cpu_x86_set_cpl (ts_dpl t) ;;;
    xmod (set_eip offset) ;;;
    (if Z.land type 1 =? 0 then xmod (fun s => set_eflags (without (eflags s) IF_MASK) s) else xret tt) ;;;
    xmod (fun s => set_eflags (without (eflags s) (Z.lor TF_MASK (Z.lor VM_MASK (Z.lor RF_MASK NT_MASK)))) s).

(** [do_interrupt_real(intno, is_int, error_code, next_eip)] *)
Definition do_interrupt_real (intno is_int error_code next_eip : Z) : X W unit :=
  s <- xget ;;
  check (sc_limit (idt s) <? u32 (intno * 4 + 3)) (raise_exception_err EXCP0D_GPF (intno * 8 + 2)) ;;;
  let ptr := u32 (sc_base (idt s) + intno * 4) in
  offset <- lduw_kernel ptr ;;
  selector <- lduw_kernel (ptr + 2) ;;
  let old_eip := if negb (is_int =? 0) then next_eip else eip s in
  efl <- compute_eflags ;;
  esp <- pushes SzW (sc_base (seg R_SS s)) 0xffff (ESP s) [efl; sc_selector (seg R_CS s); old_eip] ;;
  xmod (fun s => set_esp (Z.lor (without (ESP s) 0xffff) (Z.land esp 0xffff)) s) ;;;
  xmod (set_eip offset) ;;;
  xmod (fun s => set_cs (set_sc_base (u32 (Z.shiftl selector 4)) (set_sc_selector selector (seg R_CS s))) s) ;;;
  xmod (fun s => set_eflags (without (eflags s) (Z.lor IF_MASK (Z.lor TF_MASK (Z.lor AC_MASK RF_MASK)))) s).

(** [do_interrupt(intno, is_int, error_code, next_eip, is_hw)] *)
Definition do_interrupt (intno is_int error_code next_eip is_hw : Z) : X W unit :=
  s <- xget ;;
  if has (cr0 s) CR0_PE_MASK then do_interrupt_protected intno is_int error_code next_eip is_hw
  else do_interrupt_real intno is_int error_code next_eip.

(** * Far jumps and calls *)

(** The checks of the code segment of a direct jump or call. *)
Definition direct_code (new_cs e2 cpl : Z) : X W unit :=
  let fail := raise_exception_err EXCP0D_GPF (sel_err new_cs) in
  check (negb (has e2 DESC_CS_MASK)) fail ;;;
  (if has e2 DESC_C_MASK then check (cpl <? dpl_of e2) fail
   else
     check (cpl <? Z.land new_cs 3) fail ;;;
     check (negb (dpl_of e2 =? cpl)) fail) ;;;
  check (negb (has e2 DESC_P_MASK)) (raise_exception_err EXCP0B_NOSEG (sel_err new_cs)).

(** [helper_ljmp_protected_T0_T1(next_eip_addend)] *)
Definition helper_ljmp_protected_T0_T1 (next_eip_addend : Z) : X W unit :=
  s <- xget ;;
  let new_cs := T0 s in
  let new_eip := T1 s in
  let fail := raise_exception_err EXCP0D_GPF (sel_err new_cs) in
  check (sel_err new_cs =? 0) (raise_exception_err EXCP0D_GPF 0) ;;;
  e <- load_or_raise EXCP0D_GPF new_cs (sel_err new_cs) ;;
  let '(e1, e2) := e in
  s <- xget ;;
  let cpl := cpl_of s in
  if has e2 DESC_S_MASK then
    direct_code new_cs e2 cpl ;;;
    let limit := get_seg_limit e1 e2 in
    check ((limit <? new_eip) && negb (has (hflags s) HF_LMA_MASK) && negb (has e2 DESC_L_MASK)) fail ;;;
    cpu_x86_load_seg_cache R_CS (Z.lor (sel_err new_cs) cpl) (get_seg_base e1 e2) limit e2 ;;;
    xmod (set_eip new_eip)
  else
    let dpl := dpl_of e2 in
    let rpl := Z.land new_cs 3 in
    let type := type_of e2 in
    if bool_decide (type ∈ [1; 9; 5]) then
      check ((dpl <? cpl) || (dpl <? rpl)) fail ;;;
      switch_tss new_cs e1 e2 SWITCH_TSS_JMP (u32 (eip s + next_eip_addend)) ;;;
      xmod (set_cc_op CC_OP_EFLAGS)
    else if bool_decide (type ∈ [4; 12]) then
      check ((dpl <? cpl) || (dpl <? rpl)) fail ;;;
      check (negb (has e2 DESC_P_MASK)) (raise_exception_err EXCP0B_NOSEG (sel_err new_cs)) ;;;
      let gate_cs := Z.shiftr e1 16 in
      let new_eip := if type =? 12 then Z.lor (Z.land e1 0xffff) (Z.land e2 0xffff0000) else Z.land e1 0xffff in
      let gfail := raise_exception_err EXCP0D_GPF (sel_err gate_cs) in
      e <- load_or_raise EXCP0D_GPF gate_cs (sel_err gate_cs) ;;
      let '(e1, e2) := e in
      let dpl := dpl_of e2 in
      check (negb (Z.land e2 (Z.lor DESC_S_MASK DESC_CS_MASK) =? Z.lor DESC_S_MASK DESC_CS_MASK)) gfail ;;;
      check ((has e2 DESC_C_MASK && (cpl <? dpl)) || (negb (has e2 DESC_C_MASK) && negb (dpl =? cpl))) gfail ;;;
      check (negb (has e2 DESC_P_MASK)) gfail ;;;
      let limit := get_seg_limit e1 e2 in
      check (limit <? new_eip) (raise_exception_err EXCP0D_GPF 0) ;;;
      cpu_x86_load_seg_cache R_CS (Z.lor (sel_err gate_cs) cpl) (get_seg_base e1 e2) limit e2 ;;;
      xmod (set_eip new_eip)
    else fail.

(** [helper_lcall_real_T0_T1(shift, next_eip)] *)
Definition helper_lcall_real_T0_T1 (shift next_eip : Z) : X W unit :=
  s <- xget ;;
  let new_cs := T0 s in
  let mask := get_sp_mask (sc_flags (seg R_SS s)) in
  esp <- pushes (if negb (shift =? 0) then SzL else SzW) (sc_base (seg R_SS s)) mask (ESP s)
           [sc_selector (seg R_CS s); next_eip] ;;
  SET_ESP esp mask ;;;
  xmod (set_eip (T1 s)) ;;;
  xmod (fun s => set_cs (set_sc_base (u32 (Z.shiftl new_cs 4)) (set_sc_selector new_cs (seg R_CS s))) s).

(** The parameters a call gate copies: [for(i = param_count - 1; i >= 0; i--)]. *)
Fixpoint copy_params (n : nat) (w : osize) (old_ssp old_mask old_esp ssp mask sp : Z) : X W Z :=
  match n with
  | O => xret sp
  | S i =>
      val <- ld_kernel w (old_ssp + Z.land (u32 (old_esp + Z.of_nat i * (DATA_BITS w / 8))) old_mask) ;;
      sp <- push w ssp mask sp val ;;
      copy_params i w old_ssp old_mask old_esp ssp mask sp
  end.

(** The rest of a far call through a call gate [e1], [e2]. *)
Definition call_gate (new_cs e1 e2 cpl next_eip : Z) : X W unit :=
  let w := if negb (Z.shiftr (Z.land (Z.shiftr e2 DESC_TYPE_SHIFT) 0x1f) 3 =? 0) then SzL else SzW in
  let fail := raise_exception_err EXCP0D_GPF (sel_err new_cs) in
  let rpl := Z.land new_cs 3 in
  check ((dpl_of e2 <? cpl) || (dpl_of e2 <? rpl)) fail ;;;
  check (negb (has e2 DESC_P_MASK)) (raise_exception_err EXCP0B_NOSEG (sel_err new_cs)) ;;;
  let selector := Z.shiftr e1 16 in
  let offset := Z.lor (Z.land e2 0xffff0000) (Z.land e1 0x0000ffff) in
  let param_count := Z.land e2 0x1f in
  e <- gate_code selector cpl ;;
  let '(e1, e2) := e in
  let dpl := dpl_of e2 in
  s <- xget ;;
  r <- (if negb (has e2 DESC_C_MASK) && (dpl <? cpl) then
          t <- inner_stack dpl ;;
          sp <- pushes w (ts_base t) (ts_mask t) (ts_esp t) [sc_selector (seg R_SS s); ESP s] ;;
          sp <- copy_params (Z.to_nat param_count) w (sc_base (seg R_SS s)) (get_sp_mask (sc_flags (seg R_SS s))) (ESP s)
                  (ts_base t) (ts_mask t) sp ;;
          xret (t, sp)
        else
          xret (TStack None (get_sp_mask (sc_flags (seg R_SS s))) (sc_base (seg R_SS s)) (ESP s) dpl, ESP s)) ;;
  let '(t, sp) := r in
  s <- xget ;;
  sp <- pushes w (ts_base t) (ts_mask t) sp [sc_selector (seg R_CS s); next_eip] ;;
  load_new_ss t ;;;
  cpu_x86_load_seg_cache R_CS (Z.lor (without selector 3) dpl) (get_seg_base e1 e2) (get_seg_limit e1 e2) e2 ;;;
  cpu_x86_set_cpl dpl ;;;
  SET_ESP sp (ts_mask t) ;;;
  xmod (set_eip offset).

(** [helper_lcall_protected_T0_T1(shift, next_eip_addend)] *)
Definition helper_lcall_protected_T0_T1 (shift next_eip_addend : Z) : X W unit :=
  s <- xget ;;
  let new_cs := T0 s in
  let new_eip := T1 s in
  let next_eip := u32 (eip s + next_eip_addend) in
  let fail := raise_exception_err EXCP0D_GPF (sel_err new_cs) in
  check (sel_err new_cs =? 0) (raise_exception_err EXCP0D_GPF 0) ;;;
  e <- load_or_raise EXCP0D_GPF new_cs (sel_err new_cs) ;;
  let '(e1, e2) := e in
  s <- xget ;;
  let cpl := cpl_of s in
  if has e2 DESC_S_MASK then
    direct_code new_cs e2 cpl ;;;
    let mask := get_sp_mask (sc_flags (seg R_SS s)) in
    sp <- pushes (if negb (shift =? 0) then SzL else SzW) (sc_base (seg R_SS s)) mask (ESP s)
            [sc_selector (seg R_CS s); next_eip] ;;
    let limit := get_seg_limit e1 e2 in
    check (limit <? new_eip) fail ;;;
    SET_ESP sp mask ;;;
    cpu_x86_load_seg_cache R_CS (Z.lor (sel_err new_cs) cpl) (get_seg_base e1 e2) limit e2 ;;;
    xmod (set_eip new_eip)
  else
    let type := Z.land (Z.shiftr e2 DESC_TYPE_SHIFT) 0x1f in
    if bool_decide (type ∈ [1; 9; 5]) then
      check ((dpl_of e2 <? cpl) || (dpl_of e2 <? Z.land new_cs 3)) fail ;;;
      switch_tss new_cs e1 e2 SWITCH_TSS_CALL next_eip ;;;
      xmod (set_cc_op CC_OP_EFLAGS)
    else if bool_decide (type ∈ [4; 12]) then call_gate new_cs e1 e2 cpl next_eip
    else fail.

(** * Returns *)

(** A sequence of pops: the values and the stack pointer after them. *)
Fixpoint pops (n : nat) (w : osize) (ssp sp_mask sp : Z) : X W (list Z * Z) :=
  match n with
  | O => xret ([], sp)
  | S n' =>
      v <- pop w ssp sp_mask sp ;;
      r <- pops n' w ssp sp_mask (snd v) ;;
      xret (fst v :: fst r, snd r)
  end.
Definition nth_pop (l : list Z) (i : nat) : Z := nth i l 0.

(** [helper_iret_real(shift)] *)
Definition helper_iret_real (shift : Z) : X W unit :=
  s <- xget ;;
  r <- pops 3 (slot shift) (sc_base (seg R_SS s)) 0xffff (ESP s) ;;
  let new_eip := nth_pop (fst r) 0 in
  let new_cs := if shift =? 1 then Z.land (nth_pop (fst r) 1) 0xffff else nth_pop (fst r) 1 in
  let new_eflags := nth_pop (fst r) 2 in
  xmod (fun s => set_esp (Z.lor (without (ESP s) 0xffff) (Z.land (snd r) 0xffff)) s) ;;;
  load_seg_vm R_CS new_cs ;;;
  xmod (set_eip new_eip) ;;;
  s <- xget ;;
  let base := Z.lor TF_MASK (Z.lor AC_MASK (Z.lor ID_MASK (Z.lor IF_MASK (Z.lor RF_MASK NT_MASK)))) in
  let mask := if has (eflags s) VM_MASK then base else Z.lor base IOPL_MASK in
  load_eflags new_eflags (if shift =? 0 then Z.land mask 0xffff else mask).

(** The return to virtual 8086 mode. *)
Definition return_to_vm86 (ssp sp_mask sp new_eip new_cs new_eflags : Z) : X W unit :=
  r <- pops 6 SzL ssp sp_mask sp ;;
  let new_esp := nth_pop (fst r) 0 in
  load_eflags new_eflags (Z.lor TF_MASK (Z.lor AC_MASK (Z.lor ID_MASK (Z.lor IF_MASK (Z.lor IOPL_MASK
    (Z.lor VM_MASK (Z.lor NT_MASK (Z.lor VIF_MASK VIP_MASK)))))))) ;;;
  load_seg_vm R_CS (Z.land new_cs 0xffff) ;;;
  cpu_x86_set_cpl 3 ;;;
  load_seg_vm R_SS (Z.land (nth_pop (fst r) 1) 0xffff) ;;;
  load_seg_vm R_ES (Z.land (nth_pop (fst r) 2) 0xffff) ;;;
  load_seg_vm R_DS (Z.land (nth_pop (fst r) 3) 0xffff) ;;;
  load_seg_vm R_FS (Z.land (nth_pop (fst r) 4) 0xffff) ;;;
  load_seg_vm R_GS (Z.land (nth_pop (fst r) 5) 0xffff) ;;;
  xmod (set_eip (Z.land new_eip 0xffff)) ;;;
  xmod (set_esp new_esp).

(** The stack segment of a return to an outer privilege. *)
Definition outer_ss (new_ss rpl : Z) : X W Z :=
  let fail := raise_exception_err EXCP0D_GPF (sel_err new_ss) in
  check (sel_err new_ss =? 0) (raise_exception_err EXCP0D_GPF 0) ;;;
  check (negb (Z.land new_ss 3 =? rpl)) fail ;;;
  e <- load_or_raise EXCP0D_GPF new_ss (sel_err new_ss) ;;
  let '(ss_e1, ss_e2) := e in
  check (negb (has ss_e2 DESC_S_MASK) || has ss_e2 DESC_CS_MASK || negb (has ss_e2 DESC_W_MASK)) fail ;;;
  check (negb (dpl_of ss_e2 =? rpl)) fail ;;;
  check (negb (has ss_e2 DESC_P_MASK)) (raise_exception_err EXCP0B_NOSEG (sel_err new_ss)) ;;;
  cpu_x86_load_seg_cache R_SS new_ss (get_seg_base ss_e1 ss_e2) (get_seg_limit ss_e1 ss_e2) ss_e2 ;;;
  xret ss_e2.

(** The checks of the code segment of a return. *)
Definition return_code (new_cs cpl : Z) : X W (Z * Z) :=
  let fail := raise_exception_err EXCP0D_GPF (sel_err new_cs) in
  check (sel_err new_cs =? 0) fail ;;;
  e <- load_or_raise EXCP0D_GPF new_cs (sel_err new_cs) ;;
  let '(e1, e2) := e in
  check (negb (has e2 DESC_S_MASK) || negb (has e2 DESC_CS_MASK)) fail ;;;
  let rpl := Z.land new_cs 3 in
  check (rpl <? cpl) fail ;;;
  (if has e2 DESC_C_MASK then check (rpl <? dpl_of e2) fail else check (negb (dpl_of e2 =? rpl)) fail) ;;;
  check (negb (has e2 DESC_P_MASK)) (raise_exception_err EXCP0B_NOSEG (sel_err new_cs)) ;;;
  xret (e1, e2).

(** The part of the flags an [iret] from privilege [cpl] changes. *)
Definition iret_mask (shift cpl : Z) (s : cpu W) : Z :=
  let m := Z.lor TF_MASK (Z.lor AC_MASK (Z.lor ID_MASK (Z.lor RF_MASK NT_MASK))) in
  let m := if cpl =? 0 then Z.lor m IOPL_MASK else m in
  let m := if cpl <=? Z.land (Z.shiftr (eflags s) IOPL_SHIFT) 3 then Z.lor m IF_MASK else m in
  if shift =? 0 then Z.land m 0xffff else m.

(** [helper_ret_protected(shift, is_iret, addend)] *)
Definition helper_ret_protected (shift is_iret addend : Z) : X W unit :=
  s <- xget ;;
  let sp_mask := get_sp_mask (sc_flags (seg R_SS s)) in
  let ssp := sc_base (seg R_SS s) in
  let w := slot shift in
  r <- pops (if negb (is_iret =? 0) then 3 else 2) w ssp sp_mask (ESP s) ;;
  let new_eip := nth_pop (fst r) 0 in
  let new_cs := if shift =? 1 then Z.land (nth_pop (fst r) 1) 0xffff else nth_pop (fst r) 1 in
  let new_eflags := nth_pop (fst r) 2 in
  if (shift =? 1) && negb (is_iret =? 0) && has new_eflags VM_MASK
  then return_to_vm86 ssp sp_mask (snd r) new_eip new_cs new_eflags
  else
    s <- xget ;;
    let cpl := cpl_of s in
    let rpl := Z.land new_cs 3 in
    e <- return_code new_cs cpl ;;
    let '(e1, e2) := e in
    let sp := u32 (snd r + addend) in
    s <- xget ;;
    m <- (if (rpl =? cpl) && (negb (has (hflags s) HF_CS64_MASK) || (has (hflags s) HF_CS64_MASK && (is_iret =? 0))) then
            cpu_x86_load_seg_cache R_CS new_cs (get_seg_base e1 e2) (get_seg_limit e1 e2) e2 ;;;
            xret (sp, sp_mask)
          else
            q <- pops 2 w ssp sp_mask sp ;;
            let new_esp := nth_pop (fst q) 0 in
            let new_ss := if shift =? 1 then Z.land (nth_pop (fst q) 1) 0xffff else nth_pop (fst q) 1 in
            ss_e2 <- outer_ss new_ss rpl ;;
            cpu_x86_load_seg_cache R_CS new_cs (get_seg_base e1 e2) (get_seg_limit e1 e2) e2 ;;;
            cpu_x86_set_cpl rpl ;;;
            validate_seg R_ES rpl ;;; validate_seg R_DS rpl ;;; validate_seg R_FS rpl ;;; validate_seg R_GS rpl ;;;
            xret (u32 (new_esp + addend), get_sp_mask ss_e2)) ;;
    let '(sp, sp_mask) := m in
    SET_ESP sp sp_mask ;;;
    xmod (set_eip new_eip) ;;;
    if negb (is_iret =? 0) then
      s <- xget ;;
      load_eflags new_eflags (iret_mask shift cpl s)
    else xret tt.

(** [helper_iret_protected(shift, next_eip)] *)
Definition helper_iret_protected (shift next_eip : Z) : X W unit :=
  s <- xget ;;
  if has (eflags s) NT_MASK then
    tss_selector <- lduw_kernel (sc_base (tr s)) ;;
    let fail := raise_exception_err EXCP0A_TSS (sel_err tss_selector) in
    check (has tss_selector 4) fail ;;;
    e <- load_or_raise EXCP0A_TSS tss_selector (sel_err tss_selector) ;;
    let '(e1, e2) := e in
    check (negb (Z.land (Z.shiftr e2 DESC_TYPE_SHIFT) 0x17 =? 3)) fail ;;;
    switch_tss tss_selector e1 e2 SWITCH_TSS_IRET next_eip
  else helper_ret_protected shift 1 0.

(** [helper_lret_protected(shift, addend)] *)
Definition helper_lret_protected (shift addend : Z) : X W unit := helper_ret_protected shift 0 addend.
End Int.
