(* ===== verification/X86Ram.v ===== *)
(** The emulated processor over plain memory: with paging off its accesses
    reach bytes, and what was stored is loaded again ([Ram]).  Descriptor tables in
    memory, and the words of a stack. *)
From S2P Require Import Prelude CcFlags X86 X86Seg X86Int.

(** The bytes of an access of a size. *)
Definition nbytes (w : osize) : nat := match w with SzB => 1 | SzW => 2 | SzL => 4 end.

(** The value of bytes in memory, lowest first. *)
Fixpoint le_val (l : list Z) : Z := match l with [] => 0 | b :: l => b + 256 * le_val l end.

(** What the helpers rely on of memory without paging. *)
Class Ram (W : Type) `{!Bus W} := {
  byte_at : W -> Z -> Z;
  byte_range m a : is_u8 (byte_at m a);
  ram_ld w a m : bus_ld w a m = (Hit (le_val (map (fun i => byte_at m (u32 (a + i))) (seqZ 0 (Z.of_nat (nbytes w))))), m);
  ram_st w a v m : exists m', bus_st w a v m = (Hit tt, m') /\
    forall x, byte_at m' x =
      if decide (u32 (x - a) < Z.of_nat (nbytes w) /\ is_u32 x) then u8 (Z.shiftr v (8 * u32 (x - a))) else byte_at m x
}.

(** Memory as a function from addresses to bytes. *)
Definition flat := Z -> Z.
#[export] Instance flat_bus : Bus flat := {|
  bus_ld w a m := (Hit (le_val (map (fun i => u8 (m (u32 (a + i)))) (seqZ 0 (Z.of_nat (nbytes w))))), m);
  bus_st w a v m := (Hit tt, fun x => if decide (u32 (x - a) < Z.of_nat (nbytes w) /\ is_u32 x)
                                      then u8 (Z.shiftr v (8 * u32 (x - a))) else m x)
|}.
#[export] Instance flat_ram : Ram flat.
Proof.
  refine {| byte_at m a := u8 (m a) |}.
  - intros m a. apply u8_range.
  - done.
  - intros w a v m. eexists. split; [reflexivity|]. intros x. cbv beta. case_decide; [by rewrite u8_u8|done].
Defined.

Section Ram.
Context {W : Type} `{!Bus W} `{!Ram W}.

(** The double word in memory at an address. *)
Definition dword (m : W) (a : Z) : Z := le_val (map (fun i => byte_at m (u32 (a + i))) (seqZ 0 4)).

Lemma dword_bytes m a :
  dword m a = byte_at m (u32 a) + 256 * byte_at m (u32 (a + 1)) + 65536 * byte_at m (u32 (a + 2)) +
              16777216 * byte_at m (u32 (a + 3)).
Proof using Type. unfold dword. change (seqZ 0 4) with [0; 1; 2; 3]. cbn [map le_val]. rewrite Z.add_0_r. lia. Qed.

Lemma dword_range m a : is_u32 (dword m a).
Proof using Type.
  rewrite dword_bytes. pose proof (byte_range m (u32 a)). pose proof (byte_range m (u32 (a + 1))).
  pose proof (byte_range m (u32 (a + 2))). pose proof (byte_range m (u32 (a + 3))). unfold is_u8, is_u32 in *. lia.
Qed.

Lemma u32_add_l a b : u32 (u32 a + b) = u32 (a + b).
Proof using Type. unfold u32. apply Zplus_mod_idemp_l. Qed.

Lemma u32_sub_l a b : u32 (u32 a - b) = u32 (a - b).
Proof using Type. unfold u32. apply Zminus_mod_idemp_l. Qed.

Lemma dword_u32 m a : dword m (u32 a) = dword m a.
Proof using Type.
  rewrite !dword_bytes, u32_u32. pose proof (u32_add_l a 1) as ->. pose proof (u32_add_l a 2) as ->.
  by pose proof (u32_add_l a 3) as ->.
Qed.

Lemma ldl_ok a (s : cpu W) : ldl_kernel a s = Done (dword (mem s) a) s.
Proof using Type.
  unfold ldl_kernel, ld_kernel. rewrite ram_ld. unfold access_result, xret. f_equal; [|by destruct s].
  change (Z.of_nat (nbytes SzL)) with 4. fold (dword (mem s) (u32 a)). apply dword_u32.
Qed.

(** ** Stores *)

(** Two areas of four bytes that do not meet. *)
Definition apart (a b : Z) : Prop := 4 <= u32 (a - b) /\ 4 <= u32 (b - a).

Lemma stl_ok a v (s : cpu W) : exists m, stl_kernel a v s = Done tt (set_mem m s) /\
  dword m a = u32 v /\ (forall b, apart a b -> dword m b = dword (mem s) b).
Proof using Type.
  unfold stl_kernel, st_kernel. destruct (ram_st SzL (u32 a) (data_type SzL v) (mem s)) as (m & E & H). rewrite E.
  exists m. split; [done|]. change (Z.of_nat (nbytes SzL)) with 4 in H. split.
  - rewrite dword_bytes, !H. rewrite !decide_True by (unfold is_u32; split; int_lia).
    assert (u32 (u32 a - u32 a) = 0) as -> by int_lia. assert (u32 (u32 (a + 1) - u32 a) = 1) as -> by int_lia.
    assert (u32 (u32 (a + 2) - u32 a) = 2) as -> by int_lia. assert (u32 (u32 (a + 3) - u32 a) = 3) as -> by int_lia.
    change (data_type SzL v) with (u32 v). pose proof (u32_range v). rewrite !Z.shiftr_div_pow2 by lia.
    change (8 * 0) with 0. change (8 * 1) with 8. change (8 * 2) with 16. change (8 * 3) with 24. int_lia.
  - intros b [H1 H2]. rewrite !dword_bytes, !H. rewrite !decide_False; [done|..]; intros [Hl _]; int_lia.
Qed.

(** ** The stack *)

(** The double words from [sp] on up, in the segment at [ssp]. *)
Definition stack_word (m : W) (ssp mask sp : Z) : Z := dword m (ssp + Z.land sp mask).

Lemma push_ok ssp mask sp v (s : cpu W) : exists m, push SzL ssp mask sp v s = Done (u32 (sp - 4)) (set_mem m s) /\
  stack_word m ssp mask (u32 (sp - 4)) = u32 v /\
  (forall b, apart (ssp + Z.land (u32 (sp - 4)) mask) b -> dword m b = dword (mem s) b).
Proof using Type.
  unfold push. change (DATA_BITS SzL / 8) with 4. fold stl_kernel.
  destruct (stl_ok (ssp + Z.land (u32 (sp - 4)) mask) v s) as (m & E & H). exists m.
  by rewrite (xbind_done _ _ _ _ _ E).
Qed.

Lemma pop_ok ssp mask sp (s : cpu W) :
  pop SzL ssp mask sp s = Done (stack_word (mem s) ssp mask sp, u32 (sp + 4)) s.
Proof using Type.
  unfold pop. change (DATA_BITS SzL / 8) with 4. change (ld_kernel SzL) with ldl_kernel.
  by rewrite (xbind_done _ _ _ _ _ (ldl_ok _ s)).
Qed.

(** ** Tables *)

(** The two words of a descriptor. *)
Definition lo_word (d : Z) : Z := u32 d.
Definition hi_word (d : Z) : Z := Z.shiftr d 32.

(** A descriptor is in memory at an address; the descriptors [l] from [base] on. *)
Definition desc_at (m : W) (a d : Z) : Prop := dword m a = lo_word d /\ dword m (a + 4) = hi_word d.
Definition in_memory (m : W) (base : Z) (l : list Z) : Prop :=
  forall (i : nat) d, l !! i = Some d -> desc_at m (base + 8 * Z.of_nat i) d.

(** [in_memory] decided. *)
Fixpoint in_memoryb (m : W) (base : Z) (l : list Z) : bool :=
  match l with
  | [] => true
  | d :: l => (dword m base =? lo_word d) && (dword m (base + 4) =? hi_word d) && in_memoryb m (base + 8) l
  end.
Lemma in_memoryb_ok m l : forall base, in_memoryb m base l = true -> in_memory m base l.
Proof using Type.
  induction l as [|d l IH]; intros base H i e Hi; [done|]. cbn [in_memoryb] in H.
  apply andb_true_iff in H as [H Hr]. apply andb_true_iff in H as [H1%Z.eqb_eq H2%Z.eqb_eq].
  destruct i as [|i]; cbn in Hi; [injection Hi as <-; rewrite Z.add_0_r; by split|].
  replace (base + 8 * Z.of_nat (S i)) with (base + 8 + 8 * Z.of_nat i) by lia. by apply IH.
Qed.

Lemma dword_u32_add m a b : dword m (u32 a + b) = dword m (a + b).
Proof using Type. by rewrite <- dword_u32, u32_add_l, dword_u32. Qed.

(** Reading a descriptor of the global table. *)
Lemma load_segment_ok selector (s : cpu W) d :
  has selector 4 = false -> sel_index selector + 7 <= sc_limit (gdt s) < 2 ^ 32 -> 0 <= sel_index selector ->
  desc_at (mem s) (sc_base (gdt s) + sel_index selector) d ->
  load_segment selector s = Done (Some (lo_word d, hi_word d)) s.
Proof using Type.
  intros Hti Hl H0 [E1 E2]. unfold load_segment. xsteps. rewrite Hti.
  rewrite (proj2 (Z.ltb_ge _ _)) by (rewrite u32_small; unfold is_u32; lia).
  rewrite (xbind_done _ _ _ _ _ (ldl_ok _ s)), (xbind_done _ _ _ _ _ (ldl_ok _ s)).
  by rewrite dword_u32, dword_u32_add, E1, E2.
Qed.

(** ** Sequences of pushes on a 32-bit stack *)

Lemma mask32 x : Z.land (u32 x) 0xffffffff = u32 x.
Proof using Type. change 0xffffffff with (Z.ones 32). rewrite Z.land_ones by lia. apply u32_u32. Qed.

(** Only the address modulo 2^32 matters. *)
Lemma dword_mod m a b : u32 a = u32 b -> dword m a = dword m b.
Proof using Type. intros H. by rewrite <- dword_u32, H, dword_u32. Qed.
Lemma apart_mod a a' b : u32 a = u32 a' -> apart a b -> apart a' b.
Proof using Type. unfold apart. intros H [H1 H2]. split; int_lia. Qed.

Lemma u32_inner c x k : u32 (c + u32 x - k) = u32 (c + x - k).
Proof using Type. int_lia. Qed.

(** The area of [n] pushes from [sp] down does not meet the double word at [b]. *)
Definition clear_of (ssp sp : Z) (n : nat) (b : Z) : Prop :=
  forall i, (i < n)%nat -> apart (ssp + sp - 4 * Z.of_nat (S i)) b.

Lemma slot_next ssp sp i : u32 (ssp + u32 (sp - 4) - 4 * Z.of_nat (S i)) = u32 (ssp + sp - 4 * Z.of_nat (S (S i))).
Proof using Type. rewrite u32_inner. f_equal. lia. Qed.

(** The words [l] are on the stack below [sp], the first one on top of the area. *)
Definition pushed (m : W) (ssp sp : Z) (l : list Z) : Prop :=
  forall i v, l !! i = Some v -> dword m (ssp + sp - 4 * Z.of_nat (S i)) = u32 v.

Lemma pushes_ok vals : forall ssp sp (s : cpu W), (length vals < 1000)%nat -> is_u32 sp ->
  exists m, pushes SzL ssp 0xffffffff sp vals s = Done (u32 (sp - 4 * Z.of_nat (length vals))) (set_mem m s) /\
    pushed m ssp sp vals /\
    (forall b, clear_of ssp sp (length vals) b -> dword m b = dword (mem s) b).
Proof using Type.
  induction vals as [|v vals IH]; intros ssp sp s Hn Hsp; cbn [pushes length] in *.
  { exists (mem s). rewrite Z.sub_0_r, u32_small by done. by destruct s. }
  destruct (push_ok ssp 0xffffffff sp v s) as (m1 & E1 & Hv & Hb). rewrite (xbind_done _ _ _ _ _ E1).
  unfold stack_word in Hv. rewrite mask32 in Hv, Hb.
  destruct (IH ssp (u32 (sp - 4)) (set_mem m1 s) ltac:(lia) (u32_range _)) as (m & E & Hi & Hm). exists m.
  split; [|split].
  - rewrite E. f_equal. rewrite u32_sub_l. f_equal. lia.
  - intros [|i] w Hw; cbn in Hw.
    + injection Hw as <-. rewrite (dword_mod _ _ (ssp + u32 (sp - 4))) by (rewrite <- (Z.sub_0_r (ssp + u32 _)), u32_inner; f_equal; lia).
      rewrite Hm; [done|]. intros i Hl. eapply apart_mod; [symmetry; apply slot_next|].
      unfold apart. split; int_lia.
    + rewrite <- (Hi i w Hw). apply dword_mod. symmetry. apply slot_next.
  - intros b H. rewrite Hm by (intros i Hl; eapply apart_mod; [symmetry; apply slot_next|apply H; lia]).
    cbn [mem set_mem]. apply Hb. eapply apart_mod; [|apply (H 0%nat); lia].
    rewrite <- (Z.sub_0_r (ssp + u32 _)), u32_inner. f_equal. lia.
Qed.

Lemma slot_after ssp sp n i :
  u32 (ssp + u32 (sp - 4 * Z.of_nat n) - 4 * Z.of_nat (S i)) = u32 (ssp + sp - 4 * Z.of_nat (S (n + i))).
Proof using Type. rewrite u32_inner. f_equal. lia. Qed.

(** Words pushed later leave the earlier ones alone. *)
Lemma pushed_app m m' ssp sp l1 l2 : (length l1 + length l2 < 1000)%nat -> pushed m ssp sp l1 ->
  pushed m' ssp (u32 (sp - 4 * Z.of_nat (length l1))) l2 ->
  (forall b, clear_of ssp (u32 (sp - 4 * Z.of_nat (length l1))) (length l2) b -> dword m' b = dword m b) ->
  pushed m' ssp sp (l1 ++ l2).
Proof using Type.
  intros Hn H1 H2 Hm i v Hi. apply lookup_app_Some in Hi as [Hi|[Hge Hi]].
  - rewrite Hm; [by apply H1|]. apply lookup_lt_Some in Hi. intros j Hj.
    eapply apart_mod; [symmetry; apply slot_after|]. unfold apart. split; int_lia.
  - rewrite <- (H2 _ _ Hi). apply dword_mod. symmetry. etransitivity; [apply slot_after|].
    by replace (length l1 + (i - length l1))%nat with i by lia.
Qed.

(** Read upwards from the stack pointer they come in the opposite order. *)
Lemma pushed_read m ssp sp l : pushed m ssp sp l ->
  map (fun i => dword m (ssp + u32 (sp - 4 * Z.of_nat (length l)) + 4 * Z.of_nat i)) (seq 0 (length l)) = map u32 (reverse l).
Proof using Type.
  intros H. apply list_eq. intros i. rewrite !list_lookup_fmap.
  destruct (decide (i < length l)%nat) as [Hi|Hi].
  - rewrite lookup_seq_lt by lia. cbn [fmap option_fmap option_map]. rewrite reverse_lookup by lia.
    destruct (lookup_lt_is_Some_2 l (length l - S i)%nat) as [v Hv]; [lia|]. rewrite Hv. cbn. f_equal.
    rewrite <- (H _ _ Hv). apply dword_mod.
    replace (ssp + u32 (sp - 4 * Z.of_nat (length l)) + 4 * Z.of_nat i) with
      (ssp + u32 (sp - 4 * Z.of_nat (length l)) - - (4 * Z.of_nat i)) by lia. rewrite u32_inner. f_equal. lia.
  - rewrite (lookup_ge_None_2 (seq _ _)) by (rewrite length_seq; lia).
    by rewrite (lookup_ge_None_2 (reverse l)) by (rewrite length_reverse; lia).
Qed.

Lemma pops_ok n : forall ssp sp (s : cpu W), is_u32 sp ->
  pops n SzL ssp 0xffffffff sp s =
    Done (map (fun i => dword (mem s) (ssp + sp + 4 * Z.of_nat i)) (seq 0 n), u32 (sp + 4 * Z.of_nat n)) s.
Proof using Type.
  induction n as [|n IH]; intros ssp sp s Hsp; cbn [pops].
  { by rewrite Z.add_0_r, u32_small. }
  rewrite (xbind_done _ _ _ _ _ (pop_ok ssp 0xffffffff sp s)). cbn [snd].
  rewrite (xbind_done _ _ _ _ _ (IH ssp (u32 (sp + 4)) s (u32_range _))). unfold xret, stack_word. cbn [fst snd].
  rewrite <- (u32_small sp) at 1 by done. rewrite mask32, u32_small by done. f_equal. f_equal.
  - cbn [seq map]. f_equal; [f_equal; lia|]. rewrite <- seq_shift, map_map. apply map_ext. intros i. apply dword_mod.
    replace (ssp + u32 (sp + 4) + 4 * Z.of_nat i) with (ssp + u32 (sp + 4) - - (4 * Z.of_nat i)) by lia.
    rewrite u32_inner. f_equal. lia.
  - rewrite u32_add_l. f_equal. lia.
Qed.
End Ram.
