(* ===== verification/X86Trap.v ===== *)
(** The kernel's descriptor tables on the emulated processor: what helper.c
    reads in a descriptor is what the tables of gdt.c and idt.c mean, an interrupt
    taken through them enters its stub with the frame on the stack, and [iret]
    goes back. *)
From S2P Require Import Prelude Segments CcFlags X86 X86Seg X86Int X86Ram.

(** * Descriptors *)

Lemma field_range d lo w : 0 <= w -> 0 <= field_of d lo w < 2 ^ w.
Proof. intros. apply Z.mod_pos_bound. lia. Qed.

Lemma field_split d lo w1 w2 : 0 <= lo -> 0 <= w1 -> 0 <= w2 ->
  field_of d lo (w1 + w2) = field_of d lo w1 + field_of d (lo + w1) w2 * 2 ^ w1.
Proof.
  intros. unfold field_of. rewrite !Z.pow_add_r, <- Z.div_div by lia.
  rewrite Z.rem_mul_r by lia. lia.
Qed.

Lemma field_shift d k lo w : 0 <= k -> 0 <= lo -> field_of (Z.shiftr d k) lo w = field_of d (k + lo) w.
Proof. intros. unfold field_of. by rewrite Z.shiftr_div_pow2, Z.div_div, <- Z.pow_add_r by lia. Qed.

Lemma field_testbit d lo w j : 0 <= lo -> 0 <= j < w -> Z.testbit (field_of d lo w) j = Z.testbit d (lo + j).
Proof.
  intros. unfold field_of. rewrite Z.mod_pow2_bits_low, Z.div_pow2_bits by lia. f_equal. lia.
Qed.
Lemma field_testbit_high d lo w j : 0 <= w <= j -> Z.testbit (field_of d lo w) j = false.
Proof. intros. unfold field_of. apply Z.mod_pow2_bits_high. lia. Qed.

Lemma field_lo d lo w : 0 <= lo -> 0 <= w -> lo + w <= 32 -> field_of (lo_word d) lo w = field_of d lo w.
Proof.
  intros. apply Z.bits_inj'. intros j Hj. destruct (decide (j < w)).
  - rewrite !field_testbit by lia. apply u32_testbit. lia.
  - by rewrite !field_testbit_high by lia.
Qed.

(** A mask of consecutive bits cuts a field out. *)
Lemma land_field x k w : 0 <= k -> 0 <= w -> Z.land x (Z.shiftl (Z.ones w) k) = Z.shiftl (field_of x k w) k.
Proof.
  intros. apply Z.bits_inj'. intros j Hj. rewrite Z.land_spec, !Z.shiftl_spec by lia.
  destruct (decide (j < k)).
  - rewrite !(Z.testbit_neg_r _ (j - k)) by lia. apply andb_false_r.
  - destruct (decide (j - k < w)).
    + rewrite Z.ones_spec_low, field_testbit, andb_true_r by lia. f_equal. lia.
    + rewrite Z.ones_spec_high, field_testbit_high, andb_false_r by lia. done.
Qed.
Lemma land_low_field x w : 0 <= w -> Z.land x (Z.ones w) = field_of x 0 w.
Proof. intros. unfold field_of. by rewrite Z.land_ones, Z.div_1_r by lia. Qed.
Lemma shiftr_field x k w : 0 <= k -> 0 <= w -> Z.land (Z.shiftr x k) (Z.ones w) = field_of x k w.
Proof. intros. rewrite land_low_field by lia. rewrite field_shift by lia. by rewrite Z.add_0_r. Qed.
Lemma has_bit x k : 0 <= k -> has x (2 ^ k) = (field_of x k 1 =? 1).
Proof.
  intros Hk. unfold has. rewrite land_pow2 by lia. unfold field_of.
  pose proof (Z.testbit_spec' x k Hk) as E. change (2 ^ 1) with 2. rewrite <- E.
  assert (0 < 2 ^ k) by lia. destruct (Z.testbit x k); cbn [b2z Z.b2z]; [|done]. rewrite Z.mul_1_l.
  by destruct (Z.eqb_spec (2 ^ k) 0); [lia|].
Qed.

Lemma u32_ones x : u32 x = Z.land x (Z.ones 32).
Proof. by rewrite Z.land_ones by lia. Qed.

Lemma lor_add n a b : 0 <= n -> 0 <= b < 2 ^ n -> Z.lor b (Z.shiftl a n) = b + a * 2 ^ n.
Proof. intros. rewrite Z.lor_comm, lor_shiftl_add by lia. lia. Qed.

(** ** What the helpers read *)

Section Decode.
Variables (d : Z).
Hypothesis Hd : 0 <= d < 2 ^ 64.
Local Abbreviation e1 := (lo_word d).
Local Abbreviation e2 := (hi_word d).

Lemma hi_range : is_u32 e2.
Proof using Hd.
  unfold hi_word, is_u32. rewrite Z.shiftr_div_pow2 by lia.
  split; [apply Z.div_pos; lia|apply Z.div_lt_upper_bound; lia].
Qed.

Lemma hi_field k w : 0 <= k -> field_of e2 k w = field_of d (32 + k) w.
Proof using Type. intros. unfold hi_word. apply field_shift; lia. Qed.

Lemma lo_top : Z.shiftr e1 16 = field_of d 16 16.
Proof using Type.
  rewrite <- (field_lo d 16 16) by lia. unfold field_of. rewrite Z.shiftr_div_pow2 by lia.
  pose proof (u32_range d). rewrite Z.mod_small; [done|]. unfold lo_word, is_u32 in *.
  split; [apply Z.div_pos; lia|apply Z.div_lt_upper_bound; lia].
Qed.
Lemma hi_top k : 0 <= k <= 32 -> Z.land e2 (Z.shiftl (Z.ones (32 - k)) k) = Z.shiftl (field_of d (32 + k) (32 - k)) k.
Proof using Type. intros. rewrite land_field, hi_field by lia. done. Qed.

Lemma base_decode : get_seg_base e1 e2 = sg_base (cpu_segment d).
Proof using Type.
  unfold get_seg_base, cpu_segment. cbn [sg_base]. rewrite lo_top.
  change 0xff000000 with (Z.shiftl (Z.ones (32 - 24)) 24). rewrite hi_top by lia. change (32 - 24) with 8.
  change 0xff with (Z.ones 8). rewrite land_low_field, hi_field by lia. change (32 + 0) with 32. change (32 + 24) with 56.
  pose proof (field_range d 32 8 ltac:(lia)). pose proof (field_range d 16 16 ltac:(lia)).
  rewrite u32_small by (unfold is_u32; rewrite Z.shiftl_mul_pow2; lia).
  rewrite (lor_add 16) by lia. rewrite (lor_add 24) by lia. pose proof (field_split d 16 16 8) as E. change (16 + 8) with 24 in E.
  rewrite E by lia. change (16 + 16) with 32. lia.
Qed.

Lemma limit_decode : get_seg_limit e1 e2 =
  if sg_g (cpu_segment d) =? 1 then 4096 * sg_limit (cpu_segment d) + 4095 else sg_limit (cpu_segment d).
Proof using Type.
  unfold get_seg_limit, cpu_segment. cbn [sg_limit sg_g].
  change 0x000f0000 with (Z.shiftl (Z.ones 4) 16). rewrite land_field, hi_field by lia. change (32 + 16) with 48.
  change 0xffff with (Z.ones 16). rewrite land_low_field, field_lo by lia.
  pose proof (field_range d 48 4 ltac:(lia)). pose proof (field_range d 0 16 ltac:(lia)).
  rewrite (lor_add 16) by lia. change DESC_G_MASK with (2 ^ 23). rewrite has_bit, hi_field by lia. change (32 + 23) with 55.
  destruct (field_of d 55 1 =? 1); [|done].
  rewrite u32_small by (unfold is_u32; rewrite Z.shiftl_mul_pow2; lia). rewrite (lor_shiftl_add 12) by lia. lia.
Qed.

Lemma dpl_decode : dpl_of e2 = sg_dpl (cpu_segment d).
Proof using Type. unfold dpl_of. change 3 with (Z.ones 2). rewrite shiftr_field, hi_field by (unfold DESC_DPL_SHIFT; lia). done. Qed.
Lemma type_decode : Z.land (Z.shiftr e2 DESC_TYPE_SHIFT) 0x1f = sg_type (cpu_segment d).
Proof using Type. change 0x1f with (Z.ones 5). rewrite shiftr_field, hi_field by (unfold DESC_TYPE_SHIFT; lia). done. Qed.
Lemma bit_decode k : 0 <= k -> has e2 (2 ^ k) = (field_of d (32 + k) 1 =? 1).
Proof using Type. intros. by rewrite has_bit, hi_field by lia. Qed.
Lemma present_decode : has e2 DESC_P_MASK = (sg_present (cpu_segment d) =? 1).
Proof using Type. apply (bit_decode 15). lia. Qed.
Lemma sp_mask_decode : get_sp_mask e2 = if sg_db (cpu_segment d) =? 1 then 0xffffffff else 0xffff.
Proof using Type. unfold get_sp_mask. change DESC_B_MASK with (2 ^ 22). by rewrite bit_decode by lia. Qed.

(** A bit of the type. *)
Lemma type_bit k : 0 <= k < 5 -> has e2 (2 ^ (8 + k)) = Z.testbit (sg_type (cpu_segment d)) k.
Proof using Type.
  intros. cbn [sg_type cpu_segment]. rewrite field_testbit by lia. unfold has, hi_word.
  rewrite land_pow2, Z.shiftr_spec by lia. replace (8 + k + 32) with (40 + k) by lia.
  destruct (Z.testbit d (40 + k)); cbn [b2z]; [|done]. rewrite Z.mul_1_l.
  pose proof (Z.pow_pos_nonneg 2 (8 + k)). by destruct (Z.eqb_spec (2 ^ (8 + k)) 0); [lia|].
Qed.

Lemma offset_decode : Z.lor (Z.land e2 0xffff0000) (Z.land e1 0x0000ffff) = gt_offset (cpu_gate d).
Proof using Type.
  cbn [gt_offset cpu_gate]. change 0xffff0000 with (Z.shiftl (Z.ones (32 - 16)) 16). rewrite hi_top by lia.
  change 0xffff with (Z.ones 16). rewrite land_low_field, field_lo by lia. change (32 - 16) with 16. change (32 + 16) with 48.
  pose proof (field_range d 0 16 ltac:(lia)). rewrite lor_shiftl_add by lia. lia.
Qed.
Lemma selector_decode : Z.shiftr e1 16 = gt_sel (cpu_gate d).
Proof using Type. apply lo_top. Qed.
End Decode.

(** * The kernel's tables *)

(** What [gdt_init] leaves in the table. *)
Definition kernel_code : Z := 0x00CF9E000000FFFF.
Definition kernel_data : Z := 0x00CF92000000FFFF.
Lemma gdt_init_table (t : list Segments.gdt) : length t = 8%nat ->
  exists t', gdt_init t = Ok tt t' /\ length t' = 8%nat /\
    map gdt_bits (take 7 t') =
      [0; kernel_code; kernel_data; 0x000F9E000000FFFF; 0x000F92000000FFFF; 0x00CFFE000000FFFF; 0x00CFF2000000FFFF].
Proof.
  intros H. do 8 (destruct t as [|? t]; [discriminate H|]). destruct t; [|discriminate H].
  eexists. split; [reflexivity|]. split; reflexivity.
Qed.

Section Trap.
Context {W : Type} `{!Bus W} `{!Ram W}.

(** The processor in protected mode with the kernel's tables in memory, on a
    32-bit stack and not in virtual 8086 mode. *)
Record kernel_cpu (gates : list Z) (s : cpu W) : Prop := KernelCpu {
  kc_pe : has (cr0 s) CR0_PE_MASK = true;
  kc_vm : has (eflags s) VM_MASK = false;
  kc_ss : has (sc_flags (seg R_SS s)) DESC_B_MASK = true;
  kc_sp : is_u32 (ESP s);
  kc_gdt : desc_at (mem s) (sc_base (gdt s) + 8) kernel_code;
  kc_gdt_limit : 63 <= sc_limit (gdt s) < 2 ^ 32;
  kc_idt : in_memory (mem s) (sc_base (idt s)) gates;
  kc_idt_limit : 2047 <= sc_limit (idt s) < 2 ^ 32
}.

(** A gate of [idt_init]. *)
Lemma gate_words d stub : cpu_gate d = Gate stub 8 14 0 1 ->
  Z.shiftr (lo_word d) 16 = 8 /\ Z.lor (Z.land (hi_word d) 0xffff0000) (Z.land (lo_word d) 0x0000ffff) = stub /\
  Z.land (Z.shiftr (hi_word d) DESC_TYPE_SHIFT) 0x1f = 14 /\ dpl_of (hi_word d) = 0 /\ has (hi_word d) DESC_P_MASK = true.
Proof using Type.
  intros E. split; [|split; [|split; [|split]]].
  - by rewrite selector_decode, E.
  - by rewrite offset_decode, E.
  - rewrite type_decode. change (sg_type (cpu_segment d)) with (gt_type (cpu_gate d)). by rewrite E.
  - rewrite dpl_decode. change (sg_dpl (cpu_segment d)) with (gt_dpl (cpu_gate d)). by rewrite E.
  - rewrite present_decode. change (sg_present (cpu_segment d)) with (gt_present (cpu_gate d)). by rewrite E.
Qed.

(** The code segment of the gates. *)
Lemma gate_code_ok cpl (s : cpu W) : 0 <= cpl -> desc_at (mem s) (sc_base (gdt s) + 8) kernel_code ->
  63 <= sc_limit (gdt s) < 2 ^ 32 -> gate_code 8 cpl s = Done (lo_word kernel_code, hi_word kernel_code) s.
Proof using Type.
  intros Hc Hd Hl. unfold gate_code. rewrite xbind_pass by done. unfold load_or_raise. rewrite xbind_assoc.
  rewrite (xbind_done _ _ _ _ _ (load_segment_ok 8 s kernel_code eq_refl ltac:(change (sel_index 8) with 8; lia) ltac:(done) Hd)).
  xsteps. rewrite xbind_pass by done. rewrite xbind_pass; [|by apply Z.ltb_ge]. by rewrite xbind_pass.
Qed.

(** The state an interrupt leaves: in the stub, with the frame on the stack and
    interrupts off, at the privilege of the interrupted code. *)
Record entered (s : cpu W) (stub : Z) (words : list Z) (s' : cpu W) : Prop := Entered {
  en_eip : eip s' = stub;
  en_esp : ESP s' = u32 (ESP s - 4 * Z.of_nat (length words));
  en_cs : seg R_CS s' = Sc (Z.lor 8 (cpl_of s)) 0 0xffffffff (hi_word kernel_code);
  en_regs : forall v, regs (set_esp v s') = regs (set_esp v s);
  en_segs : forall r, r <> R_CS -> seg r s' = seg r s;
  en_cpl : cpl_of s' = cpl_of s;
  en_32 : has (hflags s') HF_CS64_MASK = false;
  en_eflags : eflags s' =
    without (without (eflags s) IF_MASK) (Z.lor TF_MASK (Z.lor VM_MASK (Z.lor RF_MASK NT_MASK)));
  en_dts : dts s' = dts s;
  en_crs : crs s' = crs s;
  en_frame : pushed (mem s') (sc_base (seg R_SS s)) (ESP s) words;
  en_mem : forall b, clear_of (sc_base (seg R_SS s)) (ESP s) (length words) b -> dword (mem s') b = dword (mem s) b
}.

Lemma cpl_range (s : cpu W) : 0 <= cpl_of s < 4.
Proof using Type. unfold cpl_of, HF_CPL_MASK. change 3 with (Z.ones 2). rewrite Z.land_ones by lia. by apply Z.mod_pos_bound. Qed.

Lemma cpl_set h c : 0 <= c < 4 -> Z.land (Z.lor (without h HF_CPL_MASK) c) HF_CPL_MASK = c.
Proof using Type.
  intros Hc. unfold without. rewrite Z.land_lor_distr_l, <- Z.land_assoc.
  change (Z.land (u32 (Z.lnot HF_CPL_MASK)) HF_CPL_MASK) with 0. rewrite Z.land_0_r, Z.lor_0_l.
  change HF_CPL_MASK with (Z.ones 2). rewrite Z.land_ones by lia. by apply Z.mod_small.
Qed.

Lemma has_lor a b m : has (Z.lor a b) m = has a m || has b m.
Proof using Type.
  unfold has. rewrite Z.land_lor_distr_l. pose proof (Z.lor_eq_0_iff (Z.land a m) (Z.land b m)) as H.
  destruct (Z.eqb_spec (Z.land a m) 0), (Z.eqb_spec (Z.land b m) 0), (Z.eqb_spec (Z.lor (Z.land a m) (Z.land b m)) 0); tauto.
Qed.
Lemma has_land a b m : Z.land b m = 0 -> has (Z.land a b) m = false.
Proof using Type. intros H. unfold has. by rewrite <- Z.land_assoc, H, Z.land_0_r. Qed.
Lemma has_without x m b : has x b = false -> has (without x m) b = false.
Proof using Type.
  unfold has, without. intros H%negb_false_iff%Z.eqb_eq. by rewrite <- Z.land_assoc, (Z.land_comm _ b), Z.land_assoc, H.
Qed.
Lemma has_shiftr x m k b : 0 <= k -> Z.land (Z.shiftr m k) b = 0 -> has (Z.shiftr (Z.land x m) k) b = false.
Proof using Type. intros Hk H. rewrite Z.shiftr_land. by apply has_land. Qed.
Lemma has_small c k : 0 <= c < 2 ^ k -> 0 <= k -> has c (2 ^ k) = false.
Proof using Type. intros Hc Hk. rewrite has_bit by lia. unfold field_of. by rewrite Z.div_small by lia. Qed.
Lemma has_addseg (s : cpu W) : has (addseg_of s) HF_CS64_MASK = false.
Proof using Type.
  unfold addseg_of. repeat (case_match; try done).
  match goal with |- context [b2z ?b] => by destruct b end.
Qed.
Lemma cpl_addseg (s : cpu W) : Z.land (addseg_of s) HF_CPL_MASK = 0.
Proof using Type. unfold addseg_of. repeat (case_match; try done). match goal with |- context [b2z ?b] => by destruct b end. Qed.
Lemma cpl_without h m : Z.land m HF_CPL_MASK = 0 -> Z.land (without h m) HF_CPL_MASK = Z.land h HF_CPL_MASK.
Proof using Type.
  intros Hm. unfold without. rewrite <- Z.land_assoc, u32_ones, <- Z.land_assoc.
  f_equal. change HF_CPL_MASK with (Z.ones 2) in *. change (Z.land (Z.ones 32) (Z.ones 2)) with (Z.ones 2).
  rewrite Z.land_comm, <- Z.ldiff_land. apply Z.bits_inj'. intros j Hj. rewrite Z.ldiff_spec.
  pose proof (f_equal (fun x => Z.testbit x j) Hm) as Hb. cbn beta in Hb. rewrite Z.land_spec, Z.testbit_0_l in Hb.
  by destruct (Z.testbit m j), (Z.testbit (Z.ones 2) j).
Qed.
(** Loading the code segment leaves 64-bit mode off. *)
Lemma load_cs_32 selector base limit flags (s : cpu W) : exists h,
  cpu_x86_load_seg_cache R_CS selector base limit flags s = Done tt (set_hflags h (set_cs (Sc selector base limit flags) s)) /\
  has h HF_CS64_MASK = false /\ Z.land h HF_CPL_MASK = cpl_of s.
Proof using Type.
  unfold cpu_x86_load_seg_cache. xsteps. rewrite bool_decide_true by done. xsteps.
  eexists. split; [unfold xmod; reflexivity|]. split.
  - rewrite !has_lor, has_addseg, has_without, has_shiftr; [done..|].
    cbn [set_seg set_cs set_hflags fl f_hflags]. rewrite has_lor, has_shiftr by done. unfold without. by rewrite has_land.
  - unfold cpl_of. rewrite !Z.land_lor_distr_l, cpl_addseg. rewrite !cpl_without by done.
    cbn [set_seg set_cs set_hflags fl f_hflags]. rewrite !Z.land_lor_distr_l, cpl_without by done.
    rewrite !Z.shiftr_land, <- !Z.land_assoc. cbn [Z.shiftr]. change (Z.land (Z.shiftr DESC_B_MASK _) HF_CPL_MASK) with 0.
    by rewrite !Z.land_0_r, !Z.lor_0_r.
Qed.

End Trap.

(** [load_cs] takes the step of a load of the code segment. *)
Ltac load_cs h E H64 Hcpl :=
  match goal with |- context [xbind (cpu_x86_load_seg_cache R_CS ?a ?b ?c ?d) _ ?st] =>
    destruct (load_cs_32 a b c d st) as (h & E & H64 & Hcpl); rewrite (xbind_done _ _ _ _ _ E) end.

Section Entry.
Context {W : Type} `{!Bus W} `{!Ram W}.

Lemma entry_if e : has (without (without e IF_MASK) (Z.lor TF_MASK (Z.lor VM_MASK (Z.lor RF_MASK NT_MASK)))) IF_MASK = false.
Proof using Type.
  unfold has, without. rewrite <- !Z.land_assoc.
  change (Z.land (u32 (Z.lnot IF_MASK)) (Z.land _ IF_MASK)) with 0. by rewrite Z.land_0_r.
Qed.

Lemma set_esp_full e x : Z.lor (without e 0xffffffff) (Z.land (u32 x) 0xffffffff) = u32 x.
Proof using Type.
  unfold without. change (u32 (Z.lnot 0xffffffff)) with 0. by rewrite Z.land_0_r, Z.lor_0_l, mask32.
Qed.

Definition trap_words (v err is_hw efl : Z) (s : cpu W) : list Z :=
  [efl; sc_selector (seg R_CS s); eip s] ++ (if has_error_code v 0 is_hw then [err] else []).

Lemma do_interrupt_kernel gates (s : cpu W) v d stub efl err is_hw :
  kernel_cpu gates s -> 0 <= v < 256 -> gates !! Z.to_nat v = Some d -> cpu_gate d = Gate stub 8 14 0 1 ->
  compute_eflags s = Done efl s ->
  exists s', do_interrupt v 0 err 0 is_hw s = Done tt s' /\ entered s stub (trap_words v err is_hw efl s) s'.
Proof using Type.
  intros [Hpe Hvm Hss Hsp Hgdt Hgl Hidt Hil] Hv Hd Hg Hefl.
  destruct (gate_words d stub Hg) as (Hsel & Hoff & Hty & Hdpl & Hp).
  destruct (Hidt _ _ Hd) as [E1 E2]. rewrite Z2Nat.id in E1, E2 by lia.
  unfold do_interrupt. xsteps. rewrite Hpe. unfold do_interrupt_protected. xsteps.
  rewrite xbind_pass by (rewrite u32_small by (unfold is_u32; lia); apply Z.ltb_ge; lia).
  rewrite (xbind_done _ _ _ _ _ (ldl_ok _ s)), (xbind_done _ _ _ _ _ (ldl_ok _ s)).
  rewrite dword_u32, dword_u32_add, !(Z.mul_comm v 8), E1, E2, Hty.
  change (14 =? 5) with false. change (negb (bool_decide (14 ∈ [6; 7; 14; 15]))) with false. cbv iota.
  rewrite xbind_pass by done. rewrite xbind_pass by (by rewrite Hp). rewrite Hsel, Hoff. pose proof (cpl_range s) as Hc.
  rewrite (xbind_done _ _ _ _ _ (gate_code_ok (cpl_of s) s ltac:(lia) Hgdt Hgl)).
  unfold int_stack. change (has (hi_word kernel_code) DESC_C_MASK) with true. cbn [negb andb orb]. xsteps.
  rewrite xbind_pass by done. xsteps. unfold get_sp_mask. rewrite Hss.
  rewrite (xbind_done _ _ _ _ _ Hefl). xsteps. cbn [ts_base ts_mask ts_esp ts_new ts_dpl].
  change (slot (Z.shiftr 14 3)) with SzL.
  change (frame _ _ _ _ _ _) with (trap_words v err is_hw efl s).
  destruct (pushes_ok (trap_words v err is_hw efl s) (sc_base (seg R_SS s)) (ESP s) s) as (m & E & Hi & Hm);
    [unfold trap_words; destruct (has_error_code v 0 is_hw); cbn; lia|done|].
  rewrite (xbind_done _ _ _ _ _ E). change (bool_decide (is_Some None)) with false. cbn [andb]. xsteps.
  unfold load_new_ss, SET_ESP. cbn [ts_new]. xsteps. load_cs h E3 H64 Hcpl. xsteps. eexists. split; [reflexivity|]. split; try reflexivity.
  - apply set_esp_full.
  - by intros [] Hr.
  - apply (cpl_set _ _ Hc).
  - cbn [fl f_hflags set_hflags set_eip set_eflags]. rewrite has_lor, has_without by done. by apply (has_small _ 15); [lia|].
  - exact Hi.
  - exact Hm.
Qed.

(** * The stubs of isr.s *)

(** The words the stub of vector [v] pushes, and the ones of [isr_handler] after
    them: [pusha] and the segment registers. *)
Definition stub_words (v : Z) : list Z := if bool_decide (v ∈ [8; 10; 11; 12; 13; 14; 17]) then [v] else [0; v].
Definition handler_words (sp : Z) (s : cpu W) : list Z :=
  [EAX s; ECX s; EDX s; EBX s; sp; EBP s; ESI s; EDI s] ++ map (fun r => sc_selector (seg r s)) [R_SS; R_DS; R_ES; R_FS; R_GS].
(** The pushes up to [gs], which complete [struct Register]; the loads of the data
    segments with 0x10, the push of the stack pointer as the argument and the call that
    follow are not modelled, nor are they undone (X86Ret pops from the same place). *)
Definition isr_prologue (v : Z) : X W unit :=
  s <- xget ;;
  let ssp := sc_base (seg R_SS s) in
  let mask := get_sp_mask (sc_flags (seg R_SS s)) in
  sp <- pushes SzL ssp mask (ESP s) (stub_words v) ;;
  sp <- pushes SzL ssp mask sp (handler_words sp s) ;;
  SET_ESP sp mask.

(** [struct Register] at an address, up to [eflags]. *)
Definition register_at (m : W) (a : Z) : list Z := map (fun i => dword m (a + 4 * Z.of_nat i)) (seq 0 18).

Lemma isr_prologue_ok v (s : cpu W) : has (sc_flags (seg R_SS s)) DESC_B_MASK = true -> is_u32 (ESP s) ->
  let sp := u32 (ESP s - 4 * Z.of_nat (length (stub_words v))) in
  let l := stub_words v ++ handler_words sp s in
  exists m, isr_prologue v s = Done tt (set_esp (u32 (ESP s - 4 * Z.of_nat (length l))) (set_mem m s)) /\
    pushed m (sc_base (seg R_SS s)) (ESP s) l /\
    (forall b, clear_of (sc_base (seg R_SS s)) (ESP s) (length l) b -> dword m b = dword (mem s) b).
Proof using Type.
  intros Hb Hsp sp l. unfold isr_prologue. xsteps. unfold get_sp_mask. rewrite Hb.
  assert (length (stub_words v) <= 2)%nat as Hl by (unfold stub_words; case_bool_decide; cbn; lia).
  destruct (pushes_ok (stub_words v) (sc_base (seg R_SS s)) (ESP s) s ltac:(lia) Hsp) as (m1 & E1 & P1 & M1).
  rewrite (xbind_done _ _ _ _ _ E1). fold sp.
  destruct (pushes_ok (handler_words sp s) (sc_base (seg R_SS s)) sp (set_mem m1 s)) as (m2 & E2 & P2 & M2);
    [cbn; lia|apply u32_range|].
  rewrite (xbind_done _ _ _ _ _ E2). exists m2. split; [|split].
  - unfold SET_ESP, xmod. rewrite set_esp_full. do 2 f_equal. unfold sp, l. rewrite length_app.
    rewrite u32_sub_l. change (length (handler_words _ s)) with 13%nat. f_equal. lia.
  - apply (pushed_app m1); [change (length (handler_words sp s)) with 13%nat; lia|done|done|done].
  - intros b H. rewrite M2.
    + apply M1. intros i Hi. apply H. unfold l. rewrite length_app. lia.
    + intros i Hi. eapply apart_mod; [symmetry; apply slot_after|]. apply H. unfold l. rewrite length_app. lia.
Qed.

Lemma stub_error_code v is_hw : is_hw = 0 \/ 18 <= v ->
  has_error_code v 0 is_hw = bool_decide (v ∈ [8; 10; 11; 12; 13; 14; 17]).
Proof using Type.
  intros [->|Hv]; [done|]. unfold has_error_code. cbn [Z.eqb]. rewrite (bool_decide_false (v ∈ _)); [by rewrite andb_false_r|].
  rewrite !elem_of_cons, elem_of_nil. lia.
Qed.

(** The words of the frame and of the stub, downwards. *)
Lemma register_words (s : cpu W) stub v err is_hw efl s1 :
  entered s stub (trap_words v err is_hw efl s) s1 ->
  has_error_code v 0 is_hw = bool_decide (v ∈ [8; 10; 11; 12; 13; 14; 17]) ->
  map u32 (reverse (trap_words v err is_hw efl s ++ stub_words v ++
                    handler_words (u32 (ESP s1 - 4 * Z.of_nat (length (stub_words v)))) s1)) =
  map u32 (map (fun r => sc_selector (seg r s)) [R_GS; R_FS; R_ES; R_DS; R_SS] ++
           [EDI s; ESI s; EBP s; ESP s - 20; EBX s; EDX s; ECX s; EAX s;
            v; if has_error_code v 0 is_hw then err else 0; eip s; sc_selector (seg R_CS s); efl]).
Proof using Type.
  intros En Hec. pose proof (en_regs _ _ _ _ En 0) as Hr. injection Hr as Ra Rc Rd Rb Rp Rs Ri.
  unfold handler_words. rewrite Ra, Rc, Rd, Rb, Rp, Rs, Ri. rewrite (en_esp _ _ _ _ En).
  cbn [map]. rewrite !(en_segs _ _ _ _ En) by done. unfold trap_words, stub_words. rewrite Hec.
  case_bool_decide; cbn [app length reverse rev_append map]; rewrite u32_sub_l, u32_u32; do 9 f_equal; f_equal; lia.
Qed.

Definition whole_frame (v err is_hw efl : Z) (s s1 : cpu W) : list Z :=
  trap_words v err is_hw efl s ++ stub_words v ++ handler_words (u32 (ESP s1 - 4 * Z.of_nat (length (stub_words v)))) s1.
Lemma frame_length v err is_hw efl s s1 : is_hw = 0 \/ 18 <= v -> length (whole_frame v err is_hw efl s s1) = 18%nat.
Proof using Type.
  intros H. unfold whole_frame, trap_words, stub_words. rewrite (stub_error_code v is_hw H). by case_bool_decide.
Qed.

(** The stub after an interrupt: the whole frame is on the stack. *)
Lemma prologue_frame (s : cpu W) stub v err is_hw efl s1 :
  has (sc_flags (seg R_SS s)) DESC_B_MASK = true -> entered s stub (trap_words v err is_hw efl s) s1 ->
  is_hw = 0 \/ 18 <= v ->
  exists m, isr_prologue v s1 = Done tt (set_esp (u32 (ESP s - 72)) (set_mem m s1)) /\
    pushed m (sc_base (seg R_SS s)) (ESP s) (whole_frame v err is_hw efl s s1).
Proof using Type.
  intros Hb En Hhw. pose proof (en_segs _ _ _ _ En R_SS ltac:(done)) as Hss.
  destruct (isr_prologue_ok v s1) as (m & E & P & M); [by rewrite Hss|rewrite (en_esp _ _ _ _ En); apply u32_range|].
  pose proof (frame_length v err is_hw efl s s1 Hhw) as Hlen. unfold whole_frame in *. exists m.
  set (l2 := stub_words v ++ _) in *. set (l1 := trap_words v err is_hw efl s) in *.
  rewrite Hss, (en_esp _ _ _ _ En) in P, M. rewrite (en_esp _ _ _ _ En) in E. split.
  - rewrite E, u32_sub_l. rewrite length_app in Hlen. do 3 f_equal. lia.
  - apply (pushed_app (mem s1)); [rewrite <- length_app; lia|apply En|exact P|exact M].
Qed.
End Entry.

(** The gate of a vector after [idt_init]. *)
Lemma gate_of isr isr_invalid isr_syscall t t' v :
  length t = 256%nat -> (forall v, is_u32 (isr v)) -> is_u32 isr_invalid -> is_u32 isr_syscall ->
  idt_init isr isr_invalid isr_syscall t = Ok tt t' -> 0 <= v < 255 ->
  exists d, map idt_bits_of t' !! Z.to_nat v = Some d /\
    cpu_gate d = Gate (if decide (Z.to_nat v < 48)%nat then isr (Z.of_nat (Z.to_nat v))
                       else if decide (Z.to_nat v = 128)%nat then isr_syscall else isr_invalid) 8 14 0 1.
Proof.
  intros Hl Hisr Hinv Hsys E Hv. destruct (idt_init_gates isr isr_invalid isr_syscall t Hl Hisr Hinv Hsys) as (s' & E' & _ & H).
  rewrite E in E'. injection E' as <-. destruct (H (Z.to_nat v) ltac:(lia)) as (e & He & Hg).
  exists (idt_bits_of e). split; [|done]. by rewrite list_lookup_fmap, He.
Qed.

(** C8: an exception or a hardware interrupt of the kernel's tables, run by the
    emulated processor up to the call of [isr_entry] in the stub: the structure
    [Register] is on the stack of the interrupted code, 18 words below its stack
    pointer, whether the processor pushed an error code or the stub did.  It
    holds the vector, the error code (0 when there is none), and the registers,
    flags and instruction pointer interrupted. *)
Theorem interrupt_builds_register {W} `{!Bus W} `{!Ram W} isr isr_invalid isr_syscall t t' (s : cpu W) v efl err is_hw :
  length t = 256%nat -> (forall v, is_u32 (isr v)) -> is_u32 isr_invalid -> is_u32 isr_syscall ->
  idt_init isr isr_invalid isr_syscall t = Ok tt t' ->
  kernel_cpu (map idt_bits_of t') s -> 0 <= v < 48 -> compute_eflags s = Done efl s -> is_hw = 0 \/ 18 <= v ->
  exists s1 s', do_interrupt v 0 err 0 is_hw s = Done tt s1 /\ eip s1 = isr v /\ has (eflags s1) IF_MASK = false /\
    isr_prologue v s1 = Done tt s' /\ ESP s' = u32 (ESP s - 72) /\
    register_at (mem s') (sc_base (seg R_SS s) + ESP s') =
      map u32 (map (fun r => sc_selector (seg r s)) [R_GS; R_FS; R_ES; R_DS; R_SS] ++
               [EDI s; ESI s; EBP s; ESP s - 20; EBX s; EDX s; ECX s; EAX s;
                v; if has_error_code v 0 is_hw then err else 0; eip s; sc_selector (seg R_CS s); efl]).
Proof.
  intros Hlt Hisr Hinv Hsys Hinit Hk Hv Hefl Hhw.
  destruct (gate_of _ _ _ _ _ v Hlt Hisr Hinv Hsys Hinit ltac:(lia)) as (d & Hd & Hg).
  rewrite decide_True in Hg by lia. rewrite Z2Nat.id in Hg by lia.
  destruct (do_interrupt_kernel _ s v d (isr v) efl err is_hw Hk ltac:(lia) Hd Hg Hefl) as (s1 & E1 & En).
  destruct (prologue_frame s (isr v) v err is_hw efl s1) as (m & E & Hp); [apply Hk|done|done|].
  exists s1. eexists. split; [done|]. split; [by apply En|]. split; [rewrite (en_eflags _ _ _ _ En); apply entry_if|].
  split; [exact E|]. split; [done|]. unfold register_at. cbn [ESP regs set_esp r_esp].
  pose proof (pushed_read _ _ _ _ Hp) as Hr. rewrite (frame_length _ _ _ _ _ _ Hhw) in Hr.
  etransitivity; [exact Hr|]. apply (register_words _ _ _ _ _ _ _ En (stub_error_code v is_hw Hhw)).
Qed.

(** A machine with the kernel's tables. *)
Definition demo_isr (v : Z) : Z := 0x5000 + 16 * (v mod 256).
Definition demo_gates : list Segments.idt :=
  match idt_init demo_isr 0x6000 0x6010 (replicate 256 (Idt 0 0 0 0 0 0 0 0 0)) with Ok _ t => t | Err _ => [] end.
Definition demo_descs : list Z := Eval vm_compute in map idt_bits_of demo_gates.
Definition table_byte (base : Z) (l : list Z) (a : Z) : Z :=
  u8 (Z.shiftr (nth (Z.to_nat ((a - base) / 8)) l 0) (8 * ((a - base) mod 8))).
Definition demo_mem : flat := fun a =>
  if a <? 0x2000 then table_byte 0x1000 [0; kernel_code; kernel_data] a else table_byte 0x2000 demo_descs a.
Definition demo_cpu : cpu flat :=
  Cpu (Gregs 1 2 3 4 0x9000 6 7 8) 0x7000 (Fl 0x202 0x40 0 1 1 0x30)
    (Segs (Sc 16 0 0xffffffff 0xCF9300) (Sc 8 0 0xffffffff 0xCF9E00) (Sc 16 0 0xffffffff 0xCF9300)
          (Sc 16 0 0xffffffff 0xCF9300) (Sc 16 0 0xffffffff 0xCF9300) (Sc 16 0 0xffffffff 0xCF9300))
    (Dts (Sc 0 0 0 0) (Sc 0 0 0 0) (Sc 0 0x1000 63 0) (Sc 0 0x2000 2047 0)) (Crs 1 0 0 0) (Exn 0 0 0 0) (Tmps 0 0 0) demo_mem.
Lemma demo_kernel_cpu : kernel_cpu (map idt_bits_of demo_gates) demo_cpu.
Proof.
  split; [reflexivity|reflexivity|reflexivity|cbn; unfold is_u32; lia|split; vm_compute; reflexivity|cbn; lia| |cbn; lia].
  apply in_memoryb_ok. vm_compute. reflexivity.
Qed.

Lemma interrupt_builds_register_witness :
  exists s1 s', do_interrupt 14 0 2 0 0 demo_cpu = Done tt s1 /\ eip s1 = 0x50E0 /\ has (eflags s1) IF_MASK = false /\
    isr_prologue 14 s1 = Done tt s' /\ ESP s' = 0x9000 - 72 /\
    register_at (mem s') (ESP s') = [16; 16; 16; 16; 16; 8; 7; 6; 0x9000 - 20; 4; 3; 2; 1; 14; 2; 0x7000; 8; 0x242].
Proof.
  apply (interrupt_builds_register demo_isr 0x6000 0x6010 (replicate 256 (Idt 0 0 0 0 0 0 0 0 0)) demo_gates demo_cpu 14 0x242 2 0).
  - reflexivity.
  - intros v. unfold is_u32, demo_isr. pose proof (Z.mod_pos_bound v 256). lia.
  - unfold is_u32. lia.
  - unfold is_u32. lia.
  - vm_compute. reflexivity.
  - exact demo_kernel_cpu.
  - lia.
  - reflexivity.
  - left. reflexivity.
Defined.
