(* ===== verification/X86Ret.v ===== *)
(** Leaving interrupt handlers on the emulated processor: [iret] with the
    kernel's tables takes the interrupted code up again, with its flags.  The
    system call gate refuses programs of an outer privilege, and [gdt_load]
    makes the flat segments of the kernel. *)
From S2P Require Import Prelude Segments CcFlags X86 X86Seg X86Int X86Ram X86Trap.

(** * The flags *)

(** The arithmetic flags, and the flags an [iret] at privilege 0 changes. *)
Definition CC_MASK : Z := Z.lor (Z.lor (Z.lor (Z.lor (Z.lor CC_O CC_S) CC_Z) CC_A) CC_P) CC_C.
Definition FL_MASK : Z :=
  Z.lor (Z.lor (Z.lor TF_MASK (Z.lor AC_MASK (Z.lor ID_MASK (Z.lor RF_MASK NT_MASK)))) IOPL_MASK) IF_MASK.

Lemma split_flags e : is_u32 e -> Z.lor (without e FL_MASK) (Z.land e FL_MASK) = e.
Proof.
  intros He. unfold without. rewrite <- Z.land_lor_distr_r.
  change (Z.lor (u32 (Z.lnot FL_MASK)) FL_MASK) with (Z.ones 32). rewrite Z.land_ones by lia. by apply u32_small.
Qed.

(** Flags put together from the lazy ones, the direction and the rest come
    apart again. *)
Lemma flags_restored e e2 f df : is_u32 e -> Z.land e CC_MASK = 0 -> Z.land e DF_MASK = 0 -> Z.land f CC_MASK = f ->
  df = 1 \/ df = -1 -> without e2 FL_MASK = without e FL_MASK ->
  let E := Z.lor (Z.lor e f) (Z.land df DF_MASK) in
  Z.lor (Z.lor (Z.lor (without e2 FL_MASK) (Z.land E FL_MASK)) (Z.land E CC_MASK))
    (Z.land (1 - 2 * Z.land (Z.shiftr E 10) 1) DF_MASK) = E.
Proof.
  intros He Hc Hd Hf Hdf -> E.
  assert (Z.land E FL_MASK = Z.land e FL_MASK) as ->.
  { unfold E. rewrite !Z.land_lor_distr_l, <- Hf, <- !Z.land_assoc. change (Z.land CC_MASK FL_MASK) with 0.
    change (Z.land DF_MASK FL_MASK) with 0. by rewrite !Z.land_0_r, !Z.lor_0_r. }
  assert (Z.land E CC_MASK = f) as ->.
  { unfold E. rewrite !Z.land_lor_distr_l, Hc, Hf, <- !Z.land_assoc. change (Z.land DF_MASK CC_MASK) with 0.
    by rewrite Z.land_0_r, Z.lor_0_r. }
  rewrite split_flags by done. f_equal.
  assert (Z.land E DF_MASK = Z.land df DF_MASK) as Hed.
  { unfold E. rewrite !Z.land_lor_distr_l, Hd, <- Hf, <- !Z.land_assoc. change (Z.land CC_MASK DF_MASK) with 0.
    by rewrite Z.land_0_r. }
  assert (Z.land (Z.shiftr E 10) 1 = Z.shiftr (Z.land E DF_MASK) 10) as -> by (by rewrite Z.shiftr_land).
  rewrite Hed. by destruct Hdf as [-> | ->].
Qed.

Lemma cc_small x : s32 (Z.land x CC_MASK) = Z.land x CC_MASK.
Proof.
  apply s32_small. change CC_MASK with (Z.land CC_MASK (Z.ones 12)). rewrite Z.land_assoc, Z.land_ones by lia.
  pose proof (Z.mod_pos_bound (Z.land x CC_MASK) (2 ^ 12)). unfold is_s32. lia.
Qed.

Lemma efl_u32 e f df : Z.land f CC_MASK = f -> is_u32 e -> df = 1 \/ df = -1 ->
  u32 (Z.lor (Z.lor e f) (Z.land df DF_MASK)) = Z.lor (Z.lor e f) (Z.land df DF_MASK).
Proof.
  intros Hf Hu Hdf.
  rewrite u32_ones, !Z.land_lor_distr_l, <- !u32_ones, (u32_small _ Hu). f_equal; [f_equal|by destruct Hdf as [-> | ->]].
  rewrite <- Hf at 2. rewrite <- Hf at 1. rewrite u32_ones, <- Z.land_assoc. done.
Qed.

Section Ret.
Context {W : Type} `{!Bus W} `{!Ram W}.

(** The flags of the processor are apart: the arithmetic ones in [CC_OP],
    the direction in [DF], the others in [eflags]. *)
Record flags_ok (s : cpu W) : Prop := FlagsOk {
  fo_cc : exists t, cc_table (CC_OP s) = Some t /\
    Z.land (compute_all t (CC_SRC s) (CC_DST s)) CC_MASK = compute_all t (CC_SRC s) (CC_DST s);
  fo_u32 : is_u32 (eflags s);
  fo_arith : Z.land (eflags s) CC_MASK = 0;
  fo_dir : Z.land (eflags s) DF_MASK = 0;
  fo_df : DF s = 1 \/ DF s = -1
}.

Lemma compute_eflags_ok (s : cpu W) : flags_ok s ->
  exists f, Z.land f CC_MASK = f /\ compute_eflags s = Done (Z.lor (Z.lor (eflags s) f) (Z.land (DF s) DF_MASK)) s.
Proof using Type.
  intros [(t & Ht & Hf) Hu _ _ Hdf]. exists (compute_all t (CC_SRC s) (CC_DST s)). split; [done|].
  unfold compute_eflags, cc_all. xsteps. rewrite Ht. xsteps. unfold xret. f_equal. by apply efl_u32.
Qed.

(** What the handler leaves for [iret]: the stack pointer back at the frame,
    the frame and the descriptor of the code segment as they were, and of the
    flags only those that [iret] loads changed. *)
Record before_iret (s s2 : cpu W) (efl : Z) : Prop := BeforeIret {
  bi_esp : ESP s2 = u32 (ESP s - 12);
  bi_ss : seg R_SS s2 = seg R_SS s;
  bi_frame : pushed (mem s2) (sc_base (seg R_SS s)) (ESP s) [efl; sc_selector (seg R_CS s); eip s];
  bi_gdt : desc_at (mem s2) (sc_base (gdt s2) + 8) kernel_code;
  bi_limit : 63 <= sc_limit (gdt s2) < 2 ^ 32;
  bi_cpl : cpl_of s2 = 0;
  bi_32 : has (hflags s2) HF_CS64_MASK = false;
  bi_nt : has (eflags s2) NT_MASK = false;
  bi_flags : without (eflags s2) FL_MASK = without (eflags s) FL_MASK
}.

Lemma return_code_ok (s : cpu W) : desc_at (mem s) (sc_base (gdt s) + 8) kernel_code ->
  63 <= sc_limit (gdt s) < 2 ^ 32 -> return_code 8 0 s = Done (lo_word kernel_code, hi_word kernel_code) s.
Proof using Type.
  intros Hd Hl. unfold return_code. rewrite xbind_pass by done. unfold load_or_raise. rewrite xbind_assoc.
  rewrite (xbind_done _ _ _ _ _ (load_segment_ok 8 s kernel_code eq_refl ltac:(change (sel_index 8) with 8; lia) ltac:(done) Hd)).
  xsteps. rewrite !xbind_pass by done. change (has (hi_word kernel_code) DESC_C_MASK) with true. cbv iota.
  by rewrite !xbind_pass by done.
Qed.

Lemma iret_mask_kernel (s : cpu W) : iret_mask 1 0 s = FL_MASK.
Proof using Type.
  unfold iret_mask. rewrite (proj2 (Z.leb_le 0 _)); [done|]. apply Z.land_nonneg. right. done.
Qed.

Lemma iret_resumes (s s2 : cpu W) efl n : has (sc_flags (seg R_SS s)) DESC_B_MASK = true -> is_u32 (ESP s) ->
  sc_selector (seg R_CS s) = 8 -> is_u32 efl -> has efl VM_MASK = false -> before_iret s s2 efl ->
  exists s3, helper_iret_protected 1 n s2 = Done tt s3 /\ eip s3 = u32 (eip s) /\ ESP s3 = ESP s /\
    seg R_CS s3 = Sc 8 0 0xffffffff (hi_word kernel_code) /\ mem s3 = mem s2 /\
    CC_SRC s3 = Z.land efl CC_MASK /\ DF s3 = 1 - 2 * Z.land (Z.shiftr efl 10) 1 /\
    eflags s3 = Z.lor (without (eflags s2) FL_MASK) (Z.land efl FL_MASK).
Proof using Type.
  intros Hb Hsp Hcs Hefl Hvm [Hesp Hss Hfr Hgdt Hlim Hcpl H64 Hnt _].
  unfold helper_iret_protected. xsteps. rewrite Hnt. unfold helper_ret_protected. xsteps.
  unfold get_sp_mask. rewrite Hss, Hb. change (if negb (1 =? 0) then 3%nat else 2%nat) with 3%nat. change (slot 1) with SzL.
  rewrite Hesp, (xbind_done _ _ _ _ _ (pops_ok 3 _ _ s2 (u32_range _))).
  pose proof (pushed_read _ _ _ _ Hfr) as Hr. change (length _) with 3%nat in Hr. change (4 * Z.of_nat 3) with 12 in *.
  rewrite Hr. cbn [reverse rev_append map fst snd nth_pop nth]. rewrite Hcs, (u32_small efl), Hvm by done.
  change (Z.land (u32 8) 0xffff) with 8. cbn [Z.eqb Pos.eqb negb andb]. xsteps. rewrite Hcpl.
  rewrite (xbind_done _ _ _ _ _ (return_code_ok s2 Hgdt Hlim)). xsteps. rewrite H64.
  change (Z.land 8 3 =? 0) with true. cbn [negb andb orb]. xsteps.
  load_cs h E1 H1 H2. xsteps. unfold SET_ESP, load_eflags. xsteps.
  eexists. split; [reflexivity|]. split; [done|]. split; [|split; [done|split; [done|split; [done|split; [done|]]]]].
  - cbn [regs set_eflags set_df set_cc_src set_eip set_esp r_esp]. rewrite set_esp_full, Z.add_0_r, u32_u32, u32_add_l.
    rewrite <- (u32_small (ESP s)) at 2 by done. f_equal. lia.
  - cbn [eflags fl set_eflags f_eflags set_df set_cc_src]. by rewrite iret_mask_kernel.
Qed.

(** ** Entry and return *)

Lemma entry_nt e : has (without (without e IF_MASK) (Z.lor TF_MASK (Z.lor VM_MASK (Z.lor RF_MASK NT_MASK)))) NT_MASK = false.
Proof using Type. by apply has_land. Qed.

Lemma entry_flags e : has e VM_MASK = false ->
  without (without (without e IF_MASK) (Z.lor TF_MASK (Z.lor VM_MASK (Z.lor RF_MASK NT_MASK)))) FL_MASK = without e FL_MASK.
Proof using Type.
  unfold has, without. intros H%negb_false_iff%Z.eqb_eq. rewrite <- !Z.land_assoc.
  match goal with |- Z.land e ?k = _ => transitivity (Z.lor (Z.land e k) (Z.land e VM_MASK)) end.
  - by rewrite H, Z.lor_0_r.
  - by rewrite <- Z.land_lor_distr_r.
Qed.

(** The part of the flags that is not loaded lazily. *)
Lemma efl_vm e f df : has e VM_MASK = false -> Z.land f CC_MASK = f -> has (Z.lor (Z.lor e f) (Z.land df DF_MASK)) VM_MASK = false.
Proof using Type.
  intros He Hf. rewrite !has_lor, He, <- Hf. by rewrite !has_land.
Qed.

(** Right after the entry of an interrupt without error code, with the stack
    away from the descriptor of the code segment, [iret] may be run. *)
Lemma entered_before_iret gates (s : cpu W) stub efl v err is_hw s1 : kernel_cpu gates s -> cpl_of s = 0 ->
  has_error_code v 0 is_hw = false ->
  clear_of (sc_base (seg R_SS s)) (ESP s) 3 (sc_base (gdt s) + 8) ->
  clear_of (sc_base (seg R_SS s)) (ESP s) 3 (sc_base (gdt s) + 8 + 4) ->
  entered s stub (trap_words v err is_hw efl s) s1 -> before_iret s s1 efl.
Proof using Type.
  intros [_ Hvm _ _ Hgdt Hgl _ _] Hcpl Hec H1 H2 En. unfold trap_words in En. rewrite Hec in En.
  destruct En as [_ Hesp _ _ Hseg Hc H64 Hef Hdts _ Hfr Hm]. split; try done.
  - by apply Hseg.
  - rewrite Hdts. destruct Hgdt as [E1 E2]. split; (rewrite Hm; [done|done]).
  - by rewrite Hdts.
  - by rewrite Hc.
  - rewrite Hef. apply entry_nt.
  - rewrite Hef. by apply entry_flags.
Qed.
End Ret.

(** C9: an interrupt or exception of the kernel's tables, a handler that puts
    the stack pointer back on the frame, and [iret]: the interrupted code goes on
    where it was, with the same stack pointer, code segment and flags, the
    arithmetic ones included that were not yet computed. *)
Theorem interrupt_returns {W} `{!Bus W} `{!Ram W} isr isr_invalid isr_syscall t t' (s : cpu W) v err is_hw n handler :
  length t = 256%nat -> (forall v, is_u32 (isr v)) -> is_u32 isr_invalid -> is_u32 isr_syscall ->
  idt_init isr isr_invalid isr_syscall t = Ok tt t' ->
  kernel_cpu (map idt_bits_of t') s -> 0 <= v < 255 -> flags_ok s -> is_u32 (eip s) ->
  seg R_CS s = Sc 8 0 0xffffffff (hi_word kernel_code) ->
  (forall stub efl s1, compute_eflags s = Done efl s -> entered s stub (trap_words v err is_hw efl s) s1 ->
    exists s2, handler s1 = Done tt s2 /\ before_iret s s2 efl) ->
  exists efl s3, compute_eflags s = Done efl s /\
    (do_interrupt v 0 err 0 is_hw ;;; handler ;;; helper_iret_protected 1 n ;;; xmod (set_cc_op CC_OP_EFLAGS)) s = Done tt s3 /\
    eip s3 = eip s /\ ESP s3 = ESP s /\ seg R_CS s3 = seg R_CS s /\ compute_eflags s3 = Done efl s3.
Proof.
  intros Hlt Hisr Hinv Hsys Hinit Hk Hv Hf Hip Hcs Hh.
  destruct (gate_of _ _ _ _ _ v Hlt Hisr Hinv Hsys Hinit Hv) as (d & Hd & Hg).
  destruct (compute_eflags_ok s Hf) as (f & Hfm & Hefl). set (efl := Z.lor _ _) in *.
  destruct (do_interrupt_kernel _ s v d _ efl err is_hw Hk ltac:(lia) Hd Hg Hefl) as (s1 & E1 & En).
  destruct (Hh _ _ _ Hefl En) as (s2 & E2 & Hb).
  assert (u32 efl = efl) as Hu.
  { unfold efl. apply (efl_u32 _ _ _ Hfm (fo_u32 _ Hf) (fo_df _ Hf)). }
  destruct (iret_resumes s s2 efl n) as (s3 & E3 & Heip & Hesp & Hcs3 & _ & Hsrc & Hdf & Hef);
    [apply Hk|apply Hk|by rewrite Hcs|rewrite <- Hu; apply u32_range|by apply efl_vm; [apply Hk|]|done|].
  exists efl, (set_cc_op CC_OP_EFLAGS s3). split; [done|]. split.
  { rewrite (xbind_done _ _ _ _ _ E1), (xbind_done _ _ _ _ _ E2). by rewrite (xbind_done _ _ _ _ _ E3). }
  split; [by rewrite <- (u32_small (eip s))|]. split; [done|]. split; [by rewrite Hcs|].
  unfold compute_eflags, cc_all. xsteps. cbn [fl f_cc_op set_cc_op]. change (cc_table CC_OP_EFLAGS) with
    (Some (CC (fun src _ => compute_all_eflags src) (fun src _ => compute_c_eflags src))). cbn [compute_all]. xsteps.
  cbn [fl f_cc_src f_cc_dst f_df f_eflags set_cc_op]. unfold compute_all_eflags, xret. f_equal.
  rewrite Hsrc, Hdf, Hef, cc_small. etransitivity; [|exact Hu]. f_equal.
  apply (flags_restored (eflags s) (eflags s2) f (DF s)); [apply Hf..|done|apply Hf|apply Hb].
Qed.

Lemma interrupt_returns_witness :
  exists efl s3, compute_eflags demo_cpu = Done efl demo_cpu /\
    (do_interrupt 32 0 0 0 1 ;;; xret tt ;;; helper_iret_protected 1 0 ;;; xmod (set_cc_op CC_OP_EFLAGS)) demo_cpu = Done tt s3 /\
    eip s3 = 0x7000 /\ ESP s3 = 0x9000 /\ seg R_CS s3 = seg R_CS demo_cpu /\ compute_eflags s3 = Done efl s3.
Proof.
  apply (interrupt_returns demo_isr 0x6000 0x6010 (replicate 256 (Idt 0 0 0 0 0 0 0 0 0)) demo_gates demo_cpu 32 0 1 0 (xret tt)).
  - reflexivity.
  - intros v. unfold is_u32, demo_isr. pose proof (Z.mod_pos_bound v 256). lia.
  - unfold is_u32. lia.
  - unfold is_u32. lia.
  - vm_compute. reflexivity.
  - exact demo_kernel_cpu.
  - lia.
  - split; try reflexivity; [|unfold is_u32; cbn; lia|by left]. eexists. split; reflexivity.
  - unfold is_u32. cbn. lia.
  - reflexivity.
  - intros stub efl s1 Hefl En. exists s1. split; [reflexivity|].
    apply (entered_before_iret _ _ stub efl 32 0 1 s1 demo_kernel_cpu); [reflexivity|reflexivity| | |exact En];
      intros i Hi; do 3 (destruct i as [|i]; [split; vm_compute; discriminate|]); lia.
Defined.

(** * System calls from an outer privilege *)

(** The protection fault for the gate of vector [v]: its error code has the index
    of the gate and the bit for the interrupt table. *)
Definition gate_fault {W} (v : Z) (s : cpu W) : exception := Exn EXCP0D_GPF (v * 8 + 2) 0 (u32 (eip s)).

(** The gates of [idt_init] have privilege 0, the one for system calls
    too: [int] with any of their vectors from an outer privilege is a protection
    fault with the vector's error code, before anything changes. *)
Theorem int_refused_outside {W} `{!Bus W} `{!Ram W} isr isr_invalid isr_syscall t t' (s : cpu W) v err next :
  length t = 256%nat -> (forall v, is_u32 (isr v)) -> is_u32 isr_invalid -> is_u32 isr_syscall ->
  idt_init isr isr_invalid isr_syscall t = Ok tt t' ->
  kernel_cpu (map idt_bits_of t') s -> 0 <= v < 255 -> 0 < cpl_of s ->
  do_interrupt v 1 err next 0 s = LoopExit (set_exn (gate_fault v s) s).
Proof.
  intros Hlt Hisr Hinv Hsys Hinit [Hpe _ _ _ _ _ Hidt Hil] Hv Hc.
  destruct (gate_of _ _ _ _ _ v Hlt Hisr Hinv Hsys Hinit Hv) as (d & Hd & Hg).
  destruct (gate_words d _ Hg) as (_ & _ & Hty & Hdpl & _).
  destruct (Hidt _ _ Hd) as [E1 E2]. rewrite Z2Nat.id in E1, E2 by lia.
  unfold gate_fault, do_interrupt. xsteps. rewrite Hpe. unfold do_interrupt_protected. xsteps.
  rewrite xbind_pass by (rewrite u32_small by (unfold is_u32; lia); apply Z.ltb_ge; lia).
  rewrite (xbind_done _ _ _ _ _ (ldl_ok _ s)), (xbind_done _ _ _ _ _ (ldl_ok _ s)).
  rewrite dword_u32, dword_u32_add, (Z.mul_comm v 8), E1, E2, Hty, Hdpl.
  change (14 =? 5) with false. change (negb (bool_decide (14 ∈ [6; 7; 14; 15]))) with false. cbv iota.
  rewrite xbind_raise by (cbn [Z.eqb negb andb]; by apply Z.ltb_lt).
  unfold raise_exception_err, raise_interrupt. by rewrite Z.add_0_r.
Qed.

Lemma int_refused_outside_witness :
  let user := set_hflags 0x33 demo_cpu in
  do_interrupt 0x80 1 0 0x7002 0 user = LoopExit (set_exn (Exn 13 0x402 0 0x7000) user).
Proof.
  apply (int_refused_outside demo_isr 0x6000 0x6010 (replicate 256 (Idt 0 0 0 0 0 0 0 0 0)) demo_gates (set_hflags 0x33 demo_cpu) 0x80 0 0x7002).
  - reflexivity.
  - intros v. unfold is_u32, demo_isr. pose proof (Z.mod_pos_bound v 256). lia.
  - unfold is_u32. lia.
  - unfold is_u32. lia.
  - vm_compute. reflexivity.
  - pose proof demo_kernel_cpu as H. destruct H. split; assumption.
  - lia.
  - reflexivity.
Defined.

(** * [gdt_load] *)

Section Load.
Context {W : Type} `{!Bus W} `{!Ram W}.

(** [void gdt_load()] with the table at [base]: [lgdt], the segment registers
    and the far jump to [newgdt], as the helpers run them. *)
Definition gdt_load (base newgdt : Z) : X W unit :=
  xmod (set_gdt (Sc 0 base 63 0)) ;;;
  load_seg R_SS 0x10 ;;; load_seg R_DS 0x10 ;;; load_seg R_ES 0x10 ;;; load_seg R_FS 0x10 ;;; load_seg R_GS 0x10 ;;;
  xmod (fun s => set_T0 0x08 (set_T1 newgdt s)) ;;;
  helper_ljmp_protected_T0_T1 0.

Definition flat_data : SegmentCache := Sc 0x10 0 0xffffffff 0xCF9300.

(** The descriptor of the data segment, perhaps already accessed. *)
Record data_at (b : Z) (m : W) : Prop := DataAt {
  da_lo : dword m (b + 16) = 0xFFFF;
  da_hi : dword m (b + 16 + 4) = 0xCF9200 \/ dword m (b + 16 + 4) = 0xCF9300
}.

Lemma load_cache_hflags r c (s : cpu W) : r <> R_CS -> exists h,
  cpu_x86_load_seg_cache r (sc_selector c) (sc_base c) (sc_limit c) (sc_flags c) s = Done tt (set_hflags h (set_seg r c s)) /\
  Z.land h HF_CPL_MASK = cpl_of s.
Proof using Type.
  intros Hr. unfold cpu_x86_load_seg_cache. xsteps. rewrite bool_decide_false by done. xsteps.
  destruct c as [a b l f]. eexists. split; [unfold xmod; reflexivity|]. unfold cpl_of.
  rewrite !Z.land_lor_distr_l, cpl_addseg, cpl_without by done. rewrite !Z.shiftr_land, <- !Z.land_assoc.
  change (Z.land (Z.shiftr DESC_B_MASK _) HF_CPL_MASK) with 0. rewrite !Z.land_0_r, !Z.lor_0_r. by destruct r.
Qed.

(** The state between the loads. *)
Record loading (b : Z) (s0 s : cpu W) : Prop := Loading {
  lo_gdt : gdt s = Sc 0 b 63 0;
  lo_cpl : cpl_of s = 0;
  lo_data : data_at b (mem s);
  lo_mem : forall a, apart (b + 16 + 4) a -> dword (mem s) a = dword (mem s0) a;
  lo_crs : crs s = crs s0;
  lo_efl : eflags s = eflags s0
}.

Lemma mark_accessed_ok b (s : cpu W) : data_at b (mem s) ->
  exists m, mark_accessed (u32 (b + 16)) (dword (mem s) (b + 16 + 4)) s = Done 0xCF9300 (set_mem m s) /\ data_at b m /\
    forall a, apart (b + 16 + 4) a -> dword m a = dword (mem s) a.
Proof using Type.
  intros [Hlo [Hhi|Hhi]]; unfold mark_accessed; rewrite Hhi.
  - change (negb (has 0xCF9200 DESC_A_MASK)) with true. cbv iota.
    destruct (stl_ok (u32 (b + 16) + 4) (Z.lor 0xCF9200 DESC_A_MASK) s) as (m & E & Hv & Ho). exists m.
    rewrite (xbind_done _ _ _ _ _ E). split; [done|].
    assert (forall a, apart (b + 16 + 4) a -> dword m a = dword (mem s) a) as Ho'.
    { intros a Ha. apply Ho. eapply apart_mod; [|exact Ha]. symmetry. apply u32_add_l. }
    split; [|done]. split.
    + rewrite Ho' by (unfold apart; split; int_lia). done.
    + right. rewrite dword_u32_add in Hv. exact Hv.
  - exists (mem s). split; [by destruct s|]. split; [|done]. split; [done|by right].
Qed.

Lemma seg_rights_ok r e2 (s : cpu W) : e2 = 0xCF9200 \/ e2 = 0xCF9300 -> seg_rights r 0x10 e2 0 s = Done tt s.
Proof using Type. intros [-> | ->]; unfold seg_rights; by destruct (bool_decide (r = R_SS)). Qed.

Lemma load_seg_flat b s0 r (s : cpu W) : r <> R_CS -> loading b s0 s ->
  exists s', load_seg r 0x10 s = Done tt s' /\ loading b s0 s' /\ seg r s' = flat_data /\ forall r', r' <> r -> seg r' s' = seg r' s.
Proof using Type.
  intros Hr [Hg Hc Hd Hm Hcr He]. unfold load_seg. change (Z.land 0x10 0xffff) with 0x10.
  change (sel_err 0x10 =? 0) with false. change (has 0x10 0x4) with false. change (sel_index 0x10) with 16. xsteps. cbv iota.
  rewrite Hg. cbn [sc_limit sc_base]. rewrite xbind_pass by done.
  rewrite (xbind_done _ _ _ _ _ (ldl_ok _ s)), (xbind_done _ _ _ _ _ (ldl_ok _ s)).
  rewrite dword_u32, dword_u32_add, (da_lo _ _ Hd), Hc.
  rewrite (xbind_done _ _ _ _ _ (seg_rights_ok r _ s (da_hi _ _ Hd))).
  destruct (mark_accessed_ok b s Hd) as (m & E & Hd' & Hm'). rewrite (xbind_done _ _ _ _ _ E).
  destruct (load_cache_hflags r flat_data (set_mem m s) Hr) as (h & E2 & Hh). eexists. split; [exact E2|]. split; [|split].
  - split; try (by destruct r); [|intros a Ha; rewrite <- Hm, <- Hm' by done; by destruct r]. rewrite <- Hc. etransitivity; [|exact Hh]. by destruct r.
  - by destruct r.
  - intros r' Hr'. by destruct r, r'.
Qed.

Lemma loading_set b s0 (s : cpu W) x y : loading b s0 s -> loading b s0 (set_T0 x (set_T1 y s)).
Proof using Type. by intros [? ? ? ? ? ?]. Qed.

(** The far jump to the code segment. *)
Lemma ljmp_kernel b s0 (s : cpu W) newgdt : loading b s0 s -> desc_at (mem s0) (b + 8) kernel_code -> is_u32 newgdt ->
  exists h s', helper_ljmp_protected_T0_T1 0 (set_T0 8 (set_T1 newgdt s)) = Done tt s' /\
    s' = set_eip newgdt (set_hflags h (set_cs (Sc 8 0 0xffffffff (hi_word kernel_code)) (set_T0 8 (set_T1 newgdt s)))) /\
    Z.land h HF_CPL_MASK = 0 /\ has h HF_CS64_MASK = false /\ desc_at (mem s') (b + 8) kernel_code.
Proof using Type.
  intros Hl [D1 D2] Hn. pose proof Hl as [Hg Hc _ Hm _ _].
  assert (desc_at (mem s) (b + 8) kernel_code) as Hd by (split; (rewrite Hm; [done|]; unfold apart; split; int_lia)).
  unfold helper_ljmp_protected_T0_T1. xsteps. rewrite xbind_pass by done. unfold load_or_raise. xsteps.
  set (s1 := set_T0 8 _). change (T0 s1) with 8. change (T1 s1) with newgdt.
  rewrite (xbind_done _ _ _ _ _ (load_segment_ok 8 s1 kernel_code eq_refl ltac:(change (gdt s1) with (gdt s); rewrite Hg; change (sel_index 8) with 8; cbn [sc_limit]; lia)
    ltac:(done) ltac:(change (gdt s1) with (gdt s); rewrite Hg; exact Hd))).
  xsteps. change (cpl_of s1) with (cpl_of s). rewrite Hc. change (has (hi_word kernel_code) DESC_S_MASK) with true. cbv iota.
  unfold direct_code. change (has (hi_word kernel_code) DESC_C_MASK) with true. cbv iota. xsteps. rewrite !xbind_pass by done.
  xsteps. rewrite xbind_pass by done. rewrite xbind_pass by done. rewrite xbind_pass.
  2: { change (get_seg_limit _ _) with 0xffffffff. rewrite (proj2 (Z.ltb_ge _ _)); [done|]. unfold is_u32 in Hn. lia. }
  load_cs h E H1 H2. exists h. eexists. split; [reflexivity|]. split; [done|]. split; [by rewrite H2|]. by split.
Qed.
End Load.

(** [gdt_load] with the table of [gdt_init] in memory, in protected mode at
    privilege 0: every segment register is flat, 4 GB from address 0, with the
    kernel's selectors, execution is at [newgdt] still at privilege 0, and the
    code descriptor is in place for the gates. *)
Theorem gdt_load_flat {W} `{!Bus W} `{!Ram W} (s : cpu W) t t' base newgdt :
  length t = 8%nat -> gdt_init t = Ok tt t' -> in_memory (mem s) base (map gdt_bits (take 7 t')) ->
  cpl_of s = 0 -> is_u32 newgdt ->
  exists s', gdt_load base newgdt s = Done tt s' /\ eip s' = newgdt /\ cpl_of s' = 0 /\
    seg R_CS s' = Sc 0x08 0 0xffffffff 0xCF9E00 /\
    (forall r, r <> R_CS -> seg r s' = Sc 0x10 0 0xffffffff 0xCF9300) /\
    gdt s' = Sc 0 base 63 0 /\ desc_at (mem s') (sc_base (gdt s') + 8) kernel_code.
Proof.
  intros Hlt Hinit Hm Hc Hn. destruct (gdt_init_table t Hlt) as (t'' & E & _ & Ht). rewrite Hinit in E. injection E as <-.
  rewrite Ht in Hm. pose proof (Hm 1%nat _ eq_refl) as Hcode. pose proof (Hm 2%nat _ eq_refl) as [D1 D2].
  unfold gdt_load. xsteps. set (s1 := set_gdt _ s).
  assert (loading base s s1) as H1 by (split; try done; split; [exact D1|left; exact D2]).
  destruct (load_seg_flat base s R_SS s1 ltac:(done) H1) as (s2 & E2 & H2 & F2 & _). rewrite (xbind_done _ _ _ _ _ E2).
  destruct (load_seg_flat base s R_DS s2 ltac:(done) H2) as (s3 & E3 & H3 & F3 & O3). rewrite (xbind_done _ _ _ _ _ E3).
  destruct (load_seg_flat base s R_ES s3 ltac:(done) H3) as (s4 & E4 & H4 & F4 & O4). rewrite (xbind_done _ _ _ _ _ E4).
  destruct (load_seg_flat base s R_FS s4 ltac:(done) H4) as (s5 & E5 & H5 & F5 & O5). rewrite (xbind_done _ _ _ _ _ E5).
  destruct (load_seg_flat base s R_GS s5 ltac:(done) H5) as (s6 & E6 & H6 & F6 & O6). rewrite (xbind_done _ _ _ _ _ E6).
  xsteps. destruct (ljmp_kernel base s s6 newgdt H6 Hcode Hn) as (h & s7 & E7 & -> & Hh & _ & Hd). eexists. split; [exact E7|].
  split; [done|]. split; [exact Hh|]. split; [done|].
  assert (gdt s6 = Sc 0 base 63 0) as Hg by apply H6. split.
  - intros r Hr. transitivity (seg r s6); [by destruct r|]. change (Sc _ _ _ _) with flat_data.
    destruct r; try done; rewrite ?O6, ?O5, ?O4, ?O3 by done; done.
  - split; [exact Hg|]. change (gdt (set_eip _ _)) with (gdt s6). rewrite Hg. exact Hd.
Qed.

Lemma gdt_load_flat_witness :
  exists s', gdt_load 0x1000 0x7100 (set_mem (table_byte 0x1000 [0; kernel_code; kernel_data; 0x000F9E000000FFFF;
      0x000F92000000FFFF; 0x00CFFE000000FFFF; 0x00CFF2000000FFFF] : flat) demo_cpu) = Done tt s' /\ eip s' = 0x7100.
Proof.
  destruct (gdt_init_table (replicate 8 (Gdt 0 0 0 0 0 0 0 0 0 0 0 0)) eq_refl) as (t' & E & _ & Ht).
  destruct (gdt_load_flat (set_mem (table_byte 0x1000 [0; kernel_code; kernel_data; 0x000F9E000000FFFF;
      0x000F92000000FFFF; 0x00CFFE000000FFFF; 0x00CFF2000000FFFF] : flat) demo_cpu) (replicate 8 (Gdt 0 0 0 0 0 0 0 0 0 0 0 0)) t' 0x1000 0x7100)
    as (s' & H & Hip & _).
  - reflexivity.
  - exact E.
  - rewrite Ht. apply in_memoryb_ok. vm_compute. reflexivity.
  - reflexivity.
  - unfold is_u32. lia.
  - exists s'. split; [exact H|exact Hip].
Defined.
