(* ===== verification/X86Ops.v ===== *)
(** Micro operations of the emulated processor, src/sysvm/target-i386/op.c and
    opreg_template.h: moves, arithmetic without flags, multiplication and
    division, sign extension, decimal adjustment, the flags register, segment
    selectors, with the division helpers of helper.c.  An instruction is a
    sequence of them on the temporaries T0, T1 and A0. *)
From S2P Require Import Prelude CcFlags X86 X86Seg X86Int.

(** [HF_INHIBIT_IRQ_MASK] *)
Definition HF_INHIBIT_IRQ_MASK : Z := 0x8.

(** The register [REG] of opreg_template.h. *)
Inductive greg := _EAX | _ECX | _EDX | _EBX | _ESP | _EBP | _ESI | _EDI.

Section Ops.
Context {W : Type} `{!Bus W}.

Definition REG (r : greg) (s : cpu W) : Z :=
  match r with
  | _EAX => EAX s | _ECX => ECX s | _EDX => EDX s | _EBX => EBX s
  | _ESP => ESP s | _EBP => EBP s | _ESI => ESI s | _EDI => EDI s
  end.
Definition set_REG (r : greg) (v : Z) (s : cpu W) : cpu W :=
  match r with
  | _EAX => set_eax v s | _ECX => set_ecx v s | _EDX => set_edx v s | _EBX => set_ebx v s
  | _ESP => set_esp v s | _EBP => set_ebp v s | _ESI => set_esi v s | _EDI => set_edi v s
  end.

(** The low 16 bits, and the low and high byte, of a register replaced. *)
Definition low16 (old v : Z) : Z := Z.lor (without old 0xffff) (Z.land v 0xffff).
Definition low8 (old v : Z) : Z := Z.lor (without old 0xff) (Z.land v 0xff).
Definition high8 (old v : Z) : Z := Z.lor (without old 0xff00) (Z.shiftl (Z.land v 0xff) 8).

(** * opreg_template.h *)

Definition op_movl_A0_REG r : X W unit := xmod (fun s => set_A0 (u32 (REG r s)) s).
Definition op_addl_A0_REG r : X W unit := xmod (fun s => set_A0 (u32 (A0 s + REG r s)) s).
Definition op_addl_A0_REG_s1 r : X W unit := xmod (fun s => set_A0 (u32 (A0 s + Z.shiftl (REG r s) 1)) s).
Definition op_addl_A0_REG_s2 r : X W unit := xmod (fun s => set_A0 (u32 (A0 s + Z.shiftl (REG r s) 2)) s).
Definition op_addl_A0_REG_s3 r : X W unit := xmod (fun s => set_A0 (u32 (A0 s + Z.shiftl (REG r s) 3)) s).
Definition op_movl_T0_REG r : X W unit := xmod (fun s => set_T0 (REG r s) s).
Definition op_movl_T1_REG r : X W unit := xmod (fun s => set_T1 (REG r s) s).
Definition op_movh_T0_REG r : X W unit := xmod (fun s => set_T0 (Z.shiftr (REG r s) 8) s).
Definition op_movh_T1_REG r : X W unit := xmod (fun s => set_T1 (Z.shiftr (REG r s) 8) s).
Definition op_movl_REG_T0 r : X W unit := xmod (fun s => set_REG r (u32 (T0 s)) s).
Definition op_movl_REG_T1 r : X W unit := xmod (fun s => set_REG r (u32 (T1 s)) s).
Definition op_movl_REG_A0 r : X W unit := xmod (fun s => set_REG r (u32 (A0 s)) s).
Definition op_cmovw_REG_T1_T0 r : X W unit :=
  xmod (fun s => if negb (T0 s =? 0) then set_REG r (low16 (REG r s) (T1 s)) s else s).
Definition op_cmovl_REG_T1_T0 r : X W unit :=
  xmod (fun s => if negb (T0 s =? 0) then set_REG r (u32 (T1 s)) s else s).
Definition op_movw_REG_T0 r : X W unit := xmod (fun s => set_REG r (low16 (REG r s) (T0 s)) s).
Definition op_movw_REG_T1 r : X W unit := xmod (fun s => set_REG r (low16 (REG r s) (T1 s)) s).
Definition op_movw_REG_A0 r : X W unit := xmod (fun s => set_REG r (low16 (REG r s) (A0 s)) s).
Definition op_movb_REG_T0 r : X W unit := xmod (fun s => set_REG r (low8 (REG r s) (T0 s)) s).
Definition op_movh_REG_T0 r : X W unit := xmod (fun s => set_REG r (high8 (REG r s) (T0 s)) s).
Definition op_movb_REG_T1 r : X W unit := xmod (fun s => set_REG r (low8 (REG r s) (T1 s)) s).
Definition op_movh_REG_T1 r : X W unit := xmod (fun s => set_REG r (high8 (REG r s) (T1 s)) s).

(** * Flags to compute later *)

Definition set_cc (src dst : Z) (s : cpu W) : cpu W := set_cc_dst dst (set_cc_src src s).
Definition op_update2_cc : X W unit := xmod (fun s => set_cc (T1 s) (T0 s) s).
Definition op_update1_cc : X W unit := xmod (fun s => set_cc_dst (T0 s) s).
Definition op_update_neg_cc : X W unit := xmod (fun s => set_cc (u32 (- T0 s)) (T0 s) s).
Definition op_cmpl_T0_T1_cc : X W unit := xmod (fun s => set_cc (T1 s) (u32 (T0 s - T1 s)) s).
Definition op_update_inc_cc : X W unit := c <- cc_c ;; xmod (fun s => set_cc (u32 c) (T0 s) s).
Definition op_testl_T0_T1_cc : X W unit := xmod (fun s => set_cc_dst (Z.land (T0 s) (T1 s)) s).

(** * Operations without flags *)

Definition op_addl_T0_T1 : X W unit := xmod (fun s => set_T0 (u32 (T0 s + T1 s)) s).
Definition op_orl_T0_T1 : X W unit := xmod (fun s => set_T0 (Z.lor (T0 s) (T1 s)) s).
Definition op_andl_T0_T1 : X W unit := xmod (fun s => set_T0 (Z.land (T0 s) (T1 s)) s).
Definition op_subl_T0_T1 : X W unit := xmod (fun s => set_T0 (u32 (T0 s - T1 s)) s).
Definition op_xorl_T0_T1 : X W unit := xmod (fun s => set_T0 (Z.lxor (T0 s) (T1 s)) s).
Definition op_negl_T0 : X W unit := xmod (fun s => set_T0 (u32 (- T0 s)) s).
Definition op_incl_T0 : X W unit := xmod (fun s => set_T0 (u32 (T0 s + 1)) s).
Definition op_decl_T0 : X W unit := xmod (fun s => set_T0 (u32 (T0 s - 1)) s).
Definition op_notl_T0 : X W unit := xmod (fun s => set_T0 (u32 (Z.lnot (T0 s))) s).
(** [bswap32] *)
Definition bswap32 (x : Z) : Z :=
  Z.lor (Z.lor (Z.shiftl (Z.land x 0xff) 24) (Z.shiftl (Z.land x 0xff00) 8))
    (Z.lor (Z.shiftr (Z.land x 0xff0000) 8) (Z.shiftr (Z.land x 0xff000000) 24)).
Definition op_bswapl_T0 : X W unit := xmod (fun s => set_T0 (bswap32 (T0 s)) s).

(** * Multiplication *)

(** Bytes to AX, words to DX:AX, double words to EDX:EAX.  The operands of a
    word multiplication are promoted to [int]; its product is taken modulo 2^32. *)
Definition op_mulb_AL_T0 : X W unit := xmod (fun s =>
  let res := u8 (EAX s) * u8 (T0 s) in
  set_cc (Z.land res 0xff00) res (set_eax (Z.lor (without (EAX s) 0xffff) res) s)).
Definition op_imulb_AL_T0 : X W unit := xmod (fun s =>
  let res := s8 (EAX s) * s8 (T0 s) in
  set_cc (b2z (negb (res =? s8 res))) (u32 res) (set_eax (low16 (EAX s) res) s)).
Definition op_mulw_AX_T0 : X W unit := xmod (fun s =>
  let res := u32 (u16 (EAX s) * u16 (T0 s)) in
  set_cc (Z.shiftr res 16) res (set_edx (low16 (EDX s) (Z.shiftr res 16)) (set_eax (low16 (EAX s) res) s))).
Definition op_imulw_AX_T0 : X W unit := xmod (fun s =>
  let res := s16 (EAX s) * s16 (T0 s) in
  set_cc (b2z (negb (res =? s16 res))) (u32 res) (set_edx (low16 (EDX s) (Z.shiftr res 16)) (set_eax (low16 (EAX s) res) s))).
Definition op_mull_EAX_T0 : X W unit := xmod (fun s =>
  let res := u32 (EAX s) * u32 (T0 s) in
  set_cc (u32 (Z.shiftr res 32)) (u32 res) (set_edx (u32 (Z.shiftr res 32)) (set_eax (u32 res) s))).
Definition op_imull_EAX_T0 : X W unit := xmod (fun s =>
  let res := s32 (EAX s) * s32 (T0 s) in
  set_cc (b2z (negb (res =? s32 res))) (u32 res) (set_edx (u32 (Z.shiftr res 32)) (set_eax (u32 res) s))).
Definition op_imulw_T0_T1 : X W unit := xmod (fun s =>
  let res := s16 (T0 s) * s16 (T1 s) in
  set_cc (b2z (negb (res =? s16 res))) (u32 res) (set_T0 (u32 res) s)).
Definition op_imull_T0_T1 : X W unit := xmod (fun s =>
  let res := s32 (T0 s) * s32 (T1 s) in
  set_cc (b2z (negb (res =? s32 res))) (u32 res) (set_T0 (u32 res) s)).

(** * Division *)

(** [num / den] and [num % den] of a signed type of [bits] bits: the smallest
    number divided by -1 has no quotient, and stops the emulator. *)
Definition sdiv (bits num den : Z) : X W (Z * Z) :=
  if (num =? - 2 ^ (bits - 1)) && (den =? -1) then cpu_abort else xret (Z.quot num den, Z.rem num den).

Definition op_divb_AL_T0 : X W unit :=
  s <- xget ;;
  let num := Z.land (EAX s) 0xffff in
  let den := Z.land (T0 s) 0xff in
  check (den =? 0) (raise_exception EXCP00_DIVZ) ;;;
  let q := num / den in
  check (0xff <? q) (raise_exception EXCP00_DIVZ) ;;;
  let q := Z.land q 0xff in
  let r := Z.land (num mod den) 0xff in
  xmod (set_eax (Z.lor (Z.lor (without (EAX s) 0xffff) (Z.shiftl r 8)) q)).
Definition op_idivb_AL_T0 : X W unit :=
  s <- xget ;;
  let num := s16 (EAX s) in
  let den := s8 (T0 s) in
  check (den =? 0) (raise_exception EXCP00_DIVZ) ;;;
  qr <- sdiv 32 num den ;;
  let '(q, r) := qr in
  check (negb (q =? s8 q)) (raise_exception EXCP00_DIVZ) ;;;
  xmod (set_eax (Z.lor (Z.lor (without (EAX s) 0xffff) (Z.shiftl (Z.land r 0xff) 8)) (Z.land q 0xff))).
Definition op_divw_AX_T0 : X W unit :=
  s <- xget ;;
  let num := Z.lor (Z.land (EAX s) 0xffff) (Z.shiftl (Z.land (EDX s) 0xffff) 16) in
  let den := Z.land (T0 s) 0xffff in
  check (den =? 0) (raise_exception EXCP00_DIVZ) ;;;
  let q := num / den in
  check (0xffff <? q) (raise_exception EXCP00_DIVZ) ;;;
  let q := Z.land q 0xffff in
  let r := Z.land (num mod den) 0xffff in
  xmod (fun s => set_edx (Z.lor (without (EDX s) 0xffff) r) (set_eax (Z.lor (without (EAX s) 0xffff) q) s)).
Definition op_idivw_AX_T0 : X W unit :=
  s <- xget ;;
  let num := s32 (Z.lor (Z.land (EAX s) 0xffff) (Z.shiftl (Z.land (EDX s) 0xffff) 16)) in
  let den := s16 (T0 s) in
  check (den =? 0) (raise_exception EXCP00_DIVZ) ;;;
  qr <- sdiv 32 num den ;;
  let '(q, r) := qr in
  check (negb (q =? s16 q)) (raise_exception EXCP00_DIVZ) ;;;
  xmod (fun s => set_edx (low16 (EDX s) r) (set_eax (low16 (EAX s) q) s)).

(** [helper_divl_EAX_T0()] and [helper_idivl_EAX_T0()] *)
Definition helper_divl_EAX_T0 : X W unit :=
  s <- xget ;;
  let num := Z.lor (u32 (EAX s)) (Z.shiftl (u32 (EDX s)) 32) in
  let den := T0 s in
  check (den =? 0) (raise_exception EXCP00_DIVZ) ;;;
  let q := num / den in
  let r := num mod den in
  check (0xffffffff <? q) (raise_exception EXCP00_DIVZ) ;;;
  xmod (fun s => set_edx (u32 r) (set_eax (u32 q) s)).
Definition s64 (z : Z) : Z := (z + 2 ^ 63) mod 2 ^ 64 - 2 ^ 63.
Definition helper_idivl_EAX_T0 : X W unit :=
  s <- xget ;;
  let num := s64 (Z.lor (u32 (EAX s)) (Z.shiftl (u32 (EDX s)) 32)) in
  let den := s32 (T0 s) in
  check (den =? 0) (raise_exception EXCP00_DIVZ) ;;;
  qr <- sdiv 64 num den ;;
  let '(q, r) := qr in
  check (negb (q =? s32 q)) (raise_exception EXCP00_DIVZ) ;;;
  xmod (fun s => set_edx (u32 r) (set_eax (u32 q) s)).
Definition op_divl_EAX_T0 : X W unit := helper_divl_EAX_T0.
Definition op_idivl_EAX_T0 : X W unit := helper_idivl_EAX_T0.

(** * Constants and moves *)

(** The parameter of an operation is [p]. *)
Definition op_movl_T0_imu p : X W unit := xmod (set_T0 (u32 p)).
Definition op_movl_T0_im p : X W unit := xmod (set_T0 (u32 p)).
Definition op_addl_T0_im p : X W unit := xmod (fun s => set_T0 (u32 (T0 s + p)) s).
Definition op_andl_T0_ffff : X W unit := xmod (fun s => set_T0 (Z.land (T0 s) 0xffff) s).
Definition op_andl_T0_im p : X W unit := xmod (fun s => set_T0 (u32 (Z.land (T0 s) p)) s).
Definition op_movl_T0_T1 : X W unit := xmod (fun s => set_T0 (T1 s) s).
Definition op_movl_T1_imu p : X W unit := xmod (set_T1 (u32 p)).
Definition op_movl_T1_im p : X W unit := xmod (set_T1 (u32 p)).
Definition op_addl_T1_im p : X W unit := xmod (fun s => set_T1 (u32 (T1 s + p)) s).
Definition op_movl_T1_A0 : X W unit := xmod (fun s => set_T1 (A0 s) s).
Definition op_movl_A0_im p : X W unit := xmod (set_A0 (u32 p)).
Definition op_addl_A0_im p : X W unit := xmod (fun s => set_A0 (u32 (A0 s + p)) s).
Definition op_movl_A0_seg r : X W unit := xmod (fun s => set_A0 (u32 (sc_base (seg r s))) s).
Definition op_addl_A0_seg r : X W unit := xmod (fun s => set_A0 (u32 (A0 s + sc_base (seg r s))) s).
Definition op_addl_A0_AL : X W unit := xmod (fun s => set_A0 (u32 (A0 s + Z.land (EAX s) 0xff)) s).
Definition op_andl_A0_ffff : X W unit := xmod (fun s => set_A0 (Z.land (A0 s) 0xffff) s).
Definition op_jmp_T0 : X W unit := xmod (fun s => set_eip (T0 s) s).
Definition op_movl_eip_im p : X W unit := xmod (set_eip (u32 p)).
Definition op_movl_T0_0 : X W unit := xmod (set_T0 0).

(** * Exceptions and the interrupt flag *)

Definition op_raise_interrupt (intno next_eip_addend : Z) : X W unit := raise_interrupt intno 1 0 next_eip_addend.
Definition op_raise_exception (index : Z) : X W unit := raise_exception index.
Definition op_into p : X W unit :=
  e <- cc_all ;;
  check (has e CC_O) (raise_interrupt EXCP04_INTO 1 0 p).
Definition op_cli : X W unit := xmod (fun s => set_eflags (without (eflags s) IF_MASK) s).
Definition op_sti : X W unit := xmod (fun s => set_eflags (Z.lor (eflags s) IF_MASK) s).
Definition op_set_inhibit_irq : X W unit := xmod (fun s => set_hflags (Z.lor (hflags s) HF_INHIBIT_IRQ_MASK) s).
Definition op_reset_inhibit_irq : X W unit := xmod (fun s => set_hflags (without (hflags s) HF_INHIBIT_IRQ_MASK) s).
Definition op_boundw : X W unit :=
  s <- xget ;;
  low <- lduw_kernel (A0 s) ;;
  high <- lduw_kernel (A0 s + 2) ;;
  let v := s16 (T0 s) in
  check ((v <? s16 low) || (s16 high <? v)) (raise_exception EXCP05_BOUND).
Definition op_boundl : X W unit :=
  s <- xget ;;
  low <- ldl_kernel (A0 s) ;;
  high <- ldl_kernel (A0 s + 4) ;;
  let v := s32 (T0 s) in
  check ((v <? s32 low) || (s32 high <? v)) (raise_exception EXCP05_BOUND).

(** [helper_cmpxchg8b()]: the 64-bit access as two double words. *)
Definition helper_cmpxchg8b : X W unit :=
  e <- cc_all ;;
  s <- xget ;;
  lo <- ldl_kernel (A0 s) ;;
  hi <- ldl_kernel (A0 s + 4) ;;
  let d := Z.lor (Z.shiftl hi 32) lo in
  if d =? Z.lor (Z.shiftl (EDX s) 32) (EAX s) then
    stl_kernel (A0 s) (EBX s) ;;; stl_kernel (A0 s + 4) (ECX s) ;;;
    xmod (set_cc_src (u32 (Z.lor e CC_Z)))
  else
    xmod (fun s => set_cc_src (without e CC_Z) (set_eax (u32 d) (set_edx (Z.shiftr d 32) s))).

(** * Sign extension *)

Definition op_movsbl_T0_T0 : X W unit := xmod (fun s => set_T0 (u32 (s8 (T0 s))) s).
Definition op_movzbl_T0_T0 : X W unit := xmod (fun s => set_T0 (u8 (T0 s)) s).
Definition op_movswl_T0_T0 : X W unit := xmod (fun s => set_T0 (u32 (s16 (T0 s))) s).
Definition op_movzwl_T0_T0 : X W unit := xmod (fun s => set_T0 (u16 (T0 s)) s).
Definition op_movswl_EAX_AX : X W unit := xmod (fun s => set_eax (u32 (s16 (EAX s))) s).
Definition op_movsbw_AX_AL : X W unit := xmod (fun s => set_eax (low16 (EAX s) (s8 (EAX s))) s).
Definition op_movslq_EDX_EAX : X W unit := xmod (fun s => set_edx (u32 (Z.shiftr (s32 (EAX s)) 31)) s).
Definition op_movswl_DX_AX : X W unit := xmod (fun s => set_edx (low16 (EDX s) (Z.shiftr (s16 (EAX s)) 15)) s).

(** * String and stack helpers *)

Definition op_addl_ESI_T0 : X W unit := xmod (fun s => set_esi (u32 (ESI s + T0 s)) s).
Definition op_addw_ESI_T0 : X W unit := xmod (fun s => set_esi (low16 (ESI s) (ESI s + T0 s)) s).
Definition op_addl_EDI_T0 : X W unit := xmod (fun s => set_edi (u32 (EDI s + T0 s)) s).
Definition op_addw_EDI_T0 : X W unit := xmod (fun s => set_edi (low16 (EDI s) (EDI s + T0 s)) s).
Definition op_decl_ECX : X W unit := xmod (fun s => set_ecx (u32 (ECX s - 1)) s).
Definition op_decw_ECX : X W unit := xmod (fun s => set_ecx (low16 (ECX s) (ECX s - 1)) s).
Definition op_addl_A0_SS : X W unit := xmod (fun s => set_A0 (u32 (A0 s + sc_base (seg R_SS s))) s).
Definition op_subl_A0_2 : X W unit := xmod (fun s => set_A0 (u32 (A0 s - 2)) s).
Definition op_subl_A0_4 : X W unit := xmod (fun s => set_A0 (u32 (A0 s - 4)) s).
Definition op_addl_ESP_4 : X W unit := xmod (fun s => set_esp (u32 (ESP s + 4)) s).
Definition op_addl_ESP_2 : X W unit := xmod (fun s => set_esp (u32 (ESP s + 2)) s).
Definition op_addw_ESP_4 : X W unit := xmod (fun s => set_esp (low16 (ESP s) (ESP s + 4)) s).
Definition op_addw_ESP_2 : X W unit := xmod (fun s => set_esp (low16 (ESP s) (ESP s + 2)) s).
Definition op_addl_ESP_im p : X W unit := xmod (fun s => set_esp (u32 (ESP s + p)) s).
Definition op_addw_ESP_im p : X W unit := xmod (fun s => set_esp (low16 (ESP s) (ESP s + p)) s).
Definition op_movl_T0_Dshift w : X W unit := xmod (fun s => set_T0 (u32 (Z.shiftl (DF s) (SHIFT w))) s).

(** [helper_enter_level(level, data32)]: [while(--level)] copies [level - 1]
    frame pointers. *)
Fixpoint copy_frames (n : nat) (w : osize) (ssp mask esp ebp : Z) : X W Z :=
  match n with
  | O => xret esp
  | S n' =>
      let esp := u32 (esp - DATA_BITS w / 8) in
      let ebp := u32 (ebp - DATA_BITS w / 8) in
      v <- ld_kernel w (ssp + Z.land ebp mask) ;;
      st_kernel w (ssp + Z.land esp mask) v ;;;
      copy_frames n' w ssp mask esp ebp
  end.
Definition helper_enter_level (level data32 : Z) : X W unit :=
  s <- xget ;;
  let mask := get_sp_mask (sc_flags (seg R_SS s)) in
  let ssp := sc_base (seg R_SS s) in
  let w := if negb (data32 =? 0) then SzL else SzW in
  esp <- copy_frames (Z.to_nat (level - 1)) w ssp mask (u32 (ESP s - DATA_BITS w / 8)) (EBP s) ;;
  let esp := u32 (esp - DATA_BITS w / 8) in
  st_kernel w (ssp + Z.land esp mask) (T1 s).

(** * Decimal adjustment *)

(** [op_aam]: a base of 0 divides by zero in the emulator itself. *)
Definition op_aam (base : Z) : X W unit :=
  s <- xget ;;
  let al := Z.land (EAX s) 0xff in
  if base =? 0 then cpu_abort else
  let ah := Z.quot al base in
  let al := Z.rem al base in
  xmod (fun s => set_cc_dst (u32 al) (set_eax (u32 (Z.lor (Z.lor (without (EAX s) 0xffff) al) (Z.shiftl ah 8))) s)).
Definition op_aad (base : Z) : X W unit :=
  xmod (fun s =>
    let al := Z.land (EAX s) 0xff in
    let ah := Z.land (Z.shiftr (EAX s) 8) 0xff in
    let al := Z.land (ah * base + al) 0xff in
    set_cc_dst al (set_eax (Z.lor (without (EAX s) 0xffff) al) s)).

(** AL, AH and the flags after [aaa] and [aas]. *)
Definition aaa_adjust (e al ah : Z) : Z * Z * Z :=
  let icarry := b2z (0xf9 <? al) in
  if (9 <? Z.land al 0x0f) || has e CC_A
  then (Z.land (al + 6) 0x0f, Z.land (ah + 1 + icarry) 0xff, Z.lor e (Z.lor CC_C CC_A))
  else (Z.land al 0x0f, ah, without e (Z.lor CC_C CC_A)).
Definition aas_adjust (e al ah : Z) : Z * Z * Z :=
  let icarry := b2z (al <? 6) in
  if (9 <? Z.land al 0x0f) || has e CC_A
  then (Z.land (al - 6) 0x0f, Z.land (ah - 1 - icarry) 0xff, Z.lor e (Z.lor CC_C CC_A))
  else (Z.land al 0x0f, ah, without e (Z.lor CC_C CC_A)).
Definition ascii_adjust (f : Z -> Z -> Z -> Z * Z * Z) : X W unit :=
  e <- cc_all ;;
  xmod (fun s =>
    let '(al, ah, e) := f e (Z.land (EAX s) 0xff) (Z.land (Z.shiftr (EAX s) 8) 0xff) in
    set_cc_src (u32 e) (set_eax (Z.lor (Z.lor (without (EAX s) 0xffff) al) (Z.shiftl ah 8)) s)).
Definition op_aaa : X W unit := ascii_adjust aaa_adjust.
Definition op_aas : X W unit := ascii_adjust aas_adjust.

(** AL and the flags A and C after [daa] and [das]. *)
Definition daa_adjust (cf af : bool) (al : Z) : Z * Z :=
  let '(al, e) := if (9 <? Z.land al 0x0f) || af then (Z.land (al + 6) 0xff, CC_A) else (al, 0) in
  if (0x9f <? al) || cf then (Z.land (al + 0x60) 0xff, Z.lor e CC_C) else (al, e).
Definition das_adjust (cf af : bool) (al : Z) : Z * Z :=
  let al1 := al in
  let '(al, e) :=
    if (9 <? Z.land al 0x0f) || af
    then (Z.land (al - 6) 0xff, if (al <? 6) || cf then Z.lor CC_A CC_C else CC_A)
    else (al, 0) in
  if (0x99 <? al1) || cf then (Z.land (al - 0x60) 0xff, Z.lor e CC_C) else (al, e).
Definition decimal_adjust (f : bool -> bool -> Z -> Z * Z) : X W unit :=
  e <- cc_all ;;
  xmod (fun s =>
    let '(al, e) := f (has e CC_C) (has e CC_A) (Z.land (EAX s) 0xff) in
    let e := Z.lor (Z.lor (Z.lor e (Z.shiftl (b2z (al =? 0)) 6)) (parity al)) (Z.land al 0x80) in
    set_cc_src e (set_eax (Z.lor (without (EAX s) 0xff) al) s)).
Definition op_daa : X W unit := decimal_adjust daa_adjust.
Definition op_das : X W unit := decimal_adjust das_adjust.

(** * Segments *)

Definition op_movl_seg_T0 (r : segreg) : X W unit := s <- xget ;; load_seg r (T0 s).
Definition op_movl_seg_T0_vm (r : segreg) : X W unit := xmod (fun s =>
  let selector := Z.land (T0 s) 0xffff in
  set_seg r (set_sc_base (Z.shiftl selector 4) (set_sc_selector selector (seg r s))) s).
Definition op_movl_T0_seg (r : segreg) : X W unit := xmod (fun s => set_T0 (sc_selector (seg r s)) s).
Definition op_arpl : X W unit := xmod (fun s =>
  if Z.land (T0 s) 3 <? Z.land (T1 s) 3
  then set_T1 CC_Z (set_T0 (Z.lor (without (T0 s) 3) (Z.land (T1 s) 3)) s)
  else set_T1 0 s).
Definition op_arpl_update : X W unit := e <- cc_all ;; xmod (fun s => set_cc_src (Z.lor (without e CC_Z) (T1 s)) s).
Definition op_clts : X W unit := xmod (fun s =>
  set_cr0 (without (cr0 s) CR0_TS_MASK) (set_hflags (without (hflags s) HF_TS_MASK) s)).

(** * The flags register *)

(** [op_set*_T0_cc]: the conditions from the flags. *)
Definition op_set_T0_cc (cond : Z -> Z) : X W unit := e <- cc_all ;; xmod (set_T0 (u32 (cond e))).
Definition op_setb_T0_cc : X W unit := c <- cc_c ;; xmod (set_T0 (u32 c)).
Definition op_xor_T0_1 : X W unit := xmod (fun s => set_T0 (Z.lxor (T0 s) 1) s).
Definition op_set_cc_op p : X W unit := xmod (set_cc_op p).
Definition op_mov_T0_cc : X W unit := e <- cc_all ;; xmod (set_T0 (u32 e)).

Definition USER_FLAGS : Z := Z.lor TF_MASK (Z.lor AC_MASK (Z.lor ID_MASK NT_MASK)).
Definition load_T0_eflags (mask : Z) : X W unit := s <- xget ;; load_eflags (T0 s) mask.
Definition op_movl_eflags_T0 : X W unit := load_T0_eflags USER_FLAGS.
Definition op_movw_eflags_T0 : X W unit := load_T0_eflags (Z.land USER_FLAGS 0xffff).
Definition op_movl_eflags_T0_io : X W unit := load_T0_eflags (Z.lor USER_FLAGS IF_MASK).
Definition op_movw_eflags_T0_io : X W unit := load_T0_eflags (Z.land (Z.lor USER_FLAGS IF_MASK) 0xffff).
Definition op_movl_eflags_T0_cpl0 : X W unit := load_T0_eflags (Z.lor (Z.lor USER_FLAGS IF_MASK) IOPL_MASK).
Definition op_movw_eflags_T0_cpl0 : X W unit := load_T0_eflags (Z.land (Z.lor (Z.lor USER_FLAGS IF_MASK) IOPL_MASK) 0xffff).
Definition op_movb_eflags_T0 : X W unit :=
  e <- cc_all ;;
  xmod (fun s => set_cc_src (Z.lor (Z.land (T0 s) (Z.lor (Z.lor (Z.lor (Z.lor CC_S CC_Z) CC_A) CC_P) CC_C)) (Z.land e CC_O)) s).
Definition op_movl_T0_eflags : X W unit :=
  e <- cc_all ;;
  xmod (fun s => set_T0 (u32 (Z.lor (Z.lor e (Z.land (DF s) DF_MASK)) (without (eflags s) (Z.lor VM_MASK RF_MASK)))) s).
Definition op_cld : X W unit := xmod (set_df 1).
Definition op_std : X W unit := xmod (set_df (-1)).
Definition op_clc : X W unit := e <- cc_all ;; xmod (set_cc_src (without e CC_C)).
Definition op_stc : X W unit := e <- cc_all ;; xmod (set_cc_src (u32 (Z.lor e CC_C))).
Definition op_cmc : X W unit := e <- cc_all ;; xmod (set_cc_src (u32 (Z.lxor e CC_C))).
Definition op_salc : X W unit := c <- cc_c ;; xmod (fun s => set_eax (Z.lor (without (EAX s) 0xff) (Z.land (- c) 0xff)) s).
End Ops.
