(* ===== verification/X86Shift.v ===== *)
(** Micro operations of the emulated processor that come in several operand
    sizes, src/sysvm/target-i386/ops_template.h and ops_template_mem.h: shifts,
    rotations, double shifts, addition and subtraction with carry, compare and
    exchange, and the bit operations.  The templates of ops_template_mem.h are
    included without and with a store of the result at A0: the argument [m] says
    which. *)
From S2P Require Import Prelude CcFlags X86 X86Seg X86Int X86Ops.

Definition SHIFT_MASK (w : osize) : Z := DATA_BITS w - 1.
Definition SHIFT1_MASK : Z := 0x1f.

Definition rclw_table : list Z :=
  [0; 1; 2; 3; 4; 5; 6; 7; 8; 9; 10; 11; 12; 13; 14; 15; 16; 0; 1; 2; 3; 4; 5; 6; 7; 8; 9; 10; 11; 12; 13; 14].
Definition rclb_table : list Z :=
  [0; 1; 2; 3; 4; 5; 6; 7; 8; 0; 1; 2; 3; 4; 5; 6; 7; 8; 0; 1; 2; 3; 4; 5; 6; 7; 8; 0; 1; 2; 3; 4].

(** The count of a rotation through the carry. *)
Definition rc_count (w : osize) (t1 : Z) : Z :=
  let count := Z.land t1 SHIFT1_MASK in
  match w with
  | SzB => nth (Z.to_nat count) rclb_table 0
  | SzW => nth (Z.to_nat count) rclw_table 0
  | SzL => count
  end.

(** [x << n] of a [target_ulong] *)
Definition shl32 (x n : Z) : Z := u32 (Z.shiftl x n).

Section Shift.
Context {W : Type} `{!Bus W}.

(** [glue(st, MEM_SUFFIX)(A0, T0)] under [MEM_WRITE] *)
Definition store_T0 (m : bool) (w : osize) : X W unit :=
  if m then s <- xget ;; st_kernel w (A0 s) (T0 s) else xret tt.

(** * ops_template.h *)

Definition op_shl_T0_T1 (w : osize) : X W unit := xmod (fun s => set_T0 (shl32 (T0 s) (Z.land (T1 s) SHIFT1_MASK)) s).
Definition op_shr_T0_T1 w : X W unit := xmod (fun s =>
  set_T0 (Z.shiftr (Z.land (T0 s) (DATA_MASK w)) (Z.land (T1 s) SHIFT1_MASK)) s).
Definition op_sar_T0_T1 w : X W unit := xmod (fun s =>
  set_T0 (u32 (Z.shiftr (data_stype w (T0 s)) (Z.land (T1 s) SHIFT1_MASK))) s).

Definition op_bt_T0_T1_cc w : X W unit := xmod (fun s => set_cc_src (Z.shiftr (T0 s) (Z.land (T1 s) (SHIFT_MASK w))) s).
Definition op_bts_T0_T1_cc w : X W unit := xmod (fun s =>
  let count := Z.land (T1 s) (SHIFT_MASK w) in
  set_T0 (Z.lor (T0 s) (shl32 1 count)) (set_T1 (Z.shiftr (T0 s) count) s)).
Definition op_btr_T0_T1_cc w : X W unit := xmod (fun s =>
  let count := Z.land (T1 s) (SHIFT_MASK w) in
  set_T0 (without (T0 s) (shl32 1 count)) (set_T1 (Z.shiftr (T0 s) count) s)).
Definition op_btc_T0_T1_cc w : X W unit := xmod (fun s =>
  let count := Z.land (T1 s) (SHIFT_MASK w) in
  set_T0 (Z.lxor (T0 s) (shl32 1 count)) (set_T1 (Z.shiftr (T0 s) count) s)).
Definition op_add_bit_A0_T1 w : X W unit := xmod (fun s =>
  set_A0 (u32 (A0 s + Z.shiftl (Z.shiftr (data_stype w (T1 s)) (3 + SHIFT w)) (SHIFT w))) s).
Definition op_update_bt_cc : X W unit := xmod (fun s => set_cc_src (T1 s) s).

(** [while((res & 1) == 0) { count++; res >>= 1; }], [res] signed; [None] is a
    loop that has not ended after [fuel] steps. *)
Fixpoint bsf_loop (fuel : nat) (count res : Z) : option Z :=
  match fuel with
  | O => None
  | S fuel => if Z.land res 1 =? 0 then bsf_loop fuel (count + 1) (Z.shiftr res 1) else Some count
  end.
(** [while((res & SIGN_MASK) == 0) { count--; res <<= 1; }] *)
Fixpoint bsr_loop (fuel : nat) (w : osize) (count res : Z) : option Z :=
  match fuel with
  | O => None
  | S fuel => if Z.land res (SIGN_MASK w) =? 0 then bsr_loop fuel w (count - 1) (s32 (Z.shiftl res 1)) else Some count
  end.
Definition bit_scan (f : Z -> option Z) w : X W unit :=
  s <- xget ;;
  let res := s32 (Z.land (T0 s) (DATA_MASK w)) in
  if negb (res =? 0) then
    match f res with
    | Some count => xmod (fun s => set_cc_dst 1 (set_T1 (u32 count) s))
    | None => cpu_abort
    end
  else xmod (set_cc_dst 0).
Definition op_bsf_T0_cc w : X W unit := bit_scan (bsf_loop 33 0) w.
Definition op_bsr_T0_cc w : X W unit := bit_scan (bsr_loop 33 w (DATA_BITS w - 1)) w.

(** The conditions of [loopnz], [loopz], [jecxz] and [jz_ecx]. *)
Definition op_loopnz w (s : cpu W) : bool := negb (data_type w (ECX s) =? 0) && negb (has (T0 s) CC_Z).
Definition op_loopz w (s : cpu W) : bool := negb (data_type w (ECX s) =? 0) && has (T0 s) CC_Z.
Definition op_jz_ecx w (s : cpu W) : bool := data_type w (ECX s) =? 0.
Definition op_jnz_ecx w (s : cpu W) : bool := negb (data_type w (ECX s) =? 0).

(** * ops_template_mem.h *)

(** The overflow flag of the rotations. *)
Definition rot_of w (src t0 : Z) : Z := Z.land (lshift (Z.lxor src t0) (11 - (DATA_BITS w - 1))) CC_O.
(** [(T0 << count) | (T0 >> (DATA_BITS - count))] and its mirror image *)
Definition rol_val w (t0 count : Z) : Z := Z.lor (shl32 t0 count) (Z.shiftr t0 (DATA_BITS w - count)).
Definition ror_val w (t0 count : Z) : Z := Z.lor (Z.shiftr t0 count) (shl32 t0 (DATA_BITS w - count)).

Definition rotate_cc (val : osize -> Z -> Z -> Z) (cf : osize -> Z -> Z) m w : X W unit :=
  s <- xget ;;
  if negb (Z.land (T1 s) SHIFT1_MASK =? 0) then
    let count := Z.land (T1 s) (SHIFT_MASK w) in
    let t0 := val w (Z.land (T0 s) (DATA_MASK w)) count in
    xmod (set_T0 t0) ;;;
    store_T0 m w ;;;
    e <- cc_all ;;
    xmod (fun s' => set_cc_op CC_OP_EFLAGS (set_cc_src
      (u32 (Z.lor (Z.lor (without e (Z.lor CC_O CC_C)) (rot_of w (T0 s) t0)) (Z.land (cf w t0) CC_C))) s'))
  else xret tt.
Definition op_rol_T0_T1_cc : bool -> osize -> X W unit := rotate_cc rol_val (fun _ t0 => t0).
Definition op_ror_T0_T1_cc : bool -> osize -> X W unit := rotate_cc ror_val (fun w t0 => Z.shiftr t0 (DATA_BITS w - 1)).
Definition rotate (val : osize -> Z -> Z -> Z) m w : X W unit :=
  s <- xget ;;
  let count := Z.land (T1 s) (SHIFT_MASK w) in
  if negb (count =? 0) then
    xmod (set_T0 (val w (Z.land (T0 s) (DATA_MASK w)) count)) ;;; store_T0 m w
  else xret tt.
Definition op_rol_T0_T1 : bool -> osize -> X W unit := rotate rol_val.
Definition op_ror_T0_T1 : bool -> osize -> X W unit := rotate ror_val.

(** Rotation through the carry [c]: the new value and the carry out. *)
Definition rcl_val w (t0 c count : Z) : Z :=
  let res := Z.lor (shl32 t0 count) (shl32 c (count - 1)) in
  if 1 <? count then Z.lor res (Z.shiftr t0 (DATA_BITS w + 1 - count)) else res.
Definition rcr_val w (t0 c count : Z) : Z :=
  let res := Z.lor (Z.shiftr t0 count) (shl32 c (DATA_BITS w - count)) in
  if 1 <? count then Z.lor res (shl32 t0 (DATA_BITS w + 1 - count)) else res.
Definition rc_cc (val : osize -> Z -> Z -> Z -> Z) (cf : osize -> Z -> Z -> Z) m w : X W unit :=
  s <- xget ;;
  let count := rc_count w (T1 s) in
  if negb (count =? 0) then
    e <- cc_all ;;
    let src := Z.land (T0 s) (DATA_MASK w) in
    let t0 := val w src (Z.land e CC_C) count in
    xmod (set_T0 t0) ;;;
    store_T0 m w ;;;
    xmod (fun s' => set_cc_op CC_OP_EFLAGS (set_cc_src
      (u32 (Z.lor (Z.lor (without e (Z.lor CC_C CC_O)) (rot_of w src t0)) (Z.land (cf w src count) CC_C))) s'))
  else xret tt.
Definition op_rcl_T0_T1_cc : bool -> osize -> X W unit :=
  rc_cc rcl_val (fun w src count => Z.shiftr src (DATA_BITS w - count)).
Definition op_rcr_T0_T1_cc : bool -> osize -> X W unit :=
  rc_cc rcr_val (fun w src count => Z.shiftr src (count - 1)).

(** The end of the shifts: the result, its store and the flags to compute. *)
Definition shift_end m w (t0 src op : Z) : X W unit :=
  xmod (set_T0 t0) ;;; store_T0 m w ;;; xmod (fun s => set_cc_op (op + SHIFT w) (set_cc src t0 s)).

Definition op_shl_T0_T1_cc m w : X W unit :=
  s <- xget ;;
  let count := Z.land (T1 s) SHIFT1_MASK in
  if negb (count =? 0) then
    shift_end m w (shl32 (T0 s) count) (shl32 (data_type w (T0 s)) (count - 1)) CC_OP_SHLB
  else xret tt.
Definition op_shr_T0_T1_cc m w : X W unit :=
  s <- xget ;;
  let count := Z.land (T1 s) SHIFT1_MASK in
  if negb (count =? 0) then
    let t0 := Z.land (T0 s) (DATA_MASK w) in
    shift_end m w (Z.shiftr t0 count) (Z.shiftr t0 (count - 1)) CC_OP_SARB
  else xret tt.
Definition op_sar_T0_T1_cc m w : X W unit :=
  s <- xget ;;
  let count := Z.land (T1 s) SHIFT1_MASK in
  if negb (count =? 0) then
    let src := data_stype w (T0 s) in
    shift_end m w (u32 (Z.shiftr src count)) (u32 (Z.shiftr src (count - 1))) CC_OP_SARB
  else xret tt.

(** The double shifts of 16 bits: T1, the new T0 and the bits shifted out last. *)
Definition shldw_val (t0 t1 count : Z) : Z * Z * Z :=
  let t1 := Z.land t1 0xffff in
  let res := Z.lor t1 (shl32 t0 16) in
  let tmp := Z.shiftr res (32 - count) in
  let res := shl32 res count in
  let res := if 16 <? count then Z.lor res (shl32 t1 (count - 16)) else res in
  (t1, Z.shiftr res 16, tmp).
Definition shrdw_val (t0 t1 count : Z) : Z * Z * Z :=
  let res := Z.lor (Z.land t0 0xffff) (shl32 t1 16) in
  let tmp := Z.shiftr res (count - 1) in
  let res := Z.shiftr res count in
  (t1, if 16 <? count then Z.lor res (shl32 t1 (32 - count)) else res, tmp).
(** The same of 32 bits. *)
Definition shldl_val (t0 t1 count : Z) : Z * Z * Z :=
  let t0 := Z.land t0 0xffffffff in
  let t1 := Z.land t1 0xffffffff in
  (t1, Z.lor (shl32 t0 count) (Z.shiftr t1 (32 - count)), shl32 t0 (count - 1)).
Definition shrdl_val (t0 t1 count : Z) : Z * Z * Z :=
  let t0 := Z.land t0 0xffffffff in
  let t1 := Z.land t1 0xffffffff in
  (t1, Z.lor (Z.shiftr t0 count) (shl32 t1 (32 - count)), Z.shiftr t0 (count - 1)).

(** By a constant, which leaves CC_OP to the translator, and by ECX. *)
Definition dshift_im (f : Z -> Z -> Z -> Z * Z * Z) m w (count : Z) : X W unit :=
  s <- xget ;;
  let '(t1, t0, tmp) := f (T0 s) (T1 s) count in
  xmod (fun s => set_T0 t0 (set_T1 t1 s)) ;;; store_T0 m w ;;; xmod (set_cc tmp t0).
Definition dshift_ECX (f : Z -> Z -> Z -> Z * Z * Z) (op : Z) m w : X W unit :=
  s <- xget ;;
  let count := Z.land (ECX s) SHIFT1_MASK in
  if negb (count =? 0) then dshift_im f m w count ;;; xmod (set_cc_op (op + SHIFT w)) else xret tt.
Definition op_shldw_T0_T1_im_cc m count : X W unit := dshift_im shldw_val m SzW count.
Definition op_shldw_T0_T1_ECX_cc m : X W unit := dshift_ECX shldw_val CC_OP_SARB m SzW.
Definition op_shrdw_T0_T1_im_cc m count : X W unit := dshift_im shrdw_val m SzW count.
Definition op_shrdw_T0_T1_ECX_cc m : X W unit := dshift_ECX shrdw_val CC_OP_SARB m SzW.
Definition op_shldl_T0_T1_im_cc m count : X W unit := dshift_im shldl_val m SzL count.
Definition op_shldl_T0_T1_ECX_cc m : X W unit := dshift_ECX shldl_val CC_OP_SHLB m SzL.
Definition op_shrdl_T0_T1_im_cc m count : X W unit := dshift_im shrdl_val m SzL count.
Definition op_shrdl_T0_T1_ECX_cc m : X W unit := dshift_ECX shrdl_val CC_OP_SARB m SzL.

(** Addition and subtraction with carry. *)
Definition op_adc_T0_T1_cc m w : X W unit :=
  cf <- cc_c ;;
  xmod (fun s => set_T0 (u32 (T0 s + T1 s + cf)) s) ;;;
  store_T0 m w ;;;
  xmod (fun s => set_cc_op (CC_OP_ADDB + SHIFT w + cf * 4) (set_cc (T1 s) (T0 s) s)).
Definition op_sbb_T0_T1_cc m w : X W unit :=
  cf <- cc_c ;;
  xmod (fun s => set_T0 (u32 (T0 s - T1 s - cf)) s) ;;;
  store_T0 m w ;;;
  xmod (fun s => set_cc_op (CC_OP_SUBB + SHIFT w + cf * 4) (set_cc (T1 s) (T0 s) s)).
Definition op_cmpxchg_T0_T1_EAX_cc m w : X W unit :=
  s <- xget ;;
  let src := T0 s in
  let dst := u32 (EAX s - T0 s) in
  (if data_type w dst =? 0 then xmod (fun s => set_T0 (T1 s) s) ;;; store_T0 m w
   else xmod (fun s => set_eax (Z.lor (without (EAX s) (DATA_MASK w)) (Z.land (T0 s) (DATA_MASK w))) s)) ;;;
  xmod (set_cc src dst).
End Shift.
