(* ===== verification/X86Arith.v ===== *)
(** Rotations and arithmetic on the emulated processor: rotations rotate bit by bit,
    by the count modulo the size, and through the carry modulo the size plus one;
    chains of additions and subtractions with carry are wide additions and
    subtractions, the bit scans find the lowest and highest bit, division is exact or
    faults, and the decimal adjustments against decimal arithmetic. *)
From S2P Require Import Prelude CcFlags X86 X86Seg X86Int X86Ram X86Trap X86Ops X86Shift.


Lemma mask_data w x : Z.land x (DATA_MASK w) = data_type w x.
Proof. by destruct w; unfold data_type; cbn [DATA_MASK DATA_BITS]; [apply (Z.land_ones x 8)|apply (Z.land_ones x 16)|apply (Z.land_ones x 32)]. Qed.

Lemma data_testbit w x j : 0 <= j < DATA_BITS w -> Z.testbit (data_type w x) j = Z.testbit x j.
Proof. intros. unfold data_type. apply Z.mod_pow2_bits_low. lia. Qed.
Lemma data_testbit_high w x j : DATA_BITS w <= j -> Z.testbit (data_type w x) j = false.
Proof. intros. pose proof (DATA_BITS_range w). unfold data_type. apply Z.mod_pow2_bits_high. lia. Qed.

Lemma shl32_testbit x k j : 0 <= k -> 0 <= j < 32 -> Z.testbit (shl32 x k) j = (k <=? j) && Z.testbit x (j - k).
Proof.
  intros Hk Hj. unfold shl32. rewrite u32_testbit, Z.shiftl_spec by lia.
  destruct (Z.leb_spec k j); [done|]. rewrite Z.testbit_neg_r by lia. done.
Qed.

(** The count of a rotation is the count modulo the size. *)
Lemma shift_count w x : Z.land x (SHIFT_MASK w) = x mod DATA_BITS w.
Proof. destruct w; [apply (Z.land_ones x 3)|apply (Z.land_ones x 4)|apply (Z.land_ones x 5)]; lia. Qed.

Lemma carry_testbit (c : bool) k j : 0 <= k -> 0 <= j < 32 -> Z.testbit (shl32 (b2z c) k) j = (k =? j) && c.
Proof.
  intros Hk Hj. rewrite shl32_testbit by lia. destruct (Z.eqb_spec k j) as [->|Hne].
  - rewrite Z.sub_diag, Z.leb_refl. by destruct c.
  - destruct (Z.leb_spec k j); [|done]. cbn [andb]. destruct c; cbn [b2z]; [|apply Z.testbit_0_l].
    apply (Z.pow2_bits_false 0). lia.
Qed.

Section Values.
Variables (w : osize) (x : Z).
Let n := DATA_BITS w.
Local Abbreviation d := (data_type w x).

Lemma rol_bits count j : 0 <= count < n -> 0 <= j < n -> Z.testbit (rol_val w d count) j = Z.testbit x ((j - count) mod n).
Proof using Type.
  intros Hc Hj. pose proof (DATA_BITS_range w) as Hn. fold n in Hn. unfold rol_val.
  rewrite Z.lor_spec, shl32_testbit, Z.shiftr_spec by lia. fold n. destruct (Z.leb_spec count j).
  - rewrite (data_testbit_high w x (j + (n - count))), orb_false_r by (fold n; lia). cbn [andb].
    rewrite data_testbit, Z.mod_small by (fold n; lia). done.
  - cbn [andb orb]. rewrite data_testbit by (fold n; lia). f_equal.
    apply (Z.mod_unique_pos _ _ (-1)); lia.
Qed.

Lemma ror_bits count j : 0 <= count < n -> 0 <= j < n -> Z.testbit (ror_val w d count) j = Z.testbit x ((j + count) mod n).
Proof using Type.
  intros Hc Hj. pose proof (DATA_BITS_range w) as Hn. fold n in Hn. unfold ror_val.
  rewrite Z.lor_spec, shl32_testbit, Z.shiftr_spec by (fold n; lia). fold n. destruct (Z.leb_spec (n - count) j).
  - rewrite (data_testbit_high w x (j + count)) by (fold n; lia). cbn [andb orb].
    rewrite data_testbit by (fold n; lia). f_equal. apply (Z.mod_unique_pos _ _ 1); lia.
  - rewrite orb_false_r. rewrite data_testbit, Z.mod_small by (fold n; lia). done.
Qed.

(** The operand with the carry [c] on top: [n + 1] bits. *)
Definition with_carry (c : bool) (y j : Z) : bool := if j =? n then c else Z.testbit y j.

Lemma rcl_bits c count j : 0 < count <= n -> count < 32 -> 0 <= j < n ->
  Z.testbit (rcl_val w d (b2z c) count) j = with_carry c x ((j - count) mod (n + 1)).
Proof using Type.
  intros Hc Hc32 Hj. pose proof (DATA_BITS_range w) as Hn. fold n in Hn. unfold rcl_val.
  assert (Z.testbit (Z.lor (shl32 d count) (shl32 (b2z c) (count - 1))) j =
          (count <=? j) && Z.testbit d (j - count) || (count - 1 =? j) && c) as E.
  { by rewrite Z.lor_spec, shl32_testbit, carry_testbit by lia. }
  unfold with_carry. destruct (Z.leb_spec count j).
  - (* above the count *)
    rewrite (Z.mod_small (j - count)) by lia. destruct (Z.eqb_spec (j - count) n); [lia|].
    rewrite (proj2 (Z.eqb_neq (count - 1) j)) in E by lia. cbn [andb] in E. rewrite orb_false_r, data_testbit in E by (fold n; lia).
    destruct (1 <? count); [|done]. rewrite Z.lor_spec, E, Z.shiftr_spec, (data_testbit_high w x) by (fold n; lia).
    apply orb_false_r.
  - assert ((j - count) mod (n + 1) = n + 1 + j - count) as -> by (symmetry; apply (Z.mod_unique_pos _ _ (-1)); lia).
    cbn [andb orb] in E. destruct (Z.eqb_spec (count - 1) j) as [Hj1|Hj1].
    + rewrite (proj2 (Z.eqb_eq _ n)) by lia. cbn [andb] in E. destruct (1 <? count); [|done].
      rewrite Z.lor_spec, E, Z.shiftr_spec, (data_testbit_high w x) by (fold n; lia). apply orb_false_r.
    + rewrite (proj2 (Z.eqb_neq _ n)) by lia. rewrite (proj2 (Z.ltb_lt 1 count)) by lia.
      rewrite Z.lor_spec, E, Z.shiftr_spec by lia. cbn [andb orb]. rewrite data_testbit by (fold n; lia). f_equal. fold n. lia.
Qed.

Lemma rcr_bits c count j : 0 < count <= n -> count < 32 -> 0 <= j < n ->
  Z.testbit (rcr_val w d (b2z c) count) j = with_carry c x ((j + count) mod (n + 1)).
Proof using Type.
  intros Hc Hc32 Hj. pose proof (DATA_BITS_range w) as Hn. fold n in Hn. unfold rcr_val.
  assert (Z.testbit (Z.lor (Z.shiftr d count) (shl32 (b2z c) (n - count))) j =
          Z.testbit d (j + count) || (n - count =? j) && c) as E.
  { by rewrite Z.lor_spec, Z.shiftr_spec, carry_testbit by lia. }
  fold n. unfold with_carry.
  assert (Z.testbit (shl32 d (n + 1 - count)) j = (n + 1 - count <=? j) && Z.testbit d (j - (n + 1 - count))) as E2
    by (by rewrite shl32_testbit by lia).
  destruct (Z.ltb_spec (j + count) n); [|destruct (Z.eqb_spec (j + count) n) as [He|He]].
  - (* below the carry *)
    rewrite (Z.mod_small (j + count)), (proj2 (Z.eqb_neq (j + count) n)) by lia.
    rewrite (proj2 (Z.eqb_neq (n - count) j)) in E by lia. cbn [andb] in E. rewrite orb_false_r, data_testbit in E by (fold n; lia).
    destruct (1 <? count); [|done]. rewrite Z.lor_spec, E, E2, (proj2 (Z.leb_gt _ j)) by lia. apply orb_false_r.
  - rewrite (Z.mod_small (j + count)), (proj2 (Z.eqb_eq (j + count) n)) by lia.
    rewrite (proj2 (Z.eqb_eq (n - count) j)), (data_testbit_high w x) in E by (fold n; lia). cbn [andb orb] in E.
    destruct (1 <? count); [|done]. rewrite Z.lor_spec, E, E2, (proj2 (Z.leb_gt _ j)) by lia. apply orb_false_r.
  - assert ((j + count) mod (n + 1) = j + count - (n + 1)) as -> by (symmetry; apply (Z.mod_unique_pos _ _ 1); lia).
    rewrite (proj2 (Z.eqb_neq (j + count - (n + 1)) n)) by lia. rewrite (proj2 (Z.ltb_lt 1 count)) by lia.
    rewrite (proj2 (Z.eqb_neq (n - count) j)), (data_testbit_high w x) in E by (fold n; lia). cbn [andb orb] in E.
    rewrite Z.lor_spec, E, E2, (proj2 (Z.leb_le _ j)) by lia. cbn [andb orb]. rewrite data_testbit by (fold n; lia). f_equal. lia.
Qed.
End Values.

(** * The flags of a rotation *)

(** The flags a rotation leaves alone. *)
Definition SZAP_MASK : Z := Z.lor (Z.lor (Z.lor CC_S CC_Z) CC_A) CC_P.

Lemma rot_flags e l cf m : m = Z.lor CC_O CC_C \/ m = Z.lor CC_C CC_O ->
  let F := u32 (Z.lor (Z.lor (without e m) (Z.land l CC_O)) (Z.land cf CC_C)) in
  has F CC_C = Z.testbit cf 0 /\ Z.land F SZAP_MASK = Z.land e SZAP_MASK.
Proof.
  intros Hm F. unfold F, has, without. rewrite u32_ones, !Z.land_lor_distr_l, <- !Z.land_assoc.
  assert (u32 (Z.lnot m) = 0xFFFFF7FE) as -> by (by destruct Hm as [-> | ->]).
  change (Z.land CC_C (Z.land (Z.ones 32) CC_C)) with 1. change (Z.land CC_O (Z.land (Z.ones 32) CC_C)) with 0.
  change (Z.land 0xFFFFF7FE (Z.land (Z.ones 32) CC_C)) with 0. change (Z.land CC_O (Z.land (Z.ones 32) SZAP_MASK)) with 0.
  change (Z.land CC_C (Z.land (Z.ones 32) SZAP_MASK)) with 0. change (Z.land 0xFFFFF7FE (Z.land (Z.ones 32) SZAP_MASK)) with SZAP_MASK.
  rewrite !Z.land_0_r, !Z.lor_0_r, !Z.lor_0_l. split; [|done].
  change 1 with (2 ^ 0). rewrite land_pow2 by lia. by destruct (Z.testbit cf 0).
Qed.

Section Rotate.
Context {W : Type} `{!Bus W}.

Lemma rotate_cc_ok val cf w (s : cpu W) e : cc_all s = Done e s -> Z.land (T1 s) 0x1f <> 0 ->
  let t0 := val w (data_type w (T0 s)) (T1 s mod DATA_BITS w) in
  exists s', rotate_cc val cf false w s = Done tt s' /\ T0 s' = t0 /\ CC_OP s' = CC_OP_EFLAGS /\
    has (CC_SRC s') CC_C = Z.testbit (cf w t0) 0 /\ Z.land (CC_SRC s') SZAP_MASK = Z.land e SZAP_MASK.
Proof using Type.
  intros He Hn t0. unfold rotate_cc. xsteps. rewrite (proj2 (Z.eqb_neq _ 0)) by done. cbn [negb].
  rewrite mask_data, shift_count. fold t0. xsteps. unfold store_T0. xsteps.
  assert (cc_all (set_T0 t0 s) = Done e (set_T0 t0 s)) as E.
  { revert He. unfold cc_all. rewrite !xbind_get. cbn [fl set_T0]. destruct (cc_table _); [|done]. by intros [= ->]. }
  rewrite (xbind_done _ _ _ _ _ E). eexists. split; [reflexivity|]. split; [done|]. split; [done|].
  apply rot_flags. by left.
Qed.
End Rotate.

(** [rol] and [ror] of each operand size, with any count that is not 0
    modulo 32: bit j of the result is the bit of the operand [count] places below
    or above it, modulo the size; the carry is the bit that came round last, and
    the sign, zero, auxiliary and parity flags stay. *)
Theorem rotations_rotate {W} `{!Bus W} w (s : cpu W) e :
  cc_all s = Done e s -> Z.land (T1 s) 0x1f <> 0 ->
  let n := DATA_BITS w in
  (exists s', op_rol_T0_T1_cc false w s = Done tt s' /\ CC_OP s' = CC_OP_EFLAGS /\
    (forall j, 0 <= j < n -> Z.testbit (T0 s') j = Z.testbit (T0 s) ((j - T1 s) mod n)) /\
    has (CC_SRC s') CC_C = Z.testbit (T0 s') 0 /\ Z.land (CC_SRC s') SZAP_MASK = Z.land e SZAP_MASK) /\
  (exists s', op_ror_T0_T1_cc false w s = Done tt s' /\ CC_OP s' = CC_OP_EFLAGS /\
    (forall j, 0 <= j < n -> Z.testbit (T0 s') j = Z.testbit (T0 s) ((j + T1 s) mod n)) /\
    has (CC_SRC s') CC_C = Z.testbit (T0 s') (n - 1) /\ Z.land (CC_SRC s') SZAP_MASK = Z.land e SZAP_MASK).
Proof.
  intros He Hc n. pose proof (DATA_BITS_range w) as Hn. fold n in Hn.
  pose proof (Z.mod_pos_bound (T1 s) n ltac:(lia)) as Hb. split.
  - destruct (rotate_cc_ok rol_val (fun _ t0 => t0) w s e He Hc) as (s' & E & ET & EO & EC & EF).
    exists s'. split; [done|]. split; [done|]. split; [|by rewrite ET].
    intros j Hj. rewrite ET, rol_bits by (fold n; lia). f_equal. fold n. by rewrite Zminus_mod_idemp_r.
  - destruct (rotate_cc_ok ror_val (fun w t0 => Z.shiftr t0 (DATA_BITS w - 1)) w s e He Hc) as (s' & E & ET & EO & EC & EF).
    exists s'. split; [done|]. split; [done|]. split; [|split; [|done]].
    + intros j Hj. rewrite ET, ror_bits by (fold n; lia). f_equal. fold n. by rewrite Zplus_mod_idemp_r.
    + rewrite EC, ET, Z.shiftr_spec by lia. by rewrite Z.add_0_l.
Qed.

(** A processor for examples: T0, T1 and the carry. *)
Definition small_cpu (t0 t1 c : Z) : cpu unit :=
  Cpu (Gregs 0 0 0 0 0 0 0 0) 0 (Fl 2 c 0 CC_OP_EFLAGS 1 0) (Segs (Sc 0 0 0 0) (Sc 0 0 0 0) (Sc 0 0 0 0) (Sc 0 0 0 0) (Sc 0 0 0 0) (Sc 0 0 0 0))
    (Dts (Sc 0 0 0 0) (Sc 0 0 0 0) (Sc 0 0 0 0) (Sc 0 0 0 0)) (Crs 1 0 0 0) (Exn 0 0 0 0) (Tmps t0 t1 0) tt.
(** No memory behind it. *)
#[export] Instance no_bus : Bus unit := {| bus_ld _ a m := (PageFault a 0, m); bus_st _ a _ m := (PageFault a 2, m) |}.

Lemma rotations_rotate_witness :
  (exists s', op_rol_T0_T1_cc false SzB (small_cpu 0x81 9 0) = Done tt s' /\ CC_OP s' = CC_OP_EFLAGS /\
    (forall j, 0 <= j < 8 -> Z.testbit (T0 s') j = Z.testbit 0x81 ((j - 9) mod 8)) /\
    has (CC_SRC s') CC_C = Z.testbit (T0 s') 0 /\ Z.land (CC_SRC s') SZAP_MASK = 0) /\
  (exists s', op_ror_T0_T1_cc false SzB (small_cpu 0x81 9 0) = Done tt s' /\ CC_OP s' = CC_OP_EFLAGS /\
    (forall j, 0 <= j < 8 -> Z.testbit (T0 s') j = Z.testbit 0x81 ((j + 9) mod 8)) /\
    has (CC_SRC s') CC_C = Z.testbit (T0 s') 7 /\ Z.land (CC_SRC s') SZAP_MASK = 0).
Proof. apply (rotations_rotate SzB (small_cpu 0x81 9 0) 0); [reflexivity|discriminate]. Defined.

(** * Through the carry *)

(** The tables hold the counts modulo the size plus one. *)
Lemma rc_count_mod w x : rc_count w x = Z.land x 0x1f mod (DATA_BITS w + 1).
Proof.
  unfold rc_count. assert (0 <= Z.land x SHIFT1_MASK < 32) as Hc.
  { change SHIFT1_MASK with (Z.ones 5). rewrite Z.land_ones by lia. by apply Z.mod_pos_bound. }
  change 0x1f with SHIFT1_MASK. set (c := Z.land x SHIFT1_MASK) in *.
  assert (forall P : Z -> bool, forallb P (seqZ 0 32) = true -> P c = true) as Hall.
  { intros P H. rewrite forallb_forall in H. apply H, list_elem_of_In, elem_of_seqZ. lia. }
  destruct w; cbn [DATA_BITS].
  - apply Z.eqb_eq. by apply (Hall (fun c => nth (Z.to_nat c) rclb_table 0 =? c mod (8 + 1))).
  - apply Z.eqb_eq. by apply (Hall (fun c => nth (Z.to_nat c) rclw_table 0 =? c mod (16 + 1))).
  - symmetry. apply Z.mod_small. lia.
Qed.

Lemma has_s32 x : has (s32 x) CC_C = has x CC_C.
Proof. unfold has. change CC_C with (2 ^ 0). by rewrite !land_pow2, s32_testbit by lia. Qed.

Lemma land_carry e : Z.land e CC_C = b2z (has e CC_C).
Proof. unfold has. change CC_C with (2 ^ 0). rewrite land_pow2 by lia. by destruct (Z.testbit e 0). Qed.

Section ThroughCarry.
Context {W : Type} `{!Bus W}.

Lemma cc_all_T0 v (s : cpu W) e : cc_all s = Done e s -> cc_all (set_T0 v s) = Done e (set_T0 v s).
Proof using Type.
  unfold cc_all. rewrite !xbind_get. cbn [fl set_T0]. destruct (cc_table _); [|done]. by intros [= ->].
Qed.

Lemma rc_cc_ok val cf w (s : cpu W) e : cc_all s = Done e s -> rc_count w (T1 s) <> 0 ->
  exists s' e', rc_cc val cf false w s = Done tt s' /\ cc_all s' = Done e' s' /\
    T0 s' = val w (data_type w (T0 s)) (b2z (has e CC_C)) (rc_count w (T1 s)) /\
    has e' CC_C = Z.testbit (cf w (data_type w (T0 s)) (rc_count w (T1 s))) 0.
Proof using Type.
  intros He Hn. unfold rc_cc. xsteps. rewrite (proj2 (Z.eqb_neq _ 0)) by done. cbn [negb].
  rewrite (xbind_done _ _ _ _ _ He), mask_data, land_carry. xsteps. unfold store_T0. xsteps.
  do 2 eexists. split; [reflexivity|]. split; [reflexivity|]. split; [done|].
  cbn [fl set_cc_op set_cc_src f_cc_src]. unfold compute_all_eflags. cbn. rewrite has_s32. apply rot_flags. by right.
Qed.
End ThroughCarry.

(** [rcl] and [rcr] of each operand size and any count rotate the operand
    with the carry as its top bit, [n + 1] bits, by the count modulo [n + 1];
    afterwards the carry flag is the new top bit.  A count of 0 changes nothing. *)
Theorem rotations_through_carry {W} `{!Bus W} w (s : cpu W) e :
  cc_all s = Done e s ->
  let n := DATA_BITS w in
  let count := Z.land (T1 s) 0x1f in
  let bits e (s : cpu W) := with_carry w (has e CC_C) (T0 s) in
  (exists s' e', op_rcl_T0_T1_cc false w s = Done tt s' /\ cc_all s' = Done e' s' /\
    forall j, 0 <= j <= n -> bits e' s' j = bits e s ((j - count) mod (n + 1))) /\
  (exists s' e', op_rcr_T0_T1_cc false w s = Done tt s' /\ cc_all s' = Done e' s' /\
    forall j, 0 <= j <= n -> bits e' s' j = bits e s ((j + count) mod (n + 1))).
Proof.
  intros He n count bits. pose proof (DATA_BITS_range w) as Hn. fold n in Hn.
  assert (0 <= count < 32) as Hcb by (unfold count; change 0x1f with (Z.ones 5); rewrite Z.land_ones by lia; by apply Z.mod_pos_bound).
  pose proof (rc_count_mod w (T1 s)) as Hrc. fold n count in Hrc.
  pose proof (Z.mod_pos_bound count (n + 1) ltac:(lia)) as Hb.
  destruct (decide (rc_count w (T1 s) = 0)) as [H0|H0].
  { split; exists s, e; unfold op_rcl_T0_T1_cc, op_rcr_T0_T1_cc, rc_cc; rewrite !xbind_get, H0; (split; [done|]); (split; [done|]);
      intros j Hj; [rewrite <- Zminus_mod_idemp_r|rewrite <- Zplus_mod_idemp_r]; rewrite <- Hrc, H0;
      rewrite ?Z.sub_0_r, ?Z.add_0_r, Z.mod_small by lia; done. }
  assert (count mod (n + 1) < 32) as Hlt by (pose proof (Z.mod_le count (n + 1)); lia).
  split.
  - destruct (rc_cc_ok rcl_val (fun w src count => Z.shiftr src (DATA_BITS w - count)) w s e He H0) as (s' & e' & E & E' & ET & EC).
    exists s', e'. split; [done|]. split; [done|]. intros j Hj. rewrite <- Zminus_mod_idemp_r, <- Hrc.
    rewrite Hrc in EC, ET, H0 |- *. unfold bits. destruct (decide (j = n)) as [->|Hne].
    + unfold with_carry at 1. fold n. rewrite Z.eqb_refl, EC. fold n. rewrite Z.shiftr_spec, Z.add_0_l by lia.
      rewrite (Z.mod_small (n - count mod (n + 1))) by lia. unfold with_carry. fold n.
      rewrite (proj2 (Z.eqb_neq _ n)) by lia. apply data_testbit. fold n. lia.
    + unfold with_carry at 1. fold n. rewrite (proj2 (Z.eqb_neq j n)), ET by done. apply rcl_bits; fold n; lia.
  - destruct (rc_cc_ok rcr_val (fun w src count => Z.shiftr src (count - 1)) w s e He H0) as (s' & e' & E & E' & ET & EC).
    exists s', e'. split; [done|]. split; [done|]. intros j Hj. rewrite <- Zplus_mod_idemp_r, <- Hrc.
    rewrite Hrc in EC, ET, H0 |- *. unfold bits. destruct (decide (j = n)) as [->|Hne].
    + unfold with_carry at 1. fold n. rewrite Z.eqb_refl, EC. rewrite Z.shiftr_spec, Z.add_0_l by lia.
      assert ((n + count mod (n + 1)) mod (n + 1) = count mod (n + 1) - 1) as -> by (symmetry; apply (Z.mod_unique_pos _ _ 1); lia).
      unfold with_carry. fold n. rewrite (proj2 (Z.eqb_neq _ n)) by lia. apply data_testbit. fold n. lia.
    + unfold with_carry at 1. fold n. rewrite (proj2 (Z.eqb_neq j n)), ET by done. apply rcr_bits; fold n; lia.
Qed.

Lemma rotations_through_carry_witness :
  (exists s' e', op_rcl_T0_T1_cc false SzB (small_cpu 0x81 11 1) = Done tt s' /\ cc_all s' = Done e' s' /\
    forall j, 0 <= j <= 8 -> with_carry SzB (has e' CC_C) (T0 s') j = with_carry SzB true 0x81 ((j - 11) mod 9)) /\
  (exists s' e', op_rcr_T0_T1_cc false SzB (small_cpu 0x81 11 1) = Done tt s' /\ cc_all s' = Done e' s' /\
    forall j, 0 <= j <= 8 -> with_carry SzB (has e' CC_C) (T0 s') j = with_carry SzB true 0x81 ((j + 11) mod 9)).
Proof. apply (rotations_through_carry SzB (small_cpu 0x81 11 1) 1). reflexivity. Defined.

(** * Arithmetic *)

(** * Wide addition and subtraction *)

(** The number of a list of double words, lowest first. *)
Fixpoint words_val (l : list Z) : Z := match l with [] => 0 | x :: l => x + 2 ^ 32 * words_val l end.

Section Chain.
Context {W : Type} `{!Bus W}.

(** One step: the operands to T0 and T1, the operation, and T0 out of it. *)
Definition step_word (op : X W unit) (x y : Z) : X W Z :=
  xmod (fun s => set_T0 x (set_T1 y s)) ;;; op ;;; xgets (fun s => T0 s).
Fixpoint chain (op : X W unit) (l : list (Z * Z)) : X W (list Z) :=
  match l with
  | [] => xret []
  | (x, y) :: l => r <- step_word op x y ;; rs <- chain op l ;; xret (r :: rs)
  end.

(** The carry is known. *)
Definition carry_is (c : Z) (s : cpu W) : Prop := cc_c s = Done c s /\ 0 <= c <= 1.

Lemma carry_temps c (s : cpu W) x y : carry_is c s -> carry_is c (set_T0 x (set_T1 y s)).
Proof using Type.
  intros [H Hc]. split; [|done]. revert H. unfold cc_c. rewrite !xbind_get. cbn [fl set_T0 set_T1].
  destruct (cc_table _); [|done]. by intros [= ->].
Qed.

Lemma adc_step c (s : cpu W) x y : carry_is c s -> is_u32 x -> is_u32 y ->
  exists r s' c', step_word (op_adc_T0_T1_cc false SzL) x y s = Done r s' /\ carry_is c' s' /\ is_u32 r /\
    r + 2 ^ 32 * c' = x + y + c.
Proof using Type.
  intros H Hx Hy. destruct (carry_temps c s x y H) as [E Hc]. unfold step_word, op_adc_T0_T1_cc. xsteps.
  rewrite (xbind_done _ _ _ _ _ E). unfold store_T0. xsteps. cbn [T0 T1 tmps set_T0 set_T1 t_T0 t_T1].
  assert (forall b, 0 <= b2z b <= 1) as Hb by (intros []; cbn; lia).
  exists (u32 (x + y + c)). eexists. exists (b2z (2 ^ 32 <=? x + y + c)). split; [reflexivity|]. split; [|split; [apply u32_range|]].
  - split; [|apply Hb]. unfold cc_c. xsteps. assert (c = 0 \/ c = 1) as [-> | ->] by lia;
      cbn [fl set_cc set_cc_op set_cc_src set_cc_dst f_cc_op f_cc_src f_cc_dst].
    + change (cc_table _) with (Some (CC (compute_all_add SzL) (compute_c_add SzL))). unfold xret. cbn [compute_c]. f_equal.
      unfold compute_c_add, data_type. cbn [DATA_BITS]. f_equal. apply eq_iff_eq_true. rewrite Z.ltb_lt, Z.leb_le. int_lia.
    + change (cc_table _) with (Some (CC (compute_all_adc SzL) (compute_c_adc SzL))). unfold xret. cbn [compute_c]. f_equal.
      unfold compute_c_adc, data_type. cbn [DATA_BITS]. f_equal. apply eq_iff_eq_true. rewrite !Z.leb_le. int_lia.
  - destruct (Z.leb_spec (2 ^ 32) (x + y + c)); cbn [b2z]; int_lia.
Qed.

Lemma sbb_step c (s : cpu W) x y : carry_is c s -> is_u32 x -> is_u32 y ->
  exists r s' c', step_word (op_sbb_T0_T1_cc false SzL) x y s = Done r s' /\ carry_is c' s' /\ is_u32 r /\
    r - 2 ^ 32 * c' = x - y - c.
Proof using Type.
  intros H Hx Hy. destruct (carry_temps c s x y H) as [E Hc]. unfold step_word, op_sbb_T0_T1_cc. xsteps.
  rewrite (xbind_done _ _ _ _ _ E). unfold store_T0. xsteps. cbn [T0 T1 tmps set_T0 set_T1 t_T0 t_T1].
  assert (forall b, 0 <= b2z b <= 1) as Hb by (intros []; cbn; lia).
  exists (u32 (x - y - c)). eexists. exists (b2z (x - y - c <? 0)). split; [reflexivity|]. split; [|split; [apply u32_range|]].
  - split; [|apply Hb]. unfold cc_c. xsteps. assert (c = 0 \/ c = 1) as [-> | ->] by lia;
      cbn [fl set_cc set_cc_op set_cc_src set_cc_dst f_cc_op f_cc_src f_cc_dst].
    + change (cc_table _) with (Some (CC (compute_all_sub SzL) (compute_c_sub SzL))). unfold xret. cbn [compute_c]. f_equal.
      unfold compute_c_sub, data_type. cbn [DATA_BITS]. f_equal. apply eq_iff_eq_true. rewrite !Z.ltb_lt. int_lia.
    + change (cc_table _) with (Some (CC (compute_all_sbb SzL) (compute_c_sbb SzL))). unfold xret. cbn [compute_c]. f_equal.
      unfold compute_c_sbb, data_type. cbn [DATA_BITS]. f_equal. apply eq_iff_eq_true. rewrite Z.ltb_lt, Z.leb_le. int_lia.
  - destruct (Z.ltb_spec (x - y - c) 0); cbn [b2z]; int_lia.
Qed.

(** The chain of an operation whose steps combine the operands as [f] says. *)
Lemma chain_ok (op : X W unit) (sg : Z) :
  (forall c s x y, carry_is c s -> is_u32 x -> is_u32 y ->
    exists r s' c', step_word op x y s = Done r s' /\ carry_is c' s' /\ is_u32 r /\ r + sg * 2 ^ 32 * c' = x + sg * y + sg * c) ->
  forall l c s, carry_is c s -> Forall (fun p => is_u32 p.1 /\ is_u32 p.2) l ->
  exists r s' c', chain op l s = Done r s' /\ carry_is c' s' /\ length r = length l /\ Forall is_u32 r /\
    words_val r + sg * 2 ^ (32 * Z.of_nat (length l)) * c' = words_val l.*1 + sg * words_val l.*2 + sg * c.
Proof using Type.
  intros Hstep. induction l as [|[x y] l IH]; intros c s Hc Hl; cbn [chain].
  - exists [], s, c. split; [done|]. split; [done|]. split; [done|]. split; [done|]. cbn. lia.
  - apply Forall_cons in Hl as [[Hx Hy] Hl].
    destruct (Hstep c s x y Hc Hx Hy) as (r & s1 & c1 & E1 & Hc1 & Hr & V1). rewrite (xbind_done _ _ _ _ _ E1).
    destruct (IH c1 s1 Hc1 Hl) as (rs & s2 & c2 & E2 & Hc2 & Hlen & Hrs & V2). rewrite (xbind_done _ _ _ _ _ E2).
    exists (r :: rs), s2, c2. split; [done|]. split; [done|]. split; [cbn; lia|]. split; [by constructor|].
    cbn [words_val length fmap list_fmap fst snd] in *.
    replace (32 * Z.of_nat (S (length l))) with (32 + 32 * Z.of_nat (length l)) by lia. rewrite Z.pow_add_r by lia.
    set (p := 2 ^ (32 * Z.of_nat (length l))) in *. nia.
Qed.
End Chain.

(** Additions with carry over the double words of two numbers of any
    length, lowest first, each reading the carry the one before left to be
    computed: the words stored and the last carry are the sum; subtractions with
    borrow give the difference. *)
Theorem carry_chains {W} `{!Bus W} (s : cpu W) l c :
  cc_c s = Done c s -> 0 <= c <= 1 -> Forall (fun p => is_u32 p.1 /\ is_u32 p.2) l ->
  let size := 2 ^ (32 * Z.of_nat (length l)) in
  (exists r s' c', chain (op_adc_T0_T1_cc false SzL) l s = Done r s' /\ cc_c s' = Done c' s' /\ length r = length l /\
    words_val r + size * c' = words_val l.*1 + words_val l.*2 + c) /\
  (exists r s' c', chain (op_sbb_T0_T1_cc false SzL) l s = Done r s' /\ cc_c s' = Done c' s' /\ length r = length l /\
    words_val r - size * c' = words_val l.*1 - words_val l.*2 - c).
Proof.
  intros Hc Hr Hl size. split.
  - destruct (chain_ok (op_adc_T0_T1_cc false SzL) 1) with (l := l) (c := c) (s := s) as (r & s' & c' & E & [Hc' _] & Hn & _ & V);
      [|by split|done|exists r, s', c'; repeat split; try done; fold size in V; lia].
    intros c1 s1 x y H1 Hx Hy. destruct (adc_step c1 s1 x y H1 Hx Hy) as (r & s' & c' & E & H & Hu & V).
    exists r, s', c'. repeat split; try done; try apply H; try apply Hu. lia.
  - destruct (chain_ok (op_sbb_T0_T1_cc false SzL) (-1)) with (l := l) (c := c) (s := s) as (r & s' & c' & E & [Hc' _] & Hn & _ & V);
      [|by split|done|exists r, s', c'; repeat split; try done; fold size in V; lia].
    intros c1 s1 x y H1 Hx Hy. destruct (sbb_step c1 s1 x y H1 Hx Hy) as (r & s' & c' & E & H & Hu & V).
    exists r, s', c'. repeat split; try done; try apply H; try apply Hu. lia.
Qed.

Lemma carry_chains_witness :
  (exists r s' c', chain (op_adc_T0_T1_cc false SzL) [(0xFFFFFFFF, 1); (0xFFFFFFFF, 0)] (small_cpu 0 0 0) = Done r s' /\
    cc_c s' = Done c' s' /\ length r = 2%nat /\ words_val r + 2 ^ 64 * c' = 2 ^ 64) /\
  (exists r s' c', chain (op_sbb_T0_T1_cc false SzL) [(0xFFFFFFFF, 1); (0xFFFFFFFF, 0)] (small_cpu 0 0 0) = Done r s' /\
    cc_c s' = Done c' s' /\ length r = 2%nat /\ words_val r - 2 ^ 64 * c' = 2 ^ 64 - 2).
Proof.
  apply (carry_chains (small_cpu 0 0 0) [(0xFFFFFFFF, 1); (0xFFFFFFFF, 0)] 0); [reflexivity|lia|].
  repeat constructor; unfold is_u32; cbn; lia.
Defined.

(** * Bit scans *)

(** The lowest and the highest bit of [x] set are [k]. *)
Definition lowest_bit (x k : Z) : Prop := 0 <= k /\ Z.testbit x k = true /\ forall j, 0 <= j < k -> Z.testbit x j = false.
Definition highest_bit (x k : Z) : Prop := 0 <= k /\ Z.testbit x k = true /\ forall j, k < j -> Z.testbit x j = false.


Lemma land1_bit x : (Z.land x 1 =? 0) = negb (Z.testbit x 0).
Proof. apply (land_bit x 0). lia. Qed.

Lemma bsf_loop_ok fuel : forall count x, (exists i, 0 <= i < Z.of_nat fuel /\ Z.testbit x i = true) ->
  exists k, bsf_loop fuel count x = Some (count + k) /\ lowest_bit x k.
Proof.
  induction fuel as [|fuel IH]; intros count x (i & Hi & Hx); [lia|]. cbn [bsf_loop]. rewrite land1_bit.
  destruct (Z.testbit x 0) eqn:E0; cbn [negb].
  - exists 0. rewrite Z.add_0_r. split; [done|]. split; [lia|]. split; [done|]. lia.
  - destruct (decide (i = 0)) as [->|Hne]; [congruence|].
    destruct (IH (count + 1) (Z.shiftr x 1)) as (k & Ek & Hk0 & Hk & Hlow).
    { exists (i - 1). rewrite Z.shiftr_spec by lia. split; [lia|]. by replace (i - 1 + 1) with i by lia. }
    exists (k + 1). rewrite Ek. split; [f_equal; lia|]. rewrite Z.shiftr_spec in Hk by lia.
    split; [lia|]. split; [done|]. intros j Hj. destruct (decide (j = 0)) as [->|]; [done|].
    specialize (Hlow (j - 1) ltac:(lia)). rewrite Z.shiftr_spec in Hlow by lia. by replace (j - 1 + 1) with j in Hlow by lia.
Qed.

Lemma bsr_loop_ok w k : forall fuel count x, (k < fuel)%nat -> Z.of_nat k < DATA_BITS w ->
  Z.testbit x (DATA_BITS w - 1 - Z.of_nat k) = true ->
  (forall j, DATA_BITS w - 1 - Z.of_nat k < j < DATA_BITS w -> Z.testbit x j = false) ->
  bsr_loop fuel w count x = Some (count - Z.of_nat k).
Proof.
  pose proof (DATA_BITS_range w) as Hn.
  induction k as [|k IH]; intros [|fuel] count x Hf Hk Hx Hab; try lia; cbn [bsr_loop];
    unfold SIGN_MASK; rewrite land_bit by lia.
  - replace (DATA_BITS w - 1 - Z.of_nat 0) with (DATA_BITS w - 1) in Hx by lia. rewrite Hx. cbn [negb]. f_equal. lia.
  - rewrite (Hab (DATA_BITS w - 1)) by lia. cbn [negb]. rewrite IH; [f_equal; lia|lia|lia| |].
    + rewrite s32_testbit, Z.shiftl_spec by lia. rewrite <- Hx. f_equal. lia.
    + intros j Hj. rewrite s32_testbit, Z.shiftl_spec by lia. apply Hab. lia.
Qed.

Section Scan.
Context {W : Type} `{!Bus W}.

Lemma bit_scan_zero f w (s : cpu W) : data_type w (T0 s) = 0 -> bit_scan f w s = Done tt (set_cc_dst 0 s).
Proof using Type. intros H. unfold bit_scan. xsteps. by rewrite mask_data, H. Qed.

Lemma bit_scan_found f w (s : cpu W) k : data_type w (T0 s) <> 0 -> f (s32 (data_type w (T0 s))) = Some k -> is_u32 k ->
  bit_scan f w s = Done tt (set_cc_dst 1 (set_T1 k s)).
Proof using Type.
  intros H Hf Hk. unfold bit_scan. xsteps. rewrite mask_data.
  rewrite (proj2 (Z.eqb_neq (s32 _) 0)); [cbn [negb]; rewrite Hf; by rewrite (u32_small k)|].
  pose proof (data_type_range w (T0 s)) as Hr. pose proof (DATA_BITS_range w) as Hn.
  assert (2 ^ DATA_BITS w <= 2 ^ 32) by (apply Z.pow_le_mono_r; lia). int_lia.
Qed.
End Scan.

(** The loops of [bsf] and [bsr] end: an operand that is 0 only sets the
    zero flag, any other gives the number of its lowest and its highest bit. *)
Theorem bit_scans {W} `{!Bus W} w (s : cpu W) :
  data_type w (T0 s) <> 0 ->
  exists k h, op_bsf_T0_cc w s = Done tt (set_cc_dst 1 (set_T1 k s)) /\ lowest_bit (data_type w (T0 s)) k /\
    op_bsr_T0_cc w s = Done tt (set_cc_dst 1 (set_T1 h s)) /\ highest_bit (data_type w (T0 s)) h /\
    (forall s0 : cpu W, data_type w (T0 s0) = 0 ->
      op_bsf_T0_cc w s0 = Done tt (set_cc_dst 0 s0) /\ op_bsr_T0_cc w s0 = Done tt (set_cc_dst 0 s0)).
Proof.
  intros Hne. pose proof (DATA_BITS_range w) as Hn. pose proof (data_type_range w (T0 s)) as Hr. set (d := data_type w (T0 s)) in *.
  assert (0 <= Z.log2 d < DATA_BITS w) as Hl by (split; [apply Z.log2_nonneg|apply Z.log2_lt_pow2; lia]).
  assert (Z.testbit d (Z.log2 d) = true) as Hb by (apply Z.bit_log2; lia).
  destruct (bsf_loop_ok 33 0 (s32 d)) as (k & Ek & Hk0 & Hkb & Hlow).
  { exists (Z.log2 d). split; [lia|]. by rewrite s32_testbit by lia. }
  assert (k <= Z.log2 d) as Hkl.
  { destruct (decide (k <= Z.log2 d)) as [|Hgt]; [done|]. specialize (Hlow (Z.log2 d) ltac:(lia)).
    rewrite s32_testbit in Hlow by lia. congruence. }
  exists k, (Z.log2 d). split; [|split; [|split; [|split]]].
  - apply bit_scan_found; [done|exact Ek|unfold is_u32; lia].
  - split; [done|]. split; [by rewrite s32_testbit in Hkb by lia|]. intros j Hj. specialize (Hlow j Hj).
    by rewrite s32_testbit in Hlow by lia.
  - apply bit_scan_found; [done| |unfold is_u32; lia]. fold d.
    rewrite (bsr_loop_ok w (Z.to_nat (DATA_BITS w - 1 - Z.log2 d))); [f_equal; lia|lia|lia| |];
      rewrite ?Z2Nat.id by lia; [rewrite s32_testbit by lia; rewrite <- Hb; f_equal; lia|].
    intros j Hj. rewrite s32_testbit by lia. apply Z.bits_above_log2; lia.
  - split; [lia|]. split; [done|]. intros j Hj. apply Z.bits_above_log2; lia.
  - intros s0 H0. by split; apply bit_scan_zero.
Qed.

Lemma bit_scans_witness :
  exists k h, op_bsf_T0_cc SzL (small_cpu 0x80000100 0 0) = Done tt (set_cc_dst 1 (set_T1 k (small_cpu 0x80000100 0 0))) /\
    lowest_bit 0x80000100 k /\
    op_bsr_T0_cc SzL (small_cpu 0x80000100 0 0) = Done tt (set_cc_dst 1 (set_T1 h (small_cpu 0x80000100 0 0))) /\ highest_bit 0x80000100 h /\
    (forall s0 : cpu unit, data_type SzL (T0 s0) = 0 ->
      op_bsf_T0_cc SzL s0 = Done tt (set_cc_dst 0 s0) /\ op_bsr_T0_cc SzL s0 = Done tt (set_cc_dst 0 s0)).
Proof. apply (bit_scans SzL (small_cpu 0x80000100 0 0)). discriminate. Defined.

(** * Division *)

(** The division fault. *)
Definition divide_fault {W} (s : cpu W) : outcome W unit := LoopExit (set_exn (Exn EXCP00_DIVZ 0 0 (u32 (eip s))) s).

Section Division.
Context {W : Type} `{!Bus W}.

Lemma raise_divide {B} c (k : unit -> X W B) (s : cpu W) : c = true ->
  xbind (check c (raise_exception EXCP00_DIVZ)) k s = LoopExit (set_exn (Exn EXCP00_DIVZ 0 0 (u32 (eip s))) s).
Proof using Type. intros ->. unfold check, xbind, raise_exception, raise_interrupt. by rewrite Z.add_0_r. Qed.

Lemma pair_val x y : is_u32 x -> Z.lor x (Z.shiftl y 32) = y * 2 ^ 32 + x.
Proof using Type. intros H. rewrite (lor_add 32) by (unfold is_u32 in H; lia). lia. Qed.
End Division.

(** C35: [div] and [idiv] by a double word: with EDX:EAX as the dividend, the
    quotient and remainder are those of (truncating) division; a divisor of 0 and
    a quotient that does not fit give the division fault with nothing changed.
    The smallest 64-bit number divided by -1, though, stops the emulator. *)
Theorem division_exact {W} `{!Bus W} (s : cpu W) :
  is_u32 (EAX s) -> is_u32 (EDX s) -> is_u32 (T0 s) ->
  let num := EDX s * 2 ^ 32 + EAX s in
  let snum := s64 num in
  let den := T0 s in
  let sden := s32 den in
  op_divl_EAX_T0 s =
    (if decide (den = 0 \/ 2 ^ 32 <= num / den) then divide_fault s
     else Done tt (set_edx (num mod den) (set_eax (num / den) s))) /\
  op_idivl_EAX_T0 s =
    (if decide (sden = 0) then divide_fault s
     else if decide (snum = - 2 ^ 63 /\ sden = -1) then Aborted
     else if decide (is_s32 (Z.quot snum sden))
          then Done tt (set_edx (u32 (Z.rem snum sden)) (set_eax (u32 (Z.quot snum sden)) s))
          else divide_fault s).
Proof.
  intros Ha Hd Ht num snum den sden. unfold op_divl_EAX_T0, op_idivl_EAX_T0. split.
  - unfold helper_divl_EAX_T0. xsteps. rewrite (u32_small (EAX s)), (u32_small (EDX s)), pair_val by done. fold num den.
    destruct (Z.eqb_spec den 0) as [H0|H0].
    { rewrite raise_divide by done. by rewrite decide_True by (by left). }
    rewrite xbind_pass by done. destruct (Z.ltb_spec 0xffffffff (num / den)).
    { rewrite raise_divide by done. by rewrite decide_True by (right; lia). }
    rewrite xbind_pass by done. rewrite decide_False by lia. unfold xmod.
    assert (0 < den) by (unfold is_u32, den in *; lia). assert (0 <= num) by (unfold is_u32, num in *; lia).
    pose proof (Z.mod_pos_bound num den ltac:(lia)). pose proof (Z.div_pos num den ltac:(lia) ltac:(lia)).
    rewrite !u32_small by (unfold is_u32, den in *; lia). done.
  - unfold helper_idivl_EAX_T0. xsteps. rewrite (u32_small (EAX s)), (u32_small (EDX s)), pair_val by done. fold num den snum sden.
    destruct (Z.eqb_spec sden 0) as [H0|H0].
    { rewrite raise_divide by done. by rewrite decide_True. }
    rewrite xbind_pass, decide_False by done. unfold sdiv. change (- 2 ^ (64 - 1)) with (- 2 ^ 63).
    destruct (Z.eqb_spec snum (- 2 ^ 63)), (Z.eqb_spec sden (-1)); cbn [andb]; try (by rewrite decide_True);
      rewrite decide_False by tauto; xsteps;
      (destruct (Z.eqb_spec (Z.quot snum sden) (s32 (Z.quot snum sden))) as [Hq|Hq];
        [rewrite xbind_pass, decide_True by (done || (rewrite Hq; apply s32_range)); done
        |rewrite raise_divide by done; rewrite decide_False; [done|intros Hr; apply Hq; by rewrite s32_small]]).
Qed.

Lemma division_exact_witness :
  op_divl_EAX_T0 (set_eax 100 (small_cpu 7 0 0)) = Done tt (set_edx 2 (set_eax 14 (set_eax 100 (small_cpu 7 0 0)))) /\
  op_idivl_EAX_T0 (set_edx 0x80000000 (small_cpu 0xFFFFFFFF 0 0)) = Aborted.
Proof.
  split.
  - apply (division_exact (set_eax 100 (small_cpu 7 0 0))); unfold is_u32; cbn; lia.
  - apply (division_exact (set_edx 0x80000000 (small_cpu 0xFFFFFFFF 0 0))); unfold is_u32; cbn; lia.
Defined.

(** * Decimal adjustment *)

(** Two decimal digits in a byte. *)
Definition bcd (n : Z) : Z := n / 10 * 16 + n mod 10.

(** AL and the carry after [daa] following the addition of [x] and [y], and
    after [das] following their subtraction. *)
Definition after_add (x y : Z) : Z * bool :=
  let r := bcd x + bcd y in
  let e := compute_all_add SzB (bcd y) r in
  let '(al, f) := daa_adjust (has e CC_C) (has e CC_A) (Z.land r 0xff) in (al, has f CC_C).
Definition after_sub (x y : Z) : Z * bool :=
  let r := u32 (bcd x - bcd y) in
  let e := compute_all_sub SzB (bcd y) r in
  let '(al, f) := das_adjust (has e CC_C) (has e CC_A) (Z.land r 0xff) in (al, has f CC_C).

Definition pair_eqb (p q : Z * bool) : bool := (fst p =? fst q) && Bool.eqb (snd p) (snd q).
Lemma pair_eqb_eq p q : pair_eqb p q = true -> p = q.
Proof.
  destruct p, q. unfold pair_eqb. cbn [fst snd]. intros [H1%Z.eqb_eq H2%eqb_prop]%andb_true_iff. by subst.
Qed.

(** Every pair of two-digit numbers. *)
Lemma all_pairs (P : Z -> Z -> bool) :
  forallb (fun x => forallb (P x) (seqZ 0 100)) (seqZ 0 100) = true ->
  forall x y, 0 <= x < 100 -> 0 <= y < 100 -> P x y = true.
Proof.
  intros H x y Hx Hy. rewrite forallb_forall in H. specialize (H x). rewrite forallb_forall in H.
  apply H; apply list_elem_of_In, elem_of_seqZ; lia.
Qed.

(** The byte sums for which the carry is lost. *)
Definition lost (x y : Z) : bool := (0xFA <=? bcd x + bcd y) && (bcd x + bcd y <? 0x100).

Lemma after_add_ok x y : 0 <= x < 100 -> 0 <= y < 100 ->
  after_add x y = if lost x y then (bcd x + bcd y - 0xFA, false) else (bcd ((x + y) mod 100), 100 <=? x + y).
Proof.
  intros Hx Hy. apply pair_eqb_eq.
  apply (all_pairs (fun x y => pair_eqb (after_add x y) (if lost x y then (bcd x + bcd y - 0xFA, false)
    else (bcd ((x + y) mod 100), 100 <=? x + y)))); [vm_compute; reflexivity|done|done].
Qed.
Lemma after_sub_ok x y : 0 <= x < 100 -> 0 <= y < 100 -> after_sub x y = (bcd ((x - y) mod 100), x <? y).
Proof.
  intros Hx Hy. apply pair_eqb_eq.
  apply (all_pairs (fun x y => pair_eqb (after_sub x y) (bcd ((x - y) mod 100), x <? y))); [vm_compute; reflexivity|done|done].
Qed.

(** The low byte of a register with its low byte replaced. *)
Lemma low_byte old v : is_u8 v -> Z.land (Z.lor (without old 0xff) v) 0xff = v.
Proof.
  intros Hv. unfold without. rewrite Z.land_lor_distr_l, <- Z.land_assoc. change (Z.land (u32 (Z.lnot 0xff)) 0xff) with 0.
  by rewrite Z.land_0_r, Z.lor_0_l, u8_land, u8_small.
Qed.

Section Decimal.
Context {W : Type}.

(** The processor after a byte addition or subtraction of decimal operands. *)
Record byte_op (op x y r : Z) (s : cpu W) : Prop := ByteOp {
  bo_op : CC_OP s = op; bo_src : CC_SRC s = bcd y; bo_dst : CC_DST s = r; bo_al : Z.land (EAX s) 0xff = Z.land r 0xff
}.

Lemma parity_cases al : parity al = 0 \/ parity al = 4.
Proof using Type. rewrite parity_even. destruct (even_bits al); cbn; tauto. Qed.

(** The flags computed by hand keep the carry. *)
Lemma adjust_carry f al : has (Z.lor (Z.lor (Z.lor f (Z.shiftl (b2z (al =? 0)) 6)) (parity al)) (Z.land al 0x80)) CC_C = has f CC_C.
Proof using Type.
  rewrite !has_lor, (has_land al) by done. destruct (parity_cases al) as [-> | ->]; destruct (al =? 0);
    cbn [b2z]; rewrite !orb_false_r; done.
Qed.

Lemma adjusted f (s : cpu W) t e al g : cc_table (CC_OP s) = Some t -> compute_all t (CC_SRC s) (CC_DST s) = e ->
  f (has e CC_C) (has e CC_A) (Z.land (EAX s) 0xff) = (al, g) -> is_u8 al ->
  exists s', decimal_adjust f s = Done tt s' /\ Z.land (EAX s') 0xff = al /\ has (CC_SRC s') CC_C = has g CC_C.
Proof using Type.
  intros Ht He Hf Hal. unfold decimal_adjust, cc_all. xsteps. rewrite Ht. xsteps. rewrite He. unfold xmod. rewrite Hf.
  eexists. split; [reflexivity|]. split.
  - cbn [EAX regs set_cc_src set_eax r_eax]. by apply low_byte.
  - cbn [fl set_cc_src f_cc_src]. apply adjust_carry.
Qed.
End Decimal.

Lemma bcd_u8 n : 0 <= n < 100 -> is_u8 (bcd n).
Proof. intros H. unfold bcd, is_u8. Z.div_mod_to_equations. lia. Qed.

(** [das] after a byte subtraction of two-digit decimal numbers gives the
    digits of the difference modulo 100, with the carry as the borrow.  [daa] after
    an addition gives the digits of the sum modulo 100 and the hundred as the carry,
    except when the bytes add up to 0xFA..0xFF: there the test of the high digit
    looks at the byte after the low digit's adjustment has wrapped round, the
    tens digit is 0 and the carry is lost. *)
Theorem decimal_adjustment {W} (s t : cpu W) x y :
  0 <= x < 100 -> 0 <= y < 100 ->
  byte_op CC_OP_ADDB x y (bcd x + bcd y) s -> byte_op CC_OP_SUBB x y (u32 (bcd x - bcd y)) t ->
  (exists s', op_daa s = Done tt s' /\
    if lost x y then Z.land (EAX s') 0xff = bcd x + bcd y - 0xFA /\ has (CC_SRC s') CC_C = false /\ 100 <= x + y
    else Z.land (EAX s') 0xff = bcd ((x + y) mod 100) /\ has (CC_SRC s') CC_C = (100 <=? x + y)) /\
  (exists t', op_das t = Done tt t' /\ Z.land (EAX t') 0xff = bcd ((x - y) mod 100) /\ has (CC_SRC t') CC_C = (x <? y)).
Proof.
  intros Hx Hy [So Ss Sd Sa] [To Ts Td Ta]. split.
  - pose proof (after_add_ok x y Hx Hy) as H. unfold after_add in H. rewrite <- Sa in H.
    destruct (daa_adjust _ _ _) as [al f] eqn:E.
    assert (is_u8 al) as Hal.
    { destruct (lost x y) eqn:El; injection H as -> _.
      - unfold lost in El. unfold is_u8. lia.
      - apply bcd_u8, Z.mod_pos_bound. lia. }
    destruct (adjusted daa_adjust s (CC (compute_all_add SzB) (compute_c_add SzB)) (compute_all_add SzB (bcd y) (bcd x + bcd y)) al f)
      as (s' & E' & EA & EC); [by rewrite So|cbn [compute_all]; by rewrite Ss, Sd|done|done|].
    exists s'. split; [done|]. rewrite EA, EC. destruct (lost x y) eqn:El; injection H as -> ->; [|done].
    split; [done|]. split; [done|]. unfold lost, bcd in El. Z.div_mod_to_equations. lia.
  - pose proof (after_sub_ok x y Hx Hy) as H. unfold after_sub in H. rewrite <- Ta in H.
    destruct (das_adjust _ _ _) as [al f] eqn:E. injection H as -> Hf.
    destruct (adjusted das_adjust t (CC (compute_all_sub SzB) (compute_c_sub SzB)) (compute_all_sub SzB (bcd y) (u32 (bcd x - bcd y)))
      (bcd ((x - y) mod 100)) f) as (t' & E' & EA & EC);
      [by rewrite To|cbn [compute_all]; by rewrite Ts, Td|done|apply bcd_u8, Z.mod_pos_bound; lia|].
    exists t'. by rewrite EC.
Qed.

Lemma decimal_adjustment_witness :
  (exists s', op_daa (set_eax 0xFA (set_cc_op CC_OP_ADDB (set_cc_src 0x61 (set_cc_dst 0xFA (small_cpu 0 0 0))))) = Done tt s' /\
    Z.land (EAX s') 0xff = 0 /\ has (CC_SRC s') CC_C = false /\ 100 <= 99 + 61) /\
  (exists t', op_das (set_eax 0x38 (set_cc_op CC_OP_SUBB (set_cc_src 0x61 (set_cc_dst 0x38 (small_cpu 0 0 0))))) = Done tt t' /\
    Z.land (EAX t') 0xff = 0x38 /\ has (CC_SRC t') CC_C = false).
Proof.
  apply (decimal_adjustment (set_eax 0xFA (set_cc_op CC_OP_ADDB (set_cc_src 0x61 (set_cc_dst 0xFA (small_cpu 0 0 0)))))
    (set_eax 0x38 (set_cc_op CC_OP_SUBB (set_cc_src 0x61 (set_cc_dst 0x38 (small_cpu 0 0 0))))) 99 61); try lia; split; reflexivity.
Defined.
