(* ===== verification/PhysMem.v ===== *)
(** The physical memory of the machine emulator, src/sysvm/exec.c: the map from
    physical pages to memory or to a zone of callbacks, the dirty bytes of the
    memory's pages, the cache of translations ([tlb_table]) and the accesses by
    physical address.

    A host pointer and a physical address have 32 bits.  The callbacks of the
    devices and the translated code are a parameter ([Devices]): a callback
    changes the state of the devices only, and dropping translated code tells
    whether the page has none left. *)
From S2P Require Import Prelude Layout.

Definition TARGET_PAGE_BITS : Z := 12.
Definition TARGET_PAGE_SIZE : Z := 4096.
Definition TARGET_PAGE_MASK : Z := 0xfffff000.
Definition L2_BITS : Z := 10.
Definition L1_SIZE : Z := 1024.
Definition L2_SIZE : Z := 1024.
Definition IO_MEM_SHIFT : Z := 4.
Definition IO_MEM_NB_ENTRIES : Z := 256.
Definition IO_MEM_RAM : Z := 0.
Definition IO_MEM_ROM : Z := 16.
Definition IO_MEM_UNASSIGNED : Z := 32.
Definition IO_MEM_NOTDIRTY : Z := 64.
Definition IO_MEM_ROMD : Z := 1.
Definition TLB_INVALID_MASK : Z := 8.
Definition CODE_DIRTY_FLAG : Z := 2.
Definition CPU_TLB_SIZE : Z := 256.

(** [x & TARGET_PAGE_MASK], [x & ~TARGET_PAGE_MASK] *)
Definition page_of (x : Z) : Z := Z.land x TARGET_PAGE_MASK.
Definition page_off (x : Z) : Z := Z.land x 0xfff.

(** The entries of [io_mem_read] and [io_mem_write]: no function, those of
    exec.c, or a device's. *)
Inductive read_fun := RNull | RUnassigned | RDev (k : Z).
Inductive write_fun := WNull | WUnassigned | WNotDirty (len : nat) | WDev (k : Z).
Record io_zone := Zone { z_read : list read_fun; z_write : list write_fun; z_opaque : Z }.

(** [CPUTLBEntry] *)
Record tlb_entry := Te { addr_read : Z; addr_write : Z; addr_code : Z; addend : Z }.
Definition set_addr_write v t := Te (addr_read t) v (addr_code t) (addend t).

(** The globals of exec.c and the part of [CPUState] they work on. *)
Record vmem (D : Type) := Vmem {
  l1_phys_map : list (option (list Z)); phys_ram : list Z; phys_ram_dirty : list Z;
  io_mem : list io_zone; io_mem_nb : Z; tlb_table : list (list tlb_entry); mem_write_vaddr : Z; devs : D
}.
Arguments Vmem {D}.
Arguments l1_phys_map {D}. Arguments phys_ram {D}. Arguments phys_ram_dirty {D}. Arguments io_mem {D}.
Arguments io_mem_nb {D}. Arguments tlb_table {D}. Arguments mem_write_vaddr {D}. Arguments devs {D}.

Section Setters.
Context {D : Type}.
Definition set_map v (s : vmem D) := Vmem v (phys_ram s) (phys_ram_dirty s) (io_mem s) (io_mem_nb s) (tlb_table s) (mem_write_vaddr s) (devs s).
Definition set_ram v (s : vmem D) := Vmem (l1_phys_map s) v (phys_ram_dirty s) (io_mem s) (io_mem_nb s) (tlb_table s) (mem_write_vaddr s) (devs s).
Definition set_dirty v (s : vmem D) := Vmem (l1_phys_map s) (phys_ram s) v (io_mem s) (io_mem_nb s) (tlb_table s) (mem_write_vaddr s) (devs s).
Definition set_io v (s : vmem D) := Vmem (l1_phys_map s) (phys_ram s) (phys_ram_dirty s) v (io_mem_nb s) (tlb_table s) (mem_write_vaddr s) (devs s).
Definition set_io_nb v (s : vmem D) := Vmem (l1_phys_map s) (phys_ram s) (phys_ram_dirty s) (io_mem s) v (tlb_table s) (mem_write_vaddr s) (devs s).
Definition set_tlb v (s : vmem D) := Vmem (l1_phys_map s) (phys_ram s) (phys_ram_dirty s) (io_mem s) (io_mem_nb s) v (mem_write_vaddr s) (devs s).
Definition set_mwv v (s : vmem D) := Vmem (l1_phys_map s) (phys_ram s) (phys_ram_dirty s) (io_mem s) (io_mem_nb s) (tlb_table s) v (devs s).
Definition set_devs (v : D) (s : vmem D) := Vmem (l1_phys_map s) (phys_ram s) (phys_ram_dirty s) (io_mem s) (io_mem_nb s) (tlb_table s) (mem_write_vaddr s) v.
End Setters.

(** The devices' callbacks, by number and opaque value, and the translated code:
    [tb_invalidate_phys_page_fast(start, len)] for a write of the processor, which
    says whether the page is left without code, and
    [tb_invalidate_phys_page_range(start, end, 0)]. *)
Class Devices (D : Type) := {
  dev_read : Z -> Z -> Z -> D -> Z * D;
  dev_write : Z -> Z -> Z -> Z -> D -> D;
  tb_invalidate_fast : Z -> Z -> D -> bool * D;
  tb_invalidate_range : Z -> Z -> D -> D
}.

(** The address of [phys_ram_base] in the host. *)
Class HostRam := phys_ram_base : Z.

Section Phys.
Context {D : Type} {DD : Devices D} {HR : HostRam}.
Implicit Types (s : vmem D).
Abbreviation V := (M (vmem D)).

(** [ldub_p], [lduw_p], [ldl_p], [ldq_p] and the stores, at an offset from
    [phys_ram_base]. *)
Definition ld_p (n : nat) (a : Z) : V Z :=
  s <- get ;; l <- of_option OutOfBounds (aread (phys_ram s) a n) ;; ret (le_val l).
Definition memcpy_from (a : Z) (n : nat) : V (list Z) :=
  s <- get ;; of_option OutOfBounds (aread (phys_ram s) a n).
Definition memcpy_to (a : Z) (bs : list Z) : V unit :=
  s <- get ;; r <- of_option OutOfBounds (awrite (phys_ram s) a bs) ;; modify (set_ram r).
Definition st_p (n : nat) (a v : Z) : V unit := memcpy_to a (le_bytes n v).

(** * The map of physical pages *)

(** [phys_page_find_alloc(index, alloc)]: where the entry of the page is. *)
Definition phys_page_find_alloc (index : Z) (alloc : bool) : V (option (Z * Z)) :=
  s <- get ;;
  let i := Z.land (Z.shiftr index L2_BITS) (L1_SIZE - 1) in
  pd <- of_option OutOfBounds (aget (l1_phys_map s) i) ;;
  match pd with
  | Some _ => ret (Some (i, Z.land index (L2_SIZE - 1)))
  | None =>
      if negb alloc then ret None else
      l <- of_option OutOfBounds (aset (l1_phys_map s) i (Some (replicate (Z.to_nat L2_SIZE) IO_MEM_UNASSIGNED))) ;;
      modify (set_map l) ;;;
      ret (Some (i, Z.land index (L2_SIZE - 1)))
  end.
(** [p->phys_offset], read and written. *)
Definition get_offset (p : Z * Z) : V Z :=
  s <- get ;;
  t <- of_option OutOfBounds (aget (l1_phys_map s) (fst p)) ;;
  t <- of_option NullDeref t ;;
  of_option OutOfBounds (aget t (snd p)).
Definition set_offset (p : Z * Z) (v : Z) : V unit :=
  s <- get ;;
  t <- of_option OutOfBounds (aget (l1_phys_map s) (fst p)) ;;
  t <- of_option NullDeref t ;;
  t <- of_option OutOfBounds (aset t (snd p) v) ;;
  l <- of_option OutOfBounds (aset (l1_phys_map s) (fst p) (Some t)) ;;
  modify (set_map l).

(** [cpu_get_physical_page_desc(addr)], which the accesses repeat inline. *)
Definition cpu_get_physical_page_desc (addr : Z) : V Z :=
  p <- phys_page_find_alloc (Z.shiftr addr TARGET_PAGE_BITS) false ;;
  match p with
  | None => ret IO_MEM_UNASSIGNED
  | Some p => get_offset p
  end.

(** * The cache of translations *)

Definition no_entry (t : tlb_entry) : tlb_entry := Te (u32 (-1)) (u32 (-1)) (u32 (-1)) (addend t).
(** [tlb_flush(env, flush_global)] *)
Definition tlb_flush : V unit := modify (fun s => set_tlb (map (map no_entry) (tlb_table s)) s).
Definition tlb_index (addr : Z) : Z := Z.land (Z.shiftr addr TARGET_PAGE_BITS) (CPU_TLB_SIZE - 1).

Definition get_te (is_user i : Z) : V tlb_entry :=
  s <- get ;;
  t <- of_option OutOfBounds (aget (tlb_table s) is_user) ;;
  of_option OutOfBounds (aget t i).
Definition set_te (is_user i : Z) (e : tlb_entry) : V unit :=
  s <- get ;;
  t <- of_option OutOfBounds (aget (tlb_table s) is_user) ;;
  t <- of_option OutOfBounds (aset t i e) ;;
  l <- of_option OutOfBounds (aset (tlb_table s) is_user t) ;;
  modify (set_tlb l).
Definition upd_te (is_user i : Z) (f : tlb_entry -> tlb_entry) : V unit :=
  e <- get_te is_user i ;; set_te is_user i (f e).

(** [tlb_flush_entry(tlb_entry, addr)] *)
Definition tlb_flush_entry (addr : Z) (t : tlb_entry) : tlb_entry :=
  let tag x := Z.land x (Z.lor TARGET_PAGE_MASK TLB_INVALID_MASK) in
  if (addr =? tag (addr_read t)) || (addr =? tag (addr_write t)) || (addr =? tag (addr_code t)) then no_entry t else t.
(** [tlb_flush_page(env, addr)] *)
Definition tlb_flush_page (addr : Z) : V unit :=
  let addr := page_of addr in
  upd_te 0 (tlb_index addr) (tlb_flush_entry addr) ;;;
  upd_te 1 (tlb_index addr) (tlb_flush_entry addr).

(** [tlb_set_dirty1(tlb_entry, start)] *)
Definition tlb_set_dirty1 (start : Z) (t : tlb_entry) : tlb_entry :=
  if page_off (addr_write t) =? IO_MEM_NOTDIRTY then
    if u32 (page_of (addr_write t) + addend t) =? start
    then set_addr_write (Z.lor (page_of (addr_write t)) IO_MEM_RAM) t else t
  else t.
(** [tlb_set_dirty(env, addr, vaddr)] *)
Definition tlb_set_dirty (addr vaddr : Z) : V unit :=
  upd_te 0 (tlb_index vaddr) (tlb_set_dirty1 (page_of addr)) ;;;
  upd_te 1 (tlb_index vaddr) (tlb_set_dirty1 (page_of addr)).

(** [tlb_reset_dirty_range(tlb_entry, start, length)] *)
Definition tlb_reset_dirty_range (start length : Z) (t : tlb_entry) : tlb_entry :=
  if page_off (addr_write t) =? IO_MEM_RAM then
    if u32 (u32 (page_of (addr_write t) + addend t) - start) <? length
    then set_addr_write (Z.lor (page_of (addr_write t)) IO_MEM_NOTDIRTY) t else t
  else t.

(** * Dirty bytes *)

Definition dirty_at (ram_addr : Z) : V Z :=
  s <- get ;; of_option OutOfBounds (aget (phys_ram_dirty s) (Z.shiftr ram_addr TARGET_PAGE_BITS)).
Definition set_dirty_at (ram_addr v : Z) : V unit :=
  s <- get ;;
  l <- of_option OutOfBounds (aset (phys_ram_dirty s) (Z.shiftr ram_addr TARGET_PAGE_BITS) v) ;;
  modify (set_dirty l).
(** [cpu_physical_memory_is_dirty(addr)] *)
Definition cpu_physical_memory_is_dirty (addr : Z) : V bool := d <- dirty_at addr ;; ret (d =? 0xff).

(** [for(i = 0; i < len; i++) p[i] &= mask;] *)
Fixpoint clear_dirty (n : nat) (page mask : Z) : V unit :=
  match n with
  | O => ret tt
  | S n =>
      s <- get ;;
      d <- of_option OutOfBounds (aget (phys_ram_dirty s) page) ;;
      l <- of_option OutOfBounds (aset (phys_ram_dirty s) page (Z.land d mask)) ;;
      modify (set_dirty l) ;;;
      clear_dirty n (page + 1) mask
  end.
(** [cpu_physical_memory_reset_dirty(start, end, dirty_flags)] *)
Definition cpu_physical_memory_reset_dirty (start end_ dirty_flags : Z) : V unit :=
  let start := page_of start in
  let end_ := page_of (u32 (end_ + TARGET_PAGE_SIZE - 1)) in
  let length := u32 (end_ - start) in
  if length =? 0 then ret tt else
  let mask := u8 (Z.lnot dirty_flags) in
  clear_dirty (Z.to_nat (Z.shiftr length TARGET_PAGE_BITS)) (Z.shiftr start TARGET_PAGE_BITS) mask ;;;
  modify (fun s => set_tlb (map (map (tlb_reset_dirty_range (u32 (start + phys_ram_base)) length)) (tlb_table s)) s).

(** [tlb_protect_code(ram_addr)] *)
Definition tlb_protect_code (ram_addr : Z) : V unit :=
  cpu_physical_memory_reset_dirty ram_addr (u32 (ram_addr + TARGET_PAGE_SIZE)) CODE_DIRTY_FLAG.
(** [tlb_unprotect_code_phys(env, ram_addr, vaddr)] *)
Definition tlb_unprotect_code_phys (ram_addr : Z) : V unit :=
  d <- dirty_at ram_addr ;; set_dirty_at ram_addr (Z.lor d CODE_DIRTY_FLAG).

(** * Callbacks *)

(** [tb_invalidate_phys_page_fast(start, len)] *)
Definition tb_invalidate_phys_page_fast (start len : Z) : V unit :=
  s <- get ;;
  let '(no_code, d) := tb_invalidate_fast start len (devs s) in
  modify (set_devs d) ;;;
  if no_code then tlb_unprotect_code_phys start else ret tt.

(** [notdirty_mem_writeb/w/l(opaque, addr, val)] *)
Definition notdirty_mem_write (len : nat) (addr val : Z) : V unit :=
  let ram_addr := u32 (addr - phys_ram_base) in
  dirty_flags <- dirty_at ram_addr ;;
  dirty_flags <- (if Z.land dirty_flags CODE_DIRTY_FLAG =? 0
                  then tb_invalidate_phys_page_fast ram_addr (Z.of_nat len) ;;; dirty_at ram_addr
                  else ret dirty_flags) ;;
  st_p len ram_addr val ;;;
  let dirty_flags := Z.lor dirty_flags (Z.land 0xff (Z.lnot CODE_DIRTY_FLAG)) in
  set_dirty_at ram_addr dirty_flags ;;;
  s <- get ;;
  if dirty_flags =? 0xff then tlb_set_dirty addr (mem_write_vaddr s) else ret tt.

(** [io_mem_read[io_index][shift](io_mem_opaque[io_index], addr)] *)
Definition call_read (io_index shift addr : Z) : V Z :=
  s <- get ;;
  z <- of_option OutOfBounds (aget (io_mem s) io_index) ;;
  f <- of_option OutOfBounds (aget (z_read z) shift) ;;
  match f with
  | RNull => stop NullDeref
  | RUnassigned => ret 0
  | RDev k => let '(v, d) := dev_read k (z_opaque z) addr (devs s) in modify (set_devs d) ;;; ret (u32 v)
  end.
(** [io_mem_write[io_index][shift](io_mem_opaque[io_index], addr, val)] *)
Definition call_write (io_index shift addr val : Z) : V unit :=
  s <- get ;;
  z <- of_option OutOfBounds (aget (io_mem s) io_index) ;;
  f <- of_option OutOfBounds (aget (z_write z) shift) ;;
  match f with
  | WNull => stop NullDeref
  | WUnassigned => ret tt
  | WNotDirty len => notdirty_mem_write len addr val
  | WDev k => modify (set_devs (dev_write k (z_opaque z) addr val (devs s)))
  end.
(** [(x >> IO_MEM_SHIFT) & (IO_MEM_NB_ENTRIES - 1)] *)
Definition io_index_of (x : Z) : Z := Z.land (Z.shiftr x IO_MEM_SHIFT) (IO_MEM_NB_ENTRIES - 1).

(** [cpu_register_io_memory(io_index, mem_read, mem_write, opaque)] *)
Definition cpu_register_io_memory (io_index : Z) (mem_read : list read_fun) (mem_write : list write_fun) (opaque : Z) : V Z :=
  s <- get ;;
  let store i :=
    s <- get ;;
    l <- of_option OutOfBounds (aset (io_mem s) i (Zone (take 3 mem_read) (take 3 mem_write) opaque)) ;;
    modify (set_io l) ;;; ret (Z.shiftl i IO_MEM_SHIFT) in
  if io_index <=? 0 then
    if IO_MEM_NB_ENTRIES <=? io_mem_nb s then ret (-1)
    else modify (set_io_nb (io_mem_nb s + 1)) ;;; store (io_mem_nb s)
  else if IO_MEM_NB_ENTRIES <=? io_index then ret (-1)
  else store io_index.

(** [io_mem_init()]; [phys_ram] has been allocated. *)
Definition io_mem_init : V unit :=
  cpu_register_io_memory (Z.shiftr IO_MEM_ROM IO_MEM_SHIFT) (replicate 3 RNull) (replicate 3 WUnassigned) 0 ;;;
  cpu_register_io_memory (Z.shiftr IO_MEM_UNASSIGNED IO_MEM_SHIFT) (replicate 3 RUnassigned) (replicate 3 WUnassigned) 0 ;;;
  cpu_register_io_memory (Z.shiftr IO_MEM_NOTDIRTY IO_MEM_SHIFT) (replicate 3 RNull) [WNotDirty 1; WNotDirty 2; WNotDirty 4] 0 ;;;
  modify (set_io_nb 5) ;;;
  modify (fun s => set_dirty (replicate (length (phys_ram s) / 4096) 0xff) s).

(** * Registering memory *)

(** The turns of [for(addr = start_addr; addr != end_addr; ...)]. *)
Fixpoint register_loop (n : nat) (addr end_addr phys_offset : Z) : V unit :=
  if addr =? end_addr then ret tt else
  match n with
  | O => stop Diverged
  | S n =>
      p <- phys_page_find_alloc (Z.shiftr addr TARGET_PAGE_BITS) true ;;
      p <- of_option NullDeref p ;;
      set_offset p phys_offset ;;;
      let phys_offset' :=
        if (page_off phys_offset <=? IO_MEM_ROM) || negb (Z.land phys_offset IO_MEM_ROMD =? 0)
        then u32 (phys_offset + TARGET_PAGE_SIZE) else phys_offset in
      register_loop n (u32 (addr + TARGET_PAGE_SIZE)) end_addr phys_offset'
  end.
(** [cpu_register_physical_memory(start_addr, size, phys_offset)] *)
Definition cpu_register_physical_memory (start_addr size phys_offset : Z) : V unit :=
  let size := page_of (u32 (size + TARGET_PAGE_SIZE - 1)) in
  register_loop (Z.to_nat (size / TARGET_PAGE_SIZE)) start_addr (u32 (start_addr + size)) phys_offset ;;;
  tlb_flush.

(** * Accesses by physical address *)

(** [(pd & ~TARGET_PAGE_MASK) > IO_MEM_ROM && !(pd & IO_MEM_ROMD)]: reading calls
    a device. *)
Definition reads_io (pd : Z) : bool := (IO_MEM_ROM <? page_off pd) && (Z.land pd IO_MEM_ROMD =? 0).
(** [(pd & ~TARGET_PAGE_MASK) != IO_MEM_RAM]: writing does. *)
Definition writes_io (pd : Z) : bool := negb (page_off pd =? IO_MEM_RAM).
(** [(pd & TARGET_PAGE_MASK) + (addr & ~TARGET_PAGE_MASK)] *)
Definition ram_addr_of (pd addr : Z) : Z := u32 (page_of pd + page_off addr).

(** [ldl_phys(addr)] *)
Definition ldl_phys (addr : Z) : V Z :=
  pd <- cpu_get_physical_page_desc addr ;;
  if reads_io pd then call_read (io_index_of pd) 2 addr
  else ld_p 4 (ram_addr_of pd addr).
(** [ldq_phys(addr)] *)
Definition ldq_phys (addr : Z) : V Z :=
  pd <- cpu_get_physical_page_desc addr ;;
  if reads_io pd then
    lo <- call_read (io_index_of pd) 2 addr ;;
    hi <- call_read (io_index_of pd) 2 (u32 (addr + 4)) ;;
    ret (Z.lor lo (Z.shiftl hi 32))
  else ld_p 8 (ram_addr_of pd addr).
(** [stl_phys_notdirty(addr, val)] *)
Definition stl_phys_notdirty (addr val : Z) : V unit :=
  pd <- cpu_get_physical_page_desc addr ;;
  if writes_io pd then call_write (io_index_of pd) 2 addr val
  else st_p 4 (ram_addr_of pd addr) val.

(** [if (!cpu_physical_memory_is_dirty(addr1)) { ... }] after a write of [len]
    bytes at [addr1]. *)
Definition mark_dirty (addr1 len : Z) : V unit :=
  dirty <- cpu_physical_memory_is_dirty addr1 ;;
  if dirty then ret tt else
  modify (fun s => set_devs (tb_invalidate_range addr1 (u32 (addr1 + len)) (devs s)) s) ;;;
  d <- dirty_at addr1 ;;
  set_dirty_at addr1 (Z.lor d (Z.land 0xff (Z.lnot CODE_DIRTY_FLAG))).
(** [stl_phys(addr, val)] *)
Definition stl_phys (addr val : Z) : V unit :=
  pd <- cpu_get_physical_page_desc addr ;;
  if writes_io pd then call_write (io_index_of pd) 2 addr val
  else
    let addr1 := ram_addr_of pd addr in
    st_p 4 addr1 val ;;;
    mark_dirty addr1 4.

(** The size of the access to a device: [l >= 4 && ((addr & 3) == 0)] and so on. *)
Definition io_size (l addr : Z) : Z * Z :=
  if (4 <=? l) && (Z.land addr 3 =? 0) then (2, 4)
  else if (2 <=? l) && (Z.land addr 1 =? 0) then (1, 2)
  else (0, 1).

(** One turn of [cpu_physical_memory_rw], with [len] bytes of [buf] left: how
    many bytes it moved and, for a read, the bytes. *)
Definition rw_turn (addr : Z) (buf : list Z) (len : Z) (is_write : bool) : V (Z * list Z) :=
  let page := page_of addr in
  let l := s32 (u32 (u32 (page + TARGET_PAGE_SIZE) - addr)) in
  let l := if len <? l then len else l in
  pd <- cpu_get_physical_page_desc page ;;
  let '(shift, n) := io_size l addr in
  if is_write then
    if writes_io pd then
      bs <- of_option OutOfBounds (aread buf 0 (Z.to_nat n)) ;;
      call_write (io_index_of pd) shift addr (le_val bs) ;;;
      ret (n, [])
    else
      let addr1 := ram_addr_of pd addr in
      bs <- of_option OutOfBounds (aread buf 0 (Z.to_nat l)) ;;
      memcpy_to addr1 bs ;;;
      mark_dirty addr1 l ;;;
      ret (l, [])
  else if reads_io pd then
    v <- call_read (io_index_of pd) shift addr ;;
    ret (n, le_bytes (Z.to_nat n) v)
  else
    bs <- memcpy_from (ram_addr_of pd addr) (Z.to_nat l) ;;
    ret (l, bs).

(** [cpu_physical_memory_rw(addr, buf, len, is_write)]: the bytes read.  Every turn
    moves at least one byte, so [len] turns are enough. *)
Fixpoint rw_loop (n : nat) (addr : Z) (buf : list Z) (len : Z) (is_write : bool) : V (list Z) :=
  if len <=? 0 then ret [] else
  match n with
  | O => stop Diverged
  | S n =>
      r <- rw_turn addr buf len is_write ;;
      rest <- rw_loop n (u32 (addr + fst r)) (drop (Z.to_nat (fst r)) buf) (len - fst r) is_write ;;
      ret (snd r ++ rest)
  end.
Definition cpu_physical_memory_rw (addr : Z) (buf : list Z) (len : Z) (is_write : bool) : V (list Z) :=
  rw_loop (Z.to_nat len) addr buf len is_write.
Definition cpu_physical_memory_read (addr len : Z) : V (list Z) := cpu_physical_memory_rw addr [] len false.
Definition cpu_physical_memory_write (addr : Z) (buf : list Z) (len : Z) : V unit :=
  cpu_physical_memory_rw addr buf len true ;;; ret tt.

(** [ldub_phys], [lduw_phys], [stb_phys], [stw_phys], [stq_phys] *)
Definition ldub_phys (addr : Z) : V Z := l <- cpu_physical_memory_read addr 1 ;; ret (le_val l).
Definition lduw_phys (addr : Z) : V Z := l <- cpu_physical_memory_read addr 2 ;; ret (le_val l).
Definition stb_phys (addr val : Z) : V unit := cpu_physical_memory_write addr (le_bytes 1 val) 1.
Definition stw_phys (addr val : Z) : V unit := cpu_physical_memory_write addr (le_bytes 2 val) 2.
Definition stq_phys (addr val : Z) : V unit := cpu_physical_memory_write addr (le_bytes 8 val) 8.

(** [cpu_physical_memory_write_rom(addr, buf, len)] *)
Fixpoint rom_loop (n : nat) (addr : Z) (buf : list Z) (len : Z) : V unit :=
  if len <=? 0 then ret tt else
  match n with
  | O => stop Diverged
  | S n =>
      let page := page_of addr in
      let l := s32 (u32 (u32 (page + TARGET_PAGE_SIZE) - addr)) in
      let l := if len <? l then len else l in
      pd <- cpu_get_physical_page_desc page ;;
      (if negb (page_off pd =? IO_MEM_RAM) && negb (page_off pd =? IO_MEM_ROM) && (Z.land pd IO_MEM_ROMD =? 0)
       then ret tt
       else bs <- of_option OutOfBounds (aread buf 0 (Z.to_nat l)) ;; memcpy_to (ram_addr_of pd addr) bs) ;;;
      rom_loop n (u32 (addr + l)) (drop (Z.to_nat l) buf) (len - l)
  end.
Definition cpu_physical_memory_write_rom (addr : Z) (buf : list Z) (len : Z) : V unit :=
  rom_loop (Z.to_nat len) addr buf len.

(** * Filling the cache *)

Definition PAGE_READ : Z := 1.
Definition PAGE_WRITE : Z := 2.
Definition PAGE_EXEC : Z := 4.
Definition allows (prot right : Z) : bool := negb (Z.land prot right =? 0).

(** [tlb_set_page_exec(env, vaddr, paddr, prot, is_user, is_softmmu)] with the soft
    MMU; it returns 0. *)
Definition tlb_set_page_exec (vaddr paddr prot is_user : Z) : V unit :=
  pd <- cpu_get_physical_page_desc paddr ;;
  let '(address, addend) :=
    if reads_io pd then (Z.lor vaddr pd, paddr) else (vaddr, u32 (phys_ram_base + page_of pd)) in
  dirty <- (if allows prot PAGE_WRITE && negb (writes_io pd) then cpu_physical_memory_is_dirty pd else ret true) ;;
  let addr_write :=
    if (page_off pd =? IO_MEM_ROM) || negb (Z.land pd IO_MEM_ROMD =? 0)
    then Z.lor vaddr (Z.land pd (0xfff - IO_MEM_ROMD))
    else if negb dirty then Z.lor vaddr IO_MEM_NOTDIRTY
    else address in
  let invalid := u32 (-1) in
  set_te is_user (tlb_index vaddr)
    (Te (if allows prot PAGE_READ then address else invalid)
        (if allows prot PAGE_WRITE then addr_write else invalid)
        (if allows prot PAGE_EXEC then address else invalid)
        (u32 (addend - vaddr))).
End Phys.
