(* ===== verification/PhysRam.v ===== *)
(** The map of physical pages and the memory behind it: what registering memory
    changes, and that bytes written by physical address are read back. *)
From S2P Require Import Prelude Layout PhysMem.

(** * Bytes *)

Lemma page_off_mod x : page_off x = x mod 4096.
Proof. unfold page_off. change 0xfff with (Z.ones 12). by rewrite Z.land_ones. Qed.

(** Masking with ones from bit [n] up to bit [m]. *)
Lemma land_high x n m : 0 <= n <= m -> Z.land x (2 ^ m - 2 ^ n) = (x / 2 ^ n) mod 2 ^ (m - n) * 2 ^ n.
Proof.
  intros H. replace (2 ^ m - 2 ^ n) with (Z.shiftl (Z.ones (m - n)) n).
  - rewrite <- Z.land_ones by lia. rewrite <- !Z.shiftl_mul_pow2, <- Z.shiftr_div_pow2 by lia.
    apply Z.bits_inj'. intros j Hj. rewrite Z.land_spec, !Z.shiftl_spec by lia.
    destruct (Z.leb_spec n j).
    + rewrite Z.land_spec, Z.shiftr_spec by lia. do 2 f_equal. lia.
    + rewrite !(Z.testbit_neg_r _ (j - n)) by lia. apply andb_false_r.
  - rewrite Z.shiftl_mul_pow2, Z.ones_equiv by lia. replace (2 ^ m) with (2 ^ (m - n) * 2 ^ n); [lia|].
    rewrite <- Z.pow_add_r by lia. f_equal. lia.
Qed.

Lemma page_of_sub x : is_u32 x -> page_of x = x - x mod 4096.
Proof.
  intros Hx. unfold page_of, TARGET_PAGE_MASK. change 0xfffff000 with (2 ^ 32 - 2 ^ 12). rewrite land_high by lia.
  unfold is_u32 in Hx. change (2 ^ (32 - 12)) with 1048576. change (2 ^ 12) with 4096.
  rewrite Z.mod_small; Z.div_mod_to_equations; lia.
Qed.

Section Map.
Context {D : Type} {DD : Devices D} {HR : HostRam}.
Implicit Types (s : vmem D).

(** * The map *)

(** The entry of the page of a physical address. *)
Definition desc_at (m : list (option (list Z))) (index : Z) : Z :=
  match aget m (Z.land (Z.shiftr index 10) 1023) with
  | Some (Some t) => default IO_MEM_UNASSIGNED (aget t (Z.land index 1023))
  | _ => IO_MEM_UNASSIGNED
  end.
Definition desc s (addr : Z) : Z := desc_at (l1_phys_map s) (Z.shiftr addr 12).

(** The tables of the map have their sizes. *)
Definition map_ok (m : list (option (list Z))) : Prop :=
  length m = 1024%nat /\ forall i t, m !! i = Some (Some t) -> length t = 1024%nat.

Lemma low_index x : 0 <= Z.land x 1023 < 1024.
Proof. change 1023 with (Z.ones 10). rewrite Z.land_ones by lia. apply Z.mod_pos_bound. lia. Qed.

Lemma map_entry m index :
  map_ok m -> exists t, aget m (Z.land (Z.shiftr index 10) 1023) = Some t.
Proof. intros [H _]. apply aget_Some. rewrite H. apply low_index. Qed.

Lemma map_table m i t : map_ok m -> aget m i = Some (Some t) -> length t = 1024%nat.
Proof. intros [_ H] E. unfold aget in E. case_decide; [|done]. by apply (H (Z.to_nat i)). Qed.

Lemma get_desc s addr : map_ok (l1_phys_map s) -> cpu_get_physical_page_desc addr s = Ok (desc s addr) s.
Proof.
  intros H. unfold cpu_get_physical_page_desc, phys_page_find_alloc, desc, desc_at.
  rewrite bind_assoc. mstep. destruct (map_entry _ (Z.shiftr addr TARGET_PAGE_BITS) H) as [t Ht].
  unfold TARGET_PAGE_BITS, L2_BITS, L1_SIZE, L2_SIZE in *. change (1024 - 1) with 1023.
  rewrite bind_assoc, (bind_some _ _ _ _ _ Ht), Ht.
  destruct t as [t|]; [|done]. mstep. unfold get_offset. cbn [fst snd]. mstep.
  rewrite (bind_some _ _ _ _ _ Ht), (bind_some _ _ _ _ _ eq_refl).
  destruct (aget_Some t (Z.land (Z.shiftr addr 12) 1023)) as [x Hx]; [rewrite (map_table _ _ _ H Ht); apply low_index|].
  by rewrite Hx.
Qed.

Lemma map_ok_insert m i t :
  map_ok m -> length t = 1024%nat -> map_ok (<[i := Some t]> m).
Proof.
  intros [H1 H2] Ht. split; [by rewrite length_insert|]. intros j u E.
  destruct (decide (i = j)) as [<-|Hij].
  - destruct (decide (i < length m)%nat).
    + rewrite list_lookup_insert_eq in E by done. by simplify_eq.
    + rewrite list_insert_ge in E by lia. by apply (H2 i).
  - rewrite list_lookup_insert_ne in E by done. by apply (H2 j).
Qed.

Lemma index_split j : 0 <= j < 2 ^ 20 -> j = Z.land (Z.shiftr j 10) 1023 * 1024 + Z.land j 1023.
Proof.
  intros Hj. change 1023 with (Z.ones 10). rewrite !Z.land_ones, Z.shiftr_div_pow2 by lia.
  change (2 ^ 10) with 1024. rewrite (Z.mod_small (j / 1024)) by (Z.div_mod_to_equations; lia).
  Z.div_mod_to_equations; lia.
Qed.

Lemma desc_at_table m i t j :
  map_ok m -> 0 <= i < 1024 ->
  desc_at (<[Z.to_nat i := Some t]> m) j =
    if decide (Z.land (Z.shiftr j 10) 1023 = i) then default IO_MEM_UNASSIGNED (aget t (Z.land j 1023)) else desc_at m j.
Proof.
  intros [Hl _] Hi. unfold desc_at. pose proof (low_index (Z.shiftr j 10)).
  unfold aget at 1. rewrite decide_True by lia. case_decide as Hj.
  - rewrite Hj, list_lookup_insert_eq by lia. done.
  - rewrite list_lookup_insert_ne by lia. unfold aget at 2. by rewrite decide_True by lia.
Qed.

Lemma set_offset_ok s i k t v :
  map_ok (l1_phys_map s) -> 0 <= i < 1024 -> 0 <= k < 1024 -> aget (l1_phys_map s) i = Some (Some t) ->
  set_offset (i, k) v s = Ok tt (set_map (<[Z.to_nat i := Some (<[Z.to_nat k := v]> t)]> (l1_phys_map s)) s).
Proof.
  intros H Hi Hk Ht. unfold set_offset. cbn [fst snd]. mstep. msome Ht. msome eq_refl.
  pose proof (map_table _ _ _ H Ht). destruct H as [Hl _].
  rewrite aset_Some by lia. msome eq_refl. rewrite aset_Some by lia. msome eq_refl. done.
Qed.

(** Storing the entry of a page changes that page's entry. *)
Lemma store_desc s index v :
  map_ok (l1_phys_map s) -> 0 <= index < 2 ^ 20 ->
  exists m, (p <- phys_page_find_alloc index true ;; p <- of_option NullDeref p ;; set_offset p v) s = Ok tt (set_map m s) /\
    map_ok m /\ forall j, 0 <= j < 2 ^ 20 -> desc_at m j = if decide (j = index) then v else desc_at (l1_phys_map s) j.
Proof.
  intros Hm Hi. unfold phys_page_find_alloc, L2_BITS, L1_SIZE, L2_SIZE. change (1024 - 1) with 1023.
  set (i := Z.land (Z.shiftr index 10) 1023). set (k := Z.land index 1023).
  assert (0 <= i < 1024) by apply low_index. assert (0 <= k < 1024) by apply low_index.
  destruct (map_entry _ index Hm) as [o Ho]. fold i in Ho.
  set (t := default (replicate 1024 IO_MEM_UNASSIGNED) o).
  assert (length t = 1024%nat) as Hlt.
  { unfold t. destruct o as [u|]; [by eapply map_table|done]. }
  exists (<[Z.to_nat i := Some (<[Z.to_nat k := v]> t)]> (l1_phys_map s)).
  split; [|split; [by apply map_ok_insert; [|rewrite length_insert]|]].
  - mstep. mstep. rewrite bind_assoc, (bind_some _ _ _ _ _ Ho). destruct o as [u|]; cbv beta iota; cbn [negb].
    + mstep. msome eq_refl. by apply set_offset_ok.
    + rewrite aset_Some by (destruct Hm; lia). rewrite bind_assoc, (bind_some _ _ _ _ _ eq_refl). mstep. mstep. mstep.
      msome eq_refl. destruct Hm as [Hl Hm].
      rewrite (set_offset_ok _ _ _ t); cbn [l1_phys_map set_map].
      * by rewrite list_insert_insert_eq.
      * by apply map_ok_insert.
      * done.
      * done.
      * unfold aget. rewrite decide_True by lia. rewrite list_lookup_insert_eq by lia. done.
  - intros j Hj. rewrite desc_at_table by done. pose proof (low_index j).
    pose proof (index_split index Hi) as E1. pose proof (index_split j Hj) as E2. fold i k in E1.
    case_decide as Hji; [|rewrite decide_False; [done|intros ->; done]].
    unfold aget at 1. rewrite decide_True by lia. case_decide as Hjk.
    + subst j. fold k. by rewrite list_lookup_insert_eq by lia.
    + rewrite list_lookup_insert_ne by lia. unfold desc_at. rewrite Hji, Ho. unfold t.
      destruct o as [u|]; cbn [default]; [unfold aget; by rewrite decide_True by lia|].
      by rewrite lookup_replicate_2 by lia.
Qed.

(** * Registering memory *)

(** Adding whole pages keeps the low bits. *)
Definition ram_like (off : Z) : bool := (page_off off <=? IO_MEM_ROM) || negb (Z.land off IO_MEM_ROMD =? 0).
Definition nth_offset (off k : Z) : Z := if ram_like off then u32 (off + k * 4096) else off.

Lemma land_1 x : Z.land x 1 = x mod 2.
Proof. apply (Z.land_ones x 1). lia. Qed.

Lemma nth_offset_next off k : is_u32 off ->
  nth_offset (nth_offset off 1) k = nth_offset off (k + 1).
Proof.
  intros Ho. unfold nth_offset. destruct (ram_like off) eqn:E; [|by rewrite E].
  assert (ram_like (u32 (off + 1 * 4096)) = true) as ->.
  { rewrite <- E. unfold ram_like, IO_MEM_ROM, IO_MEM_ROMD. rewrite !page_off_mod, !land_1.
    replace (u32 (off + 1 * 4096) mod 4096) with (off mod 4096) by int_lia.
    by replace (u32 (off + 1 * 4096) mod 2) with (off mod 2) by int_lia. }
  unfold u32. rewrite Zplus_mod_idemp_l. f_equal. lia.
Qed.

Lemma nth_offset_0 off i : is_u32 off -> nth_offset off (i - i) = off.
Proof. intros H. unfold nth_offset. rewrite Z.sub_diag, Z.add_0_r, u32_small by done. by destruct (ram_like off). Qed.

Lemma register_turn n s addr end_ off :
  addr <> end_ ->
  register_loop (S n) addr end_ off s =
    (_ <- (p <- phys_page_find_alloc (Z.shiftr addr 12) true ;; p <- of_option NullDeref p ;; set_offset p off) ;;
     register_loop n (u32 (addr + 4096)) end_ (nth_offset off 1)) s.
Proof.
  intros H. apply Z.eqb_neq in H. cbn [register_loop]. rewrite H. rewrite bind_assoc.
  unfold TARGET_PAGE_BITS. unfold bind. destruct (phys_page_find_alloc _ _ s); [|done].
  destruct (of_option _ _ _); [|done]. destruct (set_offset _ _ _); [|done].
  unfold nth_offset, ram_like, TARGET_PAGE_SIZE. by rewrite Z.mul_1_l.
Qed.

Lemma register_loop_ok n : forall s addr off,
  map_ok (l1_phys_map s) -> is_u32 addr -> is_u32 off -> addr + Z.of_nat n * 4096 <= 2 ^ 32 -> Z.of_nat n < 2 ^ 20 ->
  exists m, register_loop n addr (u32 (addr + Z.of_nat n * 4096)) off s = Ok tt (set_map m s) /\ map_ok m /\
    forall j, 0 <= j < 2 ^ 20 -> desc_at m j =
      if decide (Z.shiftr addr 12 <= j < Z.shiftr addr 12 + Z.of_nat n)
      then nth_offset off (j - Z.shiftr addr 12) else desc_at (l1_phys_map s) j.
Proof.
  induction n as [|n IH]; intros s addr off Hm Ha Ho Hn Hn2.
  - exists (l1_phys_map s). cbn [register_loop]. rewrite Z.mul_0_l, Z.add_0_r, u32_small, Z.eqb_refl by done.
    split; [by destruct s|]. split; [done|]. intros j Hj. by rewrite decide_False by lia.
  - rewrite register_turn by (unfold is_u32 in Ha; int_lia).
    assert (0 <= Z.shiftr addr 12 < 2 ^ 20) as Hi.
    { rewrite Z.shiftr_div_pow2 by lia. unfold is_u32 in Ha. split; Z.div_mod_to_equations; lia. }
    destruct (store_desc s (Z.shiftr addr 12) off Hm Hi) as (m & E & Hm1 & Hd). rewrite (bind_ok _ _ _ _ _ E).
    assert (is_u32 (nth_offset off 1)) as Ho1.
    { unfold nth_offset. destruct (ram_like off); [apply u32_range|done]. }
    destruct (IH (set_map m s) (u32 (addr + 4096)) (nth_offset off 1)) as (m' & E' & Hm' & Hd').
    + done.
    + apply u32_range.
    + done.
    + unfold is_u32 in *. int_lia.
    + lia.
    + exists m'. split; [|split; [done|]].
      * change (set_map m' s) with (set_map m' (set_map m s)). rewrite <- E'. f_equal. unfold u32. rewrite Zplus_mod_idemp_l. f_equal. lia.
      * intros j Hj. rewrite Hd' by done. cbn [l1_phys_map set_map]. rewrite Hd by done.
        assert (n = 0%nat \/ Z.shiftr (u32 (addr + 4096)) 12 = Z.shiftr addr 12 + 1) as Hs.
        { destruct (decide (n = 0%nat)); [by left|right]. rewrite !Z.shiftr_div_pow2 by lia.
          unfold is_u32 in *. rewrite u32_small by (unfold is_u32; lia). Z.div_mod_to_equations; lia. }
        destruct Hs as [->|Hs]; [|rewrite Hs].
        -- rewrite decide_False by lia. repeat case_decide; try lia; try done.
           subst j. by rewrite nth_offset_0.
        -- repeat case_decide; try lia; try done.
           ++ rewrite nth_offset_next by done. f_equal. lia.
           ++ subst j. by rewrite nth_offset_0.
Qed.

(** Every entry of the cache is invalid. *)
Definition tlb_empty (t : list (list tlb_entry)) : Prop :=
  Forall (Forall (fun e => addr_read e = u32 (-1) /\ addr_write e = u32 (-1) /\ addr_code e = u32 (-1))) t.

Lemma flushed_empty t : tlb_empty (map (map no_entry) t).
Proof. apply Forall_map, Forall_true. intros l. apply Forall_map, Forall_true. done. Qed.

Definition round_up (size : Z) : Z := (size + 4095) / 4096 * 4096.

Lemma register_ok s start size off :
  map_ok (l1_phys_map s) -> is_u32 start -> is_u32 off -> 0 <= size -> start + round_up size <= 2 ^ 32 -> round_up size < 2 ^ 32 ->
  exists s', cpu_register_physical_memory start size off s = Ok tt s' /\
    map_ok (l1_phys_map s') /\ tlb_empty (tlb_table s') /\
    phys_ram s' = phys_ram s /\ phys_ram_dirty s' = phys_ram_dirty s /\ io_mem s' = io_mem s /\
    forall a, is_u32 a -> desc s' a =
      if decide (start / 4096 <= a / 4096 < start / 4096 + round_up size / 4096)
      then nth_offset off (a / 4096 - start / 4096) else desc s a.
Proof.
  intros Hm Hs Ho Hz Hr Hr2. unfold cpu_register_physical_memory, TARGET_PAGE_SIZE.
  assert (page_of (u32 (size + 4096 - 1)) = round_up size) as ->.
  { unfold round_up in *. unfold is_u32 in *.
    rewrite u32_small, page_of_sub by (unfold is_u32; Z.div_mod_to_equations; lia). Z.div_mod_to_equations; lia. }
  set (n := Z.to_nat (round_up size / 4096)).
  assert (round_up size = Z.of_nat n * 4096) as E.
  { unfold n. unfold round_up in *. rewrite Z.div_mul by lia. Z.div_mod_to_equations; lia. }
  rewrite E in *. destruct (register_loop_ok n s start off) as (m & Er & Hm' & Hd); try done; try lia.
  eexists. split; [rewrite (bind_ok _ _ _ _ _ Er); reflexivity|]. cbn. repeat split; try done.
  - apply Hm'.
  - apply Hm'.
  - apply flushed_empty.
  - intros a Ha. unfold desc. cbn [l1_phys_map set_map]. rewrite Hd.
    + rewrite !Z.shiftr_div_pow2 by lia. change (2 ^ 12) with 4096. rewrite Z.div_mul by lia. done.
    + rewrite Z.shiftr_div_pow2 by lia. unfold is_u32 in Ha. Z.div_mod_to_equations; lia.
Qed.

(** * Memory by physical address *)

(** The bytes of memory behind the physical addresses from [addr] on: they follow
    one another from [addr + off] on, in pages of plain memory. *)
Record linear s (addr n off : Z) : Prop := Linear {
  lin_map : map_ok (l1_phys_map s);
  lin_dirty : Z.of_nat (length (phys_ram_dirty s)) * 4096 = Z.of_nat (length (phys_ram s));
  lin_ram : Z.of_nat (length (phys_ram s)) <= 2 ^ 32;
  lin_addr : 0 <= addr /\ addr + n <= 2 ^ 32;
  lin_in : 0 <= addr + off /\ addr + off + n <= Z.of_nat (length (phys_ram s));
  lin_page : forall a, addr <= a < addr + n -> page_off (desc s a) = IO_MEM_RAM /\ desc s a + a mod 4096 = a + off
}.

Lemma turn_len addr : is_u32 addr ->
  s32 (u32 (u32 (page_of addr + TARGET_PAGE_SIZE) - addr)) = 4096 - addr mod 4096.
Proof.
  intros Ha. rewrite page_of_sub by done. unfold TARGET_PAGE_SIZE.
  replace (u32 (u32 (addr - addr mod 4096 + 4096) - addr)) with (4096 - addr mod 4096).
  - apply s32_small. unfold is_s32. pose proof (Z.mod_pos_bound addr 4096). lia.
  - unfold u32. rewrite Zminus_mod_idemp_l. replace (addr - addr mod 4096 + 4096 - addr) with (4096 - addr mod 4096) by lia.
    pose proof (Z.mod_pos_bound addr 4096). symmetry. apply Z.mod_small. lia.
Qed.

Lemma desc_page s a b : a / 4096 = b / 4096 -> desc s a = desc s b.
Proof. intros H. unfold desc. rewrite !Z.shiftr_div_pow2 by lia. change (2 ^ 12) with 4096. by rewrite H. Qed.

Lemma linear_turn s addr n off :
  linear s addr n off -> 0 < n ->
  cpu_get_physical_page_desc (page_of addr) s = Ok (desc s addr) s /\ writes_io (desc s addr) = false /\
  reads_io (desc s addr) = false /\ ram_addr_of (desc s addr) addr = addr + off.
Proof.
  intros [Hm _ Hr Ha Hi Hp] Hn. destruct (Hp addr) as [H1 H2]; [lia|].
  rewrite get_desc by done. unfold writes_io, reads_io. rewrite H1. split; [|split; [done|split; [done|]]].
  - f_equal. apply desc_page. rewrite page_of_sub by (unfold is_u32; lia). Z.div_mod_to_equations; lia.
  - unfold ram_addr_of. rewrite page_off_mod. rewrite page_off_mod in H1. unfold IO_MEM_RAM in H1.
    assert (is_u32 (desc s addr)) by (unfold is_u32; Z.div_mod_to_equations; lia).
    rewrite page_of_sub, H1 by done. rewrite u32_small; [lia|]. unfold is_u32. lia.
Qed.

Lemma mark_dirty_ok s a l :
  0 <= a < Z.of_nat (length (phys_ram_dirty s)) * 4096 ->
  exists d v, length d = length (phys_ram_dirty s) /\ mark_dirty a l s = Ok tt (set_dirty d (set_devs v s)).
Proof.
  intros Ha. assert (0 <= Z.shiftr a 12 < Z.of_nat (length (phys_ram_dirty s))) as Hi.
  { rewrite Z.shiftr_div_pow2 by lia. change (2 ^ 12) with 4096. Z.div_mod_to_equations; lia. }
  destruct (aget_Some _ _ Hi) as [x Hx].
  unfold mark_dirty, cpu_physical_memory_is_dirty, dirty_at, set_dirty_at, TARGET_PAGE_BITS.
  msteps. msome Hx. msteps. destruct (x =? 0xff).
  - exists (phys_ram_dirty s), (devs s). split; [done|]. by destruct s.
  - msteps. cbn [phys_ram_dirty set_devs]. msome Hx. msteps. rewrite aset_Some by done. msome eq_refl.
    eexists _, _. split; [|reflexivity]. apply length_insert.
Qed.

(** A state that differs in memory, in dirty bytes and in the devices. *)
Definition moved s (r d : list Z) (v : D) : vmem D := set_ram r (set_dirty d (set_devs v s)).

Lemma linear_moved s addr n off r d v m :
  linear s addr n off -> length r = length (phys_ram s) -> length d = length (phys_ram_dirty s) -> 0 <= m <= n ->
  linear (moved s r d v) (addr + m) (n - m) off.
Proof.
  intros [Hm Hd Hr Ha Hi Hp] Er Ed Hmn. split; cbn; try rewrite Er; try rewrite Ed; try done; try lia.
  intros a Hra. apply Hp. lia.
Qed.

Lemma write_turn s addr n off buf :
  linear s addr n off -> 0 < n -> n = Z.of_nat (length buf) ->
  exists l r d v, 0 < l <= n /\ rw_turn addr buf n true s = Ok (l, []) (moved s r d v) /\
    awrite (phys_ram s) (addr + off) (take (Z.to_nat l) buf) = Some r /\ length d = length (phys_ram_dirty s).
Proof.
  intros HL Hn Hb. destruct (linear_turn _ _ _ _ HL Hn) as (Ed & Hw & Hrd & Era). destruct HL as [Hm Hdl Hr Ha Hi Hp].
  set (l := if n <? 4096 - addr mod 4096 then n else 4096 - addr mod 4096).
  assert (0 < l <= n) as Hl.
  { unfold l. pose proof (Z.mod_pos_bound addr 4096). destruct (Z.ltb_spec n (4096 - addr mod 4096)); lia. }
  destruct (awrite_Some (phys_ram s) (addr + off) (take (Z.to_nat l) buf)) as [r Er]; [lia|rewrite length_take; lia|].
  destruct (mark_dirty_ok (set_ram r s) (addr + off) l) as (d & v & Hd & Em); [cbn [phys_ram_dirty set_ram]; lia|].
  exists l, r, d, v. split; [done|]. split; [|done].
  unfold rw_turn. rewrite turn_len by (unfold is_u32; lia). fold l.
  rewrite (bind_ok _ _ _ _ _ Ed), Hw, Era. destruct (io_size l addr) as [sh k].
  assert (aread buf 0 (Z.to_nat l) = Some (take (Z.to_nat l) buf)) as Eb.
  { unfold aread. rewrite decide_True by lia. done. }
  msome Eb. unfold memcpy_to. msteps. msome Er. msteps. rewrite (bind_ok _ _ _ _ _ Em). done.
Qed.

(** The address after a turn wraps only when nothing is left. *)
Lemma rw_loop_u32 n s addr buf len w :
  0 <= addr -> addr + len <= 2 ^ 32 -> rw_loop n (u32 addr) buf len w s = rw_loop n addr buf len w s.
Proof.
  intros Ha Hl. destruct (decide (addr < 2 ^ 32)); [by rewrite u32_small by (unfold is_u32; lia)|].
  destruct n; cbn [rw_loop]; by rewrite (proj2 (Z.leb_le len 0)) by lia.
Qed.

Lemma rw_write n : forall s addr len off buf,
  linear s addr len off -> len = Z.of_nat (length buf) -> len <= Z.of_nat n ->
  exists r d v, rw_loop n addr buf len true s = Ok [] (moved s r d v) /\
    awrite (phys_ram s) (addr + off) buf = Some r /\ length d = length (phys_ram_dirty s).
Proof.
  induction n as [|n IH]; intros s addr len off buf HL Hb Hn; cbn [rw_loop]; destruct (Z.leb_spec len 0) as [Hz|Hz]; try lia.
  1,2: destruct buf; [|cbn in Hb; lia]; exists (phys_ram s), (phys_ram_dirty s), (devs s); split; [by destruct s|split; [|done]];
    destruct (lin_in _ _ _ _ HL); unfold awrite; rewrite decide_True by (cbn; lia); cbn [length app];
    by rewrite Nat.add_0_r, take_drop.
  destruct (write_turn _ _ _ _ _ HL Hz Hb) as (l & r & d & v & Hl & Et & Er & Hd). rewrite (bind_ok _ _ _ _ _ Et). cbn [fst snd].
  pose proof (length_awrite _ _ _ _ Er) as Elr. pose proof (lin_addr _ _ _ _ HL).
  destruct (IH (moved s r d v) (addr + l) (len - l) off (drop (Z.to_nat l) buf)) as (r' & d' & v' & E & Er' & Hd').
  - by apply linear_moved; [| | |lia].
  - rewrite length_drop. lia.
  - lia.
  - exists r', d', v'. rewrite <- rw_loop_u32 in E by lia. rewrite (bind_ok _ _ _ _ _ E). split; [done|].
    cbn [phys_ram phys_ram_dirty moved set_ram set_dirty set_devs] in *. split; [|by rewrite Hd'].
    rewrite <- (take_drop (Z.to_nat l) buf). apply (awrite_app _ _ _ _ r); [done|].
    rewrite length_take, Nat.min_l by lia. rewrite <- Er'. f_equal. lia.
Qed.

Lemma read_turn s addr n off :
  linear s addr n off -> 0 < n ->
  exists l bs, 0 < l <= n /\ rw_turn addr [] n false s = Ok (l, bs) s /\
    aread (phys_ram s) (addr + off) (Z.to_nat l) = Some bs.
Proof.
  intros HL Hn. destruct (linear_turn _ _ _ _ HL Hn) as (Ed & Hw & Hrd & Era). destruct HL as [Hm Hdl Hr Ha Hi Hp].
  set (l := if n <? 4096 - addr mod 4096 then n else 4096 - addr mod 4096).
  assert (0 < l <= n) as Hl.
  { unfold l. pose proof (Z.mod_pos_bound addr 4096). destruct (Z.ltb_spec n (4096 - addr mod 4096)); lia. }
  eexists l, _. split; [done|]. unfold aread. rewrite decide_True by lia. split; [|reflexivity].
  unfold rw_turn. rewrite turn_len by (unfold is_u32; lia). fold l.
  rewrite (bind_ok _ _ _ _ _ Ed), Hrd, Era. destruct (io_size l addr) as [sh k].
  unfold memcpy_from, aread. msteps. rewrite decide_True by lia. done.
Qed.

Lemma rw_read n : forall s addr len off,
  linear s addr len off -> 0 <= len <= Z.of_nat n ->
  exists bs, rw_loop n addr [] len false s = Ok bs s /\ aread (phys_ram s) (addr + off) (Z.to_nat len) = Some bs.
Proof.
  induction n as [|n IH]; intros s addr len off HL Hn; cbn [rw_loop]; destruct (Z.leb_spec len 0) as [Hz|Hz]; try lia.
  1,2: exists []; destruct (lin_in _ _ _ _ HL); unfold aread; replace len with 0 by lia; rewrite decide_True by lia; done.
  destruct (read_turn _ _ _ _ HL Hz) as (l & b1 & Hl & Et & E1). rewrite (bind_ok _ _ _ _ _ Et). cbn [fst snd].
  pose proof (lin_addr _ _ _ _ HL). rewrite drop_nil.
  destruct (IH s (addr + l) (len - l) off) as (b2 & E & E2).
  - pose proof (linear_moved _ _ _ _ (phys_ram s) (phys_ram_dirty s) (devs s) l HL eq_refl eq_refl) as H'.
    unfold moved in H'. destruct s. apply H'. lia.
  - lia.
  - exists (b1 ++ b2). rewrite <- rw_loop_u32 in E by lia. rewrite (bind_ok _ _ _ _ _ E). split; [done|].
    replace (Z.to_nat len) with (Z.to_nat l + Z.to_nat (len - l))%nat by lia. apply aread_app; [done|].
    rewrite <- E2. f_equal; lia.
Qed.

(** Memory that was just registered is behind its addresses. *)
Lemma register_linear s start size off :
  map_ok (l1_phys_map s) -> Z.of_nat (length (phys_ram_dirty s)) * 4096 = Z.of_nat (length (phys_ram s)) ->
  Z.of_nat (length (phys_ram s)) <= 2 ^ 32 ->
  is_u32 start -> start mod 4096 = 0 -> 0 <= size < 2 ^ 32 -> size mod 4096 = 0 -> start + size <= 2 ^ 32 ->
  is_u32 off -> off mod 4096 = 0 -> off + size <= Z.of_nat (length (phys_ram s)) ->
  exists s', cpu_register_physical_memory start size off s = Ok tt s' /\ phys_ram s' = phys_ram s /\
    linear s' start size (off - start).
Proof.
  intros Hm Hd Hr Hs Hsa Hz Hza Hsz Ho Hoa Hos.
  assert (round_up size = size) as Eu by (unfold round_up; Z.div_mod_to_equations; lia).
  destruct (register_ok s start size off) as (s' & E & Hm' & _ & Er & Ed & _ & Hdesc); try done; try lia.
  exists s'. split; [done|]. split; [done|]. unfold is_u32 in *. split; rewrite ?Er, ?Ed; try done; try lia.
  intros a Ha. rewrite Hdesc, Eu by lia. rewrite decide_True by (Z.div_mod_to_equations; lia).
  unfold nth_offset, ram_like. rewrite !page_off_mod, Hoa. change (0 <=? IO_MEM_ROM) with true. cbn [orb].
  rewrite u32_small by (unfold is_u32; Z.div_mod_to_equations; lia).
  unfold IO_MEM_RAM. split; Z.div_mod_to_equations; lia.
Qed.
End Map.


(** * Demonstration *)

(** Memory of four pages with nothing mapped, without devices. *)
#[export] Instance no_devices : Devices unit := {|
  dev_read _ _ _ d := (0, d); dev_write _ _ _ _ d := d; tb_invalidate_fast _ _ d := (true, d); tb_invalidate_range _ _ d := d
|}.
#[export] Instance demo_base : HostRam := 0x40000000.
Definition blank_vmem : vmem unit :=
  Vmem (replicate 1024 None) (replicate 16384 0) (replicate 4 0xfd) (replicate 256 (Zone [] [] 0)) 5
    (replicate 2 (replicate 256 (Te 0 0 0 0))) 0 tt.

(** A program that maps [size] bytes of memory from [off] on at the physical
    address [start], writes [buf] at [addr] and reads as many bytes from there. *)
Definition map_write_read {D} `{!Devices D} `{!HostRam} (start size off addr : Z) (buf : list Z) : M (vmem D) (list Z) :=
  cpu_register_physical_memory start size off ;;;
  cpu_physical_memory_write addr buf (Z.of_nat (length buf)) ;;;
  cpu_physical_memory_read addr (Z.of_nat (length buf)).

(** C18: bytes written by physical address to memory that was mapped by
    [cpu_register_physical_memory] are read back, across pages and whatever was
    mapped or cached before, and of the memory only the bytes behind the written
    addresses change. *)
Theorem physical_memory_reads_back {D} `{!Devices D} `{!HostRam} (s : vmem D) start size off addr buf :
  map_ok (l1_phys_map s) -> Z.of_nat (length (phys_ram_dirty s)) * 4096 = Z.of_nat (length (phys_ram s)) ->
  Z.of_nat (length (phys_ram s)) <= 2 ^ 32 ->
  is_u32 start -> start mod 4096 = 0 -> 0 <= size < 2 ^ 32 -> size mod 4096 = 0 -> start + size <= 2 ^ 32 ->
  is_u32 off -> off mod 4096 = 0 -> off + size <= Z.of_nat (length (phys_ram s)) ->
  start <= addr -> addr + Z.of_nat (length buf) <= start + size ->
  exists s', map_write_read start size off addr buf s = Ok buf s' /\
    forall i, phys_ram s' !! i =
      if decide (off + (addr - start) <= Z.of_nat i < off + (addr - start) + Z.of_nat (length buf))
      then buf !! (i - Z.to_nat (off + (addr - start)))%nat else phys_ram s !! i.
Proof.
  intros Hm Hd Hr Hs Hsa Hz Hza Hsz Ho Hoa Hos Ha1 Ha2.
  destruct (register_linear s start size off) as (s1 & E1 & Er & HL); try done.
  assert (linear s1 addr (Z.of_nat (length buf)) (off - start)) as HL1.
  { destruct HL as [? ? ? ? ? Hp]. unfold is_u32 in *. split; try done; try lia. intros a Ha. apply Hp. lia. }
  destruct (rw_write _ s1 addr _ (off - start) buf HL1 eq_refl (Z.le_refl _)) as (r & d & v & E2 & Ep & Hd2).
  destruct (rw_read (length buf) (moved s1 r d v) addr (Z.of_nat (length buf)) (off - start)) as (bs & E3 & Eg); [|lia|].
  { pose proof (linear_moved _ _ _ _ r d v 0 HL1 (length_awrite _ _ _ _ Ep) Hd2) as HL2.
    rewrite Z.add_0_r, Z.sub_0_r in HL2. apply HL2. lia. }
  cbn [phys_ram moved set_ram] in Eg. rewrite Nat2Z.id, (aread_awrite _ _ _ _ Ep) in Eg. injection Eg as <-.
  exists (moved s1 r d v). split.
  - unfold map_write_read. rewrite (bind_ok _ _ _ _ _ E1).
    unfold cpu_physical_memory_write, cpu_physical_memory_read, cpu_physical_memory_rw. rewrite Nat2Z.id, bind_assoc.
    rewrite (bind_ok _ _ _ _ _ E2). mstep. exact E3.
  - intros i. cbn [phys_ram moved set_ram]. rewrite (awrite_lookup _ _ _ _ i Ep), Er.
    replace (addr + (off - start)) with (off + (addr - start)) by lia. done.
Qed.

Lemma physical_memory_reads_back_witness :
  exists s', map_write_read 0x100000 8192 4096 0x100ffe [1; 2; 3; 4; 5] blank_vmem = Ok [1; 2; 3; 4; 5] s' /\
    phys_ram s' !! 8195%nat = Some 0 /\ phys_ram s' !! 8192%nat = Some 3.
Proof.
  destruct (physical_memory_reads_back blank_vmem 0x100000 8192 4096 0x100ffe [1; 2; 3; 4; 5]) as (s' & E & H).
  - split; [done|]. intros i t Ht. apply lookup_replicate_1 in Ht as [? _]. done.
  - by vm_compute.
  - by vm_compute.
  - unfold is_u32. lia.
  - done.
  - lia.
  - done.
  - lia.
  - unfold is_u32. lia.
  - done.
  - vm_compute. discriminate.
  - lia.
  - cbn. lia.
  - exists s'. split; [exact E|]. rewrite !H. split; vm_compute; reflexivity.
Defined.
