(* ===== verification/X86Mmu.v ===== *)
(** The address translation of the emulated processor,
    src/sysvm/target-i386/helper2.c for the 32-bit target: the control registers,
    the walk of the page tables that fills the cache of translations or ends in a
    page fault, and the walk for debugging. *)
From S2P Require Import Prelude Layout PhysMem.

Definition CR0_PE_MASK : Z := 0x1.
Definition CR0_WP_MASK : Z := 0x10000.
Definition CR0_PG_MASK : Z := 0x80000000.
Definition CR4_PSE_MASK : Z := 0x10.
Definition CR4_PAE_MASK : Z := 0x20.
Definition CR4_PGE_MASK : Z := 0x80.
Definition PG_PRESENT_MASK : Z := 0x1.
Definition PG_RW_MASK : Z := 0x2.
Definition PG_USER_MASK : Z := 0x4.
Definition PG_ACCESSED_MASK : Z := 0x20.
Definition PG_DIRTY_MASK : Z := 0x40.
Definition PG_PSE_MASK : Z := 0x80.
Definition PG_NX_MASK : Z := 0x8000000000000000.
Definition PG_ERROR_P_MASK : Z := 0x1.
Definition PG_ERROR_W_BIT : Z := 1.
Definition PG_ERROR_U_MASK : Z := 0x4.
Definition PG_ERROR_RSVD_MASK : Z := 0x8.
Definition PG_ERROR_I_D_MASK : Z := 0x10.
Definition MSR_EFER_NXE : Z := 0x800.
Definition PHYS_ADDR_MASK : Z := 0xfffff000.

(** [if (x & mask)] *)
Definition bit (x mask : Z) : bool := negb (Z.land x mask =? 0).

(** The registers of [CPUX86State] that translation depends on. *)
Record paging := Paging { cr0 : Z; cr3 : Z; cr4 : Z; a20_mask : Z; efer : Z }.
Definition set_pg_cr0 v g := Paging v (cr3 g) (cr4 g) (a20_mask g) (efer g).
Definition set_pg_cr3 v g := Paging (cr0 g) v (cr4 g) (a20_mask g) (efer g).
Definition set_pg_cr4 v g := Paging (cr0 g) (cr3 g) v (a20_mask g) (efer g).
Definition set_pg_a20 v g := Paging (cr0 g) (cr3 g) (cr4 g) v (efer g).

(** The end of a translation: the cache holds the page, or a page fault with its
    address ([cr2]) and error code. *)
Inductive mmu_result := Filled | Faulted (addr error_code : Z).

Section Mmu.
Context {D : Type} {DD : Devices D} {HR : HostRam}.
Abbreviation V := (M (vmem D)).

(** * The walk *)

(** [goto do_fault_protect] of the four leaves: the access breaks the rights
    [ptep]. *)
Definition denied (g : paging) (is_user is_write : bool) (ptep : Z) : bool :=
  if is_user then negb (bit ptep PG_USER_MASK) || (is_write && negb (bit ptep PG_RW_MASK))
  else bit (cr0 g) CR0_WP_MASK && is_write && negb (bit ptep PG_RW_MASK).

(** [if (!(e & PG_ACCESSED_MASK)) { e |= PG_ACCESSED_MASK; stl_phys_notdirty(..); }] *)
Definition mark_accessed (e_addr e : Z) : V Z :=
  if bit e PG_ACCESSED_MASK then ret e
  else let e := Z.lor e PG_ACCESSED_MASK in stl_phys_notdirty e_addr (u32 e) ;;; ret e.
(** [is_dirty = is_write && !(e & PG_DIRTY_MASK); ...] on a leaf. *)
Definition mark_leaf (e_addr e : Z) (is_write : bool) : V Z :=
  let is_dirty := is_write && negb (bit e PG_DIRTY_MASK) in
  if negb (bit e PG_ACCESSED_MASK) || is_dirty then
    let e := Z.lor e PG_ACCESSED_MASK in
    let e := if is_dirty then Z.lor e PG_DIRTY_MASK else e in
    stl_phys_notdirty e_addr (u32 e) ;;; ret e
  else ret e.

(** What a walk gives: the error code of a fault, or [pte], [ptep], [page_size] and
    [virt_addr]. *)
Definition leaf := (Z + Z * Z * Z * Z)%type.
Definition no_page (error_code : Z) : V leaf := ret (inl error_code).

(** The walk without physical address extension. *)
Definition walk32 (g : paging) (addr : Z) (is_user is_write : bool) : V leaf :=
  let pde_addr := Z.land (u32 (Z.land (cr3 g) 0xfffff000 + Z.land (Z.shiftr addr 20) 0xfffffffc)) (a20_mask g) in
  pde <- ldl_phys pde_addr ;;
  if negb (bit pde PG_PRESENT_MASK) then no_page 0
  else if bit pde PG_PSE_MASK && bit (cr4 g) CR4_PSE_MASK then
    let page_size := 4096 * 1024 in
    if denied g is_user is_write pde then no_page PG_ERROR_P_MASK else
    pde <- mark_leaf pde_addr pde is_write ;;
    let pte := Z.land pde 0xffc00fff in
    ret (inr (pte, pte, page_size, Z.land addr 0xffc00000))
  else
    pde <- mark_accessed pde_addr pde ;;
    let pte_addr := Z.land (u32 (Z.land pde 0xfffff000 + Z.land (Z.shiftr addr 10) 0xffc)) (a20_mask g) in
    pte <- ldl_phys pte_addr ;;
    if negb (bit pte PG_PRESENT_MASK) then no_page 0 else
    let ptep := Z.land pte pde in
    if denied g is_user is_write ptep then no_page PG_ERROR_P_MASK else
    pte <- mark_leaf pte_addr pte is_write ;;
    ret (inr (pte, ptep, 4096, Z.land addr 0xfffff000)).

(** The walk with physical address extension. *)
Definition walk_pae (g : paging) (addr : Z) (is_user is_write is_exec : bool) : V leaf :=
  let pdpe_addr := Z.land (u32 (Z.land (cr3 g) 0xffffffe0 + Z.shiftl (Z.shiftr addr 30) 3)) (a20_mask g) in
  pdpe <- ldq_phys pdpe_addr ;;
  if negb (bit pdpe PG_PRESENT_MASK) then no_page 0 else
  let ptep := Z.lor PG_NX_MASK (Z.lor PG_USER_MASK PG_RW_MASK) in
  let pde_addr := Z.land (Z.land pdpe PHYS_ADDR_MASK + Z.shiftl (Z.land (Z.shiftr addr 21) 0x1ff) 3) (a20_mask g) in
  pde <- ldq_phys pde_addr ;;
  if negb (bit pde PG_PRESENT_MASK) then no_page 0 else
  if negb (bit (efer g) MSR_EFER_NXE) && bit pde PG_NX_MASK then no_page PG_ERROR_RSVD_MASK else
  let ptep := Z.land ptep (Z.lxor pde PG_NX_MASK) in
  if bit pde PG_PSE_MASK then
    let page_size := 2048 * 1024 in
    let ptep := Z.lxor ptep PG_NX_MASK in
    if bit ptep PG_NX_MASK && is_exec then no_page PG_ERROR_P_MASK else
    if denied g is_user is_write ptep then no_page PG_ERROR_P_MASK else
    pde <- mark_leaf pde_addr pde is_write ;;
    let pte := Z.land pde (Z.lor 0xffe00000 0xfff) in
    ret (inr (pte, ptep, page_size, Z.land addr 0xffe00000))
  else
    pde <- mark_accessed pde_addr pde ;;
    let pte_addr := Z.land (Z.land pde PHYS_ADDR_MASK + Z.shiftl (Z.land (Z.shiftr addr 12) 0x1ff) 3) (a20_mask g) in
    pte <- ldq_phys pte_addr ;;
    if negb (bit pte PG_PRESENT_MASK) then no_page 0 else
    if negb (bit (efer g) MSR_EFER_NXE) && bit pte PG_NX_MASK then no_page PG_ERROR_RSVD_MASK else
    let ptep := Z.land ptep (Z.lxor pte PG_NX_MASK) in
    let ptep := Z.lxor ptep PG_NX_MASK in
    if bit ptep PG_NX_MASK && is_exec then no_page PG_ERROR_P_MASK else
    if denied g is_user is_write ptep then no_page PG_ERROR_P_MASK else
    pte <- mark_leaf pte_addr pte is_write ;;
    ret (inr (Z.land pte (Z.lor PHYS_ADDR_MASK 0xfff), ptep, 4096, Z.land addr 0xfffff000)).

(** [/* the page can be put in the TLB */] *)
Definition leaf_prot (g : paging) (is_user : bool) (pte ptep : Z) : Z :=
  let prot := PAGE_READ in
  let prot := if negb (bit ptep PG_NX_MASK) then Z.lor prot PAGE_EXEC else prot in
  if bit pte PG_DIRTY_MASK then
    if is_user then (if bit ptep PG_RW_MASK then Z.lor prot PAGE_WRITE else prot)
    else if negb (bit (cr0 g) CR0_WP_MASK) || bit ptep PG_RW_MASK then Z.lor prot PAGE_WRITE else prot
  else prot.

(** [do_mapping:] *)
Definition do_mapping (g : paging) (addr : Z) (is_user : bool) (pte prot page_size virt_addr : Z) : V mmu_result :=
  let pte := Z.land pte (a20_mask g) in
  let page_offset := Z.land (page_of addr) (page_size - 1) in
  let paddr := u32 (page_of pte + page_offset) in
  let vaddr := u32 (virt_addr + page_offset) in
  tlb_set_page_exec vaddr paddr prot (Z.b2z is_user) ;;;
  ret Filled.

(** [do_fault:] *)
Definition do_fault (g : paging) (addr is_write1 : Z) (is_user : bool) (error_code : Z) : mmu_result :=
  let e := Z.lor error_code (Z.shiftl (Z.land is_write1 1) PG_ERROR_W_BIT) in
  let e := if is_user then Z.lor e PG_ERROR_U_MASK else e in
  let e := if (is_write1 =? 2) && bit (efer g) MSR_EFER_NXE && bit (cr4 g) CR4_PAE_MASK
           then Z.lor e PG_ERROR_I_D_MASK else e in
  Faulted addr e.

(** [cpu_x86_handle_mmu_fault(env, addr, is_write1, is_user, is_softmmu)] *)
Definition cpu_x86_handle_mmu_fault (g : paging) (addr is_write1 : Z) (is_user : bool) : V mmu_result :=
  let is_write := negb (Z.land is_write1 1 =? 0) in
  if negb (bit (cr0 g) CR0_PG_MASK) then
    do_mapping g addr is_user addr (Z.lor PAGE_READ (Z.lor PAGE_WRITE PAGE_EXEC)) 4096 (page_of addr)
  else
    r <- (if bit (cr4 g) CR4_PAE_MASK then walk_pae g addr is_user is_write (is_write1 =? 2)
          else walk32 g addr is_user is_write) ;;
    match r with
    | inl error_code => ret (do_fault g addr is_write1 is_user error_code)
    | inr (pte, ptep, page_size, virt_addr) =>
        do_mapping g addr is_user pte (leaf_prot g is_user pte ptep) page_size virt_addr
    end.

(** * The walk for debugging *)

(** [cpu_get_phys_page_debug(env, addr)]; [None] for -1. *)
Definition cpu_get_phys_page_debug (g : paging) (addr : Z) : V (option Z) :=
  let finish pte page_size :=
    let page_offset := Z.land (page_of addr) (page_size - 1) in
    ret (Some (u32 (page_of pte + page_offset))) in
  if bit (cr4 g) CR4_PAE_MASK then
    let pdpe_addr := Z.land (u32 (Z.land (cr3 g) 0xffffffe0 + Z.shiftl (Z.shiftr addr 30) 3)) (a20_mask g) in
    pdpe <- ldl_phys pdpe_addr ;;
    if negb (bit pdpe PG_PRESENT_MASK) then ret None else
    let pde_addr := Z.land (u32 (Z.land pdpe 0xfffff000 + Z.shiftl (Z.land (Z.shiftr addr 21) 0x1ff) 3)) (a20_mask g) in
    pde <- ldl_phys pde_addr ;;
    if negb (bit pde PG_PRESENT_MASK) then ret None else
    if bit pde PG_PSE_MASK then finish (Z.land pde 0xffe00fff) (2048 * 1024)
    else
      let pte_addr := Z.land (u32 (Z.land pde 0xfffff000 + Z.shiftl (Z.land (Z.shiftr addr 12) 0x1ff) 3)) (a20_mask g) in
      pte <- ldl_phys pte_addr ;;
      finish pte 4096
  else if negb (bit (cr0 g) CR0_PG_MASK) then finish (Z.land addr (a20_mask g)) 4096
  else
    let pde_addr := Z.land (u32 (Z.land (cr3 g) 0xfffff000 + Z.land (Z.shiftr addr 20) 0xfffffffc)) (a20_mask g) in
    pde <- ldl_phys pde_addr ;;
    if negb (bit pde PG_PRESENT_MASK) then ret None
    else if bit pde PG_PSE_MASK && bit (cr4 g) CR4_PSE_MASK then
      finish (Z.land (Z.land pde 0xffc00fff) (a20_mask g)) (4096 * 1024)
    else
      let pte_addr := Z.land (u32 (Z.land pde 0xfffff000 + Z.land (Z.shiftr addr 10) 0xffc)) (a20_mask g) in
      pte <- ldl_phys pte_addr ;;
      if negb (bit pte PG_PRESENT_MASK) then ret None
      else finish (Z.land pte (a20_mask g)) 4096.
End Mmu.
