(* ===== verification/X86Walk.v ===== *)
(** What the walk of the page tables does, against a description of the
    translation by arithmetic on the entries. *)
From S2P Require Import Prelude Layout PhysMem PhysRam X86Mmu.

(** * The translation *)

(** A page's translation: the physical address, the rights and where the entry of
    the page is. *)
Record xlat := Xlat { x_phys : Z; x_user : bool; x_rw : bool; x_leaf : Z }.

(** The entries of an address in the directory and in a table. *)
Definition pde_at (g : paging) (addr : Z) : Z := cr3 g / 4096 * 4096 + addr / 2 ^ 22 * 4.
Definition pte_at (pde addr : Z) : Z := pde / 4096 * 4096 + addr / 4096 mod 1024 * 4.
Definition is_large (g : paging) (pde : Z) : bool := Z.testbit pde 7 && Z.testbit (cr4 g) 4.

(** The translation of an address by the tables in the double words [m]. *)
Definition translate (g : paging) (m : Z -> Z) (addr : Z) : option xlat :=
  let pde := m (pde_at g addr) in
  if negb (Z.testbit pde 0) then None
  else if is_large g pde then
    Some (Xlat (pde / 2 ^ 22 * 2 ^ 22 + addr mod 2 ^ 22) (Z.testbit pde 2) (Z.testbit pde 1) (pde_at g addr))
  else
    let pte := m (pte_at pde addr) in
    if negb (Z.testbit pte 0) then None
    else Some (Xlat (pte / 4096 * 4096 + addr mod 4096) (Z.testbit pte 2 && Z.testbit pde 2)
                    (Z.testbit pte 1 && Z.testbit pde 1) (pte_at pde addr)).

(** Whether the rights allow an access: the write protection of pages binds the
    supervisor with [CR0.WP] only. *)
Definition permitted (g : paging) (x : xlat) (is_user is_write : bool) : bool :=
  implb is_user (x_user x) && implb is_write (x_rw x || (negb is_user && negb (Z.testbit (cr0 g) 16))).

(** Setting bits of an entry. *)
Definition set_bits (a k : Z) (m : Z -> Z) : Z -> Z := fun b => if decide (b = a) then Z.lor (m b) k else m b.
Definition A_BIT : Z := 0x20.
Definition AD_BITS : Z := 0x60.

(** The tables after the walk: an entry that was used is accessed, and the one of
    a page that is written is dirty. *)
Definition walked (g : paging) (m : Z -> Z) (addr : Z) (is_user is_write : bool) : Z -> Z :=
  let pde := m (pde_at g addr) in
  if negb (Z.testbit pde 0) then m else
  let m1 := if is_large g pde then m else set_bits (pde_at g addr) A_BIT m in
  match translate g m addr with
  | Some x => if permitted g x is_user is_write then set_bits (x_leaf x) (if is_write then AD_BITS else A_BIT) m1 else m1
  | None => m1
  end.

(** * Masks *)

Lemma bit_testbit x k : 0 <= k -> bit x (2 ^ k) = Z.testbit x k.
Proof. intros Hk. unfold bit. rewrite <- Z.shiftl_1_l, land_bit by done. apply negb_involutive. Qed.

Lemma land_top x n : is_u32 x -> 0 <= n <= 32 -> Z.land x (2 ^ 32 - 2 ^ n) = x / 2 ^ n * 2 ^ n.
Proof.
  intros Hx Hn. rewrite land_high by lia. f_equal. apply Z.mod_small. unfold is_u32 in Hx.
  split; [apply Z.div_pos; lia|]. apply Z.div_lt_upper_bound; [lia|]. rewrite <- Z.pow_add_r by lia.
  replace (n + (32 - n)) with 32 by lia. lia.
Qed.

Lemma land_page_offset x : is_u32 x -> Z.land x 0xffffffff = x.
Proof. intros Hx. change 0xffffffff with (Z.ones 32). rewrite Z.land_ones by lia. apply Z.mod_small, Hx. Qed.

Lemma land_u32 x k : is_u32 x -> is_u32 (Z.land x k).
Proof.
  intros Hx. rewrite <- (land_page_offset x Hx), <- Z.land_assoc, (Z.land_comm 0xffffffff), Z.land_assoc.
  change 0xffffffff with (Z.ones 32). rewrite Z.land_ones by lia. apply u32_range.
Qed.

Lemma pde_addr_at g addr :
  is_u32 (cr3 g) -> is_u32 addr -> a20_mask g = 0xffffffff ->
  Z.land (u32 (Z.land (cr3 g) 0xfffff000 + Z.land (Z.shiftr addr 20) 0xfffffffc)) (a20_mask g) = pde_at g addr.
Proof.
  intros Hc Ha ->. rewrite land_page_offset by apply u32_range. unfold pde_at.
  change 0xfffff000 with (2 ^ 32 - 2 ^ 12). rewrite land_top by (done || lia).
  rewrite Z.shiftr_div_pow2 by lia. change 0xfffffffc with (2 ^ 32 - 2 ^ 2).
  unfold is_u32 in *. rewrite land_top by (unfold is_u32; Z.div_mod_to_equations; lia).
  change (2 ^ 12) with 4096. rewrite Z.div_div by lia. change (2 ^ 20 * 2 ^ 2) with (2 ^ 22).
  apply u32_small. unfold is_u32. change (2 ^ 2) with 4. change (2 ^ 22) with 4194304. Z.div_mod_to_equations; lia.
Qed.

Lemma pte_addr_at g pde addr :
  is_u32 pde -> is_u32 addr -> a20_mask g = 0xffffffff ->
  Z.land (u32 (Z.land pde 0xfffff000 + Z.land (Z.shiftr addr 10) 0xffc)) (a20_mask g) = pte_at pde addr.
Proof.
  intros Hc Ha ->. rewrite land_page_offset by apply u32_range. unfold pte_at.
  change 0xfffff000 with (2 ^ 32 - 2 ^ 12). rewrite land_top by (done || lia).
  rewrite Z.shiftr_div_pow2 by lia. change 0xffc with (2 ^ 12 - 2 ^ 2). rewrite land_high by lia.
  rewrite Z.div_div by lia. change (2 ^ 10 * 2 ^ 2) with 4096. change (2 ^ (12 - 2)) with 1024. change (2 ^ 2) with 4.
  change (2 ^ 12) with 4096. apply u32_small. unfold is_u32 in *. Z.div_mod_to_equations; lia.
Qed.

(** Flags do not reach the frame, and setting [A] and [D] keeps the others. *)
Lemma lor_flags e k : is_u32 e -> 0 <= k < 4096 -> is_u32 (Z.lor e k) /\ Z.lor e k / 4096 = e / 4096.
Proof.
  intros He Hk. assert (Z.lor e k / 4096 = e / 4096) as E.
  { change 4096 with (2 ^ 12). rewrite <- !Z.shiftr_div_pow2, Z.shiftr_lor by lia.
    rewrite (Z.shiftr_div_pow2 k) by lia. rewrite (Z.div_small k) by (change (2 ^ 12) with 4096; lia). apply Z.lor_0_r. }
  split; [|done]. unfold is_u32 in *. split; [apply Z.lor_nonneg; lia|].
  pose proof (Z.div_mod (Z.lor e k) 4096 ltac:(lia)) as E2. rewrite E in E2.
  pose proof (Z.mod_pos_bound (Z.lor e k) 4096 ltac:(lia)).
  pose proof (Z.div_mod e 4096 ltac:(lia)). pose proof (Z.mod_pos_bound e 4096 ltac:(lia)). lia.
Qed.

Lemma lor_set e k : 0 <= k -> Z.testbit e k = true -> Z.lor e (2 ^ k) = e.
Proof.
  intros Hk He. apply Z.bits_inj'. intros j Hj. rewrite Z.lor_spec, Z.pow2_bits_eqb by done.
  destruct (Z.eqb_spec k j) as [<-|]; [by rewrite He|apply orb_false_r].
Qed.

(** The bits that [mark_leaf] leaves set. *)
Definition leaf_bits (is_write : bool) : Z := if is_write then AD_BITS else A_BIT.

Lemma leaf_value e is_write :
  let is_dirty := is_write && negb (Z.testbit e 6) in
  (if negb (Z.testbit e 5) || is_dirty
   then (if is_dirty then Z.lor (Z.lor e A_BIT) PG_DIRTY_MASK else Z.lor e A_BIT) else e) = Z.lor e (leaf_bits is_write).
Proof.
  intros d. unfold d, leaf_bits, A_BIT, AD_BITS, PG_DIRTY_MASK. change 0x60 with (Z.lor 0x20 0x40).
  assert (Z.testbit e 6 = true -> Z.lor (Z.lor e 0x20) 0x40 = Z.lor e 0x20) as H6.
  { intros H6. apply (lor_set _ 6); [lia|]. rewrite Z.lor_spec, H6. done. }
  assert (Z.testbit e 5 = true -> Z.lor e 0x20 = e) as H5 by (intros H5; apply (lor_set _ 5); [lia|done]).
  destruct is_write, (Z.testbit e 5), (Z.testbit e 6); cbn [negb andb orb]; rewrite ?Z.lor_assoc; try done;
    by rewrite ?H6, ?H5 by done.
Qed.

Section Walk.
Context {D : Type} {DD : Devices D} {HR : HostRam}.
Implicit Types (s : vmem D) (m : Z -> Z).

(** * Double words of memory *)

(** Memory starts at physical address 0. *)
Record ram0 s : Prop := Ram0 {
  ram0_linear : linear s 0 (Z.of_nat (length (phys_ram s))) 0;
  ram0_bytes : Forall is_u8 (phys_ram s)
}.
Definition dw s (a : Z) : Z := le_val (take 4 (drop (Z.to_nat a) (phys_ram s))).
(** The double words in memory are those of [m]. *)
Definition holds s m : Prop :=
  forall b, b mod 4 = 0 -> 0 <= b -> b + 4 <= Z.of_nat (length (phys_ram s)) -> dw s b = m b.

Lemma ram0_desc s a :
  ram0 s -> 0 <= a < Z.of_nat (length (phys_ram s)) ->
  cpu_get_physical_page_desc a s = Ok (desc s a) s /\ writes_io (desc s a) = false /\ reads_io (desc s a) = false /\
  ram_addr_of (desc s a) a = a /\ desc s a = a - a mod 4096.
Proof.
  intros [[Hm Hd Hr Ha Hi Hp] _] Hin. destruct (Hp a) as [H1 H2]; [lia|].
  rewrite get_desc by done. unfold writes_io, reads_io. rewrite H1. do 3 (split; [done|]).
  assert (desc s a = a - a mod 4096) as E by lia. split; [|done].
  unfold ram_addr_of. rewrite page_off_mod, page_of_sub, E by (unfold is_u32; rewrite E; Z.div_mod_to_equations; lia).
  rewrite u32_small; unfold is_u32; Z.div_mod_to_equations; lia.
Qed.

Lemma ram0_ram s r : ram0 s -> length r = length (phys_ram s) -> Forall is_u8 r -> ram0 (set_ram r s).
Proof. intros [[? ? ? ? ? ?] _] El Hr. split; [|done]. split; cbn [phys_ram set_ram]; rewrite ?El; done. Qed.

Lemma le_val4 (l : list Z) : Forall is_u8 l -> length l = 4%nat -> is_u32 (le_val l).
Proof.
  intros Hl Hn. destruct l as [|a [|b [|c [|d [|]]]]]; try done. rewrite !Forall_cons in Hl.
  unfold is_u8, is_u32 in *. cbn [le_val]. lia.
Qed.

Lemma dw_range s a : ram0 s -> 0 <= a -> a + 4 <= Z.of_nat (length (phys_ram s)) -> is_u32 (dw s a).
Proof.
  intros [_ H] Ha Hl. apply le_val4; [by apply Forall_take, Forall_drop|]. rewrite length_take, length_drop. lia.
Qed.

Lemma ldl_phys_ok s a :
  ram0 s -> 0 <= a -> a + 4 <= Z.of_nat (length (phys_ram s)) -> ldl_phys a s = Ok (dw s a) s.
Proof.
  intros H Ha Hl. destruct (ram0_desc s a H) as (E & _ & Hr & Er & _); [lia|].
  unfold ldl_phys. rewrite (bind_ok _ _ _ _ _ E), Hr, Er. unfold ld_p, aread. mstep. rewrite decide_True by lia. done.
Qed.

Lemma stl_phys_ok s m a v :
  ram0 s -> holds s m -> a mod 4 = 0 -> 0 <= a -> a + 4 <= Z.of_nat (length (phys_ram s)) -> is_u32 v ->
  exists r, stl_phys_notdirty a v s = Ok tt (set_ram r s) /\ length r = length (phys_ram s) /\ ram0 (set_ram r s) /\
    holds (set_ram r s) (fun b => if decide (b = a) then v else m b).
Proof.
  intros H Hm Hal Ha Hl Hv. destruct (ram0_desc s a H) as (E & Hw & _ & Er & _); [lia|].
  destruct (awrite_Some (phys_ram s) a (le_bytes 4 v)) as [r Ep]; [lia|rewrite length_le_bytes; lia|].
  pose proof (length_awrite _ _ _ _ Ep) as El. exists r. split; [|split; [done|split]].
  - unfold stl_phys_notdirty. rewrite (bind_ok _ _ _ _ _ E), Hw, Er. unfold st_p, memcpy_to. mstep. by msome Ep.
  - apply ram0_ram; [done..|]. unfold awrite in Ep. case_decide; simplify_eq. destruct H as [_ Hb].
    apply Forall_app; split; [by apply Forall_take|]. apply Forall_app; split; [apply le_bytes_u8|by apply Forall_drop].
  - intros b Hbal Hb Hbl. unfold dw. cbn [phys_ram set_ram] in *. rewrite El in Hbl. case_decide as Hab.
    + subst b. pose proof (aread_awrite _ _ _ _ Ep) as Eg. unfold aread in Eg. rewrite length_le_bytes in Eg.
      case_decide; simplify_eq. rewrite Eg, le_val_bytes. apply Z.mod_small, Hv.
    + rewrite <- Hm by done. unfold dw. f_equal. apply list_eq. intros i.
      destruct (decide (i < 4)%nat); [|by rewrite !lookup_take_ge by lia].
      rewrite !lookup_take_lt, !lookup_drop, (awrite_lookup _ _ _ _ _ Ep), length_le_bytes by done.
      rewrite decide_False; [done|]. Z.div_mod_to_equations; lia.
Qed.

(** An entry that gets bits set. *)
Lemma holds_ext s m m' : holds s m -> (forall b, m b = m' b) -> holds s m'.
Proof. intros H E b ? ? ?. rewrite <- E. by apply H. Qed.

Lemma walk_marks_accessed s m a :
  ram0 s -> holds s m -> a mod 4 = 0 -> 0 <= a -> a + 4 <= Z.of_nat (length (phys_ram s)) ->
  exists r, mark_accessed a (m a) s = Ok (Z.lor (m a) A_BIT) (set_ram r s) /\ length r = length (phys_ram s) /\
    ram0 (set_ram r s) /\ holds (set_ram r s) (set_bits a A_BIT m).
Proof.
  intros H Hm Hal Ha Hl. unfold mark_accessed, PG_ACCESSED_MASK. rewrite (bit_testbit _ 5) by lia.
  assert (is_u32 (m a)) as Hu by (rewrite <- Hm by done; by apply dw_range).
  destruct (Z.testbit (m a) 5) eqn:E5.
  - exists (phys_ram s). unfold A_BIT. rewrite (lor_set _ 5) by (done || lia). split; [by destruct s|]. split; [done|].
    split; [by destruct s|]. apply (holds_ext _ m); [by destruct s|]. intros b. unfold set_bits. case_decide; [|done].
    subst b. by rewrite (lor_set _ 5) by (done || lia).
  - destruct (lor_flags (m a) A_BIT Hu) as [Hu' _]; [unfold A_BIT; lia|]. change 0x20 with A_BIT.
    destruct (stl_phys_ok s m a (Z.lor (m a) A_BIT)) as (r & E & El & H' & Hm'); try done.
    exists r. rewrite u32_small by done. rewrite (bind_ok _ _ _ _ _ E). split; [done|]. split; [done|]. split; [done|].
    eapply holds_ext; [done|]. intros b. unfold set_bits. case_decide; [by subst|done].
Qed.

Lemma mark_leaf_ok s m a is_write :
  ram0 s -> holds s m -> a mod 4 = 0 -> 0 <= a -> a + 4 <= Z.of_nat (length (phys_ram s)) ->
  exists r, mark_leaf a (m a) is_write s = Ok (Z.lor (m a) (leaf_bits is_write)) (set_ram r s) /\
    length r = length (phys_ram s) /\ ram0 (set_ram r s) /\ holds (set_ram r s) (set_bits a (leaf_bits is_write) m).
Proof.
  intros H Hm Hal Ha Hl. unfold mark_leaf.
  change PG_ACCESSED_MASK with (2 ^ 5). change PG_DIRTY_MASK with (2 ^ 6). rewrite !bit_testbit by lia.
  assert (is_u32 (m a)) as Hu by (rewrite <- Hm by done; by apply dw_range).
  pose proof (leaf_value (m a) is_write) as Hv. cbv zeta in Hv. change A_BIT with (2 ^ 5) in Hv. change PG_DIRTY_MASK with (2 ^ 6) in Hv.
  destruct (negb (Z.testbit (m a) 5) || is_write && negb (Z.testbit (m a) 6)).
  - rewrite Hv. destruct (lor_flags (m a) (leaf_bits is_write) Hu) as [Hu' _]; [destruct is_write; unfold leaf_bits, AD_BITS, A_BIT; lia|].
    destruct (stl_phys_ok s m a (Z.lor (m a) (leaf_bits is_write))) as (r & E & El & H' & Hm'); try done.
    exists r. rewrite u32_small by done. rewrite (bind_ok _ _ _ _ _ E). split; [done|]. split; [done|]. split; [done|].
    eapply holds_ext; [done|]. intros b. unfold set_bits. case_decide; [by subst|done].
  - exists (phys_ram s). rewrite <- Hv. split; [by destruct s|]. split; [done|]. split; [by destruct s|].
    apply (holds_ext _ m); [by destruct s|]. intros b. unfold set_bits. case_decide; [|done]. by subst.
Qed.

(** * The walk *)

Definition in_ram s (a : Z) : Prop := 0 <= a /\ a + 4 <= Z.of_nat (length (phys_ram s)).
(** The tables that translate [addr] are in memory. *)
Definition tables_in s g m (addr : Z) : Prop :=
  in_ram s (pde_at g addr) /\
  (Z.testbit (m (pde_at g addr)) 0 = true -> is_large g (m (pde_at g addr)) = false ->
   in_ram s (pte_at (m (pde_at g addr)) addr)).

(** What [pte], [ptep], [page_size] and [virt_addr] say of a translation. *)
Record leaf_ok m (addr : Z) (is_write : bool) (x : xlat) (pte ptep size va : Z) : Prop := LeafOk {
  lk_pte : is_u32 pte;
  lk_frame : page_of pte + Z.land (page_of addr) (size - 1) = x_phys x - addr mod 4096;
  lk_virt : va + Z.land (page_of addr) (size - 1) = page_of addr;
  lk_rw : bit ptep PG_RW_MASK = x_rw x;
  lk_nx : bit ptep PG_NX_MASK = false;
  lk_dirty : bit pte PG_DIRTY_MASK = is_write || Z.testbit (m (x_leaf x)) 6
}.

Lemma pde_at_aligned g addr : pde_at g addr mod 4 = 0.
Proof using Type. unfold pde_at. rewrite Z.add_mod, Z.mod_mul, Z.add_0_r by lia. Z.div_mod_to_equations; lia. Qed.
Lemma pte_at_aligned pde addr : pte_at pde addr mod 4 = 0.
Proof using Type. unfold pte_at. rewrite Z.add_mod, Z.mod_mul, Z.add_0_r by lia. Z.div_mod_to_equations; lia. Qed.

Lemma denied_spec g is_user is_write ptep x :
  bit ptep PG_USER_MASK = x_user x -> bit ptep PG_RW_MASK = x_rw x ->
  denied g is_user is_write ptep = negb (permitted g x is_user is_write).
Proof using Type.
  intros Hu Hw. unfold denied, permitted. rewrite Hu, Hw. change CR0_WP_MASK with (2 ^ 16). rewrite bit_testbit by lia.
  destruct is_user, is_write, (x_user x), (x_rw x), (Z.testbit (cr0 g) 16); done.
Qed.

Lemma lor_leaf_bit e is_write j : 0 <= j -> j <> 5 -> j <> 6 -> Z.testbit (Z.lor e (leaf_bits is_write)) j = Z.testbit e j.
Proof using Type.
  intros Hj H5 H6. rewrite Z.lor_spec. assert (Z.testbit (leaf_bits is_write) j = false) as ->; [|apply orb_false_r].
  destruct is_write; unfold leaf_bits, AD_BITS, A_BIT.
  - change 0x60 with (Z.lor (2 ^ 5) (2 ^ 6)). rewrite Z.lor_spec, !Z.pow2_bits_eqb by lia.
    by rewrite (proj2 (Z.eqb_neq 5 j)), (proj2 (Z.eqb_neq 6 j)) by congruence.
  - change 0x20 with (2 ^ 5). rewrite Z.pow2_bits_eqb by lia. by rewrite (proj2 (Z.eqb_neq 5 j)) by congruence.
Qed.

Lemma lor_leaf_dirty e is_write : Z.testbit (Z.lor e (leaf_bits is_write)) 6 = is_write || Z.testbit e 6.
Proof using Type. rewrite Z.lor_spec. destruct is_write; [by rewrite orb_comm|apply orb_false_r]. Qed.

Lemma large_frame e addr : is_u32 e -> is_u32 addr ->
  page_of (Z.land e 0xffc00fff) + Z.land (page_of addr) (4096 * 1024 - 1) = e / 2 ^ 22 * 2 ^ 22 + addr mod 2 ^ 22 - addr mod 4096.
Proof using Type.
  intros He Ha. unfold page_of at 1. rewrite <- Z.land_assoc.
  change (Z.land 0xffc00fff TARGET_PAGE_MASK) with (2 ^ 32 - 2 ^ 22). rewrite land_top by (done || lia).
  change (4096 * 1024 - 1) with (Z.ones 22). rewrite Z.land_ones, page_of_sub by (done || lia).
  change (2 ^ 22) with 4194304. Z.div_mod_to_equations; lia.
Qed.

Lemma small_frame e addr : is_u32 e -> is_u32 addr ->
  page_of e + Z.land (page_of addr) (4096 - 1) = e / 4096 * 4096.
Proof using Type.
  intros He Ha. change (4096 - 1) with (Z.ones 12). rewrite Z.land_ones, !page_of_sub by (done || lia).
  change (2 ^ 12) with 4096. Z.div_mod_to_equations; lia.
Qed.

Lemma high_frame e e' : e / 4096 = e' / 4096 -> e / 2 ^ 22 = e' / 2 ^ 22.
Proof using Type. intros H. change (2 ^ 22) with (4096 * 1024). rewrite <- !Z.div_div by lia. by rewrite H. Qed.

Lemma large_leaf m g addr is_write e :
  is_u32 e -> is_u32 addr -> m (pde_at g addr) = e ->
  let pte := Z.land (Z.lor e (leaf_bits is_write)) 0xffc00fff in
  leaf_ok m addr is_write
    (Xlat (e / 2 ^ 22 * 2 ^ 22 + addr mod 2 ^ 22) (Z.testbit e 2) (Z.testbit e 1) (pde_at g addr))
    pte pte (4096 * 1024) (Z.land addr 0xffc00000).
Proof using Type.
  intros He Ha Hm pte.
  assert (0 <= leaf_bits is_write < 4096) as Hk by (destruct is_write; unfold leaf_bits, AD_BITS, A_BIT; lia).
  destruct (lor_flags e _ He Hk) as [Hu Hf]. apply high_frame in Hf. unfold pte. split.
  - by apply land_u32.
  - rewrite large_frame, Hf by done. done.
  - unfold page_of, TARGET_PAGE_MASK. rewrite <- Z.land_assoc. change (4096 * 1024 - 1) with (Z.ones 22).
    change 0xffc00000 with (2 ^ 32 - 2 ^ 22). rewrite land_top by (done || lia).
    rewrite Z.land_assoc, Z.land_ones by lia. change 0xfffff000 with (2 ^ 32 - 2 ^ 12). rewrite land_top by (done || lia).
    change (2 ^ 22) with 4194304. change (2 ^ 12) with 4096. Z.div_mod_to_equations; lia.
  - change PG_RW_MASK with (2 ^ 1). rewrite bit_testbit, Z.land_spec, lor_leaf_bit by lia. apply andb_true_r.
  - change PG_NX_MASK with (2 ^ 63). rewrite bit_testbit, Z.land_spec by lia. apply andb_false_r.
  - change PG_DIRTY_MASK with (2 ^ 6). rewrite bit_testbit, Z.land_spec, lor_leaf_dirty by lia. cbn [x_leaf].
    rewrite Hm. apply andb_true_r.
Qed.

Lemma small_leaf m addr is_write pte pte0 pde x leaf_at :
  is_u32 pte -> is_u32 addr -> is_u32 pde -> x_phys x = pte / 4096 * 4096 + addr mod 4096 ->
  x_rw x = Z.testbit pte 1 && Z.testbit pde 1 -> x_leaf x = leaf_at -> m leaf_at = pte0 -> Z.testbit pte0 6 = Z.testbit pte 6 ->
  leaf_ok m addr is_write x (Z.lor pte (leaf_bits is_write)) (Z.land pte pde) 4096 (Z.land addr 0xfffff000).
Proof using Type.
  intros Hp Ha Hd Hx Hw Hl Hm H6.
  assert (0 <= leaf_bits is_write < 4096) as Hk by (destruct is_write; unfold leaf_bits, AD_BITS, A_BIT; lia).
  destruct (lor_flags pte _ Hp Hk) as [Hu Hf]. split.
  - done.
  - rewrite small_frame, Hf, Hx by done. lia.
  - fold TARGET_PAGE_MASK. fold (page_of addr). change (4096 - 1) with (Z.ones 12). rewrite Z.land_ones, page_of_sub by (done || lia).
    change (2 ^ 12) with 4096. Z.div_mod_to_equations; lia.
  - change PG_RW_MASK with (2 ^ 1). rewrite bit_testbit, Z.land_spec, Hw by lia. done.
  - change PG_NX_MASK with (2 ^ 63). rewrite bit_testbit, Z.land_spec by lia.
    assert (Z.testbit pte 63 = false) as ->; [|done]. destruct (decide (pte = 0)) as [->|]; [done|].
    unfold is_u32 in Hp. apply Z.bits_above_log2; [lia|]. apply Z.log2_lt_pow2; lia.
  - change PG_DIRTY_MASK with (2 ^ 6). rewrite bit_testbit, lor_leaf_dirty, Hl, Hm, H6 by lia. done.
Qed.

(** The outcome of a walk for the translation of the address. *)
Definition walk_outcome g m (addr : Z) (is_user is_write : bool) (l : leaf) : Prop :=
  match translate g m addr with
  | None => l = inl 0
  | Some x =>
      if permitted g x is_user is_write
      then exists pte ptep size va, l = inr (pte, ptep, size, va) /\ leaf_ok m addr is_write x pte ptep size va
      else l = inl PG_ERROR_P_MASK
  end.

Lemma walk32_large s g m addr is_user is_write :
  ram0 s -> holds s m -> is_u32 addr -> in_ram s (pde_at g addr) -> Z.testbit (m (pde_at g addr)) 0 = true ->
  is_large g (m (pde_at g addr)) = true ->
  exists l r, (if denied g is_user is_write (m (pde_at g addr)) then no_page PG_ERROR_P_MASK else
    pde <- mark_leaf (pde_at g addr) (m (pde_at g addr)) is_write ;;
    ret (inr (Z.land pde 0xffc00fff, Z.land pde 0xffc00fff, 4096 * 1024, Z.land addr 0xffc00000))) s = Ok l (set_ram r s) /\
    length r = length (phys_ram s) /\ ram0 (set_ram r s) /\ holds (set_ram r s) (walked g m addr is_user is_write) /\
    walk_outcome g m addr is_user is_write l.
Proof using Type.
  intros H Hm Ha [Hp1 Hp2] H0 Hl. pose proof (pde_at_aligned g addr) as Hal.
  assert (is_u32 (m (pde_at g addr))) as Hu by (rewrite <- Hm by done; by apply dw_range).
  unfold walk_outcome, walked, translate. rewrite H0, Hl. cbn [negb].
  set (x := Xlat _ _ _ _).
  rewrite (denied_spec g is_user is_write _ x);
    [|change PG_USER_MASK with (2 ^ 2); by rewrite bit_testbit|change PG_RW_MASK with (2 ^ 1); by rewrite bit_testbit].
  destruct (permitted g x is_user is_write); cbn [negb].
  - destruct (mark_leaf_ok s m (pde_at g addr) is_write) as (r & E & El & H' & Hm'); try done.
    eexists _, r. rewrite (bind_ok _ _ _ _ _ E). split; [done|]. do 3 (split; [done|]).
    eexists _, _, _, _. split; [done|]. by apply large_leaf.
  - exists (inl PG_ERROR_P_MASK), (phys_ram s). split; [by destruct s|]. by destruct s.
Qed.

(** Setting [A] in the directory leaves what a table's entry says. *)
Lemma set_A_entry a m b :
  is_u32 (m b) ->
  is_u32 (set_bits a A_BIT m b) /\ set_bits a A_BIT m b / 4096 = m b / 4096 /\
  forall j, 0 <= j -> j <> 5 -> Z.testbit (set_bits a A_BIT m b) j = Z.testbit (m b) j.
Proof using Type.
  intros Hu. unfold set_bits. case_decide; [|done].
  destruct (lor_flags (m b) A_BIT Hu) as [H1 H2]; [unfold A_BIT; lia|]. split; [done|]. split; [done|].
  intros j Hj H5. unfold A_BIT. change 0x20 with (2 ^ 5). rewrite Z.lor_spec, Z.pow2_bits_eqb by lia.
  by rewrite (proj2 (Z.eqb_neq 5 j)), orb_false_r by congruence.
Qed.

Lemma walk32_ok s g m addr is_user is_write :
  ram0 s -> holds s m -> is_u32 addr -> is_u32 (cr3 g) -> a20_mask g = 0xffffffff -> tables_in s g m addr ->
  exists l r, walk32 g addr is_user is_write s = Ok l (set_ram r s) /\
    length r = length (phys_ram s) /\ ram0 (set_ram r s) /\ holds (set_ram r s) (walked g m addr is_user is_write) /\
    walk_outcome g m addr is_user is_write l.
Proof using Type.
  intros H Hm Ha Hc H20 [[Hp1 Hp2] Hpt]. unfold walk32. rewrite pde_addr_at by done.
  pose proof (pde_at_aligned g addr) as Hal. rewrite (bind_ok _ _ _ _ _ (ldl_phys_ok s _ H Hp1 Hp2)), Hm by done.
  change PG_PRESENT_MASK with (2 ^ 0). change PG_PSE_MASK with (2 ^ 7). change CR4_PSE_MASK with (2 ^ 4). rewrite !bit_testbit by lia.
  fold (is_large g (m (pde_at g addr))).
  destruct (Z.testbit (m (pde_at g addr)) 0) eqn:E0; cbn [negb].
  2: { exists (inl 0), (phys_ram s). unfold walk_outcome, walked, translate. rewrite E0. split; [by destruct s|]. by destruct s. }
  destruct (is_large g (m (pde_at g addr))) eqn:EL; [by apply walk32_large|].
  specialize (Hpt eq_refl eq_refl). destruct Hpt as [Ht1 Ht2].
  assert (is_u32 (m (pde_at g addr))) as Hu by (rewrite <- Hm by done; by apply dw_range).
  destruct (walk_marks_accessed s m (pde_at g addr)) as (r & E & El & H' & Hm'); try done.
  rewrite (bind_ok _ _ _ _ _ E). destruct (lor_flags (m (pde_at g addr)) A_BIT Hu) as [Hu' Hf]; [unfold A_BIT; lia|].
  rewrite pte_addr_at by done.
  assert (pte_at (Z.lor (m (pde_at g addr)) A_BIT) addr = pte_at (m (pde_at g addr)) addr) as -> by (unfold pte_at; by rewrite Hf).
  set (ta := pte_at (m (pde_at g addr)) addr) in *. set (m1 := set_bits (pde_at g addr) A_BIT m) in *.
  assert (ta mod 4 = 0) as Htal by apply pte_at_aligned.
  assert (is_u32 (m ta)) as Hut by (rewrite <- Hm by done; by apply dw_range).
  destruct (set_A_entry (pde_at g addr) m ta Hut) as (Hu1 & Hf1 & Hb1). fold m1 in Hu1, Hf1, Hb1.
  rewrite (bind_ok _ _ _ _ _ (ldl_phys_ok (set_ram r s) ta H' Ht1 ltac:(cbn [phys_ram set_ram]; lia))).
  rewrite (Hm' ta) by (done || cbn [phys_ram set_ram]; lia). fold m1.
  rewrite bit_testbit, (Hb1 0) by lia. unfold walk_outcome, walked, translate. rewrite E0, EL. cbn [negb]. fold ta m1.
  destruct (Z.testbit (m ta) 0) eqn:Et0; cbn [negb].
  2: { exists (inl 0), r. done. }
  set (x := Xlat _ _ _ _).
  rewrite (denied_spec g is_user is_write _ x).
  2: { change PG_USER_MASK with (2 ^ 2). rewrite bit_testbit, Z.land_spec, Hb1, (lor_leaf_bit _ false) by lia. done. }
  2: { change PG_RW_MASK with (2 ^ 1). rewrite bit_testbit, Z.land_spec, Hb1, (lor_leaf_bit _ false) by lia. done. }
  destruct (permitted g x is_user is_write); cbn [negb].
  2: { exists (inl PG_ERROR_P_MASK), r. done. }
  destruct (mark_leaf_ok (set_ram r s) m1 ta is_write) as (r2 & E2 & El2 & H2 & Hm2); try done; [cbn [phys_ram set_ram]; lia|].
  eexists _, r2. rewrite (bind_ok _ _ _ _ _ E2). split; [done|]. split; [by rewrite El2|]. do 2 (split; [done|]).
  eexists _, _, _, _. split; [done|]. apply (small_leaf _ _ _ _ (m ta) _ _ ta); try done.
  - unfold x. cbn [x_phys]. by rewrite Hf1.
  - unfold x. cbn [x_rw]. by rewrite Hb1, (lor_leaf_bit _ false) by lia.
  - by rewrite Hb1 by lia.
Qed.
End Walk.
