(* ===== verification/X86Page.v ===== *)
(** Page faults and filled entries: [cpu_x86_handle_mmu_fault] as a whole, and the
    walk for debugging. *)
From S2P Require Import Prelude Layout PhysMem PhysRam X86Mmu X86Walk.

(** * Entries with the same meaning *)

(** Tables that differ in the accessed and dirty bits translate alike. *)
Definition same_tables (m m' : Z -> Z) : Prop :=
  forall b, m b / 4096 = m' b / 4096 /\ forall j, 0 <= j -> j <> 5 -> j <> 6 -> Z.testbit (m b) j = Z.testbit (m' b) j.

#[export] Instance same_tables_equiv : Equivalence same_tables.
Proof.
  split.
  - intros m b. done.
  - intros m m' H b. destruct (H b) as [H1 H2]. split; [done|]. intros j ? ? ?. symmetry. by apply H2.
  - intros m1 m2 m3 H H' b. destruct (H b) as [H1 H2], (H' b) as [H3 H4]. split; [congruence|].
    intros j ? ? ?. rewrite H2 by done. by apply H4.
Qed.

Lemma set_bits_same a w m : same_tables m (set_bits a (leaf_bits w) m).
Proof.
  intros b. unfold set_bits. case_decide; [|done]. split.
  - change 4096 with (2 ^ 12). rewrite <- !Z.shiftr_div_pow2, Z.shiftr_lor by lia.
    assert (Z.shiftr (leaf_bits w) 12 = 0) as -> by (by destruct w). by rewrite Z.lor_0_r.
  - intros j Hj H5 H6. by rewrite lor_leaf_bit.
Qed.

#[export] Instance translate_proper g : Proper (same_tables ==> eq ==> eq) (translate g).
Proof.
  intros m m' H addr _ <-. unfold translate, is_large. destruct (H (pde_at g addr)) as [F B].
  rewrite <- !(B 0), <- !(B 7), <- (B 2), <- (B 1) by lia.
  assert (pte_at (m' (pde_at g addr)) addr = pte_at (m (pde_at g addr)) addr) as -> by (unfold pte_at; by rewrite F).
  destruct (H (pte_at (m (pde_at g addr)) addr)) as [F' B'].
  rewrite <- (B' 0), <- (B' 2), <- (B' 1), F' by lia. by rewrite (high_frame _ _ F).
Qed.

Lemma walked_same g m addr is_user is_write : same_tables m (walked g m addr is_user is_write).
Proof.
  unfold walked. destruct (negb _); [reflexivity|].
  assert (same_tables m (if is_large g (m (pde_at g addr)) then m else set_bits (pde_at g addr) A_BIT m)) as H1.
  { destruct (is_large _ _); [reflexivity|]. apply (set_bits_same _ false). }
  destruct (translate g m addr) as [x|]; [|done]. destruct (permitted _ _ _ _); [|done].
  etransitivity; [exact H1|]. apply (set_bits_same _ is_write).
Qed.

Section Page.
Context {D : Type} {DD : Devices D} {HR : HostRam}.
Implicit Types (s : vmem D) (m : Z -> Z).

(** * The cache *)

Definition tlb_shape (t : list (list tlb_entry)) : Prop := length t = 2%nat /\ Forall (fun l => length l = 256%nat) t.
Definition te_at (t : list (list tlb_entry)) (u : bool) (i : Z) : option tlb_entry :=
  l ← t !! (Nat.b2n u); aget l i.

Lemma tlb_index_range a : 0 <= tlb_index a < 256.
Proof using Type.
  unfold tlb_index, CPU_TLB_SIZE. change (256 - 1) with (Z.ones 8). rewrite Z.land_ones by lia. apply Z.mod_pos_bound. lia.
Qed.

Lemma set_te_ok s u i e :
  tlb_shape (tlb_table s) -> 0 <= i < 256 ->
  exists t, set_te (Z.b2z u) i e s = Ok tt (set_tlb t s) /\ tlb_shape t /\
    forall u' i', te_at t u' i' = if decide (u' = u /\ i' = i) then Some e else te_at (tlb_table s) u' i'.
Proof using Type.
  intros [Hl Hf] Hi. unfold set_te. mstep.
  destruct (aget_Some (tlb_table s) (Z.b2z u)) as [l El]; [rewrite Hl; destruct u; cbn; lia|]. msome El.
  destruct (aget_inv _ _ _ El) as [_ El']. rewrite Forall_lookup in Hf. pose proof (Hf _ _ El') as Hll.
  rewrite aset_Some by lia. msome eq_refl. rewrite aset_Some by (rewrite Hl; destruct u; cbn; lia). msome eq_refl.
  eexists. split; [reflexivity|]. split.
  - split; [by rewrite length_insert|]. apply Forall_insert; [by apply Forall_lookup|]. by rewrite length_insert.
  - intros u' i'. unfold te_at. assert (Z.to_nat (Z.b2z u) = Nat.b2n u) as Eu by (by destruct u). rewrite Eu in *.
    destruct (decide (u' = u)) as [->|Hu].
    + rewrite list_lookup_insert_eq by (rewrite Hl; destruct u; cbn; lia). rewrite El'. cbn [mbind option_bind].
      unfold aget. destruct (decide (i' = i)) as [->|Hi'].
      * rewrite decide_True by lia. rewrite list_lookup_insert_eq by lia. by rewrite decide_True.
      * rewrite (decide_False (P := u = u /\ i' = i)) by tauto. case_decide; [|done].
        by rewrite list_lookup_insert_ne by lia.
    + rewrite list_lookup_insert_ne by (destruct u, u'; cbn; congruence). by rewrite decide_False by tauto.
Qed.

(** The entry for a page of plain memory at [pa], seen at [va]. *)
Definition ram_entry (va pa prot : Z) (clean : bool) : tlb_entry :=
  Te (if allows prot PAGE_READ then va else u32 (-1))
     (if allows prot PAGE_WRITE then (if clean then Z.lor va IO_MEM_NOTDIRTY else va) else u32 (-1))
     (if allows prot PAGE_EXEC then va else u32 (-1))
     (u32 (phys_ram_base + pa - va)).
(** A byte of [phys_ram_dirty] is not full. *)
Definition page_clean s (pa : Z) : bool :=
  negb (default 0xff (aget (phys_ram_dirty s) (pa / 4096)) =? 0xff).

Lemma tlb_set_ok s va pa prot u :
  ram0 s -> tlb_shape (tlb_table s) -> pa mod 4096 = 0 -> 0 <= pa < Z.of_nat (length (phys_ram s)) ->
  exists t, tlb_set_page_exec va pa prot (Z.b2z u) s = Ok tt (set_tlb t s) /\ tlb_shape t /\
    forall u' i', te_at t u' i' =
      if decide (u' = u /\ i' = tlb_index va) then Some (ram_entry va pa prot (page_clean s pa)) else te_at (tlb_table s) u' i'.
Proof using Type.
  intros H Hs Hp Hin. destruct (ram0_desc s pa H Hin) as (E & Hw & Hr & Er & Ed). rewrite Hp, Z.sub_0_r in Ed. rewrite Ed in *.
  unfold tlb_set_page_exec. rewrite (bind_ok _ _ _ _ _ E), Hr, Hw. cbn [negb].
  assert (page_off pa = 0) as Hpo by (by rewrite page_off_mod).
  assert (Z.land pa IO_MEM_ROMD = 0) as Hro.
  { unfold IO_MEM_ROMD. rewrite land_1. Z.div_mod_to_equations; lia. }
  assert (page_of pa = pa) as Hpp.
  { rewrite page_of_sub, Hp by (unfold is_u32; destruct H as [[? ? Hr32 ? ? ?] ?]; lia). lia. }
  rewrite Hpo, Hro, Hpp. change ((0 =? IO_MEM_ROM) || negb (0 =? 0)) with false. cbv iota. rewrite andb_true_r.
  destruct (aget_Some (phys_ram_dirty s) (pa / 4096)) as [d Hd].
  { destruct H as [[? Hdl ? ? ? ?] ?]. Z.div_mod_to_equations; lia. }
  set (dirty := if allows prot PAGE_WRITE then d =? 0xff else true).
  assert ((if allows prot PAGE_WRITE then cpu_physical_memory_is_dirty pa else ret true) s = Ok dirty s) as E2.
  { unfold dirty. destruct (allows prot PAGE_WRITE); [|done]. unfold cpu_physical_memory_is_dirty, dirty_at. msteps.
    rewrite Z.shiftr_div_pow2 by (unfold TARGET_PAGE_BITS; lia). change (2 ^ TARGET_PAGE_BITS) with 4096. msome Hd. done. }
  rewrite (bind_ok _ _ _ _ _ E2).
  destruct (set_te_ok s u (tlb_index va) (ram_entry va pa prot (page_clean s pa)) Hs (tlb_index_range va)) as (t & Et & Ht & Hte).
  exists t. split; [|done]. rewrite <- Et. f_equal. unfold ram_entry, page_clean. rewrite Hd. cbn [default]. f_equal.
  - unfold dirty, id. destruct (allows prot PAGE_WRITE); [|done]. by destruct (d =? 0xff).
  - unfold u32. rewrite Zminus_mod_idemp_l. done.
Qed.

(** * Page faults *)

(** A store to the page may use the cache: the page is dirty and may be written. *)
Definition writable g m (x : xlat) (is_user is_write : bool) : bool :=
  (is_write || Z.testbit (m (x_leaf x)) 6) && (x_rw x || (negb is_user && negb (Z.testbit (cr0 g) 16))).
Definition page_prot (w : bool) : Z := if w then 7 else 5.

Lemma leaf_prot_ok g m addr is_user is_write x pte ptep size va :
  leaf_ok m addr is_write x pte ptep size va ->
  leaf_prot g is_user pte ptep = page_prot (writable g m x is_user is_write).
Proof using Type.
  intros [_ _ _ Hw Hn Hd]. unfold leaf_prot, writable. rewrite Hn, Hd, Hw. change CR0_WP_MASK with (2 ^ 16).
  rewrite bit_testbit by lia.
  destruct (is_write || Z.testbit (m (x_leaf x)) 6), is_user, (x_rw x), (Z.testbit (cr0 g) 16); done.
Qed.

(** The outcome of an access to [addr] by the translation of [addr]. *)
Definition mmu_outcome g m (addr : Z) (is_user is_write : bool) : mmu_result :=
  let code := Z.b2z is_write * 2 + Z.b2z is_user * 4 in
  match translate g m addr with
  | None => Faulted addr code
  | Some x => if permitted g x is_user is_write then Filled else Faulted addr (code + 1)
  end.

(** The cache afterwards. *)
Definition tlb_after g m s (addr : Z) (is_user is_write : bool) (u : bool) (i : Z) : option tlb_entry :=
  match translate g m addr with
  | Some x =>
      if permitted g x is_user is_write && bool_decide (u = is_user /\ i = tlb_index addr)
      then Some (ram_entry (page_of addr) (x_phys x - addr mod 4096) (page_prot (writable g m x is_user is_write))
                           (page_clean s (x_phys x - addr mod 4096)))
      else te_at (tlb_table s) u i
  | None => te_at (tlb_table s) u i
  end.

Lemma do_fault_code g addr w1 is_user e :
  e = 0 \/ e = 1 -> bit (cr4 g) CR4_PAE_MASK = false ->
  do_fault g addr w1 is_user e = Faulted addr (Z.b2z (negb (Z.land w1 1 =? 0)) * 2 + Z.b2z is_user * 4 + e).
Proof using Type.
  intros He Hp. unfold do_fault. rewrite Hp, andb_false_r, land_1. pose proof (Z.mod_pos_bound w1 2 ltac:(lia)).
  assert (w1 mod 2 = 0 \/ w1 mod 2 = 1) as [-> | ->] by lia; destruct He as [-> | ->], is_user; done.
Qed.

Lemma x_phys_page g m addr x : is_u32 addr -> translate g m addr = Some x -> (x_phys x - addr mod 4096) mod 4096 = 0.
Proof using Type.
  intros Ha. unfold translate. destruct (negb _); [done|]. destruct (is_large _ _).
  - intros [= <-]. cbn [x_phys]. change (2 ^ 22) with (1024 * 4096).
    pose proof (Z.rem_mul_r addr 4096 1024) as E. rewrite (Z.mul_comm 4096) in E. rewrite E by lia.
    replace (_ - _) with ((m (pde_at g addr) / (1024 * 4096) * 1024 + (addr / 4096) mod 1024) * 4096) by lia.
    apply Z.mod_mul. lia.
  - destruct (negb _); [done|]. intros [= <-]. cbn [x_phys]. replace (_ - _) with (m (pte_at (m (pde_at g addr)) addr) / 4096 * 4096) by lia.
    apply Z.mod_mul. lia.
Qed.

Lemma tlb_index_page a : is_u32 a -> tlb_index (page_of a) = tlb_index a.
Proof using Type.
  intros Ha. unfold tlb_index, TARGET_PAGE_BITS. rewrite page_of_sub, !Z.shiftr_div_pow2 by (done || lia). f_equal.
  change (2 ^ 12) with 4096. Z.div_mod_to_equations; lia.
Qed.

Lemma mmu_fault_ok s g m addr w1 is_user :
  let is_write := negb (Z.land w1 1 =? 0) in
  ram0 s -> holds s m -> tlb_shape (tlb_table s) -> is_u32 addr -> is_u32 (cr3 g) -> a20_mask g = 0xffffffff ->
  bit (cr0 g) CR0_PG_MASK = true -> bit (cr4 g) CR4_PAE_MASK = false -> tables_in s g m addr ->
  (forall x, translate g m addr = Some x -> addr mod 4096 <= x_phys x < Z.of_nat (length (phys_ram s))) ->
  exists r t, cpu_x86_handle_mmu_fault g addr w1 is_user s = Ok (mmu_outcome g m addr is_user is_write) (set_tlb t (set_ram r s)) /\
    length r = length (phys_ram s) /\ ram0 (set_ram r s) /\ holds (set_ram r s) (walked g m addr is_user is_write) /\
    tlb_shape t /\ forall u i, te_at t u i = tlb_after g m s addr is_user is_write u i.
Proof using Type.
  intros is_write H Hm Ht Ha Hc H20 Hpg Hpae Htab Hin.
  unfold cpu_x86_handle_mmu_fault. rewrite Hpg, Hpae. cbn [negb]. fold is_write.
  destruct (walk32_ok s g m addr is_user is_write) as (l & r & E & El & H' & Hm' & Ho); try done.
  rewrite (bind_ok _ _ _ _ _ E). unfold walk_outcome in Ho. unfold mmu_outcome, tlb_after.
  destruct (translate g m addr) as [x|] eqn:Ex.
  2: { subst l. exists r, (tlb_table s). rewrite do_fault_code by (tauto || done). rewrite Z.add_0_r. fold is_write.
       split; [by destruct s|]. done. }
  destruct (permitted g x is_user is_write) eqn:Ep; cbn [andb].
  2: { subst l. exists r, (tlb_table s). rewrite do_fault_code by (tauto || done). split; [by destruct s|]. done. }
  destruct Ho as (pte & ptep & size & va & -> & Hk). rewrite (leaf_prot_ok _ _ _ _ _ _ _ _ _ _ Hk).
  destruct Hk as [Hpte Hf Hv _ _ _]. specialize (Hin x eq_refl). unfold is_u32 in *.
  pose proof (x_phys_page _ _ _ _ Ha Ex) as Hpa.
  destruct (tlb_set_ok (set_ram r s) (page_of addr) (x_phys x - addr mod 4096) (page_prot (writable g m x is_user is_write)) is_user)
    as (t & Et & Ht' & Hte); try done.
  { cbn [phys_ram set_ram]. pose proof (Z.mod_pos_bound addr 4096). lia. }
  exists r, t. split.
  - unfold do_mapping. rewrite H20, land_page_offset, Hf, Hv by done.
    rewrite (u32_small (page_of addr)) by (rewrite page_of_sub by done; unfold is_u32; Z.div_mod_to_equations; lia).
    rewrite u32_small by (unfold is_u32; destruct H as [[? ? Hr32 ? ? ?] ?]; pose proof (Z.mod_pos_bound addr 4096); lia).
    rewrite (bind_ok _ _ _ _ _ Et). done.
  - do 4 (split; [done|]). intros u i. rewrite Hte, tlb_index_page by done.
    case_decide; [by rewrite bool_decide_true|by rewrite bool_decide_false].
Qed.

(** * The walk for debugging *)

Lemma debug_ok s g m addr :
  ram0 s -> holds s m -> is_u32 addr -> is_u32 (cr3 g) -> a20_mask g = 0xffffffff ->
  bit (cr0 g) CR0_PG_MASK = true -> bit (cr4 g) CR4_PAE_MASK = false -> tables_in s g m addr ->
  (forall x, translate g m addr = Some x -> addr mod 4096 <= x_phys x < 2 ^ 32) ->
  cpu_get_phys_page_debug g addr s = Ok ((fun x => x_phys x - addr mod 4096) <$> translate g m addr) s.
Proof using Type.
  intros H Hm Ha Hc H20 Hpg Hpae [[Hp1 Hp2] Hpt] Hin. unfold cpu_get_phys_page_debug. rewrite Hpg, Hpae, pde_addr_at by done. cbn [negb].
  pose proof (pde_at_aligned g addr) as Hal. rewrite (bind_ok _ _ _ _ _ (ldl_phys_ok s _ H Hp1 Hp2)), Hm by done.
  change PG_PRESENT_MASK with (2 ^ 0). change PG_PSE_MASK with (2 ^ 7). change CR4_PSE_MASK with (2 ^ 4). rewrite !bit_testbit by lia.
  assert (is_u32 (m (pde_at g addr))) as Hu by (rewrite <- Hm by done; by apply dw_range).
  pose proof (Z.mod_pos_bound addr 4096 ltac:(lia)) as Hmod.
  fold (is_large g (m (pde_at g addr))). unfold translate in *. destruct (Z.testbit (m (pde_at g addr)) 0) eqn:E0; cbn [negb] in *; [|done].
  destruct (is_large g (m (pde_at g addr))) eqn:EL.
  { specialize (Hin _ eq_refl). cbn [x_phys] in Hin. cbn [fmap option_fmap option_map x_phys].
    rewrite H20, (land_page_offset (Z.land _ _)), large_frame by (done || by apply land_u32).
    rewrite u32_small by (unfold is_u32; lia). done. }
  specialize (Hpt eq_refl eq_refl). destruct Hpt as [Ht1 Ht2]. rewrite pte_addr_at by done.
  set (ta := pte_at (m (pde_at g addr)) addr) in *. assert (ta mod 4 = 0) as Htal by apply pte_at_aligned.
  rewrite (bind_ok _ _ _ _ _ (ldl_phys_ok s _ H Ht1 Ht2)), Hm, bit_testbit by (done || lia).
  assert (is_u32 (m ta)) as Hut by (rewrite <- Hm by done; by apply dw_range).
  destruct (Z.testbit (m ta) 0) eqn:E1; cbn [negb] in *; [|done].
  specialize (Hin _ eq_refl). cbn [x_phys] in Hin. cbn [fmap option_fmap option_map x_phys].
  rewrite H20, land_page_offset, small_frame by done. rewrite u32_small by (unfold is_u32; lia).
  do 3 f_equal. lia.
Qed.

Lemma ram0_tlb s t : ram0 s -> ram0 (set_tlb t s).
Proof using Type. intros [[? ? ? ? ? ?] ?]. split; [|done]. by split. Qed.

Lemma tables_in_same s s' g m m' addr :
  same_tables m m' -> length (phys_ram s') = length (phys_ram s) -> tables_in s g m addr -> tables_in s' g m' addr.
Proof using Type.
  intros Hs El [H1 H2]. unfold tables_in, in_ram in *. rewrite El. destruct (Hs (pde_at g addr)) as [F B].
  unfold is_large, pte_at in *. rewrite <- F, <- (B 0), <- (B 7) by lia. done.
Qed.
End Page.

(** * Theorems *)

(** The machine is in protected mode with pages of the 32-bit kind, and the tables
    and the pages they lead to for [addr] are in memory. *)
Record paged {D} (s : vmem D) (g : paging) (addr : Z) : Prop := Paged {
  pg_ram : ram0 s;
  pg_tlb : tlb_shape (tlb_table s);
  pg_addr : is_u32 addr;
  pg_cr3 : is_u32 (cr3 g);
  pg_a20 : a20_mask g = 0xffffffff;
  pg_on : bit (cr0 g) CR0_PG_MASK = true;
  pg_pae : bit (cr4 g) CR4_PAE_MASK = false;
  pg_tables : tables_in s g (dw s) addr;
  pg_page : forall x, translate g (dw s) addr = Some x -> addr mod 4096 <= x_phys x < Z.of_nat (length (phys_ram s))
}.

(** C13: an access to a page that is not in the cache ends as the page tables say: in
    a page fault whose error code tells a missing page from missing rights, or in
    a cache entry that leads to the translated page; a write may use the entry
    only when the page is marked dirty and may be written.  Of the page tables the
    accessed and dirty bits of the entries used change and nothing else. *)
Theorem mmu_fault_refines {D} `{!Devices D} `{!HostRam} (s : vmem D) g addr w1 is_user :
  paged s g addr ->
  let is_write := negb (Z.land w1 1 =? 0) in
  exists s', cpu_x86_handle_mmu_fault g addr w1 is_user s = Ok (mmu_outcome g (dw s) addr is_user is_write) s' /\
    length (phys_ram s') = length (phys_ram s) /\
    holds s' (walked g (dw s) addr is_user is_write) /\
    forall u i, te_at (tlb_table s') u i = tlb_after g (dw s) s addr is_user is_write u i.
Proof.
  intros [Hr Ht Ha Hc H20 Hon Hpae Htab Hpg] is_write.
  destruct (mmu_fault_ok s g (dw s) addr w1 is_user) as (r & t & E & El & _ & Hm & _ & Hte); try done.
  eexists. split; [exact E|]. split; [done|]. split; [exact Hm|done].
Qed.

(** The walk for debugging finds, before an access and after it, the page that
    the access put in the cache. *)
Theorem debug_walk_agrees {D} `{!Devices D} `{!HostRam} (s s' : vmem D) g addr w1 is_user :
  paged s g addr -> cpu_x86_handle_mmu_fault g addr w1 is_user s = Ok Filled s' ->
  exists pa e, cpu_get_phys_page_debug g addr s = Ok (Some pa) s /\ cpu_get_phys_page_debug g addr s' = Ok (Some pa) s' /\
    te_at (tlb_table s') is_user (tlb_index addr) = Some e /\ addr_read e = page_of addr /\
    addend e = u32 (phys_ram_base + pa - page_of addr).
Proof.
  intros [Hr Ht Ha Hc H20 Hon Hpae Htab Hpg] Ef. assert (holds s (dw s)) as Hh by done.
  destruct (mmu_fault_ok s g (dw s) addr w1 is_user) as (r & t & E & El & Hr' & Hm & _ & Hte); try done.
  rewrite E in Ef. injection Ef as Eo <-. unfold mmu_outcome in Eo. unfold tlb_after in Hte.
  destruct (translate g (dw s) addr) as [x|] eqn:Ex; [|done]. destruct (permitted g x is_user _) eqn:Ep; [|done].
  specialize (Hte is_user (tlb_index addr)). rewrite bool_decide_true in Hte by done. cbn [andb] in Hte.
  assert (forall x, translate g (dw s) addr = Some x -> addr mod 4096 <= x_phys x < 2 ^ 32) as Hpg32.
  { intros y Hy. rewrite Ex in Hy. specialize (Hpg y Hy). destruct Hr as [[? ? Hr32 ? ? ?] _]. lia. }
  exists (x_phys x - addr mod 4096). eexists. split; [|split; [|split; [exact Hte|]]].
  - rewrite (debug_ok s g (dw s)) by done. by rewrite Ex.
  - pose proof (walked_same g (dw s) addr is_user (negb (Z.land w1 1 =? 0))) as Hs.
    rewrite (debug_ok _ g (walked g (dw s) addr is_user (negb (Z.land w1 1 =? 0)))); try done.
    + by rewrite <- Hs, Ex.
    + by apply ram0_tlb.
    + by apply (tables_in_same s _ _ (dw s)).
    + intros y. rewrite <- Hs. apply Hpg32.
  - split; [|done]. unfold ram_entry. cbn [addr_read]. by destruct (writable _ _ _ _ _).
Qed.

(** * Demonstration *)

(** Four pages of memory from physical address 0 on, with a directory at 0x1000
    and a table at 0x2000 that lead 0x405000 to the last page, and with the 4 MB
    page 0x800000 at 0. *)
Definition demo_tables : vmem unit :=
  let ram := foldr (fun p l => <[Z.to_nat (fst p) := snd p]> l) (replicate 16384 0)
    [(0x1004, 7); (0x1005, 0x20); (0x1008, 0x83); (0x2014, 5); (0x2015, 0x30); (0x3123, 77)] in
  let s := set_ram ram blank_vmem in
  match cpu_register_physical_memory 0 16384 0 s with Ok _ s => s | Err _ => s end.
Definition demo_regs : paging := Paging 0x80000001 0x1000 0x10 0xffffffff 0.

Lemma demo_ram0 : ram0 demo_tables.
Proof.
  unfold demo_tables. set (ram := foldr _ _ _).
  assert (length ram = 16384%nat) as El by (vm_compute; reflexivity).
  assert (Forall is_u8 ram) as Hu by (apply (bool_decide_unpack _); vm_compute; exact I).
  clearbody ram. destruct (register_linear (set_ram ram blank_vmem) 0 16384 0) as (s' & E & Er & HL).
  - split; [apply length_replicate|]. intros i t Ht. apply lookup_replicate_1 in Ht as [? _]. done.
  - cbn [phys_ram_dirty phys_ram set_ram blank_vmem]. rewrite El, length_replicate. vm_compute. reflexivity.
  - cbn [phys_ram set_ram]. rewrite El. vm_compute. discriminate.
  - unfold is_u32. lia.
  - reflexivity.
  - lia.
  - reflexivity.
  - lia.
  - unfold is_u32. lia.
  - reflexivity.
  - cbn [phys_ram set_ram]. rewrite El. vm_compute. discriminate.
  - cbv zeta. rewrite E. cbn [phys_ram set_ram] in Er. split; rewrite Er; [|exact Hu]. rewrite El. replace (Z.of_nat 16384) with 16384 by (vm_compute; reflexivity). exact HL.
Qed.

Lemma demo_paged addr :
  is_u32 addr -> tables_in demo_tables demo_regs (dw demo_tables) addr ->
  (forall x, translate demo_regs (dw demo_tables) addr = Some x -> addr mod 4096 <= x_phys x < 16384) ->
  paged demo_tables demo_regs addr.
Proof.
  intros Ha Ht Hx. split.
  - apply demo_ram0.
  - vm_compute. split; [reflexivity|]. repeat constructor.
  - exact Ha.
  - unfold is_u32. cbn. lia.
  - reflexivity.
  - reflexivity.
  - reflexivity.
  - exact Ht.
  - intros x Hx'. replace (Z.of_nat (length (phys_ram demo_tables))) with 16384 by (vm_compute; reflexivity). by apply Hx.
Qed.

Lemma demo_page : paged demo_tables demo_regs 0x405123.
Proof.
  apply demo_paged.
  - unfold is_u32. lia.
  - split; [vm_compute; split; discriminate|]. intros _ _. vm_compute. split; discriminate.
  - intros x. vm_compute. intros [= <-]. cbn. split; [discriminate|reflexivity].
Qed.

Lemma mmu_fault_refines_witness :
  exists s', cpu_x86_handle_mmu_fault demo_regs 0x405123 1 true demo_tables = Ok (Faulted 0x405123 7) s' /\
    dw s' 0x2014 = 0x3005.
Proof.
  destruct (mmu_fault_refines demo_tables demo_regs 0x405123 1 true demo_page) as (s' & E & El & Hm & _).
  exists s'. split; [rewrite E; vm_compute; reflexivity|]. rewrite Hm; [vm_compute; reflexivity|done|lia|]. rewrite El. vm_compute. discriminate.
Defined.

Lemma debug_walk_agrees_witness :
  exists s' e, cpu_x86_handle_mmu_fault demo_regs 0x405123 0 true demo_tables = Ok Filled s' /\
    te_at (tlb_table s') true 5 = Some e /\ addend e = u32 (0x40000000 + 0x3000 - 0x405000).
Proof.
  destruct (mmu_fault_refines demo_tables demo_regs 0x405123 0 true demo_page) as (s' & E & _).
  assert (cpu_x86_handle_mmu_fault demo_regs 0x405123 0 true demo_tables = Ok Filled s') as E'.
  { rewrite E. vm_compute. reflexivity. }
  destruct (debug_walk_agrees demo_tables s' demo_regs 0x405123 0 true demo_page E') as (pa & e & E1 & _ & He & _ & Ha).
  exists s', e. split; [exact E'|]. split; [exact He|]. rewrite Ha.
  assert (pa = 0x3000) as ->; [|reflexivity].
  assert (cpu_get_phys_page_debug demo_regs 0x405123 demo_tables = Ok (Some 0x3000) demo_tables) as E2.
  { vm_compute. reflexivity. }
  congruence.
Defined.

(** * Where the code departs from the processor *)

Definition filled_entry {D} (r : res (vmem D) mmu_result) (is_user : bool) (i : Z) : option tlb_entry :=
  match r with Ok Filled s => te_at (tlb_table s) is_user i | _ => None end.

(** With the A20 line off, bit 20 of a physical address is 0, as without paging;
    inside a 4 MB page the bit of the offset is kept: 0x900000 goes to the page at
    0x100000, not to the one at 0. *)
Lemma large_page_ignores_a20 :
  let off := set_pg_a20 0xffefffff demo_regs in
  addend <$> filled_entry (cpu_x86_handle_mmu_fault off 0x900000 0 false demo_tables) false 0 = Some (u32 (0x100000 - 0x900000)) /\
  addend <$> filled_entry (cpu_x86_handle_mmu_fault (set_pg_cr0 1 off) 0x100000 0 false demo_tables) false 0 =
    Some (u32 (0x40000000 - 0x100000)).
Proof. vm_compute. done. Qed.

(** Tables of the extended kind whose page at 0 is not present. *)
Definition demo_pae : vmem unit :=
  match (stl_phys 0 0x1001 ;;; stl_phys 0x1000 0x2001) demo_tables with Ok _ s => s | Err _ => demo_tables end.

(** The walk for debugging does not look at the present bit of an extended table's
    entry, and walks the tables with [CR4.PAE] even when paging is off. *)
Lemma debug_walk_differs_pae :
  let g := Paging 0x80000001 0 0x20 0xffffffff 0 in
  (exists s, cpu_x86_handle_mmu_fault g 0 0 false demo_pae = Ok (Faulted 0 0) s) /\
  cpu_get_phys_page_debug g 0 demo_pae = Ok (Some 0) demo_pae /\
  (exists s, cpu_x86_handle_mmu_fault (set_pg_cr0 1 g) 0x3000 0 false demo_tables = Ok Filled s) /\
  cpu_get_phys_page_debug (set_pg_cr0 1 g) 0x3000 demo_tables = Ok None demo_tables.
Proof.
  split; [|split; [|split]].
  - eexists. vm_compute. reflexivity.
  - vm_compute. reflexivity.
  - eexists. vm_compute. reflexivity.
  - vm_compute. reflexivity.
Qed.
