(* ===== verification/SoftMmu.v ===== *)
(** The accesses of the emulated processor to memory through the cache of
    translations: src/sysvm/softmmu_template.h and the inline accesses of
    src/sysvm/softmmu_header.h, for one, two, four and eight bytes. *)
From S2P Require Import Prelude Layout PhysMem X86Mmu.

(** An access gives a value or ends in a page fault. *)
Inductive maccess (A : Type) := Hit (a : A) | PageFault (addr error_code : Z).
Arguments Hit {A}. Arguments PageFault {A}.

(** Data and code have tags of their own in the cache; [READ_ACCESS_TYPE]. *)
Inductive read_kind := DataRead | CodeRead.
Definition read_tag (k : read_kind) (e : tlb_entry) : Z := match k with DataRead => addr_read e | CodeRead => addr_code e end.
Definition read_access_type (k : read_kind) : Z := match k with DataRead => 0 | CodeRead => 2 end.

(** [DATA_SIZE] is [1 << SHIFT]. *)
Definition data_size (shift : Z) : Z := Z.shiftl 1 shift.
Definition data_bytes (shift : Z) : nat := Z.to_nat (data_size shift).
(** [(DATA_TYPE)x] *)
Definition data_cast (shift x : Z) : Z := x mod 2 ^ (8 * data_size shift).

Section SoftMmu.
Context {D : Type} {DD : Devices D} {HR : HostRam}.
Variable g : paging.
Abbreviation V := (M (vmem D)).

(** The rest of an access after a step that may fault. *)
Definition fbind {A B} (m : V (maccess A)) (k : A -> V (maccess B)) : V (maccess B) :=
  r <- m ;; match r with Hit a => k a | PageFault addr e => ret (PageFault addr e) end.

(** [(addr & TARGET_PAGE_MASK) == (tlb_addr & (TARGET_PAGE_MASK | TLB_INVALID_MASK))] *)
Definition tlb_hit (addr tlb_addr : Z) : bool :=
  page_of addr =? Z.land tlb_addr (Z.lor TARGET_PAGE_MASK TLB_INVALID_MASK).
(** [((addr & ~TARGET_PAGE_MASK) + DATA_SIZE - 1) >= TARGET_PAGE_SIZE] *)
Definition spans (shift addr : Z) : bool := TARGET_PAGE_SIZE <=? page_off addr + data_size shift - 1.
Definition unaligned (shift addr : Z) : bool := negb (Z.land addr (data_size shift - 1) =? 0).

(** [tlb_fill(addr, is_write, is_user, retaddr)]: the page fault is raised. *)
Definition tlb_fill (addr is_write : Z) (is_user : bool) : V (maccess unit) :=
  r <- cpu_x86_handle_mmu_fault g addr is_write is_user ;;
  match r with Filled => ret (Hit tt) | Faulted a e => ret (PageFault a e) end.

(** [ld_raw], [st_raw] at a host address. *)
Definition ld_raw (shift physaddr : Z) : V Z := ld_p (data_bytes shift) (u32 (physaddr - phys_ram_base)).
Definition st_raw (shift physaddr v : Z) : V unit := st_p (data_bytes shift) (u32 (physaddr - phys_ram_base)) v.

(** [io_read(physaddr, tlb_addr)] *)
Definition io_read (shift physaddr tlb_addr : Z) : V Z :=
  let index := io_index_of tlb_addr in
  if shift <=? 2 then r <- call_read index shift physaddr ;; ret (data_cast shift r)
  else
    lo <- call_read index 2 physaddr ;;
    hi <- call_read index 2 (u32 (physaddr + 4)) ;;
    ret (Z.lor lo (Z.shiftl hi 32)).
(** [io_write(physaddr, val, tlb_addr, retaddr)] *)
Definition io_write (shift physaddr val tlb_addr : Z) : V unit :=
  let index := io_index_of tlb_addr in
  modify (set_mwv tlb_addr) ;;;
  if shift <=? 2 then call_write index shift physaddr val
  else
    call_write index 2 physaddr (u32 val) ;;;
    call_write index 2 (u32 (physaddr + 4)) (Z.shiftr val 32).

(** [slow_ld(addr, is_user, retaddr)]; the fuel counts the fills and the two halves
    of an unaligned access. *)
Fixpoint slow_ld (n : nat) (k : read_kind) (shift : Z) (is_user : bool) (addr : Z) : V (maccess Z) :=
  match n with
  | O => stop Diverged
  | S n =>
      e <- get_te (Z.b2z is_user) (tlb_index addr) ;;
      let tlb_addr := read_tag k e in
      if tlb_hit addr tlb_addr then
        let physaddr := u32 (addr + addend e) in
        let do_unaligned_access :=
          let addr1 := Z.land addr (u32 (Z.lnot (data_size shift - 1))) in
          let addr2 := u32 (addr1 + data_size shift) in
          fbind (slow_ld n k shift is_user addr1) (fun res1 =>
          fbind (slow_ld n k shift is_user addr2) (fun res2 =>
          let sh := Z.land addr (data_size shift - 1) * 8 in
          ret (Hit (data_cast shift (Z.lor (Z.shiftr res1 sh) (Z.shiftl res2 (data_size shift * 8 - sh))))))) in
        if negb (page_off tlb_addr =? 0) then
          if unaligned shift addr then do_unaligned_access
          else r <- io_read shift physaddr tlb_addr ;; ret (Hit r)
        else if spans shift addr then do_unaligned_access
        else r <- ld_raw shift physaddr ;; ret (Hit r)
      else
        fbind (tlb_fill addr (read_access_type k) is_user) (fun _ => slow_ld n k shift is_user addr)
  end.

(** [__ld(addr, is_user)] *)
Fixpoint ld_mmu (n : nat) (k : read_kind) (shift : Z) (is_user : bool) (addr : Z) : V (maccess Z) :=
  match n with
  | O => stop Diverged
  | S n =>
      e <- get_te (Z.b2z is_user) (tlb_index addr) ;;
      let tlb_addr := read_tag k e in
      if tlb_hit addr tlb_addr then
        let physaddr := u32 (addr + addend e) in
        if negb (page_off tlb_addr =? 0) then
          if unaligned shift addr then slow_ld n k shift is_user addr
          else r <- io_read shift physaddr tlb_addr ;; ret (Hit r)
        else if spans shift addr then slow_ld n k shift is_user addr
        else r <- ld_raw shift physaddr ;; ret (Hit r)
      else
        fbind (tlb_fill addr (read_access_type k) is_user) (fun _ => ld_mmu n k shift is_user addr)
  end.

(** [for(i = 0;i < DATA_SIZE; i++) slow_stb(addr + i, val >> (i * 8), ..)] *)
Fixpoint st_bytes (stb : Z -> Z -> V (maccess unit)) (c : nat) (addr val : Z) : V (maccess unit) :=
  match c with
  | O => ret (Hit tt)
  | S c => fbind (stb addr (u8 val)) (fun _ => st_bytes stb c (u32 (addr + 1)) (Z.shiftr val 8))
  end.

(** [slow_st(addr, val, is_user, retaddr)] *)
Fixpoint slow_st (n : nat) (shift : Z) (is_user : bool) (addr val : Z) : V (maccess unit) :=
  match n with
  | O => stop Diverged
  | S n =>
      e <- get_te (Z.b2z is_user) (tlb_index addr) ;;
      let tlb_addr := addr_write e in
      if tlb_hit addr tlb_addr then
        let physaddr := u32 (addr + addend e) in
        let do_unaligned_access := st_bytes (slow_st n 0 is_user) (data_bytes shift) addr val in
        if negb (page_off tlb_addr =? 0) then
          if unaligned shift addr then do_unaligned_access
          else io_write shift physaddr val tlb_addr ;;; ret (Hit tt)
        else if spans shift addr then do_unaligned_access
        else st_raw shift physaddr val ;;; ret (Hit tt)
      else
        fbind (tlb_fill addr 1 is_user) (fun _ => slow_st n shift is_user addr val)
  end.

(** [__st(addr, val, is_user)] *)
Fixpoint st_mmu (n : nat) (shift : Z) (is_user : bool) (addr val : Z) : V (maccess unit) :=
  match n with
  | O => stop Diverged
  | S n =>
      e <- get_te (Z.b2z is_user) (tlb_index addr) ;;
      let tlb_addr := addr_write e in
      if tlb_hit addr tlb_addr then
        let physaddr := u32 (addr + addend e) in
        if negb (page_off tlb_addr =? 0) then
          if unaligned shift addr then slow_st n shift is_user addr val
          else io_write shift physaddr val tlb_addr ;;; ret (Hit tt)
        else if spans shift addr then slow_st n shift is_user addr val
        else st_raw shift physaddr val ;;; ret (Hit tt)
      else
        fbind (tlb_fill addr 1 is_user) (fun _ => st_mmu n shift is_user addr val)
  end.

(** The inline accesses: the tag is compared with the alignment bits of the
    address, so that an unaligned access leaves for the functions above. *)
Definition ld_inline (n : nat) (k : read_kind) (shift : Z) (is_user : bool) (addr : Z) : V (maccess Z) :=
  e <- get_te (Z.b2z is_user) (tlb_index addr) ;;
  if negb (read_tag k e =? Z.land addr (Z.lor TARGET_PAGE_MASK (data_size shift - 1)))
  then ld_mmu n k shift is_user addr
  else r <- ld_raw shift (u32 (addr + addend e)) ;; ret (Hit r).
Definition st_inline (n : nat) (shift : Z) (is_user : bool) (addr val : Z) : V (maccess unit) :=
  e <- get_te (Z.b2z is_user) (tlb_index addr) ;;
  if negb (addr_write e =? Z.land addr (Z.lor TARGET_PAGE_MASK (data_size shift - 1)))
  then st_mmu n shift is_user addr val
  else st_raw shift (u32 (addr + addend e)) val ;;; ret (Hit tt).
End SoftMmu.
