(* ===== verification/SoftTlb.v ===== *)
(** The cache of translations agrees with the page tables, and accesses through it
    reach the bytes that the tables lead to. *)
From S2P Require Import Prelude Layout PhysMem PhysRam X86Mmu X86Walk X86Page SoftMmu.

(** * Translation of a page *)

Definition at_offset (o : Z) (x : xlat) : xlat := Xlat (x_phys x + o) (x_user x) (x_rw x) (x_leaf x).

Lemma page_of_div a d : is_u32 a -> d = 4096 \/ d = 2 ^ 22 -> page_of a / d = a / d.
Proof.
  intros Ha Hd. rewrite page_of_sub by done. change (2 ^ 22) with 4194304 in Hd. destruct Hd as [-> | ->]; Z.div_mod_to_equations; lia.
Qed.

Lemma page_of_mod a : is_u32 a -> page_of a mod 4096 = 0.
Proof. intros Ha. rewrite page_of_sub by done. Z.div_mod_to_equations; lia. Qed.

Lemma page_of_range a : is_u32 a -> is_u32 (page_of a).
Proof. intros Ha. by apply land_u32. Qed.

Lemma translate_page g m a : is_u32 a ->
  translate g m a = at_offset (a mod 4096) <$> translate g m (page_of a).
Proof.
  intros Ha. unfold translate.
  assert (pde_at g (page_of a) = pde_at g a) as -> by (unfold pde_at; rewrite page_of_div; auto).
  assert (forall p, pte_at p (page_of a) = pte_at p a) as -> by (intros p; unfold pte_at; rewrite page_of_div; auto).
  rewrite page_of_mod by done. destruct (negb _); [done|]. destruct (is_large _ _).
  - cbn [fmap option_fmap option_map]. unfold at_offset. cbn [x_phys x_user x_rw x_leaf]. do 2 f_equal. rewrite page_of_sub by done.
    change (2 ^ 22) with 4194304. Z.div_mod_to_equations; lia.
  - destruct (negb _); [done|]. cbn [fmap option_fmap option_map]. unfold at_offset. cbn [x_phys x_user x_rw x_leaf]. do 2 f_equal. lia.
Qed.

Lemma permitted_offset g o x u w : permitted g (at_offset o x) u w = permitted g x u w.
Proof. done. Qed.

(** * Two halves of a value *)

Lemma le_val_app l1 l2 : le_val (l1 ++ l2) = le_val l1 + 256 ^ Z.of_nat (length l1) * le_val l2.
Proof.
  induction l1 as [|b l1 IH]; cbn [app le_val length]; [lia|]. rewrite IH, Nat2Z.inj_succ, Z.pow_succ_r by lia. lia.
Qed.

Lemma le_val_range l : Forall is_u8 l -> 0 <= le_val l < 256 ^ Z.of_nat (length l).
Proof.
  induction 1 as [|b l Hb Hl IH]; cbn [le_val length]; [lia|]. rewrite Nat2Z.inj_succ, Z.pow_succ_r by lia.
  unfold is_u8 in Hb. lia.
Qed.

(** The high bytes of one value and the low bytes of another, as [slow_ld] joins
    them. *)
Lemma le_val_splice l1 l2 n k :
  Forall is_u8 l1 -> Forall is_u8 l2 -> length l1 = n -> length l2 = n -> (k <= n)%nat ->
  Z.lor (Z.shiftr (le_val l1) (Z.of_nat k * 8)) (Z.shiftl (le_val l2) (Z.of_nat n * 8 - Z.of_nat k * 8)) mod 2 ^ (8 * Z.of_nat n) =
    le_val (drop k l1 ++ take k l2).
Proof.
  intros H1 H2 E1 E2 Hk.
  assert (forall j, 0 <= j -> 2 ^ (j * 8) = 256 ^ j) as P by (intros j Hj; rewrite Z.mul_comm, Z.pow_mul_r; done || lia).
  assert (le_val (drop k l1) = Z.shiftr (le_val l1) (Z.of_nat k * 8)) as Ed.
  { rewrite Z.shiftr_div_pow2, P by lia. rewrite <- (take_drop k l1) at 2. rewrite le_val_app, length_take, Nat.min_l by lia.
    pose proof (le_val_range (take k l1) (Forall_take _ _ _ H1)) as R. rewrite length_take, Nat.min_l in R by lia.
    rewrite Z.mul_comm, Z.div_add by lia. rewrite Z.div_small by lia. lia. }
  pose proof (le_val_range (drop k l1) (Forall_drop _ _ _ H1)) as Rd. rewrite length_drop, E1 in Rd.
  pose proof (le_val_range (take k l2) (Forall_take _ _ _ H2)) as Rt. rewrite length_take, Nat.min_l in Rt by lia.
  rewrite le_val_app, length_drop, E1, Ed.
  assert (Z.of_nat n * 8 - Z.of_nat k * 8 = Z.of_nat (n - k) * 8) as -> by lia.
  rewrite Z.lor_comm, lor_shiftl_add by (try rewrite P by lia; lia). rewrite (Z.mul_comm 8), !P by lia.
  assert (le_val l2 = le_val (take k l2) + 256 ^ Z.of_nat k * le_val (drop k l2)) as ->.
  { rewrite <- (take_drop k l2) at 1. rewrite le_val_app, length_take, Nat.min_l by lia. done. }
  set (q := 256 ^ Z.of_nat (n - k)) in *. assert (256 ^ Z.of_nat n = q * 256 ^ Z.of_nat k) as ->.
  { unfold q. rewrite <- Z.pow_add_r by lia. f_equal. lia. }
  set (p := 256 ^ Z.of_nat k) in *. rewrite <- Ed in *.
  replace ((le_val (take k l2) + p * le_val (drop k l2)) * q + le_val (drop k l1))
    with (le_val (drop k l1) + q * le_val (take k l2) + le_val (drop k l2) * (q * p)) by lia.
  rewrite Z.mod_add by nia. apply Z.mod_small. nia.
Qed.

#[export] Instance mmu_outcome_proper g : Proper (same_tables ==> eq ==> eq ==> eq ==> eq) (mmu_outcome g).
Proof. intros m m' H a _ <- u _ <- w _ <-. unfold mmu_outcome. by rewrite H. Qed.

Section Tlb.
Context {D : Type} {DD : Devices D} {HR : HostRam}.
Implicit Types (s : vmem D) (m : Z -> Z).

(** Pages of the 32-bit kind are on. *)
Record regs_ok (g : paging) : Prop := RegsOk {
  ro_cr3 : is_u32 (cr3 g); ro_a20 : a20_mask g = 0xffffffff;
  ro_on : bit (cr0 g) CR0_PG_MASK = true; ro_pae : bit (cr4 g) CR4_PAE_MASK = false
}.
(** The tables for [addr] and its page are in memory. *)
Record mapped_in s g m (addr : Z) : Prop := MappedIn {
  mi_addr : is_u32 addr;
  mi_tables : tables_in s g m addr;
  mi_page : forall x, translate g m addr = Some x -> addr mod 4096 <= x_phys x < Z.of_nat (length (phys_ram s))
}.

(** * Coherence *)

(** A tag of an entry is invalid, or the entry leads to the page that the tables
    give for the tag, with the rights of the tag's accesses. *)
Record tag_page s g m (u w : bool) (i : Z) (e : tlb_entry) (va : Z) (x : xlat) : Prop := TagPage {
  tp_va : is_u32 va /\ va mod 4096 = 0;
  tp_index : tlb_index va = i;
  tp_tables : tables_in s g m va;
  tp_x : translate g m va = Some x;
  tp_ok : permitted g x u w = true;
  tp_ram : 0 <= x_phys x < Z.of_nat (length (phys_ram s));
  tp_addend : addend e = u32 (phys_ram_base + x_phys x - va)
}.
Definition tag_ok s g m (u w : bool) (i : Z) (e : tlb_entry) (tag : Z) : Prop :=
  tag = u32 (-1) \/ exists va x, tag_page s g m u w i e va x /\ (tag = va \/ w = true /\ tag = Z.lor va IO_MEM_NOTDIRTY).
Definition te_ok s g m (u : bool) (i : Z) (e : tlb_entry) : Prop :=
  tag_ok s g m u false i e (addr_read e) /\ tag_ok s g m u false i e (addr_code e) /\ tag_ok s g m u true i e (addr_write e) /\
  (addr_write e = u32 (-1) \/ addr_write e = addr_read e \/ addr_write e = Z.lor (addr_read e) IO_MEM_NOTDIRTY).

(** The cache is true to the tables of the 32-bit kind with the A20 line on ([regs_ok]);
    X86Modes has the invariant for the other modes ([cached]), which follows from this
    one here. *)
Record coherent s g m : Prop := Coherent {
  co_ram : ram0 s;
  co_holds : holds s m;
  co_shape : tlb_shape (tlb_table s);
  co_te : forall u i e, te_at (tlb_table s) u i = Some e -> te_ok s g m u i e
}.

Lemma tag_page_same s s' g m m' u w i e va x :
  same_tables m m' -> length (phys_ram s') = length (phys_ram s) -> tag_page s g m u w i e va x -> tag_page s' g m' u w i e va x.
Proof using Type.
  intros Hs El [H1 H2 H3 H4 H5 H6 H7]. split; try done.
  - by apply (tables_in_same s _ _ m).
  - by rewrite <- Hs.
  - by rewrite El.
Qed.

Lemma te_ok_same s s' g m m' u i e :
  same_tables m m' -> length (phys_ram s') = length (phys_ram s) -> te_ok s g m u i e -> te_ok s' g m' u i e.
Proof using Type.
  intros Hs El (H1 & H2 & H3 & H4). unfold te_ok.
  split; [|split; [|split; [|done]]]; [destruct H1 as [H|(va & x & H & E)]|destruct H2 as [H|(va & x & H & E)]|destruct H3 as [H|(va & x & H & E)]];
    try (by left); right; exists va, x; split; try done; by eapply tag_page_same.
Qed.

(** Tags and hits. *)
Lemma hit_invalid addr : tlb_hit addr (u32 (-1)) = false.
Proof using Type.
  unfold tlb_hit. apply Z.eqb_neq. intros E. apply (f_equal (fun z => Z.testbit z 3)) in E. unfold page_of in E.
  rewrite Z.land_spec in E. change (Z.testbit TARGET_PAGE_MASK 3) with false in E. rewrite andb_false_r in E.
  vm_compute in E. done.
Qed.

Lemma land_page va : is_u32 va -> va mod 4096 = 0 -> Z.land va (Z.lor TARGET_PAGE_MASK TLB_INVALID_MASK) = va.
Proof using Type.
  intros Hu Hm. rewrite Z.land_lor_distr_r. fold (page_of va). rewrite page_of_sub, Hm, Z.sub_0_r by done.
  change TLB_INVALID_MASK with (Z.land 0xfff 8). rewrite Z.land_assoc. fold (page_off va). rewrite page_off_mod, Hm. apply Z.lor_0_r.
Qed.

Lemma lor_notdirty va : is_u32 va -> va mod 4096 = 0 ->
  Z.land (Z.lor va IO_MEM_NOTDIRTY) (Z.lor TARGET_PAGE_MASK TLB_INVALID_MASK) = va /\
  page_off (Z.lor va IO_MEM_NOTDIRTY) = IO_MEM_NOTDIRTY /\ io_index_of (Z.lor va IO_MEM_NOTDIRTY) = 4.
Proof using Type.
  intros Hu Hm. split; [|split].
  - rewrite Z.land_lor_distr_l, land_page by done. apply Z.lor_0_r.
  - unfold page_off. rewrite Z.land_lor_distr_l. fold (page_off va). rewrite page_off_mod, Hm. done.
  - unfold io_index_of, IO_MEM_SHIFT, IO_MEM_NB_ENTRIES. rewrite Z.shiftr_lor, Z.land_lor_distr_l.
    assert (Z.land (Z.shiftr va 4) (256 - 1) = 0) as ->; [|done].
    change (256 - 1) with (Z.ones 8). rewrite Z.land_ones, Z.shiftr_div_pow2 by lia.
    change (2 ^ 4) with 16. change (2 ^ 8) with 256. Z.div_mod_to_equations; lia.
Qed.

Lemma tag_hit s g m u w i e va x tag addr :
  tag_page s g m u w i e va x -> tag = va \/ w = true /\ tag = Z.lor va IO_MEM_NOTDIRTY ->
  tlb_hit addr tag = (page_of addr =? va).
Proof using Type.
  intros [[Hu Hm] _ _ _ _ _ _] [-> | [_ ->]]; unfold tlb_hit.
  - by rewrite land_page.
  - by destruct (lor_notdirty va Hu Hm) as [-> _].
Qed.

(** * Filling keeps coherence *)

Lemma te_at_get s u i e : te_at (tlb_table s) u i = Some e -> get_te (Z.b2z u) i s = Ok e s.
Proof using Type.
  unfold te_at. intros H. destruct (tlb_table s !! Nat.b2n u) as [l|] eqn:El; [|done]. cbn [mbind option_bind] in H.
  unfold get_te. mstep. assert (aget (tlb_table s) (Z.b2z u) = Some l) as E by (by destruct u). msome E. by rewrite H.
Qed.

Lemma te_at_some s u i : tlb_shape (tlb_table s) -> 0 <= i < 256 -> exists e, te_at (tlb_table s) u i = Some e.
Proof using Type.
  intros [Hl Hf] Hi. unfold te_at. destruct (lookup_lt_is_Some_2 (tlb_table s) (Nat.b2n u)) as [l El]; [destruct u; cbn; lia|].
  rewrite El. cbn [mbind option_bind]. rewrite Forall_lookup in Hf. apply aget_Some. rewrite (Hf _ _ El). lia.
Qed.

(** The rights of a cached page: [page_prot]. *)
Lemma prot_rights w : allows (page_prot w) PAGE_READ = true /\ allows (page_prot w) PAGE_EXEC = true /\ allows (page_prot w) PAGE_WRITE = w.
Proof using Type. by destruct w. Qed.

Lemma writable_permitted g m x u w : permitted g x u w = true -> writable g m x u w = true -> permitted g x u true = true.
Proof using Type.
  unfold permitted, writable. destruct u, w, (x_user x), (x_rw x), (Z.testbit (cr0 g) 16); cbn; try done;
    by rewrite ?andb_false_r.
Qed.
Lemma write_writable g m x u : permitted g x u true = true -> writable g m x u true = true.
Proof using Type. unfold permitted, writable. destruct u, (x_user x), (x_rw x), (Z.testbit (cr0 g) 16); done. Qed.
Lemma permitted_read g x u w : permitted g x u w = true -> permitted g x u false = true.
Proof using Type. unfold permitted. destruct u, w, (x_user x); done. Qed.

Lemma fill_ok s g m addr w1 u :
  let w := negb (Z.land w1 1 =? 0) in
  regs_ok g -> coherent s g m -> mapped_in s g m addr ->
  exists s', cpu_x86_handle_mmu_fault g addr w1 u s = Ok (mmu_outcome g m addr u w) s' /\
    coherent s' g (walked g m addr u w) /\ length (phys_ram s') = length (phys_ram s) /\
    l1_phys_map s' = l1_phys_map s /\ phys_ram_dirty s' = phys_ram_dirty s /\ io_mem s' = io_mem s /\
    (mmu_outcome g m addr u w = Filled ->
     exists e, te_at (tlb_table s') u (tlb_index addr) = Some e /\ addr_read e = page_of addr /\ addr_code e = page_of addr /\
       (w = true -> addr_write e <> u32 (-1))).
Proof using Type.
  intros w [Hc H20 Hon Hpae] [Hr Hh Ht Hte] [Ha Htab Hpg].
  destruct (mmu_fault_ok s g m addr w1 u) as (r & t & E & El & Hr' & Hm & Hsh & Hta); try done. fold w in E, Hm, Hta.
  pose proof (walked_same g m addr u w) as Hs.
  exists (set_tlb t (set_ram r s)). split; [exact E|].
  unfold tlb_after in Hta. unfold mmu_outcome. rewrite translate_page in Hta |- * by done.
  assert (forall u' i e, te_at (tlb_table s) u' i = Some e -> te_ok (set_tlb t (set_ram r s)) g (walked g m addr u w) u' i e) as Hold.
  { intros u' i e He. apply (te_ok_same s _ g m); [done|exact El|]. by apply Hte. }
  destruct (translate g m (page_of addr)) as [x|] eqn:Ex; cbn [fmap option_fmap option_map] in *.
  2: { split; [|do 4 (split; [done|]); done]. split; [by apply ram0_tlb|exact Hm|done|]. intros u' i e He. rewrite Hta in He. by apply Hold. }
  rewrite permitted_offset in *. destruct (permitted g x u w) eqn:Ep; cbn [andb] in Hta.
  2: { split; [|do 4 (split; [done|]); done]. split; [by apply ram0_tlb|exact Hm|done|]. intros u' i e He. rewrite Hta in He. by apply Hold. }
  assert (x_phys (at_offset (addr mod 4096) x) - addr mod 4096 = x_phys x) as Ex2 by (unfold at_offset; cbn [x_phys]; lia).
  rewrite Ex2 in Hta. set (wr := writable g m (at_offset (addr mod 4096) x) u w) in *.
  set (en := ram_entry (page_of addr) (x_phys x) (page_prot wr) (page_clean s (x_phys x))) in *.
  assert (addr_read en = page_of addr /\ addr_code en = page_of addr /\
    addr_write en = if wr then (if page_clean s (x_phys x) then Z.lor (page_of addr) IO_MEM_NOTDIRTY else page_of addr) else u32 (-1))
    as (E1 & E2 & E3).
  { destruct (prot_rights wr) as (P1 & P2 & P3). unfold en, ram_entry. cbn [addr_read addr_code addr_write]. by rewrite P1, P2, P3. }
  assert (forall w', permitted g x u w' = true ->
    tag_page (set_tlb t (set_ram r s)) g (walked g m addr u w) u w' (tlb_index addr) en (page_of addr) x) as Htp.
  { intros w' Hw'. apply (tag_page_same s _ g m); [done|exact El|]. split.
    - split; [by apply page_of_range|by apply page_of_mod].
    - by apply tlb_index_page.
    - destruct Htab as [T1 T2]. unfold tables_in.
      assert (pde_at g (page_of addr) = pde_at g addr) as -> by (unfold pde_at; rewrite page_of_div; auto).
      split; [done|]. intros ? ?. assert (forall p, pte_at p (page_of addr) = pte_at p addr) as ->
        by (intros p; unfold pte_at; rewrite page_of_div; auto). by apply T2.
    - done.
    - done.
    - specialize (Hpg (at_offset (addr mod 4096) x)). rewrite translate_page, Ex in Hpg by done. specialize (Hpg eq_refl).
      unfold at_offset in Hpg. cbn [x_phys] in Hpg. pose proof (Z.mod_pos_bound addr 4096). lia.
    - done. }
  split; [|do 4 (split; [done|])].
  - split; [by apply ram0_tlb|exact Hm|done|]. intros u' i e He. rewrite Hta in He. case_bool_decide as Hb; [|by apply Hold].
    destruct Hb as [-> ->]. injection He as <-. pose proof (permitted_read _ _ _ _ Ep) as Epr. unfold te_ok.
    rewrite E1, E2, E3. split; [|split; [|split]].
    + right. exists (page_of addr), x. split; [by apply Htp|by left].
    + right. exists (page_of addr), x. split; [by apply Htp|by left].
    + destruct wr eqn:Ew; [|by left]. right. exists (page_of addr), x.
      split; [apply Htp; by apply (writable_permitted g m (at_offset (addr mod 4096) x) u w)|].
      destruct (page_clean s (x_phys x)); [by right|by left].
    + destruct wr; [|by left]. right. destruct (page_clean s (x_phys x)); [by right|by left].
  - intros _. exists en. rewrite Hta, bool_decide_true by done. split; [done|]. rewrite E1, E2, E3. split; [done|]. split; [done|].
    intros Hw. assert (wr = true) as -> by (unfold wr; rewrite Hw in *; by apply write_writable).
    pose proof (page_of_range addr Ha) as Hpu. pose proof (page_of_mod addr Ha) as Hpm.
    destruct (page_clean s (x_phys x)); intros Eq; pose proof (hit_invalid (page_of addr)) as Hh1; rewrite <- Eq in Hh1; unfold tlb_hit in Hh1.
    + destruct (lor_notdirty _ Hpu Hpm) as [Q _]. rewrite Q in Hh1. apply Z.eqb_neq in Hh1. apply Hh1.
      rewrite page_of_sub, Hpm by done. lia.
    + rewrite land_page in Hh1 by done. apply Z.eqb_neq in Hh1. apply Hh1. rewrite page_of_sub, Hpm by done. lia.
Qed.

(** * Loads within a page *)

(** The value of the bytes of memory at a physical address. *)
Definition loaded s (shift pa : Z) : Z := le_val (take (data_bytes shift) (drop (Z.to_nat pa) (phys_ram s))).

(** What a load gives by the translation of its address, from the memory [s]. *)
Definition load_result g m s (shift : Z) (u : bool) (addr : Z) : maccess Z :=
  match mmu_outcome g m addr u false with
  | Faulted a c => PageFault a c
  | Filled => Hit (loaded s shift (default 0 (x_phys <$> translate g m addr)))
  end.

Lemma tag_read s g m u i e k : te_ok s g m u i e -> tag_ok s g m u false i e (read_tag k e).
Proof using Type. intros (H1 & H2 & _ & _). by destruct k. Qed.

Lemma ram_pages s x : ram0 s -> x mod 4096 = 0 -> 0 <= x < Z.of_nat (length (phys_ram s)) -> x + 4096 <= Z.of_nat (length (phys_ram s)) <= 2 ^ 32.
Proof using Type. intros [[_ Hd Hr _ _ _] _] Hm Hx. Z.div_mod_to_equations; lia. Qed.

(** The host address of a cached page leads to the bytes of the page. *)
Lemma host_offset s g m u w i e va x addr :
  ram0 s -> tag_page s g m u w i e va x -> is_u32 addr -> page_of addr = va ->
  u32 (u32 (addr + addend e) - phys_ram_base) = x_phys x + addr mod 4096 /\
  x_phys x + 4096 <= Z.of_nat (length (phys_ram s)) /\
  translate g m addr = Some (at_offset (addr mod 4096) x).
Proof using Type.
  intros Hr [[Hu Hm] _ _ Hx _ Hin Hadd] Ha Hp. pose proof (x_phys_page _ _ _ _ Hu Hx) as Hxp. rewrite Hm, Z.sub_0_r in Hxp.
  destruct (ram_pages s _ Hr Hxp Hin) as [Hle H32]. pose proof (Z.mod_pos_bound addr 4096 ltac:(lia)).
  split; [|split; [done|]].
  - rewrite Hadd. unfold u32. rewrite Zplus_mod_idemp_r, Zminus_mod_idemp_l.
    rewrite page_of_sub in Hp by done.
    replace (addr + (phys_ram_base + x_phys x - va) - phys_ram_base) with (x_phys x + addr mod 4096) by lia.
    apply Z.mod_small. lia.
  - by rewrite translate_page, Hp, Hx.
Qed.

Lemma spans_page shift addr : 0 <= shift <= 3 -> spans shift addr = false -> addr mod 4096 + Z.of_nat (data_bytes shift) <= 4096.
Proof using Type.
  intros Hs. unfold spans, data_bytes, data_size, TARGET_PAGE_SIZE. rewrite page_off_mod, Z.leb_gt.
  assert (0 < Z.shiftl 1 shift) by (rewrite Z.shiftl_mul_pow2 by lia; pose proof (Z.pow_pos_nonneg 2 shift); lia). lia.
Qed.

Lemma raw_load s g m u w i e va x shift addr :
  ram0 s -> tag_page s g m u w i e va x -> is_u32 addr -> page_of addr = va -> 0 <= shift <= 3 -> spans shift addr = false ->
  ld_raw shift (u32 (addr + addend e)) s = Ok (loaded s shift (x_phys (at_offset (addr mod 4096) x))) s.
Proof using Type.
  intros Hr Ht Ha Hp Hs Hsp. destruct (host_offset _ _ _ _ _ _ _ _ _ _ Hr Ht Ha Hp) as (Eo & Hle & _).
  unfold ld_raw. rewrite Eo. unfold ld_p, aread, loaded, at_offset. cbn [x_phys]. mstep.
  pose proof (spans_page _ _ Hs Hsp). pose proof (tp_ram _ _ _ _ _ _ _ _ _ Ht). pose proof (Z.mod_pos_bound addr 4096 ltac:(lia)).
  rewrite decide_True by lia. done.
Qed.

(** A hit. *)
Lemma read_hit s g m u e k addr :
  coherent s g m -> is_u32 addr -> te_at (tlb_table s) u (tlb_index addr) = Some e -> tlb_hit addr (read_tag k e) = true ->
  exists x, tag_page s g m u false (tlb_index addr) e (page_of addr) x /\ read_tag k e = page_of addr /\
    translate g m addr = Some (at_offset (addr mod 4096) x) /\ mmu_outcome g m addr u false = Filled.
Proof using Type.
  intros [Hr _ _ Hte] Ha He Hhit. destruct (tag_read _ _ _ _ _ _ k (Hte _ _ _ He)) as [E|(va & x & Ht & Htag)].
  - by rewrite E, hit_invalid in Hhit.
  - rewrite (tag_hit _ _ _ _ _ _ _ _ _ _ _ Ht Htag) in Hhit. apply Z.eqb_eq in Hhit.
    destruct Htag as [Htag|[? _]]; [|done]. subst va. exists x.
    destruct (host_offset _ _ _ _ _ _ _ _ _ _ Hr Ht Ha eq_refl) as (_ & _ & Ex).
    split; [done|]. split; [done|]. split; [done|]. unfold mmu_outcome. rewrite Ex, permitted_offset.
    by rewrite (tp_ok _ _ _ _ _ _ _ _ _ Ht).
Qed.

Lemma ld_hit s g m u e k shift addr n :
  coherent s g m -> is_u32 addr -> te_at (tlb_table s) u (tlb_index addr) = Some e -> tlb_hit addr (read_tag k e) = true ->
  0 <= shift <= 3 -> spans shift addr = false ->
  slow_ld g (S n) k shift u addr s = Ok (load_result g m s shift u addr) s /\
  ld_mmu g (S n) k shift u addr s = Ok (load_result g m s shift u addr) s.
Proof using Type.
  intros Hc Ha He Hhit Hs Hsp. destruct (read_hit _ _ _ _ _ _ _ Hc Ha He Hhit) as (x & Ht & Htag & Ex & Eo).
  destruct Hc as [Hr _ _ _]. pose proof (raw_load _ _ _ _ _ _ _ _ _ _ _ Hr Ht Ha eq_refl Hs Hsp) as El.
  unfold load_result. rewrite Eo, Ex. cbn [fmap option_fmap option_map default slow_ld ld_mmu].
  rewrite !(bind_ok _ _ _ _ _ (te_at_get _ _ _ _ He)), Hhit, Hsp, Htag, page_off_mod, page_of_mod by done.
  cbn [Z.eqb negb]. rewrite !(bind_ok _ _ _ _ _ El). done.
Qed.

Lemma load_result_same g m m' s shift u addr : same_tables m m' -> load_result g m' s shift u addr = load_result g m s shift u addr.
Proof using Type.
  intros H. unfold load_result. assert (translate g m' addr = translate g m addr) as -> by (by rewrite H).
  by assert (mmu_outcome g m' addr u false = mmu_outcome g m addr u false) as -> by (by rewrite H).
Qed.

(** Tables change by walks. *)
Definition walk_step g m m' : Prop := exists a u w, m' = walked g m a u w.
Lemma walks_same g m m' : rtc (walk_step g) m m' -> same_tables m m'.
Proof using Type.
  induction 1 as [m|m1 m2 m3 (a & u & w & ->) _ IH]; [reflexivity|]. rewrite <- IH. apply walked_same.
Qed.

(** What an access leaves of the rest of the state. *)
Record kept s s' g m (m' : Z -> Z) : Prop := Kept {
  k_coherent : coherent s' g m';
  k_walks : rtc (walk_step g) m m';
  k_len : length (phys_ram s') = length (phys_ram s);
  k_map : l1_phys_map s' = l1_phys_map s;
  k_dirty : phys_ram_dirty s' = phys_ram_dirty s;
  k_io : io_mem s' = io_mem s
}.
Lemma kept_refl s g m : coherent s g m -> kept s s g m m.
Proof using Type. intros H. split; [done|apply rtc_refl|done..]. Qed.
Lemma k_same s s' g m m' : kept s s' g m m' -> same_tables m m'.
Proof using Type. intros [_ H _ _ _ _]. by apply (walks_same g). Qed.

Lemma fill_kept s g m addr w1 u :
  let w := negb (Z.land w1 1 =? 0) in
  regs_ok g -> coherent s g m -> mapped_in s g m addr ->
  exists s' m', kept s s' g m m' /\
    tlb_fill g addr w1 u s = Ok (match mmu_outcome g m addr u w with Filled => Hit tt | Faulted a c => PageFault a c end) s' /\
    (mmu_outcome g m addr u w = Filled ->
     exists e, te_at (tlb_table s') u (tlb_index addr) = Some e /\ addr_read e = page_of addr /\ addr_code e = page_of addr /\
       (w = true -> addr_write e <> u32 (-1))).
Proof using Type.
  intros w Hg Hc Hm. destruct (fill_ok s g m addr w1 u Hg Hc Hm) as (s' & E & ? & ? & ? & ? & ? & He).
  exists s', (walked g m addr u w). split; [split; try done; apply rtc_once; by exists addr, u, w|]. split; [|done]. unfold tlb_fill. rewrite (bind_ok _ _ _ _ _ E). fold w.
  by destruct (mmu_outcome g m addr u w).
Qed.

Lemma kind_reads k : negb (Z.land (read_access_type k) 1 =? 0) = false.
Proof using Type. by destruct k. Qed.

Lemma page_hit addr : is_u32 addr -> tlb_hit addr (page_of addr) = true.
Proof using Type. intros Ha. unfold tlb_hit. rewrite land_page; [apply Z.eqb_refl|by apply page_of_range|by apply page_of_mod]. Qed.

Lemma ld_page s g m u k shift addr n :
  regs_ok g -> coherent s g m -> mapped_in s g m addr -> 0 <= shift <= 3 -> spans shift addr = false ->
  exists s' m', kept s s' g m m' /\
    slow_ld g (S (S n)) k shift u addr s = Ok (load_result g m s' shift u addr) s' /\
    ld_mmu g (S (S n)) k shift u addr s = Ok (load_result g m s' shift u addr) s'.
Proof using Type.
  intros Hg Hc Hm Hs Hsp. pose proof (mi_addr _ _ _ _ Hm) as Ha.
  destruct (te_at_some s u (tlb_index addr) (co_shape _ _ _ Hc) (tlb_index_range addr)) as [e He].
  destruct (tlb_hit addr (read_tag k e)) eqn:Hhit.
  { exists s, m. split; [by apply kept_refl|]. by apply (ld_hit s g m u e). }
  destruct (fill_kept s g m addr (read_access_type k) u Hg Hc Hm) as (s' & m' & Hk & Ef & Hfe). rewrite kind_reads in *.
  exists s', m'. split; [done|]. pose proof (k_same _ _ _ _ _ Hk) as Hsame. destruct Hk as [Hc' _ _ _ _ _].
  remember (S n) as n1 eqn:En. cbn [slow_ld ld_mmu]. rewrite !(bind_ok _ _ _ _ _ (te_at_get _ _ _ _ He)), Hhit.
  unfold fbind. rewrite !(bind_ok _ _ _ _ _ Ef). unfold load_result at 1 2. destruct (mmu_outcome g m addr u false) eqn:Eo; [|done].
  destruct (Hfe eq_refl) as (e' & He' & Er & Ec & _). subst n1.
  assert (tlb_hit addr (read_tag k e') = true) as Hhit' by (destruct k; cbn [read_tag]; rewrite ?Er, ?Ec; by apply page_hit).
  destruct (ld_hit s' g m' u e' k shift addr n Hc' Ha He' Hhit' Hs Hsp) as [-> ->].
  rewrite (load_result_same g m m') by done. unfold load_result. by rewrite Eo.
Qed.

(** * Loads that span two pages *)

(** The start of the page after that of [addr]. *)
Definition next_page (addr : Z) : Z := u32 (page_of addr + 4096).

Lemma shift_cases shift : 0 <= shift <= 3 -> shift = 0 \/ shift = 1 \/ shift = 2 \/ shift = 3.
Proof using Type. lia. Qed.

Lemma data_masks shift : 0 <= shift <= 3 ->
  u32 (Z.lnot (data_size shift - 1)) = 2 ^ 32 - 2 ^ shift /\ data_size shift = 2 ^ shift /\ 2 ^ shift - 1 = Z.ones shift /\
  (2 ^ shift = 1 \/ 2 ^ shift = 2 \/ 2 ^ shift = 4 \/ 2 ^ shift = 8).
Proof using Type. intros Hs. destruct (shift_cases _ Hs) as [-> | [-> | [-> | ->]]]; vm_compute; tauto. Qed.

Lemma span_addrs shift addr :
  0 <= shift <= 3 -> is_u32 addr -> spans shift addr = true ->
  let n := data_size shift in
  let addr1 := Z.land addr (u32 (Z.lnot (n - 1))) in
  is_u32 addr1 /\ page_of addr1 = page_of addr /\ spans shift addr1 = false /\ u32 (addr1 + n) = next_page addr /\
  spans shift (next_page addr) = false /\ Z.land addr (n - 1) = addr - addr1 /\
  addr1 mod 4096 = 4096 - n /\ 0 < addr - addr1 < n /\ is_u32 (next_page addr) /\ next_page addr mod 4096 = 0.
Proof using Type.
  intros Hs Ha Hsp n addr1. unfold next_page.
  assert (addr1 = addr - addr mod n /\ Z.land addr (n - 1) = addr mod n /\ (n = 1 \/ n = 2 \/ n = 4 \/ n = 8)) as (E1 & El & Hn).
  { unfold addr1, n. destruct (data_masks shift Hs) as (-> & -> & Eo & Hn). rewrite Eo, land_top, Z.land_ones by (done || lia).
    split; [|done]. pose proof (Z.div_mod addr (2 ^ shift)). lia. }
  unfold spans in *. fold n in Hsp |- *. rewrite !page_off_mod in *. unfold TARGET_PAGE_SIZE in *. apply Z.leb_le in Hsp.
  rewrite !Z.leb_gt, El. clearbody addr1. subst addr1. unfold is_u32 in Ha.
  assert (is_u32 (addr - addr mod n)) as Hu by (unfold is_u32; destruct Hn as [-> | [-> | [-> | ->]]]; Z.div_mod_to_equations; lia).
  assert ((addr - addr mod n) mod 4096 = 4096 - n /\ addr mod n <> 0) as [Em Hnz]
    by (destruct Hn as [-> | [-> | [-> | ->]]]; Z.div_mod_to_equations; lia).
  assert (page_of (addr - addr mod n) = page_of addr) as Ep.
  { rewrite !page_of_sub by done. destruct Hn as [-> | [-> | [-> | ->]]]; Z.div_mod_to_equations; lia. }
  assert (u32 (page_of addr + 4096) mod 4096 = 0) as Enm by (rewrite page_of_sub by done; int_lia).
  assert (page_of addr = addr - addr mod n - (4096 - n)) as Ep2 by (rewrite <- Ep, page_of_sub by done; lia).
  split; [done|]. split; [done|]. split; [lia|]. split; [rewrite Ep2; f_equal; lia|]. split; [lia|].
  pose proof (Z.mod_pos_bound addr n ltac:(lia)). do 3 (split; [lia|]). split; [apply u32_range|done].
Qed.

(** The physical address of a virtual one, and the bytes of an access: those of its
    page from the memory [s1], those of the next page from [s2]. *)
Definition phys g m (addr : Z) : Z := default 0 (x_phys <$> translate g m addr).
Definition access_bytes g m s1 s2 (n : nat) (addr : Z) : list Z :=
  let f := Nat.min n (Z.to_nat (4096 - addr mod 4096)) in
  take f (drop (Z.to_nat (phys g m addr)) (phys_ram s1)) ++
  take (n - f) (drop (Z.to_nat (phys g m (next_page addr))) (phys_ram s2)).
(** The outcome of a load: the fault of its page or of the next one, or the value
    of the bytes. *)
Definition load_outcome g m s1 s2 (shift : Z) (u : bool) (addr : Z) : maccess Z :=
  match mmu_outcome g m addr u false with
  | Faulted a c => PageFault a c
  | Filled =>
      match (if spans shift addr then mmu_outcome g m (next_page addr) u false else Filled) with
      | Faulted a c => PageFault a c
      | Filled => Hit (le_val (access_bytes g m s1 s2 (data_bytes shift) addr))
      end
  end.

Lemma load_result_outcome g m s1 s2 shift u addr :
  0 <= shift <= 3 -> spans shift addr = false -> load_result g m s1 shift u addr = load_outcome g m s1 s2 shift u addr.
Proof using Type.
  intros Hs Hsp. unfold load_result, load_outcome. rewrite Hsp. destruct (mmu_outcome _ _ _ _ _); [|done].
  pose proof (spans_page _ _ Hs Hsp). unfold access_bytes, loaded, phys. rewrite Nat.min_l by lia.
  by rewrite Nat.sub_diag, take_0, app_nil_r.
Qed.

Lemma bytes_at s pa n : ram0 s -> Forall is_u8 (take n (drop pa (phys_ram s))).
Proof using Type. intros [_ H]. by apply Forall_take, Forall_drop. Qed.

Lemma tlb_index_same a b : is_u32 a -> is_u32 b -> page_of a = page_of b -> tlb_index a = tlb_index b.
Proof using Type. intros Ha Hb E. by rewrite <- (tlb_index_page a), <- (tlb_index_page b), E. Qed.

Lemma span_value s s' g m shift addr addr1 pa1 :
  let n := data_size shift in
  ram0 s -> ram0 s' -> 0 <= shift <= 3 -> is_u32 addr -> addr1 mod 4096 = 4096 - n -> 0 < addr - addr1 < n -> page_of addr1 = page_of addr ->
  is_u32 addr1 -> phys g m addr = pa1 + (addr - addr1) -> 0 <= pa1 -> pa1 + n <= Z.of_nat (length (phys_ram s)) ->
  0 <= phys g m (next_page addr) -> phys g m (next_page addr) + n <= Z.of_nat (length (phys_ram s')) ->
  data_cast shift (Z.lor (Z.shiftr (loaded s shift pa1) ((addr - addr1) * 8))
                         (Z.shiftl (loaded s' shift (phys g m (next_page addr))) (n * 8 - (addr - addr1) * 8))) =
    le_val (access_bytes g m s s' (data_bytes shift) addr).
Proof using Type.
  intros n H H' Hs Ha Em Hk Ep Ha1 Epa Hp1 Hl1 Hp2 Hl2. set (pa2 := phys g m (next_page addr)) in *.
  assert (Z.of_nat (data_bytes shift) = n) as EN.
  { unfold data_bytes. fold n. apply Z2Nat.id. lia. }
  set (N := data_bytes shift) in *. set (kk := Z.to_nat (addr - addr1)).
  unfold data_cast, loaded. fold n N. rewrite <- EN. replace (addr - addr1) with (Z.of_nat kk) by lia.
  rewrite le_val_splice; [|by apply bytes_at|by apply bytes_at|rewrite length_take, length_drop; lia..|lia].
  unfold access_bytes. f_equal. rewrite !page_of_sub in Ep by done.
  assert (Nat.min N (Z.to_nat (4096 - addr mod 4096)) = (N - kk)%nat) as -> by lia. f_equal.
  - rewrite skipn_firstn_comm, drop_drop. do 2 f_equal. lia.
  - rewrite take_take. do 2 f_equal. lia.
Qed.

Lemma slow_ld_span s g m u e k shift addr n :
  regs_ok g -> coherent s g m -> is_u32 addr -> mapped_in s g m (next_page addr) ->
  te_at (tlb_table s) u (tlb_index addr) = Some e -> tlb_hit addr (read_tag k e) = true ->
  0 <= shift <= 3 -> spans shift addr = true ->
  exists s' m', kept s s' g m m' /\ slow_ld g (S (S (S n))) k shift u addr s = Ok (load_outcome g m s s' shift u addr) s'.
Proof using Type.
  intros Hg Hc Ha Hm2 He Hhit Hs Hsp.
  destruct (span_addrs shift addr Hs Ha Hsp) as (Ha1 & Ep1 & Hsp1 & Ea2 & Hsp2 & El & Em1 & Hk & Ha2 & Em2).
  set (n0 := data_size shift) in *. set (addr1 := Z.land addr (u32 (Z.lnot (n0 - 1)))) in *.
  destruct (read_hit _ _ _ _ _ _ _ Hc Ha He Hhit) as (x & Ht & Htag & Ex & Eo).
  assert (te_at (tlb_table s) u (tlb_index addr1) = Some e) as He1 by (by rewrite (tlb_index_same addr1 addr)).
  assert (tlb_hit addr1 (read_tag k e) = true) as Hhit1 by (unfold tlb_hit in *; by rewrite Ep1).
  destruct (ld_hit s g m u e k shift addr1 (S n) Hc Ha1 He1 Hhit1 Hs Hsp1) as [E1 _].
  destruct (ld_page s g m u k shift (next_page addr) n Hg Hc Hm2 Hs Hsp2) as (s' & m' & Hkept & E2 & _).
  exists s', m'. split; [done|]. remember (S (S n)) as n2. cbn [slow_ld].
  rewrite (bind_ok _ _ _ _ _ (te_at_get _ _ _ _ He)), Hhit, Hsp, Htag, page_off_mod, page_of_mod by done.
  change (negb (0 =? 0)) with false. cbv iota. fold n0 addr1. rewrite Ea2.
  unfold fbind at 1. rewrite (bind_ok _ _ _ _ _ E1).
  assert (translate g m addr1 = Some (at_offset (addr1 mod 4096) x)) as Ex1.
  { destruct (host_offset _ _ _ _ _ _ _ _ _ _ (co_ram _ _ _ Hc) Ht Ha1 Ep1) as (_ & _ & ?). done. }
  assert (load_result g m s shift u addr1 = Hit (loaded s shift (x_phys x + addr1 mod 4096))) as ->.
  { unfold load_result, mmu_outcome. rewrite Ex1, permitted_offset, (tp_ok _ _ _ _ _ _ _ _ _ Ht). done. }
  unfold fbind. rewrite (bind_ok _ _ _ _ _ E2). unfold load_outcome. rewrite Eo, Hsp. unfold load_result.
  destruct (mmu_outcome g m (next_page addr) u false) eqn:Eo2; [|done].
  unfold ret. do 2 f_equal. rewrite El. destruct Hc as [Hr _ _ _].
  destruct (host_offset _ _ _ _ _ _ _ _ _ _ Hr Ht Ha eq_refl) as (_ & Hle & _).
  pose proof (tp_ram _ _ _ _ _ _ _ _ _ Ht). pose proof (Z.mod_pos_bound addr1 4096 ltac:(lia)).
  assert (exists x2, translate g m (next_page addr) = Some x2) as [x2 Ex2].
  { unfold mmu_outcome in Eo2. destruct (translate g m (next_page addr)); [eauto|done]. }
  pose proof (mi_page _ _ _ _ Hm2 _ Ex2) as Hin2. rewrite Em2 in Hin2.
  pose proof (x_phys_page _ _ _ _ Ha2 Ex2) as Hxp. rewrite Em2, Z.sub_0_r in Hxp.
  destruct (ram_pages s _ Hr Hxp Hin2) as [Hle2 _].
  assert (phys g m (next_page addr) = x_phys x2) as Eph by (unfold phys; by rewrite Ex2).
  assert (n0 <= 8) by (unfold n0; destruct (data_masks shift Hs) as (_ & -> & _ & ?); lia).
  apply span_value; try done; rewrite ?Eph, ?(k_len _ _ _ _ _ Hkept); try (unfold n0 in *; lia).
  - apply (co_ram _ _ _ (k_coherent _ _ _ _ _ Hkept)).
  - unfold phys. rewrite Ex. unfold at_offset. cbn. pose proof (page_of_sub addr Ha). pose proof (page_of_sub addr1 Ha1). lia.
Qed.

Lemma kept_trans s1 s2 s3 g m1 m2 m3 : kept s1 s2 g m1 m2 -> kept s2 s3 g m2 m3 -> kept s1 s3 g m1 m3.
Proof using Type.
  intros [? H1 ? ? ? ?] [? H2 ? ? ? ?]. split; try congruence. by etransitivity.
Qed.

Lemma mapped_kept s s' g m m' addr : kept s s' g m m' -> mapped_in s g m addr -> mapped_in s' g m' addr.
Proof using Type.
  intros Hk [Ha Ht Hp]. pose proof (k_same _ _ _ _ _ Hk) as Hs. destruct Hk as [_ _ El _ _ _]. split; [done| |].
  - by apply (tables_in_same s _ _ m).
  - intros x. rewrite <- Hs, El. apply Hp.
Qed.

Lemma load_outcome_same g m m' s1 s2 shift u addr :
  same_tables m m' -> load_outcome g m' s1 s2 shift u addr = load_outcome g m s1 s2 shift u addr.
Proof using Type.
  intros H. assert (forall a, translate g m' a = translate g m a) as E by (intros a; by rewrite H).
  unfold load_outcome, access_bytes, phys, mmu_outcome. by rewrite !E.
Qed.

Lemma ld_mmu_ok s g m u k shift addr n :
  regs_ok g -> coherent s g m -> mapped_in s g m addr -> (spans shift addr = true -> mapped_in s g m (next_page addr)) ->
  0 <= shift <= 3 ->
  exists s1 s' m1 m', kept s s1 g m m1 /\ kept s1 s' g m1 m' /\
    ld_mmu g (S (S (S (S (S n))))) k shift u addr s = Ok (load_outcome g m s1 s' shift u addr) s'.
Proof using Type.
  intros Hg Hc Hm Hm2 Hs. destruct (spans shift addr) eqn:Hsp.
  2: { destruct (ld_page s g m u k shift addr (S (S (S n))) Hg Hc Hm Hs Hsp) as (s' & m' & Hk & _ & E).
       exists s', s', m', m'. split; [done|]. split; [apply kept_refl, Hk|]. by rewrite E, (load_result_outcome _ _ _ s'). }
  specialize (Hm2 eq_refl). pose proof (mi_addr _ _ _ _ Hm) as Ha.
  assert (forall s m e n, coherent s g m -> mapped_in s g m (next_page addr) -> te_at (tlb_table s) u (tlb_index addr) = Some e ->
    tlb_hit addr (read_tag k e) = true ->
    exists s' m', kept s s' g m m' /\ ld_mmu g (S (S (S (S n)))) k shift u addr s = Ok (load_outcome g m s s' shift u addr) s') as Hhit.
  { clear - Hg Ha Hs Hsp. intros s m e n Hc Hm2 He Hhit.
    destruct (slow_ld_span s g m u e k shift addr n) as (s' & m' & Hk & E); try done.
    exists s', m'. split; [done|]. remember (S (S (S n))) as n3. cbn [ld_mmu].
    destruct (read_hit _ _ _ _ _ _ _ Hc Ha He Hhit) as (x & _ & Htag & _ & _).
    by rewrite (bind_ok _ _ _ _ _ (te_at_get _ _ _ _ He)), Hhit, Hsp, Htag, page_off_mod, page_of_mod. }
  destruct (te_at_some s u (tlb_index addr) (co_shape _ _ _ Hc) (tlb_index_range addr)) as [e He].
  destruct (tlb_hit addr (read_tag k e)) eqn:Hh.
  { destruct (Hhit s m e (S n) Hc Hm2 He Hh) as (s' & m' & Hk & E). exists s, s', m, m'. split; [by apply kept_refl|done]. }
  destruct (fill_kept s g m addr (read_access_type k) u Hg Hc Hm) as (s1 & m1 & Hk1 & Ef & Hfe). rewrite kind_reads in *.
  assert (ld_mmu g (S (S (S (S (S n))))) k shift u addr s =
    match mmu_outcome g m addr u false with
    | Filled => ld_mmu g (S (S (S (S n)))) k shift u addr s1 | Faulted a c => Ok (PageFault a c) s1 end) as ->.
  { remember (S (S (S (S n)))) as n4. cbn [ld_mmu]. rewrite (bind_ok _ _ _ _ _ (te_at_get _ _ _ _ He)), Hh.
    unfold fbind. rewrite (bind_ok _ _ _ _ _ Ef). by destruct (mmu_outcome g m addr u false). }
  destruct (mmu_outcome g m addr u false) as [|a c] eqn:Eo.
  - destruct (Hfe eq_refl) as (e1 & He1 & Er & Ec & _).
    destruct (Hhit s1 m1 e1 n) as (s' & m' & Hk & E).
    + apply Hk1.
    + by apply (mapped_kept s _ _ m).
    + done.
    + destruct k; cbn [read_tag]; rewrite ?Er, ?Ec; by apply page_hit.
    + exists s1, s', m1, m'. split; [done|]. split; [done|]. rewrite E. by rewrite (load_outcome_same g m m1) by (by eapply k_same).
  - exists s1, s1, m1, m1. split; [done|]. split; [apply kept_refl, Hk1|]. unfold load_outcome. by rewrite Eo.
Qed.

(** The inline test succeeds for a page in the cache and an aligned address. *)
Lemma inline_test shift addr tag va : 0 <= shift <= 3 -> is_u32 addr -> is_u32 va -> va mod 4096 = 0 ->
  tag = va \/ tag = Z.lor va IO_MEM_NOTDIRTY \/ tag = u32 (-1) ->
  tag = Z.land addr (Z.lor TARGET_PAGE_MASK (data_size shift - 1)) -> tag = va /\ page_of addr = va /\ spans shift addr = false.
Proof using Type.
  intros Hs Ha Hv Hvm Htag E. destruct (data_masks shift Hs) as (_ & Ed & Eo & Hn).
  assert (forall b, Z.testbit tag b = Z.testbit addr b && (Z.testbit TARGET_PAGE_MASK b || Z.testbit (data_size shift - 1) b)) as Hb.
  { intros b. rewrite E, Z.land_spec, Z.lor_spec. done. }
  assert (Z.testbit (data_size shift - 1) 3 = false /\ Z.testbit (data_size shift - 1) 6 = false) as [B3 B6]
    by (rewrite Ed; destruct Hn as [-> | [-> | [-> | ->]]]; done).
  destruct Htag as [Ht|[Ht|Ht]].
  - split; [done|]. rewrite Z.land_lor_distr_r in E. fold (page_of addr) in E. rewrite Ed, Eo, Z.land_ones in E by lia.
    pose proof (page_of_mod addr Ha) as Hpm. pose proof (page_of_range addr Ha) as Hpr.
    assert (page_of addr = Z.shiftl (page_of addr / 4096) 12) as Esh.
    { rewrite Z.shiftl_mul_pow2 by lia. change (2 ^ 12) with 4096. Z.div_mod_to_equations; lia. }
    pose proof (Z.mod_pos_bound addr (2 ^ shift) ltac:(lia)) as Hmb.
    rewrite Esh, lor_shiftl_add in E by (change (2 ^ 12) with 4096; lia). rewrite <- Z.shiftl_mul_pow2, <- Esh in E by lia.
    assert (addr mod 2 ^ shift = 0) as Hz by (rewrite Ht in E; Z.div_mod_to_equations; lia).
    split; [lia|]. unfold spans. rewrite page_off_mod, Ed. unfold TARGET_PAGE_SIZE. apply Z.leb_gt.
    destruct Hn as [Hn|[Hn|[Hn|Hn]]]; rewrite Hn in *; Z.div_mod_to_equations; lia.
  - exfalso. specialize (Hb 6). rewrite B6, Ht, Z.lor_spec in Hb. change (Z.testbit IO_MEM_NOTDIRTY 6) with true in Hb.
    change (Z.testbit TARGET_PAGE_MASK 6) with false in Hb. by rewrite orb_true_r, andb_false_r in Hb.
  - exfalso. specialize (Hb 3). rewrite B3, Ht in Hb. change (Z.testbit TARGET_PAGE_MASK 3) with false in Hb.
    by rewrite andb_false_r in Hb.
Qed.

Lemma ld_inline_ok s g m u k shift addr n :
  regs_ok g -> coherent s g m -> mapped_in s g m addr -> (spans shift addr = true -> mapped_in s g m (next_page addr)) ->
  0 <= shift <= 3 ->
  exists s1 s' m1 m', kept s s1 g m m1 /\ kept s1 s' g m1 m' /\
    ld_inline g (S (S (S (S (S n))))) k shift u addr s = Ok (load_outcome g m s1 s' shift u addr) s'.
Proof using Type.
  intros Hg Hc Hm Hm2 Hs. pose proof (mi_addr _ _ _ _ Hm) as Ha.
  destruct (te_at_some s u (tlb_index addr) (co_shape _ _ _ Hc) (tlb_index_range addr)) as [e He].
  unfold ld_inline. rewrite (bind_ok _ _ _ _ _ (te_at_get _ _ _ _ He)).
  destruct (Z.eqb_spec (read_tag k e) (Z.land addr (Z.lor TARGET_PAGE_MASK (data_size shift - 1)))) as [E|E]; cbn [negb];
    [|by apply ld_mmu_ok].
  exists s, s, m, m. split; [by apply kept_refl|]. split; [by apply kept_refl|].
  destruct (tag_read _ _ _ _ _ _ k (co_te _ _ _ Hc _ _ _ He)) as [Ei|(va & x & Ht & [Htag|[? _]])]; [| |done].
  - destruct (inline_test shift addr (read_tag k e) 0 Hs Ha) as (E0 & _); try done; [tauto|]. rewrite E0 in Ei. done.
  - destruct (tp_va _ _ _ _ _ _ _ _ _ Ht) as [Hv Hvm].
    destruct (inline_test shift addr (read_tag k e) va Hs Ha Hv Hvm) as (_ & Hp & Hsp); [tauto|done|].
    rewrite (bind_ok _ _ _ _ _ (raw_load _ _ _ _ _ _ _ _ _ _ _ (co_ram _ _ _ Hc) Ht Ha Hp Hs Hsp)).
    destruct (host_offset _ _ _ _ _ _ _ _ _ _ (co_ram _ _ _ Hc) Ht Ha Hp) as (_ & _ & Ex).
    rewrite <- (load_result_outcome g m s s) by done. unfold load_result, mmu_outcome.
    rewrite Ex, permitted_offset, (tp_ok _ _ _ _ _ _ _ _ _ Ht). done.
Qed.
End Tlb.
