(* ===== verification/SoftAccess.v ===== *)
(** The processor's view of memory: loads through the cache of translations, the
    flushes that keep the cache true to the page tables, and stores. *)
From S2P Require Import Prelude Layout PhysMem PhysRam X86Mmu X86Walk X86Page SoftMmu SoftTlb.

(** * Loads *)

(** A load as translated code makes it, whose fuel is enough for the fills of both
    pages and for the halves of an unaligned access. *)
Definition cpu_load {D} `{!Devices D} `{!HostRam} (g : paging) (k : read_kind) (shift : Z) (u : bool) (addr : Z) : M (vmem D) (maccess Z) :=
  ld_inline g 5 k shift u addr.

(** C14: a load of 1, 2, 4 or 8 bytes at any address returns the value of the bytes
    that the page tables lead to, byte order and page boundaries included, or ends
    in the page fault of the first page that is missing or forbidden; whether the
    translations were in the cache or not.  The cache stays true to the tables,
    of which walks set accessed bits only. *)
Theorem load_translates {D} `{!Devices D} `{!HostRam} (s : vmem D) g k shift u addr :
  regs_ok g -> coherent s g (dw s) -> mapped_in s g (dw s) addr ->
  (spans shift addr = true -> mapped_in s g (dw s) (next_page addr)) -> 0 <= shift <= 3 ->
  exists s1 s' m1 m', kept s s1 g (dw s) m1 /\ kept s1 s' g m1 m' /\
    cpu_load g k shift u addr s = Ok (load_outcome g (dw s) s1 s' shift u addr) s'.
Proof. intros. by apply ld_inline_ok. Qed.

(** * Flushes *)

Section Flush.
Context {D : Type} {DD : Devices D} {HR : HostRam}.
Implicit Types (s : vmem D) (m : Z -> Z).

Lemma te_at_map f t u i : te_at (map (map f) t) u i = f <$> te_at t u i.
Proof using Type.
  unfold te_at. rewrite list_lookup_fmap. destruct (t !! Nat.b2n u) as [l|]; [|done]. cbn [fmap option_fmap option_map mbind option_bind].
  unfold aget. case_decide; [|done]. apply list_lookup_fmap.
Qed.

Lemma tlb_shape_map f t : tlb_shape t -> tlb_shape (map (map f) t).
Proof using Type.
  intros [H1 H2]. split; [by rewrite length_map|]. apply Forall_map. eapply Forall_impl; [exact H2|]. intros l Hl. cbn. by rewrite length_map.
Qed.

Lemma no_entry_ok s g m u i e : te_ok s g m u i (no_entry e).
Proof using Type. unfold te_ok, no_entry. cbn. repeat split; by left. Qed.

(** A flush of everything makes the cache true to whatever tables memory holds. *)
Lemma flush_coherent s g :
  ram0 s -> tlb_shape (tlb_table s) -> exists s', tlb_flush s = Ok tt s' /\ coherent s' g (dw s) /\ phys_ram s' = phys_ram s.
Proof using Type.
  intros Hr Hs. eexists. split; [reflexivity|]. split; [|done]. split; [by apply ram0_tlb|done|by apply tlb_shape_map|].
  intros u i e He. cbn [tlb_table set_tlb] in He. rewrite te_at_map in He.
  destruct (te_at (tlb_table s) u i); [|done]. injection He as <-. apply no_entry_ok.
Qed.

Lemma upd_te_ok s u i f :
  tlb_shape (tlb_table s) -> 0 <= i < 256 ->
  exists t, upd_te (Z.b2z u) i f s = Ok tt (set_tlb t s) /\ tlb_shape t /\
    forall u' i', te_at t u' i' = (if decide (u' = u /\ i' = i) then f else id) <$> te_at (tlb_table s) u' i'.
Proof using Type.
  intros Hs Hi. destruct (te_at_some s u i Hs Hi) as [e He]. destruct (set_te_ok s u i (f e) Hs Hi) as (t & E & Ht & Hte).
  exists t. split; [|split; [done|]].
  - unfold upd_te. by rewrite (bind_ok _ _ _ _ _ (te_at_get _ _ _ _ He)).
  - intros u' i'. rewrite Hte. case_decide as Hd; [destruct Hd as [-> ->]; by rewrite He|]. by destruct (te_at (tlb_table s) u' i').
Qed.

(** The same change of the entry of both tables. *)
Lemma upd_both_ok s i f :
  tlb_shape (tlb_table s) -> 0 <= i < 256 ->
  exists t, (upd_te 0 i f ;;; upd_te 1 i f) s = Ok tt (set_tlb t s) /\ tlb_shape t /\
    forall u i', te_at t u i' = (if decide (i' = i) then f else id) <$> te_at (tlb_table s) u i'.
Proof using Type.
  intros Hs Hi. destruct (upd_te_ok s false i f Hs Hi) as (t1 & E1 & H1 & T1).
  destruct (upd_te_ok (set_tlb t1 s) true i f H1 Hi) as (t2 & E2 & H2 & T2).
  exists t2. change 0 with (Z.b2z false) at 1. rewrite (bind_ok _ _ _ _ _ E1). split; [exact E2|]. split; [done|].
  intros u i'. rewrite T2. cbn [tlb_table set_tlb]. rewrite T1. destruct (te_at (tlb_table s) u i'); [|by repeat case_decide].
  destruct u; repeat case_decide; cbn; try done; exfalso; intuition congruence.
Qed.

(** An entry with none of its tags for the page. *)
Lemma unmatched_tag s g m u w i e va x tag addr :
  is_u32 addr -> tag_page s g m u w i e va x -> tag = va \/ w = true /\ tag = Z.lor va IO_MEM_NOTDIRTY ->
  (page_of addr =? Z.land tag (Z.lor TARGET_PAGE_MASK TLB_INVALID_MASK)) = false -> va <> page_of addr.
Proof using Type.
  intros Ha Ht Htag Hn ->. fold (tlb_hit addr tag) in Hn. rewrite (tag_hit _ _ _ _ _ _ _ _ _ _ _ Ht Htag) in Hn.
  by rewrite Z.eqb_refl in Hn.
Qed.

(** The tables [m'] lead all pages but that of [addr] where [m] does. *)
Definition remapped s g m m' (addr : Z) : Prop :=
  forall va, is_u32 va -> va mod 4096 = 0 -> va <> page_of addr ->
    translate g m' va = translate g m va /\ (tables_in s g m va -> tables_in s g m' va).

Lemma tag_ok_remapped s s' g m m' u w i e tag addr :
  remapped s' g m m' addr -> length (phys_ram s') = length (phys_ram s) -> is_u32 addr ->
  tag_ok s g m u w i e tag ->
  (page_of addr =? Z.land tag (Z.lor TARGET_PAGE_MASK TLB_INVALID_MASK)) = false \/ i <> tlb_index addr ->
  tag_ok s' g m' u w i e tag.
Proof using Type.
  intros Hm El Ha [->|(va & x & Ht & Htag)] Hne; [by left|]. right. exists va, x. split; [|done].
  assert (va <> page_of addr) as Hva.
  { destruct Hne as [Hne|Hne]; [by eapply unmatched_tag|]. intros ->. apply Hne.
    rewrite <- (tp_index _ _ _ _ _ _ _ _ _ Ht). by apply tlb_index_page. }
  destruct Ht as [[Hu Hv] Hi Htab Hx Hp Hin Hadd]. destruct (Hm va Hu Hv Hva) as [Ex Htb]. split; try done.
  - apply Htb. by apply (tables_in_same s _ _ m).
  - by rewrite Ex.
  - by rewrite El.
Qed.

Lemma te_ok_remapped s s' g m m' u i e addr :
  remapped s' g m m' addr -> length (phys_ram s') = length (phys_ram s) -> is_u32 addr ->
  te_ok s g m u i e -> te_ok s' g m' u i (if decide (i = tlb_index addr) then tlb_flush_entry (page_of addr) e else e).
Proof using Type.
  intros Hm El Ha (H1 & H2 & H3 & H4). case_decide as Hi; [|split; [|split; [|split; [|done]]]; eapply tag_ok_remapped; eauto].
  unfold tlb_flush_entry. destruct (_ || _) eqn:E; [apply no_entry_ok|]. apply orb_false_iff in E as [E E3]. apply orb_false_iff in E as [E1 E2].
  split; [|split; [|split; [|done]]]; eapply tag_ok_remapped; eauto.
Qed.

Lemma page_of_page addr : is_u32 addr -> page_of (page_of addr) = page_of addr.
Proof using Type. intros Ha. unfold page_of. by rewrite <- Z.land_assoc, Z.land_diag. Qed.

Lemma flush_page_coherent s s' g m m' addr :
  coherent s g m -> ram0 s' -> holds s' m' -> tlb_table s' = tlb_table s -> length (phys_ram s') = length (phys_ram s) ->
  is_u32 addr -> remapped s' g m m' addr ->
  exists s'', tlb_flush_page addr s' = Ok tt s'' /\ coherent s'' g m' /\ phys_ram s'' = phys_ram s'.
Proof using Type.
  intros [_ _ Hs Hte] Hr Hh Ht El Ha Hm. rewrite <- Ht in Hs.
  destruct (upd_both_ok s' (tlb_index (page_of addr)) (tlb_flush_entry (page_of addr)) Hs (tlb_index_range _)) as (t & E & Hsh & Hta).
  exists (set_tlb t s'). split; [exact E|]. split; [|done]. split; [by apply ram0_tlb|done|done|].
  intros u i e He. cbn [tlb_table set_tlb] in He. rewrite Hta, Ht, tlb_index_page in He by done.
  destruct (te_at (tlb_table s) u i) as [e0|] eqn:E0; [|done]. cbn in He. injection He as He.
  pose proof (te_ok_remapped s s' g m m' u i e0 addr Hm El Ha (Hte _ _ _ E0)) as Hok.
  assert (e = if decide (i = tlb_index addr) then tlb_flush_entry (page_of addr) e0 else e0) as -> by (rewrite <- He; by case_decide).
  destruct Hok as (K1 & K2 & K3 & K4).
  assert (forall w tag e, tag_ok s' g m' u w i e tag -> tag_ok (set_tlb t s') g m' u w i e tag) as Hset.
  { intros w tag e1 [->|(va & x & [] & Htag)]; [by left|]. right. exists va, x. split; [by split|done]. }
  split; [|split; [|split; [|done]]]; by apply Hset.
Qed.
End Flush.

(** C17: flushing one page is enough after its translation changed: when memory holds
    new tables that lead every other page where the old ones did,
    [tlb_flush_page] makes the cache true to the new tables; so does a flush of
    everything, whatever changed. *)
Theorem flush_restores_coherence {D} `{!Devices D} `{!HostRam} (s s' : vmem D) g m addr :
  coherent s g m -> ram0 s' -> tlb_table s' = tlb_table s -> length (phys_ram s') = length (phys_ram s) ->
  is_u32 addr ->
  (exists s2, tlb_flush s' = Ok tt s2 /\ coherent s2 g (dw s')) /\
  (remapped s' g m (dw s') addr -> exists s2, tlb_flush_page addr s' = Ok tt s2 /\ coherent s2 g (dw s')).
Proof.
  intros Hc Hr Ht El Ha. split.
  - destruct (flush_coherent s' g) as (s2 & E & Hc2 & _); [done|rewrite Ht; apply Hc|]. eauto.
  - intros Hm. destruct (flush_page_coherent s s' g m (dw s') addr) as (s2 & E & Hc2 & _); try done. eauto.
Qed.

(** * Demonstration *)

Lemma demo_coherent : coherent demo_tables demo_regs (dw demo_tables).
Proof.
  split; [apply demo_ram0|done| |].
  - vm_compute. split; [reflexivity|]. repeat constructor.
  - intros u i e He. assert (tlb_table demo_tables = replicate 2 (replicate 256 (no_entry (Te 0 0 0 0)))) as E by (vm_compute; reflexivity).
    rewrite E in He. unfold te_at in He. rewrite lookup_replicate_2 in He by (destruct u; cbn; lia).
    cbn [mbind option_bind] in He. apply aget_inv in He as [_ He]. apply lookup_replicate_1 in He as [-> _]. apply no_entry_ok.
Qed.

Lemma demo_regs_ok : regs_ok demo_regs.
Proof. split; [unfold is_u32; cbn; lia|reflexivity..]. Qed.

Lemma demo_mapped : mapped_in demo_tables demo_regs (dw demo_tables) 0x405123.
Proof. destruct demo_page. by split. Qed.

Lemma load_translates_witness :
  exists s1 s' m1 m', kept demo_tables s1 demo_regs (dw demo_tables) m1 /\ kept s1 s' demo_regs m1 m' /\
    cpu_load demo_regs DataRead 2 true 0x405123 demo_tables = Ok (Hit 77) s'.
Proof.
  destruct (load_translates demo_tables demo_regs DataRead 2 true 0x405123) as (s1 & s' & m1 & m' & K1 & K2 & E).
  - apply demo_regs_ok.
  - apply demo_coherent.
  - apply demo_mapped.
  - vm_compute. discriminate.
  - lia.
  - exists s1, s', m1, m'. split; [exact K1|]. split; [exact K2|].
    assert (match cpu_load demo_regs DataRead 2 true 0x405123 demo_tables with Ok r _ => r = Hit 77 | Err _ => False end) as H.
    { vm_compute. reflexivity. }
    rewrite E in *. by rewrite H.
Defined.

(** The tables of the demonstration with another page for 0x405000. *)
Definition demo_remapped : vmem unit :=
  match stl_phys_notdirty 0x2014 0x1005 demo_tables with Ok _ s => s | Err _ => demo_tables end.

Lemma demo_remapped_holds :
  length (phys_ram demo_remapped) = length (phys_ram demo_tables) /\ ram0 demo_remapped /\
  tlb_table demo_remapped = tlb_table demo_tables /\
  holds demo_remapped (fun b => if decide (b = 0x2014) then 0x1005 else dw demo_tables b).
Proof.
  unfold demo_remapped. assert (0x2014 + 4 <= Z.of_nat (length (phys_ram demo_tables))) as Hl by (vm_compute; discriminate).
  destruct (stl_phys_ok demo_tables (dw demo_tables) 0x2014 0x1005) as (r & E & El & Hr & Hm).
  - apply demo_ram0.
  - done.
  - reflexivity.
  - lia.
  - exact Hl.
  - unfold is_u32. lia.
  - rewrite E. split; [exact El|]. split; [exact Hr|]. split; [reflexivity|exact Hm].
Qed.

(** The directory of the demonstration. *)
Lemma demo_pdes k : 0 <= k < 1024 -> dw demo_tables (0x1000 + k * 4) = if k =? 1 then 0x2007 else if k =? 2 then 0x83 else 0.
Proof.
  intros Hk. assert (Forall (fun k => dw demo_tables (0x1000 + k * 4) = if k =? 1 then 0x2007 else if k =? 2 then 0x83 else 0) (seqZ 0 1024)) as H.
  { apply (bool_decide_unpack _). vm_compute. exact I. }
  rewrite Forall_forall in H. apply H, elem_of_seqZ. lia.
Qed.

Lemma demo_index va : is_u32 va -> va mod 4096 = 0 -> va <> 0x405000 -> 0 <= va / 2 ^ 22 < 1024 /\
  (va / 2 ^ 22 = 1 -> pte_at 0x2007 va <> 0x2014) /\ pte_at 0x2007 va mod 4 = 0 /\ 0 <= pte_at 0x2007 va /\ pte_at 0x2007 va + 4 <= 16384.
Proof.
  unfold is_u32, pte_at. change (0x2007 / 4096 * 4096) with 0x2000. change (2 ^ 22) with 4194304. intros Hu Hv Hne.
  pose proof (Z.mod_pos_bound (va / 4096) 1024 ltac:(lia)). repeat split; Z.div_mod_to_equations; lia.
Qed.

(** Another entry for 0x405000 in tables like those of the demonstration. *)
Lemma remap_entry {D} (s : vmem D) g m m' v :
  cr3 g = 0x1000 -> Z.of_nat (length (phys_ram s)) = 16384 ->
  (forall k, 0 <= k < 1024 -> m (0x1000 + k * 4) = if k =? 1 then 0x2007 else if k =? 2 then 0x83 else 0) ->
  (forall b, b mod 4 = 0 -> 0 <= b -> b + 4 <= 16384 -> m' b = if decide (b = 0x2014) then v else m b) ->
  remapped s g m m' 0x405123.
Proof.
  intros Hc El Hm Hm' va Hu Hv Hne. change (page_of 0x405123) with 0x405000 in Hne.
  destruct (demo_index va Hu Hv Hne) as (Hk & Hpt & Hal & Hp0 & Hpl).
  assert (pde_at g va = 0x1000 + va / 2 ^ 22 * 4) as Epd by (unfold pde_at; by rewrite Hc).
  assert (m' (pde_at g va) = m (pde_at g va)) as Ed.
  { rewrite Hm', decide_False; [done| |apply pde_at_aligned|..]; rewrite Epd; lia. }
  pose proof (Hm _ Hk) as Ep. rewrite <- Epd in Ep. split; [|unfold tables_in; by rewrite Ed].
  unfold translate. rewrite Ed. destruct (Z.eqb_spec (va / 2 ^ 22) 1) as [E1|].
  - rewrite Ep. assert (m' (pte_at 0x2007 va) = m (pte_at 0x2007 va)) as ->; [|done].
    rewrite Hm' by done. apply decide_False. by apply Hpt.
  - destruct (va / 2 ^ 22 =? 2); rewrite Ep; [|done]. unfold is_large. change (Z.testbit 0x83 7) with true.
    destruct (Z.testbit (cr4 g) 4); [done|]. cbn [andb negb]. change (Z.testbit 0x83 0) with true. cbn [negb].
    assert (m' (pte_at 0x83 va) = m (pte_at 0x83 va)) as ->; [|done].
    unfold pte_at. change (0x83 / 4096 * 4096) with 0. pose proof (Z.mod_pos_bound (va / 4096) 1024 ltac:(lia)).
    rewrite Hm' by (Z.div_mod_to_equations; lia). apply decide_False. lia.
Qed.

Lemma demo_remap : remapped demo_remapped demo_regs (dw demo_tables) (dw demo_remapped) 0x405123.
Proof.
  destruct demo_remapped_holds as (El & _ & _ & Hm).
  assert (Z.of_nat (length (phys_ram demo_remapped)) = 16384) as Elen by (rewrite El; vm_compute; reflexivity).
  apply (remap_entry _ _ _ _ 0x1005); [reflexivity|exact Elen|exact demo_pdes|]. rewrite <- Elen. exact Hm.
Qed.

Lemma flush_restores_coherence_witness :
  (exists s2, tlb_flush demo_remapped = Ok tt s2 /\ coherent s2 demo_regs (dw demo_remapped)) /\
  (exists s2, tlb_flush_page 0x405123 demo_remapped = Ok tt s2 /\ coherent s2 demo_regs (dw demo_remapped)).
Proof.
  destruct demo_remapped_holds as (El & Hr & Et & _).
  destruct (flush_restores_coherence demo_tables demo_remapped demo_regs (dw demo_tables) 0x405123) as [H1 H2].
  - apply demo_coherent.
  - exact Hr.
  - exact Et.
  - exact El.
  - unfold is_u32. lia.
  - split; [exact H1|]. apply H2, demo_remap.
Defined.

(** [cpu_x86_flush_tlb], the instruction invlpg, flushes the 4 KB page only: after
    the 4 MB page of 0x801000 was taken away and flushed at 0x800000, a load still
    finds it. *)
Definition stale_large_page : M (vmem unit) (maccess Z * maccess Z) :=
  r1 <- cpu_load demo_regs DataRead 0 false 0x801004 ;;
  stl_phys_notdirty 0x1008 0 ;;;
  tlb_flush_page 0x800000 ;;;
  r2 <- cpu_load demo_regs DataRead 0 false 0x801004 ;;
  ret (r1, r2).

Lemma invlpg_keeps_large_page :
  match stale_large_page demo_tables with
  | Ok r s => r = (Hit 7, Hit 7) /\ translate demo_regs (dw s) 0x801004 = None
  | Err _ => False
  end.
Proof. vm_compute. split; reflexivity. Qed.
