(* ===== verification/SoftStore.v ===== *)
(** Stores through the cache of translations: the bytes reach the page that the
    tables lead to, through the watch on clean pages too, and are read back. *)
From S2P Require Import Prelude Layout PhysMem PhysRam X86Mmu X86Walk X86Page SoftMmu SoftTlb SoftAccess.

Lemma le_bytes_cons n v : le_bytes 1 (u8 v) ++ le_bytes n (Z.shiftr v 8) = le_bytes (S n) v.
Proof. cbn [le_bytes app]. rewrite Z.shiftr_div_pow2 by lia. f_equal. unfold u8. apply Z.mod_mod. lia. Qed.

Lemma le_bytes_mod n v : le_bytes n (v mod 256 ^ Z.of_nat n) = le_bytes n v.
Proof.
  pose proof (le_bytes_val (le_bytes n v) (le_bytes_u8 n v)) as H. by rewrite length_le_bytes, le_val_bytes in H.
Qed.

Lemma le_bytes_app n k v : le_bytes n v ++ le_bytes k (v / 256 ^ Z.of_nat n) = le_bytes (n + k) v.
Proof.
  revert v. induction n as [|n IH]; intros v; cbn [le_bytes app Nat.add]; [by rewrite Z.div_1_r|]. rewrite <- IH. do 2 f_equal.
  rewrite Z.div_div by lia. do 2 f_equal. rewrite Nat2Z.inj_succ, Z.pow_succ_r by lia. done.
Qed.

Lemma le_bytes_8 v : le_bytes 4 (u32 v) ++ le_bytes 4 (Z.shiftr v 32) = le_bytes 8 v.
Proof.
  rewrite <- (le_bytes_app 4 4). f_equal; [apply (le_bytes_mod 4)|]. by rewrite Z.shiftr_div_pow2.
Qed.

Section Store.
Context {D : Type} {DD : Devices D} {HR : HostRam}.
Implicit Types (s : vmem D) (m : Z -> Z).

(** * A page in the cache *)

(** The callbacks of [io_mem_init] watch clean pages. *)
Definition watched (io : list io_zone) : Prop :=
  exists z, aget io 4 = Some z /\ z_write z = [WNotDirty 1; WNotDirty 2; WNotDirty 4].

(** The page [va] is in the cache for reading and writing, at physical [pa]. *)
Record live s (u : bool) (va pa : Z) : Prop := Live {
  lv_ram : ram0 s;
  lv_shape : tlb_shape (tlb_table s);
  lv_io : watched (io_mem s);
  lv_va : is_u32 va /\ va mod 4096 = 0;
  lv_pa : 0 <= pa /\ pa mod 4096 = 0 /\ pa + 4096 <= Z.of_nat (length (phys_ram s));
  lv_te : exists e, te_at (tlb_table s) u (tlb_index va) = Some e /\ addr_read e = va /\
            addend e = u32 (phys_ram_base + pa - va) /\ (addr_write e = va \/ addr_write e = Z.lor va IO_MEM_NOTDIRTY)
}.

Lemma ram0_moved s r d v : ram0 s -> length r = length (phys_ram s) -> length d = length (phys_ram_dirty s) -> Forall is_u8 r ->
  ram0 (moved s r d v).
Proof using Type.
  intros [HL _] Er Ed Hu. split; [|done].
  pose proof (linear_moved _ _ _ _ r d v 0 HL Er Ed) as H. rewrite Z.add_0_r, Z.sub_0_r in H. cbn [phys_ram moved set_ram]. rewrite Er. apply H. lia.
Qed.

Lemma awrite_u8 l a bs r : awrite l a bs = Some r -> Forall is_u8 l -> Forall is_u8 bs -> Forall is_u8 r.
Proof using Type.
  unfold awrite. case_decide; [|done]. intros [= <-] Hl Hb.
  apply Forall_app; split; [by apply Forall_take|]. apply Forall_app; split; [done|by apply Forall_drop].
Qed.

Lemma live_moved s u va pa r d v t w :
  live s u va pa -> length r = length (phys_ram s) -> length d = length (phys_ram_dirty s) -> Forall is_u8 r -> tlb_shape t ->
  (exists e, te_at t u (tlb_index va) = Some e /\ addr_read e = va /\
     addend e = u32 (phys_ram_base + pa - va) /\ (addr_write e = va \/ addr_write e = Z.lor va IO_MEM_NOTDIRTY)) ->
  live (set_tlb t (set_mwv w (moved s r d v))) u va pa.
Proof using Type.
  intros [Hr Hs Hi Hv Hp _] Er Ed Hu Ht He. split; try done; [|by cbn [phys_ram set_tlb set_mwv moved set_ram]; rewrite Er].
  pose proof (ram0_moved s r d v Hr Er Ed Hu) as H. apply ram0_tlb. destruct H as [[? ? ? ? ? ?] ?]. split; [|done]. by split.
Qed.

(** * The watch on clean pages *)

Lemma dirty_get s a : 0 <= a < Z.of_nat (length (phys_ram_dirty s)) * 4096 ->
  exists x, dirty_at a s = Ok x s /\ forall y, exists d, set_dirty_at a y s = Ok tt (set_dirty d s) /\ length d = length (phys_ram_dirty s).
Proof using Type.
  intros Ha. assert (0 <= Z.shiftr a 12 < Z.of_nat (length (phys_ram_dirty s))) as Hi.
  { rewrite Z.shiftr_div_pow2 by lia. change (2 ^ 12) with 4096. Z.div_mod_to_equations; lia. }
  destruct (aget_Some _ _ Hi) as [x Hx]. exists x. unfold dirty_at, set_dirty_at, TARGET_PAGE_BITS. split.
  - mstep. by rewrite Hx.
  - intros y. eexists. mstep. rewrite aset_Some by done. msome eq_refl. split; [done|]. apply length_insert.
Qed.

(** The flags before the store, after code of the page was dropped. *)
Lemma flags_ok s a len : 0 <= a < Z.of_nat (length (phys_ram_dirty s)) * 4096 ->
  exists x d v, length d = length (phys_ram_dirty s) /\
    (dirty_flags <- dirty_at a ;;
     (if Z.land dirty_flags CODE_DIRTY_FLAG =? 0 then tb_invalidate_phys_page_fast a len ;;; dirty_at a else ret dirty_flags)) s
    = Ok x (set_dirty d (set_devs v s)).
Proof using Type.
  intros Ha. destruct (dirty_get s a Ha) as (x & E & _). rewrite (bind_ok _ _ _ _ _ E).
  destruct (Z.land x CODE_DIRTY_FLAG =? 0).
  2: { exists x, (phys_ram_dirty s), (devs s). split; [done|]. by destruct s. }
  unfold tb_invalidate_phys_page_fast. mstep. mstep. destruct (tb_invalidate_fast a len (devs s)) as [nc v]. mstep. mstep.
  assert (0 <= a < Z.of_nat (length (phys_ram_dirty (set_devs v s))) * 4096) as Ha' by done.
  destruct (dirty_get (set_devs v s) a Ha') as (y & Ey & Hset). destruct nc.
  - unfold tlb_unprotect_code_phys. mstep. rewrite (bind_ok _ _ _ _ _ Ey). destruct (Hset (Z.lor y CODE_DIRTY_FLAG)) as (d & Ed & Eld).
    rewrite (bind_ok _ _ _ _ _ Ed).
    destruct (dirty_get (set_dirty d (set_devs v s)) a) as (z & Ez & _); [cbn [phys_ram_dirty set_dirty]; by rewrite Eld|].
    exists z, d, v. by rewrite Ez.
  - mstep. exists y, (phys_ram_dirty s), v. split; [done|]. rewrite Ey. by destruct s.
Qed.

Lemma set_dirty1_keeps start e : addr_read (tlb_set_dirty1 start e) = addr_read e /\ addend (tlb_set_dirty1 start e) = addend e /\
  (addr_write (tlb_set_dirty1 start e) = addr_write e \/
   page_off (addr_write e) = IO_MEM_NOTDIRTY /\ addr_write (tlb_set_dirty1 start e) = page_of (addr_write e)).
Proof using Type.
  unfold tlb_set_dirty1. destruct (Z.eqb_spec (page_off (addr_write e)) IO_MEM_NOTDIRTY); [|by auto].
  destruct (_ =? start); [|by auto]. cbn. unfold IO_MEM_RAM. rewrite Z.lor_0_r. auto.
Qed.

Lemma page_of_notdirty va : is_u32 va -> va mod 4096 = 0 -> page_of (Z.lor va IO_MEM_NOTDIRTY) = va /\ page_of va = va.
Proof using Type.
  intros Hu Hm. assert (page_of va = va) as E by (rewrite page_of_sub, Hm by done; lia). split; [|done].
  unfold page_of in *. rewrite Z.land_lor_distr_l, E. apply Z.lor_0_r.
Qed.

Lemma notdirty_ok s u va pa off len v :
  live s u va pa -> 0 <= off -> off + Z.of_nat len <= 4096 -> (0 < len)%nat ->
  exists s', notdirty_mem_write len (u32 (phys_ram_base + pa + off)) v s = Ok tt s' /\ live s' u va pa /\
    awrite (phys_ram s) (pa + off) (le_bytes len v) = Some (phys_ram s').
Proof using Type.
  intros Hlv Ho Hl Hlen. pose proof Hlv as [[[_ Hd H32 _ _ _] Hb] Hs _ [Hvu Hvm] (Hp0 & Hpm & Hpl) (e & He & Her & Hea & Hew)].
  unfold notdirty_mem_write.
  assert (u32 (u32 (phys_ram_base + pa + off) - phys_ram_base) = pa + off) as ->.
  { unfold u32. rewrite Zminus_mod_idemp_l. replace (phys_ram_base + pa + off - phys_ram_base) with (pa + off) by lia. apply Z.mod_small. lia. }
  destruct (flags_ok s (pa + off) (Z.of_nat len)) as (x & d & dv & Ed & Ex); [lia|]. rewrite <- bind_assoc, (bind_ok _ _ _ _ _ Ex).
  destruct (awrite_Some (phys_ram s) (pa + off) (le_bytes len v)) as [r Er]; [lia|rewrite length_le_bytes; lia|].
  pose proof (length_awrite _ _ _ _ Er) as Elr. pose proof (awrite_u8 _ _ _ _ Er Hb (le_bytes_u8 _ _)) as Hru.
  unfold st_p, memcpy_to. mstep. mstep. cbn [phys_ram set_dirty set_devs]. rewrite bind_assoc. msome Er. mstep.
  fold (moved s r d dv).
  destruct (dirty_get (moved s r d dv) (pa + off)) as (_ & _ & Hset); [cbn [phys_ram_dirty moved set_ram set_dirty]; rewrite Ed; lia|].
  destruct (Hset (Z.lor x (Z.land 0xff (Z.lnot CODE_DIRTY_FLAG)))) as (d' & Ed' & Eld). rewrite (bind_ok _ _ _ _ _ Ed'). mstep.
  cbn [phys_ram_dirty moved set_ram set_dirty] in Eld. rewrite Ed in Eld. change (set_dirty d' (moved s r d dv)) with (moved s r d' dv).
  destruct (_ =? 0xff).
  - unfold tlb_set_dirty. cbn [mem_write_vaddr moved set_ram set_dirty set_devs].
    destruct (upd_both_ok (moved s r d' dv) (tlb_index (mem_write_vaddr s))
      (tlb_set_dirty1 (page_of (u32 (phys_ram_base + pa + off))))) as (t & Et & Ht & Hta); [done|apply tlb_index_range|].
    exists (set_tlb t (moved s r d' dv)). split; [exact Et|]. split; [|done].
    apply (live_moved s u va pa r d' dv t (mem_write_vaddr s)); try done.
    cbn [tlb_table moved set_ram set_dirty set_devs] in Hta. rewrite Hta, He. cbn [fmap option_fmap option_map]. eexists. split; [done|].
    case_decide; [|done]. destruct (set_dirty1_keeps (page_of (u32 (phys_ram_base + pa + off))) e) as (-> & -> & Hw). split; [done|]. split; [done|].
    destruct (page_of_notdirty va Hvu Hvm) as [P1 P2].
    destruct Hw as [-> | [_ ->]]; [done|]. left. destruct Hew as [-> | ->]; done.
  - exists (moved s r d' dv). split; [done|]. split; [|done].
    apply (live_moved s u va pa r d' dv (tlb_table s) (mem_write_vaddr s)); try done. eauto.
Qed.

(** * Stores to a page in the cache *)

(** A store of [bs] at an offset of the page. *)
Definition stores s s' (u : bool) (va pa off : Z) (bs : list Z) : Prop :=
  live s' u va pa /\ awrite (phys_ram s) (pa + off) bs = Some (phys_ram s').

Lemma stores_app s1 s2 s3 u va pa off b1 b2 :
  stores s1 s2 u va pa off b1 -> stores s2 s3 u va pa (off + Z.of_nat (length b1)) b2 -> stores s1 s3 u va pa off (b1 ++ b2).
Proof using Type.
  intros [_ E1] [H E2]. split; [done|]. apply (awrite_app _ _ _ _ _ _ E1). rewrite <- E2. f_equal. lia.
Qed.

Lemma live_offset s u va pa addr e :
  live s u va pa -> is_u32 addr -> page_of addr = va -> addend e = u32 (phys_ram_base + pa - va) ->
  u32 (addr + addend e) = u32 (phys_ram_base + pa + addr mod 4096) /\
  u32 (u32 (addr + addend e) - phys_ram_base) = pa + addr mod 4096.
Proof using Type.
  intros [[[_ _ H32 _ _ _] _] _ _ _ (Hp0 & _ & Hpl) _] Ha Hp ->. rewrite page_of_sub in Hp by done.
  pose proof (Z.mod_pos_bound addr 4096 ltac:(lia)).
  assert (u32 (addr + u32 (phys_ram_base + pa - va)) = u32 (phys_ram_base + pa + addr mod 4096)) as ->.
  { unfold u32. rewrite Zplus_mod_idemp_r. f_equal. lia. }
  split; [done|]. unfold u32. rewrite Zminus_mod_idemp_l.
  replace (phys_ram_base + pa + addr mod 4096 - phys_ram_base) with (pa + addr mod 4096) by lia. apply Z.mod_small. lia.
Qed.

Lemma raw_store s u va pa shift addr val e :
  live s u va pa -> is_u32 addr -> page_of addr = va -> addend e = u32 (phys_ram_base + pa - va) ->
  0 <= shift <= 3 -> spans shift addr = false ->
  exists s', st_raw shift (u32 (addr + addend e)) val s = Ok tt s' /\
    stores s s' u va pa (addr mod 4096) (le_bytes (data_bytes shift) val).
Proof using Type.
  intros Hlv Ha Hp Hadd Hs Hsp. destruct (live_offset s u va pa addr e Hlv Ha Hp Hadd) as [_ Eo].
  pose proof (spans_page _ _ Hs Hsp) as Hsz. pose proof (Z.mod_pos_bound addr 4096 ltac:(lia)).
  pose proof Hlv as [[_ Hb] Hsh _ _ (Hp0 & _ & Hpl) He].
  destruct (awrite_Some (phys_ram s) (pa + addr mod 4096) (le_bytes (data_bytes shift) val)) as [r Er]; [lia|rewrite length_le_bytes; lia|].
  exists (set_ram r s). unfold st_raw, st_p, memcpy_to. rewrite Eo. mstep. msome Er. split; [done|]. split; [|done].
  pose proof (live_moved s u va pa r (phys_ram_dirty s) (devs s) (tlb_table s) (mem_write_vaddr s) Hlv) as H'.
  destruct s. apply H'; try done; [by eapply length_awrite|]. eapply awrite_u8; [done..|]. apply le_bytes_u8.
Qed.

Lemma live_mwv s u va pa w : live s u va pa -> live (set_mwv w s) u va pa.
Proof using Type.
  intros Hlv. pose proof Hlv as [[_ Hb] Hsh _ _ _ He].
  pose proof (live_moved s u va pa (phys_ram s) (phys_ram_dirty s) (devs s) (tlb_table s) w Hlv) as H'. destruct s. by apply H'.
Qed.

Lemma watched_call s io_idx shift addr val :
  watched (io_mem s) -> io_idx = 4 -> 0 <= shift <= 2 ->
  call_write io_idx shift addr val s = notdirty_mem_write (data_bytes shift) addr val s.
Proof using Type.
  intros (z & Hz & Hw) -> Hs. unfold call_write. mstep. msome Hz. rewrite Hw.
  assert (shift = 0 \/ shift = 1 \/ shift = 2) as [-> | [-> | ->]] by lia; reflexivity.
Qed.

(** An aligned store to a clean page. *)
Lemma io_store s u va pa shift addr val e :
  live s u va pa -> is_u32 addr -> page_of addr = va -> addend e = u32 (phys_ram_base + pa - va) ->
  0 <= shift <= 3 -> spans shift addr = false ->
  exists s', io_write shift (u32 (addr + addend e)) val (Z.lor va IO_MEM_NOTDIRTY) s = Ok tt s' /\
    stores s s' u va pa (addr mod 4096) (le_bytes (data_bytes shift) val).
Proof using Type.
  intros Hlv Ha Hp Hadd Hs Hsp. destruct (live_offset s u va pa addr e Hlv Ha Hp Hadd) as [-> _].
  pose proof (spans_page _ _ Hs Hsp) as Hsz. pose proof (Z.mod_pos_bound addr 4096 ltac:(lia)) as Hmod.
  destruct (lor_notdirty va) as (_ & _ & Ei); [apply Hlv..|].
  unfold io_write. rewrite Ei. mstep. set (s0 := set_mwv (Z.lor va IO_MEM_NOTDIRTY) s).
  assert (live s0 u va pa) as Hl0 by (by apply live_mwv).
  destruct (Z.leb_spec shift 2) as [H2|H2].
  - rewrite watched_call by (done || lia || apply Hl0).
    destruct (notdirty_ok s0 u va pa (addr mod 4096) (data_bytes shift) val) as (s' & E & Hl' & Er); try done; [lia..| |].
    + unfold data_bytes, data_size. assert (shift = 0 \/ shift = 1 \/ shift = 2) as [-> | [-> | ->]] by lia; vm_compute; lia.
    + exists s'. split; [done|]. by split.
  - assert (shift = 3) as -> by lia. change (Z.of_nat (data_bytes 3)) with 8 in Hsz.
    destruct (notdirty_ok s0 u va pa (addr mod 4096) 4 (u32 val)) as (s1 & E1 & Hl1 & Er1); try done; [lia..|].
    destruct (notdirty_ok s1 u va pa (addr mod 4096 + 4) 4 (Z.shiftr val 32)) as (s2 & E2 & Hl2 & Er2); try done; [lia..|].
    exists s2. assert (call_write 4 2 (u32 (phys_ram_base + pa + addr mod 4096)) (u32 val) s0 = Ok tt s1) as C1
      by (rewrite watched_call; [exact E1|apply Hl0|done|lia]).
    rewrite (bind_ok _ _ _ _ _ C1). rewrite watched_call by (done || lia || apply Hl1). split.
    + rewrite <- E2. f_equal. unfold u32. rewrite Zplus_mod_idemp_l. f_equal. lia.
    + change (data_bytes 3) with 8%nat. rewrite <- le_bytes_8. apply (stores_app s s1); split; try done.
Qed.

Lemma live_entry s u va pa addr :
  live s u va pa -> is_u32 addr -> page_of addr = va ->
  exists e, get_te (Z.b2z u) (tlb_index addr) s = Ok e s /\ addr_read e = va /\ addend e = u32 (phys_ram_base + pa - va) /\
    (addr_write e = va \/ addr_write e = Z.lor va IO_MEM_NOTDIRTY) /\
    tlb_hit addr (addr_read e) = true /\ tlb_hit addr (addr_write e) = true /\
    page_off va = 0 /\ page_off (Z.lor va IO_MEM_NOTDIRTY) = IO_MEM_NOTDIRTY.
Proof using Type.
  intros [_ _ _ [Hu Hm] _ (e & He & Her & Hea & Hew)] Ha Hp. exists e.
  destruct (lor_notdirty va Hu Hm) as (E1 & E2 & _).
  rewrite <- Hp, tlb_index_page in He by done. split; [by apply te_at_get|]. do 3 (split; [done|]). unfold tlb_hit. rewrite Her, Hp, land_page by done.
  split; [apply Z.eqb_refl|]. split; [|split; [by rewrite page_off_mod|done]].
  destruct Hew as [-> | ->]; rewrite ?land_page, ?E1 by done; apply Z.eqb_refl.
Qed.

Lemma st_byte s g u va pa addr val n :
  live s u va pa -> is_u32 addr -> page_of addr = va ->
  exists s', slow_st g (S n) 0 u addr val s = Ok (Hit tt) s' /\ stores s s' u va pa (addr mod 4096) (le_bytes 1 val).
Proof using Type.
  intros Hlv Ha Hp. destruct (live_entry s u va pa addr Hlv Ha Hp) as (e & Eg & Her & Hea & Hew & _ & Hhit & P0 & P1).
  assert (spans 0 addr = false) as Hsp.
  { unfold spans. rewrite page_off_mod. pose proof (Z.mod_pos_bound addr 4096 ltac:(lia)). apply Z.leb_gt. unfold TARGET_PAGE_SIZE. change (data_size 0) with 1. lia. }
  cbn [slow_st]. rewrite (bind_ok _ _ _ _ _ Eg), Hhit, Hsp. destruct Hew as [-> | ->].
  - rewrite P0. cbn [Z.eqb negb]. destruct (raw_store s u va pa 0 addr val e) as (s' & E & Hst); try done.
    exists s'. by rewrite (bind_ok _ _ _ _ _ E).
  - rewrite P1. change (negb (IO_MEM_NOTDIRTY =? 0)) with true. cbv iota.
    assert (unaligned 0 addr = false) as -> by (unfold unaligned; change (data_size 0 - 1) with 0; by rewrite Z.land_0_r).
    destruct (io_store s u va pa 0 addr val e) as (s' & E & Hst); try done. exists s'. by rewrite (bind_ok _ _ _ _ _ E).
Qed.

Lemma st_bytes_ok g u va pa n c : forall s addr val,
  live s u va pa -> is_u32 addr -> page_of addr = va -> addr mod 4096 + Z.of_nat c <= 4096 ->
  exists s', st_bytes (slow_st g (S n) 0 u) c addr val s = Ok (Hit tt) s' /\ stores s s' u va pa (addr mod 4096) (le_bytes c val).
Proof using Type.
  induction c as [|c IH]; intros s addr val Hlv Ha Hp Hc.
  - exists s. split; [done|]. split; [done|]. destruct Hlv as [_ _ _ _ (Hp0 & _ & Hpl) _]. unfold awrite. cbn [length le_bytes app].
    pose proof (Z.mod_pos_bound addr 4096 ltac:(lia)). rewrite decide_True by (cbn; lia). by rewrite Nat.add_0_r, take_drop.
  - destruct (st_byte s g u va pa addr (u8 val) n Hlv Ha Hp) as (s1 & E1 & H1). remember (S n) as n1. cbn [st_bytes]. subst n1.
    unfold fbind. rewrite (bind_ok _ _ _ _ _ E1). rewrite <- le_bytes_cons.
    destruct c as [|c].
    + exists s1. split; [done|]. cbn [le_bytes]. rewrite app_nil_r. exact H1.
    + assert (addr + 1 < 2 ^ 32 /\ (addr + 1) mod 4096 = addr mod 4096 + 1) as [Hlt Emod].
      { unfold is_u32 in Ha. split; Z.div_mod_to_equations; lia. }
      assert (u32 (addr + 1) = addr + 1) as Eu by (apply u32_small; unfold is_u32 in *; lia). rewrite Eu.
      destruct (IH s1 (addr + 1) (Z.shiftr val 8)) as (s2 & E2 & H2); [apply H1|unfold is_u32 in *; lia| |lia|].
      { rewrite !page_of_sub in * by (unfold is_u32 in *; lia). lia. }
      exists s2. split; [exact E2|]. apply (stores_app s s1); [done|]. rewrite Emod in H2. exact H2.
Qed.

Lemma st_live s g u va pa shift addr val n :
  live s u va pa -> is_u32 addr -> page_of addr = va -> 0 <= shift <= 3 -> spans shift addr = false ->
  exists s', slow_st g (S (S n)) shift u addr val s = Ok (Hit tt) s' /\ st_mmu g (S (S (S n))) shift u addr val s = Ok (Hit tt) s' /\
    stores s s' u va pa (addr mod 4096) (le_bytes (data_bytes shift) val).
Proof using Type.
  intros Hlv Ha Hp Hs Hsp. destruct (live_entry s u va pa addr Hlv Ha Hp) as (e & Eg & Her & Hea & Hew & _ & Hhit & P0 & P1).
  assert (exists s', slow_st g (S (S n)) shift u addr val s = Ok (Hit tt) s' /\
    stores s s' u va pa (addr mod 4096) (le_bytes (data_bytes shift) val) /\
    (addr_write e = va -> (st_raw shift (u32 (addr + addend e)) val ;;; ret (Hit tt)) s = Ok (Hit tt) s') /\
    (addr_write e <> va -> unaligned shift addr = false ->
     (io_write shift (u32 (addr + addend e)) val (addr_write e) ;;; ret (Hit tt)) s = Ok (Hit tt) s')) as (s' & E & Hst & Hraw & Hio).
  { remember (S n) as n1. cbn [slow_st]. rewrite (bind_ok _ _ _ _ _ Eg), Hhit, Hsp. destruct Hew as [-> | Hew].
    - rewrite P0. cbn [Z.eqb negb]. destruct (raw_store s u va pa shift addr val e) as (s' & E & Hst); try done.
      exists s'. rewrite !(bind_ok _ _ _ _ _ E). done.
    - rewrite Hew, P1. change (negb (IO_MEM_NOTDIRTY =? 0)) with true. cbv iota.
      assert (Z.lor va IO_MEM_NOTDIRTY <> va) as Hne by (intros Eq; rewrite Eq, P0 in P1; done).
      destruct (unaligned shift addr) eqn:Eu.
      + subst n1. destruct (st_bytes_ok g u va pa n (data_bytes shift) s addr val) as (s' & E & Hst); try done; [by apply spans_page|].
        exists s'. done.
      + destruct (io_store s u va pa shift addr val e) as (s' & E & Hst); try done. exists s'. rewrite !(bind_ok _ _ _ _ _ E). done. }
  exists s'. split; [done|]. split; [|done]. remember (S (S n)) as n2. cbn [st_mmu]. rewrite (bind_ok _ _ _ _ _ Eg), Hhit, Hsp.
  destruct Hew as [Hew|Hew]; rewrite Hew in *; rewrite ?P0, ?P1.
  - by apply Hraw.
  - change (negb (IO_MEM_NOTDIRTY =? 0)) with true. cbv iota. destruct (unaligned shift addr); [done|].
    apply Hio; [|done]. intros Eq. by rewrite Eq, P0 in P1.
Qed.

(** * Stores by the page tables *)

(** A tag for writing comes with the tag for reading. *)
Lemma write_hit s g m u e addr :
  coherent s g m -> watched (io_mem s) -> is_u32 addr -> te_at (tlb_table s) u (tlb_index addr) = Some e ->
  tlb_hit addr (addr_write e) = true ->
  exists x, live s u (page_of addr) (x_phys x) /\ translate g m addr = Some (at_offset (addr mod 4096) x) /\
    mmu_outcome g m addr u true = Filled.
Proof using Type.
  intros [Hr _ Hsh Hte] Hio Ha He Hhit. destruct (Hte _ _ _ He) as (H1 & _ & H3 & H4).
  destruct H3 as [E|(va & x & Ht & Htag)]; [by rewrite E, hit_invalid in Hhit|].
  rewrite (tag_hit _ _ _ _ _ _ _ _ _ _ _ Ht Htag) in Hhit. apply Z.eqb_eq in Hhit. subst va. exists x.
  pose proof Ht as [[Hu Hm] _ _ Hx Hok Hin Hadd]. destruct (lor_notdirty _ Hu Hm) as (Q1 & Q2 & _).
  destruct (host_offset _ _ _ _ _ _ _ _ _ _ Hr Ht Ha eq_refl) as (_ & Hle & Ex).
  assert (addr_read e = page_of addr) as Er.
  { assert (addr_write e = page_of addr \/ addr_write e = Z.lor (page_of addr) IO_MEM_NOTDIRTY) as Htag' by tauto. clear Htag.
    assert (tlb_hit addr (u32 (-1)) = false) as Hinv by apply hit_invalid. unfold tlb_hit in Hinv. apply Z.eqb_neq in Hinv.
    assert (forall z, addr_write e = z -> Z.land z (Z.lor TARGET_PAGE_MASK TLB_INVALID_MASK) = page_of addr) as Hz.
    { intros z <-. destruct Htag' as [-> | ->]; [by apply land_page|done]. }
    destruct H1 as [E1|(va1 & x1 & Ht1 & [Htag1|[? _]])]; [| |done].
    - rewrite E1 in H4. destruct H4 as [H4|[H4|H4]]; specialize (Hz _ H4); exfalso; apply Hinv; by rewrite <- Hz.
    - rewrite Htag1 in *. destruct (tp_va _ _ _ _ _ _ _ _ _ Ht1) as [Hu1 Hm1]. destruct (lor_notdirty _ Hu1 Hm1) as (Q1' & _ & _).
      destruct H4 as [H4|[H4|H4]]; specialize (Hz _ H4).
      + exfalso. apply Hinv. by rewrite <- Hz.
      + by rewrite land_page in Hz.
      + by rewrite Q1' in Hz. }
  split; [|split; [done|]].
  - split; try done.
    + pose proof (x_phys_page _ _ _ _ Hu Hx) as Hxp. rewrite Hm, Z.sub_0_r in Hxp. split; [lia|done].
    + exists e. rewrite tlb_index_page by done. split; [done|]. split; [done|]. split; [done|]. tauto.
  - unfold mmu_outcome. by rewrite Ex, permitted_offset, Hok.
Qed.

(** A store, from any cache that is true to the tables: either the page fault of the
    page, or the bytes at the translated address. *)
Lemma st_inline_ok s g m u shift addr val n :
  regs_ok g -> coherent s g m -> mapped_in s g m addr -> watched (io_mem s) -> 0 <= shift <= 3 -> spans shift addr = false ->
  exists s1 m1 s', kept s s1 g m m1 /\
    match mmu_outcome g m addr u true with
    | Faulted a c => st_inline g (S (S (S (S n)))) shift u addr val s = Ok (PageFault a c) s1
    | Filled => st_inline g (S (S (S (S n)))) shift u addr val s = Ok (Hit tt) s' /\
        stores s1 s' u (page_of addr) (phys g m addr - addr mod 4096) (addr mod 4096) (le_bytes (data_bytes shift) val)
    end.
Proof using Type.
  intros Hg Hc Hm Hio Hs Hsp. pose proof (mi_addr _ _ _ _ Hm) as Ha.
  destruct (te_at_some s u (tlb_index addr) (co_shape _ _ _ Hc) (tlb_index_range addr)) as [e He].
  assert (forall x, translate g m addr = Some (at_offset (addr mod 4096) x) -> x_phys x = phys g m addr - addr mod 4096) as Hph.
  { intros x Ex. unfold phys. rewrite Ex. unfold at_offset. cbn. lia. }
  destruct (tlb_hit addr (addr_write e)) eqn:Hhit.
  { destruct (write_hit s g m u e addr Hc Hio Ha He Hhit) as (x & Hlv & Ex & Eo). rewrite Eo. rewrite (Hph x Ex) in Hlv.
    exists s, m. unfold st_inline. rewrite (bind_ok _ _ _ _ _ (te_at_get _ _ _ _ He)). destruct (Z.eqb_spec (addr_write e) (Z.land addr (Z.lor TARGET_PAGE_MASK (data_size shift - 1)))).
    - destruct (live_entry s u _ _ addr Hlv Ha eq_refl) as (e1 & Eg & _ & Hea & _). rewrite (te_at_get _ _ _ _ He) in Eg. injection Eg as <-.
      destruct (raw_store s u (page_of addr) _ shift addr val e Hlv Ha eq_refl Hea Hs Hsp) as (s' & E & Hst).
      exists s'. split; [by apply kept_refl|]. cbn [negb]. by rewrite (bind_ok _ _ _ _ _ E).
    - destruct (st_live s g u (page_of addr) _ shift addr val (S n) Hlv Ha eq_refl Hs Hsp) as (s' & _ & E & Hst).
      exists s'. split; [by apply kept_refl|]. cbn [negb]. done. }
  destruct (fill_kept s g m addr 1 u Hg Hc Hm) as (s1 & m1 & Hk & Ef & Hfe). change (negb (Z.land 1 1 =? 0)) with true in *.
  assert (addr_write e <> Z.land addr (Z.lor TARGET_PAGE_MASK (data_size shift - 1))) as Hne.
  { intros E. destruct (co_te _ _ _ Hc _ _ _ He) as (_ & _ & [Hi|(va & x & Ht & Htag)] & _).
    - destruct (inline_test shift addr (addr_write e) 0 Hs Ha) as (E0 & _); try done; [tauto|]. rewrite E0 in Hi. done.
    - destruct (tp_va _ _ _ _ _ _ _ _ _ Ht) as [Hu Hv].
      destruct (inline_test shift addr (addr_write e) va Hs Ha Hu Hv) as (E1 & Hp & _); [tauto|done|].
      rewrite (tag_hit _ _ _ _ _ _ _ _ _ _ _ Ht Htag), Hp, Z.eqb_refl in Hhit. done. }
  assert (st_inline g (S (S (S (S n)))) shift u addr val s =
    match mmu_outcome g m addr u true with
    | Filled => st_mmu g (S (S (S n))) shift u addr val s1 | Faulted a c => Ok (PageFault a c) s1 end) as Est.
  { unfold st_inline. rewrite (bind_ok _ _ _ _ _ (te_at_get _ _ _ _ He)). rewrite (proj2 (Z.eqb_neq _ _) Hne). cbn [negb].
    remember (S (S (S n))) as n3. cbn [st_mmu]. rewrite (bind_ok _ _ _ _ _ (te_at_get _ _ _ _ He)), Hhit.
    unfold fbind. rewrite (bind_ok _ _ _ _ _ Ef). by destruct (mmu_outcome g m addr u true). }
  exists s1, m1. destruct (mmu_outcome g m addr u true) as [|a c] eqn:Eo; [|by exists s1].
  destruct (Hfe eq_refl) as (e1 & He1 & Er & _ & Hw). specialize (Hw eq_refl).
  destruct (co_te _ _ _ (k_coherent _ _ _ _ _ Hk) _ _ _ He1) as (_ & _ & _ & [?|Hwr]); [done|].
  assert (tlb_hit addr (addr_write e1) = true) as Hh1.
  { rewrite Er in Hwr. unfold tlb_hit. pose proof (page_of_range addr Ha) as Hpr. pose proof (page_of_mod addr Ha) as Hpm.
    destruct Hwr as [-> | ->]; [rewrite land_page by done|rewrite (proj1 (lor_notdirty _ Hpr Hpm))]; apply Z.eqb_refl. }
  destruct (write_hit s1 g m1 u e1 addr) as (x & Hlv & Ex & _); try done; [apply Hk|by rewrite (k_io _ _ _ _ _ Hk)|].
  rewrite <- (k_same _ _ _ _ _ Hk) in Ex. rewrite (Hph x Ex) in Hlv.
  destruct (st_live s1 g u (page_of addr) _ shift addr val n Hlv Ha eq_refl Hs Hsp) as (s' & _ & E & Hst).
  exists s'. split; [done|]. rewrite Est. done.
Qed.

Lemma ld_live s g u va pa shift addr n :
  live s u va pa -> is_u32 addr -> page_of addr = va -> 0 <= shift <= 3 -> spans shift addr = false ->
  ld_inline g (S n) DataRead shift u addr s = Ok (Hit (loaded s shift (pa + addr mod 4096))) s.
Proof using Type.
  intros Hlv Ha Hp Hs Hsp. destruct (live_entry s u va pa addr Hlv Ha Hp) as (e & Eg & Her & Hea & _ & Hhit & _ & P0 & _).
  assert (ld_raw shift (u32 (addr + addend e)) s = Ok (loaded s shift (pa + addr mod 4096)) s) as El.
  { destruct (live_offset s u va pa addr e Hlv Ha Hp Hea) as [_ Eo]. unfold ld_raw. rewrite Eo. unfold ld_p, aread, loaded. mstep.
    pose proof (spans_page _ _ Hs Hsp). destruct (lv_pa _ _ _ _ Hlv) as (? & _ & ?). pose proof (Z.mod_pos_bound addr 4096 ltac:(lia)).
    by rewrite decide_True by lia. }
  unfold ld_inline. rewrite (bind_ok _ _ _ _ _ Eg). destruct (negb _); [|by rewrite (bind_ok _ _ _ _ _ El)].
  cbn [ld_mmu read_tag]. rewrite (bind_ok _ _ _ _ _ Eg), Hhit, Hsp, Her, P0. cbn [Z.eqb negb]. by rewrite (bind_ok _ _ _ _ _ El).
Qed.
End Store.

(** * Theorems *)

(** A store as translated code makes it, and a load of as many bytes from there. *)
Definition cpu_store {D} `{!Devices D} `{!HostRam} (g : paging) (shift : Z) (u : bool) (addr val : Z) : M (vmem D) (maccess unit) :=
  st_inline g 5 shift u addr val.
Definition store_and_load {D} `{!Devices D} `{!HostRam} (g : paging) (shift : Z) (u : bool) (addr val : Z) : M (vmem D) (maccess Z) :=
  fbind (cpu_store g shift u addr val) (fun _ => cpu_load g DataRead shift u addr).

(** C15: a store of 1, 2, 4 or 8 bytes within a page ends in the page fault of its
    page, or puts the bytes at the address that the page tables lead to, lowest
    first, and changes no other byte of memory than the walk does; a load then
    returns the value.  This holds for a page whose writes are watched, aligned or
    not, and even for a store that changes the page tables. *)
Theorem store_reads_back {D} `{!Devices D} `{!HostRam} (s : vmem D) g shift u addr val :
  regs_ok g -> coherent s g (dw s) -> mapped_in s g (dw s) addr -> watched (io_mem s) ->
  0 <= shift <= 3 -> spans shift addr = false ->
  exists s1 m1 s', kept s s1 g (dw s) m1 /\
    match mmu_outcome g (dw s) addr u true with
    | Faulted a c => store_and_load g shift u addr val s = Ok (PageFault a c) s1
    | Filled => store_and_load g shift u addr val s = Ok (Hit (data_cast shift val)) s' /\
        awrite (phys_ram s1) (phys g (dw s) addr) (le_bytes (data_bytes shift) val) = Some (phys_ram s')
    end.
Proof.
  intros Hg Hc Hm Hio Hs Hsp.
  destruct (st_inline_ok s g (dw s) u shift addr val 1 Hg Hc Hm Hio Hs Hsp) as (s1 & m1 & s' & Hk & Ho).
  exists s1, m1, s'. split; [done|]. unfold store_and_load, fbind, cpu_store, cpu_load.
  destruct (mmu_outcome g (dw s) addr u true) as [|a c]; [|by rewrite (bind_ok _ _ _ _ _ Ho)].
  destruct Ho as [E [Hlv Ep]]. rewrite (bind_ok _ _ _ _ _ E).
  rewrite (ld_live s' g u _ _ shift addr 4 Hlv (mi_addr _ _ _ _ Hm) eq_refl Hs Hsp).
  replace (phys g (dw s) addr - addr mod 4096 + addr mod 4096) with (phys g (dw s) addr) in * by lia. split; [|done].
  do 2 f_equal. unfold loaded. pose proof (aread_awrite _ _ _ _ Ep) as Eg. rewrite length_le_bytes in Eg. unfold aread in Eg.
  case_decide; [|done]. injection Eg as ->. rewrite le_val_bytes. unfold data_cast, data_bytes. rewrite Z2Nat.id by (unfold data_size; apply Z.shiftl_nonneg; lia).
  by rewrite Z.pow_mul_r by (unfold data_size; try apply Z.shiftl_nonneg; lia).
Qed.

(** * Demonstration *)

(** The tables of the demonstration with the callbacks of [io_mem_init] and with
    pages that are clean. *)
Definition demo_watched : vmem unit :=
  set_io (<[4%nat := Zone (replicate 3 RNull) [WNotDirty 1; WNotDirty 2; WNotDirty 4] 0]> (io_mem demo_tables)) demo_tables.

(** Callbacks do not matter to coherence. *)
Lemma coherent_io {D} {HR : HostRam} (s : vmem D) g m io : coherent s g m -> coherent (set_io io s) g m.
Proof.
  intros [[[? ? ? ? ? ?] ?] Hh Hs Ht]. split; [split; [by split|done]|exact Hh|exact Hs|].
  intros u i e He. destruct (Ht u i e He) as (H1 & H2 & H3 & H4).
  assert (forall w tag, tag_ok s g m u w i e tag -> tag_ok (set_io io s) g m u w i e tag) as Hset.
  { intros w tag [->|(va & x & [] & Htag)]; [by left|]. right. exists va, x. split; [by split|done]. }
  split; [|split; [|split; [|exact H4]]]; by apply Hset.
Qed.

Lemma demo_watched_coherent : coherent demo_watched demo_regs (dw demo_watched).
Proof. exact (coherent_io demo_tables demo_regs (dw demo_tables) _ demo_coherent). Qed.

Lemma store_reads_back_witness :
  exists s', store_and_load demo_regs 2 false 0x405125 0xdeadbeef demo_watched = Ok (Hit 0xdeadbeef) s' /\
    phys_ram s' !! Z.to_nat 0x3125 = Some 0xef.
Proof.
  destruct (store_reads_back demo_watched demo_regs 2 false 0x405125 0xdeadbeef) as (s1 & m1 & s' & Hk & Ho).
  - apply demo_regs_ok.
  - apply demo_watched_coherent.
  - split; [unfold is_u32; lia| |].
    + split; [vm_compute; split; discriminate|]. intros _ _. vm_compute. split; discriminate.
    + intros x. vm_compute. intros [= <-]. cbn. split; [discriminate|reflexivity].
  - eexists. split; vm_compute; reflexivity.
  - lia.
  - reflexivity.
  - assert (mmu_outcome demo_regs (dw demo_watched) 0x405125 false true = Filled) as E by (vm_compute; reflexivity).
    rewrite E in Ho. destruct Ho as [Ho Hr]. exists s'. split; [exact Ho|].
    rewrite (awrite_lookup _ _ _ _ _ Hr). vm_compute. reflexivity.
Defined.

(** A store across two pages whose second page is missing leaves its first bytes
    in memory: the instruction is not restartable. *)
Lemma spanning_store_is_partial :
  match cpu_store demo_regs 2 false 0x405ffe 0xdeadbeef demo_watched with
  | Ok r s => r = PageFault 0x406000 2 /\ take 2 (drop (Z.to_nat 0x3ffe) (phys_ram s)) = [0xef; 0xbe]
  | Err _ => False
  end.
Proof. vm_compute. split; reflexivity. Qed.
