(* ===== verification/X86Modes.v ===== *)
(** Translation in every mode of the emulated processor, src/sysvm/target-i386/helper2.c:
    paging off, tables of 32-bit entries and tables of 64-bit entries (physical address
    extension), each behind the A20 line.  [lookup] says by arithmetic what the
    registers and the tables give for an address; the page fault handler follows it
    and leaves only such entries in the cache ([cached]). *)
From S2P Require Import Prelude Layout PhysMem PhysRam X86Mmu X86Walk X86Page SoftMmu SoftTlb SoftAccess.

(** * The translation *)

(** The A20 line lets bit 20 of a physical address through, or holds it at 0. *)
Definition gate (g : paging) (x : Z) : Z := if Z.testbit (a20_mask g) 20 then x else Z.clearbit x 20.

(** A page's translation: the physical address of the byte and the rights. *)
Record mapping := Mapping { mp_phys : Z; mp_user : bool; mp_rw : bool; mp_nx : bool }.

(** Where the entries of an address are: in the directory of the 32-bit tables and in a
    table; in the three levels of the 64-bit ones, whose entries are two double words. *)
Definition pde32_at g addr : Z := gate g (cr3 g / 4096 * 4096 + addr / 2 ^ 22 * 4).
Definition pte32_at g pde addr : Z := gate g (pde / 4096 * 4096 + addr / 4096 mod 1024 * 4).
Definition pdpe_at g addr : Z := gate g (cr3 g / 32 * 32 + addr / 2 ^ 30 * 8).
Definition pde64_at g pdpe addr : Z := gate g (pdpe / 4096 * 4096 + addr / 2 ^ 21 mod 512 * 8).
Definition pte64_at g pde addr : Z := gate g (pde / 4096 * 4096 + addr / 4096 mod 512 * 8).

Definition present (e : Z) : bool := Z.testbit e 0.
(** A no-execute bit (bit 31 of the high double word) that EFER.NXE does not allow. *)
Definition reserved (g : paging) (high : Z) : bool := negb (Z.testbit (efer g) 11) && Z.testbit high 31.

(** The mapping of a large page of [2 ^ n] bytes, where the A20 line does not reach the
    offset and so nothing, and of a page of 4096 bytes. *)
Definition large_page (n e high addr : Z) : mapping :=
  Mapping (e / 2 ^ n * 2 ^ n + addr mod 2 ^ n) (Z.testbit e 2) (Z.testbit e 1) (Z.testbit high 31).
Definition small_page (g : paging) (e high d dhigh addr : Z) : mapping :=
  Mapping (gate g (e / 4096 * 4096) + addr mod 4096) (Z.testbit e 2 && Z.testbit d 2) (Z.testbit e 1 && Z.testbit d 1)
    (Z.testbit high 31 || Z.testbit dhigh 31).

Definition lookup32 (g : paging) (m : Z -> Z) (addr : Z) : Z + mapping :=
  let pde := m (pde32_at g addr) in
  if negb (present pde) then inl 0
  else if Z.testbit pde 7 && Z.testbit (cr4 g) 4 then inr (large_page 22 pde 0 addr)
  else
    let pte := m (pte32_at g pde addr) in
    if negb (present pte) then inl 0 else inr (small_page g pte 0 pde 0 addr).

Definition lookup64 (g : paging) (m : Z -> Z) (addr : Z) : Z + mapping :=
  let pdpe := m (pdpe_at g addr) in
  if negb (present pdpe) then inl 0 else
  let pa := pde64_at g pdpe addr in
  if negb (present (m pa)) then inl 0
  else if reserved g (m (pa + 4)) then inl 8
  else if Z.testbit (m pa) 7 then inr (large_page 21 (m pa) (m (pa + 4)) addr)
  else
    let ta := pte64_at g (m pa) addr in
    if negb (present (m ta)) then inl 0
    else if reserved g (m (ta + 4)) then inl 8
    else inr (small_page g (m ta) (m (ta + 4)) (m pa) (m (pa + 4)) addr).

(** The page of an address by the registers [g] and the double words [m] of memory, or
    the error code of the fault: 0 for a missing page, 8 for a reserved bit. *)
Definition lookup (g : paging) (m : Z -> Z) (addr : Z) : Z + mapping :=
  if negb (Z.testbit (cr0 g) 31) then inr (Mapping (gate g (addr / 4096 * 4096) + addr mod 4096) true true false)
  else if Z.testbit (cr4 g) 5 then lookup64 g m addr
  else lookup32 g m addr.

(** The three kinds of access, and whether the rights allow one. *)
Inductive access := Rd | Wr | Ex.
Definition is_wr (k : access) : bool := match k with Wr => true | _ => false end.
Definition is_ex (k : access) : bool := match k with Ex => true | _ => false end.
Definition access_code (k : access) : Z := match k with Rd => 0 | Wr => 1 | Ex => 2 end.

Definition allowed (g : paging) (p : mapping) (u : bool) (k : access) : bool :=
  implb u (mp_user p) && implb (is_wr k) (mp_rw p || (negb u && negb (Z.testbit (cr0 g) 16))) && implb (is_ex k) (negb (mp_nx p)).

(** What an access ends in. *)
Definition outcome (g : paging) (m : Z -> Z) (addr : Z) (u : bool) (k : access) : mmu_result :=
  let code c := c + Z.b2z (is_wr k) * 2 + Z.b2z u * 4 + Z.b2z (is_ex k && Z.testbit (efer g) 11 && Z.testbit (cr4 g) 5) * 16 in
  match lookup g m addr with
  | inl c => Faulted addr (code c)
  | inr p => if allowed g p u k then Filled else Faulted addr (code 1)
  end.

(** * The line *)

(** The values [cpu_x86_set_a20] and a reset give the mask. *)
Definition a20_ok (g : paging) : Prop := a20_mask g = 0xffffffff \/ a20_mask g = 0xffefffff.

Lemma gate_land g x : is_u32 x -> a20_ok g -> Z.land x (a20_mask g) = gate g x.
Proof.
  intros Hx [E|E]; unfold gate; rewrite E; [by apply land_page_offset|]. change (Z.testbit 0xffefffff 20) with false. cbv iota.
  unfold Z.clearbit. rewrite Z.shiftl_1_l. rewrite <- (land_page_offset x Hx) at 2.
  rewrite Z.ldiff_land, <- Z.land_assoc. f_equal.
Qed.

Lemma clear20 x : 0 <= x -> 0 <= Z.clearbit x 20 <= x /\ Z.clearbit x 20 mod 4096 = x mod 4096.
Proof.
  intros Hx. unfold Z.clearbit. rewrite Z.shiftl_1_l. destruct (Z.testbit x 20) eqn:E.
  - assert (Z.ldiff x (2 ^ 20) = x - 2 ^ 20) as ->.
    { symmetry. apply Z.sub_nocarry_ldiff. apply Z.bits_inj'. intros j Hj. rewrite Z.ldiff_spec, Z.pow2_bits_eqb, Z.bits_0 by lia.
      destruct (Z.eqb_spec 20 j) as [<-|]; [by rewrite E|done]. }
    assert (2 ^ 20 <= x). { destruct (decide (x < 2 ^ 20)) as [Hlt|]; [|lia]. apply Z.testbit_true in E; [|lia].
      rewrite Z.div_small in E by lia. done. }
    split; [lia|]. change (2 ^ 20) with (256 * 4096) in *. replace (x - 256 * 4096) with (x + (-256) * 4096) by lia. by rewrite Z.mod_add.
  - assert (Z.ldiff x (2 ^ 20) = x) as ->; [|split; [lia|done]].
    apply Z.bits_inj'. intros j Hj. rewrite Z.ldiff_spec, Z.pow2_bits_eqb by lia.
    destruct (Z.eqb_spec 20 j) as [<-|]; [by rewrite E|apply andb_true_r].
Qed.

Lemma gate_range g x : 0 <= x -> 0 <= gate g x <= x /\ gate g x mod 4096 = x mod 4096.
Proof. intros Hx. unfold gate. destruct (Z.testbit _ _); [split; [lia|done]|by apply clear20]. Qed.

Lemma gate_u32 g x : is_u32 x -> is_u32 (gate g x).
Proof. unfold is_u32. intros Hx. pose proof (gate_range g x ltac:(lia)). lia. Qed.

Lemma gate_aligned g x k : 0 <= x -> (k | 4096) -> k <> 0 -> x mod k = 0 -> gate g x mod k = 0.
Proof.
  intros Hx Hk Hk0 Hm. destruct (gate_range g x Hx) as [_ E]. destruct Hk as [q Hq].
  apply Z.mod_divide in Hm; [|done]. destruct Hm as [r Hr]. apply Z.mod_divide; [done|].
  pose proof (Z.div_mod (gate g x) 4096 ltac:(lia)) as E1. pose proof (Z.div_mod x 4096 ltac:(lia)) as E2.
  rewrite E1, E. replace (x mod 4096) with (x - 4096 * (x / 4096)) by lia. rewrite Hr, Hq.
  exists (q * (gate g (r * k) / (q * k)) + r - q * (r * k / (q * k))). lia.
Qed.

Lemma gate_page g x : is_u32 x -> a20_ok g -> page_of (Z.land x (a20_mask g)) = gate g (x / 4096 * 4096).
Proof.
  intros Hx Hg. unfold page_of. rewrite <- Z.land_assoc, (Z.land_comm (a20_mask g)), Z.land_assoc. fold (page_of x).
  rewrite page_of_sub by done. replace (x - x mod 4096) with (x / 4096 * 4096) by (Z.div_mod_to_equations; lia).
  apply gate_land; [|done]. unfold is_u32 in *. Z.div_mod_to_equations; lia.
Qed.

(** * The accessed and dirty bits do not matter *)

Lemma same_bit m m' a j : same_tables m m' -> 0 <= j -> j <> 5 -> j <> 6 -> Z.testbit (m' a) j = Z.testbit (m a) j.
Proof. intros H Hj H5 H6. symmetry. by apply H. Qed.
Lemma same_frame m m' a : same_tables m m' -> m' a / 4096 = m a / 4096.
Proof. intros H. symmetry. apply H. Qed.
Lemma frame_div x y n : 12 <= n -> x / 4096 = y / 4096 -> x / 2 ^ n = y / 2 ^ n.
Proof.
  intros Hn E. replace (2 ^ n) with (4096 * 2 ^ (n - 12)) by (change 4096 with (2 ^ 12); rewrite <- Z.pow_add_r by lia; f_equal; lia).
  rewrite <- !Z.div_div by lia. by rewrite E.
Qed.

#[export] Instance lookup32_proper g : Proper (same_tables ==> eq ==> eq) (lookup32 g).
Proof.
  intros m m' H a _ <-. unfold lookup32, present, large_page, small_page, pte32_at.
  rewrite !(same_bit m m') by (done || lia).
  rewrite (frame_div _ _ 22 ltac:(lia) (same_frame m m' (pde32_at g a) H)). by rewrite !(same_frame m m' _ H).
Qed.

#[export] Instance lookup64_proper g : Proper (same_tables ==> eq ==> eq) (lookup64 g).
Proof.
  intros m m' H a _ <-. unfold lookup64, present, reserved, large_page, small_page, pte64_at.
  assert (pde64_at g (m' (pdpe_at g a)) a = pde64_at g (m (pdpe_at g a)) a) as -> by (unfold pde64_at; by rewrite (same_frame m m' _ H)).
  rewrite !(same_bit m m') by (done || lia). set (pa := pde64_at g _ a).
  rewrite (frame_div _ _ 21 ltac:(lia) (same_frame m m' pa H)). by rewrite !(same_frame m m' _ H).
Qed.

#[export] Instance lookup_proper g : Proper (same_tables ==> eq ==> eq) (lookup g).
Proof.
  intros m m' H a _ <-. unfold lookup.
  by rewrite (lookup32_proper g m m' H a a eq_refl), (lookup64_proper g m m' H a a eq_refl).
Qed.

(** * The walks *)

(** A 64-bit entry: two double words. *)
Definition quad (lo hi : Z) : Z := Z.lor lo (Z.shiftl hi 32).

Lemma quad_low lo hi j : 0 <= j < 32 -> Z.testbit (quad lo hi) j = Z.testbit lo j.
Proof. intros Hj. unfold quad. rewrite Z.lor_spec, Z.shiftl_spec_low, orb_false_r by lia. done. Qed.
Lemma quad_high lo hi j : is_u32 lo -> 32 <= j -> Z.testbit (quad lo hi) j = Z.testbit hi (j - 32).
Proof.
  intros Hlo Hj. unfold quad. rewrite Z.lor_spec, Z.shiftl_spec by lia.
  assert (Z.testbit lo j = false) as ->; [|done]. rewrite <- (land_page_offset lo Hlo). change 0xffffffff with (Z.ones 32).
  rewrite Z.land_spec, Z.ones_spec_high by lia. apply andb_false_r.
Qed.
Lemma quad_mask lo hi k : is_u32 k -> Z.land (quad lo hi) k = Z.land lo k.
Proof.
  intros Hk. apply Z.bits_inj'. intros j Hj. rewrite !Z.land_spec. destruct (decide (j < 32)); [by rewrite quad_low by lia|].
  assert (Z.testbit k j = false) as ->; [|by rewrite !andb_false_r]. rewrite <- (land_page_offset k Hk). change 0xffffffff with (Z.ones 32).
  rewrite Z.land_spec, Z.ones_spec_high by lia. apply andb_false_r.
Qed.
Lemma quad_lor lo hi k : Z.lor (quad lo hi) k = quad (Z.lor lo k) hi.
Proof. unfold quad. by rewrite <- !Z.lor_assoc, (Z.lor_comm k). Qed.
Lemma quad_u32 lo hi : is_u32 lo -> u32 (quad lo hi) = lo.
Proof.
  intros Hlo. unfold u32. rewrite <- Z.land_ones by lia. change (Z.ones 32) with 0xffffffff.
  rewrite quad_mask by (unfold is_u32; lia). by apply land_page_offset.
Qed.

(** ** Where the entries are *)

Lemma pde32_addr g addr : is_u32 addr -> is_u32 (cr3 g) -> a20_ok g ->
  Z.land (u32 (Z.land (cr3 g) 0xfffff000 + Z.land (Z.shiftr addr 20) 0xfffffffc)) (a20_mask g) = pde32_at g addr.
Proof.
  intros Ha Hc Hg. pose proof (pde_addr_at (set_pg_a20 0xffffffff g) addr Hc Ha eq_refl) as E. cbn [cr3 a20_mask set_pg_a20] in E.
  rewrite land_page_offset in E by apply u32_range. rewrite E. apply gate_land; [|done]. rewrite <- E. apply u32_range.
Qed.
Lemma pte32_addr g pde addr : is_u32 pde -> is_u32 addr -> a20_ok g ->
  Z.land (u32 (Z.land pde 0xfffff000 + Z.land (Z.shiftr addr 10) 0xffc)) (a20_mask g) = pte32_at g pde addr.
Proof.
  intros Hp Ha Hg. pose proof (pte_addr_at (set_pg_a20 0xffffffff g) pde addr Hp Ha eq_refl) as E. cbn [a20_mask set_pg_a20] in E.
  rewrite land_page_offset in E by apply u32_range. rewrite E. apply gate_land; [|done]. rewrite <- E. apply u32_range.
Qed.
Lemma pdpe_addr g addr : is_u32 addr -> is_u32 (cr3 g) -> a20_ok g ->
  Z.land (u32 (Z.land (cr3 g) 0xffffffe0 + Z.shiftl (Z.shiftr addr 30) 3)) (a20_mask g) = pdpe_at g addr.
Proof.
  intros Ha Hc Hg. change 0xffffffe0 with (2 ^ 32 - 2 ^ 5). rewrite land_top, Z.shiftl_mul_pow2, Z.shiftr_div_pow2 by (done || lia).
  change (2 ^ 5) with 32. change (2 ^ 3) with 8. rewrite gate_land; [|apply u32_range|done]. unfold pdpe_at. f_equal. apply u32_small.
  unfold is_u32 in *. change (2 ^ 30) with 1073741824. Z.div_mod_to_equations; lia.
Qed.
Lemma table64_addr g e addr n : is_u32 e -> is_u32 addr -> a20_ok g -> 0 <= n ->
  Z.land (Z.land e PHYS_ADDR_MASK + Z.shiftl (Z.land (Z.shiftr addr n) 0x1ff) 3) (a20_mask g) =
    gate g (e / 4096 * 4096 + addr / 2 ^ n mod 512 * 8).
Proof.
  intros He Ha Hg Hn. change PHYS_ADDR_MASK with (2 ^ 32 - 2 ^ 12). change 0x1ff with (Z.ones 9).
  rewrite land_top, Z.land_ones, Z.shiftl_mul_pow2, Z.shiftr_div_pow2 by (done || lia). change (2 ^ 12) with 4096. change (2 ^ 9) with 512.
  change (2 ^ 3) with 8. apply gate_land; [|done]. unfold is_u32 in *. pose proof (Z.mod_pos_bound (addr / 2 ^ n) 512 ltac:(lia)).
  Z.div_mod_to_equations; lia.
Qed.

Lemma pde32_aligned g addr : is_u32 addr -> is_u32 (cr3 g) -> pde32_at g addr mod 4 = 0.
Proof.
  intros Ha Hc. unfold is_u32 in *. apply gate_aligned; [|by exists 1024|done|]; change (2 ^ 22) with 4194304;
    Z.div_mod_to_equations; lia.
Qed.
Lemma pte32_aligned g pde addr : is_u32 pde -> pte32_at g pde addr mod 4 = 0.
Proof.
  intros Hc. unfold is_u32 in *. apply gate_aligned; [|by exists 1024|done|]; Z.div_mod_to_equations; lia.
Qed.
Lemma pdpe_aligned g addr : is_u32 addr -> is_u32 (cr3 g) -> pdpe_at g addr mod 4 = 0.
Proof.
  intros Ha Hc. unfold is_u32 in *. apply gate_aligned; [|by exists 1024|done|]; change (2 ^ 30) with 1073741824;
    Z.div_mod_to_equations; lia.
Qed.
Lemma table64_aligned g e i : is_u32 e -> gate g (e / 4096 * 4096 + i mod 512 * 8) mod 4 = 0.
Proof.
  intros Hc. unfold is_u32 in *. pose proof (Z.mod_pos_bound i 512 ltac:(lia)).
  apply gate_aligned; [|by exists 1024|done|]; Z.div_mod_to_equations; lia.
Qed.

(** ** What the leaves give *)

Record leaf_maps (g : paging) (addr : Z) (p : mapping) (pte ptep size va : Z) : Prop := LeafMaps {
  lm_frame : page_of (Z.land pte (a20_mask g)) + Z.land (page_of addr) (size - 1) = mp_phys p - addr mod 4096;
  lm_virt : va + Z.land (page_of addr) (size - 1) = page_of addr;
  lm_rw : bit ptep PG_RW_MASK = mp_rw p;
  lm_nx : bit ptep PG_NX_MASK = mp_nx p
}.

Definition walk_result (g : paging) (addr : Z) (u : bool) (k : access) (look : Z + mapping) (l : leaf) : Prop :=
  match look with
  | inl c => l = inl c
  | inr p =>
      if allowed g p u k then exists pte ptep size va, l = inr (pte, ptep, size, va) /\ leaf_maps g addr p pte ptep size va
      else l = inl PG_ERROR_P_MASK
  end.

Lemma denied_allowed g p u k ptep :
  bit ptep PG_USER_MASK = mp_user p -> bit ptep PG_RW_MASK = mp_rw p ->
  allowed g p u k = negb (mp_nx p && is_ex k) && negb (denied g u (is_wr k) ptep).
Proof.
  intros Hu Hw. unfold denied, allowed. rewrite Hu, Hw. change CR0_WP_MASK with (2 ^ 16). rewrite bit_testbit by lia.
  destruct u, k, (mp_user p), (mp_rw p), (mp_nx p), (Z.testbit (cr0 g) 16); done.
Qed.

Lemma large_bits w e j : 0 <= j < 3 -> Z.testbit (Z.lor e (leaf_bits w)) j = Z.testbit e j.
Proof. intros Hj. apply lor_leaf_bit; lia. Qed.

Lemma virt_large addr n : is_u32 addr -> 12 <= n <= 32 ->
  Z.land addr (2 ^ 32 - 2 ^ n) + Z.land (page_of addr) (2 ^ n - 1) = page_of addr /\
  Z.land (page_of addr) (2 ^ n - 1) = addr mod 2 ^ n - addr mod 4096.
Proof.
  intros Ha Hn. rewrite land_top by (done || lia). replace (2 ^ n - 1) with (Z.ones n) by (rewrite Z.ones_equiv; lia).
  rewrite Z.land_ones by lia. rewrite page_of_sub by done.
  assert ((addr - addr mod 4096) mod 2 ^ n = addr mod 2 ^ n - addr mod 4096) as ->; [|split; [|done]; Z.div_mod_to_equations; nia].
  assert (2 ^ n = 4096 * 2 ^ (n - 12)) as E by (change 4096 with (2 ^ 12); rewrite <- Z.pow_add_r by lia; f_equal; lia).
  rewrite E, (Z.rem_mul_r addr) by lia. rewrite (Z.rem_mul_r (addr - _)) by lia.
  assert ((addr - addr mod 4096) mod 4096 = 0) as -> by (Z.div_mod_to_equations; lia).
  assert ((addr - addr mod 4096) / 4096 = addr / 4096) as -> by (Z.div_mod_to_equations; lia). lia.
Qed.

Lemma large_maps g e addr w n ptep nx :
  n = 21 \/ n = 22 -> is_u32 e -> is_u32 addr -> a20_ok g ->
  bit ptep PG_RW_MASK = Z.testbit e 1 -> bit ptep PG_NX_MASK = Z.testbit nx 31 ->
  leaf_maps g addr (large_page n e nx addr) (Z.land (Z.lor e (leaf_bits w)) (2 ^ 32 - 2 ^ n + 0xfff)) ptep (2 ^ n)
    (Z.land addr (2 ^ 32 - 2 ^ n)).
Proof.
  intros Hn He Ha Hg Hw Hx. destruct (virt_large addr n Ha) as [Hv Ho]; [lia|].
  assert (0 <= leaf_bits w < 4096) as Hk by (destruct w; unfold leaf_bits, AD_BITS, A_BIT; lia).
  destruct (lor_flags e _ He Hk) as [Hu Hf]. split; [|exact Hv|exact Hw|exact Hx]. cbn [mp_phys large_page]. rewrite Ho.
  unfold page_of. rewrite <- !Z.land_assoc.
  assert (Z.land (2 ^ 32 - 2 ^ n + 0xfff) (Z.land (a20_mask g) TARGET_PAGE_MASK) = 2 ^ 32 - 2 ^ n) as ->
    by (destruct Hn as [-> | ->], Hg as [-> | ->]; reflexivity).
  rewrite land_top by (done || lia). rewrite (frame_div _ _ n ltac:(lia) Hf). lia.
Qed.

Lemma small_maps g e ehigh d dhigh addr w ptep :
  is_u32 e -> is_u32 addr -> a20_ok g ->
  bit ptep PG_RW_MASK = Z.testbit e 1 && Z.testbit d 1 -> bit ptep PG_NX_MASK = Z.testbit ehigh 31 || Z.testbit dhigh 31 ->
  leaf_maps g addr (small_page g e ehigh d dhigh addr) (Z.lor e (leaf_bits w)) ptep 4096 (Z.land addr 0xfffff000).
Proof.
  intros He Ha Hg Hw Hx. destruct (virt_large addr 12 Ha) as [Hv Ho]; [lia|].
  assert (0 <= leaf_bits w < 4096) as Hk by (destruct w; unfold leaf_bits, AD_BITS, A_BIT; lia).
  destruct (lor_flags e _ He Hk) as [Hu Hf]. split; [|exact Hv|exact Hw|exact Hx]. cbn [mp_phys small_page].
  rewrite gate_page, Hf by done. change (4096 - 1) with (2 ^ 12 - 1). rewrite Ho. change (2 ^ 12) with 4096. lia.
Qed.

Section Modes.
Context {D : Type} {DD : Devices D} {HR : HostRam}.
Implicit Types (s : vmem D) (m : Z -> Z).

Definition in_ram8 s (a : Z) : Prop := 0 <= a /\ a + 8 <= Z.of_nat (length (phys_ram s)).

(** The tables that translate [addr] are in memory. *)
Definition tables32 s g m (addr : Z) : Prop :=
  let pde := m (pde32_at g addr) in
  in_ram s (pde32_at g addr) /\
  (present pde = true -> Z.testbit pde 7 && Z.testbit (cr4 g) 4 = false -> in_ram s (pte32_at g pde addr)).
Definition tables64 s g m (addr : Z) : Prop :=
  let pdpe := m (pdpe_at g addr) in let pa := pde64_at g pdpe addr in
  in_ram8 s (pdpe_at g addr) /\
  (present pdpe = true -> in_ram8 s pa /\
     (present (m pa) = true -> Z.testbit (m pa) 7 = false -> in_ram8 s (pte64_at g (m pa) addr))).

(** The tables and the page of [addr] are in memory. *)
Record walk_in s g m (addr : Z) : Prop := WalkIn {
  wi_addr : is_u32 addr;
  wi_tables : Z.testbit (cr0 g) 31 = true -> if Z.testbit (cr4 g) 5 then tables64 s g m addr else tables32 s g m addr;
  wi_page : forall p, lookup g m addr = inr p -> mp_phys p < Z.of_nat (length (phys_ram s))
}.

(** [walks s m c P]: [c] returns a result in [P], and changes only accessed and dirty
    bits of the tables. *)
Definition walks {A} s m (c : M (vmem D) A) (P : A -> Prop) : Prop :=
  exists a r m', c s = Ok a (set_ram r s) /\ length r = length (phys_ram s) /\ ram0 (set_ram r s) /\
    holds (set_ram r s) m' /\ same_tables m m' /\ P a.

Lemma walks_ret {A} s m (a : A) (P : A -> Prop) : ram0 s -> holds s m -> P a -> walks s m (ret a) P.
Proof using Type. intros H Hm Ha. exists a, (phys_ram s), m. assert (set_ram (phys_ram s) s = s) as -> by (by destruct s). by split_and!. Qed.

Lemma walks_bind {A B} s m (c : M (vmem D) A) (k : A -> M (vmem D) B) (P : A -> Prop) Q :
  walks s m c P ->
  (forall a s' m', P a -> ram0 s' -> holds s' m' -> same_tables m m' -> length (phys_ram s') = length (phys_ram s) -> walks s' m' (k a) Q) ->
  walks s m (bind c k) Q.
Proof using Type.
  intros (a & r & m1 & E & El & H1 & Hm1 & Hs & Ha) Hk.
  destruct (Hk a (set_ram r s) m1 Ha H1 Hm1 Hs El) as (b & r2 & m2 & E2 & El2 & H2 & Hm2 & Hs2 & Hb).
  exists b, r2, m2. split; [by rewrite (bind_ok _ _ _ _ _ E), E2; destruct s|]. split; [by rewrite El2|].
  split; [by destruct s|]. split; [by destruct s|]. split; [by etransitivity|done].
Qed.

Lemma walks_ldl {B} s m a (k : Z -> M (vmem D) B) Q :
  ram0 s -> holds s m -> a mod 4 = 0 -> in_ram s a -> (is_u32 (m a) -> walks s m (k (m a)) Q) -> walks s m (bind (ldl_phys a) k) Q.
Proof using Type.
  intros H Hm Hal [Ha Hl] Hk. unfold walks. rewrite (bind_ok _ _ _ _ _ (ldl_phys_ok s a H Ha Hl)), Hm by done.
  apply Hk. rewrite <- Hm by done. by apply dw_range.
Qed.

Lemma ldq_phys_ok s a : ram0 s -> in_ram8 s a -> ldq_phys a s = Ok (quad (dw s a) (dw s (a + 4))) s.
Proof using Type.
  intros H [Ha Hl]. destruct (ram0_desc s a H) as (E & _ & Hr & Er & _); [lia|].
  unfold ldq_phys. rewrite (bind_ok _ _ _ _ _ E), Hr, Er. unfold ld_p, aread. mstep. rewrite decide_True by lia.
  cbn [of_option]. unfold ret, bind, quad, dw. f_equal. rewrite Z.lor_comm, lor_shiftl_add.
  2: { lia. }
  2: { pose proof (dw_range s a H Ha ltac:(lia)) as Hd. unfold is_u32, dw in Hd. lia. }
  replace (Z.to_nat (a + 4)) with (Z.to_nat a + 4)%nat by lia. rewrite <- drop_drop.
  set (l := drop (Z.to_nat a) (phys_ram s)). assert (8 <= length l)%nat by (unfold l; rewrite length_drop; lia).
  change (le_val (take (4 + 4) l) = le_val (take 4 (drop 4 l)) * 2 ^ 32 + le_val (take 4 l)). rewrite <- take_take_drop. rewrite le_val_app, length_take, Nat.min_l by lia.
  change (256 ^ Z.of_nat 4) with (2 ^ 32). lia.
Qed.

Lemma walks_ldq {B} s m a (k : Z -> M (vmem D) B) Q :
  ram0 s -> holds s m -> a mod 4 = 0 -> in_ram8 s a ->
  (is_u32 (m a) -> is_u32 (m (a + 4)) -> walks s m (k (quad (m a) (m (a + 4)))) Q) -> walks s m (bind (ldq_phys a) k) Q.
Proof using Type.
  intros H Hm Hal Hin Hk. pose proof Hin as [Ha Hl]. unfold walks. rewrite (bind_ok _ _ _ _ _ (ldq_phys_ok s a H Hin)).
  assert ((a + 4) mod 4 = 0) as Hal4 by (rewrite Z.add_mod, Hal by lia; done).
  rewrite !Hm by (done || lia). apply Hk; rewrite <- Hm by (done || lia); apply dw_range; done || lia.
Qed.

(** Marking an entry whose low double word is in memory. *)
Lemma low_bit e j : 0 <= j < 32 -> Z.testbit (u32 e) j = Z.testbit e j.
Proof using Type. intros Hj. unfold u32. by rewrite Z.mod_pow2_bits_low by lia. Qed.
Lemma low_lor e k : u32 (Z.lor (u32 e) k) = u32 (Z.lor e k).
Proof using Type.
  unfold u32. rewrite <- !Z.land_ones by lia. rewrite !Z.land_lor_distr_l, <- Z.land_assoc. by rewrite (Z.land_diag (Z.ones 32)).
Qed.

Lemma walks_accessed s m a e : ram0 s -> holds s m -> a mod 4 = 0 -> in_ram s a -> u32 e = m a ->
  walks s m (mark_accessed a e) (fun v => v = Z.lor e A_BIT).
Proof using Type.
  intros H Hm Hal [Ha Hl] He. destruct (walk_marks_accessed s m a H Hm Hal Ha Hl) as (r & E & El & H' & Hm').
  eexists _, r, _. split; [|split; [done|split; [done|split; [exact Hm'|split; [apply (set_bits_same a false)|done]]]]].
  unfold mark_accessed in *. change PG_ACCESSED_MASK with (2 ^ 5) in *. rewrite bit_testbit, <- He, low_bit in E by lia.
  rewrite bit_testbit by lia. destruct (Z.testbit e 5) eqn:E5.
  - injection E as _ <-. unfold ret, A_BIT. change 0x20 with (2 ^ 5). by rewrite lor_set by (done || lia).
  - change (2 ^ 5) with A_BIT in *. rewrite low_lor in E. apply bind_inv in E as ([] & s1 & E1 & E2). injection E2 as <-.
    by rewrite (bind_ok _ _ _ _ _ E1).
Qed.

Lemma walks_leaf s m a e w : ram0 s -> holds s m -> a mod 4 = 0 -> in_ram s a -> u32 e = m a ->
  walks s m (mark_leaf a e w) (fun v => v = Z.lor e (leaf_bits w)).
Proof using Type.
  intros H Hm Hal [Ha Hl] He. destruct (mark_leaf_ok s m a w H Hm Hal Ha Hl) as (r & E & El & H' & Hm').
  eexists _, r, _. split; [|split; [done|split; [done|split; [exact Hm'|split; [apply (set_bits_same a w)|done]]]]].
  pose proof (leaf_value e w) as Hv. cbv zeta in Hv.
  unfold mark_leaf in *. change PG_ACCESSED_MASK with (2 ^ 5) in *. change PG_DIRTY_MASK with (2 ^ 6) in *. change A_BIT with (2 ^ 5) in *.
  rewrite !bit_testbit, <- He, !low_bit in E by lia. rewrite !bit_testbit by lia.
  destruct (negb (Z.testbit e 5) || w && negb (Z.testbit e 6)).
  - rewrite Hv. assert (u32 (if w && negb (Z.testbit e 6) then Z.lor (Z.lor (u32 e) (2 ^ 5)) (2 ^ 6) else Z.lor (u32 e) (2 ^ 5)) =
      u32 (Z.lor e (leaf_bits w))) as Eu.
    { rewrite <- Hv. destruct (w && _); rewrite <- ?Z.lor_assoc; apply low_lor. }
    apply bind_inv in E as ([] & s1 & E1 & E2). injection E2 as _ <-. rewrite Eu in E1. by rewrite (bind_ok _ _ _ _ _ E1).
  - injection E as _ <-. unfold ret. by rewrite <- Hv.
Qed.

(** ** The 32-bit tables *)

Lemma bits_of w e : is_u32 e -> u32 e = e /\ (bit (Z.lor e (leaf_bits w)) PG_USER_MASK = Z.testbit e 2) /\
  (bit (Z.lor e (leaf_bits w)) PG_RW_MASK = Z.testbit e 1).
Proof using Type.
  intros He. split; [by apply u32_small|]. change PG_USER_MASK with (2 ^ 2). change PG_RW_MASK with (2 ^ 1).
  rewrite !bit_testbit by lia. split; apply large_bits; lia.
Qed.

Lemma no_high e k : is_u32 e -> bit (Z.land e k) PG_NX_MASK = false.
Proof using Type.
  intros He. change PG_NX_MASK with (2 ^ 63). rewrite bit_testbit, Z.land_spec by lia.
  assert (Z.testbit e 63 = false) as ->; [|done]. rewrite <- (land_page_offset e He). change 0xffffffff with (Z.ones 32).
  rewrite Z.land_spec, Z.ones_spec_high by lia. apply andb_false_r.
Qed.

Lemma in_ram_len s s' a : length (phys_ram s') = length (phys_ram s) -> in_ram s a -> in_ram s' a.
Proof using Type. unfold in_ram. by intros ->. Qed.
Lemma in_ram8_len s s' a : length (phys_ram s') = length (phys_ram s) -> in_ram8 s a -> in_ram8 s' a.
Proof using Type. unfold in_ram8. by intros ->. Qed.

(** The last step: the rights are tested and the leaf is marked. *)
Lemma walks_grant s m g addr u k a e ptep p (fin : Z -> leaf) :
  ram0 s -> holds s m -> a mod 4 = 0 -> in_ram s a -> u32 e = m a ->
  bit ptep PG_USER_MASK = mp_user p -> bit ptep PG_RW_MASK = mp_rw p -> mp_nx p && is_ex k = false ->
  (allowed g p u k = true -> exists pte ptep' size va, fin (Z.lor e (leaf_bits (is_wr k))) = inr (pte, ptep', size, va) /\
     leaf_maps g addr p pte ptep' size va) ->
  walks s m (if denied g u (is_wr k) ptep then no_page PG_ERROR_P_MASK else
    e <- mark_leaf a e (is_wr k) ;; ret (fin e)) (walk_result g addr u k (inr p)).
Proof using Type.
  intros H Hm Hal Hin He Hus Hrw Hx Hfin. pose proof (denied_allowed g p u k ptep Hus Hrw) as Hall. rewrite Hx in Hall. cbn [negb andb] in Hall.
  unfold walk_result. rewrite Hall in *. destruct (denied g u (is_wr k) ptep); cbn [negb] in *; [by apply walks_ret|].
  eapply walks_bind; [by apply walks_leaf|]. intros e' s' m' -> H' Hm' Hs El. apply walks_ret; [done..|]. by apply Hfin.
Qed.

Lemma walk32_modes s m g addr u k : ram0 s -> holds s m -> is_u32 addr -> is_u32 (cr3 g) -> a20_ok g -> tables32 s g m addr ->
  walks s m (walk32 g addr u (is_wr k)) (walk_result g addr u k (lookup32 g m addr)).
Proof using Type.
  intros H Hm Ha Hc Hg [Hin Hin2]. unfold walk32. rewrite pde32_addr by done. set (pa := pde32_at g addr) in *.
  assert (pa mod 4 = 0) as Hpal by (by apply pde32_aligned).
  apply walks_ldl; [done..|]. intros Hu. cbv zeta.
  change PG_PRESENT_MASK with (2 ^ 0). change PG_PSE_MASK with (2 ^ 7). change CR4_PSE_MASK with (2 ^ 4). rewrite !bit_testbit by lia.
  unfold lookup32. fold pa. fold (present (m pa)).
  destruct (present (m pa)) eqn:E0; cbn [negb]; [|by apply walks_ret].
  assert (forall j, 0 <= j -> bit (m pa) (2 ^ j) = Z.testbit (m pa) j) as Hb by (intros; by apply bit_testbit).
  destruct (Z.testbit (m pa) 7 && Z.testbit (cr4 g) 4) eqn:EL.
  - apply (walks_grant s m g addr u k pa (m pa) (m pa) (large_page 22 (m pa) 0 addr)
      (fun pde => inr (Z.land pde 0xffc00fff, Z.land pde 0xffc00fff, 4096 * 1024, Z.land addr 0xffc00000)));
      [done..|by apply u32_small|by apply (Hb 2)|by apply (Hb 1)|done|].
    intros _. eexists _, _, _, _. split; [reflexivity|]. apply (large_maps g (m pa) addr (is_wr k) 22 _ 0); try done; [by right| |].
    + change PG_RW_MASK with (2 ^ 1). rewrite bit_testbit, Z.land_spec, large_bits by lia. apply andb_true_r.
    + apply no_high. apply lor_flags; [done|]. destruct (is_wr k); unfold leaf_bits, AD_BITS, A_BIT; lia.
  - apply walks_bind with (P := fun v => v = Z.lor (m pa) A_BIT); [apply walks_accessed; try done; by apply u32_small|].
    intros pde s1 m1 -> H1 Hm1 Hs1 El1. cbv zeta.
    destruct (lor_flags (m pa) A_BIT Hu) as [Hu' Hf]; [unfold A_BIT; lia|].
    rewrite pte32_addr by done.
    assert (pte32_at g (Z.lor (m pa) A_BIT) addr = pte32_at g (m pa) addr) as -> by (unfold pte32_at; by rewrite Hf).
    set (ta := pte32_at g (m pa) addr) in *. assert (ta mod 4 = 0) as Htal by (by apply pte32_aligned).
    apply walks_ldl; [done..|by eapply in_ram_len; [|apply Hin2]|]. intros Hut. cbv zeta. rewrite bit_testbit by lia. fold (present (m1 ta)).
    assert (present (m ta) = present (m1 ta)) as -> by (symmetry; by apply same_bit).
    destruct (present (m1 ta)) eqn:Et; cbn [negb]; [|by apply walks_ret].
    assert (small_page g (m ta) 0 (m pa) 0 addr = small_page g (m1 ta) 0 (m pa) 0 addr) as ->.
    { unfold small_page. by rewrite (same_frame m m1), !(same_bit m m1) by (done || lia). }
    set (ptep := Z.land (m1 ta) (Z.lor (m pa) A_BIT)).
    assert (forall j, 0 <= j < 3 -> bit ptep (2 ^ j) = Z.testbit (m1 ta) j && Z.testbit (m pa) j) as Hp.
    { intros j Hj. unfold ptep. by rewrite bit_testbit, Z.land_spec, (large_bits false) by lia. }
    apply (walks_grant s1 m1 g addr u k ta (m1 ta) ptep (small_page g (m1 ta) 0 (m pa) 0 addr)
      (fun pte => inr (pte, ptep, 4096, Z.land addr 0xfffff000)));
      [done..|by eapply in_ram_len; [|apply Hin2]|by apply u32_small|by apply (Hp 2)|by apply (Hp 1)|done|].
    intros _. eexists _, _, _, _. split; [reflexivity|]. apply small_maps; [done..|by apply (Hp 1)|]. by apply no_high.
Qed.

(** ** The 64-bit tables *)

Lemma walks_grant_nx s m g addr u k a e ptep p (fin : Z -> leaf) :
  ram0 s -> holds s m -> a mod 4 = 0 -> in_ram s a -> u32 e = m a ->
  bit ptep PG_USER_MASK = mp_user p -> bit ptep PG_RW_MASK = mp_rw p -> bit ptep PG_NX_MASK = mp_nx p ->
  (exists pte size va, fin (Z.lor e (leaf_bits (is_wr k))) = inr (pte, ptep, size, va) /\ leaf_maps g addr p pte ptep size va) ->
  walks s m (if bit ptep PG_NX_MASK && is_ex k then no_page PG_ERROR_P_MASK else
    if denied g u (is_wr k) ptep then no_page PG_ERROR_P_MASK else
    e <- mark_leaf a e (is_wr k) ;; ret (fin e)) (walk_result g addr u k (inr p)).
Proof using Type.
  intros H Hm Hal Hin He Hus Hrw Hx (pte & size & va & Hfin). rewrite Hx. destruct (mp_nx p && is_ex k) eqn:E.
  - apply walks_ret; [done..|]. unfold walk_result. by rewrite (denied_allowed g p u k ptep Hus Hrw), E.
  - apply (walks_grant s m g addr u k a e ptep p fin); try done. intros _. by eexists _, _, _, _.
Qed.

(** The rights of the two levels of 64-bit entries. *)
Definition rights1 (e : Z) : Z := Z.land (Z.lor PG_NX_MASK (Z.lor PG_USER_MASK PG_RW_MASK)) (Z.lxor e PG_NX_MASK).
Definition rights2 (d e : Z) : Z := Z.lxor (Z.land (rights1 d) (Z.lxor e PG_NX_MASK)) PG_NX_MASK.

Lemma rights1_bits lo hi : is_u32 lo ->
  (forall j, j = 1 \/ j = 2 -> Z.testbit (rights1 (quad lo hi)) j = Z.testbit lo j) /\
  Z.testbit (rights1 (quad lo hi)) 63 = negb (Z.testbit hi 31).
Proof using Type.
  intros Hlo. unfold rights1. split; [intros j [-> | ->]|];
    rewrite Z.land_spec, Z.lxor_spec; rewrite ?quad_low by lia; rewrite ?quad_high by (done || lia).
  - change (Z.testbit PG_NX_MASK 1) with false. by rewrite xorb_false_r.
  - change (Z.testbit PG_NX_MASK 2) with false. by rewrite xorb_false_r.
  - change (Z.testbit PG_NX_MASK 63) with true. by rewrite xorb_true_r.
Qed.

Lemma rights2_bits lo hi lo' hi' : is_u32 lo -> is_u32 lo' ->
  (forall j, j = 1 \/ j = 2 -> Z.testbit (rights2 (quad lo hi) (quad lo' hi')) j = Z.testbit lo' j && Z.testbit lo j) /\
  Z.testbit (rights2 (quad lo hi) (quad lo' hi')) 63 = Z.testbit hi' 31 || Z.testbit hi 31.
Proof using Type.
  intros Hlo Hlo'. destruct (rights1_bits lo hi Hlo) as [R1 R2]. unfold rights2. split; [intros j [-> | ->]|];
    rewrite Z.lxor_spec, Z.land_spec, Z.lxor_spec; rewrite ?R1 by lia; rewrite ?R2; rewrite ?quad_low by lia; rewrite ?quad_high by (done || lia).
  - change (Z.testbit PG_NX_MASK 1) with false. rewrite !xorb_false_r. apply andb_comm.
  - change (Z.testbit PG_NX_MASK 2) with false. rewrite !xorb_false_r. apply andb_comm.
  - change (Z.testbit PG_NX_MASK 63) with true. change (63 - 32) with 31. rewrite !xorb_true_r. by destruct (Z.testbit hi 31), (Z.testbit hi' 31).
Qed.

Lemma walk64_modes s m g addr u k : ram0 s -> holds s m -> is_u32 addr -> is_u32 (cr3 g) -> a20_ok g -> tables64 s g m addr ->
  walks s m (walk_pae g addr u (is_wr k) (is_ex k)) (walk_result g addr u k (lookup64 g m addr)).
Proof using Type.
  intros H Hm Ha Hc Hg [Hin1 Hin2]. unfold walk_pae. rewrite pdpe_addr by done.
  set (da := pdpe_at g addr) in *. assert (da mod 4 = 0) as Hdal by (by apply pdpe_aligned).
  apply walks_ldq; [done..|]. intros Hud _. cbv zeta.
  change PG_PRESENT_MASK with (2 ^ 0). change PG_PSE_MASK with (2 ^ 7). change MSR_EFER_NXE with (2 ^ 11).
  rewrite (bit_testbit (quad _ _)) by lia. rewrite quad_low by lia. unfold lookup64. fold da. fold (present (m da)).
  destruct (present (m da)) eqn:E0; cbn [negb]; [|by apply walks_ret]. destruct (Hin2 eq_refl) as [Hinp Hint].
  rewrite quad_mask by done. rewrite table64_addr by (done || lia). fold (pde64_at g (m da) addr). set (pa := pde64_at g (m da) addr) in *.
  assert (pa mod 4 = 0) as Hpal by (by apply table64_aligned).
  apply walks_ldq; [done..|]. intros Hu Huh. set (lo := m pa) in *. set (hi := m (pa + 4)) in *.
  rewrite !(bit_testbit (quad lo hi)) by lia. rewrite !quad_low by lia. fold (present lo).
  destruct (present lo) eqn:E1; cbn [negb]; [|by apply walks_ret].
  assert (bit (quad lo hi) PG_NX_MASK = Z.testbit hi 31) as Enx.
  { change PG_NX_MASK with (2 ^ 63). rewrite bit_testbit, quad_high by (done || lia). done. }
  rewrite Enx, bit_testbit by lia. fold (reserved g hi).
  destruct (reserved g hi) eqn:E2; [by apply walks_ret|]. fold (rights1 (quad lo hi)).
  destruct (rights1_bits lo hi Hu) as [R1 R2].
  assert (forall w, Z.lor (quad lo hi) (leaf_bits w) = quad (Z.lor lo (leaf_bits w)) hi) as Elor by (intros w; apply quad_lor).
  assert (in_ram s pa) as Hinp4 by (destruct Hinp; split; lia).
  destruct (Z.testbit lo 7) eqn:E7.
  - set (ptep := Z.lxor (rights1 (quad lo hi)) PG_NX_MASK).
    assert (bit ptep PG_USER_MASK = Z.testbit lo 2) as B2.
    { change PG_USER_MASK with (2 ^ 2). unfold ptep. rewrite bit_testbit, Z.lxor_spec, R1 by lia. apply xorb_false_r. }
    assert (bit ptep PG_RW_MASK = Z.testbit lo 1) as B1.
    { change PG_RW_MASK with (2 ^ 1). unfold ptep. rewrite bit_testbit, Z.lxor_spec, R1 by lia. apply xorb_false_r. }
    assert (bit ptep PG_NX_MASK = Z.testbit hi 31) as B3.
    { unfold ptep. change (bit ?x PG_NX_MASK) with (bit x (2 ^ 63)). rewrite bit_testbit, Z.lxor_spec, R2 by lia.
      change (Z.testbit PG_NX_MASK 63) with true. rewrite xorb_true_r. apply negb_involutive. }
    apply (walks_grant_nx s m g addr u k pa (quad lo hi) ptep (large_page 21 lo hi addr)
      (fun pde => inr (Z.land pde (Z.lor 0xffe00000 0xfff), ptep, 2048 * 1024, Z.land addr 0xffe00000)));
      [done..|by apply quad_u32|exact B2|exact B1|exact B3|].
    eexists _, _, _. split; [reflexivity|]. rewrite Elor, quad_mask by done.
    apply (large_maps g lo addr (is_wr k) 21 ptep hi); try done. by left.
  - destruct (lor_flags lo A_BIT Hu) as [Hu' Hf]; [unfold A_BIT; lia|].
    apply walks_bind with (P := fun v => v = quad (Z.lor lo A_BIT) hi).
    { change A_BIT with (leaf_bits false). rewrite <- Elor. apply walks_accessed; try done. by apply quad_u32. }
    intros pde s1 m1 -> H1 Hm1 Hs1 El1. rewrite quad_mask, table64_addr, Hf by (done || lia).
    change (gate g (lo / 4096 * 4096 + addr / 2 ^ 12 mod 512 * 8)) with (pte64_at g lo addr). set (ta := pte64_at g lo addr) in *. assert (ta mod 4 = 0) as Htal by (by apply table64_aligned).
    assert (in_ram8 s1 ta) as Hta by (eapply in_ram8_len; [done|by apply Hint]).
    apply walks_ldq; [done..|]. intros Hut Huth. set (lt := m1 ta) in *. set (ht := m1 (ta + 4)) in *.
    rewrite (bit_testbit (quad lt ht)), quad_low by lia. fold (present lt).
    assert (present (m ta) = present lt) as -> by (symmetry; by apply same_bit).
    destruct (present lt) eqn:Et; cbn [negb]; [|by apply walks_ret].
    assert (bit (quad lt ht) PG_NX_MASK = Z.testbit ht 31) as ->.
    { change PG_NX_MASK with (2 ^ 63). rewrite bit_testbit, quad_high by (done || lia). done. }
    fold (reserved g ht).
    assert (Z.testbit (m (ta + 4)) 31 = Z.testbit ht 31) as Eht by (symmetry; by apply same_bit).
    assert (reserved g (m (ta + 4)) = reserved g ht) as -> by (unfold reserved; by rewrite Eht).
    destruct (reserved g ht) eqn:E3; [by apply walks_ret|]. fold (rights2 (quad lo hi) (quad lt ht)).
    destruct (rights2_bits lo hi lt ht Hu Hut) as [S1 S2]. set (ptep := rights2 (quad lo hi) (quad lt ht)) in *.
    assert (small_page g (m ta) (m (ta + 4)) lo hi addr = small_page g lt ht lo hi addr) as ->.
    { unfold small_page. rewrite Eht, <- (same_frame m m1 ta Hs1), <- !(same_bit m m1 ta) by (done || lia). done. }
    assert (bit ptep PG_USER_MASK = Z.testbit lt 2 && Z.testbit lo 2) as B2.
    { change PG_USER_MASK with (2 ^ 2). rewrite bit_testbit by lia. apply S1. lia. }
    assert (bit ptep PG_RW_MASK = Z.testbit lt 1 && Z.testbit lo 1) as B1.
    { change PG_RW_MASK with (2 ^ 1). rewrite bit_testbit by lia. apply S1. lia. }
    assert (bit ptep PG_NX_MASK = Z.testbit ht 31 || Z.testbit hi 31) as B3.
    { change (bit ?x PG_NX_MASK) with (bit x (2 ^ 63)). rewrite bit_testbit by lia. exact S2. }
    apply (walks_grant_nx s1 m1 g addr u k ta (quad lt ht) ptep (small_page g lt ht lo hi addr)
      (fun pte => inr (Z.land pte (Z.lor PHYS_ADDR_MASK 0xfff), ptep, 4096, Z.land addr 0xfffff000)));
      [done..|destruct Hta; split; lia|by apply quad_u32|exact B2|exact B1|exact B3|].
    eexists _, _, _. split; [reflexivity|]. rewrite quad_lor, quad_mask by done.
    change (Z.lor PHYS_ADDR_MASK 0xfff) with 0xffffffff. rewrite land_page_offset; [by apply small_maps|].
    apply lor_flags; [done|]. destruct (is_wr k); unfold leaf_bits, AD_BITS, A_BIT; lia.
Qed.

(** * The cache *)

(** A tag of an entry is invalid, or the entry leads to the page that registers and
    tables give for the tag, with the rights of the tag's accesses. *)
Record entry_page s g m (u : bool) (k : access) (i : Z) (e : tlb_entry) (va : Z) (p : mapping) : Prop := EntryPage {
  ep_va : is_u32 va /\ va mod 4096 = 0;
  ep_index : tlb_index va = i;
  ep_lookup : lookup g m va = inr p;
  ep_allowed : allowed g p u k = true;
  ep_ram : 0 <= mp_phys p < Z.of_nat (length (phys_ram s));
  ep_addend : addend e = u32 (phys_ram_base + mp_phys p - va)
}.
Definition entry_tag s g m (u : bool) (k : access) (i : Z) (e : tlb_entry) (tag : Z) : Prop :=
  tag = u32 (-1) \/
  exists va p, entry_page s g m u k i e va p /\ (tag = va \/ is_wr k = true /\ tag = Z.lor va IO_MEM_NOTDIRTY).
Definition cached_te s g m (u : bool) (i : Z) (e : tlb_entry) : Prop :=
  entry_tag s g m u Rd i e (addr_read e) /\ entry_tag s g m u Ex i e (addr_code e) /\ entry_tag s g m u Wr i e (addr_write e).

(** Every translation in the cache is the one of the registers [g] and the tables [m]. *)
Record cached s g m : Prop := Cached {
  ca_ram : ram0 s;
  ca_holds : holds s m;
  ca_shape : tlb_shape (tlb_table s);
  ca_te : forall u i e, te_at (tlb_table s) u i = Some e -> cached_te s g m u i e
}.

Lemma cached_te_as s s' g g' m m' u i e :
  (forall va, lookup g' m' va = lookup g m va) -> (forall p k, allowed g' p u k = allowed g p u k) ->
  length (phys_ram s') = length (phys_ram s) -> cached_te s g m u i e -> cached_te s' g' m' u i e.
Proof using Type.
  intros Hl Ha El (H1 & H2 & H3).
  assert (forall k tag, entry_tag s g m u k i e tag -> entry_tag s' g' m' u k i e tag) as Hk.
  { intros k tag [->|(va & p & [? ? ? ? ? ?] & Htag)]; [by left|]. right. exists va, p. split; [|done].
    split; rewrite ?Hl, ?Ha, ?El; done. }
  split; [|split]; by apply Hk.
Qed.

Lemma cached_no_entry s g m u i e : cached_te s g m u i (no_entry e).
Proof using Type. split; [|split]; by left. Qed.

(** ** The page of an address *)

Definition offset_by (o : Z) (p : mapping) : mapping := Mapping (mp_phys p + o) (mp_user p) (mp_rw p) (mp_nx p).

Lemma page_frame a n : is_u32 a -> 12 <= n -> page_of a / 2 ^ n = a / 2 ^ n.
Proof using Type. intros Ha Hn. apply frame_div; [done|]. by apply page_of_div; [|left]. Qed.
Lemma page_offset a n : is_u32 a -> 12 <= n <= 32 -> page_of a mod 2 ^ n + a mod 4096 = a mod 2 ^ n.
Proof using Type.
  intros Ha Hn. destruct (virt_large a n Ha Hn) as [_ E]. replace (2 ^ n - 1) with (Z.ones n) in E by (rewrite Z.ones_equiv; lia).
  rewrite Z.land_ones in E by lia. lia.
Qed.

Lemma lookup_page g m a : is_u32 a ->
  lookup g m a = match lookup g m (page_of a) with inl c => inl c | inr p => inr (offset_by (a mod 4096) p) end.
Proof using Type.
  intros Ha. unfold lookup, lookup32, lookup64, large_page, small_page.
  assert (pde32_at g (page_of a) = pde32_at g a) as -> by (unfold pde32_at; by rewrite page_frame).
  assert (pdpe_at g (page_of a) = pdpe_at g a) as -> by (unfold pdpe_at; by rewrite page_frame).
  assert (forall e, pte32_at g e (page_of a) = pte32_at g e a) as Et by (intros e; unfold pte32_at; by rewrite page_of_div; [| |left]).
  assert (forall e, pde64_at g e (page_of a) = pde64_at g e a) as -> by (intros e; unfold pde64_at; by rewrite page_frame).
  assert (forall e, pte64_at g e (page_of a) = pte64_at g e a) as Et' by (intros e; unfold pte64_at; by rewrite page_of_div; [| |left]).
  rewrite !Et, !Et'. rewrite page_of_mod, page_of_div by (done || by left).
  repeat case_match; try done; simplify_eq; unfold offset_by; cbn [mp_phys mp_user mp_rw mp_nx]; do 2 f_equal;
    rewrite <- ?(page_offset a 21 Ha), <- ?(page_offset a 22 Ha) by lia; lia.
Qed.

Lemma land_page_aligned x k : is_u32 x -> Z.land (page_of x) k mod 4096 = 0.
Proof using Type.
  intros Hx. unfold page_of. rewrite <- Z.land_assoc, (Z.land_comm TARGET_PAGE_MASK), Z.land_assoc. fold (page_of (Z.land x k)).
  apply page_of_mod. by apply land_u32.
Qed.

(** The page a leaf leads to. *)
Lemma leaf_page g addr p pte ptep size va : is_u32 addr -> a20_ok g -> leaf_maps g addr p pte ptep size va ->
  addr mod 4096 <= mp_phys p /\ (mp_phys p - addr mod 4096) mod 4096 = 0.
Proof using Type.
  intros Ha Hg [Hf _ _ _]. rewrite <- Hf.
  assert (is_u32 (Z.land pte (a20_mask g))) as Hu by (rewrite Z.land_comm; apply land_u32; destruct Hg as [-> | ->]; by unfold is_u32).
  pose proof (page_of_range _ Hu) as Hp. pose proof (page_of_mod _ Hu) as Hm. pose proof (land_page_aligned addr (size - 1) Ha) as Hm2.
  pose proof (land_u32 (page_of addr) (size - 1) (page_of_range _ Ha)) as Hl. unfold is_u32 in Hp, Hl. split; [lia|].
  by rewrite Z.add_mod, Hm, Hm2 by lia.
Qed.

Lemma do_mapping_ok s g addr u p pte ptep size va prot :
  ram0 s -> tlb_shape (tlb_table s) -> is_u32 addr -> a20_ok g -> leaf_maps g addr p pte ptep size va ->
  mp_phys p < Z.of_nat (length (phys_ram s)) ->
  exists t, do_mapping g addr u pte prot size va s = Ok Filled (set_tlb t s) /\ tlb_shape t /\
    forall u' i', te_at t u' i' =
      if decide (u' = u /\ i' = tlb_index addr)
      then Some (ram_entry (page_of addr) (mp_phys p - addr mod 4096) prot (page_clean s (mp_phys p - addr mod 4096)))
      else te_at (tlb_table s) u' i'.
Proof using Type.
  intros H Hs Ha Hg Hl Hp. destruct (leaf_page _ _ _ _ _ _ _ Ha Hg Hl) as [Hle Hal]. pose proof (Z.mod_pos_bound addr 4096 ltac:(lia)).
  destruct (tlb_set_ok s (page_of addr) (mp_phys p - addr mod 4096) prot u H Hs Hal) as (t & E & Ht & Hte); [lia|].
  exists t. split; [|split; [done|]].
  - unfold do_mapping. destruct Hl as [Hf Hv _ _]. rewrite Hf, Hv, (u32_small (page_of addr)) by (by apply page_of_range).
    rewrite u32_small by (unfold is_u32; destruct H as [[? ? Hr32 ? ? ?] _]; lia). by rewrite (bind_ok _ _ _ _ _ E).
  - intros u' i'. rewrite Hte, tlb_index_page by done. done.
Qed.

(** The protection of an entry follows the rights. *)
Definition prot_ok g (p : mapping) (u : bool) (prot : Z) : Prop :=
  allows prot PAGE_READ = true /\ (allows prot PAGE_EXEC = true -> mp_nx p = false) /\
  (allows prot PAGE_WRITE = true -> mp_rw p || (negb u && negb (Z.testbit (cr0 g) 16)) = true).

Lemma leaf_prot_rights g addr p pte ptep size va u : leaf_maps g addr p pte ptep size va -> prot_ok g p u (leaf_prot g u pte ptep).
Proof using Type.
  intros [_ _ Hw Hx]. unfold prot_ok, leaf_prot. rewrite Hw, Hx. change CR0_WP_MASK with (2 ^ 16). rewrite bit_testbit by lia.
  destruct (mp_nx p), (bit pte PG_DIRTY_MASK), u, (mp_rw p), (Z.testbit (cr0 g) 16); done.
Qed.

Lemma new_entry_ok s g m addr u k p prot clean :
  ram0 s -> is_u32 addr -> lookup g m addr = inr p -> allowed g p u k = true -> prot_ok g p u prot ->
  addr mod 4096 <= mp_phys p < Z.of_nat (length (phys_ram s)) ->
  cached_te s g m u (tlb_index addr) (ram_entry (page_of addr) (mp_phys p - addr mod 4096) prot clean).
Proof using Type.
  intros H Ha Hl Hall (Pr & Px & Pw) Hin. pose proof (Z.mod_pos_bound addr 4096 ltac:(lia)).
  rewrite lookup_page in Hl by done. destruct (lookup g m (page_of addr)) as [c|q] eqn:Eq; [done|]. injection Hl as <-.
  cbn [mp_phys mp_user mp_rw mp_nx offset_by] in *.
  assert (forall k', allowed g (offset_by (addr mod 4096) q) u k' = allowed g q u k') as Eall by done. rewrite Eall in Hall.
  replace (mp_phys q + addr mod 4096 - addr mod 4096) with (mp_phys q) by lia.
  assert (implb u (mp_user q) = true) as Hu by (unfold allowed in Hall; by destruct (implb u (mp_user q))).
  set (en := ram_entry _ _ _ _).
  assert (addr_read en = page_of addr) as E1 by (unfold en, ram_entry; by rewrite Pr).
  assert (addr_code en = if allows prot PAGE_EXEC then page_of addr else u32 (-1)) as E2 by done.
  assert (addr_write en = if allows prot PAGE_WRITE then (if clean then Z.lor (page_of addr) IO_MEM_NOTDIRTY else page_of addr)
    else u32 (-1)) as E3 by done.
  assert (forall k', allowed g q u k' = true -> entry_page s g m u k' (tlb_index addr) en (page_of addr) q) as Hen.
  { intros k' Hk'. split; [|by apply tlb_index_page|done|done|lia|done]. split; [by apply page_of_range|by apply page_of_mod]. }
  clearbody en. unfold cached_te. rewrite E1, E2, E3. split; [|split].
  - right. exists (page_of addr), q. split; [|by left]. apply Hen. unfold allowed. by rewrite Hu.
  - destruct (allows prot PAGE_EXEC) eqn:E; [|by left]. right. exists (page_of addr), q. split; [|by left].
    apply Hen. unfold allowed. rewrite Hu, (Px eq_refl). done.
  - destruct (allows prot PAGE_WRITE) eqn:E; [|by left]. right. exists (page_of addr), q. split; [|by destruct clean; [right|left]].
    apply Hen. unfold allowed. rewrite Hu, (Pw eq_refl). done.
Qed.

(** ** The handler *)

Lemma lookup_codes g m addr c : lookup g m addr = inl c -> c = 0 \/ c = 8.
Proof using Type. unfold lookup, lookup32, lookup64. intros E. repeat case_match; simplify_eq; tauto. Qed.

Lemma do_fault_codes g addr k u c : c = 0 \/ c = 1 \/ c = 8 ->
  do_fault g addr (access_code k) u c =
    Faulted addr (c + Z.b2z (is_wr k) * 2 + Z.b2z u * 4 + Z.b2z (is_ex k && Z.testbit (efer g) 11 && Z.testbit (cr4 g) 5) * 16).
Proof using Type.
  intros Hc. unfold do_fault. change MSR_EFER_NXE with (2 ^ 11). change CR4_PAE_MASK with (2 ^ 5). rewrite !bit_testbit by lia.
  destruct Hc as [-> |[-> | ->]], k, u, (Z.testbit (efer g) 11), (Z.testbit (cr4 g) 5); done.
Qed.

Lemma walk_modes s m g addr u k :
  ram0 s -> holds s m -> is_u32 (cr3 g) -> a20_ok g -> Z.testbit (cr0 g) 31 = true -> walk_in s g m addr ->
  walks s m (if bit (cr4 g) CR4_PAE_MASK then walk_pae g addr u (is_wr k) (is_ex k) else walk32 g addr u (is_wr k))
    (walk_result g addr u k (lookup g m addr)).
Proof using Type.
  intros H Hm Hc Hg Hon [Ha Ht _]. specialize (Ht Hon). change CR4_PAE_MASK with (2 ^ 5). rewrite bit_testbit by lia.
  unfold lookup. rewrite Hon. cbn [negb]. destruct (Z.testbit (cr4 g) 5); [by apply walk64_modes|by apply walk32_modes].
Qed.

(** Filling an entry keeps the cache true. *)
Lemma fill_cached s s1 g m m1 addr u k p prot t :
  cached s g m -> ram0 s1 -> holds s1 m1 -> same_tables m m1 -> length (phys_ram s1) = length (phys_ram s) ->
  tlb_table s1 = tlb_table s -> is_u32 addr -> lookup g m addr = inr p -> allowed g p u k = true -> prot_ok g p u prot ->
  addr mod 4096 <= mp_phys p < Z.of_nat (length (phys_ram s)) -> tlb_shape t ->
  (forall u' i', te_at t u' i' =
      if decide (u' = u /\ i' = tlb_index addr)
      then Some (ram_entry (page_of addr) (mp_phys p - addr mod 4096) prot (page_clean s1 (mp_phys p - addr mod 4096)))
      else te_at (tlb_table s1) u' i') -> cached (set_tlb t s1) g m1.
Proof using Type.
  intros [_ _ _ Hte] H1 Hm1 Hs El Et Ha Hl Hall Hp Hin Ht Hte'. split; [by apply ram0_tlb|done|done|].
  intros u' i' e He. cbn [tlb_table set_tlb] in He. rewrite Hte' in He.
  assert (forall va, lookup g m1 va = lookup g m va) as Hlk by (intros va; symmetry; by apply lookup_proper).
  case_decide as Hd.
  - destruct Hd as [-> ->]. injection He as <-.
    pose proof (new_entry_ok s1 g m1 addr u k p prot (page_clean s1 (mp_phys p - addr mod 4096)) H1 Ha) as Hn.
    rewrite Hlk, El in Hn. specialize (Hn Hl Hall Hp Hin). by apply (cached_te_as s1 (set_tlb t s1) g g m1 m1).
  - rewrite Et in He. apply (cached_te_as s _ g g m m1); try done. by apply Hte.
Qed.

Lemma handler_ok s g m addr k u :
  cached s g m -> is_u32 (cr3 g) -> a20_ok g -> walk_in s g m addr ->
  exists s' m', cpu_x86_handle_mmu_fault g addr (access_code k) u s = Ok (outcome g m addr u k) s' /\ same_tables m m' /\
    cached s' g m' /\ length (phys_ram s') = length (phys_ram s).
Proof using Type.
  intros Hca Hc Hg Hw. pose proof Hca as [H Hm Hs _]. pose proof (wi_addr _ _ _ _ Hw) as Ha.
  pose proof (Z.mod_pos_bound addr 4096 ltac:(lia)) as Hmod.
  assert (negb (Z.land (access_code k) 1 =? 0) = is_wr k) as Ew by (by destruct k).
  assert ((access_code k =? 2) = is_ex k) as Ex' by (by destruct k).
  unfold cpu_x86_handle_mmu_fault. rewrite Ew, Ex'. change CR0_PG_MASK with (2 ^ 31). rewrite bit_testbit by lia.
  destruct (Z.testbit (cr0 g) 31) eqn:Hon; cbn [negb].
  - destruct (walk_modes s m g addr u k H Hm Hc Hg Hon Hw) as (l & r & m1 & E & El & H1 & Hm1 & Hsm & Hr).
    rewrite (bind_ok _ _ _ _ _ E). unfold walk_result in Hr. unfold outcome.
    assert (forall c, c = 0 \/ c = 1 \/ c = 8 -> l = inl c ->
      exists s' m', (match l with inl c => ret (do_fault g addr (access_code k) u c) |
          inr (pte, ptep, size, va) => do_mapping g addr u pte (leaf_prot g u pte ptep) size va end) (set_ram r s) =
        Ok (Faulted addr (c + Z.b2z (is_wr k) * 2 + Z.b2z u * 4 + Z.b2z (is_ex k && Z.testbit (efer g) 11 && Z.testbit (cr4 g) 5) * 16)) s' /\
        same_tables m m' /\ cached s' g m' /\ length (phys_ram s') = length (phys_ram s)) as Hfault.
    { intros c Hcc ->. exists (set_ram r s), m1. rewrite do_fault_codes by done. split; [done|]. split; [done|]. split; [|done].
      split; [done|done|done|]. intros u' i' e He. apply (cached_te_as s _ g g m m1); try done.
      - intros va. symmetry. by apply lookup_proper.
      - by apply (ca_te _ _ _ Hca). }
    destruct (lookup g m addr) as [c|p] eqn:Elk; [apply Hfault; [|done]; pose proof (lookup_codes _ _ _ _ Elk); tauto|].
    destruct (allowed g p u k) eqn:Hall; [|apply Hfault; [tauto|done]].
    destruct Hr as (pte & ptep & size & va & -> & Hlm). destruct (leaf_page _ _ _ _ _ _ _ Ha Hg Hlm) as [Hle _].
    pose proof (wi_page _ _ _ _ Hw p Elk) as Hin.
    destruct (do_mapping_ok (set_ram r s) g addr u p pte ptep size va (leaf_prot g u pte ptep) H1 Hs Ha Hg Hlm) as (t & Et & Ht & Hte);
      [cbn [phys_ram set_ram]; lia|].
    exists (set_tlb t (set_ram r s)), m1. split; [exact Et|]. split; [done|]. split; [|done].
    apply (fill_cached s (set_ram r s) g m m1 addr u k p (leaf_prot g u pte ptep)); try done. by eapply leaf_prot_rights.
  - assert (lookup g m addr = inr (Mapping (gate g (addr / 4096 * 4096) + addr mod 4096) true true false)) as Elk
      by (unfold lookup; by rewrite Hon).
    pose proof (wi_page _ _ _ _ Hw _ Elk) as Hin. set (p := Mapping _ _ _ _) in *.
    assert (leaf_maps g addr p addr (Z.lor (Z.lor PAGE_READ 0) 2) 4096 (page_of addr)) as Hlm.
    { destruct (virt_large addr 12 Ha ltac:(lia)) as [_ Ho]. change (2 ^ 12) with 4096 in Ho.
      split; [| |done|done].
      - cbn [mp_phys p]. rewrite gate_page by done. change (4096 - 1) with (4096 - 1). rewrite Ho. lia.
      - rewrite Ho. lia. }
    destruct (leaf_page _ _ _ _ _ _ _ Ha Hg Hlm) as [Hle _].
    destruct (do_mapping_ok s g addr u p addr _ 4096 (page_of addr) (Z.lor PAGE_READ (Z.lor PAGE_WRITE PAGE_EXEC)) H Hs Ha Hg Hlm Hin)
      as (t & Et & Ht & Hte).
    assert (allowed g p u k = true) as Hall by (by destruct u, k).
    exists (set_tlb t s), m. unfold outcome. rewrite Elk, Hall. split; [exact Et|]. split; [done|]. split; [|done].
    by apply (fill_cached s s g m m addr u k p (Z.lor PAGE_READ (Z.lor PAGE_WRITE PAGE_EXEC))).
Qed.

(** ** Flushes *)

Lemma flush_cached s g m :
  ram0 s -> holds s m -> tlb_shape (tlb_table s) -> cached (set_tlb (map (map no_entry) (tlb_table s)) s) g m.
Proof using Type.
  intros H Hm Hs. split; [by apply ram0_tlb|done|by apply tlb_shape_map|]. intros u i e He.
  cbn [tlb_table set_tlb] in He. rewrite te_at_map in He. destruct (te_at (tlb_table s) u i); [|done]. injection He as <-.
  apply cached_no_entry.
Qed.

Lemma flush_page_cached s g m a : cached s g m -> exists s', tlb_flush_page a s = Ok tt s' /\ cached s' g m /\ s' = set_tlb (tlb_table s') s.
Proof using Type.
  intros [H Hm Hs Hte].
  destruct (upd_both_ok s (tlb_index (page_of a)) (tlb_flush_entry (page_of a)) Hs (tlb_index_range _)) as (t & E & Hsh & Hta).
  exists (set_tlb t s). split; [exact E|]. split; [|done]. split; [by apply ram0_tlb|done|done|].
  intros u i e He. cbn [tlb_table set_tlb] in He. rewrite Hta in He.
  destruct (te_at (tlb_table s) u i) as [e0|] eqn:E0; [|done]. cbn in He. injection He as <-.
  assert (cached_te (set_tlb t s) g m u i e0) as Hok by (apply (cached_te_as s _ g g m m); try done; by apply Hte).
  case_decide; [|done]. unfold tlb_flush_entry. destruct (_ || _); [apply cached_no_entry|done].
Qed.

(** ** What keeps a translation *)

Lemma lookup_regs g g' m a :
  cr3 g' = cr3 g -> a20_mask g' = a20_mask g -> efer g' = efer g -> Z.testbit (cr0 g') 31 = Z.testbit (cr0 g) 31 ->
  Z.testbit (cr4 g') 4 = Z.testbit (cr4 g) 4 -> Z.testbit (cr4 g') 5 = Z.testbit (cr4 g) 5 -> lookup g' m a = lookup g m a.
Proof using Type.
  intros E3 Ea Ee E0 E4 E5. assert (forall x, gate g' x = gate g x) as Eg by (intros x; unfold gate; by rewrite Ea).
  unfold lookup, lookup32, lookup64, pde32_at, pte32_at, pdpe_at, pde64_at, pte64_at, reserved, small_page.
  by rewrite E0, E4, E5, E3, Ee, !Eg, ?Eg.
Qed.

Lemma lookup_off g g' m a : Z.testbit (cr0 g) 31 = false -> Z.testbit (cr0 g') 31 = false -> a20_mask g' = a20_mask g ->
  lookup g' m a = lookup g m a.
Proof using Type. intros H H' E. unfold lookup, gate. by rewrite H, H', E. Qed.

Lemma cached_regs s g g' m :
  (forall a, lookup g' m a = lookup g m a) -> Z.testbit (cr0 g') 16 = Z.testbit (cr0 g) 16 -> cached s g m -> cached s g' m.
Proof using Type.
  intros Hl E [H Hm Hs Hte]. split; try done. intros u i e He. apply (cached_te_as s s g g' m m); try done; [|by apply Hte].
  intros p k. unfold allowed. by rewrite E.
Qed.

Lemma walk_in_same s s' g m m' addr :
  same_tables m m' -> length (phys_ram s') = length (phys_ram s) -> walk_in s g m addr -> walk_in s' g m' addr.
Proof using Type.
  intros Hs El [Ha Ht Hp]. split; [done| |].
  - intros Hon. specialize (Ht Hon). unfold tables64, tables32, in_ram, in_ram8, present in *. rewrite El.
    assert (pde64_at g (m' (pdpe_at g addr)) addr = pde64_at g (m (pdpe_at g addr)) addr) as -> by (unfold pde64_at; by rewrite (same_frame m m' _ Hs)).
    assert (forall a, pte64_at g (m' a) addr = pte64_at g (m a) addr) as E1 by (intros a; unfold pte64_at; by rewrite (same_frame m m' _ Hs)).
    assert (forall a, pte32_at g (m' a) addr = pte32_at g (m a) addr) as E2 by (intros a; unfold pte32_at; by rewrite (same_frame m m' _ Hs)).
    destruct (Z.testbit (cr4 g) 5); rewrite !(same_bit m m') by (done || lia); by rewrite ?E1, ?E2.
  - intros p. rewrite El, <- (lookup_proper g m m' Hs addr addr eq_refl). apply Hp.
Qed.

(** ** The 32-bit mode with the A20 line on *)

Lemma lookup_translate g m a : regs_ok g ->
  lookup g m a = match translate g m a with Some x => inr (Mapping (x_phys x) (x_user x) (x_rw x) false) | None => inl 0 end.
Proof using Type.
  intros [_ Ha Hon Hp]. change CR0_PG_MASK with (2 ^ 31) in Hon. change CR4_PAE_MASK with (2 ^ 5) in Hp. rewrite bit_testbit in Hon, Hp by lia.
  assert (forall x, gate g x = x) as Eg by (intros x; unfold gate; by rewrite Ha).
  unfold lookup, translate, lookup32, present, is_large, pde32_at, pte32_at, pde_at, pte_at. rewrite Hon, Hp, !Eg. cbn [negb].
  repeat case_match; try done. unfold small_page. by rewrite Eg.
Qed.

(** There, what is coherent with the tables ([coherent], SoftTlb) is cached in this sense. *)
Lemma coherent_cached s g m : regs_ok g -> coherent s g m -> cached s g m.
Proof using Type.
  intros Hg [H Hm Hs Hte]. split; try done. intros u i e He. destruct (Hte u i e He) as (H1 & H2 & H3 & _).
  assert (forall k tag, tag_ok s g m u (is_wr k) i e tag -> entry_tag s g m u k i e tag) as Hk.
  { intros k tag [->|(va & x & [Hv Hi _ Hx Hp Hin Hadd] & Htag)]; [by left|]. right.
    exists va, (Mapping (x_phys x) (x_user x) (x_rw x) false). split; [|done]. split; try done.
    - by rewrite lookup_translate, Hx.
    - revert Hp. unfold permitted, allowed. cbn [mp_user mp_rw mp_nx]. intros ->. by destruct k. }
  split; [|split]; by apply Hk.
Qed.

(** ** The line and large pages *)

(** The A20 line does not hold bit 20 of an address in a large page: the mask reaches
    the frame and not the offset. *)
Lemma large_page_skips_a20 n e high addr : n = 21 \/ n = 22 -> 0 <= addr ->
  Z.testbit (mp_phys (large_page n e high addr)) 20 = Z.testbit addr 20.
Proof using Type.
  intros Hn Ha. cbn [mp_phys large_page]. pose proof (Z.mod_pos_bound addr (2 ^ n) ltac:(lia)) as Hb.
  rewrite <- lor_shiftl_add by lia. rewrite Z.lor_spec, Z.shiftl_spec_low by lia. cbn [orb]. apply Z.mod_pow2_bits_low. lia.
Qed.

End Modes.

(** A page of 64-bit tables at 0x1000, 0x2000 and 0x3000 that only the supervisor may
    write and nobody may execute; with the A20 line off, its frame 0x101000 is frame
    0x1000. *)
Definition demo_pae (a : Z) : Z :=
  if a =? 0x1000 then 0x2001 else if a =? 0x2010 then 0x3007 else if a =? 0x3028 then 0x101003 else if a =? 0x302c then 0x80000000 else 0.

Example pae_lookup :
  lookup (Paging 0x80000001 0x1000 0x20 0xffffffff 0x800) demo_pae 0x405123 = inr (Mapping 0x101123 false true true) /\
  lookup (Paging 0x80000001 0x1000 0x20 0xffefffff 0x800) demo_pae 0x405123 = inr (Mapping 0x1123 false true true) /\
  lookup (Paging 0x80000001 0x1000 0x20 0xffffffff 0) demo_pae 0x405123 = inl 8 /\
  outcome (Paging 0x80000001 0x1000 0x20 0xffffffff 0x800) demo_pae 0x405123 false Ex = Faulted 0x405123 0x11.
Proof. by vm_compute. Qed.
