(* ===== verification/X86Cr.v ===== *)
(** The control registers of the emulated processor and its reset,
    src/sysvm/target-i386/helper2.c, and the A20 line, src/sysvm/hw/pc.c: no order
    of writes leaves a translation in the cache that the registers no longer give. *)
From S2P Require Import Prelude Layout CcFlags X86 PhysMem PhysRam X86Mmu X86Walk X86Page SoftMmu SoftTlb SoftAccess X86Modes.

Close Scope x86_scope.
Open Scope micron_scope.

Definition HF_PE_SHIFT : Z := 7.
Definition HF_PE_MASK : Z := 0x80.
Definition HF_SOFTMMU_MASK : Z := 0x4.
Definition HF_MP_SHIFT : Z := 9.
Definition HF_MP_MASK : Z := 0x200.
Definition HF_EM_MASK : Z := 0x400.
Definition HF_OSFXSR_MASK : Z := 0x10000.
Definition CR0_ET_MASK : Z := 0x10.
Definition CR4_OSFXSR_MASK : Z := 0x200.

(** [CPUX86State] with the memory of exec.c, the mask of the A20 line, [efer] and
    whether [cpuid_features] has SSE. *)
Record env (D : Type) := Env { e_cpu : cpu (vmem D); e_a20 : Z; e_efer : Z; e_sse : bool }.
Arguments Env {D}. Arguments e_cpu {D}. Arguments e_a20 {D}. Arguments e_efer {D}. Arguments e_sse {D}.

Section Cr.
Context {D : Type}.
Implicit Types (e : env D).
Abbreviation E := (M (env D)).

Definition upd_cpu (f : cpu (vmem D) -> cpu (vmem D)) : E unit :=
  modify (fun e => Env (f (e_cpu e)) (e_a20 e) (e_efer e) (e_sse e)).
(** [tlb_flush(env, flush_global)] on the memory of the processor. *)
Definition flush_mem (m : vmem D) : vmem D := set_tlb (map (map no_entry) (tlb_table m)) m.
Definition env_tlb_flush : E unit := upd_cpu (fun c => set_mem (flush_mem (mem c)) c).

(** [cpu_x86_set_a20(env, a20_state)] *)
Definition cpu_x86_set_a20 (a20_state : Z) : E unit :=
  let a20_state := Z.b2z (negb (a20_state =? 0)) in
  e <- get ;;
  if negb (a20_state =? Z.land (Z.shiftr (e_a20 e) 20) 1) then
    env_tlb_flush ;;;
    modify (fun e => Env (e_cpu e) (Z.lor 0xffefffff (Z.shiftl a20_state 20)) (e_efer e) (e_sse e))
  else ret tt.
(** [ioport_get_a20()], [ioport92_write(opaque, addr, val)], [ioport92_read(opaque, addr)] *)
Definition ioport_get_a20 : E Z := e <- get ;; ret (Z.land (Z.shiftr (e_a20 e) 20) 1).
Definition ioport92_write (val : Z) : E unit := cpu_x86_set_a20 (Z.land (Z.shiftr val 1) 1).
Definition ioport92_read : E Z := a <- ioport_get_a20 ;; ret (Z.shiftl a 1).

(** [cpu_x86_update_cr0(env, new_cr0)] *)
Definition cr0_hflags (c new_cr0 hf : Z) : Z :=
  let pe_state := Z.land c CR0_PE_MASK in
  let hf := Z.lor (without hf HF_PE_MASK) (Z.shiftl pe_state HF_PE_SHIFT) in
  let hf := Z.lor hf (Z.shiftl (Z.lxor pe_state 1) HF_ADDSEG_SHIFT) in
  let fpu := Z.lor HF_MP_MASK (Z.lor HF_EM_MASK HF_TS_MASK) in
  Z.lor (without hf fpu) (Z.land (u32 (Z.shiftl new_cr0 (HF_MP_SHIFT - 1))) fpu).
Definition cpu_x86_update_cr0 (new_cr0 : Z) : E unit :=
  e <- get ;;
  let mask := Z.lor CR0_PG_MASK (Z.lor CR0_WP_MASK CR0_PE_MASK) in
  (if negb (Z.land new_cr0 mask =? Z.land (c_cr0 (crs (e_cpu e))) mask) then env_tlb_flush else ret tt) ;;;
  let c := Z.lor new_cr0 CR0_ET_MASK in
  upd_cpu (set_cr0 c) ;;;
  upd_cpu (fun s => set_hflags (cr0_hflags c new_cr0 (hflags s)) s).

(** [cpu_x86_update_cr3(env, new_cr3)] *)
Definition cpu_x86_update_cr3 (new_cr3 : Z) : E unit :=
  upd_cpu (set_cr3 new_cr3) ;;;
  e <- get ;;
  if bit (c_cr0 (crs (e_cpu e))) CR0_PG_MASK then env_tlb_flush else ret tt.

(** [cpu_x86_update_cr4(env, new_cr4)] *)
Definition cpu_x86_update_cr4 (new_cr4 : Z) : E unit :=
  e <- get ;;
  let mask := Z.lor CR4_PGE_MASK (Z.lor CR4_PAE_MASK CR4_PSE_MASK) in
  (if negb (Z.land new_cr4 mask =? Z.land (c_cr4 (crs (e_cpu e))) mask) then env_tlb_flush else ret tt) ;;;
  let v := if negb (e_sse e) then without new_cr4 CR4_OSFXSR_MASK else new_cr4 in
  upd_cpu (fun s => set_hflags (if bit v CR4_OSFXSR_MASK then Z.lor (hflags s) HF_OSFXSR_MASK else without (hflags s) HF_OSFXSR_MASK) s) ;;;
  upd_cpu (set_cr4 v).

(** [cpu_reset(env)] without the state of the floating point unit; [memset] also
    clears the cache. *)
Definition zero_segs : segments := let z := Sc 0 0 0 0 in Segs z z z z z z.
Definition zero_cpu (m : vmem D) : cpu (vmem D) :=
  let z := Sc 0 0 0 0 in
  Cpu (Gregs 0 0 0 0 0 0 0 0) 0 (Fl 0 0 0 0 0 0) zero_segs (Dts z z z z) (Crs 0 0 0 0) (Exn 0 0 0 0) (Tmps 0 0 0) m.
Definition on_x (m : X (vmem D) unit) : E unit :=
  e <- get ;;
  match m (e_cpu e) with
  | Done _ c => upd_cpu (fun _ => c)
  | _ => stop Panicked
  end.
Definition cpu_reset : E unit :=
  modify (fun e => Env (zero_cpu (set_mwv 0 (set_tlb (map (map (fun _ => Te 0 0 0 0)) (tlb_table (mem (e_cpu e)))) (mem (e_cpu e))))) 0 0 (e_sse e)) ;;;
  env_tlb_flush ;;;
  upd_cpu (fun s => set_hflags (Z.lor (hflags s) HF_SOFTMMU_MASK) s) ;;;
  cpu_x86_update_cr0 0x60000010 ;;;
  modify (fun e => Env (e_cpu e) 0xffffffff (e_efer e) (e_sse e)) ;;;
  upd_cpu (fun s => set_idt (set_sc_limit 0xffff (idt s)) s) ;;;
  upd_cpu (fun s => set_gdt (set_sc_limit 0xffff (gdt s)) s) ;;;
  upd_cpu (fun s => set_ldt (set_sc_flags DESC_P_MASK (set_sc_limit 0xffff (ldt s))) s) ;;;
  upd_cpu (fun s => set_tr (set_sc_flags DESC_P_MASK (set_sc_limit 0xffff (tr s))) s) ;;;
  on_x (cpu_x86_load_seg_cache R_CS 0xf000 0xffff0000 0xffff 0) ;;;
  on_x (cpu_x86_load_seg_cache R_DS 0 0 0xffff 0) ;;;
  on_x (cpu_x86_load_seg_cache R_ES 0 0 0xffff 0) ;;;
  on_x (cpu_x86_load_seg_cache R_SS 0 0 0xffff 0) ;;;
  on_x (cpu_x86_load_seg_cache R_FS 0 0 0xffff 0) ;;;
  on_x (cpu_x86_load_seg_cache R_GS 0 0 0xffff 0) ;;;
  upd_cpu (set_eip 0xfff0) ;;;
  upd_cpu (set_edx 0x600) ;;;
  upd_cpu (set_eflags 0x2).

(** [cpu_x86_flush_tlb(env, addr)] *)
Definition cpu_x86_flush_tlb (addr : Z) : E unit :=
  e <- get ;;
  match tlb_flush_page addr (mem (e_cpu e)) with
  | Ok _ m => upd_cpu (set_mem m)
  | Err f => stop f
  end.
End Cr.

(** * The cache through control writes *)

Definition regs_of {D} (e : env D) : paging :=
  let c := crs (e_cpu e) in Paging (c_cr0 c) (c_cr3 c) (c_cr4 c) (e_a20 e) (e_efer e).

(** The writes of system code that concern translation. *)
Inductive control := WriteCr0 (v : Z) | WriteCr3 (v : Z) | WriteCr4 (v : Z) | SetA20 (state : Z) | Invlpg (addr : Z).
(** A page walk on behalf of an access, or one of the writes. *)
Inductive mmu_op := Control (c : control) | Walk (addr : Z) (k : access) (is_user : bool).

Section Control.
Context {D : Type} {DD : Devices D} {HR : HostRam}.
Implicit Types (e : env D).

Definition run_control (o : control) : M (env D) unit :=
  match o with
  | WriteCr0 v => cpu_x86_update_cr0 v
  | WriteCr3 v => cpu_x86_update_cr3 v
  | WriteCr4 v => cpu_x86_update_cr4 v
  | SetA20 state => cpu_x86_set_a20 state
  | Invlpg addr => cpu_x86_flush_tlb addr
  end.
(** [cpu_x86_handle_mmu_fault(env, addr, is_write1, is_user, 1)] on the processor's
    registers. *)
Definition run_walk (addr : Z) (k : access) (is_user : bool) : M (env D) mmu_result :=
  e <- get ;;
  match cpu_x86_handle_mmu_fault (regs_of e) addr (access_code k) is_user (mem (e_cpu e)) with
  | Ok r m => upd_cpu (set_mem m) ;;; ret r
  | Err f => stop f
  end.
Definition run_op (o : mmu_op) : M (env D) unit :=
  match o with
  | Control c => run_control c
  | Walk addr k is_user => run_walk addr k is_user ;;; ret tt
  end.
Fixpoint run_ops (l : list mmu_op) : M (env D) unit :=
  match l with [] => ret tt | o :: l => run_op o ;;; run_ops l end.

(** CR3 is a 32-bit register, and a walk finds its tables and its page in memory, under
    the registers of its time. *)
Definition op_ok (o : mmu_op) e (m : Z -> Z) : Prop :=
  match o with
  | Control (WriteCr3 v) => is_u32 v
  | Control _ => True
  | Walk addr k is_user => walk_in (mem (e_cpu e)) (regs_of e) m addr
  end.
Fixpoint ops_ok (l : list mmu_op) e (m : Z -> Z) : Prop :=
  match l with
  | [] => True
  | o :: l => op_ok o e m /\ forall e', run_op o e = Ok tt e' -> ops_ok l e' m
  end.

(** The cache is true to the registers, whatever the mode, and to the tables [m]. *)
Record cache_true e (m : Z -> Z) : Prop := CacheTrue {
  ct_cr3 : is_u32 (cr3 (regs_of e));
  ct_a20 : a20_ok (regs_of e);
  ct_cached : cached (mem (e_cpu e)) (regs_of e) m
}.

Lemma flushed_cached (s : vmem D) g g' m : cached s g m -> cached (flush_mem s) g' m.
Proof using Type. intros [H Hm Hs _]. by apply flush_cached. Qed.

Lemma masked_bit a b mask k : Z.land a mask = Z.land b mask -> Z.testbit mask k = true -> Z.testbit a k = Z.testbit b k.
Proof using Type.
  intros E Hm. apply (f_equal (fun z => Z.testbit z k)) in E. by rewrite !Z.land_spec, Hm, !andb_true_r in E.
Qed.

Lemma write_cr0_true e m v : cache_true e m -> exists e', cpu_x86_update_cr0 v e = Ok tt e' /\ cache_true e' m.
Proof using Type.
  intros [Hc Ha Ht]. unfold cpu_x86_update_cr0. msteps. destruct (Z.eqb_spec (Z.land v (Z.lor CR0_PG_MASK (Z.lor CR0_WP_MASK CR0_PE_MASK)))
    (Z.land (c_cr0 (crs (e_cpu e))) (Z.lor CR0_PG_MASK (Z.lor CR0_WP_MASK CR0_PE_MASK)))) as [E|E]; cbn [negb].
  - eexists. split; [reflexivity|]. split; [exact Hc|exact Ha|]. eapply (cached_regs _ (regs_of e)); [| |exact Ht].
    + intros a. apply lookup_regs; try done. cbn [regs_of e_cpu cr0 crs set_hflags set_cr0 c_cr0].
      rewrite Z.lor_spec, orb_false_r. by apply (masked_bit _ _ _ 31 E).
    + cbn [regs_of e_cpu cr0 crs set_hflags set_cr0 c_cr0]. rewrite Z.lor_spec, orb_false_r. by apply (masked_bit _ _ _ 16 E).
  - eexists. split; [reflexivity|]. split; [exact Hc|exact Ha|]. by eapply flushed_cached.
Qed.

Lemma write_cr3_true e m v : is_u32 v -> cache_true e m -> exists e', cpu_x86_update_cr3 v e = Ok tt e' /\ cache_true e' m.
Proof using Type.
  intros Hv [Hc Ha Ht]. unfold cpu_x86_update_cr3, upd_cpu. msteps. change CR0_PG_MASK with (2 ^ 31). rewrite bit_testbit by lia.
  cbn [e_cpu crs set_cr3 c_cr0]. destruct (Z.testbit (c_cr0 (crs (e_cpu e))) 31) eqn:E.
  - eexists. split; [reflexivity|]. split; [exact Hv|exact Ha|]. by eapply flushed_cached.
  - eexists. split; [reflexivity|]. split; [exact Hv|exact Ha|]. eapply (cached_regs _ (regs_of e)); [|done|exact Ht].
    intros a. by apply lookup_off.
Qed.

Lemma write_cr4_true e m v : cache_true e m -> exists e', cpu_x86_update_cr4 v e = Ok tt e' /\ cache_true e' m.
Proof using Type.
  intros [Hc Ha Ht]. unfold cpu_x86_update_cr4. msteps. destruct (Z.eqb_spec (Z.land v (Z.lor CR4_PGE_MASK (Z.lor CR4_PAE_MASK CR4_PSE_MASK)))
    (Z.land (c_cr4 (crs (e_cpu e))) (Z.lor CR4_PGE_MASK (Z.lor CR4_PAE_MASK CR4_PSE_MASK)))) as [E|E]; cbn [negb].
  - eexists. split; [reflexivity|]. split; [exact Hc|exact Ha|]. eapply (cached_regs _ (regs_of e)); [|done|exact Ht].
    assert (forall j, j = 4 \/ j = 5 ->
      Z.testbit (if negb (e_sse e) then without v CR4_OSFXSR_MASK else v) j = Z.testbit (c_cr4 (crs (e_cpu e))) j) as Hj.
    { intros j Hj. rewrite <- (masked_bit _ _ _ j E) by (by destruct Hj as [-> | ->]). destruct (e_sse e); [done|]. cbn [negb].
      unfold without. rewrite Z.land_spec. destruct Hj as [-> | ->]; apply andb_true_r. }
    intros a. apply lookup_regs; try done; apply Hj; tauto.
  - eexists. split; [reflexivity|]. split; [exact Hc|exact Ha|]. by eapply flushed_cached.
Qed.

Lemma set_a20_true e m v : cache_true e m -> exists e', cpu_x86_set_a20 v e = Ok tt e' /\ cache_true e' m.
Proof using Type.
  intros Ht. pose proof Ht as [Hc Ha Hca]. unfold cpu_x86_set_a20. msteps. destruct (negb _); [|by exists e].
  eexists. split; [reflexivity|]. split; [exact Hc| |by eapply flushed_cached].
  unfold a20_ok. cbn [regs_of e_a20 a20_mask]. destruct (negb (v =? 0)); [by left|by right].
Qed.

Lemma invlpg_true e m a : cache_true e m -> exists e', cpu_x86_flush_tlb a e = Ok tt e' /\ cache_true e' m.
Proof using Type.
  intros [Hc Ha Ht]. unfold cpu_x86_flush_tlb. mstep. destruct (flush_page_cached _ _ _ a Ht) as (s' & -> & Ht' & _).
  eexists. split; [reflexivity|]. by split.
Qed.

Lemma run_control_true e m o : op_ok (Control o) e m -> cache_true e m -> exists e', run_control o e = Ok tt e' /\ cache_true e' m.
Proof using Type.
  destruct o; intros Ho Ht; cbn [run_control].
  - by apply write_cr0_true.
  - by apply write_cr3_true.
  - by apply write_cr4_true.
  - by apply set_a20_true.
  - by apply invlpg_true.
Qed.

(** A page walk ends as the registers and tables say, in whatever mode. *)
Lemma run_walk_true e m addr k u :
  walk_in (mem (e_cpu e)) (regs_of e) m addr -> cache_true e m ->
  exists e' m', run_walk addr k u e = Ok (outcome (regs_of e) m addr u k) e' /\ same_tables m m' /\ cache_true e' m' /\
    regs_of e' = regs_of e /\ length (phys_ram (mem (e_cpu e'))) = length (phys_ram (mem (e_cpu e))).
Proof using Type.
  intros Hw [Hc Ha Ht]. destruct (handler_ok _ _ _ addr k u Ht Hc Ha Hw) as (s' & m' & E & Hs & Ht' & El).
  unfold run_walk. mstep. rewrite E. eexists _, m'. split; [reflexivity|]. split; [done|]. split; [by split|done].
Qed.

Lemma ops_ok_same l : forall e m m', same_tables m m' -> ops_ok l e m -> ops_ok l e m'.
Proof using Type.
  induction l as [|o l IH]; intros e m m' Hs H; [done|]. destruct H as [Ho Hl]. split; [|intros e' E; by eapply IH; [|apply Hl]].
  destruct o; [done|]. by apply (walk_in_same (mem (e_cpu e)) _ _ m).
Qed.
End Control.

(** C16: writes to the control registers, switches of the A20 line, flushes of pages and
    page walks, in any order, keep the cache true in every mode: every cached translation
    is the one that the registers give for its page at the moment, by no tables, the
    32-bit tables or the 64-bit ones as CR0.PG and CR4.PAE say, with large pages as
    CR4.PSE says, with the rights that CR0.WP and the no-execute bits leave, and with
    every table entry and small page behind the A20 line.  The walks change the tables in
    accessed and dirty bits only.  (CR4.PGE has no part in it: a flush of this emulator
    spares no global page.) *)
Theorem control_writes_keep_cache {D} `{!Devices D} `{!HostRam} (l : list mmu_op) (e : env D) m :
  cache_true e m -> ops_ok l e m -> exists e' m', run_ops l e = Ok tt e' /\ same_tables m m' /\ cache_true e' m'.
Proof.
  revert e m. induction l as [|o l IH]; intros e m Ht Hl; cbn [run_ops]; [by exists e, m|]. destruct Hl as [Ho Hl].
  assert (exists e1 m1, run_op o e = Ok tt e1 /\ same_tables m m1 /\ cache_true e1 m1) as (e1 & m1 & E & Hs & Ht1).
  { destruct o as [c|addr k u]; cbn [run_op].
    - destruct (run_control_true e m c Ho Ht) as (e1 & E & Ht1). by exists e1, m.
    - destruct (run_walk_true e m addr k u Ho Ht) as (e1 & m1 & E & Hs & Ht1 & _). exists e1, m1.
      by rewrite (bind_ok _ _ _ _ _ E). }
  destruct (IH e1 m1 Ht1) as (e2 & m2 & E2 & Hs2 & Ht2); [by eapply ops_ok_same; [|apply Hl]|].
  exists e2, m2. rewrite (bind_ok _ _ _ _ _ E). split; [done|]. split; [by etransitivity|done].
Qed.

(** * Reset *)

(** The state after a reset: real mode with paging off, the code segment at the top
    of memory, the A20 line on and nothing in the cache; memory and devices are as
    they were. *)
Definition reset_env {D} (e : env D) : env D :=
  let data := Sc 0 0 0xffff 0 in
  let m := mem (e_cpu e) in
  Env (Cpu (Gregs 0 0 0x600 0 0 0 0 0) 0xfff0 (Fl 2 0 0 0 0 (Z.lor HF_SOFTMMU_MASK HF_ADDSEG_MASK))
           (Segs data (Sc 0xf000 0xffff0000 0xffff 0) data data data data)
           (Dts (Sc 0 0 0xffff DESC_P_MASK) (Sc 0 0 0xffff DESC_P_MASK) data data) (Crs 0x60000010 0 0 0) (Exn 0 0 0 0) (Tmps 0 0 0)
           (flush_mem (set_mwv 0 (set_tlb (map (map (fun _ => Te 0 0 0 0)) (tlb_table m)) m))))
      0xffffffff 0 (e_sse e).

Lemma cpu_reset_state {D} (e : env D) : cpu_reset e = Ok tt (reset_env e).
Proof. destruct e as [[? ? ? ? ? ? ? ? [l1 ram dirty io nb t w d]] a ef sse]. vm_compute. reflexivity. Qed.

Lemma reset_cache_empty {D} (e : env D) : tlb_empty (tlb_table (mem (e_cpu (reset_env e)))).
Proof. apply flushed_empty. Qed.

(** * Demonstration *)

Definition demo_env : env unit :=
  let c := zero_cpu demo_tables in Env (set_cr0 0x80000001 (set_cr3 0x1000 (set_cr4 0x10 c))) 0xffffffff 0 true.

(** A walk of the 32-bit tables, the A20 line off and paging off, an access that makes
    an entry for the address itself, and paging on again with other tables. *)
Definition demo_ops : list mmu_op :=
  [Walk 0x405123 Rd true; Control (SetA20 0); Control (WriteCr0 1); Walk 0x100123 Wr false; Control (WriteCr4 0x20); Control (WriteCr3 0x2000);
   Control (WriteCr0 0x80010001); Control (Invlpg 0x405000)].

Lemma demo_true : cache_true demo_env (dw demo_tables).
Proof. split; [by unfold is_u32|by left|]. apply coherent_cached; [by split|apply demo_coherent]. Qed.

Lemma demo_walk_in (s : vmem unit) g m addr : Z.of_nat (length (phys_ram s)) = 16384 -> is_u32 addr ->
  match lookup g m addr with inr p => (mp_phys p <? 16384) = true | inl _ => True end ->
  (Z.testbit (cr0 g) 31 = true -> if Z.testbit (cr4 g) 5 then tables64 s g m addr else tables32 s g m addr) -> walk_in s g m addr.
Proof. intros El Ha Hp Ht. split; [done..|]. intros p E. rewrite E in Hp. apply Z.ltb_lt in Hp. lia. Qed.

Lemma demo_paging_off e1 e2 e3 :
  run_op (Walk 0x405123 Rd true) demo_env = Ok tt e1 -> run_op (Control (SetA20 0)) e1 = Ok tt e2 ->
  run_op (Control (WriteCr0 1)) e2 = Ok tt e3 ->
  Z.of_nat (length (phys_ram (mem (e_cpu e3)))) = 16384 /\ regs_of e3 = Paging 0x11 0x1000 0x10 0xffefffff 0.
Proof.
  intros E1 E2 E3.
  assert (match (run_op (Walk 0x405123 Rd true) ;;; run_op (Control (SetA20 0)) ;;; run_op (Control (WriteCr0 1))) demo_env with
          | Ok _ e => Z.of_nat (length (phys_ram (mem (e_cpu e)))) = 16384 /\ regs_of e = Paging 0x11 0x1000 0x10 0xffefffff 0
          | Err _ => False end) as H by (vm_compute; split; reflexivity).
  rewrite (bind_ok _ _ _ _ _ E1), (bind_ok _ _ _ _ _ E2), E3 in H. exact H.
Qed.

Lemma demo_ops_walks (e : env unit) m :
  walk_in (mem (e_cpu e)) (regs_of e) m 0x405123 ->
  (forall e1 e2 e3, run_op (Walk 0x405123 Rd true) e = Ok tt e1 -> run_op (Control (SetA20 0)) e1 = Ok tt e2 ->
     run_op (Control (WriteCr0 1)) e2 = Ok tt e3 -> walk_in (mem (e_cpu e3)) (regs_of e3) m 0x100123) ->
  ops_ok demo_ops e m.
Proof.
  intros H1 H2. unfold demo_ops. cbn [ops_ok op_ok]. split; [exact H1|]. intros e1 E1. split; [exact I|]. intros e2 E2.
  split; [exact I|]. intros e3 E3. split; [by apply (H2 e1 e2)|]. intros e4 _. split; [exact I|]. intros e5 _.
  split; [by unfold is_u32|]. intros e6 _. split; [exact I|]. intros e7 _. split; [exact I|]. intros e8 _. exact I.
Qed.

Lemma demo_ops_ok : ops_ok demo_ops demo_env (dw demo_tables).
Proof.
  apply demo_ops_walks.
  - apply demo_walk_in; [by vm_compute|by unfold is_u32|by vm_compute|]. intros _.
    change (tables32 demo_tables demo_regs (dw demo_tables) 0x405123).
    split; [vm_compute; split; discriminate|]. intros _ _. vm_compute. split; discriminate.
  - intros e1 e2 e3 E1 E2 E3. destruct (demo_paging_off _ _ _ E1 E2 E3) as [El Er]. rewrite Er. clear -El.
    apply (demo_walk_in _ _ _ _ El).
    + by unfold is_u32.
    + vm_compute. reflexivity.
    + intros Hon. discriminate Hon.
Qed.

Lemma control_writes_keep_cache_witness :
  exists e' m', run_ops demo_ops demo_env = Ok tt e' /\ same_tables (dw demo_tables) m' /\ cache_true e' m' /\
    regs_of e' = Paging 0x80010011 0x2000 0x20 0xffefffff 0.
Proof.
  destruct (control_writes_keep_cache demo_ops demo_env (dw demo_tables) demo_true demo_ops_ok) as (e' & m' & E & Hs & Ht).
  exists e', m'. split; [exact E|]. split; [exact Hs|]. split; [exact Ht|].
  assert (match run_ops demo_ops demo_env with Ok _ e => regs_of e = Paging 0x80010011 0x2000 0x20 0xffefffff 0 | Err _ => False end)
    as H by (vm_compute; reflexivity).
  rewrite E in H. exact H.
Defined.
