(* ===== verification/Ps2.v ===== *)
(** The keyboard and the mouse of the machine emulator, src/sysvm/hw/ps2.c.

    Both devices have a queue of bytes for the controller they are attached to and
    tell it about their data through [update_irq]; [p_host] is the state of that
    controller.  A device is named by a boolean, true for the mouse (the auxiliary
    device).  Saving and loading the state are in Saved.  The packets of a mouse event
    add up to the movement. *)
From S2P Require Import Prelude.


Definition KBD_CMD_SET_LEDS : Z := 0xED.
Definition KBD_CMD_ECHO : Z := 0xEE.
Definition KBD_CMD_GET_ID : Z := 0xF2.
Definition KBD_CMD_SET_RATE : Z := 0xF3.
Definition KBD_CMD_ENABLE : Z := 0xF4.
Definition KBD_CMD_RESET_DISABLE : Z := 0xF5.
Definition KBD_CMD_RESET_ENABLE : Z := 0xF6.
Definition KBD_CMD_RESET : Z := 0xFF.
Definition KBD_REPLY_POR : Z := 0xAA.
Definition KBD_REPLY_ACK : Z := 0xFA.
Definition KBD_REPLY_RESEND : Z := 0xFE.
Definition AUX_SET_SCALE11 : Z := 0xE6.
Definition AUX_SET_SCALE21 : Z := 0xE7.
Definition AUX_SET_RES : Z := 0xE8.
Definition AUX_GET_SCALE : Z := 0xE9.
Definition AUX_SET_STREAM : Z := 0xEA.
Definition AUX_POLL : Z := 0xEB.
Definition AUX_RESET_WRAP : Z := 0xEC.
Definition AUX_SET_WRAP : Z := 0xEE.
Definition AUX_SET_REMOTE : Z := 0xF0.
Definition AUX_GET_TYPE : Z := 0xF2.
Definition AUX_SET_SAMPLE : Z := 0xF3.
Definition AUX_ENABLE_DEV : Z := 0xF4.
Definition AUX_DISABLE_DEV : Z := 0xF5.
Definition AUX_SET_DEFAULT : Z := 0xF6.
Definition AUX_RESET : Z := 0xFF.
Definition AUX_ACK : Z := 0xFA.
Definition MOUSE_STATUS_REMOTE : Z := 0x40.
Definition MOUSE_STATUS_ENABLED : Z := 0x20.
Definition MOUSE_STATUS_SCALE21 : Z := 0x10.
Definition PS2_QUEUE_SIZE : Z := 256.

Record PS2Queue := MkQueue { q_data : list Z; rptr : Z; wptr : Z; q_count : Z }.
Record PS2State := MkPs2State { queue : PS2Queue; write_cmd : Z }.
Record PS2KbdState := MkKbd { k_common : PS2State; scan_enabled : bool; translate : bool }.
Record PS2MouseState := MkMouse {
  m_common : PS2State; mouse_status : Z; mouse_resolution : Z; mouse_sample_rate : Z; mouse_wrap : bool;
  mouse_type : Z; mouse_detect_state : Z; mouse_dx : Z; mouse_dy : Z; mouse_dz : Z; mouse_buttons : Z
}.
Record ps2 (W : Type) := MkPs2 { p_kbd : PS2KbdState; p_mouse : PS2MouseState; p_host : W }.
Arguments MkPs2 {W}. Arguments p_kbd {W}. Arguments p_mouse {W}. Arguments p_host {W}.

Definition ps2_raw_keycode : list Z :=
  [0; 118; 22; 30; 38; 37; 46; 54; 61; 62; 70; 69; 78; 85; 102; 13;
   21; 29; 36; 45; 44; 53; 60; 67; 68; 77; 84; 91; 90; 20; 28; 27;
   35; 43; 52; 51; 59; 66; 75; 76; 82; 14; 18; 93; 26; 34; 33; 42;
   50; 49; 58; 65; 73; 74; 89; 124; 17; 41; 88; 5; 6; 4; 12; 3;
   11; 2; 10; 1; 9; 119; 126; 108; 117; 125; 123; 107; 115; 116; 121; 105;
   114; 122; 112; 113; 127; 96; 97; 120; 7; 15; 23; 31; 39; 47; 55; 63;
   71; 79; 86; 94; 8; 16; 24; 32; 40; 48; 56; 64; 72; 80; 87; 111;
   19; 25; 57; 81; 83; 92; 95; 98; 99; 100; 101; 103; 104; 106; 109; 110].

(** Assignments to the fields. *)
Definition k_set_common c k := MkKbd c (scan_enabled k) (translate k).
Definition k_set_scan b k := MkKbd (k_common k) b (translate k).
Definition m_set_common c m :=
  MkMouse c (mouse_status m) (mouse_resolution m) (mouse_sample_rate m) (mouse_wrap m) (mouse_type m)
    (mouse_detect_state m) (mouse_dx m) (mouse_dy m) (mouse_dz m) (mouse_buttons m).
Definition m_set_status v m :=
  MkMouse (m_common m) v (mouse_resolution m) (mouse_sample_rate m) (mouse_wrap m) (mouse_type m)
    (mouse_detect_state m) (mouse_dx m) (mouse_dy m) (mouse_dz m) (mouse_buttons m).
Definition m_set_rates res rate m :=
  MkMouse (m_common m) (mouse_status m) res rate (mouse_wrap m) (mouse_type m)
    (mouse_detect_state m) (mouse_dx m) (mouse_dy m) (mouse_dz m) (mouse_buttons m).
Definition m_set_wrap b m :=
  MkMouse (m_common m) (mouse_status m) (mouse_resolution m) (mouse_sample_rate m) b (mouse_type m)
    (mouse_detect_state m) (mouse_dx m) (mouse_dy m) (mouse_dz m) (mouse_buttons m).
Definition m_set_type t d m :=
  MkMouse (m_common m) (mouse_status m) (mouse_resolution m) (mouse_sample_rate m) (mouse_wrap m) t
    d (mouse_dx m) (mouse_dy m) (mouse_dz m) (mouse_buttons m).
Definition m_set_motion dx dy dz m :=
  MkMouse (m_common m) (mouse_status m) (mouse_resolution m) (mouse_sample_rate m) (mouse_wrap m) (mouse_type m)
    (mouse_detect_state m) dx dy dz (mouse_buttons m).
Definition m_set_buttons b m :=
  MkMouse (m_common m) (mouse_status m) (mouse_resolution m) (mouse_sample_rate m) (mouse_wrap m) (mouse_type m)
    (mouse_detect_state m) (mouse_dx m) (mouse_dy m) (mouse_dz m) b.

Section Ps2.
(** [s->update_irq(s->update_arg, level)] of the device. *)
Context {W : Type} (update_irq : bool -> Z -> M W unit).

Definition common (aux : bool) (s : ps2 W) : PS2State := if aux then m_common (p_mouse s) else k_common (p_kbd s).
Definition set_common (aux : bool) (c : PS2State) : M (ps2 W) unit :=
  modify (fun s => if aux then MkPs2 (p_kbd s) (m_set_common c (p_mouse s)) (p_host s)
                   else MkPs2 (k_set_common c (p_kbd s)) (p_mouse s) (p_host s)).
Definition set_write_cmd (aux : bool) (v : Z) : M (ps2 W) unit :=
  c <- gets (common aux) ;; set_common aux (MkPs2State (queue c) v).
Definition k_upd (f : PS2KbdState -> PS2KbdState) : M (ps2 W) unit :=
  modify (fun s => MkPs2 (f (p_kbd s)) (p_mouse s) (p_host s)).
Definition m_upd (f : PS2MouseState -> PS2MouseState) : M (ps2 W) unit :=
  modify (fun s => MkPs2 (p_kbd s) (f (p_mouse s)) (p_host s)).
Definition on_host {A} (m : M W A) : M (ps2 W) A := zoom p_host (fun w s => MkPs2 (p_kbd s) (p_mouse s) w) m.

(** ** The queues *)

(** [void ps2_queue(void *opaque, int b)] *)
Definition ps2_queue (aux : bool) (b : Z) : M (ps2 W) unit :=
  c <- gets (common aux) ;;
  let q := queue c in
  if PS2_QUEUE_SIZE <=? q_count q then ret tt else
  d <- of_option OutOfBounds (aset (q_data q) (wptr q) (u8 b)) ;;
  let w := wptr q + 1 in
  set_common aux (MkPs2State (MkQueue d (rptr q) (if w =? PS2_QUEUE_SIZE then 0 else w) (q_count q + 1)) (write_cmd c)) ;;;
  on_host (update_irq aux 1).

(** [uint32_t ps2_read_data(void *opaque)] *)
Definition ps2_read_data (aux : bool) : M (ps2 W) Z :=
  c <- gets (common aux) ;;
  let q := queue c in
  if q_count q =? 0 then
    let index := rptr q - 1 in
    of_option OutOfBounds (aget (q_data q) (if index <? 0 then PS2_QUEUE_SIZE - 1 else index))
  else
    val <- of_option OutOfBounds (aget (q_data q) (rptr q)) ;;
    let r := rptr q + 1 in
    let n := q_count q - 1 in
    set_common aux (MkPs2State (MkQueue (q_data q) (if r =? PS2_QUEUE_SIZE then 0 else r) (wptr q) n) (write_cmd c)) ;;;
    on_host (update_irq aux 0) ;;;
    on_host (update_irq aux (if n =? 0 then 0 else 1)) ;;;
    ret val.

(** [static void ps2_reset(void *opaque)] *)
Definition ps2_reset (aux : bool) : M (ps2 W) unit :=
  c <- gets (common aux) ;;
  set_common aux (MkPs2State (MkQueue (q_data (queue c)) 0 0 0) (-1)).

(** ** Keyboard *)

(** [static void ps2_put_keycode(void *opaque, int keycode)] *)
Definition ps2_put_keycode (keycode : Z) : M (ps2 W) unit :=
  s <- get ;;
  if negb (translate (p_kbd s)) && (keycode <? 0xe0) then
    (if negb (Z.land keycode 0x80 =? 0) then ps2_queue false 0xf0 else ret tt) ;;;
    code <- of_option OutOfBounds (aget ps2_raw_keycode (Z.land keycode 0x7f)) ;;
    ps2_queue false code
  else ps2_queue false keycode.

(** [static void ps2_reset_keyboard(PS2KbdState *s)] *)
Definition ps2_reset_keyboard : M (ps2 W) unit := k_upd (k_set_scan true).

(** [void ps2_write_keyboard(void *opaque, int val)] *)
Definition ps2_write_keyboard (val : Z) : M (ps2 W) unit :=
  s <- get ;;
  let cmd := write_cmd (k_common (p_kbd s)) in
  if (cmd =? KBD_CMD_SET_LEDS) || (cmd =? KBD_CMD_SET_RATE) then
    ps2_queue false KBD_REPLY_ACK ;;; set_write_cmd false (-1)
  else if val =? 0x00 then ps2_queue false KBD_REPLY_ACK
  else if val =? 0x05 then ps2_queue false KBD_REPLY_RESEND
  else if val =? KBD_CMD_GET_ID then
    ps2_queue false KBD_REPLY_ACK ;;; ps2_queue false 0xab ;;; ps2_queue false 0x83
  else if val =? KBD_CMD_ECHO then ps2_queue false KBD_CMD_ECHO
  else if val =? KBD_CMD_ENABLE then k_upd (k_set_scan true) ;;; ps2_queue false KBD_REPLY_ACK
  else if (val =? KBD_CMD_SET_LEDS) || (val =? KBD_CMD_SET_RATE) then
    set_write_cmd false val ;;; ps2_queue false KBD_REPLY_ACK
  else if val =? KBD_CMD_RESET_DISABLE then
    ps2_reset_keyboard ;;; k_upd (k_set_scan false) ;;; ps2_queue false KBD_REPLY_ACK
  else if val =? KBD_CMD_RESET_ENABLE then
    ps2_reset_keyboard ;;; k_upd (k_set_scan true) ;;; ps2_queue false KBD_REPLY_ACK
  else if val =? KBD_CMD_RESET then
    ps2_reset_keyboard ;;; ps2_queue false KBD_REPLY_ACK ;;; ps2_queue false KBD_REPLY_POR
  else ps2_queue false KBD_REPLY_ACK.

(** [void ps2_keyboard_set_translation(void *opaque, int mode)] *)
Definition ps2_keyboard_set_translation (mode : bool) : M (ps2 W) unit :=
  k_upd (fun k => MkKbd (k_common k) (scan_enabled k) mode).

(** ** Mouse *)

(** The range tests on a movement. *)
Definition clamp (lim d : Z) : Z := if lim <? d then lim else if d <? - lim then - lim else d.

(** [static void ps2_mouse_send_packet(PS2MouseState *s)] *)
Definition ps2_mouse_send_packet : M (ps2 W) unit :=
  m <- gets p_mouse ;;
  let dx1 := clamp 127 (mouse_dx m) in
  let dy1 := clamp 127 (mouse_dy m) in
  let b := Z.lor (Z.lor (Z.lor 0x08 (Z.shiftl (if dx1 <? 0 then 1 else 0) 4)) (Z.shiftl (if dy1 <? 0 then 1 else 0) 5))
             (Z.land (mouse_buttons m) 0x07) in
  ps2_queue true b ;;;
  ps2_queue true (Z.land dx1 0xff) ;;;
  ps2_queue true (Z.land dy1 0xff) ;;;
  dz1 <- (if mouse_type m =? 3 then
            let dz1 := clamp 127 (mouse_dz m) in ps2_queue true (Z.land dz1 0xff) ;;; ret dz1
          else if mouse_type m =? 4 then
            let dz1 := clamp 7 (mouse_dz m) in
            ps2_queue true (Z.lor (Z.land dz1 0x0f) (Z.shiftl (Z.land (mouse_buttons m) 0x18) 1)) ;;; ret dz1
          else ret (mouse_dz m)) ;;
  m_upd (fun m => m_set_motion (mouse_dx m - dx1) (mouse_dy m - dy1) (mouse_dz m - dz1) m).

(** The loop of [ps2_mouse_event]. *)
Fixpoint send_packets (fuel : nat) : M (ps2 W) unit :=
  match fuel with
  | O => stop Diverged
  | S fuel =>
      ps2_mouse_send_packet ;;;
      m <- gets p_mouse ;;
      if (mouse_dx m =? 0) && (mouse_dy m =? 0) && (mouse_dz m =? 0) then ret tt else send_packets fuel
  end.

(** [static void ps2_mouse_event(void *opaque, int dx, int dy, int dz, int buttons_state)] *)
Definition ps2_mouse_event (fuel : nat) (dx dy dz buttons_state : Z) : M (ps2 W) unit :=
  m <- gets p_mouse ;;
  if Z.land (mouse_status m) MOUSE_STATUS_ENABLED =? 0 then ret tt else
  m_upd (fun m => m_set_motion (s32 (mouse_dx m + dx)) (s32 (mouse_dy m - dy)) (s32 (mouse_dz m + dz)) m) ;;;
  m <- gets p_mouse ;;
  if (mouse_dx m =? 0) && (mouse_dy m =? 0) && (mouse_dz m =? 0) && (mouse_buttons m =? buttons_state) then ret tt else
  m_upd (m_set_buttons (u8 buttons_state)) ;;;
  m <- gets p_mouse ;;
  if (Z.land (mouse_status m) MOUSE_STATUS_REMOTE =? 0) && (q_count (queue (m_common m)) <? PS2_QUEUE_SIZE - 16)
  then send_packets fuel else ret tt.

(** The case [AUX_SET_SAMPLE] of a data byte: the detection of the wheel. *)
Definition set_sample (val : Z) (m : PS2MouseState) : PS2MouseState :=
  let m := m_set_rates (mouse_resolution m) (u8 val) m in
  let st := mouse_detect_state m in
  if st =? 1 then m_set_type (mouse_type m) (if val =? 100 then 2 else if val =? 200 then 3 else 0) m
  else if st =? 2 then m_set_type (if val =? 80 then 3 else mouse_type m) 0 m
  else if st =? 3 then m_set_type (if val =? 80 then 4 else mouse_type m) 0 m
  else if val =? 200 then m_set_type (mouse_type m) 1 m else m.

(** The commands of [ps2_write_mouse]. *)
Definition mouse_command (val : Z) : M (ps2 W) unit :=
  let ack := ps2_queue true AUX_ACK in
  let status (f : Z -> Z) := m_upd (fun m => m_set_status (u8 (f (mouse_status m))) m) in
  let defaults := m_upd (fun m => m_set_status 0 (m_set_rates 2 100 m)) in
  if val =? AUX_SET_SCALE11 then status (fun v => Z.land v (Z.lnot MOUSE_STATUS_SCALE21)) ;;; ack
  else if val =? AUX_SET_SCALE21 then status (fun v => Z.lor v MOUSE_STATUS_SCALE21) ;;; ack
  else if val =? AUX_SET_STREAM then status (fun v => Z.land v (Z.lnot MOUSE_STATUS_REMOTE)) ;;; ack
  else if val =? AUX_SET_WRAP then m_upd (m_set_wrap true) ;;; ack
  else if val =? AUX_SET_REMOTE then status (fun v => Z.lor v MOUSE_STATUS_REMOTE) ;;; ack
  else if val =? AUX_GET_TYPE then ack ;;; m <- gets p_mouse ;; ps2_queue true (mouse_type m)
  else if (val =? AUX_SET_RES) || (val =? AUX_SET_SAMPLE) then set_write_cmd true val ;;; ack
  else if val =? AUX_GET_SCALE then
    ack ;;; m <- gets p_mouse ;;
    ps2_queue true (mouse_status m) ;;; ps2_queue true (mouse_resolution m) ;;; ps2_queue true (mouse_sample_rate m)
  else if val =? AUX_POLL then ack ;;; ps2_mouse_send_packet
  else if val =? AUX_ENABLE_DEV then status (fun v => Z.lor v MOUSE_STATUS_ENABLED) ;;; ack
  else if val =? AUX_DISABLE_DEV then status (fun v => Z.land v (Z.lnot MOUSE_STATUS_ENABLED)) ;;; ack
  else if val =? AUX_SET_DEFAULT then defaults ;;; ack
  else if val =? AUX_RESET then
    defaults ;;; m_upd (fun m => m_set_type 0 (mouse_detect_state m) m) ;;;
    ack ;;; ps2_queue true 0xaa ;;; m <- gets p_mouse ;; ps2_queue true (mouse_type m)
  else ret tt.

(** [void ps2_write_mouse(void *opaque, int val)] *)
Definition ps2_write_mouse (val : Z) : M (ps2 W) unit :=
  m <- gets p_mouse ;;
  let cmd := write_cmd (m_common m) in
  if cmd =? AUX_SET_SAMPLE then m_upd (set_sample val) ;;; ps2_queue true AUX_ACK ;;; set_write_cmd true (-1)
  else if cmd =? AUX_SET_RES then
    m_upd (fun m => m_set_rates (u8 val) (mouse_sample_rate m) m) ;;; ps2_queue true AUX_ACK ;;; set_write_cmd true (-1)
  else if mouse_wrap m then
    if val =? AUX_RESET_WRAP then m_upd (m_set_wrap false) ;;; ps2_queue true AUX_ACK
    else if negb (val =? AUX_RESET) then ps2_queue true val
    else mouse_command val
  else mouse_command val.
End Ps2.

(** [ps2_kbd_init] and [ps2_mouse_init]: zeroed storage, then [ps2_reset]. *)
Definition new_common : PS2State := MkPs2State (MkQueue (replicate 256 0) 0 0 0) (-1).
Definition ps2_kbd_init : PS2KbdState := MkKbd new_common false false.
Definition ps2_mouse_init : PS2MouseState := MkMouse new_common 0 0 0 false 0 0 0 0 0 0.

(** * The queues as lists of bytes *)

(** The queue holds the bytes [l], oldest first. *)
Record holds (q : PS2Queue) (l : list Z) : Prop := {
  h_len : length (q_data q) = 256%nat;
  h_rptr : 0 <= rptr q < 256;
  h_count : q_count q = Z.of_nat (length l);
  h_cap : (length l <= 256)%nat;
  h_wptr : wptr q = (rptr q + q_count q) mod 256;
  h_at : forall i x, l !! i = Some x -> aget (q_data q) ((rptr q + Z.of_nat i) mod 256) = Some x
}.

(** The pointer after the next. *)
Lemma next_ptr p : 0 <= p < 256 -> (if p + 1 =? PS2_QUEUE_SIZE then 0 else p + 1) = (p + 1) mod 256.
Proof. intros Hp. unfold PS2_QUEUE_SIZE. destruct (Z.eqb_spec (p + 1) 256); Z.div_mod_to_equations; lia. Qed.

Lemma wptr_range q l : holds q l -> 0 <= wptr q < 256.
Proof. intros []. rewrite h_wptr0. by apply Z.mod_pos_bound. Qed.

Lemma holds_push q l b d :
  holds q l -> (length l < 256)%nat -> aset (q_data q) (wptr q) b = Some d ->
  holds (MkQueue d (rptr q) (if wptr q + 1 =? PS2_QUEUE_SIZE then 0 else wptr q + 1) (q_count q + 1)) (l ++ [b]).
Proof.
  intros Hq Hroom Hd. rewrite next_ptr by (by apply (wptr_range q l)). destruct Hq as [Hl Hr Hn Hc Hw Hat].
  split; cbn [q_data rptr wptr q_count]; rewrite ?length_app; cbn [length]; try lia.
  - by rewrite (length_aset _ _ _ _ Hd).
  - rewrite Hw. Z.div_mod_to_equations. lia.
  - intros i x Hx. apply lookup_app_Some in Hx as [Hx | [Hi Hx]].
    + rewrite (aget_aset_ne _ _ _ _ _ Hd); [by apply Hat|]. apply lookup_lt_Some in Hx. rewrite Hw. Z.div_mod_to_equations. lia.
    + apply list_lookup_singleton_Some in Hx as [Hi0 <-]. replace ((rptr q + Z.of_nat i) mod 256) with (wptr q).
      * by apply (aget_aset (q_data q) d).
      * rewrite Hw. f_equal. lia.
Qed.

Lemma holds_pop q x l :
  holds q (x :: l) ->
  aget (q_data q) (rptr q) = Some x /\
  holds (MkQueue (q_data q) (if rptr q + 1 =? PS2_QUEUE_SIZE then 0 else rptr q + 1) (wptr q) (q_count q - 1)) l.
Proof.
  intros [Hl Hr Hn Hc Hw Hat]. cbn [length] in *. split.
  - specialize (Hat 0%nat x eq_refl). by rewrite Z.add_0_r, Z.mod_small in Hat.
  - rewrite next_ptr by done. split; cbn [q_data rptr wptr q_count]; try done; try lia.
    + by apply Z.mod_pos_bound.
    + rewrite Hw. Z.div_mod_to_equations. lia.
    + intros i y Hy. rewrite <- (Hat (S i) y Hy). f_equal. Z.div_mod_to_equations. lia.
Qed.

(** * The contract of a queue *)

(** A bounded queue of bytes that repeats the last byte taken when it is empty. *)
Record fifo := Fifo { bytes : list Z; taken : Z }.
Definition fifo_put (b : Z) (a : fifo) : fifo :=
  if decide (length (bytes a) < 256)%nat then Fifo (bytes a ++ [u8 b]) (taken a) else a.
Definition fifo_take (a : fifo) : Z * fifo :=
  match bytes a with [] => (taken a, a) | x :: l => (x, Fifo l x) end.

Definition represents (q : PS2Queue) (a : fifo) : Prop :=
  holds q (bytes a) /\ ((length (bytes a) < 256)%nat -> aget (q_data q) ((rptr q - 1) mod 256) = Some (taken a)).

(** The two sides of the queue. *)
Inductive queue_op := Put (b : Z) | Take.
Fixpoint fifo_run (ops : list queue_op) (a : fifo) : list Z * fifo :=
  match ops with
  | [] => ([], a)
  | Put b :: ops => fifo_run ops (fifo_put b a)
  | Take :: ops => let '(x, a) := fifo_take a in let '(l, a) := fifo_run ops a in (x :: l, a)
  end.
Fixpoint ps2_run {W} (update_irq : bool -> Z -> M W unit) (aux : bool) (ops : list queue_op) : M (ps2 W) (list Z) :=
  match ops with
  | [] => ret []
  | Put b :: ops => ps2_queue update_irq aux b ;;; ps2_run update_irq aux ops
  | Take :: ops => x <- ps2_read_data update_irq aux ;; l <- ps2_run update_irq aux ops ;; ret (x :: l)
  end.

(** What the controller promises to its devices: in its states [ok] it takes every
    change of the level of a device, and is in such a state again. *)
Class Ps2Host {W : Type} (update_irq : bool -> Z -> M W unit) (ok : W -> Prop) :=
  told : forall aux level w, ok w -> exists w', update_irq aux level w = Ok tt w' /\ ok w'.

Section Queue.
Context {W : Type} (update_irq : bool -> Z -> M W unit) (ok : W -> Prop) `{!Ps2Host update_irq ok}.

(** The state with another queue of the device and another controller. *)
Definition with_queue (aux : bool) (q : PS2Queue) (w : W) (s : ps2 W) : ps2 W :=
  let c := MkPs2State q (write_cmd (common aux s)) in
  if aux then MkPs2 (p_kbd s) (m_set_common c (p_mouse s)) w else MkPs2 (k_set_common c (p_kbd s)) (p_mouse s) w.

Lemma common_with_queue aux q w (s : ps2 W) : queue (common aux (with_queue aux q w s)) = q.
Proof using Type. by destruct aux. Qed.

Lemma put_step aux b s a :
  represents (queue (common aux s)) a -> (length (bytes a) < 256)%nat -> ok (p_host s) ->
  exists q w, update_irq aux 1 (p_host s) = Ok tt w /\ ok w /\
    ps2_queue update_irq aux b s = Ok tt (with_queue aux q w s) /\ represents q (fifo_put b a).
Proof using All.
  intros [Hq Ht] Hroom Hok. destruct (told aux 1 (p_host s) Hok) as (w & Hw & Hok'). pose proof (wptr_range _ _ Hq) as Hwr.
  pose proof (h_len _ _ Hq) as Hlen. pose proof (h_count _ _ Hq) as Hn. pose proof (h_rptr _ _ Hq) as Hrr.
  pose proof (aset_Some (q_data (queue (common aux s))) (wptr (queue (common aux s))) (u8 b) ltac:(lia)) as Hd.
  eexists _, w. split; [exact Hw|]. split; [exact Hok'|]. split.
  - unfold ps2_queue. msteps. rewrite (proj2 (Z.leb_gt _ _)) by (unfold PS2_QUEUE_SIZE; lia). msome Hd.
    unfold set_common, on_host, zoom, bind, modify. destruct aux; cbn [p_host]; by rewrite Hw.
  - unfold fifo_put. rewrite decide_True by done. split; [by apply (holds_push _ _ _ _ Hq Hroom Hd)|].
    cbn [bytes taken]. rewrite length_app. cbn [length q_data rptr].
    intros Hr'. rewrite (aget_aset_ne _ _ _ _ _ Hd); [apply Ht; lia|]. rewrite (h_wptr _ _ Hq), Hn.
    Z.div_mod_to_equations. lia.
Qed.

Lemma queue_full aux b s l :
  holds (queue (common aux s)) l -> length l = 256%nat -> ps2_queue update_irq aux b s = Ok tt s.
Proof using Type.
  intros Hq Hl. pose proof (h_count _ _ Hq) as Hn. unfold ps2_queue. msteps.
  by rewrite (proj2 (Z.leb_le _ _)) by (unfold PS2_QUEUE_SIZE; lia).
Qed.

Lemma take_step aux s x l t :
  represents (queue (common aux s)) (Fifo (x :: l) t) -> ok (p_host s) ->
  exists q w1 w2, update_irq aux 0 (p_host s) = Ok tt w1 /\
    update_irq aux (if decide (l = []) then 0 else 1) w1 = Ok tt w2 /\ ok w2 /\
    ps2_read_data update_irq aux s = Ok x (with_queue aux q w2 s) /\ represents q (Fifo l x).
Proof using All.
  intros [Hq Ht] Hok. cbn [bytes] in Hq. destruct (holds_pop _ _ _ Hq) as [Hx Hq']. pose proof (h_count _ _ Hq) as Hn.
  pose proof (h_rptr _ _ Hq) as Hr. cbn [length] in Hn. destruct (told aux 0 (p_host s) Hok) as (w1 & Hw1 & Hok1).
  destruct (told aux (if decide (l = []) then 0 else 1) w1 Hok1) as (w2 & Hw2 & Hok2).
  eexists _, w1, w2. split; [exact Hw1|]. split; [exact Hw2|]. split; [exact Hok2|]. split.
  - unfold ps2_read_data. msteps. rewrite (proj2 (Z.eqb_neq _ _)) by lia. msome Hx.
    assert ((if q_count (queue (common aux s)) - 1 =? 0 then 0 else 1) = (if decide (l = []) then 0 else 1)) as ->.
    { destruct l; case_decide; try done; destruct (Z.eqb_spec (q_count (queue (common aux s)) - 1) 0); cbn [length] in *; done || lia. }
    unfold set_common, on_host, zoom, bind, modify, ret. destruct aux; cbn [p_host]; rewrite Hw1; cbn [p_host]; by rewrite Hw2.
  - split; [exact Hq'|]. cbn [bytes taken q_data rptr]. intros _. rewrite next_ptr by done.
    rewrite <- Hx. f_equal. Z.div_mod_to_equations. lia.
Qed.

Lemma read_empty aux s t :
  represents (queue (common aux s)) (Fifo [] t) -> ps2_read_data update_irq aux s = Ok t s.
Proof using Type.
  intros [Hq Ht]. unfold ps2_read_data. msteps. rewrite (proj2 (Z.eqb_eq _ 0)) by (by rewrite (h_count _ _ Hq)).
  pose proof (h_rptr _ _ Hq) as Hr. specialize (Ht ltac:(cbn; lia)).
  assert ((if rptr (queue (common aux s)) - 1 <? 0 then PS2_QUEUE_SIZE - 1 else rptr (queue (common aux s)) - 1) =
          (rptr (queue (common aux s)) - 1) mod 256) as ->.
  { unfold PS2_QUEUE_SIZE. case_match; Z.div_mod_to_equations; lia. }
  by rewrite Ht.
Qed.

Lemma put_refines aux b s a :
  represents (queue (common aux s)) a -> ok (p_host s) ->
  exists s', ps2_queue update_irq aux b s = Ok tt s' /\ represents (queue (common aux s')) (fifo_put b a) /\ ok (p_host s').
Proof using All.
  intros Ha Hok. destruct (decide (length (bytes a) < 256)%nat) as [Hroom|Hfull].
  - destruct (put_step aux b s a Ha Hroom Hok) as (q & w & _ & Hw & E & Hq). eexists. split; [exact E|].
    rewrite common_with_queue. split; [done|]. by destruct aux.
  - exists s. unfold fifo_put. rewrite decide_False by done. split; [|done]. destruct Ha as [Hq _].
    apply (queue_full _ _ _ _ Hq). pose proof (h_cap _ _ Hq). lia.
Qed.

Lemma take_refines aux s a :
  represents (queue (common aux s)) a -> ok (p_host s) ->
  exists s', ps2_read_data update_irq aux s = Ok (fst (fifo_take a)) s' /\
    represents (queue (common aux s')) (snd (fifo_take a)) /\ ok (p_host s').
Proof using All.
  intros Ha Hok. destruct a as [[|x l] t]; cbn [fifo_take bytes fst snd taken].
  - exists s. split; [by apply read_empty|done].
  - destruct (take_step aux s x l t Ha Hok) as (q & w1 & w2 & _ & _ & Hw & E & Hq). eexists. split; [exact E|].
    rewrite common_with_queue. split; [done|]. by destruct aux.
Qed.
End Queue.

(** The queue between a PS/2 device and the controller is a bounded FIFO: any
    sequence of bytes put by the device and taken by the controller gives the results
    of a list of at most 256 bytes, to which further bytes are not added, and from
    which an empty read takes the last byte again; no access is out of range.  The
    controller has to keep its promise [Ps2Host]. *)
Theorem ps2_fifo {W} (update_irq : bool -> Z -> M W unit) (ok : W -> Prop) aux ops s a :
  Ps2Host update_irq ok -> ok (p_host s) -> represents (queue (common aux s)) a ->
  exists s', ps2_run update_irq aux ops s = Ok (fst (fifo_run ops a)) s' /\
    represents (queue (common aux s')) (snd (fifo_run ops a)) /\ ok (p_host s').
Proof.
  intros Ht. revert s a. induction ops as [|[b|] ops IH]; intros s a Hok Hr; [by exists s|..]; cbn [ps2_run fifo_run].
  - destruct (put_refines update_irq ok aux b s a Hr Hok) as (s1 & E & Hr1 & Hok1). rewrite (bind_ok _ _ _ _ _ E). by apply IH.
  - destruct (take_refines update_irq ok aux s a Hr Hok) as (s1 & E & Hr1 & Hok1). rewrite (bind_ok _ _ _ _ _ E).
    destruct (fifo_take a) as [x a1]. cbn [fst snd] in *. destruct (IH s1 a1 Hok1 Hr1) as (s2 & E2 & Hr2).
    destruct (fifo_run ops a1) as [l a2]. rewrite (bind_ok _ _ _ _ _ E2). by exists s2.
Qed.

(** A controller that ignores its devices. *)
#[export] Instance deaf_host : Ps2Host (W := unit) (fun _ _ => ret tt) (fun _ => True).
Proof. intros aux level w _. by exists w. Qed.

Lemma new_queue : represents (queue new_common) (Fifo [] 0).
Proof. split; [split; cbn; try done; lia|done]. Qed.

Lemma ps2_fifo_witness :
  exists s', ps2_run (fun _ _ => ret tt) true [Take; Put 0x1E; Put 0x19E; Take; Take; Take]
      (MkPs2 ps2_kbd_init ps2_mouse_init tt) = Ok [0; 0x1E; 0x9E; 0x9E] s' /\
    represents (queue (common true s')) (Fifo [] 0x9E) /\ True.
Proof.
  apply (ps2_fifo (fun _ _ => ret tt) (fun _ => True) true [Take; Put 0x1E; Put 0x19E; Take; Take; Take]
    (MkPs2 ps2_kbd_init ps2_mouse_init tt) (Fifo [] 0)); [apply deaf_host|done|apply new_queue].
Defined.

(** * The movements the mouse reports *)

(** ** Packets as a driver of the mouse reads them *)

Definition packet_dx (p : list Z) : Z := s8 (nth 1 p 0).
Definition packet_dy (p : list Z) : Z := s8 (nth 2 p 0).
(** The wheel: a byte of its own, the low half of one, or nothing. *)
Definition packet_dz (type : Z) (p : list Z) : Z :=
  if type =? 3 then s8 (nth 3 p 0)
  else if type =? 4 then let n := Z.land (nth 3 p 0) 0x0f in if n <? 8 then n else n - 16
  else 0.
Definition packet_size (type : Z) : nat := if (type =? 3) || (type =? 4) then 4 else 3.
Definition total_of (f : list Z -> Z) (ps : list (list Z)) : Z := foldr (fun p n => f p + n) 0 ps.

(** What is left of a movement after a packet. *)
Definition wheel_sent (type dz : Z) : Z := if type =? 3 then clamp 127 dz else if type =? 4 then clamp 7 dz else dz.

Lemma s8_byte d : -128 <= d <= 127 -> s8 (u8 (Z.land d 0xff)) = d.
Proof. intros Hd. rewrite u8_land, u8_u8. unfold s8, u8. Z.div_mod_to_equations. lia. Qed.

Lemma clamp_range lim d : 0 <= lim -> - lim <= clamp lim d <= lim.
Proof. intros Hl. unfold clamp. repeat case_match; lia. Qed.

Lemma clamp_rest lim d k : 0 < lim -> 1 <= k -> Z.abs d <= lim * k -> Z.abs (d - clamp lim d) <= lim * (k - 1).
Proof. intros Hl Hk Hd. unfold clamp. repeat case_match; nia. Qed.

Lemma half_byte d b : -8 <= d < 8 ->
  let n := Z.land (u8 (Z.lor (Z.land d 0x0f) (Z.shiftl (Z.land b 0x18) 1))) 0x0f in (if n <? 8 then n else n - 16) = d.
Proof.
  intros Hd. cbv zeta. rewrite <- u8_land, <- Z.land_assoc. change (Z.land 0xff 0x0f) with 0x0f. rewrite Z.land_lor_distr_l.
  rewrite <- Z.land_assoc. change (Z.land 0xf 0xf) with (Z.ones 4).
  assert (Z.land (Z.shiftl (Z.land b 0x18) 1) 0x0f = 0) as ->.
  { rewrite Z.shiftl_land, <- Z.land_assoc. change (Z.land (Z.shiftl 0x18 1) 0xf) with 0. apply Z.land_0_r. }
  rewrite Z.lor_0_r, Z.land_ones by lia. change (2 ^ 4) with 16. case_match; Z.div_mod_to_equations; lia.
Qed.

Section Mouse.
Context {W : Type} (update_irq : bool -> Z -> M W unit) (ok : W -> Prop) `{!Ps2Host update_irq ok}.

(** Only the queue of the mouse and the controller differ. *)
Definition queue_only (s s' : ps2 W) : Prop :=
  p_kbd s' = p_kbd s /\ ok (p_host s') /\ exists c, p_mouse s' = m_set_common c (p_mouse s).

Lemma queue_only_refl s : ok (p_host s) -> queue_only s s.
Proof using Type. intros Hok. split; [done|]. split; [done|]. exists (m_common (p_mouse s)). by destruct (p_mouse s). Qed.
Lemma queue_only_trans s1 s2 s3 : queue_only s1 s2 -> queue_only s2 s3 -> queue_only s1 s3.
Proof using Type. intros (K1 & _ & c & Hc) (K2 & Hok & d & Hd). split; [congruence|]. split; [done|]. exists d. by rewrite Hd, Hc. Qed.

Abbreviation mqueue s := (queue (m_common (p_mouse s))).

Lemma mouse_byte b s a :
  represents (mqueue s) a -> ok (p_host s) -> (length (bytes a) < 256)%nat ->
  exists s', ps2_queue update_irq true b s = Ok tt s' /\
    represents (mqueue s') (Fifo (bytes a ++ [u8 b]) (taken a)) /\ queue_only s s'.
Proof using All.
  intros Ha Hok Hroom. destruct (put_step update_irq ok true b s a Ha Hroom Hok) as (q & w & _ & Hw & E & Hq).
  unfold fifo_put in Hq. rewrite decide_True in Hq by done. exists (with_queue true q w s). split; [exact E|].
  split; [exact Hq|]. split; [done|]. split; [done|]. eexists. reflexivity.
Qed.

(** The byte of the wheel, where the mouse has one. *)
Definition wheel_byte (m : PS2MouseState) : M (ps2 W) Z :=
  if mouse_type m =? 3 then
    let dz1 := clamp 127 (mouse_dz m) in ps2_queue update_irq true (Z.land dz1 0xff) ;;; ret dz1
  else if mouse_type m =? 4 then
    let dz1 := clamp 7 (mouse_dz m) in
    ps2_queue update_irq true (Z.lor (Z.land dz1 0x0f) (Z.shiftl (Z.land (mouse_buttons m) 0x18) 1)) ;;; ret dz1
  else ret (mouse_dz m).

Lemma wheel_byte_ok m s a p3 taken0 :
  represents (mqueue s) (Fifo (a ++ p3) taken0) -> ok (p_host s) -> (length a + 4 <= 256)%nat -> length p3 = 3%nat ->
  exists z s', wheel_byte m s = Ok (wheel_sent (mouse_type m) (mouse_dz m)) s' /\
    length (p3 ++ z) = packet_size (mouse_type m) /\ represents (mqueue s') (Fifo (a ++ p3 ++ z) taken0) /\
    (mouse_type m = 3 \/ mouse_type m = 4 -> packet_dz (mouse_type m) (p3 ++ z) = wheel_sent (mouse_type m) (mouse_dz m)) /\
    queue_only s s'.
Proof using All.
  intros Ha Hok Hroom H3. destruct p3 as [|b0 [|b1 [|b2 [|]]]]; try done.
  unfold wheel_byte, wheel_sent, packet_size, packet_dz.
  destruct (Z.eqb_spec (mouse_type m) 3) as [|N3]; [|destruct (Z.eqb_spec (mouse_type m) 4) as [|N4]].
  - destruct (mouse_byte (Z.land (clamp 127 (mouse_dz m)) 0xff) s _ Ha Hok) as (s' & E & H & Q);
      [cbn; rewrite length_app; cbn; lia|]. cbn [bytes taken] in H. rewrite <- app_assoc in H.
    eexists [_], s'. rewrite (bind_ok _ _ _ _ _ E). split; [done|]. split; [done|]. split; [exact H|]. split; [|done].
    intros _. apply (s8_byte (clamp 127 (mouse_dz m))). pose proof (clamp_range 127 (mouse_dz m)). lia.
  - destruct (mouse_byte (Z.lor (Z.land (clamp 7 (mouse_dz m)) 0x0f) (Z.shiftl (Z.land (mouse_buttons m) 0x18) 1)) s _ Ha Hok)
      as (s' & E & H & Q); [cbn; rewrite length_app; cbn; lia|]. cbn [bytes taken] in H. rewrite <- app_assoc in H.
    eexists [_], s'. rewrite (bind_ok _ _ _ _ _ E). split; [done|]. split; [done|]. split; [exact H|]. split; [|done].
    intros _. apply (half_byte (clamp 7 (mouse_dz m))). pose proof (clamp_range 7 (mouse_dz m)). lia.
  - exists [], s. rewrite app_nil_r. split; [done|]. split; [done|]. split; [done|]. split; [lia|by apply queue_only_refl].
Qed.

(** One packet. *)
Lemma send_packet_ok s a t :
  let m := p_mouse s in
  represents (mqueue s) (Fifo a t) -> ok (p_host s) -> (length a + 4 <= 256)%nat ->
  exists p s', ps2_mouse_send_packet update_irq s = Ok tt s' /\ length p = packet_size (mouse_type m) /\
    represents (mqueue s') (Fifo (a ++ p) t) /\
    packet_dx p = clamp 127 (mouse_dx m) /\ packet_dy p = clamp 127 (mouse_dy m) /\
    (mouse_type m = 3 \/ mouse_type m = 4 -> packet_dz (mouse_type m) p = wheel_sent (mouse_type m) (mouse_dz m)) /\
    p_kbd s' = p_kbd s /\ ok (p_host s') /\
    exists c, p_mouse s' = m_set_common c (m_set_motion (mouse_dx m - clamp 127 (mouse_dx m))
      (mouse_dy m - clamp 127 (mouse_dy m)) (mouse_dz m - wheel_sent (mouse_type m) (mouse_dz m)) m).
Proof using All.
  intros m Ha Hok Hroom. unfold ps2_mouse_send_packet. msteps. fold m. cbv zeta. fold (wheel_byte m).
  set (b0 := Z.lor (Z.lor _ _) _). set (dx1 := clamp 127 (mouse_dx m)). set (dy1 := clamp 127 (mouse_dy m)).
  destruct (mouse_byte b0 s _ Ha Hok) as (s1 & E1 & H1 & Q1); [cbn; lia|]. rewrite (bind_ok _ _ _ _ _ E1).
  destruct (mouse_byte (Z.land dx1 0xff) s1 _ H1 (proj1 (proj2 Q1))) as (s2 & E2 & H2 & Q2); [cbn; rewrite length_app; cbn; lia|].
  rewrite (bind_ok _ _ _ _ _ E2).
  destruct (mouse_byte (Z.land dy1 0xff) s2 _ H2 (proj1 (proj2 Q2))) as (s3 & E3 & H3 & Q3); [cbn; rewrite !length_app; cbn; lia|].
  rewrite (bind_ok _ _ _ _ _ E3). cbn [bytes taken] in H3. rewrite <- !app_assoc in H3. cbn [app] in H3.
  destruct (wheel_byte_ok m s3 a _ t H3 (proj1 (proj2 Q3)) Hroom eq_refl) as (z & s4 & E4 & Hlen & H4 & Hz & Q4). rewrite (bind_ok _ _ _ _ _ E4).
  destruct (queue_only_trans _ _ _ Q1 (queue_only_trans _ _ _ Q2 (queue_only_trans _ _ _ Q3 Q4))) as (Hk & Hok4 & c & Hc).
  pose proof (clamp_range 127 (mouse_dx m) ltac:(lia)) as Rx. pose proof (clamp_range 127 (mouse_dy m) ltac:(lia)) as Ry.
  eexists _, _. split; [reflexivity|]. split; [exact Hlen|]. split; [exact H4|].
  split; [apply s8_byte; lia|]. split; [apply s8_byte; lia|]. split; [exact Hz|]. split; [exact Hk|]. split; [exact Hok4|].
  exists c. cbn [p_mouse]. by rewrite Hc.
Qed.

(** [k] packets are enough for the wheel. *)
Definition wheel_fits (type dz : Z) (k : nat) : Prop :=
  (type = 3 -> Z.abs dz <= 127 * Z.of_nat k) /\ (type = 4 -> Z.abs dz <= 7 * Z.of_nat k).

Lemma wheel_rest type dz k : wheel_fits type dz (S k) ->
  wheel_fits type (dz - wheel_sent type dz) k /\ (k = 0%nat -> dz - wheel_sent type dz = 0).
Proof using Type.
  intros [H3 H4]. unfold wheel_fits, wheel_sent.
  destruct (Z.eqb_spec type 3) as [E3|E3]; [|destruct (Z.eqb_spec type 4) as [E4|E4]].
  - pose proof (clamp_rest 127 dz (Z.of_nat (S k)) ltac:(lia) ltac:(lia) (H3 E3)). split; [split|]; lia.
  - pose proof (clamp_rest 7 dz (Z.of_nat (S k)) ltac:(lia) ltac:(lia) (H4 E4)). split; [split|]; lia.
  - split; [split|]; lia.
Qed.

(** The packets of an event, when they fit into the queue. *)
Lemma send_packets_ok k fuel s a t :
  let m := p_mouse s in
  represents (mqueue s) (Fifo a t) -> ok (p_host s) -> (0 < k <= fuel)%nat -> (length a + 4 * k <= 256)%nat ->
  Z.abs (mouse_dx m) <= 127 * Z.of_nat k -> Z.abs (mouse_dy m) <= 127 * Z.of_nat k -> wheel_fits (mouse_type m) (mouse_dz m) k ->
  exists ps s', send_packets update_irq fuel s = Ok tt s' /\ represents (mqueue s') (Fifo (a ++ concat ps) t) /\
    Forall (fun p => length p = packet_size (mouse_type m)) ps /\
    total_of packet_dx ps = mouse_dx m /\ total_of packet_dy ps = mouse_dy m /\
    (mouse_type m = 3 \/ mouse_type m = 4 -> total_of (packet_dz (mouse_type m)) ps = mouse_dz m) /\
    p_kbd s' = p_kbd s /\ ok (p_host s') /\ exists c, p_mouse s' = m_set_common c (m_set_motion 0 0 0 m).
Proof using All.
  revert fuel s a. induction k as [|k IH]; intros fuel s a m Ha Hok Hk Hroom Hx Hy Hz; [lia|]. destruct fuel as [|fuel]; [lia|].
  cbn [send_packets]. destruct (send_packet_ok s a t Ha Hok ltac:(lia)) as (p & s1 & E & Hlen & H1 & Ex & Ey & Ez & Hkbd & Hok1 & c & Hm1).
  fold m in Hlen, Ex, Ey, Ez, Hm1. rewrite (bind_ok _ _ _ _ _ E). msteps. rewrite Hm1. cbn [mouse_dx mouse_dy mouse_dz m_set_common m_set_motion].
  pose proof (clamp_rest 127 (mouse_dx m) (Z.of_nat (S k)) ltac:(lia) ltac:(lia) Hx) as Rx.
  pose proof (clamp_rest 127 (mouse_dy m) (Z.of_nat (S k)) ltac:(lia) ltac:(lia) Hy) as Ry.
  destruct (wheel_rest _ _ _ Hz) as [Rz R0]. set (dx' := mouse_dx m - _) in *. set (dy' := mouse_dy m - _) in *. set (dz' := mouse_dz m - _) in *.
  destruct ((dx' =? 0) && (dy' =? 0) && (dz' =? 0)) eqn:Edone.
  - apply andb_prop in Edone as [[E1 E2]%andb_prop E3]. apply Z.eqb_eq in E1, E2, E3. exists [p], s1. split; [done|].
    cbn [concat]. rewrite app_nil_r. split; [done|]. split; [by repeat constructor|]. unfold total_of. cbn [foldr].
    split; [lia|]. split; [lia|]. split; [intros Ht; rewrite (Ez Ht); lia|]. split; [done|]. split; [done|]. exists c. rewrite Hm1. fold dx' dy' dz'. by rewrite E1, E2, E3.
  - assert (0 < k)%nat as Hk0.
    { destruct k; [|lia]. exfalso. rewrite R0 in Edone by done. apply not_true_iff_false in Edone. apply Edone.
      rewrite !andb_true_iff, !Z.eqb_eq. lia. }
    destruct (IH fuel s1 (a ++ p)) as (ps & s2 & E2 & H2 & Hf & Tx & Ty & Tz & Hkbd2 & Hok2 & c2 & Hm2);
      rewrite ?Hm1; cbn [mouse_dx mouse_dy mouse_dz mouse_type m_common m_set_common m_set_motion]; fold dx' dy' dz'; try done.
    { by rewrite Hm1 in H1. } { lia. } { rewrite length_app, Hlen. unfold packet_size. case_match; lia. } { lia. } { lia. }
    rewrite Hm1 in Hf, Tx, Ty, Tz, Hm2. cbn [mouse_dx mouse_dy mouse_dz mouse_type m_set_common m_set_motion] in Hf, Tx, Ty, Tz, Hm2.
    exists (p :: ps), s2. split; [exact E2|]. cbn [concat]. rewrite app_assoc. split; [done|]. split; [by constructor|].
    unfold total_of in *. cbn [foldr]. split; [lia|]. split; [lia|].
    split; [intros Ht; rewrite (Ez Ht), (Tz Ht); lia|]. split; [congruence|]. split; [done|]. by exists c2.
Qed.
End Mouse.

(** The mouse reports events, and has reported every movement. *)
Record streaming (m : PS2MouseState) : Prop := {
  st_enabled : Z.land (mouse_status m) MOUSE_STATUS_ENABLED <> 0;
  st_stream : Z.land (mouse_status m) MOUSE_STATUS_REMOTE = 0;
  st_rest : mouse_dx m = 0 /\ mouse_dy m = 0 /\ mouse_dz m = 0
}.

(** C30: every movement is reported.  When the mouse is enabled in stream mode, an
    event that moves it or changes a button sends packets of the size of the mouse's
    protocol whose movements add up to the movement of the event (the vertical one
    turned round, the wheel only on mice with a wheel), and nothing is left for later.
    This is so when [k] packets are enough and fit into the queue; the sending loop
    then ends within [k] turns. *)
Theorem mouse_event_reports_motion {W} (update_irq : bool -> Z -> M W unit) (ok : W -> Prop) k fuel dx dy dz buttons s a t :
  Ps2Host update_irq ok -> ok (p_host s) ->
  let m := p_mouse s in
  represents (queue (m_common m)) (Fifo a t) -> streaming m ->
  (0 < k <= fuel)%nat -> (length a + 4 * k <= 256)%nat -> (length a < 240)%nat ->
  Z.abs dx <= 127 * Z.of_nat k -> Z.abs dy <= 127 * Z.of_nat k -> Z.abs dz <= 7 * Z.of_nat k ->
  ~ (dx = 0 /\ dy = 0 /\ dz = 0 /\ mouse_buttons m = buttons) ->
  exists ps s', ps2_mouse_event update_irq fuel dx dy dz buttons s = Ok tt s' /\
    represents (queue (m_common (p_mouse s'))) (Fifo (a ++ concat ps) t) /\
    Forall (fun p => length p = packet_size (mouse_type m)) ps /\
    total_of packet_dx ps = dx /\ total_of packet_dy ps = - dy /\
    (mouse_type m = 3 \/ mouse_type m = 4 -> total_of (packet_dz (mouse_type m)) ps = dz) /\
    streaming (p_mouse s') /\ ok (p_host s').
Proof.
  intros Htot Hok m Ha [He Hs (R1 & R2 & R3)] Hk Hroom H240 Hx Hy Hz Hnz.
  set (m1 := m_set_buttons (u8 buttons) (m_set_motion dx (- dy) dz m)). set (s1 := MkPs2 (p_kbd s) m1 (p_host s)).
  assert (ps2_mouse_event update_irq fuel dx dy dz buttons s = send_packets update_irq fuel s1) as ->.
  { unfold ps2_mouse_event. msteps. fold m. rewrite (proj2 (Z.eqb_neq _ _)) by exact He. unfold m_upd. msteps. cbn [p_mouse p_kbd p_host].
    fold m. rewrite R1, R2, R3, !Z.add_0_l, Z.sub_0_l, !s32_small by (unfold is_s32; lia).
    cbn [mouse_dx mouse_dy mouse_dz mouse_buttons m_set_motion]. destruct (_ && (mouse_buttons m =? buttons)) eqn:E.
    { rewrite !andb_true_iff, !Z.eqb_eq in E. lia. }
    msteps. cbn [p_mouse p_kbd p_host]. fold m1. change (mouse_status m1) with (mouse_status m). rewrite Hs. cbn [Z.eqb andb].
    change (q_count (queue (m_common m1))) with (q_count (queue (m_common m))). rewrite (h_count _ _ (proj1 Ha)).
    by rewrite (proj2 (Z.ltb_lt _ _)) by (unfold PS2_QUEUE_SIZE; cbn [bytes]; lia). }
  destruct (send_packets_ok update_irq ok k fuel s1 a t Ha Hok Hk Hroom) as (ps & s2 & E & H2 & Hf & Tx & Ty & Tz & _ & Hok2 & c & Hm).
  { cbn. lia. } { cbn. lia. } { split; cbn; lia. }
  exists ps, s2. split; [exact E|]. split; [exact H2|]. split; [exact Hf|]. split; [exact Tx|]. split; [exact Ty|]. split; [exact Tz|].
  split; [|exact Hok2]. rewrite Hm. by split.
Qed.

(** The mouse after [AUX_ENABLE_DEV]. *)
Definition enabled_mouse : PS2MouseState := m_set_status MOUSE_STATUS_ENABLED ps2_mouse_init.

Lemma mouse_event_reports_motion_witness :
  exists ps s', ps2_mouse_event (fun _ _ => ret tt) 2 200 (-3) 0 1 (MkPs2 ps2_kbd_init enabled_mouse tt) = Ok tt s' /\
    represents (queue (m_common (p_mouse s'))) (Fifo (concat ps) 0) /\
    Forall (fun p => length p = 3%nat) ps /\
    total_of packet_dx ps = 200 /\ total_of packet_dy ps = 3 /\
    (0 = 3 \/ 0 = 4 -> total_of (packet_dz 0) ps = 0) /\ streaming (p_mouse s') /\ True.
Proof.
  apply (mouse_event_reports_motion (fun _ _ => ret tt) (fun _ => True) 2 2 200 (-3) 0 1 (MkPs2 ps2_kbd_init enabled_mouse tt) [] 0);
    [apply deaf_host|done|apply new_queue|by split|lia|cbn; lia|cbn; lia|lia|lia|lia|lia].
Defined.

(** A movement that needs more packets than the queue holds loses its rest, and its
    last packet is cut off after the first byte. *)
Lemma mouse_burst_truncates :
  match ps2_mouse_event (fun _ _ => ret tt) 90 (127 * 90) 0 0 0 (MkPs2 ps2_kbd_init enabled_mouse tt) with
  | Ok _ s => q_count (queue (m_common (p_mouse s))) = 256 /\ 256 mod 3 = 1 /\ mouse_dx (p_mouse s) = 0
  | Err _ => False
  end.
Proof. vm_compute. done. Qed.
