(* ===== verification/Pckbd.v ===== *)
(** The keyboard controller of the machine emulator, src/sysvm/hw/pckbd.c, with the
    keyboard and the mouse of Ps2 attached to it and its two interrupt lines at the
    interrupt controllers (I8259).

    [a20] is the gate of address line 20 ([ioport_set_a20], [ioport_get_a20]), and
    [reset_requested] records a call of [qemu_system_reset_request].  Messages are
    not modelled; saving and loading the state are in Saved. *)
From S2P Require Import Prelude I8259 Port Ps2.

Definition KBD_CCMD_READ_MODE : Z := 0x20.
Definition KBD_CCMD_WRITE_MODE : Z := 0x60.
Definition KBD_CCMD_MOUSE_DISABLE : Z := 0xA7.
Definition KBD_CCMD_MOUSE_ENABLE : Z := 0xA8.
Definition KBD_CCMD_TEST_MOUSE : Z := 0xA9.
Definition KBD_CCMD_SELF_TEST : Z := 0xAA.
Definition KBD_CCMD_KBD_TEST : Z := 0xAB.
Definition KBD_CCMD_KBD_DISABLE : Z := 0xAD.
Definition KBD_CCMD_KBD_ENABLE : Z := 0xAE.
Definition KBD_CCMD_READ_INPORT : Z := 0xC0.
Definition KBD_CCMD_READ_OUTPORT : Z := 0xD0.
Definition KBD_CCMD_WRITE_OUTPORT : Z := 0xD1.
Definition KBD_CCMD_WRITE_OBUF : Z := 0xD2.
Definition KBD_CCMD_WRITE_AUX_OBUF : Z := 0xD3.
Definition KBD_CCMD_WRITE_MOUSE : Z := 0xD4.
Definition KBD_CCMD_DISABLE_A20 : Z := 0xDD.
Definition KBD_CCMD_ENABLE_A20 : Z := 0xDF.
Definition KBD_CCMD_RESET : Z := 0xFE.
Definition KBD_STAT_OBF : Z := 0x01.
Definition KBD_STAT_SELFTEST : Z := 0x04.
Definition KBD_STAT_CMD : Z := 0x08.
Definition KBD_STAT_UNLOCKED : Z := 0x10.
Definition KBD_STAT_MOUSE_OBF : Z := 0x20.
Definition KBD_MODE_KBD_INT : Z := 0x01.
Definition KBD_MODE_MOUSE_INT : Z := 0x02.
Definition KBD_MODE_DISABLE_KBD : Z := 0x10.
Definition KBD_MODE_DISABLE_MOUSE : Z := 0x20.
Definition KBD_MODE_KCC : Z := 0x40.
Definition KBD_PENDING_KBD : Z := 1.
Definition KBD_PENDING_AUX : Z := 2.

Record KBDState := MkKbdState { c_write_cmd : Z; c_stat : Z; c_mode : Z; c_pending : Z }.
(** The controller and what it drives. *)
Record kbdhost := MkHost { kc : KBDState; kpics : PicState2; a20 : Z; reset_requested : bool }.
Abbreviation kbdpc := (ps2 kbdhost).

Definition set_cmd v s := MkKbdState v (c_stat s) (c_mode s) (c_pending s).
Definition set_stat v s := MkKbdState (c_write_cmd s) v (c_mode s) (c_pending s).
Definition set_mode v s := MkKbdState (c_write_cmd s) (c_stat s) v (c_pending s).
Definition set_pending v s := MkKbdState (c_write_cmd s) (c_stat s) (c_mode s) v.
Definition kc_upd (f : KBDState -> KBDState) : M kbdhost unit :=
  modify (fun h => MkHost (f (kc h)) (kpics h) (a20 h) (reset_requested h)).
Definition on_pics {A} (m : M PicState2 A) : M kbdhost A :=
  zoom kpics (fun p h => MkHost (kc h) p (a20 h) (reset_requested h)) m.
Definition has (v mask : Z) : bool := negb (Z.land v mask =? 0).

(** [static void kbd_update_irq(KBDState *s)]: the status register and the levels
    of lines 1 and 12. *)
Definition obf_status (s : KBDState) : Z :=
  let st := u8 (Z.land (c_stat s) (Z.lnot (Z.lor KBD_STAT_OBF KBD_STAT_MOUSE_OBF))) in
  if c_pending s =? 0 then st
  else
    let st := u8 (Z.lor st KBD_STAT_OBF) in
    if c_pending s =? KBD_PENDING_AUX then u8 (Z.lor st KBD_STAT_MOUSE_OBF) else st.
Definition irq1_level (s : KBDState) : Z :=
  if negb (c_pending s =? 0) && negb (c_pending s =? KBD_PENDING_AUX) &&
     (has (c_mode s) KBD_MODE_KBD_INT && negb (has (c_mode s) KBD_MODE_DISABLE_KBD)) then 1 else 0.
Definition irq12_level (s : KBDState) : Z :=
  if (c_pending s =? KBD_PENDING_AUX) && has (c_mode s) KBD_MODE_MOUSE_INT then 1 else 0.
Definition kbd_update_irq : M kbdhost unit :=
  s <- gets kc ;;
  kc_upd (set_stat (obf_status s)) ;;;
  on_pics (pic_set_irq 1 (irq1_level s)) ;;;
  on_pics (pic_set_irq 12 (irq12_level s)).

(** [static void kbd_update_kbd_irq(void *opaque, int level)] and
    [static void kbd_update_aux_irq(void *opaque, int level)] *)
Definition kbd_update_kbd_irq (level : Z) : M kbdhost unit :=
  kc_upd (fun s => set_pending (if negb (level =? 0) then u8 (Z.lor (c_pending s) KBD_PENDING_KBD)
                                else u8 (Z.land (c_pending s) (Z.lnot KBD_PENDING_KBD))) s) ;;;
  kbd_update_irq.
Definition kbd_update_aux_irq (level : Z) : M kbdhost unit :=
  kc_upd (fun s => set_pending (if negb (level =? 0) then u8 (Z.lor (c_pending s) KBD_PENDING_AUX)
                                else u8 (Z.land (c_pending s) (Z.lnot KBD_PENDING_AUX))) s) ;;;
  kbd_update_irq.

(** The callbacks [kbd_init] gives to the devices. *)
Definition kbd_irq (aux : bool) (level : Z) : M kbdhost unit :=
  if aux then kbd_update_aux_irq level else kbd_update_kbd_irq level.

Definition ctl (f : KBDState -> KBDState) : M kbdpc unit := on_host (kc_upd f).
Definition set_a20 (v : Z) : M kbdpc unit :=
  on_host (modify (fun h => MkHost (kc h) (kpics h) v (reset_requested h))).
Definition qemu_system_reset_request : M kbdpc unit :=
  on_host (modify (fun h => MkHost (kc h) (kpics h) (a20 h) true)).

(** [static uint32_t kbd_read_status(void *opaque, uint32_t addr)] *)
Definition kbd_read_status : M kbdpc Z := s <- get ;; ret (c_stat (kc (p_host s))).

(** [static void kbd_queue(KBDState *s, int b, int aux)] *)
Definition kbd_queue (b : Z) (aux : bool) : M kbdpc unit := ps2_queue kbd_irq aux b.

(** [static void kbd_write_command(void *opaque, uint32_t addr, uint32_t val)] *)
Definition kbd_write_command (val : Z) : M kbdpc unit :=
  s <- get ;;
  let h := p_host s in
  let st := c_stat (kc h) in
  if val =? KBD_CCMD_READ_MODE then kbd_queue (c_mode (kc h)) false
  else if bool_decide (val ∈ [KBD_CCMD_WRITE_MODE; KBD_CCMD_WRITE_OBUF; KBD_CCMD_WRITE_AUX_OBUF; KBD_CCMD_WRITE_MOUSE;
                               KBD_CCMD_WRITE_OUTPORT]) then ctl (set_cmd (u8 val))
  else if val =? KBD_CCMD_MOUSE_DISABLE then ctl (fun s => set_mode (u8 (Z.lor (c_mode s) KBD_MODE_DISABLE_MOUSE)) s)
  else if val =? KBD_CCMD_MOUSE_ENABLE then ctl (fun s => set_mode (u8 (Z.land (c_mode s) (Z.lnot KBD_MODE_DISABLE_MOUSE))) s)
  else if val =? KBD_CCMD_TEST_MOUSE then kbd_queue 0x00 false
  else if val =? KBD_CCMD_SELF_TEST then ctl (set_stat (u8 (Z.lor st KBD_STAT_SELFTEST))) ;;; kbd_queue 0x55 false
  else if val =? KBD_CCMD_KBD_TEST then kbd_queue 0x00 false
  else if val =? KBD_CCMD_KBD_DISABLE then
    ctl (fun s => set_mode (u8 (Z.lor (c_mode s) KBD_MODE_DISABLE_KBD)) s) ;;; on_host kbd_update_irq
  else if val =? KBD_CCMD_KBD_ENABLE then
    ctl (fun s => set_mode (u8 (Z.land (c_mode s) (Z.lnot KBD_MODE_DISABLE_KBD))) s) ;;; on_host kbd_update_irq
  else if val =? KBD_CCMD_READ_INPORT then kbd_queue 0x00 false
  else if val =? KBD_CCMD_READ_OUTPORT then
    let val := Z.lor 0x01 (Z.shiftl (a20 h) 1) in
    let val := if has st KBD_STAT_OBF then Z.lor val 0x10 else val in
    let val := if has st KBD_STAT_MOUSE_OBF then Z.lor val 0x20 else val in
    kbd_queue val false
  else if val =? KBD_CCMD_ENABLE_A20 then set_a20 1
  else if val =? KBD_CCMD_DISABLE_A20 then set_a20 0
  else if val =? KBD_CCMD_RESET then qemu_system_reset_request
  else ret tt.

(** [static uint32_t kbd_read_data(void *opaque, uint32_t addr)] *)
Definition kbd_read_data : M kbdpc Z :=
  s <- get ;;
  ps2_read_data kbd_irq (c_pending (kc (p_host s)) =? KBD_PENDING_AUX).

(** [void kbd_write_data(void *opaque, uint32_t addr, uint32_t val)] *)
Definition kbd_write_data (val : Z) : M kbdpc unit :=
  s <- get ;;
  let cmd := c_write_cmd (kc (p_host s)) in
  (if cmd =? 0 then ps2_write_keyboard kbd_irq val
   else if cmd =? KBD_CCMD_WRITE_MODE then
     ctl (set_mode (u8 val)) ;;;
     ps2_keyboard_set_translation (has (u8 val) KBD_MODE_KCC) ;;;
     on_host kbd_update_irq
   else if cmd =? KBD_CCMD_WRITE_OBUF then kbd_queue val false
   else if cmd =? KBD_CCMD_WRITE_AUX_OBUF then kbd_queue val true
   else if cmd =? KBD_CCMD_WRITE_OUTPORT then
     set_a20 (Z.land (Z.shiftr val 1) 1) ;;;
     (if Z.land val 1 =? 0 then qemu_system_reset_request else ret tt)
   else if cmd =? KBD_CCMD_WRITE_MOUSE then ps2_write_mouse kbd_irq val
   else ret tt) ;;;
  ctl (set_cmd 0).

(** [static void kbd_reset(void *opaque)] *)
Definition kbd_reset (s : KBDState) : KBDState :=
  MkKbdState (c_write_cmd s) (Z.lor KBD_STAT_CMD KBD_STAT_UNLOCKED) (Z.lor KBD_MODE_KBD_INT KBD_MODE_MOUSE_INT) (c_pending s).

(** [void kbd_init(void)], over interrupt controllers [p] and with line 20 open. *)
Definition kbd_init (p : PicState2) : kbdpc :=
  MkPs2 ps2_kbd_init ps2_mouse_init (MkHost (kbd_reset (MkKbdState 0 0 0 0)) p 1 false).

(** ** Ports *)

(** The ports of the keyboard controller, and of the interrupt controllers. *)
Definition kbd_inb (port : Z) : M kbdpc Z :=
  if port =? 0x60 then kbd_read_data
  else if port =? 0x64 then kbd_read_status
  else on_host (on_pics (pic_inb port)).
Definition kbd_outb (port val : Z) : M kbdpc unit :=
  if port =? 0x60 then kbd_write_data val
  else if port =? 0x64 then kbd_write_command val
  else on_host (on_pics (pic_outb port val)).

#[export] Instance kbd_ports : PortIO kbdpc := {
  inportb := kbd_inb;
  outportb port val := kbd_outb port (u8 val);
  inportw := default_ioport_readw kbd_inb;
  outportw port val := default_ioport_writew kbd_outb port (u16 val)
}.

(** * Safety *)

(** The controller keeps its promise to the devices: its interrupt lines never
    fault. *)
Definition host_ok (h : kbdhost) : Prop := wf_pic2 (kpics h).

Lemma on_pics_ok {A} (m : M PicState2 A) P h :
  keeps P m -> host_ok h -> exists a h', on_pics m h = Ok a h' /\ host_ok h' /\ P a.
Proof.
  intros Hm Hh. destruct (Hm _ Hh) as (a & p & E & Hp & Ha). eexists a, _.
  split; [unfold on_pics, zoom; rewrite E; reflexivity|]. done.
Qed.

Lemma update_irq_ok h : host_ok h -> exists h', kbd_update_irq h = Ok tt h' /\ host_ok h'.
Proof.
  intros Hh. unfold kbd_update_irq, kc_upd. msteps. set (h1 := MkHost _ _ _ _).
  destruct (on_pics_ok _ _ h1 (keeps_set_irq 1 (irq1_level (kc h))) Hh) as ([] & h2 & E2 & H2 & _). rewrite (bind_ok _ _ _ _ _ E2).
  destruct (on_pics_ok _ _ h2 (keeps_set_irq 12 (irq12_level (kc h))) H2) as ([] & h3 & E3 & H3 & _). by exists h3.
Qed.

#[export] Instance kbd_host : Ps2Host kbd_irq host_ok.
Proof. intros [] level h Hh; unfold kbd_irq, kbd_update_aux_irq, kbd_update_kbd_irq, kc_upd; msteps; by apply update_irq_ok. Qed.

(** Both queues are in order, and the controller is. *)
Definition kbd_wf (s : kbdpc) : Prop :=
  (exists a, represents (queue (k_common (p_kbd s))) a) /\
  (exists a, represents (queue (m_common (p_mouse s))) a) /\ host_ok (p_host s).

Definition kbd_safe {A} (m : M kbdpc A) : Prop := total kbd_wf m (fun _ => True) kbd_wf.

Lemma kbd_safe_bind {A B} (m : M kbdpc A) (k : A -> M kbdpc B) : kbd_safe m -> (forall a, kbd_safe (k a)) -> kbd_safe (bind m k).
Proof. intros Hm Hk. apply (total_bind _ kbd_wf _ (fun _ => True)); [exact Hm|]. intros a _. apply Hk. Qed.
Lemma kbd_safe_ret {A} (a : A) : kbd_safe (ret a).
Proof. by apply total_ret. Qed.
Lemma kbd_safe_get {B} (k : kbdpc -> M kbdpc B) : (forall s, kbd_safe (k s)) -> kbd_safe (bind get k).
Proof. intros Hk. apply total_get. intros s _. apply Hk. Qed.
Lemma kbd_safe_gets {A B} (f : kbdpc -> A) (k : A -> M kbdpc B) : (forall a, kbd_safe (k a)) -> kbd_safe (bind (gets f) k).
Proof. intros Hk. apply total_gets. intros s _. apply Hk. Qed.

Lemma wf_with_queue aux q w s a : kbd_wf s -> represents q a -> host_ok w -> kbd_wf (with_queue aux q w s).
Proof. intros (Ha & Hb & _) Hq Hw. destruct aux; split_and!; try done; by exists a. Qed.
Lemma wf_queue aux s : kbd_wf s -> exists a, represents (queue (common aux s)) a.
Proof. intros (Ha & Hb & _). by destruct aux. Qed.

Lemma kbd_safe_queue aux b : kbd_safe (ps2_queue kbd_irq aux b).
Proof.
  intros s Hs. destruct (wf_queue aux s Hs) as [a Ha]. pose proof Hs as (_ & _ & Hh).
  destruct (decide (length (bytes a) < 256)%nat) as [Hroom|Hfull].
  - destruct (put_step kbd_irq host_ok aux b s a Ha Hroom Hh) as (q & w & _ & Hw & E & Hq).
    eexists tt, _. split; [exact E|]. split; [by eapply wf_with_queue|done].
  - exists tt, s. split; [|done]. apply (queue_full kbd_irq aux b s (bytes a) (proj1 Ha)).
    pose proof (h_cap _ _ (proj1 Ha)). lia.
Qed.

Lemma kbd_safe_read aux : kbd_safe (ps2_read_data kbd_irq aux).
Proof.
  intros s Hs. destruct (wf_queue aux s Hs) as [[[|x l] t] Ha]; pose proof Hs as (_ & _ & Hh).
  - exists t, s. split; [by apply read_empty|done].
  - destruct (take_step kbd_irq host_ok aux s x l t Ha Hh) as (q & w1 & w2 & _ & _ & Hw & E & Hq).
    eexists x, _. split; [exact E|]. split; [by eapply wf_with_queue|done].
Qed.

(** Changes of the other fields. *)
Lemma kbd_safe_cmd aux v : kbd_safe (set_write_cmd aux v).
Proof.
  intros s (Ha & Hb & Hh). exists tt. eexists. split; [reflexivity|]. split; [|done]. by destruct aux.
Qed.
Lemma kbd_safe_kbd f : (forall k, k_common (f k) = k_common k) -> kbd_safe (k_upd f).
Proof. intros Hf. apply total_modify. intros s (Ha & Hb & Hh). unfold kbd_wf. cbn. by rewrite Hf. Qed.
Lemma kbd_safe_mouse f : (forall m, m_common (f m) = m_common m) -> kbd_safe (m_upd f).
Proof. intros Hf. apply total_modify. intros s (Ha & Hb & Hh). unfold kbd_wf. cbn. by rewrite Hf. Qed.
Lemma kbd_safe_host m : (forall h, host_ok h -> exists h', m h = Ok tt h' /\ host_ok h') -> kbd_safe (on_host m).
Proof.
  intros Hm s (Ha & Hb & Hh). destruct (Hm _ Hh) as (h' & E & Hh'). eexists tt, _.
  split; [unfold on_host, zoom; rewrite E; reflexivity|]. done.
Qed.
Lemma kbd_safe_ctl f : kbd_safe (ctl f).
Proof. apply kbd_safe_host. intros h Hh. eexists. by split. Qed.
Lemma kbd_safe_a20 v : kbd_safe (set_a20 v).
Proof. apply kbd_safe_host. intros h Hh. eexists. by split. Qed.
Lemma kbd_safe_reset : kbd_safe qemu_system_reset_request.
Proof. apply kbd_safe_host. intros h Hh. eexists. by split. Qed.
Lemma kbd_safe_update : kbd_safe (on_host kbd_update_irq).
Proof. apply kbd_safe_host, update_irq_ok. Qed.

Lemma set_sample_common val m : m_common (set_sample val m) = m_common m.
Proof. unfold set_sample. cbv zeta. repeat case_match; done. Qed.

#[local] Hint Resolve kbd_safe_ret kbd_safe_queue kbd_safe_read kbd_safe_cmd kbd_safe_ctl kbd_safe_a20 kbd_safe_reset kbd_safe_update : kbd.

Ltac kbd_step :=
  match goal with
  | |- kbd_safe (bind get _) => apply kbd_safe_get; intros ?
  | |- kbd_safe (bind (gets _) _) => apply kbd_safe_gets; intros ?
  | |- kbd_safe (bind _ _) => apply kbd_safe_bind; [|intros ?]
  | |- kbd_safe (if ?c then _ else _) => destruct c
  | |- kbd_safe (k_upd _) => apply kbd_safe_kbd; done
  | |- kbd_safe (m_upd (set_sample _)) => apply kbd_safe_mouse, set_sample_common
  | |- kbd_safe (m_upd _) => apply kbd_safe_mouse; done
  end.
Ltac kbd_solve := repeat (kbd_step || (cbv zeta)); auto with kbd.

Lemma kbd_safe_packet : kbd_safe (ps2_mouse_send_packet kbd_irq).
Proof. unfold ps2_mouse_send_packet. kbd_solve. Qed.
#[local] Hint Resolve kbd_safe_packet : kbd.
Lemma kbd_safe_write_mouse val : kbd_safe (ps2_write_mouse kbd_irq val).
Proof. unfold ps2_write_mouse, mouse_command. kbd_solve. Qed.
Lemma kbd_safe_write_keyboard val : kbd_safe (ps2_write_keyboard kbd_irq val).
Proof. unfold ps2_write_keyboard, ps2_reset_keyboard. kbd_solve. Qed.
#[local] Hint Resolve kbd_safe_write_mouse kbd_safe_write_keyboard : kbd.
Lemma kbd_safe_write_data val : kbd_safe (kbd_write_data val).
Proof. unfold kbd_write_data, ps2_keyboard_set_translation, kbd_queue. kbd_solve. Qed.
Lemma kbd_safe_command val : kbd_safe (kbd_write_command val).
Proof. unfold kbd_write_command, kbd_queue. kbd_solve. Qed.
Lemma kbd_safe_keycode k : kbd_safe (ps2_put_keycode kbd_irq k).
Proof.
  unfold ps2_put_keycode. destruct (aget_Some ps2_raw_keycode (Z.land k 0x7f)) as [code Hc].
  { change 0x7f with (Z.ones 7). rewrite Z.land_ones by lia. apply Z.mod_pos_bound. done. }
  rewrite Hc. cbn [of_option]. kbd_solve.
Qed.

(** What happens to the keyboard controller: accesses to its ports, and keys of the
    host. *)
Inductive kbd_event := ReadData | ReadStatus | WriteData (v : Z) | WriteCommand (v : Z) | Key (code : Z).
Definition kbd_run (e : kbd_event) : M kbdpc Z :=
  match e with
  | ReadData => inportb 0x60
  | ReadStatus => inportb 0x64
  | WriteData v => outportb 0x60 v ;;; ret 0
  | WriteCommand v => outportb 0x64 v ;;; ret 0
  | Key code => ps2_put_keycode kbd_irq code ;;; ret 0
  end.
Fixpoint kbd_runs (es : list kbd_event) : M kbdpc unit :=
  match es with [] => ret tt | e :: es => kbd_run e ;;; kbd_runs es end.

(** C31: no sequence of accesses to the keyboard controller and of keys makes it
    fault: every data byte, command and key is handled whatever was sent before, both
    queues stay bounded queues, and the interrupt controllers behind it stay well
    formed. *)
Theorem kbd_access_safe es s : kbd_wf s -> exists s', kbd_runs es s = Ok tt s' /\ kbd_wf s'.
Proof.
  revert s. assert (kbd_safe (kbd_runs es)) as H.
  { induction es as [|e es IH]; cbn [kbd_runs]; [apply kbd_safe_ret|]. apply kbd_safe_bind; [|done].
    destruct e as [| |v|v|k]; cbn [kbd_run inportb outportb kbd_ports kbd_inb kbd_outb]; unfold kbd_inb, kbd_outb, kbd_read_data, kbd_read_status;
      cbn [Z.eqb Pos.eqb]; [kbd_solve..| | |]; (apply kbd_safe_bind; [|intros; apply kbd_safe_ret]);
      [apply kbd_safe_write_data|apply kbd_safe_command|apply kbd_safe_keycode]. }
  intros s Hs. destruct (H s Hs) as ([] & s' & E & Hs' & _). by exists s'.
Qed.

Lemma kbd_access_safe_witness :
  exists s', kbd_runs [WriteCommand 0x60; WriteData 0x43; WriteCommand 0xD4; WriteData 0xF4; Key 0x1E; ReadStatus; ReadData; WriteCommand 0xFE]
      (kbd_init I8259.pic_init) = Ok tt s' /\ kbd_wf s'.
Proof.
  apply (kbd_access_safe _ (kbd_init I8259.pic_init)).
  split; [by exists (Fifo [] 0); apply new_queue|]. split; [by exists (Fifo [] 0); apply new_queue|].
  split; split; vm_compute; split; congruence || done.
Defined.
