(* ===== verification/KbdMachine.v ===== *)
(** A key on the emulated machine: from the keyboard (Ps2) through its controller
    (Pckbd), the interrupt controllers (I8259) and the dispatcher (Irq) to the ring of
    the console driver (Tty). *)
From S2P Require Import Prelude LibC Device I8259 Port Irq Tty Ps2 Pckbd.

(** ** The machine *)

(** The console driver's data and the devices, behind the interrupt tables. *)
Record kmachine := MkKm { km_disps : list tty_disp; km_vram : list Z; km_kbd : tty_queue; km_dev : kbdpc }.

Definition on_dev {A} (m : M kbdpc A) : M kmachine A :=
  zoom km_dev (fun d k => MkKm (km_disps k) (km_vram k) (km_kbd k) d) m.

#[export] Instance km_ports : PortIO kmachine := {
  inportb port := on_dev (inportb port);
  outportb port val := on_dev (outportb port val);
  inportw port := on_dev (inportw port);
  outportw port val := on_dev (outportw port val)
}.

(** The same state as the driver sees it, and back. *)
Definition as_tty (s : irq_state kmachine) : tty kbdpc :=
  Tty (km_disps (io s)) (km_vram (io s)) (km_kbd (io s))
    (MkIrq (isr_handler s) (irq_handler s) (syscall s) (iflag s) (km_dev (io s))).
Definition of_tty (t : tty kbdpc) : irq_state kmachine :=
  MkIrq (isr_handler (tio t)) (irq_handler (tio t)) (syscall (tio t)) (iflag (tio t))
    (MkKm (disps t) (vram t) (kbd t) (io (tio t))).

(** Calling an installed handler; the console's is the only one here.  [stack] is
    what the stack holds where [kprintf] has its buffer. *)
Definition call_handler (stack : list Z) (f : nat) (regs : Register) : M (irq_state kmachine) unit :=
  if Nat.eqb f TTY_INTR then zoom as_tty (fun t _ => of_tty t) (tty_intr stack) else ret tt.

Definition on_machine {A} (m : M kbdpc A) : M (irq_state kmachine) A :=
  zoom io (fun k s => MkIrq (isr_handler s) (irq_handler s) (syscall s) (iflag s) k) (on_dev m).

(** The processor takes an interrupt: the vector of the controllers, and the
    kernel's entry. *)
Definition take_interrupt (stack : list Z) : M (irq_state kmachine) unit :=
  v <- on_machine (on_host (on_pics pic_read_irq)) ;;
  isr_entry (call_handler stack) (Reg v 0).

(** The host reports a key, and the processor is interrupted. *)
Definition key_event (stack : list Z) (code : Z) : M (irq_state kmachine) unit :=
  on_machine (ps2_put_keycode kbd_irq code) ;;; take_interrupt stack.

(** ** Line 1 at the interrupt controllers *)

Section Line.
Context (m0 m1 em0 em1 : Z) (H0 : is_u8 m0) (H1 : is_u8 m1) (Hm : Z.testbit m0 1 = false).

(** The master with its line 1 requested, in service, and in service with the line
    down. *)
Definition requested : PicState := MkPic 2 2 m0 0 0 0x20 0 0 0 0 0 0 0 1 0 em0.
Definition serviced (last : Z) : PicState := MkPic last 0 m0 2 0 0x20 0 0 0 0 0 0 0 1 0 em0.

Lemma requested_irq p : pic0 p = requested -> get_irq 0 p = Ok 1 p.
Proof using H0 Hm.
  intros Hp. destruct p as [c0 c1 rq al]. cbn in Hp. subst c0.
  by apply get_irq_single.
Qed.

Lemma update_requested rq al : pic_update_irq (MkPic2 requested (chip 0x28 m1 em1) rq al) =
  Ok tt (MkPic2 requested (chip 0x28 m1 em1) (1 :: rq) al).
Proof using H0 Hm.
  set (p := MkPic2 _ _ _ _). unfold pic_update_irq. rewrite (bind_ok _ _ _ _ _ (get_irq_none 1 p eq_refl)).
  cbn [Z.leb Z.compare]. msteps. by rewrite (bind_ok _ _ _ _ _ (requested_irq p eq_refl)).
Qed.

Lemma raise_key rq al : exists rq' al',
  (pic_set_irq 1 1 ;;; pic_set_irq 12 0) (quiet m0 m1 em0 em1 rq al) = Ok tt (MkPic2 requested (chip 0x28 m1 em1) rq' al').
Proof using H0 Hm.
  eexists _, _. unfold pic_set_irq, pic_set_irq_new, upd_pic, quiet. rewrite !bind_assoc. msteps.
  change (set_pics (Z.shiftr 1 3) _ _) with (MkPic2 (pic_set_irq1 1 1 (chip 0x20 m0 em0)) (chip 0x28 m1 em1) rq al).
  rewrite (line_up 0x20 m0 em0 1) by lia. change (Z.shiftl 1 1) with 2. fold requested. cbn [pic0 pic1 irq_request alt_irq].
  rewrite (bind_ok _ _ _ _ _ (update_requested _ _)). msteps. cbn [pic0 pic1 irq_request alt_irq].
  set (p := MkPic2 requested _ _ _). change (set_pics (Z.shiftr 12 3) (pic_set_irq1 (Z.land 12 7) 0 (pics p (Z.shiftr 12 3))) p) with p.
  apply update_requested.
Qed.

Lemma ack_key rq al : pic_read_irq (MkPic2 requested (chip 0x28 m1 em1) rq al) =
  Ok 0x21 (MkPic2 (serviced 2) (chip 0x28 m1 em1) rq al).
Proof using H0 Hm.
  set (p := MkPic2 _ _ _ _). unfold pic_read_irq. rewrite (bind_ok _ _ _ _ _ (requested_irq p eq_refl)). cbn [Z.leb Z.compare Z.eqb Pos.eqb].
  unfold upd_pic. rewrite bind_assoc. msteps. change (set_pics 0 _ _) with (MkPic2 (serviced 2) (chip 0x28 m1 em1) rq al).
  by rewrite (bind_ok _ _ _ tt (MkPic2 (serviced 2) (chip 0x28 m1 em1) rq al)) by (by apply update_idle).
Qed.

Lemma drop_key last rq al : last = 2 \/ last = 0 -> exists al',
  (pic_set_irq 1 0 ;;; pic_set_irq 12 0) (MkPic2 (serviced last) (chip 0x28 m1 em1) rq al) =
    Ok tt (MkPic2 (serviced 0) (chip 0x28 m1 em1) rq al').
Proof using Type.
  intros Hl. eexists. unfold pic_set_irq, pic_set_irq_new, upd_pic. rewrite !bind_assoc. msteps.
  set (p := MkPic2 (serviced last) _ _ _).
  assert (set_pics (Z.shiftr 1 3) (pic_set_irq1 (Z.land 1 7) 0 (pics p (Z.shiftr 1 3))) p = MkPic2 (serviced 0) (chip 0x28 m1 em1) rq al) as ->
    by (destruct Hl as [-> | ->]; reflexivity).
  cbn [pic0 pic1 irq_request alt_irq]. set (p' := MkPic2 _ _ _ _). rewrite (bind_ok _ _ _ tt p') by (by apply update_idle). msteps.
  subst p'. cbn [pic0 pic1 irq_request alt_irq]. by rewrite update_idle.
Qed.

Lemma eoi_key rq al : pic_outb 0x20 0x20 (MkPic2 (serviced 0) (chip 0x28 m1 em1) rq al) = Ok tt (quiet m0 m1 em0 em1 rq al).
Proof using Type.
  exact (eoi_chip 0 (MkPic2 (serviced 0) (chip 0x28 m1 em1) rq al) 0 0x20 m0 em0 1 ltac:(by left) eq_refl ltac:(lia) eq_refl).
Qed.
End Line.

(** ** The controller *)

Section Controller.
Context (m0 m1 em0 em1 : Z) (H0 : is_u8 m0) (H1 : is_u8 m1) (Hm : Z.testbit m0 1 = false).

(** The keyboard may interrupt. *)
Definition interrupting (md : Z) : Prop := has md KBD_MODE_KBD_INT = true /\ has md KBD_MODE_DISABLE_KBD = false.

Lemma on_pics_two irq1 irq12 st c p p' a r :
  (pic_set_irq 1 irq1 ;;; pic_set_irq 12 irq12) p = Ok tt p' ->
  (kc_upd (set_stat st) ;;; on_pics (pic_set_irq 1 irq1) ;;; on_pics (pic_set_irq 12 irq12)) (MkHost c p a r) =
    Ok tt (MkHost (set_stat st c) p' a r).
Proof using Type.
  intros E. unfold kc_upd. msteps. cbn [kc kpics a20 reset_requested]. unfold on_pics, zoom, bind in *. cbn [kpics].
  destruct (pic_set_irq 1 irq1 p) as [[] p1|]; [|done]. cbn [kpics]. by rewrite E.
Qed.

Lemma key_raised wc st md rq al a r :
  interrupting md -> exists st' rq' al',
  kbd_irq false 1 (MkHost (MkKbdState wc st md 0) (quiet m0 m1 em0 em1 rq al) a r) =
    Ok tt (MkHost (MkKbdState wc st' md KBD_PENDING_KBD) (MkPic2 (requested m0 em0) (chip 0x28 m1 em1) rq' al') a r).
Proof using H0 Hm.
  intros [Hi Hd]. destruct (raise_key m0 m1 em0 em1 H0 Hm rq al) as (rq' & al' & E). eexists _, rq', al'.
  unfold kbd_irq, kbd_update_kbd_irq, kc_upd. msteps. cbn [kc kpics a20 reset_requested]. unfold kbd_update_irq. msteps. cbn [kc].
  change (set_pending _ _) with (MkKbdState wc st md 1). assert (irq1_level (MkKbdState wc st md 1) = 1) as ->
    by (unfold irq1_level; cbn [c_pending c_mode]; by rewrite Hi, Hd).
  change (irq12_level (MkKbdState wc st md 1)) with 0. by rewrite (on_pics_two _ _ _ _ _ _ _ _ E).
Qed.

Lemma key_lowered wc st md p last rq al a r :
  p = 1 \/ p = 0 -> last = 2 \/ last = 0 -> exists st' al',
  kbd_irq false 0 (MkHost (MkKbdState wc st md p) (MkPic2 (serviced m0 em0 last) (chip 0x28 m1 em1) rq al) a r) =
    Ok tt (MkHost (MkKbdState wc st' md 0) (MkPic2 (serviced m0 em0 0) (chip 0x28 m1 em1) rq al') a r).
Proof using Type.
  intros Hp Hl. destruct (drop_key m0 m1 em0 em1 last rq al Hl) as (al' & E). eexists _, al'.
  unfold kbd_irq, kbd_update_kbd_irq, kc_upd. msteps. cbn [kc kpics a20 reset_requested]. unfold kbd_update_irq. msteps. cbn [kc].
  assert (set_pending (if negb (0 =? 0) then u8 (Z.lor (c_pending (MkKbdState wc st md p)) KBD_PENDING_KBD)
    else u8 (Z.land (c_pending (MkKbdState wc st md p)) (Z.lnot KBD_PENDING_KBD))) (MkKbdState wc st md p) = MkKbdState wc st md 0) as ->
    by (destruct Hp as [-> | ->]; reflexivity).
  change (irq1_level (MkKbdState wc st md 0)) with 0. change (irq12_level (MkKbdState wc st md 0)) with 0.
  by rewrite (on_pics_two _ _ _ _ _ _ _ _ E).
Qed.
End Controller.

(** ** The message *)

(** What the handler prints for a byte. *)
Definition hex (c : Z) : list Z := digits 16 (if c <? 16 then 1 else 2) c.
Definition key_text (c : Z) : list Z := [60] ++ hex c ++ [62; 10].

#[export] Instance kbd_video : VideoPorts kbdpc.
Proof. intros port val w [-> | ->]; eexists; reflexivity. Defined.

(** The ports of the display are not those of a device of this machine: writing on
    the screen leaves the devices, the tables and the ring alone. *)
Definition same_machine (t : irq_state kbdpc) (q : tty_queue) (s : tty kbdpc) : Prop := tio s = t /\ kbd s = q.

Section Frame.
Context (t0 : irq_state kbdpc) (q0 : tty_queue).
Abbreviation framed m := (preserves (same_machine t0 q0) m).

Lemma frame_out port val : port = 0x3D4 \/ port = 0x3D5 -> framed (t_out port val).
Proof using Type.
  intros Hp s a s' [Ht Hq] E. destruct s as [ds vr q [ih qh sc fl [kb mo [c p a2 r]]]].
  assert (t_out port val (Tty ds vr q (MkIrq ih qh sc fl (MkPs2 kb mo (MkHost c p a2 r)))) =
    Ok tt (Tty ds vr q (MkIrq ih qh sc fl (MkPs2 kb mo (MkHost c p a2 r))))) as E' by (destruct Hp as [-> | ->]; reflexivity).
  rewrite E' in E. by injection E as <- <-.
Qed.
Lemma frame_disp_at i : framed (disp_at i).
Proof using Type. intros s a s' Hs E. unfold disp_at in E. rewrite bind_get in E. by apply (preserves_of_option _ _ _ s a s' Hs E). Qed.
Lemma frame_disp_upd i f : framed (disp_upd i f).
Proof using Type. intros s a s' [Ht Hq] E. unfold disp_upd in E. minv. done. Qed.
Lemma frame_cell_set i v : framed (cell_set i v).
Proof using Type. intros s a s' [Ht Hq] E. unfold cell_set in E. minv. done. Qed.
Lemma frame_cell_get i : framed (cell_get i).
Proof using Type. intros s a s' Hs E. unfold cell_get in E. rewrite bind_get in E. by apply (preserves_of_option _ _ _ s a s' Hs E). Qed.

Ltac frame_with lem :=
  repeat first
    [apply lem | apply frame_disp_at | apply frame_disp_upd | apply frame_cell_set | apply frame_cell_get | apply frame_out; lia
    | apply preserves_bind; [|intros ?] | apply preserves_if | apply preserves_ret | apply preserves_stop].

Lemma frame_scroll id : framed (tty_scroll id).
Proof using Type.
  assert (forall n dest src, framed (copy_cells n dest src)) as Hc by (induction n as [|n IHn]; intros; cbn [copy_cells]; [apply preserves_ret|]; frame_with IHn).
  assert (forall n dest, framed (blank_cells n dest)) as Hb by (induction n as [|n IHn]; intros; cbn [blank_cells]; [apply preserves_ret|]; frame_with IHn).
  unfold tty_scroll. apply preserves_bind; [apply frame_disp_at|intros d]. by apply preserves_bind.
Qed.

Lemma frame_write id buf cnt : framed (tty_write id buf cnt).
Proof using Type.
  unfold tty_write. revert buf. induction (Z.to_nat (u32 cnt)) as [|n IH]; intros buf; cbn [write_chars]; [apply preserves_ret|].
  apply preserves_bind; [|intros _; destruct buf as [|c buf]; [apply preserves_stop|]].
  - unfold tty_prepare. frame_with frame_scroll.
  - apply preserves_bind; [|intros; apply IH]. unfold tty_putc, tty_setcursor. frame_with frame_scroll.
Qed.
End Frame.

Section Print.
Context (col : Z) (pre post : list Z) (ds : list tty_disp) (kb : tty_queue).

(** One piece of text on the first display. *)
Lemma print_piece cs p (s : tty kbdpc) :
  shows 0 col pre post ds kb p s -> screen_ok p -> Z.of_nat (length cs) < 2 ^ 31 -> forall rest,
  exists s', tty_write 0 (cs ++ rest) (Z.of_nat (length cs)) s = Ok 0 s' /\ same_machine (tio s) (kbd s) s' /\
    shows 0 col pre post ds kb (screen_write col p cs) s' /\ screen_ok (screen_write col p cs).
Proof using Type.
  intros Hs Hp Hl rest. destruct (write_chars_shows 0 col pre post ds kb cs rest p s Hs Hp) as (s' & E & Hs' & Hp').
  exists s'. assert (tty_write 0 (cs ++ rest) (Z.of_nat (length cs)) s = Ok 0 s') as Ew
    by (unfold tty_write; rewrite u32_small, Nat2Z.id by (unfold is_u32; lia); exact E).
  split; [exact Ew|]. split; [|done]. by apply (frame_write (tio s) (kbd s) 0 (cs ++ rest) (Z.of_nat (length cs)) s 0 s').
Qed.

Lemma hex_nonzero c : Forall (fun d => d <> 0) (hex c).
Proof using Type. unfold hex. apply digits_nonzero. lia. Qed.

Lemma itoa_hex c stack : is_u8 c -> (33 <= length stack)%nat -> exists rest, itoa (s32 c) 16 stack = Ok tt (hex c ++ 0 :: rest).
Proof using Type.
  unfold is_u8. intros Hc Hl. rewrite s32_small by (unfold is_s32; lia).
  destruct (itoa_ok c 16 stack) as (n & Hn & -> & _ & Hlt & Hge & H0); [unfold is_s32; lia|lia|done|].
  rewrite u32_small in * by (unfold is_u32; lia). exists (drop (S n) stack). unfold hex. do 3 f_equal.
  destruct (decide (c = 0)) as [-> | Hc0]; [by apply H0|]. specialize (Hge Hc0).
  destruct (decide (n <= 2)%nat) as [Hn2|Hn2].
  - assert (n = 1%nat \/ n = 2%nat) as [-> | ->] by lia; destruct (Z.ltb_spec c 16); try done;
      change (Z.of_nat 1) with 1 in *; change (Z.of_nat 2 - 1) with 1 in *; lia.
  - pose proof (Z.pow_le_mono_r 16 2 (Z.of_nat n - 1)). lia.
Qed.

Lemma print_key_ok c stack p (s : tty kbdpc) :
  is_u8 c -> (33 <= length stack)%nat -> shows 0 col pre post ds kb p s -> screen_ok p ->
  exists s', print_key stack c s = Ok tt s' /\ same_machine (tio s) (kbd s) s' /\
    shows 0 col pre post ds kb (screen_write col p (key_text c)) s' /\ screen_ok (screen_write col p (key_text c)).
Proof using Type.
  intros Hc Hl Hs Hp. unfold print_key. destruct (itoa_hex c stack Hc Hl) as [rest Ei].
  destruct (print_piece [60] p s Hs Hp ltac:(done) []) as (s1 & E1 & [M1 Q1] & Hs1 & Hp1). cbn [length app] in E1.
  rewrite (bind_ok _ _ _ _ _ E1), Ei. rewrite bind_assoc.
  erewrite bind_some by (apply (strlen_cstr _ (hex c) rest); split; [done|apply hex_nonzero]).
  destruct (print_piece (hex c) _ s1 Hs1 Hp1 ltac:(unfold hex; rewrite length_digits; case_match; done) (0 :: rest))
    as (s2 & E2 & [M2 Q2] & Hs2 & Hp2). rewrite (bind_ok _ _ _ _ _ E2).
  destruct (print_piece [62] _ s2 Hs2 Hp2 ltac:(done) []) as (s3 & E3 & [M3 Q3] & Hs3 & Hp3). rewrite (bind_ok _ _ _ _ _ E3).
  destruct (print_piece [10] _ s3 Hs3 Hp3 ltac:(done) []) as (s4 & E4 & [M4 Q4] & Hs4 & Hp4). rewrite (bind_ok _ _ _ _ _ E4).
  assert (screen_write col p (key_text c) =
    screen_write col (screen_write col (screen_write col (screen_write col p [60]) (hex c)) [62]) [10]) as ->.
  { unfold key_text, screen_write. rewrite !foldl_app. done. }
  exists s4. split; [done|]. split; [|done]. split; congruence.
Qed.
End Print.

(** ** A key event *)

(** The byte the keyboard sends for a key that needs only one. *)
Definition scan_code (k : PS2KbdState) (code : Z) : Z :=
  u8 (if translate k then code else nth (Z.to_nat code) ps2_raw_keycode 0).
Definition one_byte (k : PS2KbdState) (code : Z) : Prop := translate k = true \/ 0 <= code < 0x80.

Section Event.
Context (m0 m1 em0 em1 : Z) (H0 : is_u8 m0) (H1 : is_u8 m1) (Hm : Z.testbit m0 1 = false).

Lemma wf_chips last sv rq al : is_u8 last -> is_u8 sv ->
  wf_pic2 (MkPic2 (MkPic last last m0 sv 0 0x20 0 0 0 0 0 0 0 1 0 em0) (chip 0x28 m1 em1) rq al) /\
  wf_pic2 (MkPic2 (MkPic last 0 m0 sv 0 0x20 0 0 0 0 0 0 0 1 0 em0) (chip 0x28 m1 em1) rq al).
Proof using H0 H1. intros Hl Hs. repeat split; cbn; unfold is_u8 in *; lia. Qed.

Lemma put_key kb mo h code :
  one_byte kb code -> exists b, u8 b = scan_code kb code /\
    ps2_put_keycode kbd_irq code (MkPs2 kb mo h) = ps2_queue kbd_irq false b (MkPs2 kb mo h).
Proof using Type.
  unfold one_byte, scan_code, ps2_put_keycode. intros Hb. msteps. cbn [p_kbd]. destruct (translate kb); cbn [negb andb]; [by exists code|].
  destruct Hb as [|Hc]; [done|]. rewrite (proj2 (Z.ltb_lt _ _)) by lia. eexists. split; [reflexivity|].
  assert (Z.land code 0x80 = 0) as ->.
  { change 0x80 with (Z.shiftl 1 7). apply Z.eqb_eq. rewrite land_bit by lia. rewrite <- (Z.mod_small code (2 ^ 7)) by lia.
    by rewrite Z.mod_pow2_bits_high by lia. }
  cbn [Z.eqb negb]. msteps. change 0x7f with (Z.ones 7). rewrite Z.land_ones, Z.mod_small by lia.
  rewrite (bind_some _ _ (nth (Z.to_nat code) ps2_raw_keycode 0)); [done|].
  unfold aget. rewrite decide_True by lia. rewrite nth_lookup. destruct (lookup_lt_is_Some_2 ps2_raw_keycode (Z.to_nat code)) as [c ->]; [cbn; lia|done].
Qed.

Lemma dev_press kb mo wc st md rq al a r code t :
  interrupting md -> one_byte kb code -> represents (queue (k_common kb)) (Fifo [] t) ->
  exists kb' st' rq' al',
    ps2_put_keycode kbd_irq code (MkPs2 kb mo (MkHost (MkKbdState wc st md 0) (quiet m0 m1 em0 em1 rq al) a r)) =
      Ok tt (MkPs2 kb' mo (MkHost (MkKbdState wc st' md 1) (MkPic2 (requested m0 em0) (chip 0x28 m1 em1) rq' al') a r)) /\
    represents (queue (k_common kb')) (Fifo [scan_code kb code] t) /\ translate kb' = translate kb.
Proof using H0 H1 Hm.
  intros Hmd Hc Hq. set (d := MkPs2 kb mo _). destruct (put_key kb mo (p_host d) code Hc) as (b & Eb & Ep). change (MkPs2 kb mo (p_host d)) with d in Ep.
  destruct (put_step kbd_irq host_ok false b d (Fifo [] t) Hq) as (q & w & Ew & _ & E & Hq'); [cbn; lia|by apply (wf_chips 0 0 rq al)|].
  destruct (key_raised m0 m1 em0 em1 H0 Hm wc st md rq al a r Hmd) as (st' & rq' & al' & Ek).
  cbn [p_host d] in Ew. rewrite Ek in Ew. injection Ew as <-.
  eexists _, st', rq', al'. rewrite Ep, E. split; [reflexivity|]. split; [|done].
  unfold fifo_put in Hq'. rewrite decide_True in Hq' by (cbn; lia). cbn [bytes app taken] in Hq'. by rewrite Eb in Hq'.
Qed.

Lemma dev_read kb mo wc st md rq al a r x t :
  represents (queue (k_common kb)) (Fifo [x] t) ->
  exists kb' st' al',
    kbd_read_data (MkPs2 kb mo (MkHost (MkKbdState wc st md 1) (MkPic2 (serviced m0 em0 2) (chip 0x28 m1 em1) rq al) a r)) =
      Ok x (MkPs2 kb' mo (MkHost (MkKbdState wc st' md 0) (MkPic2 (serviced m0 em0 0) (chip 0x28 m1 em1) rq al') a r)) /\
    represents (queue (k_common kb')) (Fifo [] x) /\ translate kb' = translate kb.
Proof using H0 H1.
  intros Hq. set (d := MkPs2 kb mo _).
  destruct (take_step kbd_irq host_ok false d x [] t Hq) as (q & w1 & w2 & E1 & E2 & _ & E & Hq'); [by apply (wf_chips 2 2 rq al)|].
  destruct (key_lowered m0 m1 em0 em1 wc st md 1 2 rq al a r) as (st1 & al1 & K1); [lia..|].
  destruct (key_lowered m0 m1 em0 em1 wc st1 md 0 0 rq al1 a r) as (st2 & al2 & K2); [lia..|].
  cbn [p_host d] in E1. rewrite K1 in E1. injection E1 as <-. rewrite decide_True in E2 by done. rewrite K2 in E2. injection E2 as <-.
  eexists _, st2, al2. unfold kbd_read_data. msteps. change (c_pending (kc (p_host d)) =? KBD_PENDING_AUX) with false.
  rewrite E. split; [reflexivity|]. done.
Qed.

(** The handler of the console: the byte goes through the ring to the screen. *)
Lemma tty_intr_ok stack col pre post ds p s kb mo wc st md rq al a r x t :
  let i := tio s in
  io i = MkPs2 kb mo (MkHost (MkKbdState wc st md 1) (MkPic2 (serviced m0 em0 2) (chip 0x28 m1 em1) rq al) a r) ->
  represents (queue (k_common kb)) (Fifo [x] t) -> is_u8 x -> (33 <= length stack)%nat ->
  holds_keys (kbd s) [] -> shows 0 col pre post ds (kbd s) p s -> screen_ok p ->
  exists kb' st' al' s',
    tty_intr stack s = Ok tt s' /\
    tio s' = MkIrq (isr_handler i) (irq_handler i) (syscall i) (iflag i)
      (MkPs2 kb' mo (MkHost (MkKbdState wc st' md 0) (MkPic2 (serviced m0 em0 0) (chip 0x28 m1 em1) rq al') a r)) /\
    represents (queue (k_common kb')) (Fifo [] x) /\ translate kb' = translate kb /\ holds_keys (kbd s') [] /\
    shows 0 col pre post ds (kbd s') (screen_write col p (key_text x)) s' /\ screen_ok (screen_write col p (key_text x)).
Proof using H0 H1.
  intros i Ei Hq Hx Hst Hks Hs Hp. destruct (dev_read kb mo wc st md rq al a r x t Hq) as (kb' & st' & al' & E & Hq' & Ht).
  rewrite <- Ei in E. set (d' := MkPs2 kb' mo _) in *.
  assert (forall s, t_in 0x64 s = Ok (c_stat (kc (p_host (io (tio s))))) s) as Hstat by (intros [? ? ? []]; done).
  set (i' := MkIrq (isr_handler i) (irq_handler i) (syscall i) (iflag i) d').
  set (s1 := Tty (disps s) (vram s) (kbd s) i').
  assert (t_in 0x60 s = Ok x s1) as Hdata.
  { unfold t_in, on_irq, inb, zoom. cbn [inportb kbd_ports]. fold i. unfold kbd_inb. cbn [Z.eqb Pos.eqb]. by rewrite E. }
  destruct (push_room s1 [] x Hks ltac:(cbn; lia)) as (q1 & Epush & Hq1). rewrite u8_small in Hq1 by done.
  destruct (pop_key (Tty (disps s1) (vram s1) q1 (tio s1)) x [] Hq1) as (q2 & Epop & Hq2).
  cbn [disps vram tio s1] in Epush, Epop. set (s2 := Tty (disps s) (vram s) q2 i') in *.
  assert (shows 0 col pre post ds q2 p s2) as Hs2 by (destruct Hs as (Hd & Hv & _ & Hi & Hpre); by split_and!).
  destruct (print_key_ok col pre post ds q2 x stack p s2 Hx Hst Hs2 Hp) as (s3 & E3 & [M3 Q3] & Hs3 & Hp3).
  exists kb', st', al', s3. cbn [tio kbd s2] in M3, Q3. rewrite Q3. split; [|done]. unfold tty_intr.
  rewrite (bind_ok _ _ _ _ _ (Hstat _)), (bind_ok _ _ _ _ _ Hdata), (bind_ok _ _ _ _ _ Epush), (bind_ok _ _ _ _ _ Epop).
  rewrite (bind_ok _ _ _ _ _ E3). by rewrite (bind_ok _ _ _ _ _ (Hstat _)).
Qed.

(** The machine waits for a key: the controllers are idle, the keyboard has sent
    everything, the driver's handler is installed, its ring is empty, and its first
    display shows [p]. *)
Record waiting (col : Z) (pre post : list Z) (ds : list tty_disp) (p : screen) (s : irq_state kmachine) : Prop := {
  w_pics : exists rq al, kpics (p_host (km_dev (io s))) = quiet m0 m1 em0 em1 rq al;
  w_ctl : c_pending (kc (p_host (km_dev (io s)))) = 0 /\ interrupting (c_mode (kc (p_host (km_dev (io s)))));
  w_sent : exists t, represents (queue (k_common (p_kbd (km_dev (io s))))) (Fifo [] t);
  w_ring : holds_keys (kbd (as_tty s)) [];
  w_handler : irq_handler s !! 1%nat = Some (Some TTY_INTR);
  w_shows : shows 0 col pre post ds (kbd (as_tty s)) p (as_tty s);
  w_screen : screen_ok p
}.

(** What the devices do to the machine around them. *)
Lemma on_machine_ok {A} (m : M kbdpc A) ih qh sc fl ds vr kq d x d' :
  m d = Ok x d' -> on_machine m (MkIrq ih qh sc fl (MkKm ds vr kq d)) = Ok x (MkIrq ih qh sc fl (MkKm ds vr kq d')).
Proof using Type. intros E. unfold on_machine, on_dev, zoom. cbn. by rewrite E. Qed.

Lemma key_event_ok stack col pre post ds p code s :
  (33 <= length stack)%nat -> waiting col pre post ds p s -> one_byte (p_kbd (km_dev (io s))) code ->
  exists s', key_event stack code s = Ok tt s' /\
    waiting col pre post ds (screen_write col p (key_text (scan_code (p_kbd (km_dev (io s))) code))) s' /\
    translate (p_kbd (km_dev (io s'))) = translate (p_kbd (km_dev (io s))).
Proof using H0 H1 Hm.
  intros Hst [(rq & al & Ep) [Hpe Hmd] (t & Hq) Hks Hh Hs Hp] Hc. destruct s as [ih qh sc fl [dd vr kq [kb mo [[wc st md pe] pp a r]]]].
  cbn [io km_dev km_kbd p_host p_kbd kc kpics c_pending c_mode irq_handler] in *. subst pp pe.
  destruct (dev_press kb mo wc st md rq al a r code t Hmd Hc Hq) as (kb1 & st1 & rq1 & al1 & E1 & Hq1 & T1).
  unfold key_event. rewrite (bind_ok _ _ _ _ _ (on_machine_ok _ ih qh sc fl dd vr kq _ _ _ E1)).
  unfold take_interrupt. set (h1 := MkHost _ _ a r). set (h2 := MkHost (MkKbdState wc st1 md 1)
    (MkPic2 (serviced m0 em0 2) (chip 0x28 m1 em1) rq1 al1) a r).
  assert (on_host (on_pics pic_read_irq) (MkPs2 kb1 mo h1) = Ok 0x21 (MkPs2 kb1 mo h2)) as E2.
  { unfold on_host, on_pics, zoom. cbn [p_host kpics h1]. by rewrite (ack_key m0 m1 em0 em1 H0 Hm). }
  rewrite (bind_ok _ _ _ _ _ (on_machine_ok _ ih qh sc fl dd vr kq _ _ _ E2)).
  set (s2 := MkIrq ih qh sc fl (MkKm dd vr kq (MkPs2 kb1 mo h2))).
  destruct (tty_intr_ok stack col pre post ds p (as_tty s2) kb1 mo wc st1 md rq1 al1 a r _ t eq_refl Hq1 (u8_range _) Hst Hks)
    as (kb2 & st2 & al2 & s3 & E3 & Ei & Hq2 & T2 & Hr2 & Hs3 & Hp3); [|done|].
  { destruct Hs as (Hd & Hv & _ & Hi & Hpre). by split_and!. }
  unfold isr_entry. msteps. cbn [intn irq_handler s2 Z.leb Z.compare Pos.compare Pos.compare_cont andb].
  rewrite (bind_some _ _ (Some TTY_INTR)) by exact Hh. unfold call_handler. cbn [Nat.eqb TTY_INTR].
  rewrite (bind_ok _ _ _ tt (of_tty s3)) by (unfold zoom; by rewrite E3).
  unfold irq_eoi. change (8 <=? 0x21 - 32) with false. cbv iota. msteps.
  destruct s3 as [d3 v3 q3 i3]. cbn [tio] in Ei. subst i3. unfold of_tty. cbn [disps vram kbd tio isr_handler irq_handler syscall iflag io as_tty s2].
  set (h4 := MkHost (MkKbdState wc st2 md 0) (quiet m0 m1 em0 em1 rq1 al2) a r).
  assert (forall h, outb 0x20 0x20 (MkIrq ih qh sc fl (MkKm d3 v3 q3 (MkPs2 kb2 mo h))) =
    match pic_outb 0x20 0x20 (kpics h) with
    | Ok _ p => Ok tt (MkIrq ih qh sc fl (MkKm d3 v3 q3 (MkPs2 kb2 mo (MkHost (kc h) p (a20 h) (reset_requested h)))))
    | Err f => Err f end) as Hout.
  { intros h. unfold outb, zoom. cbn [io outportb km_ports]. unfold on_dev, zoom. cbn [km_dev outportb kbd_ports]. unfold kbd_outb.
    cbn [Z.eqb Pos.eqb]. unfold on_host, on_pics, zoom. cbn [p_host]. change (u8 0x20) with 0x20. by destruct (pic_outb 0x20 0x20 (kpics h)) as [[]|]. }
  rewrite Hout. cbn [kpics]. rewrite eoi_key. eexists. split; [reflexivity|]. split; [|cbn; by rewrite T2].
  split; cbn; [by eexists _, _|done|by eexists|exact Hr2|done|exact Hs3|exact Hp3].
Qed.
End Event.

Fixpoint key_events (stack : list Z) (codes : list Z) : M (irq_state kmachine) unit :=
  match codes with [] => ret tt | c :: codes => key_event stack c ;;; key_events stack codes end.

(** C22: keys appear on the screen and never reach a reader of the console.  On the
    machine waiting for a key with line 1 unmasked, every key whose code is one byte is
    delivered: the keyboard queues it, its controller raises line 1, the processor gets
    vector 0x21, the dispatcher calls the console's handler, which reads the byte and
    so lowers the line, puts it into the ring, takes it out again and writes it in
    angle brackets, in hexadecimal, on a line of its own; and after the end of
    interrupt the machine waits for the next key.  After any number of keys the screen
    shows all of them, and the ring is empty: [tty_read] returns 0. *)
Theorem keys_shown_not_read m0 m1 em0 em1 stack col pre post ds p codes s :
  is_u8 m0 -> is_u8 m1 -> Z.testbit m0 1 = false -> (33 <= length stack)%nat ->
  waiting m0 m1 em0 em1 col pre post ds p s -> let k := p_kbd (km_dev (io s)) in Forall (one_byte k) codes ->
  exists s', key_events stack codes s = Ok tt s' /\
    waiting m0 m1 em0 em1 col pre post ds (screen_write col p (concat (map (fun c => key_text (scan_code k c)) codes))) s' /\
    exists t, tty_read (as_tty s') = Ok (0, [0]) t.
Proof.
  intros H0 H1 Hm Hst Hw k Hc. assert (translate (p_kbd (km_dev (io s))) = translate k) as Hk by done. clearbody k.
  revert s p Hw Hk. induction Hc as [|c codes Hc Hcs IH]; intros s p Hw Hk.
  - exists s. split; [done|]. split; [done|]. unfold tty_read. destruct Hw. eexists.
    by rewrite (bind_ok _ _ _ _ _ (pop_empty (as_tty s) w_ring0)).
  - destruct (key_event_ok m0 m1 em0 em1 H0 H1 Hm stack col pre post ds p c s Hst Hw) as (s1 & E1 & Hw1 & Ht).
    { unfold one_byte in *. by rewrite Hk. }
    assert (scan_code (p_kbd (km_dev (io s))) c = scan_code k c) as Es by (unfold scan_code; by rewrite Hk).
    rewrite Es in Hw1. destruct (IH s1 _ Hw1) as (s2 & E2 & Hw2 & Hr); [congruence|].
    exists s2. cbn [key_events map concat]. rewrite (bind_ok _ _ _ _ _ E1). split; [done|]. split; [|done].
    unfold screen_write in *. by rewrite foldl_app.
Qed.

(** The kernel after its set-up, with the keyboard's line unmasked and one display. *)
Definition kbd_ready : irq_state kmachine :=
  MkIrq [] [None; Some TTY_INTR] None true
    (MkKm [page_disp 0] (replicate 2000 blank) empty_queue (kbd_init (quiet 0xF9 0xFF 0xf8 0xde [] None))).

Lemma keys_shown_not_read_witness :
  exists s', key_events (replicate 256 0) [0x1E; 0x02] kbd_ready = Ok tt s' /\
    waiting 0xF9 0xFF 0xf8 0xde 0x0F [] [] [page_disp 0]
      (screen_write 0x0F (Scr (replicate 2000 blank) 0 0) [60; 49; 99; 62; 10; 60; 49; 54; 62; 10]) s' /\
    exists t, tty_read (as_tty s') = Ok (0, [0]) t.
Proof.
  apply (keys_shown_not_read 0xF9 0xFF 0xf8 0xde (replicate 256 0) 0x0F [] [] [page_disp 0] (Scr (replicate 2000 blank) 0 0)
    [0x1E; 0x02] kbd_ready); [by vm_compute|by vm_compute|done|cbn; lia| |].
  - split; [by eexists _, _|by vm_compute|exists 0; apply new_queue| |done| |].
    + split_and!; try done; [cbn; lia|]. intros j Hj; do 16 (destruct j as [|j]; [done|]); lia.
    + split_and!; try done. cbn. lia.
    + split; [|cbn; lia]. split; [apply length_replicate|]. apply Forall_replicate. unfold blank. int_lia.
  - apply Forall_cons; split; [right; lia|]. apply Forall_cons; split; [right; lia|]. by apply Forall_nil.
Defined.
