(* ===== verification/Timer.v ===== *)
(** The timer list, src/sysv3/kernel/kernel/systimer.c, and the clock driver
    that rolls it, src/sysv3/kernel/arch/i386/cpu/clock.c.

    A handler is a number or null; what calling it does is the argument [call]
    of [timer_rolling].  [W] is the rest of the machine: the interrupt tables
    and the ports. *)
From S2P Require Import Prelude Time I8259 Port Irq.

Definition RTC_FREQUENCY : Z := 100.
Definition MAX_TIMER : Z := 64.

(** [struct timer]; [tid] is not used by the code. *)
Record timer := Timer { t_ms : Z; t_handler : option nat; t_counter : Z }.

Record timers (W : Type) := Timers { timer_list : list timer; timer_num : Z; dec : Z; tw : W }.
Arguments Timers {W}. Arguments timer_list {W}. Arguments timer_num {W}. Arguments dec {W}. Arguments tw {W}.

Section Systimer.
Context {W : Type}.

Definition timer_at (i : Z) : M (timers W) timer :=
  s <- get ;; of_option OutOfBounds (aget (timer_list s) i).
Definition timer_set (i : Z) (t : timer) : M (timers W) unit :=
  s <- get ;;
  l <- of_option OutOfBounds (aset (timer_list s) i t) ;;
  put (Timers l (timer_num s) (dec s) (tw s)).
Definition set_num (n : Z) : M (timers W) unit :=
  modify (fun s => Timers (timer_list s) n (dec s) (tw s)).

(** [int register_timer(int ms, handler)]; the interrupt flag is
    saved and restored around it. *)
Definition register_timer (ms : Z) (handler : option nat) : M (timers W) Z :=
  n <- gets timer_num ;;
  if (MAX_TIMER <=? n) || (ms <=? 0) then ret 0
  else
    set_num (n + 1) ;;;
    timer_set n (Timer ms handler ms) ;;;
    ret 1.

(** [int unregister_timer(handler)]: the loop from [i] on; the
    entry is replaced by the one at [timer_num]. *)
Fixpoint unregister_loop (fuel : nat) (i : Z) (handler : option nat) : M (timers W) Z :=
  n <- gets timer_num ;;
  if n <=? i then ret 0 else
  match fuel with
  | O => stop Diverged
  | S f =>
      t <- timer_at i ;;
      if decide (handler = t_handler t) then
        l <- timer_at n ;;
        timer_set i l ;;;
        set_num (n - 1) ;;;
        ret 1
      else unregister_loop f (i + 1) handler
  end.
Definition unregister_timer (handler : option nat) : M (timers W) Z :=
  unregister_loop (Z.to_nat MAX_TIMER + 1) 0 handler.

Context (call : nat -> M (timers W) unit).

(** [tmr->handler()] *)
Definition call_handler (h : option nat) : M (timers W) unit :=
  match h with Some f => call f | None => stop NullDeref end.

(** The loop of [timer_rolling]: [timer_num] is read again in every turn. *)
Fixpoint roll_loop (fuel : nat) (i : Z) : M (timers W) unit :=
  n <- gets timer_num ;;
  if n <=? i then ret tt else
  match fuel with
  | O => stop Diverged
  | S f =>
      t <- timer_at i ;;
      d <- gets dec ;;
      let c := s32 (t_counter t - d) in
      timer_set i (Timer (t_ms t) (t_handler t) c) ;;;
      (if c <=? 0 then
         timer_set i (Timer (t_ms t) (t_handler t) (t_ms t)) ;;;
         call_handler (t_handler t)
       else ret tt) ;;;
      roll_loop f (i + 1)
  end.

(** [void timer_rolling()] *)
Definition timer_rolling : M (timers W) unit :=
  modify (fun s => Timers (timer_list s) (timer_num s)
                     (if dec s =? 0 then 1000 / RTC_FREQUENCY else dec s) (tw s)) ;;;
  roll_loop (Z.to_nat MAX_TIMER + 1) 0.
End Systimer.

(** * clock.c *)

Record clock (W : Type) := Clock { rtc_time : Z; rtc_second : Z; tst : timers (irq_state W) }.
Arguments Clock {W}. Arguments rtc_time {W}. Arguments rtc_second {W}. Arguments tst {W}.

Section Clock.
Context {W : Type} `{PortIO W} (call : nat -> M (timers (irq_state W)) unit).

Definition on_timers {A} (m : M (timers (irq_state W)) A) : M (clock W) A :=
  zoom tst (fun t s => Clock (rtc_time s) (rtc_second s) t) m.
Definition on_tables {A} (m : M (irq_state W) A) : M (clock W) A :=
  on_timers (zoom tw (fun w t => Timers (timer_list t) (timer_num t) (dec t) w) m).

(** [void rtc_freq(unsigned freq)] *)
Definition rtc_freq (freq : Z) : M (clock W) unit :=
  div <- of_option DivByZero (if freq =? 0 then None else Some (1193180 / freq)) ;;
  on_tables (outb 0x43 0x36) ;;;
  on_tables (outb 0x40 (Z.land div 0xFF)) ;;;
  on_tables (outb 0x40 (u8 (Z.shiftr div 8))).

(** [void rtc_intr(struct Register *regs)] *)
Definition rtc_intr : M (clock W) unit :=
  modify (fun s => Clock (u32 (rtc_time s + 1)) (rtc_second s) (tst s)) ;;;
  s <- get ;;
  (if rtc_time s mod RTC_FREQUENCY =? 0 then
     modify (fun s => Clock (rtc_time s) (u32 (rtc_second s + 1)) (tst s))
   else ret tt) ;;;
  on_timers (timer_rolling call).

(** The macro's argument is evaluated twice: [lo] and [hi] are its two values. *)
Definition BCD2HEXB (lo hi : Z) : Z := Z.land lo 0xf + Z.land (Z.shiftr hi 4) 0xf * 10.

(** [outportb(0x70, reg); BCD2HEXB(inportb(0x71))] *)
Definition cmos (reg : Z) : M (clock W) Z :=
  on_tables (outb 0x70 reg) ;;;
  lo <- on_tables (inb 0x71) ;;
  hi <- on_tables (inb 0x71) ;;
  ret (BCD2HEXB lo hi).

(** The number of [rtc_intr] in the interrupt tables. *)
Definition RTC_INTR : nat := 0.

(** [void rtc_init()], without the message; [stack] is what the structure
    [t] holds of the fields that are not set. *)
Definition rtc_init (stack : tm) : M (clock W) unit :=
  rtc_freq RTC_FREQUENCY ;;;
  on_tables (irq_install 0 (Some RTC_INTR)) ;;;
  sec <- cmos 0 ;;
  min <- cmos 2 ;;
  hour <- cmos 4 ;;
  mday <- cmos 7 ;;
  mon <- cmos 8 ;;
  year <- cmos 9 ;;
  let t := Tm sec min hour mday (mon - 1) year (tm_wday stack) (tm_yday stack) (tm_isdst stack) in
  modify (fun s => Clock (u32 (mktime t * 1000)) (mktime t) (tst s)).
End Clock.

(** * The timers *)

(** One tick of [d] milliseconds on one timer, and whether it fires. *)
Definition tick (d : Z) (t : timer) : timer :=
  if t_counter t - d <=? 0 then Timer (t_ms t) (t_handler t) (t_ms t)
  else Timer (t_ms t) (t_handler t) (t_counter t - d).
Definition fires (d : Z) (t : timer) : bool := t_counter t - d <=? 0.

(** The handlers that leave the timer list alone; [log] is what they do to the
    rest. *)
Definition logging {W} (log : nat -> W -> W) (h : nat) : M (timers W) unit :=
  modify (fun s => Timers (timer_list s) (timer_num s) (dec s) (log h (tw s))).

Definition timer_ok (t : timer) : Prop :=
  0 < t_ms t < 2 ^ 31 /\ 0 < t_counter t < 2 ^ 31 /\ is_Some (t_handler t).

(** The effect of one roll on the rest: the handlers of the timers that fire,
    in the order of the list. *)
Definition rolled {W} (log : nat -> W -> W) (w : W) (l : list timer) : W :=
  foldl (fun w t => if fires 10 t then match t_handler t with Some h => log h w | None => w end else w) w l.

Lemma roll_loop_ok {W} (log : nat -> W -> W) fuel : forall (pre l post : list timer) w,
  Forall timer_ok l -> (length l < fuel)%nat ->
  roll_loop (logging log) fuel (Z.of_nat (length pre))
      (Timers (pre ++ l ++ post) (Z.of_nat (length pre + length l)) 10 w) =
    Ok tt (Timers (pre ++ (tick 10 <$> l) ++ post) (Z.of_nat (length pre + length l)) 10 (rolled log w l)).
Proof.
  induction fuel as [|f IH]; intros pre l post w Hl Hf; [lia|]. cbn [roll_loop]. msteps. cbn [timer_num].
  destruct l as [|t l].
  { rewrite (proj2 (Z.leb_le _ _)) by (cbn; lia). done. }
  cbn [length] in *. rewrite (proj2 (Z.leb_gt _ _)) by lia.
  apply Forall_cons in Hl as [(Hm & Hc & [h Hh]) Hl].
  assert (forall x tl, aget (pre ++ (x :: tl) ++ post) (Z.of_nat (length pre)) = Some x) as Hget.
  { intros x tl. rewrite aget_lookup. cbn. by apply list_lookup_middle. }
  assert (forall x y n d (u : W), timer_set (Z.of_nat (length pre)) y (Timers (pre ++ (x :: l) ++ post) n d u) =
    Ok tt (Timers (pre ++ (y :: l) ++ post) n d u)) as Hset.
  { intros x y n d u. unfold timer_set. msteps. cbn [timer_list]. rewrite aset_Some by (rewrite length_app; cbn; lia).
    cbn [of_option]. msteps. rewrite Nat2Z.id, insert_app_r_alt, Nat.sub_diag by lia. done. }
  unfold timer_at. msteps. cbn [timer_list]. msome (Hget t l). msteps. cbn [dec].
  rewrite (bind_ok _ _ _ _ _ (Hset _ _ _ _ _)). rewrite s32_small by int_lia.
  set (m := if t_counter t - 10 <=? 0 then _ else _).
  assert (m (Timers (pre ++ (Timer (t_ms t) (t_handler t) (t_counter t - 10) :: l) ++ post)
        (Z.of_nat (length pre + S (length l))) 10 w) =
    Ok tt (Timers (pre ++ (tick 10 t :: l) ++ post) (Z.of_nat (length pre + S (length l))) 10
      (rolled log w [t]))) as E.
  { subst m. unfold rolled, tick, fires. cbn [foldl]. destruct (t_counter t - 10 <=? 0); [|done].
    rewrite (bind_ok _ _ _ _ _ (Hset _ _ _ _ _)). by rewrite Hh. }
  rewrite (bind_ok _ _ _ _ _ E).
  specialize (IH (pre ++ [tick 10 t]) l post (rolled log w [t]) Hl ltac:(lia)).
  rewrite length_app in IH. cbn [length] in IH. rewrite <- !app_assoc in IH. cbn [app] in IH.
  replace (Z.of_nat (length pre) + 1) with (Z.of_nat (length pre + 1)) by lia.
  replace (length pre + S (length l))%nat with (length pre + 1 + length l)%nat by lia.
  exact IH.
Qed.

(** ** Periods *)

(** The number of ticks of 10 ms between two calls. *)
Definition period (t : timer) : nat := Z.to_nat ((t_ms t + 9) / 10).
Definition fresh_timer (t : timer) : Prop :=
  0 < t_ms t < 2 ^ 31 /\ t_counter t = t_ms t /\ is_Some (t_handler t).
(** A timer [k] ticks after it was registered. *)
Definition aged (k : nat) (t : timer) : timer :=
  Timer (t_ms t) (t_handler t) (t_ms t - 10 * Z.of_nat (k mod period t)).

Lemma period_spec t : 0 < t_ms t -> (0 < period t)%nat /\ 10 * (Z.of_nat (period t) - 1) < t_ms t <= 10 * Z.of_nat (period t).
Proof. intros H. unfold period. Z.div_mod_to_equations. lia. Qed.

Lemma succ_mod k p : (0 < p)%nat ->
  (S k mod p = 0 /\ k mod p = p - 1 /\ S k / p = k / p + 1 \/
   S k mod p = S (k mod p) /\ S (k mod p) < p /\ S k / p = k / p)%nat.
Proof.
  intros Hp. pose proof (Nat.mod_upper_bound k p ltac:(lia)) as Hm. pose proof (Nat.div_mod_eq k p) as Hd.
  destruct (decide (S (k mod p) = p)) as [E|E].
  - left. assert (S k = (k / p + 1) * p)%nat as Hk by nia. split_and!; [|lia|].
    + rewrite Hk. apply Nat.Div0.mod_mul.
    + rewrite Hk. apply Nat.div_mul. lia.
  - right. assert (S k = S (k mod p) + (k / p) * p)%nat as Hk by nia. split_and!; [|lia|].
    + rewrite Hk at 1. rewrite Nat.Div0.mod_add. apply Nat.mod_small. lia.
    + rewrite Hk at 1. rewrite Nat.div_add, Nat.div_small by lia. lia.
Qed.

Lemma tick_aged k t : 0 < t_ms t ->
  tick 10 (aged k t) = aged (S k) t /\ fires 10 (aged k t) = bool_decide (S k mod period t = 0)%nat.
Proof.
  intros Ht. destruct (period_spec t Ht) as [Hp Hb]. unfold tick, fires. cbn [aged t_counter t_ms t_handler].
  destruct (succ_mod k (period t) Hp) as [(E1 & E2 & _)|(E1 & E2 & _)].
  - rewrite (proj2 (Z.leb_le _ _)) by lia. rewrite bool_decide_true by done. split; [|done].
    unfold aged. rewrite E1. f_equal. lia.
  - rewrite (proj2 (Z.leb_gt _ _)) by lia. rewrite bool_decide_false by lia. split; [|done].
    unfold aged. rewrite E1. f_equal. lia.
Qed.

(** The trace of handler calls. *)
Definition trace (h : nat) (w : list nat) : list nat := w ++ [h].
Definition calls (h : nat) (w : list nat) : nat := count_occ Nat.eq_dec w h.

(** The calls of [h] that are due after [k] ticks. *)
Definition due (h k : nat) (l : list timer) : nat :=
  sum_list ((fun t => if decide (t_handler t = Some h) then k / period t else 0)%nat <$> l).

Lemma rolled_calls h k l w :
  Forall fresh_timer l ->
  (calls h (rolled trace w (aged k <$> l)) + due h k l = calls h w + due h (S k) l)%nat.
Proof.
  revert w. induction l as [|t l IH]; intros w Hl; [done|]. apply Forall_cons in Hl as [(Hm & _ & [h' Hh]) Hl].
  destruct (period_spec t ltac:(lia)) as [Hp _]. destruct (tick_aged k t ltac:(lia)) as [_ Hf].
  change (rolled trace w (aged k <$> t :: l)) with
    (rolled trace (if fires 10 (aged k t) then match t_handler t with Some x => trace x w | None => w end else w) (aged k <$> l)).
  rewrite Hf. set (w' := if bool_decide _ then _ else w).
  assert (forall n, due h n (t :: l) = (if decide (t_handler t = Some h) then n / period t else 0) + due h n l)%nat as Hdue
    by done.
  rewrite !Hdue. specialize (IH w' Hl).
  enough (calls h w' + (if decide (t_handler t = Some h) then k / period t else 0) =
    calls h w + (if decide (t_handler t = Some h) then S k / period t else 0))%nat by lia.
  subst w'. cbn [aged t_handler]. rewrite Hh. unfold calls, trace.
  destruct (succ_mod k (period t) Hp) as [(E1 & _ & E3)|(E1 & _ & E3)]; rewrite E3, E1.
  - rewrite bool_decide_true by done. rewrite count_occ_app. cbn. repeat case_decide; repeat case_match; simplify_eq; lia.
  - rewrite bool_decide_false by lia. lia.
Qed.

(** [k] rolls in a row. *)
Fixpoint rolls {W} (call : nat -> M (timers W) unit) (k : nat) : M (timers W) unit :=
  match k with O => ret tt | S k' => rolls call k' ;;; timer_rolling call end.

Lemma aged_ok k t : fresh_timer t -> timer_ok (aged k t).
Proof.
  intros (Hm & Hc & Hh). destruct (period_spec t ltac:(lia)) as [Hp Hb]. split; [done|]. split; [|done].
  cbn. pose proof (Nat.mod_upper_bound k (period t) ltac:(lia)). lia.
Qed.

Lemma aged_0 t : fresh_timer t -> aged 0 t = t.
Proof. intros (Hm & Hc & _). destruct t. unfold aged. cbn in *. rewrite Nat.Div0.mod_0_l. f_equal. lia. Qed.

Lemma rolls_ok k l post w :
  Forall fresh_timer l -> (length l <= 64)%nat ->
  exists d w', rolls (logging trace) k (Timers (l ++ post) (Z.of_nat (length l)) 0 w) =
      Ok tt (Timers ((aged k <$> l) ++ post) (Z.of_nat (length l)) d w') /\ (d = 0 \/ d = 10) /\
    forall h, calls h w' = (calls h w + due h k l)%nat.
Proof.
  intros Hl Hlen. induction k as [|k (d & w' & E & Hd & Hc)]; cbn [rolls].
  - exists 0, w. split; [|split; [by left|]].
    + unfold ret. do 3 f_equal. clear Hlen. induction Hl as [|t l Ht _ IH]; [done|]. cbn. by rewrite aged_0, <- IH.
    + intros h. enough (due h 0 l = 0)%nat by lia. unfold due. clear. induction l as [|t l IH]; [done|]. 
      cbn. rewrite Nat.Div0.div_0_l. case_decide; exact IH.
  - rewrite (bind_ok _ _ _ _ _ E). unfold timer_rolling. msteps. cbn [timer_list timer_num dec tw].
    assert ((if d =? 0 then 1000 / RTC_FREQUENCY else d) = 10) as -> by (destruct Hd as [-> | ->]; done).
    pose proof (roll_loop_ok trace (Z.to_nat MAX_TIMER + 1) [] (aged k <$> l) post w') as Hr.
    cbn [length app Nat.add] in Hr. rewrite length_fmap in Hr. change (Z.of_nat 0) with 0 in Hr. rewrite Hr.
    + eexists _, _. split; [|split; [by right|]].
      * do 3 f_equal. rewrite <- list_fmap_compose. apply Forall_fmap_ext_1. eapply Forall_impl; [exact Hl|].
        intros t (Hm & _). cbn. by destruct (tick_aged k t ltac:(lia)) as [-> _].
      * intros h. pose proof (rolled_calls h k l w' Hl). specialize (Hc h). lia.
    + apply Forall_fmap. eapply Forall_impl; [exact Hl|]. intros t. apply aged_ok.
    + change (Z.to_nat MAX_TIMER) with 64%nat. lia.
Qed.

(** Timers registered at the same time fire periodically: after [k] ticks
    of the clock a handler has been called k/p times for each of its timers,
    where p is the number of 10 ms ticks its period is rounded up to, and the
    list keeps its length and handlers. *)
Theorem timers_fire_periodically k l post w :
  Forall fresh_timer l -> (length l <= 64)%nat ->
  exists s', rolls (logging trace) k (Timers (l ++ post) (Z.of_nat (length l)) 0 w) = Ok tt s' /\
    timer_num s' = Z.of_nat (length l) /\ (forall h, calls h (tw s') = (calls h w + due h k l)%nat).
Proof.
  intros Hl Hlen. destruct (rolls_ok k l post w Hl Hlen) as (d & w' & E & _ & Hc). eexists. split; [exact E|]. by split.
Qed.

Lemma timers_fire_periodically_witness :
  exists s', rolls (logging trace) 100 (Timers [Timer 25 (Some 7%nat) 25; Timer 1000 (Some 8%nat) 1000] 2 0 []) = Ok tt s' /\
    calls 7 (tw s') = 33%nat /\ calls 8 (tw s') = 1%nat.
Proof.
  destruct (timers_fire_periodically 100 [Timer 25 (Some 7%nat) 25; Timer 1000 (Some 8%nat) 1000] [] [])
    as (s' & E & _ & Hc).
  - repeat constructor; cbn; lia || eauto.
  - cbn. lia.
  - exists s'. split; [exact E|]. rewrite !Hc. split; reflexivity.
Defined.

(** Removing the first of several timers puts the unused entry past the
    list in its place, so that the next roll calls a null handler, and the last
    timer is lost. *)
Theorem unregister_breaks_roll {W} (call : nat -> M (timers W) unit) t l post h w :
  t_handler t = Some h -> (0 < length l)%nat ->
  exists s', unregister_timer (Some h) (Timers (t :: l ++ Timer 0 None 0 :: post) (Z.of_nat (S (length l))) 10 w) = Ok 1 s' /\
    timer_num s' = Z.of_nat (length l) /\ timer_rolling call s' = Err NullDeref.
Proof.
  intros Ht Hl. eexists. split; [|split].
  - unfold unregister_timer. rewrite Nat.add_1_r. cbn [unregister_loop]. msteps. cbn [timer_num].
    rewrite (proj2 (Z.leb_gt _ _)) by lia. unfold timer_at at 1. msteps. cbn [timer_list].
    rewrite (bind_some _ _ t) by done. rewrite decide_True by done. unfold timer_at. msteps. cbn [timer_list].
    rewrite (bind_some _ _ (Timer 0 None 0)).
    2: { rewrite aget_lookup. cbn. by apply list_lookup_middle. }
    unfold timer_set. msteps. cbn [timer_list]. rewrite aset_Some by (cbn; lia). cbn [of_option]. msteps. reflexivity.
  - cbn. lia.
  - unfold timer_rolling. msteps. rewrite Nat.add_1_r. cbn [roll_loop]. msteps. cbn [timer_num].
    rewrite (proj2 (Z.leb_gt _ _)) by lia. done.
Qed.

Lemma unregister_breaks_roll_witness :
  exists s' : timers unit, unregister_timer (Some 7%nat)
      (Timers [Timer 25 (Some 7%nat) 25; Timer 50 (Some 8%nat) 50; Timer 0 None 0] 2 10 tt) = Ok 1 s' /\
    timer_num s' = 1 /\ timer_rolling (fun _ => ret tt) s' = Err NullDeref.
Proof.
  apply (unregister_breaks_roll (fun _ => ret tt) (Timer 25 (Some 7%nat) 25) [Timer 50 (Some 8%nat) 50] [] 7 tt).
  - reflexivity.
  - cbn. lia.
Defined.
