(* ===== verification/QTimer.v ===== *)
(** Time in the machine emulator, src/sysvm/vl.c: the 96-bit scaling
    [muldiv64] and the list of active timers.

    The timers of one clock are the list that starts at [active_timers[type]], in
    the order of the [next] links; a timer is a number, an entry has its expiry
    time.  What the callback of a timer does is the argument [cb]. *)
From stdpp Require Import sorting.
From S2P Require Import Prelude.

Definition u64 (z : Z) : Z := z mod 2 ^ 64.

(** [uint64_t muldiv64(uint64_t a, uint32_t b, uint32_t c)] *)
Definition muldiv64 (a b c : Z) : Z :=
  let rl := u64 (u32 a * b) in
  let rh := u64 (u32 (Z.shiftr a 32) * b) in
  let rh := u64 (rh + Z.shiftr rl 32) in
  let high := u32 (rh / c) in
  let low := u32 (u64 (u64 (Z.shiftl (rh mod c) 32) + Z.land rl 0xffffffff) / c) in
  Z.lor (Z.shiftl high 32) low.

(** The rest of the machine and the active timers. *)
Record qtimers (W : Type) := QT { active : list (nat * Z); qrest : W }.
Arguments QT {W}. Arguments active {W}. Arguments qrest {W}.

(** [void qemu_del_timer(QEMUTimer *ts)]: the first entry of the timer leaves
    the list. *)
Fixpoint del_entry (ts : nat) (l : list (nat * Z)) : list (nat * Z) :=
  match l with
  | [] => []
  | t :: l' => if (fst t =? ts)%nat then l' else t :: del_entry ts l'
  end.
(** The sorted insertion of [qemu_mod_timer]. *)
Fixpoint add_entry (ts : nat) (expire_time : Z) (l : list (nat * Z)) : list (nat * Z) :=
  match l with
  | [] => [(ts, expire_time)]
  | t :: l' => if expire_time <? snd t then (ts, expire_time) :: t :: l' else t :: add_entry ts expire_time l'
  end.

Section Timers.
Context {W : Type}.

Definition set_active (f : list (nat * Z) -> list (nat * Z)) : M (qtimers W) unit :=
  modify (fun s => QT (f (active s)) (qrest s)).
Definition qemu_del_timer (ts : nat) : M (qtimers W) unit := set_active (del_entry ts).
(** [void qemu_mod_timer(QEMUTimer *ts, int64_t expire_time)] *)
Definition qemu_mod_timer (ts : nat) (expire_time : Z) : M (qtimers W) unit :=
  qemu_del_timer ts ;;; set_active (add_entry ts expire_time).
(** [int qemu_timer_pending(QEMUTimer *ts)] *)
Definition qemu_timer_pending (ts : nat) : M (qtimers W) Z :=
  gets (fun s => if existsb (fun t => fst t =? ts)%nat (active s) then 1 else 0).
(** [int qemu_timer_expired(QEMUTimer *timer_head, int64_t current_time)] *)
Definition qemu_timer_expired (l : list (nat * Z)) (current_time : Z) : bool :=
  match l with [] => false | t :: _ => snd t <=? current_time end.

Context (cb : nat -> M (qtimers W) unit).

(** [static void qemu_run_timers(QEMUTimer **ptimer_head, int64_t current_time)] *)
Fixpoint qemu_run_timers (fuel : nat) (current_time : Z) : M (qtimers W) unit :=
  s <- get ;;
  match active s with
  | [] => ret tt
  | t :: l' =>
      if current_time <? snd t then ret tt else
      match fuel with
      | O => stop Diverged
      | S f => put (QT l' (qrest s)) ;;; cb (fst t) ;;; qemu_run_timers f current_time
      end
  end.
End Timers.

(** * Scaling *)

Lemma u64_small z : 0 <= z < 2 ^ 64 -> u64 z = z.
Proof. intros H. unfold u64. by apply Z.mod_small. Qed.

(** The quotient of a 96-bit product digit by digit. *)
Lemma long_division h l c : 0 < c -> 0 <= l < 2 ^ 32 ->
  (h * 2 ^ 32 + l) / c = h / c * 2 ^ 32 + ((h mod c) * 2 ^ 32 + l) / c.
Proof.
  intros Hc Hl. pose proof (Z.div_mod h c ltac:(lia)) as E. pose proof (Z.mod_pos_bound h c Hc).
  replace (h * 2 ^ 32 + l) with ((h / c * 2 ^ 32) * c + ((h mod c) * 2 ^ 32 + l)) by lia.
  by rewrite Z.div_add_l by lia.
Qed.

Lemma mod_digits g low : 0 <= low < 2 ^ 32 -> u32 g * 2 ^ 32 + low = u64 (g * 2 ^ 32 + low).
Proof.
  intros Hl. unfold u32, u64. pose proof (Z.div_mod g (2 ^ 32) ltac:(lia)). pose proof (Z.mod_pos_bound g (2 ^ 32) ltac:(lia)).
  apply Z.mod_unique with (g / 2 ^ 32); [left; lia|lia].
Qed.

Lemma muldiv64_ok a b c : 0 <= a < 2 ^ 64 -> is_u32 b -> 0 < c < 2 ^ 32 -> muldiv64 a b c = u64 (a * b / c).
Proof.
  intros Ha Hb Hc. unfold is_u32 in Hb. unfold muldiv64. cbv zeta.
  rewrite (lor_shiftl_add 32) by (lia || apply u32_range). rewrite !Z.shiftr_div_pow2, !Z.shiftl_mul_pow2 by lia.
  change 0xffffffff with (Z.ones 32). rewrite Z.land_ones by lia.
  set (x := u32 a). set (y := u32 (a / 2 ^ 32)).
  assert (0 <= x < 2 ^ 32 /\ 0 <= y < 2 ^ 32 /\ a = y * 2 ^ 32 + x) as (Hx & Hy & Ea)
    by (unfold x, y, u32; Z.div_mod_to_equations; lia).
  clearbody x y. assert (0 <= x * b <= (2 ^ 32 - 1) * (2 ^ 32 - 1)) as Hxb by nia.
  assert (0 <= y * b <= (2 ^ 32 - 1) * (2 ^ 32 - 1)) as Hyb by nia.
  rewrite (u64_small (x * b)) by lia. rewrite (u64_small (y * b)) by lia.
  pose proof (Z.div_mod (x * b) (2 ^ 32) ltac:(lia)) as Exb. set (r := (x * b) mod 2 ^ 32) in *.
  assert (0 <= r < 2 ^ 32) as Hr by (apply Z.mod_pos_bound; lia).
  assert (0 <= x * b / 2 ^ 32 < 2 ^ 32) as Hq by (split; [apply Z.div_pos; lia|apply Z.div_lt_upper_bound; lia]).
  rewrite (u64_small (y * b + x * b / 2 ^ 32)) by lia. set (h := y * b + x * b / 2 ^ 32) in *.
  assert (0 <= h mod c < c) as Hm by (apply Z.mod_pos_bound; lia).
  rewrite (u64_small (h mod c * 2 ^ 32)) by nia. rewrite (u64_small (h mod c * 2 ^ 32 + r)) by nia.
  assert (0 <= (h mod c * 2 ^ 32 + r) / c < 2 ^ 32) as Hlow
    by (split; [apply Z.div_pos; lia|apply Z.div_lt_upper_bound; nia]).
  rewrite (u32_small ((h mod c * 2 ^ 32 + r) / c)) by (exact Hlow).
  replace (a * b) with (h * 2 ^ 32 + r) by (unfold h; nia). rewrite (long_division h r c) by lia.
  set (low := (h mod c * 2 ^ 32 + r) / c) in *.
  by apply mod_digits.
Qed.

(** [muldiv64], which divides the 96-bit product in two steps of machine
    words, computes the low 64 bits of the quotient of the exact product: [a*b/c]
    itself whenever that fits. *)
Theorem muldiv64_exact a b c :
  0 <= a < 2 ^ 64 -> is_u32 b -> 0 < c < 2 ^ 32 ->
  muldiv64 a b c = u64 (a * b / c) /\ (a * b / c < 2 ^ 64 -> muldiv64 a b c = a * b / c).
Proof.
  intros Ha Hb Hc. rewrite (muldiv64_ok a b c) by done. split; [done|]. intros Hs. apply u64_small.
  split; [|done]. unfold is_u32 in Hb. apply Z.div_pos; nia.
Qed.

Lemma muldiv64_exact_witness : muldiv64 (2 ^ 60 + 12345) 1193182 1000000000 = (2 ^ 60 + 12345) * 1193182 / 1000000000.
Proof. apply (muldiv64_exact (2 ^ 60 + 12345) 1193182 1000000000); [lia|unfold is_u32; lia|lia|by vm_compute]. Defined.

(** * The timer list *)

(** In the order of the expiry times, every timer once. *)
Definition timers_sorted (l : list (nat * Z)) : Prop :=
  StronglySorted (fun x y => snd x <= snd y) l /\ NoDup (map fst l).

Lemma del_sublist ts l : del_entry ts l `sublist_of` l.
Proof. induction l as [|t l IH]; cbn [del_entry]; [done|]. case_match; by constructor. Qed.
Lemma del_notin ts l : NoDup (map fst l) -> ts ∉ map fst (del_entry ts l).
Proof.
  induction l as [|t l IH]; cbn [del_entry map]; [intros _; apply not_elem_of_nil|]. intros [Hn Hl]%NoDup_cons.
  destruct (Nat.eqb_spec (fst t) ts) as [<-|Hne]; [done|]. cbn [map]. rewrite not_elem_of_cons. auto.
Qed.
Lemma sorted_sublist l k : l `sublist_of` k -> StronglySorted (fun x y : nat * Z => snd x <= snd y) k ->
  StronglySorted (fun x y => snd x <= snd y) l.
Proof.
  induction 1 as [|x l k Hs IH|x l k Hs IH]; intros Hk; [done| |]; apply StronglySorted_inv in Hk as [Hk Hx]; [|by apply IH].
  constructor; [by apply IH|]. rewrite Forall_forall in Hx |- *. intros y Hy. apply Hx. by eapply elem_of_sublist.
Qed.
Lemma del_sorted ts l : timers_sorted l -> timers_sorted (del_entry ts l).
Proof.
  intros [Hs Hn]. split; [by eapply sorted_sublist; [apply del_sublist|]|].
  eapply sublist_NoDup; [exact Hn|]. apply fmap_sublist, del_sublist.
Qed.

Lemma add_perm ts e l : add_entry ts e l ≡ₚ (ts, e) :: l.
Proof.
  induction l as [|t l IH]; cbn [add_entry]; [done|]. case_match; [done|]. rewrite IH. constructor.
Qed.
Lemma add_sorted ts e l : timers_sorted l -> ts ∉ map fst l -> timers_sorted (add_entry ts e l).
Proof.
  intros [Hs Hn] Hts. split.
  - clear Hn Hts. induction Hs as [|t l Hl IH Ht]; cbn [add_entry]; [by repeat constructor|].
    destruct (Z.ltb_spec e (snd t)) as [Hlt|Hge].
    + constructor; [by constructor|]. constructor; [cbn; lia|]. eapply Forall_impl; [exact Ht|]. cbn. intros; lia.
    + constructor; [done|]. rewrite add_perm.
      constructor; [cbn; lia|done].
  - rewrite (Permutation_map fst (add_perm ts e l)). by constructor.
Qed.

Definition due (now : Z) (t : nat * Z) : Prop := snd t <= now.
#[global] Instance due_decision now t : Decision (due now t).
Proof. unfold due. apply _. Defined.

Lemma due_add now ts e l : now < e -> filter (due now) (add_entry ts e l) = filter (due now) l.
Proof.
  intros He. induction l as [|t l IH]; cbn [add_entry].
  - by rewrite filter_cons_False by (unfold due; cbn; lia).
  - case_match; [by rewrite filter_cons_False by (unfold due; cbn; lia)|]. rewrite !filter_cons. by rewrite IH.
Qed.
Lemma due_none now (t : nat * Z) l :
  timers_sorted (t :: l) -> now < snd t ->
  filter (due now) (t :: l) = [] /\ filter (fun x => ~ due now x) (t :: l) = t :: l.
Proof.
  intros [[_ Ht]%StronglySorted_inv _] Hn.
  assert (Forall (fun x => ~ due now x) (t :: l)) as Hx.
  { constructor; [unfold due; lia|]. eapply Forall_impl; [exact Ht|]. unfold due. cbn. intros; lia. }
  clear Ht Hn. induction Hx as [|x k Hx _ [IH1 IH2]]; [done|].
  by rewrite !filter_cons, decide_False, decide_True, IH1, IH2 by done.
Qed.

(** A callback that does [log] and arms its timer again for [next]. *)
Definition rearm {W} (log : nat -> W -> W) (next : nat -> Z) (ts : nat) : M (qtimers W) unit :=
  modify (fun s => QT (active s) (log ts (qrest s))) ;;; qemu_mod_timer ts (next ts).

Lemma del_absent ts l : ts ∉ map fst l -> del_entry ts l = l.
Proof.
  induction l as [|t l IH]; cbn [del_entry map]; [done|]. rewrite not_elem_of_cons. intros [Hne Hl].
  destruct (Nat.eqb_spec (fst t) ts); [congruence|]. by rewrite IH.
Qed.

Lemma run_timers_ok {W} (log : nat -> W -> W) (next : nat -> Z) now fuel l w :
  timers_sorted l -> (forall ts, ts ∈ map fst l -> now < next ts) -> (length (filter (due now) l) <= fuel)%nat ->
  exists l', qemu_run_timers (rearm log next) fuel now (QT l w) =
      Ok tt (QT l' (foldl (fun w t => log (fst t) w) w (filter (due now) l))) /\
    timers_sorted l' /\
    l' ≡ₚ filter (fun t => ~ due now t) l ++ map (fun t => (fst t, next (fst t))) (filter (due now) l).
Proof.
  revert l w. induction fuel as [|f IH]; intros [|t l] w Hs Hn Hf; cbn [qemu_run_timers]; msteps; cbn [active qrest].
  1,3: exists []; done.
  all: destruct (Z.ltb_spec now (snd t)) as [Hlt|Hge].
  1,3: destruct (due_none now t l Hs Hlt) as [-> ->]; exists (t :: l); cbn; by rewrite app_nil_r.
  - rewrite filter_cons_True in Hf by (unfold due; lia). cbn in Hf. lia.
  - rewrite filter_cons_True in Hf |- * by (unfold due; lia). rewrite filter_cons_False by (unfold due; lia).
    cbn [length] in Hf. pose proof Hs as [[Hl _]%StronglySorted_inv Hnd]. cbn [map] in Hnd.
    apply NoDup_cons in Hnd as [Hni Hnd]. cbn [map] in Hn.
    assert (now < next (fst t)) as He by (apply Hn; by left).
    msteps. unfold rearm at 1. msteps. unfold qemu_mod_timer, qemu_del_timer, set_active. msteps. cbn [active qrest].
    rewrite (del_absent (fst t) l) by done.
    assert (timers_sorted (add_entry (fst t) (next (fst t)) l)) as Hs2 by (by apply add_sorted).
    destruct (IH (add_entry (fst t) (next (fst t)) l) (log (fst t) w) Hs2) as (l' & E & Hs' & Hp).
    + intros ts Hts. rewrite (Permutation_map fst (add_perm _ _ _)) in Hts. apply Hn. exact Hts.
    + rewrite due_add by done. lia.
    + exists l'. rewrite E, due_add by done. split; [done|]. split; [done|]. rewrite Hp, due_add by done.
      rewrite (filter_Permutation _ _ _ (add_perm _ _ _)). rewrite filter_cons_True by (unfold due; cbn; lia).
      cbn [map app]. by rewrite <- Permutation_middle.
Qed.

Lemma mod_timer_ok {W} ts e l (w : W) :
  timers_sorted l ->
  exists l', qemu_mod_timer ts e (QT l w) = Ok tt (QT l' w) /\ timers_sorted l' /\ (ts, e) ∈ l' /\
    forall t, fst t <> ts -> t ∈ l' <-> t ∈ l.
Proof.
  intros Hs. exists (add_entry ts e (del_entry ts l)). split; [done|]. pose proof Hs as [_ Hnd].
  split; [apply add_sorted; [by apply del_sorted|by apply del_notin]|].
  split; [rewrite add_perm; by left|]. intros t Ht. rewrite add_perm, elem_of_cons. split.
  - intros [->|Hin]; [done|]. by eapply elem_of_sublist, del_sublist.
  - intros Hin. right. clear Hs Hnd. induction l as [|x l IH]; [by apply not_elem_of_nil in Hin|]. cbn [del_entry].
    apply elem_of_cons in Hin as [->|Hin]; destruct (Nat.eqb_spec (fst x) ts); try done; [by left|right; auto].
Qed.

(** C33: arming a timer keeps the list in the order of expiry with every timer
    once; and running the timers at a time calls the callback of every timer that is
    due exactly once, in the order of expiry, also when the callbacks arm their
    timers again for a later time; what is left is in order and not due. *)
Theorem run_timers_in_order {W} (log : nat -> W -> W) (next : nat -> Z) now l w ts e :
  timers_sorted l -> (forall ts, ts ∈ map fst l -> now < next ts) ->
  (exists l', qemu_mod_timer ts e (QT l w) = Ok tt (QT l' w) /\ timers_sorted l' /\ (ts, e) ∈ l') /\
  (exists l', qemu_run_timers (rearm log next) (length l) now (QT l w) =
      Ok tt (QT l' (foldl (fun w t => log (fst t) w) w (filter (due now) l))) /\
    timers_sorted l' /\ Forall (fun t => ~ due now t) l' /\
    l' ≡ₚ filter (fun t => ~ due now t) l ++ map (fun t => (fst t, next (fst t))) (filter (due now) l)).
Proof.
  intros Hs Hn. split.
  - destruct (mod_timer_ok ts e l w Hs) as (l' & E & Hs' & Hin & _). by exists l'.
  - destruct (run_timers_ok log next now (length l) l w Hs Hn) as (l' & E & Hs' & Hp); [apply length_filter|].
    exists l'. split; [done|]. split; [done|]. split; [|done]. rewrite Hp. apply Forall_app. split.
    + apply Forall_forall. intros t Ht. by apply list_elem_of_filter in Ht as [? _].
    + apply Forall_fmap, Forall_forall. intros t Ht. apply list_elem_of_filter in Ht as [_ Ht]. unfold due. cbn.
      enough (now < next (fst t)) by lia. apply Hn, list_elem_of_fmap. by exists t.
Qed.

Lemma run_timers_in_order_witness :
  exists l', qemu_run_timers (rearm cons (fun _ => 15)) 3 10 (QT [(1%nat, 5); (2%nat, 7); (3%nat, 20)] []) =
      Ok tt (QT l' [2%nat; 1%nat]) /\ timers_sorted l' /\ Forall (fun t => ~ due 10 t) l' /\
    l' ≡ₚ [(3%nat, 20); (1%nat, 15); (2%nat, 15)].
Proof.
  apply (run_timers_in_order cons (fun _ => 15) 10 [(1%nat, 5); (2%nat, 7); (3%nat, 20)] [] 0 0); [|intros; lia].
  split; [repeat constructor; cbn; lia|]. by apply (bool_decide_unpack _).
Defined.
