(* ===== verification/I8254.v ===== *)
(** The interval timer of the machine emulator, src/sysvm/hw/i8254.c.

    [pit_clock] is the value [qemu_get_clock(vm_clock)] returns; [irq_timer] is the
    expiry time of the timer of channel 0 when it is armed ([qemu_mod_timer] and
    [qemu_del_timer] of QTimer), and [pit_irq] the level last given to
    [pic_set_irq].  Saving and loading the state are in Saved. *)
From S2P Require Import Prelude Port QTimer.

Definition RW_STATE_LSB : Z := 1.
Definition RW_STATE_MSB : Z := 2.
Definition RW_STATE_WORD0 : Z := 3.
Definition RW_STATE_WORD1 : Z := 4.
Definition PIT_FREQ : Z := 1193182.

(** [PITChannelState]; [has_timer] tells whether [irq_timer] is not null. *)
Record PITChannelState := MkPitCh {
  count : Z; latched_count : Z; count_latched : Z; status_latched : Z; status : Z; read_state : Z; write_state : Z;
  write_latch : Z; rw_mode : Z; mode : Z; bcd : Z; gate : Z; count_load_time : Z; next_transition_time : Z;
  has_timer : bool; irq_timer : option Z
}.
Record PITState := MkPit { channels : list PITChannelState; pit_clock : Z; pit_irq : Z }.

(** Assignments to the fields. *)
Definition c_count v t s :=
  MkPitCh v (latched_count s) (count_latched s) (status_latched s) (status s) (read_state s) (write_state s)
    (write_latch s) (rw_mode s) (mode s) (bcd s) (gate s) t (next_transition_time s) (has_timer s) (irq_timer s).
Definition c_latched v k s :=
  MkPitCh (count s) v k (status_latched s) (status s) (read_state s) (write_state s) (write_latch s) (rw_mode s)
    (mode s) (bcd s) (gate s) (count_load_time s) (next_transition_time s) (has_timer s) (irq_timer s).
Definition c_status l v s :=
  MkPitCh (count s) (latched_count s) (count_latched s) l v (read_state s) (write_state s) (write_latch s) (rw_mode s)
    (mode s) (bcd s) (gate s) (count_load_time s) (next_transition_time s) (has_timer s) (irq_timer s).
Definition c_read v s :=
  MkPitCh (count s) (latched_count s) (count_latched s) (status_latched s) (status s) v (write_state s) (write_latch s)
    (rw_mode s) (mode s) (bcd s) (gate s) (count_load_time s) (next_transition_time s) (has_timer s) (irq_timer s).
Definition c_write v l s :=
  MkPitCh (count s) (latched_count s) (count_latched s) (status_latched s) (status s) (read_state s) v l (rw_mode s)
    (mode s) (bcd s) (gate s) (count_load_time s) (next_transition_time s) (has_timer s) (irq_timer s).
Definition c_control access m b s :=
  MkPitCh (count s) (latched_count s) (count_latched s) (status_latched s) (status s) access access (write_latch s)
    access m b (gate s) (count_load_time s) (next_transition_time s) (has_timer s) (irq_timer s).
Definition c_mode m g s :=
  MkPitCh (count s) (latched_count s) (count_latched s) (status_latched s) (status s) (read_state s) (write_state s)
    (write_latch s) (rw_mode s) m (bcd s) g (count_load_time s) (next_transition_time s) (has_timer s) (irq_timer s).
Definition c_next v t s :=
  MkPitCh (count s) (latched_count s) (count_latched s) (status_latched s) (status s) (read_state s) (write_state s)
    (write_latch s) (rw_mode s) (mode s) (bcd s) (gate s) (count_load_time s) v (has_timer s) t.

Section Pit.
(** Ticks of the virtual clock in a second. *)
Context (ticks_per_sec : Z).

(** PIT cycles since the count was loaded. *)
Definition elapsed (s : PITChannelState) (t : Z) : Z :=
  muldiv64 (u64 (t - count_load_time s)) PIT_FREQ ticks_per_sec.

(** [static int pit_get_count(PITChannelState *s)]; the remainders are by the
    count, [None] when it is 0. *)
Definition pit_get_count (s : PITChannelState) (now : Z) : option Z :=
  let d := elapsed s now in
  if bool_decide (mode s ∈ [0; 1; 4; 5]) then Some (Z.land (u64 (count s - d)) 0xffff)
  else if count s =? 0 then None
  else if mode s =? 3 then Some (s32 (count s - u64 (2 * d) mod count s))
  else Some (s32 (count s - d mod count s)).

(** [static int pit_get_out1(PITChannelState *s, int64_t current_time)] *)
Definition pit_get_out1 (s : PITChannelState) (current_time : Z) : option bool :=
  let d := elapsed s current_time in
  if mode s =? 1 then Some (d <? count s)
  else if mode s =? 2 then
    if count s =? 0 then None else Some ((d mod count s =? 0) && negb (d =? 0))
  else if mode s =? 3 then
    if count s =? 0 then None else Some (d mod count s <? Z.shiftr (count s + 1) 1)
  else if (mode s =? 4) || (mode s =? 5) then Some (d =? count s)
  else Some (count s <=? d).

(** The next transition in PIT cycles; [Some None] when there is none. *)
Definition next_cycle (s : PITChannelState) (d : Z) : option (option Z) :=
  if mode s =? 2 then
    if count s =? 0 then None
    else
      let base := d / count s * count s in
      Some (Some (u64 (if (d - base =? 0) && negb (d =? 0) then base + count s else base + count s + 1)))
  else if mode s =? 3 then
    if count s =? 0 then None
    else
      let base := d / count s * count s in
      let period2 := Z.shiftr (count s + 1) 1 in
      Some (Some (u64 (if d - base <? period2 then base + period2 else base + count s)))
  else if (mode s =? 4) || (mode s =? 5) then
    if d <? count s then Some (Some (count s))
    else if d =? count s then Some (Some (count s + 1)) else Some None
  else if d <? count s then Some (Some (count s)) else Some None.

(** [static int64_t pit_get_next_transition_time(PITChannelState *s, int64_t current_time)] *)
Definition pit_get_next_transition_time (s : PITChannelState) (current_time : Z) : option Z :=
  n ← next_cycle s (elapsed s current_time);
  match n with
  | None => Some (-1)
  | Some n =>
      let next_time := u64 (count_load_time s + muldiv64 n ticks_per_sec PIT_FREQ) in
      Some (if next_time <=? u64 current_time then current_time + 1 else next_time)
  end.

Definition ch_get (i : Z) : M PITState PITChannelState :=
  s <- get ;; of_option OutOfBounds (aget (channels s) i).
Definition ch_set (i : Z) (c : PITChannelState) : M PITState unit :=
  s <- get ;;
  l <- of_option OutOfBounds (aset (channels s) i c) ;;
  put (MkPit l (pit_clock s) (pit_irq s)).
Definition clock : M PITState Z := gets pit_clock.
Definition pic_set_irq (level : Z) : M PITState unit := modify (fun s => MkPit (channels s) (pit_clock s) level).

(** [static void pit_irq_timer_update(PITChannelState *s, int64_t current_time)] *)
Definition pit_irq_timer_update (i : Z) (current_time : Z) : M PITState unit :=
  s <- ch_get i ;;
  if negb (has_timer s) then ret tt else
  expire_time <- of_option DivByZero (pit_get_next_transition_time s current_time) ;;
  irq_level <- of_option DivByZero (pit_get_out1 s current_time) ;;
  pic_set_irq (if irq_level : bool then 1 else 0) ;;;
  ch_set i (c_next expire_time (if expire_time =? -1 then None else Some expire_time) s).

(** [static void pit_irq_timer(void *opaque)]: the callback of the timer. *)
Definition pit_irq_timer : M PITState unit :=
  s <- ch_get 0 ;;
  pit_irq_timer_update 0 (next_transition_time s).

(** [static inline void pit_load_count(PITChannelState *s, int val)] *)
Definition pit_load_count (i val : Z) : M PITState unit :=
  let val := if val =? 0 then 0x10000 else val in
  t <- clock ;;
  s <- ch_get i ;;
  ch_set i (c_count val t s) ;;;
  pit_irq_timer_update i t.

(** [static void pit_latch_count(PITChannelState *s)] *)
Definition pit_latch_count (i : Z) : M PITState unit :=
  s <- ch_get i ;;
  if count_latched s =? 0 then
    t <- clock ;;
    c <- of_option DivByZero (pit_get_count s t) ;;
    ch_set i (c_latched (u16 c) (rw_mode s) s)
  else ret tt.

(** The read back command for channel [i]. *)
Definition read_back (val i : Z) : M PITState unit :=
  if negb (Z.land val (Z.shiftl 2 i) =? 0) then
    (if Z.land val 0x20 =? 0 then pit_latch_count i else ret tt) ;;;
    s <- ch_get i ;;
    if (Z.land val 0x10 =? 0) && (status_latched s =? 0) then
      t <- clock ;;
      out <- of_option DivByZero (pit_get_out1 s t) ;;
      ch_set i (c_status 1 (u8 (Z.lor (Z.lor (Z.lor (Z.shiftl (if out : bool then 1 else 0) 7) (Z.shiftl (rw_mode s) 4))
                                       (Z.shiftl (mode s) 1)) (bcd s))) s)
    else ret tt
  else ret tt.

(** [static void pit_ioport_write(void *opaque, uint32_t addr, uint32_t val)] *)
Definition pit_ioport_write (addr val : Z) : M PITState unit :=
  let addr := Z.land addr 3 in
  if addr =? 3 then
    let channel := Z.shiftr val 6 in
    if channel =? 3 then read_back val 0 ;;; read_back val 1 ;;; read_back val 2
    else
      let access := Z.land (Z.shiftr val 4) 3 in
      if access =? 0 then pit_latch_count channel
      else
        s <- ch_get channel ;;
        ch_set channel (c_control access (Z.land (Z.shiftr val 1) 7) (Z.land val 1) s)
  else
    s <- ch_get addr ;;
    if write_state s =? RW_STATE_MSB then pit_load_count addr (Z.shiftl val 8)
    else if write_state s =? RW_STATE_WORD0 then ch_set addr (c_write RW_STATE_WORD1 (u8 val) s)
    else if write_state s =? RW_STATE_WORD1 then
      pit_load_count addr (Z.lor (write_latch s) (Z.shiftl val 8)) ;;;
      s <- ch_get addr ;;
      ch_set addr (c_write RW_STATE_WORD0 (write_latch s) s)
    else pit_load_count addr val.

(** [static uint32_t pit_ioport_read(void *opaque, uint32_t addr)] *)
Definition pit_ioport_read (addr : Z) : M PITState Z :=
  let addr := Z.land addr 3 in
  s <- ch_get addr ;;
  if negb (status_latched s =? 0) then ch_set addr (c_status 0 (status s) s) ;;; ret (status s)
  else if negb (count_latched s =? 0) then
    if count_latched s =? RW_STATE_MSB then
      ch_set addr (c_latched (latched_count s) 0 s) ;;; ret (Z.shiftr (latched_count s) 8)
    else if count_latched s =? RW_STATE_WORD0 then
      ch_set addr (c_latched (latched_count s) RW_STATE_MSB s) ;;; ret (Z.land (latched_count s) 0xff)
    else ch_set addr (c_latched (latched_count s) 0 s) ;;; ret (Z.land (latched_count s) 0xff)
  else
    t <- clock ;;
    count <- of_option DivByZero (pit_get_count s t) ;;
    if read_state s =? RW_STATE_MSB then ret (Z.land (Z.shiftr count 8) 0xff)
    else if read_state s =? RW_STATE_WORD0 then
      ch_set addr (c_read RW_STATE_WORD1 s) ;;; ret (Z.land count 0xff)
    else if read_state s =? RW_STATE_WORD1 then
      ch_set addr (c_read RW_STATE_WORD0 s) ;;; ret (Z.land (Z.shiftr count 8) 0xff)
    else ret (Z.land count 0xff).

(** [void pit_set_gate(PITState *pit, int channel, int val)] *)
Definition pit_set_gate (channel val : Z) : M PITState unit :=
  s <- ch_get channel ;;
  (if bool_decide (mode s ∈ [1; 5; 2; 3]) && (gate s <? val) then
     t <- clock ;;
     ch_set channel (c_count (count s) t s) ;;;
     pit_irq_timer_update channel t
   else ret tt) ;;;
  s <- ch_get channel ;;
  ch_set channel (c_mode (mode s) (u8 val) s).

(** [int pit_get_out(PITState *pit, int channel, int64_t current_time)],
    [pit_get_gate], [pit_get_initial_count] and [pit_get_mode] *)
Definition pit_get_out (channel current_time : Z) : M PITState bool :=
  s <- ch_get channel ;; of_option DivByZero (pit_get_out1 s current_time).
Definition pit_get_gate (channel : Z) : M PITState Z := s <- ch_get channel ;; ret (gate s).
Definition pit_get_initial_count (channel : Z) : M PITState Z := s <- ch_get channel ;; ret (count s).
Definition pit_get_mode (channel : Z) : M PITState Z := s <- ch_get channel ;; ret (mode s).

(** [static void pit_reset(void *opaque)] for one channel, and for all. *)
Definition reset_channel (i : Z) : M PITState unit :=
  s <- ch_get i ;;
  ch_set i (c_mode 3 (if i =? 2 then 0 else 1) s) ;;;
  pit_load_count i 0.
Definition pit_reset : M PITState unit := reset_channel 0 ;;; reset_channel 1 ;;; reset_channel 2.

(** [PITState *pit_init(int base, int irq)]: the state before the reset, at
    clock [now]; only channel 0 has a timer. *)
Definition pit_zero (has : bool) : PITChannelState := MkPitCh 0 0 0 0 0 0 0 0 0 0 0 0 0 0 has None.
Definition pit_init (now : Z) : res PITState unit :=
  pit_reset (MkPit [pit_zero true; pit_zero false; pit_zero false] now 0).

(** The ports 0x40 to 0x43 of [pit_init(0x40, 0)]; the last one is write-only. *)
Definition pit_inb (port : Z) : M PITState Z :=
  if decide (0x40 <= port <= 0x42) then pit_ioport_read port else ret 0xff.
Definition pit_outb (port val : Z) : M PITState unit :=
  if decide (0x40 <= port <= 0x43) then pit_ioport_write port val else ret tt.
End Pit.

(** * Time *)

Section Time.
Context (T : Z) (HT : PIT_FREQ <= T < 2 ^ 32).

Lemma freq_u32 : is_u32 PIT_FREQ.
Proof using Type. by vm_compute. Qed.

Lemma elapsed_ok s t :
  0 <= t - count_load_time s < 2 ^ 62 ->
  elapsed T s t = (t - count_load_time s) * PIT_FREQ / T /\ 0 <= elapsed T s t <= t - count_load_time s.
Proof using HT.
  intros Ht. unfold elapsed. rewrite (u64_small (t - _)) by lia.
  set (x := t - count_load_time s) in *. assert (PIT_FREQ = 1193182) as EF by done.
  rewrite muldiv64_ok by (lia || apply freq_u32).
  assert (0 <= x * PIT_FREQ / T <= x) as Hd.
  { split; [apply Z.div_pos; nia|]. apply Z.div_le_upper_bound; [lia|]. nia. }
  rewrite u64_small by lia. done.
Qed.

Lemma elapsed_mono s t u :
  count_load_time s <= t -> t <= u -> u - count_load_time s < 2 ^ 62 -> elapsed T s t <= elapsed T s u.
Proof using HT.
  intros Ht Hu Hb. destruct (elapsed_ok s t) as [-> _]; [lia|]. destruct (elapsed_ok s u) as [-> _]; [lia|].
  assert (PIT_FREQ = 1193182) as EF by done. apply Z.div_le_mono; [lia|]. nia.
Qed.

(** The output as a function of the PIT cycles. *)
Definition out_at (s : PITChannelState) (d : Z) : bool :=
  if mode s =? 1 then d <? count s
  else if mode s =? 2 then (d mod count s =? 0) && negb (d =? 0)
  else if mode s =? 3 then d mod count s <? Z.shiftr (count s + 1) 1
  else if (mode s =? 4) || (mode s =? 5) then d =? count s
  else count s <=? d.

Lemma out1_at s t : 0 < count s -> pit_get_out1 T s t = Some (out_at s (elapsed T s t)).
Proof using Type.
  intros Hc. unfold pit_get_out1, out_at. rewrite (proj2 (Z.eqb_neq (count s) 0)) by lia. by repeat case_match.
Qed.

Lemma next_cycle_range s d n :
  mode s <> 2 -> 0 < count s <= 0x10000 -> 0 <= d < 2 ^ 63 -> next_cycle s d = Some (Some n) -> d < n <= d + 0x10001.
Proof using Type.
  intros Hm Hc Hd. unfold next_cycle. rewrite (proj2 (Z.eqb_neq (mode s) 2)) by done.
  rewrite (proj2 (Z.eqb_neq (count s) 0)) by lia. rewrite Z.shiftr_div_pow2 by lia. change (2 ^ 1) with 2.
  pose proof (Z.div_mod d (count s) ltac:(lia)) as Ed. pose proof (Z.mod_pos_bound d (count s) ltac:(lia)) as Hr.
  assert (0 < (count s + 1) / 2 <= count s) as Hp by (Z.div_mod_to_equations; lia).
  intros Hn. repeat case_match; simplify_eq.
  all: repeat match goal with H : (_ <? _) = true |- _ => apply Z.ltb_lt in H | H : (_ <? _) = false |- _ => apply Z.ltb_ge in H
    | H : (_ =? _) = true |- _ => apply Z.eqb_eq in H end.
  all: try rewrite u64_small by lia; lia.
Qed.

(** The output does not change before the next transition. *)
Lemma out_constant s d d' n :
  mode s <> 2 -> 0 < count s <= 0x10000 -> 0 <= d < 2 ^ 63 -> next_cycle s d = Some n ->
  d <= d' -> match n with Some n => d' < n | None => True end ->
  out_at s d' = out_at s d.
Proof using Type.
  intros Hm Hc Hd Hn Hle Hlt. unfold next_cycle, out_at in *. rewrite (proj2 (Z.eqb_neq (mode s) 2)) in * by done.
  rewrite (proj2 (Z.eqb_neq (count s) 0)) in Hn by lia.
  destruct (Z.eqb_spec (mode s) 3) as [Em3|Hm3].
  - rewrite (proj2 (Z.eqb_neq (mode s) 1)) by lia. injection Hn as <-.
    rewrite Z.shiftr_div_pow2 in * by lia. change (2 ^ 1) with 2 in *.
    set (c := count s) in *. set (p := (c + 1) / 2) in *.
    assert (0 < p <= c) as Hp by (unfold p; Z.div_mod_to_equations; lia).
    pose proof (Z.div_mod d c ltac:(lia)) as Ed. pose proof (Z.mod_pos_bound d c ltac:(lia)) as Hr.
    set (q := d / c) in *. set (r := d mod c) in *.
    replace (d - q * c) with r in * by lia.
    assert (forall e, r <= e < c -> d' = q * c + e -> d' mod c = e) as Hmod.
    { intros e He ->. rewrite Z.add_comm, Z_mod_plus_full. apply Z.mod_small. lia. }
    destruct (Z.ltb_spec r p) as [Hrp|Hrp]; rewrite u64_small in * by lia.
    + rewrite (Hmod (d' - q * c)) by lia. apply Z.ltb_lt. lia.
    + rewrite (Hmod (d' - q * c)) by lia. apply Z.ltb_ge. lia.
  - destruct ((mode s =? 4) || (mode s =? 5)) eqn:E45.
    + assert (mode s <> 1) as Hm1 by (apply orb_true_iff in E45 as [?%Z.eqb_eq|?%Z.eqb_eq]; lia).
      rewrite (proj2 (Z.eqb_neq (mode s) 1)) by done.
      destruct (Z.ltb_spec d (count s)); [|destruct (Z.eqb_spec d (count s))]; injection Hn as <-.
      all: destruct (Z.eqb_spec d' (count s)), (Z.eqb_spec d (count s)); lia || done.
    + destruct (Z.ltb_spec d (count s)); injection Hn as <-.
      all: destruct (mode s =? 1), (Z.ltb_spec d' (count s)), (Z.leb_spec (count s) d'), (Z.leb_spec (count s) d); lia || done.
Qed.

Lemma next_time_ok s t n :
  0 <= count_load_time s <= t -> t < 2 ^ 61 -> next_cycle s (elapsed T s t) = Some (Some n) ->
  elapsed T s t < n <= elapsed T s t + 0x10001 ->
  pit_get_next_transition_time T s t = Some (Z.max (count_load_time s + n * T / PIT_FREQ) (t + 1)) /\
  0 <= n * T / PIT_FREQ < 2 ^ 62.
Proof using HT.
  intros Hl Ht Hn Hr. unfold pit_get_next_transition_time. rewrite Hn. cbn [mbind option_bind].
  destruct (elapsed_ok s t) as [Ed Hd]; [lia|]. assert (PIT_FREQ = 1193182) as EF by done.
  assert (0 <= n * T / PIT_FREQ < 2 ^ 62) as Hb.
  { split; [apply Z.div_pos; nia|]. apply Z.div_lt_upper_bound; [lia|].
    assert (elapsed T s t * T <= (t - count_load_time s) * PIT_FREQ)
      by (rewrite Ed; pose proof (Z.mul_div_le ((t - count_load_time s) * PIT_FREQ) T ltac:(lia)); lia).
    nia. }
  split; [|done]. rewrite muldiv64_ok by (lia || (unfold is_u32; lia)).
  rewrite (u64_small (n * T / PIT_FREQ)) by lia. rewrite !u64_small by lia.
  f_equal. destruct (Z.leb_spec (count_load_time s + n * T / PIT_FREQ) t); lia.
Qed.

(** Until then fewer than [n] cycles have passed. *)
Lemma before_cycle s u n :
  0 <= u - count_load_time s < n * T / PIT_FREQ -> u - count_load_time s < 2 ^ 62 -> elapsed T s u < n.
Proof using HT.
  intros Hu Hb. destruct (elapsed_ok s u) as [-> _]; [lia|]. assert (PIT_FREQ = 1193182) as EF by done.
  apply Z.div_lt_upper_bound; [lia|].
  pose proof (Z.mul_div_le (n * T) PIT_FREQ ltac:(lia)). nia.
Qed.
End Time.

(** C32: in every mode but 2 the time at which a channel is looked at again never
    lies behind a change of its output: from now until then, and for ever when
    there is no next transition, the output is what it is now; and it lies in the
    future. *)
Theorem pit_no_edge_missed T s t :
  PIT_FREQ <= T < 2 ^ 32 -> mode s <> 2 -> 0 < count s <= 0x10000 -> 0 <= count_load_time s <= t -> t < 2 ^ 61 ->
  exists next, pit_get_next_transition_time T s t = Some next /\ (next = -1 \/ t < next) /\
    forall u, t <= u < 2 ^ 61 -> u < next \/ next = -1 -> pit_get_out1 T s u = pit_get_out1 T s t.
Proof.
  intros HT Hm Hc Hl Ht. destruct (elapsed_ok T HT s t) as [_ Hd]; [lia|].
  assert (exists n, next_cycle s (elapsed T s t) = Some n) as [n Hn].
  { unfold next_cycle. rewrite (proj2 (Z.eqb_neq (count s) 0)) by lia. repeat case_match; eauto. }
  assert (forall u, t <= u < 2 ^ 61 -> match n with Some n => elapsed T s u < n | None => True end ->
    pit_get_out1 T s u = pit_get_out1 T s t) as Hout.
  { intros u Hu Hlt. rewrite !out1_at by lia. f_equal.
    apply (out_constant s (elapsed T s t) (elapsed T s u) n); try done; [lia|]. apply elapsed_mono; lia. }
  destruct n as [n|].
  - pose proof (next_cycle_range s (elapsed T s t) n Hm Hc ltac:(lia) Hn) as Hr.
    destruct (next_time_ok T HT s t n) as [-> Hb]; try done.
    eexists. split; [done|]. split; [right; lia|]. intros u Hu [Hlt|?]; [|lia].
    destruct (decide (u = t)) as [->|Hne]; [done|]. apply Hout; [done|]. apply before_cycle; lia.
  - unfold pit_get_next_transition_time. rewrite Hn. exists (-1). split; [done|]. split; [by left|].
    intros u Hu _. by apply Hout.
Qed.

(** The channel the kernel programs, at 100 Hz. *)
Definition square : PITChannelState := MkPitCh 11931 0 0 0 0 3 3 0 3 3 0 1 0 0 true None.

Lemma pit_no_edge_missed_witness :
  exists next, pit_get_next_transition_time 1000000000 square 7 = Some next /\ (next = -1 \/ 7 < next) /\
    forall u, 7 <= u < 2 ^ 61 -> u < next \/ next = -1 -> pit_get_out1 1000000000 square u = pit_get_out1 1000000000 square 7.
Proof. apply (pit_no_edge_missed 1000000000 square 7); cbn; unfold PIT_FREQ; lia. Defined.

(** * The invariant of the timer *)

Record wf_channel (s : PITChannelState) : Prop := {
  wc_count : 0 < count s <= 0x10000;
  wc_latched : is_u16 (latched_count s);
  wc_status : is_u8 (status s);
  wc_latch : is_u8 (write_latch s)
}.
Definition wf_pit (p : PITState) : Prop := length (channels p) = 3%nat /\ Forall wf_channel (channels p).

Lemma land3 a : Z.land a 3 = a mod 4.
Proof. apply (Z.land_ones a 2). lia. Qed.
Lemma count_pos s : wf_channel s -> 0 < count s.
Proof. intros []. lia. Qed.

Section Safe.
Context (T : Z).
Abbreviation keeps P m := (total wf_pit m P wf_pit).

Lemma keeps_ch_get {A} (Q : A -> Prop) i k :
  0 <= i < 3 -> (forall s, wf_channel s -> keeps Q (k s)) -> keeps Q (bind (ch_get i) k).
Proof using Type.
  intros Hi Hk p Hp. pose proof Hp as [Hl Hw]. destruct (aget_Some (channels p) i) as [s E]; [lia|].
  unfold ch_get. msteps. rewrite (bind_some _ _ s) by done.
  apply Hk; [|exact Hp]. apply aget_inv in E as [_ E]. exact (Forall_lookup_1 _ _ _ _ Hw E).
Qed.
Lemma keeps_ch_set i s : 0 <= i < 3 -> wf_channel s -> keeps (fun _ => True) (ch_set i s).
Proof using Type.
  intros Hi Hs p [Hl Hw]. unfold ch_set. msteps. rewrite aset_Some by lia. cbn [of_option]. msteps.
  eexists _, _. split; [reflexivity|]. split; [|done]. split; cbn [channels]; [by rewrite length_insert|by apply Forall_insert].
Qed.
Lemma keeps_clock {A} (Q : A -> Prop) k : (forall t, keeps Q (k t)) -> keeps Q (bind clock k).
Proof using Type. intros Hk. apply total_gets. intros. apply Hk. Qed.

Lemma get_count_some s t : 0 < count s -> is_Some (pit_get_count T s t).
Proof using Type. intros Hc. unfold pit_get_count. rewrite (proj2 (Z.eqb_neq (count s) 0)) by lia. repeat case_match; eauto. Qed.
Lemma get_out_some s t : 0 < count s -> is_Some (pit_get_out1 T s t).
Proof using Type. intros Hc. rewrite out1_at by done. eauto. Qed.
Lemma get_next_some s t : 0 < count s -> is_Some (pit_get_next_transition_time T s t).
Proof using Type.
  intros Hc. unfold pit_get_next_transition_time, next_cycle. rewrite (proj2 (Z.eqb_neq (count s) 0)) by lia.
  repeat case_match; simplify_eq; cbn; eauto.
Qed.

Lemma pit_keeps_update i t : 0 <= i < 3 -> keeps (fun _ => True) (pit_irq_timer_update T i t).
Proof using Type.
  intros Hi. apply keeps_ch_get; [done|]. intros s Hs. case_match; [by apply total_ret|].
  destruct (get_next_some s t (count_pos s Hs)) as [e Ee]. destruct (get_out_some s t (count_pos s Hs)) as [o Eo].
  eapply total_some; [exact Ee|]. eapply total_some; [exact Eo|].
  eapply (total_seq wf_pit wf_pit); [apply total_modify; intros p Hp; exact Hp|]. apply keeps_ch_set; [done|]. by destruct Hs.
Qed.
Lemma keeps_load i v : 0 <= i < 3 -> 0 <= v <= 0xffff -> keeps (fun _ => True) (pit_load_count T i v).
Proof using Type.
  intros Hi Hv. apply keeps_clock. intros t. apply keeps_ch_get; [done|]. intros s [].
  eapply total_seq; [|by apply pit_keeps_update]. apply keeps_ch_set; [done|]. split; cbn; try done.
  destruct (Z.eqb_spec v 0); lia.
Qed.
Lemma keeps_latch i : 0 <= i < 3 -> keeps (fun _ => True) (pit_latch_count T i).
Proof using Type.
  intros Hi. apply keeps_ch_get; [done|]. intros s Hs. case_match; [|by apply total_ret]. apply keeps_clock. intros t.
  destruct (get_count_some s t (count_pos s Hs)) as [c Ec]. eapply total_some; [exact Ec|].
  apply keeps_ch_set; [done|]. destruct Hs. split; cbn; try done. apply u16_range.
Qed.
Lemma keeps_read_back val i : 0 <= i < 3 -> keeps (fun _ => True) (read_back T val i).
Proof using Type.
  intros Hi. unfold read_back. case_match; [|by apply total_ret].
  eapply total_seq; [instantiate (1 := wf_pit); case_match; [by apply keeps_latch|by apply total_ret]|].
  apply keeps_ch_get; [done|]. intros s Hs. case_match; [|by apply total_ret]. apply keeps_clock. intros t.
  destruct (get_out_some s t (count_pos s Hs)) as [o Eo]. eapply total_some; [exact Eo|].
  apply keeps_ch_set; [done|]. destruct Hs. split; cbn; try done. apply u8_range.
Qed.

Lemma pit_keeps_write addr val : is_u8 val -> keeps (fun _ => True) (pit_ioport_write T addr val).
Proof using Type.
  intros Hv. unfold is_u8 in Hv. unfold pit_ioport_write. cbv zeta.
  assert (0 <= Z.land addr 3 <= 3) as Ha by (rewrite land3; Z.div_mod_to_equations; lia).
  assert (0 <= Z.shiftr val 6 <= 3) as Hc by (rewrite Z.shiftr_div_pow2 by lia; Z.div_mod_to_equations; lia).
  assert (0 <= Z.shiftl val 8 <= 0xff00) as Hs8 by (rewrite Z.shiftl_mul_pow2 by lia; lia).
  destruct (Z.eqb_spec (Z.land addr 3) 3) as [_|Ha3].
  - destruct (Z.eqb_spec (Z.shiftr val 6) 3) as [_|Hc3].
    + eapply total_seq; [apply keeps_read_back; lia|]. eapply total_seq; [apply keeps_read_back; lia|apply keeps_read_back; lia].
    + case_match; [apply keeps_latch; lia|]. apply keeps_ch_get; [lia|]. intros s []. apply keeps_ch_set; [lia|]. by split.
  - apply keeps_ch_get; [lia|]. intros s [? ? ? Hl]. unfold is_u8 in Hl.
    assert (0 <= Z.lor (write_latch s) (Z.shiftl val 8) <= 0xffff) as Hlor by (rewrite Z.lor_comm, lor_shiftl_add by lia; lia).
    case_match; [apply keeps_load; lia|]. case_match.
    { apply keeps_ch_set; [lia|]. split; cbn; try done. apply u8_range. }
    case_match; [|apply keeps_load; lia]. eapply total_seq; [apply keeps_load; lia|].
    apply keeps_ch_get; [lia|]. intros s' []. apply keeps_ch_set; [lia|]. by split.
Qed.

Lemma land_ff_u8 z : is_u8 (Z.land z 0xff).
Proof using Type. rewrite u8_land. apply u8_range. Qed.

Lemma pit_keeps_read addr : Z.land addr 3 <> 3 -> keeps is_u8 (pit_ioport_read T addr).
Proof using Type.
  intros Ha3. unfold pit_ioport_read. cbv zeta.
  assert (0 <= Z.land addr 3 < 3) as Ha
    by (revert Ha3; rewrite land3; Z.div_mod_to_equations; lia).
  apply keeps_ch_get; [done|]. intros s Hs. pose proof Hs as [Hc Hl Hst Hw].
  assert (forall c r, wf_channel c -> is_u8 r -> keeps is_u8 (ch_set (Z.land addr 3) c ;;; ret r)) as Hset.
  { intros c r Hf Hr. eapply total_seq; [by apply keeps_ch_set|by apply total_ret]. }
  case_match; [apply Hset; [by split|done]|].
  assert (is_u8 (Z.shiftr (latched_count s) 8)) as Hh
    by (unfold is_u16, is_u8 in *; rewrite Z.shiftr_div_pow2 by lia; Z.div_mod_to_equations; lia).
  case_match; [repeat case_match; (apply Hset; [by split|first [exact Hh|apply land_ff_u8]])|].
  apply keeps_clock. intros t. destruct (get_count_some s t (count_pos s Hs)) as [c Ec]. eapply total_some; [exact Ec|].
  repeat case_match; try (by apply total_ret, land_ff_u8); (apply Hset; [by split|apply land_ff_u8]).
Qed.
End Safe.
