(* ===== verification/Rtc.v ===== *)
(** The real time clock of the machine emulator, src/sysvm/hw/mc146818rtc.c.

    The timers are the expiry times they are armed for ([qemu_mod_timer],
    [qemu_del_timer]); [rtc_clock] is the value of [qemu_get_clock(vm_clock)] and
    [rtc_irq] the level last given to [pic_set_irq].  Indices of [cmos_data] are
    below 128 throughout: they are constants or [cmos_index], which is masked.
    Saving and loading the state are in Saved. *)
From S2P Require Import Prelude Time QTimer.

Definition RTC_SECONDS : Z := 0.
Definition RTC_SECONDS_ALARM : Z := 1.
Definition RTC_MINUTES : Z := 2.
Definition RTC_MINUTES_ALARM : Z := 3.
Definition RTC_HOURS : Z := 4.
Definition RTC_HOURS_ALARM : Z := 5.
Definition RTC_DAY_OF_WEEK : Z := 6.
Definition RTC_DAY_OF_MONTH : Z := 7.
Definition RTC_MONTH : Z := 8.
Definition RTC_YEAR : Z := 9.
Definition RTC_REG_A : Z := 10.
Definition RTC_REG_B : Z := 11.
Definition RTC_REG_C : Z := 12.
Definition RTC_REG_D : Z := 13.
Definition REG_A_UIP : Z := 0x80.
Definition REG_B_SET : Z := 0x80.
Definition REG_B_PIE : Z := 0x40.
Definition REG_B_AIE : Z := 0x20.
Definition REG_B_UIE : Z := 0x10.

(** [struct RTCState] *)
Record RTCState := MkRtc {
  cmos_data : list Z; cmos_index : Z; current_tm : tm; rtc_irq : Z; periodic_timer : option Z; next_periodic_time : Z;
  next_second_time : Z; second_timer : option Z; second_timer2 : option Z; rtc_clock : Z
}.

Definition cm (s : RTCState) (i : Z) : Z := nth (Z.to_nat i) (cmos_data s) 0.
Definition set_data (d : list Z) (s : RTCState) : RTCState :=
  MkRtc d (cmos_index s) (current_tm s) (rtc_irq s) (periodic_timer s) (next_periodic_time s) (next_second_time s)
    (second_timer s) (second_timer2 s) (rtc_clock s).
Definition set_cm (i v : Z) (s : RTCState) : RTCState := set_data (<[Z.to_nat i := u8 v]> (cmos_data s)) s.
Definition set_index (i : Z) (s : RTCState) : RTCState :=
  MkRtc (cmos_data s) i (current_tm s) (rtc_irq s) (periodic_timer s) (next_periodic_time s) (next_second_time s)
    (second_timer s) (second_timer2 s) (rtc_clock s).
Definition set_tm (t : tm) (s : RTCState) : RTCState :=
  MkRtc (cmos_data s) (cmos_index s) t (rtc_irq s) (periodic_timer s) (next_periodic_time s) (next_second_time s)
    (second_timer s) (second_timer2 s) (rtc_clock s).
Definition set_irq (l : Z) (s : RTCState) : RTCState :=
  MkRtc (cmos_data s) (cmos_index s) (current_tm s) l (periodic_timer s) (next_periodic_time s) (next_second_time s)
    (second_timer s) (second_timer2 s) (rtc_clock s).
Definition set_periodic (t : option Z) (n : Z) (s : RTCState) : RTCState :=
  MkRtc (cmos_data s) (cmos_index s) (current_tm s) (rtc_irq s) t n (next_second_time s)
    (second_timer s) (second_timer2 s) (rtc_clock s).
Definition set_second (n : Z) (a b : option Z) (s : RTCState) : RTCState :=
  MkRtc (cmos_data s) (cmos_index s) (current_tm s) (rtc_irq s) (periodic_timer s) (next_periodic_time s) n a b
    (rtc_clock s).

Definition bit (v mask : Z) : bool := negb (Z.land v mask =? 0).

(** ** Date *)

(** [to_bcd] and [from_bcd] *)
Definition to_bcd (s : RTCState) (a : Z) : Z :=
  if bit (cm s RTC_REG_B) 0x04 then a else Z.lor (Z.shiftl (Z.quot a 10) 4) (Z.rem a 10).
Definition from_bcd (s : RTCState) (a : Z) : Z :=
  if bit (cm s RTC_REG_B) 0x04 then a else Z.shiftr a 4 * 10 + Z.land a 0x0f.

(** [static void rtc_set_time(RTCState *s)] *)
Definition rtc_set_time (s : RTCState) : RTCState :=
  let hour := from_bcd s (Z.land (cm s RTC_HOURS) 0x7f) in
  let hour := if negb (bit (cm s RTC_REG_B) 0x02) && bit (cm s RTC_HOURS) 0x80 then hour + 12 else hour in
  let t := current_tm s in
  set_tm (Tm (from_bcd s (cm s RTC_SECONDS)) (from_bcd s (cm s RTC_MINUTES)) hour
            (from_bcd s (cm s RTC_DAY_OF_MONTH)) (from_bcd s (cm s RTC_MONTH) - 1) (from_bcd s (cm s RTC_YEAR) + 100)
            (from_bcd s (cm s RTC_DAY_OF_WEEK)) (tm_yday t) (tm_isdst t)) s.

(** [static void rtc_copy_date(RTCState *s)] *)
Definition rtc_copy_date (s : RTCState) : RTCState :=
  let t := current_tm s in
  let s := set_cm RTC_SECONDS (to_bcd s (tm_sec t)) s in
  let s := set_cm RTC_MINUTES (to_bcd s (tm_min t)) s in
  let s :=
    if bit (cm s RTC_REG_B) 0x02 then set_cm RTC_HOURS (to_bcd s (tm_hour t)) s
    else
      let s := set_cm RTC_HOURS (to_bcd s (Z.rem (tm_hour t) 12)) s in
      if 12 <=? tm_hour t then set_cm RTC_HOURS (Z.lor (cm s RTC_HOURS) 0x80) s else s in
  let s := set_cm RTC_DAY_OF_WEEK (to_bcd s (tm_wday t)) s in
  let s := set_cm RTC_DAY_OF_MONTH (to_bcd s (tm_mday t)) s in
  let s := set_cm RTC_MONTH (to_bcd s (tm_mon t + 1)) s in
  set_cm RTC_YEAR (to_bcd s (Z.rem (tm_year t) 100)) s.

(** [static int get_days_in_month(int month, int year)] *)
Definition days_tab : list Z := [31; 28; 31; 30; 31; 30; 31; 31; 30; 31; 30; 31].
Definition get_days_in_month (month year : Z) : Z :=
  if 12 <=? u32 month then 31
  else
    let d := nth (Z.to_nat month) days_tab 0 in
    if (month =? 1) && ((Z.rem year 4 =? 0) && (negb (Z.rem year 100 =? 0) || (Z.rem year 400 =? 0))) then d + 1 else d.

(** [static void rtc_next_second(struct tm *tm)]: the day, and the time. *)
Definition next_day (t : tm) : tm :=
  let wday := if 7 <=? u32 (tm_wday t + 1) then 0 else tm_wday t + 1 in
  let days_in_month := get_days_in_month (tm_mon t) (tm_year t + 1900) in
  let mday := tm_mday t + 1 in
  if mday <? 1 then Tm (tm_sec t) (tm_min t) (tm_hour t) 1 (tm_mon t) (tm_year t) wday (tm_yday t) (tm_isdst t)
  else if days_in_month <? mday then
    if 12 <=? tm_mon t + 1
    then Tm (tm_sec t) (tm_min t) (tm_hour t) 1 0 (tm_year t + 1) wday (tm_yday t) (tm_isdst t)
    else Tm (tm_sec t) (tm_min t) (tm_hour t) 1 (tm_mon t + 1) (tm_year t) wday (tm_yday t) (tm_isdst t)
  else Tm (tm_sec t) (tm_min t) (tm_hour t) mday (tm_mon t) (tm_year t) wday (tm_yday t) (tm_isdst t).
Definition with_time (sec min hour : Z) (t : tm) : tm :=
  Tm sec min hour (tm_mday t) (tm_mon t) (tm_year t) (tm_wday t) (tm_yday t) (tm_isdst t).
Definition rtc_next_second (t : tm) : tm :=
  if 60 <=? u32 (tm_sec t + 1) then
    if 60 <=? u32 (tm_min t + 1) then
      if 24 <=? u32 (tm_hour t + 1) then next_day (with_time 0 0 0 t)
      else with_time 0 0 (tm_hour t + 1) t
    else with_time 0 (tm_min t + 1) (tm_hour t) t
  else with_time (tm_sec t + 1) (tm_min t) (tm_hour t) t.

Section Rtc.
Context (ticks_per_sec : Z).

(** ** Timers *)

(** [static void rtc_timer_update(RTCState *s, int64_t current_time)] *)
Definition rtc_timer_update (current_time : Z) (s : RTCState) : RTCState :=
  let period_code := Z.land (cm s RTC_REG_A) 0x0f in
  if negb (period_code =? 0) && bit (cm s RTC_REG_B) REG_B_PIE then
    let period_code := if period_code <=? 2 then period_code + 7 else period_code in
    let period := Z.shiftl 1 (period_code - 1) in
    let cur_clock := muldiv64 (u64 current_time) 32768 ticks_per_sec in
    let next_irq_clock := Z.land cur_clock (Z.lnot (period - 1)) + period in
    let next := muldiv64 (u64 next_irq_clock) ticks_per_sec 32768 + 1 in
    set_periodic (Some next) next s
  else set_periodic None (next_periodic_time s) s.

(** [static void rtc_periodic_timer(void *opaque)] *)
Definition rtc_periodic_timer (s : RTCState) : RTCState :=
  let s := rtc_timer_update (next_periodic_time s) s in
  set_irq 1 (set_cm RTC_REG_C (Z.lor (cm s RTC_REG_C) 0xc0) s).

(** [static void rtc_update_second(void *opaque)] *)
Definition rtc_update_second (s : RTCState) : RTCState :=
  if negb (Z.land (cm s RTC_REG_A) 0x70 =? 0x20) then
    let next := next_second_time s + ticks_per_sec in
    set_second next (Some next) (second_timer2 s) s
  else
    let s := set_tm (rtc_next_second (current_tm s)) s in
    let s := if bit (cm s RTC_REG_B) REG_B_SET then s else set_cm RTC_REG_A (Z.lor (cm s RTC_REG_A) REG_A_UIP) s in
    let delay := Z.max 1 (Z.quot (ticks_per_sec * 1) 100) in
    set_second (next_second_time s) None (Some (next_second_time s + delay)) s.

(** The alarm test of [rtc_update_second2]; the minute alarm is compared with the
    month. *)
Definition alarm (s : RTCState) : bool :=
  let t := current_tm s in
  ((Z.land (cm s RTC_SECONDS_ALARM) 0xc0 =? 0xc0) || (cm s RTC_SECONDS_ALARM =? tm_sec t)) &&
  ((Z.land (cm s RTC_MINUTES_ALARM) 0xc0 =? 0xc0) || (cm s RTC_MINUTES_ALARM =? tm_mon t)) &&
  ((Z.land (cm s RTC_HOURS_ALARM) 0xc0 =? 0xc0) || (cm s RTC_HOURS_ALARM =? tm_hour t)).

(** [static void rtc_update_second2(void *opaque)] *)
Definition rtc_update_second2 (s : RTCState) : RTCState :=
  let s := if bit (cm s RTC_REG_B) REG_B_SET then s else rtc_copy_date s in
  let s := if bit (cm s RTC_REG_B) REG_B_AIE && alarm s
           then set_irq 1 (set_cm RTC_REG_C (Z.lor (cm s RTC_REG_C) 0xa0) s) else s in
  let s := if bit (cm s RTC_REG_B) REG_B_UIE
           then set_irq 1 (set_cm RTC_REG_C (Z.lor (cm s RTC_REG_C) 0x90) s) else s in
  let s := set_cm RTC_REG_A (Z.land (cm s RTC_REG_A) (Z.lnot REG_A_UIP)) s in
  let next := next_second_time s + ticks_per_sec in
  set_second next (Some next) None s.

(** ** Ports *)

(** [static void cmos_ioport_write(void *opaque, uint32_t addr, uint32_t data)] *)
Definition cmos_ioport_write (addr data : Z) (s : RTCState) : RTCState :=
  if Z.land addr 1 =? 0 then set_index (Z.land data 0x7f) s
  else
    let i := cmos_index s in
    if bool_decide (i ∈ [RTC_SECONDS; RTC_MINUTES; RTC_HOURS; RTC_DAY_OF_WEEK; RTC_DAY_OF_MONTH; RTC_MONTH; RTC_YEAR])
    then
      let s := set_cm i data s in
      if bit (cm s RTC_REG_B) REG_B_SET then s else rtc_set_time s
    else if i =? RTC_REG_A then
      let s := set_cm RTC_REG_A (Z.lor (Z.land data (Z.lnot REG_A_UIP)) (Z.land (cm s RTC_REG_A) REG_A_UIP)) s in
      rtc_timer_update (rtc_clock s) s
    else if i =? RTC_REG_B then
      let '(s, data) :=
        if bit data REG_B_SET
        then (set_cm RTC_REG_A (Z.land (cm s RTC_REG_A) (Z.lnot REG_A_UIP)) s, Z.land data (Z.lnot REG_B_UIE))
        else (if bit (cm s RTC_REG_B) REG_B_SET then rtc_set_time s else s, data) in
      let s := set_cm RTC_REG_B data s in
      rtc_timer_update (rtc_clock s) s
    else if (i =? RTC_REG_C) || (i =? RTC_REG_D) then s
    else set_cm i data s.

(** [static uint32_t cmos_ioport_read(void *opaque, uint32_t addr)] *)
Definition cmos_ioport_read (addr : Z) (s : RTCState) : Z * RTCState :=
  if Z.land addr 1 =? 0 then (0xff, s)
  else if cmos_index s =? RTC_REG_C then (cm s RTC_REG_C, set_cm RTC_REG_C 0x00 (set_irq 0 s))
  else (cm s (cmos_index s), s).

(** ** Initialisation *)

(** [void rtc_set_memory(RTCState *s, int addr, int val)] *)
Definition rtc_set_memory (addr val : Z) (s : RTCState) : RTCState :=
  if (0 <=? addr) && (addr <=? 127) then set_cm addr val s else s.
(** [void rtc_set_date(RTCState *s, const struct tm *tm)] *)
Definition rtc_set_date (t : tm) (s : RTCState) : RTCState := rtc_copy_date (set_tm t s).
(** [void rtc_set_date_from_host(RTCState *s)], at the host's time [t]. *)
Definition rtc_set_date_from_host (t : tm) (s : RTCState) : RTCState :=
  let s := rtc_set_date t s in
  let val := to_bcd s (Z.quot (tm_year t) 100 + 19) in
  rtc_set_memory 0x37 val (rtc_set_memory 0x32 val s).

(** [RTCState *rtc_init(int base, int irq)], at the clock [now]. *)
Definition rtc_zero (now : Z) : RTCState :=
  MkRtc (replicate 128 0) 0 (Tm 0 0 0 0 0 0 0 0 0) 0 None 0 0 None None now.
Definition rtc_init (t : tm) (now : Z) : RTCState :=
  let s := set_cm RTC_REG_D 0x80 (set_cm RTC_REG_C 0x00 (set_cm RTC_REG_B 0x02 (set_cm RTC_REG_A 0x26 (rtc_zero now)))) in
  let s := rtc_set_date_from_host t s in
  let next := now + Z.quot (ticks_per_sec * 99) 100 in
  set_second next None (Some next) s.
End Rtc.
