(* ===== verification/ClockMachine.v ===== *)
(** The clock of the machine.  The emulated real time clock (Rtc) and the kernel's
    calendar (Time): the seconds the clock counts are the seconds of [mktime].  The
    clock driver (Timer) on a machine with the interval timer (I8254) and the real
    time clock: what [rtc_init] of clock.c programs and reads. *)
From S2P Require Import Prelude Time I8259 Port Irq QTimer I8254 Rtc Timer.


Lemma u32_succ x y : y = x + 1 -> u32 y = u32 (u32 x + 1).
Proof. intros ->. unfold u32. by rewrite Zplus_mod_idemp_l. Qed.

Lemma days_in_month m y :
  0 <= m <= 11 ->
  get_days_in_month m y = mon_yday_at (leapZ y) (m + 1) - mon_yday_at (leapZ y) m /\ 28 <= get_days_in_month m y <= 31.
Proof.
  intros Hm. unfold get_days_in_month. rewrite u32_small by (unfold is_u32; lia).
  rewrite (proj2 (Z.leb_gt _ _)) by lia. fold (isleap y). unfold leapZ.
  assert (m = 0 \/ m = 1 \/ m = 2 \/ m = 3 \/ m = 4 \/ m = 5 \/ m = 6 \/ m = 7 \/ m = 8 \/ m = 9 \/ m = 10 \/ m = 11) as Hc by lia.
  destruct (isleap y); repeat destruct Hc as [->|Hc]; subst; (split; [reflexivity|by vm_compute]).
Qed.

Lemma year_start_next y : 1970 <= y -> year_start (y + 1) = year_start y + 365 + leapZ y.
Proof. intros Hy. unfold year_start. pose proof (leaps_step y ltac:(lia)). replace (y + 1 - 1) with y by lia. lia. Qed.

Lemma month_days_12 y : mon_yday_at (leapZ y) 12 = 365 + leapZ y.
Proof. unfold leapZ. by destruct (isleap y). Qed.

(** The day after a valid date, by the kernel's calendar. *)
Lemma next_day_ok t :
  valid_date t ->
  let t' := next_day t in let y := tm_year t + 1900 in
  exists y', tm_year t' = y' - 1900 /\ 1970 <= y' <= 2106 /\ 0 <= tm_mon t' <= 11 /\
    year_start y' + mon_yday_at (leapZ y') (tm_mon t') + tm_mday t' =
      year_start y + mon_yday_at (leapZ y) (tm_mon t) + tm_mday t + 1 /\
    tm_sec t' = tm_sec t /\ tm_min t' = tm_min t /\ tm_hour t' = tm_hour t /\
    1 <= tm_mday t' <= mon_yday_at (leapZ y') (tm_mon t' + 1) - mon_yday_at (leapZ y') (tm_mon t').
Proof.
  intros (Hy & Hm & Hd & _). cbv zeta. unfold next_day.
  rewrite (proj1 (days_in_month (tm_mon t) (tm_year t + 1900) Hm)). set (y := tm_year t + 1900) in *.
  destruct (Z.ltb_spec (tm_mday t + 1) 1); [lia|].
  destruct (Z.ltb_spec (mon_yday_at (leapZ y) (tm_mon t + 1) - mon_yday_at (leapZ y) (tm_mon t)) (tm_mday t + 1)) as [Hlast|Hin].
  - destruct (Z.leb_spec 12 (tm_mon t + 1)) as [H12|H12]; cbn [tm_year tm_mon tm_mday tm_sec tm_min tm_hour].
    + exists (y + 1). assert (tm_mon t + 1 = 12) as E12 by lia. rewrite E12, month_days_12 in *.
      rewrite year_start_next by lia.
      assert (mon_yday_at (leapZ (y + 1)) 0 = 0 /\ mon_yday_at (leapZ (y + 1)) (0 + 1) = 31) as [-> ->]
        by (unfold leapZ; by destruct (isleap (y + 1))).
      split_and!; lia.
    + exists y. split_and!; try lia.
      pose proof (days_in_month (tm_mon t + 1) y ltac:(lia)). lia.
  - exists y. cbn [tm_year tm_mon tm_mday tm_sec tm_min tm_hour]. split_and!; lia.
Qed.

Lemma valid_with_time s m h t :
  valid_date t -> 0 <= s < 60 -> 0 <= m < 60 -> 0 <= h < 24 -> valid_date (with_time s m h t).
Proof. by intros (? & ? & ? & ? & ? & ?) ? ? ?. Qed.
Lemma mktime_with_time s m h t :
  valid_date t ->
  mktime (with_time s m h t) =
    u32 ((((year_start (tm_year t + 1900) + mon_yday_at (leapZ (tm_year t + 1900)) (tm_mon t) + tm_mday t - 1) * 24
            + h) * 60 + m) * 60 + s).
Proof.
  intros (? & ? & _). apply (mktime_days (with_time s m h t));
    cbn [with_time tm_year tm_mon]; lia.
Qed.

(** One second of the clock, across the ends of minutes, hours, days, months and
    years. *)
Lemma second_step t :
  valid_date t ->
  mktime (rtc_next_second t) = u32 (mktime t + 1) /\
  (tm_year (rtc_next_second t) <= 205 -> valid_date (rtc_next_second t)).
Proof.
  intros Hv. pose proof Hv as (Hy & Hm & Hd & Hh & Hmi & Hs).
  rewrite (mktime_days t (tm_year t + 1900)) by lia. unfold rtc_next_second.
  rewrite (u32_small (tm_sec t + 1)), (u32_small (tm_min t + 1)), (u32_small (tm_hour t + 1)) by (unfold is_u32; lia).
  destruct (Z.leb_spec 60 (tm_sec t + 1)) as [Es|Es].
  2: { split; [|intros _; apply valid_with_time; lia || done]. rewrite mktime_with_time by done. apply u32_succ. lia. }
  destruct (Z.leb_spec 60 (tm_min t + 1)) as [Em|Em].
  2: { split; [|intros _; apply valid_with_time; lia || done]. rewrite mktime_with_time by done. apply u32_succ. lia. }
  destruct (Z.leb_spec 24 (tm_hour t + 1)) as [Eh|Eh].
  2: { split; [|intros _; apply valid_with_time; lia || done]. rewrite mktime_with_time by done. apply u32_succ. lia. }
  assert (valid_date (with_time 0 0 0 t)) as Hv0 by (apply valid_with_time; lia || done).
  destruct (next_day_ok _ Hv0) as (y' & E1 & E2 & E3 & E4 & E5 & E6 & E7 & E8). cbn [with_time tm_year tm_mon tm_mday tm_sec tm_min tm_hour] in E4, E5, E6, E7.
  split.
  - rewrite (mktime_days _ y') by lia. apply u32_succ. rewrite E5, E6, E7. lia.
  - intros Hy'. unfold valid_date. rewrite E1, E5, E6, E7. replace (y' - 1900 + 1900) with y' by lia. split_and!; lia.
Qed.

Lemma next_second_year t : tm_year t <= tm_year (rtc_next_second t).
Proof.
  unfold rtc_next_second, next_day. repeat case_match; cbn; lia.
Qed.

(** The date the clock has after [n] seconds. *)
Definition clock_after (n : nat) (t : tm) : tm := Nat.iter n rtc_next_second t.

(** C28: the emulated clock and the kernel's calendar count the same seconds: a valid
    date from 1970 on, advanced [n] times by [rtc_next_second], is again a valid date
    and [mktime] of it is [mktime] of the first plus [n], up to the end of 2105. *)
Theorem clock_second_is_calendar_second n t :
  valid_date t -> tm_year (clock_after n t) <= 205 ->
  valid_date (clock_after n t) /\ mktime (clock_after n t) = u32 (mktime t + Z.of_nat n).
Proof.
  intros Hv Hy. induction n as [|n IH]; [split; [done|]|].
  - cbn [clock_after Nat.iter nat_rect]. rewrite Z.add_0_r. symmetry. apply u32_small.
    pose proof Hv as (? & ? & _). rewrite (mktime_days t (tm_year t + 1900)) by lia. apply u32_range.
  - change (clock_after (S n) t) with (rtc_next_second (clock_after n t)) in *.
    pose proof (next_second_year (clock_after n t)). destruct IH as [Hn En]; [lia|].
    destruct (second_step _ Hn) as [E Hnext]. split; [by apply Hnext|]. rewrite E, En.
    unfold u32. rewrite Zplus_mod_idemp_l. f_equal. lia.
Qed.

Lemma clock_second_is_calendar_second_witness :
  mktime (clock_after 3 (Tm 59 59 23 28 1 108 4 0 0)) = u32 (mktime (Tm 59 59 23 28 1 108 4 0 0) + 3).
Proof.
  apply (clock_second_is_calendar_second 3 (Tm 59 59 23 28 1 108 4 0 0)); by vm_compute.
Defined.

(** * The driver *)

Record clockpc := MkPc { pc_pit : PITState; pc_rtc : RTCState }.

(** The ports of the two devices, as [pc_init1] of the emulator places them. *)
Definition pc_inb (T port : Z) : M clockpc Z :=
  if decide (0x40 <= port <= 0x43) then zoom pc_pit (fun p w => MkPc p (pc_rtc w)) (pit_inb T port)
  else if decide (0x70 <= port <= 0x71) then
    fun w => let '(v, r) := cmos_ioport_read port (pc_rtc w) in Ok v (MkPc (pc_pit w) r)
  else ret 0xff.
Definition pc_outb (T port val : Z) : M clockpc unit :=
  if decide (0x40 <= port <= 0x43) then zoom pc_pit (fun p w => MkPc p (pc_rtc w)) (pit_outb T port val)
  else if decide (0x70 <= port <= 0x71) then modify (fun w => MkPc (pc_pit w) (cmos_ioport_write T port val (pc_rtc w)))
  else ret tt.

(** ** The date *)

(** Two decimal digits in a byte. *)
Definition bcd (a : Z) : Z := a / 10 * 16 + a mod 10.

Lemma bcd_byte a : 0 <= a < 100 -> BCD2HEXB (bcd a) (bcd a) = a /\ is_u8 (bcd a).
Proof.
  intros Ha. unfold BCD2HEXB, bcd. change 0xf with (Z.ones 4). rewrite !Z.land_ones, Z.shiftr_div_pow2 by lia.
  change (2 ^ 4) with 16. unfold is_u8. Z.div_mod_to_equations. lia.
Qed.

Lemma to_bcd_ok s a : bit (cm s RTC_REG_B) 0x04 = false -> 0 <= a < 100 -> to_bcd s a = bcd a.
Proof.
  intros Hb Ha. unfold to_bcd. rewrite Hb, Z.quot_div_nonneg, Z.rem_mod_nonneg by lia.
  apply (lor_shiftl_add 4); [lia|]. Z.div_mod_to_equations; lia.
Qed.

(** The registers of the clock show the date [t], in 24 hour mode. *)
Record shows (s : RTCState) (t : tm) : Prop := {
  sh_sec : cm s RTC_SECONDS = bcd (tm_sec t);
  sh_min : cm s RTC_MINUTES = bcd (tm_min t);
  sh_hour : cm s RTC_HOURS = bcd (tm_hour t);
  sh_mday : cm s RTC_DAY_OF_MONTH = bcd (tm_mday t);
  sh_mon : cm s RTC_MONTH = bcd (tm_mon t + 1);
  sh_year : cm s RTC_YEAR = bcd (tm_year t mod 100)
}.

Lemma cm_set_eq i v s : 0 <= i < Z.of_nat (length (cmos_data s)) -> cm (set_cm i v s) i = u8 v.
Proof.
  intros Hi. unfold cm, set_cm. cbn [cmos_data set_data]. apply nth_lookup_Some, list_lookup_insert_eq. lia.
Qed.
Lemma cm_set_ne i j v s : 0 <= i -> 0 <= j -> i <> j -> cm (set_cm i v s) j = cm s j.
Proof.
  intros Hi Hj Hne. unfold cm, set_cm. cbn [cmos_data set_data]. rewrite !nth_lookup, list_lookup_insert_ne by lia. done.
Qed.
Lemma length_set_cm i v s : length (cmos_data (set_cm i v s)) = length (cmos_data s).
Proof. apply length_insert. Qed.

(** [valid_date] bounds every number the clock shows. *)
Lemma valid_digits t : valid_date t ->
  0 <= tm_sec t < 100 /\ 0 <= tm_min t < 100 /\ 0 <= tm_hour t < 100 /\ 0 <= tm_mday t < 100 /\ 0 <= tm_mon t + 1 < 100.
Proof.
  intros (Hy & Hm & Hd & Hh & Hmi & Hs). split_and!; try lia.
  all: pose proof (days_in_month (tm_mon t) (tm_year t + 1900) Hm). lia.
Qed.

Lemma to_bcd_set i v s a : 0 <= i -> i <> RTC_REG_B -> to_bcd (set_cm i v s) a = to_bcd s a.
Proof. intros Hi Hn. unfold to_bcd. by rewrite cm_set_ne by (done || unfold RTC_REG_B in *; lia). Qed.

(** The clock in its normal operation: binary coded digits and 24 hours. *)
Record rtc_normal (s : RTCState) : Prop := {
  rn_len : length (cmos_data s) = 128%nat;
  rn_bcd : bit (cm s RTC_REG_B) 0x04 = false;
  rn_24 : bit (cm s RTC_REG_B) 0x02 = true
}.

Ltac cmos_simpl :=
  repeat first
    [rewrite to_bcd_set by (unfold RTC_SECONDS, RTC_MINUTES, RTC_HOURS, RTC_DAY_OF_WEEK, RTC_DAY_OF_MONTH, RTC_MONTH,
       RTC_YEAR, RTC_REG_B; lia)
    |rewrite cm_set_eq by (unfold RTC_SECONDS, RTC_MINUTES, RTC_HOURS, RTC_DAY_OF_WEEK, RTC_DAY_OF_MONTH, RTC_MONTH,
       RTC_YEAR, RTC_REG_B; rewrite ?length_set_cm; lia)
    |rewrite cm_set_ne by (unfold RTC_SECONDS, RTC_MINUTES, RTC_HOURS, RTC_DAY_OF_WEEK, RTC_DAY_OF_MONTH, RTC_MONTH,
       RTC_YEAR, RTC_REG_B; lia)].

Lemma copy_shows s : rtc_normal s -> valid_date (current_tm s) -> shows (rtc_copy_date s) (current_tm s).
Proof.
  intros [Hl H4 H2] Hv. destruct (valid_digits _ Hv) as (D1 & D2 & D3 & D4 & D5). pose proof Hv as (Hy & _).
  set (t := current_tm s) in *. pose proof (Z.mod_pos_bound (tm_year t) 100 ltac:(lia)) as D6.
  unfold rtc_copy_date. fold t. cbv zeta. cmos_simpl. rewrite H2.
  split; cmos_simpl; rewrite ?Z.rem_mod_nonneg by lia; rewrite (to_bcd_ok s) by done; apply u8_small, bcd_byte; done.
Qed.

(** The clock as the emulator starts it at the host's date. *)
Lemma rtc_init_shows T t now : valid_date t -> shows (Rtc.rtc_init T t now) t /\ rtc_normal (Rtc.rtc_init T t now).
Proof.
  intros Hv. unfold Rtc.rtc_init. cbv zeta. set (s0 := set_cm RTC_REG_D _ _).
  assert (rtc_normal (set_tm t s0)) as Hn by (split; reflexivity).
  assert (forall s n a b, shows s t /\ rtc_normal s -> shows (set_second n a b s) t /\ rtc_normal (set_second n a b s)) as Hk
    by (intros s n a b [[] []]; by split; split).
  apply Hk. unfold rtc_set_date_from_host, rtc_set_memory. cbv zeta. change ((0 <=? 0x37) && (0x37 <=? 127)) with true.
  change ((0 <=? 0x32) && (0x32 <=? 127)) with true. cbv iota. unfold rtc_set_date.
  pose proof (copy_shows (set_tm t s0) Hn Hv) as Hs. cbn [current_tm set_tm] in Hs.
  assert (rtc_normal (rtc_copy_date (set_tm t s0))) as Hc.
  { destruct Hn as [Hl H4 H2]. unfold rtc_copy_date. cbv zeta. cmos_simpl. rewrite H2. split; cmos_simpl; [|done|done].
    by rewrite !length_set_cm. }
  set (s1 := rtc_copy_date (set_tm t s0)) in *. clearbody s1. generalize (to_bcd s1 (Z.quot (tm_year t) 100 + 19)). intros v.
  destruct Hs, Hc. split; split; cmos_simpl; rewrite ?length_set_cm; done.
Qed.

(** ** The interval timer *)

Section Machine.
Context (T : Z) (HT : PIT_FREQ <= T < 2 ^ 32).

#[local] Instance pc_ports : PortIO clockpc := {
  inportb := pc_inb T;
  outportb port val := pc_outb T port (u8 val);
  inportw := default_ioport_readw (pc_inb T);
  outportw port val := default_ioport_writew (pc_outb T) port (u16 val)
}.

Definition pc (s : clock clockpc) : clockpc := io (tw (tst s)).
Definition with_pc (w : clockpc) (s : clock clockpc) : clock clockpc :=
  let t := tst s in let i := tw t in
  Clock (rtc_time s) (rtc_second s)
    (Timers (timer_list t) (timer_num t) (dec t) (MkIrq (isr_handler i) (irq_handler i) (syscall i) (iflag i) w)).

Lemma tables_out port v s w' :
  pc_outb T port (u8 v) (pc s) = Ok tt w' -> on_tables (outb port v) s = Ok tt (with_pc w' s).
Proof using Type. intros E. unfold on_tables, on_timers, outb, zoom. cbn [outportb pc_ports]. fold (pc s). by rewrite E. Qed.
Lemma tables_in port v s w' : pc_inb T port (pc s) = Ok v w' -> on_tables (inb port) s = Ok v (with_pc w' s).
Proof using Type. intros E. unfold on_tables, on_timers, inb, zoom. cbn [inportb pc_ports]. fold (pc s). by rewrite E. Qed.

Lemma out_pit port v w p' :
  0x40 <= port <= 0x43 -> pit_ioport_write T port v (pc_pit w) = Ok tt p' ->
  pc_outb T port v w = Ok tt (MkPc p' (pc_rtc w)).
Proof using Type.
  intros Hp E. unfold pc_outb. rewrite decide_True by lia. unfold zoom, pit_outb. rewrite decide_True by lia. by rewrite E.
Qed.

(** The control word 0x36 and the two bytes of the count on channel 0. *)
Lemma program_square c0 cs now lvl lo hi n :
  0 <= lo < 256 -> 0 <= hi < 256 -> lo + 256 * hi = n -> 0 < n ->
  exists p1 p2 p3 c0' lvl',
    pit_ioport_write T 0x43 0x36 (MkPit (c0 :: cs) now lvl) = Ok tt p1 /\
    pit_ioport_write T 0x40 lo p1 = Ok tt p2 /\ pit_ioport_write T 0x40 hi p2 = Ok tt p3 /\
    p3 = MkPit (c0' :: cs) now lvl' /\ mode c0' = 3 /\ count c0' = n /\ count_load_time c0' = now.
Proof using Type.
  intros Hlo Hhi En Hn.
  set (c1 := c_control 3 3 0 c0). set (c2 := c_write RW_STATE_WORD1 lo c1). set (c3 := c_count n now c2).
  assert (Z.lor lo (Z.shiftl hi 8) = n) as Elor by (rewrite Z.lor_comm, lor_shiftl_add by lia; lia).
  destruct (get_next_some T c3 now ltac:(cbn; lia)) as [e Ee]. destruct (get_out_some T c3 now ltac:(cbn; lia)) as [o Eo].
  set (c4 := c_next e (if e =? -1 then None else Some e) c3).
  exists (MkPit (c1 :: cs) now lvl), (MkPit (c2 :: cs) now lvl),
    (MkPit (c_write RW_STATE_WORD0 lo (if has_timer c0 then c4 else c3) :: cs) now
       (if has_timer c0 then (if o then 1 else 0) else lvl)),
    (c_write RW_STATE_WORD0 lo (if has_timer c0 then c4 else c3)), (if has_timer c0 then (if o then 1 else 0) else lvl).
  split; [reflexivity|]. split.
  { unfold pit_ioport_write, ch_get, ch_set. change (Z.land 64 3) with 0. cbv zeta. cbn [Z.eqb]. msteps.
    cbn [channels]. change (aget (c1 :: cs) 0) with (Some c1). cbn [of_option]. msteps. change (write_state c1) with 3.
    cbn [Z.eqb Pos.eqb RW_STATE_MSB RW_STATE_WORD0]. rewrite u8_small by (unfold is_u8; lia). reflexivity. }
  split; [|split; [reflexivity|by destruct (has_timer c0)]].
  unfold pit_ioport_write, ch_get, ch_set. change (Z.land 64 3) with 0. cbv zeta. cbn [Z.eqb]. msteps.
  cbn [channels]. change (aget (c2 :: cs) 0) with (Some c2). cbn [of_option]. msteps. change (write_state c2) with 4.
  cbn [Z.eqb Pos.eqb RW_STATE_MSB RW_STATE_WORD0 RW_STATE_WORD1]. change (write_latch c2) with lo. rewrite Elor.
  assert (pit_load_count T 0 n (MkPit (c2 :: cs) now lvl) =
    Ok tt (MkPit ((if has_timer c0 then c4 else c3) :: cs) now (if has_timer c0 then (if o then 1 else 0) else lvl))) as El.
  { unfold pit_load_count. rewrite (proj2 (Z.eqb_neq n 0)) by lia. unfold I8254.clock, ch_get, ch_set. msteps.
    cbn [pit_clock channels]. change (aget (c2 :: cs) 0) with (Some c2). cbn [of_option]. msteps. fold c3.
    cbn [channels pit_clock pit_irq]. change (aset (c2 :: cs) 0 c3) with (Some (c3 :: cs)). cbn [of_option]. msteps.
    unfold pit_irq_timer_update, ch_get, ch_set. msteps. cbn [channels]. change (aget (c3 :: cs) 0) with (Some c3).
    cbn [of_option]. msteps. change (has_timer c3) with (has_timer c0). destruct (has_timer c0); cbn [negb]; [|reflexivity].
    cbn [pit_clock]. rewrite (bind_some _ _ e) by exact Ee. rewrite (bind_some _ _ o) by exact Eo.
    unfold pic_set_irq. msteps. reflexivity. }
  rewrite (bind_ok _ _ _ _ _ El). by destruct (has_timer c0).
Qed.

Lemma rtc_freq_ok (s : clock clockpc) c0 cs :
  channels (pc_pit (pc s)) = c0 :: cs ->
  exists c0' lvl', rtc_freq 100 s =
      Ok tt (with_pc (MkPc (MkPit (c0' :: cs) (pit_clock (pc_pit (pc s))) lvl') (pc_rtc (pc s))) s) /\
    mode c0' = 3 /\ count c0' = 11931 /\ count_load_time c0' = pit_clock (pc_pit (pc s)).
Proof using Type.
  intros Hc. destruct (pc s) as [[chs now lvl] r] eqn:Epc. cbn [pc_pit channels pit_clock pc_rtc] in *. subst chs.
  destruct (program_square c0 cs now lvl 0x9B 0x2E 11931) as (p1 & p2 & p3 & c0' & lvl' & E1 & E2 & E3 & -> & Hm & Hn & Hl); [lia..|].
  exists c0', lvl'. split; [|done]. unfold rtc_freq. change (100 =? 0) with false. cbv iota.
  change (1193180 / 100) with 11931. cbn [of_option]. msteps.
  assert (on_tables (outb 0x43 0x36) s = Ok tt (with_pc (MkPc p1 r) s)) as F1.
  { apply tables_out. rewrite Epc. apply out_pit; [lia|exact E1]. }
  assert (forall v p p', is_u8 v -> pit_ioport_write T 0x40 v p = Ok tt p' ->
    on_tables (outb 0x40 v) (with_pc (MkPc p r) s) = Ok tt (with_pc (MkPc p' r) s)) as F2.
  { intros v p p' Hv E. apply (tables_out 0x40 v (with_pc (MkPc p r) s)). rewrite u8_small by done.
    apply (out_pit 0x40 v (MkPc p r)); [lia|exact E]. }
  rewrite (bind_ok _ _ _ _ _ F1). change (Z.land 11931 0xFF) with 0x9B. change (u8 (Z.shiftr 11931 8)) with 0x2E.
  rewrite (bind_ok _ _ _ _ _ (F2 0x9B p1 p2 ltac:(by vm_compute) E2)). by apply F2.
Qed.

Lemma install_clock (s : clock clockpc) l n :
  aset (irq_handler (tw (tst s))) 0 (Some n) = Some l ->
  on_tables (irq_install 0 (Some n)) s =
    Ok tt (Clock (rtc_time s) (rtc_second s) (Timers (timer_list (tst s)) (timer_num (tst s)) (dec (tst s))
      (MkIrq (isr_handler (tw (tst s))) l (syscall (tw (tst s))) (iflag (tw (tst s))) (pc s)))).
Proof using Type.
  intros El. destruct s as [rt rs [tl tn td [ih qh sc fl w]]]. cbn [tst tw irq_handler] in El.
  unfold on_tables, on_timers, zoom. cbn [tst tw]. unfold irq_install. msteps. cbn [irq_handler]. rewrite El. by destruct fl.
Qed.

(** Reading a register of the clock changes its index only. *)
Lemma cmos_ok (s : clock clockpc) reg v :
  0 <= reg < 10 -> cm (pc_rtc (pc s)) reg = v ->
  cmos reg s = Ok (BCD2HEXB v v) (with_pc (MkPc (pc_pit (pc s)) (set_index reg (pc_rtc (pc s)))) s).
Proof using Type.
  intros Hr Hv. unfold cmos. set (w1 := MkPc (pc_pit (pc s)) (set_index reg (pc_rtc (pc s)))).
  assert (on_tables (outb 0x70 reg) s = Ok tt (with_pc w1 s)) as E1.
  { apply tables_out. unfold pc_outb. rewrite decide_False, decide_True by lia. unfold modify, cmos_ioport_write.
    change (Z.land 0x70 1 =? 0) with true. cbv iota. rewrite u8_small by (unfold is_u8; lia).
    change 0x7f with (Z.ones 7). rewrite Z.land_ones, Z.mod_small by lia. done. }
  rewrite (bind_ok _ _ _ _ _ E1).
  assert (on_tables (inb 0x71) (with_pc w1 s) = Ok v (with_pc w1 s)) as E2.
  { apply (tables_in 0x71 v (with_pc w1 s) w1). unfold pc_inb. rewrite decide_False, decide_True by lia.
    unfold cmos_ioport_read. change (Z.land 0x71 1 =? 0) with false. cbv iota.
    change (cmos_index (pc_rtc (pc (with_pc w1 s)))) with reg.
    rewrite (proj2 (Z.eqb_neq reg RTC_REG_C)) by (unfold RTC_REG_C; lia).
    change (cm (pc_rtc (pc (with_pc w1 s))) reg) with (cm (pc_rtc (pc s)) reg). by rewrite Hv. }
  by rewrite (bind_ok _ _ _ _ _ E2), (bind_ok _ _ _ _ _ E2).
Qed.

Lemma mktime_two_digits t stack :
  70 <= tm_year t <= 169 ->
  mktime (Tm (tm_sec t) (tm_min t) (tm_hour t) (tm_mday t) (tm_mon t) (tm_year t mod 100)
            (tm_wday stack) (tm_yday stack) (tm_isdst stack)) = mktime t.
Proof using Type.
  intros Hy. unfold mktime. cbn [tm_sec tm_min tm_hour tm_mday tm_mon tm_year].
  assert ((if tm_year t mod 100 <? 70 then s16 (tm_year t mod 100 + Z.quot (s16 (tm_mon t)) 12 + 2000)
           else s16 (tm_year t mod 100 + Z.quot (s16 (tm_mon t)) 12 + 1900)) =
          (if tm_year t <? 70 then s16 (tm_year t + Z.quot (s16 (tm_mon t)) 12 + 2000)
           else s16 (tm_year t + Z.quot (s16 (tm_mon t)) 12 + 1900))) as ->; [|reflexivity].
  rewrite (proj2 (Z.ltb_ge (tm_year t) 70)) by lia.
  destruct (decide (tm_year t < 100)).
  - rewrite Z.mod_small by lia. by rewrite (proj2 (Z.ltb_ge (tm_year t) 70)) by lia.
  - assert (tm_year t mod 100 = tm_year t - 100) as -> by (Z.div_mod_to_equations; lia).
    rewrite (proj2 (Z.ltb_lt _ 70)) by lia. f_equal. lia.
Qed.

(** C23: on a machine whose real time clock shows a date from 1970 to 2069 and
    which has the interval timer, the kernel's [rtc_init] sets its time to the
    seconds [mktime] gives for that date, installs the tick handler for line 0, and
    leaves channel 0 with a square wave of 11931 timer cycles, high for the first
    5966 of them: 100 ticks a second. *)
Theorem rtc_init_sets_clock stack s t c0 cs :
  channels (pc_pit (pc s)) = c0 :: cs -> length (irq_handler (tw (tst s))) = 16%nat ->
  shows (pc_rtc (pc s)) t -> valid_date t -> tm_year t <= 169 ->
  exists s' c0', rtc_init stack s = Ok tt s' /\
    rtc_second s' = mktime t /\ rtc_time s' = u32 (mktime t * 1000) /\
    irq_handler (tw (tst s')) !! 0%nat = Some (Some RTC_INTR) /\ channels (pc_pit (pc s')) = c0' :: cs /\
    forall u, 0 <= u - pit_clock (pc_pit (pc s)) < 2 ^ 62 ->
      pit_get_out1 T c0' u =
        Some (((u - pit_clock (pc_pit (pc s))) * PIT_FREQ / T) mod 11931 <? 5966).
Proof using HT.
  intros Hc Hq [S1 S2 S3 S4 S5 S6] Hv Hy. destruct (valid_digits t Hv) as (D1 & D2 & D3 & D4 & D5).
  pose proof (Z.mod_pos_bound (tm_year t) 100 ltac:(lia)) as D6. pose proof Hv as (Hy0 & _).
  destruct (rtc_freq_ok s c0 cs Hc) as (c0' & lvl' & E0 & Hm & Hn & Hl).
  unfold rtc_init. rewrite (bind_ok _ _ _ _ _ E0). set (s1 := with_pc _ s).
  assert (exists l, aset (irq_handler (tw (tst s1))) 0 (Some RTC_INTR) = Some l /\ l !! 0%nat = Some (Some RTC_INTR)) as (l & El & Hl0).
  { exists (<[0%nat := Some RTC_INTR]> (irq_handler (tw (tst s)))). split.
    - unfold aset. cbn [s1 tst tw with_pc irq_handler]. by rewrite decide_True by lia.
    - apply list_lookup_insert_eq. lia. }
  rewrite (bind_ok _ _ _ _ _ (install_clock s1 l RTC_INTR El)). set (s2 := Clock _ _ _).
  assert (forall reg, cm (pc_rtc (pc s2)) reg = cm (pc_rtc (pc s)) reg) as Hcm by done.
  rewrite (bind_ok _ _ _ _ _ (cmos_ok s2 0 _ ltac:(lia) eq_refl)). set (s3 := with_pc _ s2).
  rewrite (bind_ok _ _ _ _ _ (cmos_ok s3 2 _ ltac:(lia) eq_refl)). set (s4 := with_pc _ s3).
  rewrite (bind_ok _ _ _ _ _ (cmos_ok s4 4 _ ltac:(lia) eq_refl)). set (s5 := with_pc _ s4).
  rewrite (bind_ok _ _ _ _ _ (cmos_ok s5 7 _ ltac:(lia) eq_refl)). set (s6 := with_pc _ s5).
  rewrite (bind_ok _ _ _ _ _ (cmos_ok s6 8 _ ltac:(lia) eq_refl)). set (s7 := with_pc _ s6).
  rewrite (bind_ok _ _ _ _ _ (cmos_ok s7 9 _ ltac:(lia) eq_refl)). set (s8 := with_pc _ s7).
  change (cm (pc_rtc (pc s2)) 0) with (cm (pc_rtc (pc s)) RTC_SECONDS). change (cm (pc_rtc (pc s3)) 2) with (cm (pc_rtc (pc s)) RTC_MINUTES).
  change (cm (pc_rtc (pc s4)) 4) with (cm (pc_rtc (pc s)) RTC_HOURS). change (cm (pc_rtc (pc s5)) 7) with (cm (pc_rtc (pc s)) RTC_DAY_OF_MONTH).
  change (cm (pc_rtc (pc s6)) 8) with (cm (pc_rtc (pc s)) RTC_MONTH). change (cm (pc_rtc (pc s7)) 9) with (cm (pc_rtc (pc s)) RTC_YEAR).
  rewrite S1, S2, S3, S4, S5, S6.
  rewrite (proj1 (bcd_byte _ D1)), (proj1 (bcd_byte _ D2)), (proj1 (bcd_byte _ D3)), (proj1 (bcd_byte _ D4)),
    (proj1 (bcd_byte _ D5)), (proj1 (bcd_byte _ D6)). replace (tm_mon t + 1 - 1) with (tm_mon t) by lia.
  unfold modify. rewrite mktime_two_digits by lia. eexists _, c0'. split; [reflexivity|].
  split; [reflexivity|]. split; [reflexivity|]. split; [exact Hl0|]. split; [reflexivity|].
  intros u Hu. rewrite out1_at by lia. unfold out_at. rewrite Hm, Hn. cbn [Z.eqb Pos.eqb].
  change (Z.shiftr (11931 + 1) 1) with 5966. destruct (elapsed_ok T HT c0' u) as [-> _]; rewrite Hl; done.
Qed.
End Machine.

(** A machine at its start, on 29 February 2008. *)
Definition started_machine : clock clockpc :=
  Clock 0 0 (Timers [] 0 0 (MkIrq [] (replicate 16 None) None true
    (MkPc (MkPit [pit_zero true; pit_zero false; pit_zero false] 5 0)
       (Rtc.rtc_init 1000000000 (Tm 30 15 12 29 1 108 5 59 0) 5)))).

Lemma rtc_init_sets_clock_witness :
  exists s' c0', rtc_init (H := pc_ports 1000000000) (Tm 0 0 0 0 0 0 0 0 0) started_machine = Ok tt s' /\
    rtc_second s' = mktime (Tm 30 15 12 29 1 108 5 59 0) /\
    rtc_time s' = u32 (mktime (Tm 30 15 12 29 1 108 5 59 0) * 1000) /\
    irq_handler (tw (tst s')) !! 0%nat = Some (Some RTC_INTR) /\
    channels (pc_pit (pc s')) = [c0'; pit_zero false; pit_zero false] /\
    forall u, 0 <= u - 5 < 2 ^ 62 ->
      pit_get_out1 1000000000 c0' u = Some (((u - 5) * PIT_FREQ / 1000000000) mod 11931 <? 5966).
Proof.
  apply (rtc_init_sets_clock 1000000000 ltac:(by vm_compute) _ started_machine (Tm 30 15 12 29 1 108 5 59 0) (pit_zero true)
    [pit_zero false; pit_zero false]); [reflexivity|reflexivity|apply rtc_init_shows; by vm_compute|by vm_compute|by vm_compute].
Defined.
