(* ===== verification/Printf.v ===== *)
(** Formatted output: src/sysv3/kernel/lib/vsprintf.c, [kprintf], [printf] and
    [sprintf] of lib/libc.c, and [strtime] of lib/time.c.  Format strings and
    string arguments are the bytes before the terminator; a null string pointer
    is [None].  [vsprintf] is the list of bytes it stores before the final
    terminator. *)
From S2P Require Import Prelude LibC Time Device.

(** * vsprintf.c *)

Definition ZEROPAD : Z := 1.
Definition SIGN : Z := 2.
Definition PLUS : Z := 4.
Definition SPACE : Z := 8.
Definition LEFT : Z := 16.
Definition SPECIAL : Z := 32.
Definition SMALL : Z := 64.

Definition flag (type f : Z) : bool := negb (Z.land type f =? 0).

(** [digits[d]]: "0123456789ABC..." or, with [SMALL], "0123456789abc...". *)
Definition digit (small : bool) (d : Z) : Z :=
  if d <=? 9 then 48 + d else if small then 97 + d - 10 else 65 + d - 10.

(** [while (num!=0) tmp[i++]=digits[do_div(num,base)];]: least significant
    first; [do_div] divides as unsigned. *)
Fixpoint tmp_digits (fuel : nat) (small : bool) (num base : Z) : option (list Z) :=
  if num =? 0 then Some [] else
  match fuel with
  | O => None
  | S f => r ← tmp_digits f small (num / base) base; Some (digit small (num mod base) :: r)
  end.

(** [while(size-->0) *str++ = c;]: the bytes and the size after the loop. *)
Definition pad (size c : Z) : list Z * Z := (replicate (Z.to_nat size) c, Z.min size 0 - 1).

(** [static char * number(str, num, base, size, precision, type)]: the bytes
    stored; [None] is the null pointer it returns for a bad base. *)
Definition number (num base size precision type : Z) : option (list Z) :=
  let small := flag type SMALL in
  let type := if flag type LEFT then Z.land type (Z.lnot ZEROPAD) else type in
  if (base <? 2) || (36 <? base) then None else
  let c := if flag type ZEROPAD then 48 else 32 in
  let '(sign, num) :=
    if flag type SIGN && (num <? 0) then (45, s32 (- num))
    else (if flag type PLUS then 43 else if flag type SPACE then 32 else 0, num) in
  let size := if negb (sign =? 0) then size - 1 else size in
  let size :=
    if flag type SPECIAL then if base =? 16 then size - 2 else if base =? 8 then size - 1 else size else size in
  tmp ← (if num =? 0 then Some [48] else tmp_digits 32 small (u32 num) base);
  let i := Z.of_nat (length tmp) in
  let precision := if precision <? i then i else precision in
  let size := s32 (size - precision) in
  let '(p1, size) := if flag type (ZEROPAD + LEFT) then ([], size) else pad size 32 in
  let p2 := if negb (sign =? 0) then [sign] else [] in
  let p3 := if flag type SPECIAL then
              if base =? 8 then [48] else if base =? 16 then [48; digit small 33] else []
            else [] in
  let '(p4, size) := if flag type LEFT then ([], size) else pad size c in
  let p5 := replicate (Z.to_nat (precision - i)) 48 in
  let '(p6, _) := pad size 32 in
  Some (p1 ++ p2 ++ p3 ++ p4 ++ p5 ++ rev tmp ++ p6).

Definition is_digit (c : Z) : bool := (48 <=? c) && (c <=? 57).

(** [static int skip_atoi(const char **s)] *)
Fixpoint skip_atoi (s : list Z) (i : Z) : Z * list Z :=
  match s with
  | c :: s' => if is_digit c then skip_atoi s' (s32 (i * 10 + c - 48)) else (i, s)
  | [] => (i, s)
  end.

(** The loop at the label [repeat], which skips and collects the flags. *)
Fixpoint scan_flags (fmt : list Z) (flags : Z) : Z * list Z :=
  match fmt with
  | c :: fmt' =>
      if c =? 45 then scan_flags fmt' (Z.lor flags LEFT)
      else if c =? 43 then scan_flags fmt' (Z.lor flags PLUS)
      else if c =? 32 then scan_flags fmt' (Z.lor flags SPACE)
      else if c =? 35 then scan_flags fmt' (Z.lor flags SPECIAL)
      else if c =? 48 then scan_flags fmt' (Z.lor flags ZEROPAD)
      else (flags, fmt)
  | [] => (flags, fmt)
  end.

(** An argument of the variable list. *)
Inductive va := VInt (z : Z) | VStr (s : option (list Z)) | VOut.

Definition va_int (args : list va) : option (Z * list va) :=
  match args with VInt z :: r => Some (s32 z, r) | _ => None end.

Definition peek (fmt : list Z) : Z := default 0 (head fmt).

(** The field width; a '*' takes an argument and is not skipped. *)
Definition scan_width (fmt : list Z) (flags : Z) (args : list va) : option (Z * Z * list Z * list va) :=
  if is_digit (peek fmt) then let '(w, r) := skip_atoi fmt 0 in Some (w, flags, r, args)
  else if peek fmt =? 42 then
    '(w, args) ← va_int args;
    Some (if w <? 0 then (s32 (- w), Z.lor flags LEFT, fmt, args) else (w, flags, fmt, args))
  else Some (-1, flags, fmt, args).

(** The precision; here too a '*' is not skipped. *)
Definition scan_precision (fmt : list Z) (args : list va) : option (Z * list Z * list va) :=
  if peek fmt =? 46 then
    let fmt := tail fmt in
    '(p, fmt, args) ←
      (if is_digit (peek fmt) then let '(p, r) := skip_atoi fmt 0 in Some (p, r, args)
       else if peek fmt =? 42 then '(p, args) ← va_int args; Some (p, fmt, args)
       else Some (-1, fmt, args));
    Some (if p <? 0 then 0 else p, fmt, args)
  else Some (-1, fmt, args).

(** [case 'c'] and [case 's'] *)
Definition conv_c (width flags c : Z) : list Z :=
  let spaces := replicate (Z.to_nat (width - 1)) 32 in
  if flag flags LEFT then u8 c :: spaces else spaces ++ [u8 c].
Definition conv_s (width precision flags : Z) (s : option (list Z)) : list Z :=
  let s := default [60; 110; 117; 108; 108; 62] s in
  let len := Z.of_nat (length s) in
  let len := if precision <? 0 then len else if precision <? len then precision else len in
  let spaces := replicate (Z.to_nat (width - len)) 32 in
  let body := take (Z.to_nat len) s in
  if flag flags LEFT then body ++ spaces else spaces ++ body.

(** The switch on the conversion character; [at_] is [str - buf].  The result
    is the bytes stored, the rest of the format and of the arguments, and the
    value [%n] stores. *)
Definition convert (fmt : list Z) (flags width precision : Z) (args : list va) (at_ : Z)
    : option (list Z * list Z * list va * list Z) :=
  let c := peek fmt in
  let num base flags width :=
    '(z, r) ← va_int args; out ← number z base width precision flags; Some (out, tail fmt, r, []) in
  if c =? 99 then '(z, r) ← va_int args; Some (conv_c width flags z, tail fmt, r, [])
  else if c =? 115 then
    match args with VStr s :: r => Some (conv_s width precision flags s, tail fmt, r, []) | _ => None end
  else if c =? 111 then num 8 flags width
  else if c =? 112 then if width =? -1 then num 16 (Z.lor flags ZEROPAD) 8 else num 16 flags width
  else if c =? 120 then num 16 (Z.lor flags SMALL) width
  else if c =? 88 then num 16 flags width
  else if (c =? 100) || (c =? 105) then num 10 (Z.lor flags SIGN) width
  else if c =? 117 then num 10 flags width
  else if c =? 110 then match args with VOut :: r => Some ([], tail fmt, r, [at_]) | _ => None end
  else Some ((if negb (c =? 37) then [37] else []) ++ (if c =? 0 then [] else [c]), tail fmt, args, []).

(** One '%' directive, from behind the '%' on. *)
Definition directive (fmt : list Z) (args : list va) (at_ : Z) : option (list Z * list Z * list va * list Z) :=
  let '(flags, fmt) := scan_flags fmt 0 in
  '(width, flags, fmt, args) ← scan_width fmt flags args;
  '(precision, fmt, args) ← scan_precision fmt args;
  let fmt := if (peek fmt =? 104) || (peek fmt =? 108) || (peek fmt =? 76) then tail fmt else fmt in
  convert fmt flags width precision args at_.

(** [int vsprintf(char *buf, const char *fmt, va_list args)]: the bytes and the
    values stored by [%n]; [fuel] is the length of the format. *)
Fixpoint vsprintf_loop (fuel : nat) (fmt : list Z) (args : list va) (out outs : list Z) : option (list Z * list Z) :=
  match fmt with
  | [] => Some (out, outs)
  | c :: fmt' =>
      match fuel with
      | O => None
      | S f =>
          if negb (c =? 37) then vsprintf_loop f fmt' args (out ++ [c]) outs
          else
            '(o, fmt'', args', n) ← directive fmt' args (Z.of_nat (length out));
            vsprintf_loop f fmt'' args' (out ++ o) (outs ++ n)
      end
  end.
Definition vsprintf (fmt : list Z) (args : list va) : option (list Z * list Z) :=
  vsprintf_loop (length fmt) fmt args [] [].

(** [int sprintf(char * buf, const char *fmt, ...)]: the new contents of [buf]
    and the length. *)
Definition sprintf (buf fmt : list Z) (args : list va) : option (list Z * Z) :=
  '(out, _) ← vsprintf fmt args;
  b ← memcpy buf (out ++ [0]) (length out + 1);
  Some (b, Z.of_nat (length out)).

(** "%d-%d-%d %.2d:%.2d:%.2d" *)
Definition time_fmt : list Z :=
  [37; 100; 45; 37; 100; 45; 37; 100; 32; 37; 46; 50; 100; 58; 37; 46; 50; 100; 58; 37; 46; 50; 100].

(** [int strtime(time_t *t, char* str)]: [m] is the structure on the stack. *)
Definition strtime (t : Z) (m : tm) (str : list Z) : option (Z * list Z) :=
  match gettime t m with
  | Ok r m =>
      if r =? 0 then Some (0, str)
      else
        '(b, len) ← sprintf str time_fmt
          [VInt (tm_year m + 1900); VInt (tm_mon m + 1); VInt (tm_mday m); VInt (tm_hour m); VInt (tm_min m);
           VInt (tm_sec m)];
        Some (len, b)
  | Err _ => None
  end.

(** * Console output of libc.c *)

Definition CHR_TTY : Z := 0.

Section Kprintf.
Context {W : Type}.

(** [printf] and [_printf]: the text is built in a buffer of 256 bytes. *)
Definition printf (fmt : list Z) (args : list va) : M (devs W) Z :=
  r <- of_option OutOfBounds (sprintf (replicate 256 0) fmt args) ;;
  dev_write CHRDEV (DEVID CHR_TTY 0) (fst r) (snd r) ;;;
  ret (snd r).

(** [itoa(args[argi++], buf, radix); dev_write(.., buf, strlen(buf));]: the new
    contents of [buf]. *)
Definition put_number (v radix : Z) (buf : list Z) : M (devs W) (list Z) :=
  match itoa (s32 v) radix buf with
  | Err f => stop f
  | Ok _ b => n <- of_option OutOfBounds (strlen b) ;; dev_write CHRDEV (DEVID CHR_TTY 0) b n ;;; ret b
  end.

(** The switch on the character after a '%': the arguments left and the
    buffer.  Every character but those below is skipped without effect. *)
Definition kprintf_conv (c : Z) (args : list va) (buf : list Z) : M (devs W) (list va * list Z) :=
  let int (k : Z -> list va -> M (devs W) (list va * list Z)) :=
    match args with VInt v :: r => k v r | _ => stop OutOfBounds end in
  let ioctl cmd := int (fun v r => dev_ioctl CHRDEV (DEVID CHR_TTY 0) cmd (s8 v) ;;; ret (r, buf)) in
  if c =? 98 then int (fun v r => b <- put_number v 2 buf ;; ret (r, b))
  else if c =? 100 then int (fun v r => b <- put_number v 10 buf ;; ret (r, b))
  else if c =? 120 then int (fun v r => b <- put_number v 16 buf ;; ret (r, b))
  else if c =? 115 then
    match args with
    | VStr (Some s) :: r => dev_write CHRDEV (DEVID CHR_TTY 0) (s ++ [0]) (Z.of_nat (length s)) ;;; ret (r, buf)
    | VStr None :: _ => stop NullDeref
    | _ => stop OutOfBounds
    end
  else if c =? 99 then int (fun v r => dev_write CHRDEV (DEVID CHR_TTY 0) [u8 v] 1 ;;; ret (r, buf))
  else if c =? 67 then ioctl 2
  else if c =? 88 then ioctl 4
  else if c =? 89 then ioctl 5
  else ret (args, buf).

(** [int kprintf(const char *fmt, ...)]; a '%' at the end of the format makes
    the loop run past the terminator. *)
Fixpoint kprintf_loop (fmt : list Z) (args : list va) (buf : list Z) : M (devs W) Z :=
  match fmt with
  | [] => ret 0
  | c :: fmt' =>
      if c =? 37 then
        match fmt' with
        | [] => stop OutOfBounds
        | d :: fmt'' => r <- kprintf_conv d args buf ;; kprintf_loop fmt'' (fst r) (snd r)
        end
      else dev_write CHRDEV (DEVID CHR_TTY 0) [c] 1 ;;; kprintf_loop fmt' args buf
  end.
Definition kprintf (fmt : list Z) (args : list va) (stack : list Z) : M (devs W) Z :=
  kprintf_loop fmt args stack.
End Kprintf.

(** * Numerals *)

(** The value of a digit, and of a numeral in a base. *)
Definition digit_value (c : Z) : Z := if c <=? 57 then c - 48 else if c <=? 90 then c - 55 else c - 87.
Definition value (base : Z) (ds : list Z) : Z := fold_left (fun a c => a * base + digit_value c) ds 0.

Lemma digit_value_digit small d : 0 <= d < 36 -> digit_value (digit small d) = d.
Proof. intros Hd. unfold digit_value, digit. destruct small; repeat case_match; lia. Qed.

Lemma value_snoc base ds c : value base (ds ++ [c]) = value base ds * base + digit_value c.
Proof. unfold value. by rewrite fold_left_app. Qed.

(** No leading zero. *)
Definition no_zero (ds : list Z) : Prop := match ds with [] => True | c :: _ => c <> 48 end.

Lemma tmp_digits_ok small base fuel v :
  2 <= base <= 36 -> 0 <= v < base ^ Z.of_nat fuel ->
  exists ds, tmp_digits fuel small v base = Some (rev ds) /\ value base ds = v /\ no_zero ds /\
    (length ds <= fuel)%nat /\ (v <> 0 -> ds <> []).
Proof.
  intros Hb. revert v. induction fuel as [|f IH]; intros v Hv; cbn [tmp_digits].
  { cbn in Hv. assert (v = 0) as -> by lia. exists []. by split_and!. }
  destruct (Z.eqb_spec v 0) as [->|Hv0].
  { exists []. split_and!; [done..|cbn; lia|done]. }
  rewrite Nat2Z.inj_succ, Z.pow_succ_r in Hv by lia.
  pose proof (Z.mod_pos_bound v base ltac:(lia)) as Hm. pose proof (Z.div_mod v base ltac:(lia)) as Hd.
  assert (0 <= v / base) by (apply Z.div_pos; lia).
  destruct (IH (v / base)) as (ds & E & Hval & Hnz & Hlen & Hne).
  { split; [done|]. apply Z.div_lt_upper_bound; lia. }
  exists (ds ++ [digit small (v mod base)]). rewrite E, rev_app_distr. split; [done|].
  rewrite value_snoc, digit_value_digit, Hval by lia. split; [lia|]. split; [|split].
  - destruct ds as [|c ds]; [|done]. cbn. assert (v / base = 0) as Hz by (unfold value in Hval; cbn in Hval; lia).
    unfold digit. destruct small; repeat case_match; lia.
  - rewrite length_app. cbn. lia.
  - intros _. by destruct ds.
Qed.

(** The sign character of a number. *)
Definition sign_of (num type : Z) : list Z :=
  if flag type SIGN && (num <? 0) then [45]
  else if flag type PLUS then [43] else if flag type SPACE then [32] else [].
(** What is printed of it: the magnitude of a signed one, the unsigned value of
    another. *)
Definition magnitude (num type : Z) : Z := if flag type SIGN && (num <? 0) then - num else u32 num.

Lemma magnitude_range num type : is_s32 num -> 0 <= magnitude num type < 2 ^ 32.
Proof.
  intros Hn. unfold magnitude. destruct (Z.ltb_spec num 0); rewrite ?andb_true_r, ?andb_false_r.
  - destruct (flag type SIGN); [unfold is_s32 in Hn; lia|apply u32_range].
  - apply u32_range.
Qed.

(** The digits [number] works on. *)
Lemma number_digits small base num type :
  2 <= base <= 36 -> is_s32 num ->
  let n := if flag type SIGN && (num <? 0) then s32 (- num) else num in
  exists ds, (if n =? 0 then Some [48] else tmp_digits 32 small (u32 n) base) = Some (rev ds) /\
    value base ds = magnitude num type /\ (length ds <= 32)%nat /\ (0 < length ds)%nat /\
    (num <> 0 -> no_zero ds).
Proof.
  intros Hb Hn n. assert (u32 n = magnitude num type) as Hu.
  { unfold n, magnitude. destruct (flag type SIGN && (num <? 0)) eqn:E; [|done].
    apply andb_prop in E as [_ E%Z.ltb_lt]. rewrite u32_s32. apply u32_small. unfold is_s32 in Hn. unfold is_u32. lia. }
  pose proof (magnitude_range num type Hn) as Hr.
  assert (n = 0 <-> num = 0) as Hz.
  { unfold n. destruct (flag type SIGN && (num <? 0)); [|done]. unfold is_s32 in Hn. int_lia. }
  destruct (Z.eqb_spec n 0) as [E|E].
  - exists [48]. rewrite <- Hu, E. split_and!; [done|done|cbn; lia|cbn; lia|]. intros []. by apply Hz.
  - destruct (tmp_digits_ok small base 32 (u32 n) Hb) as (ds & Ed & Hv & Hnz & Hl & Hne).
    { pose proof (pow_radix_bound base ltac:(lia)). change (Z.of_nat 32) with 32. lia. }
    exists ds. split_and!; [done|by rewrite Hv|done| |done]. destruct ds; [|cbn; lia]. exfalso. apply Hne; [|done].
    rewrite Hu. unfold magnitude. destruct (flag type SIGN && (num <? 0)) eqn:Es.
    + apply andb_prop in Es as [_ Es%Z.ltb_lt]. lia.
    + intros Hu0. apply E. unfold n. unfold is_s32 in Hn. int_lia.
Qed.

Lemma to_nat_neg z : z <= 0 -> Z.to_nat z = 0%nat.
Proof. lia. Qed.

Lemma flag_clear_left type :
  flag type LEFT = true ->
  flag (Z.land type (Z.lnot ZEROPAD)) ZEROPAD = false /\
  (forall f, f = SIGN \/ f = PLUS \/ f = SPACE \/ f = LEFT \/ f = SPECIAL ->
     flag (Z.land type (Z.lnot ZEROPAD)) f = flag type f).
Proof.
  intros _. unfold flag. split.
  - rewrite <- Z.land_assoc. change (Z.land (Z.lnot ZEROPAD) ZEROPAD) with 0. by rewrite Z.land_0_r.
  - intros f Hf. rewrite <- Z.land_assoc. do 3 f_equal. destruct Hf as [-> | [-> | [-> | [-> | ->]]]]; done.
Qed.

Lemma flag_either type : flag type (ZEROPAD + LEFT) = flag type ZEROPAD || flag type LEFT.
Proof.
  unfold flag. change (ZEROPAD + LEFT) with (Z.lor ZEROPAD LEFT). rewrite Z.land_lor_distr_r.
  destruct (Z.eqb_spec (Z.land type ZEROPAD) 0) as [->|H1]; destruct (Z.eqb_spec (Z.land type LEFT) 0) as [->|H2];
    cbn; rewrite ?Z.lor_0_r, ?Z.lor_0_l; try done; apply negb_true_iff, Z.eqb_neq; try done.
  intros [H _]%Z.lor_eq_0_iff. done.
Qed.

(** [number] prints the numeral of the value in the base: optional blanks,
    the sign, zeros up to the precision or the width, the digits, which read
    back as the value, and for [LEFT] blanks; it is as long as the width asks,
    or as the number needs. *)
Theorem number_prints num base size precision type :
  2 <= base <= 36 -> is_s32 num -> -1 <= size < 2 ^ 30 -> -1 <= precision < 2 ^ 30 -> flag type SPECIAL = false ->
  exists b1 z ds b2, number num base size precision type =
      Some (replicate b1 32 ++ sign_of num type ++ replicate z 48 ++ ds ++ replicate b2 32) /\
    value base ds = magnitude num type /\ (num <> 0 -> no_zero ds) /\
    (if flag type LEFT then b1 = 0%nat else b2 = 0%nat) /\
    Z.of_nat (b1 + length (sign_of num type) + z + length ds + b2) =
      Z.max size (Z.of_nat (length (sign_of num type)) + Z.max precision (Z.of_nat (length ds))).
Proof.
  intros Hb Hn Hs Hp Hsp. unfold number.
  rewrite (proj2 (Z.ltb_ge base 2)), (proj2 (Z.ltb_ge 36 base)) by lia. cbn [orb].
  destruct (number_digits (flag type SMALL) base num type Hb Hn) as (ds & Ed & Hv & Hl & Hl0 & Hnz).
  set (ty := if flag type LEFT then Z.land type (Z.lnot ZEROPAD) else type).
  assert (forall f, f = SIGN \/ f = PLUS \/ f = SPACE \/ f = LEFT \/ f = SPECIAL -> flag ty f = flag type f) as Hty.
  { intros f Hf. subst ty. destruct (flag type LEFT) eqn:E; [|done]. by apply flag_clear_left. }
  assert (flag type LEFT = true -> flag ty ZEROPAD = false) as Hzl.
  { intros E. subst ty. rewrite E. by apply flag_clear_left. }
  rewrite (Hty SIGN), (Hty PLUS), (Hty SPACE), (Hty SPECIAL), flag_either, (Hty LEFT), Hsp by tauto. cbv zeta in Ed.
  set (n := if flag type SIGN && (num <? 0) then s32 (- num) else num) in Ed.
  assert (exists sg, (if flag type SIGN && (num <? 0) then (45, s32 (- num))
      else (if flag type PLUS then 43 else if flag type SPACE then 32 else 0, num)) = (sg, n) /\
      sign_of num type = if negb (sg =? 0) then [sg] else []) as (sg & -> & ->).
  { unfold sign_of, n. exists (if flag type SIGN && (num <? 0) then 45
      else if flag type PLUS then 43 else if flag type SPACE then 32 else 0).
    split; [by destruct (flag type SIGN && _)|].
    destruct (flag type SIGN && _); [done|]. destruct (flag type PLUS); [done|]. by destruct (flag type SPACE). }
  rewrite Ed. cbn [mbind option_bind]. rewrite length_rev, rev_involutive.
  set (k := Z.of_nat (length ds)). set (prec := if precision <? k then k else precision).
  assert (prec = Z.max precision k) as Hprec by (subst prec; destruct (Z.ltb_spec precision k); lia).
  assert (1 <= k <= 32) as Hk by lia. rewrite s32_small by (unfold is_s32; destruct (negb _); lia).
  set (sz := (if negb (sg =? 0) then size - 1 else size) - prec).
  set (sgn := if negb (sg =? 0) then [sg] else []).
  assert (sz = size - Z.of_nat (length sgn) - prec) as Hsz by (subst sz sgn; destruct (negb (sg =? 0)); cbn; lia).
  assert (Z.of_nat (length sgn) <= 1) as Hsg by (subst sgn; destruct (negb (sg =? 0)); cbn; lia).
  clearbody sz sgn. unfold pad. destruct (flag type LEFT) eqn:El.
  - rewrite (Hzl eq_refl). cbn [orb]. exists 0%nat, (Z.to_nat (prec - k)), ds, (Z.to_nat sz).
    split; [reflexivity|]. split_and!; try done. lia.
  - rewrite orb_false_r. destruct (flag ty ZEROPAD).
    + exists 0%nat, (Z.to_nat sz + Z.to_nat (prec - k))%nat, ds, 0%nat. rewrite (to_nat_neg (Z.min sz 0 - 1)) by lia.
      rewrite replicate_add, <- !app_assoc. split; [reflexivity|]. split_and!; try done. lia.
    + exists (Z.to_nat sz), (Z.to_nat (prec - k)), ds, 0%nat.
      rewrite (to_nat_neg (Z.min sz 0 - 1)), (to_nat_neg (Z.min (Z.min sz 0 - 1) 0 - 1)) by lia.
      split; [reflexivity|]. split_and!; try done. lia.
Qed.

Lemma number_prints_witness :
  exists b1 z ds b2, number (-42) 10 8 4 SIGN =
      Some (replicate b1 32 ++ [45] ++ replicate z 48 ++ ds ++ replicate b2 32) /\ value 10 ds = 42.
Proof.
  destruct (number_prints (-42) 10 8 4 SIGN) as (b1 & z & ds & b2 & E & V & _).
  - lia.
  - unfold is_s32. lia.
  - lia.
  - lia.
  - reflexivity.
  - exists b1, z, ds, b2. split; [exact E|exact V].
Defined.
