(* ===== verification/Modules.v ===== *)
(** The module table, src/sysv3/kernel/lib/module.c: [modinit] runs the
    initialisers of the compiled-in modules in the order of their types.  A
    function is a number, what calling it does is [call]; the messages are not
    modelled. *)
From stdpp Require Import sorting.
From S2P Require Import Prelude.

Definition DRV : Z := 0.
Definition FS : Z := 1.
Definition PROT : Z := 2.
Definition SRV : Z := 3.

(** [struct modtab], without the two strings. *)
Record modtab := Mod { m_type : Z; m_init : option nat; m_exit : option nat }.

Section Modules.
Context {W : Type} (call : nat -> M W Z).

Definition call_fn (f : option nat) : M W Z := match f with Some f => call f | None => stop NullDeref end.

(** One module: the exit function is run when the initialiser fails. *)
Definition start_module (m : modtab) : M W unit :=
  r <- call_fn (m_init m) ;;
  if r =? 0 then ret tt else call_fn (m_exit m) ;;; ret tt.

(** [while((modtabp[i].init!=0) && (&modtabp[i]<&modtab_end))]: one pass over
    the table for [type]. *)
Fixpoint mod_pass (tab : list modtab) (type : Z) : M W unit :=
  match tab with
  | [] => ret tt
  | m :: tab' =>
      match m_init m with
      | None => ret tt
      | Some _ => (if negb (m_type m =? type) then ret tt else start_module m) ;;; mod_pass tab' type
      end
  end.

(** The jumps back to [next_mod]. *)
Fixpoint mod_types (n : nat) (tab : list modtab) (type : Z) : M W Z :=
  match n with
  | O => stop Diverged
  | S n' => mod_pass tab type ;;; if negb (type =? SRV) then mod_types n' tab (type + 1) else ret 0
  end.

(** [int modinit()]: four turns, one for each type. *)
Definition modinit (tab : list modtab) : M W Z := mod_types 4 tab 0.

Definition modstart : M W Z := ret 0.
Definition modkill : M W Z := ret 0.

(** * The order of initialisation *)

(** Starting modules one after the other. *)
Fixpoint start_all (l : list modtab) : M W unit :=
  match l with [] => ret tt | m :: l' => start_module m ;;; start_all l' end.

Definition of_type (t : Z) (tab : list modtab) : list modtab := filter (fun m => m_type m = t) tab.
Definition by_type (tab : list modtab) : list modtab :=
  of_type DRV tab ++ of_type FS tab ++ of_type PROT tab ++ of_type SRV tab.

Lemma mod_pass_ok tab type s :
  Forall (fun m => is_Some (m_init m)) tab -> mod_pass tab type s = start_all (of_type type tab) s.
Proof.
  intros Ht. revert s. induction Ht as [|m tab [f Hf] Ht IH]; intros s; [done|]. cbn [mod_pass]. rewrite Hf.
  unfold of_type. rewrite filter_cons. fold (of_type type tab).
  destruct (Z.eqb_spec (m_type m) type) as [E|E].
  - rewrite decide_True by done. cbn [negb start_all]. unfold bind. destruct (start_module m s); [apply IH|done].
  - rewrite decide_False by done. cbn [negb]. rewrite bind_ret. apply IH.
Qed.

Lemma start_all_app l1 l2 s : start_all (l1 ++ l2) s = bind (start_all l1) (fun _ => start_all l2) s.
Proof.
  revert s. induction l1 as [|m l1 IH]; intros s; [done|]. cbn [start_all app]. rewrite bind_assoc. unfold bind at 1 2.
  destruct (start_module m s); [apply IH|done].
Qed.

Lemma of_type_types t tab : Forall (fun m => m_type m = t) (of_type t tab).
Proof. apply Forall_forall. intros m Hm. by apply list_elem_of_filter in Hm as [? _]. Qed.

Lemma by_type_perm tab : Forall (fun m => 0 <= m_type m <= 3) tab -> by_type tab ≡ₚ tab.
Proof.
  unfold by_type, of_type, DRV, FS, PROT, SRV. induction 1 as [|m tab Hm _ IH]; [done|].
  rewrite !filter_cons. repeat case_decide; try lia.
  - by rewrite <- app_comm_cons, IH.
  - by rewrite <- app_comm_cons, <- Permutation_middle, IH.
  - by rewrite <- app_comm_cons, app_assoc, <- Permutation_middle, <- app_assoc, IH.
  - by rewrite !app_assoc, <- Permutation_middle, <- !app_assoc, IH.
Qed.

Lemma sorted_concat (ls : list (list modtab)) lo :
  (forall i l, ls !! i = Some l -> Forall (fun m => m_type m = lo + Z.of_nat i) l) ->
  StronglySorted (fun a b => m_type a <= m_type b) (concat ls) /\ Forall (fun m => lo <= m_type m) (concat ls).
Proof.
  revert lo. induction ls as [|l ls IH]; intros lo H; [by split; constructor|]. cbn [concat].
  destruct (IH (lo + 1)) as [Hs Hf].
  { intros i l' Hi. eapply Forall_impl; [apply (H (S i)), Hi|]. intros m. cbn. lia. }
  pose proof (H 0%nat l eq_refl) as Hl. split.
  - clear IH H. induction Hl as [|m l Hm Hl IHl]; [done|]. cbn. constructor; [done|].
    apply Forall_app. split; [eapply Forall_impl; [exact Hl|]; cbn; intros; lia|].
    eapply Forall_impl; [exact Hf|]. cbn. intros. lia.
  - apply Forall_app. split; (eapply Forall_impl; [eassumption|]; cbn; intros; lia).
Qed.

(** On a table whose entries all have initialisers and one of the four
    types, [modinit] starts every module exactly once, drivers first, then file
    systems, protocols and services, each in table order, and returns 0 unless
    one of them does not return. *)
Theorem modinit_order tab s :
  Forall (fun m => is_Some (m_init m) /\ 0 <= m_type m <= 3) tab ->
  modinit tab s = (start_all (by_type tab) ;;; ret 0) s /\ by_type tab ≡ₚ tab /\
  StronglySorted (fun a b => m_type a <= m_type b) (by_type tab).
Proof.
  intros [Hi Ht]%Forall_and. split; [|split; [by apply by_type_perm|]].
  - transitivity ((mod_pass tab DRV ;;; mod_pass tab FS ;;; mod_pass tab PROT ;;; mod_pass tab SRV ;;; ret 0) s);
      [reflexivity|]. unfold by_type. unfold bind. rewrite mod_pass_ok, !start_all_app by done. unfold bind.
    destruct (start_all (of_type DRV tab) s) as [[] s1|]; [|done]. rewrite start_all_app, mod_pass_ok by done.
    unfold bind. destruct (start_all (of_type FS tab) s1) as [[] s2|]; [|done].
    rewrite start_all_app, mod_pass_ok by done. unfold bind.
    destruct (start_all (of_type PROT tab) s2) as [[] s3|]; [|done]. by rewrite mod_pass_ok by done.
  - destruct (sorted_concat [of_type 0 tab; of_type 1 tab; of_type 2 tab; of_type 3 tab] 0) as [Hs _].
    + intros i l Hl. do 4 (destruct i as [|i]; [injection Hl as <-; apply of_type_types|]). done.
    + cbn [concat] in Hs. by rewrite app_nil_r in Hs.
Qed.
End Modules.

Lemma modinit_order_witness :
  let tab := [Mod FS (Some 1%nat) (Some 2%nat); Mod DRV (Some 3%nat) (Some 4%nat)] in
  modinit (fun f s => Ok 0 (s ++ [f])) tab [] = Ok 0 [3; 1]%nat /\ by_type tab ≡ₚ tab.
Proof.
  destruct (modinit_order (fun f s => Ok 0 (s ++ [f])) [Mod FS (Some 1%nat) (Some 2%nat); Mod DRV (Some 3%nat) (Some 4%nat)] [])
    as (E & P & _).
  - repeat constructor; cbn; eauto; unfold FS, DRV; lia.
  - split; [exact E|exact P].
Defined.
