(* ===== verification/Except.v ===== *)
(** Kernel exceptions, src/sysv3/kernel/arch/i386/except/filter.c and
    sysisr.c: the chain of registrations the [_try] macro of <except.h> builds
    on the stack, and the handler of all processor exceptions.  A registration
    is named by its index in [x_mem].

    The report of an exception nobody handles: the end of [isr_handler] and [dump_cpu]
    with the messages of except_msg.h, through [printf] and its buffer of 256 bytes. *)
From stdpp Require Import strings.
From S2P Require Import Prelude LibC Device Printf I8259 Port Irq.


(** [struct __Xcpt_reg] *)
Record xreg := XReg { x_pre : option nat; x_handler : Z; x_ebp : Z; x_esp : Z; x_ret_addr : Z; x_fired : Z }.

(** The registrations and [__cur_Xcpt_filter]. *)
Record xstate := XState { x_mem : list xreg; x_cur : option nat }.

(** The saved registers the code reads or changes. *)
Record regs_t := Regs { r_ebp : Z; r_eip : Z; r_intn : Z }.

Definition x_load (p : nat) : M xstate xreg := s <- get ;; of_option OutOfBounds (x_mem s !! p).
Definition x_store (p : nat) (r : xreg) : M xstate unit :=
  s <- get ;;
  if decide (p < length (x_mem s))%nat then put (XState (<[p := r]> (x_mem s)) (x_cur s)) else stop OutOfBounds.
Definition x_set_cur (c : option nat) : M xstate unit := modify (fun s => XState (x_mem s) c).

Definition with_pre (q : option nat) (r : xreg) : xreg :=
  XReg q (x_handler r) (x_ebp r) (x_esp r) (x_ret_addr r) (x_fired r).
Definition with_fired (f : Z) (r : xreg) : xreg :=
  XReg (x_pre r) (x_handler r) (x_ebp r) (x_esp r) (x_ret_addr r) f.

(** [int __Xcpt_push_filter(struct __Xcpt_reg* p)] *)
Definition Xcpt_push_filter (p : nat) : M xstate Z :=
  cur <- gets x_cur ;;
  r <- x_load p ;;
  x_store p (with_pre cur r) ;;;
  x_set_cur (Some p) ;;;
  r <- x_load p ;;
  x_store p (with_fired 0 r) ;;;
  ret 1.

(** [int __Xcpt_pop_filter(void)] *)
Definition Xcpt_pop_filter : M xstate Z :=
  cur <- gets x_cur ;;
  match cur with
  | None => ret 0
  | Some p => r <- x_load p ;; x_set_cur (x_pre r) ;;; ret (x_ret_addr r)
  end.

(** [int __Xcpt_get_esp()] *)
Definition Xcpt_get_esp : M xstate Z :=
  cur <- gets x_cur ;;
  match cur with Some p => r <- x_load p ;; ret (x_esp r) | None => stop Panicked end.

(** The second half of [filter_fill_regs]: the current registration is used. *)
Definition fill_from (r : regs_t) : M xstate (regs_t * Z) :=
  cur <- gets x_cur ;;
  match cur with
  | Some p =>
      f <- x_load p ;;
      x_store p (with_fired 1 f) ;;;
      ret (Regs (u32 (x_ebp f)) (u32 (x_handler f)) (r_intn r), 1)
  | None => ret (r, 0)
  end.

(** [int filter_fill_regs(regs_t * r)]: the new registers and the result. *)
Definition filter_fill_regs (r : regs_t) : M xstate (regs_t * Z) :=
  cur <- gets x_cur ;;
  (match cur with
   | Some p => f <- x_load p ;; if negb (x_fired f =? 0) then Xcpt_pop_filter ;;; ret tt else ret tt
   | None => ret tt
   end) ;;;
  fill_from r.

(** [static void isr_handler(regs_t* r)] of sysisr.c: the registers the
    exception returns to. *)
Definition isr_handler_fn (r : regs_t) : M xstate regs_t :=
  if r_intn r <? 32 then
    p <- filter_fill_regs r ;;
    if negb (snd p =? 0) then ret (fst p) else stop Panicked
  else ret r.

(** The number of [isr_handler] in the tables of Irq, and
    [int setup_isr_handler()], which installs it for every exception. *)
Definition ISR_HANDLER : nat := 2.
Fixpoint install_loop {W} `{PortIO W} (n : nat) (i : Z) : M (irq_state W) unit :=
  match n with O => ret tt | S n' => isr_install i (Some ISR_HANDLER) ;;; install_loop n' (i + 1) end.
Definition setup_isr_handler {W} `{PortIO W} : M (irq_state W) Z := install_loop 32 0 ;;; ret 1.

(** * The chain as a stack *)

(** [chain mem cur l]: following [pre] from [cur] gives the registrations [l],
    innermost first. *)
Fixpoint chain (mem : list xreg) (cur : option nat) (l : list nat) : Prop :=
  match l with
  | [] => cur = None
  | p :: l' => cur = Some p /\ exists r, mem !! p = Some r /\ chain mem (x_pre r) l'
  end.

Lemma chain_insert mem cur l p r r' :
  mem !! p = Some r -> x_pre r' = x_pre r -> chain mem cur l -> chain (<[p := r']> mem) cur l.
Proof.
  intros Hp Hr. revert cur. induction l as [|q l IH]; intros cur; [done|]. intros [-> (rq & Hq & Hc)].
  split; [done|]. destruct (decide (q = p)) as [->|Hne].
  - exists r'. rewrite list_lookup_insert_eq by (by eapply lookup_lt_Some). split; [done|].
    rewrite Hp in Hq. injection Hq as <-. rewrite Hr. by apply IH.
  - exists rq. rewrite list_lookup_insert_ne by done. split; [done|by apply IH].
Qed.

Lemma chain_fresh mem cur l p r : p ∉ l -> chain mem cur l -> chain (<[p := r]> mem) cur l.
Proof.
  revert cur. induction l as [|q l IH]; intros cur Hp; [done|]. apply not_elem_of_cons in Hp as [Hne Hp].
  intros [-> (rq & Hq & Hc)]. split; [done|]. exists rq. rewrite list_lookup_insert_ne by done. split; [done|by apply IH].
Qed.

Lemma x_load_ok s p r : x_mem s !! p = Some r -> x_load p s = Ok r s.
Proof. intros E. unfold x_load. msteps. by rewrite E. Qed.
Lemma x_store_ok s p r0 r : x_mem s !! p = Some r0 -> x_store p r s = Ok tt (XState (<[p := r]> (x_mem s)) (x_cur s)).
Proof. intros E. unfold x_store. msteps. by rewrite decide_True by (by eapply lookup_lt_Some). Qed.

(** Entering a [_try] and leaving it. *)
Lemma push_chain s l p r :
  chain (x_mem s) (x_cur s) l -> p ∉ l -> x_mem s !! p = Some r ->
  exists s', Xcpt_push_filter p s = Ok 1 s' /\ chain (x_mem s') (x_cur s') (p :: l) /\
    x_mem s' !! p = Some (with_fired 0 (with_pre (x_cur s) r)).
Proof.
  intros Hc Hp Hr. pose proof (lookup_lt_Some _ _ _ Hr) as Hl. unfold Xcpt_push_filter. msteps.
  rewrite (bind_ok _ _ _ _ _ (x_load_ok _ _ _ Hr)), (bind_ok _ _ _ _ _ (x_store_ok _ _ _ _ Hr)).
  unfold x_set_cur. msteps. cbn [x_mem].
  set (s1 := XState _ _). assert (x_mem s1 !! p = Some (with_pre (x_cur s) r)) as H1 by (by apply list_lookup_insert_eq).
  rewrite (bind_ok _ _ _ _ _ (x_load_ok _ _ _ H1)), (bind_ok _ _ _ _ _ (x_store_ok _ _ _ _ H1)).
  eexists. split; [reflexivity|]. cbn [x_mem x_cur s1]. rewrite list_insert_insert_eq. split.
  - split; [done|]. eexists. split; [by apply list_lookup_insert_eq|]. cbn. by apply chain_fresh.
  - by apply list_lookup_insert_eq.
Qed.

Lemma pop_chain s l p :
  chain (x_mem s) (x_cur s) (p :: l) ->
  exists r, x_mem s !! p = Some r /\ chain (x_mem s) (x_pre r) l /\
    Xcpt_pop_filter s = Ok (x_ret_addr r) (XState (x_mem s) (x_pre r)).
Proof.
  intros [Hcur (r & Hr & Hc)]. exists r. split; [done|]. split; [done|].
  unfold Xcpt_pop_filter. msteps. rewrite Hcur, (bind_ok _ _ _ _ _ (x_load_ok _ _ _ Hr)). done.
Qed.

(** The registers for the handler of a registration. *)
Definition enter (f : xreg) (r : regs_t) : regs_t := Regs (u32 (x_ebp f)) (u32 (x_handler f)) (r_intn r).
Definition mark_fired (p : nat) (f : xreg) (s : xstate) : xstate := XState (<[p := with_fired 1 f]> (x_mem s)) (x_cur s).

Lemma fill_from_ok s p f r :
  x_cur s = Some p -> x_mem s !! p = Some f -> fill_from r s = Ok (enter f r, 1) (mark_fired p f s).
Proof.
  intros Hc Hf. unfold fill_from. msteps. rewrite Hc.
  by rewrite (bind_ok _ _ _ _ _ (x_load_ok _ _ _ Hf)), (bind_ok _ _ _ _ _ (x_store_ok _ _ _ _ Hf)).
Qed.

(** A registration that has not fired is used; one that has is dropped first. *)
Lemma fill_regs_split s p f r :
  x_cur s = Some p -> x_mem s !! p = Some f ->
  filter_fill_regs r s = fill_from r (if x_fired f =? 0 then s else XState (x_mem s) (x_pre f)).
Proof.
  intros Hc Hf. unfold filter_fill_regs. msteps. rewrite Hc. msteps. rewrite (bind_ok _ _ _ _ _ (x_load_ok _ _ _ Hf)).
  destruct (x_fired f =? 0); cbn [negb]; [done|]. unfold Xcpt_pop_filter. msteps. rewrite Hc. msteps.
  rewrite (bind_ok _ _ _ _ _ (x_load_ok _ _ _ Hf)). done.
Qed.

(** Exceptions go outwards: one raised inside a [_try] whose registration
    has not fired goes to its own handler; a second one, raised while that
    handler runs, goes to the handler of the next outer registration, and to the
    panic when there is none. *)
Theorem exception_goes_outwards s p q l fp fq r1 r2 :
  chain (x_mem s) (x_cur s) (p :: q :: l) -> p <> q -> x_mem s !! p = Some fp -> x_mem s !! q = Some fq ->
  x_fired fp = 0 -> x_fired fq = 0 -> r_intn r1 < 32 -> r_intn r2 < 32 ->
  exists s1 s2, isr_handler_fn r1 s = Ok (enter fp r1) s1 /\ isr_handler_fn r2 s1 = Ok (enter fq r2) s2 /\
    chain (x_mem s2) (x_cur s2) (q :: l) /\
    (l = [] -> forall r3, r_intn r3 < 32 -> isr_handler_fn r3 s2 = Err Panicked).
Proof.
  intros [Hcp (gp & Hp' & [Hcq (gq & Hq' & Hl)])] Hpq Hp Hq Fp Fq H1 H2.
  rewrite Hp in Hp'. injection Hp' as <-. rewrite Hq in Hq'. injection Hq' as <-.
  pose proof (lookup_lt_Some _ _ _ Hp) as Lp. pose proof (lookup_lt_Some _ _ _ Hq) as Lq.
  set (s1 := mark_fired p fp s). set (s2 := mark_fired q fq (XState (x_mem s1) (Some q))). exists s1, s2.
  assert (x_mem s1 !! p = Some (with_fired 1 fp)) as E1 by (by apply list_lookup_insert_eq).
  assert (x_mem s1 !! q = Some fq) as E2 by (cbn; by rewrite list_lookup_insert_ne).
  assert (x_mem s2 !! q = Some (with_fired 1 fq)) as E3
    by (apply list_lookup_insert_eq; cbn; by rewrite length_insert).
  unfold isr_handler_fn. rewrite !(proj2 (Z.ltb_lt _ _)) by done. split_and!.
  - unfold bind. by rewrite (fill_regs_split s p fp), Fp, (fill_from_ok s p fp).
  - unfold bind. rewrite (fill_regs_split s1 p (with_fired 1 fp)) by done. cbn [x_fired with_fired Z.eqb x_pre].
    by rewrite Hcq, (fill_from_ok (XState (x_mem s1) (Some q)) q fq).
  - split; [done|]. exists (with_fired 1 fq). split; [done|]. cbn [x_pre with_fired].
    cbn. eapply chain_insert; [exact E2|done|]. by eapply chain_insert.
  - intros -> r3 H3. rewrite (proj2 (Z.ltb_lt _ _)) by done. unfold bind.
    rewrite (fill_regs_split s2 q (with_fired 1 fq)) by done. cbn [x_fired with_fired Z.eqb x_pre].
    cbn in Hl. rewrite Hl. done.
Qed.

Lemma exception_goes_outwards_witness :
  exists s1 s2,
    isr_handler_fn (Regs 0 0 14) (XState [XReg None 100 1 2 3 0; XReg (Some 0%nat) 200 4 5 6 0] (Some 1%nat)) =
      Ok (Regs 4 200 14) s1 /\
    isr_handler_fn (Regs 0 0 13) s1 = Ok (Regs 1 100 13) s2.
Proof.
  destruct (exception_goes_outwards (XState [XReg None 100 1 2 3 0; XReg (Some 0%nat) 200 4 5 6 0] (Some 1%nat))
    1 0 [] (XReg (Some 0%nat) 200 4 5 6 0) (XReg None 100 1 2 3 0) (Regs 0 0 14) (Regs 0 0 13))
    as (s1 & s2 & E1 & E2 & _); try reflexivity.
  - split; [done|]. eexists. split; [reflexivity|]. split; [done|]. eexists. split; reflexivity.
  - done.
  - exists s1, s2. split; [exact E1|exact E2].
Defined.

(** * The report of an exception *)

(** [struct Register] of irq.h *)
Record Register := MkRegister {
  gs : Z; fs : Z; es : Z; ds : Z; ss : Z; edi : Z; esi : Z; ebp : Z; esp : Z; ebx : Z; edx : Z; ecx : Z; eax : Z;
  intn : Z; err : Z; eip : Z; cs : Z; eflags : Z; useresp : Z; userss : Z
}.

Definition except_msg : list (list Z) :=
  map bytes_of ["Division By Zero"; "Debug"; "Non Maskable Interrupt"; "Breakpoint"; "Into Detected Overflow"; "Out of Bounds";
    "Invalid Opcode"; "No Coprocessor"; "Double Fault"; "Coprocessor Segment Overrun"; "Bad TSS"; "Segment Not Present";
    "Stack Fault"; "General Protection Fault"; "Page Fault"; "Unknown Interrupt"; "Coprocessor Fault"; "Alignment Check";
    "Machine Check"; "Reserved"; "Reserved"; "Reserved"; "Reserved"; "Reserved"; "Reserved"; "Reserved"; "Reserved";
    "Reserved"; "Reserved"; "Reserved"; "Reserved"; "Reserved"]%string.

Definition nl : list Z := [10].
Definition tab : list Z := [9].
Definition dump_format : list Z :=
  bytes_of "Dumping CPU:"%string ++ nl ++ bytes_of "cs: 0x%X"%string ++ tab ++ tab ++ bytes_of "eip: 0x%X"%string ++ nl ++
  bytes_of "ss: 0x%X"%string ++ tab ++ bytes_of "esp: 0x%X"%string ++ nl ++
  bytes_of "ds: 0x%X"%string ++ tab ++ bytes_of "esi: 0x%X"%string ++ nl ++ bytes_of "es: 0x%X"%string ++ tab ++ bytes_of "edi: 0x%X"%string ++ nl ++
  bytes_of "fs: 0x%X"%string ++ nl ++ bytes_of "gs: 0x%X"%string ++ nl ++
  bytes_of "eax: 0x%X"%string ++ tab ++ bytes_of "ecx: 0x%X"%string ++ tab ++ bytes_of "ebx: 0x%X"%string ++ tab ++
  bytes_of "edx: 0x%X"%string ++ nl ++ bytes_of "eflags: 0x%X"%string ++ nl.
Definition dump_values (r : Register) : list Z :=
  [cs r; eip r; ss r; esp r; ds r; esi r; es r; edi r; fs r; gs r; eax r; ecx r; ebx r; edx r; eflags r].

Section Report.
Context {W : Type}.

(** [void dump_cpu(regs_t *r)] *)
Definition dump_cpu (r : Register) : M (devs W) Z := printf dump_format (map VInt (dump_values r)).

(** The part of [isr_handler] for an exception without a handler; [stack] is the
    buffer of [kprintf]. *)
Definition not_handled (r : Register) (stack : list Z) : M (devs W) unit :=
  kprintf (bytes_of "%C[EXCEPTION]%C "%string) [VInt 0x0E; VInt 0x0F] stack ;;;
  m <- of_option OutOfBounds (except_msg !! Z.to_nat (intn r)) ;;
  printf (bytes_of "Not handled: %s (%d)"%string ++ nl) [VStr (Some m); VInt (err r)] ;;;
  dump_cpu r ;;;
  stop Panicked.
End Report.

(** * Plain conversions *)

Lemma tmp_digits_more fuel k small num base l : tmp_digits fuel small num base = Some l -> tmp_digits (fuel + k) small num base = Some l.
Proof.
  revert num l. induction fuel as [|f IH]; intros num l; cbn [tmp_digits].
  - destruct (Z.eqb_spec num 0) as [->|]; [|done]. intros [= <-]. by destruct k.
  - cbn [Nat.add tmp_digits]. destruct (num =? 0); [done|]. destruct (tmp_digits f small (num / base) base) as [r|] eqn:E; [|done].
    by rewrite (IH _ _ E).
Qed.

(** A number without flags, width or precision takes no more bytes than its sign and
    digits. *)
Lemma number_plain num base type (n : nat) : 2 <= base <= 36 -> is_s32 num -> type = 0 \/ type = SIGN ->
  2 ^ 32 <= base ^ Z.of_nat n -> (0 < n <= 32)%nat ->
  exists out, number num base (-1) (-1) type = Some (sign_of num type ++ out) /\ value base out = magnitude num type /\ (0 < length out <= n)%nat.
Proof.
  intros Hb Hn Ht Hp Hn0. set (v := if flag type SIGN && (num <? 0) then s32 (- num) else num).
  assert (u32 v = magnitude num type) as Hu.
  { unfold v, magnitude. destruct (flag type SIGN && (num <? 0)) eqn:E; [|done]. apply andb_prop in E as [_ E%Z.ltb_lt].
    rewrite u32_s32. apply u32_small. unfold is_s32 in Hn. unfold is_u32. lia. }
  assert (exists out, (if v =? 0 then Some [48] else tmp_digits 32 false (u32 v) base) = Some (rev out) /\
    value base out = u32 v /\ (0 < length out <= n)%nat) as (out & E & Hv & Hl).
  { destruct (Z.eqb_spec v 0) as [->|Hv]; [exists [48]; by split_and!; try done; cbn; lia|].
    destruct (tmp_digits_ok false base n (u32 v) Hb) as (ds & E & Hval & _ & Hl & Hne); [pose proof (u32_range v); unfold is_u32 in *; lia|].
    exists ds. replace 32%nat with (n + (32 - n))%nat by lia. split; [by apply tmp_digits_more|]. split; [done|]. split; [|done].
    destruct ds; [|cbn; lia]. exfalso. apply Hne; [|done]. rewrite Hu. unfold magnitude, v in *. destruct (flag type SIGN && (num <? 0)) eqn:Es.
    - apply andb_prop in Es as [_ Es%Z.ltb_lt]. lia.
    - intros H0. apply Hv. unfold is_s32 in Hn. int_lia. }
  exists out. rewrite <- Hu. split; [|done]. unfold number. rewrite (proj2 (Z.ltb_ge base 2)), (proj2 (Z.ltb_ge 36 base)) by lia. cbn [orb].
  assert (flag type SMALL = false /\ flag type LEFT = false /\ flag type ZEROPAD = false /\ flag type PLUS = false /\ flag type SPACE = false /\
    flag type SPECIAL = false /\ flag type (ZEROPAD + LEFT) = false) as (-> & -> & -> & F1 & F2 & F3 & ->) by (by destruct Ht as [-> | ->]).
  assert (flag type LEFT = false) as F4 by (by destruct Ht as [-> | ->]).
  assert ((if flag type SIGN && (num <? 0) then (45, s32 (- num)) else (if flag type PLUS then 43 else if flag type SPACE then 32 else 0, num)) =
    (if flag type SIGN && (num <? 0) then 45 else 0, v)) as -> by (unfold v; rewrite F1, F2; by destruct (flag type SIGN && (num <? 0))).
  rewrite F3, E. cbn [mbind option_bind]. rewrite length_rev, rev_involutive. f_equal.
  destruct (Z.ltb_spec (-1) (Z.of_nat (length out))) as [_|]; [|lia]. rewrite Z.sub_diag. cbn [Z.to_nat replicate pad]. unfold sign_of. rewrite F1, F2.
  set (k := Z.of_nat (length out)) in *. assert (1 <= k <= 32) by lia.
  destruct (flag type SIGN && (num <? 0)); cbn [Z.eqb negb]; rewrite s32_small by (unfold is_s32; lia); unfold pad;
    rewrite ?F4, !to_nat_neg by lia; cbn [replicate app]; by rewrite app_nil_r.
Qed.

(** What [%X] and [%d] print. *)
Definition hex (z : Z) : list Z := default [] (number (s32 z) 16 (-1) (-1) 0).
Definition dec (z : Z) : list Z := default [] (number (s32 z) 10 (-1) (-1) SIGN).
Lemma hex_ok z : number (s32 z) 16 (-1) (-1) 0 = Some (hex z) /\ value 16 (hex z) = u32 z /\ (length (hex z) <= 8)%nat.
Proof.
  destruct (number_plain (s32 z) 16 0 8) as (out & E & Hv & Hl); [lia|apply s32_range|by left|done|lia|].
  change (sign_of (s32 z) 0) with (@nil Z) in E. assert (hex z = out) as -> by (unfold hex; by rewrite E). split; [done|]. split; [|lia].
  rewrite Hv. unfold magnitude. change (flag 0 SIGN) with false. cbn [andb]. by rewrite u32_s32.
Qed.
Lemma dec_ok z : number (s32 z) 10 (-1) (-1) SIGN = Some (dec z) /\ (length (dec z) <= 11)%nat.
Proof.
  destruct (number_plain (s32 z) 10 SIGN 10) as (out & E & Hv & Hl); [lia|apply s32_range|by right|done|lia|].
  assert (dec z = sign_of (s32 z) SIGN ++ out) as -> by (unfold dec; by rewrite E). split; [done|]. rewrite length_app. unfold sign_of.
  destruct (flag SIGN SIGN && (s32 z <? 0)); cbn [length]; [lia|]. change (flag SIGN PLUS) with false. change (flag SIGN SPACE) with false. cbn. lia.
Qed.

(** * Running through a format *)

Lemma vsprintf_text l n fmt args out outs : Forall (fun c => c <> 37) l -> (length l <= n)%nat ->
  vsprintf_loop n (l ++ fmt) args out outs = vsprintf_loop (n - length l) fmt args (out ++ l) outs.
Proof.
  revert n out. induction l as [|c l IH]; intros n out Hf Hn; [by rewrite app_nil_r, Nat.sub_0_r|]. apply Forall_cons in Hf as [Hc Hf].
  cbn [length] in Hn. destruct n as [|n]; [lia|]. cbn [app vsprintf_loop length Nat.sub]. rewrite (proj2 (Z.eqb_neq _ _) Hc). cbn [negb].
  rewrite IH by (done || lia). by rewrite <- app_assoc.
Qed.
Lemma vsprintf_hex n z fmt args out outs : (1 < n)%nat ->
  vsprintf_loop n ([37; 88] ++ fmt) (VInt z :: args) out outs = vsprintf_loop (n - 1) fmt args (out ++ hex z) outs.
Proof.
  intros Hn. destruct n as [|n]; [lia|]. cbn [app vsprintf_loop Nat.sub]. change (negb (37 =? 37)) with false. cbv iota.
  change (directive (88 :: fmt) (VInt z :: args) (Z.of_nat (length out))) with
    (p ← number (s32 z) 16 (-1) (-1) 0; Some (p, fmt, args, @nil Z)). rewrite (proj1 (hex_ok z)). cbn [mbind option_bind].
  by rewrite app_nil_r, Nat.sub_0_r.
Qed.
Lemma vsprintf_dec n z fmt args out outs : (1 < n)%nat ->
  vsprintf_loop n ([37; 100] ++ fmt) (VInt z :: args) out outs = vsprintf_loop (n - 1) fmt args (out ++ dec z) outs.
Proof.
  intros Hn. destruct n as [|n]; [lia|]. cbn [app vsprintf_loop Nat.sub]. change (negb (37 =? 37)) with false. cbv iota.
  change (directive (100 :: fmt) (VInt z :: args) (Z.of_nat (length out))) with
    (p ← number (s32 z) 10 (-1) (-1) SIGN; Some (p, fmt, args, @nil Z)). rewrite (proj1 (dec_ok z)). cbn [mbind option_bind].
  by rewrite app_nil_r, Nat.sub_0_r.
Qed.

Lemma conv_s_plain m : conv_s (-1) (-1) 0 (Some m) = m.
Proof.
  unfold conv_s. change (flag 0 LEFT) with false. cbn [default from_option]. change (-1 <? 0) with true. cbv iota.
  rewrite (to_nat_neg (-1 - _)) by (cbn; lia). rewrite Nat2Z.id. apply firstn_all.
Qed.
Lemma vsprintf_str n m fmt args out outs : (1 < n)%nat ->
  vsprintf_loop n ([37; 115] ++ fmt) (VStr (Some m) :: args) out outs = vsprintf_loop (n - 1) fmt args (out ++ m) outs.
Proof.
  intros Hn. destruct n as [|n]; [lia|]. cbn [app vsprintf_loop Nat.sub]. change (negb (37 =? 37)) with false. cbv iota.
  change (directive (115 :: fmt) (VStr (Some m) :: args) (Z.of_nat (length out))) with
    (Some (conv_s (-1) (-1) 0 (Some m), fmt, args, @nil Z)). rewrite conv_s_plain. cbn [mbind option_bind].
  by rewrite app_nil_r, Nat.sub_0_r.
Qed.
(** Text without conversions. *)
Ltac plain := apply (bool_decide_unpack _); by vm_compute.

(** A format of pieces of text, each with a [%X] behind it. *)
Fixpoint hex_format (ps : list (list Z)) (last : list Z) : list Z :=
  match ps with [] => last | p :: ps => p ++ [37; 88] ++ hex_format ps last end.
Fixpoint hex_text (ps : list (list Z)) (vs : list Z) (last : list Z) : list Z :=
  match ps, vs with p :: ps, v :: vs => p ++ hex v ++ hex_text ps vs last | _, _ => last end.
Lemma hex_text_length ps vs last : (length (hex_text ps vs last) <= length (concat ps) + 8 * length ps + length last)%nat.
Proof.
  revert vs. induction ps as [|p ps IH]; intros [|v vs]; cbn [hex_text concat length]; try lia.
  rewrite !length_app. pose proof (proj2 (proj2 (hex_ok v))). specialize (IH vs). lia.
Qed.
Lemma vsprintf_hexes ps last : Forall (Forall (fun c => c <> 37)) ps -> Forall (fun c => c <> 37) last ->
  forall vs n out, length vs = length ps -> (length (hex_format ps last) <= n)%nat ->
  vsprintf_loop n (hex_format ps last) (map VInt vs) out [] = Some (out ++ hex_text ps vs last, []).
Proof.
  intros Hps Hlast. induction ps as [|p ps IH]; intros [|v vs] n out Hv Hn; try done; cbn [hex_format hex_text map] in *.
  - rewrite <- (app_nil_r last) at 1. rewrite vsprintf_text by (done || lia). by destruct (n - length last)%nat.
  - apply Forall_cons in Hps as [Hp Hps]. cbn [length] in Hv. rewrite !length_app in Hn. cbn [length] in Hn.
    rewrite vsprintf_text, vsprintf_hex by (done || lia). rewrite IH by (done || lia). by rewrite <- !app_assoc.
Qed.

(** The text of the dump, up to each value. *)
Definition dump_pieces : list (list Z) :=
  [bytes_of "Dumping CPU:"%string ++ nl ++ bytes_of "cs: 0x"%string; tab ++ tab ++ bytes_of "eip: 0x"%string; nl ++ bytes_of "ss: 0x"%string; tab ++ bytes_of "esp: 0x"%string;
   nl ++ bytes_of "ds: 0x"%string; tab ++ bytes_of "esi: 0x"%string; nl ++ bytes_of "es: 0x"%string; tab ++ bytes_of "edi: 0x"%string; nl ++ bytes_of "fs: 0x"%string;
   nl ++ bytes_of "gs: 0x"%string; nl ++ bytes_of "eax: 0x"%string; tab ++ bytes_of "ecx: 0x"%string; tab ++ bytes_of "ebx: 0x"%string; tab ++ bytes_of "edx: 0x"%string;
   nl ++ bytes_of "eflags: 0x"%string].
Definition dump_text (r : Register) : list Z := hex_text dump_pieces (dump_values r) nl.
Definition report_text (m : list Z) (e : Z) : list Z := bytes_of "Not handled: "%string ++ m ++ bytes_of " ("%string ++ dec e ++ bytes_of ")"%string ++ nl.

Lemma dump_prints r : vsprintf dump_format (map VInt (dump_values r)) = Some (dump_text r, []) /\ (length (dump_text r) <= 251)%nat.
Proof.
  split; [|exact (hex_text_length dump_pieces (dump_values r) nl)].
  unfold vsprintf. change dump_format with (hex_format dump_pieces nl).
  rewrite (vsprintf_hexes dump_pieces nl); [done| | |done|lia].
  - plain.
  - plain.
Qed.
Lemma report_prints m e : vsprintf (bytes_of "Not handled: %s (%d)"%string ++ nl) [VStr (Some m); VInt e] = Some (report_text m e, []) /\
  (length (report_text m e) <= 28 + length m)%nat.
Proof.
  split.
  - unfold vsprintf. set (n := length _). assert (n = 21%nat) as -> by done.
    change (bytes_of "Not handled: %s (%d)"%string ++ nl) with
      (bytes_of "Not handled: "%string ++ [37; 115] ++ bytes_of " ("%string ++ [37; 100] ++ bytes_of ")"%string ++ nl ++ []).
    rewrite vsprintf_text, vsprintf_str, vsprintf_text, vsprintf_dec, vsprintf_text, vsprintf_text by (done || (cbn; lia) || plain).
    cbn [vsprintf_loop]. unfold report_text. by rewrite <- !app_assoc.
  - unfold report_text. rewrite !length_app. pose proof (proj2 (dec_ok e)). cbn [length bytes_of nl]. lia.
Qed.

(** * The report *)

Lemma bind_ext {S A B} (m m' : M S A) (k k' : A -> M S B) s :
  m s = m' s -> (forall a s', k a s' = k' a s') -> (a <- m ;; k a) s = (a <- m' ;; k' a) s.
Proof. intros E Hk. unfold bind. rewrite E. by destruct (m' s). Qed.

Section Fits.
Context {W : Type}.

(** The buffer of [printf] with a text, and its output. *)
Definition buffer_with (out : list Z) : list Z := out ++ replicate (256 - length out) 0.
Definition print (out : list Z) : M (devs W) Z :=
  dev_write CHRDEV (DEVID CHR_TTY 0) (buffer_with out) (Z.of_nat (length out)) ;;; ret (Z.of_nat (length out)).

Lemma printf_fits fmt args out outs s : vsprintf fmt args = Some (out, outs) -> (length out < 256)%nat -> printf fmt args s = print out s.
Proof.
  intros E Hl. unfold printf, sprintf, print. rewrite E. cbn [mbind option_bind].
  rewrite memcpy_spec by (rewrite ?length_app, ?length_replicate; cbn; lia). cbn [mbind option_bind of_option]. msteps. cbn [fst snd].
  replace (_ ++ drop _ _) with (buffer_with out); [done|]. unfold buffer_with. rewrite take_ge by (rewrite length_app; cbn; lia).
  rewrite drop_replicate, <- app_assoc. f_equal. cbn [app]. replace (256 - length out)%nat with (S (256 - (length out + 1))) by lia. done.
Qed.

(** C40: the report of an exception without a handler fits the buffers.  For each of the
    32 exceptions there is a message; the line with it is of at most 55 bytes and the
    dump of the registers of at most 251 bytes, whatever they hold, below the 256 of
    [printf]; both reach the console as they are, every value as its hexadecimal
    numeral, before the system halts. *)
Theorem unhandled_report_fits r stack (s : devs W) : 0 <= intn r < 32 ->
  exists m, except_msg !! Z.to_nat (intn r) = Some m /\
    not_handled r stack s =
      (kprintf (bytes_of "%C[EXCEPTION]%C "%string) [VInt 0x0E; VInt 0x0F] stack ;;;
       print (report_text m (err r)) ;;; print (dump_text r) ;;; stop Panicked) s /\
    (length (report_text m (err r)) <= 55)%nat /\ (length (dump_text r) <= 251)%nat /\
    Forall (fun v => value 16 (hex v) = u32 v) (dump_values r).
Proof.
  intros Hi. destruct (lookup_lt_is_Some_2 except_msg (Z.to_nat (intn r))) as [m Em]; [cbn; lia|].
  assert (length m <= 27)%nat as Hm.
  { assert (Forall (fun m => (length m <= 27)%nat) except_msg) as Hf by plain. by apply (Forall_lookup_1 _ _ _ _ Hf Em). }
  destruct (report_prints m (err r)) as [E1 L1], (dump_prints r) as [E2 L2]. exists m. split; [done|]. split; [|split; [lia|split; [done|]]].
  - unfold not_handled. apply bind_ext; [done|]. intros _ s1. rewrite (bind_some _ _ _ _ _ Em). apply bind_ext; [apply (printf_fits _ _ _ _ _ E1); lia|].
    intros _ s2. apply bind_ext; [apply (printf_fits _ _ _ _ _ E2); lia|done].
  - apply Forall_forall. intros v _. apply hex_ok.
Qed.
End Fits.

(** A page fault with every register all ones: 251 bytes. *)
Definition all_ones : Register :=
  let x := 0xffffffff in MkRegister x x x x x x x x x x x x x 14 x x x x x x.
Lemma unhandled_report_fits_witness :
  length (dump_text all_ones) = 251%nat /\
  exists m, not_handled all_ones [] (Devs [] [] tt) =
      (kprintf (bytes_of "%C[EXCEPTION]%C "%string) [VInt 0x0E; VInt 0x0F] [] ;;;
       print (report_text m (err all_ones)) ;;; print (dump_text all_ones) ;;; stop Panicked) (Devs [] [] tt) /\ m = bytes_of "Page Fault"%string.
Proof.
  split; [vm_compute; reflexivity|]. destruct (unhandled_report_fits all_ones [] (Devs [] [] tt)) as (m & E & H & _); [by vm_compute|].
  exists m. split; [exact H|]. by injection E.
Defined.
