(* ===== verification/Hda.v ===== *)
(** The disk driver, src/sysv3/kernel/driver/blkdev/hda.c, over port I/O.  A
    transfer's buffer is the list of 16-bit words; the busy loops that wait for
    the interrupt ask the machine for it ([wait_irq]) and run the handler when
    it comes, with [fuel] turns.  The console messages are not modelled. *)
From S2P Require Import Prelude LibC Layout Device I8259 Port Irq.

Definition BLK_HDA : Z := 0.
Definition BLK_HDD_IOBASE : Z := 0x01F0.
Definition REG_DATA : Z := BLK_HDD_IOBASE.
Definition REG_SECTC : Z := BLK_HDD_IOBASE + 2.
Definition REG_SECT : Z := BLK_HDD_IOBASE + 3.
Definition REG_CYLL : Z := BLK_HDD_IOBASE + 4.
Definition REG_CYLH : Z := BLK_HDD_IOBASE + 5.
Definition REG_DEVICE : Z := BLK_HDD_IOBASE + 6.
Definition REG_STATUS : Z := BLK_HDD_IOBASE + 7.
Definition REG_COMMAND : Z := BLK_HDD_IOBASE + 7.
Definition CMD_IDENTIFY : Z := 0xEC.
Definition CMD_READ : Z := 0x20.
Definition CMD_WRITE : Z := 0x30.
Definition NPARTS : Z := 8.

(** [struct hda_stat], without the buffer pointer. *)
Record hda_stat := HdaStat {
  h_cmd : Z; h_rready : Z; h_cnt : Z; h_C : Z; h_H : Z; h_S : Z; h_c : Z; h_h : Z; h_s : Z
}.
(** [struct hda_partition] *)
Record hda_partition := Part { p_begin : Z; p_end : Z }.

Record hda (W : Type) := Hda { h_stat : hda_stat; h_parts : list hda_partition; h_io : irq_state W }.
Arguments Hda {W}. Arguments h_stat {W}. Arguments h_parts {W}. Arguments h_io {W}.

(** Assignments to fields of [hda_stat]. *)
Definition set_cmd v s := HdaStat v (h_rready s) (h_cnt s) (h_C s) (h_H s) (h_S s) (h_c s) (h_h s) (h_s s).
Definition set_rready v s := HdaStat (h_cmd s) v (h_cnt s) (h_C s) (h_H s) (h_S s) (h_c s) (h_h s) (h_s s).
Definition set_cnt v s := HdaStat (h_cmd s) (h_rready s) v (h_C s) (h_H s) (h_S s) (h_c s) (h_h s) (h_s s).
Definition set_geom c h n s := HdaStat (h_cmd s) (h_rready s) (h_cnt s) c h n (h_c s) (h_h s) (h_s s).
Definition set_addr c h n s := HdaStat (h_cmd s) (h_rready s) (h_cnt s) (h_C s) (h_H s) (h_S s) c h n.

Section Hda.
Context {W : Type} `{PortIO W}.
(** Whether the machine raises IRQ 14 next. *)
Context (wait_irq : M W bool) (fuel : nat).

Definition h_irq {A} (m : M (irq_state W) A) : M (hda W) A :=
  zoom h_io (fun x s => Hda (h_stat s) (h_parts s) x) m.
Definition h_out (port val : Z) : M (hda W) unit := h_irq (outb port (u8 val)).
Definition h_in (port : Z) : M (hda W) Z := h_irq (inb port).
Definition on_io {A} (m : M W A) : M (hda W) A :=
  h_irq (zoom io (fun x s => MkIrq (isr_handler s) (irq_handler s) (syscall s) (iflag s) x) m).
Definition stat : M (hda W) hda_stat := gets h_stat.
Definition stat_upd (f : hda_stat -> hda_stat) : M (hda W) unit :=
  modify (fun s => Hda (f (h_stat s)) (h_parts s) (h_io s)).

(** ** Standard procedures *)

Definition hda_command (cmd : Z) : M (hda W) unit := stat_upd (set_cmd cmd) ;;; h_out REG_COMMAND cmd.
Definition hda_status : M (hda W) Z := h_in REG_STATUS.
Definition hda_readdata : M (hda W) Z := on_io (inportw REG_DATA).
Definition hda_writedata (data : Z) : M (hda W) unit := on_io (outportw REG_DATA (u16 data)).

(** ** Interrupt handler *)

(** The words of the identify data: [i] counts them. *)
Fixpoint identify_loop (n : nat) (i : Z) : M (hda W) unit :=
  st <- hda_status ;;
  if Z.land st 0x08 =? 0 then ret tt else
  match n with
  | O => stop Diverged
  | S n' =>
      data <- hda_readdata ;;
      (if i =? 1 then stat_upd (fun s => set_geom data (h_H s) (h_S s) s)
       else if i =? 3 then stat_upd (fun s => set_geom (h_C s) data (h_S s) s)
       else if i =? 6 then stat_upd (fun s => set_geom (h_C s) (h_H s) data s)
       else ret tt) ;;;
      identify_loop n' (i + 1)
  end.

(** [void hda_intr(struct Register *regs)] *)
Definition hda_intr : M (hda W) unit :=
  st <- hda_status ;;
  if negb (Z.land st 0x01 =? 0) then stop Panicked else
  s <- stat ;;
  (if h_cmd s =? CMD_IDENTIFY then identify_loop fuel 0 ;;; stat_upd (set_rready 1)
   else if h_cmd s =? CMD_READ then stat_upd (set_rready 1)
   else if h_cmd s =? CMD_WRITE then stat_upd (set_rready 1)
   else ret tt) ;;;
  stat_upd (set_cmd 0).

(** [while(!hda_stat.rready);] *)
Fixpoint wait_ready (n : nat) : M (hda W) unit :=
  s <- stat ;;
  if negb (h_rready s =? 0) then ret tt else
  match n with
  | O => stop Diverged
  | S n' => b <- on_io wait_irq ;; (if b : bool then hda_intr else ret tt) ;;; wait_ready n'
  end.

(** ** Driver interface *)

Definition hda_open (id oflag mode : Z) : M (hda W) Z := ret 0.
Definition hda_close (id : Z) : M (hda W) Z := ret 0.

(** The registers a transfer of [cnt] sectors sets up. *)
Definition hda_setup (cnt : Z) : M (hda W) unit :=
  stat_upd (set_cnt (u32 cnt)) ;;;
  s <- stat ;;
  h_out REG_SECTC cnt ;;;
  h_out REG_SECT (Z.land (h_s s) 0xFF) ;;;
  h_out REG_CYLL (Z.land (h_c s) 0xFF) ;;;
  h_out REG_CYLH (Z.land (Z.shiftr (h_c s) 8) 0xFF) ;;;
  h_out REG_DEVICE (Z.land (h_h s) 0x0F).

(** [while(hda_status() & 0x08) if(i < cnt * 256) buf[i++] = hda_readdata();] *)
Fixpoint read_words (n : nat) (i : Z) (buf : list Z) : M (hda W) (list Z) :=
  st <- hda_status ;;
  if Z.land st 0x08 =? 0 then ret buf else
  match n with
  | O => stop Diverged
  | S n' =>
      s <- stat ;;
      if i <? u32 (h_cnt s * 256) then
        w <- hda_readdata ;;
        read_words n' (i + 1) (buf ++ [w])
      else read_words n' i buf
  end.

(** The bytes of a word in memory. *)
Definition word_bytes (w : Z) : list Z := [u8 w; u8 (Z.shiftr w 8)].

(** [int hda_read(dev_t id, char *buf, off_t cnt)]: the status and the bytes
    stored at [buf]. *)
Definition hda_read (id cnt : Z) : M (hda W) (Z * list Z) :=
  hda_setup cnt ;;;
  stat_upd (set_rready 0) ;;;
  hda_command CMD_READ ;;;
  wait_ready fuel ;;;
  ws <- read_words fuel 0 [] ;;
  ret (0, concat (map word_bytes ws)).

Fixpoint write_words (n : nat) (i : Z) (buf : list Z) : M (hda W) unit :=
  st <- hda_status ;;
  if Z.land st 0x08 =? 0 then ret tt else
  match n with
  | O => stop Diverged
  | S n' =>
      s <- stat ;;
      if i <? u32 (h_cnt s * 256) then
        lo <- of_option OutOfBounds (aget buf (2 * i)) ;;
        hi <- of_option OutOfBounds (aget buf (2 * i + 1)) ;;
        hda_writedata (u8 lo + 256 * u8 hi) ;;;
        write_words n' (i + 1) buf
      else write_words n' i buf
  end.

(** [int hda_write(dev_t id, char *buf, off_t cnt)] *)
Definition hda_write (id : Z) (buf : list Z) (cnt : Z) : M (hda W) Z :=
  hda_setup cnt ;;;
  hda_command CMD_WRITE ;;;
  write_words fuel 0 buf ;;;
  ret 0.

(** The position on the disk: [offset] on the partition [MINOR(id)]; [None] is
    an early return of -1. *)
Definition absolute (id offset : Z) : M (hda W) (option Z) :=
  if 0 <? MINOR id then
    if NPARTS <? MINOR id then ret None
    else
      s <- get ;;
      p <- of_option OutOfBounds (aget (h_parts s) (MINOR id - 1)) ;;
      let offset := s32 (offset + p_begin p) in
      if p_end p <? u32 offset then ret None else ret (Some offset)
  else ret (Some offset).

(** [int hda_lseek(dev_t id, off_t offset, int whence)] *)
Definition hda_lseek (id offset whence : Z) : M (hda W) Z :=
  o <- absolute id offset ;;
  match o with
  | None => ret (-1)
  | Some offset =>
      s <- stat ;;
      if u32 (h_C s * h_H s * h_S s) <? u32 offset then ret (-1)
      else if (h_S s =? 0) || (h_H s =? 0) || (h_C s =? 0) then stop DivByZero
      else
        stat_upd (set_addr ((u32 offset / h_S s / h_H s) mod h_C s) ((u32 offset / h_S s) mod h_H s)
                    (u32 offset mod h_S s)) ;;;
        ret 0
  end.

Definition hda_ioctl (id cmd arg : Z) : M (hda W) Z := ret 0.

(** ** Module interface *)

Definition part_upd (i : Z) (f : hda_partition -> hda_partition) : M (hda W) unit :=
  s <- get ;;
  p <- of_option OutOfBounds (aget (h_parts s) i) ;;
  l <- of_option OutOfBounds (aset (h_parts s) i (f p)) ;;
  put (Hda (h_stat s) l (h_io s)).

(** The partition loop; the entry behind the last one is written too. *)
Fixpoint detect (n : nat) (i : Z) : M (hda W) unit :=
  match n with
  | O => ret tt
  | S n' =>
      s <- get ;;
      p <- of_option OutOfBounds (aget (h_parts s) i) ;;
      r <- hda_lseek (DEVID BLK_HDA 0) (s32 (p_begin p)) 0 ;;
      if r =? -1 then ret tt
      else
        b <- hda_read 0 1 ;;
        c <- of_option OutOfBounds (strncmp (snd b) [77; 70; 83] 3) ;;
        if negb (c =? 0) then ret tt
        else
          let sp := decode_sblk (snd b) in
          let last_ := u32 ((s_dblk sp + s_dblkcnt sp) * Z.quot (s_blksize sp) 512) in
          part_upd i (fun p => Part (p_begin p) last_) ;;;
          part_upd (i + 1) (fun p => Part (u32 (last_ + 1)) (p_end p)) ;;;
          detect n' (i + 1)
  end.

(** The number of [hda_intr] in the interrupt tables. *)
Definition HDA_INTR : nat := 3.

(** The driver's entries in the device switch. *)
Definition hda_entries : dev_blk (hda W) :=
  DevBlk (Some hda_open) (Some hda_close) (Some hda_read) (Some hda_write) (Some hda_lseek) (Some hda_ioctl).

(** [int hda_init()]; the entries are [hda_entries]. *)
Definition hda_init : M (hda W) Z :=
  h_irq (irq_install 14 (Some HDA_INTR)) ;;;
  stat_upd (set_rready 0) ;;;
  hda_command CMD_IDENTIFY ;;;
  wait_ready fuel ;;;
  part_upd 0 (fun p => Part 2 (p_end p)) ;;;
  detect (Z.to_nat NPARTS) 0 ;;;
  ret 0.

(** [int hda_exit()]: the entries left in the switch. *)
Definition hda_exit : dev_blk (hda W) := no_blk.
End Hda.
