(* ===== verification/Ide.v ===== *)
(** The hard disks of the machine emulator, src/sysvm/hw/ide.c: one ISA
    interface with two drives, its task file, the data port and the commands of
    a hard disk.  A drive is a pointer into the interface, here [false] for the
    first and [true] for the second.

    The image is the list of its sectors, [bs] (IdeInit shows it refines the block layer).  The compact disc
    drive, the bus master and the Windows 2000 option (off by default) are not
    modelled; the commands for them end as they do on a hard disk of this
    interface. *)
From S2P Require Import Prelude LibC Port.

Definition ERR_STAT : Z := 0x01.
Definition DRQ_STAT : Z := 0x08.
Definition SEEK_STAT : Z := 0x10.
Definition READY_STAT : Z := 0x40.
Definition BUSY_STAT : Z := 0x80.
Definition ABRT_ERR : Z := 0x04.
Definition IDE_CMD_RESET : Z := 0x04.
Definition IDE_CMD_DISABLE_IRQ : Z := 0x02.
Definition MAX_MULT_SECTORS : Z := 16.

(** The values of [end_transfer_func]. *)
Inductive end_transfer := TransferStop | SectorRead | SectorWrite | DummyTransferStop.

(** The registers of a drive. *)
Record regs := MkRegs {
  r_feature : Z; r_error : Z; r_nsector : Z; r_sector : Z; r_lcyl : Z; r_hcyl : Z; r_hob_feature : Z;
  r_hob_nsector : Z; r_hob_sector : Z; r_hob_lcyl : Z; r_hob_hcyl : Z; r_select : Z; r_status : Z
}.
(** The PIO transfer under way: [data_ptr] and [data_end] are indices of
    [io_buffer]. *)
Record pio := MkPio {
  p_req_nb_sectors : Z; p_end_transfer : end_transfer; p_data_ptr : Z; p_data_end : Z; p_io_buffer : list Z;
  p_io_buffer_index : Z; p_io_buffer_size : Z
}.
(** [struct IDEState], one drive: a hard disk ([is_cdrom] is 0) without a bus
    master ([bmdma] is null), as [isa_ide_init] makes them.  [bs] is the raw image,
    a list of sectors. *)
Record IDEState := MkIDE {
  d_cylinders : Z; d_heads : Z; d_sectors : Z; d_nb_sectors : Z; d_drive_serial : Z;
  d_bs : option (list (list Z)); d_mult_sectors : Z; d_identify_set : Z; d_identify_data : list Z;
  d_cmd : Z; d_lba48 : Z; d_regs : regs; d_pio : pio
}.

(** Assignments to the fields. *)
Definition w_feature (v : Z) (s : regs) : regs :=
  MkRegs v (r_error s) (r_nsector s) (r_sector s) (r_lcyl s) (r_hcyl s) (r_hob_feature s) (r_hob_nsector s)
    (r_hob_sector s) (r_hob_lcyl s) (r_hob_hcyl s) (r_select s) (r_status s).
Definition w_error (v : Z) (s : regs) : regs :=
  MkRegs (r_feature s) v (r_nsector s) (r_sector s) (r_lcyl s) (r_hcyl s) (r_hob_feature s) (r_hob_nsector s)
    (r_hob_sector s) (r_hob_lcyl s) (r_hob_hcyl s) (r_select s) (r_status s).
Definition w_nsector (v : Z) (s : regs) : regs :=
  MkRegs (r_feature s) (r_error s) v (r_sector s) (r_lcyl s) (r_hcyl s) (r_hob_feature s) (r_hob_nsector s)
    (r_hob_sector s) (r_hob_lcyl s) (r_hob_hcyl s) (r_select s) (r_status s).
Definition w_sector (v : Z) (s : regs) : regs :=
  MkRegs (r_feature s) (r_error s) (r_nsector s) v (r_lcyl s) (r_hcyl s) (r_hob_feature s) (r_hob_nsector s)
    (r_hob_sector s) (r_hob_lcyl s) (r_hob_hcyl s) (r_select s) (r_status s).
Definition w_lcyl (v : Z) (s : regs) : regs :=
  MkRegs (r_feature s) (r_error s) (r_nsector s) (r_sector s) v (r_hcyl s) (r_hob_feature s) (r_hob_nsector s)
    (r_hob_sector s) (r_hob_lcyl s) (r_hob_hcyl s) (r_select s) (r_status s).
Definition w_hcyl (v : Z) (s : regs) : regs :=
  MkRegs (r_feature s) (r_error s) (r_nsector s) (r_sector s) (r_lcyl s) v (r_hob_feature s) (r_hob_nsector s)
    (r_hob_sector s) (r_hob_lcyl s) (r_hob_hcyl s) (r_select s) (r_status s).
Definition w_hob_feature (v : Z) (s : regs) : regs :=
  MkRegs (r_feature s) (r_error s) (r_nsector s) (r_sector s) (r_lcyl s) (r_hcyl s) v (r_hob_nsector s)
    (r_hob_sector s) (r_hob_lcyl s) (r_hob_hcyl s) (r_select s) (r_status s).
Definition w_hob_nsector (v : Z) (s : regs) : regs :=
  MkRegs (r_feature s) (r_error s) (r_nsector s) (r_sector s) (r_lcyl s) (r_hcyl s) (r_hob_feature s) v
    (r_hob_sector s) (r_hob_lcyl s) (r_hob_hcyl s) (r_select s) (r_status s).
Definition w_hob_sector (v : Z) (s : regs) : regs :=
  MkRegs (r_feature s) (r_error s) (r_nsector s) (r_sector s) (r_lcyl s) (r_hcyl s) (r_hob_feature s)
    (r_hob_nsector s) v (r_hob_lcyl s) (r_hob_hcyl s) (r_select s) (r_status s).
Definition w_hob_lcyl (v : Z) (s : regs) : regs :=
  MkRegs (r_feature s) (r_error s) (r_nsector s) (r_sector s) (r_lcyl s) (r_hcyl s) (r_hob_feature s)
    (r_hob_nsector s) (r_hob_sector s) v (r_hob_hcyl s) (r_select s) (r_status s).
Definition w_hob_hcyl (v : Z) (s : regs) : regs :=
  MkRegs (r_feature s) (r_error s) (r_nsector s) (r_sector s) (r_lcyl s) (r_hcyl s) (r_hob_feature s)
    (r_hob_nsector s) (r_hob_sector s) (r_hob_lcyl s) v (r_select s) (r_status s).
Definition w_select (v : Z) (s : regs) : regs :=
  MkRegs (r_feature s) (r_error s) (r_nsector s) (r_sector s) (r_lcyl s) (r_hcyl s) (r_hob_feature s)
    (r_hob_nsector s) (r_hob_sector s) (r_hob_lcyl s) (r_hob_hcyl s) v (r_status s).
Definition w_status (v : Z) (s : regs) : regs :=
  MkRegs (r_feature s) (r_error s) (r_nsector s) (r_sector s) (r_lcyl s) (r_hcyl s) (r_hob_feature s)
    (r_hob_nsector s) (r_hob_sector s) (r_hob_lcyl s) (r_hob_hcyl s) (r_select s) v.
Definition w_req_nb_sectors (v : Z) (s : pio) : pio :=
  MkPio v (p_end_transfer s) (p_data_ptr s) (p_data_end s) (p_io_buffer s) (p_io_buffer_index s)
    (p_io_buffer_size s).
Definition w_io_buffer (v : list Z) (s : pio) : pio :=
  MkPio (p_req_nb_sectors s) (p_end_transfer s) (p_data_ptr s) (p_data_end s) v (p_io_buffer_index s)
    (p_io_buffer_size s).
Definition w_bs (v : option (list (list Z))) (s : IDEState) : IDEState :=
  MkIDE (d_cylinders s) (d_heads s) (d_sectors s) (d_nb_sectors s) (d_drive_serial s) v (d_mult_sectors s)
    (d_identify_set s) (d_identify_data s) (d_cmd s) (d_lba48 s) (d_regs s) (d_pio s).
Definition w_mult_sectors (v : Z) (s : IDEState) : IDEState :=
  MkIDE (d_cylinders s) (d_heads s) (d_sectors s) (d_nb_sectors s) (d_drive_serial s) (d_bs s) v
    (d_identify_set s) (d_identify_data s) (d_cmd s) (d_lba48 s) (d_regs s) (d_pio s).
Definition w_cmd (v : Z) (s : IDEState) : IDEState :=
  MkIDE (d_cylinders s) (d_heads s) (d_sectors s) (d_nb_sectors s) (d_drive_serial s) (d_bs s)
    (d_mult_sectors s) (d_identify_set s) (d_identify_data s) v (d_lba48 s) (d_regs s) (d_pio s).
Definition w_lba48 (v : Z) (s : IDEState) : IDEState :=
  MkIDE (d_cylinders s) (d_heads s) (d_sectors s) (d_nb_sectors s) (d_drive_serial s) (d_bs s)
    (d_mult_sectors s) (d_identify_set s) (d_identify_data s) (d_cmd s) v (d_regs s) (d_pio s).
Definition w_regs (v : regs) (s : IDEState) : IDEState :=
  MkIDE (d_cylinders s) (d_heads s) (d_sectors s) (d_nb_sectors s) (d_drive_serial s) (d_bs s)
    (d_mult_sectors s) (d_identify_set s) (d_identify_data s) (d_cmd s) (d_lba48 s) v (d_pio s).
Definition w_pio (v : pio) (s : IDEState) : IDEState :=
  MkIDE (d_cylinders s) (d_heads s) (d_sectors s) (d_nb_sectors s) (d_drive_serial s) (d_bs s)
    (d_mult_sectors s) (d_identify_set s) (d_identify_data s) (d_cmd s) (d_lba48 s) (d_regs s) v.

Definition on_regs (f : regs -> regs) (s : IDEState) : IDEState := w_regs (f (d_regs s)) s.
Definition on_pio (f : pio -> pio) (s : IDEState) : IDEState := w_pio (f (d_pio s)) s.

(** The interface: [ide_if[0]], [ide_if[1]], [cur_drive], and the level last
    given to [set_irq]. *)
Record ide := MkIf { if0 : IDEState; if1 : IDEState; cur_drive : bool; irq_line : Z }.

Definition drive (u : bool) (w : ide) : IDEState := if u then if1 w else if0 w.
Definition dget (u : bool) : M ide IDEState := gets (drive u).
Definition dupd (u : bool) (f : IDEState -> IDEState) : M ide unit :=
  modify (fun w => if u then MkIf (if0 w) (f (if1 w)) (cur_drive w) (irq_line w)
                   else MkIf (f (if0 w)) (if1 w) (cur_drive w) (irq_line w)).
Definition both (f : IDEState -> IDEState) : M ide unit := dupd false f ;;; dupd true f.
Definition set_irq (level : Z) : M ide unit :=
  modify (fun w => MkIf (if0 w) (if1 w) (cur_drive w) level).

(** ** The block layer: a raw image *)

(** [bdrv_read]: the bytes of [n] sectors; [None] is an error. *)
Definition bdrv_read (img : list (list Z)) (sector_num n : Z) : option (list Z) :=
  if decide (0 <= sector_num /\ sector_num + n <= Z.of_nat (length img))
  then Some (concat (take (Z.to_nat n) (drop (Z.to_nat sector_num) img))) else None.
(** [bdrv_write] of the first [n] sectors of [buf]. *)
Fixpoint write_sectors (n : nat) (img : list (list Z)) (i : nat) (buf : list Z) : list (list Z) :=
  match n with
  | O => img
  | S n' => write_sectors n' (<[i := take 512 buf]> img) (S i) (drop 512 buf)
  end.
Definition bdrv_write (img : list (list Z)) (sector_num : Z) (buf : list Z) (n : Z) : option (list (list Z)) :=
  if decide (0 <= sector_num /\ sector_num + n <= Z.of_nat (length img))
  then Some (write_sectors (Z.to_nat n) img (Z.to_nat sector_num) buf) else None.

(** ** Identification *)

(** [put_le16(p + i, v)] on the bytes at [p]. *)
Definition put_le16 (i : nat) (v : Z) (p : list Z) : list Z :=
  <[(2 * i)%nat := u8 v]> (<[(2 * i + 1)%nat := u8 (Z.shiftr v 8)]> p).

(** [padstr(p + i, src, len)]: the bytes of each word are exchanged. *)
Fixpoint padstr (at_ : nat) (src : list Z) (len : nat) (p : list Z) : list Z :=
  match len with
  | O => p
  | S n =>
      padstr (S at_) (tail src) n
        (<[Z.to_nat (Z.lxor (Z.of_nat at_) 1) := match src with c :: _ => c | [] => 32 end]> p)
  end.

(** [snprintf(buf, sizeof(buf), "QM%05d", serial)], for a serial number of at
    most five digits. *)
Definition serial_string (n : Z) : list Z :=
  [81; 77; 48 + n / 10000 mod 10; 48 + n / 1000 mod 10; 48 + n / 100 mod 10; 48 + n / 10 mod 10; 48 + n mod 10].
(** "0.9.0" and "QEMU HARDDISK" *)
Definition QEMU_VERSION : list Z := [48; 46; 57; 46; 48].
Definition MODEL : list Z := [81; 69; 77; 85; 32; 72; 65; 82; 68; 68; 73; 83; 75].

(** The 512 bytes [ide_identify] composes. *)
Definition identify_words (s : IDEState) : list Z :=
  let oldsize := u32 (d_cylinders s * d_heads s * d_sectors s) in
  let p := replicate 512 0 in
  let p := put_le16 0 0x0040 p in
  let p := put_le16 1 (d_cylinders s) p in
  let p := put_le16 3 (d_heads s) p in
  let p := put_le16 4 (512 * d_sectors s) p in
  let p := put_le16 5 512 p in
  let p := put_le16 6 (d_sectors s) p in
  let p := padstr 20 (serial_string (d_drive_serial s)) 20 p in
  let p := put_le16 20 3 p in
  let p := put_le16 21 512 p in
  let p := put_le16 22 4 p in
  let p := padstr 46 QEMU_VERSION 8 p in
  let p := padstr 54 MODEL 40 p in
  let p := put_le16 47 (Z.lor 0x8000 MAX_MULT_SECTORS) p in
  let p := put_le16 48 1 p in
  let p := put_le16 49 0xb00 p in
  let p := put_le16 51 0x200 p in
  let p := put_le16 52 0x200 p in
  let p := put_le16 53 7 p in
  let p := put_le16 54 (d_cylinders s) p in
  let p := put_le16 55 (d_heads s) p in
  let p := put_le16 56 (d_sectors s) p in
  let p := put_le16 57 oldsize p in
  let p := put_le16 58 (Z.shiftr oldsize 16) p in
  let p := if d_mult_sectors s =? 0 then p else put_le16 59 (Z.lor 0x100 (d_mult_sectors s)) p in
  let p := put_le16 60 (d_nb_sectors s) p in
  let p := put_le16 61 (Z.shiftr (d_nb_sectors s) 16) p in
  let p := put_le16 63 0x07 p in
  let p := put_le16 65 120 p in
  let p := put_le16 66 120 p in
  let p := put_le16 67 120 p in
  let p := put_le16 68 120 p in
  let p := put_le16 80 0xf0 p in
  let p := put_le16 81 0x16 p in
  let p := put_le16 82 0x4000 p in
  let p := put_le16 83 0x7400 p in
  let p := put_le16 84 0x4000 p in
  let p := put_le16 85 0x4000 p in
  let p := put_le16 86 0x7400 p in
  let p := put_le16 87 0x4000 p in
  let p := put_le16 88 0x203f p in
  let p := put_le16 93 0x6001 p in
  let p := put_le16 100 (d_nb_sectors s) p in
  let p := put_le16 101 (Z.shiftr (d_nb_sectors s) 16) p in
  let p := put_le16 102 (Z.shiftr (d_nb_sectors s) 32) p in
  put_le16 103 (Z.shiftr (d_nb_sectors s) 48) p.

(** Bytes stored at the start of [io_buffer]. *)
Definition fill_buffer (u : bool) (bytes : list Z) : M ide unit :=
  s <- dget u ;;
  b <- of_option OutOfBounds (memcpy (p_io_buffer (d_pio s)) bytes (length bytes)) ;;
  dupd u (on_pio (w_io_buffer b)).

(** [static void ide_identify(IDEState *s)] *)
Definition ide_identify (u : bool) : M ide unit :=
  s <- dget u ;;
  if negb (d_identify_set s =? 0) then fill_buffer u (d_identify_data s)
  else
    fill_buffer u (identify_words s) ;;;
    dupd u (fun s => MkIDE (d_cylinders s) (d_heads s) (d_sectors s) (d_nb_sectors s) (d_drive_serial s) (d_bs s)
      (d_mult_sectors s) 1 (identify_words s) (d_cmd s) (d_lba48 s) (d_regs s) (d_pio s)).

(** ** Status, interrupt and transfer *)

(** [ide_set_signature], [ide_abort_command], [ide_set_irq] *)
Definition ide_set_signature (u : bool) : M ide unit :=
  dupd u (fun s => on_regs (fun r =>
    let c := match d_bs s with Some _ => 0 | None => 0xff end in
    w_hcyl c (w_lcyl c (w_sector 1 (w_nsector 1 (w_select (Z.land (r_select r) 0xf0) r))))) s).
Definition ide_abort_command (u : bool) : M ide unit :=
  dupd u (on_regs (fun r => w_error ABRT_ERR (w_status (Z.lor READY_STAT ERR_STAT) r))).
Definition ide_set_irq (u : bool) : M ide unit :=
  s <- dget u ;;
  if Z.land (d_cmd s) IDE_CMD_DISABLE_IRQ =? 0 then set_irq 1 else ret tt.

Definition set_status (u : bool) (v : Z) : M ide unit := dupd u (on_regs (w_status v)).
Definition set_error (u : bool) (v : Z) : M ide unit := dupd u (on_regs (w_error v)).

(** [ide_transfer_start(s, s->io_buffer, size, f)], [ide_transfer_stop] and
    [ide_dummy_transfer_stop] *)
Definition point_at (e : Z) (f : end_transfer) (p : pio) : pio :=
  MkPio (p_req_nb_sectors p) f 0 e (p_io_buffer p) (p_io_buffer_index p) (p_io_buffer_size p).
Definition ide_transfer_start (u : bool) (size : Z) (f : end_transfer) : M ide unit :=
  dupd u (fun s => on_regs (fun r => w_status (Z.lor (r_status r) DRQ_STAT) r) (on_pio (point_at size f) s)).
Definition ide_transfer_stop (u : bool) : M ide unit :=
  dupd u (fun s => on_regs (fun r => w_status (Z.land (r_status r) (Z.lnot DRQ_STAT)) r)
                     (on_pio (point_at 0 TransferStop) s)).
Definition ide_dummy_transfer_stop (u : bool) : M ide unit :=
  dupd u (on_pio (fun p => point_at 0 (p_end_transfer p) p)) ;;;
  fill_buffer u [0xff; 0xff; 0xff; 0xff].

(** [static int64_t ide_get_sector(IDEState *s)] *)
Definition ide_get_sector (s : IDEState) : Z :=
  let r := d_regs s in
  if negb (Z.land (r_select r) 0x40 =? 0) then
    if d_lba48 s =? 0 then
      Z.lor (Z.lor (Z.lor (Z.shiftl (Z.land (r_select r) 0x0f) 24) (Z.shiftl (r_hcyl r) 16))
                   (Z.shiftl (r_lcyl r) 8)) (r_sector r)
    else
      Z.lor (Z.lor (Z.lor (Z.lor (Z.lor (Z.shiftl (r_hob_hcyl r) 40) (Z.shiftl (r_hob_lcyl r) 32))
        (Z.shiftl (r_hob_sector r) 24)) (Z.shiftl (r_hcyl r) 16)) (Z.shiftl (r_lcyl r) 8)) (r_sector r)
  else
    s32 (Z.lor (Z.shiftl (r_hcyl r) 8) (r_lcyl r) * d_heads s * d_sectors s +
         Z.land (r_select r) 0x0f * d_sectors s + (r_sector r - 1)).

(** [static void ide_set_sector(IDEState *s, int64_t sector_num)] *)
Definition ide_set_sector (u : bool) (n : Z) : M ide unit :=
  s <- dget u ;;
  let r := d_regs s in
  if negb (Z.land (r_select r) 0x40 =? 0) then
    if d_lba48 s =? 0 then
      dupd u (on_regs (fun r =>
        w_sector (u8 n) (w_lcyl (u8 (Z.shiftr n 8)) (w_hcyl (u8 (Z.shiftr n 16))
          (w_select (u8 (Z.lor (Z.land (r_select r) 0xf0) (Z.shiftr n 24))) r)))))
    else
      dupd u (on_regs (fun r =>
        w_hob_hcyl (u8 (Z.shiftr n 40)) (w_hob_lcyl (u8 (Z.shiftr n 32)) (w_hob_sector (u8 (Z.shiftr n 24))
          (w_hcyl (u8 (Z.shiftr n 16)) (w_lcyl (u8 (Z.shiftr n 8)) (w_sector (u8 n) r)))))))
  else if s32 (d_heads s * d_sectors s) =? 0 then stop DivByZero
  else
    let cyl := u32 (Z.quot n (s32 (d_heads s * d_sectors s))) in
    let r := u32 (Z.rem n (s32 (d_heads s * d_sectors s))) in
    dupd u (on_regs (fun x =>
      w_sector (u8 (r mod d_sectors s + 1))
        (w_select (Z.lor (Z.land (r_select x) 0xf0) (Z.land (r / d_sectors s) 0x0f))
          (w_lcyl (u8 cyl) (w_hcyl (u8 (Z.shiftr cyl 8)) x))))).

(** [static void ide_sector_read(IDEState *s)] *)
Definition ide_sector_read (u : bool) : M ide unit :=
  set_status u (Z.lor READY_STAT SEEK_STAT) ;;;
  set_error u 0 ;;;
  s <- dget u ;;
  let sector_num := ide_get_sector s in
  let n := r_nsector (d_regs s) in
  if n =? 0 then ide_transfer_stop u
  else
    let n := Z.min n (p_req_nb_sectors (d_pio s)) in
    img <- of_option NullDeref (d_bs s) ;;
    (match bdrv_read img sector_num n with Some bytes => fill_buffer u bytes | None => ret tt end) ;;;
    ide_transfer_start u (512 * n) SectorRead ;;;
    ide_set_irq u ;;;
    ide_set_sector u (sector_num + n) ;;;
    dupd u (on_regs (fun r => w_nsector (u32 (r_nsector r - n)) r)).

(** [static void ide_sector_write(IDEState *s)] *)
Definition ide_sector_write (u : bool) : M ide unit :=
  set_status u (Z.lor READY_STAT SEEK_STAT) ;;;
  s <- dget u ;;
  let sector_num := ide_get_sector s in
  let n := Z.min (r_nsector (d_regs s)) (p_req_nb_sectors (d_pio s)) in
  img <- of_option NullDeref (d_bs s) ;;
  (match bdrv_write img sector_num (p_io_buffer (d_pio s)) n with
   | Some img' => dupd u (w_bs (Some img')) | None => ret tt end) ;;;
  dupd u (on_regs (fun r => w_nsector (u32 (r_nsector r - n)) r)) ;;;
  s <- dget u ;;
  (if r_nsector (d_regs s) =? 0 then ide_transfer_stop u
   else ide_transfer_start u (512 * Z.min (r_nsector (d_regs s)) (p_req_nb_sectors (d_pio s))) SectorWrite) ;;;
  ide_set_sector u (sector_num + n) ;;;
  ide_set_irq u.

(** [s->end_transfer_func(s)] *)
Definition end_transfer_func (u : bool) : M ide unit :=
  s <- dget u ;;
  match p_end_transfer (d_pio s) with
  | TransferStop => ide_transfer_stop u
  | SectorRead => ide_sector_read u
  | SectorWrite => ide_sector_write u
  | DummyTransferStop => ide_dummy_transfer_stop u
  end.

(** [static void ide_cmd_lba48_transform(IDEState *s, int lba48)] *)
Definition ide_cmd_lba48_transform (u : bool) (lba48 : Z) : M ide unit :=
  dupd u (fun s =>
    let n := r_nsector (d_regs s) in
    let h := r_hob_nsector (d_regs s) in
    let n' := if lba48 =? 0 then (if n =? 0 then 256 else n)
              else if (n =? 0) && (h =? 0) then 65536 else Z.lor (Z.shiftl h 8) n in
    on_regs (w_nsector n') (w_lba48 lba48 s)).

(** [static void ide_clear_hob(IDEState *ide_if)] *)
Definition ide_clear_hob : M ide unit := both (on_regs (fun r => w_select (Z.land (r_select r) 0x7f) r)).

(** [ide_sector_read_dma] and [ide_sector_write_dma] without a bus master. *)
Definition ide_sector_dma (u : bool) : M ide unit :=
  dupd u (fun s => on_regs (w_status (Z.lor (Z.lor (Z.lor READY_STAT SEEK_STAT) DRQ_STAT) BUSY_STAT))
    (on_pio (fun p => MkPio (p_req_nb_sectors p) (p_end_transfer p) (p_data_ptr p) (p_data_end p) (p_io_buffer p)
                        0 0) s)).

(** [abort_cmd:] *)
Definition abort_cmd (u : bool) : M ide unit := ide_abort_command u ;;; ide_set_irq u.
Definition status_irq (u : bool) (v : Z) : M ide unit := set_status u v ;;; ide_set_irq u.

(** [case WIN_SETFEATURES] *)
Definition set_features (u : bool) : M ide unit :=
  s <- dget u ;;
  let f := r_feature (d_regs s) in
  let n := r_nsector (d_regs s) in
  match d_bs s with
  | None => abort_cmd u
  | Some _ =>
      if bool_decide (f ∈ [0x02; 0x82; 0xaa; 0x55]) then status_irq u (Z.lor READY_STAT SEEK_STAT)
      else if f =? 0x03 then
        let put w63 w88 :=
          dupd u (fun s => MkIDE (d_cylinders s) (d_heads s) (d_sectors s) (d_nb_sectors s) (d_drive_serial s) (d_bs s)
            (d_mult_sectors s) (d_identify_set s) (put_le16 88 w88 (put_le16 63 w63 (d_identify_data s)))
            (d_cmd s) (d_lba48 s) (d_regs s) (d_pio s)) ;;;
          status_irq u (Z.lor READY_STAT SEEK_STAT) in
        let mode := Z.shiftl 1 (Z.land n 0x07 + 8) in
        let k := Z.shiftr n 3 in
        if (k =? 0) || (k =? 1) then put 0x07 0x3f
        else if k =? 4 then put (Z.lor 0x07 mode) 0x3f
        else if k =? 8 then put 0x07 (Z.lor 0x3f mode)
        else abort_cmd u
      else abort_cmd u
  end.

(** [case 7] of [ide_ioport_write], for a drive that takes commands. *)
Definition ide_command (u : bool) (val : Z) : M ide unit :=
  let lba48 := if bool_decide (val ∈ [0x42; 0x24; 0x34; 0x29; 0x39; 0x25; 0x35; 0x27]) then 1 else 0 in
  s <- dget u ;;
  if val =? 0xEC then                                                  (* WIN_IDENTIFY *)
    (match d_bs s with
     | Some _ => ide_identify u ;;; set_status u (Z.lor READY_STAT SEEK_STAT) ;;; ide_transfer_start u 512 TransferStop
     | None => ide_abort_command u
     end) ;;;
    ide_set_irq u
  else if (val =? 0x91) || (val =? 0x10) then                          (* WIN_SPECIFY, WIN_RECAL *)
    set_error u 0 ;;; status_irq u (Z.lor READY_STAT SEEK_STAT)
  else if val =? 0xC6 then                                             (* WIN_SETMULT *)
    let n := r_nsector (d_regs s) in
    (if (MAX_MULT_SECTORS <? n) || (n =? 0) || negb (Z.land n (n - 1) =? 0) then ide_abort_command u
     else dupd u (w_mult_sectors n) ;;; set_status u READY_STAT) ;;;
    ide_set_irq u
  else if bool_decide (val ∈ [0x42; 0x40; 0x41]) then                  (* WIN_VERIFY *)
    ide_cmd_lba48_transform u lba48 ;;; status_irq u READY_STAT
  else if bool_decide (val ∈ [0x24; 0x20; 0x21]) then                  (* WIN_READ *)
    match d_bs s with
    | None => abort_cmd u
    | Some _ =>
        ide_cmd_lba48_transform u lba48 ;;; dupd u (on_pio (w_req_nb_sectors 1)) ;;; ide_sector_read u
    end
  else if bool_decide (val ∈ [0x34; 0x30; 0x31]) then                  (* WIN_WRITE *)
    ide_cmd_lba48_transform u lba48 ;;;
    set_error u 0 ;;;
    set_status u (Z.lor SEEK_STAT READY_STAT) ;;;
    dupd u (on_pio (w_req_nb_sectors 1)) ;;;
    ide_transfer_start u 512 SectorWrite
  else if bool_decide (val ∈ [0x29; 0xC4]) then                        (* WIN_MULTREAD *)
    if d_mult_sectors s =? 0 then abort_cmd u
    else
      ide_cmd_lba48_transform u lba48 ;;; dupd u (on_pio (w_req_nb_sectors (d_mult_sectors s))) ;;; ide_sector_read u
  else if bool_decide (val ∈ [0x39; 0xC5]) then                        (* WIN_MULTWRITE *)
    if d_mult_sectors s =? 0 then abort_cmd u
    else
      ide_cmd_lba48_transform u lba48 ;;;
      set_error u 0 ;;;
      set_status u (Z.lor SEEK_STAT READY_STAT) ;;;
      dupd u (on_pio (w_req_nb_sectors (d_mult_sectors s))) ;;;
      s <- dget u ;;
      ide_transfer_start u (512 * Z.min (r_nsector (d_regs s)) (p_req_nb_sectors (d_pio s))) SectorWrite
  else if bool_decide (val ∈ [0x25; 0xC8; 0xC9; 0x35; 0xCA; 0xCB]) then (* WIN_READDMA, WIN_WRITEDMA *)
    match d_bs s with
    | None => abort_cmd u
    | Some _ => ide_cmd_lba48_transform u lba48 ;;; ide_sector_dma u
    end
  else if bool_decide (val ∈ [0x27; 0xF8]) then                        (* WIN_READ_NATIVE_MAX *)
    ide_cmd_lba48_transform u lba48 ;;; ide_set_sector u (d_nb_sectors s - 1) ;;; status_irq u READY_STAT
  else if val =? 0xE5 then                                             (* WIN_CHECKPOWERMODE1 *)
    dupd u (on_regs (w_nsector 0xff)) ;;; status_irq u READY_STAT
  else if val =? 0xEF then set_features u                              (* WIN_SETFEATURES *)
  else if bool_decide (val ∈ [0xE7; 0xEA; 0xE0; 0xE1]) then            (* WIN_FLUSH_CACHE, WIN_STANDBYNOW1, WIN_IDLEIMMEDIATE *)
    status_irq u READY_STAT
  else if val =? 0x90 then                                             (* WIN_DIAGNOSE *)
    ide_set_signature u ;;; set_status u 0x00 ;;; set_error u 0x01
  else abort_cmd u.

(** [static void ide_ioport_write(void *opaque, uint32_t addr, uint32_t val)] *)
Definition ide_ioport_write (addr val : Z) : M ide unit :=
  let addr := Z.land addr 7 in
  if addr =? 0 then ret tt
  else if addr =? 1 then
    ide_clear_hob ;;; both (on_regs (fun r => w_feature val (w_hob_feature (r_feature r) r)))
  else if addr =? 2 then
    ide_clear_hob ;;; both (on_regs (fun r => w_nsector val (w_hob_nsector (u8 (r_nsector r)) r)))
  else if addr =? 3 then
    ide_clear_hob ;;; both (on_regs (fun r => w_sector val (w_hob_sector (r_sector r) r)))
  else if addr =? 4 then
    ide_clear_hob ;;; both (on_regs (fun r => w_lcyl val (w_hob_lcyl (r_lcyl r) r)))
  else if addr =? 5 then
    ide_clear_hob ;;; both (on_regs (fun r => w_hcyl val (w_hob_hcyl (r_hcyl r) r)))
  else if addr =? 6 then
    dupd false (on_regs (w_select (Z.lor (Z.land val (Z.lnot 0x10)) 0xa0))) ;;;
    dupd true (on_regs (w_select (Z.lor (Z.lor val 0x10) 0xa0))) ;;;
    modify (fun w => MkIf (if0 w) (if1 w) (negb (Z.land (Z.shiftr val 4) 1 =? 0)) (irq_line w))
  else
    w <- get ;;
    if cur_drive w && bool_decide (d_bs (if1 w) = None) then ret tt
    else ide_command (cur_drive w) val.

(** No drive has an image. *)
Definition no_drives (w : ide) : bool := bool_decide (d_bs (if0 w) = None) && bool_decide (d_bs (if1 w) = None).

(** [ide_status_read], and [ide_ioport_read]; reading the status there lowers
    the interrupt line. *)
Definition ide_status_read : M ide Z :=
  w <- get ;;
  ret (if no_drives w || (cur_drive w && bool_decide (d_bs (if1 w) = None)) then 0
       else r_status (d_regs (drive (cur_drive w) w))).
Definition ide_ioport_read (addr : Z) : M ide Z :=
  w <- get ;;
  let r := d_regs (drive (cur_drive w) w) in
  let present (v : Z) := if no_drives w then 0 else v in
  let addr := Z.land addr 7 in
  if addr =? 0 then ret 0xff
  else if addr =? 1 then ret (present (r_error r))
  else if addr =? 2 then ret (present (Z.land (r_nsector r) 0xff))
  else if addr =? 3 then ret (present (r_sector r))
  else if addr =? 4 then ret (present (r_lcyl r))
  else if addr =? 5 then ret (present (r_hcyl r))
  else if addr =? 6 then ret (present (r_select r))
  else v <- ide_status_read ;; set_irq 0 ;;; ret v.

(** [static void ide_cmd_write(void *opaque, uint32_t addr, uint32_t val)] *)
Definition ide_cmd_write (val : Z) : M ide unit :=
  w <- get ;;
  let old := negb (Z.land (d_cmd (if0 w)) IDE_CMD_RESET =? 0) in
  let new := negb (Z.land val IDE_CMD_RESET =? 0) in
  (if negb old && new then both (on_regs (fun r => w_error 0x01 (w_status (Z.lor BUSY_STAT SEEK_STAT) r)))
   else if old && negb new then
     set_status false (Z.lor READY_STAT SEEK_STAT) ;;; ide_set_signature false ;;;
     set_status true (Z.lor READY_STAT SEEK_STAT) ;;; ide_set_signature true
   else ret tt) ;;;
  both (w_cmd val).

(** The data port: [ide_data_writew] and [ide_data_readw]. *)
Definition advance (u : bool) (p : Z) : M ide unit :=
  dupd u (on_pio (fun x => MkPio (p_req_nb_sectors x) (p_end_transfer x) p (p_data_end x) (p_io_buffer x)
                             (p_io_buffer_index x) (p_io_buffer_size x))) ;;;
  s <- dget u ;;
  if p_data_end (d_pio s) <=? p then end_transfer_func u else ret tt.
Definition ide_data_writew (val : Z) : M ide unit :=
  w <- get ;;
  let u := cur_drive w in
  s <- dget u ;;
  let p := p_data_ptr (d_pio s) in
  b <- of_option OutOfBounds (aset (p_io_buffer (d_pio s)) p (u8 val)) ;;
  b <- of_option OutOfBounds (aset b (p + 1) (u8 (Z.shiftr val 8))) ;;
  dupd u (on_pio (w_io_buffer b)) ;;;
  advance u (p + 2).
Definition ide_data_readw : M ide Z :=
  w <- get ;;
  let u := cur_drive w in
  s <- dget u ;;
  let p := p_data_ptr (d_pio s) in
  lo <- of_option OutOfBounds (aget (p_io_buffer (d_pio s)) p) ;;
  hi <- of_option OutOfBounds (aget (p_io_buffer (d_pio s)) (p + 1)) ;;
  advance u (p + 2) ;;;
  ret (lo + 256 * hi).

(** [ide_data_writel] and [ide_data_readl] *)
Definition le_long (bs : list Z) : Z := foldr (fun b v => b + 256 * v) 0 bs.
Definition ide_data_writel (val : Z) : M ide unit :=
  w <- get ;;
  let u := cur_drive w in
  s <- dget u ;;
  let p := p_data_ptr (d_pio s) in
  b <- of_option OutOfBounds (awrite (p_io_buffer (d_pio s)) p
         [u8 val; u8 (Z.shiftr val 8); u8 (Z.shiftr val 16); u8 (Z.shiftr val 24)]) ;;
  dupd u (on_pio (w_io_buffer b)) ;;;
  advance u (p + 4).
Definition ide_data_readl : M ide Z :=
  w <- get ;;
  let u := cur_drive w in
  s <- dget u ;;
  let p := p_data_ptr (d_pio s) in
  bs <- of_option OutOfBounds (aread (p_io_buffer (d_pio s)) p 4) ;;
  advance u (p + 4) ;;;
  ret (le_long bs).

(** [static void ide_reset(IDEState *s)] *)
Definition ide_reset (u : bool) : M ide unit :=
  dupd u (w_mult_sectors MAX_MULT_SECTORS) ;;;
  (if u then ret tt else modify (fun w => MkIf (if0 w) (if1 w) false (irq_line w))) ;;;
  dupd u (on_regs (w_select 0xa0)) ;;;
  set_status u READY_STAT ;;;
  ide_set_signature u ;;;
  dupd u (on_pio (point_at 0 DummyTransferStop)) ;;;
  ide_dummy_transfer_stop u.

(** The ports [ide_init_ioport] registers for the first ISA interface, as
    [isa_ide_init(0x1f0, 0x3f6, ...)]. *)
Definition ide_inb (port : Z) : M ide Z :=
  if decide (0x1f0 <= port <= 0x1f7) then ide_ioport_read port
  else if port =? 0x3f6 then ide_status_read else ret 0xff.
Definition ide_outb (port val : Z) : M ide unit :=
  if decide (0x1f0 <= port <= 0x1f7) then ide_ioport_write port val
  else if port =? 0x3f6 then ide_cmd_write val else ret tt.

#[export] Instance ide_ports : PortIO ide := {
  inportb := ide_inb;
  outportb port val := ide_outb port (u8 val);
  inportw port := if port =? 0x1f0 then ide_data_readw else default_ioport_readw ide_inb port;
  outportw port val := if port =? 0x1f0 then ide_data_writew (u16 val) else default_ioport_writew ide_outb port (u16 val)
}.
