(* ===== verification/IdePio.v ===== *)
(** Sectors through the data port: what a drive of Ide delivers while a READ
    command is under way, and what it stores during a WRITE command. *)
From S2P Require Import Prelude LibC Port Ide.

(** * Addresses *)

(** A geometry the address registers can hold. *)
Definition geom_ok (C H S : Z) : Prop := 1 <= C <= 65535 /\ 1 <= H <= 16 /\ 1 <= S <= 255.

Lemma geom_small C H S : geom_ok C H S -> 0 < C * H * S < 2 ^ 28 /\ 65536 * H * S < 2 ^ 29.
Proof. intros (HC & HH & HS). assert (0 < C * H <= 65535 * 16) by nia. nia. Qed.

Lemma u16_split c : 0 <= c < 65536 -> Z.lor (Z.shiftl (u8 (Z.shiftr c 8)) 8) (u8 c) = c.
Proof.
  intros Hc. apply Z.bits_inj'. intros k Hk. rewrite Z.lor_spec, Z.shiftl_spec by done.
  destruct (decide (k < 8)).
  - rewrite (Z.testbit_neg_r _ (k - 8)) by lia. rewrite u8_testbit by lia. done.
  - rewrite (u8_testbit_high (u8 c) k) by (apply u8_range || lia). rewrite orb_false_r.
    destruct (decide (k < 16)).
    + rewrite u8_testbit, Z.shiftr_spec by lia. f_equal. lia.
    + rewrite (u8_testbit_high _ (k - 8)) by (apply u8_range || lia). symmetry.
      rewrite <- (Z.mod_small c (2 ^ 16)) by lia. apply Z.mod_pow2_bits_high. lia.
Qed.

Lemma land_0f h : 0 <= h < 16 -> Z.land h 0x0f = h.
Proof. intros Hh. change 0x0f with (Z.ones 4). rewrite Z.land_ones by lia. by apply Z.mod_small. Qed.

(** The head field of the drive register. *)
Lemma head_bits sel h :
  Z.land (Z.lor (Z.land sel 0xf0) (Z.land h 0x0f)) 0x40 = Z.land sel 0x40 /\
  Z.land (Z.lor (Z.land sel 0xf0) (Z.land h 0x0f)) 0x0f = Z.land h 0x0f.
Proof.
  rewrite !Z.land_lor_distr_l, <- !Z.land_assoc. change (Z.land 0xf0 0x40) with 0x40.
  change (Z.land 0x0f 0x40) with 0. change (Z.land 0xf0 0x0f) with 0. change (Z.land 0x0f 0x0f) with 0x0f.
  rewrite !Z.land_0_r, Z.lor_0_r. done.
Qed.

(** The registers after [ide_set_sector] in CHS mode. *)
Definition seek_regs (H S n : Z) (x : regs) : regs :=
  w_sector (u8 (n mod (H * S) mod S + 1))
    (w_select (Z.lor (Z.land (r_select x) 0xf0) (Z.land (n mod (H * S) / S) 0x0f))
      (w_lcyl (u8 (n / (H * S))) (w_hcyl (u8 (Z.shiftr (n / (H * S)) 8)) x))).

(** A drive addressed by cylinder, head and sector. *)
Record chs (s : IDEState) (H S : Z) : Prop := {
  chs_sel : Z.land (r_select (d_regs s)) 0x40 = 0;
  chs_heads : d_heads s = H;
  chs_sectors : d_sectors s = S
}.

Lemma chs_same s s' H S :
  chs s H S -> r_select (d_regs s') = r_select (d_regs s) -> d_heads s' = d_heads s -> d_sectors s' = d_sectors s ->
  chs s' H S.
Proof. intros [] E1 E2 E3. split; congruence. Qed.

Lemma set_sector_ok u w C H S n :
  geom_ok C H S -> chs (drive u w) H S -> 0 <= n < 65536 * H * S ->
  ide_set_sector u n w = dupd u (on_regs (seek_regs H S n)) w.
Proof.
  intros (HC & HH & HS) [Hsel Hh Hs] Hn. unfold ide_set_sector, dget. rewrite bind_gets. cbv beta.
  rewrite Hsel, Hh, Hs. cbn [Z.eqb negb]. assert (1 <= H * S <= 4080) as Hhs by nia.
  rewrite s32_small by (unfold is_s32; lia). rewrite (proj2 (Z.eqb_neq _ _)) by lia.
  rewrite Z.quot_div_nonneg, Z.rem_mod_nonneg by lia.
  assert (0 <= n / (H * S) < 65536) by (split; [apply Z.div_pos; lia|apply Z.div_lt_upper_bound; lia]).
  pose proof (Z.mod_pos_bound n (H * S) ltac:(lia)).
  rewrite !u32_small by (unfold is_u32; lia). reflexivity.
Qed.

Lemma get_seek s C H S n :
  geom_ok C H S -> chs s H S -> 0 <= n < 65536 * H * S ->
  chs (on_regs (seek_regs H S n) s) H S /\ ide_get_sector (on_regs (seek_regs H S n) s) = n.
Proof.
  intros (HC & HH & HS) [Hsel Hh Hs] Hn. assert (1 <= H * S <= 4080) as Hhs by nia.
  pose proof (head_bits (r_select (d_regs s)) (n mod (H * S) / S)) as [Hb1 Hb2].
  assert (Z.land (r_select (d_regs (on_regs (seek_regs H S n) s))) 0x40 = 0) as Hsel' by (cbn; by rewrite Hb1).
  split; [by split|]. unfold ide_get_sector. rewrite Hsel'. cbn [Z.eqb negb].
  cbn [on_regs seek_regs d_regs w_regs r_hcyl r_lcyl r_select r_sector w_sector w_select w_lcyl w_hcyl d_heads d_sectors].
  rewrite Hh, Hs, Hb2.
  assert (0 <= n / (H * S) < 65536) by (split; [apply Z.div_pos; lia|apply Z.div_lt_upper_bound; lia]).
  pose proof (Z.mod_pos_bound n (H * S) ltac:(lia)). rewrite u16_split by lia.
  assert (0 <= n mod (H * S) / S < H) as Hd by (split; [apply Z.div_pos; lia|apply Z.div_lt_upper_bound; lia]).
  rewrite land_0f by lia.
  pose proof (Z.mod_pos_bound (n mod (H * S)) S ltac:(lia)).
  rewrite u8_small by (unfold is_u8; lia).
  replace (n / (H * S) * H * S + n mod (H * S) / S * S + (n mod (H * S) mod S + 1 - 1)) with n.
  - apply s32_small. unfold is_s32. nia.
  - pose proof (Z.div_mod n (H * S) ltac:(lia)). pose proof (Z.div_mod (n mod (H * S)) S ltac:(lia)). nia.
Qed.

(** * Transfers on the first drive *)

Lemma drop_two (l : list Z) (p : nat) :
  (p + 2 <= length l)%nat ->
  exists x y, l !! p = Some x /\ l !! S p = Some y /\ drop p l = x :: y :: drop (p + 2) l.
Proof.
  intros Hp. destruct (lookup_lt_is_Some_2 l p) as [x Ex]; [lia|].
  destruct (lookup_lt_is_Some_2 l (S p)) as [y Ey]; [lia|]. exists x, y. split; [done|]. split; [done|].
  rewrite (drop_S _ _ _ Ex), (drop_S _ _ _ Ey). do 3 f_equal. lia.
Qed.

Section Transfer.
Context (C H S : Z) (Hg : geom_ok C H S).

(** The first drive is selected, with image [img]; it raises interrupts and
    transfers one sector at a time. *)
Record selected (w : ide) (img : list (list Z)) : Prop := {
  sl_cur : cur_drive w = false;
  sl_bs : d_bs (if0 w) = Some img;
  sl_chs : chs (if0 w) H S;
  sl_req : p_req_nb_sectors (d_pio (if0 w)) = 1;
  sl_buf : Z.of_nat (length (p_io_buffer (d_pio (if0 w)))) = 8196;
  sl_cmd : Z.land (d_cmd (if0 w)) IDE_CMD_DISABLE_IRQ = 0
}.

Definition wf_image (img : list (list Z)) : Prop :=
  Forall (fun b => length b = 512%nat /\ Forall is_u8 b) img /\ Z.of_nat (length img) <= 65535 * H * S.

(** [reading img w bytes]: the data port will deliver [bytes]: what is left of
    the sector in the buffer and the [n] sectors from [q] on. *)
Record reading_at (img : list (list Z)) (w : ide) (ptr q n : Z) : Prop := {
  ra_sel : selected w img;
  ra_end : p_end_transfer (d_pio (if0 w)) = SectorRead;
  ra_ptr : p_data_ptr (d_pio (if0 w)) = ptr;
  ra_dend : p_data_end (d_pio (if0 w)) = 512;
  ra_range : 0 <= ptr < 512 /\ ptr mod 2 = 0;
  ra_cnt : r_nsector (d_regs (if0 w)) = n;
  ra_left : 0 <= q /\ 0 <= n /\ q + n <= Z.of_nat (length img);
  ra_next : ide_get_sector (if0 w) = q;
  ra_status : r_status (d_regs (if0 w)) = 0x58
}.
Definition stream (img : list (list Z)) (w : ide) (ptr q n : Z) : list Z :=
  drop (Z.to_nat ptr) (take 512 (p_io_buffer (d_pio (if0 w)))) ++ concat (take (Z.to_nat n) (drop (Z.to_nat q) img)).

Inductive reading (img : list (list Z)) (w : ide) : list Z -> Prop :=
| reading_more ptr q n : reading_at img w ptr q n -> reading img w (stream img w ptr q n)
| reading_done : selected w img -> r_status (d_regs (if0 w)) = 0x50 -> reading img w [].

Lemma reading_selected img w bytes : reading img w bytes -> selected w img.
Proof using Type. destruct 1 as [ptr q n Hra|Hsel]; [exact (ra_sel _ _ _ _ _ Hra)|exact Hsel]. Qed.

Lemma bdrv_read_one img q b :
  0 <= q -> img !! Z.to_nat q = Some b -> bdrv_read img q 1 = Some b.
Proof.
  intros Hq E. pose proof (lookup_lt_Some _ _ _ E). unfold bdrv_read. rewrite decide_True by lia.
  change (Z.to_nat 1) with 1%nat. erewrite drop_S by exact E. cbn. by rewrite firstn_O, app_nil_r.
Qed.

(** One turn of [ide_sector_read]: the next sector is in the buffer, or the
    transfer is over. *)
Lemma sector_read_ok w img q n :
  wf_image img -> selected w img -> ide_get_sector (if0 w) = q -> r_nsector (d_regs (if0 w)) = n ->
  0 <= q -> 0 <= n < 2 ^ 31 -> q + n <= Z.of_nat (length img) ->
  exists w', ide_sector_read false w = Ok tt w' /\ reading img w' (concat (take (Z.to_nat n) (drop (Z.to_nat q) img))) /\
    (0 < n -> irq_line w' = 1).
Proof using Hg.
  intros [Himg Hcap] Hsel Hq Hn H0 Hn0 Hle. pose proof Hsel as [Hcur Hbs Hchs Hreq Hbuf Hcmd].
  destruct w as [s0 s1 cu ln]. cbn [if0 cur_drive] in *. subst cu.
  unfold ide_sector_read, set_status, set_error, dget, dupd. msteps. cbn [drive if0 if1 cur_drive irq_line].
  set (s := on_regs (w_error 0) (on_regs (w_status (Z.lor READY_STAT SEEK_STAT)) s0)).
  change (ide_get_sector s) with (ide_get_sector s0). change (r_nsector (d_regs s)) with (r_nsector (d_regs s0)).
  change (p_req_nb_sectors (d_pio s)) with (p_req_nb_sectors (d_pio s0)). change (d_bs s) with (d_bs s0).
  rewrite Hq, Hn, Hreq, Hbs.
  destruct (Z.eqb_spec n 0) as [->|Hne].
  { eexists. split; [reflexivity|]. split; [|lia]. apply reading_done; [|reflexivity].
    split; try done. by apply (chs_same s0). }
  rewrite Z.min_r by lia. cbn [of_option]. msteps.
  destruct (lookup_lt_is_Some_2 img (Z.to_nat q)) as [b Eb]; [lia|].
  rewrite (bdrv_read_one img q b) by done. pose proof (Forall_lookup_1 _ _ _ _ Himg Eb) as [Hb _].
  unfold fill_buffer, dget. msteps. cbn [drive if0]. change (p_io_buffer (d_pio s)) with (p_io_buffer (d_pio s0)).
  rewrite memcpy_spec by lia. cbn [of_option]. rewrite firstn_all. msteps.
  set (buf := b ++ drop (length b) (p_io_buffer (d_pio s0))).
  unfold ide_transfer_start, dupd. msteps. cbn [if0 if1 cur_drive irq_line].
  unfold ide_set_irq, dget. msteps. cbn [drive if0].
  change (d_cmd _) with (d_cmd s0). rewrite Hcmd. cbn [Z.eqb]. unfold set_irq. msteps. cbn [if0 if1 cur_drive irq_line].
  set (s2 := on_regs _ (on_pio (point_at _ _) _)).
  assert (chs s2 H S) as Hchs2 by (by apply (chs_same s0)).
  assert (0 <= q + 1 < 65536 * H * S) as Hq1 by (destruct Hg as (? & ? & ?); nia).
  rewrite (bind_ok _ _ _ tt (MkIf (on_regs (seek_regs H S (q + 1)) s2) s1 false 1)).
  2: { rewrite (set_sector_ok false _ C H S) by done. reflexivity. }
  destruct (get_seek s2 C H S (q + 1) Hg Hchs2 Hq1) as [Hchs3 Hget3].
  unfold modify. eexists. split; [reflexivity|]. split; [|done].
  set (w' := MkIf _ _ _ _).
  assert (reading_at img w' 0 (q + 1) (n - 1)) as Hra.
  { split; cbn [if0 w']; try reflexivity; try lia; try done.
    - split; try done; [by apply (chs_same (on_regs (seek_regs H S (q + 1)) s2))|].
      change (Z.of_nat (length buf) = 8196). unfold buf. rewrite length_app, length_drop. lia.
    - change (u32 (r_nsector (d_regs s0) - 1) = n - 1). rewrite Hn. apply u32_small. unfold is_u32. lia. }
  replace (concat _) with (stream img w' 0 (q + 1) (n - 1)); [by apply reading_more|].
  unfold stream. change (p_io_buffer _) with buf. rewrite drop_0. unfold buf. rewrite <- Hb at 1. rewrite take_app_length.
  replace (Z.to_nat n) with (1 + Z.to_nat (n - 1))%nat by lia. erewrite (drop_S _ _ (Z.to_nat q)) by exact Eb.
  cbn [Nat.add firstn concat]. do 4 f_equal. lia.
Qed.
(** The data port delivers the bytes two by two. *)
Lemma readw_ok w img lo hi rest :
  wf_image img -> reading img w (lo :: hi :: rest) ->
  exists w', ide_data_readw w = Ok (lo + 256 * hi) w' /\ reading img w' rest.
Proof using Hg.
  intros Himg Hr. inversion Hr as [ptr q n Hra Hst|]; subst. pose proof Hra as [Hsel He Hp Hd [Hpr Hpe] Hn Hl Hq Hs].
  pose proof Hsel as [Hcur Hbs Hchs Hreq Hbuf Hcmd].
  set (buf := p_io_buffer (d_pio (if0 w))) in *. unfold stream in Hst. fold buf in Hst.
  assert (ptr <= 510) as Hp510 by (Z.div_mod_to_equations; lia).
  destruct (drop_two (take 512 buf) (Z.to_nat ptr)) as (x & y & Ex & Ey & Edrop); [rewrite length_take; lia|].
  rewrite Edrop in Hst. cbn [app] in Hst. injection Hst as -> -> Hrest. clear Hr.
  apply lookup_take_Some in Ex as [Ex _], Ey as [Ey _].
  assert (aget buf ptr = Some lo) as Elo by (unfold aget; rewrite decide_True by lia; done).
  assert (aget buf (ptr + 1) = Some hi) as Ehi.
  { unfold aget. rewrite decide_True by lia. rewrite <- Ey. f_equal. lia. }
  unfold ide_data_readw. msteps. rewrite Hcur. unfold dget. msteps. cbn [drive]. rewrite Hp. fold buf. msome Elo. msome Ehi.
  unfold advance, dupd, dget. msteps. cbn [drive if0 if1 cur_drive irq_line].
  set (s' := on_pio _ (if0 w)). change (p_data_end (d_pio s')) with (p_data_end (d_pio (if0 w))). rewrite Hd.
  set (w1 := MkIf s' _ _ _).
  assert (selected w1 img) as Hsel1 by (split; try done; by apply (chs_same (if0 w))).
  destruct (Z.leb_spec 512 (ptr + 2)) as [Hfull|Hmore].
  - assert (ptr = 510) as -> by lia. unfold end_transfer_func, dget. msteps. cbn [drive if0 w1].
    change (p_end_transfer (d_pio s')) with (p_end_transfer (d_pio (if0 w))). rewrite He.
    destruct Himg as [Hi1 Hi2]. pose proof (geom_small C H S Hg).
    destruct (sector_read_ok w1 img q n (conj Hi1 Hi2) Hsel1) as (w' & Ew & Hr' & _); try done; try lia.
    rewrite (bind_ok _ _ _ _ _ Ew). eexists. split; [reflexivity|].
    replace rest with (concat (take (Z.to_nat n) (drop (Z.to_nat q) img))); [done|]. rewrite <- Hrest.
    rewrite (drop_ge (take 512 buf)) by (rewrite length_take; lia). done.
  - unfold ret. rewrite bind_ret. eexists. split; [reflexivity|].
    assert (reading_at img w1 (ptr + 2) q n) as Hra1.
    { split; try done; try lia. split; [lia|]. Z.div_mod_to_equations; lia. }
    replace rest with (stream img w1 (ptr + 2) q n); [by apply reading_more|]. rewrite <- Hrest. unfold stream.
    change (p_io_buffer _) with buf. do 2 f_equal. lia.
Qed.

Lemma status_value w img :
  cur_drive w = false -> d_bs (if0 w) = Some img ->
  ide_inb 0x1f7 w = Ok (r_status (d_regs (if0 w))) (MkIf (if0 w) (if1 w) (cur_drive w) 0).
Proof using Type.
  intros Hc Hb. unfold ide_inb. rewrite decide_True by lia. unfold ide_ioport_read. rewrite bind_get.
  change (Z.land 0x1f7 7) with 7. cbv beta iota zeta delta [Z.eqb Pos.eqb]. unfold ide_status_read. msteps.
  unfold set_irq. msteps. unfold no_drives. by rewrite Hc, Hb.
Qed.

(** The status register tells whether bytes are left; reading it lowers the
    interrupt line. *)
Lemma status_reading w img bytes :
  reading img w bytes ->
  exists w', ide_inb 0x1f7 w = Ok (if decide (bytes = []) then 0x50 else 0x58) w' /\ reading img w' bytes.
Proof using Type.
  intros Hr. exists (MkIf (if0 w) (if1 w) (cur_drive w) 0). split.
  - assert (cur_drive w = false /\ exists i, d_bs (if0 w) = Some i) as [Hc [i Hb]].
    { destruct (reading_selected _ _ _ Hr). eauto. }
    rewrite (status_value w i Hc Hb). f_equal.
    destruct Hr as [ptr q n Hra|Hsel Hs].
    + rewrite decide_False; [exact (ra_status _ _ _ _ _ Hra)|]. unfold stream.
      intros [Hnil _]%app_nil. apply (f_equal length) in Hnil.
      rewrite length_drop, length_take in Hnil. pose proof (sl_buf _ _ (ra_sel _ _ _ _ _ Hra)).
      pose proof (ra_range _ _ _ _ _ Hra). simpl length in Hnil. lia.
    + by rewrite decide_True.
  - destruct Hr as [ptr q n Hra|Hsel Hs].
    + apply (reading_more img (MkIf _ _ _ _) ptr q n). destruct Hra as [[] ? ? ? ? ? ? ? ?]. by split.
    + apply reading_done; [|done]. by destruct Hsel.
Qed.
(** ** Writing *)

(** [writing_at img w acc q n]: the data port has taken the bytes [acc] of the
    sector [q], the first of [n] sectors to come. *)
Record writing_at (img : list (list Z)) (w : ide) (acc : list Z) (q n : Z) : Prop := {
  wa_sel : selected w img;
  wa_end : p_end_transfer (d_pio (if0 w)) = SectorWrite;
  wa_ptr : p_data_ptr (d_pio (if0 w)) = Z.of_nat (length acc);
  wa_dend : p_data_end (d_pio (if0 w)) = 512;
  wa_range : Z.of_nat (length acc) < 512 /\ Z.of_nat (length acc) mod 2 = 0;
  wa_acc : take (length acc) (p_io_buffer (d_pio (if0 w))) = acc;
  wa_cnt : r_nsector (d_regs (if0 w)) = n;
  wa_left : 0 <= q /\ 0 < n /\ q + n <= Z.of_nat (length img);
  wa_next : ide_get_sector (if0 w) = q;
  wa_status : r_status (d_regs (if0 w)) = 0x58
}.

Lemma bdrv_write_one img q buf :
  0 <= q < Z.of_nat (length img) -> bdrv_write img q buf 1 = Some (<[Z.to_nat q := take 512 buf]> img).
Proof using Type. intros Hq. unfold bdrv_write. by rewrite decide_True by lia. Qed.

(** One turn of [ide_sector_write]. *)
Lemma sector_write_ok w img q n :
  wf_image img -> selected w img -> ide_get_sector (if0 w) = q -> r_nsector (d_regs (if0 w)) = n ->
  0 <= q -> 0 < n -> q + n <= Z.of_nat (length img) ->
  let img' := <[Z.to_nat q := take 512 (p_io_buffer (d_pio (if0 w)))]> img in
  exists w', ide_sector_write false w = Ok tt w' /\ (1 < n -> writing_at img' w' [] (q + 1) (n - 1)) /\
    (n = 1 -> selected w' img' /\ r_status (d_regs (if0 w')) = 0x50).
Proof using Hg.
  intros [Himg Hcap] Hsel Hq Hn H0 Hn0 Hle img'. pose proof Hsel as [Hcur Hbs Hchs Hreq Hbuf Hcmd].
  pose proof (geom_small C H S Hg) as Hgs.
  destruct w as [s0 s1 cu ln]. cbn [if0 cur_drive] in *. subst cu.
  unfold ide_sector_write, set_status, dget, dupd. msteps. cbn [drive if0 if1 cur_drive irq_line].
  set (s := on_regs (w_status (Z.lor READY_STAT SEEK_STAT)) s0).
  change (ide_get_sector s) with (ide_get_sector s0). change (r_nsector (d_regs s)) with (r_nsector (d_regs s0)).
  change (p_req_nb_sectors (d_pio s)) with (p_req_nb_sectors (d_pio s0)). change (d_bs s) with (d_bs s0).
  change (p_io_buffer (d_pio s)) with (p_io_buffer (d_pio s0)).
  rewrite Hq, Hn, Hreq, Hbs, Z.min_r by lia. cbn [of_option]. msteps. rewrite bdrv_write_one by lia. fold img'.
  rewrite bind_modify. cbv beta. msteps. cbn [drive if0 if1 cur_drive irq_line].
  set (s2 := on_regs (fun r => w_nsector _ r) (w_bs (Some img') s)).
  assert (r_nsector (d_regs s2) = n - 1) as Hn2.
  { change (u32 (r_nsector (d_regs s0) - 1) = n - 1). rewrite Hn. apply u32_small. unfold is_u32. lia. }
  rewrite Hn2. change (p_req_nb_sectors (d_pio s2)) with (p_req_nb_sectors (d_pio s0)). rewrite Hreq.
  assert (0 <= q + 1 < 65536 * H * S) as Hq1 by (destruct Hg as (? & ? & ?); nia).
  assert (forall (s3 : IDEState) ln', chs s3 H S -> d_cmd s3 = d_cmd s0 ->
    (ide_set_sector false (q + 1) ;;; ide_set_irq false) (MkIf s3 s1 false ln') =
      Ok tt (MkIf (on_regs (seek_regs H S (q + 1)) s3) s1 false 1)) as Hend.
  { intros s3 ln' Hc3 Hcm3. erewrite bind_ok; [|rewrite (set_sector_ok false _ C H S) by done; reflexivity].
    unfold ide_set_irq, dget. msteps. cbn [drive if0]. change (d_cmd (on_regs _ s3)) with (d_cmd s3).
    by rewrite Hcm3, Hcmd. }
  destruct (Z.eqb_spec (n - 1) 0) as [Hz|Hz].
  - unfold ide_transfer_stop, dupd. rewrite bind_modify. cbv beta. cbn [if0 if1 cur_drive irq_line].
    set (s3 := on_regs _ (on_pio _ s2)). assert (chs s3 H S) as Hc3 by (by apply (chs_same s0)).
    rewrite Hend by done. eexists. split; [reflexivity|]. split; [lia|]. intros _.
    destruct (get_seek s3 C H S (q + 1) Hg Hc3 Hq1) as [Hc4 _]. split; [|done]. by split.
  - rewrite Z.min_r by lia. unfold ide_transfer_start, dupd. rewrite bind_modify. cbv beta. cbn [if0 if1 cur_drive irq_line].
    set (s3 := on_regs _ (on_pio _ s2)). assert (chs s3 H S) as Hc3 by (by apply (chs_same s0)).
    rewrite Hend by done. eexists. split; [reflexivity|]. split; [|lia]. intros _.
    destruct (get_seek s3 C H S (q + 1) Hg Hc3 Hq1) as [Hc4 Hget4].
    split; try done; try (by split). unfold img'. rewrite length_insert. lia.
Qed.

Lemma wf_image_insert img q b :
  wf_image img -> length b = 512%nat -> Forall is_u8 b -> wf_image (<[q := b]> img).
Proof using Type.
  intros [Hi Hc] Hl Hu. split; [by apply Forall_insert|]. by rewrite length_insert.
Qed.

Lemma writew_ok w img acc q n lo hi :
  wf_image img -> writing_at img w acc q n -> is_u8 lo -> is_u8 hi ->
  let acc' := acc ++ [lo; hi] in
  let img' := <[Z.to_nat q := acc']> img in
  exists w', ide_data_writew (lo + 256 * hi) w = Ok tt w' /\
    (Z.of_nat (length acc') < 512 -> writing_at img w' acc' q n) /\
    (Z.of_nat (length acc') = 512 -> 1 < n -> writing_at img' w' [] (q + 1) (n - 1)) /\
    (Z.of_nat (length acc') = 512 -> n = 1 -> selected w' img' /\ r_status (d_regs (if0 w')) = 0x50).
Proof using Hg.
  intros Himg [Hsel He Hp Hd [Hpr Hpe] Hacc Hn Hl Hq Hs] Hlo Hhi acc' img'.
  pose proof Hsel as [Hcur Hbs Hchs Hreq Hbuf Hcmd].
  set (buf := p_io_buffer (d_pio (if0 w))) in *. set (p := length acc) in *.
  assert (Z.of_nat p <= 510) as Hp510 by (Z.div_mod_to_equations; lia).
  assert (u8 (lo + 256 * hi) = lo) as E1 by (unfold u8, is_u8 in *; Z.div_mod_to_equations; lia).
  assert (u8 (Z.shiftr (lo + 256 * hi) 8) = hi) as E2.
  { rewrite Z.shiftr_div_pow2 by lia. unfold u8, is_u8 in *. Z.div_mod_to_equations; lia. }
  assert (length acc' = p + 2)%nat as Hla by (unfold acc'; by rewrite length_app).
  unfold ide_data_writew. msteps. rewrite Hcur. unfold dget. msteps. cbn [drive]. rewrite Hp, E1, E2. fold buf.
  rewrite aset_Some by lia. cbn [of_option]. msteps. rewrite aset_Some by (rewrite length_insert; lia). cbn [of_option]. msteps.
  rewrite Nat2Z.id. replace (Z.to_nat (Z.of_nat p + 1)) with (p + 1)%nat by lia.
  set (buf' := <[(p + 1)%nat := hi]> (<[p := lo]> buf)).
  assert (length buf' = length buf) as Hlb by (unfold buf'; by rewrite !length_insert).
  assert (take (p + 2) buf' = acc') as Hacc'.
  { unfold acc'. rewrite <- Hacc. unfold buf'. apply list_eq. intros j. rewrite lookup_take.
    assert (length (take p buf) = p) as Htp by (rewrite length_take; lia). case_decide as Hj.
    - destruct (decide (j < p)%nat).
      + rewrite lookup_app_l, lookup_take_lt by lia. by rewrite !list_lookup_insert_ne by lia.
      + rewrite lookup_app_r by lia. rewrite Htp. destruct (decide (j = p)) as [->|].
        * rewrite Nat.sub_diag, list_lookup_insert_ne, list_lookup_insert_eq by lia. done.
        * assert (j = p + 1)%nat as -> by lia. rewrite list_lookup_insert_eq by (rewrite length_insert; lia).
          by replace (p + 1 - p)%nat with 1%nat by lia.
    - symmetry. apply lookup_ge_None. rewrite length_app. cbn. lia. }
  unfold advance, dupd, dget. msteps. cbn [drive if0 if1 cur_drive irq_line].
  set (s' := on_pio (fun x => MkPio _ _ _ _ _ _ _) _).
  change (p_data_end (d_pio s')) with (p_data_end (d_pio (if0 w))). rewrite Hd.
  set (w1 := MkIf s' _ _ _).
  assert (selected w1 img) as Hsel1.
  { split; try done; [by apply (chs_same (if0 w))|]. change (Z.of_nat (length buf') = 8196). by rewrite Hlb. }
  destruct (Z.leb_spec 512 (Z.of_nat p + 2)) as [Hfull|Hmore].
  - unfold end_transfer_func, dget. msteps. cbn [drive if0 w1].
    change (p_end_transfer (d_pio s')) with (p_end_transfer (d_pio (if0 w))). rewrite He.
    destruct (sector_write_ok w1 img q n Himg Hsel1) as (w' & Ew & Hmr & Hdn); try done; try lia.
    change (p_io_buffer (d_pio (if0 w1))) with buf' in *.
    assert (take 512 buf' = acc') as Ht by (rewrite <- Hacc'; f_equal; lia). rewrite Ht in *.
    exists w'. split; [exact Ew|]. split; [lia|]. by split.
  - eexists. split; [reflexivity|]. split; [|lia]. intros _.
    split; try done; rewrite ?Hla; try lia.
    + change (Z.of_nat p + 2 = Z.of_nat (p + 2)). lia.
    + split; [lia|]. Z.div_mod_to_equations; lia.
    + exact Hacc'.
Qed.
End Transfer.
