(* ===== verification/HdaIde.v ===== *)
(** The disk driver on the emulated disk: Hda over Ide.  The interrupt the
    driver waits for is the level of the interface's interrupt line. *)
From S2P Require Import Prelude LibC Layout Device I8259 Port Irq Hda Ide IdePio.

(** The machine raises IRQ 14 while the line is high. *)
Definition line_irq : M ide bool := gets (fun w => irq_line w =? 1).

(** * The driver's view of the machine *)

Definition machine (d : hda ide) : ide := io (h_io d).
Definition with_io (w : ide) (d : hda ide) : hda ide :=
  Hda (h_stat d) (h_parts d)
    (MkIrq (isr_handler (h_io d)) (irq_handler (h_io d)) (syscall (h_io d)) (iflag (h_io d)) w).
Definition with_stat (f : hda_stat -> hda_stat) (d : hda ide) : hda ide := Hda (f (h_stat d)) (h_parts d) (h_io d).

Lemma h_out_ok port v d w' :
  ide_outb port (u8 v) (machine d) = Ok tt w' -> h_out port v d = Ok tt (with_io w' d).
Proof.
  intros E. unfold h_out, h_irq, outb, zoom. cbn [outportb ide_ports]. rewrite u8_u8. fold (machine d). by rewrite E.
Qed.
Lemma h_in_ok port v d w' : ide_inb port (machine d) = Ok v w' -> h_in port d = Ok v (with_io w' d).
Proof. intros E. unfold h_in, h_irq, inb, zoom. cbn [inportb ide_ports]. fold (machine d). by rewrite E. Qed.
Lemma on_io_ok {A} (m : M ide A) a d w' : m (machine d) = Ok a w' -> on_io m d = Ok a (with_io w' d).
Proof. intros E. unfold on_io, h_irq, zoom. fold (machine d). by rewrite E. Qed.

(** * Setting up a transfer *)

Section Driver.
Context (C H S : Z) (Hg : geom_ok C H S).

(** The first drive of the interface, with or without a transfer under way. *)
Record attached (w : ide) (img : list (list Z)) : Prop := {
  at_bs : d_bs (if0 w) = Some img;
  at_heads : d_heads (if0 w) = H;
  at_sectors : d_sectors (if0 w) = S;
  at_buf : Z.of_nat (length (p_io_buffer (d_pio (if0 w)))) = 8196;
  at_cmd : Z.land (d_cmd (if0 w)) IDE_CMD_DISABLE_IRQ = 0
}.

Lemma selected_attached w img : selected H S w img -> attached w img.
Proof using Type. intros [Hc Hb [_ Hh Hs] Hr Hl Hm]. by split. Qed.

(** The interface after the driver wrote the task file. *)
Definition to_both (g : regs -> regs) (x : ide) : ide :=
  MkIf (on_regs g (if0 x)) (on_regs g (if1 x)) (cur_drive x) (irq_line x).
Definition hob_clear : ide -> ide := to_both (fun r => w_select (Z.land (r_select r) 0x7f) r).
Definition tf_nsector v x := to_both (fun r => w_nsector v (w_hob_nsector (u8 (r_nsector r)) r)) (hob_clear x).
Definition tf_sector v x := to_both (fun r => w_sector v (w_hob_sector (r_sector r) r)) (hob_clear x).
Definition tf_lcyl v x := to_both (fun r => w_lcyl v (w_hob_lcyl (r_lcyl r) r)) (hob_clear x).
Definition tf_hcyl v x := to_both (fun r => w_hcyl v (w_hob_hcyl (r_hcyl r) r)) (hob_clear x).
Definition tf_select v x :=
  MkIf (on_regs (w_select (Z.lor (Z.land v (Z.lnot 0x10)) 0xa0)) (if0 x))
       (on_regs (w_select (Z.lor (Z.lor v 0x10) 0xa0)) (if1 x)) (negb (Z.land (Z.shiftr v 4) 1 =? 0)) (irq_line x).

Definition addressed (w : ide) (n c h s : Z) : ide :=
  tf_select h (tf_hcyl (u8 (Z.shiftr c 8)) (tf_lcyl (u8 c) (tf_sector s (tf_nsector n w)))).

(** The bits of the drive register for head [h] of the first drive. *)
Lemma select_bits h :
  0 <= h < 16 ->
  Z.land (Z.lor (Z.land h (Z.lnot 0x10)) 0xa0) 0x40 = 0 /\ Z.land (Z.lor (Z.land h (Z.lnot 0x10)) 0xa0) 0x0f = h /\
  Z.land (Z.shiftr h 4) 1 = 0.
Proof using Type.
  intros Hh. assert (Forall (fun h => Z.land (Z.lor (Z.land h (Z.lnot 0x10)) 0xa0) 0x40 = 0 /\
    Z.land (Z.lor (Z.land h (Z.lnot 0x10)) 0xa0) 0x0f = h /\ Z.land (Z.shiftr h 4) 1 = 0) (seqZ 0 16)) as HF
    by (repeat constructor).
  rewrite Forall_forall in HF. apply HF, elem_of_seqZ. lia.
Qed.

Lemma out_nsector v w : ide_outb REG_SECTC v w = Ok tt (tf_nsector v w).
Proof using Type. by destruct w. Qed.
Lemma out_sector v w : ide_outb REG_SECT v w = Ok tt (tf_sector v w).
Proof using Type. by destruct w. Qed.
Lemma out_lcyl v w : ide_outb REG_CYLL v w = Ok tt (tf_lcyl v w).
Proof using Type. by destruct w. Qed.
Lemma out_hcyl v w : ide_outb REG_CYLH v w = Ok tt (tf_hcyl v w).
Proof using Type. by destruct w. Qed.
Lemma out_select v w : ide_outb REG_DEVICE v w = Ok tt (tf_select v w).
Proof using Type. by destruct w. Qed.

Lemma setup_ok d n :
  0 <= n < 256 -> 0 <= h_s (h_stat d) < 256 -> 0 <= h_h (h_stat d) < 16 ->
  hda_setup n d = Ok tt (with_io (addressed (machine d) n (h_c (h_stat d)) (h_h (h_stat d)) (h_s (h_stat d)))
                           (with_stat (set_cnt n) d)).
Proof using Type.
  intros Hn Hs Hh. destruct d as [st pa [ih qh sc fl w]]. cbn [h_stat machine h_io io] in *.
  unfold hda_setup, stat_upd, stat. rewrite bind_modify, bind_gets. cbv beta. cbn [h_stat h_parts h_io].
  rewrite u32_small by (unfold is_u32; lia). cbn [set_cnt h_s h_c h_h].
  assert (u8 n = n /\ u8 (Z.land (h_s st) 0xFF) = h_s st /\ u8 (Z.land (h_h st) 0x0F) = h_h st) as (E1 & E2 & E3).
  { rewrite u8_land, land_0f by lia. rewrite !u8_small by (unfold is_u8; rewrite ?u8_small; unfold is_u8; lia). done. }
  assert (u8 (Z.land (h_c st) 0xFF) = u8 (h_c st) /\
          u8 (Z.land (Z.shiftr (h_c st) 8) 0xFF) = u8 (Z.shiftr (h_c st) 8)) as [E4 E5] by (rewrite !u8_land, !u8_u8; done).
  rewrite (bind_ok _ _ _ _ _ (h_out_ok REG_SECTC n (Hda _ _ _) _ (out_nsector _ _))). rewrite E1.
  rewrite (bind_ok _ _ _ _ _ (h_out_ok REG_SECT _ (with_io _ _) _ (out_sector _ _))). rewrite E2.
  rewrite (bind_ok _ _ _ _ _ (h_out_ok REG_CYLL _ (with_io _ _) _ (out_lcyl _ _))). rewrite E4.
  rewrite (bind_ok _ _ _ _ _ (h_out_ok REG_CYLH _ (with_io _ _) _ (out_hcyl _ _))). rewrite E5.
  rewrite (h_out_ok REG_DEVICE _ (with_io _ _) _ (out_select _ _)). rewrite E3. reflexivity.
Qed.

(** The address the driver computes for sector [o] of the disk; the drive
    counts sectors of a track from 1, so that it is the sector [o - 1]. *)
Lemma addressed_ok w img n o :
  attached w img -> 0 <= o < C * H * S ->
  let w' := addressed w n ((o / S / H) mod C) ((o / S) mod H) (o mod S) in
  attached w' img /\ cur_drive w' = false /\ chs (if0 w') H S /\ r_nsector (d_regs (if0 w')) = n /\
  ide_get_sector (if0 w') = o - 1.
Proof using Hg.
  intros [] Ho w'. destruct Hg as (HC & HH & HS).
  assert (0 <= (o / S) mod H < H) as Hh by (apply Z.mod_pos_bound; lia).
  assert (0 <= o mod S < S) as Hs by (apply Z.mod_pos_bound; lia).
  assert (0 <= o / S / H < C) as Hc.
  { rewrite Z.div_div by lia. split; [apply Z.div_pos; nia|apply Z.div_lt_upper_bound; nia]. }
  destruct (select_bits ((o / S) mod H) ltac:(lia)) as (E1 & E2 & E3).
  assert (chs (if0 w') H S) as Hchs by (split; [exact E1|done|done]).
  split; [by split|]. split; [cbn [w' addressed tf_select cur_drive]; by rewrite E3|]. split; [done|]. split; [done|].
  unfold ide_get_sector. rewrite (chs_sel _ _ _ Hchs). cbn [Z.eqb negb].
  change (r_hcyl (d_regs (if0 w'))) with (u8 (Z.shiftr ((o / S / H) mod C) 8)).
  change (r_lcyl (d_regs (if0 w'))) with (u8 ((o / S / H) mod C)).
  change (r_select (d_regs (if0 w'))) with (Z.lor (Z.land ((o / S) mod H) (Z.lnot 0x10)) 0xa0).
  change (r_sector (d_regs (if0 w'))) with (o mod S).
  rewrite (chs_heads _ _ _ Hchs), (chs_sectors _ _ _ Hchs), E2, Z.mod_small, u16_split by lia.
  pose proof (Z.div_mod o S ltac:(lia)). pose proof (Z.div_mod (o / S) H ltac:(lia)).
  pose proof (geom_small C H S Hg).
  replace (o / S / H * H * S + (o / S) mod H * S + (o mod S - 1)) with (o - 1) by nia.
  apply s32_small. unfold is_s32. lia.
Qed.

(** The drive once the command has set the sectors per interrupt. *)
Definition started (w : ide) : ide :=
  MkIf (on_pio (w_req_nb_sectors 1) (w_lba48 0 (if0 w))) (if1 w) false (irq_line w).

Lemma started_selected w img :
  attached w img -> chs (if0 w) H S -> selected H S (started w) img.
Proof using Type.
  intros [Hb Hh Hs Hl Hc] [E1 E2 E3]. split; [reflexivity|exact Hb|split; [exact E1|exact E2|exact E3]|reflexivity|exact Hl|exact Hc].
Qed.

Lemma started_get w : chs (if0 w) H S -> ide_get_sector (if0 (started w)) = ide_get_sector (if0 w).
Proof using Type. intros [E _ _]. unfold ide_get_sector. cbn [if0 started d_regs on_pio w_pio w_lba48]. by rewrite E. Qed.

Lemma cmd_read w img :
  cur_drive w = false -> d_bs (if0 w) = Some img -> r_nsector (d_regs (if0 w)) <> 0 ->
  ide_outb REG_COMMAND CMD_READ w =
    ide_sector_read false (started w).
Proof using Type.
  intros Hc Hb Hn. destruct w as [a b c l]; cbn [cur_drive if0 if1 irq_line] in *. subst c.
  unfold ide_outb. rewrite decide_True by (unfold REG_COMMAND, BLK_HDD_IOBASE; lia).
  unfold ide_ioport_write. change (Z.land REG_COMMAND 7) with 7. cbv beta iota zeta delta [Z.eqb Pos.eqb].
  rewrite bind_get. cbn [cur_drive andb]. unfold ide_command, dget at 1. rewrite bind_gets. cbn [drive if0]. rewrite Hb.
  transitivity ((ide_cmd_lba48_transform false 0 ;;; dupd false (on_pio (w_req_nb_sectors 1)) ;;; ide_sector_read false)
                  (MkIf a b false l)); [reflexivity|].
  unfold ide_cmd_lba48_transform, dupd. rewrite !bind_modify. cbv beta. cbn [if0 if1 cur_drive irq_line Z.eqb].
  rewrite (proj2 (Z.eqb_neq _ _)) by done. by do 2 f_equal.
Qed.

(** * Reading *)

Context (fuel : nat).
Abbreviation hda_read := (hda_read line_irq fuel).

(** The interrupt comes and the handler makes the data available. *)
Lemma wait_read d img bytes :
  h_rready (h_stat d) = 0 -> h_cmd (h_stat d) = CMD_READ -> irq_line (machine d) = 1 -> (0 < fuel)%nat ->
  reading H S img (machine d) bytes ->
  exists w', wait_ready line_irq fuel fuel d = Ok tt (with_io w' (with_stat (fun s => set_cmd 0 (set_rready 1 s)) d)) /\
    reading H S img w' bytes.
Proof using Type.
  intros Hr Hcmd Hl Hf Hrd. destruct fuel as [|m]; [lia|]. clear Hf.
  destruct (status_reading H S (machine d) img bytes Hrd) as (w' & Ew & Hrd').
  exists w'. split; [|done]. cbn [wait_ready]. unfold stat at 1. rewrite bind_gets. cbv beta. rewrite Hr. cbn [Z.eqb negb].
  rewrite (bind_ok _ _ _ true (with_io (machine d) d)) by (apply on_io_ok; unfold line_irq, gets; by rewrite Hl).
  cbv beta iota. assert (with_io (machine d) d = d) as -> by (by destruct d as [? ? []]).
  assert (hda_intr (Datatypes.S m) d = Ok tt (with_io w' (with_stat (fun s => set_cmd 0 (set_rready 1 s)) d))) as Ei.
  { unfold hda_intr, hda_status. rewrite (bind_ok _ _ _ _ _ (h_in_ok REG_STATUS _ d w' Ew)).
    assert (Z.land (if decide (bytes = []) then 0x50 else 0x58) 0x01 = 0) as -> by (by case_decide). cbn [Z.eqb negb].
    unfold stat. rewrite bind_gets. cbv beta. cbn [h_stat with_io]. rewrite Hcmd. reflexivity. }
  rewrite (bind_ok _ _ _ _ _ Ei). destruct m; reflexivity.
Qed.

Lemma word_bytes_ok lo hi : is_u8 lo -> is_u8 hi -> word_bytes (lo + 256 * hi) = [lo; hi].
Proof using Type.
  intros Hlo Hhi. unfold word_bytes, is_u8, u8 in *. rewrite Z.shiftr_div_pow2 by lia.
  f_equal; [|f_equal]; Z.div_mod_to_equations; lia.
Qed.

(** The polling loop takes every word the drive delivers. *)
Lemma read_words_ok img n d (bytes ws : list Z) i m :
  wf_image H S img -> reading H S img (machine d) bytes -> Forall is_u8 bytes -> h_cnt (h_stat d) = n -> 0 <= n < 2 ^ 20 ->
  Z.of_nat (length bytes) = 2 * (256 * n - i) -> 0 <= i -> 256 * n - i <= Z.of_nat m ->
  exists w' ws', read_words m i ws d = Ok (ws ++ ws') (with_io w' d) /\ reading H S img w' [] /\
    concat (map word_bytes ws') = bytes.
Proof using Hg.
  intros Himg. revert d bytes ws i. induction m as [|m IH]; intros d bytes ws i Hrd Hu Hc Hn Hl Hi Hm.
  - assert (bytes = []) as -> by (apply nil_length_inv; lia).
    destruct (status_reading H S (machine d) img [] Hrd) as (w' & Ew & Hrd'). exists w', [].
    rewrite app_nil_r. split; [|done]. cbn [read_words]. unfold hda_status.
    by rewrite (bind_ok _ _ _ _ _ (h_in_ok REG_STATUS _ d w' Ew)).
  - destruct (status_reading H S (machine d) img bytes Hrd) as (w' & Ew & Hrd').
    destruct bytes as [|lo [|hi bytes]].
    + exists w', []. rewrite app_nil_r. split; [|done]. cbn [read_words]. unfold hda_status.
      by rewrite (bind_ok _ _ _ _ _ (h_in_ok REG_STATUS _ d w' Ew)).
    + simpl in Hl. lia.
    + destruct (readw_ok C H S Hg w' img lo hi bytes Himg Hrd') as (w2 & E2 & Hrd2).
      apply Forall_cons in Hu as [Hlo Hu]. apply Forall_cons in Hu as [Hhi Hu]. rewrite !length_cons in Hl.
      destruct (IH (with_io w2 (with_io w' d)) bytes (ws ++ [lo + 256 * hi]) (i + 1)) as (w3 & ws' & E3 & Hrd3 & Hws);
        try done; try lia.
      exists w3, ((lo + 256 * hi) :: ws'). split; [|split; [done|]].
      * cbn [read_words]. unfold hda_status. rewrite (bind_ok _ _ _ _ _ (h_in_ok REG_STATUS _ d w' Ew)).
        change (Z.land _ 0x08 =? 0) with false. cbv iota.
        unfold stat. rewrite bind_gets. cbv beta. cbn [h_stat with_io]. rewrite Hc.
        rewrite u32_small by (unfold is_u32; lia). rewrite (proj2 (Z.ltb_lt _ _)) by lia.
        assert (hda_readdata (with_io w' d) = Ok (lo + 256 * hi) (with_io w2 (with_io w' d))) as E2'
          by (apply on_io_ok; exact E2).
        rewrite (bind_ok _ _ _ _ _ E2').
        rewrite E3. by rewrite <- app_assoc.
      * cbn [map concat]. by rewrite word_bytes_ok, Hws.
Qed.

(** The driver knows the geometry of the drive. *)
Record driver_ok (d : hda ide) (img : list (list Z)) : Prop := {
  dr_C : h_C (h_stat d) = C;
  dr_H : h_H (h_stat d) = H;
  dr_S : h_S (h_stat d) = S;
  dr_drive : attached (machine d) img;
  dr_img : wf_image H S img
}.

(** The driver's position is sector [o]. *)
Definition seeked (o : Z) : hda_stat -> hda_stat := set_addr ((o / S / H) mod C) ((o / S) mod H) (o mod S).

Lemma lseek_ok d img id off o whence :
  driver_ok d img -> absolute id off d = Ok (Some o) d -> 0 <= o < C * H * S ->
  hda_lseek id off whence d = Ok 0 (with_stat (seeked o) d).
Proof using Hg.
  intros [HC HH HS _ _] Ea Ho. pose proof (geom_small C H S Hg). destruct Hg as (? & ? & ?).
  unfold hda_lseek. rewrite (bind_ok _ _ _ _ _ Ea). unfold stat. rewrite bind_gets. cbv beta. rewrite HC, HH, HS.
  rewrite !u32_small by (unfold is_u32; lia). rewrite (proj2 (Z.ltb_ge _ _)) by lia.
  rewrite !(proj2 (Z.eqb_neq _ _)) by lia. reflexivity.
Qed.

Lemma sectors_bytes img q n :
  wf_image H S img -> 0 <= q -> 0 <= n -> q + n <= Z.of_nat (length img) ->
  Z.of_nat (length (concat (take (Z.to_nat n) (drop (Z.to_nat q) img)))) = 512 * n /\
  Forall is_u8 (concat (take (Z.to_nat n) (drop (Z.to_nat q) img))).
Proof using Type.
  intros [Hi _] Hq Hn Hle. split.
  - assert (forall l : list (list Z), Forall (fun b => length b = 512%nat /\ Forall is_u8 b) l ->
      length (concat l) = (512 * length l)%nat) as Hl.
    { induction 1 as [|b l [Hb _] _ IH]; [done|]. cbn [concat]. rewrite length_app, IH, Hb, length_cons. lia. }
    rewrite Hl by (by apply Forall_take, Forall_drop). rewrite length_take, length_drop. lia.
  - apply Forall_concat. apply Forall_take, Forall_drop. eapply Forall_impl; [exact Hi|]. naive_solver.
Qed.

(** The task file and the command of a transfer of [n] sectors from [o] on. *)
Lemma start_ok d img n o :
  driver_ok d img -> 1 <= o < C * H * S -> 0 < n < 256 ->
  exists w1, hda_setup n (with_stat (seeked o) d) = Ok tt (with_io w1 (with_stat (fun s => set_cnt n (seeked o s)) d)) /\
    attached w1 img /\ cur_drive w1 = false /\ chs (if0 w1) H S /\ r_nsector (d_regs (if0 w1)) = n /\
    ide_get_sector (if0 w1) = o - 1.
Proof using Hg.
  intros [_ _ _ Hat _] Ho Hn. pose proof Hg as (Hg1 & Hg2 & Hg3).
  pose proof (Z.mod_pos_bound (o / S) H ltac:(lia)) as B1. pose proof (Z.mod_pos_bound o S ltac:(lia)) as B2.
  assert (0 <= n < 256) as Hn' by lia.
  assert (0 <= h_s (h_stat (with_stat (seeked o) d)) < 256) as Hs by (cbn; lia).
  assert (0 <= h_h (h_stat (with_stat (seeked o) d)) < 16) as Hh by (cbn; lia).
  exists (addressed (machine d) n ((o / S / H) mod C) ((o / S) mod H) (o mod S)).
  split; [exact (setup_ok (with_stat (seeked o) d) n Hn' Hs Hh)|]. apply addressed_ok; [done|lia].
Qed.

Lemma read_cmd_ok w img n o d :
  wf_image H S img -> attached w img -> cur_drive w = false -> chs (if0 w) H S -> r_nsector (d_regs (if0 w)) = n ->
  ide_get_sector (if0 w) = o - 1 -> 1 <= o -> 0 < n < 256 -> o - 1 + n <= Z.of_nat (length img) ->
  exists w2, hda_command CMD_READ (with_io w d) = Ok tt (with_io w2 (with_stat (set_cmd CMD_READ) d)) /\
    reading H S img w2 (concat (take (Z.to_nat n) (drop (Z.to_nat (o - 1)) img))) /\ irq_line w2 = 1.
Proof using Hg.
  intros Himg Hat Hcur Hchs Hns Hsec Ho Hn Hle.
  destruct (sector_read_ok C H S Hg (started w) img (o - 1) n Himg) as (w2 & E2 & Hrd2 & Hl2);
    [by apply started_selected|by rewrite started_get|exact Hns|lia|lia|exact Hle|].
  exists w2. split; [|split; [exact Hrd2|apply Hl2; lia]].
  assert (ide_outb REG_COMMAND (u8 CMD_READ) w = Ok tt w2) as Ecmd.
  { change (u8 CMD_READ) with CMD_READ. rewrite (cmd_read w img); [exact E2|exact Hcur|exact (at_bs _ _ Hat)|rewrite Hns; lia]. }
  unfold hda_command, stat_upd. rewrite bind_modify. cbv beta.
  exact (h_out_ok REG_COMMAND CMD_READ (with_io w (with_stat (set_cmd CMD_READ) d)) w2 Ecmd).
Qed.

Lemma read_ok d img id o n :
  driver_ok d img -> 1 <= o < C * H * S -> 0 < n < 256 -> o - 1 + n <= Z.of_nat (length img) -> 256 * n <= Z.of_nat fuel ->
  exists d', hda_read id n (with_stat (seeked o) d) =
      Ok (0, concat (take (Z.to_nat n) (drop (Z.to_nat (o - 1)) img))) d' /\
    driver_ok d' img /\ h_parts d' = h_parts d.
Proof using Hg.
  intros Hd Ho Hn Hle Hf. pose proof Hd as [HC HH HS _ Himg].
  destruct (start_ok d img n o Hd Ho Hn) as (w1 & E1 & Hat & Hcur & Hchs & Hns & Hsec).
  set (st := fun s => set_cnt n (seeked o s)) in *.
  destruct (read_cmd_ok w1 img n o (with_stat (fun s => set_rready 0 (st s)) d) Himg Hat Hcur Hchs Hns Hsec)
    as (w2 & E2 & Hrd2 & Hl2); [lia|lia|exact Hle|].
  destruct (sectors_bytes img (o - 1) n Himg ltac:(lia) ltac:(lia) Hle) as [Hlen Hu].
  set (bytes := concat _) in *. set (d2 := with_io w2 _) in *.
  destruct (wait_read d2 img bytes eq_refl eq_refl Hl2 ltac:(lia) Hrd2) as (w3 & E3 & Hrd3). set (d3 := with_io w3 _) in *.
  destruct (read_words_ok img n d3 bytes [] 0 fuel Himg Hrd3 Hu eq_refl) as (w4 & ws & E4 & Hrd4 & Hws); [lia..|].
  exists (with_io w4 d3). split; [|split; [|reflexivity]].
  - unfold Hda.hda_read. rewrite (bind_ok _ _ _ _ _ E1). unfold stat_upd. rewrite bind_modify. cbv beta.
    rewrite (bind_ok _ _ _ _ d2 E2). rewrite (bind_ok _ _ _ _ _ E3), (bind_ok _ _ _ _ _ E4). cbn [app]. by rewrite Hws.
  - split; [exact HC|exact HH|exact HS| |exact Himg]. eapply selected_attached, reading_selected. exact Hrd4.
Qed.

(** * Writing *)

Lemma cmd_write w img :
  attached w img -> cur_drive w = false -> chs (if0 w) H S -> r_nsector (d_regs (if0 w)) <> 0 ->
  0 <= ide_get_sector (if0 w) -> 0 < r_nsector (d_regs (if0 w)) ->
  ide_get_sector (if0 w) + r_nsector (d_regs (if0 w)) <= Z.of_nat (length img) ->
  exists w2, ide_outb REG_COMMAND CMD_WRITE w = Ok tt w2 /\
    writing_at H S img w2 [] (ide_get_sector (if0 w)) (r_nsector (d_regs (if0 w))).
Proof using Type.
  intros Hat Hc Hchs Hn H0 Hn0 Hle. pose proof (started_selected w img Hat Hchs) as Hsel.
  pose proof (started_get w Hchs) as Hget. pose proof (at_bs _ _ Hat) as Hb.
  set (s2 := on_regs (fun r => w_status 0x58 (w_error 0 r)) (on_pio (point_at 512 SectorWrite) (if0 (started w)))).
  exists (MkIf s2 (if1 w) false (irq_line w)). split.
  - destruct w as [a b c l]; cbn [cur_drive if0 if1 irq_line] in *. subst c.
    unfold ide_outb. rewrite decide_True by (unfold REG_COMMAND, BLK_HDD_IOBASE; lia).
    unfold ide_ioport_write. change (Z.land REG_COMMAND 7) with 7. cbv beta iota zeta delta [Z.eqb Pos.eqb].
    rewrite bind_get. cbn [cur_drive andb].
    transitivity ((ide_cmd_lba48_transform false 0 ;;; set_error false 0 ;;; set_status false (Z.lor SEEK_STAT READY_STAT) ;;;
      dupd false (on_pio (w_req_nb_sectors 1)) ;;; ide_transfer_start false 512 SectorWrite) (MkIf a b false l)); [reflexivity|].
    unfold ide_cmd_lba48_transform, set_error, set_status, dupd. rewrite !bind_modify. cbv beta.
    cbn [if0 if1 cur_drive irq_line Z.eqb]. rewrite (proj2 (Z.eqb_neq _ _)) by done. reflexivity.
  - destruct Hsel as [S1 S2 [S31 S32 S33] S4 S5 S6].
    split; [split; [reflexivity|exact S2|split; [exact S31|exact S32|exact S33]|exact S4|exact S5|exact S6]|reflexivity|reflexivity|reflexivity|
      split; [simpl; lia|reflexivity]|reflexivity|reflexivity|lia|exact Hget|reflexivity].
Qed.

Lemma status_writing w img acc q n :
  writing_at H S img w acc q n ->
  exists w', ide_inb REG_STATUS w = Ok 0x58 w' /\ writing_at H S img w' acc q n.
Proof using Type.
  intros Hw. exists (MkIf (if0 w) (if1 w) (cur_drive w) 0). pose proof (wa_sel _ _ _ _ _ _ _ Hw) as Hsel. split.
  - change REG_STATUS with 0x1f7. rewrite (status_value w img (sl_cur _ _ _ _ Hsel) (sl_bs _ _ _ _ Hsel)). by rewrite (wa_status _ _ _ _ _ _ _ Hw).
  - destruct Hw as [[] ? ? ? ? ? ? ? ? ?]. by split.
Qed.

(** The sectors of an image after [n] of them were written. *)
Lemma write_sectors_step n img q (b rest : list Z) :
  length b = 512%nat -> write_sectors (1 + n) img q (b ++ rest) = write_sectors n (<[q := b]> img) (1 + q) rest.
Proof using Type. intros Hb. cbn [write_sectors Nat.add]. rewrite <- Hb at 1 2. by rewrite take_app_length, drop_app_length. Qed.

(** The polling loop stores every sector asked for. *)
Lemma write_words_ok cnt buf m i img w d acc q n :
  wf_image H S img -> machine d = w -> writing_at H S img w acc q n -> Forall is_u8 acc ->
  h_cnt (h_stat d) = cnt -> 0 <= cnt < 2 ^ 20 -> 0 <= i ->
  2 * (256 * cnt - i) = 512 * n - Z.of_nat (length acc) -> 512 * cnt <= Z.of_nat (length buf) ->
  Forall is_u8 (take (Z.to_nat (512 * cnt)) buf) -> 256 * cnt - i <= Z.of_nat m ->
  exists w', write_words m i buf d = Ok tt (with_io w' d) /\
    selected H S w' (write_sectors (Z.to_nat n) img (Z.to_nat q)
      (acc ++ take (Z.to_nat (512 * n - Z.of_nat (length acc))) (drop (Z.to_nat (2 * i)) buf))).
Proof using Hg.
  revert i img w d acc q n. induction m as [|m IH]; intros i img w d acc q n Himg Hw Hwr Hacc Hcnt Hc Hi Hrem Hbl Hbu Hm;
    pose proof (wa_range _ _ _ _ _ _ _ Hwr) as [Hr1 Hr2]; pose proof (wa_left _ _ _ _ _ _ _ Hwr) as (Hq & Hn & Hqn); [lia|].
  destruct (status_writing w img acc q n Hwr) as (w1 & E1 & Hwr1). subst w.
  destruct (drop_two (take (Z.to_nat (512 * cnt)) buf) (Z.to_nat (2 * i))) as (lo & hi & Elo & Ehi & Edrop);
    [rewrite length_take; lia|].
  pose proof (Forall_lookup_1 _ _ _ _ Hbu Elo) as Ulo. pose proof (Forall_lookup_1 _ _ _ _ Hbu Ehi) as Uhi.
  apply lookup_take_Some in Elo as [Elo _], Ehi as [Ehi _].
  assert (drop (Z.to_nat (2 * i)) buf = lo :: hi :: drop (Z.to_nat (2 * (i + 1))) buf) as Ed.
  { rewrite (drop_S _ _ _ Elo), (drop_S _ _ _ Ehi). do 3 f_equal. lia. }
  destruct (writew_ok C H S Hg w1 img acc q n lo hi Himg Hwr1 Ulo Uhi) as (w2 & E2 & Hin & Hnx & Hend).
  set (acc' := acc ++ [lo; hi]) in *.
  assert (Z.of_nat (length acc') = Z.of_nat (length acc) + 2) as Hla by (unfold acc'; rewrite length_app; simpl; lia).
  assert (Forall is_u8 acc') as Hacc' by (apply Forall_app; auto).
  assert (write_words (Datatypes.S m) i buf d = write_words m (i + 1) buf (with_io w2 (with_io w1 d))) as Estep.
  { cbn [write_words]. unfold hda_status. rewrite (bind_ok _ _ _ _ _ (h_in_ok REG_STATUS _ d w1 E1)).
    change (Z.land 0x58 0x08 =? 0) with false. cbv iota. unfold stat. rewrite bind_gets. cbv beta. cbn [h_stat with_io].
    rewrite Hcnt, u32_small by (unfold is_u32; lia). rewrite (proj2 (Z.ltb_lt _ _)) by lia.
    rewrite (bind_some _ _ lo) by (unfold aget; rewrite decide_True by lia; done).
    rewrite (bind_some _ _ hi) by (unfold aget; rewrite decide_True by lia; rewrite <- Ehi; f_equal; lia).
    rewrite !u8_small by done.
    assert (hda_writedata (lo + 256 * hi) (with_io w1 d) = Ok tt (with_io w2 (with_io w1 d))) as E2'.
    { apply on_io_ok. cbn [outportw ide_ports]. unfold u16. rewrite Zmod_mod. unfold is_u8 in *.
      rewrite Z.mod_small by lia. exact E2. }
    by rewrite (bind_ok _ _ _ _ _ E2'). }
  assert (acc ++ take (Z.to_nat (512 * n - Z.of_nat (length acc))) (drop (Z.to_nat (2 * i)) buf) =
          acc' ++ take (Z.to_nat (512 * n - Z.of_nat (length acc'))) (drop (Z.to_nat (2 * (i + 1))) buf)) as Eb.
  { rewrite Ed. unfold acc'. rewrite <- app_assoc. f_equal.
    replace (Z.to_nat (512 * n - Z.of_nat (length acc))) with (2 + Z.to_nat (512 * n - Z.of_nat (length acc')))%nat by lia.
    reflexivity. }
  rewrite Estep, Eb. destruct (decide (Z.of_nat (length acc') < 512)) as [Hlt|Hge].
  - destruct (IH (i + 1) img w2 (with_io w2 (with_io w1 d)) acc' q n Himg eq_refl (Hin Hlt) Hacc' Hcnt) as (w' & E & Hs);
      [lia|lia|lia|done|done|lia|]. exists w'. split; [exact E|exact Hs].
  - assert (Z.of_nat (length acc') = 512) as Hfull by lia.
    assert (length acc' = 512%nat) as Hfull' by lia.
    replace (Z.to_nat n) with (1 + Z.to_nat (n - 1))%nat by lia. rewrite write_sectors_step by done.
    replace (1 + Z.to_nat q)%nat with (Z.to_nat (q + 1)) by lia.
    pose proof (wf_image_insert H S img (Z.to_nat q) acc' Himg Hfull' Hacc') as Himg'.
    destruct (decide (n = 1)) as [->|Hn1].
    + destruct (Hend Hfull eq_refl) as [Hsel Hst].
      assert (ide_inb REG_STATUS w2 = Ok 0x50 (MkIf (if0 w2) (if1 w2) (cur_drive w2) 0)) as E3
        by (change REG_STATUS with 0x1f7; rewrite (status_value w2 _ (sl_cur _ _ _ _ Hsel) (sl_bs _ _ _ _ Hsel)); by rewrite Hst).
      exists (MkIf (if0 w2) (if1 w2) (cur_drive w2) 0). split.
      * destruct m; cbn [write_words]; unfold hda_status;
          by rewrite (bind_ok _ _ _ _ _ (h_in_ok REG_STATUS _ (with_io w2 (with_io w1 d)) _ E3)).
      * cbn [Z.sub Z.to_nat write_sectors]. by destruct Hsel.
    + destruct (IH (i + 1) (<[Z.to_nat q := acc']> img) w2 (with_io w2 (with_io w1 d)) [] (q + 1) (n - 1) Himg' eq_refl
        (Hnx Hfull ltac:(lia))) as (w' & E & Hs); [constructor|done|lia|lia|simpl; lia|done|done|lia|].
      exists w'. split; [exact E|]. cbn [app] in Hs. simpl length in Hs.
      replace (512 * (n - 1) - Z.of_nat 0) with (512 * n - Z.of_nat (length acc')) in Hs by lia. exact Hs.
Qed.

Lemma write_sectors_lookup n img q (bytes : list Z) k :
  (512 * n <= length bytes)%nat -> (q + n <= length img)%nat ->
  write_sectors n img q bytes !! k =
    if decide (q <= k < q + n)%nat then Some (take 512 (drop (512 * (k - q)) bytes)) else img !! k.
Proof using Type.
  revert img q bytes. induction n as [|n IH]; intros img q bytes Hl Hq; cbn [write_sectors].
  - by rewrite decide_False by lia.
  - rewrite IH by (rewrite ?length_drop, ?length_insert; lia). repeat case_decide; try lia.
    + rewrite drop_drop. do 3 f_equal. lia.
    + assert (k = q) as -> by lia. rewrite list_lookup_insert_eq by lia. by rewrite Nat.sub_diag, Nat.mul_0_r, drop_0.
    + rewrite list_lookup_insert_ne by lia. done.
Qed.

Lemma write_sectors_length n img q (bytes : list Z) : length (write_sectors n img q bytes) = length img.
Proof using Type. revert img q bytes. induction n as [|n IH]; intros; cbn [write_sectors]; [done|]. by rewrite IH, length_insert. Qed.

Lemma write_sectors_wf n img q (bytes : list Z) :
  wf_image H S img -> (512 * n <= length bytes)%nat -> Forall is_u8 bytes -> wf_image H S (write_sectors n img q bytes).
Proof using Type.
  revert img q bytes. induction n as [|n IH]; intros img q bytes Hi Hl Hu; cbn [write_sectors]; [done|]. apply IH.
  - apply wf_image_insert; [done|rewrite length_take; lia|by apply Forall_take].
  - rewrite length_drop. lia.
  - by apply Forall_drop.
Qed.

Lemma hda_write_ok d img id o n buf :
  driver_ok d img -> 1 <= o < C * H * S -> 0 < n < 256 -> o - 1 + n <= Z.of_nat (length img) -> 256 * n <= Z.of_nat fuel ->
  512 * n <= Z.of_nat (length buf) -> Forall is_u8 (take (Z.to_nat (512 * n)) buf) ->
  exists d', hda_write fuel id buf n (with_stat (seeked o) d) = Ok 0 d' /\
    driver_ok d' (write_sectors (Z.to_nat n) img (Z.to_nat (o - 1)) (take (Z.to_nat (512 * n)) buf)) /\
    h_parts d' = h_parts d.
Proof using Hg.
  intros Hd Ho Hn Hle Hf Hl Hu. pose proof Hd as [HC HH HS _ Himg].
  destruct (start_ok d img n o Hd Ho Hn) as (w1 & E1 & Hat & Hcur & Hchs & Hns & Hsec).
  set (st := fun s => set_cnt n (seeked o s)) in *.
  destruct (cmd_write w1 img Hat Hcur Hchs) as (w2 & E2 & Hw2); [rewrite Hns; lia|rewrite Hsec; lia|rewrite Hns; lia|rewrite Hns, Hsec; lia|].
  rewrite Hsec, Hns in Hw2. set (d2 := with_io w2 (with_stat (fun s => set_cmd CMD_WRITE (st s)) d)).
  destruct (write_words_ok n buf fuel 0 img w2 d2 [] (o - 1) n Himg eq_refl Hw2) as (w3 & E3 & Hs3);
    [constructor|reflexivity|lia|lia|simpl; lia|lia|exact Hu|lia|].
  cbn [app] in Hs3. simpl length in Hs3. change (Z.to_nat (2 * 0)) with 0%nat in Hs3. rewrite drop_0 in Hs3.
  replace (512 * n - Z.of_nat 0) with (512 * n) in Hs3 by lia.
  exists (with_io w3 d2). split; [|split; [|reflexivity]].
  - unfold hda_write. rewrite (bind_ok _ _ _ _ _ E1). unfold hda_command, stat_upd. rewrite bind_assoc, bind_modify. cbv beta.
    rewrite (bind_ok _ _ _ _ _ (h_out_ok REG_COMMAND CMD_WRITE (with_io w1 (with_stat (fun s => set_cmd CMD_WRITE (st s)) d)) w2 E2)).
    rewrite (bind_ok _ _ (with_io w2 _) _ _ E3). reflexivity.
  - split; [exact HC|exact HH|exact HS|by eapply selected_attached|].
    apply write_sectors_wf; [done|rewrite length_take; lia|done].
Qed.
End Driver.

(** * Reading back *)

Lemma write_sectors_concat n img q (bytes : list Z) :
  (length bytes = 512 * n)%nat -> (q + n <= length img)%nat ->
  concat (take n (drop q (write_sectors n img q bytes))) = bytes.
Proof.
  revert img q bytes. induction n as [|n IH]; intros img q bytes Hl Hq.
  - by destruct bytes.
  - assert (write_sectors (S n) img q bytes !! q = Some (take 512 bytes)) as E.
    { rewrite write_sectors_lookup by lia. rewrite decide_True by lia. by rewrite Nat.sub_diag, Nat.mul_0_r, drop_0. }
    rewrite (drop_S _ _ _ E). cbn [write_sectors firstn concat].
    rewrite IH by (rewrite ?length_drop, ?length_insert; lia). apply firstn_skipn.
Qed.

(** C11: what [hda_write] stores on the emulated drive, at a sector sought with
    [hda_lseek], [hda_read] at the same sector returns; the other sectors of the
    image keep their contents, and the driver and the drive stay ready. *)
Theorem hda_write_read_back C H S (Hg : geom_ok C H S) fuel d img o n buf :
  driver_ok C H S d img -> 1 <= o < C * H * S -> 0 < n < 256 -> o - 1 + n <= Z.of_nat (length img) ->
  256 * n <= Z.of_nat fuel -> Z.of_nat (length buf) = 512 * n -> Forall is_u8 buf ->
  exists d1 d2 d3 d4 img',
    hda_lseek 0 o 0 d = Ok 0 d1 /\ hda_write fuel 0 buf n d1 = Ok 0 d2 /\
    hda_lseek 0 o 0 d2 = Ok 0 d3 /\ hda_read line_irq fuel 0 n d3 = Ok (0, buf) d4 /\
    driver_ok C H S d4 img' /\ forall k, ~ (o - 1 <= Z.of_nat k < o - 1 + n) -> img' !! k = img !! k.
Proof.
  intros Hd Ho Hn Hle Hf Hl Hu.
  assert (take (Z.to_nat (512 * n)) buf = buf) as Eb by (apply take_ge; lia).
  destruct (hda_write_ok C H S Hg fuel d img 0 o n buf Hd) as (d2 & Ew & Hd2 & _); try lia; [by rewrite Eb|].
  rewrite Eb in Hd2. set (img' := write_sectors _ _ _ _) in *.
  destruct (read_ok C H S Hg fuel d2 img' 0 o n Hd2) as (d4 & Er & Hd4 & _);
    [lia|lia|unfold img'; rewrite write_sectors_length; lia|lia|].
  unfold img' in Er. rewrite write_sectors_concat in Er by lia.
  exists (with_stat (seeked C H S o) d), d2, (with_stat (seeked C H S o) d2), d4, img'.
  split; [by eapply (lseek_ok C H S Hg d img); [|reflexivity|lia]|]. split; [exact Ew|].
  split; [by eapply (lseek_ok C H S Hg d2 img'); [|reflexivity|lia]|]. split; [exact Er|]. split; [exact Hd4|].
  intros k Hk. unfold img'. rewrite write_sectors_lookup by lia. by rewrite decide_False by lia.
Qed.

(** A drive of eight sectors. *)
Definition small_drive (img : option (list (list Z))) : IDEState :=
  MkIDE 2 2 2 8 1 img 16 0 [] 0 0 (MkRegs 0 0 1 1 0 0 0 0 0 0 0 0xa0 0x40)
    (MkPio 0 DummyTransferStop 0 0 (replicate (Z.to_nat 8196) 0) 0 0).
Definition small_machine : hda ide :=
  Hda (HdaStat 0 0 0 2 2 2 0 0 0) (replicate 8 (Part 0 0))
    (MkIrq [] (replicate 16 None) None true
       (MkIf (small_drive (Some (replicate 8 (replicate 512 0)))) (small_drive None) false 0)).

Lemma hda_write_read_back_witness :
  exists d1 d2 d3 d4 img',
    hda_lseek 0 3 0 small_machine = Ok 0 d1 /\ hda_write 512 0 (replicate 1024 9) 2 d1 = Ok 0 d2 /\
    hda_lseek 0 3 0 d2 = Ok 0 d3 /\ hda_read line_irq 512 0 2 d3 = Ok (0, replicate 1024 9) d4 /\
    driver_ok 2 2 2 d4 img' /\
    forall k, ~ (3 - 1 <= Z.of_nat k < 3 - 1 + 2) -> img' !! k = replicate 8 (replicate 512 0) !! k.
Proof.
  apply (hda_write_read_back 2 2 2); try lia; [unfold geom_ok; lia| |by vm_compute|by vm_compute
    |apply Forall_replicate; unfold is_u8; lia].
  split; try reflexivity; [by split|]. split; [|by vm_compute].
  apply Forall_replicate. split; [apply length_replicate|apply Forall_replicate; unfold is_u8; lia].
Defined.
