(* ===== verification/HdaInit.v ===== *)
(** [hda_init] of Hda on the emulated drive: the geometry comes from the
    drive's identification, the partition from the super block on the disk. *)
From S2P Require Import Prelude LibC Layout Device I8259 Port Irq Hda Ide IdePio HdaIde.

(** * The identification of a drive *)

Lemma put_le16_length i v p : length (put_le16 i v p) = length p.
Proof. unfold put_le16. by rewrite !length_insert. Qed.
Lemma put_le16_other i v p k : (k < 2 * i)%nat -> put_le16 i v p !! k = p !! k.
Proof. intros Hk. unfold put_le16. by rewrite !list_lookup_insert_ne by lia. Qed.
Lemma put_le16_here i v p :
  (2 * i + 1 < length p)%nat ->
  put_le16 i v p !! (2 * i)%nat = Some (u8 v) /\ put_le16 i v p !! (2 * i + 1)%nat = Some (u8 (Z.shiftr v 8)).
Proof.
  intros Hl. unfold put_le16. split; [by rewrite list_lookup_insert_eq by (rewrite length_insert; lia)|].
  rewrite list_lookup_insert_ne by lia. by rewrite list_lookup_insert_eq by lia.
Qed.

Lemma padstr_length at_ src len p : length (padstr at_ src len p) = length p.
Proof. revert at_ src p. induction len as [|n IH]; intros; cbn [padstr]; [done|]. by rewrite IH, length_insert. Qed.
Lemma padstr_other at_ src len p k : (k + 1 < at_)%nat -> padstr at_ src len p !! k = p !! k.
Proof.
  revert at_ src p. induction len as [|n IH]; intros at_ src p Hk; cbn [padstr]; [done|].
  rewrite IH by lia. apply list_lookup_insert_ne.
  assert (Z.of_nat at_ - 1 <= Z.lxor (Z.of_nat at_) 1) as Hx; [|lia].
  destruct (Z.of_nat at_) as [|[q|q|]|q] eqn:E; cbv [Z.lxor Pos.lxor Z.of_N]; lia.
Qed.

Lemma identify_length s : length (identify_words s) = 512%nat.
Proof. unfold identify_words. cbv zeta. destruct (_ =? 0); by rewrite ?put_le16_length, ?padstr_length, ?put_le16_length, ?padstr_length, ?put_le16_length. Qed.

(** Every word behind the seventh leaves the geometry alone. *)
Lemma identify_geometry s :
  let p := identify_words s in
  p !! 2%nat = Some (u8 (d_cylinders s)) /\ p !! 3%nat = Some (u8 (Z.shiftr (d_cylinders s) 8)) /\
  p !! 6%nat = Some (u8 (d_heads s)) /\ p !! 7%nat = Some (u8 (Z.shiftr (d_heads s) 8)) /\
  p !! 12%nat = Some (u8 (d_sectors s)) /\ p !! 13%nat = Some (u8 (Z.shiftr (d_sectors s) 8)).
Proof.
  set (p6 := put_le16 6 (d_sectors s) (put_le16 5 512 (put_le16 4 (512 * d_sectors s) (put_le16 3 (d_heads s)
    (put_le16 1 (d_cylinders s) (put_le16 0 0x0040 (replicate 512 0))))))).
  assert (forall k, (k < 14)%nat -> identify_words s !! k = p6 !! k) as Hk.
  { intros k Hk. unfold identify_words. cbv zeta. fold p6. clearbody p6. destruct (_ =? 0).
    all: repeat first [rewrite put_le16_other by lia|rewrite padstr_other by lia]; done. }
  cbv zeta. rewrite !Hk by lia. by vm_compute.
Qed.

(** The word [j] of the data of [ide_identify]. *)
Definition word (data : list Z) (j : Z) : Z :=
  nth (Z.to_nat (2 * j)) data 0 + 256 * nth (Z.to_nat (2 * j + 1)) data 0.

Section Init.
Context (C H S : Z) (Hg : geom_ok C H S).

(** The data port delivers [data] from the byte [ptr] on, and then stops. *)
Record identifying (img : list (list Z)) (data : list Z) (w : ide) (ptr : Z) : Prop := {
  id_at : attached H S w img;
  id_cur : cur_drive w = false;
  id_end : p_end_transfer (d_pio (if0 w)) = TransferStop;
  id_ptr : p_data_ptr (d_pio (if0 w)) = ptr;
  id_dend : p_data_end (d_pio (if0 w)) = 512;
  id_range : 0 <= ptr < 512 /\ ptr mod 2 = 0;
  id_data : take 512 (p_io_buffer (d_pio (if0 w))) = data;
  id_status : r_status (d_regs (if0 w)) = 0x58
}.
(** The transfer is over. *)
Record identified (img : list (list Z)) (w : ide) : Prop := {
  ix_at : attached H S w img;
  ix_cur : cur_drive w = false;
  ix_status : r_status (d_regs (if0 w)) = 0x50
}.
Definition identify_at img data w ptr : Prop :=
  if decide (ptr < 512) then identifying img data w ptr else identified img w.

(** Reading the status lowers the interrupt line. *)
Definition lowered (w : ide) : ide := MkIf (if0 w) (if1 w) (cur_drive w) 0.

Lemma identify_status img data w ptr :
  identify_at img data w ptr ->
  ide_inb REG_STATUS w = Ok (if decide (ptr < 512) then 0x58 else 0x50) (lowered w) /\
  identify_at img data (lowered w) ptr.
Proof using Type.
  unfold identify_at. change REG_STATUS with 0x1f7. case_decide; intros [[] Hc].
  all: split; [rewrite (status_value w img); [|done|done]; by f_equal|by split].
Qed.

Lemma identify_word img data w j :
  identifying img data w (2 * j) ->
  exists w', ide_data_readw w = Ok (word data j) w' /\ identify_at img data w' (2 * (j + 1)).
Proof using Type.
  intros [[Hb Hh Hs Hl Hm] Hc He Hp Hd [Hr _] Hdata Hst]. set (buf := p_io_buffer (d_pio (if0 w))) in *.
  assert (forall k, 0 <= k < 512 -> aget buf k = Some (nth (Z.to_nat k) data 0)) as Hget.
  { intros k Hk. unfold aget. rewrite decide_True by lia. rewrite <- Hdata.
    destruct (lookup_lt_is_Some_2 buf (Z.to_nat k)) as [x Ex]; [lia|]. rewrite Ex. f_equal. symmetry.
    apply nth_lookup_Some. by rewrite lookup_take_lt by lia. }
  unfold ide_data_readw. msteps. rewrite Hc. unfold dget. msteps. cbn [drive]. rewrite Hp. fold buf.
  msome (Hget (2 * j) ltac:(lia)). msome (Hget (2 * j + 1) ltac:(lia)).
  unfold advance, dupd, dget. msteps. cbn [drive if0 if1 cur_drive irq_line].
  set (s' := on_pio _ (if0 w)). change (p_data_end (d_pio s')) with (p_data_end (d_pio (if0 w))). rewrite Hd.
  unfold identify_at. replace (2 * (j + 1)) with (2 * j + 2) by lia.
  destruct (Z.leb_spec 512 (2 * j + 2)) as [Hfull|Hmore]; destruct (decide (2 * j + 2 < 512)) as [Hlt|Hge]; try lia.
  - unfold end_transfer_func, dget. msteps. cbn [drive if0].
    change (p_end_transfer (d_pio s')) with (p_end_transfer (d_pio (if0 w))). rewrite He.
    unfold ide_transfer_stop, dupd. msteps. eexists. split; [reflexivity|]. split; [by split|done|].
    change (Z.land (r_status (d_regs (if0 w))) (Z.lnot DRQ_STAT) = 0x50). by rewrite Hst.
  - unfold ret. msteps. eexists. split; [reflexivity|].
    split; try done. split; [lia|]. rewrite <- Z.add_mod_idemp_l by lia. Z.div_mod_to_equations; lia.
Qed.

(** * The handler of the identification *)

(** The geometry the words from [i] on leave in the driver's state. *)
Definition geometry_from (data : list Z) (i : Z) (s : hda_stat) : hda_stat :=
  set_geom (if decide (i <= 1) then word data 1 else h_C s) (if decide (i <= 3) then word data 3 else h_H s)
    (if decide (i <= 6) then word data 6 else h_S s) s.

(** The state after the word [i]. *)
Definition noted (data : list Z) (i : Z) (s : hda_stat) : hda_stat :=
  if i =? 1 then set_geom (word data i) (h_H s) (h_S s) s
  else if i =? 3 then set_geom (h_C s) (word data i) (h_S s) s
  else if i =? 6 then set_geom (h_C s) (h_H s) (word data i) s else s.

Lemma noted_geometry data i s : geometry_from data (i + 1) (noted data i s) = geometry_from data i s.
Proof using Type.
  unfold geometry_from, noted.
  destruct (Z.eqb_spec i 1) as [->|?]; [done|]. destruct (Z.eqb_spec i 3) as [->|?]; [done|].
  destruct (Z.eqb_spec i 6) as [->|?]; [done|]. by repeat case_decide; try lia.
Qed.

Lemma geometry_done data s : geometry_from data 256 s = s.
Proof using Type. by destruct s. Qed.

Lemma identify_loop_ok img data d i m :
  identify_at img data (machine d) (2 * i) -> 0 <= i <= 256 -> 256 - i <= Z.of_nat m ->
  exists w', identify_loop m i d = Ok tt (with_io w' (with_stat (geometry_from data i) d)) /\ identified img w'.
Proof using Type.
  revert d i. induction m as [|m IH]; intros d i Hid Hi Hm.
  all: destruct (identify_status img data (machine d) (2 * i) Hid) as [Est Hid1].
  all: cbn [identify_loop]; unfold hda_status; rewrite (bind_ok _ _ _ _ _ (h_in_ok REG_STATUS _ d _ Est)).
  all: destruct (decide (i = 256)) as [->|Hne].
  1,3: exists (lowered (machine d)); split; [|exact Hid1].
  1,2: unfold with_stat; rewrite geometry_done; by destruct d.
  { lia. }
  rewrite decide_True by lia. change (Z.land 0x58 0x08 =? 0) with false. cbv iota.
  assert (identifying img data (lowered (machine d)) (2 * i)) as Hid2
    by (unfold identify_at in Hid1; destruct (decide (2 * i < 512)); [exact Hid1|lia]).
  destruct (identify_word img data _ i Hid2) as (w2 & E2 & Hid3).
  assert (hda_readdata (with_io (lowered (machine d)) d) = Ok (word data i) (with_io w2 d)) as E2'
    by (exact (on_io_ok _ _ (with_io (lowered (machine d)) d) w2 E2)).
  rewrite (bind_ok _ _ _ _ _ E2').
  destruct (IH (with_io w2 (with_stat (noted data i) d)) (i + 1)) as (w3 & E3 & Hx); [exact Hid3|lia|lia|].
  exists w3. split; [|exact Hx]. rewrite (bind_ok _ _ _ tt (with_io w2 (with_stat (noted data i) d))).
  - rewrite E3. unfold with_io, with_stat. cbn [h_stat h_parts h_io isr_handler irq_handler syscall iflag].
    by rewrite noted_geometry.
  - unfold with_stat, noted. destruct (i =? 1); [reflexivity|]. destruct (i =? 3); [reflexivity|].
    destruct (i =? 6); [reflexivity|]. by destruct d.
Qed.

Lemma cmd_identify w img :
  attached H S w img -> cur_drive w = false -> d_identify_set (if0 w) = 0 ->
  exists w', ide_outb REG_COMMAND CMD_IDENTIFY w = Ok tt w' /\ identifying img (identify_words (if0 w)) w' 0 /\
    irq_line w' = 1.
Proof using Type.
  intros [Hb Hh Hs Hl Hm] Hc Hset. destruct w as [a b c l]; cbn [cur_drive if0 if1 irq_line] in *. subst c.
  unfold ide_outb. rewrite decide_True by (unfold REG_COMMAND, BLK_HDD_IOBASE; lia).
  unfold ide_ioport_write. change (Z.land REG_COMMAND 7) with 7. cbv beta iota zeta delta [Z.eqb Pos.eqb].
  rewrite bind_get. cbn [cur_drive andb]. unfold ide_command, dget at 1. rewrite bind_gets. cbn [drive if0]. rewrite Hb.
  change (CMD_IDENTIFY =? 0xEC) with true. cbv iota. unfold ide_identify, dget at 1. msteps. cbn [drive if0].
  rewrite Hset. cbn [Z.eqb negb]. unfold fill_buffer, dget at 1. msteps. cbn [drive if0].
  pose proof (identify_length a) as Hlen. set (data := identify_words a) in *.
  rewrite memcpy_spec by lia. cbn [of_option]. rewrite firstn_all. msteps.
  unfold dupd. msteps. cbn [if0 if1 cur_drive irq_line].
  unfold set_status, ide_transfer_start, dupd. msteps. cbn [if0 if1 cur_drive irq_line].
  unfold ide_set_irq, dget. msteps. cbn [drive if0].
  change (d_cmd _) with (d_cmd a). rewrite Hm. cbn [Z.eqb]. unfold set_irq, modify. cbn [if0 if1 cur_drive irq_line].
  eexists. split; [reflexivity|]. split; [|reflexivity].
  split; try done; cbn [if0].
  - split; try done. change (Z.of_nat (length (data ++ drop (length data) (p_io_buffer (d_pio a)))) = 8196).
    rewrite length_app, length_drop. lia.
  - change (take 512 (data ++ drop (length data) (p_io_buffer (d_pio a))) = data). rewrite <- Hlen at 1.
    by rewrite take_app_length.
Qed.

Context (fuel : nat).

(** The driver after the drive answered. *)
Definition noted_drive (data : list Z) (s : hda_stat) : hda_stat :=
  set_cmd 0 (set_rready 1 (geometry_from data 0 s)).

Lemma wait_identify d img data :
  h_rready (h_stat d) = 0 -> h_cmd (h_stat d) = CMD_IDENTIFY -> irq_line (machine d) = 1 -> 256 <= Z.of_nat fuel ->
  identifying img data (machine d) 0 ->
  exists w', wait_ready line_irq fuel fuel d = Ok tt (with_io w' (with_stat (noted_drive data) d)) /\ identified img w'.
Proof using Type.
  intros Hr Hcmd Hl Hf Hid. destruct fuel as [|m]; [lia|].
  destruct (identify_status img data (machine d) 0 Hid) as [Est Hid1].
  destruct (identify_loop_ok img data (with_io (lowered (machine d)) d) 0 (Datatypes.S m) Hid1) as (w' & El & Hx); [lia..|].
  exists w'. split; [|done]. cbn [wait_ready]. unfold stat at 1. rewrite bind_gets. cbv beta. rewrite Hr. cbn [Z.eqb negb].
  rewrite (bind_ok _ _ _ true (with_io (machine d) d)) by (apply on_io_ok; unfold line_irq, gets; by rewrite Hl).
  cbv beta iota. assert (with_io (machine d) d = d) as -> by (by destruct d as [? ? []]).
  assert (hda_intr (Datatypes.S m) d = Ok tt (with_io w' (with_stat (noted_drive data) d))) as Ei.
  { unfold hda_intr, hda_status. rewrite (bind_ok _ _ _ _ _ (h_in_ok REG_STATUS _ d _ Est)).
    change (Z.land 88 1 =? 0) with true. cbn [negb].
    unfold stat. rewrite bind_gets. cbv beta. cbn [h_stat with_io]. rewrite Hcmd. cbn [Z.eqb Pos.eqb CMD_IDENTIFY].
    rewrite bind_assoc, (bind_ok _ _ _ _ _ El). reflexivity. }
  rewrite (bind_ok _ _ _ _ _ Ei). destruct m; reflexivity.
Qed.

(** * The partition table *)

(** The last sector of the file system a super block describes. *)
Definition last_sector (b : list Z) : Z :=
  u32 ((s_dblk (decode_sblk b) + s_dblkcnt (decode_sblk b)) * Z.quot (s_blksize (decode_sblk b)) 512).

Lemma absolute_disk off (d : hda ide) : absolute (DEVID BLK_HDA 0) off d = Ok (Some off) d.
Proof using Type. reflexivity. Qed.

Lemma lseek_beyond d img off :
  driver_ok C H S d img -> C * H * S < off < 2 ^ 31 -> hda_lseek (DEVID BLK_HDA 0) off 0 d = Ok (-1) d.
Proof using Hg.
  intros [HC HH HS _ _] Ho. pose proof (geom_small C H S Hg).
  unfold hda_lseek. rewrite (bind_ok _ _ _ _ _ (absolute_disk off d)). unfold stat. rewrite bind_gets. cbv beta.
  rewrite HC, HH, HS, !u32_small by (unfold is_u32; lia). by rewrite (proj2 (Z.ltb_lt _ _)) by lia.
Qed.

(** One file system on the disk, as long as the disk or longer: it is the first
    partition, and the search ends behind it. *)
Lemma detect_one d img e0 p1 parts sb :
  driver_ok C H S d img -> h_parts d = Part 2 e0 :: p1 :: parts -> 256 <= Z.of_nat fuel -> 2 < C * H * S ->
  img !! 1%nat = Some sb -> take 3 sb = [77; 70; 83] -> C * H * S <= last_sector sb < 2 ^ 31 - 1 ->
  exists d', detect line_irq fuel (Z.to_nat NPARTS) 0 d = Ok tt d' /\ driver_ok C H S d' img /\
    h_parts d' = Part 2 (last_sector sb) :: Part (last_sector sb + 1) (p_end p1) :: parts.
Proof using Hg.
  intros Hd Hp Hf Hchs Hsb Hm Hlast. change (Z.to_nat NPARTS) with (Datatypes.S (Datatypes.S 6)).
  generalize 6%nat as m; intros m. cbn [detect].
  pose proof (lookup_lt_Some _ _ _ Hsb) as Hlen.
  msteps. rewrite Hp. change (aget (_ :: _ :: _) 0) with (Some (Part 2 e0)). cbn [of_option]. msteps. cbn [p_begin].
  change (s32 2) with 2. rewrite (bind_ok _ _ _ _ _ (lseek_ok C H S Hg d img _ 2 2 0 Hd (absolute_disk 2 d) ltac:(lia))).
  change (0 =? -1) with false. cbv iota.
  destruct (read_ok C H S Hg fuel d img 0 2 1 Hd) as (d1 & E1 & Hd1 & Hp1); [lia..|].
  rewrite (bind_ok _ _ _ _ _ E1). cbn [snd].
  assert (concat (take (Z.to_nat 1) (drop (Z.to_nat (2 - 1)) img)) = sb) as ->.
  { change (Z.to_nat (2 - 1)) with 1%nat. change (Z.to_nat 1) with 1%nat. erewrite drop_S by exact Hsb. cbn.
    by rewrite firstn_O, app_nil_r. }
  rewrite (bind_some _ _ 0).
  2: { destruct sb as [|c0 [|c1 [|c2 sb]]]; try done. cbn in Hm. injection Hm as -> -> ->. reflexivity. }
  cbn [Z.eqb negb]. fold (last_sector sb). set (l := last_sector sb) in *. rewrite Hp in Hp1.
  unfold part_upd. msteps. rewrite Hp1. change (aget (_ :: _ :: _) 0) with (Some (Part 2 e0)). cbn [of_option]. msteps.
  change (aset (_ :: _ :: _) 0 _) with (Some (Part 2 l :: p1 :: parts)). cbn [of_option]. msteps. cbn [h_parts h_stat h_io].
  change (aget (_ :: _ :: _) (0 + 1)) with (Some p1). cbn [of_option]. msteps.
  rewrite (bind_some _ _ (Part 2 l :: Part (u32 (l + 1)) (p_end p1) :: parts))
    by (unfold aset; rewrite decide_True by (rewrite !length_cons; lia); reflexivity).
  msteps.
  rewrite u32_small by (unfold is_u32; lia).
  cbn [h_parts].
  change (aget (_ :: _ :: _) (0 + 1)) with (Some (Part (l + 1) (p_end p1))). cbn [of_option]. msteps. cbn [p_begin].
  rewrite s32_small by (unfold is_s32; lia).
  set (d2 := Hda _ _ _). assert (driver_ok C H S d2 img) as Hd2 by (by destruct Hd1).
  rewrite (bind_ok _ _ _ _ _ (lseek_beyond d2 img (l + 1) Hd2 ltac:(lia))). exists d2. done.
Qed.

(** * Initialisation *)

(** The interface as the emulator leaves it at start: a first drive with the
    geometry, selected, that has not been asked for its identification. *)
Record powered_on (w : ide) (img : list (list Z)) : Prop := {
  po_at : attached H S w img;
  po_cyl : d_cylinders (if0 w) = C;
  po_cur : cur_drive w = false;
  po_set : d_identify_set (if0 w) = 0;
  po_img : wf_image H S img
}.

Lemma identify_word_geometry w img data :
  powered_on w img -> data = identify_words (if0 w) -> word data 1 = C /\ word data 3 = H /\ word data 6 = S.
Proof using Hg.
  intros [[_ Hh Hs _ _] Hc _ _ _] ->. destruct (identify_geometry (if0 w)) as (E1 & E2 & E3 & E4 & E5 & E6).
  destruct Hg as (? & ? & ?). unfold word.
  assert (forall x, 0 <= x < 65536 -> u8 x + 256 * u8 (Z.shiftr x 8) = x) as Hx.
  { intros x Hx. unfold u8. rewrite Z.shiftr_div_pow2 by lia. Z.div_mod_to_equations; lia. }
  split_and!.
  - rewrite (nth_lookup_Some _ _ _ _ E1), (nth_lookup_Some _ _ _ _ E2), Hc. apply Hx. lia.
  - rewrite (nth_lookup_Some _ _ _ _ E3), (nth_lookup_Some _ _ _ _ E4), Hh. apply Hx. lia.
  - rewrite (nth_lookup_Some _ _ _ _ E5), (nth_lookup_Some _ _ _ _ E6), Hs. apply Hx. lia.
Qed.

(** The interrupt controller's ports are not the interface's. *)
Lemma install_ok (d : hda ide) l n :
  aset (irq_handler (h_io d)) 14 (Some n) = Some l ->
  h_irq (irq_install 14 (Some n)) d =
    Ok tt (Hda (h_stat d) (h_parts d) (MkIrq (isr_handler (h_io d)) l (syscall (h_io d)) (iflag (h_io d)) (machine d))).
Proof using Type.
  intros El. destruct d as [st pa [ih qh sc fl w]]. cbn [h_io irq_handler] in El.
  unfold h_irq, zoom. cbn [h_io]. unfold irq_install. msteps. cbn [irq_handler]. rewrite El. by destruct fl.
Qed.

Lemma hda_init_ok d img l e0 p1 parts sb :
  powered_on (machine d) img -> aset (irq_handler (h_io d)) 14 (Some HDA_INTR) = Some l ->
  h_parts d = e0 :: p1 :: parts -> 256 <= Z.of_nat fuel -> 2 < C * H * S ->
  img !! 1%nat = Some sb -> take 3 sb = [77; 70; 83] -> C * H * S <= last_sector sb < 2 ^ 31 - 1 ->
  exists d', hda_init line_irq fuel d = Ok 0 d' /\ driver_ok C H S d' img /\
    h_parts d' = Part 2 (last_sector sb) :: Part (last_sector sb + 1) (p_end p1) :: parts.
Proof using Hg.
  intros Hpo El Hp Hf Hchs Hsb Hm Hlast. destruct (identify_word_geometry _ _ _ Hpo eq_refl) as (G1 & G2 & G3).
  pose proof Hpo as [Hat _ Hc Hset Himg].
  unfold hda_init. rewrite (bind_ok _ _ _ _ _ (install_ok d l HDA_INTR El)). unfold stat_upd. rewrite bind_modify. cbv beta.
  destruct (cmd_identify _ img Hat Hc Hset) as (w2 & E2 & Hid & Hl2). set (data := identify_words _) in *. clearbody data.
  unfold hda_command, stat_upd. rewrite bind_assoc, bind_modify. cbv beta.
  set (d1 := Hda _ _ _). rewrite (bind_ok _ _ _ _ _ (h_out_ok REG_COMMAND CMD_IDENTIFY d1 w2 E2)).
  destruct (wait_identify (with_io w2 d1) img data eq_refl eq_refl Hl2 Hf Hid) as (w3 & E3 & Hx).
  rewrite (bind_ok _ _ _ _ _ E3). set (d3 := with_io w3 _).
  assert (h_parts d3 = e0 :: p1 :: parts) as Hp3 by (exact Hp).
  unfold part_upd. msteps. rewrite Hp3. change (aget (_ :: _ :: _) 0) with (Some e0). cbn [of_option]. msteps.
  change (aset (_ :: _ :: _) 0 _) with (Some (Part 2 (p_end e0) :: p1 :: parts)). cbn [of_option]. msteps.
  set (d4 := Hda _ _ _). assert (driver_ok C H S d4 img) as Hd4.
  { split; [exact G1|exact G2|exact G3|exact (ix_at _ _ Hx)|exact Himg]. }
  destruct (detect_one d4 img (p_end e0) p1 parts sb Hd4 eq_refl Hf Hchs Hsb Hm Hlast) as (d' & Ed & Hd' & Hp').
  rewrite (bind_ok _ _ _ _ _ Ed). by exists d'.
Qed.
End Init.

(** On a machine whose first drive holds one MFS file system that reaches at
    least to the end of its geometry, [hda_init] asks the drive for its
    identification, takes the geometry from the interrupt handler, finds the super
    block behind the boot sector and enters the file system as the first partition,
    from sector 2 to the last sector of its data region. *)
Theorem hda_init_detects C H S (Hg : geom_ok C H S) fuel d img l e0 p1 parts sb :
  powered_on C H S (machine d) img -> aset (irq_handler (h_io d)) 14 (Some HDA_INTR) = Some l ->
  h_parts d = e0 :: p1 :: parts -> 256 <= Z.of_nat fuel -> 2 < C * H * S ->
  img !! 1%nat = Some sb -> take 3 sb = [77; 70; 83] -> C * H * S <= last_sector sb < 2 ^ 31 - 1 ->
  exists d', hda_init line_irq fuel d = Ok 0 d' /\ driver_ok C H S d' img /\
    h_parts d' = Part 2 (last_sector sb) :: Part (last_sector sb + 1) (p_end p1) :: parts.
Proof. by apply hda_init_ok. Qed.

(** A disk of eight sectors with a super block for blocks 1 to 9. *)
Definition one_fs : list (list Z) :=
  <[1%nat := take 512 (encode_sblk (Sblk [77; 70; 83; 0] 1 1 2 1 3 1 4 1 5 4 1024) ++ replicate 512 0)]>
    (replicate 8 (replicate 512 0)).
Definition one_fs_machine : hda ide :=
  Hda (HdaStat 0 0 0 0 0 0 0 0 0) (replicate 8 (Part 0 0))
    (MkIrq [] (replicate 16 None) None true (MkIf (small_drive (Some one_fs)) (small_drive None) false 0)).

Lemma hda_init_detects_witness :
  exists d', hda_init line_irq 256 one_fs_machine = Ok 0 d' /\ driver_ok 2 2 2 d' one_fs /\
    h_parts d' = Part 2 18 :: Part 19 0 :: replicate 6 (Part 0 0).
Proof.
  refine (hda_init_detects 2 2 2 _ 256 one_fs_machine one_fs _ (Part 0 0) (Part 0 0) (replicate 6 (Part 0 0)) _
    _ eq_refl eq_refl _ _ eq_refl eq_refl _); try by vm_compute.
  split; try reflexivity; [by split|]. split; [|by vm_compute].
  apply Forall_insert.
  - apply Forall_replicate. split; [apply length_replicate|apply Forall_replicate; unfold is_u8; lia].
  - split; [reflexivity|]. apply Forall_take, Forall_app.
    split; [repeat constructor; by vm_compute|apply Forall_replicate; unfold is_u8; lia].
Defined.
