(* ===== verification/IdeSafe.v ===== *)
(** The type invariant of the disk interface (Ide): the fields of [IDEState] stay
    in the ranges of their C types, the data pointer in the buffer, and no access
    to the ports faults. *)
From S2P Require Import Prelude LibC Port Hda Ide HdaIde HdaInit.

Lemma u8_land_l a b : is_u8 a -> is_u8 (Z.land a b).
Proof.
  intros Ha. assert (Z.land a b = u8 (Z.land a b)) as ->; [|apply u8_range].
  rewrite <- u8_land, <- Z.land_assoc, (Z.land_comm b), Z.land_assoc, u8_land. by rewrite u8_small.
Qed.

Lemma u32_lor_range a b : is_u32 a -> is_u32 b -> is_u32 (Z.lor a b).
Proof.
  unfold is_u32. intros Ha Hb. assert (0 <= Z.lor a b) as H0 by (apply Z.lor_nonneg; lia). split; [done|].
  destruct (decide (Z.lor a b = 0)) as [->|Hne]; [lia|]. apply Z.log2_lt_pow2; [lia|]. rewrite Z.log2_lor by lia.
  destruct (decide (a = 0)) as [->|]; destruct (decide (b = 0)) as [->|];
    apply Z.max_lub_lt; try (cbn; lia); apply Z.log2_lt_pow2; lia.
Qed.

(** * The invariant *)

Record wf_regs (r : regs) : Prop := {
  wr_feature : is_u8 (r_feature r); wr_error : is_u8 (r_error r); wr_nsector : is_u32 (r_nsector r);
  wr_sector : is_u8 (r_sector r); wr_lcyl : is_u8 (r_lcyl r); wr_hcyl : is_u8 (r_hcyl r);
  wr_hob_feature : is_u8 (r_hob_feature r); wr_hob_nsector : is_u8 (r_hob_nsector r);
  wr_hob_sector : is_u8 (r_hob_sector r); wr_hob_lcyl : is_u8 (r_hob_lcyl r); wr_hob_hcyl : is_u8 (r_hob_hcyl r);
  wr_select : is_u8 (r_select r); wr_status : is_u8 (r_status r)
}.

(** The buffer, with the data pointer at most [B]. *)
Record wf_pio (B : Z) (p : pio) : Prop := {
  wp_req : 0 <= p_req_nb_sectors p <= 16;
  wp_ptr : 0 <= p_data_ptr p <= B;
  wp_end : 0 <= p_data_end p <= 8192;
  wp_len : length (p_io_buffer p) = Z.to_nat 8196;
  wp_u8 : Forall is_u8 (p_io_buffer p)
}.

Definition wf_sectors (img : list (list Z)) : Prop := Forall (fun b => length b = 512%nat /\ Forall is_u8 b) img.

(** A drive; [pr] tells whether it has an image, and only such a drive has a
    transfer of sectors under way. *)
Record wf_drive (pr : bool) (B : Z) (s : IDEState) : Prop := {
  wd_bs : match d_bs s with
          | Some img => pr = true /\ wf_sectors img /\ 1 <= d_heads s <= 16 /\ 1 <= d_sectors s <= 255
          | None => pr = false
          end;
  wd_mult : 0 <= d_mult_sectors s <= 16;
  wd_ident : d_identify_set s <> 0 -> length (d_identify_data s) = 512%nat;
  wd_ident_u8 : Forall is_u8 (d_identify_data s);
  wd_cmd : is_u8 (d_cmd s);
  wd_lba48 : is_u8 (d_lba48 s);
  wd_regs : wf_regs (d_regs s);
  wd_pio : wf_pio B (d_pio s);
  wd_end : pr = false -> p_end_transfer (d_pio s) = TransferStop \/ p_end_transfer (d_pio s) = DummyTransferStop
}.

Section Safe.
(** The drives that have an image. *)
Context (pr : bool -> bool).

(** The drive [u] with its data pointer at most [B], the other one with it in
    the buffer. *)
Definition wf_if (u : bool) (B : Z) (w : ide) : Prop :=
  wf_drive (pr u) B (drive u w) /\ wf_drive (pr (negb u)) 8192 (drive (negb u) w).

(** Both drives with their data pointers in the buffer. *)
Definition wf_ide (w : ide) : Prop := wf_drive (pr false) 8192 (if0 w) /\ wf_drive (pr true) 8192 (if1 w).

Lemma wf_if_ide u w : wf_if u 8192 w <-> wf_ide w.
Proof using Type. unfold wf_if, wf_ide. destruct u; cbn; tauto. Qed.

(** [safe u B P m B']: [m] succeeds with a result in [P] and leads from the
    invariant at [B] to the one at [B']. *)
Definition safe (u : bool) (B : Z) {A} (P : A -> Prop) (m : M ide A) (B' : Z) : Prop := total (wf_if u B) m P (wf_if u B').

Lemma safe_bind {A A'} u B1 B2 B3 (P : A -> Prop) (Q : A' -> Prop) (m : M ide A) k :
  safe u B1 P m B2 -> (forall a, P a -> safe u B2 Q (k a) B3) -> safe u B1 Q (bind m k) B3.
Proof using Type. apply total_bind. Qed.
Lemma safe_seq {A A'} u B1 B2 B3 (Q : A' -> Prop) (m : M ide A) k :
  safe u B1 (fun _ => True) m B2 -> safe u B2 Q k B3 -> safe u B1 Q (m ;;; k) B3.
Proof using Type. apply total_seq. Qed.
Lemma safe_ret {A} u B (P : A -> Prop) a : P a -> safe u B P (ret a) B.
Proof using Type. apply total_ret. Qed.
Lemma safe_dget {A} u B B' (Q : A -> Prop) k :
  (forall s, wf_drive (pr u) B s -> safe u B Q (k s) B') -> safe u B Q (bind (dget u) k) B'.
Proof using Type. intros Hk. apply total_gets. intros w Hw. apply Hk. exact (proj1 Hw). Qed.
Lemma safe_dupd u B B' f :
  (forall s, wf_drive (pr u) B s -> wf_drive (pr u) B' (f s)) -> safe u B (fun _ => True) (dupd u f) B'.
Proof using Type. intros Hf. apply total_modify. intros w [Hu Ho]. split; destruct u; cbn in *; auto. Qed.
Lemma safe_some {A A'} u B B' (Q : A' -> Prop) f (o : option A) a k :
  o = Some a -> safe u B Q (k a) B' -> safe u B Q (bind (of_option f o) k) B'.
Proof using Type. apply total_some. Qed.
Lemma safe_set_irq u B l : safe u B (fun _ => True) (set_irq l) B.
Proof using Type. apply total_modify. intros w Hw. by destruct u. Qed.

(** ** Assignments *)

Lemma wf_on_regs p B f s : (forall r, wf_regs r -> wf_regs (f r)) -> wf_drive p B s -> wf_drive p B (on_regs f s).
Proof using Type. intros Hf []. split; try done. by apply Hf. Qed.
Lemma wf_on_pio p B B' f s :
  (forall x, wf_pio B x -> wf_pio B' (f x)) -> (p_end_transfer (f (d_pio s)) = p_end_transfer (d_pio s)) ->
  wf_drive p B s -> wf_drive p B' (on_pio f s).
Proof using Type.
  intros Hf He []. split; try done; [by apply Hf|]. cbn [d_pio on_pio w_pio]. intros H. rewrite He. auto.
Qed.

#[local] Hint Extern 2 (is_u8 ?c) => is_const c; by vm_compute : micron.
#[local] Hint Extern 2 (is_u8 (Zpos _)) => by vm_compute : micron.
#[local] Hint Extern 2 (is_u8 0) => by vm_compute : micron.
#[local] Hint Extern 2 (is_u32 1) => by vm_compute : micron.
#[local] Hint Resolve u8_land_l : micron.

(** [wf_r]: the registers after an assignment. *)
Ltac wf_r := intros; repeat match goal with H : wf_regs _ |- _ => destruct H end; split; cbn; auto with micron.

Lemma safe_regs u B f : (forall r, wf_regs r -> wf_regs (f r)) -> safe u B (fun _ => True) (dupd u (on_regs f)) B.
Proof using Type. intros Hf. apply safe_dupd. intros s. by apply wf_on_regs. Qed.

Lemma safe_set_status u B v : is_u8 v -> safe u B (fun _ => True) (set_status u v) B.
Proof using Type. intros Hv. apply safe_regs. wf_r. Qed.
Lemma safe_set_error u B v : is_u8 v -> safe u B (fun _ => True) (set_error u v) B.
Proof using Type. intros Hv. apply safe_regs. wf_r. Qed.
Lemma safe_abort u B : safe u B (fun _ => True) (ide_abort_command u) B.
Proof using Type. apply safe_regs. wf_r. Qed.
Lemma safe_signature u B : safe u B (fun _ => True) (ide_set_signature u) B.
Proof using Type.
  apply safe_dupd. intros s Hs. apply wf_on_regs; [|done]. intros r Hr. destruct (d_bs s); wf_r.
Qed.
Lemma safe_irq u B : safe u B (fun _ => True) (ide_set_irq u) B.
Proof using Type. apply safe_dget. intros s _. case_match; [apply safe_set_irq|by apply safe_ret]. Qed.
Lemma safe_lba48 u B v : is_u8 v -> safe u B (fun _ => True) (ide_cmd_lba48_transform u v) B.
Proof using Type.
  intros Hv. apply safe_dupd. intros s Hs. apply wf_on_regs.
  - intros r Hr. pose proof (wd_regs _ _ _ Hs) as [_ _ Hn _ _ _ _ Hh _ _ _ _ _].
    assert (is_u32 (Z.lor (Z.shiftl (r_hob_nsector (d_regs s)) 8) (r_nsector (d_regs s)))) as Hlor.
    { apply u32_lor_range; [|done]. rewrite Z.shiftl_mul_pow2 by lia. unfold is_u8, is_u32 in *. lia. }
    destruct Hr. split; cbn; try done. repeat case_match; try done; unfold is_u32; lia.
  - by destruct Hs.
Qed.
Lemma safe_status_irq u B v : is_u8 v -> safe u B (fun _ => True) (status_irq u v) B.
Proof using Type. intros Hv. eapply safe_seq; [by apply safe_set_status|apply safe_irq]. Qed.
Lemma safe_abort_cmd u B : safe u B (fun _ => True) (abort_cmd u) B.
Proof using Type. eapply safe_seq; [apply safe_abort|apply safe_irq]. Qed.

(** ** Transfers *)

Lemma wf_point_at B e f p : 0 <= e <= 8192 -> wf_pio B p -> wf_pio 8192 (point_at e f p).
Proof using Type. intros He []. split; cbn; try done; lia. Qed.

Lemma safe_start u B size f :
  0 <= size <= 8192 -> (pr u = true \/ f = TransferStop) -> safe u B (fun _ => True) (ide_transfer_start u size f) 8192.
Proof using Type.
  intros Hs Hf. apply safe_dupd. intros s H. apply wf_on_regs; [wf_r|].
  destruct H. split; try done; [by eapply wf_point_at|]. intros E. destruct Hf as [?| ->]; [congruence|by left].
Qed.
Lemma safe_stop u B : safe u B (fun _ => True) (ide_transfer_stop u) 8192.
Proof using Type.
  apply safe_dupd. intros s H. apply wf_on_regs; [wf_r|].
  destruct H. split; try done; [by eapply wf_point_at|]. by left.
Qed.
Lemma safe_fill u B bytes :
  (length bytes <= Z.to_nat 8192)%nat -> Forall is_u8 bytes -> safe u B (fun _ => True) (fill_buffer u bytes) B.
Proof using Type.
  intros Hl Hu. apply safe_dget. intros s Hs. pose proof (wd_pio _ _ _ Hs) as [_ _ _ Hb Hbu].
  eapply safe_some; [apply memcpy_spec; lia|]. apply safe_dupd. intros s' Hs'. apply wf_on_pio with B; [|done|done].
  intros x []. split; cbn; try done.
  - rewrite length_app, length_take, length_drop. lia.
  - apply Forall_app. split; [by apply Forall_take|by apply Forall_drop].
Qed.
Lemma safe_dummy u B : safe u B (fun _ => True) (ide_dummy_transfer_stop u) 8192.
Proof using Type.
  eapply safe_seq.
  - apply safe_dupd. intros s H. eapply wf_on_pio; [|reflexivity|exact H]. intros x. by apply wf_point_at.
  - apply safe_fill; [cbn; lia|]. repeat constructor; unfold is_u8; lia.
Qed.

(** ** Sectors *)

Lemma present_some u B s :
  pr u = true -> wf_drive (pr u) B s ->
  exists img, d_bs s = Some img /\ wf_sectors img /\ 1 <= d_heads s <= 16 /\ 1 <= d_sectors s <= 255.
Proof using Type. intros Hp [Hb _ _ _ _ _ _ _ _]. destruct (d_bs s) as [img|]; [|congruence]. exists img. tauto. Qed.

Lemma safe_set_sector u B n : pr u = true -> safe u B (fun _ => True) (ide_set_sector u n) B.
Proof using Type.
  intros Hp. apply safe_dget. intros s Hs. destruct (present_some u B s Hp Hs) as (img & _ & _ & Hh & Hsec).
  assert (s32 (d_heads s * d_sectors s) = d_heads s * d_sectors s) as -> by (apply s32_small; unfold is_s32; nia).
  rewrite (proj2 (Z.eqb_neq (d_heads s * d_sectors s) 0)) by nia. cbv zeta.
  destruct (negb _); [destruct (_ =? 0)|]; apply safe_regs; wf_r.
  apply u8_lor_range; [by apply u8_land_l|]. rewrite Z.land_comm. apply u8_land_l. by vm_compute.
Qed.

Lemma concat_sectors_wf img q n :
  wf_sectors img -> (length (concat (take n (drop q img))) <= 512 * n)%nat /\ Forall is_u8 (concat (take n (drop q img))).
Proof using Type.
  intros Hi. assert (wf_sectors (take n (drop q img))) as Hw by (by apply Forall_take, Forall_drop).
  assert (length (take n (drop q img)) <= n)%nat as Hn by (rewrite length_take; lia).
  revert Hw Hn. generalize (take n (drop q img)) as l. intros l Hw Hn. split.
  - revert n Hn. induction Hw as [|b l [Hb _] _ IH]; intros n Hn; [cbn; lia|]. cbn [concat]. rewrite length_app, Hb.
    cbn [length] in Hn. destruct n as [|n]; [lia|]. specialize (IH n ltac:(lia)). lia.
  - apply Forall_concat. eapply Forall_impl; [exact Hw|]. naive_solver.
Qed.

Lemma sector_count r p : wf_regs r -> wf_pio 8196 p -> 0 <= Z.min (r_nsector r) (p_req_nb_sectors p) <= 16.
Proof using Type. intros [_ _ Hn _ _ _ _ _ _ _ _ _ _] [Hr _ _ _ _]. unfold is_u32 in Hn. lia. Qed.

Lemma safe_less u B n : safe u B (fun _ => True) (dupd u (on_regs (fun r => w_nsector (u32 (r_nsector r - n)) r))) B.
Proof using Type. apply safe_regs. wf_r. Qed.

Lemma safe_sector_read u B : B <= 8196 -> pr u = true -> safe u B (fun _ => True) (ide_sector_read u) 8192.
Proof using Type.
  intros HB Hp. unfold ide_sector_read. eapply safe_seq; [by apply safe_set_status|].
  eapply safe_seq; [by apply safe_set_error|]. apply safe_dget. intros s Hs.
  destruct (present_some u B s Hp Hs) as (img & Hb & Hi & _).
  pose proof (wd_regs _ _ _ Hs) as [_ _ Hn _ _ _ _ _ _ _ _ _ _]. pose proof (wd_pio _ _ _ Hs) as [Hr _ _ _ _].
  unfold is_u32 in Hn. case_match; [apply safe_stop|]. set (n := Z.min _ _). assert (0 <= n <= 16) as Hn16 by lia.
  eapply safe_some; [exact Hb|]. eapply safe_seq.
  { instantiate (1 := B). unfold bdrv_read. case_decide; [|by apply safe_ret].
    destruct (concat_sectors_wf img (Z.to_nat (ide_get_sector s)) (Z.to_nat n) Hi). apply safe_fill; [lia|done]. }
  eapply safe_seq; [apply safe_start; [lia|by left]|]. eapply safe_seq; [apply safe_irq|].
  eapply safe_seq; [by apply safe_set_sector|apply safe_less].
Qed.

Lemma write_sectors_safe n img i buf :
  wf_sectors img -> (512 * n <= length buf)%nat -> Forall is_u8 buf -> wf_sectors (write_sectors n img i buf).
Proof using Type.
  revert img i buf. induction n as [|n IH]; intros img i buf Hi Hl Hu; cbn [write_sectors]; [done|]. apply IH.
  - apply Forall_insert; [done|]. split; [rewrite length_take; lia|by apply Forall_take].
  - rewrite length_drop. lia.
  - by apply Forall_drop.
Qed.

Lemma safe_sector_write u B : B <= 8196 -> pr u = true -> safe u B (fun _ => True) (ide_sector_write u) 8192.
Proof using Type.
  intros HB Hp. unfold ide_sector_write. eapply safe_seq; [by apply safe_set_status|]. apply safe_dget. intros s Hs.
  destruct (present_some u B s Hp Hs) as (img & Hb & Hi & _).
  pose proof (wd_regs _ _ _ Hs) as [_ _ Hn _ _ _ _ _ _ _ _ _ _]. pose proof (wd_pio _ _ _ Hs) as [Hr _ _ Hl Hu].
  unfold is_u32 in Hn. set (n := Z.min _ _). assert (0 <= n <= 16) as Hn16 by lia.
  eapply safe_some; [exact Hb|]. eapply safe_seq.
  { instantiate (1 := B). unfold bdrv_write. case_decide; [|by apply safe_ret]. apply safe_dupd. intros s' Hs'.
    destruct (present_some u B s' Hp Hs') as (img' & Hb' & _ & Hg). destruct Hs' as [Hbs' ? ? ? ? ? ? ? ?]. split; try done.
    cbn [w_bs d_bs d_heads d_sectors]. split; [done|]. split; [|done]. apply write_sectors_safe; [done|lia|done]. }
  eapply safe_seq; [apply safe_less|]. apply safe_dget. intros s2 Hs2.
  pose proof (wd_regs _ _ _ Hs2) as [_ _ Hn2 _ _ _ _ _ _ _ _ _ _]. pose proof (wd_pio _ _ _ Hs2) as [Hr2 _ _ _ _].
  unfold is_u32 in Hn2. eapply safe_seq.
  { case_match; [apply safe_stop|]. apply safe_start; [lia|by left]. }
  eapply safe_seq; [by apply safe_set_sector|apply safe_irq].
Qed.

Lemma safe_end_transfer u B : B <= 8196 -> safe u B (fun _ => True) (end_transfer_func u) 8192.
Proof using Type.
  intros HB. apply safe_dget. intros s Hs. pose proof (wd_end _ _ _ Hs) as He.
  destruct (p_end_transfer (d_pio s)).
  - apply safe_stop.
  - apply safe_sector_read; [done|]. destruct (pr u); [done|]. by destruct (He eq_refl).
  - apply safe_sector_write; [done|]. destruct (pr u); [done|]. by destruct (He eq_refl).
  - apply safe_dummy.
Qed.

(** ** Commands *)

Lemma put_le16_u8 i v p : Forall is_u8 p -> Forall is_u8 (put_le16 i v p).
Proof using Type. intros Hp. unfold put_le16. repeat apply Forall_insert; auto with micron. Qed.
Lemma padstr_u8 at_ src len p : Forall is_u8 src -> Forall is_u8 p -> Forall is_u8 (padstr at_ src len p).
Proof using Type.
  revert at_ src p. induction len as [|n IH]; intros at_ src p Hs Hp; cbn [padstr]; [done|]. apply IH.
  - destruct src; [done|]. by apply Forall_cons in Hs as [_ ?].
  - apply Forall_insert; [done|]. destruct src; [by vm_compute|]. by apply Forall_cons in Hs as [? _].
Qed.
Lemma serial_u8 n : Forall is_u8 (serial_string n).
Proof using Type.
  assert (forall m, is_u8 (48 + m mod 10)) as Hd by (intros m; pose proof (Z.mod_pos_bound m 10 ltac:(lia)); unfold is_u8; lia).
  unfold serial_string. repeat apply Forall_cons_2; try apply Hd; by vm_compute.
Qed.
Lemma identify_u8 s : Forall is_u8 (identify_words s).
Proof using Type.
  assert (Forall is_u8 (replicate 512 0)) as Hz by (apply Forall_replicate; by vm_compute).
  assert (Forall is_u8 QEMU_VERSION /\ Forall is_u8 MODEL) as [Hq Hm] by (split; repeat constructor; by vm_compute).
  pose proof (serial_u8 (d_drive_serial s)) as Hs. unfold identify_words. cbv zeta.
  revert Hz. generalize (replicate 512 0) as p. intros p Hz. destruct (_ =? 0).
  all: repeat first [exact Hz|apply put_le16_u8|apply padstr_u8; [assumption|]].
Qed.

Lemma safe_identify u B : pr u = true -> safe u B (fun _ => True) (ide_identify u) B.
Proof using Type.
  intros Hp. apply safe_dget. intros s Hs. case_match eqn:E.
  - apply safe_fill; [|by destruct Hs]. rewrite (wd_ident _ _ _ Hs); [lia|]. apply negb_true_iff, Z.eqb_neq in E. done.
  - eapply safe_seq; [apply safe_fill; [rewrite identify_length; lia|apply identify_u8]|].
    apply safe_dupd. intros s' [H1 H2 _ _ H5 H6 H7 H8 H9].
    split; [exact H1|exact H2|intros _; apply identify_length|apply identify_u8|exact H5|exact H6|exact H7|exact H8|exact H9].
Qed.

Lemma safe_set_features u B : safe u B (fun _ => True) (set_features u) B.
Proof using Type.
  apply safe_dget. intros s _. destruct (d_bs s); [|apply safe_abort_cmd]. cbv zeta.
  assert (forall a b, safe u B (fun _ => True) (dupd u (fun s => MkIDE (d_cylinders s) (d_heads s) (d_sectors s)
    (d_nb_sectors s) (d_drive_serial s) (d_bs s) (d_mult_sectors s) (d_identify_set s)
    (put_le16 88 b (put_le16 63 a (d_identify_data s))) (d_cmd s) (d_lba48 s) (d_regs s) (d_pio s)) ;;;
    status_irq u (Z.lor READY_STAT SEEK_STAT)) B) as Hput.
  { intros a b. eapply safe_seq; [|by apply safe_status_irq]. apply safe_dupd. intros s' [].
    split; cbn [d_identify_data d_identify_set d_bs d_heads d_sectors d_mult_sectors d_cmd d_lba48 d_regs d_pio]; try done.
    - intros. rewrite !put_le16_length. auto.
    - by repeat apply put_le16_u8. }
  repeat case_match; try apply Hput; try apply safe_abort_cmd. by apply safe_status_irq.
Qed.

Lemma safe_dma u B : safe u B (fun _ => True) (ide_sector_dma u) B.
Proof using Type.
  apply safe_dupd. intros s H. apply wf_on_regs; [wf_r|]. eapply wf_on_pio; [|reflexivity|exact H]. intros x []. by split.
Qed.

Lemma safe_req u B n : 0 <= n <= 16 -> safe u B (fun _ => True) (dupd u (on_pio (w_req_nb_sectors n))) B.
Proof using Type. intros Hn. apply safe_dupd. intros s H. eapply wf_on_pio; [|reflexivity|exact H]. intros x []. by split. Qed.

#[local] Hint Resolve safe_identify safe_set_features safe_dma safe_req safe_abort safe_abort_cmd safe_irq safe_signature
  safe_set_status safe_set_error safe_status_irq safe_lba48 safe_set_sector : micron.

Lemma safe_command u val : pr u = true -> safe u 8192 (fun _ => True) (ide_command u val) 8192.
Proof using Type.
  intros Hp. unfold ide_command. cbv zeta. set (l := if bool_decide (val ∈ _) then 1 else 0).
  assert (is_u8 l) as Hl by (unfold l; by case_match). clearbody l. apply safe_dget. intros s Hs.
  destruct (present_some u _ s Hp Hs) as (img & -> & _). pose proof (wd_mult _ _ _ Hs) as Hm.
  case_match; [eapply safe_seq; [|apply safe_irq];
    eapply safe_seq; [by apply safe_identify|eapply safe_seq; [by apply safe_set_status|apply safe_start; [lia|by left]]]|].
  case_match; [eapply safe_seq; [by apply safe_set_error|by apply safe_status_irq]|].
  case_match.
  { eapply safe_seq; [|apply safe_irq]. case_match eqn:E; [apply safe_abort|].
    apply orb_false_iff in E as [[E1%Z.ltb_ge E2%Z.eqb_neq]%orb_false_iff _]. unfold MAX_MULT_SECTORS in E1.
    pose proof (wr_nsector _ (wd_regs _ _ _ Hs)) as Hn. unfold is_u32 in Hn.
    eapply safe_seq; [|by apply safe_set_status]. apply safe_dupd. intros s' []. split; cbn; try done; lia. }
  case_match; [eapply safe_seq; [by apply safe_lba48|by apply safe_status_irq]|].
  case_match; [eapply safe_seq; [by apply safe_lba48|eapply safe_seq; [apply safe_req; lia|by apply safe_sector_read]]|].
  case_match.
  { eapply safe_seq; [by apply safe_lba48|]. eapply safe_seq; [by apply safe_set_error|].
    eapply safe_seq; [by apply safe_set_status|]. eapply safe_seq; [apply safe_req; lia|]. apply safe_start; [lia|by left]. }
  case_match.
  { case_match; [apply safe_abort_cmd|]. eapply safe_seq; [by apply safe_lba48|].
    eapply safe_seq; [by apply safe_req|by apply safe_sector_read]. }
  case_match.
  { case_match; [apply safe_abort_cmd|]. eapply safe_seq; [by apply safe_lba48|]. eapply safe_seq; [by apply safe_set_error|].
    eapply safe_seq; [by apply safe_set_status|]. eapply safe_seq; [by apply safe_req|]. apply safe_dget. intros s2 Hs2.
    pose proof (wr_nsector _ (wd_regs _ _ _ Hs2)) as Hn2. pose proof (wp_req _ _ (wd_pio _ _ _ Hs2)).
    unfold is_u32 in Hn2. apply safe_start; [lia|by left]. }
  case_match; [eapply safe_seq; [by apply safe_lba48|apply safe_dma]|].
  case_match; [eapply safe_seq; [by apply safe_lba48|eapply safe_seq; [by apply safe_set_sector|by apply safe_status_irq]]|].
  case_match; [eapply safe_seq; [apply safe_regs; wf_r; by vm_compute|by apply safe_status_irq]|].
  case_match; [apply safe_set_features|]. case_match; [by apply safe_status_irq|].
  case_match; [|apply safe_abort_cmd].
  eapply safe_seq; [apply safe_signature|]. eapply safe_seq; [by apply safe_set_status|by apply safe_set_error].
Qed.

(** ** Ports *)

Lemma safe_switch {A} u v (P : A -> Prop) m : safe u 8192 P m 8192 -> safe v 8192 P m 8192.
Proof using Type.
  intros Hm w Hw. destruct (Hm w) as (a & w' & E & Hw' & Ha); [by apply wf_if_ide, (wf_if_ide v)|].
  exists a, w'. split; [done|]. split; [|done]. by apply wf_if_ide, (wf_if_ide u).
Qed.
Lemma safe_get {A} u B B' (Q : A -> Prop) k :
  (forall w, wf_if u B w -> safe u B Q (k w) B') -> safe u B Q (bind get k) B'.
Proof using Type. apply total_get. Qed.
Lemma safe_both u f : (forall r, wf_regs r -> wf_regs (f r)) -> safe u 8192 (fun _ => True) (both (on_regs f)) 8192.
Proof using Type.
  intros Hf. eapply safe_seq; [apply (safe_switch false)|apply (safe_switch true)]; by apply safe_regs.
Qed.
Lemma safe_clear_hob u : safe u 8192 (fun _ => True) ide_clear_hob 8192.
Proof using Type. apply safe_both. wf_r. Qed.

Lemma safe_ioport_write u addr val :
  is_u8 val -> pr false = true \/ Z.land addr 7 <> 7 -> safe u 8192 (fun _ => True) (ide_ioport_write addr val) 8192.
Proof using Type.
  intros Hv Hpr. assert (is_u32 val) as Hv32 by (unfold is_u8, is_u32 in *; lia). unfold ide_ioport_write. cbv zeta.
  case_match; [by apply safe_ret|].
  do 5 (case_match; [eapply safe_seq; [apply safe_clear_hob|apply safe_both; wf_r]|]).
  case_match.
  { eapply safe_seq; [apply (safe_switch false), safe_regs; wf_r|].
    eapply safe_seq; [apply (safe_switch true), safe_regs; wf_r|].
    apply total_modify. intros w Hw. apply wf_if_ide. by apply wf_if_ide in Hw. }
  assert (pr false = true) as Hpr'.
  { destruct Hpr as [|Hne]; [done|]. exfalso. repeat match goal with H : (_ =? _) = false |- _ => apply Z.eqb_neq in H end.
    change 7 with (Z.ones 3) in *. rewrite Z.land_ones in * by lia. pose proof (Z.mod_pos_bound addr (2 ^ 3) ltac:(lia)).
    change (2 ^ 3) with 8 in *. change (Z.ones 3) with 7 in *. lia. }
  apply safe_get. intros w Hw. apply wf_if_ide in Hw as [_ Hw1].
  case_match eqn:E; [by apply safe_ret|]. apply (safe_switch (cur_drive w)), safe_command.
  destruct (cur_drive w); [|exact Hpr']. cbn [andb] in E. apply bool_decide_eq_false in E.
  destruct Hw1 as [Hb _ _ _ _ _ _ _ _]. destruct (d_bs (if1 w)); [tauto|done].
Qed.

Lemma wf_current w : wf_ide w -> wf_drive (pr (cur_drive w)) 8192 (drive (cur_drive w) w).
Proof using Type. intros [? ?]. by destruct (cur_drive w). Qed.

Lemma safe_status_read u : safe u 8192 is_u8 ide_status_read 8192.
Proof using Type.
  apply safe_get. intros w Hw. apply safe_ret. apply wf_if_ide, wf_current in Hw. case_match; [by vm_compute|].
  by destruct (wd_regs _ _ _ Hw).
Qed.
(** [safe_if]: the branches of a computation. *)
Ltac safe_if := match goal with |- safe _ _ _ (if ?b then _ else _) _ => destruct b end.

Lemma safe_ioport_read u addr : safe u 8192 is_u8 (ide_ioport_read addr) 8192.
Proof using Type.
  apply safe_get. intros w Hw. apply wf_if_ide, wf_current in Hw. destruct (wd_regs _ _ _ Hw). cbv zeta.
  assert (forall v, is_u8 v -> is_u8 (if no_drives w then 0 else v)) as Hp by (intros v Hv; case_match; [by vm_compute|done]).
  safe_if; [apply safe_ret; by vm_compute|].
  do 6 (safe_if; [apply safe_ret, Hp; first [done|rewrite u8_land; apply u8_range]|]).
  eapply safe_bind; [apply safe_status_read|]. intros v Hv. eapply safe_seq; [apply safe_set_irq|by apply safe_ret].
Qed.
Lemma safe_cmd_write u val : is_u8 val -> safe u 8192 (fun _ => True) (ide_cmd_write val) 8192.
Proof using Type.
  intros Hv. apply safe_get. intros w _. cbv zeta. eapply safe_seq.
  - instantiate (1 := 8192). case_match; [apply safe_both; wf_r|]. case_match; [|by apply safe_ret].
    eapply safe_seq; [by apply (safe_switch false), safe_set_status|].
    eapply safe_seq; [by apply (safe_switch false), safe_signature|].
    eapply safe_seq; [by apply (safe_switch true), safe_set_status|]. by apply (safe_switch true), safe_signature.
  - eapply safe_seq; [apply (safe_switch false)|apply (safe_switch true)]; apply safe_dupd; intros s []; by split.
Qed.

(** After an access of [n] bytes at [p] the pointer moves on, or the transfer ends. *)
Lemma safe_advance u p n : 0 <= p <= 8192 -> 0 <= n <= 4 -> safe u 8192 (fun _ => True) (advance u (p + n)) 8192.
Proof using Type.
  intros Hp Hn w Hw. unfold advance. set (f := on_pio _).
  assert (forall s, wf_drive (pr u) 8192 s -> wf_drive (pr u) 8196 (f s)) as Hf.
  { intros s Hs. eapply wf_on_pio; [|reflexivity|exact Hs]. intros x []. split; cbn; try done. lia. }
  destruct (safe_dupd u 8192 8196 f Hf w Hw) as ([] & w1 & E & Hw1 & _). rewrite (bind_ok _ _ _ _ _ E).
  assert (p_data_ptr (d_pio (drive u w1)) = p + n) as Hptr by (injection E as <-; by destruct u).
  unfold dget. rewrite bind_gets.
  destruct (Z.leb_spec (p_data_end (d_pio (drive u w1))) (p + n)) as [Hle|Hlt]; [by apply (safe_end_transfer u 8196)|].
  exists tt, w1. split; [done|]. split; [|done]. destruct Hw1 as [[? ? ? ? ? ? ? [] ?] Ho]. split; [|done].
  split; try done. split; try done. lia.
Qed.

Lemma safe_readw u : safe u 8192 is_u16 ide_data_readw 8192.
Proof using Type.
  apply safe_get. intros w _. apply (safe_switch (cur_drive w)), safe_dget. intros s Hs. cbv zeta.
  pose proof (wd_pio _ _ _ Hs) as [_ Hp _ Hl Hu].
  assert (forall i, 0 <= i < 8196 -> exists x, aget (p_io_buffer (d_pio s)) i = Some x /\ is_u8 x) as Hget.
  { intros i Hi. destruct (aget_Some (p_io_buffer (d_pio s)) i) as [x E]; [lia|]. exists x. split; [done|].
    apply aget_inv in E as [_ E]. exact (Forall_lookup_1 _ _ _ _ Hu E). }
  destruct (Hget (p_data_ptr (d_pio s)) ltac:(lia)) as (lo & Elo & Hlo).
  destruct (Hget (p_data_ptr (d_pio s) + 1) ltac:(lia)) as (hi & Ehi & Hhi).
  eapply safe_some; [exact Elo|]. eapply safe_some; [exact Ehi|].
  eapply safe_seq; [by apply safe_advance; [|lia]|]. apply safe_ret. unfold is_u8, is_u16 in *. lia.
Qed.

Lemma safe_writew u val : safe u 8192 (fun _ => True) (ide_data_writew val) 8192.
Proof using Type.
  apply safe_get. intros w _. apply (safe_switch (cur_drive w)), safe_dget. intros s Hs. cbv zeta.
  pose proof (wd_pio _ _ _ Hs) as [_ Hp _ Hl Hu]. set (v := cur_drive w).
  eapply safe_some; [unfold aset; apply decide_True; lia|].
  eapply safe_some; [unfold aset; apply decide_True; rewrite length_insert; lia|].
  eapply safe_seq; [|by apply safe_advance; [|lia]]. apply safe_dupd. intros s' Hs'. eapply wf_on_pio; [|reflexivity|exact Hs'].
  intros x []. split; cbn; try done; [by rewrite !length_insert|]. repeat apply Forall_insert; auto with micron.
Qed.
(** Four bytes: the array is four bytes longer than its sectors. *)
Lemma long_u32 bs : length bs = 4%nat -> Forall is_u8 bs -> is_u32 (le_long bs).
Proof.
  intros Hl Hu. destruct bs as [|a [|b [|c [|d [|]]]]]; try discriminate. repeat (apply Forall_cons in Hu as [? Hu]).
  unfold le_long, is_u8, is_u32 in *. cbn [foldr]. lia.
Qed.
Lemma safe_readl u : safe u 8192 is_u32 ide_data_readl 8192.
Proof using Type.
  apply safe_get. intros w _. apply (safe_switch (cur_drive w)), safe_dget. intros s Hs. cbv zeta.
  pose proof (wd_pio _ _ _ Hs) as [_ Hp _ Hl Hu]. eapply safe_some; [apply aread_Some; lia|].
  eapply safe_seq; [by apply safe_advance; [|lia]|]. apply safe_ret, long_u32; [rewrite length_take, length_drop; lia|].
  by apply Forall_take, Forall_drop.
Qed.
Lemma safe_writel u val : safe u 8192 (fun _ => True) (ide_data_writel val) 8192.
Proof using Type.
  apply safe_get. intros w _. apply (safe_switch (cur_drive w)), safe_dget. intros s Hs. cbv zeta.
  pose proof (wd_pio _ _ _ Hs) as [_ Hp _ Hl Hu]. set (v := cur_drive w).
  destruct (awrite_Some (p_io_buffer (d_pio s)) (p_data_ptr (d_pio s)) [u8 val; u8 (Z.shiftr val 8); u8 (Z.shiftr val 16); u8 (Z.shiftr val 24)])
    as [b E]; [lia|cbn; lia|]. eapply safe_some; [exact E|]. pose proof (length_awrite _ _ _ _ E) as Lb.
  assert (Forall is_u8 b) as Hb.
  { unfold awrite in E. case_decide; simplify_eq. rewrite !Forall_app. split; [by apply Forall_take|].
    split; [repeat constructor; apply u8_range|by apply Forall_drop]. }
  eapply safe_seq; [|by apply safe_advance; [|lia]]. apply safe_dupd. intros s' Hs'. eapply wf_on_pio; [|reflexivity|exact Hs'].
  intros x []. split; cbn; try done. lia.
Qed.

(** An access of the processor to the interface. *)
Inductive ide_op :=
  | IdeIn (port : Z) | IdeOut (port val : Z) | IdeInw (port : Z) | IdeOutw (port val : Z) | IdeInl | IdeOutl (val : Z).
Definition ide_run (o : ide_op) : M ide Z :=
  match o with
  | IdeIn port => inportb port
  | IdeOut port val => outportb port val ;;; ret 0
  | IdeInw port => inportw port
  | IdeOutw port val => outportw port val ;;; ret 0
  | IdeInl => ide_data_readl
  | IdeOutl val => ide_data_writel val ;;; ret 0
  end.

Lemma safe_inb port : safe false 8192 is_u8 (ide_inb port) 8192.
Proof using Type. unfold ide_inb. repeat safe_if; [apply safe_ioport_read|apply safe_status_read|apply safe_ret; by vm_compute]. Qed.
Lemma safe_outb port val :
  is_u8 val -> pr false = true \/ port <> 0x1f7 -> safe false 8192 (fun _ => True) (ide_outb port val) 8192.
Proof using Type.
  intros Hv Hpr. unfold ide_outb. case_decide as Hp.
  - apply safe_ioport_write; [done|]. destruct Hpr as [|Hne]; [by left|right]. change 7 with (Z.ones 3). rewrite Z.land_ones by lia.
    change (2 ^ 3) with 8. change (Z.ones 3) with 7. Z.div_mod_to_equations. lia.
  - safe_if; [by apply safe_cmd_write|by apply safe_ret].
Qed.
Lemma u8_pair a b : is_u8 a -> is_u8 b -> is_u16 (Z.lor a (Z.shiftl b 8)).
Proof. intros Ha Hb. rewrite Z.lor_comm, lor_shiftl_add by (unfold is_u8 in *; lia). unfold is_u8, is_u16 in *. lia. Qed.
Lemma u8_mask z : is_u8 (Z.land z 0xff).
Proof. rewrite u8_land. apply u8_range. Qed.

(** The accesses that write the command register, a byte or a half of a word. *)
Definition writes_command (o : ide_op) : Prop :=
  match o with
  | IdeOut port _ => port = 0x1f7
  | IdeOutw port _ => port = 0x1f7 \/ Z.land (port + 1) 0xffff = 0x1f7
  | _ => False
  end.

Lemma safe_run o : pr false = true \/ ~ writes_command o -> safe false 8192 is_u32 (ide_run o) 8192.
Proof using Type.
  intros Hpr. destruct o as [port|port val|port|port val| |val]; cbn [ide_run inportb outportb inportw outportw ide_ports].
  - eapply total_weaken; [|apply safe_inb]. unfold is_u8, is_u32. lia.
  - eapply safe_seq; [apply safe_outb; [apply u8_range|exact Hpr]|apply safe_ret; by vm_compute].
  - assert (forall m, safe false 8192 is_u16 m 8192 -> safe false 8192 is_u32 m 8192) as Hw
      by (intros m; apply total_weaken; unfold is_u16, is_u32; lia).
    apply Hw. safe_if; [apply safe_readw|]. unfold default_ioport_readw.
    eapply safe_bind; [apply safe_inb|]. intros a Ha. eapply safe_bind; [apply safe_inb|]. intros b Hb. by apply safe_ret, u8_pair.
  - eapply safe_seq; [|apply safe_ret; by vm_compute]. safe_if; [apply safe_writew|]. unfold default_ioport_writew.
    assert (pr false = true \/ port <> 0x1f7 /\ Z.land (port + 1) 0xffff <> 0x1f7) as Hpr'.
    { destruct Hpr as [|Hn]; [by left|right]. cbn [writes_command] in Hn. tauto. }
    eapply safe_seq; (apply safe_outb; [apply u8_mask|tauto]).
  - apply safe_readl.
  - eapply safe_seq; [apply safe_writel|apply safe_ret; by vm_compute].
Qed.

(** C20: whatever the registers, buffers and images in the ranges of their types
    hold, every read and write of the interface's ports, of 8, 16 or 32 bits, succeeds,
    reads give 32-bit values, and the ranges are kept, so that no command or data access
    runs over the transfer buffer, divides by zero or uses a missing image, provided the
    first drive has an image or the access does not write the command register.  The
    second drive may lack one.  Without the proviso this fails, see
    [imageless_write_faults] and [imageless_native_max_faults]. *)
Theorem ide_access_safe w o :
  wf_ide w -> pr false = true \/ ~ writes_command o -> exists v w', ide_run o w = Ok v w' /\ is_u32 v /\ wf_ide w'.
Proof using Type.
  intros Hw Ho. destruct (safe_run o Ho w) as (v & w' & E & Hw' & Hv); [by apply wf_if_ide|].
  exists v, w'. split; [done|]. split; [done|]. by apply (wf_if_ide false).
Qed.
End Safe.

Lemma small_machine_wf : wf_ide negb (machine small_machine).
Proof.
  assert (forall img, wf_pio 8192 (d_pio (small_drive img))) as Hp.
  { intros img. split; cbn; try lia; [apply length_replicate|apply Forall_replicate; by vm_compute]. }
  assert (forall img, wf_regs (d_regs (small_drive img))) as Hr by (intros img; split; by vm_compute).
  assert (Forall is_u8 (replicate 512 0)) as Hz by (apply Forall_replicate; by vm_compute).
  split; (split; [|cbn; lia|done|by constructor|by vm_compute|by vm_compute|apply Hr|apply Hp|intros _; by right]).
  - split; [done|]. split; [|cbn; lia]. apply Forall_replicate. split; [apply length_replicate|exact Hz].
  - done.
Qed.

Lemma ide_access_safe_witness :
  exists v w', ide_run (IdeOut 0x1f7 0x20) (machine small_machine) = Ok v w' /\ is_u32 v /\ wf_ide negb w'.
Proof. apply (ide_access_safe negb); [apply small_machine_wf|by left]. Defined.

(** * A first drive without an image *)

(** The drive [ide_init2] leaves without an image has no geometry either. *)
Definition empty_drive : IDEState :=
  MkIDE 0 0 0 0 1 None 16 0 [] 0 0 (MkRegs 0 0 1 1 0 0 0 0 0 0 0 0xa0 0x40)
    (MkPio 0 DummyTransferStop 0 0 (replicate (Z.to_nat 8196) 0) 0 0).
Definition empty_if : ide := MkIf empty_drive empty_drive false 0.

Fixpoint ide_runs (l : list ide_op) : M ide unit :=
  match l with [] => ret tt | o :: r => ide_run o ;;; ide_runs r end.

Lemma empty_if_wf : wf_ide (fun _ => false) empty_if.
Proof.
  assert (wf_drive false 8192 empty_drive) as H by
    (split; [done|cbn; lia|done|by constructor|by vm_compute|by vm_compute|split; by vm_compute| |by right];
     split; cbn; try lia; [apply length_replicate|apply Forall_replicate; by vm_compute]).
  by split.
Qed.

(** A write command and the 256 words of a sector store through the null image. *)
Lemma imageless_write_faults :
  ide_runs (IdeOut 0x1f7 0x30 :: repeat (IdeOutw 0x1f0 0) 256) empty_if = Err NullDeref.
Proof. by vm_compute. Qed.

(** The command for the last sector divides by the geometry, which is 0. *)
Lemma imageless_native_max_faults : ide_runs [IdeOut 0x1f7 0xF8] empty_if = Err DivByZero.
Proof. by vm_compute. Qed.
