(* ===== verification/DiskImage.v ===== *)
(** The first partition of the emulated disk as the block device the sector cache
    relies on: the interface [Disk] of Coherence implemented by the driver (Hda) on the
    emulated drive (Ide).

    The kernel on an emulated machine whose disk is the image of the builder:
    [mfs_end] of MkMfs writes the file, Ide serves it, [hda_init] of Hda finds the
    file system on it, and [mfs_get] of Mfs reads inodes through the sector cache,
    the device switch, the driver and the drive. *)
From S2P Require Import Prelude LibC Layout Bitmap MkMfs Device Alist Vcache Scache Coherence Kstate Mfs KImage I8259 Port Irq Hda Ide IdePio HdaIde HdaInit.


(** [DEVID(BLK_HDA, 1)] *)
Definition HDA1 : Z := 1.

Section HdaDisk.
Context (C H S : Z) (Hg : geom_ok C H S) (pend total : Z) (fuel : nat).

Definition hda_blks : list (dev_blk (hda ide)) := hda_entries line_irq fuel :: replicate 15 no_blk.

(** The driver is set up, with the first partition from sector 2 to [pend], on
    a drive with an image of [total] sectors. *)
Definition hda_ready (d : devs (hda ide)) : Prop :=
  exists img, blks d = hda_blks /\ driver_ok C H S (hw d) img /\ Z.of_nat (length img) = total /\
    h_parts (hw d) !! 0%nat = Some (Part 2 pend).

(** Sector [k] of the partition is sector [k + 1] of the drive: the partition
    begins at 2, and the driver counts from 1. *)
Definition hda_sector (d : devs (hda ide)) (k : Z) : list Z :=
  match d_bs (if0 (machine (hw d))) with
  | Some img => default (replicate 512 0) (aget img (k + 1))
  | None => replicate 512 0
  end.

Definition hda_covers (off n : Z) : Prop :=
  0 <= off /\ 0 < n <= 8 /\ off + 2 <= pend /\ off + 2 < C * H * S /\ off + 1 + n <= total.

Lemma hda_sector_image d img k :
  driver_ok C H S (hw d) img -> hda_sector d k = default (replicate 512 0) (aget img (k + 1)).
Proof using Type. intros [_ _ _ Hat _]. unfold hda_sector. by rewrite (at_bs _ _ _ _ Hat). Qed.

Lemma hda_sector_wf d k : hda_ready d -> length (hda_sector d k) = 512%nat /\ Forall is_u8 (hda_sector d k).
Proof using Type.
  intros (img & _ & Hd & _). rewrite (hda_sector_image d img) by done.
  destruct (aget img (k + 1)) as [b|] eqn:E; cbn [default from_option].
  - apply aget_inv in E as [_ E]. destruct (dr_img _ _ _ _ _ Hd) as [Hi _]. exact (Forall_lookup_1 _ _ _ _ Hi E).
  - split; [apply length_replicate|]. apply Forall_replicate. unfold is_u8. lia.
Qed.

Lemma absolute_ok d img off n :
  driver_ok C H S d img -> h_parts d !! 0%nat = Some (Part 2 pend) -> hda_covers off n ->
  absolute HDA1 off d = Ok (Some (off + 2)) d.
Proof using Hg.
  intros Hd Hp (H0 & Hn & He & Hc & Ht). pose proof (geom_small C H S Hg) as [? _].
  unfold absolute. change (MINOR HDA1) with 1. cbn [Z.ltb Z.compare].
  change (NPARTS <? 1) with false. cbv iota. rewrite bind_get. cbv beta.
  rewrite (bind_some _ _ (Part 2 pend)) by exact Hp. cbn [p_begin p_end].
  rewrite s32_small by (unfold is_s32; lia). rewrite u32_small by (unfold is_u32; lia).
  by rewrite (proj2 (Z.ltb_ge _ _)) by lia.
Qed.


Lemma hda_seek d img off n :
  blks d = hda_blks -> driver_ok C H S (hw d) img -> h_parts (hw d) !! 0%nat = Some (Part 2 pend) -> hda_covers off n ->
  dev_lseek BLKDEV HDA1 off 0 d = Ok 0 (Devs (chrs d) (blks d) (with_stat (seeked C H S (off + 2)) (hw d))).
Proof using Hg.
  intros Hb Hd Hp Hc. pose proof Hc as (H0 & _ & _ & Hch & _).
  pose proof (lseek_ok C H S Hg (hw d) img HDA1 off (off + 2) 0 Hd (absolute_ok _ _ _ _ Hd Hp Hc) ltac:(lia)) as El.
  unfold dev_lseek, blk_entry. change (NBLKDEVS <? MAJOR HDA1) with false. cbv iota. msteps. rewrite Hb.
  change (aget hda_blks (MAJOR HDA1)) with (Some (hda_entries line_irq fuel)). cbn [of_option]. msteps.
  cbn [b_open b_lseek hda_entries]. unfold on_hw, zoom. by rewrite El, Hb.
Qed.

Lemma concat_sectors (img : list (list Z)) q n :
  0 <= q -> 0 <= n -> q + n <= Z.of_nat (length img) ->
  concat (map (fun k => default (replicate 512 0) (aget img (q + k))) (seqZ 0 n)) =
    concat (take (Z.to_nat n) (drop (Z.to_nat q) img)).
Proof using Type.
  intros Hq Hn Hl. f_equal. apply list_eq. intros j. rewrite list_lookup_fmap, lookup_take, lookup_drop.
  destruct (decide (j < Z.to_nat n)%nat) as [Hj|Hj].
  - rewrite (proj2 (lookup_seqZ 0 n j (Z.of_nat j)) ltac:(lia)). cbn [fmap option_fmap option_map].
    unfold aget. rewrite decide_True by lia. replace (Z.to_nat (q + Z.of_nat j)) with (Z.to_nat q + j)%nat by lia.
    destruct (lookup_lt_is_Some_2 img (Z.to_nat q + j)) as [b E]; [lia|]. by rewrite E.
  - rewrite lookup_seqZ_ge by lia. done.
Qed.

Context (Hfuel : 2048 <= Z.of_nat fuel).

Lemma hda_disk_read d off n :
  hda_ready d -> hda_covers off n ->
  exists r d1 c d2, dev_lseek BLKDEV HDA1 off 0 d = Ok r d1 /\
    dev_read BLKDEV HDA1 n d1 = Ok (c, concat (map (fun k => hda_sector d (off + k)) (seqZ 0 n))) d2 /\
    hda_ready d2 /\ hda_sector d2 = hda_sector d.
Proof using Hg Hfuel.
  intros (img & Hb & Hd & Hl & Hp) Hc. pose proof Hc as (H0 & Hn & He & Hch & Ht).
  destruct (read_ok C H S Hg fuel (hw d) img HDA1 (off + 2) n Hd) as (h' & Er & Hd' & Hp'); [lia..|].
  exists 0, (Devs (chrs d) (blks d) (with_stat (seeked C H S (off + 2)) (hw d))), 0, (Devs (chrs d) (blks d) h').
  split_and!.
  - by apply (hda_seek d img off n).
  - unfold dev_read, blk_entry. change (NBLKDEVS <? MAJOR HDA1) with false. cbv iota. msteps. cbn [blks]. rewrite Hb.
    change (aget hda_blks (MAJOR HDA1)) with (Some (hda_entries line_irq fuel)). cbn [of_option]. msteps.
    cbn [b_open b_read hda_entries]. unfold on_hw, zoom. cbn [hw chrs blks]. rewrite Er. do 2 f_equal.
    rewrite <- (concat_sectors img (off + 2 - 1) n) by lia. f_equal. apply list_fmap_ext. intros i k _.
    rewrite (hda_sector_image d img) by done. do 2 f_equal. lia.
  - exists img. cbn [blks hw]. rewrite Hp'. done.
  - unfold hda_sector. cbn [hw]. rewrite (at_bs _ _ _ _ (dr_drive _ _ _ _ _ Hd)), (at_bs _ _ _ _ (dr_drive _ _ _ _ _ Hd')). done.
Qed.

Lemma hda_disk_write d off n buf :
  hda_ready d -> hda_covers off n -> (Z.to_nat (512 * n) <= length buf)%nat ->
  Forall is_u8 (take (Z.to_nat (512 * n)) buf) ->
  exists r d1 c d2, dev_lseek BLKDEV HDA1 off 0 d = Ok r d1 /\ dev_write BLKDEV HDA1 buf n d1 = Ok c d2 /\
    hda_ready d2 /\
    forall k, hda_sector d2 k =
      if decide (off <= k < off + n) then take 512 (drop (Z.to_nat (512 * (k - off))) buf) else hda_sector d k.
Proof using Hg Hfuel.
  intros (img & Hb & Hd & Hl & Hp) Hc Hbl Hu. pose proof Hc as (H0 & Hn & He & Hch & Ht).
  destruct (hda_write_ok C H S Hg fuel (hw d) img HDA1 (off + 2) n buf Hd) as (h' & Ew & Hd' & Hp'); [lia..|done|].
  set (img' := write_sectors _ _ _ _) in *.
  exists 0, (Devs (chrs d) (blks d) (with_stat (seeked C H S (off + 2)) (hw d))), 0, (Devs (chrs d) (blks d) h').
  split_and!.
  - by apply (hda_seek d img off n).
  - unfold dev_write, blk_entry. change (NBLKDEVS <? MAJOR HDA1) with false. cbv iota. msteps. cbn [blks]. rewrite Hb.
    change (aget hda_blks (MAJOR HDA1)) with (Some (hda_entries line_irq fuel)). cbn [of_option]. msteps.
    cbn [b_open b_write hda_entries]. unfold on_hw, zoom. cbn [hw chrs blks]. by rewrite Ew.
  - exists img'. cbn [blks hw]. rewrite Hp'. split_and!; try done. unfold img'. by rewrite write_sectors_length.
  - intros k. rewrite (hda_sector_image (Devs (chrs d) (blks d) h') img' k Hd'), (hda_sector_image d img k Hd). unfold aget, img'.
    destruct (decide (0 <= k + 1)) as [Hk|Hk]; [|by rewrite decide_False by lia].
    rewrite write_sectors_lookup by (rewrite ?length_take; lia). repeat case_decide; try lia; [|done].
    cbn [default from_option].
    replace (512 * (Z.to_nat (k + 1) - Z.to_nat (off + 2 - 1)))%nat with (Z.to_nat (512 * (k - off))) by lia.
    rewrite skipn_firstn_comm, take_take. unfold id. f_equal. lia.
Qed.

Lemma hda_disk_open d :
  hda_ready d -> exists d', dev_open BLKDEV HDA1 O_RDONLY 0 d = Ok 0 d' /\ hda_ready d' /\ hda_sector d' = hda_sector d.
Proof using Type.
  intros Hr. exists d. split; [|done]. destruct Hr as (img & Hb & _). unfold dev_open, blk_entry.
  change (NBLKDEVS <? MAJOR HDA1) with false. cbv iota. msteps. rewrite Hb. by destruct d.
Qed.

Lemma hda_disk_close d :
  hda_ready d -> exists d', dev_close BLKDEV HDA1 d = Ok 0 d' /\ hda_ready d' /\ hda_sector d' = hda_sector d.
Proof using Type.
  intros Hr. exists d. split; [|done]. destruct Hr as (img & Hb & _). unfold dev_close, blk_entry.
  change (NBLKDEVS <? MAJOR HDA1) with false. cbv iota. msteps. rewrite Hb. by destruct d.
Qed.

(** The driver on the emulated drive is a block device for the sector cache. *)
Definition hda_disk : Disk (hda ide) HDA1.
Proof using Hg Hfuel pend total.
  refine {| ready := hda_ready; sector := hda_sector; covers := hda_covers |}.
  - intros d k Hr. apply (hda_sector_wf d k Hr).
  - intros d k Hr. apply (hda_sector_wf d k Hr).
  - intros off n (H0 & Hn & _ & Hch & _). pose proof (geom_small C H S Hg) as [? _]. lia.
  - exact hda_disk_open.
  - exact hda_disk_close.
  - exact hda_disk_read.
  - exact hda_disk_write.
Defined.
End HdaDisk.

(** * The machine *)

(** * The image file as a disk *)

(** The 512-byte sectors of a file. *)
Definition file_sectors (bytes : list Z) : list (list Z) :=
  map (fun k => take 512 (drop (512 * k) bytes)) (seq 0 (length bytes / 512)).

Lemma file_sectors_lookup bytes k :
  (512 * (k + 1) <= length bytes)%nat -> file_sectors bytes !! k = Some (take 512 (drop (512 * k) bytes)).
Proof.
  intros Hk. unfold file_sectors. rewrite list_lookup_fmap, lookup_seq_lt; [done|].
  enough (k + 1 <= length bytes / 512)%nat by lia. apply Nat.div_le_lower_bound; lia.
Qed.

Lemma file_sectors_length bytes : length (file_sectors bytes) = (length bytes / 512)%nat.
Proof. unfold file_sectors. by rewrite length_fmap, length_seq. Qed.

Lemma file_sectors_wf H S bytes :
  Forall is_u8 bytes -> Z.of_nat (length bytes) <= 512 * (65535 * H * S) -> wf_image H S (file_sectors bytes).
Proof.
  intros Hu Hl. split.
  - apply Forall_fmap, Forall_forall. intros k Hk%elem_of_seq. cbn. split; [|by apply Forall_take, Forall_drop].
    rewrite length_take, length_drop. assert (512 * (length bytes / 512) <= length bytes)%nat by (apply Nat.mul_div_le; lia). lia.
  - rewrite file_sectors_length, Nat2Z.inj_div. change (Z.of_nat 512) with 512.
    apply Z.div_le_upper_bound; lia.
Qed.

(** The super block of the builder's image. *)
Lemma image_super d :
  wf_sizes d ->
  exists sb, file_sectors (mfs_end d) !! 1%nat = Some sb /\ take 3 sb = [77; 70; 83] /\ last_sector sb = 5126.
Proof.
  intros Hd. pose proof (new_image_length d Hd) as Hlen.
  exists (take 512 (drop 512 (mfs_end d))). split; [apply (file_sectors_lookup _ 1); lia|].
  assert (exists rest, take 512 (drop 512 (mfs_end d)) = encode_sblk new_super ++ rest) as [rest ->].
  { unfold mfs_end. rewrite drop_app_length' by (symmetry; apply Hd). rewrite (wf_super d Hd), <- app_assoc.
    eexists. rewrite take_app_ge by (by vm_compute; lia). reflexivity. }
  split; [reflexivity|]. unfold last_sector. rewrite decode_encode_sblk by apply new_super_wf. reflexivity.
Qed.

(** * The kernel after the driver's start *)

(** Empty caches over the disk driver. *)
Definition hda_kernel (fuel : nat) (h : hda ide) : kstate (hda ide) :=
  K vcache0 (empty_cache (Devs [] (hda_blks fuel) h)) [] [] [].

(** The driver's state and tables before [hda_init]. *)
Record driver_fresh (h : hda ide) : Prop := {
  df_irqs : length (irq_handler (h_io h)) = 16%nat;
  df_parts : length (h_parts h) = 8%nat
}.

Section Machine.
Context (C H S : Z) (Hg : geom_ok C H S) (fuel : nat) (Hfuel : 2048 <= Z.of_nat fuel).
#[local] Instance machine_disk : Disk (hda ide) HDA1 := hda_disk C H S Hg 5126 5127 fuel Hfuel.

Lemma hda_kernel_ok h img :
  driver_ok C H S h img -> Z.of_nat (length img) = 5127 -> h_parts h !! 0%nat = Some (Part 2 5126) ->
  cache_ok HDA1 1024 (k_sc (hda_kernel fuel h)) [] [].
Proof using Type.
  intros Hd Hl Hp. apply empty_cache_ok; [by exists img|by vm_compute|by vm_compute].
Qed.

Lemma hda_holds h bytes :
  driver_ok C H S h (file_sectors bytes) -> holds HDA1 (sdevs (k_sc (hda_kernel fuel h))) bytes.
Proof using Type.
  intros Hd k Hk Hl. cbn [sector machine_disk hda_disk sdevs hda_kernel k_sc empty_cache].
  rewrite (hda_sector_image C H S (Devs [] (hda_blks fuel) h) (file_sectors bytes) k Hd). unfold aget, img_sector. rewrite decide_True by lia.
  rewrite file_sectors_lookup by lia. cbn [default from_option].
  by replace (Z.to_nat (512 * (k + 1))) with (512 * Z.to_nat (k + 1))%nat by lia.
Qed.

(** C4: the disk of the emulated machine holds the image the builder wrote.
    Then [hda_init] succeeds, and the kernel with empty caches gets from
    [mfs_get] of an inode number, through the sector cache, the device switch, the
    disk driver and the drive's command and data ports, a pointer at which it reads
    the builder's inode of that number.  The block of the inode lies within the
    geometry of the drive. *)
Theorem machine_reads_builder_inode h d node n :
  wf_sizes d -> Forall is_u8 (mfs_end d) -> powered_on C H S (machine h) (file_sectors (mfs_end d)) -> driver_fresh h ->
  (515 + node / 8) * 2 + 2 < C * H * S <= 5126 -> 0 <= node -> m_inodes d !! Z.to_nat node = Some n -> wf_inode n ->
  exists h' p s', hda_init line_irq fuel h = Ok 0 h' /\
    mfs_get new_super HDA1 node (hda_kernel fuel h') = Ok p s' /\ iload p s' = Ok n s'.
Proof using Hg Hfuel.
  intros Hd Hu Hpo [Hirq Hparts] Hin Hn Hi Hwf. destruct (image_super d Hd) as (sb & Hsb & Hm & Hlast).
  pose proof (new_image_length d Hd) as Hlen.
  assert (C * H * S <= last_sector sb < 2 ^ 31 - 1) as Hl2 by (rewrite Hlast; lia).
  assert (2 < C * H * S) as Hl3 by (Z.div_mod_to_equations; lia).
  destruct (h_parts h) as [|e0 [|p1 parts]] eqn:Ep; [done|done|].
  destruct (hda_init_ok C H S Hg fuel h (file_sectors (mfs_end d)) (<[14%nat := Some HDA_INTR]> (irq_handler (h_io h)))
    e0 p1 parts sb Hpo) as (h' & Eh & Hdr & Hp'); try done; try lia.
  { unfold aset. by rewrite decide_True by lia. }
  rewrite Hlast in Hp'. exists h'.
  assert (Z.of_nat (length (file_sectors (mfs_end d))) = 5127) as Htot
    by (rewrite file_sectors_length, Nat2Z.inj_div, Hlen; reflexivity).
  destruct (kernel_reads_inode HDA1 (hda_kernel fuel h') d [] [] node n) as (p & s' & la' & lc' & E1 & E2 & _); try done.
  - apply (hda_kernel_ok h' _ Hdr Htot). by rewrite Hp'.
  - by apply hda_holds.
  - cbn [covers machine_disk hda_disk]. unfold hda_covers. change (s_iblk new_super) with 515. Z.div_mod_to_equations; lia.
  - by exists p, s'.
Qed.
End Machine.

(** A machine whose first drive has the image of an empty file system, with the
    geometry the emulator's [guess_disk_lchs] gives a disk of that size. *)
Definition drive0 (img : option (list (list Z))) : IDEState :=
  MkIDE 5 16 63 5127 1 img 16 0 [] 0 0 (MkRegs 0 0 1 1 0 0 0 0 0 0 0 0xa0 0x40)
    (MkPio 0 DummyTransferStop 0 0 (zeros 8196) 0 0).
Definition machine0 : hda ide :=
  Hda (HdaStat 0 0 0 0 0 0 0 0 0) (replicate 8 (Part 0 0))
    (MkIrq [] (replicate 16 None) None true
       (MkIf (drive0 (Some (file_sectors (mfs_end fresh)))) (drive0 None) false 0)).

Lemma machine_reads_builder_inode_witness :
  exists h' p s', hda_init line_irq 2048 machine0 = Ok 0 h' /\
    mfs_get new_super HDA1 0 (hda_kernel 2048 h') = Ok p s' /\ iload p s' = Ok root_inode s'.
Proof.
  refine (machine_reads_builder_inode 5 16 63 _ 2048 _ machine0 fresh 0 root_inode fresh_sizes fresh_u8 _ _ _ _ _ _).
  - unfold geom_ok. lia.
  - lia.
  - split; try reflexivity; [by split|]. apply file_sectors_wf; [apply fresh_u8|]. rewrite (new_image_length fresh fresh_sizes). lia.
  - by split.
  - by vm_compute.
  - lia.
  - apply fresh_root_node.
  - apply root_inode_wf.
Defined.
