(* ===== verification/I8237.v ===== *)
(** The DMA controllers of the machine emulator, src/sysvm/hw/dma.c: two chips
    with four channels, their ports, and the transfers between a device and the
    physical memory.

    [dma_mem] is the physical memory, taken as memory at every address; a device's
    transfer handler is a number, what calling it does is the argument [handler].
    The messages and [DMA_schedule], which only interrupts the processor loop, are
    not modelled; saving and loading are in Saved. *)
From S2P Require Import Prelude Port.

(** [struct dma_regs]; [now] and [base] are the pairs of address and count. *)
Record dma_regs := MkDmaRegs {
  now_addr : Z; now_count : Z; base_addr : Z; base_count : Z; dr_mode : Z; dr_page : Z; dr_pageh : Z;
  dr_dack : Z; dr_eop : Z; transfer_handler : option nat
}.
(** [struct dma_cont] *)
Record dma_cont := MkDmaCont {
  dc_status : Z; dc_command : Z; dc_mask : Z; flip_flop : bool; dshift : Z; dc_regs : list dma_regs
}.
Record dma := MkDma { cont0 : dma_cont; cont1 : dma_cont; dma_mem : Z -> Z }.

Definition CMD_NOT_SUPPORTED : Z := 0xfb.
Definition channels : list Z := [-1; 2; 3; 1; -1; -1; -1; 0].

(** Assignments to the fields. *)
Definition r_now a c r :=
  MkDmaRegs a c (base_addr r) (base_count r) (dr_mode r) (dr_page r) (dr_pageh r) (dr_dack r) (dr_eop r)
    (transfer_handler r).
Definition r_base a c r :=
  MkDmaRegs (now_addr r) (now_count r) a c (dr_mode r) (dr_page r) (dr_pageh r) (dr_dack r) (dr_eop r)
    (transfer_handler r).
Definition r_mode m r :=
  MkDmaRegs (now_addr r) (now_count r) (base_addr r) (base_count r) m (dr_page r) (dr_pageh r) (dr_dack r) (dr_eop r)
    (transfer_handler r).
Definition r_pages p h r :=
  MkDmaRegs (now_addr r) (now_count r) (base_addr r) (base_count r) (dr_mode r) p h (dr_dack r) (dr_eop r)
    (transfer_handler r).
Definition r_handler f r :=
  MkDmaRegs (now_addr r) (now_count r) (base_addr r) (base_count r) (dr_mode r) (dr_page r) (dr_pageh r) (dr_dack r) (dr_eop r) f.
Definition c_status v d := MkDmaCont v (dc_command d) (dc_mask d) (flip_flop d) (dshift d) (dc_regs d).
Definition c_command v d := MkDmaCont (dc_status d) v (dc_mask d) (flip_flop d) (dshift d) (dc_regs d).
Definition c_mask v d := MkDmaCont (dc_status d) (dc_command d) v (flip_flop d) (dshift d) (dc_regs d).
Definition c_ff v d := MkDmaCont (dc_status d) (dc_command d) (dc_mask d) v (dshift d) (dc_regs d).
Definition c_regs l d := MkDmaCont (dc_status d) (dc_command d) (dc_mask d) (flip_flop d) (dshift d) l.

(** Controller [u], the second when [u] is true. *)
Definition cont (u : bool) (s : dma) : dma_cont := if u then cont1 s else cont0 s.
Definition cget (u : bool) : M dma dma_cont := gets (cont u).
Definition cupd (u : bool) (f : dma_cont -> dma_cont) : M dma unit :=
  modify (fun s => if u then MkDma (cont0 s) (f (cont1 s)) (dma_mem s) else MkDma (f (cont0 s)) (cont1 s) (dma_mem s)).
Definition rget (u : bool) (i : Z) : M dma dma_regs := d <- cget u ;; of_option OutOfBounds (aget (dc_regs d) i).
Definition rupd (u : bool) (i : Z) (f : dma_regs -> dma_regs) : M dma unit :=
  d <- cget u ;;
  r <- of_option OutOfBounds (aget (dc_regs d) i) ;;
  l <- of_option OutOfBounds (aset (dc_regs d) i (f r)) ;;
  cupd u (c_regs l).

(** ** Pages *)

(** [channels[nport & 7]]; [None] stands for -1, an invalid channel. *)
Definition page_channel (nport : Z) : option Z :=
  match nth (Z.to_nat (Z.land nport 7)) channels (-1) with -1 => None | c => Some c end.

(** [write_page], [write_pageh], [read_page], [read_pageh] *)
Definition write_page (u : bool) (nport data : Z) : M dma unit :=
  match page_channel nport with None => ret tt | Some i => rupd u i (fun r => r_pages (u8 data) (dr_pageh r) r) end.
Definition write_pageh (u : bool) (nport data : Z) : M dma unit :=
  match page_channel nport with None => ret tt | Some i => rupd u i (fun r => r_pages (dr_page r) (u8 data) r) end.
Definition read_page (u : bool) (nport : Z) : M dma Z :=
  match page_channel nport with None => ret 0 | Some i => r <- rget u i ;; ret (dr_page r) end.
Definition read_pageh (u : bool) (nport : Z) : M dma Z :=
  match page_channel nport with None => ret 0 | Some i => r <- rget u i ;; ret (dr_pageh r) end.

(** ** Channels *)

(** [static inline void init_chan(struct dma_cont *d, int ichan)] *)
Definition init_chan (u : bool) (ichan : Z) : M dma unit :=
  d <- cget u ;;
  rupd u ichan (fun r => r_now (Z.shiftl (base_addr r) (dshift d)) 0 r).

(** [static inline int getff(struct dma_cont *d)] *)
Definition getff (u : bool) : M dma bool :=
  d <- cget u ;;
  cupd u (c_ff (negb (flip_flop d))) ;;;
  ret (flip_flop d).

(** [static uint32_t read_chan(void *opaque, uint32_t nport)] *)
Definition read_chan (u : bool) (nport : Z) : M dma Z :=
  d <- cget u ;;
  let iport := Z.land (Z.shiftr nport (dshift d)) 0x0f in
  let ichan := Z.shiftr iport 1 in
  r <- rget u ichan ;;
  let dir := if Z.land (Z.shiftr (dr_mode r) 5) 1 =? 0 then 1 else -1 in
  ff <- getff u ;;
  let val := if Z.land iport 1 =? 0 then now_addr r + now_count r * dir
             else Z.shiftl (base_count r) (dshift d) - now_count r in
  ret (Z.land (Z.shiftr val (dshift d + (if ff : bool then 8 else 0))) 0xff).

(** [static void write_chan(void *opaque, uint32_t nport, uint32_t data)] *)
Definition write_chan (u : bool) (nport data : Z) : M dma unit :=
  d <- cget u ;;
  let iport := Z.land (Z.shiftr nport (dshift d)) 0x0f in
  let ichan := Z.shiftr iport 1 in
  let nreg := Z.land iport 1 in
  let store (f : Z -> Z) r :=
    if nreg =? 0 then r_base (f (base_addr r)) (base_count r) r else r_base (base_addr r) (f (base_count r)) r in
  ff <- getff u ;;
  if ff : bool then
    rupd u ichan (store (fun b => u16 (Z.lor (Z.land b 0xff) (Z.land (Z.shiftl data 8) 0xff00)))) ;;;
    init_chan u ichan
  else rupd u ichan (store (fun b => u16 (Z.lor (Z.land b 0xff00) (Z.land data 0xff)))).

(** ** Controllers *)

(** [static void write_cont(void *opaque, uint32_t nport, uint32_t data)] *)
Definition write_cont (u : bool) (nport data : Z) : M dma unit :=
  d <- cget u ;;
  let iport := Z.land (Z.shiftr nport (dshift d)) 0x0f in
  if iport =? 0x08 then
    if negb (data =? 0) && negb (Z.land data CMD_NOT_SUPPORTED =? 0) then ret tt else cupd u (c_command (u8 data))
  else if iport =? 0x09 then
    let ichan := Z.land data 3 in
    cupd u (fun d =>
      let st := if negb (Z.land data 4 =? 0) then u8 (Z.lor (dc_status d) (Z.shiftl 1 (ichan + 4)))
                else u8 (Z.land (dc_status d) (Z.lnot (Z.shiftl 1 (ichan + 4)))) in
      c_status (u8 (Z.land st (Z.lnot (Z.shiftl 1 ichan)))) d)
  else if iport =? 0x0a then
    cupd u (fun d =>
      c_mask (if negb (Z.land data 4 =? 0) then u8 (Z.lor (dc_mask d) (Z.shiftl 1 (Z.land data 3)))
              else u8 (Z.land (dc_mask d) (Z.lnot (Z.shiftl 1 (Z.land data 3))))) d)
  else if iport =? 0x0b then rupd u (Z.land data 3) (r_mode (u8 data))
  else if iport =? 0x0c then cupd u (c_ff false)
  else if iport =? 0x0d then cupd u (fun d => c_command 0 (c_status 0 (c_mask 0xff (c_ff false d))))
  else if iport =? 0x0e then cupd u (c_mask 0)
  else if iport =? 0x0f then cupd u (c_mask (u8 data))
  else ret tt.

(** [static uint32_t read_cont(void *opaque, uint32_t nport)] *)
Definition read_cont (u : bool) (nport : Z) : M dma Z :=
  d <- cget u ;;
  let iport := Z.land (Z.shiftr nport (dshift d)) 0x0f in
  if iport =? 0x08 then cupd u (fun d => c_status (Z.land (dc_status d) 0xf0) d) ;;; ret (dc_status d)
  else if iport =? 0x0f then ret (dc_mask d)
  else ret 0.

(** ** Devices *)

Definition chip_of (nchan : Z) : bool := 3 <? nchan.

(** [int DMA_get_channel_mode(int nchan)], [void DMA_hold_DREQ(int nchan)],
    [void DMA_release_DREQ(int nchan)], [void DMA_register_channel(...)] *)
Definition DMA_get_channel_mode (nchan : Z) : M dma Z :=
  r <- rget (chip_of nchan) (Z.land nchan 3) ;; ret (dr_mode r).
Definition DMA_hold_DREQ (nchan : Z) : M dma unit :=
  cupd (chip_of nchan) (fun d => c_status (u8 (Z.lor (dc_status d) (Z.shiftl 1 (Z.land nchan 3 + 4)))) d).
Definition DMA_release_DREQ (nchan : Z) : M dma unit :=
  cupd (chip_of nchan) (fun d => c_status (u8 (Z.land (dc_status d) (Z.lnot (Z.shiftl 1 (Z.land nchan 3 + 4))))) d).
Definition DMA_register_channel (nchan : Z) (f : option nat) : M dma unit :=
  rupd (chip_of nchan) (Z.land nchan 3) (r_handler f).

(** [target_ulong addr = ((r->pageh & 0x7f) << 24) | (r->page << 16) | r->now[ADDR]] *)
Definition dma_addr (r : dma_regs) : Z :=
  u32 (Z.lor (Z.lor (Z.shiftl (Z.land (dr_pageh r) 0x7f) 24) (Z.shiftl (dr_page r) 16)) (now_addr r)).

(** [cpu_physical_memory_read] and [cpu_physical_memory_write] *)
Definition mem_read (m : Z -> Z) (addr len : Z) : list Z := map (fun i => m (addr + i)) (seqZ 0 len).
Definition mem_write (m : Z -> Z) (addr : Z) (buf : list Z) : Z -> Z :=
  fun a => default (m a) (aget buf (a - addr)).

(** The reversing loops, which run over the buffer in place: for [i] from 0 to
    [n - 1], [p[i] = p[len - i - 1]]. *)
Definition reverse_in_place (len n : Z) (p : list Z) : list Z :=
  foldl (fun p i => <[Z.to_nat i := nth (Z.to_nat (len - i - 1)) p 0]> p) p (seqZ 0 n).

(** [int DMA_read_memory(int nchan, void *buf, int pos, int len)]: the bytes
    stored at [buf]. *)
Definition DMA_read_memory (nchan pos len : Z) : M dma (list Z) :=
  r <- rget (chip_of nchan) (Z.land nchan 3) ;;
  m <- gets dma_mem ;;
  ret (if negb (Z.land (dr_mode r) 0x20 =? 0)
       then reverse_in_place len (Z.shiftr len 1) (mem_read m (u32 (dma_addr r - pos - len)) len)
       else mem_read m (u32 (dma_addr r + pos)) len).
(** [int DMA_write_memory(int nchan, void *buf, int pos, int len)]: the bytes
    left at [buf]. *)
Definition DMA_write_memory (nchan : Z) (buf : list Z) (pos len : Z) : M dma (list Z) :=
  r <- rget (chip_of nchan) (Z.land nchan 3) ;;
  let b := take (Z.to_nat len) buf in
  let at_ := if negb (Z.land (dr_mode r) 0x20 =? 0) then u32 (dma_addr r - pos - len) else u32 (dma_addr r + pos) in
  modify (fun s => MkDma (cont0 s) (cont1 s) (mem_write (dma_mem s) at_ b)) ;;;
  ret (if negb (Z.land (dr_mode r) 0x20 =? 0) then reverse_in_place len len buf else buf).

Section Run.
(** [r->transfer_handler(r->opaque, nchan, dma_pos, dma_len)]; the index says which
    function and [opaque] a channel has registered. *)
Context (handler : nat -> Z -> Z -> Z -> M dma Z).

(** [static void channel_run(int ncont, int ichan)] *)
Definition channel_run (u : bool) (ichan : Z) : M dma unit :=
  r <- rget u ichan ;;
  f <- of_option NullDeref (transfer_handler r) ;;
  let ncont := if u then 1 else 0 in
  n <- handler f (ichan + Z.shiftl ncont 2) (now_count r) (Z.shiftl (base_count r + 1) ncont) ;;
  rupd u ichan (fun r => r_now (now_addr r) n r).

(** [void DMA_run(void)]: the inner loop of a controller, then both. *)
Fixpoint run_channels (u : bool) (l : list Z) : M dma unit :=
  match l with
  | [] => ret tt
  | ichan :: l =>
      d <- cget u ;;
      (if (Z.land (dc_mask d) (Z.shiftl 1 ichan) =? 0) &&
          negb (Z.land (dc_status d) (Z.shiftl (Z.shiftl 1 ichan) 4) =? 0)
       then channel_run u ichan else ret tt) ;;;
      run_channels u l
  end.
Definition DMA_run : M dma unit := run_channels false [0; 1; 2; 3] ;;; run_channels true [0; 1; 2; 3].
End Run.

(** ** Set-up *)

(** [static void dma_reset(void *opaque)] *)
Definition dma_reset (u : bool) : M dma unit := d <- cget u ;; write_cont u (Z.shiftl 0x0d (dshift d)) 0.

Definition page_port_list : list Z := [0x1; 0x2; 0x3; 0x7].

(** The ports [dma_init2] gives a controller, with [base], [dshift] and
    [page_base]; [pageh_base] is negative, as [DMA_init(0)] of pc.c passes it. *)
Definition chan_port (base sh port : Z) : bool := existsb (fun i => port =? base + Z.shiftl i sh) (seqZ 0 8).
Definition cont_port (base sh port : Z) : bool := existsb (fun i => port =? base + Z.shiftl (i + 8) sh) (seqZ 0 8).
Definition page_port (page_base port : Z) : bool := existsb (fun i => port =? page_base + i) page_port_list.

(** [static void dma_init2(struct dma_cont *d, int base, int dshift, ...)] less the
    ports, and [void DMA_init(int high_page_enable)] *)
Definition dma_init2 (u : bool) (sh : Z) : M dma unit :=
  cupd u (fun d => MkDmaCont (dc_status d) (dc_command d) (dc_mask d) (flip_flop d) sh (dc_regs d)) ;;;
  dma_reset u.
Definition DMA_init : M dma unit := dma_init2 false 0 ;;; dma_init2 true 1.

Definition dma_inb (port : Z) : M dma Z :=
  if chan_port 0x00 0 port then read_chan false port
  else if page_port 0x80 port then read_page false port
  else if cont_port 0x00 0 port then read_cont false port
  else if chan_port 0xc0 1 port then read_chan true port
  else if page_port 0x88 port then read_page true port
  else if cont_port 0xc0 1 port then read_cont true port
  else ret 0xff.
Definition dma_outb (port val : Z) : M dma unit :=
  if chan_port 0x00 0 port then write_chan false port val
  else if page_port 0x80 port then write_page false port val
  else if cont_port 0x00 0 port then write_cont false port val
  else if chan_port 0xc0 1 port then write_chan true port val
  else if page_port 0x88 port then write_page true port val
  else if cont_port 0xc0 1 port then write_cont true port val
  else ret tt.

#[export] Instance dma_ports : PortIO dma := {
  inportb := dma_inb;
  outportb port val := dma_outb port (u8 val);
  inportw := default_ioport_readw dma_inb;
  outportw port val := default_ioport_writew dma_outb port (u16 val)
}.

(** The static storage of the controllers, zeroed, over a memory. *)
Definition regs_zero : dma_regs := MkDmaRegs 0 0 0 0 0 0 0 0 0 None.
Definition dma_zero (m : Z -> Z) : dma :=
  let d := MkDmaCont 0 0 0 false 0 (replicate 4 regs_zero) in MkDma d d m.
