(* ===== verification/DmaMachine.v ===== *)
(** The driver of the first DMA controller, src/sysv3/kernel/arch/i386/cpu/
    dma.c, over port I/O ([buff] is the address of [dma1_buff]), and the driver on a
    machine with the controllers (I8237): what a transfer set up by [dma1_read] or
    [dma1_write] moves. *)
From S2P Require Import Prelude Port I8237 I8259.


Definition DMA1_CHAN : Z := 4.
Definition DMA1_BSIZ : Z := 1024.
Definition dma1_badd : list Z := [0x00; 0x02; 0x04; 0x06].
Definition dma1_page : list Z := [0x87; 0x83; 0x81; 0x82].
Definition dma1_bcnt : list Z := [0x01; 0x03; 0x05; 0x07].
Definition STAT1 : Z := 0x08.
Definition MASK1 : Z := 0x0A.
Definition MODE1 : Z := 0x0B.
Definition CBFF1 : Z := 0x0C.

Section Dma.
Context {W : Type} `{PortIO W} (buff : Z).

(** [&BUFF1[channel]] *)
Definition channel_buf (channel : Z) : Z := u32 (buff + DMA1_BSIZ * channel).

(** [void dma_init()] *)
Definition dma_init : M W unit :=
  if negb (buff mod 0x1000 =? 0) then stop Panicked
  else if 0x1000000 <? u32 (buff + DMA1_BSIZ * DMA1_CHAN) then stop Panicked
  else ret tt.

(** [void dma1_init(unsigned mode)] *)
Definition dma1_init (mode : Z) : M W unit := outportb MODE1 (u8 mode).

(** [void dma1_stat(unsigned channel, char *stat, unsigned int *buf)]: the two
    values stored. *)
Definition dma1_stat (channel : Z) : M W (Z * Z) := st <- inportb STAT1 ;; ret (st, channel_buf channel).

(** What [dma1_read] and [dma1_write] have in common; [dir] is the transfer
    type of the mode register. *)
Definition dma1_setup (channel mode dir : Z) : M W Z :=
  if 3 <? channel then ret (-1) else
  badd <- of_option OutOfBounds (aget dma1_badd channel) ;;
  page <- of_option OutOfBounds (aget dma1_page channel) ;;
  bcnt <- of_option OutOfBounds (aget dma1_bcnt channel) ;;
  let a := channel_buf channel in
  outportb MASK1 (u8 (Z.lor 0x04 channel)) ;;;
  outportb CBFF1 0xFF ;;;
  outportb badd (Z.land (s8 a) 0xFF) ;;;
  outportb badd (Z.land (s8 (Z.shiftr a 8)) 0xFF) ;;;
  outportb page (Z.land (s8 (Z.shiftr a 16)) 0xFF) ;;;
  outportb bcnt (Z.land DMA1_BSIZ 0xFF) ;;;
  outportb bcnt (Z.land (Z.shiftr DMA1_BSIZ 8) 0xFF) ;;;
  outportb MODE1 (u8 (Z.lor (Z.lor (Z.land mode 0xF0) channel) dir)) ;;;
  outportb MASK1 (u8 channel) ;;;
  ret 0.

(** [int dma1_read(unsigned channel, unsigned mode)] and
    [int dma1_write(unsigned channel, unsigned mode)] *)
Definition dma1_read (channel mode : Z) : M W Z := dma1_setup channel mode 0x08.
Definition dma1_write (channel mode : Z) : M W Z := dma1_setup channel mode 0x04.

(** [int dma1_close(unsigned channel)] *)
Definition dma1_close (channel : Z) : M W Z := outportb MASK1 (u8 (Z.lor 0x04 channel)) ;;; ret 0.
End Dma.

(** * The machine *)

(** The low and the high byte of a register, as [write_chan] stores them. *)
Definition word_lo (b v : Z) : Z := u16 (Z.lor (Z.land b 0xff00) (Z.land v 0xff)).
Definition word_hi (b v : Z) : Z := u16 (Z.lor (Z.land b 0xff) (Z.land (Z.shiftl v 8) 0xff00)).

Lemma word_bytes b lo hi : is_u8 lo -> is_u8 hi -> word_hi (word_lo b lo) hi = lo + 256 * hi.
Proof.
  intros Hlo Hhi. unfold word_hi, word_lo.
  assert (Z.land (u16 (Z.lor (Z.land b 0xff00) (Z.land lo 0xff))) 0xff = lo) as ->.
  { rewrite <- u16_land. rewrite <- Z.land_assoc. change (Z.land 0xFFFF 0xff) with 0xff. rewrite Z.land_lor_distr_l, <- !Z.land_assoc.
    change (Z.land 0xff00 0xff) with 0. change (Z.land 0xff 0xff) with 0xff. rewrite Z.land_0_r, Z.lor_0_l, u8_land. by apply u8_small. }
  assert (Z.land (Z.shiftl hi 8) 0xff00 = Z.shiftl hi 8) as ->.
  { change 0xff00 with (Z.shiftl 0xff 8). by rewrite <- Z.shiftl_land, u8_land, u8_small. }
  rewrite Z.lor_comm, lor_shiftl_add by (unfold is_u8 in *; lia). rewrite u16_small; unfold is_u8, is_u16 in *; lia.
Qed.

(** Storing both bytes of the address or of the count starts the channel over. *)
Definition with_word (n v : Z) (r : dma_regs) : dma_regs :=
  let r' := if n =? 0 then r_base v (base_count r) r else r_base (base_addr r) v r in r_now (base_addr r') 0 r'.

Definition set_chan (i : Z) (r : dma_regs) (d : dma_cont) : dma_cont := c_regs (<[Z.to_nat i := r]> (dc_regs d)) d.

(** The first controller, with eight-bit channels. *)
Definition eight_bit (d : dma_cont) : Prop := dshift d = 0 /\ length (dc_regs d) = 4%nat.

Lemma four {A} (l : list A) : length l = 4%nat -> exists a b c d, l = [a; b; c; d].
Proof. destruct l as [|a [|b [|c [|d [|]]]]]; try done. eauto. Qed.

Lemma four_cases i : 0 <= i < 4 -> i = 0 \/ i = 1 \/ i = 2 \/ i = 3.
Proof. lia. Qed.

Lemma write_pair i n lo hi d c1 m r :
  0 <= i < 4 -> n = 0 \/ n = 1 -> eight_bit d -> flip_flop d = false -> aget (dc_regs d) i = Some r ->
  is_u8 lo -> is_u8 hi ->
  (outportb (2 * i + n) lo ;;; outportb (2 * i + n) hi) (MkDma d c1 m) =
    Ok tt (MkDma (set_chan i (with_word n (lo + 256 * hi) r) d) c1 m).
Proof.
  intros Hi Hn [Hs Hl] Hf Hr Hlo Hhi. destruct d as [st cm mk ff sh regs]. cbn in *. subst sh ff.
  destruct (four _ Hl) as (r0 & r1 & r2 & r3 & ->).
  transitivity (Ok tt (MkDma (set_chan i (with_word n
    (word_hi (word_lo (if n =? 0 then base_addr r else base_count r) (u8 lo)) (u8 hi)) r)
    (MkDmaCont st cm mk false 0 [r0; r1; r2; r3])) c1 m)).
  - destruct (four_cases i Hi) as [-> | [-> | [-> | ->]]]; injection Hr as <-; destruct Hn as [-> | ->]; reflexivity.
  - by rewrite word_bytes, !u8_small by (done || apply u8_range).
Qed.

Lemma write_page_ok i page v d c1 m r :
  aget dma1_page i = Some page -> eight_bit d -> aget (dc_regs d) i = Some r ->
  outportb page v (MkDma d c1 m) = Ok tt (MkDma (set_chan i (r_pages (u8 v) (dr_pageh r) r) d) c1 m).
Proof.
  intros Hp [Hs Hl] Hr. destruct d as [st cm mk ff sh regs]. cbn in *. subst sh.
  destruct (four _ Hl) as (r0 & r1 & r2 & r3 & ->). pose proof (aget_inv _ _ _ Hp) as [Hi _]. cbn in Hi.
  transitivity (Ok tt (MkDma (set_chan i (r_pages (u8 (u8 v)) (dr_pageh r) r)
    (MkDmaCont st cm mk ff 0 [r0; r1; r2; r3])) c1 m)); [|by rewrite u8_u8].
  destruct (four_cases i Hi) as [-> | [-> | [-> | ->]]]; injection Hp as <-; injection Hr as <-; reflexivity.
Qed.

(** Masking and unmasking a channel, clearing the flip-flop, and the mode. *)
Definition mask_bit (i : Z) (d : dma_cont) : dma_cont := c_mask (u8 (Z.lor (dc_mask d) (Z.shiftl 1 i))) d.
Definition unmask_bit (i : Z) (d : dma_cont) : dma_cont := c_mask (u8 (Z.land (dc_mask d) (Z.lnot (Z.shiftl 1 i)))) d.

Lemma write_mask i d c1 m : 0 <= i < 4 -> eight_bit d ->
  outportb MASK1 (u8 (Z.lor 0x04 i)) (MkDma d c1 m) = Ok tt (MkDma (mask_bit i d) c1 m) /\ outportb MASK1 (u8 i) (MkDma d c1 m) = Ok tt (MkDma (unmask_bit i d) c1 m).
Proof.
  intros Hi [Hs _]. destruct d as [st cm mk ff sh regs]. cbn in Hs. subst sh.
  destruct (four_cases i Hi) as [-> | [-> | [-> | ->]]]; split; reflexivity.
Qed.

Lemma write_clear d c1 m : eight_bit d -> outportb CBFF1 0xFF (MkDma d c1 m) = Ok tt (MkDma (c_ff false d) c1 m).
Proof. intros [Hs _]. destruct d as [st cm mk ff sh regs]. cbn in Hs. by subst sh. Qed.

Lemma write_mode i v d c1 m r :
  0 <= i < 4 -> is_u8 v -> Z.land v 3 = i -> eight_bit d -> aget (dc_regs d) i = Some r ->
  outportb MODE1 v (MkDma d c1 m) = Ok tt (MkDma (set_chan i (r_mode v r) d) c1 m).
Proof.
  intros Hi Hv Hm [Hs Hl] Hr. destruct d as [st cm mk ff sh regs]. cbn in Hs, Hl, Hr. subst sh.
  cbn [outportb dma_ports]. rewrite (u8_small v) by done. unfold dma_outb.
  change (chan_port 0 0 MODE1) with false. change (page_port 0x80 MODE1) with false. change (cont_port 0 0 MODE1) with true.
  cbv iota. unfold write_cont, rupd, cget, cupd. msteps. cbn [cont cont0 dshift dc_regs].
  change (Z.land (Z.shiftr MODE1 0) 15) with 0xb. cbn [Z.eqb Pos.eqb]. msteps. cbn [cont cont0 dc_regs].
  rewrite Hm, Hr. cbn [of_option]. msteps. rewrite aset_Some by lia. cbn [of_option]. msteps. by rewrite u8_small.
Qed.

#[local] Hint Unfold eight_bit : core.
Lemma eight_bit_set_chan i r d : eight_bit d -> eight_bit (set_chan i r d).
Proof. intros [? ?]. split; [done|]. cbn. by rewrite length_insert. Qed.
Lemma aget_set_chan i r d : eight_bit d -> 0 <= i < 4 -> aget (dc_regs (set_chan i r d)) i = Some r.
Proof. intros [_ Hl] Hi. apply (aget_aset (dc_regs d) _ i r). apply aset_Some. lia. Qed.
Lemma set_chan_twice i r r' d : set_chan i r (set_chan i r' d) = set_chan i r d.
Proof. unfold set_chan. cbn. by rewrite list_insert_insert_eq. Qed.

(** The address of a channel's buffer, byte by byte. *)
Lemma byte_of a k : 0 <= k -> Z.land (s8 (Z.shiftr a k)) 0xFF = u8 (Z.shiftr a k).
Proof. intros Hk. rewrite u8_land. unfold s8, u8. int_lia. Qed.

Lemma buf_bytes a : 0 <= a < 2 ^ 24 ->
  u8 a + 256 * u8 (Z.shiftr a 8) = a mod 2 ^ 16 /\ u8 (Z.shiftr a 16) = a / 2 ^ 16.
Proof. intros Ha. rewrite !Z.shiftr_div_pow2 by lia. unfold u8. int_lia. Qed.

(** [dma_init] returned: the buffers are aligned and below 16 MiB. *)
Lemma init_range buff i (s : dma) :
  0 <= buff -> buff + DMA1_BSIZ * DMA1_CHAN < 2 ^ 32 -> dma_init buff s = Ok tt s -> 0 <= i < 4 ->
  channel_buf buff i = buff + 1024 * i /\ 0 <= channel_buf buff i <= 2 ^ 24 - 1024 /\ channel_buf buff i mod 2 ^ 16 + 1024 <= 2 ^ 16.
Proof.
  unfold dma_init, channel_buf, DMA1_BSIZ, DMA1_CHAN. intros H0 H1 Hi Hc.
  destruct (buff mod 4096 =? 0) eqn:E1; [|done]. cbn [negb] in Hi. rewrite (u32_small (buff + _)) in Hi by (unfold is_u32; lia).
  destruct (0x1000000 <? buff + 1024 * 4) eqn:E2; [done|]. apply Z.eqb_eq in E1. apply Z.ltb_ge in E2.
  rewrite u32_small by (unfold is_u32; lia). split; [lia|]. split; [lia|]. Z.div_mod_to_equations. lia.
Qed.

Definition programmed (buff channel mode dir : Z) (r : dma_regs) : dma_regs :=
  let a := channel_buf buff channel in
  MkDmaRegs (a mod 2 ^ 16) 0 (a mod 2 ^ 16) DMA1_BSIZ (u8 (Z.lor (Z.lor (Z.land mode 0xF0) channel) dir)) (a / 2 ^ 16)
    (dr_pageh r) (dr_dack r) (dr_eop r) (transfer_handler r).

Lemma mode_channel mode i dir : 0 <= i < 4 -> dir = 0x08 \/ dir = 0x04 ->
  Z.land (u8 (Z.lor (Z.lor (Z.land mode 0xF0) i) dir)) 3 = i.
Proof.
  intros Hi Hd. rewrite <- u8_land, <- Z.land_assoc, !Z.land_lor_distr_l, <- !Z.land_assoc. change (Z.land 0xF0 (Z.land 0xFF 3)) with 0.
  rewrite Z.land_0_r, Z.lor_0_l. destruct Hd as [-> | ->]; by destruct (four_cases i Hi) as [-> | [-> | [-> | ->]]].
Qed.

(** What the driver does to the first controller. *)
Lemma setup_programs buff channel mode dir d c1 m r :
  0 <= buff -> buff + DMA1_BSIZ * DMA1_CHAN < 2 ^ 32 -> dma_init buff (MkDma d c1 m) = Ok tt (MkDma d c1 m) ->
  0 <= channel < 4 -> dir = 0x08 \/ dir = 0x04 -> eight_bit d -> aget (dc_regs d) channel = Some r ->
  dma1_setup buff channel mode dir (MkDma d c1 m) =
    Ok 0 (MkDma (unmask_bit channel (set_chan channel (programmed buff channel mode dir r) (c_ff false (mask_bit channel d)))) c1 m).
Proof.
  intros H0 H1 Hinit Hi Hd He Hr. destruct (init_range _ _ _ H0 H1 Hinit Hi) as (_ & Ha & _).
  destruct (buf_bytes (channel_buf buff channel) ltac:(lia)) as [Elo Ehi]. unfold dma1_setup.
  rewrite (proj2 (Z.ltb_ge 3 channel)) by lia. cbv zeta. rewrite !byte_of by lia.
  pose proof (byte_of (channel_buf buff channel) 0 ltac:(lia)) as Eb. rewrite Z.shiftr_0_r in Eb. rewrite Eb. clear Eb.
  set (a := channel_buf buff channel) in *. set (d1 := c_ff false (mask_bit channel d)).
  assert (eight_bit d1 /\ aget (dc_regs d1) channel = Some r /\ flip_flop d1 = false) as (He1 & Hr1 & Hf1) by done.
  assert (aget dma1_badd channel = Some (2 * channel + 0)) as ->
    by (destruct (four_cases channel Hi) as [-> | [-> | [-> | ->]]]; reflexivity).
  assert (aget dma1_bcnt channel = Some (2 * channel + 1)) as ->
    by (destruct (four_cases channel Hi) as [-> | [-> | [-> | ->]]]; reflexivity).
  destruct (aget_Some dma1_page channel ltac:(cbn; lia)) as [page Hp]. rewrite Hp. cbn [of_option]. msteps.
  rewrite (bind_ok _ _ _ _ _ (proj1 (write_mask channel d c1 m Hi He))).
  rewrite (bind_ok _ _ _ _ _ (write_clear (mask_bit channel d) c1 m He)). fold d1. rewrite <- (bind_assoc (outportb _ _) (fun _ => outportb _ _)).
  rewrite (bind_ok _ _ _ _ _ (write_pair channel 0 _ _ d1 c1 m r Hi ltac:(by left) He1 Hf1 Hr1 (u8_range a) (u8_range _))).
  set (ra := with_word 0 _ r). set (d2 := set_chan channel ra d1).
  assert (eight_bit d2) as He2 by by apply eight_bit_set_chan.
  rewrite (bind_ok _ _ _ _ _ (write_page_ok channel page _ d2 c1 m ra Hp He2 (aget_set_chan _ _ _ He1 Hi))).
  rewrite u8_u8, Ehi. set (rp := r_pages _ _ ra). set (d3 := set_chan channel rp d2).
  assert (eight_bit d3) as He3 by by apply eight_bit_set_chan. rewrite <- (bind_assoc (outportb _ _) (fun _ => outportb _ _)).
  rewrite (bind_ok _ _ _ _ _ (write_pair channel 1 (Z.land DMA1_BSIZ 0xFF) (Z.land (Z.shiftr DMA1_BSIZ 8) 0xFF) d3 c1 m rp Hi ltac:(by right) He3 Hf1
    (aget_set_chan _ _ _ He2 Hi) ltac:(by vm_compute) ltac:(by vm_compute))).
  set (rc := with_word 1 _ rp). set (d4 := set_chan channel rc d3).
  assert (eight_bit d4) as He4 by by apply eight_bit_set_chan.
  rewrite (bind_ok _ _ _ _ _ (write_mode channel _ d4 c1 m rc Hi (u8_range _) (mode_channel mode channel dir Hi Hd) He4
    (aget_set_chan _ _ _ He3 Hi))).
  set (d5 := set_chan channel _ d4). assert (eight_bit d5) as He5 by by apply eight_bit_set_chan.
  rewrite (bind_ok _ _ _ _ _ (proj2 (write_mask channel d5 c1 m Hi He5))). unfold ret. do 3 f_equal.
  unfold d5, d4, d3, d2. rewrite !set_chan_twice. f_equal. unfold programmed, rc, rp, ra, with_word. cbn. by rewrite Elo.
Qed.

(** ** A transfer *)

Section Transfer.
Context (handler : nat -> Z -> Z -> Z -> M dma Z).

Lemma request_bit st j : 0 <= j -> (Z.land st (Z.shiftl (Z.shiftl 1 j) 4) =? 0) = negb (Z.testbit st (j + 4)).
Proof using Type. intros Hj. rewrite Z.shiftl_shiftl by lia. apply land_bit. lia. Qed.

(** Channels that request nothing are left alone. *)
Lemma run_idle u l s : Forall (fun j => 0 <= j /\ Z.testbit (dc_status (cont u s)) (j + 4) = false) l ->
  run_channels handler u l s = Ok tt s.
Proof using Type.
  induction 1 as [|j l [Hj Hb] _ IH]; [done|]. cbn [run_channels]. unfold cget. msteps.
  rewrite request_bit, Hb by done. cbn [negb]. rewrite andb_false_r. by msteps.
Qed.

(** A single request is served once. *)
Lemma run_one u j l1 l2 s s' :
  0 <= j -> Z.testbit (dc_mask (cont u s)) j = false -> Z.testbit (dc_status (cont u s)) (j + 4) = true ->
  Forall (fun k => 0 <= k /\ Z.testbit (dc_status (cont u s)) (k + 4) = false) (l1 ++ l2) ->
  channel_run handler u j s = Ok tt s' -> dc_status (cont u s') = dc_status (cont u s) ->
  run_channels handler u (l1 ++ j :: l2) s = Ok tt s'.
Proof using Type.
  intros Hj Hm Hb Hl Hc Es. apply Forall_app in Hl as [H1 H2]. induction H1 as [|k l [Hk Hb'] _ IH]; cbn [app run_channels].
  - unfold cget. msteps. rewrite request_bit, land_bit, Hm, Hb by done. cbn [negb andb]. rewrite (bind_ok _ _ _ _ _ Hc).
    apply run_idle. by rewrite Es.
  - unfold cget. msteps. rewrite request_bit, Hb' by done. cbn [negb]. rewrite andb_false_r. by msteps.
Qed.
End Transfer.

(** A device that stores the rest of its block whenever it is asked for data. *)
Definition block_device (data : list Z) (f : nat) (nchan pos len : Z) : M dma Z :=
  DMA_write_memory nchan (drop (Z.to_nat pos) data) pos (len - pos) ;;; ret len.

Lemma programmed_addr buff channel mode dir r :
  0 <= channel_buf buff channel < 2 ^ 24 -> dr_pageh r = 0 ->
  dma_addr (programmed buff channel mode dir r) = channel_buf buff channel.
Proof.
  intros Ha Hp. unfold dma_addr, programmed. cbn [dr_pageh dr_page now_addr]. rewrite Hp.
  change (Z.shiftl (Z.land 0 0x7f) 24) with 0. rewrite Z.lor_0_l, lor_shiftl_add by (Z.div_mod_to_equations; lia).
  rewrite u32_small; unfold is_u32; Z.div_mod_to_equations; lia.
Qed.

Lemma programmed_up buff channel mode dir r :
  0 <= channel < 4 -> dir = 0x08 \/ dir = 0x04 -> Z.testbit mode 5 = false ->
  (Z.land (dr_mode (programmed buff channel mode dir r)) 0x20 =? 0) = true.
Proof.
  intros Hi Hd Hm. cbn [programmed dr_mode]. change 0x20 with (Z.shiftl 1 5). rewrite land_bit, u8_testbit, !Z.lor_spec, Z.land_spec, Hm by lia.
  destruct Hd as [-> | ->]; by destruct (four_cases channel Hi) as [-> | [-> | [-> | ->]]].
Qed.

(** The request is served with the whole block from position 0. *)
Lemma channel_run_block data channel d c1 m r f :
  0 <= channel < 4 -> eight_bit d -> aget (dc_regs d) channel = Some r -> transfer_handler r = Some f ->
  now_count r = 0 -> length data = Z.to_nat (base_count r + 1) -> (Z.land (dr_mode r) 0x20 =? 0) = true -> 0 <= base_count r ->
  exists d', channel_run (block_device data) false channel (MkDma d c1 m) = Ok tt (MkDma d' c1 (mem_write m (u32 (dma_addr r)) data)) /\
    dc_status d' = dc_status d.
Proof.
  intros Hi He Hr Hf Hn Hl Hm Hb. unfold channel_run, rget, cget. msteps. cbn [cont cont0]. msome Hr. msome Hf.
  rewrite Hn. unfold block_device. rewrite Z.sub_0_r. change (Z.shiftl 0 2) with 0. rewrite Z.add_0_r, Z.shiftl_0_r, drop_0.
  unfold DMA_write_memory, rget, cget, rupd, cupd. rewrite !bind_assoc.
  assert (chip_of channel = false /\ Z.land channel 3 = channel) as [-> ->]
    by (destruct (four_cases channel Hi) as [-> | [-> | [-> | ->]]]; done).
  msteps. cbn [cont cont0]. msteps. cbn [cont cont0]. msome Hr. rewrite bind_assoc. msteps.
  rewrite Hm. cbn [negb cont cont0 cont1 dma_mem]. rewrite Z.add_0_r, <- Hl, take_ge by lia. unfold cget. msteps. cbn [cont cont0]. msome Hr.
  rewrite aset_Some by (destruct He; lia). cbn [of_option]. msteps. eexists. split; [reflexivity|done].
Qed.

(** C29: a block moved by DMA has one byte too many.  After [dma_init] has accepted
    the buffers, [dma1_write] sets up the channel of an eight-bit controller so that
    a device that then requests its block stores it at the channel's buffer: the 1024
    bytes of the buffer and one more, because the count programmed is 1024 and the
    controller moves one byte more than the count.  On channels 0 to 2 the extra byte
    replaces the first of the next channel's buffer; nothing else of the memory
    changes. *)
Theorem dma_block_moves_one_more buff channel mode data d c1 m r f :
  0 <= buff -> buff + DMA1_BSIZ * DMA1_CHAN < 2 ^ 32 -> dma_init buff (MkDma d c1 m) = Ok tt (MkDma d c1 m) ->
  0 <= channel < 4 -> Z.testbit mode 5 = false -> length data = 1025%nat ->
  eight_bit d -> dc_status d = 0 -> dc_status c1 = 0 ->
  aget (dc_regs d) channel = Some r -> dr_pageh r = 0 -> transfer_handler r = Some f ->
  exists s', (dma1_write buff channel mode ;;; DMA_hold_DREQ channel ;;; DMA_run (block_device data)) (MkDma d c1 m) = Ok tt s' /\
    (forall x, dma_mem s' x = default (m x) (aget data (x - channel_buf buff channel))) /\
    (channel < 3 -> Some (dma_mem s' (channel_buf buff (channel + 1))) = last data).
Proof.
  intros H0 H1 Hinit Hi Hm5 Hl He Hs0 Hs1 Hr Hp Hf. destruct (init_range _ _ _ H0 H1 Hinit Hi) as (Ea & Ha & _).
  set (rp := programmed buff channel mode 0x04 r).
  rewrite (bind_ok _ _ _ _ _ (setup_programs buff channel mode 0x04 d c1 m r H0 H1 Hinit Hi ltac:(by right) He Hr)). fold rp.
  set (d1 := unmask_bit _ _). set (d2 := c_status (Z.shiftl 1 (channel + 4)) d1).
  assert (DMA_hold_DREQ channel (MkDma d1 c1 m) = Ok tt (MkDma d2 c1 m)) as Eh.
  { subst d1 d2. destruct d as [st cm mk ff sh regs]. cbn in Hs0. subst st.
    by destruct (four_cases channel Hi) as [-> | [-> | [-> | ->]]]. }
  rewrite (bind_ok _ _ _ _ _ Eh). clear Eh.
  assert (eight_bit d2) as He2 by (apply (eight_bit_set_chan channel rp (c_ff false (mask_bit channel d))); done).
  assert (aget (dc_regs d2) channel = Some rp) as Hr2 by (apply (aget_set_chan channel rp (c_ff false (mask_bit channel d))); done).
  destruct (channel_run_block data channel d2 c1 m rp f Hi He2 Hr2 Hf eq_refl Hl) as (d3 & E3 & Es3);
    [apply programmed_up; auto|done|].
  assert (Z.testbit (dc_mask d2) channel = false) as Hmask.
  { change (dc_mask d2) with (u8 (Z.land (dc_mask (mask_bit channel d)) (Z.lnot (Z.shiftl 1 channel)))).
    by rewrite clear_bit_testbit, Z.eqb_refl by lia. }
  unfold DMA_run. rewrite (bind_ok _ _ _ tt (MkDma d3 c1 (mem_write m (u32 (dma_addr rp)) data))).
  2:{ assert (exists l1 l2, [0; 1; 2; 3] = l1 ++ channel :: l2 /\ Forall (fun k => 0 <= k /\ k <> channel) (l1 ++ l2)) as (l1 & l2 & -> & Hk).
      { destruct (four_cases channel Hi) as [-> | [-> | [-> | ->]]];
          [exists [], [1; 2; 3]|exists [0], [2; 3]|exists [0; 1], [3]|exists [0; 1; 2], []];
          (split; [done|]; repeat constructor; lia). }
      apply run_one; try done; [lia| |].
      - change (dc_status (cont false (MkDma d2 c1 m))) with (Z.shiftl 1 (channel + 4)). rewrite shiftl1_testbit by lia. lia.
      - eapply Forall_impl; [exact Hk|]. intros k [Hk0 Hkn]. split; [done|].
        change (dc_status (cont false (MkDma d2 c1 m))) with (Z.shiftl 1 (channel + 4)). rewrite shiftl1_testbit by lia. lia. }
  assert (u32 (dma_addr rp) = channel_buf buff channel) as ->.
  { unfold rp. rewrite programmed_addr by (done || lia). apply u32_small. unfold is_u32. lia. }
  eexists. split; [apply run_idle; repeat constructor; try lia; cbn [cont cont1]; rewrite Hs1; apply Z.testbit_0_l|].
  split; [done|]. intros Hc3. cbn [dma_mem]. unfold mem_write.
  destruct (init_range _ (channel + 1) _ H0 H1 Hinit ltac:(lia)) as (Eb & _). rewrite Ea, Eb.
  replace (buff + 1024 * (channel + 1) - (buff + 1024 * channel)) with (Z.of_nat 1024) by lia. rewrite aget_lookup.
  rewrite last_lookup, Hl. destruct (lookup_lt_is_Some_2 data 1024 ltac:(lia)) as [b Eb']. change (Init.Nat.pred 1025) with 1024%nat. by rewrite Eb'.
Qed.

(** A machine whose only device, on channel 1, has a block of ones for a memory of
    zeros, the buffers at 1 MiB. *)
Definition dma_machine : dma :=
  let d := MkDmaCont 0 0 0xff false 0 [regs_zero; MkDmaRegs 0 0 0 0 0 0 0 0 0 (Some 7%nat); regs_zero; regs_zero] in
  MkDma d (MkDmaCont 0 0 0xff false 1 (replicate 4 regs_zero)) (fun _ => 0).

Lemma dma_block_moves_one_more_witness :
  exists s', (dma1_write 0x100000 1 0x40 ;;; DMA_hold_DREQ 1 ;;; DMA_run (block_device (replicate 1025 1))) dma_machine = Ok tt s' /\
    (forall x, dma_mem s' x = default 0 (aget (replicate 1025 1) (x - channel_buf 0x100000 1))) /\
    (1 < 3 -> Some (dma_mem s' (channel_buf 0x100000 2)) = last (replicate 1025 1)).
Proof.
  apply (dma_block_moves_one_more 0x100000 1 0x40 (replicate 1025 1) (cont0 dma_machine) (cont1 dma_machine) (fun _ => 0)
    (MkDmaRegs 0 0 0 0 0 0 0 0 0 (Some 7%nat)) 7); try reflexivity; try done.
Defined.
