(* ===== verification/Boot.v ===== *)
(** Start-up code of src/sysv3/kernel/arch/i386/init: the clearing of the bss
    (bss.c), the memory probe (memsize.c) and [kmain] (main.c). *)
From S2P Require Import Prelude LibC Layout Device Alist Vcache Scache Kstate Mfs Vfs.

(** * Memory *)

(** Physical memory as 32-bit words at word indices; a store beyond [top] is
    lost and a load there gives ones. *)
Record memory := Mem { words : Z -> Z; top : Z }.

Definition mem_load (a : Z) : M memory Z := gets (fun m => if a <? top m then words m a else 0xFFFFFFFF).
Definition mem_store (a v : Z) : M memory unit :=
  modify (fun m => if a <? top m then Mem (fun x => if x =? a then u32 v else words m x) (top m) else m).

(** [void bss_init()]: [bss] and [bssend] are word addresses; the word at
    [bssend] is cleared too. *)
Fixpoint bss_loop (n : nat) (bssp bssend : Z) : M memory Z :=
  if bssp <? bssend then
    match n with O => stop Diverged | S n' => mem_store bssp 0 ;;; bss_loop n' (bssp + 1) bssend end
  else ret bssp.
Definition bss_init (bss bssend : Z) : M memory unit :=
  p <- bss_loop (Z.to_nat (bssend - bss)) bss bssend ;; mem_store p 0.

(** [void mem_size()]: the loop, at byte address [memsize] (a multiple of 4);
    the result is [arch_memsize].  The probe that fails leaves its pattern. *)
Fixpoint size_loop (n : nat) (memsize : Z) : M memory Z :=
  match n with
  | O => stop Diverged
  | S n' =>
      let tp := memsize / 4 in
      tmp <- mem_load tp ;;
      mem_store tp 0x55AA55AA ;;;
      v <- mem_load tp ;;
      if negb (v =? 0x55AA55AA) then ret memsize
      else
        mem_store tp 0xAA55AA55 ;;;
        v <- mem_load tp ;;
        if negb (v =? 0xAA55AA55) then ret memsize
        else
          mem_store tp tmp ;;;
          let memsize := u32 (memsize + 0x1000) in
          if memsize <? 0xFFFFFFFF then size_loop n' memsize else ret memsize
  end.
Definition mem_size (fuel : nat) (kernel_end : Z) : M memory Z := size_loop fuel kernel_end.

(** * main.c *)

(** [enum kbootype] *)
Inductive kbootype := FLOPPY0 | FLOPPY1 | HDDISK0 | HDDISK1.

(** [void kmain()]: the root is mounted when the kernel came from the first
    hard disk. *)
Definition kmain {W} (kboot : kbootype) : M (kstate W) unit :=
  match kboot with
  | HDDISK0 => mountab_mount 0 0 (DEVID 0 1) ;;; ret tt
  | FLOPPY0 | FLOPPY1 | HDDISK1 => ret tt
  end.

(** * Properties *)

Definition same_memory (m m' : memory) : Prop := top m' = top m /\ forall a, a < top m -> words m' a = words m a.

(** One probe of an address that is backed by memory restores it. *)
Lemma size_step n memsize m :
  0 <= memsize -> memsize / 4 < top m -> is_u32 (words m (memsize / 4)) ->
  exists m', same_memory m m' /\
    size_loop (S n) memsize m =
      (if u32 (memsize + 0x1000) <? 0xFFFFFFFF then size_loop n (u32 (memsize + 0x1000))
       else ret (u32 (memsize + 0x1000))) m'.
Proof.
  intros H0 Ht Hw. cbn [size_loop]. unfold mem_load, mem_store. msteps. cbn [top].
  rewrite !(proj2 (Z.ltb_lt (memsize / 4) (top m))) by done. msteps. cbn [words top].
  rewrite !(proj2 (Z.ltb_lt (memsize / 4) (top m))) by done. cbn [words]. rewrite Z.eqb_refl.
  change (negb (u32 0x55AA55AA =? 0x55AA55AA)) with false. cbn iota. msteps. cbn [words top].
  rewrite !(proj2 (Z.ltb_lt (memsize / 4) (top m))) by done. cbn [words top]. rewrite Z.eqb_refl.
  rewrite !(proj2 (Z.ltb_lt (memsize / 4) (top m))) by done. cbn [words top].
  change (negb (u32 0xAA55AA55 =? 0xAA55AA55)) with false. cbn iota. msteps. cbn [words top].
  rewrite !(proj2 (Z.ltb_lt (memsize / 4) (top m))) by done.
  eexists. split; [|reflexivity]. split; [done|]. intros a Ha. cbn [words].
  destruct (Z.eqb_spec a (memsize / 4)) as [->|]; [|done]. by rewrite u32_small.
Qed.

(** A probe above the memory ends the loop. *)
Lemma size_stop n memsize m : top m <= memsize / 4 -> size_loop (S n) memsize m = Ok memsize m.
Proof.
  intros Ht. cbn [size_loop]. unfold mem_load, mem_store. msteps.
  by rewrite !(proj2 (Z.ltb_ge (memsize / 4) (top m))) by done.
Qed.

(** The probe returns the first address of the form kernel_end + 4096 k
    that is not backed by memory, and leaves the memory as it was, when there is
    less than 4 GB of it. *)
Theorem mem_size_finds_top fuel : forall kernel_end m,
  0 <= kernel_end -> (forall a, a < top m -> is_u32 (words m a)) -> 4 * top m < 2 ^ 32 - 2 ^ 13 ->
  kernel_end < 2 ^ 32 - 2 ^ 12 ->
  4 * top m - kernel_end <= 4096 * Z.of_nat fuel ->
  exists size m', mem_size (S fuel) kernel_end m = Ok size m' /\ same_memory m m' /\
    (exists k, 0 <= k /\ size = kernel_end + 4096 * k /\
      (0 < k -> kernel_end + 4096 * (k - 1) < 4 * top m)) /\ top m <= size / 4.
Proof.
  unfold mem_size. induction fuel as [|f IH]; intros ke m H0 Hw Ht Hk Hf;
    (destruct (decide (ke / 4 < top m)) as [Hlt|Hge];
     [|rewrite size_stop by lia; exists ke, m; split; [done|]; split; [by split|]; split; [exists 0; lia|lia]]).
  { Z.div_mod_to_equations. lia. }
  destruct (size_step (S f) ke m H0 Hlt (Hw _ Hlt)) as (m1 & [Ht1 Hm1] & ->).
  assert (ke < 4 * top m) as Hke by (Z.div_mod_to_equations; lia).
  rewrite u32_small by int_lia. rewrite (proj2 (Z.ltb_lt _ _)) by lia.
  destruct (IH (ke + 0x1000) m1) as (size & m' & E & [Ht' Hm'] & (k & Hk0 & Hs & Hk1) & Htop); try lia.
  - intros a Ha. rewrite Hm1 by lia. apply Hw. lia.
  - exists size, m'. split; [exact E|]. split; [|split; [|lia]].
    + split; [lia|]. intros a Ha. rewrite Hm' by lia. by apply Hm1.
    + exists (k + 1). split; [lia|]. split; [lia|]. intros _. destruct (decide (0 < k)) as [Hp|]; [|lia].
      specialize (Hk1 Hp). lia.
Qed.

Lemma mem_size_finds_top_witness :
  exists size m', mem_size 17 0x100 (Mem (fun _ => 7) 0x4000) = Ok size m' /\ same_memory (Mem (fun _ => 7) 0x4000) m'.
Proof.
  destruct (mem_size_finds_top 16 0x100 (Mem (fun _ => 7) 0x4000)) as (size & m' & E & Hs & _); cbn [top words]; try lia.
  - intros a _. unfold is_u32. lia.
  - exists size, m'. split; [exact E|exact Hs].
Defined.
