(* ===== verification/QFile.v ===== *)
(** The file a machine's state is saved in: [QEMUFile] of src/sysvm/vl.c on a host
    file, with its buffer, and what it amounts to: a sequence of bytes written and
    read at a position. *)
From S2P Require Import Prelude QTimer.

Definition IO_BUF_SIZE : Z := 32768.

(** [QEMUFile] with [is_file]; [outfile] is the contents of the host file. *)
Record QEMUFile := MkFile {
  outfile : list Z; is_writable : bool; buf_offset : Z; buf_index : Z; buf_size : Z; buf : list Z
}.
Abbreviation QF := (M QEMUFile).
Definition f_index v f := MkFile (outfile f) (is_writable f) (buf_offset f) v (buf_size f) (buf f).
Definition f_buf b f := MkFile (outfile f) (is_writable f) (buf_offset f) (buf_index f) (buf_size f) b.

(** [fseek(f, off, SEEK_SET)] and [fwrite]: beyond the end the file is filled with
    zeros; a negative offset, which the host refuses, ends the model.  [fread] gives
    what there is. *)
Definition splice (l : list Z) (p : nat) (bs : list Z) : list Z :=
  take p (l ++ replicate (p - length l) 0) ++ bs ++ drop (p + length bs) l.
Definition fwrite_at (l : list Z) (off : Z) (bs : list Z) : option (list Z) :=
  if off <? 0 then None else Some (splice l (Z.to_nat off) bs).
Definition fread_at (l : list Z) (off : Z) (n : nat) : option (list Z) :=
  if off <? 0 then None else Some (take n (drop (Z.to_nat off) l)).

(** [qemu_fopen(filename, mode)]: "wb" empties the file. *)
Definition qemu_fopen (l : list Z) (writable : bool) : QEMUFile :=
  MkFile (if writable then [] else l) writable 0 0 0 (replicate (Z.to_nat IO_BUF_SIZE) 0).

(** [qemu_fflush(f)] *)
Definition qemu_fflush : QF unit :=
  f <- get ;;
  if negb (is_writable f) then ret tt else
  if 0 <? buf_index f then
    bs <- of_option OutOfBounds (aread (buf f) 0 (Z.to_nat (buf_index f))) ;;
    l <- of_option OutOfBounds (fwrite_at (outfile f) (buf_offset f) bs) ;;
    put (MkFile l true (buf_offset f + buf_index f) 0 (buf_size f) (buf f))
  else ret tt.
(** [qemu_fill_buffer(f)] *)
Definition qemu_fill_buffer : QF unit :=
  f <- get ;;
  if is_writable f then ret tt else
  bs <- of_option OutOfBounds (fread_at (outfile f) (buf_offset f) (Z.to_nat IO_BUF_SIZE)) ;;
  b <- of_option OutOfBounds (awrite (buf f) 0 bs) ;;
  let len := Z.of_nat (length bs) in
  put (MkFile (outfile f) false (buf_offset f + len) 0 len b).
(** [qemu_fclose(f)]: the file as it is left. *)
Definition qemu_fclose : QF (list Z) :=
  f <- get ;;
  (if is_writable f then qemu_fflush else ret tt) ;;;
  f <- get ;; ret (outfile f).

Definition flush_if_full : QF unit :=
  f <- get ;; if IO_BUF_SIZE <=? buf_index f then qemu_fflush else ret tt.
(** [qemu_put_buffer(f, buf, size)]; every turn moves at least a byte. *)
Fixpoint put_loop (n : nat) (bs : list Z) : QF unit :=
  match bs, n with
  | [], _ => ret tt
  | _, O => stop Diverged
  | _, S n =>
      f <- get ;;
      let l := Z.to_nat (Z.min (IO_BUF_SIZE - buf_index f) (Z.of_nat (length bs))) in
      b <- of_option OutOfBounds (awrite (buf f) (buf_index f) (take l bs)) ;;
      modify (f_buf b) ;;;
      modify (f_index (buf_index f + Z.of_nat l)) ;;;
      flush_if_full ;;;
      put_loop n (drop l bs)
  end.
Definition qemu_put_buffer (bs : list Z) : QF unit := put_loop (length bs) bs.
(** [qemu_put_byte(f, v)] *)
Definition qemu_put_byte (v : Z) : QF unit :=
  f <- get ;;
  b <- of_option OutOfBounds (aset (buf f) (buf_index f) (u8 v)) ;;
  modify (f_buf b) ;;;
  modify (f_index (buf_index f + 1)) ;;;
  flush_if_full.

(** [qemu_get_buffer(f, buf, size1)]: the bytes there are. *)
Fixpoint get_loop (n : nat) (size : Z) : QF (list Z) :=
  if size <=? 0 then ret [] else
  match n with
  | O => stop Diverged
  | S n =>
      f <- get ;;
      (if buf_size f - buf_index f =? 0 then qemu_fill_buffer else ret tt) ;;;
      f <- get ;;
      let l := buf_size f - buf_index f in
      if l =? 0 then ret [] else
      let l := if size <? l then size else l in
      bs <- of_option OutOfBounds (aread (buf f) (buf_index f) (Z.to_nat l)) ;;
      modify (f_index (buf_index f + l)) ;;;
      rest <- get_loop n (size - l) ;;
      ret (bs ++ rest)
  end.
Definition qemu_get_buffer (size1 : Z) : QF (list Z) := get_loop (Z.to_nat size1) size1.
(** [qemu_get_byte(f)]: 0 at the end. *)
Definition qemu_get_byte : QF Z :=
  f <- get ;;
  (if buf_size f <=? buf_index f then qemu_fill_buffer else ret tt) ;;;
  f <- get ;;
  if buf_size f <=? buf_index f then ret 0 else
  v <- of_option OutOfBounds (aget (buf f) (buf_index f)) ;;
  modify (f_index (buf_index f + 1)) ;;;
  ret v.

(** [qemu_ftell(f)] and [qemu_fseek(f, pos, SEEK_SET)] *)
Definition qemu_ftell : QF Z := f <- get ;; ret (buf_offset f - buf_size f + buf_index f).
Definition qemu_fseek (pos : Z) : QF Z :=
  f <- get ;;
  (if is_writable f then
     qemu_fflush ;;;
     modify (fun f => MkFile (outfile f) (is_writable f) pos (buf_index f) (buf_size f) (buf f))
   else put (MkFile (outfile f) (is_writable f) pos 0 0 (buf f))) ;;;
  ret pos.

(** [qemu_put_be16], [qemu_put_be32], [qemu_put_be64] and back; those with a
    pointer, and the ones for a byte, are the same on a value. *)
Definition qemu_put_be16 (v : Z) : QF unit := qemu_put_byte (Z.shiftr v 8) ;;; qemu_put_byte v.
Definition qemu_put_be32 (v : Z) : QF unit :=
  qemu_put_byte (Z.shiftr v 24) ;;; qemu_put_byte (Z.shiftr v 16) ;;; qemu_put_byte (Z.shiftr v 8) ;;; qemu_put_byte v.
Definition qemu_put_be64 (v : Z) : QF unit := qemu_put_be32 (Z.shiftr v 32) ;;; qemu_put_be32 v.
Definition qemu_get_be16 : QF Z :=
  a <- qemu_get_byte ;; b <- qemu_get_byte ;; ret (Z.lor (Z.shiftl a 8) b).
Definition qemu_get_be32 : QF Z :=
  a <- qemu_get_byte ;; b <- qemu_get_byte ;; c <- qemu_get_byte ;; d <- qemu_get_byte ;;
  ret (Z.lor (Z.lor (Z.lor (Z.shiftl a 24) (Z.shiftl b 16)) (Z.shiftl c 8)) d).
Definition qemu_get_be64 : QF Z :=
  a <- qemu_get_be32 ;; b <- qemu_get_be32 ;; ret (Z.lor (Z.shiftl a 32) b).
Definition qemu_put_8s : Z -> QF unit := qemu_put_byte.
Definition qemu_get_8s : QF Z := v <- qemu_get_byte ;; ret (u8 v).
(** [qemu_get_be32s] into an [int], [qemu_get_be64s] into an [int64_t]. *)
Definition s64 (z : Z) : Z := (z + 2 ^ 63) mod 2 ^ 64 - 2 ^ 63.
Definition qemu_get_int32 : QF Z := v <- qemu_get_be32 ;; ret (s32 v).
Definition qemu_get_int64 : QF Z := v <- qemu_get_be64 ;; ret (s64 v).

(** [qemu_put_timer(f, ts)] and [qemu_get_timer(f, ts)]: a timer is when it expires,
    if it is pending. *)
Definition qemu_put_timer (ts : option Z) : QF unit := qemu_put_be64 (match ts with Some t => t | None => -1 end).
Definition qemu_get_timer : QF (option Z) :=
  t <- qemu_get_be64 ;; ret (if t =? u64 (-1) then None else Some (s64 t)).

(** * The file as bytes *)

Lemma splice_in l p bs : (p <= length l)%nat -> splice l p bs = take p l ++ bs ++ drop (p + length bs) l.
Proof. intros Hp. unfold splice. replace (p - length l)%nat with 0%nat by lia. by rewrite app_nil_r. Qed.
Lemma splice_nil l p : (p <= length l)%nat -> splice l p [] = l.
Proof. intros Hp. rewrite splice_in by done. cbn. rewrite Nat.add_0_r. apply take_drop. Qed.
Lemma splice_end l bs : splice l (length l) bs = l ++ bs.
Proof. rewrite splice_in by lia. by rewrite firstn_all, drop_ge, app_nil_r by lia. Qed.
Lemma length_splice l p bs : (p <= length l)%nat -> length (splice l p bs) = Nat.max (length l) (p + length bs).
Proof. intros Hp. rewrite splice_in, !length_app, length_take, length_drop by done. lia. Qed.
Lemma splice_splice l p a b : (p <= length l)%nat -> splice (splice l p a) (p + length a) b = splice l p (a ++ b).
Proof.
  intros Hp. rewrite (splice_in (splice l p a)) by (rewrite length_splice by done; lia).
  rewrite !(splice_in l) by done. rewrite (length_app a b), (app_assoc (take p l) a).
  rewrite take_app_length' by (rewrite length_app, length_take; lia).
  rewrite drop_app_ge by (rewrite length_app, length_take; lia). rewrite drop_drop, <- !app_assoc.
  do 4 f_equal. rewrite length_app, length_take. lia.
Qed.
Lemma aset_awrite {A} (l : list A) i x : aset l i x = awrite l i [x].
Proof.
  unfold aset, awrite. cbn [length]. repeat case_decide; try lia; [|done].
  rewrite insert_take_drop by lia. do 4 f_equal. lia.
Qed.

Lemma fwrite_at_Some l off bs : 0 <= off -> fwrite_at l off bs = Some (splice l (Z.to_nat off) bs).
Proof. intros. unfold fwrite_at. by rewrite (proj2 (Z.ltb_ge _ _)). Qed.
Lemma fread_at_Some l off n : 0 <= off -> fread_at l off n = Some (take n (drop (Z.to_nat off) l)).
Proof. intros. unfold fread_at. by rewrite (proj2 (Z.ltb_ge _ _)). Qed.

(** ** Writing *)

(** The file being written holds [l] once flushed, and is at position [p]. *)
Record filling (f : QEMUFile) (l : list Z) (p : nat) : Prop := Filling {
  fw_writable : is_writable f = true;
  fw_size : buf_size f = 0;
  fw_buf : Z.of_nat (length (buf f)) = IO_BUF_SIZE;
  fw_index : 0 <= buf_index f <= IO_BUF_SIZE;
  fw_offset : 0 <= buf_offset f <= Z.of_nat (length (outfile f));
  fw_bytes : l = splice (outfile f) (Z.to_nat (buf_offset f)) (take (Z.to_nat (buf_index f)) (buf f));
  fw_pos : Z.of_nat p = buf_offset f + buf_index f
}.
Definition file_w f l p : Prop := filling f l p /\ buf_index f < IO_BUF_SIZE.

Lemma filling_pos f l p : filling f l p -> (p <= length l)%nat.
Proof. intros [? ? ? ? ? -> ?]. rewrite length_splice, length_take by lia. lia. Qed.

Lemma open_w : file_w (qemu_fopen [] true) [] 0.
Proof. split; [split|]; done. Qed.

Lemma flush_ok f l p : filling f l p -> exists f', qemu_fflush f = Ok tt f' /\ file_w f' l p /\ outfile f' = l /\ buf_index f' = 0.
Proof.
  intros [Hw Hs Hb Hi Ho -> Hp]. unfold qemu_fflush. rewrite bind_get, Hw. cbn [negb].
  destruct (Z.ltb_spec 0 (buf_index f)) as [Hx|Hx].
  - rewrite aread_Some by lia. msome (eq_refl _). rewrite (bind_some _ _ _ _ _ (fwrite_at_Some _ _ _ (proj1 Ho))). change (Z.to_nat 0) with 0%nat. rewrite drop_0. eexists. split; [reflexivity|].
    assert (length (take (Z.to_nat (buf_index f)) (buf f)) = Z.to_nat (buf_index f)) as Hl by (rewrite length_take; lia).
    split; [|by split]. split; [|cbn; unfold IO_BUF_SIZE; lia]. split; cbn; try done; try lia.
    + rewrite length_splice, Hl by lia. lia.
    + symmetry. apply splice_nil. rewrite length_splice, Hl by lia. lia.
  - assert (buf_index f = 0) as E0 by lia. exists f. split; [done|]. rewrite E0. cbn [Z.to_nat take].
    rewrite splice_nil by lia. split; [|done]. split; [|unfold IO_BUF_SIZE; lia]. split; try done; try lia.
    rewrite E0. symmetry. apply splice_nil. lia.
Qed.

Lemma flush_if_full_ok f l p : filling f l p -> exists f', flush_if_full f = Ok tt f' /\ file_w f' l p.
Proof.
  intros Hf. unfold flush_if_full. rewrite bind_get. destruct (Z.leb_spec IO_BUF_SIZE (buf_index f)).
  - destruct (flush_ok f l p Hf) as (f' & E & Hw & _). eauto.
  - exists f. split; [done|]. by split.
Qed.

Lemma put_chunk f l p bs :
  filling f l p -> buf_index f + Z.of_nat (length bs) <= IO_BUF_SIZE ->
  exists b, awrite (buf f) (buf_index f) bs = Some b /\
    filling (f_index (buf_index f + Z.of_nat (length bs)) (f_buf b f)) (splice l p bs) (p + length bs).
Proof.
  intros Hf Hl. pose proof (filling_pos _ _ _ Hf) as Hpl. destruct Hf as [Hw Hs Hb Hi Ho -> Hp].
  destruct (awrite_Some (buf f) (buf_index f) bs) as [b E]; [lia..|]. exists b. split; [done|].
  pose proof (length_awrite _ _ _ _ E) as Lb. split; cbn; try done; try lia.
  assert (length (take (Z.to_nat (buf_index f)) (buf f)) = Z.to_nat (buf_index f)) as Ht by (rewrite length_take; lia).
  replace p with (Z.to_nat (buf_offset f) + length (take (Z.to_nat (buf_index f)) (buf f)))%nat by lia.
  rewrite splice_splice by lia. f_equal. unfold awrite in E. case_decide; simplify_eq.
  rewrite app_assoc, take_app_length' by (rewrite length_app; lia). done.
Qed.

(** A step that writes some bytes at the position. *)
Definition writes (m : QF unit) (bs : list Z) : Prop :=
  forall f l p, file_w f l p -> exists f', m f = Ok tt f' /\ file_w f' (splice l p bs) (p + length bs).

Lemma writes_nil : writes (ret tt) [].
Proof. intros f l p Hf. exists f. split; [done|]. rewrite splice_nil by apply (filling_pos _ _ _ (proj1 Hf)). by rewrite Nat.add_0_r. Qed.
Lemma writes_seq m1 m2 b1 b2 : writes m1 b1 -> writes m2 b2 -> writes (m1 ;;; m2) (b1 ++ b2).
Proof.
  intros H1 H2 f l p Hf. destruct (H1 f l p Hf) as (f1 & E1 & Hf1). destruct (H2 f1 _ _ Hf1) as (f2 & E2 & Hf2).
  exists f2. rewrite (bind_ok _ _ _ _ _ E1). split; [done|].
  rewrite splice_splice in Hf2 by apply (filling_pos _ _ _ (proj1 Hf)). by rewrite length_app, Nat.add_assoc.
Qed.

Lemma put_byte_writes v : writes (qemu_put_byte v) [u8 v].
Proof.
  intros f l p [Hf Hi]. unfold qemu_put_byte. rewrite bind_get, aset_awrite.
  destruct (put_chunk f l p [u8 v] Hf) as (b & E & Hc); [cbn; lia|]. msome E. msteps.
  by destruct (flush_if_full_ok _ _ _ Hc) as (f' & E' & Hw); eauto.
Qed.

Lemma put_loop_writes n : forall bs, (length bs <= n)%nat -> writes (put_loop n bs) bs.
Proof.
  induction n as [|n IH]; intros bs Hn.
  { destruct bs; [apply writes_nil|cbn in Hn; lia]. }
  destruct bs as [|x bs']; [apply writes_nil|]. remember (x :: bs') as bs eqn:Eb.
  assert (0 < length bs)%nat as Hpos by (subst; cbn; lia).
  intros f l p [Hf Hi]. replace (put_loop (S n) bs f) with
    ((f <- get ;;
      let k := Z.to_nat (Z.min (IO_BUF_SIZE - buf_index f) (Z.of_nat (length bs))) in
      b <- of_option OutOfBounds (awrite (buf f) (buf_index f) (take k bs)) ;;
      modify (f_buf b) ;;; modify (f_index (buf_index f + Z.of_nat k)) ;;; flush_if_full ;;; put_loop n (drop k bs)) f)
    by (subst; reflexivity).
  rewrite bind_get. cbv zeta. set (k := Z.to_nat (Z.min (IO_BUF_SIZE - buf_index f) (Z.of_nat (length bs)))).
  assert (length (take k bs) = k) as Hk by (rewrite length_take; lia).
  destruct (put_chunk f l p (take k bs) Hf) as (b & E & Hc); [rewrite Hk; lia|]. msome E. msteps. rewrite Hk in *.
  destruct (flush_if_full_ok _ _ _ Hc) as (f1 & E1 & Hw). rewrite (bind_ok _ _ _ _ _ E1).
  destruct (IH (drop k bs) ltac:(rewrite length_drop; lia) f1 _ _ Hw) as (f2 & E2 & Hw2). exists f2. split; [done|].
  replace (p + k)%nat with (p + length (take k bs))%nat in Hw2 by lia.
  rewrite splice_splice, take_drop in Hw2 by apply (filling_pos _ _ _ Hf).
  replace (p + length bs)%nat with (p + length (take k bs) + length (drop k bs))%nat by (rewrite length_drop; lia). done.
Qed.
Lemma put_buffer_writes bs : writes (qemu_put_buffer bs) bs.
Proof. by apply put_loop_writes. Qed.

Lemma ftell_w f l p : filling f l p -> qemu_ftell f = Ok (Z.of_nat p) f.
Proof. intros [? Hs ? ? ? ? Hp]. unfold qemu_ftell. rewrite bind_get, Hs. unfold ret. f_equal. lia. Qed.
Lemma fseek_w f l p q : file_w f l p -> (q <= length l)%nat ->
  exists f', qemu_fseek (Z.of_nat q) f = Ok (Z.of_nat q) f' /\ file_w f' l q.
Proof.
  intros [Hf Hi] Hq. unfold qemu_fseek. rewrite bind_get, (fw_writable _ _ _ Hf).
  destruct (flush_ok f l p Hf) as (f1 & E & [[Hw Hs Hb Hi1 Ho Hl Hp] Hi2] & Eo & Ei). rewrite !bind_assoc, (bind_ok _ _ _ _ _ E). msteps.
  unfold ret. eexists. split; [reflexivity|]. split; [|done]. split; cbn; try done; try lia.
  - rewrite Eo. lia.
  - rewrite Ei, Eo. symmetry. apply splice_nil. lia.
Qed.

(** ** Reading *)

(** The file being read holds [l] and is at position [p]. *)
Record file_r (f : QEMUFile) (l : list Z) (p : nat) : Prop := FileR {
  fr_writable : is_writable f = false;
  fr_bytes : outfile f = l;
  fr_buf : Z.of_nat (length (buf f)) = IO_BUF_SIZE;
  fr_index : 0 <= buf_index f <= buf_size f;
  fr_size : buf_size f <= IO_BUF_SIZE;
  fr_offset : buf_size f <= buf_offset f;
  fr_pos : Z.of_nat p = buf_offset f - buf_size f + buf_index f;
  fr_here : take (Z.to_nat (buf_size f)) (buf f) = take (Z.to_nat (buf_size f)) (drop (Z.to_nat (buf_offset f - buf_size f)) l)
}.

Lemma open_r l : file_r (qemu_fopen l false) l 0.
Proof. by split. Qed.

Lemma fread_length {A} (l : list A) off n : 0 <= n -> Z.of_nat (length (take (Z.to_nat n) (drop off l))) = Z.min n (Z.of_nat (length l - off)).
Proof. intros. rewrite length_take, length_drop. lia. Qed.
Lemma take_length_take {A} (l : list A) n : take (length (take n l)) l = take n l.
Proof. by rewrite length_take, <- take_take, firstn_all. Qed.
Lemma awrite_head {A} (l bs r : list A) : awrite l 0 bs = Some r -> take (length bs) r = bs.
Proof.
  unfold awrite. case_decide; [|done]. intros [= <-]. apply take_app_length.
Qed.
Lemma fill_buffer_ok f l p : file_r f l p -> buf_index f = buf_size f ->
  exists f', qemu_fill_buffer f = Ok tt f' /\ file_r f' l p /\ buf_index f' = 0 /\
    buf_size f' = Z.min IO_BUF_SIZE (Z.of_nat (length l - p)).
Proof.
  intros [Hw <- Hb Hi Hs Ho Hp Hh] E. unfold qemu_fill_buffer. rewrite bind_get, Hw.
  assert (0 <= buf_offset f) as Hoff by lia. rewrite (bind_some _ _ _ _ _ (fread_at_Some _ _ _ Hoff)).
  remember (take (Z.to_nat IO_BUF_SIZE) (drop (Z.to_nat (buf_offset f)) (outfile f))) as bs eqn:Ebs.
  assert (Z.of_nat (length bs) = Z.min IO_BUF_SIZE (Z.of_nat (length (outfile f) - p))) as Hl.
  { rewrite Ebs, fread_length by done. f_equal. lia. }
  destruct (awrite_Some (buf f) 0 bs) as [b Eb]; [lia..|]. msome Eb. eexists. split; [reflexivity|].
  cbn [buf_index buf_size]. split; [|done]. pose proof (length_awrite _ _ _ _ Eb) as Lb. split; cbn; try done; try lia.
  rewrite Nat2Z.id, (awrite_head _ _ _ Eb).
  replace (buf_offset f + Z.of_nat (length bs) - Z.of_nat (length bs)) with (buf_offset f) by lia.
  by rewrite Ebs, take_length_take.
Qed.

(** The bytes of the buffer that are left are those of the file at the position. *)
Lemma buffered f l p k : file_r f l p -> buf_index f + Z.of_nat k <= buf_size f ->
  aread (buf f) (buf_index f) k = Some (take k (drop p l)) /\ ((0 < k)%nat -> (p + k <= length l)%nat).
Proof.
  intros [Hw <- Hb Hi Hs Ho Hp Hh] Hk. rewrite aread_Some by lia.
  assert (Z.to_nat (buf_size f) = length (take (Z.to_nat (buf_size f)) (buf f))) as Hl by (rewrite length_take; lia).
  split; [|intros; rewrite Hh, length_take, length_drop in Hl; lia]. f_equal.
  assert (take k (drop (Z.to_nat (buf_index f)) (take (Z.to_nat (buf_size f)) (buf f))) = take k (drop (Z.to_nat (buf_index f)) (buf f))) as <-.
  { rewrite take_drop_commute, take_take, Nat.min_l by lia. by rewrite take_drop_commute. }
  rewrite Hh, take_drop_commute, take_take, Nat.min_l by lia. rewrite <- take_drop_commute, drop_drop. do 2 f_equal. lia.
Qed.

Lemma advance f l p k : file_r f l p -> 0 <= k -> buf_index f + k <= buf_size f ->
  file_r (f_index (buf_index f + k) f) l (p + Z.to_nat k).
Proof. intros [] ? ?. split; cbn; try done; lia. Qed.

Lemma get_byte_ok f l p : file_r f l p -> exists f',
  qemu_get_byte f = Ok (default 0 (l !! p)) f' /\ file_r f' l (if decide (p < length l)%nat then S p else p).
Proof.
  intros Hf. unfold qemu_get_byte. rewrite bind_get.
  assert (exists f1, (if buf_size f <=? buf_index f then qemu_fill_buffer else ret tt) f = Ok tt f1 /\ file_r f1 l p /\
    (buf_index f1 < buf_size f1 <-> (p < length l)%nat)) as (f1 & E & Hf1 & Hx).
  { pose proof (fr_index _ _ _ Hf). destruct (Z.leb_spec (buf_size f) (buf_index f)).
    - destruct (fill_buffer_ok f l p Hf) as (f1 & E & Hf1 & Ei & Es); [lia|]. exists f1. split; [done|]. split; [done|]. unfold IO_BUF_SIZE in *. lia.
    - exists f. split; [done|]. split; [done|]. pose proof (buffered f l p 1 Hf ltac:(lia)) as [_ ?]. lia. }
  rewrite (bind_ok _ _ _ _ _ E), bind_get. case_decide as Hd.
  - destruct (Z.leb_spec (buf_size f1) (buf_index f1)); [lia|]. destruct (buffered f1 l p 1 Hf1) as [Ea _]; [lia|].
    destruct (lookup_lt_is_Some_2 l p Hd) as [x Hxx]. rewrite (drop_S l x p Hxx) in Ea. cbn [take] in Ea.
    assert (aget (buf f1) (buf_index f1) = Some x) as Eg.
    { unfold aread in Ea. case_decide as Hr; [|done]. unfold aget. rewrite decide_True by lia.
      rewrite <- (Nat.add_0_r (Z.to_nat (buf_index f1))), <- lookup_drop.
      injection Ea as Ea. destruct (drop (Z.to_nat (buf_index f1)) (buf f1)); cbn in *; congruence. }
    msome Eg. msteps. unfold ret. rewrite Hxx. eexists. split; [reflexivity|].
    replace (S p) with (p + Z.to_nat 1)%nat by lia. apply advance; try done; lia.
  - destruct (Z.leb_spec (buf_size f1) (buf_index f1)); [|lia]. exists f1. split; [|done].
    unfold ret. by rewrite lookup_ge_None_2 by lia.
Qed.

Lemma get_loop_ok n : forall f l p size, file_r f l p -> (Z.to_nat size <= n)%nat -> exists f',
  get_loop n size f = Ok (take (Z.to_nat size) (drop p l)) f' /\
  file_r f' l (p + length (take (Z.to_nat size) (drop p l))).
Proof.
  induction n as [|n IH]; intros f l p size Hf Hn; cbn [get_loop]; destruct (Z.leb_spec size 0) as [Hz|Hz]; try lia.
  1, 2: exists f; split; [by rewrite Z2Nat.nonpos by lia|]; rewrite Z2Nat.nonpos by lia; by rewrite Nat.add_0_r.
  rewrite bind_get.
  assert (exists f1, (if buf_size f - buf_index f =? 0 then qemu_fill_buffer else ret tt) f = Ok tt f1 /\ file_r f1 l p /\
    (buf_index f1 = buf_size f1 -> (length l <= p)%nat)) as (f1 & E & Hf1 & Hx).
  { pose proof (fr_index _ _ _ Hf). destruct (Z.eqb_spec (buf_size f - buf_index f) 0).
    - destruct (fill_buffer_ok f l p Hf) as (f1 & E & Hf1 & Ei & Es); [lia|]. exists f1. split; [done|]. split; [done|]. unfold IO_BUF_SIZE in *. lia.
    - exists f. split; [done|]. split; [done|]. lia. }
  rewrite (bind_ok _ _ _ _ _ E), bind_get. pose proof (fr_index _ _ _ Hf1). cbv zeta.
  destruct (Z.eqb_spec (buf_size f1 - buf_index f1) 0) as [H0|H0].
  { exists f1. rewrite drop_ge, take_nil by (apply Hx; lia). split; [done|]. by rewrite Nat.add_0_r. }
  set (k := if size <? buf_size f1 - buf_index f1 then size else buf_size f1 - buf_index f1).
  assert (0 < k <= size /\ buf_index f1 + k <= buf_size f1) as [Hk1 Hk2] by (unfold k; destruct (Z.ltb_spec size (buf_size f1 - buf_index f1)); lia).
  destruct (buffered f1 l p (Z.to_nat k) Hf1) as [Ea Hpl]; [lia|]. msome Ea. msteps.
  pose proof (advance f1 l p k Hf1 ltac:(lia) Hk2) as Hf2.
  destruct (IH _ _ _ (size - k) Hf2) as (f3 & E3 & Hf3); [lia|]. rewrite (bind_ok _ _ _ _ _ E3).
  assert (take (Z.to_nat k) (drop p l) ++ take (Z.to_nat (size - k)) (drop (p + Z.to_nat k) l) = take (Z.to_nat size) (drop p l)) as Et.
  { rewrite <- drop_drop, take_take_drop. f_equal. lia. }
  exists f3. unfold ret. rewrite <- Et. split; [done|]. rewrite length_app, (length_take_le (drop p l)) by (rewrite length_drop; lia).
  by rewrite Nat.add_assoc.
Qed.

(** A step that reads some bytes, when they come next, and gives a value. *)
Definition reads {A} (m : QF A) (bs : list Z) (a : A) : Prop :=
  forall f l p, file_r f l p -> take (length bs) (drop p l) = bs -> exists f', m f = Ok a f' /\ file_r f' l (p + length bs).

Lemma reads_ret {A} (a : A) : reads (ret a) [] a.
Proof. intros f l p Hf _. exists f. split; [done|]. by rewrite Nat.add_0_r. Qed.
Lemma reads_bind {A B} (m : QF A) (k : A -> QF B) b1 b2 a b : reads m b1 a -> reads (k a) b2 b -> reads (x <- m ;; k x) (b1 ++ b2) b.
Proof.
  intros H1 H2 f l p Hf Hl. rewrite length_app in Hl |- *.
  assert (take (length b1) (drop p l) = b1 /\ take (length b2) (drop (p + length b1) l) = b2) as [L1 L2].
  { rewrite <- take_take_drop, drop_drop in Hl. apply app_inj_1 in Hl as [? ?]; [done|].
    apply (f_equal length) in Hl. rewrite !length_app, !length_take, !length_drop in *. lia. }
  destruct (H1 f l p Hf L1) as (f1 & E1 & Hf1). destruct (H2 f1 l _ Hf1 L2) as (f2 & E2 & Hf2).
  exists f2. rewrite (bind_ok _ _ _ _ _ E1), Nat.add_assoc. done.
Qed.

Lemma get_byte_reads v : reads qemu_get_byte [v] v.
Proof.
  intros f l p Hf Hl. destruct (get_byte_ok f l p Hf) as (f' & E & Hf').
  destruct (l !! p) as [x|] eqn:Ex.
  - rewrite (drop_S l x p Ex) in Hl. injection Hl as ->. pose proof (lookup_lt_Some _ _ _ Ex).
    rewrite decide_True in Hf' by done. exists f'. split; [done|]. cbn [length]. by rewrite Nat.add_1_r.
  - apply lookup_ge_None in Ex. rewrite drop_ge in Hl by done. done.
Qed.
Lemma get_buffer_reads bs : reads (qemu_get_buffer (Z.of_nat (length bs))) bs bs.
Proof.
  intros f l p Hf Hl. unfold qemu_get_buffer. destruct (get_loop_ok (Z.to_nat (Z.of_nat (length bs))) f l p (Z.of_nat (length bs)) Hf) as (f' & E & Hf'); [done|].
  exists f'. by rewrite Nat2Z.id, Hl in *.
Qed.

Lemma ftell_r f l p : file_r f l p -> qemu_ftell f = Ok (Z.of_nat p) f.
Proof. intros []. unfold qemu_ftell. rewrite bind_get. unfold ret. f_equal. lia. Qed.
Lemma fseek_r f l p q : file_r f l p -> exists f', qemu_fseek (Z.of_nat q) f = Ok (Z.of_nat q) f' /\ file_r f' l q.
Proof.
  intros [Hw <- Hb Hi Hs Ho Hp Hh]. unfold qemu_fseek. rewrite bind_get, Hw. unfold put, bind, ret. eexists. split; [reflexivity|].
  split; cbn; try done; lia.
Qed.

(** ** Values *)

(** The bytes of a number, highest first. *)
Definition be32 (v : Z) : list Z := [u8 (Z.shiftr v 24); u8 (Z.shiftr v 16); u8 (Z.shiftr v 8); u8 v].

Lemma writes_step m1 m2 x b2 : writes m1 [x] -> writes m2 b2 -> writes (m1 ;;; m2) (x :: b2).
Proof. apply writes_seq. Qed.
Lemma put_be32_writes v : writes (qemu_put_be32 v) (be32 v).
Proof. repeat (apply writes_step; [apply put_byte_writes|]). apply put_byte_writes. Qed.
Lemma put_be64_writes v : writes (qemu_put_be64 v) (be32 (Z.shiftr v 32) ++ be32 v).
Proof. apply writes_seq; apply put_be32_writes. Qed.

Lemma lor_bytes a b n : 0 <= n -> 0 <= b < 2 ^ n -> Z.lor (Z.shiftl a n) b = a * 2 ^ n + b.
Proof. apply lor_shiftl_add. Qed.
Lemma be32_value v :
  Z.lor (Z.lor (Z.lor (Z.shiftl (u8 (Z.shiftr v 24)) 24) (Z.shiftl (u8 (Z.shiftr v 16)) 16)) (Z.shiftl (u8 (Z.shiftr v 8)) 8)) (u8 v) = u32 v.
Proof.
  pose proof (u8_range (Z.shiftr v 24)). pose proof (u8_range (Z.shiftr v 16)). pose proof (u8_range (Z.shiftr v 8)).
  pose proof (u8_range v). unfold is_u8 in *. rewrite <- !Z.lor_assoc.
  rewrite (lor_bytes _ (u8 v) 8), (lor_bytes _ _ 16), (lor_bytes _ _ 24) by lia.
  rewrite !Z.shiftr_div_pow2 by lia. int_lia.
Qed.

Lemma reads_step {A B} (m : QF A) (k : A -> QF B) x b2 a b : reads m [x] a -> reads (k a) b2 b -> reads (v <- m ;; k v) (x :: b2) b.
Proof. apply (reads_bind m k [x]). Qed.
Lemma reads_done {A B} (m : QF A) (g : A -> B) bs a : reads m bs a -> reads (v <- m ;; ret (g v)) bs (g a).
Proof. intros H. rewrite <- (app_nil_r bs). apply (reads_bind m (fun v => ret (g v)) bs [] a); [done|apply reads_ret]. Qed.
Lemma reads_as {A B} (m : QF A) (g : A -> B) bs a b : reads m bs a -> g a = b -> reads (v <- m ;; ret (g v)) bs b.
Proof. intros H <-. by apply reads_done. Qed.
Lemma get_be32_reads v : reads qemu_get_be32 (be32 v) (u32 v).
Proof.
  unfold qemu_get_be32, be32. do 3 (eapply reads_step; [apply get_byte_reads|]). rewrite <- be32_value.
  apply (reads_done _ (fun d => Z.lor _ d)), get_byte_reads.
Qed.
Lemma get_be64_reads v : reads qemu_get_be64 (be32 (Z.shiftr v 32) ++ be32 v) (u64 v).
Proof.
  eapply reads_bind; [apply get_be32_reads|]. replace (u64 v) with (Z.lor (Z.shiftl (u32 (Z.shiftr v 32)) 32) (u32 v)).
  - apply (reads_done _ (fun d => Z.lor _ d)), get_be32_reads.
  - rewrite lor_bytes by (pose proof (u32_range v); unfold is_u32 in *; lia). rewrite Z.shiftr_div_pow2 by lia.
    unfold u64. int_lia.
Qed.

(** * What is saved is loaded *)

(** [put] writes [n] bytes from which [get] gives [a]. *)
Definition codec {A} (n : nat) (put : QF unit) (get : QF A) (a : A) : Prop :=
  exists bs, length bs = n /\ writes put bs /\ reads get bs a.

Lemma codec_bind {A B} n1 n2 p1 p2 (g1 : QF A) (g2 : A -> QF B) a b :
  codec n1 p1 g1 a -> codec n2 p2 (g2 a) b -> codec (n1 + n2) (p1 ;;; p2) (x <- g1 ;; g2 x) b.
Proof.
  intros (b1 & L1 & W1 & R1) (b2 & L2 & W2 & R2). exists (b1 ++ b2). rewrite length_app, L1, L2.
  split; [done|]. split; [by apply writes_seq|by eapply reads_bind].
Qed.
Lemma codec_ret {A} (a : A) : codec 0 (ret tt) (ret a) a.
Proof. exists []. split; [done|]. split; [apply writes_nil|apply reads_ret]. Qed.
Lemma codec_map {A B} n p (g : QF A) (h : A -> B) a : codec n p g a -> codec n p (x <- g ;; ret (h x)) (h a).
Proof. intros (bs & L & Hw & R). exists bs. split; [done|]. split; [done|by apply reads_done]. Qed.

Lemma codec_8s v : is_u8 v -> codec 1 (qemu_put_8s v) qemu_get_8s v.
Proof.
  intros Hv. exists [u8 v]. split; [done|]. split; [apply put_byte_writes|].
  eapply (reads_as _ u8); [apply get_byte_reads|]. by rewrite u8_u8, u8_small.
Qed.
Lemma codec_be16 v : is_u16 v -> codec 2 (qemu_put_be16 v) qemu_get_be16 v.
Proof.
  intros Hv. exists [u8 (Z.shiftr v 8); u8 v]. split; [done|].
  split; [apply writes_step; apply put_byte_writes|]. eapply reads_step; [apply get_byte_reads|].
  eapply (reads_as _ (fun d => Z.lor _ d)); [apply get_byte_reads|].
  rewrite lor_bytes by (pose proof (u8_range v); unfold is_u8 in *; lia). rewrite Z.shiftr_div_pow2 by lia. int_lia.
Qed.
Lemma codec_be32 v : is_u32 v -> codec 4 (qemu_put_be32 v) qemu_get_be32 v.
Proof.
  intros Hv. exists (be32 v). split; [done|]. split; [apply put_be32_writes|].
  rewrite <- (u32_small v Hv) at 2. apply get_be32_reads.
Qed.
Lemma codec_int32 v : is_s32 v -> codec 4 (qemu_put_be32 v) qemu_get_int32 v.
Proof.
  intros Hv. exists (be32 v). split; [done|]. split; [apply put_be32_writes|].
  eapply (reads_as _ s32); [apply get_be32_reads|]. by rewrite s32_u32, s32_small.
Qed.
Definition is_s64 (z : Z) : Prop := - 2 ^ 63 <= z < 2 ^ 63.
Lemma s64_u64 v : is_s64 v -> s64 (u64 v) = v.
Proof. unfold is_s64, s64, u64. intros. Z.div_mod_to_equations. lia. Qed.
Lemma codec_int64 v : is_s64 v -> codec 8 (qemu_put_be64 v) qemu_get_int64 v.
Proof.
  intros Hv. exists (be32 (Z.shiftr v 32) ++ be32 v). split; [done|]. split; [apply put_be64_writes|].
  eapply (reads_as _ s64); [apply get_be64_reads|by apply s64_u64].
Qed.
(** A timer that is not about to expire at the time -1. *)
Definition timer_ok (ts : option Z) : Prop := match ts with Some t => is_s64 t /\ t <> -1 | None => True end.
Lemma codec_timer ts : timer_ok ts -> codec 8 (qemu_put_timer ts) qemu_get_timer ts.
Proof.
  intros Hv. unfold qemu_put_timer. set (v := match ts with Some t => t | None => -1 end).
  exists (be32 (Z.shiftr v 32) ++ be32 v). split; [done|]. split; [apply put_be64_writes|].
  eapply (reads_as _ (fun t => if t =? u64 (-1) then None else Some (s64 t))); [apply get_be64_reads|].
  unfold v. destruct ts as [t|]; [|done]. destruct Hv as [Hs Hn]. cbv beta. rewrite s64_u64 by done.
  destruct (Z.eqb_spec (u64 t) (u64 (-1))) as [E|]; [|done]. exfalso. unfold is_s64, u64 in *. Z.div_mod_to_equations. lia.
Qed.
Lemma codec_buffer bs : codec (length bs) (qemu_put_buffer bs) (qemu_get_buffer (Z.of_nat (length bs))) bs.
Proof. exists bs. split; [done|]. split; [apply put_buffer_writes|apply get_buffer_reads]. Qed.

Lemma writes_inj m b1 b2 : writes m b1 -> writes m b2 -> b1 = b2.
Proof.
  intros H1 H2. destruct (H1 _ _ _ open_w) as (f1 & E1 & Hf1 & _). destruct (H2 _ _ _ open_w) as (f2 & E2 & Hf2 & _).
  rewrite E1 in E2. injection E2 as <-. pose proof (fw_bytes _ _ _ Hf1) as B1. rewrite <- (fw_bytes _ _ _ Hf2) in B1.
  rewrite !splice_in in B1 by (cbn; lia). cbn in B1. by rewrite !drop_nil, !app_nil_r in B1.
Qed.

Lemma read_known {A} (m : QF A) bs a rest f l p : reads m bs a -> file_r f l p -> drop p l = bs ++ rest ->
  exists f', m f = Ok a f' /\ file_r f' l (p + length bs) /\ drop (p + length bs) l = rest.
Proof.
  intros Hm Hf Hd. destruct (Hm f l p Hf) as (f' & E & Hf'); [by rewrite Hd, take_app_length|].
  exists f'. split; [done|]. split; [done|]. by rewrite <- drop_drop, Hd, drop_app_length.
Qed.
Lemma get_int32_reads v : is_s32 v -> reads qemu_get_int32 (be32 v) v.
Proof. intros Hv. eapply (reads_as _ s32); [apply get_be32_reads|]. by rewrite s32_u32, s32_small. Qed.

Lemma get_int64_reads v : is_s64 v -> reads qemu_get_int64 (be32 (Z.shiftr v 32) ++ be32 v) v.
Proof. intros Hv. eapply (reads_as _ s64); [apply get_be64_reads|by apply s64_u64]. Qed.

(** One step of reading a file whose next bytes are known. *)
Ltac read_next W :=
  match goal with Hf : file_r ?f ?l ?p, Hd : drop ?p ?l = _ |- _ =>
    let f' := fresh "f" in let E := fresh "E" in let H := fresh "H" in let D := fresh "D" in
    destruct (read_known _ _ _ _ f l p W Hf Hd) as (f' & E & H & D); rewrite (bind_ok _ _ _ _ _ E); clear Hf Hd E f;
    rename H into Hf; rename D into Hd; rename f' into f
  end.

Create HintDb saved.
#[export] Hint Resolve codec_8s codec_be16 codec_be32 codec_int32 codec_int64 codec_timer codec_buffer : saved.
(** Saving and loading field by field. *)
Ltac codec_step := first [apply codec_ret|apply codec_bind; [solve [eauto with saved]|cbv beta]|eapply codec_bind; [solve [eauto with saved]|cbv beta]].
