(* ===== verification/Savevm.v ===== *)
(** Saving and restoring a machine, src/sysvm/vl.c: the list of what is saved
    ([register_savevm]), the file with a record for each ([qemu_savevm_state]) and
    its loading ([qemu_loadvm_state]).  [W] is the machine. *)
From S2P Require Import Prelude QTimer QFile.

(** [SaveStateEntry]; [idstr] without its terminator.  Loading gives the handler's
    result and the machine. *)
Record SaveStateEntry (W : Type) := Se {
  idstr : list Z; instance_id : Z; version_id : Z; save_state : W -> QF unit; load_state : Z -> W -> QF (Z * W)
}.
Arguments Se {W}. Arguments idstr {W}. Arguments instance_id {W}. Arguments version_id {W}.
Arguments save_state {W}. Arguments load_state {W}.

(** [register_savevm(...)]: at the end of [first_se], with a name of at most 255
    bytes. *)
Definition register_savevm {W} (id : list Z) (instance version : Z) save load (first_se : list (SaveStateEntry W)) :=
  first_se ++ [Se (take 255 id) instance version save load].

Definition QEMU_VM_FILE_MAGIC : Z := 0x5145564d.
Definition QEMU_VM_FILE_VERSION : Z := 2.

Section Savevm.
Context {W : Type}.
Implicit Types (se : SaveStateEntry W) (es : list (SaveStateEntry W)).

(** One turn of the loop of [qemu_savevm_state]. *)
Definition save_entry (w : W) se : QF unit :=
  let len := Z.of_nat (length (idstr se)) in
  qemu_put_byte len ;;;
  qemu_put_buffer (idstr se) ;;;
  qemu_put_be32 (instance_id se) ;;;
  qemu_put_be32 (version_id se) ;;;
  len_pos <- qemu_ftell ;;
  qemu_put_be32 0 ;;;
  save_state se w ;;;
  cur_pos <- qemu_ftell ;;
  let len := s32 (cur_pos - len_pos - 4) in
  qemu_fseek len_pos ;;;
  qemu_put_be32 len ;;;
  qemu_fseek cur_pos ;;;
  ret tt.
Fixpoint save_entries (w : W) es : QF unit :=
  match es with [] => ret tt | se :: es => save_entry w se ;;; save_entries w es end.
(** [qemu_savevm_state(f)] *)
Definition qemu_savevm_state es (w : W) : QF Z :=
  qemu_put_be32 QEMU_VM_FILE_MAGIC ;;;
  qemu_put_be32 QEMU_VM_FILE_VERSION ;;;
  total_len_pos <- qemu_ftell ;;
  qemu_put_be64 0 ;;;
  save_entries w es ;;;
  cur_pos <- qemu_ftell ;;
  qemu_fseek total_len_pos ;;;
  qemu_put_be64 (cur_pos - total_len_pos - 8) ;;;
  qemu_fseek cur_pos ;;;
  ret 0.

(** The string in an array: up to the first 0. *)
Fixpoint c_string (l : list Z) : list Z :=
  match l with [] => [] | x :: l => if x =? 0 then [] else x :: c_string l end.
(** [find_se(idstr, instance_id)] *)
Fixpoint find_se (id : list Z) (instance : Z) es : option (SaveStateEntry W) :=
  match es with
  | [] => None
  | se :: es => if bool_decide (idstr se = id) && (instance =? instance_id se) then Some se else find_se id instance es
  end.

(** The loop of [qemu_loadvm_state]; [id] is the array [idstr[256]], which holds
    anything at first. *)
Fixpoint load_records (n : nat) es (end_pos : Z) (id : list Z) (w : W) : QF W :=
  pos <- qemu_ftell ;;
  if end_pos <=? pos then ret w else
  match n with
  | O => stop Diverged
  | S n =>
      len <- qemu_get_byte ;;
      bs <- qemu_get_buffer len ;;
      id <- of_option OutOfBounds (awrite id 0 bs) ;;
      id <- of_option OutOfBounds (aset id len 0) ;;
      instance <- qemu_get_int32 ;;
      version <- qemu_get_int32 ;;
      record_len <- qemu_get_int32 ;;
      cur_pos <- qemu_ftell ;;
      w <- (match find_se (c_string id) instance es with
            | None => ret w
            | Some se => r <- load_state se version w ;; ret (snd r)
            end) ;;
      qemu_fseek (cur_pos + record_len) ;;;
      load_records n es end_pos id w
  end.
(** [qemu_loadvm_state(f)] *)
Definition qemu_loadvm_state (n : nat) es (id : list Z) (w : W) : QF (Z * W) :=
  v <- qemu_get_be32 ;;
  if negb (v =? QEMU_VM_FILE_MAGIC) then ret (-1, w) else
  v <- qemu_get_be32 ;;
  if negb (v =? QEMU_VM_FILE_VERSION) then ret (-1, w) else
  total_len <- qemu_get_int64 ;;
  pos <- qemu_ftell ;;
  w <- load_records n es (total_len + pos) id w ;;
  ret (0, w).

(** * The file *)

(** A step that adds bytes at the end. *)
Definition appends (m : QF unit) (bs : list Z) : Prop :=
  forall f l, file_w f l (length l) -> exists f', m f = Ok tt f' /\ file_w f' (l ++ bs) (length (l ++ bs)).

Lemma writes_appends m bs : writes m bs -> appends m bs.
Proof. intros H f l Hf. destruct (H f l _ Hf) as (f' & E & Hf'). exists f'. by rewrite splice_end, <- length_app in Hf'. Qed.
Lemma appends_nil : appends (ret tt) [].
Proof. apply writes_appends, writes_nil. Qed.
Lemma appends_seq m1 m2 b1 b2 : appends m1 b1 -> appends m2 b2 -> appends (m1 ;;; m2) (b1 ++ b2).
Proof.
  intros H1 H2 f l Hf. destruct (H1 f l Hf) as (f1 & E1 & Hf1). destruct (H2 f1 _ Hf1) as (f2 & E2 & Hf2).
  exists f2. rewrite (bind_ok _ _ _ _ _ E1), app_assoc. done.
Qed.

(** Steps with a length before them that is filled in afterwards. *)
Lemma appends_framed {B} m (back : Z -> Z -> QF unit) (z lb : list Z) bs (k : QF B) f l :
  appends m bs -> writes (back (Z.of_nat (length l)) (Z.of_nat (length l + length z + length bs))) lb -> length lb = length z ->
  file_w f (l ++ z) (length (l ++ z)) ->
  exists f', (m ;;; cur_pos <- qemu_ftell ;; qemu_fseek (Z.of_nat (length l)) ;;; back (Z.of_nat (length l)) cur_pos ;;;
     qemu_fseek cur_pos ;;; k) f = k f' /\ file_w f' (l ++ lb ++ bs) (length (l ++ lb ++ bs)).
Proof.
  intros Hm Hb Hz Hf. destruct (Hm f _ Hf) as (f1 & E1 & Hf1). rewrite (bind_ok _ _ _ _ _ E1).
  rewrite (bind_ok _ _ _ _ _ (ftell_w _ _ _ (proj1 Hf1))).
  destruct (fseek_w f1 _ _ (length l) Hf1) as (f2 & E2 & Hf2); [rewrite !length_app; lia|]. rewrite (bind_ok _ _ _ _ _ E2).
  assert (length ((l ++ z) ++ bs) = (length l + length z + length bs)%nat) as El by (rewrite !length_app; lia).
  rewrite El. destruct (Hb f2 _ _ Hf2) as (f3 & E3 & Hf3). rewrite (bind_ok _ _ _ _ _ E3).
  assert (splice ((l ++ z) ++ bs) (length l) lb = l ++ lb ++ bs) as Es.
  { rewrite splice_in by (rewrite !length_app; lia). rewrite <- app_assoc, take_app_length, drop_app_ge by lia. f_equal. f_equal.
    rewrite Hz. replace (length l + length z - length l)%nat with (length z) by lia. by rewrite drop_app_length. }
  rewrite Es in Hf3. destruct (fseek_w f3 _ _ (length l + length z + length bs) Hf3) as (f4 & E4 & Hf4); [rewrite !length_app; lia|].
  rewrite (bind_ok _ _ _ _ _ E4). exists f4. split; [done|]. by rewrite !length_app, Hz, Nat.add_assoc in *.
Qed.

(** The record of an entry whose handler writes [bs]. *)
Definition record se (bs : list Z) : list Z :=
  [u8 (Z.of_nat (length (idstr se)))] ++ idstr se ++ be32 (instance_id se) ++ be32 (version_id se) ++
  be32 (s32 (Z.of_nat (length bs))) ++ bs.
Definition vm_file (records : list Z) : list Z :=
  be32 QEMU_VM_FILE_MAGIC ++ be32 QEMU_VM_FILE_VERSION ++
  (be32 (Z.shiftr (Z.of_nat (length records)) 32) ++ be32 (Z.of_nat (length records))) ++ records.

Ltac app_step W :=
  match goal with Hf : file_w ?f ?l _ |- _ =>
    let f' := fresh "f" in let E := fresh "E" in let H := fresh "H" in
    destruct (writes_appends _ _ W f l Hf) as (f' & E & H); rewrite (bind_ok _ _ _ _ _ E); clear Hf E f; rename H into Hf; rename f' into f
  end.

Lemma save_entry_appends w se bs : writes (save_state se w) bs -> appends (save_entry w se) (record se bs).
Proof.
  intros Hs f l Hf. unfold save_entry. cbv zeta.
  app_step (put_byte_writes (Z.of_nat (length (idstr se)))). app_step (put_buffer_writes (idstr se)).
  app_step (put_be32_writes (instance_id se)). app_step (put_be32_writes (version_id se)).
  match type of Hf with file_w _ ?h _ => remember h as lh eqn:Eh end. rewrite <- !app_assoc in Eh.
  rewrite (bind_ok _ _ _ _ _ (ftell_w _ _ _ (proj1 Hf))). app_step (put_be32_writes 0).
  edestruct (appends_framed (save_state se w) (fun lp cur => qemu_put_be32 (s32 (cur - lp - 4))) (be32 0)
    (be32 (s32 (Z.of_nat (length bs)))) bs (ret tt) f lh) as (f3 & E3 & Hf3);
    [by apply writes_appends| |done|exact Hf|].
  { cbv beta. match goal with |- writes (qemu_put_be32 (s32 ?x)) _ => replace x with (Z.of_nat (length bs)) by (cbn; lia) end.
    apply put_be32_writes. }
  exists f3. split; [exact E3|]. unfold record. subst lh. by rewrite <- !app_assoc in Hf3.
Qed.

Fixpoint records es (bss : list (list Z)) : list Z :=
  match es, bss with se :: es, bs :: bss => record se bs ++ records es bss | _, _ => [] end.

Lemma save_entries_appends w es bss :
  Forall2 (fun se bs => writes (save_state se w) bs) es bss -> appends (save_entries w es) (records es bss).
Proof.
  induction 1 as [|se bs es bss Hs _ IH]; cbn [save_entries records]; [apply appends_nil|].
  apply appends_seq; [by apply save_entry_appends|done].
Qed.

(** The file that [qemu_savevm_state] leaves. *)
Lemma savevm_file es w bss :
  Forall2 (fun se bs => writes (save_state se w) bs) es bss ->
  exists f, (qemu_savevm_state es w ;;; qemu_fclose) (qemu_fopen [] true) = Ok (vm_file (records es bss)) f.
Proof.
  intros Hs. pose proof open_w as Hf. remember (qemu_fopen [] true) as f eqn:Ef. clear Ef.
  change 0%nat with (length (A := Z) []) in Hf. unfold qemu_savevm_state. rewrite !bind_assoc.
  app_step (put_be32_writes QEMU_VM_FILE_MAGIC). rewrite bind_assoc.
  app_step (put_be32_writes QEMU_VM_FILE_VERSION). rewrite bind_assoc.
  match type of Hf with file_w _ ?h _ => remember h as lh eqn:Eh end.
  rewrite (bind_ok _ _ _ _ _ (ftell_w _ _ _ (proj1 Hf))). rewrite bind_assoc. app_step (put_be64_writes 0).
  set (rs := records es bss).
  edestruct (appends_framed (save_entries w es) (fun lp cur => qemu_put_be64 (cur - lp - 8)) (be32 (Z.shiftr 0 32) ++ be32 0)
    (be32 (Z.shiftr (Z.of_nat (length rs)) 32) ++ be32 (Z.of_nat (length rs))) rs (ret 0) f lh) as (f4 & E4 & Hf4);
    [by apply save_entries_appends| |done|exact Hf|].
  { cbv beta. match goal with |- writes (qemu_put_be64 ?x) _ => replace x with (Z.of_nat (length rs)) by (cbn; lia) end.
    apply put_be64_writes. }
  rewrite (bind_ok _ _ _ _ _ E4). unfold qemu_fclose. rewrite bind_get, (fw_writable _ _ _ (proj1 Hf4)).
  destruct (flush_ok _ _ _ (proj1 Hf4)) as (f5 & E5 & _ & Eo & _). rewrite (bind_ok _ _ _ _ _ E5), bind_get.
  eexists. unfold ret. rewrite Eo, Eh. unfold vm_file. rewrite <- !app_assoc. reflexivity.
Qed.

(** * Loading what was saved *)

(** An entry whose handlers agree: loading what was saved of [w] into [w0] gives
    [put w w0], for machines that are alike. *)
Definition restores (alike : W -> W -> Prop) (e : SaveStateEntry W * (W -> W -> W)) : Prop :=
  forall w w0, alike w w0 -> alike w (snd e w w0) /\ exists n, Z.of_nat n < 2 ^ 31 /\
    codec n (save_state (fst e) w) (load_state (fst e) (version_id (fst e)) w0) (0, snd e w w0).
Record named se : Prop := Named {
  n_len : (length (idstr se) <= 255)%nat;
  n_bytes : Forall (fun x => is_u8 x /\ x <> 0) (idstr se);
  n_instance : is_s32 (instance_id se);
  n_version : is_s32 (version_id se)
}.

(** What the loader relies on of a record. *)
Definition loads (alike : W -> W -> Prop) (w : W) (e : SaveStateEntry W * (W -> W -> W)) (bs : list Z) : Prop :=
  named (fst e) /\ Z.of_nat (length bs) < 2 ^ 31 /\
  forall w1, alike w w1 -> alike w (snd e w w1) /\ reads (load_state (fst e) (version_id (fst e)) w1) bs (0, snd e w w1).

Lemma restores_bytes alike e w w0 : restores alike e -> named (fst e) -> alike w w0 ->
  exists bs, writes (save_state (fst e) w) bs /\ loads alike w e bs.
Proof.
  intros He Hn Hw. destruct (He w w0 Hw) as (_ & n & Hb & bs & Hl & Hs & _). exists bs. split; [done|]. split; [done|]. split; [lia|].
  intros w1 H1. destruct (He w w1 H1) as (Ha & n' & _ & bs' & _ & Hs' & Hr'). split; [done|]. by rewrite (writes_inj _ _ _ Hs Hs').
Qed.

Lemma c_string_zero l r : Forall (fun x => is_u8 x /\ x <> 0) l -> c_string (l ++ 0 :: r) = l.
Proof. induction 1 as [|x l [_ Hx] _ IH]; [done|]. cbn. destruct (Z.eqb_spec x 0); [done|]. by rewrite IH. Qed.

Definition key se : list Z * Z := (idstr se, instance_id se).
Lemma find_se_none es se : key se ∉ map key es -> find_se (idstr se) (instance_id se) es = None.
Proof.
  induction es as [|x es IH]; [done|]. cbn. intros [Hx Hn]%not_elem_of_cons. rewrite IH by done.
  unfold key in Hx. case_bool_decide as E; [|done]. destruct (Z.eqb_spec (instance_id se) (instance_id x)) as [E2|]; [|done].
  destruct Hx. by rewrite E, E2.
Qed.
Implicit Types (known : SaveStateEntry W * (W -> W -> W) -> bool).
(** The entries that the loading machine has. *)
Definition present known (es : list (SaveStateEntry W * (W -> W -> W))) := map fst (List.filter known es).
Lemma present_keys known (es : list (SaveStateEntry W * (W -> W -> W))) x : x ∈ map key (present known es) -> x ∈ map key (map fst es).
Proof.
  unfold present. intros Hx. apply list_elem_of_In, in_map_iff in Hx as (se & <- & Hin).
  apply in_map_iff in Hin as (e & <- & [Hin _]%filter_In). apply list_elem_of_In, in_map, in_map, Hin.
Qed.
Lemma find_se_here known (es : list (SaveStateEntry W * (W -> W -> W))) e : NoDup (map key (map fst es)) -> e ∈ es ->
  find_se (idstr (fst e)) (instance_id (fst e)) (present known es) = if known e then Some (fst e) else None.
Proof.
  induction es as [|x es IH]; intros Hn He; [by apply elem_of_nil in He|]. cbn in Hn. apply NoDup_cons in Hn as [Hx Hn].
  unfold present in *. cbn [List.filter]. apply elem_of_cons in He as [->|He].
  - assert (find_se (idstr (fst x)) (instance_id (fst x)) (map fst (List.filter known es)) = None) as Ez.
    { apply find_se_none. intros H. by apply Hx, (present_keys known). }
    destruct (known x); [|done]. cbn. by rewrite bool_decide_true, Z.eqb_refl.
  - destruct (known x); [|by apply IH]. cbn. case_bool_decide as E; [|by apply IH].
    destruct (Z.eqb_spec (instance_id (fst e)) (instance_id (fst x))) as [E2|]; [|by apply IH]. destruct Hx.
    replace (key (fst x)) with (key (fst e)) by (unfold key; by rewrite E, E2).
    apply list_elem_of_In, in_map, in_map, list_elem_of_In, He.
Qed.

Definition restored (w : W) known (w0 : W) e := if known e then snd e w w0 else w0.
Arguments restored : clear implicits.
Lemma load_records_ok alike known w (es0 es : list (SaveStateEntry W * (W -> W -> W))) bss : NoDup (map key (map fst es0)) ->
  Forall2 (fun e bs => e ∈ es0 /\ loads alike w e bs) es bss ->
  forall n f l p id w0, alike w w0 -> (length es <= n)%nat -> length id = 256%nat -> file_r f l p -> (p <= length l)%nat ->
    drop p l = records (map fst es) bss ->
    exists f', load_records n (present known es0) (Z.of_nat (length l)) id w0 f =
      Ok (fold_left (restored w known) es w0) f'.
Proof.
  intros Hnd. induction 1 as [|e bs es bss (Hin & [Hl Hb Hi Hv] & Hn & Hr) _ IH]; intros n f l p id w0 Hal Hlen Hid Hf Hp Hd.
  { cbn in Hd. assert (p = length l) as -> by (apply (f_equal length) in Hd; rewrite length_drop in Hd; cbn in Hd; lia).
    exists f. destruct n; cbn [load_records]; rewrite (bind_ok _ _ _ _ _ (ftell_r _ _ _ Hf)), Z.leb_refl; done. }
  destruct n as [|n]; [cbn in Hlen; lia|]. cbn [load_records]. rewrite (bind_ok _ _ _ _ _ (ftell_r _ _ _ Hf)).
  cbn [map records] in Hd. unfold record in Hd. rewrite <- !app_assoc in Hd. pose proof Hd as Hdp.
  destruct (Z.leb_spec (Z.of_nat (length l)) (Z.of_nat p)) as [Hpl|_].
  { rewrite drop_ge in Hd by lia. done. }
  rewrite u8_small in Hd by (unfold is_u8; lia). read_next (get_byte_reads (Z.of_nat (length (idstr (fst e))))).
  read_next (get_buffer_reads (idstr (fst e))).
  destruct (awrite_Some id 0 (idstr (fst e))) as [id1 E1]; [lia..|]. rewrite (bind_some _ _ _ _ _ E1).
  pose proof (length_awrite _ _ _ _ E1) as L1. set (k := Z.of_nat (length (idstr (fst e)))).
  assert (aset id1 k 0 = Some (<[Z.to_nat k:=0]> id1)) as E2 by (apply aset_Some; lia). rewrite (bind_some _ _ _ _ _ E2).
  read_next (get_int32_reads _ Hi). read_next (get_int32_reads _ Hv).
  rewrite s32_small in Hd by (unfold is_s32; lia). read_next (get_int32_reads (Z.of_nat (length bs)) ltac:(unfold is_s32; lia)).
  rewrite (bind_ok _ _ _ _ _ (ftell_r _ _ _ Hf)).
  assert (c_string (<[Z.to_nat k:=0]> id1) = idstr (fst e)) as ->.
  { unfold k. rewrite Nat2Z.id, insert_take_drop by lia. rewrite (awrite_head _ _ _ E1). by apply c_string_zero. }
  rewrite (find_se_here known es0 e Hnd Hin).
  match type of Hf with file_r _ _ ?q => set (p1 := q) in * end.
  assert (forall B (rest : W -> QF B), exists f1 p2, (w1 <- (match (if known e then Some (fst e) else None) with
      | None => ret w0 | Some se => r <- load_state se (version_id (fst e)) w0 ;; ret (snd r) end) ;; rest w1) f = rest (restored w known w0 e) f1 /\
    file_r f1 l p2) as Hstep.
  { intros B rest. unfold restored. destruct (known e); [|by exists f, p1].
    destruct (read_known _ _ _ _ _ _ _ (proj2 (Hr w0 Hal)) Hf Hd) as (f1 & E & Hf1 & _). exists f1, (p1 + length bs)%nat.
    split; [|done]. by rewrite bind_assoc, (bind_ok _ _ _ _ _ E). }
  match goal with |- exists _, bind _ ?r f = _ => destruct (Hstep _ r) as (f1 & p2 & E & Hf1) end. rewrite E. clear E Hstep.
  rewrite <- Nat2Z.inj_add. destruct (fseek_r _ _ _ (p1 + length bs) Hf1) as (f2 & E3 & Hf2).
  rewrite (bind_ok _ _ _ _ _ E3). cbn [fold_left].
  assert (p1 <= length l)%nat as Hp1.
  { unfold p1. apply (f_equal length) in Hdp. rewrite length_drop in Hdp. rewrite !length_app in Hdp. cbn [length be32] in *. lia. }
  pose proof (f_equal length Hd) as Hdl. rewrite length_drop, length_app in Hdl.
  apply (IH n f2 l (p1 + length bs)%nat); [unfold restored; destruct (known e); [by apply Hr|done]|cbn in Hlen; lia|rewrite length_insert; lia|done|lia|].
  by rewrite <- drop_drop, Hd, drop_app_length.
Qed.

(** Saving to an empty file, closing it and loading it again. *)
Definition save_and_load (n : nat) es es' (id : list Z) (w w0 : W) : option (Z * W) :=
  match (qemu_savevm_state es w ;;; qemu_fclose) (qemu_fopen [] true) with
  | Ok file _ => match qemu_loadvm_state n es' id w0 (qemu_fopen file false) with Ok r _ => Some r | Err _ => None end
  | Err _ => None
  end.

Lemma restores_all alike w w0 (es : list (SaveStateEntry W * (W -> W -> W))) :
  Forall (fun e => restores alike e /\ named (fst e)) es -> alike w w0 ->
  exists bss, Forall2 (fun se bs => writes (save_state se w) bs) (map fst es) bss /\
    Forall2 (fun e bs => e ∈ es /\ loads alike w e bs) es bss.
Proof.
  intros Hes Hw. induction Hes as [|e es [He Hn] _ (bss & H1 & H2)]; [by exists []; split|].
  destruct (restores_bytes alike e w w0 He Hn Hw) as (bs & Hs & Hr). exists (bs :: bss). split; constructor; try done.
  - split; [left|done].
  - eapply Forall2_impl; [exact H2|]. intros x b [Hx Hb]. split; [by right|done].
Qed.
Lemma length_records es bss : Forall2 (fun se bs => named se /\ Z.of_nat (length bs) < 2 ^ 31) es bss ->
  Z.of_nat (length (records es bss)) <= Z.of_nat (length es) * 2 ^ 32.
Proof.
  induction 1 as [|se bs es bss [[Hl _ _ _] Hn] _ IH]; [done|]. cbn [records length]. unfold record. rewrite !length_app.
  cbn [length be32]. lia.
Qed.
End Savevm.

(** What is saved is restored.  A machine saved with its registered entries, each
    with handlers that agree, and loaded into another: the file is read to its end,
    every entry that the loading machine has takes its state over, those it does
    not have are skipped, and the result is 0. *)
Theorem savevm_restores {W} (alike : W -> W -> Prop) known (es : list (SaveStateEntry W * (W -> W -> W))) n id w w0 :
  Forall (fun e => restores alike e /\ named (fst e)) es -> NoDup (map key (map fst es)) -> Z.of_nat (length es) < 2 ^ 30 ->
  alike w w0 -> (length es <= n)%nat -> length id = 256%nat ->
  save_and_load n (map fst es) (present known es) id w w0 = Some (0, fold_left (restored w known) es w0).
Proof.
  intros Hes Hnd Hlen Hw Hn Hid. destruct (restores_all alike w w0 es Hes Hw) as (bss & Hs & Hr). unfold save_and_load.
  destruct (savevm_file (map fst es) w bss Hs) as (f & ->). set (rs := records (map fst es) bss).
  assert (Z.of_nat (length rs) < 2 ^ 62) as Hrs.
  { unfold rs. assert (Forall2 (fun se bs => named se /\ Z.of_nat (length bs) < 2 ^ 31) (map fst es) bss) as Hf2.
    { clear -Hr. revert Hr. generalize es at 1. intros es0 Hr. induction Hr as [|? ? ? ? (_ & ? & ? & _) _ IH]; constructor; done. }
    pose proof (length_records _ _ Hf2) as Hb. rewrite length_map in Hb. lia. }
  pose proof (open_r (vm_file rs)) as Hf. remember (qemu_fopen (vm_file rs) false) as f0 eqn:E0. clear E0.
  assert (drop 0 (vm_file rs) = vm_file rs) as Hd by done. unfold vm_file at 2 in Hd. rewrite <- !app_assoc in Hd.
  unfold qemu_loadvm_state. read_next (get_be32_reads QEMU_VM_FILE_MAGIC). cbn [negb Z.eqb].
  rewrite u32_small, Z.eqb_refl by done. cbn [negb].
  read_next (get_be32_reads QEMU_VM_FILE_VERSION). rewrite u32_small, Z.eqb_refl by done. cbn [negb].
  rewrite app_assoc in Hd. read_next (get_int64_reads (Z.of_nat (length rs)) ltac:(unfold is_s64; lia)).
  rewrite (bind_ok _ _ _ _ _ (ftell_r _ _ _ Hf)).
  match type of Hf with file_r _ _ ?p => set (p1 := p) in * end.
  assert (length (vm_file rs) = (length rs + p1)%nat) as El by (unfold vm_file, p1; rewrite !length_app; cbn [length be32]; lia).
  rewrite <- Nat2Z.inj_add, <- El.
  destruct (load_records_ok alike known w es es bss Hnd Hr n f0 (vm_file rs) p1 id w0) as (f' & E); try done; [lia|].
  by rewrite (bind_ok _ _ _ _ _ E).
Qed.

(** * Other files *)

(** A file that does not begin with the magic number changes nothing. *)
Lemma loadvm_rejects {W} n (es : list (SaveStateEntry W)) id w l :
  (forall rest, l <> be32 QEMU_VM_FILE_MAGIC ++ rest) -> (4 <= length l)%nat -> Forall is_u8 l ->
  exists f, qemu_loadvm_state n es id w (qemu_fopen l false) = Ok (-1, w) f.
Proof.
  intros Hm Hl Hu. destruct l as [|a [|b [|c [|d l]]]]; cbn in Hl; try lia. inversion_clear Hu as [|? ? Ha Hu1].
  inversion_clear Hu1 as [|? ? Hb Hu2]. inversion_clear Hu2 as [|? ? Hc Hu3]. inversion_clear Hu3 as [|? ? Hd _].
  set (v := a * 2 ^ 24 + b * 2 ^ 16 + c * 2 ^ 8 + d).
  assert (be32 v = [a; b; c; d]) as Ev.
  { unfold be32, v. rewrite !Z.shiftr_div_pow2 by lia. unfold is_u8 in *. repeat f_equal; int_lia. }
  assert (is_u32 v) as Hv by (unfold v, is_u8, is_u32 in *; lia).
  destruct (read_known qemu_get_be32 _ _ l (qemu_fopen (a :: b :: c :: d :: l) false) (a :: b :: c :: d :: l) 0
    (get_be32_reads v) (open_r _)) as (f & E & _); [by rewrite Ev|].
  exists f. unfold qemu_loadvm_state. rewrite (bind_ok _ _ _ _ _ E), u32_small by done.
  destruct (Z.eqb_spec v QEMU_VM_FILE_MAGIC) as [E1|]; [|done]. destruct (Hm l). rewrite <- E1, Ev. done.
Qed.

(** A record may say that it is shorter than its own head: the loader comes back to
    it for ever. *)
Definition looping_file : list Z := vm_file ([0] ++ be32 0 ++ be32 0 ++ be32 (-13)).
Lemma loadvm_can_loop {W} n (es : list (SaveStateEntry W)) id w :
  find_se [] 0 es = None -> length id = 256%nat -> qemu_loadvm_state n es id w (qemu_fopen looping_file false) = Err Diverged.
Proof.
  intros Hes Hid. pose proof (open_r looping_file) as Hf. remember (qemu_fopen looping_file false) as f eqn:Ef. clear Ef.
  remember looping_file as l eqn:El. unfold looping_file, vm_file in El. set (rs := [0] ++ be32 0 ++ be32 0 ++ be32 (-13)) in *.
  assert (drop 0 l = l) as Hd by done. rewrite El in Hd at 2. unfold qemu_loadvm_state.
  read_next (get_be32_reads QEMU_VM_FILE_MAGIC). rewrite u32_small, Z.eqb_refl by done. cbn [negb].
  read_next (get_be32_reads QEMU_VM_FILE_VERSION). rewrite u32_small, Z.eqb_refl by done. cbn [negb].
  read_next (get_int64_reads (Z.of_nat (length rs)) ltac:(done)). rewrite (bind_ok _ _ _ _ _ (ftell_r _ _ _ Hf)).
  change (0 + length (be32 QEMU_VM_FILE_MAGIC) + length (be32 QEMU_VM_FILE_VERSION) + length (be32 (Z.shiftr (Z.of_nat (length rs)) 32) ++ be32 (Z.of_nat (length rs))))%nat with 16%nat in *.
  change (Z.of_nat (length rs) + Z.of_nat 16) with 29. clear El.
  assert (forall n f id, length id = 256%nat -> file_r f l 16 -> load_records n es 29 id w f = Err Diverged) as Hloop.
  { clear f Hf id Hid n. intros n. induction n as [|n IH]; intros f id Hid Hf; cbn [load_records]; rewrite (bind_ok _ _ _ _ _ (ftell_r _ _ _ Hf)); [done|].
    change (29 <=? Z.of_nat 16) with false. cbv iota. unfold rs in Hd. pose proof Hd as Hd0.
    read_next (get_byte_reads 0). read_next (get_buffer_reads []).
    destruct (awrite_Some id 0 []) as [id1 E1]; [done|cbn; lia|]. rewrite (bind_some _ _ _ _ _ E1).
    pose proof (length_awrite _ _ _ _ E1) as L1. assert (aset id1 0 0 = Some (<[0%nat := 0]> id1)) as E2 by (apply aset_Some; lia).
    rewrite (bind_some _ _ _ _ _ E2). read_next (get_int32_reads 0 ltac:(done)). read_next (get_int32_reads 0 ltac:(done)).
    rewrite <- (app_nil_r (be32 (-13))) in Hd. read_next (get_int32_reads (-13) ltac:(done)). rewrite (bind_ok _ _ _ _ _ (ftell_r _ _ _ Hf)).
    assert (c_string (<[0%nat := 0]> id1) = []) as -> by (destruct id1; [cbn in L1; lia|done]).
    rewrite Hes, bind_ret. destruct (fseek_r _ _ _ 16 Hf) as (f2 & E & Hf2). change (Z.of_nat _ + -13) with (Z.of_nat 16).
    rewrite (bind_ok _ _ _ _ _ E). apply IH; [rewrite length_insert; lia|done]. }
  unfold bind at 1. by rewrite Hloop.
Qed.
