(* ===== verification/Saved.v ===== *)
(** The saved states of the devices of the machine: the save and load handlers of
    src/sysvm/hw (i8259.c, i8254.c, mc146818rtc.c, dma.c, ps2.c, pckbd.c) and of the
    clock in vl.c, and the machine they make up. *)
From stdpp Require Import strings.
From S2P Require Import Prelude Time QTimer I8259 I8254 Rtc I8237 Ps2 Pckbd QFile Savevm.

Definition EINVAL : Z := 22.
(** A handler refuses a version it does not know. *)
Definition for_version {S} (versions : list Z) (version : Z) (s : S) (m : QF S) : QF (Z * S) :=
  if bool_decide (version ∈ versions) then s <- m ;; ret (0, s) else ret (- EINVAL, s).

(** An [int] that is a truth value. *)
Definition as_bool (v : Z) : bool := negb (v =? 0).

(** * The interrupt controllers *)

(** [pic_save(f, opaque)] and [pic_load(f, opaque, version_id)] *)
Definition pic_save (s : PicState) : QF unit :=
  qemu_put_8s (last_irr s) ;;; qemu_put_8s (irr s) ;;; qemu_put_8s (imr s) ;;; qemu_put_8s (isr s) ;;;
  qemu_put_8s (priority_add s) ;;; qemu_put_8s (irq_base s) ;;; qemu_put_8s (read_reg_select s) ;;;
  qemu_put_8s (poll s) ;;; qemu_put_8s (special_mask s) ;;; qemu_put_8s (init_state s) ;;;
  qemu_put_8s (auto_eoi s) ;;; qemu_put_8s (rotate_on_auto_eoi s) ;;;
  qemu_put_8s (special_fully_nested_mode s) ;;; qemu_put_8s (init4 s) ;;; qemu_put_8s (elcr s).
Definition pic_load (version_id : Z) (s : PicState) : QF (Z * PicState) :=
  for_version [1] version_id s (
    last_irr <- qemu_get_8s ;; irr <- qemu_get_8s ;; imr <- qemu_get_8s ;; isr <- qemu_get_8s ;;
    priority_add <- qemu_get_8s ;; irq_base <- qemu_get_8s ;; read_reg_select <- qemu_get_8s ;;
    poll <- qemu_get_8s ;; special_mask <- qemu_get_8s ;; init_state <- qemu_get_8s ;;
    auto_eoi <- qemu_get_8s ;; rotate_on_auto_eoi <- qemu_get_8s ;;
    special_fully_nested_mode <- qemu_get_8s ;; init4 <- qemu_get_8s ;; elcr <- qemu_get_8s ;;
    ret (MkPic last_irr irr imr isr priority_add irq_base read_reg_select poll special_mask init_state auto_eoi
           rotate_on_auto_eoi special_fully_nested_mode init4 elcr (elcr_mask s))).

(** * The interval timer *)

Definition channel_save (s : PITChannelState) : QF unit :=
  qemu_put_be32 (count s) ;;; qemu_put_be16 (latched_count s) ;;; qemu_put_8s (count_latched s) ;;;
  qemu_put_8s (status_latched s) ;;; qemu_put_8s (I8254.status s) ;;; qemu_put_8s (read_state s) ;;;
  qemu_put_8s (write_state s) ;;; qemu_put_8s (write_latch s) ;;; qemu_put_8s (rw_mode s) ;;;
  qemu_put_8s (I8254.mode s) ;;; qemu_put_8s (bcd s) ;;; qemu_put_8s (gate s) ;;;
  qemu_put_be64 (count_load_time s) ;;;
  if has_timer s then qemu_put_be64 (next_transition_time s) ;;; qemu_put_timer (irq_timer s) else ret tt.
Definition channel_load (s : PITChannelState) : QF PITChannelState :=
  count <- qemu_get_int32 ;; latched_count <- qemu_get_be16 ;; count_latched <- qemu_get_8s ;;
  status_latched <- qemu_get_8s ;; status <- qemu_get_8s ;; read_state <- qemu_get_8s ;;
  write_state <- qemu_get_8s ;; write_latch <- qemu_get_8s ;; rw_mode <- qemu_get_8s ;;
  mode <- qemu_get_8s ;; bcd <- qemu_get_8s ;; gate <- qemu_get_8s ;;
  count_load_time <- qemu_get_int64 ;;
  if has_timer s then
    next_transition_time <- qemu_get_int64 ;;
    irq_timer <- qemu_get_timer ;;
    ret (MkPitCh count latched_count count_latched status_latched status read_state write_state write_latch rw_mode
           mode bcd gate count_load_time next_transition_time true irq_timer)
  else
    ret (MkPitCh count latched_count count_latched status_latched status read_state write_state write_latch rw_mode
           mode bcd gate count_load_time (next_transition_time s) false (irq_timer s)).
(** The same on every element of an array. *)
Fixpoint save_all {S} (save : S -> QF unit) (l : list S) : QF unit :=
  match l with [] => ret tt | s :: l => save s ;;; save_all save l end.
Fixpoint load_all {S} (load : S -> QF S) (l : list S) : QF (list S) :=
  match l with [] => ret [] | s :: l => s <- load s ;; l <- load_all load l ;; ret (s :: l) end.
(** [pit_save] and [pit_load] *)
Definition pit_save (p : PITState) : QF unit := save_all channel_save (I8254.channels p).
Definition pit_load (version_id : Z) (p : PITState) : QF (Z * PITState) :=
  for_version [1] version_id p (
    l <- load_all channel_load (I8254.channels p) ;; ret (MkPit l (pit_clock p) (pit_irq p))).

(** * The real time clock *)

(** [rtc_save] and [rtc_load]; of [current_tm] seven fields. *)
Definition rtc_save (s : RTCState) : QF unit :=
  let t := current_tm s in
  qemu_put_buffer (cmos_data s) ;;; qemu_put_8s (cmos_index s) ;;;
  qemu_put_be32 (tm_sec t) ;;; qemu_put_be32 (tm_min t) ;;; qemu_put_be32 (tm_hour t) ;;; qemu_put_be32 (tm_wday t) ;;;
  qemu_put_be32 (tm_mday t) ;;; qemu_put_be32 (tm_mon t) ;;; qemu_put_be32 (tm_year t) ;;;
  qemu_put_timer (periodic_timer s) ;;; qemu_put_be64 (next_periodic_time s) ;;;
  qemu_put_be64 (next_second_time s) ;;; qemu_put_timer (second_timer s) ;;; qemu_put_timer (second_timer2 s).
Definition rtc_load (version_id : Z) (s : RTCState) : QF (Z * RTCState) :=
  for_version [1] version_id s (
    data <- qemu_get_buffer 128 ;;
    data <- of_option OutOfBounds (awrite (cmos_data s) 0 data) ;;
    index <- qemu_get_8s ;;
    sec <- qemu_get_int32 ;; min <- qemu_get_int32 ;; hour <- qemu_get_int32 ;; wday <- qemu_get_int32 ;;
    mday <- qemu_get_int32 ;; mon <- qemu_get_int32 ;; year <- qemu_get_int32 ;;
    periodic <- qemu_get_timer ;; next_periodic <- qemu_get_int64 ;; next_second <- qemu_get_int64 ;;
    second <- qemu_get_timer ;; second2 <- qemu_get_timer ;;
    ret (MkRtc data index (Tm sec min hour mday mon year wday (tm_yday (current_tm s)) (tm_isdst (current_tm s)))
           (rtc_irq s) periodic next_periodic next_second second second2 (rtc_clock s))).

(** * The DMA controllers *)

Definition regs_save (r : dma_regs) : QF unit :=
  qemu_put_be32 (now_addr r) ;;; qemu_put_be32 (now_count r) ;;; qemu_put_be16 (base_addr r) ;;;
  qemu_put_be16 (base_count r) ;;; qemu_put_8s (dr_mode r) ;;; qemu_put_8s (dr_page r) ;;; qemu_put_8s (dr_pageh r) ;;;
  qemu_put_8s (dr_dack r) ;;; qemu_put_8s (dr_eop r).
Definition regs_load (r : dma_regs) : QF dma_regs :=
  now_addr <- qemu_get_int32 ;; now_count <- qemu_get_int32 ;; base_addr <- qemu_get_be16 ;;
  base_count <- qemu_get_be16 ;; mode <- qemu_get_8s ;; page <- qemu_get_8s ;; pageh <- qemu_get_8s ;;
  dack <- qemu_get_8s ;; eop <- qemu_get_8s ;;
  ret (MkDmaRegs now_addr now_count base_addr base_count mode page pageh dack eop (transfer_handler r)).
(** [dma_save] and [dma_load]; the status register is left out. *)
Definition dma_save (d : dma_cont) : QF unit :=
  qemu_put_8s (dc_command d) ;;; qemu_put_8s (dc_mask d) ;;; qemu_put_8s (Z.b2z (flip_flop d)) ;;;
  qemu_put_be32 (dshift d) ;;; save_all regs_save (dc_regs d).
Definition dma_load (version_id : Z) (d : dma_cont) : QF (Z * dma_cont) :=
  for_version [1] version_id d (
    command <- qemu_get_8s ;; mask <- qemu_get_8s ;; ff <- qemu_get_8s ;; shift <- qemu_get_int32 ;;
    regs <- load_all regs_load (dc_regs d) ;;
    ret (MkDmaCont (dc_status d) command mask (as_bool ff) shift regs)).

(** * Keyboard, mouse and their controller *)

(** [ps2_common_save] and [ps2_common_load] *)
Definition ps2_common_save (s : PS2State) : QF unit :=
  qemu_put_be32 (write_cmd s) ;;; qemu_put_be32 (rptr (queue s)) ;;; qemu_put_be32 (wptr (queue s)) ;;;
  qemu_put_be32 (q_count (queue s)) ;;; qemu_put_buffer (q_data (queue s)).
Definition ps2_common_load (s : PS2State) : QF PS2State :=
  cmd <- qemu_get_int32 ;; rptr <- qemu_get_int32 ;; wptr <- qemu_get_int32 ;; count <- qemu_get_int32 ;;
  data <- qemu_get_buffer PS2_QUEUE_SIZE ;;
  data <- of_option OutOfBounds (awrite (q_data (queue s)) 0 data) ;;
  ret (MkPs2State (MkQueue data rptr wptr count) cmd).
(** [ps2_kbd_save], [ps2_kbd_load], [ps2_mouse_save], [ps2_mouse_load] *)
Definition ps2_kbd_save (s : PS2KbdState) : QF unit :=
  ps2_common_save (k_common s) ;;; qemu_put_be32 (Z.b2z (scan_enabled s)) ;;; qemu_put_be32 (Z.b2z (translate s)).
Definition ps2_kbd_load (version_id : Z) (s : PS2KbdState) : QF (Z * PS2KbdState) :=
  for_version [2] version_id s (
    common <- ps2_common_load (k_common s) ;; scan <- qemu_get_int32 ;; translate <- qemu_get_int32 ;;
    ret (MkKbd common (as_bool scan) (as_bool translate))).
Definition ps2_mouse_save (s : PS2MouseState) : QF unit :=
  ps2_common_save (m_common s) ;;; qemu_put_8s (mouse_status s) ;;; qemu_put_8s (mouse_resolution s) ;;;
  qemu_put_8s (mouse_sample_rate s) ;;; qemu_put_8s (Z.b2z (mouse_wrap s)) ;;; qemu_put_8s (mouse_type s) ;;;
  qemu_put_8s (mouse_detect_state s) ;;; qemu_put_be32 (mouse_dx s) ;;; qemu_put_be32 (mouse_dy s) ;;;
  qemu_put_be32 (mouse_dz s) ;;; qemu_put_8s (mouse_buttons s).
Definition ps2_mouse_load (version_id : Z) (s : PS2MouseState) : QF (Z * PS2MouseState) :=
  for_version [2] version_id s (
    common <- ps2_common_load (m_common s) ;; status <- qemu_get_8s ;; resolution <- qemu_get_8s ;;
    rate <- qemu_get_8s ;; wrap <- qemu_get_8s ;; type <- qemu_get_8s ;; detect <- qemu_get_8s ;;
    dx <- qemu_get_int32 ;; dy <- qemu_get_int32 ;; dz <- qemu_get_int32 ;; buttons <- qemu_get_8s ;;
    ret (MkMouse common status resolution rate (as_bool wrap) type detect dx dy dz buttons)).
(** [kbd_save] and [kbd_load] *)
Definition kbd_save (s : KBDState) : QF unit :=
  qemu_put_8s (c_write_cmd s) ;;; qemu_put_8s (c_stat s) ;;; qemu_put_8s (c_mode s) ;;; qemu_put_8s (c_pending s).
Definition kbd_load (version_id : Z) (s : KBDState) : QF (Z * KBDState) :=
  for_version [3] version_id s (
    cmd <- qemu_get_8s ;; status <- qemu_get_8s ;; mode <- qemu_get_8s ;; pending <- qemu_get_8s ;;
    ret (MkKbdState cmd status mode pending)).

(** * The clock *)

(** [cpu_ticks_offset], [ticks_per_sec], [cpu_clock_offset], [cpu_ticks_enabled] *)
Record ticks := Ticks { cpu_ticks_offset : Z; ticks_per_second : Z; cpu_clock_offset : Z; cpu_ticks_enabled : bool }.
(** [timer_save] ([hw_error] ends the emulator) and [timer_load] *)
Definition timer_save (t : ticks) : QF unit :=
  if cpu_ticks_enabled t then stop Panicked else
  qemu_put_be64 (cpu_ticks_offset t) ;;; qemu_put_be64 (ticks_per_second t) ;;; qemu_put_be64 (cpu_clock_offset t).
Definition timer_load (version_id : Z) (t : ticks) : QF (Z * ticks) :=
  if negb (version_id =? 1) && negb (version_id =? 2) then ret (- EINVAL, t)
  else if cpu_ticks_enabled t then ret (- EINVAL, t)
  else
    offset <- qemu_get_int64 ;; per_sec <- qemu_get_int64 ;;
    clock <- (if version_id =? 2 then qemu_get_int64 else ret (cpu_clock_offset t)) ;;
    ret (0, Ticks offset per_sec clock (cpu_ticks_enabled t)).

(** * The machine *)

Record machine := Machine {
  ma_ticks : ticks; ma_rtc : RTCState; ma_pics : PicState2; ma_pit : PITState; ma_kbc : KBDState; ma_kbd : PS2KbdState;
  ma_mouse : PS2MouseState; ma_dma : dma
}.
Definition put_ticks t w := Machine t (ma_rtc w) (ma_pics w) (ma_pit w) (ma_kbc w) (ma_kbd w) (ma_mouse w) (ma_dma w).
Definition put_rtc r w := Machine (ma_ticks w) r (ma_pics w) (ma_pit w) (ma_kbc w) (ma_kbd w) (ma_mouse w) (ma_dma w).
Definition put_pic i p w := Machine (ma_ticks w) (ma_rtc w) (set_pics i p (ma_pics w)) (ma_pit w) (ma_kbc w) (ma_kbd w) (ma_mouse w) (ma_dma w).
Definition put_pit p w := Machine (ma_ticks w) (ma_rtc w) (ma_pics w) p (ma_kbc w) (ma_kbd w) (ma_mouse w) (ma_dma w).
Definition put_kbc k w := Machine (ma_ticks w) (ma_rtc w) (ma_pics w) (ma_pit w) k (ma_kbd w) (ma_mouse w) (ma_dma w).
Definition put_kbd k w := Machine (ma_ticks w) (ma_rtc w) (ma_pics w) (ma_pit w) (ma_kbc w) k (ma_mouse w) (ma_dma w).
Definition put_mouse m w := Machine (ma_ticks w) (ma_rtc w) (ma_pics w) (ma_pit w) (ma_kbc w) (ma_kbd w) m (ma_dma w).
Definition put_dma0 c w := Machine (ma_ticks w) (ma_rtc w) (ma_pics w) (ma_pit w) (ma_kbc w) (ma_kbd w) (ma_mouse w)
  (MkDma c (cont1 (ma_dma w)) (dma_mem (ma_dma w))).
Definition put_dma1 c w := Machine (ma_ticks w) (ma_rtc w) (ma_pics w) (ma_pit w) (ma_kbc w) (ma_kbd w) (ma_mouse w)
  (MkDma (cont0 (ma_dma w)) c (dma_mem (ma_dma w))).

(** An entry of a device: its part of the machine, and how it is put back. *)
Definition device {S} (id : string) (instance version : Z) save (load : Z -> S -> QF (Z * S)) (part : machine -> S) put_part :=
  register_savevm (bytes_of id) instance version (fun w => save (part w))
    (fun v w => r <- load v (part w) ;; ret (fst r, put_part (snd r) w)).
(** The calls of [register_savevm] for the devices modelled here, in the order of
    [pc_init1]; those for the memory, the processor, the display, the serial ports and
    the other devices of vl.c and pc.c are left out. *)
Definition registrations : list (list (SaveStateEntry machine) -> list (SaveStateEntry machine)) :=
  [device "timer" 0 2 timer_save timer_load ma_ticks put_ticks;
   device "mc146818rtc" 0x70 1 rtc_save rtc_load ma_rtc put_rtc;
   device "i8259" 0x20 1 pic_save pic_load (fun w => pic0 (ma_pics w)) (put_pic 0);
   device "i8259" 0xa0 1 pic_save pic_load (fun w => pic1 (ma_pics w)) (put_pic 1);
   device "i8254" 0x40 1 pit_save pit_load ma_pit put_pit;
   device "pckbd" 0 3 kbd_save kbd_load ma_kbc put_kbc;
   device "ps2kbd" 0 2 ps2_kbd_save ps2_kbd_load ma_kbd put_kbd;
   device "ps2mouse" 0 2 ps2_mouse_save ps2_mouse_load ma_mouse put_mouse;
   device "dma" 0 1 dma_save dma_load (fun w => cont0 (ma_dma w)) put_dma0;
   device "dma" 1 1 dma_save dma_load (fun w => cont1 (ma_dma w)) put_dma1].
Definition first_se : list (SaveStateEntry machine) := fold_left (fun l register => register l) registrations [].
