(* ===== verification/Snapshot.v ===== *)
(** What loading a saved machine restores: each device's handlers agree, and so the
    machine comes back, but for what the handlers leave out. *)
From stdpp Require Import strings.
From S2P Require Import Prelude Time QTimer I8259 I8254 Rtc I8237 Ps2 Pckbd QFile Savevm Saved.

#[local] Opaque qemu_put_byte qemu_put_be16 qemu_put_be32 qemu_put_be64 qemu_put_buffer qemu_put_timer
  qemu_get_byte qemu_get_8s qemu_get_be16 qemu_get_int32 qemu_get_int64 qemu_get_buffer qemu_get_timer.

Lemma codec_for_version {S} n p versions v (s0 : S) m s : v ∈ versions -> codec n p m s -> codec n p (for_version versions v s0 m) (0, s).
Proof. intros Hv H. unfold for_version. rewrite bool_decide_true by done. by apply (codec_map n p m (fun s => (0, s))). Qed.
Lemma codec_some {A B} n p f (o : option A) x (k : A -> QF B) b : o = Some x -> codec n p (k x) b -> codec n p (y <- of_option f o ;; k y) b.
Proof.
  intros -> (bs & L & Hw & Hr). exists bs. split; [done|]. split; [done|]. intros h l p' Hf Hd.
  rewrite (bind_some _ _ _ _ _ eq_refl). by apply Hr.
Qed.
Lemma codec_bool8 b : codec 1 (qemu_put_8s (Z.b2z b)) qemu_get_8s (Z.b2z b).
Proof. apply codec_8s. by destruct b. Qed.
Lemma codec_bool32 b : codec 4 (qemu_put_be32 (Z.b2z b)) qemu_get_int32 (Z.b2z b).
Proof. apply codec_int32. by destruct b. Qed.
Lemma as_bool_b2z b : as_bool (Z.b2z b) = b.
Proof. by destruct b. Qed.
#[local] Hint Resolve codec_bool8 codec_bool32 : saved.

Lemma codec_last {A B} n p (g : QF A) (h : A -> B) a b : codec n p g a -> h a = b -> codec n p (x <- g ;; ret (h x)) b.
Proof. intros H <-. by apply codec_map. Qed.
(** One field, or the last one. *)
Ltac codec_field :=
  first [eapply codec_last; [solve [eauto with saved]|by rewrite ?as_bool_b2z]
        |eapply codec_bind; [solve [eauto with saved]|cbv beta]].
Ltac codec_fields := repeat codec_field.

(** * The devices *)

(** The handlers of a device agree: what was saved of [s] is loaded into a state
    that can take it, but for what [restore] leaves. *)
Definition handlers {S} (save : S -> QF unit) (load : S -> QF (Z * S)) (takes : S -> S -> Prop) (restore : S -> S -> S) : Prop :=
  forall s s0, takes s s0 -> takes s (restore s s0) /\
    exists n, (n <= 2000)%nat /\ codec n (save s) (load s0) (0, restore s s0).

(** The fields of the width they are saved with. *)
Record pic_ok (s : PicState) : Prop := PicOk {
  po_bytes : Forall is_u8 [last_irr s; irr s; imr s; isr s; priority_add s; irq_base s; read_reg_select s; poll s;
    special_mask s; init_state s; auto_eoi s; rotate_on_auto_eoi s; special_fully_nested_mode s; init4 s; elcr s]
}.
Definition pic_restored (s s0 : PicState) : PicState :=
  MkPic (last_irr s) (irr s) (imr s) (isr s) (priority_add s) (irq_base s) (read_reg_select s) (poll s) (special_mask s)
    (init_state s) (auto_eoi s) (rotate_on_auto_eoi s) (special_fully_nested_mode s) (init4 s) (elcr s) (elcr_mask s0).

Lemma pic_codec : handlers pic_save (pic_load 1) (fun s _ => pic_ok s) pic_restored.
Proof.
  intros s s0 Hs. split; [done|]. destruct Hs as [H]. repeat (apply Forall_cons in H as [? H]).
  eexists. split; [|apply codec_for_version; [left|]; unfold pic_save, pic_restored; codec_fields]. cbn. lia.
Qed.

Record channel_ok (s : PITChannelState) : Prop := ChannelOk {
  ho_count : is_s32 (count s);
  ho_latched : is_u16 (latched_count s);
  ho_bytes : Forall is_u8 [count_latched s; status_latched s; I8254.status s; read_state s; write_state s; write_latch s; rw_mode s;
    I8254.mode s; bcd s; gate s];
  ho_times : is_s64 (count_load_time s) /\ is_s64 (next_transition_time s);
  ho_timer : timer_ok (irq_timer s)
}.
Definition channel_restored (s s0 : PITChannelState) : PITChannelState :=
  MkPitCh (count s) (latched_count s) (count_latched s) (status_latched s) (I8254.status s) (read_state s) (write_state s)
    (write_latch s) (rw_mode s) (I8254.mode s) (bcd s) (gate s) (count_load_time s)
    (if has_timer s then next_transition_time s else next_transition_time s0) (has_timer s)
    (if has_timer s then irq_timer s else irq_timer s0).

(** A number of bytes that is small. *)
Definition codes {A} (put : QF unit) (get : QF A) (a : A) : Prop := exists n, (n <= 2000)%nat /\ codec n put get a.

Lemma codec_some_ret {B} (b : B) : codec 0 (ret tt) (ret b) b.
Proof. apply codec_ret. Qed.
Lemma channel_codec s s0 : channel_ok s -> has_timer s0 = has_timer s -> exists n, (n <= 45)%nat /\
  codec n (channel_save s) (channel_load s0) (channel_restored s s0).
Proof.
  intros [? ? Hb [? ?] ?] E. repeat (apply Forall_cons in Hb as [? Hb]). unfold channel_save, channel_load, channel_restored. rewrite E.
  destruct (has_timer s).
  - eexists. split; [|codec_fields]. cbn. lia.
  - eexists. split; [|do 13 codec_field; apply codec_ret]. cbn. lia.
Qed.

(** The same on every element of an array. *)
Lemma all_codec {S} (save : S -> QF unit) load (restore : S -> S -> S) k l l0 :
  Forall2 (fun s s0 => exists n, (n <= k)%nat /\ codec n (save s) (load s0) (restore s s0)) l l0 ->
  exists n, (n <= k * length l)%nat /\ codec n (save_all save l) (load_all load l0) (zip_with restore l l0).
Proof.
  induction 1 as [|s s0 l l0 (n & Hn & Hc) _ (m & Hm & IH)]; [by exists 0%nat; split; [lia|apply codec_ret]|].
  exists (n + m)%nat. split; [cbn [length]; lia|]. eapply codec_bind; [exact Hc|]. cbv beta. by eapply codec_last.
Qed.

Lemma awrite_whole {A} (l l' : list A) : length l = length l' -> awrite l 0 l' = Some l'.
Proof.
  intros E. unfold awrite. rewrite decide_True by lia. change (Z.to_nat 0) with 0%nat. by rewrite drop_ge, app_nil_r by lia.
Qed.

Definition alike_pit (p p0 : PITState) : Prop :=
  length (I8254.channels p) = 3%nat /\
  Forall2 (fun s s0 => channel_ok s /\ has_timer s0 = has_timer s) (I8254.channels p) (I8254.channels p0).
Definition pit_restored (p p0 : PITState) : PITState :=
  MkPit (zip_with channel_restored (I8254.channels p) (I8254.channels p0)) (pit_clock p0) (pit_irq p0).
Lemma pit_codec : handlers pit_save (pit_load 1) alike_pit pit_restored.
Proof.
  intros p p0 [Hl H]. split.
  - split; [done|]. cbn. clear Hl. induction H as [|s s0 l l0 [Hs E] _ IH]; constructor; [by split|done].
  - destruct (all_codec channel_save channel_load channel_restored 45 (I8254.channels p) (I8254.channels p0)) as (n & Hn & Hc).
    { eapply Forall2_impl; [exact H|]. intros s s0 [Hs E]. by apply channel_codec. }
    exists n. split; [lia|]. apply codec_for_version; [left|]. by eapply codec_last.
Qed.

Record alike_rtc (s s0 : RTCState) : Prop := AlikeRtc {
  ro_data : length (cmos_data s) = 128%nat /\ length (cmos_data s0) = 128%nat;
  ro_index : is_u8 (cmos_index s);
  ro_tm : let t := current_tm s in Forall is_s32 [tm_sec t; tm_min t; tm_hour t; tm_wday t; tm_mday t; tm_mon t; tm_year t];
  ro_times : is_s64 (next_periodic_time s) /\ is_s64 (next_second_time s);
  ro_timers : timer_ok (periodic_timer s) /\ timer_ok (second_timer s) /\ timer_ok (second_timer2 s)
}.
Definition rtc_restored (s s0 : RTCState) : RTCState :=
  let t := current_tm s in
  MkRtc (cmos_data s) (cmos_index s)
    (Tm (tm_sec t) (tm_min t) (tm_hour t) (tm_mday t) (tm_mon t) (tm_year t) (tm_wday t) (tm_yday (current_tm s0)) (tm_isdst (current_tm s0)))
    (rtc_irq s0) (periodic_timer s) (next_periodic_time s) (next_second_time s) (second_timer s) (second_timer2 s) (rtc_clock s0).
Lemma rtc_codec : handlers rtc_save (rtc_load 1) alike_rtc rtc_restored.
Proof.
  intros s s0 [[L L0] Hi Hb [? ?] [? [? ?]]]. split; [by split|]. cbv zeta in Hb. repeat (apply Forall_cons in Hb as [? Hb]).
  eexists. split; [|apply codec_for_version; [left|]; unfold rtc_save, rtc_restored; cbv zeta].
  2: { eapply codec_bind; [replace 128 with (Z.of_nat (length (cmos_data s))) by lia; apply codec_buffer|].
       eapply codec_some; [apply awrite_whole; lia|]. codec_fields. }
  rewrite L. cbn. lia.
Qed.

Record regs_ok (r : dma_regs) : Prop := RegsOk {
  so_now : is_s32 (now_addr r) /\ is_s32 (now_count r);
  so_base : is_u16 (base_addr r) /\ is_u16 (base_count r);
  so_bytes : Forall is_u8 [dr_mode r; dr_page r; dr_pageh r; dr_dack r; dr_eop r]
}.
Definition regs_restored (r r0 : dma_regs) : dma_regs :=
  MkDmaRegs (now_addr r) (now_count r) (base_addr r) (base_count r) (dr_mode r) (dr_page r) (dr_pageh r) (dr_dack r) (dr_eop r)
    (transfer_handler r0).
Record alike_dma (d d0 : dma_cont) : Prop := AlikeDma {
  mo_bytes : Forall is_u8 [dc_command d; dc_mask d];
  mo_shift : is_s32 (dshift d);
  mo_regs : length (dc_regs d) = 4%nat /\ length (dc_regs d0) = 4%nat;
  mo_ok : Forall regs_ok (dc_regs d)
}.
Definition dma_restored (d d0 : dma_cont) : dma_cont :=
  MkDmaCont (dc_status d0) (dc_command d) (dc_mask d) (flip_flop d) (dshift d) (zip_with regs_restored (dc_regs d) (dc_regs d0)).
Lemma regs_codec r r0 : regs_ok r -> exists n, (n <= 17)%nat /\ codec n (regs_save r) (regs_load r0) (regs_restored r r0).
Proof.
  intros [[? ?] [? ?] Hb]. repeat (apply Forall_cons in Hb as [? Hb]). unfold regs_save, regs_load, regs_restored.
  eexists. split; [|codec_fields]. cbn. lia.
Qed.
Lemma dma_codec : handlers dma_save (dma_load 1) alike_dma dma_restored.
Proof.
  intros d d0 [Hb Hs [L L0] Hr]. split.
  - split; try done. split; [done|]. cbn. rewrite length_zip_with. lia.
  - destruct (all_codec regs_save regs_load regs_restored 17 (dc_regs d) (dc_regs d0)) as (n & Hn & Hc).
    { apply Forall2_same_length_lookup. split; [lia|]. intros i r r0 E _. apply regs_codec. by eapply Forall_lookup in Hr. }
    repeat (apply Forall_cons in Hb as [? Hb]). eexists. split; [|apply codec_for_version; [left|]].
    2: { unfold dma_save, dma_restored. do 4 codec_field. eapply codec_last; [exact Hc|]. by rewrite as_bool_b2z. }
    cbn. lia.
Qed.

Record ps2_ok (s s0 : PS2State) : Prop := Ps2Ok {
  uo_ints : Forall is_s32 [write_cmd s; rptr (queue s); wptr (queue s); q_count (queue s)];
  uo_data : length (q_data (queue s)) = 256%nat /\ length (q_data (queue s0)) = 256%nat
}.
Lemma ps2_codec s s0 : ps2_ok s s0 -> codec 272 (ps2_common_save s) (ps2_common_load s0) s.
Proof.
  intros [Hb [L L0]]. repeat (apply Forall_cons in Hb as [? Hb]). change 272%nat with (4 + (4 + (4 + (4 + 256))))%nat.
  unfold ps2_common_save, ps2_common_load. do 4 codec_field. rewrite <- (Nat.add_0_r 256). rewrite <- L at 1.
  destruct (codec_buffer (q_data (queue s))) as (bs & Lb & Hw & Hr). exists bs. split; [lia|]. split; [done|].
  intros h l p Hf Hd. destruct (Hr h l p Hf Hd) as (h' & E & Hf'). exists h'. split; [|done].
  replace PS2_QUEUE_SIZE with (Z.of_nat (length (q_data (queue s)))) by (by rewrite L). rewrite (bind_ok _ _ _ _ _ E).
  rewrite (bind_some _ _ _ _ _ (awrite_whole _ _ (eq_trans L0 (eq_sym L)))). by destruct s as [[]].
Qed.
#[local] Hint Resolve ps2_codec : saved.

Lemma ps2_ok_self s s0 : ps2_ok s s0 -> ps2_ok s s.
Proof. by intros [? [? ?]]. Qed.
#[local] Hint Resolve ps2_ok_self : saved.

(** All of the state. *)
Definition whole {S} (s _ : S) : S := s.
Definition alike_kbd (s s0 : PS2KbdState) : Prop := ps2_ok (k_common s) (k_common s0).
Lemma kbd_codec : handlers ps2_kbd_save (ps2_kbd_load 2) alike_kbd whole.
Proof.
  intros s s0 H. unfold alike_kbd, whole in *. split; [by eauto with saved|]. eexists. split; [|apply codec_for_version; [left|]].
  2: { unfold ps2_kbd_save. do 2 codec_field. eapply codec_last; [apply codec_bool32|]. rewrite !as_bool_b2z. by destruct s. }
  lia.
Qed.
Record alike_mouse (s s0 : PS2MouseState) : Prop := AlikeMouse {
  uo_common : ps2_ok (m_common s) (m_common s0);
  uo_bytes : Forall is_u8 [mouse_status s; mouse_resolution s; mouse_sample_rate s; mouse_type s; mouse_detect_state s; mouse_buttons s];
  uo_moves : Forall is_s32 [mouse_dx s; mouse_dy s; mouse_dz s]
}.
Lemma mouse_codec : handlers ps2_mouse_save (ps2_mouse_load 2) alike_mouse whole.
Proof.
  intros s s0 [? Hb Hm]. split; [split; by eauto with saved|]. repeat (apply Forall_cons in Hb as [? Hb]).
  repeat (apply Forall_cons in Hm as [? Hm]). eexists. split; [|apply codec_for_version; [left|]].
  2: { unfold ps2_mouse_save. do 10 codec_field. eapply codec_last; [by apply codec_8s|]. rewrite as_bool_b2z. by destruct s. }
  lia.
Qed.
Definition kbc_ok (s : KBDState) : Prop := Forall is_u8 [c_write_cmd s; c_stat s; c_mode s; c_pending s].
Lemma kbc_codec : handlers kbd_save (kbd_load 3) (fun s _ => kbc_ok s) whole.
Proof.
  intros s s0 Hb. split; [done|]. unfold kbc_ok in Hb. repeat (apply Forall_cons in Hb as [? Hb]).
  eexists. split; [|apply codec_for_version; [left|]].
  2: { unfold kbd_save. do 3 codec_field. eapply codec_last; [by apply codec_8s|]. by destruct s. }
  lia.
Qed.
(** The clock is only saved and loaded while it stands still. *)
Record alike_ticks (t t0 : ticks) : Prop := AlikeTicks {
  co_still : cpu_ticks_enabled t = false /\ cpu_ticks_enabled t0 = false;
  co_times : Forall is_s64 [cpu_ticks_offset t; ticks_per_second t; cpu_clock_offset t]
}.
Lemma ticks_codec : handlers timer_save (timer_load 2) alike_ticks whole.
Proof.
  intros t t0 [[E E0] Hb]. split; [by repeat split|]. repeat (apply Forall_cons in Hb as [? Hb]).
  unfold timer_save, timer_load. rewrite E, E0. cbn [negb andb Z.eqb Pos.eqb]. eexists. split.
  2: { do 2 codec_field. eapply codec_last; [by apply codec_int64|]. unfold whole. destruct t. cbn in *. by subst. }
  lia.
Qed.

(** * The machine *)

(** The states the handlers can carry over from [w] to [w0]: the fields within the
    widths they are saved with, the arrays as long, the clocks stopped. *)
Record alike (w w0 : machine) : Prop := Alike {
  al_ticks : alike_ticks (ma_ticks w) (ma_ticks w0);
  al_rtc : alike_rtc (ma_rtc w) (ma_rtc w0);
  al_pic0 : pic_ok (pic0 (ma_pics w));
  al_pic1 : pic_ok (pic1 (ma_pics w));
  al_pit : alike_pit (ma_pit w) (ma_pit w0);
  al_kbc : kbc_ok (ma_kbc w);
  al_kbd : alike_kbd (ma_kbd w) (ma_kbd w0);
  al_mouse : alike_mouse (ma_mouse w) (ma_mouse w0);
  al_dma0 : alike_dma (cont0 (ma_dma w)) (cont0 (ma_dma w0));
  al_dma1 : alike_dma (cont1 (ma_dma w)) (cont1 (ma_dma w0))
}.
(** Of [w0] stay: the output of the interrupt controllers and the levels they may
    trigger on, the lines the timer and the clock are wired to and their times of
    the host, the times a channel without a timer has, two fields of the date, the
    status and the handlers of the DMA controllers, the memory. *)
Definition machine_restored (w w0 : machine) : machine :=
  Machine (ma_ticks w) (rtc_restored (ma_rtc w) (ma_rtc w0))
    (MkPic2 (pic_restored (pic0 (ma_pics w)) (pic0 (ma_pics w0))) (pic_restored (pic1 (ma_pics w)) (pic1 (ma_pics w0)))
       (irq_request (ma_pics w0)) (alt_irq (ma_pics w0)))
    (pit_restored (ma_pit w) (ma_pit w0)) (ma_kbc w) (ma_kbd w) (ma_mouse w)
    (MkDma (dma_restored (cont0 (ma_dma w)) (cont0 (ma_dma w0))) (dma_restored (cont1 (ma_dma w)) (cont1 (ma_dma w0)))
       (dma_mem (ma_dma w0))).

(** What loading an entry of a part does to the whole. *)
Definition restoring {S} (part : machine -> S) (put_part : S -> machine -> machine) restore (w w0 : machine) : machine :=
  put_part (restore (part w) (part w0)) w0.
Lemma device_restores {S} (part : machine -> S) put_part takes restore id instance version save load :
  handlers save (load version) takes restore ->
  (forall w w0, alike w w0 -> takes (part w) (part w0)) ->
  (forall w w0, alike w w0 -> takes (part w) (restore (part w) (part w0)) -> alike w (restoring part put_part restore w w0)) ->
  restores alike (Se id instance version (fun w => save (part w)) (fun v w => r <- load v (part w) ;; ret (fst r, put_part (snd r) w)),
    restoring part put_part restore).
Proof.
  intros Hh Ht Ha w w0 H. destruct (Hh _ _ (Ht w w0 H)) as (Hr & n & Hn & Hx). split; [by apply Ha|]. exists n. split; [lia|].
  by apply (codec_map _ _ _ (fun r => (fst r, put_part (snd r) w0))) in Hx.
Qed.

(** How each entry restores its part, in the order they are registered. *)
Definition restorings : list (machine -> machine -> machine) :=
  [restoring ma_ticks put_ticks whole; restoring ma_rtc put_rtc rtc_restored;
   restoring (fun w => pic0 (ma_pics w)) (put_pic 0) pic_restored; restoring (fun w => pic1 (ma_pics w)) (put_pic 1) pic_restored;
   restoring ma_pit put_pit pit_restored; restoring ma_kbc put_kbc whole; restoring ma_kbd put_kbd whole;
   restoring ma_mouse put_mouse whole; restoring (fun w => cont0 (ma_dma w)) put_dma0 dma_restored;
   restoring (fun w => cont1 (ma_dma w)) put_dma1 dma_restored].

Lemma named_here se : (length (idstr se) <= 255)%nat -> forallb (fun x => (0 <? x) && (x <? 256)) (idstr se) = true ->
  is_s32 (instance_id se) -> is_s32 (version_id se) -> named (W := machine) se.
Proof.
  intros L B Hi Hv. split; [done| |done..]. rewrite forallb_forall in B. apply Forall_forall. intros x Hx%list_elem_of_In.
  specialize (B x Hx). unfold is_u8. lia.
Qed.
(** One entry: its handlers agree, it looks at its own part only. *)
Ltac entry part codec takes := constructor; [split;
  [apply (device_restores part _ _ _ _ _ _ _ _ codec takes); intros w w0 []; by split|apply named_here; [cbn; lia|done|done|done]]|].
Lemma entries_restore : Forall (fun e => restores alike e /\ named (fst e)) (zip first_se restorings).
Proof.
  entry ma_ticks ticks_codec al_ticks. entry ma_rtc rtc_codec al_rtc.
  entry (fun w => pic0 (ma_pics w)) pic_codec al_pic0. entry (fun w => pic1 (ma_pics w)) pic_codec al_pic1.
  entry ma_pit pit_codec al_pit. entry ma_kbc kbc_codec al_kbc. entry ma_kbd kbd_codec al_kbd. entry ma_mouse mouse_codec al_mouse.
  entry (fun w => cont0 (ma_dma w)) dma_codec al_dma0. entry (fun w => cont1 (ma_dma w)) dma_codec al_dma1. constructor.
Qed.

(** C24: the machine comes back.  Its devices saved to a file by the handlers they
    registered, and the file loaded into a machine that registered the same: the
    loader accepts the file, and every saved field has the value it had; the fields
    the handlers leave out keep those of the loading machine. *)
Theorem snapshot_restores n id w w0 : alike w w0 -> (10 <= n)%nat -> length id = 256%nat ->
  save_and_load n first_se first_se id w w0 = Some (0, machine_restored w w0).
Proof.
  intros Hw Hn Hid.
  pose proof (savevm_restores alike (fun _ => true) (zip first_se restorings) n id w w0 entries_restore) as H.
  change (map fst (zip first_se restorings)) with first_se in H.
  change (present (fun _ => true) (zip first_se restorings)) with first_se in H.
  rewrite H; [reflexivity|by apply (bool_decide_unpack _)|done|done|done|done].
Qed.

(** A machine some time after it was started, and one just started. *)
Definition started (now : Z) : machine :=
  Machine (Ticks now 1000000000 0 false) (rtc_init 1000000000 (Tm 30 59 23 24 11 107 1 357 0) now) pic_init
    (match pit_init 1000000000 now with Ok _ p => p | Err _ => MkPit [] 0 0 end) (kbd_reset (MkKbdState 0 0 0 0))
    ps2_kbd_init ps2_mouse_init (MkDma (MkDmaCont 0 0 0 false 0 (replicate 4 (MkDmaRegs 0 0 0 0 0 0 0 0 0 None)))
      (MkDmaCont 0 0 0 false 1 (replicate 4 (MkDmaRegs 0 0 0 0 0 0 0 0 0 None))) (fun _ => 0)).
Definition later : machine :=
  let w := started 1000 in
  put_pic 0 (set_imr 0xfb (pic0 (ma_pics w)))
    (put_kbd (MkKbd (MkPs2State (MkQueue (<[0%nat:=0x1c]> (replicate 256 0)) 0 1 1) (-1)) true true)
       (put_dma0 (MkDmaCont 0x04 0 0x0b true 0 (replicate 4 (MkDmaRegs 0x2000 511 0x2000 511 0x46 1 0 0 0 (Some 2%nat)))) w)).

(** The fields of a state given in full. *)
Ltac in_range :=
  vm_compute;
  repeat first [exact eq_refl
    |match goal with
     |- ?P ?x => match P with is_u8 => idtac | is_u16 => idtac | is_s32 => idtac | is_s64 => idtac end;
       let v := eval vm_compute in x in change (P v); clear; unfold is_u8, is_u16, is_s32, is_s64; lia
     end
    |match goal with |- timer_ok ?x => let v := eval vm_compute in x in change (timer_ok v); cbn [timer_ok] end
    |discriminate|constructor].
Lemma snapshot_restores_witness :
  option_map (fun r => (fst r, q_data (queue (k_common (ma_kbd (snd r)))) !! 0%nat, imr (pic0 (ma_pics (snd r))),
      map (fun r => (now_addr r, transfer_handler r)) (dc_regs (cont0 (ma_dma (snd r)))), pit_clock (ma_pit (snd r))))
    (save_and_load 10 first_se first_se (replicate 256 0) later (started 0)) =
  Some (0, Some 0x1c, 0xfb, replicate 4 (0x2000, None), 0).
Proof.
  rewrite (snapshot_restores 10 (replicate 256 0) later (started 0)); [vm_compute; reflexivity| |lia|done].
  constructor; in_range.
Defined.

(** The pointers of a loaded queue are not checked: a file can make the next read of
    the keyboard's data run out of the array. *)
Definition bad_queue : PS2State := MkPs2State (MkQueue (replicate 256 0) 1000 0 1) (-1).
Lemma loaded_queue_faults W (upd : bool -> Z -> M W unit) (s0 : PS2KbdState) (m : PS2MouseState) (h : W) :
  length (q_data (queue (k_common s0))) = 256%nat ->
  exists n, codec n (ps2_kbd_save (MkKbd bad_queue true false)) (ps2_kbd_load 2 s0) (0, MkKbd bad_queue true false) /\
    ps2_read_data upd false (MkPs2 (MkKbd bad_queue true false) m h) = Err OutOfBounds.
Proof.
  intros L. destruct (kbd_codec (MkKbd bad_queue true false) s0) as (_ & n & _ & H).
  - split; [by repeat constructor|by split].
  - exists n. split; [exact H|reflexivity].
Qed.
