(* ===== verification/Block.v ===== *)
(** The block layer of the machine emulator, src/sysvm/block.c, with two of its
    drivers: raw images on host files (block-raw.c) and copy-on-write images
    (block-cow.c).

    A host file is its bytes.  An image is its driver's state; that of a
    copy-on-write image holds the image behind it, [backing_hd].  Reading gives the
    code's result and the bytes that arrived, writing the result and the new image;
    [None] is an access outside an array or the mapped bitmap, or a file position
    below 0.  Writing to a host file does not fail. *)
From S2P Require Import Prelude QFile.

Definition SECTOR_BITS : Z := 9.
Definition SECTOR_SIZE : Z := 512.
(** Of the host's errno.h. *)
Definition EIO : Z := 5.
Definition EACCES : Z := 13.
Definition EINVAL : Z := 22.
Definition ENOTSUP : Z := 95.
Definition ENOMEDIUM : Z := 123.

(** * Copy-on-write images *)

Definition COW_MAGIC : Z := 0x4f4f4f4d.
Definition COW_VERSION : Z := 2.
(** [struct cow_header_v2]: the offset of [size], aligned to 8 bytes on a host of 64
    bits and to 4 on one of 32, and the size of the structure. *)
Definition size_offset (host64 : bool) : Z := if host64 then 1040 else 1036.
Definition header_size (host64 : bool) : Z := if host64 then 1056 else 1048.

(** [BDRVCowState]: the file, whose first [cow_bitmap_size] bytes are mapped, header
    and bitmap. *)
Record BDRVCowState := MkCow { cow_file : list Z; cow_header : Z; cow_bitmap_size : Z; cow_sectors_offset : Z }.
Definition c_file l s := MkCow l (cow_header s) (cow_bitmap_size s) (cow_sectors_offset s).

(** A byte of [cow_bitmap].  The mapping has whole pages; after the end of the file a
    page holds zeros, and pages beyond the file cannot be touched. *)
Definition PAGE : Z := 4096.
Definition whole_pages (n : Z) : Z := Z.land (n + (PAGE - 1)) (- PAGE).
Definition map_get (s : BDRVCowState) (k : Z) : option Z :=
  let a := cow_header s + k in
  if decide (0 <= a < whole_pages (cow_bitmap_size s)) then
    if a <? Z.of_nat (length (cow_file s)) then aget (cow_file s) a
    else if a <? whole_pages (Z.of_nat (length (cow_file s))) then Some 0 else None
  else None.
Definition map_set (s : BDRVCowState) (k v : Z) : option BDRVCowState :=
  let a := cow_header s + k in
  if decide (0 <= a < whole_pages (cow_bitmap_size s)) then l ← aset (cow_file s) a v; Some (c_file l s) else None.
(** [cow_set_bit(bitmap, bitnum)] and [is_bit_set(bitmap, bitnum)] *)
Definition cow_set_bit (s : BDRVCowState) (bitnum : Z) : option BDRVCowState :=
  b ← map_get s (Z.quot bitnum 8);
  map_set s (Z.quot bitnum 8) (u8 (Z.lor b (Z.shiftl 1 (Z.rem bitnum 8)))).
Definition is_bit_set (s : BDRVCowState) (bitnum : Z) : option bool :=
  b ← map_get s (Z.quot bitnum 8);
  Some (negb (Z.land b (Z.shiftl 1 (Z.rem bitnum 8)) =? 0)).
(** [is_changed(bitmap, sector_num, nb_sectors, num_same)]; the bitmap is mapped. *)
Fixpoint same_loop (n : nat) (s : BDRVCowState) (changed : bool) (sector_num num_same : Z) : option Z :=
  match n with
  | O => Some num_same
  | S n =>
      b ← is_bit_set s (sector_num + num_same);
      if Bool.eqb b changed then same_loop n s changed sector_num (num_same + 1) else Some num_same
  end.
Definition is_changed (s : BDRVCowState) (sector_num nb_sectors : Z) : option (bool * Z) :=
  if nb_sectors =? 0 then Some (false, nb_sectors) else
  changed ← is_bit_set s sector_num;
  n ← same_loop (Z.to_nat (nb_sectors - 1)) s changed sector_num 1;
  Some (changed, n).

(** [cow_read(bs, sector_num, buf, nb_sectors)]; [base] reads the image behind. *)
Fixpoint cow_read_loop (n : nat) (base : Z -> Z -> option (Z * list Z)) (s : BDRVCowState) (sector_num nb_sectors : Z)
    : option (Z * list Z) :=
  if nb_sectors <=? 0 then Some (0, []) else
  match n with
  | O => None
  | S n =>
      c ← is_changed s sector_num nb_sectors;
      let '(changed, k) := (c : bool * Z) in
      r ← (if changed then
             bs ← fread_at (cow_file s) (cow_sectors_offset s + sector_num * 512) (Z.to_nat (k * 512));
             Some (if Z.of_nat (length bs) =? k * 512 then 0 else -1, bs)
           else base sector_num k);
      let '(e, bs) := (r : Z * list Z) in
      if e <? 0 then Some (-1, bs) else
      r ← cow_read_loop n base s (sector_num + k) (nb_sectors - k);
      let '(e, rest) := (r : Z * list Z) in Some (e, bs ++ rest)
  end.
Definition cow_read base s (sector_num nb_sectors : Z) : option (Z * list Z) :=
  cow_read_loop (Z.to_nat nb_sectors) base s sector_num nb_sectors.

(** [cow_write(bs, sector_num, buf, nb_sectors)] *)
Fixpoint set_bits (n : nat) (s : BDRVCowState) (sector_num : Z) : option BDRVCowState :=
  match n with O => Some s | S n => s ← cow_set_bit s sector_num; set_bits n s (sector_num + 1) end.
Definition cow_write (s : BDRVCowState) (sector_num : Z) (buf : list Z) (nb_sectors : Z) : option (Z * BDRVCowState) :=
  l ← fwrite_at (cow_file s) (cow_sectors_offset s + sector_num * 512) (take (Z.to_nat (nb_sectors * 512)) buf);
  s ← set_bits (Z.to_nat nb_sectors) (c_file l s) sector_num;
  Some (0, s).

(** [cow_open(bs, filename, flags)] of a file that can be opened: the size in
    sectors, the name of the file behind and the state. *)
Definition be_value (l : list Z) : Z := fold_left (fun a b => a * 256 + b) l 0.
Definition cow_open (host64 : bool) (file : list Z) : option (Z * list Z * BDRVCowState) :=
  let h := header_size host64 in
  let at_ a n := take n (drop (Z.to_nat a) file) in
  if Z.of_nat (length file) <? h then None else
  if negb (be_value (at_ 0 4%nat) =? COW_MAGIC) || negb (be_value (at_ 4 4%nat) =? COW_VERSION) then None else
  let size := s64 (be_value (at_ (size_offset host64) 8%nat)) in
  let total_sectors := Z.quot size 512 in
  let bitmap_size := s32 (Z.shiftr (total_sectors + 7) 3 + h) in
  Some (total_sectors, at_ 8 1024%nat, MkCow file h bitmap_size (Z.land (bitmap_size + 511) (-512))).
(** [cow_create(filename, image_sectors, image_filename, flags)] without flags: the
    file it leaves.  [behind] is the name of the image behind with the time it was
    changed, 0 if that cannot be found out. *)
Definition cow_create (host64 : bool) (image_sectors : Z) (behind : option (list Z * Z)) : list Z :=
  let name := match behind with Some (n, _) => take 1023 n | None => [] end in
  let mtime := match behind with Some (_, t) => t | None => 0 end in
  let size := image_sectors * 512 in
  let header := be32 COW_MAGIC ++ be32 COW_VERSION ++ name ++ replicate (1024 - length name) 0 ++ be32 mtime ++
    replicate (Z.to_nat (size_offset host64 - 1036)) 0 ++ be32 (Z.shiftr size 32) ++ be32 size ++ be32 512 ++
    replicate (Z.to_nat (header_size host64 - size_offset host64 - 12)) 0 in
  header ++ replicate (Z.to_nat (Z.shiftr (image_sectors + 7) 3)) 0.

(** * Images *)

(** [BlockDriverState]: no medium, a raw file, a copy-on-write image. *)
Inductive driver (B : Type) :=
  | NoDriver
  | RawDriver (file : list Z)
  | CowDriver (s : BDRVCowState) (backing_hd : option B).
Arguments NoDriver {B}. Arguments RawDriver {B}. Arguments CowDriver {B}.
#[warnings="-register-all"]
Inductive BlockDriverState := MkBs {
  read_only : bool; total_sectors : Z; boot_sector : option (list Z); drv : driver BlockDriverState
}.
Definition set_drv d bs := MkBs (read_only bs) (total_sectors bs) (boot_sector bs) d.
Definition set_boot b bs := MkBs (read_only bs) (total_sectors bs) b (drv bs).

(** [raw_pread] and [raw_pwrite] *)
Definition raw_pread (file : list Z) (offset count : Z) : option (Z * list Z) :=
  bs ← fread_at file offset (Z.to_nat count); Some (Z.of_nat (length bs), bs).
Definition raw_pwrite (file : list Z) (offset : Z) (buf : list Z) (count : Z) : option (Z * list Z) :=
  l ← fwrite_at file offset (take (Z.to_nat count) buf); Some (count, l).
(** The result of a transfer of bytes for a transfer of sectors. *)
Definition sector_result (ret len e : Z) : Z := if ret <? 0 then ret else if negb (ret =? len) then - e else 0.

(** [bdrv_read(bs, sector_num, buf, nb_sectors)] *)
Fixpoint bdrv_read (bs : BlockDriverState) (sector_num nb_sectors : Z) : option (Z * list Z) :=
  match bs with MkBs _ _ boot d =>
    let from_driver sector_num nb_sectors :=
      match d with
      | NoDriver => Some (- ENOMEDIUM, [])
      | RawDriver file =>
          let len := s32 (nb_sectors * 512) in
          r ← raw_pread file (sector_num * 512) len;
          let '(ret, bs) := (r : Z * list Z) in Some (sector_result ret len EINVAL, bs)
      | CowDriver s backing =>
          cow_read (fun a n => match backing with
                               | Some b => bdrv_read b a n
                               | None => Some (0, replicate (Z.to_nat (n * 512)) 0)
                               end) s sector_num nb_sectors
      end in
    match d, boot with
    | NoDriver, _ => Some (- ENOMEDIUM, [])
    | _, Some data =>
        if (sector_num =? 0) && (0 <? nb_sectors) then
          if nb_sectors - 1 =? 0 then Some (0, data)
          else r ← from_driver (sector_num + 1) (nb_sectors - 1); let '(e, bs) := (r : Z * list Z) in Some (e, data ++ bs)
        else from_driver sector_num nb_sectors
    | _, None => from_driver sector_num nb_sectors
    end
  end.

(** [bdrv_write(bs, sector_num, buf, nb_sectors)] *)
Definition bdrv_write (bs : BlockDriverState) (sector_num : Z) (buf : list Z) (nb_sectors : Z) : option (Z * BlockDriverState) :=
  match drv bs with
  | NoDriver => Some (- ENOMEDIUM, bs)
  | d =>
      if read_only bs then Some (- EACCES, bs) else
      let bs := match boot_sector bs with
                | Some _ => if (sector_num =? 0) && (0 <? nb_sectors) then set_boot (Some (take 512 buf)) bs else bs
                | None => bs
                end in
      match d with
      | NoDriver => Some (- ENOMEDIUM, bs)
      | RawDriver file =>
          let len := s32 (nb_sectors * 512) in
          r ← raw_pwrite file (sector_num * 512) buf len;
          let '(ret, file) := (r : Z * list Z) in Some (sector_result ret len EIO, set_drv (RawDriver file) bs)
      | CowDriver s backing =>
          r ← cow_write s sector_num buf nb_sectors;
          let '(e, s) := (r : Z * BDRVCowState) in Some (e, set_drv (CowDriver s backing) bs)
      end
  end.

(** [bdrv_set_boot_sector(bs, data, size)]: at most a sector, filled with zeros. *)
Definition bdrv_set_boot_sector (data : list Z) (bs : BlockDriverState) : BlockDriverState :=
  set_boot (Some (take 512 data ++ replicate (512 - length data) 0)) bs.
(** [bdrv_getlength(bs)] and [bdrv_get_geometry(bs, ...)] *)
Definition bdrv_getlength (bs : BlockDriverState) : Z :=
  match drv bs with
  | NoDriver => - ENOMEDIUM
  | RawDriver file => Z.of_nat (length file)
  | CowDriver _ _ => total_sectors bs * SECTOR_SIZE
  end.
Definition bdrv_get_geometry (bs : BlockDriverState) : Z :=
  let length := bdrv_getlength bs in if length <? 0 then 0 else Z.shiftr length SECTOR_BITS.

(** ** Bytes *)

(** [bdrv_pread_em(bs, offset, buf, count1)]: the first sector from its middle, whole
    sectors ([pread_middle]), the start of the last one ([pread_tail]). *)
Definition pread_tail (bs : BlockDriverState) (count1 sector_num count : Z) : option (Z * list Z) :=
  if 0 <? count then
    r ← bdrv_read bs sector_num 1; let '(e, b) := (r : Z * list Z) in
    if e <? 0 then Some (- EIO, []) else Some (count1, take (Z.to_nat count) b)
  else Some (count1, []).
Definition pread_middle (bs : BlockDriverState) (count1 sector_num count : Z) : option (Z * list Z) :=
  let nb_sectors := Z.shiftr count SECTOR_BITS in
  if 0 <? nb_sectors then
    r ← bdrv_read bs sector_num nb_sectors; let '(e, b) := (r : Z * list Z) in
    if e <? 0 then Some (- EIO, b) else
    r ← pread_tail bs count1 (sector_num + nb_sectors) (count - Z.shiftl nb_sectors SECTOR_BITS);
    let '(e, rest) := (r : Z * list Z) in Some (e, b ++ rest)
  else pread_tail bs count1 sector_num count.
Definition bdrv_pread_em (bs : BlockDriverState) (offset count1 : Z) : option (Z * list Z) :=
  let len := Z.land (SECTOR_SIZE - offset) (SECTOR_SIZE - 1) in
  let len := if count1 <? len then count1 else len in
  let sector_num := Z.shiftr offset SECTOR_BITS in
  if 0 <? len then
    r ← bdrv_read bs sector_num 1; let '(e, b) := (r : Z * list Z) in
    if e <? 0 then Some (- EIO, []) else
    let b := take (Z.to_nat len) (drop (Z.to_nat (Z.land offset (SECTOR_SIZE - 1))) b) in
    let count := count1 - len in
    if count =? 0 then Some (count1, b) else
    r ← pread_middle bs count1 (sector_num + 1) count; let '(e, rest) := (r : Z * list Z) in Some (e, b ++ rest)
  else pread_middle bs count1 sector_num count1.

(** [bdrv_pwrite_em(bs, offset, buf, count1)], in the same parts. *)
Definition pwrite_part (bs : BlockDriverState) (sector_num at_offset : Z) (buf : list Z) : option (Z * BlockDriverState) :=
  r ← bdrv_read bs sector_num 1; let '(e, tmp) := (r : Z * list Z) in
  if e <? 0 then Some (- EIO, bs) else
  tmp ← awrite tmp at_offset buf;
  r ← bdrv_write bs sector_num tmp 1; let '(e, bs) := (r : Z * BlockDriverState) in
  if e <? 0 then Some (- EIO, bs) else Some (0, bs).
Definition pwrite_tail (bs : BlockDriverState) (count1 sector_num : Z) (buf : list Z) (count : Z) : option (Z * BlockDriverState) :=
  if 0 <? count then
    r ← pwrite_part bs sector_num 0 (take (Z.to_nat count) buf); let '(e, bs) := (r : Z * BlockDriverState) in
    if e <? 0 then Some (e, bs) else Some (count1, bs)
  else Some (count1, bs).
Definition pwrite_middle (bs : BlockDriverState) (count1 sector_num : Z) (buf : list Z) (count : Z) : option (Z * BlockDriverState) :=
  let nb_sectors := Z.shiftr count SECTOR_BITS in
  if 0 <? nb_sectors then
    let len := Z.shiftl nb_sectors SECTOR_BITS in
    r ← bdrv_write bs sector_num (take (Z.to_nat len) buf) nb_sectors; let '(e, bs) := (r : Z * BlockDriverState) in
    if e <? 0 then Some (- EIO, bs) else
    pwrite_tail bs count1 (sector_num + nb_sectors) (drop (Z.to_nat len) buf) (count - len)
  else pwrite_tail bs count1 sector_num buf count.
Definition bdrv_pwrite_em (bs : BlockDriverState) (offset : Z) (buf : list Z) (count1 : Z) : option (Z * BlockDriverState) :=
  let len := Z.land (SECTOR_SIZE - offset) (SECTOR_SIZE - 1) in
  let len := if count1 <? len then count1 else len in
  let sector_num := Z.shiftr offset SECTOR_BITS in
  if 0 <? len then
    r ← pwrite_part bs sector_num (Z.land offset (SECTOR_SIZE - 1)) (take (Z.to_nat len) buf);
    let '(e, bs) := (r : Z * BlockDriverState) in
    if e <? 0 then Some (e, bs) else
    let count := count1 - len in
    if count =? 0 then Some (count1, bs) else
    pwrite_middle bs count1 (sector_num + 1) (drop (Z.to_nat len) buf) count
  else pwrite_middle bs count1 sector_num buf count1.

(** [bdrv_pread(bs, offset, buf1, count1)] and [bdrv_pwrite]: by the driver if it
    can. *)
Definition bdrv_pread (bs : BlockDriverState) (offset count1 : Z) : option (Z * list Z) :=
  match drv bs with
  | NoDriver => Some (- ENOMEDIUM, [])
  | RawDriver file => raw_pread file offset count1
  | CowDriver _ _ => bdrv_pread_em bs offset count1
  end.
Definition bdrv_pwrite (bs : BlockDriverState) (offset : Z) (buf1 : list Z) (count1 : Z) : option (Z * BlockDriverState) :=
  match drv bs with
  | NoDriver => Some (- ENOMEDIUM, bs)
  | RawDriver file => r ← raw_pwrite file offset buf1 count1; Some (fst r, set_drv (RawDriver (snd r)) bs)
  | CowDriver _ _ => bdrv_pwrite_em bs offset buf1 count1
  end.

(** ** Committing *)

(** [bdrv_commit(bs)]; of the two drivers only the copy-on-write one has
    [bdrv_is_allocated], and it cannot be emptied.  The loop over the sectors of a
    run ([copy_run]), and over the image. *)
Fixpoint copy_run (n : nat) (bs backing : BlockDriverState) (s : BDRVCowState) (i : Z) : option (Z * BlockDriverState) :=
  match n with
  | O => Some (0, backing)
  | S n =>
      r ← bdrv_read (set_drv (CowDriver s (Some backing)) bs) i 1; let '(e, sector) := (r : Z * list Z) in
      if negb (e =? 0) then Some (- EIO, backing) else
      r ← bdrv_write backing i sector 1; let '(e, backing) := (r : Z * BlockDriverState) in
      if negb (e =? 0) then Some (- EIO, backing) else copy_run n bs backing s (i + 1)
  end.
Fixpoint commit_loop (n : nat) (bs backing : BlockDriverState) (s : BDRVCowState) (i total_sectors : Z)
    : option (Z * BlockDriverState) :=
  if total_sectors <=? i then Some (0, backing) else
  match n with
  | O => None
  | S n =>
      c ← is_changed s i 65536;
      let '(changed, k) := (c : bool * Z) in
      if changed then
        r ← copy_run (Z.to_nat k) bs backing s i; let '(e, backing) := (r : Z * BlockDriverState) in
        if negb (e =? 0) then Some (e, backing) else commit_loop n bs backing s (i + k) total_sectors
      else commit_loop n bs backing s (i + k) total_sectors
  end.
Definition bdrv_commit (bs : BlockDriverState) : option (Z * BlockDriverState) :=
  match drv bs with
  | NoDriver => Some (- ENOMEDIUM, bs)
  | RawDriver _ => Some (if read_only bs then - EACCES else - ENOTSUP, bs)
  | CowDriver s backing =>
      if read_only bs then Some (- EACCES, bs) else
      match backing with
      | None => Some (- ENOTSUP, bs)
      | Some b =>
          let total_sectors := Z.shiftr (bdrv_getlength bs) SECTOR_BITS in
          r ← commit_loop (Z.to_nat total_sectors) bs b s 0 total_sectors;
          let '(e, b) := (r : Z * BlockDriverState) in Some (e, set_drv (CowDriver s (Some b)) bs)
      end
  end.
