(* ===== verification/BlockView.v ===== *)
(** An image is an array of bytes: what reading and writing do to the contents of
    the images of Block, whichever driver they have. *)
From S2P Require Import Prelude QTimer QFile Block.

(** * Bytes of a file *)

Definition at_ (l : list Z) (k : Z) : Z := default 0 (l !! Z.to_nat k).

Lemma take_drop_at l a n : 0 <= a -> 0 <= n -> a + n <= Z.of_nat (length l) ->
  take (Z.to_nat n) (drop (Z.to_nat a) l) = map (at_ l) (seqZ a n).
Proof.
  intros Ha Hn Hl. apply list_eq. intros i. rewrite list_lookup_fmap. destruct (decide (i < Z.to_nat n)%nat).
  - rewrite lookup_take_lt, lookup_drop by done. rewrite lookup_seqZ_lt by lia. cbn. unfold at_. replace (Z.to_nat (a + Z.of_nat i)) with (Z.to_nat a + i)%nat by lia.
    destruct (l !! (Z.to_nat a + i)%nat) eqn:E; [done|]. apply lookup_ge_None in E. lia.
  - rewrite lookup_take_ge by lia. by rewrite lookup_seqZ_ge by lia.
Qed.
Lemma length_map_at l a n : length (map (at_ l) (seqZ a n)) = Z.to_nat n.
Proof. by rewrite length_map, length_seqZ. Qed.
Lemma map_seqZ_app {A} (f : Z -> A) a n m : 0 <= n -> 0 <= m -> map f (seqZ a n) ++ map f (seqZ (a + n) m) = map f (seqZ a (n + m)).
Proof. intros. by rewrite seqZ_app, map_app by done. Qed.
Lemma map_seqZ_ext {A} (f g : Z -> A) a n : (forall k, a <= k < a + n -> f k = g k) -> map f (seqZ a n) = map g (seqZ a n).
Proof. intros H. apply map_ext_in. intros k Hk%list_elem_of_In%elem_of_seqZ. apply H. lia. Qed.
Lemma at_splice l p bs k : 0 <= p -> 0 <= k ->
  at_ (splice l (Z.to_nat p) bs) k = if decide (p <= k < p + Z.of_nat (length bs)) then at_ bs (k - p) else at_ l k.
Proof.
  intros Hp Hk. unfold at_, splice. set (l' := l ++ replicate (Z.to_nat p - length l) 0).
  assert (Z.to_nat p <= length l')%nat as Hl by (unfold l'; rewrite length_app, length_replicate; lia).
  assert (forall j : nat, (j < Z.to_nat p)%nat -> default 0 (l' !! j) = default 0 (l !! j)) as Hj.
  { intros j Hj. unfold l'. destruct (decide (j < length l)%nat) as [H|H]; [by rewrite lookup_app_l|].
    rewrite lookup_app_r, (lookup_ge_None_2 l) by lia. cbn.
    destruct (replicate (Z.to_nat p - length l) 0 !! (j - length l)%nat) eqn:E; [|done]. by apply lookup_replicate in E as [-> _]. }
  case_decide.
  - rewrite lookup_app_r, length_take by (rewrite length_take; lia). rewrite lookup_app_l by lia. do 2 f_equal. lia.
  - destruct (decide (k < p)).
    + rewrite lookup_app_l by (rewrite length_take; lia). rewrite lookup_take_lt by lia. apply Hj. lia.
    + rewrite lookup_app_r, length_take by (rewrite length_take; lia). rewrite lookup_app_r, lookup_drop by lia. do 2 f_equal. lia.
Qed.
Lemma length_splice_ge l p bs : (Nat.max (length l) (p + length bs) <= length (splice l p bs))%nat.
Proof.
  unfold splice. rewrite !length_app, length_take, length_app, length_replicate, length_drop. lia.
Qed.
Lemma at_insert l a v k : 0 <= a < Z.of_nat (length l) -> 0 <= k -> at_ (<[Z.to_nat a := v]> l) k = if decide (k = a) then v else at_ l k.
Proof.
  intros Ha Hk. unfold at_. case_decide as H; [subst; by rewrite list_lookup_insert_eq by lia|].
  rewrite list_lookup_insert_ne by lia. done.
Qed.

(** * The bitmap *)

Lemma whole_pages_ge n : n <= whole_pages n.
Proof.
  unfold whole_pages, PAGE. change (- (4096)) with (Z.lnot (Z.ones 12)). rewrite <- Z.ldiff_land, Z.ldiff_ones_r by lia.
  rewrite Z.shiftl_mul_pow2, Z.shiftr_div_pow2 by lia. Z.div_mod_to_equations. lia.
Qed.

(** The mapping covers the bitmap and the sectors are behind it. *)
Record mapped (total : Z) (s : BDRVCowState) : Prop := Mapped {
  mp_total : 0 <= total;
  mp_header : 0 <= cow_header s;
  mp_bits : cow_header s + (total + 7) / 8 <= cow_bitmap_size s;
  mp_file : cow_header s + (total + 7) / 8 <= Z.of_nat (length (cow_file s));
  mp_sectors : cow_bitmap_size s <= cow_sectors_offset s;
  mp_bytes : Forall is_u8 (cow_file s)
}.
Definition bit (s : BDRVCowState) (i : Z) : bool := Z.testbit (at_ (cow_file s) (cow_header s + i / 8)) (i mod 8).

Lemma at_u8 l k : Forall is_u8 l -> is_u8 (at_ l k).
Proof. intros H. unfold at_. destruct (l !! Z.to_nat k) eqn:E; [by eapply Forall_lookup in H|by unfold is_u8]. Qed.

Lemma map_get_ok total s k : mapped total s -> 0 <= k < (total + 7) / 8 -> map_get s k = Some (at_ (cow_file s) (cow_header s + k)).
Proof.
  intros [] Hk. unfold map_get. pose proof (whole_pages_ge (cow_bitmap_size s)). rewrite decide_True by lia.
  destruct (Z.ltb_spec (cow_header s + k) (Z.of_nat (length (cow_file s)))); [|lia].
  unfold aget, at_. rewrite decide_True by lia. destruct (cow_file s !! Z.to_nat (cow_header s + k)) eqn:E; [done|]. apply lookup_ge_None in E. lia.
Qed.
Lemma bit_byte total i : 0 <= i < total -> 0 <= i / 8 < (total + 7) / 8.
Proof. intros. Z.div_mod_to_equations. lia. Qed.
Lemma is_bit_set_ok total s i : mapped total s -> 0 <= i < total -> is_bit_set s i = Some (bit s i).
Proof.
  intros Hs Hi. unfold is_bit_set. rewrite Z.quot_div_nonneg, Z.rem_mod_nonneg by lia.
  rewrite (map_get_ok total) by (done || by apply bit_byte). cbn [mbind option_bind]. f_equal. unfold bit.
  rewrite land_bit by (Z.div_mod_to_equations; lia). apply negb_involutive.
Qed.

(** What setting bits changes: the bits, and nothing behind the bitmap. *)
Record marks (total : Z) (s s' : BDRVCowState) (a n : Z) : Prop := Marks {
  mk_mapped : mapped total s';
  mk_bits : forall i, 0 <= i < total -> bit s' i = bit s i || (bool_decide (a <= i < a + n));
  mk_length : length (cow_file s') = length (cow_file s);
  mk_place : cow_header s' = cow_header s /\ cow_bitmap_size s' = cow_bitmap_size s /\ cow_sectors_offset s' = cow_sectors_offset s;
  mk_behind : forall k, cow_bitmap_size s <= k -> at_ (cow_file s') k = at_ (cow_file s) k
}.
Lemma marks_trans total s1 s2 s3 a n m : 0 <= n -> 0 <= m -> marks total s1 s2 a n -> marks total s2 s3 (a + n) m -> marks total s1 s3 a (n + m).
Proof.
  intros Hn Hm [_ B1 L1 (P1 & Q1 & R1) K1] [M2 B2 L2 (P2 & Q2 & R2) K2]. split; [done| |congruence|by repeat split; congruence|].
  - intros i Hi. rewrite B2, B1, <- orb_assoc by done. f_equal. repeat case_bool_decide; done || lia.
  - intros k Hk. rewrite K2, K1; congruence || lia.
Qed.

Lemma set_bit_ok total s i : mapped total s -> 0 <= i < total -> exists s', cow_set_bit s i = Some s' /\ marks total s s' i 1.
Proof.
  intros Hs Hi. unfold cow_set_bit. rewrite Z.quot_div_nonneg, Z.rem_mod_nonneg by lia. pose proof (bit_byte total i Hi) as Hb.
  rewrite (map_get_ok total) by done. cbn [mbind option_bind]. destruct Hs as [Ht Hh Hm Hf Hsec Hu]. unfold map_set.
  pose proof (whole_pages_ge (cow_bitmap_size s)). rewrite decide_True by lia.
  set (v := u8 (Z.lor _ _)). rewrite aset_Some by lia. cbn [mbind option_bind]. eexists. split; [reflexivity|].
  split; cbn; rewrite ?length_insert; try done.
  - split; cbn; rewrite ?length_insert; try done. apply Forall_insert; [done|apply u8_range].
  - intros j Hj. unfold bit. cbn. pose proof (bit_byte total j Hj). rewrite at_insert by lia.
    case_decide as E.
    + unfold v. rewrite set_bit_testbit by (Z.div_mod_to_equations; lia). rewrite orb_comm.
      replace (i / 8) with (j / 8) by lia. f_equal. case_bool_decide; [apply Z.eqb_eq|apply Z.eqb_neq]; Z.div_mod_to_equations; lia.
    + rewrite bool_decide_false, orb_false_r; [done|]. intros ?. apply E. do 2 f_equal. lia.
  - intros k Hk. rewrite at_insert by lia. by rewrite decide_False by lia.
Qed.
Lemma set_bits_ok total n : forall s a, mapped total s -> 0 <= a -> a + Z.of_nat n <= total ->
  exists s', set_bits n s a = Some s' /\ marks total s s' a (Z.of_nat n).
Proof.
  induction n as [|n IH]; intros s a Hs Ha Hn; cbn [set_bits].
  - exists s. split; [done|]. split; try done. intros i Hi. by rewrite bool_decide_false, orb_false_r by lia.
  - destruct (set_bit_ok total s a Hs) as (s1 & E1 & M1); [lia|]. rewrite E1. cbn [mbind option_bind].
    destruct (IH s1 (a + 1) (mk_mapped _ _ _ _ _ M1)) as (s2 & E2 & M2); [lia..|]. exists s2. split; [done|].
    replace (Z.of_nat (S n)) with (1 + Z.of_nat n) by lia. by apply marks_trans with s1; [lia..| |].
Qed.

(** Runs of sectors: all with the same bit. *)
Lemma same_loop_ok total n : forall s changed a k, mapped total s -> 0 <= a + k -> a + k + Z.of_nat n <= total ->
  exists m, same_loop n s changed a k = Some m /\ k <= m <= k + Z.of_nat n /\
    forall i, a + k <= i < a + m -> bit s i = changed.
Proof.
  induction n as [|n IH]; intros s changed a k Hs Ha Hn; cbn [same_loop]; [exists k; split; [done|]; split; [lia|]; intros; lia|].
  rewrite (is_bit_set_ok total) by (done || lia). cbn [mbind option_bind]. destruct (eqb_spec (bit s (a + k)) changed) as [E|E].
  - destruct (IH s changed a (k + 1) Hs) as (m & Em & Hm & Hb); [lia..|]. exists m. split; [done|]. split; [lia|].
    intros i Hi. destruct (decide (i = a + k)) as [->|]; [done|]. apply Hb. lia.
  - exists k. split; [done|]. split; [lia|]. intros; lia.
Qed.
Lemma is_changed_ok total s a n : mapped total s -> 0 <= a -> 0 < n -> a + n <= total ->
  exists k, is_changed s a n = Some (bit s a, k) /\ 1 <= k <= n /\ forall i, a <= i < a + k -> bit s i = bit s a.
Proof.
  intros Hs Ha Hn Hl. unfold is_changed. destruct (Z.eqb_spec n 0); [lia|]. rewrite (is_bit_set_ok total) by (done || lia).
  cbn [mbind option_bind]. destruct (same_loop_ok total (Z.to_nat (n - 1)) s (bit s a) a 1 Hs) as (m & E & Hm & Hb); [lia..|].
  rewrite E. cbn [mbind option_bind]. exists m. split; [done|]. split; [lia|]. intros i Hi.
  destruct (decide (i = a)) as [->|]; [done|]. apply Hb. lia.
Qed.

(** * Contents *)

Section View.
Fixpoint view (bs : BlockDriverState) (k : Z) : Z :=
  match bs with MkBs _ _ boot d =>
    let from_driver :=
      match d with
      | NoDriver => 0
      | RawDriver file => at_ file k
      | CowDriver s backing =>
          if bit s (k / 512) then at_ (cow_file s) (cow_sectors_offset s + k)
          else match backing with Some b => view b k | None => 0 end
      end in
    match boot with Some data => if k <? 512 then at_ data k else from_driver | None => from_driver end
  end.
(** An image with all its data: the sectors of a raw file, those that a
    copy-on-write image has written, and the others in the image behind it. *)
Definition has_data (total : Z) (s : BDRVCowState) : Prop :=
  forall i, 0 <= i < total -> bit s i = true -> cow_sectors_offset s + 512 * (i + 1) <= Z.of_nat (length (cow_file s)).
Fixpoint complete (bs : BlockDriverState) : Prop :=
  match bs with MkBs _ total boot d =>
    0 <= total /\ match boot with Some data => length data = 512%nat /\ Forall is_u8 data | None => True end /\
    match d with
    | NoDriver => False
    | RawDriver file => 512 * total <= Z.of_nat (length file) /\ Forall is_u8 file
    | CowDriver s backing =>
        mapped total s /\ has_data total s /\
        match backing with Some b => complete b /\ total <= total_sectors b | None => True end
    end
  end.
End View.

Definition sectors_of (f : Z -> Z) (a n : Z) : list Z := map f (seqZ (512 * a) (512 * n)).
Lemma sectors_app f a n m : 0 <= n -> 0 <= m -> sectors_of f a n ++ sectors_of f (a + n) m = sectors_of f a (n + m).
Proof. intros. unfold sectors_of. replace (512 * (a + n)) with (512 * a + 512 * n) by lia. rewrite map_seqZ_app by lia. f_equal. f_equal. lia. Qed.
Lemma sectors_ext f g a n : (forall k, 512 * a <= k < 512 * (a + n) -> f k = g k) -> sectors_of f a n = sectors_of g a n.
Proof. intros H. apply map_seqZ_ext. intros k Hk. apply H. lia. Qed.
Lemma map_shift (f : Z -> Z) a b n : map f (seqZ (a + b) n) = map (fun k => f (a + k)) (seqZ b n).
Proof.
  apply list_eq. intros i. rewrite !list_lookup_fmap. destruct (decide (Z.of_nat i < n)).
  - rewrite !lookup_seqZ_lt by done. cbn. do 2 f_equal. lia.
  - rewrite !lookup_seqZ_ge by lia. done.
Qed.
Lemma map_zero a n : map (fun _ : Z => 0) (seqZ a n) = replicate (Z.to_nat n) 0.
Proof. rewrite <- (length_seqZ a n). induction (seqZ a n) as [|x l IH]; [done|]. cbn. by rewrite IH. Qed.

Lemma view_u8 bs k : complete bs -> is_u8 (view bs k).
Proof.
  revert bs. fix IH 1. intros [ro total boot d] (_ & Hboot & Hd).
  assert (is_u8 (match d with
      | NoDriver => 0
      | RawDriver file => at_ file k
      | CowDriver s backing => if bit s (k / 512) then at_ (cow_file s) (cow_sectors_offset s + k) else match backing with Some b => view b k | None => 0 end
      end)) as H.
  { destruct d as [|file|s [b|]]; [done|apply at_u8, Hd|..]; destruct Hd as (Hm & _ & Hb); cbn.
    - destruct (bit _ _); [apply at_u8, Hm|apply IH, Hb].
    - destruct (bit _ _); [apply at_u8, Hm|by unfold is_u8]. }
  destruct boot as [data|]; [|exact H]. cbn. destruct (k <? 512); [apply at_u8, Hboot|exact H].
Qed.

(** ** Reading *)

Lemma cow_read_ok total s (base : Z -> Z -> option (Z * list Z)) (f : Z -> Z) top n : mapped total s -> has_data total s ->
  (forall a m, 0 <= a -> 0 < m <= top -> a + m <= total -> base a m = Some (0, sectors_of f a m)) ->
  forall a m, 0 <= a -> 0 <= m <= Z.of_nat n -> m <= top -> a + m <= total ->
  cow_read_loop n base s a m =
    Some (0, sectors_of (fun k => if bit s (k / 512) then at_ (cow_file s) (cow_sectors_offset s + k) else f k) a m).
Proof.
  intros Hs Hd Hb. set (g := fun k => if bit s (k / 512) then _ else _).
  induction n as [|n IH]; intros a m Ha Hm Htop Ht; cbn [cow_read_loop]; destruct (Z.leb_spec m 0) as [Hz|Hz]; try lia.
  1, 2: replace m with 0 by lia; done.
  destruct (is_changed_ok total s a m Hs Ha) as (k & E & Hk & Hsame); [lia..|]. rewrite E. cbn [mbind option_bind].
  assert (forall j, 512 * a <= j < 512 * (a + k) -> bit s (j / 512) = bit s a) as Hj.
  { intros j Hj. apply Hsame. Z.div_mod_to_equations. lia. }
  assert ((if bit s a then
             bs ← fread_at (cow_file s) (cow_sectors_offset s + a * 512) (Z.to_nat (k * 512));
             Some (if Z.of_nat (length bs) =? k * 512 then 0 else -1, bs)
           else base a k) = Some (0, sectors_of g a k)) as ->.
  { destruct (bit s a) eqn:Eb.
    - pose proof (Hd (a + k - 1) ltac:(lia) ltac:(rewrite Hsame by lia; done)) as Hlen.
      pose proof (mp_header _ _ Hs). pose proof (mp_bits _ _ Hs). pose proof (mp_sectors _ _ Hs). pose proof (mp_total _ _ Hs).
      assert (0 <= (total + 7) / 8) by (apply Z.div_pos; lia).
      rewrite fread_at_Some by lia. cbn [mbind option_bind]. rewrite take_drop_at by lia. rewrite length_map_at, Z2Nat.id, Z.eqb_refl by lia.
      do 2 f_equal. rewrite map_shift. unfold sectors_of. rewrite (Z.mul_comm k), (Z.mul_comm a). apply map_seqZ_ext.
      intros j Hj'. unfold g. rewrite Hj by lia. done.
    - rewrite Hb by lia. do 2 f_equal. apply sectors_ext. intros j Hj'. unfold g. by rewrite Hj by lia. }
  cbn [mbind option_bind]. change (0 <? 0) with false. cbv iota. rewrite IH by lia. cbn [mbind option_bind]. do 2 f_equal.
  rewrite sectors_app by lia. f_equal. lia.
Qed.

(** What the driver reads, without the boot sector. *)
Definition driver_view (d : driver BlockDriverState) (k : Z) : Z :=
  match d with
  | NoDriver => 0
  | RawDriver file => at_ file k
  | CowDriver s backing =>
      if bit s (k / 512) then at_ (cow_file s) (cow_sectors_offset s + k)
      else match backing with Some b => view b k | None => 0 end
  end.
Definition driver_read (d : driver BlockDriverState) (sector_num nb_sectors : Z) : option (Z * list Z) :=
  match d with
  | NoDriver => Some (- ENOMEDIUM, [])
  | RawDriver file =>
      let len := s32 (nb_sectors * 512) in
      r ← raw_pread file (sector_num * 512) len;
      let '(ret, bs) := (r : Z * list Z) in Some (sector_result ret len EINVAL, bs)
  | CowDriver s backing =>
      cow_read (fun a n => match backing with
                           | Some b => bdrv_read b a n
                           | None => Some (0, replicate (Z.to_nat (n * 512)) 0)
                           end) s sector_num nb_sectors
  end.

(** Reading gives the contents. *)
Lemma bdrv_read_ok bs : complete bs -> forall a n, 0 <= a -> 0 <= n < 2 ^ 22 -> a + n <= total_sectors bs ->
  bdrv_read bs a n = Some (0, sectors_of (view bs) a n).
Proof.
  revert bs. fix IH 1. intros [ro total boot d] (Ht & Hboot & Hd) a n Ha Hn Hl. cbn [total_sectors] in Hl.
  assert (d <> NoDriver) as Hnd by (intros ->; done).
  assert (forall a n, 0 <= a -> 0 <= n < 2 ^ 22 -> a + n <= total -> driver_read d a n = Some (0, sectors_of (driver_view d) a n)) as Hr.
  { clear a n Ha Hn Hl Hboot. intros a n Ha Hn Hl. destruct d as [|file|s backing]; [done| |].
    - destruct Hd as [Hd _]. unfold driver_read, raw_pread. rewrite s32_small by (unfold is_s32; lia). rewrite fread_at_Some, take_drop_at by lia.
      cbn [mbind option_bind]. rewrite length_map_at, Z2Nat.id by lia. unfold sector_result. destruct (Z.ltb_spec (n * 512) 0); [lia|].
      rewrite Z.eqb_refl. cbn [negb]. unfold sectors_of. by rewrite (Z.mul_comm a), (Z.mul_comm n).
    - destruct Hd as (Hm & Hdata & Hb). unfold driver_read, cow_read.
      apply (cow_read_ok total _ _ _ n); [done|done| |lia|lia|lia|lia]. intros a' m Ha' Hm' Hl'. destruct backing as [b|].
      + apply IH; [apply Hb|lia|lia|lia].
      + do 2 f_equal. unfold sectors_of. rewrite map_zero. by rewrite (Z.mul_comm m). }
  clear IH. change (bdrv_read (MkBs ro total boot d) a n) with
    (match d, boot with
     | NoDriver, _ => Some (- ENOMEDIUM, [])
     | _, Some data =>
         if (a =? 0) && (0 <? n) then
           if n - 1 =? 0 then Some (0, data)
           else r ← driver_read d (a + 1) (n - 1); let '(e, bs) := (r : Z * list Z) in Some (e, data ++ bs)
         else driver_read d a n
     | _, None => driver_read d a n
     end).
  destruct boot as [data|]; [|destruct d; [done|by apply Hr..]].
  assert (forall k, view (MkBs ro total (Some data) d) k = if k <? 512 then at_ data k else driver_view d k) as Hv by done.
  destruct (Z.eqb_spec a 0) as [->|Ha0]; cbn [andb].
  2: { transitivity (driver_read d a n); [by destruct d|]. rewrite Hr by lia. do 2 f_equal. apply sectors_ext. intros k Hk.
       rewrite Hv. destruct (Z.ltb_spec k 512); [lia|done]. }
  destruct (Z.ltb_spec 0 n) as [Hn0|Hn0]; cbn [andb].
  2: { transitivity (driver_read d 0 n); [by destruct d|]. rewrite Hr by lia. by replace n with 0 by lia. }
  assert (sectors_of (view (MkBs ro total (Some data) d)) 0 n = data ++ sectors_of (driver_view d) 1 (n - 1)) as ->.
  { replace n with (1 + (n - 1)) at 1 by lia. rewrite <- sectors_app by lia. f_equal.
    - rewrite (sectors_ext _ (at_ data)) by (intros k Hk; rewrite Hv; destruct (Z.ltb_spec k 512); [done|lia]).
      unfold sectors_of. rewrite <- take_drop_at by lia. change (Z.to_nat (512 * 0)) with 0%nat. rewrite drop_0. apply take_ge. lia.
    - apply sectors_ext. intros k Hk. rewrite Hv. destruct (Z.ltb_spec k 512); [lia|done]. }
  transitivity (if n - 1 =? 0 then Some (0, data)
                else r ← driver_read d (0 + 1) (n - 1); let '(e, bs) := (r : Z * list Z) in Some (e, data ++ bs)); [by destruct d|].
  destruct (Z.eqb_spec (n - 1) 0) as [E|E]; [by rewrite E, app_nil_r|]. rewrite Hr by lia. done.
Qed.

(** ** Writing *)

Definition backing_hd (bs : BlockDriverState) : option BlockDriverState :=
  match drv bs with CowDriver _ b => b | _ => None end.
(** The bytes from [p] replaced. *)
Definition patched (f : Z -> Z) (p : Z) (bs : list Z) (k : Z) : Z :=
  if decide (p <= k < p + Z.of_nat (length bs)) then at_ bs (k - p) else f k.
(** [bs'] is [bs] with these bytes written. *)
Record written (bs bs' : BlockDriverState) (p : Z) (l : list Z) : Prop := Written {
  wr_complete : complete bs';
  wr_total : total_sectors bs' = total_sectors bs;
  wr_ro : read_only bs' = read_only bs;
  wr_backing : backing_hd bs' = backing_hd bs;
  wr_boot : boot_sector bs = None -> boot_sector bs' = None;
  wr_view : forall k, 0 <= k < 512 * total_sectors bs -> view bs' k = patched (view bs) p l k
}.

Lemma Forall_splice (P : Z -> Prop) l p bs : P 0 -> Forall P l -> Forall P bs -> Forall P (splice l p bs).
Proof.
  intros H0 Hl Hb. unfold splice. rewrite !Forall_app. split; [|split; [done|by apply Forall_drop]].
  apply Forall_take, Forall_app. split; [done|by apply Forall_replicate].
Qed.
Lemma is_u8_0 : is_u8 0.
Proof. by unfold is_u8. Qed.

(** Bytes behind the bitmap leave it alone. *)
Lemma data_kept total s p bs : mapped total s -> cow_sectors_offset s <= p -> Forall is_u8 bs ->
  let s' := c_file (splice (cow_file s) (Z.to_nat p) bs) s in
  mapped total s' /\ forall i, 0 <= i < total -> bit s' i = bit s i.
Proof.
  intros [Ht Hh Hm Hf Hs Hu] Hp Hb s'. assert (0 <= (total + 7) / 8) by (apply Z.div_pos; lia).
  pose proof (length_splice_ge (cow_file s) (Z.to_nat p) bs) as Hl. split.
  - split; cbn; try done; [lia|]. by apply Forall_splice; [apply is_u8_0| |].
  - intros i Hi. unfold bit. cbn. pose proof (bit_byte total i Hi). rewrite at_splice by lia. by rewrite decide_False by lia.
Qed.

Lemma at_take l n k : k < n -> 0 <= k -> at_ (take (Z.to_nat n) l) k = at_ l k.
Proof. intros. unfold at_. by rewrite lookup_take_lt by lia. Qed.

Lemma cow_write_ok total s a n buf : mapped total s -> has_data total s -> 0 <= a -> 0 <= n -> a + n <= total ->
  Z.of_nat (length buf) = 512 * n -> Forall is_u8 buf ->
  exists s', cow_write s a buf n = Some (0, s') /\ mapped total s' /\ has_data total s' /\
    cow_sectors_offset s' = cow_sectors_offset s /\
    (forall i, 0 <= i < total -> bit s' i = bit s i || bool_decide (a <= i < a + n)) /\
    forall k, 0 <= k -> at_ (cow_file s') (cow_sectors_offset s' + k) = patched (fun k => at_ (cow_file s) (cow_sectors_offset s + k)) (512 * a) buf k.
Proof.
  intros Hs Hd Ha Hn Ht Hl Hu. pose proof Hs as [Ht0 Hh Hm Hf Hsec Hb]. assert (0 <= (total + 7) / 8) by (apply Z.div_pos; lia).
  unfold cow_write. rewrite fwrite_at_Some by lia. cbn [mbind option_bind]. rewrite take_ge by lia.
  destruct (data_kept total s (cow_sectors_offset s + a * 512) buf Hs) as [Hs1 Hbits]; [lia|done|].
  set (s1 := c_file _ s) in *. destruct (set_bits_ok total (Z.to_nat n) s1 a Hs1) as (s2 & -> & [M B L (P & Q & R) K]); [lia..|].
  rewrite Z2Nat.id in B by lia. cbn [mbind option_bind]. exists s2. split; [done|]. split; [done|].
  change (cow_sectors_offset s1) with (cow_sectors_offset s) in R.
  pose proof (length_splice_ge (cow_file s) (Z.to_nat (cow_sectors_offset s + a * 512)) buf) as Hlen.
  change (splice _ _ _) with (cow_file s1) in Hlen. split; [|split; [done|split]].
  - intros i Hi Hbi. rewrite B, Hbits in Hbi by done. rewrite L, R. apply orb_true_iff in Hbi as [Hbi|Hbi].
    + pose proof (Hd i Hi Hbi). lia.
    + apply bool_decide_eq_true in Hbi. lia.
  - intros i Hi. by rewrite B, Hbits.
  - intros k Hk. rewrite R, K by (cbn; lia). cbn. rewrite at_splice by lia. unfold patched. repeat case_decide; try lia.
    f_equal. lia.
Qed.

Lemma patched_ext f g p l k : f k = g k -> patched f p l k = patched g p l k.
Proof. intros E. unfold patched. by case_decide. Qed.

Lemma bdrv_write_ok bs a n buf : complete bs -> read_only bs = false -> 0 <= a -> 0 <= n < 2 ^ 22 -> a + n <= total_sectors bs ->
  Z.of_nat (length buf) = 512 * n -> Forall is_u8 buf ->
  exists bs', bdrv_write bs a buf n = Some (0, bs') /\ written bs bs' (512 * a) buf.
Proof.
  destruct bs as [ro total boot d]. intros (Ht & Hboot & Hd) Hro Ha Hn Hl Hlen Hu. cbn [total_sectors read_only] in *. subst ro.
  set (boot' := match boot with Some _ => if (a =? 0) && (0 <? n) then Some (take 512 buf) else boot | None => None end).
  assert (match boot' with Some data => length data = 512%nat /\ Forall is_u8 data | None => True end) as Hboot'.
  { unfold boot'. destruct boot; [|done]. destruct (Z.eqb_spec a 0), (Z.ltb_spec 0 n); cbn; try done. rewrite length_take.
    split; [lia|by apply Forall_take]. }
  assert (exists d', bdrv_write (MkBs false total boot d) a buf n = Some (0, MkBs false total boot' d') /\
    (match d' with
     | NoDriver => False
     | RawDriver file => 512 * total <= Z.of_nat (length file) /\ Forall is_u8 file
     | CowDriver s b => mapped total s /\ has_data total s /\ match b with Some b => complete b /\ total <= total_sectors b | None => True end
     end) /\ match d, d' with CowDriver _ b, CowDriver _ b' => b' = b | RawDriver _, RawDriver _ => True | _, _ => False end /\
    forall k, 0 <= k < 512 * total -> driver_view d' k = patched (driver_view d) (512 * a) buf k) as (d' & E & Hd' & Hback & Hv).
  { destruct d as [|file|s backing]; [done| |].
    - destruct Hd as [Hd Hfu]. eexists. split.
      + unfold bdrv_write. cbn [drv read_only boot_sector]. rewrite s32_small by (unfold is_s32; lia). unfold raw_pwrite.
        rewrite fwrite_at_Some by lia. cbn [mbind option_bind]. unfold sector_result. destruct (Z.ltb_spec (n * 512) 0); [lia|].
        rewrite Z.eqb_refl, take_ge by lia. cbn [negb]. unfold boot'. destruct boot; [destruct (_ && _)|]; reflexivity.
      + cbn beta iota. pose proof (length_splice_ge file (Z.to_nat (a * 512)) buf).
        split; [split; [lia|by apply Forall_splice; [apply is_u8_0| |]]|]. split; [done|]. intros k Hk. cbn.
        rewrite at_splice by lia. unfold patched. by rewrite (Z.mul_comm a).
    - destruct Hd as (Hm & Hdata & Hb). destruct (cow_write_ok total s a n buf Hm Hdata Ha ltac:(lia) Hl Hlen Hu) as (s' & E & Hm' & Hd' & Ho & Hbits & Hv).
      exists (CowDriver s' backing). split; [|split; [done|split; [done|]]].
      + unfold bdrv_write. cbn [drv read_only boot_sector]. rewrite E. cbn [mbind option_bind]. unfold boot'. destruct boot; [destruct (_ && _)|]; reflexivity.
      + intros k Hk. cbn. rewrite Hbits by (Z.div_mod_to_equations; lia). rewrite Hv by lia. unfold patched. case_bool_decide as Hr; case_decide as Hp.
        * by rewrite orb_true_r.
        * exfalso. Z.div_mod_to_equations. lia.
        * exfalso. Z.div_mod_to_equations. lia.
        * by rewrite orb_false_r. }
  eexists. split; [exact E|]. split; [by split|done|done| |cbn; by intros ->|].
  { unfold backing_hd. cbn. destruct d, d'; done || by subst. }
  intros k Hk. cbn [total_sectors] in Hk. specialize (Hv k Hk). unfold boot' in *. destruct boot as [data|]; [|exact Hv].
  destruct (Z.eqb_spec a 0) as [->|Ha0]; cbn [andb] in *.
  - destruct (Z.ltb_spec 0 n) as [Hn0|Hn0].
    + change (view (MkBs false total (Some (take 512 buf)) d') k) with (if k <? 512 then at_ (take 512 buf) k else driver_view d' k).
      destruct (Z.ltb_spec k 512) as [Hk5|Hk5].
      * unfold patched. rewrite decide_True by lia. rewrite Z.sub_0_r. by apply (at_take buf 512); lia.
      * rewrite Hv. apply patched_ext. change (view (MkBs false total (Some data) d) k) with (if k <? 512 then at_ data k else driver_view d k).
        destruct (Z.ltb_spec k 512); [lia|done].
    + unfold patched in *. rewrite decide_False in * by lia.
      change (view (MkBs false total (Some data) ?x) k) with (if k <? 512 then at_ data k else driver_view x k).
      by destruct (k <? 512).
  - unfold patched in *. change (view (MkBs false total (Some data) d') k) with (if k <? 512 then at_ data k else driver_view d' k).
    change (view (MkBs false total (Some data) d) k) with (if k <? 512 then at_ data k else driver_view d k).
    destruct (Z.ltb_spec k 512) as [Hk5|Hk5]; [|exact Hv]. by rewrite decide_False by lia.
Qed.

(** ** Transfers of bytes *)

Lemma sector_mask x : Z.land x (SECTOR_SIZE - 1) = x mod 512.
Proof. change (SECTOR_SIZE - 1) with (Z.ones 9). by rewrite Z.land_ones by lia. Qed.
Lemma sector_shift x : Z.shiftr x SECTOR_BITS = x / 512.
Proof. by rewrite Z.shiftr_div_pow2 by done. Qed.
Lemma sector_shiftl x : Z.shiftl x SECTOR_BITS = x * 512.
Proof. by rewrite Z.shiftl_mul_pow2 by done. Qed.
Lemma take_map_seqZ (f : Z -> Z) a n m : 0 <= n <= m -> take (Z.to_nat n) (map f (seqZ a m)) = map f (seqZ a n).
Proof.
  intros. replace m with (n + (m - n)) by lia. rewrite <- map_seqZ_app by lia. apply take_app_length'. by rewrite length_map, length_seqZ.
Qed.
Lemma drop_map_seqZ (f : Z -> Z) a n m : 0 <= n <= m -> drop (Z.to_nat n) (map f (seqZ a m)) = map f (seqZ (a + n) (m - n)).
Proof.
  intros. replace m with (n + (m - n)) at 1 by lia. rewrite <- map_seqZ_app by lia. apply drop_app_length'. by rewrite length_map, length_seqZ.
Qed.

Lemma pread_tail_ok bs c a n : complete bs -> 0 <= a -> 0 <= n < 512 -> 512 * a + n <= 512 * total_sectors bs ->
  pread_tail bs c a n = Some (c, map (view bs) (seqZ (512 * a) n)).
Proof.
  intros Hc Ha Hn Hl. unfold pread_tail. destruct (Z.ltb_spec 0 n); [|by replace n with 0 by lia].
  rewrite bdrv_read_ok by (done || lia). cbn [mbind option_bind]. change (0 <? 0) with false. cbv iota.
  unfold sectors_of. by rewrite take_map_seqZ by lia.
Qed.
Lemma pread_middle_ok bs c a n : complete bs -> 0 <= a -> 0 <= n < 2 ^ 31 -> 512 * a + n <= 512 * total_sectors bs ->
  pread_middle bs c a n = Some (c, map (view bs) (seqZ (512 * a) n)).
Proof.
  intros Hc Ha Hn Hl. unfold pread_middle. rewrite sector_shift, sector_shiftl.
  assert (0 <= n - n / 512 * 512 < 512) by (Z.div_mod_to_equations; lia).
  destruct (Z.ltb_spec 0 (n / 512)) as [Hz|Hz]; [|apply pread_tail_ok; try done; Z.div_mod_to_equations; lia].
  rewrite bdrv_read_ok by (done || lia || (Z.div_mod_to_equations; lia)). cbn [mbind option_bind]. change (0 <? 0) with false. cbv iota.
  rewrite pread_tail_ok by (done || lia). cbn [mbind option_bind]. unfold sectors_of.
  replace (512 * (a + n / 512)) with (512 * a + 512 * (n / 512)) by lia. rewrite map_seqZ_app by lia. do 4 f_equal. lia.
Qed.
Lemma head_length o n : 0 < n ->
  let len := if n <? (512 - o) mod 512 then n else (512 - o) mod 512 in
  0 <= len <= n /\ len <= 512 - o mod 512 /\ (n - len <> 0 -> (o + len) mod 512 = 0) /\ (len = 0 -> o mod 512 = 0).
Proof. cbv zeta. destruct (Z.ltb_spec n ((512 - o) mod 512)); Z.div_mod_to_equations; lia. Qed.

Lemma bdrv_pread_em_ok bs o n : complete bs -> 0 <= o -> 0 < n < 2 ^ 31 -> o + n <= 512 * total_sectors bs ->
  bdrv_pread_em bs o n = Some (n, map (view bs) (seqZ o n)).
Proof.
  intros Hc Ho Hn Hl. unfold bdrv_pread_em. rewrite !sector_mask, sector_shift. change SECTOR_SIZE with 512.
  destruct (head_length o n) as (H1 & H2 & H3 & H4); [lia|]. set (len := if _ <? _ then _ else _) in *.
  destruct (Z.ltb_spec 0 len).
  - rewrite bdrv_read_ok by (done || lia || (Z.div_mod_to_equations; lia)). cbn [mbind option_bind]. change (0 <? 0) with false. cbv iota.
    unfold sectors_of. rewrite drop_map_seqZ, take_map_seqZ by (Z.div_mod_to_equations; lia).
    replace (512 * (o / 512) + o mod 512) with o by (Z.div_mod_to_equations; lia).
    destruct (Z.eqb_spec (n - len) 0) as [E|E]; [by replace len with n by lia|]. specialize (H3 E).
    assert (512 * (o / 512 + 1) = o + len) as Eo by (Z.div_mod_to_equations; lia).
    rewrite pread_middle_ok by (done || lia || (Z.div_mod_to_equations; lia)). cbn [mbind option_bind].
    rewrite Eo, map_seqZ_app by lia. do 4 f_equal. lia.
  - specialize (H4 ltac:(lia)). rewrite pread_middle_ok by (done || lia || (Z.div_mod_to_equations; lia)).
    do 4 f_equal. Z.div_mod_to_equations. lia.
Qed.

Lemma at_app l1 l2 k : 0 <= k -> at_ (l1 ++ l2) k = if decide (k < Z.of_nat (length l1)) then at_ l1 k else at_ l2 (k - Z.of_nat (length l1)).
Proof.
  intros Hk. unfold at_. case_decide; [by rewrite lookup_app_l by lia|]. rewrite lookup_app_r by lia. do 2 f_equal. lia.
Qed.
Lemma written_trans bs1 bs2 bs3 p q l1 l2 : written bs1 bs2 p l1 -> written bs2 bs3 q l2 -> 0 <= p ->
  q = p + Z.of_nat (length l1) -> written bs1 bs3 p (l1 ++ l2).
Proof.
  intros [_ T1 R1 B1 O1 V1] [C2 T2 R2 B2 O2 V2] Hp ->. split; [done|congruence..|by auto|]. intros k Hk. rewrite V2 by (rewrite T1; lia).
  specialize (V1 k Hk). unfold patched. rewrite length_app. case_decide as H2.
  - rewrite decide_True by lia. rewrite at_app by lia. rewrite decide_False by lia. f_equal. lia.
  - rewrite V1. unfold patched. case_decide as H1.
    + rewrite decide_True by lia. rewrite at_app by lia. by rewrite decide_True by lia.
    + by rewrite decide_False by lia.
Qed.
Lemma written_nil bs p : complete bs -> written bs bs p [].
Proof. intros Hc. split; try done. intros k _. unfold patched. by rewrite decide_False by (cbn; lia). Qed.

Lemma at_map_seqZ (f : Z -> Z) a n k : 0 <= k < n -> at_ (map f (seqZ a n)) k = f (a + k).
Proof. intros. unfold at_. rewrite list_lookup_fmap, lookup_seqZ_lt by lia. cbn. f_equal. lia. Qed.

Lemma pwrite_part_ok bs a o l : complete bs -> read_only bs = false -> 0 <= a -> a + 1 <= total_sectors bs ->
  0 <= o -> o + Z.of_nat (length l) <= 512 -> Forall is_u8 l ->
  exists bs', pwrite_part bs a o l = Some (0, bs') /\ written bs bs' (512 * a + o) l.
Proof.
  intros Hc Hro Ha Ht Ho Hl Hu. unfold pwrite_part. rewrite bdrv_read_ok by (done || lia). cbn [mbind option_bind].
  change (0 <? 0) with false. cbv iota. set (sec := sectors_of (view bs) a 1).
  assert (length sec = 512%nat) as Ls by (unfold sec, sectors_of; rewrite length_map, length_seqZ; lia).
  destruct (awrite_Some sec o l) as [tmp E]; [lia..|]. rewrite E. cbn [mbind option_bind]. pose proof (length_awrite _ _ _ _ E) as Lt.
  assert (Forall is_u8 sec) as Hsu by (apply Forall_forall; intros x (k & -> & _)%list_elem_of_fmap; by apply view_u8).
  assert (tmp = splice sec (Z.to_nat o) l) as ->.
  { unfold awrite in E. case_decide; simplify_eq. by rewrite splice_in by lia. }
  destruct (bdrv_write_ok bs a 1 (splice sec (Z.to_nat o) l)) as (bs' & -> & [C T R B O V]); try done; [lia| |].
  { by apply Forall_splice; [apply is_u8_0| |]. }
  cbn [mbind option_bind]. change (0 <? 0) with false. cbv iota. exists bs'. split; [done|]. split; try done.
  intros k Hk. rewrite V by done. unfold patched. rewrite Lt, Ls. case_decide as H1.
  - rewrite at_splice by lia. case_decide; [rewrite decide_True by lia; f_equal; lia|rewrite decide_False by lia].
    unfold sec, sectors_of. rewrite at_map_seqZ by lia. f_equal. lia.
  - by rewrite decide_False by lia.
Qed.
Lemma pwrite_tail_ok bs c a l n : complete bs -> read_only bs = false -> 0 <= c -> 0 <= a -> n = Z.of_nat (length l) -> n < 512 ->
  512 * a + n <= 512 * total_sectors bs -> Forall is_u8 l ->
  exists bs', pwrite_tail bs c a l n = Some (c, bs') /\ written bs bs' (512 * a) l.
Proof.
  intros Hc Hro Hc0 Ha -> Hn Hl Hu. unfold pwrite_tail. destruct (Z.ltb_spec 0 (Z.of_nat (length l))).
  - rewrite take_ge by lia. destruct (pwrite_part_ok bs a 0 l) as (bs' & -> & W); try done; [lia..|]. cbn [mbind option_bind].
    rewrite Z.add_0_r in W. by exists bs'.
  - destruct l; [|cbn in *; lia]. exists bs. split; [done|by apply written_nil].
Qed.
Lemma pwrite_middle_ok bs c a l n : complete bs -> read_only bs = false -> 0 <= c -> 0 <= a -> n = Z.of_nat (length l) -> n < 2 ^ 31 ->
  512 * a + n <= 512 * total_sectors bs -> Forall is_u8 l ->
  exists bs', pwrite_middle bs c a l n = Some (c, bs') /\ written bs bs' (512 * a) l.
Proof.
  intros Hc Hro Hc0 Ha Hn Hn2 Hl Hu. unfold pwrite_middle. rewrite sector_shift, sector_shiftl.
  assert (0 <= n - n / 512 * 512 < 512) by (Z.div_mod_to_equations; lia).
  destruct (Z.ltb_spec 0 (n / 512)) as [Hz|Hz]; [|apply pwrite_tail_ok; try done; Z.div_mod_to_equations; lia].
  set (k := n / 512 * 512) in *. assert (length (take (Z.to_nat k) l) = Z.to_nat k) as Lk by (rewrite length_take; lia).
  destruct (bdrv_write_ok bs a (n / 512) (take (Z.to_nat k) l)) as (bs1 & -> & W1); try done; [lia|lia|lia|by apply Forall_take|].
  cbn [mbind option_bind]. change (0 <? 0) with false. cbv iota.
  destruct (pwrite_tail_ok bs1 c (a + n / 512) (drop (Z.to_nat k) l) (n - k)) as (bs2 & -> & W2); try done.
  - apply W1.
  - by rewrite (wr_ro _ _ _ _ W1).
  - lia.
  - rewrite length_drop. lia.
  - lia.
  - rewrite (wr_total _ _ _ _ W1). lia.
  - by apply Forall_drop.
  - exists bs2. split; [done|]. rewrite <- (take_drop (Z.to_nat k) l). eapply written_trans; [done|done|lia|lia].
Qed.
Lemma bdrv_pwrite_em_ok bs o l n : complete bs -> read_only bs = false -> 0 <= o -> n = Z.of_nat (length l) -> 0 < n < 2 ^ 31 ->
  o + n <= 512 * total_sectors bs -> Forall is_u8 l ->
  exists bs', bdrv_pwrite_em bs o l n = Some (n, bs') /\ written bs bs' o l.
Proof.
  intros Hc Hro Ho Hn Hn2 Hl Hu. unfold bdrv_pwrite_em. rewrite !sector_mask, sector_shift. change SECTOR_SIZE with 512.
  destruct (head_length o n) as (H1 & H2 & H3 & H4); [lia|]. set (len := if _ <? _ then _ else _) in *.
  destruct (Z.ltb_spec 0 len).
  - assert (length (take (Z.to_nat len) l) = Z.to_nat len) as Lk by (rewrite length_take; lia).
    destruct (pwrite_part_ok bs (o / 512) (o mod 512) (take (Z.to_nat len) l)) as (bs1 & -> & W1); try done;
      [Z.div_mod_to_equations; lia..|by apply Forall_take|]. cbn [mbind option_bind]. change (0 <? 0) with false. cbv iota.
    replace (512 * (o / 512) + o mod 512) with o in W1 by (Z.div_mod_to_equations; lia).
    destruct (Z.eqb_spec (n - len) 0) as [E|E]; [exists bs1; split; [done|]; by rewrite take_ge in W1 by lia|]. specialize (H3 E).
    assert (512 * (o / 512 + 1) = o + len) as Eo by (Z.div_mod_to_equations; lia).
    destruct (pwrite_middle_ok bs1 n (o / 512 + 1) (drop (Z.to_nat len) l) (n - len)) as (bs2 & -> & W2); try done.
    + apply W1.
    + by rewrite (wr_ro _ _ _ _ W1).
    + lia.
    + Z.div_mod_to_equations. lia.
    + rewrite length_drop. lia.
    + lia.
    + rewrite (wr_total _ _ _ _ W1). lia.
    + by apply Forall_drop.
    + exists bs2. split; [done|]. rewrite <- (take_drop (Z.to_nat len) l). eapply written_trans; [done|done|lia|lia].
  - specialize (H4 ltac:(lia)). assert (512 * (o / 512) = o) as Eo by (Z.div_mod_to_equations; lia). destruct (pwrite_middle_ok bs n (o / 512) l n) as (bs' & E & W); try done; [Z.div_mod_to_equations; lia..|].
    rewrite Eo in W. by exists bs'.
Qed.
