(* ===== verification/Overlay.v ===== *)
(** Images of the block layer as disks: requests answered from an array of bytes,
    copy-on-write images over another image, and their commit into it. *)
From S2P Require Import Prelude QTimer QFile Block BlockView.

(** * Requests *)

Inductive request :=
  | ReadSectors (sector_num nb_sectors : Z)
  | WriteSectors (sector_num : Z) (buf : list Z) (nb_sectors : Z)
  | ReadBytes (offset count : Z)
  | WriteBytes (offset : Z) (buf : list Z) (count : Z).
(** What the callers of the block layer do with an image: the result, the bytes
    read, the new image. *)
Definition serve (bs : BlockDriverState) (r : request) : option (Z * list Z * BlockDriverState) :=
  match r with
  | ReadSectors a n => r ← bdrv_read bs a n; Some (fst r, snd r, bs)
  | WriteSectors a buf n => r ← bdrv_write bs a buf n; Some (fst r, [], snd r)
  | ReadBytes o n => r ← bdrv_pread bs o n; Some (fst r, snd r, bs)
  | WriteBytes o buf n => r ← bdrv_pwrite bs o buf n; Some (fst r, [], snd r)
  end.
Fixpoint serve_all (bs : BlockDriverState) (rs : list request) : option (list (Z * list Z) * BlockDriverState) :=
  match rs with
  | [] => Some ([], bs)
  | r :: rs =>
      a ← serve bs r; let '(e, l, bs) := (a : Z * list Z * BlockDriverState) in
      rest ← serve_all bs rs; let '(answers, bs) := (rest : list (Z * list Z) * BlockDriverState) in
      Some ((e, l) :: answers, bs)
  end.

(** The same of an array of bytes. *)
Definition answer (d : Z -> Z) (r : request) : Z * list Z * (Z -> Z) :=
  match r with
  | ReadSectors a n => (0, sectors_of d a n, d)
  | WriteSectors a buf _ => (0, [], patched d (512 * a) buf)
  | ReadBytes o n => (n, map d (seqZ o n), d)
  | WriteBytes o buf n => (n, [], patched d o buf)
  end.
Fixpoint answer_all (d : Z -> Z) (rs : list request) : list (Z * list Z) * (Z -> Z) :=
  match rs with
  | [] => ([], d)
  | r :: rs => let '(e, l, d) := answer d r in let '(answers, d) := answer_all d rs in ((e, l) :: answers, d)
  end.

(** A request within the [total] sectors of an image. *)
Definition within (total : Z) (r : request) : Prop :=
  match r with
  | ReadSectors a n => 0 <= a /\ 0 <= n < 2 ^ 22 /\ a + n <= total
  | WriteSectors a buf n => 0 <= a /\ 0 <= n < 2 ^ 22 /\ a + n <= total /\ Z.of_nat (length buf) = 512 * n /\ Forall is_u8 buf
  | ReadBytes o n => 0 <= o /\ 0 < n < 2 ^ 31 /\ o + n <= 512 * total
  | WriteBytes o buf n => 0 <= o /\ 0 < n < 2 ^ 31 /\ o + n <= 512 * total /\ Z.of_nat (length buf) = n /\ Forall is_u8 buf
  end.

Lemma bdrv_pread_ok bs o n : complete bs -> boot_sector bs = None -> 0 <= o -> 0 < n < 2 ^ 31 -> o + n <= 512 * total_sectors bs ->
  bdrv_pread bs o n = Some (n, map (view bs) (seqZ o n)).
Proof.
  destruct bs as [ro total boot d]. cbn [boot_sector total_sectors]. intros Hc -> Ho Hn Hl. pose proof Hc as (_ & _ & Hd).
  destruct d as [|file|s backing]; [done| |by apply bdrv_pread_em_ok].
  unfold bdrv_pread. cbn [drv]. unfold raw_pread. rewrite fread_at_Some, take_drop_at by lia. cbn [mbind option_bind].
  by rewrite length_map_at, Z2Nat.id by lia.
Qed.
Lemma bdrv_pwrite_ok bs o l n : complete bs -> read_only bs = false -> boot_sector bs = None -> 0 <= o -> n = Z.of_nat (length l) ->
  0 < n < 2 ^ 31 -> o + n <= 512 * total_sectors bs -> Forall is_u8 l ->
  exists bs', bdrv_pwrite bs o l n = Some (n, bs') /\ written bs bs' o l.
Proof.
  destruct bs as [ro total boot d]. cbn [boot_sector total_sectors read_only]. intros Hc -> -> Ho Hn Hn2 Hl Hu. pose proof Hc as (Ht & _ & Hd).
  destruct d as [|file|s backing]; [done| |by apply bdrv_pwrite_em_ok].
  unfold bdrv_pwrite. cbn [drv]. unfold raw_pwrite. rewrite fwrite_at_Some, take_ge by lia. cbn [mbind option_bind fst snd].
  eexists. split; [reflexivity|]. destruct Hd as [Hd Hf]. pose proof (length_splice_ge file (Z.to_nat o) l). split; try done.
  - cbn. split; [done|]. split; [done|]. split; [lia|]. by apply Forall_splice; [apply is_u8_0| |].
  - cbn [total_sectors]. intros k Hk. change (view (set_drv _ _) k) with (at_ (splice file (Z.to_nat o) l) k).
    by rewrite at_splice by lia.
Qed.

(** An image and the array it stands for. *)
Record stands_for (bs : BlockDriverState) (d : Z -> Z) : Prop := StandsFor {
  sf_complete : complete bs;
  sf_ro : read_only bs = false;
  sf_boot : boot_sector bs = None;
  sf_view : forall k, 0 <= k < 512 * total_sectors bs -> view bs k = d k
}.
Lemma written_stands bs bs' d p l : stands_for bs d -> written bs bs' p l -> 
  stands_for bs' (patched d p l) /\ total_sectors bs' = total_sectors bs /\ backing_hd bs' = backing_hd bs.
Proof.
  intros [_ Hro Hb Hv] [C T R B O V]. split; [|done]. split; [done|congruence|auto|]. intros k Hk. rewrite T in Hk. rewrite V by done.
  by apply patched_ext, Hv.
Qed.
Lemma serve_ok bs d r : stands_for bs d -> within (total_sectors bs) r ->
  exists bs', serve bs r = Some (fst (fst (answer d r)), snd (fst (answer d r)), bs') /\
    stands_for bs' (snd (answer d r)) /\ total_sectors bs' = total_sectors bs /\ backing_hd bs' = backing_hd bs.
Proof.
  intros Hs Hr. pose proof Hs as [Hc Hro Hb Hv]. destruct r as [a n|a buf n|o n|o buf n]; cbn [serve answer fst snd within] in *.
  - destruct Hr as (H1 & H2 & H3). rewrite bdrv_read_ok by done. exists bs. split; [|done]. cbn [mbind option_bind fst snd].
    rewrite (sectors_ext _ d) by (intros; apply Hv; lia). done.
  - destruct Hr as (H1 & H2 & H3 & H4 & H5). destruct (bdrv_write_ok bs a n buf) as (bs' & -> & W); try done.
    exists bs'. split; [done|]. by apply written_stands.
  - destruct Hr as (H1 & H2 & H3). rewrite bdrv_pread_ok by done. exists bs. split; [|done]. cbn [mbind option_bind fst snd].
    rewrite (map_seqZ_ext _ d) by (intros; apply Hv; lia). done.
  - destruct Hr as (H1 & H2 & H3 & H4 & H5). destruct (bdrv_pwrite_ok bs o buf n) as (bs' & -> & W); try done.
    exists bs'. split; [done|]. by apply written_stands.
Qed.
Lemma serve_all_ok rs : forall bs d, stands_for bs d -> Forall (within (total_sectors bs)) rs ->
  exists bs', serve_all bs rs = Some (fst (answer_all d rs), bs') /\
    stands_for bs' (snd (answer_all d rs)) /\ total_sectors bs' = total_sectors bs /\ backing_hd bs' = backing_hd bs.
Proof.
  induction rs as [|r rs IH]; intros bs d Hs Hr; [by exists bs|]. apply Forall_cons in Hr as [Hr Hrs].
  destruct (serve_ok bs d r Hs Hr) as (bs1 & E1 & Hs1 & T1 & B1). cbn [serve_all answer_all]. rewrite E1. cbn [mbind option_bind].
  destruct (answer d r) as [[e l] d1]. cbn [fst snd] in *. rewrite <- T1 in Hrs. destruct (IH bs1 d1 Hs1 Hrs) as (bs2 & E2 & Hs2 & T2 & B2).
  rewrite E2. cbn [mbind option_bind]. destruct (answer_all d1 rs) as [answers d2]. cbn [fst snd] in *. exists bs2.
  split; [done|]. split; [done|]. split; congruence.
Qed.

(** * Creating an image over another *)

Lemma be_fold l : forall a, fold_left (fun a b => a * 256 + b) l a = a * 256 ^ Z.of_nat (length l) + be_value l.
Proof.
  unfold be_value. induction l as [|x l IH]; intros a; cbn [fold_left length]; [lia|]. rewrite (IH (a * 256 + x)), (IH (0 * 256 + x)).
  rewrite Nat2Z.inj_succ, Z.pow_succ_r by lia. lia.
Qed.
Lemma be_value_app l1 l2 : be_value (l1 ++ l2) = be_value l1 * 256 ^ Z.of_nat (length l2) + be_value l2.
Proof. unfold be_value at 1. rewrite fold_left_app, be_fold. done. Qed.
Lemma be_value_be32 v : be_value (be32 v) = u32 v.
Proof. unfold be_value, be32. cbn [fold_left]. rewrite !Z.shiftr_div_pow2 by lia. int_lia. Qed.
Lemma be32_u8 v : Forall is_u8 (be32 v).
Proof. repeat constructor; apply u8_range. Qed.

Lemma slice_mid (l1 l2 l3 : list Z) a n : a = length l1 -> n = length l2 -> take n (drop a (l1 ++ l2 ++ l3)) = l2.
Proof. intros -> ->. by rewrite drop_app_length, take_app_length. Qed.

(** The parts of a created file. *)
Definition name_field (name : list Z) : list Z := take 1023 name ++ replicate (1024 - length (take 1023 name)) 0.
Lemma length_name_field name : length (name_field name) = 1024%nat.
Proof. unfold name_field. rewrite length_app, length_replicate, length_take. lia. Qed.

Lemma created_file h total name t :
  exists pad1 pad2, length pad1 = Z.to_nat (size_offset h - 1036) /\ length pad2 = Z.to_nat (header_size h - size_offset h - 12) /\
    Forall is_u8 pad1 /\ Forall is_u8 pad2 /\
    cow_create h total (Some (name, t)) = be32 COW_MAGIC ++ be32 COW_VERSION ++ name_field name ++ be32 t ++ pad1 ++
      (be32 (Z.shiftr (total * 512) 32) ++ be32 (total * 512)) ++ be32 512 ++ pad2 ++ replicate (Z.to_nat (Z.shiftr (total + 7) 3)) 0.
Proof.
  exists (replicate (Z.to_nat (size_offset h - 1036)) 0), (replicate (Z.to_nat (header_size h - size_offset h - 12)) 0).
  rewrite !length_replicate. split; [done|]. split; [done|]. split; [apply Forall_replicate, is_u8_0|].
  split; [apply Forall_replicate, is_u8_0|]. unfold cow_create, name_field. cbv beta iota zeta. by rewrite <- !app_assoc.
Qed.

Lemma bitmap_bytes total : Z.shiftr (total + 7) 3 = (total + 7) / 8.
Proof. by rewrite Z.shiftr_div_pow2 by done. Qed.
Lemma sectors_start n : n <= Z.land (n + 511) (-512) < n + 512.
Proof.
  change (-512) with (Z.lnot (Z.ones 9)). rewrite <- Z.ldiff_land, Z.ldiff_ones_r by lia.
  rewrite Z.shiftl_mul_pow2, Z.shiftr_div_pow2 by lia. Z.div_mod_to_equations. lia.
Qed.

(** A created image can be opened: it has the size and the name asked for, and no
    sector of its own. *)
Lemma create_open h total name t : 0 <= total < 2 ^ 33 -> Forall is_u8 name ->
  exists s, cow_open h (cow_create h total (Some (name, t))) = Some (total, name_field name, s) /\
    mapped total s /\ forall i, 0 <= i < total -> bit s i = false.
Proof.
  intros Ht Hn. destruct (created_file h total name t) as (p1 & p2 & L1 & L2 & U1 & U2 & E). rewrite bitmap_bytes in E.
  remember (cow_create h total (Some (name, t))) as f eqn:Ef. clear Ef. set (bits := replicate (Z.to_nat ((total + 7) / 8)) 0) in *.
  assert (0 <= (total + 7) / 8 < 2 ^ 30 + 2 ^ 10) as Hb by (Z.div_mod_to_equations; lia).
  assert (length bits = Z.to_nat ((total + 7) / 8)) as Lb by apply length_replicate.
  assert (Z.of_nat (length f) = header_size h + (total + 7) / 8) as Lf.
  { rewrite E, !length_app, length_name_field, L1, L2, Lb. cbn [length be32]. destruct h; cbn -[Z.div]; lia. }
  unfold cow_open. destruct (Z.ltb_spec (Z.of_nat (length f)) (header_size h)); [lia|].
  change (Z.to_nat 0) with 0%nat. rewrite drop_0.
  assert (take 4 f = be32 COW_MAGIC) as -> by (rewrite E; by apply take_app_length').
  assert (take 4 (drop (Z.to_nat 4) f) = be32 COW_VERSION) as -> by (rewrite E; by apply slice_mid).
  rewrite !be_value_be32, !u32_small, !Z.eqb_refl by done. cbn [negb orb].
  assert (take 1024 (drop (Z.to_nat 8) f) = name_field name) as ->.
  { rewrite E, app_assoc. apply slice_mid; [done|by rewrite length_name_field]. }
  assert (take 8 (drop (Z.to_nat (size_offset h)) f) = be32 (Z.shiftr (total * 512) 32) ++ be32 (total * 512)) as ->.
  { rewrite E. rewrite (app_assoc (be32 COW_MAGIC)), (app_assoc (be32 COW_MAGIC ++ _)), (app_assoc (_ ++ name_field name)), (app_assoc (_ ++ be32 t)).
    apply slice_mid; [|done]. rewrite !length_app, length_name_field, L1. cbn [length be32]. by destruct h. }
  rewrite be_value_app, !be_value_be32. change (256 ^ Z.of_nat (length (be32 (total * 512)))) with (2 ^ 32).
  assert (u32 (Z.shiftr (total * 512) 32) * 2 ^ 32 + u32 (total * 512) = total * 512) as ->.
  { rewrite Z.shiftr_div_pow2 by lia. int_lia. }
  replace (s64 (total * 512)) with (total * 512) by (unfold s64; Z.div_mod_to_equations; lia).
  rewrite Z.quot_mul by lia. rewrite bitmap_bytes.
  assert (0 < header_size h <= 1056) as Hh by (destruct h; cbn; lia).
  rewrite s32_small by (unfold is_s32; lia). eexists. split; [reflexivity|]. pose proof (sectors_start ((total + 7) / 8 + header_size h)).
  split; [split; cbn; try lia|].
  - rewrite E, !Forall_app. unfold name_field. rewrite Forall_app. repeat split; try apply be32_u8; try done.
    all: first [apply Forall_replicate, is_u8_0|by apply Forall_take].
  - intros i Hi. unfold bit. cbn. pose proof (bit_byte total i Hi).
    assert (at_ f (header_size h + i / 8) = 0) as ->; [|apply Z.bits_0].
    unfold at_. rewrite E, !app_assoc, lookup_app_r; rewrite <- !app_assoc, !length_app, length_name_field, L1, L2; cbn [length be32].
    2: { destruct h; cbn -[Z.div]; lia. }
    unfold bits. destruct (replicate _ 0 !! _) eqn:El; [|done]. by apply lookup_replicate in El as [-> _].
Qed.

(** The image a created file is, over [b]. *)
Definition overlay (s : BDRVCowState) (b : BlockDriverState) : BlockDriverState :=
  MkBs false (total_sectors b) None (CowDriver s (Some b)).

(** C25: a copy-on-write image is a disk that leaves the one behind it alone.  A file
    created for an image of the same size can be opened over it; requests within the
    size, in sectors or in bytes, are answered as an array of bytes would that holds
    the image's contents at first; and the image behind is what it was. *)
Theorem overlay_is_a_disk h b name t rs : complete b -> total_sectors b < 2 ^ 33 -> Forall is_u8 name ->
  Forall (within (total_sectors b)) rs ->
  exists s bs', cow_open h (cow_create h (total_sectors b) (Some (name, t))) = Some (total_sectors b, name_field name, s) /\
    serve_all (overlay s b) rs = Some (fst (answer_all (view b) rs), bs') /\
    backing_hd bs' = Some b /\ stands_for bs' (snd (answer_all (view b) rs)).
Proof.
  intros Hb Ht Hn Hr. assert (0 <= total_sectors b) as H0 by (destruct b; apply Hb).
  destruct (create_open h (total_sectors b) name t) as (s & E & Hs & Hbits); [lia|done|].
  assert (stands_for (overlay s b) (view b)) as Hsf.
  { split; [|done|done|].
    - split; [done|]. split; [done|]. split; [done|]. split; [|done]. intros i Hi Hi2. by rewrite Hbits in Hi2.
    - intros k Hk. cbn in *. by rewrite Hbits by (Z.div_mod_to_equations; lia). }
  destruct (serve_all_ok rs _ _ Hsf Hr) as (bs' & E2 & Hsf' & _ & Hback). by exists s, bs'.
Qed.

(** * Committing *)

(** The contents behind once the sectors below [i] are merged. *)
Definition committed (bs : BlockDriverState) (b : Z -> Z) (i k : Z) : Z := if k <? 512 * i then view bs k else b k.

Section Commit.
Context (bs0 : BlockDriverState) (s : BDRVCowState) (base : BlockDriverState) (total : Z).
Context (Hmap : mapped total s) (Hdata : has_data total s) (Hbs : bs0 = MkBs false total None (CowDriver s (Some base))).
Context (Hbase : complete base) (Hsize : total <= total_sectors base).
(** The image behind while it is written: up to sector [i] it holds the overlay. *)
Definition partly (b : BlockDriverState) (i : Z) : Prop :=
  complete b /\ read_only b = false /\ total_sectors b = total_sectors base /\
  forall k, 0 <= k < 512 * total_sectors base -> view b k = committed bs0 (view base) i k.

Lemma view_overlay k : view bs0 k = if bit s (k / 512) then at_ (cow_file s) (cow_sectors_offset s + k) else view base k.
Proof. by rewrite Hbs. Qed.

Lemma copy_run_ok n : forall b i, partly b i -> 0 <= i -> i + Z.of_nat n <= total ->
  (forall j, i <= j < i + Z.of_nat n -> bit s j = true) ->
  exists b', copy_run n bs0 b s i = Some (0, b') /\ partly b' (i + Z.of_nat n).
Proof.
  induction n as [|n IH]; intros b i Hb Hi Hn Hbit; cbn [copy_run]; [exists b; by rewrite Z.add_0_r|].
  destruct Hb as (Hc & Hro & Ht & Hv).
  set (o := set_drv (CowDriver s (Some b)) bs0). assert (complete o) as Ho.
  { unfold o. rewrite Hbs. cbn. split; [apply Hmap|]. split; [done|]. split; [done|]. split; [done|]. split; [done|lia]. }
  assert (total_sectors o = total) as To by (unfold o; by rewrite Hbs).
  rewrite bdrv_read_ok by (done || lia). cbn [mbind option_bind]. change (negb (0 =? 0)) with false. cbv iota.
  assert (sectors_of (view o) i 1 = sectors_of (view bs0) i 1) as ->.
  { apply sectors_ext. intros k Hk. rewrite view_overlay. unfold o. rewrite Hbs. cbn. by rewrite Hbit by (Z.div_mod_to_equations; lia). }
  assert (complete bs0) as Hc0.
  { rewrite Hbs. exact (conj (mp_total _ _ Hmap) (conj I (conj Hmap (conj Hdata (conj Hbase Hsize))))). }
  set (sec := sectors_of (view bs0) i 1).
  assert (Z.of_nat (length sec) = 512) as Ls by (unfold sec, sectors_of; rewrite length_map, length_seqZ; lia).
  destruct (bdrv_write_ok b i 1 sec) as (b1 & -> & [C T R B O V]); try done; [lia| |].
  { unfold sec. apply Forall_forall. intros x (k & -> & _)%list_elem_of_fmap. by apply view_u8. }
  cbn [mbind option_bind]. change (negb (0 =? 0)) with false. cbv iota.
  destruct (IH b1 (i + 1)) as (b2 & E & Hb2); [|lia|lia|intros j Hj; apply Hbit; lia|].
  - split; [done|]. split; [congruence|]. split; [congruence|]. intros k Hk. rewrite V by (rewrite Ht; done).
    unfold patched. case_decide; [unfold committed|rewrite Hv by done; unfold committed].
    + destruct (Z.ltb_spec k (512 * (i + 1))); [|lia]. unfold sec, sectors_of. rewrite at_map_seqZ by lia. f_equal. lia.
    + destruct (Z.ltb_spec k (512 * i)), (Z.ltb_spec k (512 * (i + 1))); done || lia.
  - exists b2. split; [done|]. by replace (i + Z.of_nat (S n)) with (i + 1 + Z.of_nat n) by lia.
Qed.

(** The runs end in the image, and the sector after the last can be looked at. *)
Lemma run_ok i : 0 <= i < total -> bit s (total - 1) = true -> is_bit_set s total = Some false ->
  exists k, is_changed s i 65536 = Some (bit s i, k) /\ 1 <= k /\ (bit s i = true -> i + k <= total) /\
    forall j, i <= j < i + k -> j < total -> bit s j = bit s i.
Proof.
  intros Hi Hlast Hend. unfold is_changed. change (65536 =? 0) with false. cbv iota. rewrite (is_bit_set_ok total) by (done || lia).
  cbn [mbind option_bind].
  assert (forall n k, 1 <= k -> i + k <= total -> (bit s i = false -> i + k <= total - 1) ->
    (forall j, i <= j < i + k -> bit s j = bit s i) ->
    exists m, same_loop n s (bit s i) i k = Some m /\ 1 <= m /\ i + m <= total /\ forall j, i <= j < i + m -> bit s j = bit s i) as Hloop.
  { induction n as [|n IH]; intros k Hk Hkt Hkf Hsame; cbn [same_loop]; [by exists k|].
    destruct (decide (i + k = total)) as [Et|Et].
    - rewrite Et, Hend. cbn [mbind option_bind]. destruct (bit s i) eqn:Eb; cbn; [|lia]. exists k. split; [done|]. split; [done|]. split; [lia|done].
    - rewrite (is_bit_set_ok total) by (done || lia). cbn [mbind option_bind]. destruct (eqb_spec (bit s (i + k)) (bit s i)) as [Eb|Eb].
      + apply IH; [lia|lia| |].
        * intros Hf. assert (i + k <> total - 1) by (intros E2; rewrite E2, Hlast in Eb; congruence). lia.
        * intros j Hj. destruct (decide (j = i + k)) as [->|]; [done|]. apply Hsame. lia.
      + exists k. by repeat split. }
  destruct (Hloop (Z.to_nat (65536 - 1)) 1) as (m & -> & Hm & Hmt & Hsame); [lia|lia| | |].
  - intros Hf. destruct (decide (i = total - 1)) as [->|]; [congruence|lia].
  - intros j Hj. by replace j with i by lia.
  - cbn [mbind option_bind]. exists m. split; [done|]. split; [done|]. split; [done|]. intros j Hj _. by apply Hsame.
Qed.

Lemma partly_skip b i i' : partly b i -> 0 <= i -> i <= i' -> (forall j, i <= j < i' -> bit s j = false) -> partly b i'.
Proof.
  intros (Hc & Hro & Ht & Hv) Hi0 Hi Hbit. split; [done|]. split; [done|]. split; [done|]. intros k Hk. rewrite Hv by done. unfold committed.
  destruct (Z.ltb_spec k (512 * i)), (Z.ltb_spec k (512 * i')); try done || lia.
  rewrite view_overlay. by rewrite Hbit by (Z.div_mod_to_equations; lia).
Qed.
Lemma merge_loop_ok n : forall b i, partly b i -> 0 <= i <= total -> total - i <= Z.of_nat n ->
  bit s (total - 1) = true -> is_bit_set s total = Some false ->
  exists b', commit_loop n bs0 b s i total = Some (0, b') /\ partly b' total.
Proof.
  induction n as [|n IH]; intros b i Hb Hi Hn Hlast Hend; cbn [commit_loop]; destruct (Z.leb_spec total i) as [Hz|Hz]; try lia.
  1, 2: exists b; by replace total with i by lia.
  destruct (run_ok i) as (k & -> & Hk & Hrun & Hsame); [lia|done|done|]. cbn [mbind option_bind].
  destruct (bit s i) eqn:Eb.
  - specialize (Hrun eq_refl). destruct (copy_run_ok (Z.to_nat k) b i Hb) as (b1 & -> & Hb1); [lia|lia|intros j Hj; apply Hsame; lia|].
    cbn [mbind option_bind]. change (negb (0 =? 0)) with false. cbv iota. rewrite Z2Nat.id in Hb1 by lia. apply IH; try done; lia.
  - assert (i + k <= total - 1) as Hlt.
    { destruct (decide (i + k <= total - 1)); [done|]. by rewrite (Hsame (total - 1)) in Hlast by lia. }
    apply IH; try done; [|lia|lia]. apply (partly_skip b i); try done; [lia|lia|]. intros j Hj. apply Hsame; lia.
Qed.
End Commit.

(** C26: committing merges.  The sectors an overlay has written go to the image behind
    it and no others do: the image behind then holds what the overlay showed, up to
    the overlay's size, and the overlay shows what it did.  The last sector is one
    the overlay has, and the bit after its last can be read and is clear: the search
    for runs does not stop at the end of the image. *)
Theorem commit_merges bs s b total : bs = MkBs false total None (CowDriver s (Some b)) -> complete bs -> read_only b = false ->
  0 < total -> bit s (total - 1) = true -> is_bit_set s total = Some false ->
  exists b', bdrv_commit bs = Some (0, set_drv (CowDriver s (Some b')) bs) /\ complete b' /\ total_sectors b' = total_sectors b /\
    (forall k, 0 <= k < 512 * total_sectors b -> view b' k = committed bs (view b) total k) /\
    (forall k, 0 <= k < 512 * total -> view (set_drv (CowDriver s (Some b')) bs) k = view bs k).
Proof.
  intros Hbs Hc Hro Ht Hlast Hend. pose proof Hc as Hc2. rewrite Hbs in Hc2. destruct Hc2 as (_ & _ & Hm & Hd & Hb & Hsize).
  destruct (merge_loop_ok bs s b total Hm Hd Hbs Hb Hsize (Z.to_nat total) b 0) as (b' & E & (Hc' & _ & Ht' & Hv)); [|lia|lia|done|done|].
  { split; [done|]. split; [done|]. split; [done|]. intros k Hk. unfold committed. by destruct (Z.ltb_spec k (512 * 0)); [lia|]. }
  exists b'. split; [|split; [done|split; [done|split; [exact Hv|]]]].
  - rewrite Hbs in *. unfold bdrv_commit. cbn [drv read_only bdrv_getlength total_sectors]. change SECTOR_SIZE with 512.
    rewrite sector_shift, Z.div_mul by done. by rewrite E.
  - intros k Hk. rewrite Hbs. cbn. destruct (bit s (k / 512)) eqn:Eb; [done|]. rewrite Hv by lia. unfold committed.
    destruct (Z.ltb_spec k (512 * total)); [|lia]. rewrite Hbs. cbn. by rewrite Eb.
Qed.

(** * On an image of nine sectors *)

Definition demo_disk : BlockDriverState := MkBs false 9 None (RawDriver (replicate (Z.to_nat (9 * 512)) 7)).
Definition demo_requests : list request :=
  [WriteBytes 510 [1; 2; 3; 4] 4; ReadBytes 508 8; WriteSectors 8 (replicate (Z.to_nat 512) 5) 1; ReadBytes 4094 4].
Lemma demo_complete : complete demo_disk.
Proof. split; [done|]. split; [done|]. split; [rewrite length_replicate; done|apply Forall_replicate; by unfold is_u8]. Qed.
Lemma demo_within : Forall (within 9) demo_requests.
Proof. repeat constructor; cbn; try done; try (rewrite length_replicate; done); apply Forall_replicate; by unfold is_u8. Qed.

Lemma overlay_is_a_disk_witness :
  exists s bs', cow_open true (cow_create true 9 (Some ([98], 0))) = Some (9, name_field [98], s) /\
    serve_all (overlay s demo_disk) demo_requests =
      Some ([(4, []); (8, [7; 7; 1; 2; 3; 4; 7; 7]); (0, []); (4, [7; 7; 5; 5])], bs') /\
    backing_hd bs' = Some demo_disk.
Proof.
  destruct (overlay_is_a_disk true demo_disk [98] 0 demo_requests demo_complete) as (s & bs' & E & H & Hb & _);
    [done|by repeat constructor|exact demo_within|].
  exists s, bs'. split; [exact E|]. split; [|exact Hb]. rewrite H. vm_compute. reflexivity.
Defined.

(** The overlay of the witness after the requests. *)
Definition demo_written : BlockDriverState :=
  match cow_open true (cow_create true 9 (Some ([98], 0))) with
  | Some (_, _, s) => match serve_all (overlay s demo_disk) demo_requests with Some (_, bs) => bs | None => demo_disk end
  | None => demo_disk
  end.
Definition demo_state : BDRVCowState := match drv demo_written with CowDriver s _ => s | _ => MkCow [] 0 0 0 end.
Lemma demo_written_complete : complete demo_written.
Proof.
  destruct (create_open true 9 [98] 0) as (s & E & Hs & Hbits); [done|by repeat constructor|]. unfold demo_written. rewrite E.
  assert (stands_for (overlay s demo_disk) (view demo_disk)) as Hsf.
  { split; [|done|done|].
    - split; [done|]. split; [done|]. split; [done|]. split; [|split; [exact demo_complete|done]]. intros i Hi Hi2. by rewrite Hbits in Hi2.
    - intros k Hk. change (512 * total_sectors (overlay s demo_disk)) with 4608 in Hk. cbn. by rewrite Hbits by (Z.div_mod_to_equations; lia). }
  destruct (serve_all_ok demo_requests _ _ Hsf demo_within) as (bs' & -> & Hc & _). apply Hc.
Qed.

Lemma commit_merges_witness :
  exists b', bdrv_commit demo_written = Some (0, set_drv (CowDriver demo_state (Some b')) demo_written) /\
    view b' 4096 = 5 /\ view b' 511 = 2 /\ view b' 600 = 7.
Proof.
  destruct (commit_merges demo_written demo_state demo_disk 9) as (b' & E & _ & _ & Hv & _);
    [vm_compute; reflexivity|exact demo_written_complete|reflexivity|reflexivity|vm_compute; reflexivity|vm_compute; reflexivity|].
  exists b'. split; [exact E|]. change (total_sectors demo_disk) with 9 in Hv.
  clear E. split; [|split]; (rewrite Hv by lia); vm_compute; reflexivity.
Defined.

(** The commit of an overlay that has no sector yet: the search for the end of the
    run leaves the mapping. *)
Lemma commit_empty_faults :
  match cow_open true (cow_create true 9 None) with Some (_, _, s) => bdrv_commit (overlay s demo_disk) | None => Some (0, demo_disk) end = None.
Proof. vm_compute. reflexivity. Qed.
