(* ===== verification/PcPorts.v ===== *)
(** The I/O ports of the emulated machine, src/sysvm/vl.c: tables of the functions
    that answer a port for accesses of 8, 16 and 32 bits, and how the devices fill
    them; the registrations of the devices ([pc_init1] of src/sysvm/hw/pc.c), and that
    an access of the processor reaches the device whose model the drivers are proved
    against.

    [F] are the names of the functions; an entry that is missing is the default
    function of its table.  [ioport_opaque] holds the pointer a function is called
    with, here a number; a missing one is null. *)
From stdpp Require Import gmap.
From S2P Require Import Prelude Time I8259 Port Ps2 Pckbd Irq QTimer I8254 Rtc Timer ClockMachine I8237 Ide.


Definition MAX_IOPORTS : Z := 65536.

Record ioports (F : Type) := MkIo {
  ioport_opaque : gmap Z Z;
  ioport_read_table : gmap (Z * Z) F;
  ioport_write_table : gmap (Z * Z) F
}.
Arguments MkIo {F}. Arguments ioport_opaque {F}. Arguments ioport_read_table {F}. Arguments ioport_write_table {F}.

Section Tables.
Context {F : Type}.

(** [init_ioports()] *)
Definition init_ioports (io : ioports F) : ioports F := MkIo (ioport_opaque io) ∅ ∅.

(** The table for a size in bytes; another one ends the emulator. *)
Definition bsize_of (size : Z) : option Z :=
  if size =? 1 then Some 0 else if size =? 2 then Some 1 else if size =? 4 then Some 2 else None.
Definition in_ports (i : Z) : M (ioports F) unit := if decide (0 <= i < MAX_IOPORTS) then ret tt else stop OutOfBounds.
Definition set_opaque (i opaque : Z) : M (ioports F) unit :=
  io <- get ;;
  (match ioport_opaque io !! i with
   | Some o => if o =? opaque then ret tt else stop Panicked
   | None => ret tt
   end) ;;;
  put (MkIo (<[i := opaque]> (ioport_opaque io)) (ioport_read_table io) (ioport_write_table io)).
(** [register_ioport_read(start, length, size, func, opaque)]; [hw_error] ends the
    emulator.  A turn for every [size] bytes. *)
Fixpoint read_loop (n : nat) (bsize i stop_at size : Z) (func : F) (opaque : Z) : M (ioports F) unit :=
  if i <? stop_at then
    match n with
    | O => stop Diverged
    | S n =>
        in_ports i ;;;
        modify (fun io => MkIo (ioport_opaque io) (<[(bsize, i) := func]> (ioport_read_table io)) (ioport_write_table io)) ;;;
        set_opaque i opaque ;;;
        read_loop n bsize (i + size) stop_at size func opaque
    end
  else ret tt.
Definition register_ioport_read (start length size : Z) (func : F) (opaque : Z) : M (ioports F) unit :=
  bsize <- of_option Panicked (bsize_of size) ;;
  read_loop (Z.to_nat length) bsize start (start + length) size func opaque.
(** [register_ioport_write(start, length, size, func, opaque)] *)
Fixpoint write_loop (n : nat) (bsize i stop_at size : Z) (func : F) (opaque : Z) : M (ioports F) unit :=
  if i <? stop_at then
    match n with
    | O => stop Diverged
    | S n =>
        in_ports i ;;;
        modify (fun io => MkIo (ioport_opaque io) (ioport_read_table io) (<[(bsize, i) := func]> (ioport_write_table io))) ;;;
        set_opaque i opaque ;;;
        write_loop n bsize (i + size) stop_at size func opaque
    end
  else ret tt.
Definition register_ioport_write (start length size : Z) (func : F) (opaque : Z) : M (ioports F) unit :=
  bsize <- of_option Panicked (bsize_of size) ;;
  write_loop (Z.to_nat length) bsize start (start + length) size func opaque.
(** [isa_unassign_ioport(start, length)] *)
Fixpoint unassign_loop (n : nat) (i : Z) : M (ioports F) unit :=
  match n with
  | O => ret tt
  | S n =>
      in_ports i ;;;
      modify (fun io => MkIo (ioport_opaque io)
        (delete (0, i) (delete (1, i) (delete (2, i) (ioport_read_table io))))
        (delete (0, i) (delete (1, i) (delete (2, i) (ioport_write_table io))))) ;;;
      unassign_loop n (i + 1)
  end.
Definition isa_unassign_ioport (start length : Z) : M (ioports F) unit := unassign_loop (Z.to_nat length) start.

(** ** Accesses of the processor *)

Context {W : Type} (call_read : F -> option Z -> Z -> M W Z) (call_write : F -> option Z -> Z -> Z -> M W unit).
Context (io : ioports F).

(** A call through a table, at a port within it. *)
Definition read_by (bsize : Z) (default : Z -> M W Z) (addr : Z) : M W Z :=
  if decide (0 <= addr < MAX_IOPORTS) then
    match ioport_read_table io !! (bsize, addr) with
    | Some f => call_read f (ioport_opaque io !! addr) addr
    | None => default addr
    end
  else stop OutOfBounds.
Definition write_by (bsize : Z) (default : Z -> Z -> M W unit) (addr val : Z) : M W unit :=
  if decide (0 <= addr < MAX_IOPORTS) then
    match ioport_write_table io !! (bsize, addr) with
    | Some f => call_write f (ioport_opaque io !! addr) addr val
    | None => default addr val
    end
  else stop OutOfBounds.
(** [default_ioport_readb] and the others; those of 16 bits are in Port. *)
Definition default_ioport_readb (address : Z) : M W Z := ret 0xff.
Definition default_ioport_writeb (address data : Z) : M W unit := ret tt.
Definition default_ioport_readl (address : Z) : M W Z := ret 0xffffffff.
Definition default_ioport_writel (address data : Z) : M W unit := ret tt.
(** [cpu_inb], [cpu_inw], [cpu_inl], [cpu_outb], [cpu_outw], [cpu_outl] *)
Definition cpu_inb : Z -> M W Z := read_by 0 default_ioport_readb.
Definition cpu_inw : Z -> M W Z := read_by 1 (default_ioport_readw cpu_inb).
Definition cpu_inl : Z -> M W Z := read_by 2 default_ioport_readl.
Definition cpu_outb : Z -> Z -> M W unit := write_by 0 default_ioport_writeb.
Definition cpu_outw : Z -> Z -> M W unit := write_by 1 (default_ioport_writew cpu_outb).
Definition cpu_outl : Z -> Z -> M W unit := write_by 2 default_ioport_writel.
End Tables.

(** * The registrations *)

(** The devices.  The keyboard controller's state holds the interrupt controllers. *)
Record hardware := Hw { hw_kbd : kbdpc; hw_clock : clockpc; hw_dma : dma; hw_ide : ide }.
Definition on_kbd {A} : M kbdpc A -> M hardware A := zoom hw_kbd (fun k w => Hw k (hw_clock w) (hw_dma w) (hw_ide w)).
Definition on_clock {A} : M clockpc A -> M hardware A := zoom hw_clock (fun c w => Hw (hw_kbd w) c (hw_dma w) (hw_ide w)).
Definition on_dma {A} : M dma A -> M hardware A := zoom hw_dma (fun d w => Hw (hw_kbd w) (hw_clock w) d (hw_ide w)).
Definition on_ide {A} : M ide A -> M hardware A := zoom hw_ide (fun i w => Hw (hw_kbd w) (hw_clock w) (hw_dma w) i).

(** * The registrations *)

(** The functions: of a name, the one for reading and the one for writing. *)
Inductive port_func :=
  | pic_ioport | elcr_ioport | pit_ioport | cmos_ioport | kbd_data | kbd_status_command
  | dma_chan | dma_page | dma_cont_port | ide_ioport | ide_status_cmd | ide_data16 | ide_data32.
Definition registered_both (start length size : Z) (f : port_func) (opaque : Z) : M (ioports port_func) unit :=
  register_ioport_write start length size f opaque ;;; register_ioport_read start length size f opaque.
(** The pointers the devices register. *)
Definition PIC0 : Z := 1.
Definition PIC1 : Z := 2.
Definition PIT : Z := 3.
Definition RTC : Z := 4.
Definition KBD : Z := 5.
Definition DMA0 : Z := 6.
Definition DMA1 : Z := 7.
Definition IDE0 : Z := 8.

(** Of [rtc_init], [pic_init1], [pit_init], [ide_init_ioport], [kbd_init], [dma_init2]:
    their ports. *)
Definition rtc_ports (base : Z) := registered_both base 2 1 cmos_ioport RTC.
Definition pic_ports1 (io_addr elcr_addr s : Z) : M (ioports port_func) unit :=
  registered_both io_addr 2 1 pic_ioport s ;;;
  if 0 <=? elcr_addr then registered_both elcr_addr 1 1 elcr_ioport s else ret tt.
Definition pit_ports (base : Z) : M (ioports port_func) unit :=
  register_ioport_write base 4 1 pit_ioport PIT ;;; register_ioport_read base 3 1 pit_ioport PIT.
Definition ide_ports1 (iobase iobase2 : Z) : M (ioports port_func) unit :=
  registered_both iobase 8 1 ide_ioport IDE0 ;;;
  (if iobase2 =? 0 then ret tt else registered_both iobase2 1 1 ide_status_cmd IDE0) ;;;
  registered_both iobase 2 2 ide_data16 IDE0 ;;;
  registered_both iobase 4 4 ide_data32 IDE0.
Definition kbd_ports1 : M (ioports port_func) unit :=
  registered_both 0x60 1 1 kbd_data KBD ;;; registered_both 0x64 1 1 kbd_status_command KBD.
Fixpoint each (l : list Z) (f : Z -> M (ioports port_func) unit) : M (ioports port_func) unit :=
  match l with [] => ret tt | i :: l => f i ;;; each l f end.
Definition dma_ports1 (d base dshift page_base : Z) : M (ioports port_func) unit :=
  each (seqZ 0 8) (fun i => registered_both (base + Z.shiftl i dshift) 1 1 dma_chan d) ;;;
  each page_port_list (fun p => registered_both (page_base + p) 1 1 dma_page d) ;;;
  each (seqZ 0 8) (fun i => registered_both (base + Z.shiftl (i + 8) dshift) 1 1 dma_cont_port d).
(** [init_ioports] of [main] and the devices in the order of [pc_init1], without
    those that are not modelled; of the disk interfaces the first. *)
Definition pc_init_ports : M (ioports port_func) unit :=
  modify init_ioports ;;;
  rtc_ports 0x70 ;;;
  pic_ports1 0x20 0x4d0 PIC0 ;;; pic_ports1 0xa0 0x4d1 PIC1 ;;;
  pit_ports 0x40 ;;;
  ide_ports1 0x1f0 0x3f6 ;;;
  kbd_ports1 ;;;
  dma_ports1 DMA0 0x00 0 0x80 ;;; dma_ports1 DMA1 0xc0 1 0x88.

(** * The functions *)

Section Machine.
Context (T : Z).

(** A function of a device of which there are two, by its pointer. *)
Definition by_pointer {A B} (a b : B) (m : B -> M hardware A) (x y : Z) (opaque : option Z) : M hardware A :=
  if bool_decide (opaque = Some x) then m a else if bool_decide (opaque = Some y) then m b else stop NullDeref.
Definition call_read (f : port_func) (opaque : option Z) (addr : Z) : M hardware Z :=
  match f with
  | pic_ioport => by_pointer 0 1 (fun i => on_kbd (on_host (on_pics (pic_ioport_read i addr)))) PIC0 PIC1 opaque
  | elcr_ioport => by_pointer 0 1 (fun i => on_kbd (on_host (on_pics (elcr_ioport_read i addr)))) PIC0 PIC1 opaque
  | pit_ioport => on_clock (zoom pc_pit (fun p w => MkPc p (pc_rtc w)) (pit_ioport_read T addr))
  | cmos_ioport => on_clock (fun w => let '(v, r) := cmos_ioport_read addr (pc_rtc w) in Ok v (MkPc (pc_pit w) r))
  | kbd_data => on_kbd kbd_read_data
  | kbd_status_command => on_kbd kbd_read_status
  | dma_chan => by_pointer false true (fun u => on_dma (read_chan u addr)) DMA0 DMA1 opaque
  | dma_page => by_pointer false true (fun u => on_dma (read_page u addr)) DMA0 DMA1 opaque
  | dma_cont_port => by_pointer false true (fun u => on_dma (read_cont u addr)) DMA0 DMA1 opaque
  | ide_ioport => on_ide (ide_ioport_read addr)
  | ide_status_cmd => on_ide ide_status_read
  | ide_data16 => on_ide ide_data_readw
  | ide_data32 => on_ide ide_data_readl
  end.
Definition call_write (f : port_func) (opaque : option Z) (addr val : Z) : M hardware unit :=
  match f with
  | pic_ioport => by_pointer 0 1 (fun i => on_kbd (on_host (on_pics (pic_ioport_write i addr val)))) PIC0 PIC1 opaque
  | elcr_ioport => by_pointer 0 1 (fun i => on_kbd (on_host (on_pics (elcr_ioport_write i addr val)))) PIC0 PIC1 opaque
  | pit_ioport => on_clock (zoom pc_pit (fun p w => MkPc p (pc_rtc w)) (pit_ioport_write T addr val))
  | cmos_ioport => on_clock (modify (fun w => MkPc (pc_pit w) (cmos_ioport_write T addr val (pc_rtc w))))
  | kbd_data => on_kbd (kbd_write_data val)
  | kbd_status_command => on_kbd (kbd_write_command val)
  | dma_chan => by_pointer false true (fun u => on_dma (write_chan u addr val)) DMA0 DMA1 opaque
  | dma_page => by_pointer false true (fun u => on_dma (write_page u addr val)) DMA0 DMA1 opaque
  | dma_cont_port => by_pointer false true (fun u => on_dma (write_cont u addr val)) DMA0 DMA1 opaque
  | ide_ioport => on_ide (ide_ioport_write addr val)
  | ide_status_cmd => on_ide (ide_cmd_write val)
  | ide_data16 => on_ide (ide_data_writew val)
  | ide_data32 => on_ide (ide_data_writel val)
  end.

(** * The machine the drivers see *)

(** Who answers a port. *)
Definition kbd_claims : list Z := [0x60; 0x64; 0x20; 0x21; 0xa0; 0xa1; 0x4d0; 0x4d1].
Definition clock_claims : list Z := [0x40; 0x41; 0x42; 0x43; 0x70; 0x71].
Definition dma_claims : list Z :=
  seqZ 0x00 16 ++ [0x81; 0x82; 0x83; 0x87; 0x89; 0x8a; 0x8b; 0x8f] ++ map (fun i => 0xc0 + 2 * i) (seqZ 0 16).
Definition ide_claims : list Z := seqZ 0x1f0 8 ++ [0x3f6].
Definition hw_inb (port : Z) : M hardware Z :=
  if bool_decide (port ∈ kbd_claims) then on_kbd (inportb port)
  else if bool_decide (port ∈ clock_claims) then on_clock (pc_inb T port)
  else if bool_decide (port ∈ dma_claims) then on_dma (inportb port)
  else if bool_decide (port ∈ ide_claims) then on_ide (inportb port)
  else ret 0xff.
Definition hw_outb (port val : Z) : M hardware unit :=
  if bool_decide (port ∈ kbd_claims) then on_kbd (outportb port val)
  else if bool_decide (port ∈ clock_claims) then on_clock (pc_outb T port (u8 val))
  else if bool_decide (port ∈ dma_claims) then on_dma (outportb port val)
  else if bool_decide (port ∈ ide_claims) then on_ide (outportb port val)
  else ret tt.
Definition hw_inw (port : Z) : M hardware Z :=
  if port =? 0x1f0 then on_ide (inportw port) else default_ioport_readw hw_inb port.
Definition hw_outw (port val : Z) : M hardware unit :=
  if port =? 0x1f0 then on_ide (outportw port val) else default_ioport_writew hw_outb port (u16 val).
#[export] Instance hw_ports : PortIO hardware := {
  inportb := hw_inb; outportb := hw_outb; inportw := hw_inw; outportw := hw_outw
}.
End Machine.

(** * They are the same *)

(** The tables after the registrations. *)
Definition pc_ioports : ioports port_func :=
  match pc_init_ports (MkIo ∅ ∅ ∅) with Ok _ io => io | Err _ => MkIo ∅ ∅ ∅ end.
Lemma registered_ok : pc_init_ports (MkIo ∅ ∅ ∅) = Ok tt pc_ioports.
Proof. vm_compute. reflexivity. Qed.

Definition claims : list Z := kbd_claims ++ clock_claims ++ dma_claims ++ ide_claims.
(** Nobody else has a function. *)
Lemma functions_claimed :
  map_Forall (fun k _ => snd k ∈ claims) (ioport_read_table pc_ioports) /\
  map_Forall (fun k _ => snd k ∈ claims) (ioport_write_table pc_ioports).
Proof. split; apply (bool_decide_unpack _); vm_compute; exact I. Qed.
Lemma words_at_disk b p f : (b = 1 \/ b = 2) ->
  ioport_read_table pc_ioports !! (b, p) = Some f \/ ioport_write_table pc_ioports !! (b, p) = Some f -> p = 0x1f0.
Proof.
  assert (map_Forall (fun k _ => fst k = 0 \/ snd k = 0x1f0) (ioport_read_table pc_ioports) /\
    map_Forall (fun k _ => fst k = 0 \/ snd k = 0x1f0) (ioport_write_table pc_ioports)) as [Hr Hw]
    by (split; apply (bool_decide_unpack _); vm_compute; exact I).
  intros Hb [H|H]; [apply Hr in H|apply Hw in H]; cbn in H; lia.
Qed.

(** Reduces the look-ups in the tables and the tests on concrete ports. *)
Ltac table_step :=
  match goal with
  | |- context [ioport_read_table pc_ioports !! ?k] =>
      let v := eval vm_compute in (ioport_read_table pc_ioports !! k) in
      replace (ioport_read_table pc_ioports !! k) with v by (vm_compute; reflexivity)
  | |- context [ioport_write_table pc_ioports !! ?k] =>
      let v := eval vm_compute in (ioport_write_table pc_ioports !! k) in
      replace (ioport_write_table pc_ioports !! k) with v by (vm_compute; reflexivity)
  | |- context [ioport_opaque pc_ioports !! ?k] =>
      let v := eval vm_compute in (ioport_opaque pc_ioports !! k) in
      replace (ioport_opaque pc_ioports !! k) with v by (vm_compute; reflexivity)
  | |- context [bool_decide ?P] =>
      let v := eval vm_compute in (bool_decide P) in replace (bool_decide P) with v by (vm_compute; reflexivity)
  end.

Section Same.
Context (T : Z).
Abbreviation io_inb := (cpu_inb (call_read T) pc_ioports).
Abbreviation io_outb := (cpu_outb (call_write T) pc_ioports).

(** Each port that somebody has, one by one. *)
Ltac each_port w defs :=
  let v := eval vm_compute in claims in replace claims with v by (vm_compute; reflexivity);
  repeat (apply Forall_cons; split; [defs; rewrite decide_True by done; repeat table_step;
    first [reflexivity|destruct w as [? [] ? ?]; reflexivity]|]); by apply Forall_nil.
Lemma claimed_read w : Forall (fun p => io_inb p w = hw_inb T p w) claims.
Proof. each_port w ltac:(unfold cpu_inb, read_by, hw_inb, call_read, by_pointer). Qed.
Lemma claimed_write val w : Forall (fun p => io_outb p (u8 val) w = hw_outb T p val w) claims.
Proof. each_port w ltac:(unfold cpu_outb, write_by, hw_outb, call_write, by_pointer). Qed.

Lemma not_claimed p : p ∉ claims ->
  bool_decide (p ∈ kbd_claims) = false /\ bool_decide (p ∈ clock_claims) = false /\ bool_decide (p ∈ dma_claims) = false /\
  bool_decide (p ∈ ide_claims) = false.
Proof. unfold claims. rewrite !elem_of_app. intros H. repeat split; apply bool_decide_eq_false; tauto. Qed.
Lemma io_inb_ok p w : 0 <= p < MAX_IOPORTS -> io_inb p w = hw_inb T p w.
Proof.
  intros Hp. destruct (decide (p ∈ claims)) as [Hc|Hc]; [by eapply Forall_forall in Hc; [|apply (claimed_read w)]|].
  unfold cpu_inb, read_by, hw_inb. rewrite decide_True by done. destruct (not_claimed p Hc) as (-> & -> & -> & ->).
  destruct (ioport_read_table pc_ioports !! (0, p)) eqn:E; [|done]. by apply functions_claimed in E.
Qed.
Lemma io_outb_ok p val w : 0 <= p < MAX_IOPORTS -> io_outb p (u8 val) w = hw_outb T p val w.
Proof.
  intros Hp. destruct (decide (p ∈ claims)) as [Hc|Hc]; [by eapply Forall_forall in Hc; [|apply (claimed_write val w)]|].
  unfold cpu_outb, write_by, hw_outb. rewrite decide_True by done. destruct (not_claimed p Hc) as (-> & -> & -> & ->).
  destruct (ioport_write_table pc_ioports !! (0, p)) eqn:E; [|done]. by apply functions_claimed in E.
Qed.

Lemma next_port p : 0 <= Z.land (p + 1) 0xffff < MAX_IOPORTS.
Proof. change 0xffff with (Z.ones 16). rewrite Z.land_ones by done. by apply Z.mod_pos_bound. Qed.
Lemma io_inw_ok p w : 0 <= p < MAX_IOPORTS -> cpu_inw (call_read T) pc_ioports p w = hw_inw T p w.
Proof.
  intros Hp. unfold cpu_inw, read_by, hw_inw. rewrite decide_True by done. destruct (Z.eqb_spec p 0x1f0) as [->|Hn].
  - unfold call_read, by_pointer. repeat table_step. reflexivity.
  - destruct (ioport_read_table pc_ioports !! (1, p)) eqn:E; [by destruct Hn; eapply (words_at_disk 1 p p0); auto|].
    unfold default_ioport_readw, bind. rewrite io_inb_ok by done. destruct (hw_inb T p w) as [v w'|f]; [|done].
    by rewrite io_inb_ok by apply next_port.
Qed.
Lemma io_outw_ok p val w : 0 <= p < MAX_IOPORTS -> cpu_outw (call_write T) pc_ioports p (u16 val) w = hw_outw T p val w.
Proof.
  intros Hp. unfold cpu_outw, write_by, hw_outw. rewrite decide_True by done. destruct (Z.eqb_spec p 0x1f0) as [->|Hn].
  - unfold call_write, by_pointer. repeat table_step. reflexivity.
  - destruct (ioport_write_table pc_ioports !! (1, p)) eqn:E; [by destruct Hn; eapply (words_at_disk 1 p p0); auto|].
    assert (forall q x w, 0 <= q < MAX_IOPORTS -> io_outb q (Z.land x 0xff) w = hw_outb T q (Z.land x 0xff) w) as Hb.
    { clear. intros q x w Hq. rewrite u8_land. rewrite <- (u8_u8 x) at 1. by apply io_outb_ok. }
    unfold default_ioport_writew, bind. rewrite Hb by done. destruct (hw_outb T p _ w) as [v w'|f]; [|done].
    by rewrite Hb by apply next_port.
Qed.
End Same.

(** C27: the devices' ports do not meet.  The registrations of all devices succeed, and
    every access of 8 or 16 bits then reaches the device whose model answers the
    kernel's drivers: the controller of the keyboard with the interrupt controllers,
    timer and clock, DMA or disk; the disk's data port alone is 16 bits wide, another
    access of 16 bits is two of 8, and a port nobody has reads as ones. *)
Theorem ports_reach_devices :
  exists io, pc_init_ports (MkIo ∅ ∅ ∅) = Ok tt io /\
    forall T w port val, 0 <= port < MAX_IOPORTS ->
      cpu_inb (call_read T) io port w = hw_inb T port w /\
      cpu_outb (call_write T) io port (u8 val) w = hw_outb T port val w /\
      cpu_inw (call_read T) io port w = hw_inw T port w /\
      cpu_outw (call_write T) io port (u16 val) w = hw_outw T port val w.
Proof.
  exists pc_ioports. split; [exact registered_ok|]. intros T w port val Hp.
  split; [by apply io_inb_ok|]. split; [by apply io_outb_ok|]. split; [by apply io_inw_ok|by apply io_outw_ok].
Qed.


Lemma ports_reach_devices_witness :
  exists io, pc_init_ports (MkIo ∅ ∅ ∅) = Ok tt io /\
    (forall w, cpu_inb (call_read 1000) io 0x60 w = on_kbd kbd_read_data w) /\
    (forall w, cpu_outb (call_write 1000) io 0x20 0x11 w = on_kbd (on_host (on_pics (pic_ioport_write 0 0x20 0x11))) w) /\
    forall w, cpu_inw (call_read 1000) io 0x1f0 w = on_ide ide_data_readw w.
Proof.
  destruct ports_reach_devices as (io & E & H). exists io. split; [exact E|]. split; [|split]; intros w.
  - apply (H 1000 w 0x60 0). split; [discriminate|reflexivity].
  - apply (H 1000 w 0x20 0x11). split; [discriminate|reflexivity].
  - apply (H 1000 w 0x1f0 0). split; [discriminate|reflexivity].
Defined.
