(* ===== verification/IdeInit.v ===== *)
(** The disk interface at start, src/sysvm/hw/ide.c: the geometry of a drive from its
    image ([guess_disk_lchs], [ide_init2]), and the interface the kernel's driver finds.

    The hints of an image ([bdrv_get_geometry_hint] and the others of block.c) are
    kept beside it.  [sector_list] is the image as the interface of Ide sees it.  Compact discs are not modelled. *)
From S2P Require Import Prelude LibC Layout Device I8259 Port Irq QTimer Hda Ide IdePio HdaIde HdaInit QFile Block BlockView.

Definition BIOS_ATA_TRANSLATION_AUTO : Z := 0.
Definition BIOS_ATA_TRANSLATION_NONE : Z := 1.
Definition BIOS_ATA_TRANSLATION_LBA : Z := 2.
Definition BIOS_ATA_TRANSLATION_LARGE : Z := 3.

Record hints := Hints { g_cyls : Z; g_heads : Z; g_secs : Z; g_translation : Z }.
(** [bdrv_set_geometry_hint] and [bdrv_set_translation_hint] *)
Definition bdrv_set_geometry_hint (cyls heads secs : Z) (h : hints) : hints := Hints cyls heads secs (g_translation h).
Definition bdrv_set_translation_hint (translation : Z) (h : hints) : hints :=
  Hints (g_cyls h) (g_heads h) (g_secs h) translation.

(** The fields of entry [i] of the partition table. *)
Definition partition_at (i : Z) : Z := 0x1be + 16 * i.
Definition le32_at (buf : list Z) (a : Z) : Z :=
  at_ buf a + 2 ^ 8 * at_ buf (a + 1) + 2 ^ 16 * at_ buf (a + 2) + 2 ^ 24 * at_ buf (a + 3).
Definition end_head (buf : list Z) (i : Z) : Z := at_ buf (partition_at i + 5).
Definition end_sector (buf : list Z) (i : Z) : Z := at_ buf (partition_at i + 6).
Definition nr_sects (buf : list Z) (i : Z) : Z := le32_at buf (partition_at i + 12).

(** [guess_disk_lchs(s, ...)]: cylinders, heads and sectors, if it can tell. *)
Fixpoint guess_loop (buf : list Z) (nb_sectors : Z) (l : list Z) : option (Z * Z * Z) :=
  match l with
  | [] => None
  | i :: l =>
      if negb (nr_sects buf i =? 0) && negb (end_head buf i =? 0) then
        let heads := end_head buf i + 1 in
        let sectors := Z.land (end_sector buf i) 63 in
        if sectors =? 0 then guess_loop buf nb_sectors l else
        let cylinders := s32 (Z.quot nb_sectors (heads * sectors)) in
        if (cylinders <? 1) || (16383 <? cylinders) then guess_loop buf nb_sectors l
        else Some (cylinders, heads, sectors)
      else guess_loop buf nb_sectors l
  end.
Definition guess_disk_lchs (bs : BlockDriverState) (nb_sectors : Z) : option (option (Z * Z * Z)) :=
  r ← bdrv_read bs 0 1; let '(e, buf) := (r : Z * list Z) in
  if e <? 0 then Some None else
  if negb (at_ buf 510 =? 0x55) || negb (at_ buf 511 =? 0xaa) then Some None else
  Some (guess_loop buf nb_sectors [0; 1; 2; 3]).

(** A drive with its image in [ide_init2]: the geometry, [lba_detected] afterwards and
    the hints. *)
Definition default_cylinders (nb_sectors : Z) : Z :=
  let cylinders := s32 (Z.quot nb_sectors (16 * 63)) in
  if 16383 <? cylinders then 16383 else if cylinders <? 2 then 2 else cylinders.
Definition default_geometry (nb_sectors lba_detected : Z) (h : hints) : Z * Z * Z * Z * hints :=
  let cylinders := default_cylinders nb_sectors in
  let h' := if (lba_detected =? 1) && (g_translation h =? BIOS_ATA_TRANSLATION_AUTO) then
              bdrv_set_translation_hint
                (if cylinders * 16 <=? 131072 then BIOS_ATA_TRANSLATION_LARGE else BIOS_ATA_TRANSLATION_LBA) h
            else h in
  (cylinders, 16, 63, lba_detected, bdrv_set_geometry_hint cylinders 16 63 h').
Definition choose_geometry (bs : BlockDriverState) (h : hints) (lba_detected : Z) : option (Z * Z * Z * Z * hints) :=
  let nb_sectors := bdrv_get_geometry bs in
  if negb (g_cyls h =? 0) then Some (g_cyls h, g_heads h, g_secs h, lba_detected, h) else
  g ← guess_disk_lchs bs nb_sectors;
  match g with
  | None => Some (default_geometry nb_sectors lba_detected h)
  | Some (cylinders, heads, secs) =>
      if 16 <? heads then Some (default_geometry nb_sectors 1 h) else
      let h' := if g_translation h =? BIOS_ATA_TRANSLATION_AUTO then bdrv_set_translation_hint BIOS_ATA_TRANSLATION_NONE h else h in
      Some (cylinders, heads, secs, lba_detected, bdrv_set_geometry_hint cylinders heads secs h')
  end.

(** The sectors the interface works on. *)
Definition sector_list (bs : BlockDriverState) : list (list Z) :=
  map (fun i => sectors_of (view bs) i 1) (seqZ 0 (bdrv_get_geometry bs)).
(** A drive as allocated, with its geometry, image and serial number. *)
Definition new_drive (C H S nb_sectors serial : Z) (img : option (list (list Z))) : IDEState :=
  MkIDE C H S nb_sectors serial img 0 0 (replicate 512 0) 0 0 (MkRegs 0 0 0 0 0 0 0 0 0 0 0 0 0)
    (MkPio 0 TransferStop 0 0 (replicate (Z.to_nat 8196) 0) 0 0).
Definition set_drive (u : bool) (s : IDEState) (w : ide) : ide :=
  if u then MkIf (if0 w) s (cur_drive w) (irq_line w) else MkIf s (if1 w) (cur_drive w) (irq_line w).
(** A turn of the loop of [ide_init2] ([drive_serial] counts the drives), and both;
    the hints of the images afterwards. *)
Definition init_drive (u : bool) (hd : option (BlockDriverState * hints)) (lba_detected drive_serial : Z) : M ide (Z * option hints) :=
  match hd with
  | Some (bs, h) =>
      g <- of_option OutOfBounds (choose_geometry bs h lba_detected) ;;
      let '(cylinders, heads, sectors, lba_detected, h) := (g : Z * Z * Z * Z * hints) in
      modify (set_drive u (new_drive cylinders heads sectors (bdrv_get_geometry bs) drive_serial (Some (sector_list bs)))) ;;;
      ide_reset u ;;;
      ret (lba_detected, Some h)
  | None =>
      modify (set_drive u (new_drive 0 0 0 0 drive_serial None)) ;;;
      ide_reset u ;;;
      ret (lba_detected, None)
  end.
Definition ide_init2 (hd0 hd1 : option (BlockDriverState * hints)) (drive_serial : Z) : M ide (option hints * option hints) :=
  r <- init_drive false hd0 0 drive_serial ;;
  r1 <- init_drive true hd1 (fst r) (drive_serial + 1) ;;
  ret (snd r, snd r1).
(** The interface as allocated. *)
Definition new_ide : ide := MkIf (new_drive 0 0 0 0 0 None) (new_drive 0 0 0 0 0 None) false 0.

(** * The geometry *)

(** An image as it is opened. *)
Record opened_image (bs : BlockDriverState) : Prop := Opened {
  oi_complete : complete bs;
  oi_size : bdrv_get_geometry bs = total_sectors bs
}.

Lemma guess_loop_ok buf nb l C H S : Forall is_u8 buf -> 0 <= nb < 2 ^ 31 -> guess_loop buf nb l = Some (C, H, S) ->
  1 <= C <= 16383 /\ 2 <= H <= 256 /\ 1 <= S <= 63 /\ C * H * S <= nb < (C + 1) * H * S.
Proof.
  intros Hu Hnb. induction l as [|i l IH]; cbn [guess_loop]; [done|].
  destruct (negb (nr_sects buf i =? 0) && negb (end_head buf i =? 0)) eqn:Et; [|done].
  set (sectors := Z.land (end_sector buf i) 63). assert (0 <= sectors < 64) as Hs.
  { unfold sectors. change 63 with (Z.ones 6). rewrite Z.land_ones by lia. apply Z.mod_pos_bound. lia. }
  destruct (Z.eqb_spec sectors 0) as [|H0]; [done|]. assert (is_u8 (end_head buf i)) as Hh by by apply at_u8.
  apply andb_true_iff in Et as [_ Et]. rewrite negb_true_iff, Z.eqb_neq in Et. unfold is_u8 in Hh.
  set (heads := end_head buf i + 1) in *. assert (0 < heads * sectors) as Hp by nia. rewrite Z.quot_div_nonneg by lia.
  assert (0 <= nb / (heads * sectors) < 2 ^ 31) as Hq by (split; [by apply Z.div_pos; lia|apply Z.div_lt_upper_bound; nia]).
  rewrite s32_small by (unfold is_s32; lia).
  destruct (Z.ltb_spec (nb / (heads * sectors)) 1), (Z.ltb_spec 16383 (nb / (heads * sectors))); cbn [orb]; try done.
  intros [= <- <- <-]. split; [lia|]. split; [unfold heads; lia|]. split; [lia|].
  rewrite <- !Z.mul_assoc, !(Z.mul_comm _ (heads * sectors)). split; [by apply Z.mul_div_le|]. by apply Z.mul_succ_div_gt.
Qed.
Lemma default_cylinders_ok nb : 0 <= nb < 2 ^ 31 -> 2 <= default_cylinders nb <= 16383 /\
  (2016 <= nb -> default_cylinders nb * 16 * 63 <= nb) /\ (nb < 2016 -> default_cylinders nb = 2) /\
  (nb < (default_cylinders nb + 1) * 16 * 63 \/ default_cylinders nb = 16383).
Proof.
  intros Hnb. unfold default_cylinders. change (16 * 63) with 1008. rewrite Z.quot_div_nonneg, s32_small by (lia || (unfold is_s32; Z.div_mod_to_equations; lia)).
  destruct (Z.ltb_spec 16383 (nb / 1008)), (Z.ltb_spec (nb / 1008) 2); Z.div_mod_to_equations; lia.
Qed.

Lemma first_sector_u8 bs : complete bs -> Forall is_u8 (sectors_of (view bs) 0 1).
Proof. intros Hc. apply Forall_forall. intros x (k & -> & _)%list_elem_of_fmap. by apply view_u8. Qed.

(** The bounds the start of the machine relies on. *)
Definition geometry_fits (nb C H S : Z) : Prop :=
  1 <= C <= 16383 /\ 1 <= H <= 16 /\ 1 <= S <= 63 /\ (C * H * S <= nb \/ nb < 2016 /\ (C, H, S) = (2, 16, 63)) /\
  (nb < (C + 1) * H * S \/ C = 16383 /\ H = 16 /\ S = 63).
Lemma default_fits nb lba h : 0 <= nb < 2 ^ 31 -> exists h',
  default_geometry nb lba h = (default_cylinders nb, 16, 63, lba, h') /\ g_cyls h' = default_cylinders nb /\ g_heads h' = 16 /\
  g_secs h' = 63 /\ geometry_fits nb (default_cylinders nb) 16 63.
Proof.
  intros Hnb. eexists. split; [reflexivity|]. split; [done|]. split; [done|]. split; [done|].
  destruct (default_cylinders_ok nb Hnb) as (H1 & H2 & H3 & H4). split; [lia|]. split; [lia|]. split; [lia|]. split.
  - destruct (decide (2016 <= nb)); [left; auto|right]. split; [lia|]. by rewrite H3 by lia.
  - destruct H4; [by left|by right].
Qed.
Lemma choose_geometry_ok bs h lba : opened_image bs -> 0 < total_sectors bs < 2 ^ 31 -> g_cyls h = 0 ->
  exists C H S lba' h', choose_geometry bs h lba = Some (C, H, S, lba', h') /\ geometry_fits (total_sectors bs) C H S /\
    g_cyls h' = C /\ g_heads h' = H /\ g_secs h' = S.
Proof.
  intros [Hc Ht] Hn Hg. unfold choose_geometry. rewrite Hg, Ht. change (negb (0 =? 0)) with false. cbv iota.
  unfold guess_disk_lchs. rewrite bdrv_read_ok by (done || lia). cbn [mbind option_bind]. change (0 <? 0) with false. cbv iota.
  pose proof (first_sector_u8 bs Hc) as Hu. set (buf := sectors_of _ _ _) in *.
  assert (forall lba, exists C H S lba' h', Some (default_geometry (total_sectors bs) lba h) = Some (C, H, S, lba', h') /\
    geometry_fits (total_sectors bs) C H S /\ g_cyls h' = C /\ g_heads h' = H /\ g_secs h' = S) as Hdef.
  { intros lba0. destruct (default_fits (total_sectors bs) lba0 h) as (h' & -> & E1 & E2 & E3 & Hf); [lia|]. eauto 12. }
  destruct (negb (at_ buf 510 =? 0x55) || negb (at_ buf 511 =? 0xaa)); [apply Hdef|]. cbn [mbind option_bind].
  destruct (guess_loop buf (total_sectors bs) [0; 1; 2; 3]) as [[[C H] S]|] eqn:E; [|apply Hdef].
  apply guess_loop_ok in E as (H1 & H2 & H3 & H4); [|done|lia]. destruct (Z.ltb_spec 16 H); [apply Hdef|].
  do 5 eexists. split; [reflexivity|]. split; [|done]. split; [lia|]. split; [lia|]. split; [lia|]. split; left; lia.
Qed.

(** * The interface at start *)

(** A drive after [ide_reset]. *)
Definition reset_regs (s : IDEState) : regs :=
  let c := match d_bs s with Some _ => 0 | None => 0xff end in
  w_hcyl c (w_lcyl c (w_sector 1 (w_nsector 1 (w_status READY_STAT (w_select 0xa0 (d_regs s)))))).
Definition reset_drive (s : IDEState) : IDEState :=
  w_pio (w_io_buffer ([0xff; 0xff; 0xff; 0xff] ++ drop 4 (p_io_buffer (d_pio s))) (point_at 0 DummyTransferStop (d_pio s)))
    (w_regs (reset_regs s) (w_mult_sectors MAX_MULT_SECTORS s)).
Definition after_reset (u : bool) (w : ide) : ide :=
  set_drive u (reset_drive (drive u w)) (if u then w else MkIf (if0 w) (if1 w) false (irq_line w)).

Lemma dupd_ok u f w : dupd u f w = Ok tt (set_drive u (f (drive u w)) w).
Proof. by destruct u. Qed.
Lemma drive_set u s w : drive u (set_drive u s w) = s.
Proof. by destruct u. Qed.
Lemma set_set u s s' w : set_drive u s (set_drive u s' w) = set_drive u s w.
Proof. by destruct u. Qed.
Lemma ide_reset_ok u w : 4 <= Z.of_nat (length (p_io_buffer (d_pio (drive u w)))) -> ide_reset u w = Ok tt (after_reset u w).
Proof.
  intros Hl. unfold ide_reset, ide_dummy_transfer_stop, set_status, ide_set_signature, fill_buffer.
  rewrite (bind_ok _ _ _ _ _ (dupd_ok _ _ _)).
  set (s1 := w_mult_sectors _ _). set (w1 := if u then w else MkIf (if0 w) (if1 w) false (irq_line w)).
  rewrite (bind_ok _ _ _ tt (set_drive u s1 w1)) by (by destruct u).
  rewrite !(bind_ok _ _ _ _ _ (dupd_ok _ _ _)), !set_set, !drive_set.
  unfold dget. rewrite bind_gets, drive_set.
  rewrite memcpy_spec by (cbn; cbn in Hl; lia). cbn [of_option]. msteps.
  rewrite dupd_ok, set_set, drive_set. reflexivity.
Qed.

Lemma sector_list_length bs : opened_image bs -> 0 <= total_sectors bs -> Z.of_nat (length (sector_list bs)) = total_sectors bs.
Proof. intros [_ Ht] Hn. unfold sector_list. rewrite length_map, length_seqZ, Ht. lia. Qed.
Lemma sector_list_at bs k : opened_image bs -> 0 <= k < total_sectors bs -> sector_list bs !! Z.to_nat k = Some (sectors_of (view bs) k 1).
Proof.
  intros [_ Ht] Hk. unfold sector_list. rewrite list_lookup_fmap, lookup_seqZ_lt by lia. cbn. do 2 f_equal. lia.
Qed.
Lemma sector_list_wf bs C H S : opened_image bs -> 0 < total_sectors bs <= 65535 * 16 * 63 -> geometry_fits (total_sectors bs) C H S ->
  wf_image H S (sector_list bs).
Proof.
  intros Ho Hn (HC & HH & HS & _ & Hu). pose proof Ho as [Hc _]. split.
  - apply Forall_forall. intros x (i & -> & _)%list_elem_of_fmap. split.
    + unfold sectors_of. by rewrite length_map, length_seqZ.
    + apply Forall_forall. intros x (k & -> & _)%list_elem_of_fmap. by apply view_u8.
  - rewrite sector_list_length by (done || lia). destruct Hu as [Hu|(-> & -> & ->)]; [|lia].
    assert (0 < H * S) by nia. assert ((C + 1) * (H * S) <= 65535 * (H * S)) by (apply Z.mul_le_mono_nonneg_r; lia). lia.
Qed.

(** The list of sectors is the image: the transfers of the interface are the ones of
    the block layer. *)
Lemma sector_list_drop bs i : opened_image bs -> (Z.of_nat i < total_sectors bs) ->
  drop i (sector_list bs) = sectors_of (view bs) (Z.of_nat i) 1 :: drop (S i) (sector_list bs).
Proof. intros Ho Hi. apply drop_S. rewrite <- (Nat2Z.id i) at 1. apply sector_list_at; [done|lia]. Qed.
Lemma sector_list_take bs n : forall i, opened_image bs -> Z.of_nat (i + n) <= total_sectors bs ->
  concat (take n (drop i (sector_list bs))) = sectors_of (view bs) (Z.of_nat i) (Z.of_nat n).
Proof.
  induction n as [|n IH]; intros i Ho Hn; [done|]. rewrite sector_list_drop by (done || lia). cbn [take concat].
  rewrite IH by (done || lia). replace (Z.of_nat (S i)) with (Z.of_nat i + 1) by lia. rewrite sectors_app by lia. f_equal. lia.
Qed.
Lemma write_opened bs a n buf bs' : opened_image bs -> 0 <= a -> 0 <= n < 2 ^ 22 -> a + n <= total_sectors bs ->
  Z.of_nat (length buf) = 512 * n -> bdrv_write bs a buf n = Some (0, bs') -> written bs bs' (512 * a) buf -> opened_image bs'.
Proof.
  intros [Hc Ht] Ha Hn Hl Hb E [C T _ _ _ _]. split; [done|]. rewrite T, <- Ht. clear C T.
  destruct bs as [ro total boot [|file|s backing]]; [done| |].
  - destruct Hc as (_ & _ & Hf & _). unfold bdrv_write in E. cbn [drv read_only boot_sector total_sectors] in *. destruct ro; [done|].
    unfold raw_pwrite in E. rewrite s32_small, fwrite_at_Some, (take_ge buf (Z.to_nat (n * 512))) in E by (unfold is_s32; lia). cbn [mbind option_bind] in E.
    injection E as _ <-. unfold bdrv_get_geometry, bdrv_getlength. cbn [set_drv drv]. rewrite length_splice by lia.
    by rewrite Nat.max_l by lia.
  - unfold bdrv_write in E. cbn [drv read_only boot_sector] in E. destruct ro; [done|].
    destruct (cow_write s a buf n) as [[e s']|]; [|done]. cbn [mbind option_bind] in E. injection E as _ <-.
    unfold bdrv_get_geometry, bdrv_getlength. by destruct boot; [destruct (_ && _)|].
Qed.
Lemma sectors_of_at f a n k : 0 <= k < n -> take 512 (drop (512 * Z.to_nat k) (sectors_of f a n)) = sectors_of f (a + k) 1.
Proof.
  intros Hk. replace n with (k + (1 + (n - k - 1))) by lia. rewrite <- !sectors_app by lia.
  rewrite drop_app_length', take_app_length'; [done|..]; unfold sectors_of; rewrite length_map, length_seqZ; lia.
Qed.

Lemma sectors_of_buf buf a n : Z.of_nat (length buf) = 512 * n -> buf = sectors_of (fun j => at_ buf (j - 512 * a)) a n.
Proof.
  intros Hb. apply list_eq. intros i. unfold sectors_of. rewrite list_lookup_fmap. destruct (decide (Z.of_nat i < 512 * n)).
  - rewrite lookup_seqZ_lt by lia. cbn. replace (512 * a + Z.of_nat i - 512 * a) with (Z.of_nat i) by lia. unfold at_. rewrite Nat2Z.id.
    by destruct (lookup_lt_is_Some_2 buf i ltac:(lia)) as [x ->].
  - by rewrite lookup_seqZ_ge, lookup_ge_None_2 by lia.
Qed.

(** What the interface reads and writes is the image of the block layer, raw or
    copy-on-write: a transfer within the disk gives the same bytes as [bdrv_read] of
    block.c on the image, and leaves the sectors of the image [bdrv_write] leaves. *)
Theorem sector_list_refines bs a n buf :
  opened_image bs -> read_only bs = false -> 0 <= a -> 0 <= n < 2 ^ 22 -> a + n <= total_sectors bs ->
  Z.of_nat (length buf) = 512 * n -> Forall is_u8 buf ->
  (exists bytes, bdrv_read bs a n = Some (0, bytes) /\ Ide.bdrv_read (sector_list bs) a n = Some bytes) /\
  exists bs', bdrv_write bs a buf n = Some (0, bs') /\ opened_image bs' /\
    Ide.bdrv_write (sector_list bs) a buf n = Some (sector_list bs').
Proof.
  intros Ho Hro Ha Hn Hl Hb Hu. pose proof Ho as [Hc Ht]. pose proof (sector_list_length bs Ho ltac:(lia)) as Hlen. split.
  - rewrite bdrv_read_ok by done. eexists. split; [reflexivity|]. unfold Ide.bdrv_read. rewrite decide_True by lia. f_equal.
    rewrite sector_list_take by (done || lia). f_equal; lia.
  - destruct (bdrv_write_ok bs a n buf Hc Hro Ha Hn Hl Hb Hu) as (bs' & E & W). pose proof (write_opened _ _ _ _ _ Ho Ha Hn Hl Hb E W) as Ho'.
    exists bs'. split; [done|]. split; [done|]. unfold Ide.bdrv_write. rewrite decide_True by lia. f_equal.
    pose proof W as [_ T _ _ _ V]. assert (forall k, 0 <= k < total_sectors bs -> sectors_of (view bs') k 1 =
      if decide (a <= k < a + n) then take 512 (drop (512 * Z.to_nat (k - a)) buf) else sectors_of (view bs) k 1) as Hs.
    { intros k Hk. case_decide as Hin.
      - set (f j := at_ buf (j - 512 * a)). transitivity (sectors_of f k 1).
        { apply sectors_ext. intros j Hj. rewrite V by lia. unfold patched. by rewrite decide_True by lia. }
        rewrite (sectors_of_buf buf a n) by done. fold f. rewrite sectors_of_at by lia. f_equal. lia.
      - apply sectors_ext. intros j Hj. rewrite V by lia. unfold patched. by rewrite decide_False by lia. }
    apply list_eq. intros i. rewrite write_sectors_lookup by lia.
    destruct (decide (Z.of_nat i < total_sectors bs)) as [Hi|Hi].
    + rewrite <- (Nat2Z.id i), !sector_list_at, Hs by (done || lia). repeat case_decide; try lia; [|done]. by do 3 f_equal; lia.
    + rewrite decide_False, !lookup_ge_None_2 by (pose proof (sector_list_length bs' Ho'); lia). done.
Qed.
(** A drive without an image, or an image without a geometry hint. *)
Definition unhinted (hd : option (BlockDriverState * hints)) : Prop :=
  match hd with Some (bs, h) => opened_image bs /\ 0 < total_sectors bs < 2 ^ 31 /\ g_cyls h = 0 | None => True end.
Definition initial (u : bool) (s : IDEState) (w : ide) : ide := after_reset u (set_drive u s w).

Lemma reset_new u C H S nb serial img w :
  ide_reset u (set_drive u (new_drive C H S nb serial img) w) = Ok tt (initial u (new_drive C H S nb serial img) w).
Proof. apply ide_reset_ok. by destruct u. Qed.
Lemma init_drive_some u bs h lba serial w : unhinted (Some (bs, h)) -> exists C H S lba' h',
  init_drive u (Some (bs, h)) lba serial w =
    Ok (lba', Some h') (initial u (new_drive C H S (total_sectors bs) serial (Some (sector_list bs))) w) /\
  geometry_fits (total_sectors bs) C H S /\ g_cyls h' = C /\ g_heads h' = H /\ g_secs h' = S.
Proof.
  intros (Ho & Hn & Hh). destruct (choose_geometry_ok bs h lba Ho Hn Hh) as (C & H & S & lba' & h' & E & Hg).
  exists C, H, S, lba', h'. split; [|exact Hg]. unfold init_drive. rewrite E. cbn [of_option]. msteps.
  rewrite (oi_size bs Ho), (bind_ok _ _ _ _ _ (reset_new u C H S _ serial _ w)). reflexivity.
Qed.
Lemma init_drive_any u hd lba serial w : unhinted hd -> exists r s, init_drive u hd lba serial w = Ok r (initial u s w).
Proof.
  destruct hd as [[bs h]|]; intros Hu.
  - destruct (init_drive_some u bs h lba serial w Hu) as (C & H & S & lba' & h' & E & _). rewrite E. by do 2 eexists.
  - unfold init_drive. msteps. rewrite (bind_ok _ _ _ _ _ (reset_new u 0 0 0 0 serial None w)). by do 2 eexists.
Qed.

Lemma initial_powered_on C H S nb serial img s w : wf_image H S img ->
  powered_on C H S (initial true s (initial false (new_drive C H S nb serial (Some img)) w)) img.
Proof. intros Hw. by split; [split| | | |]. Qed.

(** C21: the disk file given to the machine becomes the disk of the kernel.
    [ide_init2] terminates on any pair of images without geometry hints, whatever is in
    their boot sectors; the geometry of the first drive has 1 to 16383 cylinders, 1 to
    16 heads and 1 to 63 sectors, covers no more than the image (an image of less than
    two default cylinders apart) and leaves less than a cylinder unused below the limit
    of 16383, and is what the hint says afterwards.  If the second sector of the image
    is an MFS super block reaching to the end of that geometry, [hda_init] of the
    kernel reads the geometry back from the drive and enters the file system as the
    first partition, on the sectors of the image. *)
Theorem disk_file_detected bs h hd1 serial :
  unhinted (Some (bs, h)) -> unhinted hd1 -> 1 < total_sectors bs <= 65535 * 16 * 63 ->
  exists C H S h0 r1 w, ide_init2 (Some (bs, h)) hd1 serial new_ide = Ok (Some h0, r1) w /\
    geometry_fits (total_sectors bs) C H S /\ g_cyls h0 = C /\ g_heads h0 = H /\ g_secs h0 = S /\
    forall fuel d l e0 p1 parts, let sb := sectors_of (view bs) 1 1 in
      machine d = w -> aset (irq_handler (h_io d)) 14 (Some HDA_INTR) = Some l -> h_parts d = e0 :: p1 :: parts ->
      256 <= Z.of_nat fuel -> 2 < C * H * S -> take 3 sb = [77; 70; 83] -> C * H * S <= last_sector sb < 2 ^ 31 - 1 ->
      exists d', hda_init line_irq fuel d = Ok 0 d' /\ driver_ok C H S d' (sector_list bs) /\
        h_parts d' = Part 2 (last_sector sb) :: Part (last_sector sb + 1) (p_end p1) :: parts.
Proof.
  intros Hu Hu1 Hn. destruct (init_drive_some false bs h 0 serial new_ide Hu) as (C & H & S & lba & h0 & E & Hf & Hg).
  set (w0 := initial false _ new_ide) in E. destruct (init_drive_any true hd1 lba (serial + 1) w0 Hu1) as (r & s & E1).
  exists C, H, S, h0, (snd r), (initial true s w0). split.
  { unfold ide_init2. rewrite (bind_ok _ _ _ _ _ E). cbn [fst snd]. by rewrite (bind_ok _ _ _ _ _ E1). }
  split; [exact Hf|]. destruct Hg as (-> & -> & ->). split_and!; [done..|].
  intros fuel d l e0 p1 parts sb Hd Hl Hp Hfuel Hchs Hm Hlast. destruct Hu as (Ho & _ & _).
  apply (hda_init_ok C H S) with l e0; try done.
  - destruct Hf as (? & ? & ? & _). unfold geom_ok. lia.
  - rewrite Hd. apply initial_powered_on, (sector_list_wf bs C); [done|lia|done].
  - apply (sector_list_at bs 1 Ho). lia.
Qed.

(** A file of two sectors, the second the super block of blocks 1 to 1007. *)
Definition disk_file : list Z :=
  replicate 512 0 ++ take 512 (encode_sblk (Sblk [77; 70; 83; 0] 1 1 2 1 3 1 4 1 5 1003 1024) ++ replicate 512 0).
Definition disk_of_file : BlockDriverState := MkBs false 2 None (RawDriver disk_file).
Definition kernel_on (w : ide) : hda ide :=
  Hda (HdaStat 0 0 0 0 0 0 0 0 0) (replicate 8 (Part 0 0)) (MkIrq [] (replicate 16 None) None true w).
Lemma disk_of_file_unhinted : unhinted (Some (disk_of_file, Hints 0 0 0 0)).
Proof.
  split; [|done]. split; [|by vm_compute]. split; [done|]. split; [done|]. split; [by vm_compute|].
  apply Forall_app. split; [apply Forall_replicate; by unfold is_u8|].
  apply Forall_take, Forall_app. split; [repeat constructor; by vm_compute|apply Forall_replicate; by unfold is_u8].
Qed.

Lemma sector_list_refines_witness :
  exists bs', bdrv_write disk_of_file 1 (replicate 512 7) 1 = Some (0, bs') /\
    Ide.bdrv_write (sector_list disk_of_file) 1 (replicate 512 7) 1 = Some (sector_list bs').
Proof.
  destruct (sector_list_refines disk_of_file 1 1 (replicate 512 7)) as (_ & bs' & E & _ & H).
  - apply disk_of_file_unhinted.
  - exact eq_refl.
  - lia.
  - lia.
  - by vm_compute.
  - exact eq_refl.
  - apply Forall_replicate. by unfold is_u8.
  - exists bs'. split; [exact E|exact H].
Defined.
Lemma disk_file_detected_witness :
  exists r w d', ide_init2 (Some (disk_of_file, Hints 0 0 0 0)) None 1 new_ide = Ok r w /\
    hda_init line_irq 256 (kernel_on w) = Ok 0 d' /\ driver_ok 2 16 63 d' (sector_list disk_of_file) /\
    h_parts d' = Part 2 2016 :: Part 2017 0 :: replicate 6 (Part 0 0).
Proof.
  destruct (disk_file_detected disk_of_file (Hints 0 0 0 0) None 1 disk_of_file_unhinted I) as
    (C & H & S & h0 & r1 & w & E & _ & HC & HH & HS & Hd); [by vm_compute|].
  assert (match ide_init2 (Some (disk_of_file, Hints 0 0 0 0)) None 1 new_ide with
          | Ok (Some h, _) _ => (g_cyls h, g_heads h, g_secs h) | _ => (0, 0, 0) end = (2, 16, 63)) as E1 by by vm_compute.
  rewrite E, HC, HH, HS in E1. injection E1 as -> -> ->.
  destruct (Hd 256%nat (kernel_on w) (<[14%nat := Some HDA_INTR]> (replicate 16 None)) (Part 0 0) (Part 0 0) (replicate 6 (Part 0 0)))
    as (d' & E2 & Hok & Hp); [exact eq_refl|exact eq_refl|exact eq_refl|lia|lia|vm_compute; exact eq_refl|by vm_compute|].
  exists (Some h0, r1), w, d'. split; [exact E|]. split; [exact E2|]. split; [exact Hok|]. rewrite Hp. vm_compute. exact eq_refl.
Defined.

(** [lba_detected] is set once for both drives: an image of the second drive whose boot
    sector says nothing gets the translation of the first. *)
Definition boot_record (end_head : Z) : list Z :=
  <[510%nat := 0x55]> (<[511%nat := 0xaa]> (<[451%nat := end_head]> (<[452%nat := 1]> (<[458%nat := 1]> (replicate 512 0))))).
Lemma translation_leaks :
  let bs n file := MkBs false n None (RawDriver file) in let h := Hints 0 0 0 0 in
  let hint first := match ide_init2 (Some (bs 17 (first ++ replicate (Z.to_nat 8192) 0), h)) (Some (bs 1 (replicate 512 0), h)) 1 new_ide with
              | Ok (_, Some h1) _ => Some (g_translation h1) | _ => None end in
  (hint (replicate 512 0), hint (boot_record 16)) = (Some BIOS_ATA_TRANSLATION_AUTO, Some BIOS_ATA_TRANSLATION_LARGE).
Proof. vm_compute. reflexivity. Qed.
